(* ===== verification/_CoqProject ===== *)
-Q . S2P
Prelude.v
PyText.v
PyFloat.v
PyTime.v
PyValue.v
Sha256.v
Canonical.v
Rewards.v
PokerResults.v
Evidence.v
HandHistory.v
Hud.v
Repository.v
RepositoryFacts.v
HandStores.v
Forecast.v
RewardRows.v
ChainAdapter.v
Protobuf.v
TxEncoding.v
TxFacts.v
Json.v
ChainClient.v
ClientFacts.v
Broadcasts.v
Economic.v
EconomicFacts.v
Paging.v
RewardTotals.v
Miners.v
Submissions.v
Settlement.v
Windows.v
PokerWindow.v
Tournaments.v
TournamentFacts.v
TournamentRecords.v
EvidenceFacts.v
Queries.v
MarketData.v
MarketFacts.v
Service.v
Anchors.v
Footprint.v
Protocol.v
Handlers.v
Accounting.v
Holds.v
Settled.v
AnchorFacts.v
Roots.v
Cases.v
QueryFacts.v
Published.v
Config.v
CryptoAuth.v
CryptoFacts.v
Schemas.v
Health.v
Server.v
ServerFacts.v
ProjectionFacts.v
HealthFacts.v
ServerRuns.v
Preserve.v
Identity.v
ProtocolRuns.v
Ledgers.v
ProjectionRuns.v
Mine.v
MineFacts.v
Standings.v
WalletCrypto.v
WalletFacts.v
Setup.v
SetupFacts.v
RuntimeProjection.v
RuntimeFacts.v
