(* ===== verification/Prelude.v ===== *)
(** * ClawChain mining service: verification development

    The program.  ClawChain's mining service (Python, src/mining-service/) runs
    the forecast lanes: miners register, commit to a probability, reveal it; a
    reconcile loop publishes the scheduled tasks, settles the due ones, splits
    the rewards between balances and holds, collects settled tasks and
    tournament results in reward windows, and keeps a settlement batch for each
    window.  A batch is published under a canonical root, submitted as an anchor
    job, broadcast and confirmed on the chain.  Around it are the canonical
    hashing that roots are built from, the poker tournament (MTT) results,
    evidence, hand history and HUD projections, and the in-memory repository
    that keeps every row.

    Values and effects.  Rows are Python dicts of dynamic values: an
    insertion-ordered association list over [PyValue.value].  An operation that
    may raise returns [res]; an operation on the repository is a function of
    type [st repository], which returns the new store also when it raises, as
    the code keeps the writes made before an exception.  deepcopy is the
    identity on values.  A coroutine runs to its end before the next one: the
    in-memory repository never suspends.  Exceptions are values of [exn];
    [Unmodelled] is returned where an input leaves the described part of the
    standard library (IPv6 text, strings outside Latin-1, formats that the code
    never writes), and no theorem claims anything there.

    Numbers.  ints are [Z]; floats are the binary64 of the Standard Library's
    SpecFloat with Python's conversions and rounding written out ([x ** 2] is the
    product [x * x]); a datetime is its number of microseconds in UTC.  SHA-256
    is computed, not assumed: where a theorem needs that two texts are equal, its
    conclusion says "or here is a collision".

    The files, in order.
    - Prelude: exceptions, the two monads, dicts, lists, tactics, hints.
    - PyText, PyFloat, PyTime, PyValue: the parts of Python the code uses.
    - Sha256, Canonical: hashlib's digest and canonical.py.
    - Rewards: rewards.py.  PokerResults: poker_mtt_results.py.  Evidence:
      poker_mtt_evidence.py.  HandHistory: poker_mtt_history.py.  Hud:
      poker_mtt_hud.py.
    - Repository, RepositoryFacts: the tables and queries of repository.py;
      HandStores: its hand-event methods against those of HandHistory.
    - Forecast: the settings and pure rules of forecast_engine.py.
    - RewardRows: the rows, roots, pages and payloads of windows and batches
      (forecast_engine.py 671-1147, 1236-1306).
    - The chain adapter (chain_adapter.py).  ChainAdapter: its plans and the
      confirmation.  Protobuf, TxEncoding, TxFacts: the typed transaction, its
      Protobuf encoding and what the signed bytes say.  Json: the JSON that the
      node and the binary answer with.  ChainClient, ClientFacts: commands, RPC
      calls, keys and confirmations over the record [ChainTools] of what the
      adapter asks of the outside.  Broadcasts: how often a transaction is sent.
    - Economic, EconomicFacts: compute_economic_unit_components.
    - Miners: cluster refresh, risk cases, anti-abuse, participation.
    - Submissions: commit_submission and reveal_submission.
    - Settlement: _settle_due_tasks, _settle_due_daily_tasks,
      _release_matured_holds.  The task provider of the service is the record
      [TaskProvider], an argument.
    - Windows: _build_reward_windows, _build_settlement_batches and their
      artifacts.  PokerWindow: build_poker_mtt_reward_window with its budget,
      multipliers and reputation rows.
    - Tournaments, TournamentFacts: the results, projections and hidden
      evaluation of a tournament.  TournamentRecords, EvidenceFacts: its evidence
      manifests, the ingestion of hands, ratings and the old arena.
    - Queries: the views of the service and the decisions of operators.
    - MarketData, MarketFacts: the synthetic, the live and the hybrid provider of
      market_data.py over the record [HttpClient].
    - Service: [ForecastMiningService] with register_miner, the schedule,
      reconcile and rebuild_reward_window.  Its chain clients are the record
      [Service.ChainClient], an argument.
    - Anchors: retry_anchor_settlement_batch, submit_anchor_job, the broadcasts,
      confirm_anchor_job_on_chain, the ends of a job.  A handler that starts
      with reconcile is split in two definitions, the second being the rest.
    - Paging, RewardTotals, AnchorFacts, Roots, Published: their theorems.
    - Footprint: which tables an operation may write.  Protocol: what the
      handlers and the settlement do to submissions.  Handlers, Accounting,
      Holds, Settled, Cases, QueryFacts: theorems about the handlers together.
    - Config: config.py.  CryptoAuth, CryptoFacts: the addresses, signatures and
      nonces of crypto_auth.py.
    - The HTTP server.  Schemas: the bodies of the requests and the validator of
      schemas.py.  Health: the loops, metrics and reports of server.py.  Server:
      its settings, middleware and handlers; [Server.Endpoint] lists the routes,
      [Server.serve] takes a request to its handler.  ServerFacts,
      ProjectionFacts, HealthFacts: their theorems.
    - Runs of the server.  ServerRuns: [server_step], one request or one
      iteration of a loop.  Preserve: the relations on stores that every
      operation preserves, and their composition over any run.  Identity,
      ProtocolRuns, Ledgers, ProjectionRuns: a relation each, with the theorems
      that follow for every run.
    - The miner's side (src/skill/scripts/).  Mine, MineFacts: the client mine.py
      over the record [Requests], which MineFacts connects to [Server.serve].
      WalletCrypto, WalletFacts: the wallet file of wallet_crypto.py.  Setup,
      SetupFacts: setup.py with its own Bech32, its wallet and its whole run.
    - The results of a tournament (src/scripts/poker_mtt/).  Standings:
      complete_standings.py with its theorem.  RuntimeProjection, RuntimeFacts:
      runtime_projection.py, and which of its rows the schema accepts.

    The theorems.
    - The protocol (Protocol, ProtocolRuns, Handlers): over any sequence of
      requests and loop iterations, reward windows included, that starts from an
      empty store, a revealed forecast opens its commitment, a commitment fixes
      the forecast, commitments and forecasts are final, the submissions that
      name one economic unit have one eligible forecast a task (the example
      after it shows that a unit which is renamed gets another), deadlines are
      enforced, and an honest reveal is recorded.
    - The money (Accounting, Ledgers, Holds, Settled): what a settlement credits
      is what it records on the submissions, split into balance and holds, and
      once more what the submissions that it settles again had earned; releasing
      holds moves exactly the held amounts; a resolved task never is due again.
    - The rewards of windows (RewardTotals): component rows and their merge add
      up to the rewards of the submissions, each miner once; an allocation is
      the floor of each share, plus one for the largest remainders, and fills
      the pool when the floats leave a remainder that can be distributed.
    - Anchoring (Paging, Roots, AnchorFacts, Published): paging loses nothing
      and is bound to its root; over any sequence of calls of the handlers a
      published root never changes; the rows that the chain client's answer is
      checked against are the merged rows of the windows; a job is confirmed
      only when the chain vouches for the stored batch; submitting opens a fresh
      job and links it.
    - Transactions (TxFacts, ClientFacts, Broadcasts): what is signed, read by
      the field numbers of the repository's tx.proto and of the Cosmos messages,
      is what was shown, and its hash binds it; a broadcast sends at most twice,
      the second time after its own first attempt was refused for its sequence;
      a failed look-up of a key is an error of its own kind.
    - Tournaments (TournamentFacts, EvidenceFacts): one row for each unit and
      ranks 1..n; the evidence state is the verdict of the manifests, and a
      troubled message blocks it.
    - Operators, views and markets (Cases, QueryFacts, MarketFacts): a decided
      risk case is not opened again; the list of open tasks is exact; the
      hybrid provider always answers, with sound tasks, and pays live outcomes.
    - Identity (CryptoFacts): an address is the Bech32 of BIP-173, whose field,
      generator and alphabet are written out apart from the code (module
      [BIP173]), and binds the key, up to a collision; a nonce is accepted once.
    - The server (ServerFacts, ProjectionFacts, ProjectionRuns, HealthFacts,
      ServerRuns, Identity): the admin routes of an exposed server need the token, and without it only
      bound registrations, signed commits and reveals and proofs of replay
      write; a projection is recorded once, whatever comes after; the loops survive every failure;
      the reports count what the store holds; over any sequence of requests a
      published root never changes, and the key of a miner is the one of its
      address and final.
    - The miner's side (MineFacts, WalletFacts, SetupFacts): a miner who runs the
      client on an open task has the forecast recorded; a task that was revealed
      before stops it; a wallet that is saved or migrated is read back; a set-up
      without prompts ends well and leaves an address that the service binds to
      its key.
    - Standings and projections (Standings, RuntimeFacts): every player stands
      once, under ranks 1..k; the service accepts the projected rows exactly
      when the ranks of the ranked ones are 1..k.
    - Economic units: the union-find terminates within its fuel and computes the
      connected components of shared signals.
    - Hashing: the canonical form is idempotent and independent of key order,
      and roots and manifests bind their rows, up to a collision of the very
      texts that are hashed.
    - Poker: gates of the projection, convergence and monotonicity of ingestion,
      agreement of the two stores, consistency of the HUD counters.
    - Repository and rewards: request ids, due queries, merges, windows; bounds
      and the halving schedule.
    Fuel.  [Economic.find] runs on [S (length parent)] steps, which
    [EconomicFacts.find_terminates] shows enough.  [Anchors.free_job_id] tries as
    many candidates as there are jobs and one more, which
    [AnchorFacts.fresh_job_id_is_free] shows enough.  [RewardRows.chunks] runs on
    the length of its list ([Paging.chunks_concat]).  [Protobuf.varint_loop] runs
    on the bits of its number, [Json.json_loads] on twice the length of its text
    and one more ([json_loads_fuel]), [CryptoAuth.emit] and [Setup.take_groups]
    on the bits that are left ([CryptoFacts.emit_spec]).  Every other recursion is structural or over
    a list; the endless loops of the server are their finite runs.

    Hypotheses.  Theorems about runs ask that the range of forecasts in the
    settings is not empty; those about the books also that a task provider
    builds dictionaries, that is rows without a double key.

    Arguments.  Code that is not in the repository is an argument: the curve
    library [EthKeys], RIPEMD-160, the commands and connections of [ChainTools]
    and [HttpClient], the deadline of [asyncio.wait_for], the text of an exception
    ([str_exc]), the environment and the clock.  The server is given the
    in-memory repository and requests whose bodies have the types of the schemas.
    On the miner's side the network ([Requests]), the signing library
    ([PrivateKeys]), the [Cryptography] library, random bytes and tokens, the
    terminal and the Codex process are arguments as well; the workers of the
    client's pool run one after another.

    Not modelled: routing and the validation of types by FastAPI and pydantic,
    the endpoint /admin/chain/preflight, the PostgreSQL repository
    (pg_repository.py, models.py: SQL), the fake settlement adapter of
    chain_adapter.py, the old epochs and challenges (epoch_scheduler.py,
    challenge_engine.py: a SQLite scheduler that the server no longer starts and
    whose imports are gone), the reports of status.py and doctor.py, the test
    harnesses of src/scripts/, what is printed or slept, and the Go, TypeScript
    and deployment parts of the repository.  The lock of a broadcast
    has no effect where a coroutine runs to its end, and requests that are
    gathered run in the order they are listed.
*)
From Stdlib Require Import ZArith Lia Permutation Sorted Ascii String.
From stdpp Require Import base list strings.

#[export] Set Warnings "-clear-no-such-hyp".

Create HintDb py.
Declare Scope py_scope.
Delimit Scope py_scope with py.
Open Scope Z_scope.
Open Scope py_scope.

(** ** Exceptions and the error monad

    [exn] lists the exceptions the modelled code raises.  [SystemExit] is raised
    by [sys.exit] of the scripts, where no handler is around it; what the code
    calls from outside does not raise it.  [Unmodelled] is not
    a Python exception: an operation returns it outside the part of the
    standard library that the development describes, so that a theorem never
    claims anything there. *)
Inductive exn :=
| ValueError (msg : string)
| KeyError (key : string)
| TypeError
| AttributeError
| ZeroDivisionError
| OverflowError
| IndexError
| OSError (msg : string)
| RuntimeError (msg : string)
| HTTPStatusError (code : Z)
| HTTPException (status : Z) (detail : string)
| TimeoutError
| SystemExit (code : Z)
| Unmodelled (what : string).

Inductive res (A : Type) :=
| Ok (a : A)
| Err (e : exn).
Arguments Ok {A} a.
Arguments Err {A} e.

Definition rbind {A B} (r : res A) (f : A -> res B) : res B :=
  match r with Ok a => f a | Err e => Err e end.

Notation "'let?' x ':=' c1 'in' c2" := (rbind c1 (fun x => c2))
  (at level 10, x pattern, c1 at level 200, c2 at level 200) : py_scope.

Definition is_ok {A} (r : res A) : bool :=
  match r with Ok _ => true | Err _ => false end.

(** [if cond: raise e] followed by the rest of the function. *)
Definition guard (b : bool) (e : exn) : res unit := if b then Ok tt else Err e.

Definition of_option {A} (o : option A) (e : exn) : res A :=
  match o with Some a => Ok a | None => Err e end.

Fixpoint mapR {A B} (f : A -> res B) (l : list A) : res (list B) :=
  match l with
  | [] => Ok []
  | x :: l => let? y := f x in let? ys := mapR f l in Ok (y :: ys)
  end.

Fixpoint foldR {A B} (f : B -> A -> res B) (l : list A) (acc : B) : res B :=
  match l with
  | [] => Ok acc
  | x :: l => let? acc := f acc x in foldR f l acc
  end.

Fixpoint filterR {A} (f : A -> res bool) (l : list A) : res (list A) :=
  match l with
  | [] => Ok []
  | x :: l => let? b := f x in let? ys := filterR f l in
              Ok (if b then x :: ys else ys)
  end.

(** ** The state monad: a Python method that reads and writes the store [S]

    The store survives an exception, as Python does not roll back. *)
Definition st (S A : Type) : Type := S -> res A * S.

Definition sret {S A} (a : A) : st S A := fun s => (Ok a, s).
Definition sbind {S A B} (m : st S A) (f : A -> st S B) : st S B :=
  fun s => match m s with (Ok a, s') => f a s' | (Err e, s') => (Err e, s') end.
Definition slift {S A} (r : res A) : st S A := fun s => (r, s).
Definition sraise {S A} (e : exn) : st S A := fun s => (Err e, s).
Definition sget {S} : st S S := fun s => (Ok s, s).
Definition sput {S} (s' : S) : st S unit := fun _ => (Ok tt, s').
Definition sgets {S A} (f : S -> A) : st S A := fun s => (Ok (f s), s).

(** [try: m  except ValueError as exc: h(exc)] *)
Definition scatch_value_error {S A} (m : st S A) (h : string -> st S A) : st S A :=
  fun s => match m s with
           | (Err (ValueError msg), s') => h msg s'
           | r => r
           end.

Notation "'let*' x ':=' c1 'in' c2" := (sbind c1 (fun x => c2))
  (at level 10, x pattern, c1 at level 200, c2 at level 200) : py_scope.
Notation "'let*?' x ':=' c1 'in' c2" := (sbind (slift c1) (fun x => c2))
  (at level 10, x pattern, c1 at level 200, c2 at level 200) : py_scope.
Notation "'do*' c1 'in' c2" := (sbind c1 (fun _ => c2))
  (at level 10, c1 at level 200, c2 at level 200) : py_scope.

Fixpoint mapS {S A B} (f : A -> st S B) (l : list A) : st S (list B) :=
  match l with
  | [] => sret []
  | x :: l => let* y := f x in let* ys := mapS f l in sret (y :: ys)
  end.

Fixpoint foldS {S A B} (f : B -> A -> st S B) (l : list A) (acc : B) : st S B :=
  match l with
  | [] => sret acc
  | x :: l => let* acc := f acc x in foldS f l acc
  end.

Fixpoint forS {S A} (f : A -> st S unit) (l : list A) : st S unit :=
  match l with
  | [] => sret tt
  | x :: l => do* f x in forS f l
  end.

(** ** Insertion-ordered dictionaries *)

Class PyKey (K : Type) := {
  keqb : K -> K -> bool;
  keqb_spec : forall a b, keqb a b = true <-> a = b
}.

#[export] Instance string_key : PyKey string :=
  {| keqb := String.eqb; keqb_spec := String.eqb_eq |}.

#[export] Instance Z_key : PyKey Z :=
  {| keqb := Z.eqb; keqb_spec := Z.eqb_eq |}.

#[export] Program Instance pair_key {A B} `{PyKey A, PyKey B} : PyKey (A * B) :=
  {| keqb x y := keqb x.1 y.1 && keqb x.2 y.2 |}.
Next Obligation.
  intros A B HA HB [a b] [a' b']. simpl.
  rewrite andb_true_iff, !keqb_spec. naive_solver.
Qed.

Section Dictionaries.
Context {K V : Type} `{PyKey K}.

(** [d.get(k)] *)
Fixpoint aget (k : K) (m : list (K * V)) : option V :=
  match m with
  | [] => None
  | (k', v) :: m => if keqb k k' then Some v else aget k m
  end.

(** [d[k] = v]: an existing key keeps its position, a new one goes last. *)
Fixpoint aset (k : K) (v : V) (m : list (K * V)) : list (K * V) :=
  match m with
  | [] => [(k, v)]
  | (k', v') :: m => if keqb k k' then (k', v) :: m else (k', v') :: aset k v m
  end.

(** [d.pop(k, None)] *)
Fixpoint apop (k : K) (m : list (K * V)) : list (K * V) :=
  match m with
  | [] => []
  | (k', v') :: m => if keqb k k' then m else (k', v') :: apop k m
  end.

(** [{**d, **u}] and [d.update(u)] *)
Definition aupdate (m u : list (K * V)) : list (K * V) :=
  fold_left (fun m kv => aset kv.1 kv.2 m) u m.

Definition ahas (k : K) (m : list (K * V)) : bool :=
  match aget k m with Some _ => true | None => false end.

Definition akeys (m : list (K * V)) : list K := m.*1.
Definition avals (m : list (K * V)) : list V := m.*2.
End Dictionaries.

(** [d.setdefault(k, []).append(x)] *)
Definition aappend {K A} `{PyKey K} (k : K) (x : A) (m : list (K * list A)) :=
  match aget k m with
  | Some l => aset k (l ++ [x]) m
  | None => aset k [x] m
  end.

(** ** Stable sorting by a boolean "less than", as [sorted] and [list.sort] *)

Section Sorting.
Context {A : Type} (lt : A -> A -> bool).

(** [x] comes before every element that is not smaller. *)
Fixpoint insert_sorted (x : A) (l : list A) : list A :=
  match l with
  | [] => [x]
  | y :: l => if lt y x then y :: insert_sorted x l else x :: y :: l
  end.

Definition sort_by (l : list A) : list A := foldr insert_sorted [] l.
End Sorting.

(** [sorted(l, reverse=True)] keeps the order of equal elements as well. *)
Definition sort_by_desc {A} (lt : A -> A -> bool) (l : list A) : list A :=
  sort_by (fun a b => lt b a) l.

Definition sort_strings (l : list string) : list string := sort_by String.ltb l.

(** [sorted({...})]: the elements of a set, in increasing order. *)
Fixpoint dedup_keys {K} `{PyKey K} (l : list K) : list K :=
  match l with
  | [] => []
  | x :: l => if existsb (keqb x) l then dedup_keys l else x :: dedup_keys l
  end.

Definition mem_key {K} `{PyKey K} (x : K) (l : list K) : bool := existsb (keqb x) l.

Definition sum_Z (l : list Z) : Z := foldr Z.add 0 l.

(** [range(a, b)] *)
Definition range (a b : Z) : list Z := seqZ a (b - a).

(** [f] holds on the integers [z], ..., [z + n - 1]; evaluates a bounded
    universal statement. *)
Fixpoint all_from (f : Z -> bool) (n : positive) (z : Z) : bool :=
  match n with
  | xH => f z
  | xO p => all_from f p z && all_from f p (z + Zpos p)
  | xI p => f z && (all_from f p (z + 1) && all_from f p (z + 1 + Zpos p))
  end.

(** ** Lemmas: the monads *)

Lemma rbind_ok {A B} (r : res A) (f : A -> res B) b :
  rbind r f = Ok b <-> exists a, r = Ok a /\ f a = Ok b.
Proof. destruct r; simpl; naive_solver. Qed.

Lemma rbind_assoc {A B C} (r : res A) (f : A -> res B) (g : B -> res C) :
  rbind (rbind r f) g = rbind r (fun a => rbind (f a) g).
Proof. by destruct r. Qed.

Lemma sbind_ok {S A B} (m : st S A) (f : A -> st S B) s b s' :
  sbind m f s = (Ok b, s') <-> exists a s1, m s = (Ok a, s1) /\ f a s1 = (Ok b, s').
Proof. unfold sbind. destruct (m s) as [[a|e] s1]; naive_solver. Qed.

Lemma sbind_run {S A B} (m : st S A) (f : A -> st S B) s a s1 :
  m s = (Ok a, s1) -> sbind m f s = f a s1.
Proof. unfold sbind. by intros ->. Qed.

Lemma Ok_inj {A} (a b : A) : Ok a = Ok b -> a = b.
Proof. congruence. Qed.

Lemma guard_ok b e : guard b e = Ok tt <-> b = true.
Proof. destruct b; simpl; naive_solver. Qed.

Lemma mapR_ok {A B} (f : A -> res B) l l' :
  mapR f l = Ok l' <-> Forall2 (fun x y => f x = Ok y) l l'.
Proof.
  revert l'. induction l as [|x l IH]; intros l'; simpl.
  - split; [intros [= <-]; constructor | by inversion 1].
  - rewrite rbind_ok. setoid_rewrite rbind_ok. split.
    + intros (y & Hy & ys & Hys & [= <-]). constructor; [done | by apply IH].
    + inversion 1; subst. eexists; split; [done|]. eexists; split; [by apply IH|done].
Qed.

Lemma filter_perm {A} (f : A -> bool) l l' : Permutation l l' -> Permutation (List.filter f l) (List.filter f l').
Proof.
  induction 1; simpl; [done| | |by etransitivity].
  - destruct (f x); [by apply perm_skip|done].
  - destruct (f x), (f y); try done. apply perm_swap.
Qed.

Lemma mapR_length {A B} (f : A -> res B) l l' : mapR f l = Ok l' -> length l' = length l.
Proof. rewrite mapR_ok. intros H. symmetry. by eapply Forall2_length. Qed.

Lemma mapR_pure {A B} (f : A -> B) l : mapR (fun x => Ok (f x)) l = Ok (map f l).
Proof. induction l as [|x l IH]; simpl; [done|]. by rewrite IH. Qed.

Lemma mapR_perm {A B} (f : A -> res B) l l' ys :
  Permutation l l' -> mapR f l = Ok ys -> exists ys', mapR f l' = Ok ys' /\ Permutation ys ys'.
Proof.
  intros Hp. revert ys. induction Hp as [|x l l' Hp IH|x y l|l1 l2 l3 H1 IH1 H2 IH2]; intros ys; simpl.
  - intros [= <-]. eauto.
  - rewrite rbind_ok. intros (y & -> & H). simpl. apply rbind_ok in H as (ys1 & Hys & [= <-]).
    destruct (IH _ Hys) as (ys' & -> & Hp'). simpl. eauto.
  - destruct (f y) as [b|]; [|done]. destruct (f x) as [a|]; [|done]. simpl.
    destruct (mapR f l) as [zs|]; [|done]. simpl. intros [= <-].
    eexists. split; [done|]. constructor.
  - intros (ys2 & Hys2 & Hp2)%IH1. destruct (IH2 _ Hys2) as (ys3 & Hys3 & Hp3).
    exists ys3. split; [done|]. by rewrite Hp2.
Qed.

Lemma mapR_ext {A B} (f g : A -> res B) l :
  (forall x, In x l -> f x = g x) -> mapR f l = mapR g l.
Proof.
  induction l as [|x l IH]; simpl; intros Hfg; [done|].
  rewrite Hfg by auto. destruct (g x); simpl; [|done]. rewrite IH; auto.
Qed.

Lemma Forall2_In_r {A B} (P : A -> B -> Prop) l k y :
  Forall2 P l k -> In y k -> exists x, In x l /\ P x y.
Proof. induction 1 as [|x y' l k Hxy _ IH]; simpl; [done|]. intros [->|Hy]; naive_solver. Qed.

Lemma Forall2_In_l {A B} (P : A -> B -> Prop) l k x :
  Forall2 P l k -> In x l -> exists y, In y k /\ P x y.
Proof. induction 1 as [|x' y l k Hxy _ IH]; simpl; [done|]. intros [->|Hx]; naive_solver. Qed.

(** An invariant of the state that each step preserves holds after the loop,
    whether the loop ends normally or by an exception. *)
Lemma forS_invariant {S A} (P : S -> Prop) (f : A -> st S unit) l :
  (forall x s, In x l -> P s -> P (f x s).2) -> forall s, P s -> P (forS f l s).2.
Proof.
  induction l as [|x l IH]; intros Hf s Hs; simpl; [done|].
  unfold sbind. pose proof (Hf x s (or_introl eq_refl) Hs) as H1.
  destruct (f x s) as [[[]|e] s1]; simpl in *; [|done].
  apply IH; auto.
Qed.

Lemma foldS_invariant {S A B} (P : S -> Prop) (f : B -> A -> st S B) l :
  (forall b x s, In x l -> P s -> P (f b x s).2) -> forall b s, P s -> P (foldS f l b s).2.
Proof.
  induction l as [|x l IH]; intros Hf b s Hs; simpl; [done|].
  unfold sbind. pose proof (Hf b x s (or_introl eq_refl) Hs) as H1.
  destruct (f b x s) as [[b'|e] s1]; simpl in *; [|done].
  apply IH; auto.
Qed.

Lemma sbind_invariant {S A B} (P : S -> Prop) (m : st S A) (f : A -> st S B) s :
  P s -> (P s -> P (m s).2) -> (forall a s1, P s1 -> P (f a s1).2) -> P (sbind m f s).2.
Proof.
  unfold sbind. intros Hs Hm Hf. specialize (Hm Hs).
  destruct (m s) as [[a|e] s1]; simpl in *; auto.
Qed.

(** Splits the hypotheses that say a monadic computation succeeded. *)
Ltac ok_inv :=
  repeat match goal with
  | H : Ok _ = Ok _ |- _ => injection H as H; subst
  | H : Err _ = Ok _ |- _ => discriminate H
  | H : Ok _ = Err _ |- _ => discriminate H
  | H : (Ok _, _) = (Ok _, _) |- _ => injection H as H; subst
  | H : (Err _, _) = (Ok _, _) |- _ => discriminate H
  | H : rbind _ _ = Ok _ |- _ =>
      let a := fresh "a" in let H1 := fresh "H" in
      apply rbind_ok in H as (a & H1 & H)
  | H : sbind _ _ _ = (Ok _, _) |- _ =>
      let a := fresh "a" in let s1 := fresh "s" in let H1 := fresh "H" in
      apply sbind_ok in H as (a & s1 & H1 & H)
  | H : guard _ _ = Ok ?u |- _ => destruct u; apply guard_ok in H
  | H : slift _ _ = (Ok _, _) |- _ => unfold slift in H
  | H : sret _ _ = (Ok _, _) |- _ => unfold sret in H
  end.

(** ** Lemmas: dictionaries *)

Section DictionaryLemmas.
Context {K V : Type} `{PyKey K}.
Implicit Types (k : K) (v : V) (m : list (K * V)).

Lemma keqb_refl k : keqb k k = true.
Proof. by apply keqb_spec. Qed.

Lemma keqb_neq k k' : keqb k k' = false <-> k <> k'.
Proof. rewrite <- keqb_spec. destruct (keqb k k'); naive_solver. Qed.

Lemma aget_aset k k' v m :
  aget k (aset k' v m) = if keqb k k' then Some v else aget k m.
Proof.
  induction m as [|[k2 v2] m IH]; simpl; [done|].
  destruct (keqb k' k2) eqn:E; simpl.
  - apply keqb_spec in E as <-. by destruct (keqb k k').
  - destruct (keqb k k2) eqn:E2; [|done]. apply keqb_spec in E2 as <-.
    destruct (keqb k k') eqn:E3; [|done]. apply keqb_spec in E3 as <-.
    by rewrite keqb_refl in E.
Qed.

Lemma aget_aset_eq k v m : aget k (aset k v m) = Some v.
Proof. by rewrite aget_aset, keqb_refl. Qed.

Lemma aget_aset_ne k k' v m : k <> k' -> aget k (aset k' v m) = aget k m.
Proof. intros Hne. rewrite aget_aset. by apply keqb_neq in Hne as ->. Qed.

Lemma aget_In k v m : aget k m = Some v -> In (k, v) m.
Proof.
  induction m as [|[k2 v2] m IH]; simpl; [done|].
  destruct (keqb k k2) eqn:E; [|auto]. apply keqb_spec in E as <-.
  intros [= ->]. auto.
Qed.

Lemma aget_None k m : aget k m = None <-> ~ In k (akeys m).
Proof.
  induction m as [|[k2 v2] m IH]; simpl; [naive_solver|].
  destruct (keqb k k2) eqn:E.
  - apply keqb_spec in E as <-. naive_solver.
  - apply keqb_neq in E. naive_solver.
Qed.

Lemma aget_NoDup k v m : NoDup (akeys m) -> In (k, v) m -> aget k m = Some v.
Proof.
  induction m as [|[k2 v2] m IH]; simpl; [done|].
  intros Hnd [[= -> ->] | Hin]; [by rewrite keqb_refl|].
  apply NoDup_cons in Hnd as [Hk Hnd].
  destruct (keqb k k2) eqn:E; [|auto]. apply keqb_spec in E as <-.
  destruct Hk. apply list_elem_of_In, in_map_iff. by exists (k, v).
Qed.

Lemma akeys_aset k v m :
  akeys (aset k v m) = if ahas k m then akeys m else akeys m ++ [k].
Proof.
  unfold ahas. induction m as [|[k2 v2] m IH]; simpl; [done|].
  destruct (keqb k k2) eqn:E; simpl; [done|]. fold (akeys (aset k v m)).
  rewrite IH. by destruct (aget k m).
Qed.

Lemma NoDup_akeys_aset k v m : NoDup (akeys m) -> NoDup (akeys (aset k v m)).
Proof.
  intros Hnd. rewrite akeys_aset. unfold ahas.
  destruct (aget k m) eqn:E; [done|]. apply aget_None in E.
  apply NoDup_app. split_and!; [done| |apply NoDup_singleton].
  intros x Hx ->%list_elem_of_singleton. apply E. by apply list_elem_of_In.
Qed.

Lemma length_aset k v m : (length (aset k v m) <= S (length m))%nat.
Proof. induction m as [|[k2 v2] m IH]; simpl; [done|]. destruct (keqb k k2); simpl; lia. Qed.

Lemma In_aset k v m k' v' :
  In (k', v') (aset k v m) -> (k' = k /\ v' = v) \/ In (k', v') m.
Proof.
  induction m as [|[k2 v2] m IH]; simpl; [naive_solver|].
  destruct (keqb k k2) eqn:E; simpl.
  - apply keqb_spec in E as <-. naive_solver.
  - intros [?|?]; [auto|]. apply IH in H0 as [?|?]; auto.
Qed.

Lemma aset_same k v m : aget k m = Some v -> aset k v m = m.
Proof.
  induction m as [|[k2 v2] m IH]; simpl; [done|]. destruct (keqb k k2) eqn:E; [|intros; f_equal; auto].
  intros [= ->]. apply keqb_spec in E as <-. done.
Qed.

Lemma aset_aset k v w m : aset k v (aset k w m) = aset k v m.
Proof.
  induction m as [|[k2 v2] m IH]; simpl; [by rewrite keqb_refl|].
  destruct (keqb k k2) eqn:E; simpl; rewrite E; [done|]. by f_equal.
Qed.

Lemma avals_aset_Forall (P : V -> Prop) k v m :
  P v -> Forall P (avals m) -> Forall P (avals (aset k v m)).
Proof.
  intros Hv. induction m as [|[k2 v2] m IH]; simpl; intros Hm; [by constructor|].
  inversion Hm; subst. destruct (keqb k k2); simpl; constructor; auto.
Qed.

Lemma aget_Forall (P : V -> Prop) k v m :
  Forall P (avals m) -> aget k m = Some v -> P v.
Proof.
  intros Hm Hk. apply aget_In in Hk. rewrite List.Forall_forall in Hm.
  apply Hm. apply in_map_iff. by exists (k, v).
Qed.
End DictionaryLemmas.

(** Closes [NoDup] of a list of literal keys. *)
Ltac nodup_keys :=
  apply NoDup_ListNoDup; repeat (constructor; [simpl; intuition discriminate|]); constructor.

(** ** Lemmas: sorting *)

Section SortLemmas.
Context {A : Type} (lt : A -> A -> bool).

Lemma insert_sorted_perm x l : Permutation (insert_sorted lt x l) (x :: l).
Proof.
  induction l as [|y l IH]; simpl; [done|].
  destruct (lt y x); [|done]. rewrite IH. constructor.
Qed.

Lemma sort_by_perm l : Permutation (sort_by lt l) l.
Proof.
  induction l as [|x l IH]; simpl; [done|].
  rewrite insert_sorted_perm. by constructor.
Qed.

Lemma sort_by_length l : length (sort_by lt l) = length l.
Proof. apply Permutation_length, sort_by_perm. Qed.

Lemma In_sort_by x l : In x (sort_by lt l) <-> In x l.
Proof. split; apply Permutation_in; [|symmetry]; apply sort_by_perm. Qed.

Hypothesis lt_asym : forall x y, lt x y = true -> lt y x = false.
Hypothesis lt_trans : forall x y z, lt y x = false -> lt z y = false -> lt z x = false.

(** The order of the result: no element is smaller than an earlier one. *)
Definition ge x y := lt y x = false.

Lemma insert_sorted_sorted x l :
  StronglySorted ge l -> StronglySorted ge (insert_sorted lt x l).
Proof.
  induction l as [|y l IH]; simpl; intros Hs; [repeat constructor|].
  inversion Hs as [|? ? Hs' Hy]; subst. destruct (lt y x) eqn:E.
  - constructor; [auto|].
    eapply Permutation_Forall; [symmetry; apply insert_sorted_perm|].
    constructor; [|done]. by apply lt_asym.
  - constructor; [done|]. constructor; [done|].
    eapply List.Forall_impl; [|apply Hy]. intros z Hz. by eapply lt_trans.
Qed.

Lemma sort_by_sorted l : StronglySorted ge (sort_by lt l).
Proof.
  induction l; simpl; [constructor|]. by apply insert_sorted_sorted.
Qed.

Lemma insert_sorted_first x l : Forall (ge x) l -> insert_sorted lt x l = x :: l.
Proof. destruct 1 as [|y l Hy]; simpl; [done|]. by rewrite Hy. Qed.

Lemma sort_by_id l : StronglySorted ge l -> sort_by lt l = l.
Proof.
  induction 1 as [|x l _ IH Hx]; simpl; [done|]. rewrite IH. by apply insert_sorted_first.
Qed.

(** A strict total order leaves one sorted arrangement of a list. *)
Lemma sorted_unique l1 l2 :
  (forall x y, In x l1 -> In y l1 -> lt x y = false -> lt y x = false -> x = y) ->
  StronglySorted ge l1 -> StronglySorted ge l2 -> Permutation l1 l2 -> l1 = l2.
Proof.
  revert l2. induction l1 as [|x l1 IH]; intros l2 Htot H1 H2 Hp.
  { apply Permutation_nil in Hp. by subst. }
  destruct l2 as [|y l2]; [symmetry in Hp; by apply Permutation_nil in Hp|].
  inversion H1 as [|? ? H1' Hx]; inversion H2 as [|? ? H2' Hy]; subst.
  rewrite List.Forall_forall in Hx, Hy.
  assert (x = y) as <-.
  { assert (In y (x :: l1)) as Hyin
      by (eapply Permutation_in; [symmetry; apply Hp|by left]).
    assert (In x (y :: l2)) as Hxin by (eapply Permutation_in; [apply Hp|by left]).
    destruct Hyin as [|Hyin]; [done|]. destruct Hxin as [|Hxin]; [done|].
    apply Htot; [by left|by right|by apply Hy|by apply Hx]. }
  f_equal. apply IH; [|done|done|by eapply Permutation_cons_inv].
  intros a b Ha Hb. apply Htot; by right.
Qed.

Lemma sort_by_unique l1 l2 :
  (forall x y, In x l1 -> In y l1 -> lt x y = false -> lt y x = false -> x = y) ->
  Permutation l1 l2 -> sort_by lt l1 = sort_by lt l2.
Proof.
  intros Htot Hp. apply sorted_unique; [|apply sort_by_sorted..|].
  - intros x y. rewrite !In_sort_by. apply Htot.
  - by rewrite !sort_by_perm.
Qed.
End SortLemmas.

Lemma insert_sorted_ext {A} (lt lt' : A -> A -> bool) x l :
  (forall y, In y l -> lt y x = lt' y x) -> insert_sorted lt x l = insert_sorted lt' x l.
Proof.
  induction l as [|y l IH]; simpl; intros H; [done|]. rewrite (H y) by auto.
  destruct (lt' y x); [|done]. f_equal. auto.
Qed.

Lemma sort_by_ext {A} (lt lt' : A -> A -> bool) l :
  (forall x y, In x l -> In y l -> lt x y = lt' x y) -> sort_by lt l = sort_by lt' l.
Proof.
  induction l as [|x l IH]; simpl; intros H; [done|]. rewrite IH by auto.
  apply insert_sorted_ext. intros y Hy. apply In_sort_by in Hy. auto.
Qed.

(** ** Lemmas: the order of strings *)

Lemma ascii_compare_refl a : Ascii.compare a a = Eq.
Proof. apply N.compare_refl. Qed.

Lemma string_compare_refl s : String.compare s s = Eq.
Proof. induction s as [|a s IH]; simpl; [done|]. by rewrite ascii_compare_refl. Qed.

Lemma string_ltb_lt s1 s2 : String.ltb s1 s2 = true <-> String.compare s1 s2 = Lt.
Proof. unfold String.ltb. destruct (String.compare s1 s2); naive_solver. Qed.

Lemma string_ltb_asym s1 s2 : String.ltb s1 s2 = true -> String.ltb s2 s1 = false.
Proof. unfold String.ltb. rewrite (String.compare_antisym s1 s2). by destruct (String.compare s2 s1). Qed.

Lemma string_compare_trans s1 s2 s3 :
  String.compare s1 s2 = Lt -> String.compare s2 s3 = Lt -> String.compare s1 s3 = Lt.
Proof.
  revert s2 s3. induction s1 as [|a s1 IH]; intros [|b s2] [|c s3]; simpl; try done.
  unfold Ascii.compare.
  destruct (N.compare_spec (N_of_ascii a) (N_of_ascii b)) as [Hab|Hab|Hab]; try done;
  destruct (N.compare_spec (N_of_ascii b) (N_of_ascii c)) as [Hbc|Hbc|Hbc]; try done; intros H1 H2.
  - rewrite Hab, Hbc, N.compare_refl. eauto.
  - by rewrite Hab, (proj2 (N.compare_lt_iff _ _) Hbc).
  - by rewrite <- Hbc, (proj2 (N.compare_lt_iff _ _) Hab).
  - by rewrite (proj2 (N.compare_lt_iff _ _) (N.lt_trans _ _ _ Hab Hbc)).
Qed.

Lemma string_ltb_total s1 s2 :
  String.ltb s1 s2 = false -> String.ltb s2 s1 = false -> s1 = s2.
Proof.
  unfold String.ltb. rewrite (String.compare_antisym s1 s2).
  destruct (String.compare s2 s1) eqn:E; simpl; try done. intros _ _.
  symmetry. by apply String.compare_eq_iff.
Qed.

Lemma string_ltb_trans_neg s1 s2 s3 :
  String.ltb s2 s1 = false -> String.ltb s3 s2 = false -> String.ltb s3 s1 = false.
Proof.
  intros H1 H2. destruct (String.ltb s3 s1) eqn:E; [|done]. exfalso.
  destruct (String.ltb s1 s2) eqn:E1.
  - assert (String.ltb s3 s2 = true); [|congruence].
    apply string_ltb_lt. apply string_ltb_lt in E, E1. by eapply string_compare_trans.
  - rewrite (string_ltb_total s1 s2) in E by done. congruence.
Qed.

Lemma string_leb_ltb s1 s2 : String.leb s1 s2 = negb (String.ltb s2 s1).
Proof. unfold String.leb, String.ltb. rewrite (String.compare_antisym s1 s2). by destruct (String.compare s2 s1). Qed.

Lemma string_leb_trans s1 s2 s3 :
  String.leb s1 s2 = true -> String.leb s2 s3 = true -> String.leb s1 s3 = true.
Proof. rewrite !string_leb_ltb, !negb_true_iff. apply string_ltb_trans_neg. Qed.

Lemma string_ltb_leb_trans s1 s2 s3 :
  String.ltb s1 s2 = true -> String.leb s2 s3 = true -> String.ltb s1 s3 = true.
Proof.
  rewrite string_leb_ltb, negb_true_iff. intros H1 H2. destruct (String.ltb s1 s3) eqn:E; [done|].
  pose proof (string_ltb_trans_neg s2 s3 s1 H2 E). congruence.
Qed.

#[export] Hint Resolve string_ltb_asym string_ltb_trans_neg string_ltb_total : py.

Lemma sort_strings_perm l1 l2 : Permutation l1 l2 -> sort_strings l1 = sort_strings l2.
Proof. apply sort_by_unique; eauto with py. Qed.

(** ** Lemmas: entries sorted by their key *)

Definition key_lt {A} (a b : string * A) : bool := String.ltb a.1 b.1.

(** The keys of a dictionary in strictly increasing order. *)
Definition keys_increasing {A} (d : list (string * A)) : Prop :=
  StronglySorted (fun a b => String.ltb a b = true) (akeys d).

Section KeySort.
Context {A : Type}.
Implicit Types (d : list (string * A)).

Lemma sort_keys_perm d : Permutation (sort_by key_lt d) d.
Proof. apply sort_by_perm. Qed.

Lemma keys_increasing_sorted d : keys_increasing d -> StronglySorted (ge key_lt) d.
Proof.
  unfold keys_increasing, akeys. induction d as [|kv d IH]; simpl; intros Hs; [constructor|].
  inversion Hs as [|? ? Hs' Hk]; subst. constructor; [auto|].
  rewrite List.Forall_map in Hk. eapply List.Forall_impl; [|apply Hk]. unfold ge, key_lt.
  intros b Hb. simpl in Hb. by apply string_ltb_asym.
Qed.

Lemma sort_keys_id d : keys_increasing d -> sort_by key_lt d = d.
Proof. intros Hd. by apply sort_by_id, keys_increasing_sorted. Qed.

Lemma NoDup_key_eq d x y : NoDup (akeys d) -> In x d -> In y d -> x.1 = y.1 -> x = y.
Proof.
  destruct x as [k v], y as [k' v']. simpl. intros Hd Hx Hy <-.
  apply (aget_NoDup _ _ _ Hd) in Hx, Hy. congruence.
Qed.

Lemma sort_keys_unique d d' :
  NoDup (akeys d) -> Permutation d d' -> sort_by key_lt d = sort_by key_lt d'.
Proof.
  intros Hd. apply sort_by_unique; unfold key_lt; eauto with py.
  intros x y Hx Hy H1 H2. eapply NoDup_key_eq; eauto using string_ltb_total.
Qed.

Lemma sort_keys_increasing d : NoDup (akeys d) -> keys_increasing (sort_by key_lt d).
Proof.
  intros Hd. assert (NoDup (akeys (sort_by key_lt d))) as Hnd.
  { unfold akeys. by rewrite sort_keys_perm. }
  assert (StronglySorted (ge key_lt) (sort_by key_lt d)) as Hs
    by (apply sort_by_sorted; unfold key_lt; eauto with py).
  revert Hnd Hs. clear Hd. unfold keys_increasing, akeys.
  generalize (sort_by key_lt d) as l. induction l as [|x l IH]; simpl; intros Hnd Hs; [constructor|].
  apply NoDup_cons in Hnd as [Hx Hnd]. inversion Hs as [|? ? Hs' Hge]; subst.
  constructor; [auto|]. rewrite List.Forall_map. rewrite List.Forall_forall in *.
  intros y Hy. specialize (Hge y Hy). unfold ge, key_lt in Hge.
  destruct (String.ltb x.1 y.1) eqn:E; [done|]. destruct Hx.
  rewrite (string_ltb_total x.1 y.1) by done. apply list_elem_of_In, in_map_iff. eauto.
Qed.
End KeySort.

(** ** Lemmas: sets as lists *)

Section DedupLemmas.
Context {K : Type} `{PyKey K}.

Lemma mem_key_In (x : K) l : mem_key x l = true <-> In x l.
Proof.
  unfold mem_key. rewrite existsb_exists. split.
  - intros (y & Hy & ->%keqb_spec). done.
  - intros Hx. exists x. split; [done|]. apply keqb_refl.
Qed.

Lemma In_dedup_keys (x : K) l : In x (dedup_keys l) <-> In x l.
Proof.
  induction l as [|y l IH]; simpl; [done|].
  destruct (existsb (keqb y) l) eqn:E; simpl; rewrite IH; [|done].
  apply mem_key_In in E. naive_solver.
Qed.

Lemma NoDup_dedup_keys (l : list K) : NoDup (dedup_keys l).
Proof.
  induction l as [|y l IH]; simpl; [constructor|].
  destruct (existsb (keqb y) l) eqn:E; [done|]. constructor; [|done].
  rewrite list_elem_of_In, In_dedup_keys. intros Hy%mem_key_In.
  unfold mem_key in Hy. congruence.
Qed.
End DedupLemmas.

Lemma sum_Z_app l1 l2 : sum_Z (l1 ++ l2) = sum_Z l1 + sum_Z l2.
Proof. unfold sum_Z. induction l1; simpl; lia. Qed.

Lemma sum_Z_perm l1 l2 : Permutation l1 l2 -> sum_Z l1 = sum_Z l2.
Proof. unfold sum_Z. induction 1; simpl; lia. Qed.

Lemma sum_Z_nonneg l : Forall (fun x => 0 <= x) l -> 0 <= sum_Z l.
Proof. unfold sum_Z. induction 1; simpl; lia. Qed.

(** ** Lemmas: bounded universal statements *)

Lemma all_from_spec f n z k :
  all_from f n z = true -> z <= k < z + Zpos n -> f k = true.
Proof.
  revert z. induction n as [p IH|p IH|]; intros z; simpl; rewrite ?andb_true_iff.
  - intros (Hz & H1 & H2) Hk. destruct (Z.eq_dec k z) as [->|]; [done|].
    destruct (Z.lt_ge_cases k (z + 1 + Zpos p)); [apply (IH (z + 1))|apply (IH (z + 1 + Zpos p))]; auto; lia.
  - intros (H1 & H2) Hk.
    destruct (Z.lt_ge_cases k (z + Zpos p)); [apply (IH z)|apply (IH (z + Zpos p))]; auto; lia.
  - intros Hf Hk. by replace k with z by lia.
Qed.
