(* ===== verification/PyText.v ===== *)
(** * Python text: [str] as a list of code points below 256

    A Python string is a Stdlib [string]; a character is a code point between
    0 and 255 (ASCII and Latin-1).  The file holds the string methods the
    service calls, the decimal notation of integers, and UTF-8. *)
From Stdlib Require Import ZArith Lia Ascii String.
From stdpp Require Import base list strings pretty.
From S2P Require Import Prelude.
Open Scope Z_scope.

Definition code (c : ascii) : Z := Z.of_N (N_of_ascii c).
Definition chr (n : Z) : ascii := ascii_of_N (Z.to_N n).

Definition chars (s : string) : list ascii := list_ascii_of_string s.
Definition of_chars (l : list ascii) : string := string_of_list_ascii l.

(** [str.isspace] of one code point below 256. *)
Definition is_space (c : ascii) : bool :=
  let n := code c in
  ((9 <=? n) && (n <=? 13)) || ((28 <=? n) && (n <=? 32)) || (n =? 133) || (n =? 160).

Definition is_digit (c : ascii) : bool := (48 <=? code c) && (code c <=? 57).

(** [str.isdigit] of one character also accepts the superscripts 1, 2, 3. *)
Definition is_digit_or_superscript (c : ascii) : bool :=
  is_digit c || (code c =? 178) || (code c =? 179) || (code c =? 185).

Definition lower_char (c : ascii) : ascii :=
  let n := code c in
  if ((65 <=? n) && (n <=? 90)) || ((192 <=? n) && (n <=? 222) && negb (n =? 215))
  then chr (n + 32) else c.

Definition str_lower (s : string) : string := of_chars (map lower_char (chars s)).

Fixpoint drop_spaces (l : list ascii) : list ascii :=
  match l with
  | [] => []
  | c :: l' => if is_space c then drop_spaces l' else l
  end.

(** [s.strip()] *)
Definition str_strip (s : string) : string :=
  of_chars (rev (drop_spaces (rev (drop_spaces (chars s))))).

(** [s.split()]: the maximal runs of characters that are not whitespace. *)
Fixpoint split_ws (l : list ascii) (cur : list ascii) : list string :=
  match l with
  | [] => match cur with [] => [] | _ => [of_chars (rev cur)] end
  | c :: l =>
      if is_space c
      then match cur with [] => split_ws l [] | _ => of_chars (rev cur) :: split_ws l [] end
      else split_ws l (c :: cur)
  end.
Definition str_split_ws (s : string) : list string := split_ws (chars s) [].

(** [s.split(sep)] for a one-character separator. *)
Fixpoint split_on (sep : ascii) (l : list ascii) (cur : list ascii) : list string :=
  match l with
  | [] => [of_chars (rev cur)]
  | c :: l =>
      if Ascii.eqb c sep then of_chars (rev cur) :: split_on sep l []
      else split_on sep l (c :: cur)
  end.
Definition str_split (sep : ascii) (s : string) : list string := split_on sep (chars s) [].

Definition str_join (sep : string) (l : list string) : string := String.concat sep l.

Definition str_startswith (p s : string) : bool := String.prefix p s.

Fixpoint drop_prefix (p s : list ascii) : option (list ascii) :=
  match p, s with
  | [], s => Some s
  | a :: p, b :: s => if Ascii.eqb a b then drop_prefix p s else None
  | _ :: _, [] => None
  end.

(** [s.removeprefix(p)], [s.removesuffix(p)] *)
Definition str_removeprefix (p s : string) : string :=
  match drop_prefix (chars p) (chars s) with Some r => of_chars r | None => s end.
Definition str_removesuffix (p s : string) : string :=
  match drop_prefix (rev (chars p)) (rev (chars s)) with
  | Some r => of_chars (rev r) | None => s
  end.

(** [s.endswith(p)] *)
Definition str_endswith (p s : string) : bool :=
  match drop_prefix (rev (chars p)) (rev (chars s)) with Some _ => true | None => false end.

(** [s.rstrip(c)] *)
Fixpoint drop_char (c : ascii) (l : list ascii) : list ascii :=
  match l with [] => [] | a :: l' => if Ascii.eqb a c then drop_char c l' else l end.
Definition str_rstrip_char (c : ascii) (s : string) : string :=
  of_chars (rev (drop_char c (rev (chars s)))).

(** [needle in s] *)
Fixpoint contains (needle l : list ascii) : bool :=
  match drop_prefix needle l with
  | Some _ => true
  | None => match l with [] => false | _ :: l => contains needle l end
  end.
Definition str_contains (needle s : string) : bool := contains (chars needle) (chars s).

(** [s[:n]] for a non-negative [n]. *)
Definition str_take (n : nat) (s : string) : string := of_chars (take n (chars s)).

(** [s.replace(old, new)] for a one-character [old]. *)
Definition str_replace_char (old : ascii) (new : string) (s : string) : string :=
  String.concat "" (map (fun c => if Ascii.eqb c old then new else String c "") (chars s)).

(** ** Decimal integers *)

Definition string_of_Z (n : Z) : string := pretty n.

(** [f"{n:0w}"] for a non-negative [n]. *)
Definition zero_pad (w : nat) (n : Z) : string :=
  let s := string_of_Z n in
  of_chars (repeat "0"%char (w - String.length s)) +:+ s.

Definition digit_value (c : ascii) : Z := code c - 48.

Definition digits_value (l : list ascii) : Z :=
  fold_left (fun acc c => 10 * acc + digit_value c) l 0.

(** The digits of a numeric literal, single underscores between digits removed. *)
Fixpoint strip_underscores (l : list ascii) (after_digit : bool) : option (list ascii) :=
  match l with
  | [] => if after_digit then Some [] else None
  | c :: l =>
      if is_digit c
      then match strip_underscores l true with Some r => Some (c :: r) | None => None end
      else if Ascii.eqb c "_"%char && after_digit
           then strip_underscores l false
           else None
  end.

Definition sign_split (l : list ascii) : bool * list ascii :=
  match l with
  | c :: l' => if Ascii.eqb c "-"%char then (true, l')
               else if Ascii.eqb c "+"%char then (false, l') else (false, l)
  | [] => (false, [])
  end.

(** [int(s)] of a string; [None] is the [ValueError] case. *)
Definition Z_of_string (s : string) : option Z :=
  let '(neg, l) := sign_split (chars (str_strip s)) in
  match strip_underscores l false with
  | Some ds => Some (if neg then - digits_value ds else digits_value ds)
  | None => None
  end.

(** ** Hexadecimal and UTF-8 *)

Definition hex_digit (n : Z) : ascii := if n <? 10 then chr (48 + n) else chr (87 + n).
Definition hex_byte (b : Z) : string :=
  String (hex_digit (b / 16)) (String (hex_digit (b mod 16)) "").
Definition hex_bytes (l : list Z) : string := String.concat "" (map hex_byte l).

(** [s.encode("utf-8")] *)
Definition utf8_char (c : ascii) : list Z :=
  let n := code c in if n <? 128 then [n] else [192 + n / 64; 128 + n mod 64].
Definition utf8 (s : string) : list Z := concat (map utf8_char (chars s)).

(** ** Lemmas *)

Lemma code_range c : 0 <= code c < 256.
Proof. unfold code. pose proof (N_ascii_bounded c). lia. Qed.

Lemma chr_code c : chr (code c) = c.
Proof. unfold chr, code. rewrite N2Z.id. apply ascii_N_embedding. Qed.

Lemma code_chr n : 0 <= n < 256 -> code (chr n) = n.
Proof. intros Hn. unfold chr, code. rewrite N_ascii_embedding; [apply Z2N.id; lia|]. apply N2Z.inj_lt. rewrite Z2N.id; lia. Qed.

Lemma code_inj a b : code a = code b -> a = b.
Proof. intros Hab. by rewrite <- (chr_code a), <- (chr_code b), Hab. Qed.

Lemma of_chars_chars s : of_chars (chars s) = s.
Proof. apply string_of_list_ascii_of_string. Qed.

Lemma chars_of_chars l : chars (of_chars l) = l.
Proof. apply list_ascii_of_string_of_list_ascii. Qed.

Lemma chars_inj s1 s2 : chars s1 = chars s2 -> s1 = s2.
Proof. intros Hs. by rewrite <- (of_chars_chars s1), <- (of_chars_chars s2), Hs. Qed.

Lemma chars_app s1 s2 : chars (s1 +:+ s2) = chars s1 ++ chars s2.
Proof. induction s1; simpl; [done|]. unfold chars in *. simpl. by f_equal. Qed.

(** UTF-8 loses nothing, and no encoding is a proper prefix of another. *)
Lemma utf8_inj s1 s2 : utf8 s1 = utf8 s2 -> s1 = s2.
Proof.
  intros Heq. apply chars_inj. unfold utf8 in Heq.
  revert Heq. generalize (chars s2). induction (chars s1) as [|a l IH]; intros [|b l2]; simpl.
  - done.
  - unfold utf8_char. destruct (code b <? 128); discriminate.
  - unfold utf8_char. destruct (code a <? 128); discriminate.
  - unfold utf8_char at 1 3. pose proof (code_range a). pose proof (code_range b).
    pose proof (Z.div_mod (code a) 64 ltac:(done)). pose proof (Z.div_mod (code b) 64 ltac:(done)).
    pose proof (Z.div_pos (code a) 64). pose proof (Z.div_pos (code b) 64).
    destruct (Z.ltb_spec (code a) 128); destruct (Z.ltb_spec (code b) 128);
      simpl; intros Heq; injection Heq; intros; try lia;
      rewrite (code_inj a b), (IH l2); auto; lia.
Qed.

Lemma string_of_Z_inj n m : string_of_Z n = string_of_Z m -> n = m.
Proof. apply (inj pretty). Qed.

(** The characters of numbers: the digits of an integer, its sign, and what a
    decimal fraction and an exponent add. *)
Definition integer_char (c : ascii) : bool := is_digit c || Ascii.eqb c "-"%char.
Definition number_char (c : ascii) : bool := integer_char c || existsb (Ascii.eqb c) (chars "+.e").

Lemma integer_number_char c : integer_char c = true -> number_char c = true.
Proof. unfold number_char. by intros ->. Qed.

Lemma is_digit_pretty_N_char n : is_digit (pretty_N_char n) = true.
Proof. unfold pretty_N_char. by repeat case_match. Qed.

Lemma pretty_N_go_digits n s :
  forallb is_digit (chars s) = true ->
  forallb is_digit (chars (pretty_N_go n s)) = true /\ (s <> "" -> pretty_N_go n s <> "").
Proof.
  revert s. induction (N.lt_wf_0 n) as [n _ IH]; intros s Hs.
  destruct (N.eq_dec n 0%N) as [->|Hn]; [done|].
  rewrite pretty_N_go_step by lia.
  destruct (IH (n / 10)%N ltac:(by apply N.div_lt; lia) (String (pretty_N_char (n `mod` 10)) s)) as [H1 H2].
  - simpl. by rewrite is_digit_pretty_N_char.
  - split; [done|]. intros _. by apply H2.
Qed.

Lemma string_of_N_digits (n : N) :
  forallb is_digit (chars (pretty n)) = true /\ pretty n <> "".
Proof.
  unfold pretty, pretty_N. destruct (decide (n = 0)%N) as [|Hn]; [done|].
  rewrite pretty_N_go_step by lia.
  destruct (pretty_N_go_digits (n `div` 10)%N (String (pretty_N_char (n `mod` 10)) "")) as [H1 H2].
  - simpl. by rewrite is_digit_pretty_N_char.
  - split; [done|]. by apply H2.
Qed.

Lemma string_of_Z_digits n :
  0 <= n -> forallb is_digit (chars (string_of_Z n)) = true /\ string_of_Z n <> "".
Proof.
  intros Hn. unfold string_of_Z, pretty, pretty_Z. destruct n as [|p|p]; [|apply string_of_N_digits|lia].
  done.
Qed.

Lemma forallb_impl {A} (f g : A -> bool) l :
  (forall x, f x = true -> g x = true) -> forallb f l = true -> forallb g l = true.
Proof. intros Hfg. rewrite !forallb_forall. auto. Qed.

Lemma string_of_Z_chars n :
  forallb integer_char (chars (string_of_Z n)) = true /\ string_of_Z n <> "".
Proof.
  assert (forall c, is_digit c = true -> integer_char c = true) as Hd
    by (unfold integer_char; by intros c ->).
  destruct (Z.le_gt_cases 0 n) as [Hn|Hn].
  - destruct (string_of_Z_digits n Hn) as [H1 H2]. split; [|done].
    by apply (forallb_impl is_digit).
  - destruct n as [|p|p]; try lia. unfold string_of_Z, pretty, pretty_Z.
    split; [|done]. rewrite chars_app, forallb_app. simpl.
    apply (forallb_impl is_digit); [done|]. apply (string_of_N_digits (Npos p)).
Qed.

Lemma chars_substring n m s : chars (substring n m s) = take m (drop n (chars s)).
Proof.
  revert m s. induction n as [|n IH]; intros m s; simpl.
  - revert s. induction m as [|m IHm]; intros [|c s]; simpl; try done. f_equal. apply IHm.
  - destruct s as [|c s]; simpl; [by destruct m|]. apply IH.
Qed.

Lemma forallb_take {A} (f : A -> bool) n l : forallb f l = true -> forallb f (take n l) = true.
Proof. revert n; induction l as [|x l IH]; intros [|n]; simpl; try done. rewrite !andb_true_iff. naive_solver. Qed.

Lemma forallb_drop {A} (f : A -> bool) n l : forallb f l = true -> forallb f (drop n l) = true.
Proof. revert n; induction l as [|x l IH]; intros [|n]; simpl; try done. rewrite !andb_true_iff. naive_solver. Qed.

Lemma forallb_repeat {A} (f : A -> bool) x n : f x = true -> forallb f (repeat x n) = true.
Proof. intros Hx. induction n; simpl; [done|]. by rewrite Hx. Qed.

(** Two texts cut at the first character outside a class are the same cut. *)
Lemma cut_unique (f : ascii -> bool) (c : ascii) l1 l2 r1 r2 :
  forallb f l1 = true -> forallb f l2 = true -> f c = false ->
  l1 ++ c :: r1 = l2 ++ c :: r2 -> l1 = l2 /\ r1 = r2.
Proof.
  intros H1 H2 Hc. revert l2 H2. induction l1 as [|a l1 IH]; intros [|b l2] H2; simpl in *; intros E;
    injection E; clear E; intros; subst.
  - done.
  - by rewrite Hc in H2.
  - by rewrite Hc in H1.
  - apply andb_true_iff in H1 as [_ H1], H2 as [_ H2]. by edestruct IH as [-> ->].
Qed.
