(* ===== verification/PyFloat.v ===== *)
(** * Python floats: IEEE 754 binary64

    A float is the Standard Library's [spec_float], and the arithmetic is
    [SpecFloat] at precision 53 and maximal exponent 1024 (round to nearest,
    ties to even).  The file adds what Python has beside it: exact conversion
    from integers, true division of integers, [round], [math.floor], [int],
    comparison with integers, [repr] and [float(str)]. *)
From Stdlib Require Import ZArith Lia Ascii String SpecFloat.
From stdpp Require Import base list strings.
From S2P Require Import Prelude PyText.
Open Scope Z_scope.

Abbreviation float := spec_float.

Definition fadd : float -> float -> float := SFadd 53 1024.
Definition fsub : float -> float -> float := SFsub 53 1024.
Definition fmul : float -> float -> float := SFmul 53 1024.
Definition fdiv_ieee : float -> float -> float := SFdiv 53 1024.
Definition fneg : float -> float := SFopp.
Definition fabs : float -> float := SFabs.
Definition fltb : float -> float -> bool := SFltb.
Definition fleb : float -> float -> bool := SFleb.
Definition feqb : float -> float -> bool := SFeqb.

Definition is_zero (x : float) : bool := match x with S754_zero _ => true | _ => false end.
Definition is_finite (x : float) : bool :=
  match x with S754_zero _ | S754_finite _ _ _ => true | _ => false end.

(** [x / y] raises on a zero divisor. *)
Definition fdiv (x y : float) : res float :=
  if is_zero y then Err ZeroDivisionError else Ok (fdiv_ieee x y).

(** An integer as an unrounded float, and the nearest float to [n / d]. *)
Definition raw_Z (n : Z) : float :=
  match n with
  | Z0 => S754_zero false
  | Zpos p => S754_finite false p 0
  | Zneg p => S754_finite true p 0
  end.

Definition f_of_ratio (n d : Z) : float := fdiv_ieee (raw_Z n) (raw_Z d).

(** The decimal literal [n * 10^-k] of the source. *)
Definition flit (n : Z) (k : Z) : float := f_of_ratio n (10 ^ k).

Definition f_of_Z (n : Z) : float := binary_normalize 53 1024 n 0 false.

(** [float(n)] of an integer. *)
Definition float_of_int (n : Z) : res float :=
  match f_of_Z n with S754_infinity _ => Err OverflowError | f => Ok f end.

(** [a / b] of two integers. *)
Definition int_truediv (a b : Z) : res float :=
  if b =? 0 then Err ZeroDivisionError
  else match f_of_ratio a b with S754_infinity _ => Err OverflowError | f => Ok f end.

(** The exact value of a finite float as a ratio with a positive denominator. *)
Definition f_ratio (x : float) : Z * Z :=
  match x with
  | S754_finite s m e =>
      let n := if s then Zneg m else Zpos m in
      if 0 <=? e then (n * 2 ^ e, 1) else (n, 2 ^ (- e))
  | _ => (0, 1)
  end.

(** The integer nearest to [a / b] for a positive [b], ties to even. *)
Definition rhe_div (a b : Z) : Z :=
  let q := a / b in
  let r := a mod b in
  match 2 * r ?= b with
  | Lt => q
  | Gt => q + 1
  | Eq => if Z.even q then q else q + 1
  end.

Definition f_sign (x : float) : bool :=
  match x with
  | S754_zero s | S754_infinity s | S754_finite s _ _ => s
  | S754_nan => false
  end.

(** [round(x, k)] for a positive number of digits [k]. *)
Definition round_digits (k : Z) (x : float) : float :=
  match x with
  | S754_finite s _ _ =>
      let '(n, d) := f_ratio x in
      let r := rhe_div (n * 10 ^ k) d in
      if r =? 0 then S754_zero s else f_of_ratio r (10 ^ k)
  | _ => x
  end.

Definition finite_or {A} (x : float) (r : A) : res A :=
  match x with
  | S754_nan => Err (ValueError "cannot convert float NaN to integer")
  | S754_infinity _ => Err OverflowError
  | _ => Ok r
  end.

(** [round(x)], [math.floor(x)] and [int(x)]. *)
Definition round_int (x : float) : res Z :=
  let '(n, d) := f_ratio x in finite_or x (rhe_div n d).
Definition f_floor (x : float) : res Z :=
  let '(n, d) := f_ratio x in finite_or x (n / d).
Definition f_trunc (x : float) : res Z :=
  let '(n, d) := f_ratio x in finite_or x (Z.quot n d).

(** Exact comparison of a float with an integer, [None] for NaN. *)
Definition fcompare_Z (x : float) (z : Z) : option comparison :=
  match x with
  | S754_nan => None
  | S754_infinity s => Some (if s then Lt else Gt)
  | _ => let '(n, d) := f_ratio x in Some (n ?= z * d)
  end.

(** [max(a, b)] and [min(a, b)] keep the first argument unless the second is
    strictly greater, respectively smaller. *)
Definition fmax (a b : float) : float := if fltb a b then b else a.
Definition fmin (a b : float) : float := if fltb b a then b else a.

(** Identity of representations: unlike [==] it tells [-0.0] from [0.0]. *)
#[export] Instance float_eq_dec : EqDecision float.
Proof. solve_decision. Defined.

Definition fzero : float := S754_zero false.
Definition fone : float := f_of_Z 1.

(** [sum(l)] of floats, from the integer 0: additions from left to right, as
    CPython before 3.12 computes it (later versions compensate the rounding). *)
Definition fsum (l : list float) : float := fold_left fadd l fzero.

(** ** [repr] *)

(** Number of decimal digits of a positive integer, by fuel on its bits. *)
Fixpoint ndigits_fuel (fuel : nat) (n : Z) : Z :=
  match fuel with
  | O => 0
  | S fuel => if n =? 0 then 0 else 1 + ndigits_fuel fuel (n / 10)
  end.
Definition ndigits (n : Z) : Z := ndigits_fuel (Z.to_nat (Z.log2 n + 2)) n.

(** [floor(log10 (n/d))] of a positive ratio. *)
Definition ratio_ge_pow10 (n d k : Z) : bool :=
  if 0 <=? k then d * 10 ^ k <=? n else d <=? n * 10 ^ (- k).
Definition ratio_log10 (n d : Z) : Z :=
  let k := ndigits n - ndigits d in
  if ratio_ge_pow10 n d k then k else k - 1.

Definition scale10 (n d k : Z) : Z * Z :=
  if 0 <=? k then (n * 10 ^ k, d) else (n, d * 10 ^ (- k)).

(** The float nearest to [c * 10^k]. *)
Definition f_of_decimal (c k : Z) : float :=
  if 0 <=? k then f_of_ratio (c * 10 ^ k) 1 else f_of_ratio c (10 ^ (- k)).

(** The closest [p]-digit decimal that reads back as [x], if there is one. *)
Definition shortest_at (x : float) (n d k p : Z) : option (Z * Z) :=
  let e := k - p + 1 in
  let '(a, b) := scale10 n d (- e) in
  let lo := a / b in
  let hi := lo + 1 in
  let lo_ok := feqb (f_of_decimal lo e) x in
  let hi_ok := feqb (f_of_decimal hi e) x in
  if lo_ok && (negb hi_ok || (2 * (a mod b) <=? b)) then Some (lo, e)
  else if hi_ok then Some (hi, e) else None.

Fixpoint shortest_from (x : float) (n d k : Z) (p : Z) (fuel : nat) : Z * Z :=
  match fuel with
  | O => (0, 0)
  | S fuel =>
      match shortest_at x n d k p with
      | Some r => r
      | None => shortest_from x n d k (p + 1) fuel
      end
  end.

Fixpoint trim_zeros (fuel : nat) (c e : Z) : Z * Z :=
  match fuel with
  | O => (c, e)
  | S fuel => if (c mod 10 =? 0) && negb (c =? 0) then trim_zeros fuel (c / 10) (e + 1) else (c, e)
  end.

(** Digits and the position of the decimal point, laid out as [repr] does. *)
Definition layout (c e : Z) : string :=
  let ds := string_of_Z c in
  let len := Z.of_nat (String.length ds) in
  let point := len + e in
  let zeros n := of_chars (repeat "0"%char (Z.to_nat n)) in
  if (-4 <? point) && (point <=? 16) then
    if point <=? 0 then "0." +:+ zeros (- point) +:+ ds
    else if len <=? point then ds +:+ zeros (point - len) +:+ ".0"
    else substring 0 (Z.to_nat point) ds +:+ "." +:+
         substring (Z.to_nat point) (Z.to_nat (len - point)) ds
  else
    let ex := point - 1 in
    let mant := if len =? 1 then ds
                else substring 0 1 ds +:+ "." +:+ substring 1 (Z.to_nat (len - 1)) ds in
    mant +:+ "e" +:+ (if ex <? 0 then "-" else "+") +:+ zero_pad 2 (Z.abs ex).

Definition float_repr (x : float) : string :=
  match x with
  | S754_nan => "nan"
  | S754_infinity s => if s then "-inf" else "inf"
  | S754_zero s => if s then "-0.0" else "0.0"
  | S754_finite s m e =>
      let '(n, d) := f_ratio (S754_finite false m e) in
      let '(c, k) := shortest_from (S754_finite false m e) n d (ratio_log10 n d) 1 17 in
      let '(c, k) := trim_zeros 20 c k in
      (if s then "-" else "") +:+ layout c k
  end.

(** ** [float(str)] *)

Fixpoint span_digits (l : list ascii) : list ascii * list ascii :=
  match l with
  | c :: l' =>
      if is_digit c then let '(ds, r) := span_digits l' in (c :: ds, r) else ([], l)
  | [] => ([], [])
  end.

Definition exponent_part (l : list ascii) : option Z :=
  match l with
  | [] => Some 0
  | c :: l =>
      if Ascii.eqb c "e"%char || Ascii.eqb c "E"%char then
        let '(neg, l) := sign_split l in
        match span_digits l with
        | ([], _) => None
        | (ds, []) => Some (if neg then - digits_value ds else digits_value ds)
        | _ => None
        end
      else None
  end.

(** Digits with an optional fraction and exponent: [(c, k)] stands for [c * 10^k]. *)
Definition decimal_literal (l : list ascii) : option (Z * Z) :=
  let '(ip, r) := span_digits l in
  let '(fp, r) := match r with
                  | c :: r' => if Ascii.eqb c "."%char then span_digits r' else ([], r)
                  | [] => ([], [])
                  end in
  match ip ++ fp with
  | [] => None
  | ds =>
      match exponent_part r with
      | Some ex => Some (digits_value ds, ex - Z.of_nat (length fp))
      | None => None
      end
  end.

(** Decimal and exponent notation, without the underscores Python also takes. *)
Definition float_of_string (s : string) : option float :=
  let '(neg, l) := sign_split (chars (str_lower (str_strip s))) in
  let signed f := if neg then fneg f else f in
  if decide (of_chars l = "inf") then Some (signed (S754_infinity false))
  else if decide (of_chars l = "infinity") then Some (signed (S754_infinity false))
  else if decide (of_chars l = "nan") then Some S754_nan
  else match decimal_literal l with
       | Some (c, k) => Some (signed (f_of_decimal c k))
       | None => None
       end.

(** ** Lemmas *)

Lemma rhe_div_bounds a b : 0 < b -> a / b <= rhe_div a b <= a / b + 1.
Proof.
  intros Hb. unfold rhe_div; cbv zeta.
  destruct (2 * (a mod b) ?= b); try destruct (Z.even (a / b)); lia.
Qed.

(** The rounded quotient is at distance at most one half. *)
Lemma rhe_div_half a b : 0 < b -> - b <= 2 * (rhe_div a b * b - a) <= b.
Proof.
  intros Hb. unfold rhe_div; cbv zeta. pose proof (Z.div_mod a b ltac:(lia)).
  pose proof (Z.mod_pos_bound a b Hb).
  destruct (Z.compare_spec (2 * (a mod b)) b); try destruct (Z.even (a / b)); nia.
Qed.

Lemma rhe_div_exact k b : 0 < b -> rhe_div (k * b) b = k.
Proof.
  intros Hb. unfold rhe_div; cbv zeta. rewrite Z.div_mul, Z.mod_mul by lia.
  destruct (Z.compare_spec (2 * 0) b); lia.
Qed.

(** Rounding is monotone in the ratio [a / b]. *)
Lemma rhe_div_mono a b c d : 0 < b -> 0 < d -> a * d <= c * b -> rhe_div a b <= rhe_div c d.
Proof.
  intros Hb Hd Hle. unfold rhe_div; cbv zeta.
  pose proof (Z.div_mod a b ltac:(lia)) as Ha. pose proof (Z.mod_pos_bound a b Hb) as Hra.
  pose proof (Z.div_mod c d ltac:(lia)) as Hc. pose proof (Z.mod_pos_bound c d Hd) as Hrc.
  set (q := a / b) in *. set (r := a mod b) in *.
  set (q' := c / d) in *. set (r' := c mod d) in *.
  assert (q <= q') as Hq.
  { apply Z.div_le_lower_bound; [done|]. apply (Z.mul_le_mono_pos_l _ _ b); [done|].
    assert (d * (b * q) <= d * a) by nia. nia. }
  destruct (Z.eq_dec q q') as [<-|Hne].
  - assert (r * d <= r' * b) by nia.
    destruct (Z.compare_spec (2 * r) b); destruct (Z.compare_spec (2 * r') d);
      try destruct (Z.even q); try lia; nia.
  - destruct (2 * r ?= b); destruct (2 * r' ?= d);
      try destruct (Z.even q); try destruct (Z.even q'); lia.
Qed.

Lemma rhe_div_nonneg a b : 0 < b -> 0 <= a -> 0 <= rhe_div a b.
Proof. intros Hb Ha. pose proof (rhe_div_bounds a b Hb). pose proof (Z.div_pos a b). lia. Qed.

Lemma rhe_div_le_int a b k : 0 < b -> a <= k * b -> rhe_div a b <= k.
Proof.
  intros Hb Ha. rewrite <- (rhe_div_exact k b Hb).
  apply rhe_div_mono; auto. nia.
Qed.

Lemma rhe_div_ge_int a b k : 0 < b -> k * b <= a -> k <= rhe_div a b.
Proof.
  intros Hb Ha. rewrite <- (rhe_div_exact k b Hb).
  apply rhe_div_mono; auto. nia.
Qed.

Lemma f_ratio_pos x : 0 < (f_ratio x).2.
Proof.
  destruct x as [s|s| |s m e]; simpl; try lia.
  destruct (Z.leb_spec 0 e); simpl; [lia|]. apply Z.pow_pos_nonneg; lia.
Qed.

Lemma fltb_irrefl x : fltb x x = false.
Proof.
  unfold fltb, SFltb. destruct x as [[]|[]| |[] m e]; simpl; try done;
  rewrite Z.compare_refl, Pos.compare_cont_refl; done.
Qed.

(** ** Lemmas: the text of a float *)

Definition number_text (s : string) : Prop := forallb number_char (chars s) = true.

Lemma number_text_app s1 s2 : number_text s1 -> number_text s2 -> number_text (s1 +:+ s2).
Proof. unfold number_text. rewrite chars_app, forallb_app. by intros -> ->. Qed.

Lemma number_text_substring n m s : number_text s -> number_text (substring n m s).
Proof. unfold number_text. rewrite chars_substring. eauto using forallb_take, forallb_drop. Qed.

Lemma number_text_zeros n : number_text (of_chars (repeat "0"%char n)).
Proof. unfold number_text. rewrite chars_of_chars. by apply forallb_repeat. Qed.

Lemma number_text_Z n : number_text (string_of_Z n).
Proof.
  eapply forallb_impl; [|apply string_of_Z_chars]. apply integer_number_char.
Qed.

Lemma number_text_zero_pad w n : number_text (zero_pad w n).
Proof. apply number_text_app; [apply number_text_zeros|apply number_text_Z]. Qed.

#[export] Hint Resolve number_text_app number_text_substring number_text_zeros
  number_text_Z number_text_zero_pad : py.
#[export] Hint Extern 1 (number_text _) => reflexivity : py.

(** A point or an exponent: what no integer is written with. *)
Definition float_mark (c : ascii) : bool := Ascii.eqb c "."%char || Ascii.eqb c "e"%char.
Definition has_mark (s : string) : bool := existsb float_mark (chars s).

Lemma has_mark_app s1 s2 : has_mark (s1 +:+ s2) = has_mark s1 || has_mark s2.
Proof. unfold has_mark. by rewrite chars_app, existsb_app. Qed.

Lemma layout_text c e : number_text (layout c e) /\ has_mark (layout c e) = true.
Proof.
  unfold layout. repeat case_match; subst; split;
    repeat (first [apply number_text_app | apply number_text_substring | apply number_text_zeros
                  | apply number_text_Z | apply number_text_zero_pad | reflexivity
                  | case_match]);
    rewrite !has_mark_app; simpl; rewrite ?orb_true_r; reflexivity.
Qed.

Lemma float_repr_text x :
  is_finite x = true -> number_text (float_repr x) /\ has_mark (float_repr x) = true.
Proof.
  destruct x as [s| | |s m e]; try done; intros _; [by destruct s|].
  cbn [float_repr]. destruct (f_ratio _) as [n d]. destruct (shortest_from _ _ _ _ _ _) as [c k].
  destruct (trim_zeros 20 c k) as [c' k']. destruct (layout_text c' k') as [H1 H2].
  split; [|by rewrite has_mark_app, H2, orb_true_r].
  apply number_text_app; [by destruct s|done].
Qed.

(** The text of [x] reads back as [x]. *)
Definition repr_reads_back (x : float) : bool :=
  bool_decide (float_of_string (float_repr x) = Some x).

Lemma float_repr_inj x y :
  repr_reads_back x = true -> repr_reads_back y = true -> float_repr x = float_repr y -> x = y.
Proof.
  unfold repr_reads_back. rewrite !bool_decide_eq_true. intros Hx Hy Heq. congruence.
Qed.
