(* ===== verification/PyTime.v ===== *)
(** * Python datetimes in UTC

    A datetime is an integer: microseconds since 1970-01-01T00:00:00 UTC.
    All datetimes of the service are aware, and it converts them with
    [astimezone(timezone.utc)] before it reads a field, so the offset of the
    original is not kept.  Years 1 to 9999, as in [datetime].

    The notation [YYYY-MM-DDTHH:MM:SSZ] that the store uses round-trips
    ([parse_iso_format]), and its alphabetical order is the order of time
    ([iso_seconds_mono]): the store compares such strings. *)
From Stdlib Require Import ZArith Lia Ascii String.
From stdpp Require Import base list strings.
From S2P Require Import Prelude PyText.
Open Scope Z_scope.

Definition usec : Z := 1000000.

(** ** The calendar *)

(** Day of the 400-year era that starts on 0000-03-01, as year of the era,
    month and day. *)
Definition civil_of_era_day (doe : Z) : Z * Z * Z :=
  let yoe := (doe - doe / 1460 + doe / 36524 - doe / 146096) / 365 in
  let doy := doe - (365 * yoe + yoe / 4 - yoe / 100) in
  let mp := (5 * doy + 2) / 153 in
  let d := doy - (153 * mp + 2) / 5 + 1 in
  let m := if mp <? 10 then mp + 3 else mp - 9 in
  (yoe + (if m <=? 2 then 1 else 0), m, d).

(** Days since the epoch to (year, month, day), and back. *)
Definition civil_of_days (z : Z) : Z * Z * Z :=
  let era := (z + 719468) / 146097 in
  let '(y, m, d) := civil_of_era_day ((z + 719468) mod 146097) in
  (y + 400 * era, m, d).

Definition days_of_civil (y m d : Z) : Z :=
  let y := if m <=? 2 then y - 1 else y in
  let era := y / 400 in
  let yoe := y mod 400 in
  let doy := (153 * (if 2 <? m then m - 3 else m + 9) + 2) / 5 + d - 1 in
  era * 146097 + (yoe * 365 + yoe / 4 - yoe / 100 + doy) - 719468.

Definition is_leap (y : Z) : bool :=
  (y mod 4 =? 0) && (negb (y mod 100 =? 0) || (y mod 400 =? 0)).

Definition days_in_month (y m : Z) : Z :=
  if m =? 2 then (if is_leap y then 29 else 28)
  else if (m =? 4) || (m =? 6) || (m =? 9) || (m =? 11) then 30 else 31.

(** [d.weekday()]: Monday is 0. *)
Definition weekday (days : Z) : Z := (days + 3) mod 7.

(** ** The fields of a datetime *)

Record fields := { f_year : Z; f_month : Z; f_day : Z; f_hour : Z; f_minute : Z; f_second : Z }.

Definition seconds_of (t : Z) : Z := t / usec.

Definition fields_of_seconds (s : Z) : fields :=
  let '(y, m, d) := civil_of_days (s / 86400) in
  let r := s mod 86400 in
  {| f_year := y; f_month := m; f_day := d;
     f_hour := r / 3600; f_minute := r / 60 mod 60; f_second := r mod 60 |}.

Definition seconds_of_fields (f : fields) : Z :=
  days_of_civil (f_year f) (f_month f) (f_day f) * 86400
  + f_hour f * 3600 + f_minute f * 60 + f_second f.

Definition utc_datetime (y m d hh mm ss : Z) : Z :=
  usec * seconds_of_fields
    {| f_year := y; f_month := m; f_day := d; f_hour := hh; f_minute := mm; f_second := ss |}.

(** [t.replace(microsecond=0)] *)
Definition drop_microseconds (t : Z) : Z := usec * seconds_of t.

(** ** Printing *)

Definition dig (n : Z) : ascii := chr (48 + n).
Definition pad2 (n : Z) : list ascii := [dig (n / 10); dig (n mod 10)].
Definition pad4 (n : Z) : list ascii := pad2 (n / 100) ++ pad2 (n mod 100).

Definition iso_date_time (f : fields) : list ascii :=
  pad4 (f_year f) ++ ["-"%char] ++ pad2 (f_month f) ++ ["-"%char] ++ pad2 (f_day f) ++
  ["T"%char] ++ pad2 (f_hour f) ++ [":"%char] ++ pad2 (f_minute f) ++ [":"%char] ++
  pad2 (f_second f).

Definition iso_seconds (s : Z) : string :=
  of_chars (iso_date_time (fields_of_seconds s) ++ ["Z"%char]).

(** [value.astimezone(utc).replace(microsecond=0).isoformat().replace("+00:00", "Z")] *)
Definition iso_format (t : Z) : string := iso_seconds (seconds_of t).

(** [t.strftime("%Y%m%d%H%M%S")], and the first [n] characters of it for the
    shorter formats. *)
Definition compact_format (n : nat) (t : Z) : string :=
  let f := fields_of_seconds (seconds_of t) in
  of_chars (take n (pad4 (f_year f) ++ pad2 (f_month f) ++ pad2 (f_day f) ++
                    pad2 (f_hour f) ++ pad2 (f_minute f) ++ pad2 (f_second f))).

(** ** Parsing: [datetime.fromisoformat(value.replace("Z", "+00:00"))]

    The grammar is the output of [isoformat]: date, [T], time with an optional
    fraction of three or six digits, and an offset.  A string with a character
    that no ISO 8601 form uses is a [ValueError]; the other forms, which some
    versions of Python accept, and naive datetimes are outside the model. *)

Definition num (l : list ascii) : option Z :=
  if forallb is_digit l then Some (digits_value l) else None.

Definition parse_fields (y m d hh mm ss : list ascii) : option fields :=
  match num y, num m, num d, num hh, num mm, num ss with
  | Some y, Some m, Some d, Some hh, Some mm, Some ss =>
      Some {| f_year := y; f_month := m; f_day := d; f_hour := hh; f_minute := mm; f_second := ss |}
  | _, _, _, _, _, _ => None
  end.

Definition fields_ok (f : fields) : bool :=
  (1 <=? f_year f) && (1 <=? f_month f) && (f_month f <=? 12) &&
  (1 <=? f_day f) && (f_day f <=? days_in_month (f_year f) (f_month f)) &&
  (f_hour f <=? 23) && (f_minute f <=? 59) && (f_second f <=? 59).

(** The fraction in microseconds and the rest of the text. *)
Definition parse_fraction (l : list ascii) : option (Z * list ascii) :=
  match l with
  | c :: a :: b :: d :: l' =>
      if Ascii.eqb c "."%char then
        match num [a; b; d], l' with
        | Some ms, e :: f :: g :: l'' =>
            match num [e; f; g] with
            | Some us => Some (1000 * ms + us, l'')
            | None => Some (1000 * ms, l')
            end
        | Some ms, _ => Some (1000 * ms, l')
        | None, _ => None
        end
      else Some (0, l)
  | _ => Some (0, l)
  end.

(** The offset in seconds. *)
Definition parse_offset (l : list ascii) : option Z :=
  match l with
  | [sg; a; b; c; d; e] =>
      match num [a; b], num [d; e] with
      | Some hh, Some mm =>
          if Ascii.eqb c ":"%char && (hh <=? 23) && (mm <=? 59) then
            if Ascii.eqb sg "+"%char then Some (hh * 3600 + mm * 60)
            else if Ascii.eqb sg "-"%char then Some (- (hh * 3600 + mm * 60))
            else None
          else None
      | _, _ => None
      end
  | _ => None
  end.

Definition iso_char (c : ascii) : bool :=
  is_digit c || existsb (Ascii.eqb c) (chars "+-:.,TW ").

Definition not_iso (l : list ascii) : res Z :=
  if forallb iso_char l then Err (Unmodelled "datetime.fromisoformat")
  else Err (ValueError "Invalid isoformat string").

Definition from_isoformat (s : string) : res Z :=
  let l := chars s in
  match l with
  | y1 :: y2 :: y3 :: y4 :: s1 :: m1 :: m2 :: s2 :: d1 :: d2 :: t ::
    h1 :: h2 :: c1 :: n1 :: n2 :: c2 :: e1 :: e2 :: rest =>
      match parse_fields [y1; y2; y3; y4] [m1; m2] [d1; d2] [h1; h2] [n1; n2] [e1; e2],
            parse_fraction rest with
      | Some f, Some (us, rest) =>
          if Ascii.eqb s1 "-"%char && Ascii.eqb s2 "-"%char && Ascii.eqb t "T"%char &&
             Ascii.eqb c1 ":"%char && Ascii.eqb c2 ":"%char then
            match parse_offset rest with
            | Some off =>
                if fields_ok f then Ok (usec * (seconds_of_fields f - off) + us)
                else Err (ValueError "Invalid isoformat string")
            | None => not_iso l
            end
          else not_iso l
      | _, _ => not_iso l
      end
  | _ => not_iso l
  end.

Definition parse_iso (s : string) : res Z := from_isoformat (str_replace_char "Z" "+00:00" s).

(** Seconds of the first and after the last datetime. *)
Definition min_seconds : Z := -62135596800.
Definition max_seconds : Z := 253402300800.
Definition in_range (t : Z) : Prop := min_seconds <= seconds_of t < max_seconds.
Definition in_rangeb (t : Z) : bool :=
  (min_seconds <=? seconds_of t) && (seconds_of t <? max_seconds).

Lemma in_rangeb_spec t : in_rangeb t = true <-> in_range t.
Proof. unfold in_rangeb, in_range. rewrite andb_true_iff, Z.leb_le, Z.ltb_lt. done. Qed.

(** ** Lemmas: the calendar *)

(** First day of year [y] of an era, and its last day. *)
Definition era_start (y : Z) : Z := 365 * y + y / 4 - y / 100.
Definition era_last (y : Z) : Z := if y =? 399 then 146096 else era_start (y + 1) - 1.
Definition year_of_era (doe : Z) : Z := (doe - doe / 1460 + doe / 36524 - doe / 146096) / 365.

Lemma year_of_era_mono a b : 0 <= a <= b -> b < 146097 -> year_of_era a <= year_of_era b.
Proof.
  intros Hab Hb. apply Z.div_le_mono; [lia|].
  Z.div_mod_to_equations. lia.
Qed.

Lemma era_years_check :
  all_from (fun y => (year_of_era (era_start y) =? y) && (year_of_era (era_last y) =? y)
                     && (era_last y - era_start y =? (if is_leap (y + 1) then 365 else 364)))
           400 0 = true.
Proof. vm_compute. reflexivity. Qed.

Lemma era_year y :
  0 <= y < 400 ->
  year_of_era (era_start y) = y /\ year_of_era (era_last y) = y /\
  era_last y - era_start y = (if is_leap (y + 1) then 365 else 364).
Proof.
  intros Hy. pose proof (all_from_spec _ _ _ y era_years_check ltac:(lia)) as H.
  rewrite !andb_true_iff, !Z.eqb_eq in H. tauto.
Qed.

Lemma year_of_era_bounds doe :
  0 <= doe < 146097 ->
  0 <= year_of_era doe < 400 /\ era_start (year_of_era doe) <= doe <= era_last (year_of_era doe).
Proof.
  intros Hdoe.
  assert (0 <= year_of_era doe < 400) as Hy.
  { pose proof (year_of_era_mono 0 doe ltac:(lia) ltac:(lia)) as H0.
    pose proof (year_of_era_mono doe 146096 ltac:(lia) ltac:(lia)) as H1.
    change (year_of_era 0) with 0 in H0. change (year_of_era 146096) with 399 in H1. lia. }
  split; [done|]. set (y := year_of_era doe) in *. split; apply Z.nlt_ge; intros Hlt.
  - destruct (Z.eq_dec y 0) as [Hy0|Hy0]; [rewrite Hy0 in Hlt; change (era_start 0) with 0 in Hlt; lia|].
    destruct (era_year (y - 1)) as (_ & Hl & _); [lia|].
    pose proof (year_of_era_mono doe (era_last (y - 1))) as Hm.
    unfold era_last in *. destruct (Z.eqb_spec (y - 1) 399); [lia|].
    replace (y - 1 + 1) with y in * by lia.
    assert (era_start y <= 146096) by (unfold era_start; Z.div_mod_to_equations; lia).
    fold y in Hm. lia.
  - destruct (Z.eq_dec y 399) as [Hy9|Hy9]; [rewrite Hy9 in Hlt; change (era_last 399) with 146096 in Hlt; lia|].
    destruct (era_year (y + 1)) as (Hs & _ & _); [lia|].
    pose proof (year_of_era_mono (era_start (y + 1)) doe) as Hm.
    unfold era_last in Hlt. destruct (Z.eqb_spec y 399); [lia|].
    assert (0 <= era_start (y + 1)) by (unfold era_start; Z.div_mod_to_equations; lia).
    fold y in Hm. lia.
Qed.

Definition month_day (doy : Z) : Z * Z :=
  let mp := (5 * doy + 2) / 153 in
  (if mp <? 10 then mp + 3 else mp - 9, doy - (153 * mp + 2) / 5 + 1).

Definition month_day_ok (doy : Z) : bool :=
  let '(m, d) := month_day doy in
  (1 <=? m) && (m <=? 12) && (1 <=? d) &&
  (d <=? (if doy =? 365 then 29 else days_in_month 1 m)) &&
  (if doy =? 365 then m =? 2 else true) &&
  ((153 * (if 2 <? m then m - 3 else m + 9) + 2) / 5 + d - 1 =? doy).

Lemma month_day_check : all_from month_day_ok 366 0 = true.
Proof. vm_compute. reflexivity. Qed.

Lemma is_leap_period y k : is_leap (y + 400 * k) = is_leap y.
Proof.
  unfold is_leap.
  replace (y + 400 * k) with (y + (100 * k) * 4) at 1 by ring. rewrite Z.mod_add by lia.
  replace (y + 400 * k) with (y + (4 * k) * 100) at 1 by ring. rewrite Z.mod_add by lia.
  replace (y + 400 * k) with (y + k * 400) by ring. by rewrite Z.mod_add by lia.
Qed.

Definition valid_date (c : Z * Z * Z) : Prop :=
  let '(y, m, d) := c in 1 <= m <= 12 /\ 1 <= d <= days_in_month y m.

Lemma days_in_month_common y m : days_in_month 1 m <= days_in_month y m.
Proof. unfold days_in_month. destruct (m =? 2); [|done]. simpl. destruct (is_leap y); lia. Qed.

Lemma civil_of_days_ok z :
  valid_date (civil_of_days z) /\
  (let '(y, m, d) := civil_of_days z in days_of_civil y m d) = z.
Proof.
  unfold civil_of_days, civil_of_era_day. set (n := z + 719468).
  pose proof (Z.mod_pos_bound n 146097 ltac:(lia)) as Hdoe. set (doe := n mod 146097) in *.
  fold (year_of_era doe).
  destruct (year_of_era_bounds doe Hdoe) as (Hy & Hs).
  destruct (era_year _ Hy) as (_ & _ & Hlen). set (yoe := year_of_era doe) in *.
  fold (era_start yoe). set (doy := doe - era_start yoe).
  assert (0 <= doy <= (if is_leap (yoe + 1) then 365 else 364)) as Hdoy by (unfold doy; lia).
  pose proof (all_from_spec _ _ _ doy month_day_check) as Hmd.
  unfold month_day_ok, month_day in Hmd.
  set (mp := (5 * doy + 2) / 153) in *. set (m := if mp <? 10 then mp + 3 else mp - 9) in *.
  set (d := doy - (153 * mp + 2) / 5 + 1) in *. cbv zeta in Hmd.
  specialize (Hmd ltac:(destruct (is_leap (yoe + 1)); lia)).
  rewrite !andb_true_iff, !Z.leb_le, Z.eqb_eq in Hmd.
  destruct Hmd as (((((Hm1 & Hm2) & Hd1) & Hd2) & H365) & Hback).
  set (era := n / 146097).
  assert (n = era * 146097 + doe) as Hn by (unfold era, doe; pose proof (Z.div_mod n 146097); lia).
  split; [split; [lia|split; [lia|]]|].
  - destruct (Z.eqb_spec doy 365) as [Heq|Hne].
    + apply Z.eqb_eq in H365.
      assert (is_leap (yoe + 1 + 400 * era) = true) as Hleap
        by (rewrite is_leap_period; destruct (is_leap (yoe + 1)); [done|lia]).
      rewrite H365. unfold days_in_month. change (2 =? 2) with true.
      change (2 <=? 2) with true. cbv iota. rewrite Hleap. lia.
    + etransitivity; [exact Hd2|]. apply days_in_month_common.
  - unfold days_of_civil. rewrite Hback.
    assert ((if m <=? 2 then yoe + (if m <=? 2 then 1 else 0) + 400 * era - 1
             else yoe + (if m <=? 2 then 1 else 0) + 400 * era) = yoe + era * 400) as ->
      by (destruct (m <=? 2); lia).
    rewrite Z.div_add, Z.mod_add, Z.div_small, (Z.mod_small yoe) by lia.
    unfold doy, era_start. unfold n in Hn. lia.
Qed.

Lemma civil_of_days_roundtrip z :
  let '(y, m, d) := civil_of_days z in days_of_civil y m d = z.
Proof. pose proof (civil_of_days_ok z) as [_ H]. by destruct (civil_of_days z) as [[y m] d]. Qed.

Lemma civil_of_days_valid z : valid_date (civil_of_days z).
Proof. apply civil_of_days_ok. Qed.

(** Calendar order of dates. *)
Definition date_lt (c1 c2 : Z * Z * Z) : Prop :=
  let '(y1, m1, d1) := c1 in let '(y2, m2, d2) := c2 in
  y1 < y2 \/ (y1 = y2 /\ (m1 < m2 \/ (m1 = m2 /\ d1 < d2))).

(** The number of a day, years counted from March. *)
Lemma days_of_civil_march y m d :
  days_of_civil y m d =
  let y' := if m <=? 2 then y - 1 else y in
  365 * y' + y' / 4 - y' / 100 + y' / 400 +
  (153 * (if 2 <? m then m - 3 else m + 9) + 2) / 5 + d - 1 - 719468.
Proof.
  unfold days_of_civil. cbv zeta. set (y' := if m <=? 2 then y - 1 else y).
  set (k := (153 * _ + 2) / 5). clearbody y' k. Z.div_mod_to_equations. lia.
Qed.

Lemma is_leap_count y :
  (y + 1) / 4 - (y + 1) / 100 + (y + 1) / 400 =
  y / 4 - y / 100 + y / 400 + (if is_leap (y + 1) then 1 else 0).
Proof.
  unfold is_leap.
  destruct (Z.eqb_spec ((y + 1) mod 4) 0); destruct (Z.eqb_spec ((y + 1) mod 100) 0);
    destruct (Z.eqb_spec ((y + 1) mod 400) 0); simpl; Z.div_mod_to_equations; lia.
Qed.

(** The year and month counted from March, and the day of that year. *)
Definition march_year (y m : Z) : Z := if m <=? 2 then y - 1 else y.
Definition march_month (m : Z) : Z := if 2 <? m then m - 3 else m + 9.
Definition year_days (y : Z) : Z := 365 * y + y / 4 - y / 100 + y / 400.
Definition march_doy (m d : Z) : Z := (153 * march_month m + 2) / 5 + d - 1.

Lemma year_days_succ y : year_days (y + 1) = year_days y + 365 + (if is_leap (y + 1) then 1 else 0).
Proof. unfold year_days. pose proof (is_leap_count y). lia. Qed.

Lemma year_days_mono y1 y2 : y1 <= y2 -> year_days y1 <= year_days y2.
Proof. unfold year_days. intros. Z.div_mod_to_equations. lia. Qed.

Lemma month_cases m :
  1 <= m <= 12 ->
  m = 1 \/ m = 2 \/ m = 3 \/ m = 4 \/ m = 5 \/ m = 6 \/ m = 7 \/ m = 8 \/ m = 9 \/
  m = 10 \/ m = 11 \/ m = 12.
Proof. lia. Qed.

Lemma march_doy_bounds y m d :
  valid_date (y, m, d) ->
  0 <= march_doy m d <= 364 + (if is_leap (march_year y m + 1) then 1 else 0) /\
  forall m', 1 <= m' <= 12 -> march_month m < march_month m' ->
    march_doy m d < (153 * march_month m' + 2) / 5.
Proof.
  intros [Hm Hd]. unfold march_doy, march_month, march_year, days_in_month in *.
  split.
  - destruct (month_cases m Hm) as [->|[->|[->|[->|[->|[->|[->|[->|[->|[->|[->| ->]]]]]]]]]]];
      simpl in *; try (destruct (is_leap (y + 1))); Z.div_mod_to_equations;
      rewrite ?Z.sub_add; try destruct (is_leap y); lia.
  - intros m' Hm' Hlt.
    destruct (month_cases m Hm) as [->|[->|[->|[->|[->|[->|[->|[->|[->|[->|[->| ->]]]]]]]]]]];
      simpl in *; try (destruct (is_leap y));
      Z.div_mod_to_equations; destruct (2 <? m') eqn:E; lia.
Qed.

Lemma days_of_civil_mono c1 c2 :
  valid_date c1 -> valid_date c2 -> date_lt c1 c2 ->
  (let '(y, m, d) := c1 in days_of_civil y m d) < (let '(y, m, d) := c2 in days_of_civil y m d).
Proof.
  destruct c1 as [[y1 m1] d1], c2 as [[y2 m2] d2]. intros V1 V2 Hlt.
  rewrite !days_of_civil_march. cbv zeta.
  fold (march_year y1 m1) (march_year y2 m2) (march_month m1) (march_month m2).
  fold (year_days (march_year y1 m1)) (year_days (march_year y2 m2)).
  destruct (march_doy_bounds _ _ _ V1) as [B1 N1]. destruct (march_doy_bounds _ _ _ V2) as [B2 _].
  unfold march_doy in *. destruct V1 as [Hm1 Hd1], V2 as [Hm2 Hd2].
  assert (march_year y1 m1 < march_year y2 m2 \/
          (march_year y1 m1 = march_year y2 m2 /\
           (march_month m1 < march_month m2 \/ (m1 = m2 /\ d1 < d2)))) as Hcase.
  { unfold date_lt, march_year, march_month in *.
    destruct (Z.leb_spec m1 2), (Z.leb_spec m2 2), (Z.ltb_spec 2 m1), (Z.ltb_spec 2 m2); lia. }
  destruct Hcase as [Hy|[-> [Hmm|[-> Hdd]]]].
  - pose proof (year_days_succ (march_year y1 m1)).
    pose proof (year_days_mono (march_year y1 m1 + 1) (march_year y2 m2)). lia.
  - specialize (N1 m2 Hm2 Hmm). lia.
  - lia.
Qed.

Lemma date_trichotomy c1 c2 : date_lt c1 c2 \/ c1 = c2 \/ date_lt c2 c1.
Proof.
  destruct c1 as [[y1 m1] d1], c2 as [[y2 m2] d2]. unfold date_lt.
  destruct (Z.lt_trichotomy y1 y2) as [?|[->|?]]; [lia| |lia].
  destruct (Z.lt_trichotomy m1 m2) as [?|[->|?]]; [lia| |lia].
  destruct (Z.lt_trichotomy d1 d2) as [?|[->|?]]; [lia|auto|lia].
Qed.

Lemma civil_of_days_mono z1 z2 : z1 < z2 -> date_lt (civil_of_days z1) (civil_of_days z2).
Proof.
  intros Hz. destruct (civil_of_days_ok z1) as [V1 E1], (civil_of_days_ok z2) as [V2 E2].
  destruct (date_trichotomy (civil_of_days z1) (civil_of_days z2)) as [H|[H|H]]; [done| |].
  - rewrite H, E2 in E1. lia.
  - apply days_of_civil_mono in H; [|done..]. rewrite E1, E2 in H. lia.
Qed.

(** ** Lemmas: the fields of a datetime *)

Definition fields_list (f : fields) : list Z :=
  [f_year f; f_month f; f_day f; f_hour f; f_minute f; f_second f].

Definition fields_valid (f : fields) : Prop :=
  valid_date (f_year f, f_month f, f_day f) /\
  0 <= f_hour f < 24 /\ 0 <= f_minute f < 60 /\ 0 <= f_second f < 60.

Lemma fields_of_seconds_valid s : fields_valid (fields_of_seconds s).
Proof.
  unfold fields_of_seconds. pose proof (civil_of_days_valid (s / 86400)) as Hv.
  destruct (civil_of_days (s / 86400)) as [[y m] d].
  split; [exact Hv|]. cbn. Z.div_mod_to_equations. lia.
Qed.

Lemma seconds_of_fields_of_seconds s : seconds_of_fields (fields_of_seconds s) = s.
Proof.
  unfold fields_of_seconds, seconds_of_fields.
  pose proof (civil_of_days_roundtrip (s / 86400)) as Hr.
  destruct (civil_of_days (s / 86400)) as [[y m] d]. cbn. rewrite Hr.
  Z.div_mod_to_equations. lia.
Qed.

(** Lexicographic order of lists of the same length. *)
Fixpoint lex_lt (l1 l2 : list Z) : Prop :=
  match l1, l2 with
  | a :: l1, b :: l2 => a < b \/ (a = b /\ lex_lt l1 l2)
  | _, _ => False
  end.

Lemma fields_of_seconds_mono s1 s2 :
  s1 < s2 -> lex_lt (fields_list (fields_of_seconds s1)) (fields_list (fields_of_seconds s2)).
Proof.
  intros Hs. unfold fields_of_seconds, fields_list.
  destruct (Z.lt_ge_cases (s1 / 86400) (s2 / 86400)) as [Hd|Hd].
  - apply civil_of_days_mono in Hd.
    destruct (civil_of_days (s1 / 86400)) as [[y1 m1] d1],
             (civil_of_days (s2 / 86400)) as [[y2 m2] d2]. cbn in *. lia.
  - assert (s1 / 86400 = s2 / 86400) as Heq
      by (pose proof (Z.div_le_mono s1 s2 86400); lia).
    rewrite Heq. destruct (civil_of_days (s2 / 86400)) as [[y2 m2] d2]. cbn.
    assert (s1 mod 86400 < s2 mod 86400) by (Z.div_mod_to_equations; lia).
    do 3 (right; split; [done|]).
    set (r1 := s1 mod 86400) in *. set (r2 := s2 mod 86400) in *. clearbody r1 r2.
    Z.div_mod_to_equations. lia.
Qed.

(** ** Lemmas: printing and parsing *)

Lemma code_dig n : 0 <= n < 10 -> code (dig n) = 48 + n.
Proof. intros. unfold dig. apply code_chr. lia. Qed.

Lemma is_digit_dig n : 0 <= n < 10 -> is_digit (dig n) = true.
Proof. intros. unfold is_digit. rewrite code_dig by done. lia. Qed.

Lemma digit_value_dig n : 0 <= n < 10 -> digit_value (dig n) = n.
Proof. intros. unfold digit_value. rewrite code_dig by done. lia. Qed.

Lemma dig_neq n c : 0 <= n < 10 -> is_digit c = false -> Ascii.eqb (dig n) c = false.
Proof.
  intros Hn Hc. apply Ascii.eqb_neq. intros <-. by rewrite is_digit_dig in Hc.
Qed.

Lemma num_pad2 n : 0 <= n < 100 -> num (pad2 n) = Some n.
Proof.
  intros Hn. assert (0 <= n / 10 < 10 /\ 0 <= n mod 10 < 10) as [H1 H2]
    by (Z.div_mod_to_equations; lia).
  unfold num, pad2. simpl. rewrite !is_digit_dig by done. simpl. f_equal.
  unfold digits_value. simpl. rewrite !digit_value_dig by done. Z.div_mod_to_equations. lia.
Qed.

Lemma num_pad4 n : 0 <= n < 10000 -> num (pad4 n) = Some n.
Proof.
  intros Hn.
  assert (0 <= n / 100 / 10 < 10 /\ 0 <= (n / 100) mod 10 < 10 /\
          0 <= n mod 100 / 10 < 10 /\ 0 <= (n mod 100) mod 10 < 10) as (H1 & H2 & H3 & H4)
    by (Z.div_mod_to_equations; lia).
  unfold num, pad4, pad2. simpl. rewrite !is_digit_dig by done. simpl. f_equal.
  unfold digits_value. simpl. rewrite !digit_value_dig by done. Z.div_mod_to_equations. lia.
Qed.

Lemma chars_concat l : chars (String.concat "" l) = concat (map chars l).
Proof.
  induction l as [|s l IH]; [done|]. destruct l as [|s' l].
  - simpl. by rewrite app_nil_r.
  - change (chars (s +:+ String.concat "" (s' :: l)) = chars s ++ concat (map chars (s' :: l))).
    by rewrite chars_app, IH.
Qed.

Lemma chars_replace old new s :
  chars (str_replace_char old new s) =
  concat (map (fun c => if Ascii.eqb c old then chars new else [c]) (chars s)).
Proof.
  unfold str_replace_char. rewrite chars_concat, map_map. f_equal. apply map_ext.
  intros c. by destruct (Ascii.eqb c old).
Qed.

Lemma replace_none old new l :
  forallb (fun c => negb (Ascii.eqb c old)) l = true ->
  concat (map (fun c => if Ascii.eqb c old then chars new else [c]) l) = l.
Proof.
  induction l as [|c l IH]; simpl; [done|]. rewrite andb_true_iff, negb_true_iff.
  intros [-> Hl]. by rewrite IH.
Qed.

Definition in_year_range (f : fields) : Prop := 1 <= f_year f <= 9999.

Lemma valid_date_month_day y m d : valid_date (y, m, d) -> 1 <= m <= 12 /\ 1 <= d <= 31.
Proof.
  intros [Hm Hd]. split; [done|]. split; [lia|]. etransitivity; [apply Hd|].
  unfold days_in_month. repeat case_match; lia.
Qed.

Lemma pad2_no_Z n : 0 <= n < 100 -> forallb (fun c => negb (Ascii.eqb c "Z")) (pad2 n) = true.
Proof.
  intros Hn. unfold pad2. simpl. rewrite !dig_neq; [done|..]; try done;
  Z.div_mod_to_equations; lia.
Qed.

Lemma iso_date_time_no_Z f :
  fields_valid f -> in_year_range f ->
  forallb (fun c => negb (Ascii.eqb c "Z")) (iso_date_time f) = true.
Proof.
  intros (Hd & Hh & Hm & Hs) Hy. apply valid_date_month_day in Hd. unfold in_year_range in Hy.
  unfold iso_date_time, pad4.
  rewrite !forallb_app, !pad2_no_Z; try done; Z.div_mod_to_equations; lia.
Qed.

Lemma fields_ok_valid f : fields_valid f -> in_year_range f -> fields_ok f = true.
Proof.
  intros ([Hm Hd] & H1 & H2 & H3) Hy. unfold in_year_range in Hy. unfold fields_ok.
  rewrite !andb_true_iff, !Z.leb_le. lia.
Qed.

Lemma from_isoformat_date_time f :
  fields_valid f -> in_year_range f ->
  from_isoformat (of_chars (iso_date_time f ++ chars "+00:00")) = Ok (usec * seconds_of_fields f).
Proof.
  intros Hv Hy. pose proof (fields_ok_valid f Hv Hy) as Hok.
  destruct Hv as (Hd & Hh & Hm & Hs). apply valid_date_month_day in Hd as [Hmo Hda].
  unfold in_year_range in Hy.
  pose proof (num_pad4 (f_year f) ltac:(lia)) as E1.
  pose proof (num_pad2 (f_month f) ltac:(lia)) as E2.
  pose proof (num_pad2 (f_day f) ltac:(lia)) as E3.
  pose proof (num_pad2 (f_hour f) ltac:(lia)) as E4.
  pose proof (num_pad2 (f_minute f) ltac:(lia)) as E5.
  pose proof (num_pad2 (f_second f) ltac:(lia)) as E6.
  unfold from_isoformat. rewrite chars_of_chars.
  unfold iso_date_time. unfold pad4, pad2 in *. cbn [app chars list_ascii_of_string].
  unfold parse_fields. cbn [app] in E1. rewrite E1, E2, E3, E4, E5, E6.
  destruct f as [y m d hh mm ss]. cbn [f_year f_month f_day f_hour f_minute f_second] in *.
  cbn -[num fields_ok seconds_of_fields usec Z.mul Z.sub Z.add]. rewrite Hok. 
  change (num ["0"%char; "0"%char]) with (Some 0).
  cbn -[seconds_of_fields usec Z.mul Z.sub Z.add]. change (0 * 3600 + 0 * 60) with 0.
  by rewrite Z.sub_0_r, Z.add_0_r.
Qed.

Lemma year_in_range s :
  min_seconds <= s < max_seconds -> in_year_range (fields_of_seconds s).
Proof.
  unfold min_seconds, max_seconds, in_year_range. intros Hs.
  destruct (fields_of_seconds_valid s) as ([Hm Hd] & Hh & Hmi & Hse).
  assert (1 <= f_year (fields_of_seconds s)).
  { destruct (Z.eq_dec s (-62135596800)) as [->|]; [by vm_compute|].
    pose proof (fields_of_seconds_mono (-62135596800) s ltac:(lia)) as H.
    change (fields_list (fields_of_seconds (-62135596800))) with [1; 1; 1; 0; 0; 0] in H.
    destruct (fields_of_seconds s). cbn in *. lia. }
  pose proof (fields_of_seconds_mono s 253402300800 ltac:(lia)) as H'.
  change (fields_list (fields_of_seconds 253402300800)) with [10000; 1; 1; 0; 0; 0] in H'.
  destruct (fields_of_seconds s). cbn in *. lia.
Qed.

(** The notation of the store reads back as the second it was printed from. *)
Lemma parse_iso_seconds s :
  min_seconds <= s < max_seconds -> parse_iso (iso_seconds s) = Ok (usec * s).
Proof.
  intros Hs. pose proof (year_in_range s Hs) as Hy.
  pose proof (fields_of_seconds_valid s) as Hv.
  unfold parse_iso. rewrite <- (of_chars_chars (str_replace_char _ _ _)), chars_replace.
  unfold iso_seconds. rewrite chars_of_chars, map_app, concat_app.
  rewrite replace_none by (by apply iso_date_time_no_Z).
  change (concat (map _ ["Z"%char])) with (chars "+00:00").
  rewrite from_isoformat_date_time by done. by rewrite seconds_of_fields_of_seconds.
Qed.

Lemma parse_iso_format t : in_range t -> parse_iso (iso_format t) = Ok (drop_microseconds t).
Proof. intros Ht. by apply parse_iso_seconds. Qed.

(** ** Lemmas: the order of printed times *)

Lemma compare_of_chars_app p l1 l2 :
  String.compare (of_chars (p ++ l1)) (of_chars (p ++ l2)) =
  String.compare (of_chars l1) (of_chars l2).
Proof. induction p as [|a p IH]; simpl; [done|]. by rewrite ascii_compare_refl. Qed.

Lemma compare_code_lt a b l1 l2 :
  code a < code b -> String.compare (of_chars (a :: l1)) (of_chars (b :: l2)) = Lt.
Proof.
  unfold code. intros Hab. simpl. unfold Ascii.compare.
  destruct (N.compare_spec (N_of_ascii a) (N_of_ascii b)); try done; lia.
Qed.

Lemma compare_pad2_lt a b l1 l2 :
  0 <= a < b -> b < 100 ->
  String.compare (of_chars (pad2 a ++ l1)) (of_chars (pad2 b ++ l2)) = Lt.
Proof.
  intros Hab Hb. unfold pad2. cbn [app].
  destruct (Z.eq_dec (a / 10) (b / 10)) as [Heq|Hne].
  - rewrite Heq.
    etransitivity; [exact (compare_of_chars_app [dig (b / 10)] (dig (a mod 10) :: l1) (dig (b mod 10) :: l2))|].
    apply compare_code_lt. rewrite !code_dig; Z.div_mod_to_equations; lia.
  - apply compare_code_lt. rewrite !code_dig; Z.div_mod_to_equations; lia.
Qed.

Lemma compare_pad4_lt a b l1 l2 :
  0 <= a < b -> b < 10000 ->
  String.compare (of_chars (pad4 a ++ l1)) (of_chars (pad4 b ++ l2)) = Lt.
Proof.
  intros Hab Hb. unfold pad4. rewrite <- !app_assoc.
  destruct (Z.eq_dec (a / 100) (b / 100)) as [Heq|Hne].
  - rewrite Heq, compare_of_chars_app. apply compare_pad2_lt; Z.div_mod_to_equations; lia.
  - apply compare_pad2_lt; Z.div_mod_to_equations; lia.
Qed.

Lemma iso_date_time_mono f g x y :
  fields_valid f -> fields_valid g -> in_year_range f -> in_year_range g ->
  lex_lt (fields_list f) (fields_list g) ->
  String.compare (of_chars (iso_date_time f ++ x)) (of_chars (iso_date_time g ++ y)) = Lt.
Proof.
  intros (Df & Hf1 & Hf2 & Hf3) (Dg & Hg1 & Hg2 & Hg3) Yf Yg Hlt.
  apply valid_date_month_day in Df, Dg. unfold in_year_range in *.
  destruct f as [y1 mo1 d1 h1 mi1 s1], g as [y2 mo2 d2 h2 mi2 s2].
  cbn [f_year f_month f_day f_hour f_minute f_second fields_list lex_lt] in *.
  unfold iso_date_time. cbn [f_year f_month f_day f_hour f_minute f_second].
  rewrite <- !app_assoc.
  destruct Hlt as [Hlt|[-> Hlt]]; [apply compare_pad4_lt; lia|].
  rewrite !compare_of_chars_app.
  destruct Hlt as [Hlt|[-> Hlt]]; [apply compare_pad2_lt; lia|].
  rewrite !compare_of_chars_app.
  destruct Hlt as [Hlt|[-> Hlt]]; [apply compare_pad2_lt; lia|].
  rewrite !compare_of_chars_app.
  destruct Hlt as [Hlt|[-> Hlt]]; [apply compare_pad2_lt; lia|].
  rewrite !compare_of_chars_app.
  destruct Hlt as [Hlt|[-> Hlt]]; [apply compare_pad2_lt; lia|].
  rewrite !compare_of_chars_app.
  destruct Hlt as [Hlt|[_ []]]. apply compare_pad2_lt; lia.
Qed.

(** Alphabetical order of printed times is the order of time. *)
Lemma iso_seconds_mono s1 s2 :
  min_seconds <= s1 -> s2 < max_seconds -> s1 < s2 ->
  String.compare (iso_seconds s1) (iso_seconds s2) = Lt.
Proof.
  intros H1 H2 Hlt. apply iso_date_time_mono;
    auto using fields_of_seconds_valid, fields_of_seconds_mono.
  - apply year_in_range. lia.
  - apply year_in_range. lia.
Qed.

Lemma iso_format_leb t1 t2 :
  in_range t1 -> in_range t2 ->
  String.leb (iso_format t1) (iso_format t2) = (seconds_of t1 <=? seconds_of t2).
Proof.
  unfold in_range, String.leb, iso_format. intros H1 H2.
  destruct (Z.leb_spec (seconds_of t1) (seconds_of t2)) as [Hle|Hgt].
  - destruct (Z.eq_dec (seconds_of t1) (seconds_of t2)) as [->|].
    + by rewrite string_compare_refl.
    + rewrite iso_seconds_mono; [done|lia..].
  - rewrite String.compare_antisym, iso_seconds_mono; [done|lia..].
Qed.

Lemma iso_format_ltb t1 t2 :
  in_range t1 -> in_range t2 ->
  String.ltb (iso_format t1) (iso_format t2) = (seconds_of t1 <? seconds_of t2).
Proof.
  unfold in_range, String.ltb, iso_format. intros H1 H2.
  destruct (Z.ltb_spec (seconds_of t1) (seconds_of t2)) as [Hle|Hgt].
  - rewrite iso_seconds_mono; [done|lia..].
  - destruct (Z.eq_dec (seconds_of t1) (seconds_of t2)) as [->|].
    + by rewrite string_compare_refl.
    + rewrite String.compare_antisym, iso_seconds_mono; [done|lia..].
Qed.
