(* ===== verification/PyValue.v ===== *)
(** * Python values and the operators the service applies to them

    The service keeps its rows as dictionaries with string keys, fields may be
    missing or [None], and the same field may hold an integer or a float.  A
    value is therefore dynamic, and an operator raises what Python raises.
    Tuples are lists; [deepcopy] is the identity, values being immutable. *)
From Stdlib Require Import ZArith Lia Ascii String SpecFloat Permutation.
From stdpp Require Import base list strings.
From S2P Require Import Prelude PyText PyFloat PyTime.
Open Scope Z_scope.

#[warnings="-register-all"]
Inductive value :=
| VNone
| VBool (b : bool)
| VInt (n : Z)
| VFloat (x : float)
| VStr (s : string)
| VTime (t : Z)
| VList (l : list value)
| VDict (d : list (string * value)).

Abbreviation dict := (list (string * value)).

(** ** Reading and writing dictionaries *)

Definition dget_or (d : dict) (k : string) (v : value) : value :=
  match aget k d with Some v' => v' | None => v end.
(** [d.get(k)] *)
Definition dget (d : dict) (k : string) : value := dget_or d k VNone.
(** [d[k]] *)
Definition dgetitem (d : dict) (k : string) : res value := of_option (aget k d) (KeyError k).
(** [k in d] *)
Definition dhas (d : dict) (k : string) : bool := ahas k d.
Definition dset (d : dict) (k : string) (v : value) : dict := aset k v d.
(** [{**d, **u}], [d.update(u)] *)
Definition dupdate (d u : dict) : dict := aupdate d u.

Definition is_none (v : value) : bool := match v with VNone => true | _ => false end.

(** [bool(v)] *)
Definition truthy (v : value) : bool :=
  match v with
  | VNone => false
  | VBool b => b
  | VInt n => negb (n =? 0)
  | VFloat x => negb (is_zero x)
  | VStr s => negb (String.eqb s "")
  | VTime _ => true
  | VList l => match l with [] => false | _ => true end
  | VDict d => match d with [] => false | _ => true end
  end.

(** [a or b] *)
Definition por (a b : value) : value := if truthy a then a else b.

(** [v is True] *)
Definition is_true (v : value) : bool := match v with VBool true => true | _ => false end.

Definition vopt (o : option value) : value := match o with Some v => v | None => VNone end.
Definition vopt_str (o : option string) : value :=
  match o with Some s => VStr s | None => VNone end.

(** Calling [.get] on something that is not a dictionary. *)
Definition as_dict (v : value) : res dict :=
  match v with VDict d => Ok d | _ => Err AttributeError end.
(** Iterating over something that is not a list. *)
Definition as_list (v : value) : res (list value) :=
  match v with VList l => Ok l | VDict d => Ok (map VStr (akeys d)) | _ => Err TypeError end.
Definition as_str (v : value) : res string :=
  match v with VStr s => Ok s | _ => Err TypeError end.
(** The datetimes of the service: a stored one, or its ISO notation. *)
Definition as_utc_datetime (v : value) : res Z :=
  match v with
  | VTime t => Ok t
  | VStr s => parse_iso s
  | _ => Err AttributeError
  end.

(** A dictionary key: addresses and ids are strings. *)
Definition as_key (v : value) : res string :=
  match v with
  | VStr s => Ok s
  | VList _ | VDict _ => Err TypeError
  | _ => Err (Unmodelled "key that is not a string")
  end.

(** [l[:limit]]; a negative limit counts from the end. *)
Definition py_take {A} (limit : Z) (l : list A) : list A :=
  take (Z.to_nat (if 0 <=? limit then limit else Z.of_nat (length l) + limit)) l.
Definition opt_take {A} (limit : option Z) (l : list A) : list A :=
  match limit with Some n => py_take n l | None => l end.

(** ** Numbers *)

Inductive number := NInt (n : Z) | NFloat (x : float).

Definition number_of (v : value) : option number :=
  match v with
  | VBool b => Some (NInt (if b then 1 else 0))
  | VInt n => Some (NInt n)
  | VFloat x => Some (NFloat x)
  | _ => None
  end.

(** [None] for a NaN. *)
Definition num_compare (a b : number) : option comparison :=
  match a, b with
  | NInt x, NInt y => Some (x ?= y)
  | NFloat x, NFloat y => SFcompare x y
  | NFloat x, NInt y => fcompare_Z x y
  | NInt x, NFloat y => option_map CompOpp (fcompare_Z y x)
  end.

Definition num_float (a : number) : res float :=
  match a with NInt n => float_of_int n | NFloat x => Ok x end.

Definition arith (fz : Z -> Z -> Z) (ff : float -> float -> float) (a b : value) : res value :=
  match number_of a, number_of b with
  | Some (NInt x), Some (NInt y) => Ok (VInt (fz x y))
  | Some x, Some y =>
      let? x := num_float x in let? y := num_float y in Ok (VFloat (ff x y))
  | _, _ => Err TypeError
  end.

Definition py_add : value -> value -> res value := arith Z.add fadd.
Definition py_sub : value -> value -> res value := arith Z.sub fsub.
Definition py_mul : value -> value -> res value := arith Z.mul fmul.

(** [a / b] *)
Definition py_truediv (a b : value) : res float :=
  match number_of a, number_of b with
  | Some (NInt x), Some (NInt y) => int_truediv x y
  | Some x, Some y =>
      let? x := num_float x in let? y := num_float y in fdiv x y
  | _, _ => Err TypeError
  end.

(** [int(v)] *)
Definition py_int (v : value) : res Z :=
  match v with
  | VBool b => Ok (if b then 1 else 0)
  | VInt n => Ok n
  | VFloat x => f_trunc x
  | VStr s => of_option (Z_of_string s) (ValueError "invalid literal for int()")
  | _ => Err TypeError
  end.

(** [float(v)] *)
Definition py_float (v : value) : res float :=
  match v with
  | VBool b => Ok (f_of_Z (if b then 1 else 0))
  | VInt n => float_of_int n
  | VFloat x => Ok x
  | VStr s => of_option (float_of_string s) (ValueError "could not convert string to float")
  | _ => Err TypeError
  end.

(** A value that the code computes with as an integer. *)
Definition as_int (v : value) : res Z :=
  match v with
  | VInt n => Ok n
  | VBool b => Ok (if b then 1 else 0)
  | VFloat _ => Err (Unmodelled "float where an integer is stored")
  | _ => Err TypeError
  end.

(** [round(v, k)] *)
Definition py_round (k : Z) (v : value) : res value :=
  match number_of v with
  | Some (NInt n) => Ok (VInt n)
  | Some (NFloat x) => Ok (VFloat (round_digits k x))
  | None => Err TypeError
  end.

(** [int(d.get(k, dflt) or 0)], [float(d.get(k, dflt) or dflt)] *)
Definition int_or_zero (v : value) : res Z := py_int (por v (VInt 0)).

(** ** Text *)

(** [str(v)] and the interpolation of [v] in an f-string. *)
Definition py_str (v : value) : res string :=
  match v with
  | VNone => Ok "None"
  | VBool b => Ok (if b then "True" else "False")
  | VInt n => Ok (string_of_Z n)
  | VFloat x => Ok (float_repr x)
  | VStr s => Ok s
  | _ => Err (Unmodelled "str of a container or datetime")
  end.

(** [str(v or "")] *)
Definition str_or_empty (v : value) : res string := py_str (por v (VStr "")).

(** ** Equality and order *)

(** [a == b] *)
Fixpoint py_eq (a b : value) {struct a} : bool :=
  match a, b with
  | VNone, VNone => true
  | VStr s, VStr s' => String.eqb s s'
  | VTime t, VTime t' => t =? t'
  | VList l, VList l' =>
      (fix go (l l' : list value) : bool :=
         match l, l' with
         | [], [] => true
         | x :: l, y :: l' => py_eq x y && go l l'
         | _, _ => false
         end) l l'
  | VDict d, VDict d' =>
      Nat.eqb (length d) (length d') &&
      (fix go (d : dict) : bool :=
         match d with
         | [] => true
         | (k, x) :: d =>
             match aget k d' with Some y => py_eq x y | None => false end && go d
         end) d
  | _, _ =>
      match number_of a, number_of b with
      | Some x, Some y => match num_compare x y with Some Eq => true | _ => false end
      | _, _ => false
      end
  end.

Definition py_eq_str (v : value) (s : string) : bool :=
  match v with VStr s' => String.eqb s' s | _ => false end.

(** [v in {...}] for a set of strings. *)
Definition in_strings (v : value) (l : list string) : bool :=
  match v with VStr s => existsb (String.eqb s) l | _ => false end.

(** [a < b] *)
Definition py_lt (a b : value) : res bool :=
  match a, b with
  | VStr s, VStr s' => Ok (String.ltb s s')
  | VTime t, VTime t' => Ok (t <? t')
  | VList _, VList _ => Err (Unmodelled "order of lists")
  | _, _ =>
      match number_of a, number_of b with
      | Some x, Some y => Ok (match num_compare x y with Some Lt => true | _ => false end)
      | _, _ => Err TypeError
      end
  end.

(** [a <= b] *)
Definition py_le (a b : value) : res bool :=
  match a, b with
  | VStr s, VStr s' => Ok (String.leb s s')
  | VTime t, VTime t' => Ok (t <=? t')
  | VList _, VList _ => Err (Unmodelled "order of lists")
  | _, _ =>
      match number_of a, number_of b with
      | Some x, Some y => Ok (match num_compare x y with Some (Lt | Eq) => true | _ => false end)
      | _, _ => Err TypeError
      end
  end.

(** Order of two tuples: the first position where they differ decides. *)
Fixpoint tuple_lt (a b : list value) : res bool :=
  match a, b with
  | [], [] => Ok false
  | [], _ => Ok true
  | _, [] => Ok false
  | x :: a, y :: b => if py_eq x y then tuple_lt a b else py_lt x y
  end.

(** ** Sorting by a key

    [sorted] raises when it compares two keys that have no order.  Every pair
    of neighbours in the result has been compared, so it raises as soon as
    some pair of keys has none. *)

Section PySort.
Context {A K : Type} (klt : K -> K -> res bool).

Fixpoint all_comparable (l : list K) : res unit :=
  match l with
  | [] => Ok tt
  | k :: l => let? _ := mapR (klt k) l in all_comparable l
  end.

Definition klt_bool (a b : K * A) : bool :=
  match klt a.1 b.1 with Ok b => b | Err _ => false end.

Definition py_sort_keyed (desc : bool) (l : list (K * A)) : res (list A) :=
  let? _ := all_comparable (map fst l) in
  Ok (map snd (if desc then sort_by_desc klt_bool l else sort_by klt_bool l)).

Definition py_sort (key : A -> res K) (desc : bool) (l : list A) : res (list A) :=
  let? kl := mapR (fun x => let? k := key x in Ok (k, x)) l in
  py_sort_keyed desc kl.
End PySort.

(** [l.sort(key=lambda item: (...), reverse=desc)] with a tuple of fields. *)
Definition sort_rows (key : dict -> res (list value)) (desc : bool) (l : list dict) : res (list dict) :=
  py_sort tuple_lt key desc l.

(** [item.get(k) or ""] *)
Definition get_or_empty (k : string) (d : dict) : value := por (dget d k) (VStr "").

(** [sorted(values)] *)
Definition py_sorted (l : list value) : res (list value) :=
  py_sort py_lt Ok false l.

(** [p] holds of a value and of everything inside it. *)
Fixpoint value_all (p : value -> bool) (v : value) : bool :=
  p v && match v with
         | VList l => forallb (value_all p) l
         | VDict d => forallb (fun kv => value_all p kv.2) d
         | _ => true
         end.

(** No dictionary inside the value has a key twice: true of every Python
    value, and of every value that [dset] builds. *)
Definition wf_value : value -> bool :=
  value_all (fun v => match v with VDict d => bool_decide (NoDup (akeys d)) | _ => true end).

(** The same value up to the order of dictionary entries (stricter than [==],
    which also equates [1], [1.0] and [True]). *)
Fixpoint same_value (v w : value) {struct v} : bool :=
  match v, w with
  | VNone, VNone => true
  | VBool b, VBool b' => Bool.eqb b b'
  | VInt n, VInt n' => n =? n'
  | VFloat x, VFloat x' => bool_decide (x = x')
  | VStr s, VStr s' => String.eqb s s'
  | VTime t, VTime t' => t =? t'
  | VList l, VList l' =>
      (fix go (l l' : list value) : bool :=
         match l, l' with
         | [], [] => true
         | x :: l, y :: l' => same_value x y && go l l'
         | _, _ => false
         end) l l'
  | VDict d, VDict d' =>
      Nat.eqb (length d) (length d') &&
      forallb (fun kv => match aget kv.1 d' with
                         | Some y => same_value kv.2 y | None => false end) d
  | _, _ => false
  end.

(** ** Induction on values *)

Section ValueInd.
Variable P : value -> Prop.
Hypothesis Hnone : P VNone.
Hypothesis Hbool : forall b, P (VBool b).
Hypothesis Hint : forall n, P (VInt n).
Hypothesis Hfloat : forall x, P (VFloat x).
Hypothesis Hstr : forall s, P (VStr s).
Hypothesis Htime : forall t, P (VTime t).
Hypothesis Hlist : forall l, Forall P l -> P (VList l).
Hypothesis Hdict : forall d, Forall (fun kv => P (snd kv)) d -> P (VDict d).

Fixpoint value_ind' (v : value) : P v :=
  match v with
  | VNone => Hnone
  | VBool b => Hbool b
  | VInt n => Hint n
  | VFloat x => Hfloat x
  | VStr s => Hstr s
  | VTime t => Htime t
  | VList l =>
      Hlist l ((fix go (l : list value) : Forall P l :=
                  match l with
                  | [] => List.Forall_nil _
                  | x :: l => List.Forall_cons _ _ _ (value_ind' x) (go l)
                  end) l)
  | VDict d =>
      Hdict d ((fix go (d : dict) : Forall (fun kv => P (snd kv)) d :=
                  match d with
                  | [] => List.Forall_nil _
                  | kv :: d => List.Forall_cons _ _ _ (value_ind' (snd kv)) (go d)
                  end) d)
  end.
End ValueInd.

(** ** Lemmas *)

Lemma as_key_ok v k : as_key v = Ok k <-> v = VStr k.
Proof. destruct v; simpl; naive_solver. Qed.


Lemma dget_or_dset d k k' v v0 :
  dget_or (dset d k v) k' v0 = if String.eqb k' k then v else dget_or d k' v0.
Proof.
  unfold dget_or, dset. rewrite aget_aset. simpl. by destruct (String.eqb k' k).
Qed.

Lemma dget_dset d k k' v : dget (dset d k v) k' = if String.eqb k' k then v else dget d k'.
Proof. apply dget_or_dset. Qed.

Lemma dgetitem_ok d k v : dgetitem d k = Ok v <-> aget k d = Some v.
Proof. unfold dgetitem. destruct (aget k d); simpl; naive_solver. Qed.

Lemma dget_some d k v : aget k d = Some v -> dget d k = v.
Proof. unfold dget, dget_or. by intros ->. Qed.

(** Lookup after [d.update(u)]: the last binding of [u], else [d]. *)
Lemma aget_dupdate d u k :
  NoDup (akeys u) ->
  aget k (dupdate d u) = match aget k u with Some v => Some v | None => aget k d end.
Proof.
  unfold dupdate, aupdate. revert d. induction u as [|[k1 v1] u IH]; intros d Hnd; simpl; [done|].
  apply NoDup_cons in Hnd as [Hk Hnd]. rewrite IH by done. rewrite aget_aset. simpl.
  destruct (aget k u) eqn:E.
  - destruct (String.eqb_spec k k1) as [->|]; [|done].
    destruct Hk. apply list_elem_of_In. apply aget_In in E. apply in_map_iff. by exists (k1, v).
  - by destruct (String.eqb k k1).
Qed.

(** Updating twice is updating once. *)
Lemma dupdate_id d u :
  (forall k v, In (k, v) u -> aget k d = Some v) -> dupdate d u = d.
Proof.
  unfold dupdate, aupdate. induction u as [|[k v] u IH]; simpl; intros Hu; [done|].
  rewrite aset_same by auto. auto.
Qed.

Lemma NoDup_akeys_dupdate d u : NoDup (akeys d) -> NoDup (akeys (dupdate d u)).
Proof.
  unfold dupdate, aupdate. revert d. induction u as [|[k v] u IH]; intros d Hnd; simpl; [done|].
  by apply IH, NoDup_akeys_aset.
Qed.

Lemma dupdate_idem d u : NoDup (akeys u) -> dupdate (dupdate d u) u = dupdate d u.
Proof.
  intros Hnd. apply dupdate_id. intros k v Hin. rewrite aget_dupdate by done.
  by rewrite (aget_NoDup _ _ _ Hnd Hin).
Qed.

Lemma num_compare_refl_int n : num_compare (NInt n) (NInt n) = Some Eq.
Proof. simpl. by rewrite Z.compare_refl. Qed.

Section PySortLemmas.
Context {A K : Type} (klt : K -> K -> res bool).

Lemma py_sort_keyed_perm desc (l : list (K * A)) l' :
  py_sort_keyed klt desc l = Ok l' -> Permutation l' (map snd l).
Proof.
  unfold py_sort_keyed. intros H. ok_inv.
  destruct desc; unfold sort_by_desc; by rewrite sort_by_perm.
Qed.

Lemma py_sort_perm (key : A -> res K) desc l l' :
  py_sort klt key desc l = Ok l' -> Permutation l' l.
Proof.
  unfold py_sort. intros H. ok_inv. apply py_sort_keyed_perm in H. rewrite H.
  assert (map snd a = l) as ->; [|done].
  apply mapR_ok in H0. clear H. induction H0 as [|x y l l2 Hxy _ IH]; [done|].
  simpl. rewrite IH. f_equal. ok_inv. done.
Qed.

Lemma py_sort_In (key : A -> res K) desc l l' x :
  py_sort klt key desc l = Ok l' -> In x l' <-> In x l.
Proof.
  intros H%py_sort_perm. split; apply Permutation_in; [|symmetry]; done.
Qed.

Lemma py_sort_length (key : A -> res K) desc l l' :
  py_sort klt key desc l = Ok l' -> length l' = length l.
Proof. intros H%py_sort_perm. by apply Permutation_length. Qed.
End PySortLemmas.


(** ** Sorting by tuples of strings and integers

    Tuples whose positions hold strings, or hold integers, have a total order,
    so that sorting by them never raises and gives one arrangement only. *)

Definition rank (v : value) : Z := match v with VInt _ => 0 | VStr _ => 1 | _ => 2 end.

Definition vlt (a b : value) : bool :=
  match a, b with
  | VInt x, VInt y => x <? y
  | VStr s, VStr t => String.ltb s t
  | _, _ => rank a <? rank b
  end.

Fixpoint tuple_vlt (a b : list value) : bool :=
  match a, b with
  | [], [] => false
  | [], _ => true
  | _, [] => false
  | x :: a, y :: b => if vlt x y then true else if vlt y x then false else tuple_vlt a b
  end.

(** The positions of [k] hold strings or integers as [sh] says. *)
Definition plain_key (sh : list Z) (k : list value) : Prop :=
  map rank k = sh /\ Forall (fun r => r < 2) sh.

Lemma vlt_asym a b : vlt a b = true -> vlt b a = false.
Proof.
  destruct a, b; simpl; rewrite ?Z.ltb_lt, ?Z.ltb_ge; try lia; try apply string_ltb_asym; done.
Qed.

Lemma vlt_trans_neg a b c : vlt b a = false -> vlt c b = false -> vlt c a = false.
Proof.
  destruct a, b, c; simpl; rewrite ?Z.ltb_ge; try lia; try done; apply string_ltb_trans_neg.
Qed.

Lemma tuple_vlt_asym a b : tuple_vlt a b = true -> tuple_vlt b a = false.
Proof.
  revert b. induction a as [|x a IH]; intros [|y b]; simpl; try done.
  destruct (vlt x y) eqn:E1; [by rewrite (vlt_asym _ _ E1)|].
  destruct (vlt y x); [done|]. apply IH.
Qed.

Lemma tuple_vlt_trans_neg a b c :
  tuple_vlt b a = false -> tuple_vlt c b = false -> tuple_vlt c a = false.
Proof.
  revert b c. induction a as [|x a IH]; intros [|y b] [|z c]; simpl; try done.
  destruct (vlt y x) eqn:E1; [done|]. destruct (vlt z y) eqn:E2; [done|].
  rewrite (vlt_trans_neg x y z) by done.
  destruct (vlt x y) eqn:E3; destruct (vlt y z) eqn:E4.
  - assert (vlt x z = true) as ->; [|done].
    destruct (vlt x z) eqn:E5; [done|]. pose proof (vlt_trans_neg z x y E5 E1). congruence.
  - assert (vlt x z = true) as ->; [|done].
    destruct (vlt x z) eqn:E5; [done|]. pose proof (vlt_trans_neg y z x E2 E5). congruence.
  - assert (vlt x z = true) as ->; [|done].
    destruct (vlt x z) eqn:E5; [done|]. pose proof (vlt_trans_neg z x y E5 E1). congruence.
  - intros H1 H2. destruct (vlt x z); [done|]. by apply (IH b).
Qed.

Lemma vlt_plain x y :
  rank x = rank y -> rank x < 2 ->
  py_lt x y = Ok (vlt x y) /\ (py_eq x y = true <-> x = y) /\
  (vlt x y = false -> vlt y x = false -> x = y).
Proof.
  destruct x as [| |n| |s| | |], y as [| |m| |s2| | |]; simpl; intros; try lia; split_and!.
  - done.
  - destruct (Z.compare_spec n m); naive_solver lia.
  - rewrite !Z.ltb_ge. intros. f_equal. lia.
  - done.
  - rewrite String.eqb_eq. naive_solver.
  - intros. f_equal. by apply string_ltb_total.
Qed.

Lemma tuple_lt_plain sh a b :
  plain_key sh a -> plain_key sh b ->
  tuple_lt a b = Ok (tuple_vlt a b) /\
  (tuple_vlt a b = false -> tuple_vlt b a = false -> a = b).
Proof.
  unfold plain_key. intros [Ha Hsh] [Hb _]. revert sh b Ha Hb Hsh.
  induction a as [|x a IH]; intros sh [|y b] Ha Hb Hsh; simpl in *; subst; try discriminate; [done|].
  injection Hb as Hxy Hab. apply Forall_cons in Hsh as [Hx Hsh].
  destruct (vlt_plain x y) as (H1 & H2 & H3); [done..|].
  destruct (vlt_plain y x) as (H1' & H2' & H3'); [done|lia|].
  destruct (IH _ b eq_refl Hab Hsh) as [IH1 IH2].
  destruct (py_eq x y) eqn:E.
  - pose proof (proj1 H2 eq_refl) as <-. destruct (vlt x x) eqn:Ex; [by rewrite (vlt_asym x x) in Ex|].
    split; [done|]. intros Hf Hf'. f_equal. auto.
  - assert (x <> y) by (rewrite <- H2; discriminate). rewrite H1.
    destruct (vlt x y) eqn:E1; [by rewrite (vlt_asym x y E1)|].
    destruct (vlt y x) eqn:E2; [done|]. by destruct H3.
Qed.

Section PlainSort.
Context {A : Type} (sh : list Z).
Let entry_lt (x y : list value * A) : bool := tuple_vlt x.1 y.1.

Lemma all_comparable_plain ks :
  Forall (plain_key sh) ks -> all_comparable tuple_lt ks = Ok tt.
Proof.
  induction 1 as [|k ks Hk Hks IH]; simpl; [done|].
  rewrite (mapR_ext _ (fun k' => Ok (tuple_vlt k k'))), mapR_pure; [done|].
  intros k' Hk'. rewrite List.Forall_forall in Hks. by apply (tuple_lt_plain sh); auto.
Qed.

Lemma py_sort_keyed_plain (l : list (list value * A)) :
  Forall (plain_key sh) (map fst l) ->
  py_sort_keyed tuple_lt false l = Ok (map snd (sort_by entry_lt l)).
Proof.
  intros Hl. unfold py_sort_keyed. rewrite all_comparable_plain by done. simpl. f_equal. f_equal.
  rewrite List.Forall_map, List.Forall_forall in Hl.
  apply sort_by_ext. intros x y Hx Hy. unfold klt_bool, entry_lt.
  by rewrite (proj1 (tuple_lt_plain sh _ _ (Hl _ Hx) (Hl _ Hy))).
Qed.

(** Distinct keys: the result does not depend on the order of the input. *)
Lemma py_sort_keyed_perm_plain (l l' : list (list value * A)) :
  Forall (plain_key sh) (map fst l) -> NoDup (map fst l) -> Permutation l l' ->
  py_sort_keyed tuple_lt false l = py_sort_keyed tuple_lt false l'.
Proof.
  intros Hl Hnd Hp. rewrite !py_sort_keyed_plain; [|by rewrite <- Hp|done]. do 2 f_equal.
  apply sort_by_unique; [..|done]; unfold entry_lt.
  - intros x y. apply tuple_vlt_asym.
  - intros x y z. apply tuple_vlt_trans_neg.
  - intros x y Hx Hy H1 H2. rewrite List.Forall_map, List.Forall_forall in Hl.
    pose proof (proj2 (tuple_lt_plain sh _ _ (Hl _ Hx) (Hl _ Hy)) H1 H2) as E.
    clear -Hnd Hx Hy E. induction l as [|z l IH]; simpl in *; [done|].
    apply NoDup_cons in Hnd as [Hz Hnd].
    destruct Hx as [->|Hx], Hy as [->|Hy]; [done| | |auto];
      destruct Hz; apply list_elem_of_In, in_map_iff; eauto.
Qed.
End PlainSort.

(** Sorting a list and a rearrangement of it by keys that are pairwise different. *)
Lemma py_sort_order {A} sh (key : A -> res (list value)) l l' ks :
  mapR key l = Ok ks -> Forall (plain_key sh) ks -> NoDup ks -> Permutation l l' ->
  py_sort tuple_lt key false l = py_sort tuple_lt key false l'.
Proof.
  intros Hks Hplain Hnd Hp. unfold py_sort.
  assert (forall l ks, mapR key l = Ok ks ->
    mapR (fun x => let? k := key x in Ok (k, x)) l = Ok (zip ks l)) as Hzip.
  { clear. intros l ks Hks. apply mapR_ok in Hks. induction Hks as [|x k l ks Hx _ IH]; simpl; [done|].
    rewrite Hx. simpl. by rewrite IH. }
  assert (exists ks', mapR key l' = Ok ks' /\ Permutation (zip ks l) (zip ks' l')) as (ks' & Hks' & Hpz).
  { pose proof (Hzip _ _ Hks) as Hz. eapply mapR_perm in Hz as (kl & Hkl & Hpz); [|done].
    apply mapR_perm with (l' := l') in Hks as (ks' & Hks' & _); [|done].
    exists ks'. split; [done|]. rewrite (Hzip _ _ Hks') in Hkl. by simplify_eq. }
  rewrite (Hzip _ _ Hks), (Hzip _ _ Hks'). simpl.
  assert (map fst (zip ks l) = ks) as Efst.
  { apply fst_zip. apply mapR_length in Hks. lia. }
  apply (py_sort_keyed_perm_plain sh); by rewrite ?Efst.
Qed.
