(* ===== verification/Canonical.v ===== *)
(** * Canonical JSON and hashing ([canonical.py])

    [canonicalize] brings a payload to a normal form (sorted keys, timestamps
    in UTC without a fraction), [canonical_json] prints it and
    [canonical_hash] hashes the text.  The theorems: the normal form is a
    normal form, the text does not depend on the order of a dictionary, the
    text determines the normal form, and therefore so does the hash up to an
    explicit collision of SHA-256. *)
From Stdlib Require Import ZArith Lia Ascii String SpecFloat Permutation Sorted.
From stdpp Require Import base list strings.
From S2P Require Import Prelude PyText PyFloat PyTime PyValue Sha256.
Open Scope Z_scope.

(** ** Operations *)

(** [value.astimezone] leaves the range of [datetime] with an [OverflowError]. *)
Definition isoformat_z (t : Z) : res string :=
  if in_rangeb t then Ok (iso_format t) else Err OverflowError.

(** [Decimal(text)]: a sign, the coefficient and the exponent. *)
Definition decimal_of_string (s : string) : option (bool * Z * Z) :=
  let text := filter (fun c => c <> "_"%char) (chars (str_lower (str_strip s))) in
  let '(neg, l) := sign_split text in
  match decimal_literal l with
  | Some (c, k) => Some (neg, c, k)
  | None => None
  end.

(** Rounds [a / b] half away from zero, for non-negative [a]. *)
Definition round_half_up (a b : Z) : Z := (2 * a + b) / (2 * b).

Definition quantize (c k places : Z) : Z :=
  let e := k + places in
  if 0 <=? e then c * 10 ^ e else round_half_up c (10 ^ (- e)).

(** The quantized coefficient must fit the 28 digits of the decimal context. *)
Definition fixed_decimal (v : value) (places : Z) : res string :=
  let? text := py_str v in
  match decimal_of_string text with
  | None => if String.eqb (str_lower (str_strip text)) "nan" then Ok "NaN"
            else Err (Unmodelled "decimal.InvalidOperation")
  | Some (neg, c, k) =>
      let q := quantize c k places in
      if 28 <? ndigits q then Err (Unmodelled "decimal.InvalidOperation")
      else Ok ((if neg then "-" else "") +:+ string_of_Z (q / 10 ^ places) +:+ "." +:+
               zero_pad (Z.to_nat places) (q mod 10 ^ places))
  end.

(** [_ISO_DATETIME_RE]: date, [T], anything on one line, [Z] or an offset; the
    end of the pattern also matches before a final newline. *)
Definition newline : ascii := chr 10.

Definition iso_date_prefix (l : list ascii) : option (list ascii) :=
  match l with
  | y1 :: y2 :: y3 :: y4 :: s1 :: m1 :: m2 :: s2 :: d1 :: d2 :: t :: rest =>
      if forallb is_digit [y1; y2; y3; y4; m1; m2; d1; d2] &&
         Ascii.eqb s1 "-"%char && Ascii.eqb s2 "-"%char && Ascii.eqb t "T"%char
      then Some rest else None
  | _ => None
  end.

(** [.*(Z|[+-]\d{2}:\d{2})], on the reversed text. *)
Definition zone_suffix (r : list ascii) : bool :=
  let no_newline := forallb (fun c => negb (Ascii.eqb c newline)) in
  match r with
  | c1 :: r1 =>
      (Ascii.eqb c1 "Z"%char && no_newline r1) ||
      match r1 with
      | c2 :: c3 :: c4 :: c5 :: c6 :: r6 =>
          forallb is_digit [c1; c2; c4; c5] && Ascii.eqb c3 ":"%char &&
          (Ascii.eqb c6 "+"%char || Ascii.eqb c6 "-"%char) && no_newline r6
      | _ => false
      end
  | [] => false
  end.

Definition _ISO_DATETIME_RE (s : string) : bool :=
  match iso_date_prefix (chars s) with
  | Some rest =>
      zone_suffix (rev rest) ||
      match rev rest with
      | c :: r => Ascii.eqb c newline && zone_suffix r
      | [] => false
      end
  | None => false
  end.

Definition _canonicalize_string (s : string) : res string :=
  if negb (_ISO_DATETIME_RE s) then Ok s
  else match parse_iso s with
       | Ok t => isoformat_z t
       | Err (ValueError _) => Ok s
       | Err e => Err e
       end.

Definition sequence_entries (l : list (string * res value)) : res dict :=
  mapR (fun kv => let? x := kv.2 in Ok (kv.1, x)) l.

Fixpoint canonicalize (v : value) : res value :=
  match v with
  | VTime t => let? s := isoformat_z t in Ok (VStr s)
  | VFloat x =>
      if is_finite x then Ok (VFloat x)
      else Err (ValueError "non-finite floats are not canonical")
  | VStr s => let? s := _canonicalize_string s in Ok (VStr s)
  | VDict d =>
      let entries := map (fun kv => (kv.1, canonicalize kv.2)) d in
      let? d := sequence_entries (sort_by key_lt entries) in Ok (VDict d)
  | VList l => let? l := mapR canonicalize l in Ok (VList l)
  | _ => Ok v
  end.

(** *** [json.dumps(..., sort_keys=True, separators=(",", ":"))] *)

Definition json_escape (c : ascii) : list ascii :=
  let n := code c in
  if n =? 34 then ["\"%char; c]
  else if n =? 92 then ["\"%char; c]
  else if n =? 10 then chars "\n"
  else if n =? 13 then chars "\r"
  else if n =? 9 then chars "\t"
  else if n =? 12 then chars "\f"
  else if n =? 8 then chars "\b"
  else if (32 <=? n) && (n <=? 126) then [c]
  else chars "\u00" ++ chars (hex_byte n).

Definition quote : ascii := chr 34.
Definition json_string (s : string) : list ascii :=
  quote :: concat (map json_escape (chars s)) ++ [quote].

Definition json_float (x : float) : list ascii :=
  match x with
  | S754_nan => chars "NaN"
  | S754_infinity s => chars (if s then "-Infinity" else "Infinity")
  | _ => chars (float_repr x)
  end.

Fixpoint comma_join (l : list (list ascii)) : list ascii :=
  match l with
  | [] => []
  | [x] => x
  | x :: l => x ++ ","%char :: comma_join l
  end.

Fixpoint json_dumps (v : value) : res (list ascii) :=
  match v with
  | VNone => Ok (chars "null")
  | VBool b => Ok (chars (if b then "true" else "false"))
  | VInt n => Ok (chars (string_of_Z n))
  | VFloat x => Ok (json_float x)
  | VStr s => Ok (json_string s)
  | VTime _ => Err TypeError
  | VList l =>
      let? l := mapR json_dumps l in
      Ok ("["%char :: comma_join l ++ ["]"%char])
  | VDict d =>
      let entries := map (fun kv => (kv.1, json_dumps kv.2)) d in
      let? l := mapR (fun kv => let? s := kv.2 in Ok (json_string kv.1 ++ ":"%char :: s))
                     (sort_by key_lt entries) in
      Ok ("{"%char :: comma_join l ++ ["}"%char])
  end.

Definition canonical_json (payload : value) : res string :=
  let? v := canonicalize payload in
  let? l := json_dumps v in
  Ok (of_chars l).

Definition canonical_hash (payload : value) : res string :=
  let? text := canonical_json payload in
  Ok ("sha256:" +:+ sha256_hex text).

Definition hash_sequence (items : list value) : res string :=
  canonical_hash (VDict [("items", VList items)]).

(** [row.get] raises on a row that is not a dictionary. *)
Definition row_key (sort_keys : list string) (row : value) : res (list value) :=
  let? d := as_dict row in Ok (map (dget d) sort_keys).

Definition rows_root (rows : list value) (sort_keys : list string) : res string :=
  let? normalized_rows := mapR canonicalize rows in
  let? normalized_rows :=
    match sort_keys with
    | [] => Ok normalized_rows
    | _ => py_sort tuple_lt (row_key sort_keys) false normalized_rows
    end in
  hash_sequence normalized_rows.

Example json_example :
  canonical_json (VDict [("b", VList [VInt (-3); VFloat (flit 15 1); VNone; VBool true]);
                         ("a", VStr "2026-04-10T12:00:00.250+02:00")])
  = Ok (of_chars (chars "{'a':'2026-04-10T10:00:00Z','b':[-3,1.5,null,true]}" ≫= fun c =>
        [if Ascii.eqb c "'"%char then quote else c])).
Proof. vm_compute. reflexivity. Qed.

Example fixed_decimal_example :
  map (fun v => fixed_decimal v 6)
    [VInt 3; VStr "-2.5"; VFloat (flit 12345675 7); VStr " 1_0.0000005 "; VFloat S754_nan]
  = [Ok "3.000000"; Ok "-2.500000"; Ok "1.234568"; Ok "10.000001"; Ok "NaN"].
Proof. vm_compute. reflexivity. Qed.

(** ** Lemmas: the normal form *)

Lemma keys_sorted_iff {A} (d : list (string * A)) :
  StronglySorted (ge key_lt) d <-> StronglySorted (ge String.ltb) (akeys d).
Proof.
  unfold akeys. induction d as [|kv d IH]; simpl; split; intros Hs; try constructor;
    inversion Hs as [|? ? Hs' Hk]; subst; try (by apply IH).
  - by rewrite List.Forall_map.
  - by rewrite List.Forall_map in Hk.
Qed.

Lemma sequence_entries_ok l d :
  sequence_entries l = Ok d -> Forall2 (fun kr kv => kr.1 = kv.1 /\ kr.2 = Ok kv.2) l d.
Proof.
  unfold sequence_entries. rewrite mapR_ok. induction 1 as [|[k r] kv l d Hx _ IH]; constructor; [|done].
  simpl in Hx. ok_inv. done.
Qed.

Lemma sequence_entries_map (f : value -> res value) d :
  Forall (fun kv => f kv.2 = Ok kv.2) d ->
  sequence_entries (map (fun kv => (kv.1, f kv.2)) d) = Ok d.
Proof.
  unfold sequence_entries. induction 1 as [|[k x] d Hx _ IH]; simpl; [done|].
  simpl in Hx. rewrite Hx. simpl. by rewrite IH.
Qed.

Lemma akeys_map {A B} (f : string * A -> B) d :
  akeys (map (fun kv => (kv.1, f kv)) d) = akeys d.
Proof. unfold akeys. induction d as [|kv d IH]; simpl; [done|]. by f_equal. Qed.

(** A dictionary in normal form: the entries of [d], canonical and sorted. *)
Lemma canonicalize_dict d w :
  canonicalize (VDict d) = Ok w ->
  exists d', w = VDict d' /\ StronglySorted (ge key_lt) d' /\
    Permutation (akeys d') (akeys d) /\
    (forall kv', In kv' d' -> exists kv, In kv d /\ kv.1 = kv'.1 /\ canonicalize kv.2 = Ok kv'.2).
Proof.
  cbn [canonicalize]. set (entries := map _ d). intros Hw. ok_inv. rename a into d'.
  apply sequence_entries_ok in H.
  assert (akeys (sort_by key_lt entries) = akeys d') as Hkeys.
  { unfold akeys. clear -H. induction H as [|x y l l' [Hk _] _ IH]; simpl; [done|]. rewrite Hk. f_equal. apply IH. }
  exists d'. split_and!; [done| | |].
  - apply keys_sorted_iff. rewrite <- Hkeys. apply keys_sorted_iff.
    apply sort_by_sorted; unfold key_lt; eauto with py.
  - rewrite <- Hkeys, <- (akeys_map (fun kv => canonicalize kv.2) d).
    unfold akeys. by rewrite (sort_by_perm key_lt entries).
  - intros kv' Hin.
    destruct (Forall2_In_r _ _ _ _ H Hin) as (kr & Hkr & Hk & Hv).
    apply In_sort_by, in_map_iff in Hkr as (kv & <- & Hkv). eauto.
Qed.

Lemma mapR_fixed {A} (f : A -> res A) l : Forall (fun x => f x = Ok x) l -> mapR f l = Ok l.
Proof. induction 1 as [|x l Hx _ IH]; simpl; [done|]. by rewrite Hx, IH. Qed.

Lemma iso_regex_format f : in_year_range f -> fields_valid f ->
  _ISO_DATETIME_RE (of_chars (iso_date_time f ++ ["Z"%char])) = true.
Proof.
  intros Hy Hv. unfold _ISO_DATETIME_RE. rewrite chars_of_chars.
  unfold iso_date_time, pad4, pad2. cbn [app iso_date_prefix].
  destruct Hv as ([Hm Hd]%valid_date_month_day & Hh & Hmi & Hs). unfold in_year_range in Hy.
  cbn [forallb]. rewrite !is_digit_dig by (Z.div_mod_to_equations; lia).
  cbn [andb Ascii.eqb Bool.eqb rev app zone_suffix forallb].
  rewrite !(dig_neq _ newline) by (try reflexivity; Z.div_mod_to_equations; lia). done.
Qed.

Lemma canonicalize_iso_format t :
  in_range t -> _canonicalize_string (iso_format t) = Ok (iso_format t).
Proof.
  intros Ht. unfold _canonicalize_string.
  assert (_ISO_DATETIME_RE (iso_format t) = true) as ->
    by (apply iso_regex_format; [by apply year_in_range|apply fields_of_seconds_valid]).
  simpl negb. cbv iota. rewrite parse_iso_format by done.
  assert (seconds_of (drop_microseconds t) = seconds_of t) as Hs.
  { unfold drop_microseconds, seconds_of, usec. rewrite (Z.mul_comm 1000000). by apply Z.div_mul. }
  unfold isoformat_z. rewrite (proj2 (in_rangeb_spec _)) by (unfold in_range in *; by rewrite Hs).
  unfold iso_format. by rewrite Hs.
Qed.

Lemma isoformat_z_fixed t s : isoformat_z t = Ok s -> _canonicalize_string s = Ok s.
Proof.
  unfold isoformat_z. destruct (in_rangeb t) eqn:Ht; [|done]. intros [= <-].
  by apply canonicalize_iso_format, in_rangeb_spec.
Qed.

Lemma canonicalize_string_fixed s s' : _canonicalize_string s = Ok s' -> _canonicalize_string s' = Ok s'.
Proof.
  intros Hs. pose proof Hs as H. unfold _canonicalize_string in H.
  destruct (negb (_ISO_DATETIME_RE s)); [by simplify_eq|].
  destruct (parse_iso s) as [t|[]]; try done; [by eapply isoformat_z_fixed|].
  congruence.
Qed.

Lemma canonicalize_idempotent_aux v w : canonicalize v = Ok w -> canonicalize w = Ok w.
Proof.
  revert w. induction v as [|b|n|x|s|t|l IH|d IH] using value_ind'; intros w Hw;
    try (injection Hw as <-; reflexivity).
  - simpl in Hw. destruct (is_finite x) eqn:E; simplify_eq. simpl. by rewrite E.
  - simpl in Hw. ok_inv. simpl. by erewrite canonicalize_string_fixed.
  - simpl in Hw. ok_inv. simpl. by erewrite isoformat_z_fixed.
  - cbn [canonicalize] in *. ok_inv. cbn [canonicalize]. rewrite mapR_fixed; [done|].
    apply mapR_ok in H. induction H as [|x y l l' Hxy _ IH']; inversion IH; constructor; auto.
  - apply canonicalize_dict in Hw as (d' & -> & Hsort & _ & Hin).
    cbn [canonicalize]. rewrite sort_by_id.
    2: { apply keys_sorted_iff. rewrite (akeys_map (fun kv => canonicalize kv.2)). by apply keys_sorted_iff. }
    rewrite sequence_entries_map; [done|]. apply List.Forall_forall. intros kv' Hkv'.
    destruct (Hin _ Hkv') as (kv & Hkv & _ & Hc). rewrite List.Forall_forall in IH. eapply IH; eauto.
Qed.

(** ** Lemmas: the order of dictionary entries *)

Lemma same_entries_perm (f : value -> res value) (d d' : dict) :
  NoDup (akeys d) -> NoDup (akeys d') -> length d = length d' ->
  (forall kv, In kv d -> exists y, aget kv.1 d' = Some y /\ f kv.2 = f y) ->
  Permutation (map (fun kv => (kv.1, f kv.2)) d) (map (fun kv => (kv.1, f kv.2)) d').
Proof.
  intros Hd Hd' Hlen Hsame.
  assert (forall d : dict, NoDup (akeys d) -> List.NoDup (map (fun kv => (kv.1, f kv.2)) d)) as Hnd.
  { clear. intros d Hd. apply (NoDup_map_inv fst). rewrite map_map. simpl.
    by apply NoDup_ListNoDup in Hd. }
  apply NoDup_Permutation_bis; [by apply Hnd|rewrite !length_map; lia|].
  intros kr (kv & <- & Hkv)%in_map_iff. destruct (Hsame _ Hkv) as (y & Hy & ->).
  apply aget_In in Hy. apply in_map_iff. by exists (kv.1, y).
Qed.

(** The order in which a dictionary was filled, at any depth, does not
    change its canonical form, hence neither its text nor its hash. *)
Theorem canonicalize_key_order v w :
  wf_value v = true -> wf_value w = true -> same_value v w = true ->
  canonicalize v = canonicalize w /\ canonical_hash v = canonical_hash w.
Proof.
  intros Hv Hw Hs. assert (canonicalize v = canonicalize w) as E.
  2: { split; [done|]. unfold canonical_hash, canonical_json. by rewrite E. }
  revert w Hv Hw Hs. induction v as [|b|n|x|s|t|l IH|d IH] using value_ind';
    intros [|b'|n'|x'|s'|t'|l'|d'] Hv Hw Hs; try discriminate Hs; simpl in Hs.
  - done.
  - by apply Bool.eqb_prop in Hs as ->.
  - by apply Z.eqb_eq in Hs as ->.
  - by apply bool_decide_eq_true in Hs as ->.
  - by apply String.eqb_eq in Hs as ->.
  - by apply Z.eqb_eq in Hs as ->.
  - cbn [canonicalize]. assert (mapR canonicalize l = mapR canonicalize l') as ->; [|done].
    unfold wf_value in *. simpl in Hv, Hw. revert l' Hw Hs.
    induction IH as [|x l Hx _ IH]; intros [|x' l'] Hw Hs; try done.
    simpl in *. apply andb_true_iff in Hs as [Hs1 Hs2], Hv as [Hv1 Hv2], Hw as [Hw1 Hw2].
    by rewrite (Hx x'), (IH Hv2 l').
  - cbn [canonicalize]. apply andb_true_iff in Hs as [Hlen Hs]. apply Nat.eqb_eq in Hlen.
    unfold wf_value in *. simpl in Hv, Hw.
    apply andb_true_iff in Hv as [Hdv Hv], Hw as [Hdw Hw]. rewrite bool_decide_eq_true in Hdv, Hdw.
    rewrite forallb_forall in Hs, Hv, Hw. rewrite List.Forall_forall in IH.
    erewrite sort_keys_unique; [done| |].
    + by rewrite (akeys_map (fun kv => canonicalize kv.2)).
    + apply same_entries_perm; [done..|]. intros kv Hkv. specialize (Hs _ Hkv).
      destruct (aget kv.1 d') as [y|] eqn:Hy; [|done]. exists y. split; [done|].
      apply IH; auto. apply aget_In in Hy. by apply (Hw (kv.1, y)).
Qed.

(** ** Lemmas: the text determines the value *)

(** Reads back one character of a JSON string. *)
Definition hex_value (c : ascii) : Z :=
  let n := code c in if n <? 58 then n - 48 else n - 87.

Definition json_unescape (l : list ascii) : option (ascii * list ascii) :=
  match l with
  | [] => None
  | c :: r =>
      if Ascii.eqb c quote then None
      else if Ascii.eqb c "\"%char then
        match r with
        | e :: r =>
            if Ascii.eqb e "n"%char then Some (chr 10, r)
            else if Ascii.eqb e "r"%char then Some (chr 13, r)
            else if Ascii.eqb e "t"%char then Some (chr 9, r)
            else if Ascii.eqb e "f"%char then Some (chr 12, r)
            else if Ascii.eqb e "b"%char then Some (chr 8, r)
            else if Ascii.eqb e "u"%char then
              match r with
              | _ :: _ :: a :: b :: r => Some (chr (16 * hex_value a + hex_value b), r)
              | _ => None
              end
            else Some (e, r)
        | [] => None
        end
      else Some (c, r)
  end.

Lemma json_unescape_escape c r : json_unescape (json_escape c ++ r) = Some (c, r).
Proof. destruct c as [[] [] [] [] [] [] [] []]; reflexivity. Qed.

Lemma json_string_prefix s1 s2 r1 r2 :
  json_string s1 ++ r1 = json_string s2 ++ r2 -> s1 = s2 /\ r1 = r2.
Proof.
  unfold json_string. simpl. intros [= H].
  assert (chars s1 = chars s2 /\ r1 = r2) as [E ->]; [|by split; [apply chars_inj|]].
  rewrite <- !app_assoc in H. revert H. generalize (chars s2) as l2.
  induction (chars s1) as [|c1 l1 IH]; intros [|c2 l2] H; simpl in H.
  - by simplify_eq.
  - exfalso. rewrite <- app_assoc in H. apply (f_equal json_unescape) in H.
    by rewrite json_unescape_escape in H.
  - exfalso. rewrite <- app_assoc in H. apply (f_equal json_unescape) in H.
    by rewrite json_unescape_escape in H.
  - rewrite <- !app_assoc in H. apply (f_equal json_unescape) in H.
    rewrite !json_unescape_escape in H. simplify_eq.
    destruct (IH l2) as [-> ->]; auto.
Qed.

(** The text ends or goes on with a delimiter. *)
Definition stops (r : list ascii) : bool :=
  match r with [] => true | c :: _ => negb (number_char c) end.

Lemma token_prefix t1 t2 r1 r2 :
  forallb number_char t1 = true -> forallb number_char t2 = true ->
  stops r1 = true -> stops r2 = true -> t1 ++ r1 = t2 ++ r2 -> t1 = t2 /\ r1 = r2.
Proof.
  revert t2. induction t1 as [|c t1 IH]; intros [|c2 t2]; simpl; intros H1 H2 Hr1 Hr2 Heq; subst;
    simpl in *; try done.
  - apply andb_true_iff in H2 as [H2 _]. by rewrite H2 in Hr1.
  - apply andb_true_iff in H1 as [H1 _]. by rewrite H1 in Hr2.
  - apply andb_true_iff in H1 as [_ H1], H2 as [_ H2]. simplify_eq.
    destruct (IH t2) as [-> ->]; auto.
Qed.

Section CommaLists.
Context {A : Type} (f : A -> res (list ascii)) (Q : A -> Prop) (close : ascii).
Hypothesis close_stops : number_char close = false.
Hypothesis close_not_comma : close <> ","%char.
Hypothesis start : forall a t, Q a -> f a = Ok t -> exists c t', t = c :: t' /\ c <> close.

(** The text of [a] shows where it ends and what [a] is. *)
Definition prefix_text (a : A) : Prop :=
  forall b t t' r r', Q b -> f a = Ok t -> f b = Ok t' -> stops r = true -> stops r' = true ->
    t ++ r = t' ++ r' -> a = b /\ r = r'.

Lemma comma_join_cons x xs r :
  comma_join (x :: xs) ++ close :: r =
  x ++ match xs with [] => close :: r | _ => ","%char :: comma_join xs ++ close :: r end.
Proof. destruct xs; simpl; [done|]. by rewrite <- app_assoc. Qed.

Lemma comma_join_inj l l' ts ts' r r' :
  Forall prefix_text l -> Forall Q l -> Forall Q l' -> mapR f l = Ok ts -> mapR f l' = Ok ts' ->
  comma_join ts ++ close :: r = comma_join ts' ++ close :: r' -> l = l' /\ r = r'.
Proof.
  intros Hl Ql Ql' Hts Hts' Heq.
  apply mapR_ok in Hts, Hts'. revert l' ts' Ql' Hts' Heq.
  induction Hts as [|a t l ts Ha Hts IH]; intros l' ts' Ql' Hts' Heq.
  - destruct Hts' as [|b t' l' ts' Hb _]; [by simplify_eq/=|]. exfalso.
    apply Forall_cons in Ql' as [Qb _]. destruct (start b t' Qb Hb) as (c & t2 & -> & Hc).
    rewrite comma_join_cons in Heq. simplify_eq/=.
  - apply Forall_cons in Hl as [Pa Hl], Ql as [Qa Ql].
    destruct Hts' as [|b t' l' ts' Hb Hts'].
    { exfalso. destruct (start a t Qa Ha) as (c & t2 & -> & Hc).
      rewrite comma_join_cons in Heq. simplify_eq/=. }
    apply Forall_cons in Ql' as [Qb Ql']. rewrite !comma_join_cons in Heq.
    assert (forall (xs : list (list ascii)) r,
      stops (match xs with [] => close :: r
             | _ => ","%char :: comma_join xs ++ close :: r end) = true) as Hstops
      by (intros [|? ?] ?; simpl; [by rewrite close_stops|done]).
    destruct (Pa b t t' _ _ Qb Ha Hb (Hstops _ _) (Hstops _ _) Heq) as [-> E].
    destruct ts as [|t1 ts], ts' as [|t1' ts']; try (exfalso; congruence).
    + inversion Hts; inversion Hts'; subst. by simplify_eq.
    + injection E as E. by destruct (IH Hl Ql _ _ Ql' Hts' E) as [-> ->].
Qed.
End CommaLists.

(** *** Canonical values whose floats print so that they read back *)

Definition floats_ok : value -> bool :=
  value_all (fun v => match v with VFloat x => repr_reads_back x | _ => true end).

Definition canonical_value (v : value) : Prop := canonicalize v = Ok v /\ floats_ok v = true.

Lemma floats_ok_canonicalize v w : canonicalize v = Ok w -> floats_ok v = true -> floats_ok w = true.
Proof.
  revert w. induction v as [|b|n|x|s|t|l IH|d IH] using value_ind'; intros w Hw Hv;
    try (injection Hw as <-; reflexivity).
  - simpl in Hw. destruct (is_finite x); by simplify_eq.
  - simpl in Hw. by ok_inv.
  - simpl in Hw. by ok_inv.
  - cbn [canonicalize] in Hw. ok_inv. unfold floats_ok in *. simpl in *.
    rewrite forallb_forall in *. rewrite List.Forall_forall in IH. intros y Hy.
    apply mapR_ok in H. destruct (Forall2_In_r _ _ _ _ H Hy) as (x & Hx & Hc). eauto.
  - apply canonicalize_dict in Hw as (d' & -> & _ & _ & Hin). unfold floats_ok in *. simpl in *.
    rewrite forallb_forall in *. rewrite List.Forall_forall in IH. intros y Hy.
    destruct (Hin _ Hy) as (x & Hx & _ & Hc). eauto.
Qed.

Lemma canonicalize_canonical v w :
  floats_ok v = true -> canonicalize v = Ok w -> canonical_value w.
Proof.
  intros Hv Hw. split; [by eapply canonicalize_idempotent_aux|by eapply floats_ok_canonicalize].
Qed.

Lemma canonical_list l : canonical_value (VList l) -> Forall canonical_value l.
Proof.
  intros [Hc Hf]. cbn [canonicalize] in Hc. ok_inv. unfold floats_ok in Hf. simpl in Hf.
  rewrite forallb_forall in Hf. apply List.Forall_forall. intros x Hx. split; [|by apply Hf].
  apply mapR_ok in H. destruct (Forall2_In_r _ _ _ _ H Hx) as (y & _ & Hy).
  by eapply canonicalize_idempotent_aux.
Qed.

Lemma canonical_dict d :
  canonical_value (VDict d) ->
  StronglySorted (ge key_lt) d /\ Forall (fun kv => canonical_value kv.2) d.
Proof.
  intros [Hc Hf]. apply canonicalize_dict in Hc as (d' & [= <-] & Hs & _ & Hin). split; [done|].
  unfold floats_ok in Hf. simpl in Hf. rewrite forallb_forall in Hf.
  apply List.Forall_forall. intros kv Hkv. split; [|by apply (Hf kv)].
  destruct (Hin _ Hkv) as (y & _ & _ & Hy). by eapply canonicalize_idempotent_aux.
Qed.

Definition json_entry (kv : string * value) : res (list ascii) :=
  let? s := json_dumps kv.2 in Ok (json_string kv.1 ++ ":"%char :: s).

Lemma mapR_map {A B C} (f : B -> res C) (g : A -> B) l : mapR f (map g l) = mapR (fun x => f (g x)) l.
Proof. induction l as [|x l IH]; simpl; [done|]. by rewrite IH. Qed.

Lemma json_dumps_dict d :
  StronglySorted (ge key_lt) d ->
  json_dumps (VDict d) =
    let? l := mapR json_entry d in Ok ("{"%char :: comma_join l ++ ["}"%char]).
Proof.
  intros Hs. cbn [json_dumps]. rewrite sort_by_id.
  - by rewrite mapR_map.
  - apply keys_sorted_iff. rewrite (akeys_map (fun kv => json_dumps kv.2)). by apply keys_sorted_iff.
Qed.

(** What the first character of a text says about the value. *)
Definition starts_as (v : value) (c : ascii) : bool :=
  match v with
  | VNone => Ascii.eqb c "n"%char
  | VBool b => Ascii.eqb c (if b then "t" else "f")%char
  | VInt _ | VFloat _ => number_char c
  | VStr _ => Ascii.eqb c quote
  | VTime _ => false
  | VList _ => Ascii.eqb c "["%char
  | VDict _ => Ascii.eqb c "{"%char
  end.

Lemma number_text_first s :
  number_text s -> s <> "" -> exists c t, chars s = c :: t /\ number_char c = true.
Proof.
  destruct s as [|c s]; [done|]. unfold number_text. simpl. intros [Hc _]%andb_true_iff _. eauto.
Qed.

Lemma json_float_text x :
  is_finite x = true -> forallb number_char (json_float x) = true /\ existsb float_mark (json_float x) = true.
Proof.
  intros Hx. destruct (float_repr_text x Hx) as [H1 H2].
  destruct x; try done; by split.
Qed.

Lemma json_first v t :
  canonical_value v -> json_dumps v = Ok t -> exists c t', t = c :: t' /\ starts_as v c = true.
Proof.
  intros [Hc _] Hj. destruct v as [|b|n|x|s|u|l|d]; simpl in Hj, Hc.
  - simplify_eq. simpl. eauto.
  - simplify_eq. destruct b; simpl; eauto.
  - simplify_eq. destruct (number_text_first (string_of_Z n)) as (c & t & -> & H); eauto.
    + apply number_text_Z.
    + apply string_of_Z_chars.
  - destruct (is_finite x) eqn:Hx; [|done]. simplify_eq.
    destruct (json_float_text x Hx) as [H1 H2]. destruct (json_float x) as [|c t]; [done|].
    simpl in H1. apply andb_true_iff in H1 as [H1 _]. eauto.
  - simplify_eq. unfold json_string. eauto.
  - done.
  - ok_inv. eauto.
  - ok_inv. eauto.
Qed.

Lemma starts_as_bracket v c close :
  starts_as v c = true -> close = "]"%char \/ close = "}"%char -> c <> close.
Proof. intros H [->| ->] ->; destruct v as [|[]| | | | | |]; vm_compute in H; congruence. Qed.

Lemma app_singleton_cons {A} (l : list A) x r : (l ++ [x]) ++ r = l ++ x :: r.
Proof. by rewrite <- app_assoc. Qed.

Lemma json_first_not v t close :
  canonical_value v -> json_dumps v = Ok t -> close = "]"%char \/ close = "}"%char ->
  exists c t', t = c :: t' /\ c <> close.
Proof.
  intros Hv Ht Hc. destruct (json_first v t Hv Ht) as (c & t' & -> & Hs).
  eauto using starts_as_bracket.
Qed.

#[local] Opaque json_string.

Lemma json_entry_prefix kv :
  prefix_text json_dumps canonical_value kv.2 ->
  prefix_text json_entry (fun kv => canonical_value kv.2) kv.
Proof.
  destruct kv as [k v]. simpl. intros Hv [k' w] t t' r r' Hw Ht Ht' Hr Hr' Heq.
  unfold json_entry in Ht, Ht'. simpl in *. ok_inv.  rewrite <- !(app_assoc (json_string _)) in Heq.
  apply json_string_prefix in Heq as [-> Heq]. simpl in Heq. simplify_eq.
  edestruct (Hv w) as [-> ->]; eauto.
Qed.

Lemma json_numbers_prefix {A} (v w : A) t t' r r' :
  forallb number_char t = true -> forallb number_char t' = true ->
  stops r = true -> stops r' = true -> t ++ r = t' ++ r' ->
  (t = t' -> v = w) -> v = w /\ r = r'.
Proof. intros. edestruct (token_prefix t t' r r'); eauto. Qed.

Lemma integer_no_mark n : existsb float_mark (chars (string_of_Z n)) = false.
Proof.
  destruct (string_of_Z_chars n) as [H _]. rewrite forallb_forall in H.
  apply not_true_iff_false. rewrite existsb_exists. intros (c & Hc & Hm). specialize (H c Hc).
  unfold float_mark, integer_char in *.
  apply orb_true_iff in Hm as [Hm%Ascii.eqb_eq|Hm%Ascii.eqb_eq]; subst; discriminate.
Qed.

(** No text of a canonical value is a proper prefix of another one's. *)
Lemma json_prefix v : canonical_value v -> prefix_text json_dumps canonical_value v.
Proof.
  induction v as [|b|n|x|s|u|l IH|d IH] using value_ind'; intros Hv w t t' r r' Hw Ht Ht' Hr Hr' Heq;
    destruct (json_first _ _ Hv Ht) as (c & t1 & -> & Hc);
    destruct (json_first _ _ Hw Ht') as (c' & t1' & -> & Hc');
    pose proof (f_equal head Heq) as Hh; simpl in Hh; injection Hh as <-.
  - destruct w as [|[]| | | | | |]; simpl in Hc, Hc'; try (apply Ascii.eqb_eq in Hc; subst; discriminate Hc').
    simpl in Ht, Ht'. split; [done|]. by simplify_eq/=.
  - destruct w as [|b'| | | | | |]; simpl in Hc, Hc';
      try (apply Ascii.eqb_eq in Hc; subst; destruct b; discriminate Hc').
    apply Ascii.eqb_eq in Hc as ->. destruct b, b'; try discriminate Hc'; by simplify_eq/=.
  - destruct w as [|[]|n'|x'| | | |]; simpl in Hc, Hc';
      try (apply Ascii.eqb_eq in Hc'; subst; discriminate Hc); try discriminate Hc';
      simpl in Ht, Ht'; injection Ht as Ht; injection Ht' as Ht'; rewrite <- Ht, <- Ht' in Heq;
      eapply json_numbers_prefix; try apply Heq; try done; try apply number_text_Z.
    + intros E%chars_inj%string_of_Z_inj. congruence.
    + destruct Hw as [Hw _]. simpl in Hw. destruct (is_finite x') eqn:Hx'; [|done].
      by apply json_float_text.
    + destruct Hw as [Hw _]. simpl in Hw. destruct (is_finite x') eqn:Hx'; [|done]. intros E.
      pose proof (integer_no_mark n) as Hm. rewrite E in Hm.
      destruct (json_float_text x' Hx') as [_ H2]. congruence.
  - destruct Hv as [Hv Fv]. simpl in Hv. destruct (is_finite x) eqn:Hx; [|done].
    destruct (json_float_text x Hx) as [H1 H2].
    destruct w as [|[]|n'|x'| | | |]; simpl in Hc, Hc';
      try (apply Ascii.eqb_eq in Hc'; subst; discriminate Hc); try discriminate Hc';
      simpl in Ht, Ht'; injection Ht as Ht; injection Ht' as Ht'; rewrite <- Ht, <- Ht' in Heq;
      eapply json_numbers_prefix; try apply Heq; try done; try apply number_text_Z.
    + intros E. pose proof (integer_no_mark n') as Hm. rewrite <- E in Hm. congruence.
    + destruct Hw as [Hw _]. simpl in Hw. destruct (is_finite x') eqn:Hx'; [|done].
      by apply json_float_text.
    + destruct Hw as [Hw Fw]. simpl in Hw. destruct (is_finite x') eqn:Hx'; [|done].
      unfold floats_ok in Fv, Fw. simpl in Fv, Fw. rewrite andb_true_r in Fv, Fw. intros E.
      f_equal. apply float_repr_inj; [done..|]. apply chars_inj.
      by destruct x, x'.
  - destruct w as [|[]| | |s'| | |]; simpl in Hc, Hc';
      try (apply Ascii.eqb_eq in Hc; subst; discriminate Hc').
    cbn [json_dumps] in Ht, Ht'. assert (json_string s ++ r = json_string s' ++ r') as E by congruence.
    by apply json_string_prefix in E as [-> ->].
  - discriminate Hc.
  - destruct w as [|[]| | | | |l'|]; simpl in Hc, Hc';
      try (apply Ascii.eqb_eq in Hc; subst; discriminate Hc').
    cbn [json_dumps] in Ht, Ht'. ok_inv. injection Heq as Heq. rewrite !app_singleton_cons in Heq.
    apply canonical_list in Hv, Hw.
    edestruct (comma_join_inj json_dumps canonical_value "]"%char) with (l := l) (l' := l') as [-> ->]; eauto.
    + intros. eapply json_first_not; eauto.
    + rewrite List.Forall_forall in *. auto.
  - destruct w as [|[]| | | | | |d']; simpl in Hc, Hc';
      try (apply Ascii.eqb_eq in Hc; subst; discriminate Hc').
    apply canonical_dict in Hv as [Sv Hv], Hw as [Sw Hw].
    rewrite json_dumps_dict in Ht, Ht' by done. ok_inv. injection Heq as Heq. rewrite !app_singleton_cons in Heq.
    edestruct (comma_join_inj json_entry (fun kv => canonical_value kv.2) "}"%char)
      with (l := d) (l' := d') as [-> ->]; eauto.
    + intros kv t Q Ht. unfold json_entry in Ht. ok_inv. by eexists _, _.
    + rewrite List.Forall_forall in *. intros kv Hkv. apply json_entry_prefix. auto.
Qed.

#[local] Transparent json_string.

Lemma canonical_json_value v s :
  floats_ok v = true -> canonical_json v = Ok s ->
  exists w, canonicalize v = Ok w /\ canonical_value w /\ json_dumps w = Ok (chars s).
Proof.
  intros Hv Hs. unfold canonical_json in Hs. ok_inv. exists a. split; [done|].
  split; [by eapply canonicalize_canonical|]. by rewrite chars_of_chars.
Qed.

Lemma canonical_json_inj_aux v w s :
  floats_ok v = true -> floats_ok w = true ->
  canonical_json v = Ok s -> canonical_json w = Ok s -> canonicalize v = canonicalize w.
Proof.
  intros Fv Fw Hv Hw.
  destruct (canonical_json_value v s Fv Hv) as (v' & -> & Cv & Jv).
  destruct (canonical_json_value w s Fw Hw) as (w' & -> & Cw & Jw).
  destruct (json_prefix v' Cv w' _ _ [] [] Cw Jv Jw eq_refl eq_refl eq_refl) as [-> _]. done.
Qed.

(** The canonical texts of the two payloads are different texts with one SHA-256. *)
Definition texts_collide (v w : value) : Prop :=
  exists s1 s2, canonical_json v = Ok s1 /\ canonical_json w = Ok s2 /\ sha256_collision s1 s2.

Lemma canonical_hash_inj v w h :
  floats_ok v = true -> floats_ok w = true ->
  canonical_hash v = Ok h -> canonical_hash w = Ok h ->
  canonicalize v = canonicalize w \/ texts_collide v w.
Proof.
  unfold canonical_hash. rewrite !rbind_ok. intros Fv Fw (s1 & Hv & Eh) (s2 & Hw & Eh').
  assert (sha256_hex s1 = sha256_hex s2) as [E|E]%sha256_hex_inj; [|left|right; by exists s1, s2].
  { apply (inj (String.append "sha256:")). congruence. }
  subst. by eapply canonical_json_inj_aux.
Qed.

(** *** What equal canonical forms say about the parts *)

Lemma canonicalize_field_ok d w k x :
  NoDup (akeys d) -> canonicalize (VDict d) = Ok w -> aget k d = Some x ->
  exists d' y, w = VDict d' /\ aget k d' = Some y /\ canonicalize x = Ok y.
Proof.
  intros Hnd Hw Hx. apply canonicalize_dict in Hw as (d' & -> & _ & Hkeys & Hin).
  assert (In k (akeys d')) as Hk.
  { eapply Permutation_in; [symmetry; apply Hkeys|]. apply aget_In in Hx. by apply (in_map fst) in Hx. }
  apply in_map_iff in Hk as ([k' y] & Ek & Hy). simpl in Ek. subst k'.
  destruct (Hin _ Hy) as ([k' x'] & Hx' & Ek & Hc). simpl in *. subst k'.
  apply (aget_NoDup _ _ _ Hnd) in Hx'. rewrite Hx in Hx'. injection Hx' as <-.
  exists d', y. split_and!; [done| |done]. apply aget_NoDup; [|done]. by rewrite Hkeys.
Qed.

(** Equal canonical dictionaries have equal canonical fields. *)
Lemma canonicalize_field d1 d2 w k x1 x2 :
  NoDup (akeys d1) -> NoDup (akeys d2) ->
  canonicalize (VDict d1) = Ok w -> canonicalize (VDict d2) = Ok w ->
  aget k d1 = Some x1 -> aget k d2 = Some x2 -> canonicalize x1 = canonicalize x2.
Proof.
  intros N1 N2 H1 H2 A1 A2.
  destruct (canonicalize_field_ok d1 w k x1 N1 H1 A1) as (d & y & -> & Hy & ->).
  destruct (canonicalize_field_ok d2 _ k x2 N2 H2 A2) as (d' & y' & [= <-] & Hy' & ->).
  congruence.
Qed.

Lemma canonical_hash_canonicalizes v h : canonical_hash v = Ok h -> exists w, canonicalize v = Ok w.
Proof. unfold canonical_hash, canonical_json. intros H. ok_inv. eauto. Qed.

(** A digest is not a timestamp, so canonicalisation leaves it alone. *)
Lemma canonicalize_digest s : canonicalize (VStr ("sha256:" +:+ s)) = Ok (VStr ("sha256:" +:+ s)).
Proof.
  cbn [canonicalize]. unfold _canonicalize_string.
  assert (_ISO_DATETIME_RE ("sha256:" +:+ s) = false) as ->; [|done].
  unfold _ISO_DATETIME_RE. rewrite chars_app. simpl.
  destruct (chars s) as [|a [|b [|c [|d l]]]]; done.
Qed.

Lemma canonical_hash_form v h : canonical_hash v = Ok h -> canonicalize (VStr h) = Ok (VStr h).
Proof. unfold canonical_hash. intros (s & _ & [= <-])%rbind_ok. apply canonicalize_digest. Qed.

Lemma floats_ok_items l : floats_ok (VDict [("items", VList l)]) = forallb floats_ok l.
Proof. unfold floats_ok. simpl. by rewrite !andb_true_r. Qed.

(** What [hash_sequence] hashes. *)
Definition sequence_payload (l : list value) : value := VDict [("items", VList l)].

Lemma hash_sequence_inj l1 l2 h :
  forallb floats_ok l1 = true -> forallb floats_ok l2 = true ->
  hash_sequence l1 = Ok h -> hash_sequence l2 = Ok h ->
  (exists l, mapR canonicalize l1 = Ok l /\ mapR canonicalize l2 = Ok l) \/
  texts_collide (sequence_payload l1) (sequence_payload l2).
Proof.
  unfold hash_sequence. intros F1 F2 H1 H2.
  assert (forall x : value, NoDup (akeys [("items", x)])) as Hnd by (intros; apply NoDup_singleton).
  rewrite <- floats_ok_items in F1, F2.
  destruct (canonical_hash_inj _ _ _ F1 F2 H1 H2) as [E|]; [left|by right].
  apply canonical_hash_canonicalizes in H1 as (w & Hw). rewrite Hw in E. symmetry in E.
  pose proof (canonicalize_field _ _ _ "items" (VList l1) (VList l2)
    (Hnd _) (Hnd _) Hw E eq_refl eq_refl) as Hl.
  destruct (canonicalize_field_ok _ _ "items" (VList l1) (Hnd _) Hw eq_refl)
    as (_ & y & _ & _ & Hy).
  rewrite Hy in Hl. symmetry in Hl. cbn [canonicalize] in Hl, Hy.
  apply rbind_ok in Hy as (l & Hl1 & El). apply rbind_ok in Hl as (l' & Hl2 & El').
  exists l. split; congruence.
Qed.

Lemma canonicalize_all_fixed rows nrows :
  mapR canonicalize rows = Ok nrows -> mapR canonicalize nrows = Ok nrows.
Proof.
  intros H%mapR_ok. apply mapR_fixed. induction H; constructor; eauto using canonicalize_idempotent_aux.
Qed.

Lemma floats_ok_all rows nrows :
  mapR canonicalize rows = Ok nrows -> forallb floats_ok rows = true -> forallb floats_ok nrows = true.
Proof.
  intros H%mapR_ok. rewrite !forallb_forall. intros Hf y Hy.
  destruct (Forall2_In_r _ _ _ _ H Hy) as (x & Hx & Hc). eauto using floats_ok_canonicalize.
Qed.

Lemma mapR_fixed_inv {A} (f : A -> res A) l : mapR f l = Ok l -> Forall (fun x => f x = Ok x) l.
Proof.
  induction l as [|x l IH]; simpl; intros H; [constructor|].
  apply rbind_ok in H as (y & Hy & (ys & Hys & E)%rbind_ok). simplify_eq. constructor; auto.
Qed.

Lemma sequenced_fixed rows nrows l :
  mapR canonicalize rows = Ok nrows -> Permutation l nrows -> mapR canonicalize l = Ok l.
Proof.
  intros H%canonicalize_all_fixed%mapR_fixed_inv Hp. apply mapR_fixed. by rewrite Hp.
Qed.

Lemma sequenced_floats_ok rows nrows l :
  mapR canonicalize rows = Ok nrows -> Permutation l nrows ->
  forallb floats_ok rows = true -> forallb floats_ok l = true.
Proof.
  intros H Hp Hf. eapply floats_ok_all in Hf; [|done]. rewrite !forallb_forall in *.
  intros x Hx. apply Hf. by eapply Permutation_in.
Qed.

(** The rows whose sequence [rows_root] hashes: the canonical rows, rearranged. *)
Lemma rows_root_rows rows ks h :
  rows_root rows ks = Ok h ->
  exists nrows l, mapR canonicalize rows = Ok nrows /\ Permutation l nrows /\ hash_sequence l = Ok h.
Proof.
  unfold rows_root. intros (nrows & Hn & H)%rbind_ok. apply rbind_ok in H as (l & Hl & H).
  exists nrows, l. split_and!; [done| |done]. destruct ks; [by simplify_eq|]. by apply py_sort_perm in Hl.
Qed.

(** The canonical rows, each in some order, are two sequences whose texts collide. *)
Definition rows_collide (rows1 rows2 : list value) : Prop :=
  exists n1 n2 l1 l2, mapR canonicalize rows1 = Ok n1 /\ mapR canonicalize rows2 = Ok n2 /\
    Permutation l1 n1 /\ Permutation l2 n2 /\ texts_collide (sequence_payload l1) (sequence_payload l2).

Lemma rows_root_inj rows1 rows2 ks1 ks2 h :
  forallb floats_ok rows1 = true -> forallb floats_ok rows2 = true ->
  rows_root rows1 ks1 = Ok h -> rows_root rows2 ks2 = Ok h ->
  (exists n1 n2, mapR canonicalize rows1 = Ok n1 /\ mapR canonicalize rows2 = Ok n2 /\ Permutation n1 n2) \/
  rows_collide rows1 rows2.
Proof.
  intros F1 F2 H1 H2.
  destruct (rows_root_rows _ _ _ H1) as (n1 & l1 & Hn1 & P1 & S1).
  destruct (rows_root_rows _ _ _ H2) as (n2 & l2 & Hn2 & P2 & S2).
  pose proof (sequenced_floats_ok _ _ _ Hn1 P1 F1) as L1.
  pose proof (sequenced_floats_ok _ _ _ Hn2 P2 F2) as L2.
  destruct (hash_sequence_inj l1 l2 h L1 L2 S1 S2) as [(l & C1 & C2)|]; [left|right; by exists n1, n2, l1, l2].
  exists n1, n2. split_and!; [done..|].
  rewrite (sequenced_fixed _ _ _ Hn1 P1) in C1. rewrite (sequenced_fixed _ _ _ Hn2 P2) in C2.
  simplify_eq. by rewrite <- P1, <- P2.
Qed.

(** ** Properties *)

(** canonicalisation reaches a normal form: applied to its own result it
    changes nothing, whatever timestamps, nested dictionaries and lists the
    payload holds. *)
Theorem canonicalize_idempotent v w : canonicalize v = Ok w -> canonicalize w = Ok w.
Proof. apply canonicalize_idempotent_aux. Qed.

Definition sample_payload : value :=
  VDict [("rank", VInt 3); ("at", VStr "2026-04-10T12:00:00.250+02:00");
         ("score", VFloat (flit 15 1)); ("inner", VDict [("z", VNone); ("a", VTime 0)])].

Definition reordered_payload : value :=
  VDict [("inner", VDict [("a", VTime 0); ("z", VNone)]); ("score", VFloat (flit 15 1));
         ("at", VStr "2026-04-10T12:00:00.250+02:00"); ("rank", VInt 3)].

Lemma canonicalize_idempotent_witness :
  exists w, canonicalize sample_payload = Ok w /\ canonicalize w = Ok w.
Proof.
  eexists. split; [vm_compute; reflexivity|].
  apply (canonicalize_idempotent sample_payload). vm_compute. reflexivity.
Defined.

Lemma canonicalize_key_order_witness :
  canonicalize sample_payload = canonicalize reordered_payload /\
  canonical_hash sample_payload = canonical_hash reordered_payload.
Proof. apply canonicalize_key_order; vm_compute; reflexivity. Defined.

(** C37: the hash of a payload commits to its canonical form: two payloads with
    the same [canonical_hash] have the same canonical form, or their own two
    canonical JSON texts differ and have the same SHA-256.  Floats are those
    whose printed form reads back. *)
Theorem canonical_hash_binding v w h :
  floats_ok v = true -> floats_ok w = true ->
  canonical_hash v = Ok h -> canonical_hash w = Ok h ->
  canonicalize v = canonicalize w \/
  exists s1 s2, canonical_json v = Ok s1 /\ canonical_json w = Ok s2 /\ sha256_collision s1 s2.
Proof. apply canonical_hash_inj. Qed.

Lemma canonical_hash_binding_witness :
  canonicalize sample_payload = canonicalize reordered_payload \/
  exists s1 s2, canonical_json sample_payload = Ok s1 /\ canonical_json reordered_payload = Ok s2 /\ sha256_collision s1 s2.
Proof.
  apply (canonical_hash_binding sample_payload reordered_payload
    "sha256:4b5f400863037d5e542ac6c422eac1ada6e7f9e761edfe2d263f9dfcaee7d20b");
    vm_compute; reflexivity.
Defined.

(** The root of a set of rows does not depend on the order in which the rows
    are listed, when their sort keys are strings and integers and no two rows
    share a key. *)
Theorem rows_root_order rows rows' sort_keys sh normalized_rows keys :
  sort_keys <> [] -> Permutation rows rows' ->
  mapR canonicalize rows = Ok normalized_rows ->
  mapR (row_key sort_keys) normalized_rows = Ok keys ->
  Forall (plain_key sh) keys -> NoDup keys ->
  rows_root rows sort_keys = rows_root rows' sort_keys.
Proof.
  intros Hne Hp Hrows Hkeys Hplain Hnd. unfold rows_root.
  destruct (mapR_perm canonicalize _ _ _ Hp Hrows) as (nrows' & -> & Hp'). rewrite Hrows. simpl.
  destruct sort_keys as [|k ks]; [done|]. by erewrite py_sort_order.
Qed.

Lemma rows_root_order_witness :
  let row t r := VDict [("tournament_id", VStr t); ("rank", VInt r)] in
  rows_root [row "b" 1; row "a" 2; row "a" 1] ["tournament_id"; "rank"] =
  rows_root [row "a" 1; row "a" 2; row "b" 1] ["tournament_id"; "rank"].
Proof.
  intros row. eapply rows_root_order with (sh := [1; 0]).
  - discriminate.
  - apply Permutation_sym. etransitivity; [apply perm_skip, perm_swap|].
    etransitivity; [apply perm_swap|]. apply perm_skip, perm_swap.
  - vm_compute. reflexivity.
  - vm_compute. reflexivity.
  - repeat constructor.
  - repeat (constructor; [rewrite list_elem_of_In; vm_compute; intuition congruence|]). constructor.
Defined.

(** A rows root commits to the rows: two sets of rows with the same root are,
    in canonical form, rearrangements of each other, or exhibit a collision of
    SHA-256. *)
Theorem rows_root_binding rows1 rows2 ks1 ks2 h :
  forallb floats_ok rows1 = true -> forallb floats_ok rows2 = true ->
  rows_root rows1 ks1 = Ok h -> rows_root rows2 ks2 = Ok h ->
  (exists n1 n2, mapR canonicalize rows1 = Ok n1 /\ mapR canonicalize rows2 = Ok n2 /\ Permutation n1 n2) \/
  rows_collide rows1 rows2.
Proof. apply rows_root_inj. Qed.

Lemma rows_root_binding_witness :
  let rows := [VDict [("t", VStr "b")]; VDict [("t", VStr "a")]] in
  (exists n1 n2, mapR canonicalize rows = Ok n1 /\ mapR canonicalize (rev rows) = Ok n2 /\ Permutation n1 n2) \/
  rows_collide rows (rev rows).
Proof.
  intros rows. eapply (rows_root_binding rows (rev rows) ["t"] ["t"]); vm_compute; reflexivity.
Defined.
