(* ===== verification/Rewards.v ===== *)
(** * Block rewards ([rewards.py])

    The halving schedule of the three pools, the bonus multipliers and the
    settlement of one challenge.  Amounts are integers (uclaw); [//] is floor
    division.  The theorems give the closed form and the bounds of the miner
    pool, the bounds of one reward, and a bound on what one challenge pays. *)
From Stdlib Require Import ZArith Lia String.
From stdpp Require Import base list strings.
From S2P Require Import Prelude.
Open Scope Z_scope.

(** ** Operations *)

Definition INITIAL_MINER_POOL : Z := 50000000.
Definition INITIAL_VALIDATOR_POOL : Z := 0.
Definition INITIAL_ECO_FUND : Z := 0.
Definition HALVING_EPOCHS : Z := 210000.
Definition MIN_REWARD : Z := 1.

(** [for _ in range(halvings)]: halve, and stop at the floor. *)
Fixpoint halve_loop (halvings : nat) (reward : Z) : Z :=
  match halvings with
  | O => reward
  | S n =>
      let reward := reward / 2 in
      if reward <? MIN_REWARD then MIN_REWARD else halve_loop n reward
  end.

Definition get_epoch_miner_pool (epoch : Z) : Z :=
  halve_loop (Z.to_nat (epoch / HALVING_EPOCHS)) INITIAL_MINER_POOL.
Definition get_epoch_validator_pool (epoch : Z) : Z :=
  halve_loop (Z.to_nat (epoch / HALVING_EPOCHS)) INITIAL_VALIDATOR_POOL.
Definition get_epoch_eco_fund (epoch : Z) : Z :=
  halve_loop (Z.to_nat (epoch / HALVING_EPOCHS)) INITIAL_ECO_FUND.

Definition calc_early_bird_multiplier (registration_index : Z) : Z :=
  if registration_index <=? 0 then 100
  else if registration_index <=? 1000 then 300
  else if registration_index <=? 5000 then 200
  else if registration_index <=? 10000 then 150
  else 100.

Definition calc_streak_multiplier (consecutive_days : Z) : Z :=
  if 90 <=? consecutive_days then 150
  else if 30 <=? consecutive_days then 125
  else if 7 <=? consecutive_days then 110
  else 100.

Definition calculate_miner_reward
  (base_reward registration_index consecutive_days challenges_completed : Z) : Z :=
  let early_bird := calc_early_bird_multiplier registration_index in
  let streak := calc_streak_multiplier consecutive_days in
  let actual := base_reward * early_bird * streak / 10000 in
  let actual := if challenges_completed <? 100 then actual / 2 else actual in
  Z.max actual MIN_REWARD.

(** The statistics of one miner, [{name: int}]. *)
Definition miner_info : Type := list (string * Z).
Definition info_get (info : miner_info) (key : string) : Z := default 0 (aget key info).

Definition reward_per_miner (epoch num_challenges_in_epoch : Z) (correct_miners : list string) : Z :=
  let miner_pool := get_epoch_miner_pool epoch in
  let per_challenge_pool := Z.max (miner_pool / num_challenges_in_epoch) 1 in
  Z.max (per_challenge_pool / Z.of_nat (length correct_miners)) 1.

(** [settle_challenge]: no miner or no challenge settles to the empty dict. *)
Definition settle_challenge (epoch num_challenges_in_epoch : Z)
  (correct_miners : list string) (miner_info_map : list (string * miner_info)) : list (string * Z) :=
  match correct_miners with
  | [] => []
  | _ =>
      if num_challenges_in_epoch <? 1 then []
      else
        let base := reward_per_miner epoch num_challenges_in_epoch correct_miners in
        fold_left (fun rewards addr =>
          let info := default [] (aget addr miner_info_map) in
          let actual := calculate_miner_reward base (info_get info "registration_index")
            (info_get info "consecutive_days") (info_get info "challenges_completed") in
          aset addr actual rewards) correct_miners []
  end.

(** ** Lemmas *)

Lemma halve_loop_closed n reward :
  1 <= reward -> halve_loop n reward = Z.max 1 (reward / 2 ^ Z.of_nat n).
Proof.
  unfold MIN_REWARD. revert reward. induction n as [|n IH]; intros reward Hr; cbn [halve_loop].
  - change (2 ^ Z.of_nat 0) with 1. rewrite Z.div_1_r. lia.
  - rewrite Nat2Z.inj_succ, Z.pow_succ_r by lia. rewrite <- Z.div_div by lia.
    unfold MIN_REWARD in *. destruct (Z.ltb_spec (reward / 2) 1) as [Hlt|Hge]; [|by apply IH].
    assert (reward / 2 = 0) as -> by (Z.div_mod_to_equations; lia).
    rewrite Z.div_0_l by lia. done.
Qed.

Lemma early_bird_bounds i : 100 <= calc_early_bird_multiplier i <= 300.
Proof. unfold calc_early_bird_multiplier. repeat case_match; lia. Qed.

Lemma streak_bounds d : 100 <= calc_streak_multiplier d <= 150.
Proof. unfold calc_streak_multiplier. repeat case_match; lia. Qed.

(** The product of the multipliers lies between 1x and 4.5x. *)
Lemma bonus_bounds base i d :
  0 <= base -> base <= base * calc_early_bird_multiplier i * calc_streak_multiplier d / 10000 <= 9 * base / 2.
Proof.
  intros Hb. pose proof (early_bird_bounds i). pose proof (streak_bounds d).
  set (e := calc_early_bird_multiplier i) in *. set (s := calc_streak_multiplier d) in *.
  assert (10000 <= e * s <= 45000) by nia. split.
  - apply Z.div_le_lower_bound; nia.
  - transitivity (base * 45000 / 10000); [apply Z.div_le_mono; nia|].
    replace (base * 45000) with (9 * base * 5000) by lia.
    replace 10000 with (2 * 5000) by lia. by rewrite Z.div_mul_cancel_r.
Qed.

Lemma reward_bounds base i d c :
  1 <= base -> 1 <= calculate_miner_reward base i d c <= 9 * base / 2.
Proof.
  intros Hb. unfold calculate_miner_reward, MIN_REWARD. pose proof (bonus_bounds base i d ltac:(lia)) as H.
  revert H. generalize (base * calc_early_bird_multiplier i * calc_streak_multiplier d / 10000).
  intros x H. destruct (c <? 100); Z.div_mod_to_equations; lia.
Qed.

Lemma settle_keys (f : string -> Z) l acc k :
  In k (akeys (fold_left (fun r a => aset a (f a) r) l acc)) <-> In k l \/ In k (akeys acc).
Proof.
  revert acc. induction l as [|a l IH]; intros acc; simpl; [naive_solver|]. rewrite IH, akeys_aset.
  unfold ahas. destruct (aget a acc) eqn:E.
  - assert (In a (akeys acc)) by (apply aget_In in E; apply in_map_iff; by eexists (_, _)). naive_solver.
  - rewrite in_app_iff. simpl. naive_solver.
Qed.

(** Each miner is paid once: at most as many entries as miners, each an [f]. *)
Lemma settle_entries (f : string -> Z) l acc :
  NoDup (akeys acc) -> (forall k v, In (k, v) acc -> v = f k) ->
  let r := fold_left (fun r a => aset a (f a) r) l acc in
  NoDup (akeys r) /\ (length r <= length acc + length l)%nat /\ (forall k v, In (k, v) r -> v = f k).
Proof.
  revert acc. induction l as [|a l IH]; intros acc Hnd Hacc; simpl; [split_and!; auto; lia|].
  destruct (IH (aset a (f a) acc)) as (H1 & H2 & H3).
  - by apply NoDup_akeys_aset.
  - intros k v [[-> ->]|H]%In_aset; auto.
  - pose proof (length_aset a (f a) acc). split_and!; [done|lia|done].
Qed.

Lemma sum_Z_le_bound b l : Forall (fun x => x <= b) l -> sum_Z l <= Z.of_nat (length l) * b.
Proof. unfold sum_Z. induction 1; cbn [foldr length]; lia. Qed.

(** ** Properties *)

(** The halving schedule in closed form: from 50 CLAW, one halving every
    210000 epochs, never below one uclaw. *)
Theorem miner_pool_schedule epoch :
  0 <= epoch ->
  get_epoch_miner_pool epoch = Z.max 1 (50000000 / 2 ^ (epoch / 210000)).
Proof.
  intros He. unfold get_epoch_miner_pool, HALVING_EPOCHS, INITIAL_MINER_POOL.
  rewrite halve_loop_closed by lia. rewrite Z2Nat.id; [done|]. apply Z.div_pos; lia.
Qed.

Lemma miner_pool_schedule_witness :
  get_epoch_miner_pool 5460000 = Z.max 1 (50000000 / 2 ^ (5460000 / 210000)).
Proof. apply miner_pool_schedule. lia. Defined.

(** C40: one challenge pays each correct miner exactly once, at least one uclaw
    and at most 4.5 times the base reward; and when the challenge's share of
    the pool covers the miners, all rewards together stay within 4.5 times
    that share. *)
Theorem settle_challenge_bounds epoch num miners info :
  miners <> [] -> 1 <= num ->
  let rewards := settle_challenge epoch num miners info in
  let base := reward_per_miner epoch num miners in
  let share := Z.max (get_epoch_miner_pool epoch / num) 1 in
  NoDup (akeys rewards) /\
  (forall addr, In addr (akeys rewards) <-> In addr miners) /\
  Forall (fun r => 1 <= r <= 9 * base / 2) (avals rewards) /\
  (Z.of_nat (length miners) <= share -> 2 * sum_Z (avals rewards) <= 9 * share).
Proof.
  intros Hne Hnum rewards base share.
  assert (1 <= base) as Hbase by (unfold base, reward_per_miner; lia).
  set (f := fun addr => let i := default [] (aget addr info) in
    calculate_miner_reward base (info_get i "registration_index")
      (info_get i "consecutive_days") (info_get i "challenges_completed")).
  assert (rewards = fold_left (fun r a => aset a (f a) r) miners []) as E.
  { unfold rewards, settle_challenge. destruct miners; [done|].
    destruct (Z.ltb_spec num 1); [lia|done]. }
  destruct (settle_entries f miners []) as (H1 & H2 & H3); [constructor|done|].
  rewrite <- E in *. assert (Forall (fun r => 1 <= r <= 9 * base / 2) (avals rewards)) as Hall.
  { apply List.Forall_forall. intros r ([k v] & <- & Hkv)%in_map_iff.
    rewrite (H3 _ _ Hkv). by apply reward_bounds. }
  split_and!; [done| |done|].
  - intros addr. rewrite E, settle_keys. simpl. naive_solver.
  - intros Hshare.
    assert (Z.of_nat (length miners) * base <= share) as Hpaid.
    { assert (base = share / Z.of_nat (length miners)) as ->.
      { unfold base, reward_per_miner. fold share. apply Z.max_l.
        apply Z.div_le_lower_bound; destruct miners; simpl in *; try done; lia. }
      apply Z.mul_div_le. destruct miners; simpl; [done|lia]. }
    assert (sum_Z (avals rewards) <= Z.of_nat (length rewards) * (9 * base / 2)) as Hsum.
    { replace (length rewards) with (length (avals rewards)) by apply length_map.
      apply sum_Z_le_bound. eapply List.Forall_impl; [|apply Hall]. simpl. lia. }
    simpl in H2. assert (2 * (9 * base / 2) <= 9 * base) by (Z.div_mod_to_equations; lia).
    assert (0 <= 9 * base / 2) by (Z.div_mod_to_equations; lia). nia.
Qed.

Lemma settle_challenge_bounds_witness :
  2 * sum_Z (avals (settle_challenge 210000 10 ["a"; "b"; "a"] [("a", [("registration_index", 7)])]))
    <= 9 * 2500000.
Proof.
  apply (settle_challenge_bounds 210000 10 ["a"; "b"; "a"] [("a", [("registration_index", 7)])]);
    [discriminate|lia|vm_compute; discriminate].
Defined.

(** The validator and ecosystem pools are meant to be empty, yet the floor of
    one uclaw applies to them from the first halving on. *)
Lemma validator_pool_after_halving :
  get_epoch_validator_pool 209999 = 0 /\ get_epoch_validator_pool 210000 = 1 /\
  get_epoch_eco_fund 210000 = 1.
Proof. vm_compute. done. Qed.

(** With the early-bird bonus one challenge may pay more than its share. *)
Lemma settle_challenge_exceeds_share :
  let info := [("a", [("registration_index", 1); ("consecutive_days", 90); ("challenges_completed", 100)])] in
  get_epoch_miner_pool 0 / 10 = 5000000 /\
  settle_challenge 0 10 ["a"] info = [("a", 22500000)].
Proof. vm_compute. done. Qed.
