(* ===== verification/PokerResults.v ===== *)
(** * Poker MTT tournament results ([poker_mtt_results.py])

    The score of a finished tournament, the gate that decides whether a final
    ranking row may earn a reward multiplier, and the projection of a ranking
    row to a result row.  The theorems characterise the gate and show that the
    projected row says about itself exactly what the gate decided. *)
From Stdlib Require Import ZArith Lia String SpecFloat.
From stdpp Require Import base list strings.
From S2P Require Import Prelude PyText PyFloat PyTime PyValue.
Open Scope Z_scope.

(** ** Operations *)

Definition REWARD_READY_EVIDENCE_STATES : list string := ["complete"].

Definition compatible_result_policy_versions (reward_policy_bundle_version : string) : list string :=
  if str_startswith "poker_mtt_daily_policy_v" reward_policy_bundle_version ||
     str_startswith "poker_mtt_weekly_policy_v" reward_policy_bundle_version
  then [reward_policy_bundle_version; "poker_mtt_v1"]
  else [reward_policy_bundle_version].

(** Both versions are strings or [None]. *)
Definition result_policy_matches_reward_window
  (result_policy_bundle_version reward_policy_bundle_version : value) : res bool :=
  if negb (truthy result_policy_bundle_version) || negb (truthy reward_policy_bundle_version)
  then Ok false
  else let? v := as_str reward_policy_bundle_version in
       Ok (in_strings result_policy_bundle_version (compatible_result_policy_versions v)).

Definition tournament_result_score (final_rank field_size : Z) : res float :=
  if field_size <=? 1 then Err (ValueError "field_size must be at least 2")
  else if (final_rank <? 1) || (field_size <? final_rank) then
    Err (ValueError "final_rank out of range")
  else let? q := int_truediv (field_size - final_rank) (Z.max 1 (field_size - 1)) in
       Ok (round_digits 6 q).

Definition clamp (value lower upper : float) : float := fmax lower (fmin upper value).

Definition total_score (tournament_score hidden_eval_score consistency_input_score : float) : float :=
  round_digits 6
    (clamp (fadd (fadd (fmul tournament_score (flit 55 2)) (fmul hidden_eval_score (flit 25 2)))
                 (fmul consistency_input_score (flit 20 2)))
           (fneg fone) fone).

Section Gate.
Variables (rank_state rank : value) (rated_or_practice : string) (human_only evidence_state
  policy_bundle_version locked_at evidence_root final_ranking_id standing_snapshot_id : value).

Definition reward_gate_reason : option string :=
  if negb (String.eqb rated_or_practice "rated") || negb (is_true human_only) then
    Some "not_rated_or_not_human"
  else if negb (truthy policy_bundle_version) then Some "missing_policy_bundle_version"
  else if negb (py_eq_str rank_state "ranked") || is_none rank then Some "rank_state_not_ranked"
  else if negb (in_strings evidence_state REWARD_READY_EVIDENCE_STATES) then
    Some "evidence_not_reward_ready"
  else if negb (truthy final_ranking_id) then Some "missing_final_ranking_ref"
  else if negb (truthy standing_snapshot_id) then Some "missing_standing_snapshot_ref"
  else if negb (truthy evidence_root) then Some "missing_evidence_root"
  else if is_none locked_at then Some "missing_lock"
  else None.

Definition is_reward_ready : bool :=
  match reward_gate_reason with None => true | Some _ => false end.
End Gate.

(** The gate as [project_final_ranking_row] calls it. *)
Definition row_gate (row : dict) (rated_or_practice : string) (human_only : value)
  (policy_bundle_version : value) (locked_at : Z) (evidence_state : string) : option string :=
  reward_gate_reason (dget row "rank_state") (dget row "rank") rated_or_practice human_only
    (VStr evidence_state) (por policy_bundle_version (dget row "policy_bundle_version"))
    (VTime locked_at) (dget row "evidence_root") (dget row "id") (dget row "standing_snapshot_id").

(** [row.get("rank_state") not in {None, "ranked"}]; a container is unhashable. *)
Definition unusual_rank_state (v : value) : res bool :=
  match v with
  | VNone => Ok false
  | VList _ | VDict _ => Err TypeError
  | _ => Ok (negb (py_eq_str v "ranked"))
  end.

(** The rank and the score: a rank outside the field is an error for a row
    that passes the gate, and is clamped to the field for the others. *)
Definition scored_rank (reason : option string) (final_rank field_size : Z) : res (Z * float) :=
  match tournament_result_score final_rank field_size with
  | Err (ValueError msg) =>
      match reason with
      | None => Err (ValueError msg)
      | Some _ => Ok (Z.max 1 (Z.min field_size final_rank), fzero)
      end
  | Err e => Err e
  | Ok s => Ok (final_rank, s)
  end.

Definition project_final_ranking_row (row : dict) (rated_or_practice : string) (human_only : value)
  (field_size : Z) (policy_bundle_version : value) (locked_at : Z) : res dict :=
  let rank := dget row "rank" in
  let? final_rank := if is_none rank then Ok field_size else py_int rank in
  let? evidence_state := py_str (por (dget row "evidence_state") (VStr "pending")) in
  let locked_at_iso := VStr (iso_format locked_at) in
  let reason := row_gate row rated_or_practice human_only policy_bundle_version locked_at evidence_state in
  let? scored := scored_rank reason final_rank field_size in
  let '(final_rank, result_score) := scored in
  let? unusual := unusual_rank_state (dget row "rank_state") in
  let? state_flag := if unusual then let? s := py_str (dget row "rank_state") in Ok [VStr s] else Ok [] in
  let risk_flags := match reason with Some r => [VStr r] | None => [] end ++ state_flag in
  let miner_address := por (dget row "miner_address") (dget row "source_user_id") in
  let? tournament_id := dgetitem row "tournament_id" in
  let? tournament_text := py_str tournament_id in
  let? miner_text := py_str miner_address in
  let? reentry_count := py_int (por (dget row "reentry_count") (VInt 1)) in
  let ready := match reason with None => true | Some _ => false end in
  Ok [("id", VStr ("poker_mtt:" +:+ tournament_text +:+ ":" +:+ miner_text));
      ("tournament_id", tournament_id);
      ("miner_address", miner_address);
      ("economic_unit_id", por (dget row "economic_unit_id") miner_address);
      ("rated_or_practice", VStr rated_or_practice);
      ("human_only", human_only);
      ("field_size", VInt field_size);
      ("final_rank", VInt final_rank);
      ("rank_state", dget row "rank_state");
      ("chip_delta", dget row "chip_delta");
      ("entry_number", dget row "entry_number");
      ("reentry_count", VInt reentry_count);
      ("finish_percentile", VFloat result_score);
      ("tournament_result_score", VFloat result_score);
      ("hidden_eval_score", VFloat fzero);
      ("consistency_input_score", VFloat fzero);
      ("total_score", VFloat (total_score result_score fzero fzero));
      ("eligible_for_multiplier", VBool ready);
      ("rolling_score", VNone);
      ("evaluation_state", VStr "final");
      ("evaluation_version", policy_bundle_version);
      ("final_ranking_id", dget row "id");
      ("standing_snapshot_id", dget row "standing_snapshot_id");
      ("standing_snapshot_hash", dget row "standing_snapshot_hash");
      ("evidence_root", dget row "evidence_root");
      ("evidence_state", VStr evidence_state);
      ("locked_at", if ready then locked_at_iso else VNone);
      ("anchorable_at", if ready then locked_at_iso else VNone);
      ("anchor_state", VStr "unanchored");
      ("anchor_payload_hash", VNone);
      ("risk_flags", VList risk_flags);
      ("no_multiplier_reason", vopt_str reason);
      ("created_at", por (dget row "created_at") locked_at_iso);
      ("updated_at", locked_at_iso)].

(** ** Lemmas *)

Lemma reward_gate_reason_none rank_state rank rated human evidence policy locked root fid sid :
  reward_gate_reason rank_state rank rated human evidence policy locked root fid sid = None <->
  rated = "rated" /\ human = VBool true /\ truthy policy = true /\ rank_state = VStr "ranked" /\
  rank <> VNone /\ evidence = VStr "complete" /\ truthy fid = true /\ truthy sid = true /\
  truthy root = true /\ locked <> VNone.
Proof.
  unfold reward_gate_reason. split.
  - destruct (String.eqb_spec rated "rated"); [|done].
    destruct human as [|[]| | | | | |]; try done. simpl.
    destruct (truthy policy); [|done]. destruct rank_state as [| | | |rs| | |]; try done. simpl.
    destruct (String.eqb_spec rs "ranked") as [->|]; [|done]. simpl.
    destruct (is_none rank) eqn:Hr; [done|]. destruct evidence as [| | | |es| | |]; try done. simpl.
    destruct (String.eqb_spec es "complete") as [->|]; [|done].
    destruct (truthy fid); [|done]. destruct (truthy sid); [|done]. destruct (truthy root); [|done].
    destruct (is_none locked) eqn:Hl; [done|]. intros _. split_and!; try done; by intros ->.
  - intros (-> & -> & -> & -> & Hr & -> & -> & -> & -> & Hl).
    destruct rank; try done; by destruct locked.
Qed.

Lemma tournament_result_score_domain r n s :
  tournament_result_score r n = Ok s -> 2 <= n /\ 1 <= r <= n.
Proof.
  unfold tournament_result_score. destruct (Z.leb_spec n 1); [done|].
  destruct (Z.ltb_spec r 1); [done|]. destruct (Z.ltb_spec n r); [done|]. intros. lia.
Qed.

Lemma scored_rank_domain reason r n r' s :
  scored_rank reason r n = Ok (r', s) ->
  (1 <= n -> 1 <= r' <= n) /\ (reason = None -> r' = r /\ tournament_result_score r n = Ok s).
Proof.
  unfold scored_rank. destruct (tournament_result_score r n) as [s'|[]] eqn:E; try done.
  - intros [= <- <-]. apply tournament_result_score_domain in E. split; [lia|done].
  - destruct reason; [|done]. intros [= <- _]. split; [lia|done].
Qed.

Lemma project_gate row rated human field_size policy locked_at r :
  1 <= field_size ->
  project_final_ranking_row row rated human field_size policy locked_at = Ok r ->
  (dget r "eligible_for_multiplier" = VBool true <->
    rated = "rated" /\ human = VBool true /\
    truthy (por policy (dget row "policy_bundle_version")) = true /\
    dget row "rank_state" = VStr "ranked" /\ dget row "rank" <> VNone /\
    py_str (por (dget row "evidence_state") (VStr "pending")) = Ok "complete" /\
    truthy (dget row "id") = true /\ truthy (dget row "standing_snapshot_id") = true /\
    truthy (dget row "evidence_root") = true) /\
  (exists k, dget r "final_rank" = VInt k /\ 1 <= k <= field_size /\
    (dget r "eligible_for_multiplier" = VBool true ->
     py_int (dget row "rank") = Ok k /\
     exists s, tournament_result_score k field_size = Ok s /\ dget r "tournament_result_score" = VFloat s)) /\
  (if is_true (dget r "eligible_for_multiplier")
   then dget r "locked_at" = VStr (iso_format locked_at) /\
        dget r "anchorable_at" = VStr (iso_format locked_at) /\
        dget r "no_multiplier_reason" = VNone /\ dget r "risk_flags" = VList []
   else dget r "locked_at" = VNone /\ dget r "anchorable_at" = VNone /\
        exists reason flags, dget r "no_multiplier_reason" = VStr reason /\
                             dget r "risk_flags" = VList (VStr reason :: flags)).
Proof.
  intros Hn H. unfold project_final_ranking_row in H. apply rbind_ok in H as (fr & Hfr & H).
  apply rbind_ok in H as (es & Hes & H).
  set (reason := row_gate _ _ _ _ _ _) in H. apply rbind_ok in H as ([k s] & Hk & H).
  apply rbind_ok in H as (unusual & Hu & H). apply rbind_ok in H as (flag & Hflag & H).
  apply rbind_ok in H as (tid & _ & H). apply rbind_ok in H as (tt & _ & H).
  apply rbind_ok in H as (mt & _ & H). apply rbind_ok in H as (rc & _ & H).
  injection H as <-. destruct (scored_rank_domain _ _ _ _ _ Hk) as [Hdom Hexact].
  assert (reason = None <-> rated = "rated" /\ human = VBool true /\
    truthy (por policy (dget row "policy_bundle_version")) = true /\
    dget row "rank_state" = VStr "ranked" /\ dget row "rank" <> VNone /\
    py_str (por (dget row "evidence_state") (VStr "pending")) = Ok "complete" /\
    truthy (dget row "id") = true /\ truthy (dget row "standing_snapshot_id") = true /\
    truthy (dget row "evidence_root") = true) as Hgate.
  { unfold reason, row_gate. rewrite reward_gate_reason_none, Hes. naive_solver. }
  split_and!.
  - rewrite <- Hgate. destruct reason; split; try done.
  - exists k. split; [done|]. split; [by apply Hdom|]. intros Helig.
    assert (reason = None) as Hnone by (destruct reason; done).
    destruct (Hexact Hnone) as [-> Hs]. apply Hgate in Hnone as (_ & _ & _ & _ & Hrank & _).
    split; [|by exists s]. by destruct (dget row "rank").
  - assert (flag = [] \/ unusual = true) as Hflags by (destruct unusual; [by right|simplify_eq/=; by left]).
    destruct reason as [why|] eqn:Ereason; simpl.
    + split_and!; [done..|]. by exists why, flag.
    + split_and!; [done..|]. destruct (proj1 Hgate eq_refl) as (_ & _ & _ & Hstate & _).
      rewrite Hstate in Hu. simpl in Hu. injection Hu as <-. by destruct Hflags as [->|].
Qed.

(** The fields that the projection copies. *)
Lemma project_copied row rated human field_size policy locked_at r :
  project_final_ranking_row row rated human field_size policy locked_at = Ok r ->
  dget r "rated_or_practice" = VStr rated /\ dget r "human_only" = human /\
  dget r "evaluation_state" = VStr "final" /\ dget r "evaluation_version" = policy /\
  (exists es, py_str (por (dget row "evidence_state") (VStr "pending")) = Ok es /\
              dget r "evidence_state" = VStr es) /\
  dget r "final_ranking_id" = dget row "id" /\
  dget r "standing_snapshot_id" = dget row "standing_snapshot_id" /\
  dget r "evidence_root" = dget row "evidence_root" /\
  dget r "rank_state" = dget row "rank_state" /\
  exists b, dget r "eligible_for_multiplier" = VBool b.
Proof.
  intros H. unfold project_final_ranking_row in H. apply rbind_ok in H as (fr & Hfr & H).
  apply rbind_ok in H as (es & Hes & H). apply rbind_ok in H as ([k s] & _ & H).
  apply rbind_ok in H as (unusual & _ & H). apply rbind_ok in H as (flag & _ & H).
  apply rbind_ok in H as (tid & _ & H). apply rbind_ok in H as (tt & _ & H).
  apply rbind_ok in H as (mt & _ & H). apply rbind_ok in H as (rc & _ & H).
  injection H as <-. split_and!; try reflexivity; [by exists es|by eexists].
Qed.

(** ** Properties *)

(** The projected result row records the decision of the reward gate: it is
    eligible exactly for a rated, human-only, ranked row with complete evidence
    and all references present; an eligible row is locked and anchorable at the
    lock time with the true rank inside the field, and an ineligible one has no
    lock, carries the reason as its first risk flag and a rank clamped into the
    field. *)
Theorem project_final_ranking_row_gate row rated human field_size policy locked_at r :
  1 <= field_size ->
  project_final_ranking_row row rated human field_size policy locked_at = Ok r ->
  (dget r "eligible_for_multiplier" = VBool true <->
    rated = "rated" /\ human = VBool true /\
    truthy (por policy (dget row "policy_bundle_version")) = true /\
    dget row "rank_state" = VStr "ranked" /\ dget row "rank" <> VNone /\
    py_str (por (dget row "evidence_state") (VStr "pending")) = Ok "complete" /\
    truthy (dget row "id") = true /\ truthy (dget row "standing_snapshot_id") = true /\
    truthy (dget row "evidence_root") = true) /\
  (exists k, dget r "final_rank" = VInt k /\ 1 <= k <= field_size /\
    (dget r "eligible_for_multiplier" = VBool true ->
     py_int (dget row "rank") = Ok k /\
     exists s, tournament_result_score k field_size = Ok s /\ dget r "tournament_result_score" = VFloat s)) /\
  (if is_true (dget r "eligible_for_multiplier")
   then dget r "locked_at" = VStr (iso_format locked_at) /\
        dget r "anchorable_at" = VStr (iso_format locked_at) /\
        dget r "no_multiplier_reason" = VNone /\ dget r "risk_flags" = VList []
   else dget r "locked_at" = VNone /\ dget r "anchorable_at" = VNone /\
        exists reason flags, dget r "no_multiplier_reason" = VStr reason /\
                             dget r "risk_flags" = VList (VStr reason :: flags)).
Proof. apply project_gate. Qed.


Definition sample_ranking_row : dict :=
  [("id", VStr "fr-1"); ("tournament_id", VStr "t1"); ("miner_address", VStr "claw1a");
   ("rank_state", VStr "ranked"); ("rank", VInt 2); ("evidence_state", VStr "complete");
   ("evidence_root", VStr "sha256:e"); ("standing_snapshot_id", VStr "s1")].

Lemma project_final_ranking_row_gate_witness :
  exists r, project_final_ranking_row sample_ranking_row "rated" (VBool true) 5 (VStr "p1") 0 = Ok r /\
    dget r "eligible_for_multiplier" = VBool true /\
    (if is_true (dget r "eligible_for_multiplier")
     then dget r "locked_at" = VStr (iso_format 0) /\ dget r "anchorable_at" = VStr (iso_format 0) /\
          dget r "no_multiplier_reason" = VNone /\ dget r "risk_flags" = VList []
     else dget r "locked_at" = VNone /\ dget r "anchorable_at" = VNone /\
          exists reason flags, dget r "no_multiplier_reason" = VStr reason /\
                               dget r "risk_flags" = VList (VStr reason :: flags)).
Proof.
  eexists. split; [vm_compute; reflexivity|]. split; [reflexivity|].
  apply (project_final_ranking_row_gate sample_ranking_row "rated" (VBool true) 5 (VStr "p1") 0 _
           ltac:(lia)).
  vm_compute. reflexivity.
Defined.
