(* ===== verification/Evidence.v ===== *)
(** * Evidence manifests ([poker_mtt_evidence.py])

    A manifest lists a number of rows by the root of their canonical forms and
    is itself named by the hash of its fields.  The theorems show that a
    manifest commits to its rows, and what a stub manifest is refused for. *)
From Stdlib Require Import ZArith Lia String Permutation.
From stdpp Require Import base list strings.
From S2P Require Import Prelude PyText PyFloat PyTime PyValue Sha256 Canonical.
Open Scope Z_scope.

(** ** Operations *)

Definition EVIDENCE_MANIFEST_SCHEMA_VERSION : string := "poker_mtt.evidence_manifest.v1".
Definition FINAL_RANKING_MANIFEST_KIND : string := "poker_mtt_final_ranking_manifest".
Definition HAND_HISTORY_MANIFEST_KIND : string := "poker_mtt_hand_history_manifest".
Definition HIDDEN_EVAL_MANIFEST_KIND : string := "poker_mtt_hidden_eval_manifest".
Definition CONSUMER_CHECKPOINT_MANIFEST_KIND : string := "poker_mtt_consumer_checkpoint_manifest".
Definition STUB_MANIFEST_KINDS : list string :=
  [HAND_HISTORY_MANIFEST_KIND; "poker_mtt_short_term_hud_manifest";
   "poker_mtt_long_term_hud_manifest"; HIDDEN_EVAL_MANIFEST_KIND; CONSUMER_CHECKPOINT_MANIFEST_KIND].
Definition FINAL_RANKING_FIXED_DECIMAL_FIELDS : list string :=
  ["chip"; "chip_delta"; "bounty"; "start_chip"; "zset_score"].
Definition HAND_HISTORY_ROW_SORT_KEYS : list string := ["tournament_id"; "table_id"; "hand_no"; "hand_id"].
Definition HIDDEN_EVAL_ROW_SORT_KEYS : list string := ["tournament_id"; "miner_address"; "final_ranking_id"].

(** [canonicalize] of a dictionary is a dictionary. *)
Definition canonicalize_row (row : dict) : res dict :=
  let? v := canonicalize (VDict row) in as_dict v.

(** The manifest before its root is added. *)
Definition manifest_body (kind tournament_id policy_bundle_version evidence_state : string)
  (row_count : nat) (row_sort_keys : list string) (root : string) (degraded_reason : option string) : dict :=
  [("schema_version", VStr EVIDENCE_MANIFEST_SCHEMA_VERSION);
   ("kind", VStr kind);
   ("tournament_id", VStr tournament_id);
   ("policy_bundle_version", VStr policy_bundle_version);
   ("evidence_state", VStr evidence_state);
   ("row_count", VInt (Z.of_nat row_count));
   ("row_sort_keys", VList (map VStr row_sort_keys));
   ("rows_root", VStr root)] ++
  match degraded_reason with Some r => [("degraded_reason", VStr r)] | None => [] end.

Definition build_manifest (kind tournament_id : string) (rows : list dict) (row_sort_keys : list string)
  (policy_bundle_version evidence_state : string) (degraded_reason : option string) : res dict :=
  let? normalized_rows := mapR canonicalize (map VDict rows) in
  let? root := rows_root normalized_rows row_sort_keys in
  let body := manifest_body kind tournament_id policy_bundle_version evidence_state
    (length normalized_rows) row_sort_keys root degraded_reason in
  let? manifest_root := canonical_hash (VDict body) in
  Ok (dset body "manifest_root" (VStr manifest_root)).

Definition _normalize_final_ranking_row (row : dict) : res dict :=
  let? normalized := canonicalize_row row in
  foldR (fun normalized field =>
    let v := dget row field in
    if is_none v then Ok normalized
    else let? text := fixed_decimal v 6 in Ok (dset normalized field (VStr text)))
    FINAL_RANKING_FIXED_DECIMAL_FIELDS normalized.

Definition pick (row : dict) (fields : list string) : dict := map (fun k => (k, dget row k)) fields.

Definition _normalize_hand_history_row (row : dict) : res dict :=
  let? normalized := canonicalize_row
    (pick row ["tournament_id"; "table_id"; "hand_no"; "hand_id"; "version"; "checksum"; "ingest_state"]) in
  if is_none (dget row "conflict_reason") then Ok normalized
  else Ok (dset normalized "conflict_reason" (dget row "conflict_reason")).

Definition _normalize_hidden_eval_row (row : dict) : res dict :=
  let? score := fixed_decimal (por (dget row "hidden_eval_score") (VFloat fzero)) 6 in
  canonicalize_row
    (pick row ["tournament_id"; "miner_address"; "final_ranking_id"; "seed_assignment_id";
               "baseline_sample_id"] ++
     [("hidden_eval_score", VStr score);
      ("score_components_json", por (dget row "score_components_json") (VDict []));
      ("evidence_root", dget row "evidence_root");
      ("policy_bundle_version", dget row "policy_bundle_version");
      ("visibility_state", por (dget row "visibility_state") (VStr "service_internal"))]).

Definition _normalize_checkpoint_row (row : dict) : res dict :=
  let? lag := int_or_zero (dget row "lag_messages") in
  canonicalize_row
    (pick row ["tournament_id"; "topic"; "queue"; "consumer_group"; "last_offset"; "last_message_id";
               "last_biz_id"; "last_hand_id"; "last_ingest_state"; "replay_root"] ++
     [("lag_messages", VInt lag)]).

Definition build_final_ranking_manifest (tournament_id : string) (rows : list dict)
  (policy_bundle_version : string) : res dict :=
  let? rows := mapR _normalize_final_ranking_row rows in
  build_manifest FINAL_RANKING_MANIFEST_KIND tournament_id rows ["tournament_id"; "member_id"]
    policy_bundle_version "complete" None.

Definition build_hand_history_manifest (tournament_id : string) (rows : list dict)
  (policy_bundle_version : string) : res dict :=
  let? rows := mapR _normalize_hand_history_row rows in
  build_manifest HAND_HISTORY_MANIFEST_KIND tournament_id rows HAND_HISTORY_ROW_SORT_KEYS
    policy_bundle_version "complete" None.

Definition build_hidden_eval_manifest (tournament_id : string) (rows : list dict)
  (policy_bundle_version : string) : res dict :=
  let? rows := mapR _normalize_hidden_eval_row rows in
  build_manifest HIDDEN_EVAL_MANIFEST_KIND tournament_id rows HIDDEN_EVAL_ROW_SORT_KEYS
    policy_bundle_version "complete" None.

Definition build_consumer_checkpoint_manifest (tournament_id : string) (rows : list dict)
  (policy_bundle_version : string) : res dict :=
  let? rows := mapR _normalize_checkpoint_row rows in
  build_manifest CONSUMER_CHECKPOINT_MANIFEST_KIND tournament_id rows ["topic"; "consumer_group"; "queue"]
    policy_bundle_version "complete" None.

Definition build_stub_manifest (kind tournament_id policy_bundle_version evidence_state
  degraded_reason : string) : res dict :=
  if negb (existsb (String.eqb kind) STUB_MANIFEST_KINDS) then
    Err (ValueError ("unsupported stub manifest kind: " +:+ kind))
  else if negb (String.eqb evidence_state "accepted_degraded") then
    Err (ValueError "stub manifest must be accepted_degraded")
  else build_manifest kind tournament_id [] [] policy_bundle_version evidence_state (Some degraded_reason).

(** ** Lemmas *)

Lemma manifest_body_nodup kind t p e n ks root r : NoDup (akeys (manifest_body kind t p e n ks root r)).
Proof.
  unfold manifest_body. destruct r; nodup_keys.
Qed.

Lemma floats_ok_strings l : forallb floats_ok (map VStr l) = true.
Proof. induction l; simpl; done. Qed.

Lemma manifest_body_floats kind t p e n ks root r : floats_ok (VDict (manifest_body kind t p e n ks root r)) = true.
Proof.
  pose proof (floats_ok_strings ks) as Hks. unfold floats_ok, manifest_body in *.
  destruct r; simpl; by rewrite Hks.
Qed.

Lemma build_manifest_ok kind t rows ks p e r m :
  build_manifest kind t rows ks p e r = Ok m ->
  exists nrows root h, mapR canonicalize (map VDict rows) = Ok nrows /\ rows_root nrows ks = Ok root /\
    let body := manifest_body kind t p e (length nrows) ks root r in
    canonical_hash (VDict body) = Ok h /\ m = dset body "manifest_root" (VStr h).
Proof.
  unfold build_manifest. intros (nrows & Hn & H)%rbind_ok. apply rbind_ok in H as (root & Hr & H).
  apply rbind_ok in H as (h & Hh & H). simplify_eq. by exists nrows, root, h.
Qed.

Lemma rows_root_form rows ks h : rows_root rows ks = Ok h -> canonicalize (VStr h) = Ok (VStr h).
Proof. intros (? & ? & _ & _ & Hh)%rows_root_rows. by eapply canonical_hash_form. Qed.

(** ** Properties *)

(** The texts of the manifests without their roots collide, or those of the canonical rows. *)
Definition manifests_collide (m1 m2 : dict) (rows1 rows2 : list dict) : Prop :=
  (exists b1 b2 r1 r2, m1 = dset b1 "manifest_root" r1 /\ m2 = dset b2 "manifest_root" r2 /\ texts_collide (VDict b1) (VDict b2)) \/
  (exists n1 n2, mapR canonicalize (map VDict rows1) = Ok n1 /\ mapR canonicalize (map VDict rows2) = Ok n2 /\
     rows_collide n1 n2).

(** a manifest root commits to the manifest: two manifests with the same
    root have the same number of rows, and the same rows up to order in
    canonical form, the same tournament and evidence state, or exhibit a
    collision of SHA-256. *)
Theorem build_manifest_binding kind1 t1 rows1 ks1 p1 e1 r1 m1 kind2 t2 rows2 ks2 p2 e2 r2 m2 :
  forallb floats_ok (map VDict rows1) = true -> forallb floats_ok (map VDict rows2) = true ->
  build_manifest kind1 t1 rows1 ks1 p1 e1 r1 = Ok m1 ->
  build_manifest kind2 t2 rows2 ks2 p2 e2 r2 = Ok m2 ->
  dget m1 "manifest_root" = dget m2 "manifest_root" ->
  (length rows1 = length rows2 /\ canonicalize (VStr t1) = canonicalize (VStr t2) /\
   canonicalize (VStr e1) = canonicalize (VStr e2) /\
   exists n1 n2, mapR canonicalize (map VDict rows1) = Ok n1 /\
                 mapR canonicalize (map VDict rows2) = Ok n2 /\ Permutation n1 n2) \/
  manifests_collide m1 m2 rows1 rows2.
Proof.
  intros F1 F2 B1 B2 Hroot.
  destruct (build_manifest_ok _ _ _ _ _ _ _ _ B1) as (n1 & root1 & h1 & N1 & R1 & H1 & ->).
  destruct (build_manifest_ok _ _ _ _ _ _ _ _ B2) as (n2 & root2 & h2 & N2 & R2 & H2 & ->).
  rewrite !dget_dset in Hroot. simpl in Hroot. injection Hroot as <-.
  destruct (canonical_hash_inj _ _ _ (manifest_body_floats _ _ _ _ _ _ _ _)
              (manifest_body_floats _ _ _ _ _ _ _ _) H1 H2) as [E|]; [|right; left; by do 4 eexists].
  destruct (canonical_hash_canonicalizes _ _ H1) as (w & W1). rewrite W1 in E. symmetry in E.
  pose proof (fun k x1 x2 => canonicalize_field _ _ _ k x1 x2 (manifest_body_nodup _ _ _ _ _ _ _ _)
                (manifest_body_nodup _ _ _ _ _ _ _ _) W1 E) as Hfield.
  pose proof (Hfield "rows_root" _ _ eq_refl eq_refl) as Er.
  rewrite (rows_root_form _ _ _ R1), (rows_root_form _ _ _ R2) in Er. injection Er as <-.
  pose proof (rows_root_inj n1 n2 _ _ root1 (floats_ok_all _ _ N1 F1) (floats_ok_all _ _ N2 F2) R1 R2)
    as [(n1' & n2' & C1 & C2 & Hp)|]; [left|right; right; by exists n1, n2].
  rewrite (canonicalize_all_fixed _ _ N1) in C1. rewrite (canonicalize_all_fixed _ _ N2) in C2.
  simplify_eq. split_and!.
  - apply mapR_length in N1, N2. rewrite length_map in N1, N2. rewrite <- N1, <- N2.
    by apply Permutation_length.
  - by apply (Hfield "tournament_id").
  - by apply (Hfield "evidence_state").
  - eauto.
Qed.

Definition demo_rows : list dict := [[("t", VStr "b")]; [("t", VStr "a")]].
Definition demo_manifest (rows : list dict) : dict :=
  match build_manifest "k" "t1" rows ["t"] "p" "complete" None with Ok m => m | Err _ => [] end.

Lemma build_manifest_binding_witness :
  (2%nat = 2%nat /\ canonicalize (VStr "t1") = canonicalize (VStr "t1") /\
   canonicalize (VStr "complete") = canonicalize (VStr "complete") /\
   exists n1 n2, mapR canonicalize (map VDict demo_rows) = Ok n1 /\
                 mapR canonicalize (map VDict (rev demo_rows)) = Ok n2 /\ Permutation n1 n2) \/
  manifests_collide (demo_manifest demo_rows) (demo_manifest (rev demo_rows)) demo_rows (rev demo_rows).
Proof.
  eapply (build_manifest_binding "k" "t1" demo_rows ["t"] "p" "complete" None _
                         "k" "t1" (rev demo_rows) ["t"] "p" "complete" None); vm_compute; reflexivity.
Defined.

(** A stub manifest is refused for a kind that must carry rows and for any
    state but [accepted_degraded]; otherwise it is a manifest without rows. *)
Lemma build_stub_manifest_cases kind t p e r :
  match build_stub_manifest kind t p e r with
  | Ok m => In kind STUB_MANIFEST_KINDS /\ e = "accepted_degraded" /\
            dget m "row_count" = VInt 0 /\ dget m "degraded_reason" = VStr r
  | Err err => ~ In kind STUB_MANIFEST_KINDS \/ e <> "accepted_degraded" \/
               build_manifest kind t [] [] p e (Some r) = Err err
  end.
Proof.
  unfold build_stub_manifest. destruct (existsb (String.eqb kind) STUB_MANIFEST_KINDS) eqn:E; simpl negb; cbv iota.
  - change (existsb _ _) with (mem_key kind STUB_MANIFEST_KINDS) in E. apply mem_key_In in E.
    destruct (String.eqb_spec e "accepted_degraded") as [->|]; simpl negb; cbv iota; [|by right; left].
    destruct (build_manifest _ _ _ _ _ _ _) as [m|] eqn:B; [|by right; right].
    apply build_manifest_ok in B as (n & root & h & [= <-] & _ & _ & ->).
    by rewrite !dget_dset.
  - left. intros Hin. apply mem_key_In in Hin. unfold mem_key in Hin. simpl keqb in Hin. congruence.
Qed.
