(* ===== verification/HandHistory.v ===== *)
(** * Hand history ingestion ([poker_mtt_history.py])

    The hot store keeps one event per hand.  [ingest] classifies an event by its
    version and checksum as inserted, updated, duplicate, stale or conflicting,
    and replaces the stored event only by a newer version.  The theorems follow
    a store through any sequence of events. *)
From Stdlib Require Import ZArith Lia String.
From stdpp Require Import base list strings.
From S2P Require Import Prelude PyText PyFloat PyTime PyValue Sha256 Canonical.
Open Scope Z_scope.

(** ** Operations *)

Definition HAND_COMPLETED_SCHEMA_VERSION : string := "poker_mtt.hand_completed.v1".
Definition HAND_COMPLETED_EVENT_TYPE : string := "poker_mtt.hand_completed".

Record HandHistoryIngestResult := {
  state : string;
  event : option dict;
  previous_event : option dict;
  reason : option string
}.

(** [_events_by_hand_id] *)
Definition store : Type := list (string * dict).

Definition identity_fields : list string := ["tournament_id"; "table_id"; "hand_no"; "hand_id"].

Definition _validate_hand_completed_event (event : dict) : res unit :=
  if negb (py_eq_str (dget event "schema_version") HAND_COMPLETED_SCHEMA_VERSION) then
    Err (ValueError "invalid hand completed schema_version")
  else if negb (py_eq_str (dget event "event_type") HAND_COMPLETED_EVENT_TYPE) then
    Err (ValueError "invalid hand completed event_type")
  else if negb (truthy (dget event "checksum")) then
    Err (ValueError "missing hand completed checksum")
  else
    let? identity := match por (dget event "identity") (VDict []) with
                     | VDict d => Ok d | _ => Err TypeError end in
    foldR (fun _ key =>
      if dhas identity key then Ok tt
      else Err (ValueError ("missing hand identity field: " +:+ key))) identity_fields tt.

(** [event["identity"]["hand_id"]] *)
Definition event_hand_id (event : dict) : res string :=
  let? v := dgetitem event "identity" in
  let? identity := as_dict v in
  let? hand_id := dgetitem identity "hand_id" in
  as_str hand_id.

Definition get (events : store) (hand_id : string) : option dict :=
  match aget hand_id events with
  | Some e => if truthy (VDict e) then Some e else None
  | None => None
  end.

Definition outcome (s : string) (e : dict) (prev : option dict) (r : option string) : HandHistoryIngestResult :=
  {| state := s; event := Some e; previous_event := prev; reason := r |}.

Definition ingest (event : dict) : st store HandHistoryIngestResult :=
  let*? _ := _validate_hand_completed_event event in
  let*? hand_id := event_hand_id event in
  let* events := sget in
  match aget hand_id events with
  | None =>
      if is_none (dget event "version") then
        sret (outcome "conflict" event None (Some "missing_version_without_existing_event"))
      else
        do* sput (aset hand_id event events) in
        sret (outcome "inserted" event None None)
  | Some existing =>
      let version := dget event "version" in
      let*? checksum := dgetitem event "checksum" in
      let same := py_eq checksum (dget existing "checksum") in
      if is_none version then
        if same then sret (outcome "duplicate" existing (Some existing) None)
        else sret (outcome "conflict" event (Some existing) (Some "missing_version_checksum_mismatch"))
      else
        let existing_version := dget existing "version" in
        let*? older := if is_none existing_version then Ok false else py_lt version existing_version in
        if older then sret (outcome "stale" event (Some existing) None)
        else if py_eq existing_version version then
          if same then sret (outcome "duplicate" existing (Some existing) None)
          else sret (outcome "conflict" event (Some existing) (Some "same_version_checksum_mismatch"))
        else
          do* sput (aset hand_id event events) in
          sret (outcome "updated" event (Some existing) None)
  end.

Definition build_hand_completed_event (tournament_id table_id : string) (hand_no : Z)
  (version : option Z) (payload : value) (source : value) : res dict :=
  let hand := tournament_id +:+ ":" +:+ table_id +:+ ":" +:+ string_of_Z hand_no in
  let? payload_hash := canonical_hash payload in
  let version_suffix := match version with Some v => string_of_Z v | None => "unknown" end in
  let event_id := "poker_mtt.hand:" +:+ hand +:+ ":v" +:+ version_suffix +:+ ":" +:+
                  str_take 12 (str_removeprefix "sha256:" payload_hash) in
  Ok ([("schema_version", VStr HAND_COMPLETED_SCHEMA_VERSION);
       ("event_type", VStr HAND_COMPLETED_EVENT_TYPE);
       ("event_id", VStr event_id);
       ("source", source);
       ("identity", VDict [("tournament_id", VStr tournament_id); ("table_id", VStr table_id);
                           ("hand_no", VInt hand_no); ("hand_id", VStr hand)]);
       ("checksum", VStr payload_hash);
       ("canonicalization", VDict
          [("algorithm", VStr "json-sort-keys-no-whitespace-utc-fixed-decimal-v1");
           ("payload_hash", VStr payload_hash)]);
       ("payload", payload)] ++
      match version with Some v => [("version", VInt v)] | None => [] end).

(** ** A store through a sequence of events *)

(** Every event is offered once, in order; a rejected one changes nothing. *)
Definition ingest_all (evs : list dict) (s : store) : store :=
  fold_left (fun s e => (ingest e s).2) evs s.

Definition version_ok (e : dict) : bool :=
  match dget e "version" with VNone | VInt _ => true | _ => false end.

(** The version of the hand, as an integer. *)
Definition stored_version (s : store) (h : string) : option Z :=
  match aget h s with
  | Some e => match dget e "version" with VInt v => Some v | _ => None end
  | None => None
  end.

(** A valid event of hand [h] with version [v]. *)
Definition offers (h : string) (v : Z) (e : dict) : bool :=
  is_ok (_validate_hand_completed_event e) &&
  match event_hand_id e with Ok h' => String.eqb h h' | Err _ => false end &&
  match dget e "version" with VInt v' => v =? v' | _ => false end.

(** Every stored event has an integer version and stands under its own hand. *)
Definition store_ok (s : store) : Prop :=
  forall h e, aget h s = Some e -> exists v, offers h v e = true.

(** ** Lemmas *)

Lemma offers_spec h v e :
  offers h v e = true <->
  _validate_hand_completed_event e = Ok tt /\ event_hand_id e = Ok h /\ dget e "version" = VInt v.
Proof.
  unfold offers. rewrite !andb_true_iff.
  destruct (_validate_hand_completed_event e) as [[]|]; [|naive_solver].
  destruct (event_hand_id e) as [h'|]; [|naive_solver]. rewrite String.eqb_eq.
  destruct (dget e "version"); rewrite ?Z.eqb_eq; naive_solver.
Qed.

(** One step: the store is unchanged, or the event becomes the stored one of
    its hand, with a version above the one before. *)
Inductive step (s : store) (e : dict) : store -> Prop :=
| step_keep : step s e s
| step_store h v :
    offers h v e = true ->
    (forall v', stored_version s h = Some v' -> v' < v) ->
    step s e (aset h e s).

Lemma validated_checksum e : _validate_hand_completed_event e = Ok tt -> exists c, aget "checksum" e = Some c.
Proof.
  unfold _validate_hand_completed_event. do 2 (case_match; [done|]).
  destruct (truthy (dget e "checksum")) eqn:Hc; [|done]. unfold dget, dget_or in Hc.
  destruct (aget "checksum" e); [eauto|done].
Qed.

(** The result of [ingest] on an event of a hand, by the stored event. *)
Lemma ingest_step e s :
  version_ok e = true -> store_ok s -> step s e (ingest e s).2.
Proof.
  intros Hver Hok. unfold ingest, sbind, slift, sget.
  destruct (_validate_hand_completed_event e) as [[]|] eqn:Hval; [|constructor].
  destruct (event_hand_id e) as [h|] eqn:Hh; [|constructor].
  unfold version_ok in Hver.
  destruct (aget h s) as [old|] eqn:Hold.
  - destruct (Hok _ _ Hold) as (v' & Hv'). apply offers_spec in Hv' as (_ & _ & Hv').
    destruct (validated_checksum e Hval) as (c & Hc). unfold dgetitem. rewrite Hc. simpl.
    destruct (dget e "version") as [| |v| | | | |] eqn:Hv; try done; simpl.
    + case_match; constructor.
    + rewrite Hv'. simpl. destruct (Z.compare_spec v v') as [->|Hlt|Hgt]; simpl.
      * rewrite Z.compare_refl. case_match; constructor.
      * constructor.
      * destruct (Z.compare_spec v' v); try lia. apply step_store with v; [by apply offers_spec|].
        unfold stored_version. rewrite Hold, Hv'. intros ? [= <-]. lia.
  - destruct (dget e "version") as [| |v| | | | |] eqn:Hv; try done; simpl; [constructor|].
    apply step_store with v; [by apply offers_spec|]. unfold stored_version. by rewrite Hold.
Qed.

Lemma step_ok s e s' : store_ok s -> step s e s' -> store_ok s'.
Proof.
  intros Hok [|h v Ho _]; [done|]. intros h' e'. rewrite aget_aset. simpl.
  destruct (String.eqb_spec h' h) as [->|]; [|apply Hok]. intros [= <-]. eauto.
Qed.

Lemma step_version s e s' h v :
  step s e s' -> stored_version s h = Some v ->
  exists v', stored_version s' h = Some v' /\ (v' = v /\ aget h s' = aget h s \/ v < v').
Proof.
  intros [|h' w Ho Hgt] Hv; [eauto|]. unfold stored_version. rewrite aget_aset. simpl.
  destruct (String.eqb_spec h h') as [<-|]; [|unfold stored_version in Hv; eauto].
  apply offers_spec in Ho as (_ & _ & ->). exists w. split; [done|]. right. auto.
Qed.

(** What a step leaves behind: an offered version is reached. *)
Lemma ingest_reaches e s h v :
  store_ok s -> offers h v e = true ->
  exists v', stored_version (ingest e s).2 h = Some v' /\ v <= v'.
Proof.
  intros Hok Ho. apply offers_spec in Ho as (Hval & Hh & Hv).
  unfold ingest, sbind, slift, sget. rewrite Hval, Hh.
  destruct (aget h s) as [old|] eqn:Hold.
  - destruct (Hok _ _ Hold) as (v' & Hv'). apply offers_spec in Hv' as (_ & _ & Hv').
    destruct (validated_checksum e Hval) as (c & Hc). unfold dgetitem. rewrite Hc, Hv. simpl.
    rewrite Hv'. simpl. destruct (Z.compare_spec v v') as [->|Hlt|Hgt]; simpl.
    + exists v'. split; [|lia]. rewrite Z.compare_refl. unfold stored_version.
      destruct (py_eq c (dget old "checksum")); simpl; by rewrite Hold, Hv'.
    + exists v'. split; [|lia]. unfold stored_version. by rewrite Hold, Hv'.
    + exists v. split; [|lia]. destruct (Z.compare_spec v' v); try lia. unfold stored_version. simpl.
      by rewrite aget_aset_eq, Hv.
  - rewrite Hv. simpl. exists v. split; [|lia]. unfold stored_version. by rewrite aget_aset_eq, Hv.
Qed.

Lemma ingest_all_ok evs s :
  store_ok s -> forallb version_ok evs = true -> store_ok (ingest_all evs s).
Proof.
  unfold ingest_all. revert s. induction evs as [|e evs IH]; intros s Hok Hv; simpl in *; [done|].
  apply andb_true_iff in Hv as [He Hv]. apply IH; [|done]. eapply step_ok; [done|]. by apply ingest_step.
Qed.

Lemma store_ok_nil : store_ok [].
Proof. done. Qed.

Lemma ingest_all_mono evs s h v :
  store_ok s -> forallb version_ok evs = true -> stored_version s h = Some v ->
  exists v', stored_version (ingest_all evs s) h = Some v' /\
             (v' = v /\ aget h (ingest_all evs s) = aget h s \/ v < v').
Proof.
  unfold ingest_all. revert s v. induction evs as [|e evs IH]; intros s v Hok Hv Hs; simpl in *; [eauto|].
  apply andb_true_iff in Hv as [He Hv]. pose proof (ingest_step e s He Hok) as Hstep.
  destruct (step_version _ _ _ _ _ Hstep Hs) as (v1 & Hv1 & Hcase).
  destruct (IH _ _ (step_ok _ _ _ Hok Hstep) Hv Hv1) as (v2 & Hv2 & Hcase2).
  exists v2. split; [done|]. destruct Hcase as [[-> E1]|], Hcase2 as [[-> E2]|]; [left|right; lia..].
  split; [done|]. by rewrite E2.
Qed.

Lemma ingest_all_reaches evs s h v :
  store_ok s -> forallb version_ok evs = true -> existsb (offers h v) evs = true ->
  exists v', stored_version (ingest_all evs s) h = Some v' /\ v <= v'.
Proof.
  revert s. induction evs as [|e evs IH]; intros s Hok Hv Hin; simpl in *; [done|].
  apply andb_true_iff in Hv as [He Hv].
  assert (store_ok (ingest e s).2) as Hok' by (eapply step_ok; [done|]; by apply ingest_step).
  change (ingest_all (e :: evs) s) with (ingest_all evs (ingest e s).2).
  apply orb_true_iff in Hin as [Ho|Hin]; [|by apply IH].
  destruct (ingest_reaches e s h v Hok Ho) as (v1 & Hv1 & Hle).
  destruct (ingest_all_mono evs _ h v1 Hok' Hv Hv1) as (v2 & Hv2 & Hcase). exists v2. split; [done|lia].
Qed.

(** The stored event is one of the events offered, or was there before. *)
Lemma ingest_all_from evs s h e :
  store_ok s -> forallb version_ok evs = true -> aget h (ingest_all evs s) = Some e ->
  In e evs \/ aget h s = Some e.
Proof.
  revert s. induction evs as [|e0 evs IH]; intros s Hok Hv He; [by right|]. simpl in Hv.
  apply andb_true_iff in Hv as [He0 Hv]. pose proof (ingest_step e0 s He0 Hok) as Hstep.
  destruct (IH _ (step_ok _ _ _ Hok Hstep) Hv He) as [|Hin]; [by left; right|].
  destruct Hstep as [|h' v Ho _]; [by right|]. rewrite aget_aset in Hin.
  destruct (keqb h h'); [|by right]. simplify_eq. by left; left.
Qed.

(** ** Properties *)

(** Hand history is monotone: while events arrive in any order, with any
    duplicates, conflicts and invalid ones among them, the stored version of a
    hand never decreases, and as long as it stays the same the stored event is
    not replaced. *)
Theorem ingest_monotone before after h e v :
  forallb version_ok (before ++ after) = true ->
  aget h (ingest_all before []) = Some e -> dget e "version" = VInt v ->
  exists e' v', aget h (ingest_all (before ++ after) []) = Some e' /\ dget e' "version" = VInt v' /\
                v <= v' /\ (v' = v -> e' = e).
Proof.
  intros Hv He Hev. rewrite forallb_app, andb_true_iff in Hv. destruct Hv as [Hb Ha].
  pose proof (ingest_all_ok before [] store_ok_nil Hb) as Hok.
  assert (ingest_all (before ++ after) [] = ingest_all after (ingest_all before [])) as ->
    by apply fold_left_app.
  assert (stored_version (ingest_all before []) h = Some v) as Hsv
    by (unfold stored_version; by rewrite He, Hev).
  destruct (ingest_all_mono after _ h v Hok Ha Hsv) as (v' & Hv' & Hcase).
  unfold stored_version in Hv'. destruct (aget h (ingest_all after _)) as [e'|] eqn:E; [|done].
  destruct (dget e' "version") eqn:Hev'; simplify_eq. exists e', v'. split_and!; [done..|lia|].
  intros ->. destruct Hcase as [[_ Heq]|]; [|lia]. congruence.
Qed.

(** Hand history converges: whatever the order in which the events of a hand
    arrive, the hand ends with the highest version offered by a valid event,
    and with one of the events that carried it. *)
Theorem ingest_converges evs h :
  forallb version_ok evs = true ->
  match aget h (ingest_all evs []) with
  | Some e => exists v, In e evs /\ offers h v e = true /\
                        forall v', existsb (offers h v') evs = true -> v' <= v
  | None => forall v', existsb (offers h v') evs = false
  end.
Proof.
  intros Hv. pose proof (ingest_all_ok evs [] store_ok_nil Hv) as Hok.
  destruct (aget h (ingest_all evs [])) as [e|] eqn:He.
  - destruct (Hok _ _ He) as (v & Ho). exists v. split_and!; [|done|].
    + by destruct (ingest_all_from evs [] h e store_ok_nil Hv He).
    + intros v' Hin. destruct (ingest_all_reaches evs [] h v' store_ok_nil Hv Hin) as (w & Hw & Hle).
      unfold stored_version in Hw. rewrite He in Hw. apply offers_spec in Ho as (_ & _ & Hev).
      rewrite Hev in Hw. by simplify_eq.
  - intros v'. destruct (existsb (offers h v') evs) eqn:Hin; [|done].
    destruct (ingest_all_reaches evs [] h v' store_ok_nil Hv Hin) as (w & Hw & _).
    unfold stored_version in Hw. by rewrite He in Hw.
Qed.

Definition sample_event (version : Z) (checksum : string) : dict :=
  [("schema_version", VStr HAND_COMPLETED_SCHEMA_VERSION); ("event_type", VStr HAND_COMPLETED_EVENT_TYPE);
   ("identity", VDict [("tournament_id", VStr "t"); ("table_id", VStr "a"); ("hand_no", VInt 1);
                       ("hand_id", VStr "t:a:1")]);
   ("checksum", VStr checksum); ("version", VInt version)].

Lemma ingest_monotone_witness :
  exists e' v', aget "t:a:1" (ingest_all ([sample_event 2 "x"] ++ [sample_event 1 "y"; sample_event 2 "z"]) [])
                = Some e' /\ dget e' "version" = VInt v' /\ 2 <= v' /\ (v' = 2 -> e' = sample_event 2 "x").
Proof. apply ingest_monotone; vm_compute; reflexivity. Defined.

Lemma ingest_converges_witness :
  match aget "t:a:1" (ingest_all [sample_event 1 "x"; sample_event 3 "y"; sample_event 2 "z"] []) with
  | Some e => exists v, In e [sample_event 1 "x"; sample_event 3 "y"; sample_event 2 "z"] /\
      offers "t:a:1" v e = true /\
      forall v', existsb (offers "t:a:1" v') [sample_event 1 "x"; sample_event 3 "y"; sample_event 2 "z"] = true
                 -> v' <= v
  | None => forall v', existsb (offers "t:a:1" v') [sample_event 1 "x"; sample_event 3 "y"; sample_event 2 "z"] = false
  end.
Proof. apply (ingest_converges _ "t:a:1"). vm_compute. reflexivity. Defined.

(** An event that the builder makes for a hand not yet seen is inserted as it
    is when it has a version, and refused otherwise. *)
Lemma build_then_ingest t tb n version payload source e :
  build_hand_completed_event t tb n version payload source = Ok e ->
  (ingest e []).1 = Ok match version with
                       | Some _ => outcome "inserted" e None None
                       | None => outcome "conflict" e None (Some "missing_version_without_existing_event")
                       end.
Proof.
  unfold build_hand_completed_event. intros (h & Hh & [= <-])%rbind_ok.
  assert (truthy (VStr h) = true) as Ht.
  { unfold canonical_hash in Hh. apply rbind_ok in Hh as (s & _ & [= <-]). done. }
  assert (exists c r, h = String c r) as (c & r & ->)
    by (destruct h; [discriminate Ht|eauto]).
  by destruct version.
Qed.
