(* ===== verification/Hud.v ===== *)
(** * HUD projection ([poker_mtt_hud.py])

    The hot store counts, for each tournament and miner, what the projected
    hands say about the miner.  A hand is projected once.  The theorems show
    that projecting again changes nothing and that the counters stay consistent
    with each other, through projections that fail halfway as well. *)
From Stdlib Require Import ZArith Lia String.
From stdpp Require Import base list strings.
From S2P Require Import Prelude PyText PyFloat PyTime PyValue Sha256 Canonical.
Open Scope Z_scope.

(** ** Operations *)

Definition HUD_MANIFEST_SCHEMA_VERSION : string := "poker_mtt.hud_manifest.v1".
Definition HUD_ROW_SORT_KEYS : list string := ["tournament_id"; "miner_address"].

Record HUDProjectionSettings := { enabled : bool; window : string }.
Record HUDProjectionResult := {
  state : string;
  projected_rows : option (list dict);
  reason : option string
}.

Record InMemoryHUDHotStore := {
  projected_hand_checksums : list (string * value);
  rows_by_tournament_and_miner : list ((string * string) * dict)
}.

(** [d.get(k, {})] with a method called on it, [d.get(k, [])] iterated. *)
Definition sub_dict (d : dict) (k : string) : res dict := as_dict (dget_or d k (VDict [])).
Definition sub_list (d : dict) (k : string) : res (list dict) :=
  let? l := as_list (dget_or d k (VList [])) in mapR as_dict l.

Definition _players_from_event (event : dict) : res (list (string * value)) :=
  let? payload := sub_dict event "payload" in
  let? players := sub_list payload "players" in
  let? acc := foldR (fun acc player =>
    let miner := dget player "miner_address" in
    if truthy miner then
      let? k := as_key miner in Ok (aset k (dget player "source_user_id") acc)
    else Ok acc) players [] in
  let? actions := sub_list payload "actions" in
  foldR (fun acc action =>
    let miner := dget action "miner_address" in
    if truthy miner then
      let? k := as_key miner in
      Ok (if ahas k acc then acc else aset k (dget action "source_user_id") acc)
    else Ok acc) actions acc.

Definition _street_actions_from_event (event : dict) (street : string) : res (list (string * list dict)) :=
  let? payload := sub_dict event "payload" in
  let? actions := sub_list payload "actions" in
  foldR (fun acc action =>
    let? s := py_str (dget_or action "street" (VStr "")) in
    let miner := dget action "miner_address" in
    if negb (String.eqb (str_lower s) street) then Ok acc
    else if truthy miner then let? k := as_key miner in Ok (aappend k action acc)
    else Ok acc) actions [].

Definition _preflop_actions_from_event (event : dict) : res (list (string * list dict)) :=
  _street_actions_from_event event "preflop".

Definition _action_name (action : dict) : res string :=
  let? s := py_str (por (por (dget action "action") (dget action "type")) (VStr "")) in
  Ok (str_lower s).

Definition _showdown_results_from_event (event : dict) : res (list (string * bool)) :=
  let? payload := sub_dict event "payload" in
  let? showdowns := sub_list payload "showdown" in
  foldR (fun acc showdown =>
    let miner := dget showdown "miner_address" in
    if truthy miner then
      let? k := as_key miner in Ok (aset k (truthy (dget showdown "won")) acc)
    else Ok acc) showdowns [].

(** [any(...)]: stops at the first true element. *)
Fixpoint anyR {A} (f : A -> res bool) (l : list A) : res bool :=
  match l with
  | [] => Ok false
  | x :: l => let? b := f x in if b then Ok true else anyR f l
  end.

Definition name_in (names : list string) (action : dict) : res bool :=
  let? n := _action_name action in Ok (existsb (String.eqb n) names).

(** [_action_name(action) == "raise" and p(int(action.get("raise_number", d) or d))] *)
Definition raise_with (d : Z) (p : Z -> bool) (action : dict) : res bool :=
  let? r := name_in ["raise"] action in
  if r then let? n := py_int (por (dget_or action "raise_number" (VInt d)) (VInt d)) in Ok (p n)
  else Ok false.

Definition vpip (preflop : list dict) : res bool := anyR (name_in ["bet"; "call"; "raise"]) preflop.
Definition pfr (preflop : list dict) : res bool := anyR (raise_with 1 (Z.eqb 1)) preflop.
Definition three_bet (preflop : list dict) : res bool := anyR (raise_with 0 (Z.leb 3)) preflop.
Definition cbet (preflop flop : list dict) : res bool :=
  let? r := anyR (name_in ["raise"]) preflop in
  if r then anyR (name_in ["bet"; "raise"]) flop else Ok false.

Definition empty_row (tournament_id miner_address : string) (source_user_id : value) (window : string) : dict :=
  [("tournament_id", VStr tournament_id); ("miner_address", VStr miner_address);
   ("source_user_id", source_user_id); ("hud_window", VStr window);
   ("hands_seen", VInt 0); ("vpip_count", VInt 0); ("pfr_count", VInt 0);
   ("three_bet_count", VInt 0); ("cbet_count", VInt 0); ("went_to_showdown_count", VInt 0);
   ("won_showdown_count", VInt 0); ("unknown_hand_count", VInt 0)].

(** [row[field] += 1] *)
Definition bump (row : dict) (field : string) : res dict :=
  let? v := dgetitem row field in
  let? v := py_add v (VInt 1) in
  Ok (dset row field v).

(** The conditional increments of a row in order; the first condition that
    raises ends them, and the row keeps the increments made before. *)
Fixpoint bumps (conds : list (string * res bool)) (row : dict) : dict * res unit :=
  match conds with
  | [] => (row, Ok tt)
  | (field, cond) :: conds =>
      match cond with
      | Err e => (row, Err e)
      | Ok false => bumps conds row
      | Ok true => match bump row field with
                   | Ok row => bumps conds row
                   | Err e => (row, Err e)
                   end
      end
  end.

Definition hand_conditions (preflop flop : list dict) (showdown : option bool) : list (string * res bool) :=
  [("hands_seen", Ok true);
   ("vpip_count", vpip preflop);
   ("pfr_count", pfr preflop);
   ("three_bet_count", three_bet preflop);
   ("cbet_count", cbet preflop flop);
   ("went_to_showdown_count", Ok (match showdown with Some _ => true | None => false end));
   ("won_showdown_count", Ok (match showdown with Some true => true | _ => false end))].

Definition with_rows (s : InMemoryHUDHotStore) rows : InMemoryHUDHotStore :=
  {| projected_hand_checksums := projected_hand_checksums s; rows_by_tournament_and_miner := rows |}.

(** The body of the loop over [players.items()]. *)
Definition project_player (tournament_id window : string) (preflop flop : list (string * list dict))
  (showdown : list (string * bool)) (player : string * value) : st InMemoryHUDHotStore unit :=
  fun s =>
    let '(miner, source_user_id) := player in
    let key := (tournament_id, miner) in
    let rows := rows_by_tournament_and_miner s in
    let row := match aget key rows with
               | Some row => row | None => empty_row tournament_id miner source_user_id window end in
    let '(row, r) := bumps (hand_conditions (default [] (aget miner preflop))
                              (default [] (aget miner flop)) (aget miner showdown)) row in
    (r, with_rows s (aset key row rows)).

Definition snapshot_rows (s : InMemoryHUDHotStore) (tournament_id : string) : res (list dict) :=
  let rows := map snd (filter (fun kv => kv.1.1 = tournament_id) (rows_by_tournament_and_miner s)) in
  sort_rows (fun row => let? t := dgetitem row "tournament_id" in
                        let? m := dgetitem row "miner_address" in Ok [t; m]) false rows.

Definition result (s : string) (rows : option (list dict)) (r : option string) : HUDProjectionResult :=
  {| state := s; projected_rows := rows; reason := r |}.

Definition project_hand (event : dict) (settings : HUDProjectionSettings)
  : st InMemoryHUDHotStore HUDProjectionResult :=
  if negb (enabled settings) then sret (result "disabled" None (Some "hud_projection_disabled"))
  else
    let*? identity := sub_dict event "identity" in
    let tournament_id := dget identity "tournament_id" in
    let hand_id := dget identity "hand_id" in
    let checksum := dget event "checksum" in
    if negb (truthy tournament_id) || negb (truthy hand_id) || negb (truthy checksum) then
      sraise (ValueError "invalid hand event for hud projection")
    else
      let*? hand_id := as_key hand_id in
      let*? tournament_id := as_key tournament_id in
      let* s := sget in
      let existing_checksum := vopt (aget hand_id (projected_hand_checksums s)) in
      if py_eq existing_checksum checksum then
        let*? rows := snapshot_rows s tournament_id in
        sret (result "duplicate" (Some rows) None)
      else if truthy existing_checksum then
        sret (result "conflict" None (Some "hand_checksum_mismatch"))
      else
        let*? players := _players_from_event event in
        let*? preflop := _preflop_actions_from_event event in
        let*? flop := _street_actions_from_event event "flop" in
        let*? showdown := _showdown_results_from_event event in
        do* forS (project_player tournament_id (window settings) preflop flop showdown) players in
        let* s := sget in
        let s' := {| projected_hand_checksums := aset hand_id checksum (projected_hand_checksums s);
                     rows_by_tournament_and_miner := rows_by_tournament_and_miner s |} in
        do* sput s' in
        let*? rows := snapshot_rows s' tournament_id in
        sret (result "projected" (Some rows) None).

Definition build_hud_manifest (tournament_id : string) (rows : list dict) (policy_bundle_version : string)
  (generated_at : value) (kind : string) : res dict :=
  let? normalized_rows := mapR canonicalize (map VDict rows) in
  let? generated_at := canonicalize generated_at in
  let? root := rows_root normalized_rows HUD_ROW_SORT_KEYS in
  let manifest :=
    [("schema_version", VStr HUD_MANIFEST_SCHEMA_VERSION);
     ("kind", VStr kind);
     ("tournament_id", VStr tournament_id);
     ("policy_bundle_version", VStr policy_bundle_version);
     ("generated_at", generated_at);
     ("row_count", VInt (Z.of_nat (length normalized_rows)));
     ("row_sort_keys", VList (map VStr HUD_ROW_SORT_KEYS));
     ("rows_root", VStr root)] in
  let? manifest_root := canonical_hash (VDict manifest) in
  Ok (dset manifest "manifest_root" (VStr manifest_root)).

(** ** Lemmas: the counters of a row *)

Definition counters : list string :=
  ["hands_seen"; "vpip_count"; "pfr_count"; "three_bet_count"; "cbet_count";
   "went_to_showdown_count"; "won_showdown_count"].

Definition cnt (row : dict) (f : string) : Z :=
  match aget f row with Some (VInt n) => n | _ => 0 end.

Definition counters_are_ints (row : dict) : Prop :=
  forall f, In f counters -> exists n, aget f row = Some (VInt n).

(** What the counters of a row say about each other. *)
Definition row_ok (row : dict) : Prop :=
  counters_are_ints row /\
  0 <= cnt row "pfr_count" <= cnt row "vpip_count" /\
  0 <= cnt row "three_bet_count" <= cnt row "vpip_count" /\
  0 <= cnt row "cbet_count" <= cnt row "vpip_count" /\
  cnt row "vpip_count" <= cnt row "hands_seen" /\
  0 <= cnt row "won_showdown_count" <= cnt row "went_to_showdown_count" /\
  cnt row "went_to_showdown_count" <= cnt row "hands_seen".

Definition hud_ok (s : InMemoryHUDHotStore) : Prop :=
  Forall row_ok (avals (rows_by_tournament_and_miner s)).

(** The increments of [f] that [bumps] makes. *)
Fixpoint performed (f : string) (conds : list (string * res bool)) : Z :=
  match conds with
  | (g, Ok b) :: conds => (if b && String.eqb f g then 1 else 0) + performed f conds
  | _ => 0
  end.

Lemma bump_count row g :
  In g counters -> counters_are_ints row ->
  exists row', bump row g = Ok row' /\ counters_are_ints row' /\
    forall f, cnt row' f = cnt row f + (if String.eqb f g then 1 else 0).
Proof.
  intros Hg Hrow. destruct (Hrow g Hg) as (n & Hn).
  exists (dset row g (VInt (n + 1))). split; [|split].
  - unfold bump, dgetitem. by rewrite Hn.
  - intros f Hf. unfold dset. rewrite aget_aset. simpl. destruct (String.eqb f g); eauto.
  - intros f. unfold cnt, dset. rewrite aget_aset. simpl.
    destruct (String.eqb_spec f g) as [->|]; [by rewrite Hn|lia].
Qed.

Lemma bumps_count conds row :
  Forall (fun c => In c.1 counters) conds -> counters_are_ints row ->
  counters_are_ints (bumps conds row).1 /\
  forall f, cnt (bumps conds row).1 f = cnt row f + performed f conds.
Proof.
  intros Hconds. revert row. induction Hconds as [|[g [[]|e]] conds Hg _ IH]; intros row Hrow; simpl in *.
  - split; [done|]. intros. lia.
  - destruct (bump_count row g Hg Hrow) as (row' & -> & Hrow' & Hcnt).
    destruct (IH row' Hrow') as [H1 H2]. split; [done|]. intros f. rewrite H2, Hcnt. lia.
  - destruct (IH row Hrow) as [H1 H2]. split; [done|]. intros f. rewrite H2. lia.
  - split; [done|]. intros. lia.
Qed.

Lemma anyR_true {A} (f : A -> res bool) l : anyR f l = Ok true -> exists x, In x l /\ f x = Ok true.
Proof.
  induction l as [|x l IH]; simpl; [done|]. intros (b & Hb & H)%rbind_ok. destruct b; [eauto|].
  destruct (IH H) as (y & Hy & Hf). eauto.
Qed.

Lemma anyR_false {A} (f : A -> res bool) l x : anyR f l = Ok false -> In x l -> f x = Ok false.
Proof.
  induction l as [|y l IH]; simpl; [done|]. intros (b & Hb & H)%rbind_ok [->|Hx]; destruct b; try done. auto.
Qed.

Lemma name_in_weaken names names' action :
  (forall n, In n names -> In n names') -> name_in names action = Ok true -> name_in names' action = Ok true.
Proof.
  unfold name_in. intros Hsub (n & -> & [= H])%rbind_ok. simpl. f_equal.
  change (mem_key n names' = true). apply mem_key_In, Hsub. by apply mem_key_In.
Qed.

Lemma raise_with_name d p action : raise_with d p action = Ok true -> name_in ["raise"] action = Ok true.
Proof. unfold raise_with. intros ([] & Hr & H)%rbind_ok; done. Qed.

(** Whoever raised before the flop has entered the pot voluntarily. *)
Lemma raise_is_vpip (f : dict -> res bool) preflop :
  (forall a, f a = Ok true -> name_in ["raise"] a = Ok true) ->
  anyR f preflop = Ok true -> vpip preflop <> Ok false.
Proof.
  intros Hf (a & Ha & Hr)%anyR_true Hv.
  pose proof (anyR_false _ _ _ Hv Ha) as H. apply Hf in Hr.
  assert (name_in ["bet"; "call"; "raise"] a = Ok true) as H'; [|congruence].
  eapply name_in_weaken; [|done]. simpl. intros n [<-|[]]. tauto.
Qed.

Lemma pfr_is_vpip preflop : pfr preflop = Ok true -> vpip preflop <> Ok false.
Proof. apply raise_is_vpip. apply raise_with_name. Qed.

Lemma three_bet_is_vpip preflop : three_bet preflop = Ok true -> vpip preflop <> Ok false.
Proof. apply raise_is_vpip. apply raise_with_name. Qed.

Lemma cbet_is_vpip preflop flop : cbet preflop flop = Ok true -> vpip preflop <> Ok false.
Proof.
  unfold cbet. intros ([] & Hr & H)%rbind_ok; [|done]. eapply raise_is_vpip; [|done]. done.
Qed.

Lemma hand_conditions_counters preflop flop showdown :
  Forall (fun c => In c.1 counters) (hand_conditions preflop flop showdown).
Proof. unfold hand_conditions, counters. repeat constructor; simpl; tauto. Qed.

Lemma bumps_ok preflop flop showdown row :
  row_ok row -> row_ok (bumps (hand_conditions preflop flop showdown) row).1.
Proof.
  intros (Hints & Hrow). destruct (bumps_count _ row (hand_conditions_counters preflop flop showdown) Hints)
    as [Hints' Hcnt]. split; [done|]. rewrite !Hcnt. clear Hcnt Hints Hints'.
  unfold hand_conditions. cbn [performed andb String.eqb Ascii.eqb Bool.eqb].
  pose proof (pfr_is_vpip preflop) as Hp. pose proof (three_bet_is_vpip preflop) as Ht.
  pose proof (cbet_is_vpip preflop flop) as Hc.
  destruct (vpip preflop) as [[]|], (pfr preflop) as [[]|], (three_bet preflop) as [[]|],
    (cbet preflop flop) as [[]|], showdown as [[]|]; simpl;
    try (exfalso; first [by apply Hp|by apply Ht|by apply Hc]); lia.
Qed.

Lemma empty_row_ok t m u w : row_ok (empty_row t m u w).
Proof.
  split; [|vm_compute; intuition congruence].
  intros f Hf. unfold counters in Hf. simpl in Hf.
  repeat (destruct Hf as [<-|Hf]; [by eexists|]). done.
Qed.

Lemma project_player_ok t w pre flop sd player s : hud_ok s -> hud_ok (project_player t w pre flop sd player s).2.
Proof.
  destruct player as [miner user]. unfold project_player, hud_ok. intros Hs.
  destruct (bumps _ _) as [row r] eqn:E. simpl. apply avals_aset_Forall; [|done].
  change row with (row, r).1. rewrite <- E. apply bumps_ok.
  destruct (aget (t, miner) (rows_by_tournament_and_miner s)) eqn:Hrow;
    [exact (aget_Forall _ _ _ _ Hs Hrow)|apply empty_row_ok].
Qed.

Lemma project_hand_ok event settings s : hud_ok s -> hud_ok (project_hand event settings s).2.
Proof.
  intros Hs. unfold project_hand. destruct (enabled settings); [|done]. simpl.
  assert (forall {A} (r : res A) f, (forall a, hud_ok (f a s).2) ->
    hud_ok (sbind (B := HUDProjectionResult) (slift r) f s).2) as Hlift
    by (intros A [a|e] f H; [apply H|done]).
  apply Hlift. intros identity. case_match; [done|]. apply Hlift. intros h. apply Hlift. intros t.
  unfold sbind at 1, sget at 1. cbv beta iota. case_match; [by apply Hlift|]. case_match; [done|].
  apply Hlift. intros players. apply Hlift. intros pre. apply Hlift. intros flop. apply Hlift. intros sd.
  apply sbind_invariant; [done| |].
  - intros _. apply forS_invariant; [|done]. intros x s1 _. apply project_player_ok.
  - intros _ s1 Hs1. unfold sbind, sget, sput, slift. by destruct (snapshot_rows _ _).
Qed.

(** ** Properties *)

(** the HUD counters stay consistent: after any sequence of hands, in every
    row the raises, three-bets and continuation bets are at most the voluntary
    entries, those and the showdowns at most the hands, and the showdowns won
    at most the showdowns, even when some of the projections raised. *)
Theorem hud_counters_consistent events settings :
  Forall row_ok (avals (rows_by_tournament_and_miner
    (fold_left (fun s e => (project_hand e settings s).2) events
       {| projected_hand_checksums := []; rows_by_tournament_and_miner := [] |}))).
Proof.
  change (hud_ok (fold_left (fun s e => (project_hand e settings s).2) events
    {| projected_hand_checksums := []; rows_by_tournament_and_miner := [] |})).
  assert (hud_ok {| projected_hand_checksums := []; rows_by_tournament_and_miner := [] |}) as H by constructor.
  revert H. generalize ({| projected_hand_checksums := []; rows_by_tournament_and_miner := [] |}) as s.
  induction events as [|e events IH]; intros s Hs; simpl; [done|]. apply IH. by apply project_hand_ok.
Qed.

(** What a successful projection leaves in the store. *)
Lemma project_hand_projected event settings s r s' :
  project_hand event settings s = (Ok r, s') -> state r = "projected" ->
  exists identity t h rows,
    enabled settings = true /\ sub_dict event "identity" = Ok identity /\
    dget identity "tournament_id" = VStr t /\ dget identity "hand_id" = VStr h /\
    truthy (VStr t) = true /\ truthy (VStr h) = true /\ truthy (dget event "checksum") = true /\
    aget h (projected_hand_checksums s') = Some (dget event "checksum") /\
    snapshot_rows s' t = Ok rows /\ r = result "projected" (Some rows) None.
Proof.
  unfold project_hand. destruct (enabled settings) eqn:Hen; [|intros [= <- _]; discriminate].
  cbn [negb]. intros (i & s1 & Hi & H)%sbind_ok Hstate.
  unfold slift in Hi. injection Hi as Hi <-.
  destruct (negb _ || _ || _) eqn:Hg in H; [done|].
  rewrite !orb_false_iff, !negb_false_iff in Hg. destruct Hg as [[Hgt Hgh] Hgc].
  apply sbind_ok in H as (h & s1 & Hh & H). injection Hh as Hh <-. apply as_key_ok in Hh.
  apply sbind_ok in H as (t & s1 & Ht & H). injection Ht as Ht <-. apply as_key_ok in Ht.
  apply sbind_ok in H as (s0 & s1 & Hs & H). injection Hs as <- <-.
  case_match. { apply sbind_ok in H as (? & ? & _ & Hr). injection Hr as <- _. discriminate Hstate. }
  case_match. { injection H as <- _. discriminate Hstate. }
  apply sbind_ok in H as (players & s1 & _ & H). apply sbind_ok in H as (pre & s2 & _ & H).
  apply sbind_ok in H as (flop & s3 & _ & H). apply sbind_ok in H as (sd & s4 & _ & H).
  apply sbind_ok in H as (u & s5 & _ & H). apply sbind_ok in H as (s6 & s7 & Hs & H).
  injection Hs as <- <-. apply sbind_ok in H as (u' & s8 & Hput & H). injection Hput as _ <-.
  apply sbind_ok in H as (rows & s9 & Hrows & H). injection Hrows as Hrows <-. injection H as <- <-.
  exists i, t, h, rows. rewrite Ht in Hgt. rewrite Hh in Hgh. split_and!; try done.
  simpl. by rewrite aget_aset_eq.
Qed.

(** A hand counts once: after a successful projection the same event is a
    duplicate with the same rows, the same hand under another checksum is a
    conflict, and neither changes the store. *)
Theorem project_hand_once event settings s r s' c :
  project_hand event settings s = (Ok r, s') -> state r = "projected" ->
  dget event "checksum" = VStr c ->
  project_hand event settings s' = (Ok (result "duplicate" (projected_rows r) None), s') /\
  forall c', c' <> c -> c' <> "" ->
    project_hand (dset event "checksum" (VStr c')) settings s' =
    (Ok (result "conflict" None (Some "hand_checksum_mismatch")), s').
Proof.
  intros Hproj Hstate Hc.
  destruct (project_hand_projected _ _ _ _ _ Hproj Hstate)
    as (i & t & h & rows & Hen & Hi & Ht & Hh & Hgt & Hgh & Hgc & Hstored & Hrows & ->).
  rewrite Hc in Hgc, Hstored. split.
  - unfold project_hand, sbind, slift, sget. rewrite Hen, Hi. cbn [negb].
    rewrite Ht, Hh, Hc, Hgt, Hgh, Hgc. simpl. rewrite Hstored. simpl.
    rewrite String.eqb_refl, Hrows. done.
  - intros c' Hne Hne'. unfold project_hand, sbind, slift, sget. rewrite Hen. cbn [negb].
    unfold sub_dict in *. rewrite dget_or_dset. cbn [String.eqb Ascii.eqb Bool.eqb]. rewrite Hi.
    rewrite dget_dset. cbn [String.eqb Ascii.eqb Bool.eqb]. rewrite Ht, Hh, Hgt, Hgh.
    assert (truthy (VStr c') = true) as -> by (simpl; by destruct (String.eqb_spec c' "")).
    simpl. rewrite Hstored. simpl.
    destruct (String.eqb_spec c c'); [by subst|]. simpl in Hgc. by rewrite Hgc.
Qed.

Definition sample_hand : dict :=
  [("identity", VDict [("tournament_id", VStr "t"); ("hand_id", VStr "t:a:1")]);
   ("checksum", VStr "sha256:x");
   ("payload", VDict
     [("players", VList [VDict [("miner_address", VStr "m1"); ("source_user_id", VStr "7")]]);
      ("actions", VList [VDict [("miner_address", VStr "m1"); ("street", VStr "Preflop");
                                ("action", VStr "raise"); ("raise_number", VInt 1)]]);
      ("showdown", VList [VDict [("miner_address", VStr "m1"); ("won", VBool true)]])])].

Lemma project_hand_once_witness :
  let settings := {| enabled := true; window := "short_term" |} in
  let s := {| projected_hand_checksums := []; rows_by_tournament_and_miner := [] |} in
  exists r s', project_hand sample_hand settings s = (Ok r, s') /\
    project_hand sample_hand settings s' = (Ok (result "duplicate" (projected_rows r) None), s').
Proof.
  intros settings s. do 2 eexists. split; [vm_compute; reflexivity|].
  eapply (project_hand_once sample_hand settings s _ _ "sha256:x"); vm_compute; reflexivity.
Defined.
