(* ===== verification/Repository.v ===== *)
(** * The in-memory repository ([repository.py], class [FakeRepository])

    The repository keeps one dictionary of rows per entity.  A row is read and
    written by copy, so rows are values here.  Saving merges a partial row into
    the stored one.  The theorems state what each kind of operation reads and
    writes, the protocol of request ids of submissions, and the agreement of
    its hand events with the hot store. *)
From Stdlib Require Import ZArith Lia String Permutation.
From stdpp Require Import base list strings.
From S2P Require Import Prelude PyText PyFloat PyTime PyValue PokerResults.
Open Scope Z_scope.

(** ** State *)

Definition rows : Type := list (string * dict).

(** The entities whose rows are kept under one string. *)
Inductive table :=
| _miners | _tasks | _hold_entries | _reward_windows | _poker_mtt_budget_ledgers
| _settlement_batches | _anchor_jobs | _artifacts | _risk_cases | _arena_results
| _poker_mtt_tournaments | _poker_mtt_hand_events | _poker_mtt_mq_checkpoints
| _poker_mtt_mq_conflicts | _poker_mtt_mq_dlq | _poker_mtt_hud_snapshots
| _poker_mtt_hidden_eval_entries | _poker_mtt_rating_snapshots
| _poker_mtt_multiplier_snapshots | _poker_mtt_final_rankings | _poker_mtt_results
| _poker_mtt_corrections | _request_index.

#[export] Instance table_eq_dec : EqDecision table.
Proof. solve_decision. Defined.

(** [tab] holds the tables in the order they were first written to;
    [_submissions] is keyed by task and miner. *)
Record FakeRepository := {
  tabs : list (table * rows);
  _submissions : list ((string * string) * dict)
}.

#[export] Program Instance table_key : PyKey table := {| keqb a b := bool_decide (a = b) |}.
Next Obligation. intros a b. apply bool_decide_eq_true. Qed.

Definition empty_repository : FakeRepository := {| tabs := []; _submissions := [] |}.

Definition tab (t : table) (s : FakeRepository) : rows := default [] (aget t (tabs s)).
Definition set_tab (t : table) (r : rows) (s : FakeRepository) : FakeRepository :=
  {| tabs := aset t r (tabs s); _submissions := _submissions s |}.
Definition set_submissions r (s : FakeRepository) : FakeRepository :=
  {| tabs := tabs s; _submissions := r |}.

Definition repo : Type -> Type := st FakeRepository.

(** ** Access to one table *)

(** [deepcopy(row) if row else None] *)
Definition non_empty (row : option dict) : option dict :=
  match row with Some [] => None | _ => row end.

Definition get_row (t : table) (id : string) : repo (option dict) :=
  sgets (fun s => non_empty (aget id (tab t s))).

Definition all_rows (t : table) : repo (list dict) := sgets (fun s => avals (tab t s)).

Definition put_row (t : table) (id : string) (row : dict) : repo dict :=
  let* s := sget in
  do* sput (set_tab t (aset id row (tab t s)) s) in
  sret row.

(** [current = t.get(row[key], {}); current.update(row); t[row[key]] = current] *)
Definition save_keyed (key : string) (t : table) (row : dict) : repo dict :=
  let*? v := dgetitem row key in
  let*? id := as_key v in
  let* s := sget in
  put_row t id (dupdate (default [] (aget id (tab t s))) row).

Definition save_row : table -> dict -> repo dict := save_keyed "id".

(** The optional arguments that were given. *)
Definition given (l : dict) : dict := filter (fun kv => is_none kv.2 = false) l.

Definition field_is (k x : string) (row : dict) : bool := py_eq_str (dget row k) x.
(** [if x is not None: items = [item for item in items if item.get(k) == x]] *)
Definition where_field (k : string) (x : option string) (items : list dict) : list dict :=
  match x with Some x => filter (fun row => field_is k x row = true) items | None => items end.

(** A sort key made of [item.get(k) or ""]. *)
Definition keys_or_empty (ks : list string) (row : dict) : res (list value) :=
  Ok (map (fun k => get_or_empty k row) ks).
(** A sort key made of [item.get(k)]. *)
Definition keys_plain (ks : list string) (row : dict) : res (list value) := Ok (map (dget row) ks).

(** ** Miners *)

Definition register_miner (miner : dict) : repo dict :=
  let*? v := dgetitem miner "address" in
  let*? address := as_key v in
  let* s := sget in
  if ahas address (tab _miners s) then sraise (ValueError "miner already registered")
  else put_row _miners address miner.

Definition get_miner : string -> repo (option dict) := get_row _miners.

Definition update_miner (address : string) (updates : dict) : repo dict :=
  let* s := sget in
  match aget address (tab _miners s) with
  | None => sraise (ValueError "miner not found")
  | Some miner => put_row _miners address (dupdate miner updates)
  end.

Definition update_miner_cluster_identity (address : string)
  (updated_at economic_unit_id ip_address user_agent_hash : value) : repo dict :=
  update_miner address (("updated_at", updated_at) ::
    given [("economic_unit_id", economic_unit_id); ("ip_address", ip_address);
           ("user_agent_hash", user_agent_hash)]).

Definition update_miner_forecast_participation (address : string)
  (updated_at forecast_commits forecast_reveals ops_reliability fast_task_opportunities
   fast_task_misses fast_window_start_at : value) : repo dict :=
  update_miner address (("updated_at", updated_at) ::
    given [("forecast_commits", forecast_commits); ("forecast_reveals", forecast_reveals);
           ("ops_reliability", ops_reliability);
           ("fast_task_opportunities", fast_task_opportunities);
           ("fast_task_misses", fast_task_misses); ("fast_window_start_at", fast_window_start_at)]).

Definition update_miner_forecast_settlement (address : string)
  (updated_at total_rewards held_rewards settled_tasks correct_direction_count edge_score_total
   model_reliability admission_state : value) : repo dict :=
  update_miner address (("updated_at", updated_at) ::
    given [("total_rewards", total_rewards); ("held_rewards", held_rewards);
           ("settled_tasks", settled_tasks); ("correct_direction_count", correct_direction_count);
           ("edge_score_total", edge_score_total); ("model_reliability", model_reliability);
           ("admission_state", admission_state)]).

Definition update_miner_public_ranking (address : string) (public_rank public_elo : value) : repo dict :=
  update_miner address [("public_rank", public_rank); ("public_elo", public_elo)].

Definition update_arena_miner_multiplier (address : string) (arena_multiplier updated_at : value) : repo dict :=
  update_miner address [("arena_multiplier", arena_multiplier); ("updated_at", updated_at)].

Definition update_poker_mtt_miner_multiplier (address : string)
  (poker_mtt_multiplier updated_at : value) : repo dict :=
  update_miner address [("poker_mtt_multiplier", poker_mtt_multiplier); ("updated_at", updated_at)].

Definition list_miners : repo (list dict) := all_rows _miners.

Definition list_miners_by_addresses (addresses : list string) : repo (list dict) :=
  let* s := sget in
  let items := map snd (filter (fun kv => mem_key kv.1 addresses = true) (tab _miners s)) in
  slift (sort_rows (keys_or_empty ["address"]) false items).

Definition count_active_miners : repo Z :=
  let* miners := all_rows _miners in
  sret (Z.of_nat (length (filter (fun m => field_is "status" "active" m = true) miners))).

(** ** Tasks *)

(** The stored task is kept when the new row says nothing about a field. *)
Definition upsert_task : dict -> repo dict := save_keyed "task_run_id" _tasks.
Definition get_task : string -> repo (option dict) := get_row _tasks.
Definition list_tasks : repo (list dict) := all_rows _tasks.

Definition is_due_fast_task (now_iso : string) (task : dict) : res bool :=
  let? lane := dgetitem task "lane" in
  if negb (py_eq_str lane "forecast_15m") then Ok false
  else if in_strings (dget task "state") ["settled"; "resolved"] then Ok false
  else let? resolve_at := dgetitem task "resolve_at" in
       py_le resolve_at (VStr now_iso).

Definition list_due_unsettled_fast_tasks (now_iso : string) : repo (list dict) :=
  let* tasks := all_rows _tasks in
  slift (filterR (is_due_fast_task now_iso) tasks).

(** ** Submissions *)

Definition get_submission (task_run_id miner_address : string) : repo (option dict) :=
  sgets (fun s => non_empty (aget (task_run_id, miner_address) (_submissions s))).

Definition submission_key (row : dict) : res (string * string) :=
  let? t := dgetitem row "task_run_id" in
  let? m := dgetitem row "miner_address" in
  let? t := as_key t in
  let? m := as_key m in
  Ok (t, m).

Definition request_id_keys : list string := ["commit_request_id"; "reveal_request_id"].

(** The submission of another key that already used one of the request ids. *)
Fixpoint foreign_request (index : rows) (key : string * string) (submission : dict) (ks : list string)
  : res (option dict) :=
  match ks with
  | [] => Ok None
  | k :: ks =>
      let request_id := dget submission k in
      if truthy request_id then
        let? rid := as_key request_id in
        match non_empty (aget rid index) with
        | Some existing =>
            let? existing_key := submission_key existing in
            if keqb existing_key key then foreign_request index key submission ks
            else Ok (Some existing)
        | None => foreign_request index key submission ks
        end
      else foreign_request index key submission ks
  end.

Definition index_request (current : dict) (k : string) : repo unit :=
  let request_id := dget current k in
  if truthy request_id then
    let*? rid := as_key request_id in
    do* put_row _request_index rid current in sret tt
  else sret tt.

Definition save_submission (submission : dict) : repo dict :=
  let*? key := submission_key submission in
  let* s := sget in
  let*? foreign := foreign_request (tab _request_index s) key submission request_id_keys in
  match foreign with
  | Some existing => sret existing
  | None =>
      let current := dupdate (default [] (aget key (_submissions s))) submission in
      do* sput (set_submissions (aset key current (_submissions s)) s) in
      do* forS (index_request current) request_id_keys in
      sret current
  end.

Definition list_submissions_for_task (task_run_id : string) : repo (list dict) :=
  sgets (fun s => map snd (filter (fun kv => kv.1.1 = task_run_id) (_submissions s))).

Definition list_submissions_for_miner (miner_address : string) (limit : option Z) : repo (list dict) :=
  let* s := sget in
  let items := map snd (filter (fun kv => kv.1.2 = miner_address) (_submissions s)) in
  let*? items := sort_rows (keys_or_empty ["accepted_reveal_at"; "updated_at"; "id"]) true items in
  sret (opt_take limit items).

(** ** Hold entries *)

Definition save_hold_entry : dict -> repo dict := save_row _hold_entries.

Definition entry_of_miner (miner_address : string) (entry : dict) : res bool :=
  let? v := dgetitem entry "miner_address" in Ok (py_eq_str v miner_address).

Definition list_hold_entries_for_miner (miner_address : string) : repo (list dict) :=
  let* entries := all_rows _hold_entries in
  slift (filterR (entry_of_miner miner_address) entries).

Definition is_due_hold (now_iso : string) (entry : dict) : res bool :=
  if negb (field_is "state" "held" entry) then Ok false
  else let? release_after := dgetitem entry "release_after" in
       py_le release_after (VStr now_iso).

Definition list_due_hold_entries (now_iso : string) : repo (list dict) :=
  let* entries := all_rows _hold_entries in
  slift (filterR (is_due_hold now_iso) entries).

(** ** Reward windows and the poker MTT budget *)

Definition save_reward_window : dict -> repo dict := save_row _reward_windows.

(** [if id not in self._t: raise ValueError(msg)] *)
Definition require_row (t : table) (id : string) (msg : string) : repo unit :=
  let* s := sget in
  if ahas id (tab t s) then sret tt else sraise (ValueError (msg +:+ id)).

Definition link_reward_window_settlement_batch (reward_window_id : string)
  (settlement_batch_id updated_at : value) : repo dict :=
  do* require_row _reward_windows reward_window_id "reward window not found: " in
  save_reward_window [("id", VStr reward_window_id); ("settlement_batch_id", settlement_batch_id);
                      ("updated_at", updated_at)].

Definition get_reward_window : string -> repo (option dict) := get_row _reward_windows.

Definition list_reward_windows : repo (list dict) :=
  let* items := all_rows _reward_windows in
  slift (sort_rows (keys_or_empty ["window_end_at"; "updated_at"; "id"]) true items).

Definition id_text (l : list value) : res string :=
  let? texts := mapR py_str l in Ok (str_join ":" texts).

(** [row.get("id") or f"prefix:{a}:{b}:..."] *)
Definition id_or (row : dict) (prefix : string) (parts : list value) : res value :=
  if truthy (dget row "id") then Ok (dget row "id")
  else let? t := id_text parts in Ok (VStr (prefix +:+ ":" +:+ t)).

Definition required (row : dict) (k msg : string) : res value :=
  if truthy (dget row k) then Ok (dget row k) else Err (ValueError msg).

Definition policy_or_default (row : dict) : value := por (dget row "policy_bundle_version") (VStr "poker_mtt_v1").

Definition _normalize_poker_mtt_budget_ledger (row : dict) : res dict :=
  let? budget_source_id := required row "budget_source_id" "missing poker mtt budget_source_id" in
  let? emission_epoch_id := required row "emission_epoch_id" "missing poker mtt emission_epoch_id" in
  let? reward_window_id := required row "reward_window_id" "missing poker mtt budget reward_window_id" in
  let? requested_amount := int_or_zero (dget row "requested_amount") in
  let? approved_amount := int_or_zero (dget row "approved_amount") in
  let? paid_amount := int_or_zero (dget row "paid_amount") in
  let? forfeited_amount := int_or_zero (dget row "forfeited_amount") in
  let? rolled_amount := int_or_zero (dget row "rolled_amount") in
  let? id := id_or row "poker_mtt_budget" [budget_source_id; emission_epoch_id; reward_window_id] in
  Ok [("id", id);
      ("budget_source_id", budget_source_id);
      ("emission_epoch_id", emission_epoch_id);
      ("lane", por (dget row "lane") (VStr "poker_mtt_daily"));
      ("reward_window_id", reward_window_id);
      ("settlement_batch_id", dget row "settlement_batch_id");
      ("window_start_at", dget row "window_start_at");
      ("window_end_at", dget row "window_end_at");
      ("requested_amount", VInt requested_amount);
      ("approved_amount", VInt approved_amount);
      ("paid_amount", VInt paid_amount);
      ("forfeited_amount", VInt forfeited_amount);
      ("rolled_amount", VInt rolled_amount);
      ("state", por (dget row "state") (VStr "reserved"));
      ("policy_bundle_version", policy_or_default row);
      ("budget_root", dget row "budget_root");
      ("created_at", dget row "created_at");
      ("updated_at", dget row "updated_at")].

Definition save_poker_mtt_budget_ledger (row : dict) : repo dict :=
  let*? ledger := _normalize_poker_mtt_budget_ledger row in
  save_row _poker_mtt_budget_ledgers ledger.

Definition list_poker_mtt_budget_ledgers
  (budget_source_id emission_epoch_id reward_window_id lane : option string) : repo (list dict) :=
  let* items := all_rows _poker_mtt_budget_ledgers in
  let items := where_field "budget_source_id" budget_source_id items in
  let items := where_field "emission_epoch_id" emission_epoch_id items in
  let items := where_field "reward_window_id" reward_window_id items in
  let items := where_field "lane" lane items in
  slift (sort_rows (keys_or_empty ["created_at"; "id"]) false items).

(** ** Settlement batches *)

Definition save_settlement_batch : dict -> repo dict := save_row _settlement_batches.

Definition sync_open_settlement_batch (settlement_batch_id : string)
  (lane window_start_at window_end_at reward_window_ids policy_bundle_version
   task_count miner_count total_reward_amount updated_at created_at : value) : repo dict :=
  let payload :=
    [("id", VStr settlement_batch_id);
     ("lane", lane);
     ("state", VStr "open");
     ("window_start_at", window_start_at);
     ("window_end_at", window_end_at);
     ("reward_window_ids", reward_window_ids);
     ("policy_bundle_version", policy_bundle_version);
     ("task_count", task_count);
     ("miner_count", miner_count);
     ("total_reward_amount", total_reward_amount);
     ("updated_at", updated_at)] in
  save_settlement_batch
    (if is_none created_at then payload
     else dupdate payload
       [("anchor_job_id", VNone);
        ("anchor_schema_version", VNone);
        ("canonical_root", VNone);
        ("anchor_payload_json", VNone);
        ("anchor_payload_hash", VNone);
        ("created_at", created_at)]).

Definition require_batch (id : string) : repo unit :=
  require_row _settlement_batches id "settlement batch not found: ".

Definition mark_settlement_batch_anchor_ready (settlement_batch_id : string)
  (policy_bundle_version anchor_schema_version canonical_root anchor_payload_json
   anchor_payload_hash updated_at : value) : repo dict :=
  do* require_batch settlement_batch_id in
  save_settlement_batch
    [("id", VStr settlement_batch_id);
     ("state", VStr "anchor_ready");
     ("anchor_job_id", VNone);
     ("policy_bundle_version", policy_bundle_version);
     ("anchor_schema_version", anchor_schema_version);
     ("canonical_root", canonical_root);
     ("anchor_payload_json", anchor_payload_json);
     ("anchor_payload_hash", anchor_payload_hash);
     ("updated_at", updated_at)].

Definition mark_settlement_batch_anchor_submitted (settlement_batch_id : string)
  (anchor_job_id updated_at : value) : repo dict :=
  do* require_batch settlement_batch_id in
  save_settlement_batch
    [("id", VStr settlement_batch_id);
     ("state", VStr "anchor_submitted");
     ("anchor_job_id", anchor_job_id);
     ("updated_at", updated_at)].

Definition mark_settlement_batch_terminal (settlement_batch_id : string) (state updated_at : value) : repo dict :=
  do* require_batch settlement_batch_id in
  save_settlement_batch
    [("id", VStr settlement_batch_id); ("state", state); ("updated_at", updated_at)].

Definition cancel_settlement_batch (settlement_batch_id : string)
  (total_reward_amount updated_at : value) : repo dict :=
  do* require_batch settlement_batch_id in
  save_settlement_batch
    [("id", VStr settlement_batch_id);
     ("state", VStr "cancelled");
     ("total_reward_amount", total_reward_amount);
     ("anchor_job_id", VNone);
     ("anchor_schema_version", VNone);
     ("canonical_root", VNone);
     ("anchor_payload_json", VNone);
     ("anchor_payload_hash", VNone);
     ("updated_at", updated_at)].

Definition get_settlement_batch : string -> repo (option dict) := get_row _settlement_batches.

Definition list_settlement_batches : repo (list dict) :=
  let* items := all_rows _settlement_batches in
  slift (sort_rows (keys_or_empty ["window_end_at"; "updated_at"; "id"]) true items).

(** ** Anchor jobs *)

Definition save_anchor_job : dict -> repo dict := save_row _anchor_jobs.

Definition require_job (id : string) : repo unit := require_row _anchor_jobs id "anchor job not found: ".

Definition update_anchor_job_broadcast (anchor_job_id : string)
  (broadcast_status broadcast_tx_hash last_broadcast_at updated_at : value) : repo dict :=
  do* require_job anchor_job_id in
  save_anchor_job
    [("id", VStr anchor_job_id);
     ("state", VStr "anchor_submitted");
     ("broadcast_status", broadcast_status);
     ("broadcast_tx_hash", broadcast_tx_hash);
     ("last_broadcast_at", last_broadcast_at);
     ("updated_at", updated_at)].

Definition update_anchor_job_confirmation (anchor_job_id : string)
  (chain_confirmation_status updated_at : value) : repo dict :=
  do* require_job anchor_job_id in
  save_anchor_job
    [("id", VStr anchor_job_id);
     ("chain_confirmation_status", chain_confirmation_status);
     ("updated_at", updated_at)].

Definition mark_anchor_job_terminal (anchor_job_id : string)
  (state updated_at anchored_at failure_reason chain_confirmation_status : value) : repo dict :=
  do* require_job anchor_job_id in
  save_anchor_job
    ([("id", VStr anchor_job_id);
      ("state", state);
      ("updated_at", updated_at);
      ("failure_reason", failure_reason)] ++
     given [("anchored_at", anchored_at);
            ("chain_confirmation_status", chain_confirmation_status)]).

Definition get_anchor_job : string -> repo (option dict) := get_row _anchor_jobs.

Definition list_anchor_jobs : repo (list dict) :=
  let* items := all_rows _anchor_jobs in
  slift (sort_rows (keys_or_empty ["updated_at"; "created_at"; "id"]) true items).

(** ** Artifacts *)

Definition save_artifact : dict -> repo dict := save_row _artifacts.

Definition _artifact_payload_unchanged (existing candidate : dict) : bool :=
  forallb (fun k => py_eq (dget existing k) (dget candidate k))
    ["kind"; "entity_type"; "entity_id"; "payload_hash"; "payload_json"].

Definition save_artifacts_bulk (artifacts : list dict) : repo (list dict) :=
  mapS (fun artifact =>
    let*? v := dgetitem artifact "id" in
    let*? id := as_key v in
    let* s := sget in
    let existing := aget id (tab _artifacts s) in
    match non_empty existing with
    | Some row =>
        if _artifact_payload_unchanged row artifact
        then sret (dset row "_write_state" (VStr "unchanged"))
        else let* current := put_row _artifacts id (dupdate row artifact) in
             sret (dset current "_write_state" (VStr "upserted"))
    | None =>
        let* current := put_row _artifacts id (dupdate [] artifact) in
        sret (dset current "_write_state" (VStr "upserted"))
    end) artifacts.

Definition get_artifact : string -> repo (option dict) := get_row _artifacts.

Definition list_artifacts_for_entity (entity_type entity_id : string) : repo (list dict) :=
  let* items := all_rows _artifacts in
  let items := filter (fun a => field_is "entity_type" entity_type a && field_is "entity_id" entity_id a = true) items in
  slift (sort_rows (keys_or_empty ["updated_at"; "created_at"; "id"]) true items).

(** ** Risk cases and arena results *)

Definition save_risk_case : dict -> repo dict := save_row _risk_cases.
Definition get_risk_case : string -> repo (option dict) := get_row _risk_cases.

Definition list_risk_cases (state miner_address economic_unit_id : option string) : repo (list dict) :=
  let* cases := all_rows _risk_cases in
  let cases := where_field "state" state cases in
  let cases := where_field "miner_address" miner_address cases in
  let cases := where_field "economic_unit_id" economic_unit_id cases in
  slift (sort_rows (keys_plain ["updated_at"; "id"]) true cases).

Definition save_arena_result : dict -> repo dict := save_row _arena_results.

Definition results_for_miner (t : table) (miner_address : string) (eligible_only : bool)
  (limit : option Z) : repo (list dict) :=
  let* items := all_rows t in
  let*? items := filterR (entry_of_miner miner_address) items in
  let items := if eligible_only
               then filter (fun e => is_true (dget e "eligible_for_multiplier") = true) items else items in
  let*? items := sort_rows (keys_plain ["updated_at"; "id"]) true items in
  sret (opt_take limit items).

Definition list_arena_results_for_miner : string -> bool -> option Z -> repo (list dict) :=
  results_for_miner _arena_results.

(** ** Poker MTT: tournaments and hand events *)

Definition save_poker_mtt_tournament : dict -> repo dict := save_row _poker_mtt_tournaments.
Definition get_poker_mtt_tournament : string -> repo (option dict) := get_row _poker_mtt_tournaments.

Definition _normalize_poker_mtt_hand_event (event : dict) : res dict :=
  let? identity := as_dict (por (dget event "identity") (VDict [])) in
  let hand_id := por (dget identity "hand_id") (dget event "hand_id") in
  if negb (truthy hand_id) then Err (ValueError "missing poker mtt hand_id")
  else
    let? checksum := dgetitem event "checksum" in
    Ok ([("hand_id", hand_id);
         ("tournament_id", por (dget identity "tournament_id") (dget event "tournament_id"));
         ("table_id", por (dget identity "table_id") (dget event "table_id"));
         ("hand_no", if is_none (dget identity "hand_no") then dget event "hand_no"
                     else dget identity "hand_no");
         ("version", dget event "version");
         ("checksum", checksum);
         ("event_id", dget event "event_id");
         ("source_json", por (por (dget event "source_json") (dget event "source")) (VDict []));
         ("payload_json", por (por (dget event "payload_json") (dget event "payload")) (VDict []));
         ("ingest_state", por (dget event "ingest_state") (VStr "inserted"));
         ("conflict_reason", dget event "conflict_reason")] ++
        filter (fun kv => dhas event kv.1 = true)
          [("created_at", dget event "created_at"); ("updated_at", dget event "updated_at")]).

(** The row as it is returned for a conflict. *)
Definition conflict_row (row : dict) (reason : string) (previous : option dict) : dict :=
  dupdate row ([("state", VStr "conflict"); ("ingest_state", VStr "conflict");
                ("conflict_reason", VStr reason)] ++
               match previous with Some e => [("previous_event", VDict e)] | None => [] end).

Definition save_poker_mtt_hand_event (event : dict) : repo dict :=
  let*? row := _normalize_poker_mtt_hand_event event in
  let*? hand_id := as_key (dget row "hand_id") in
  let* s := sget in
  match aget hand_id (tab _poker_mtt_hand_events s) with
  | None =>
      if is_none (dget row "version") then
        sret (conflict_row row "missing_version_without_existing_event" None)
      else
        do* put_row _poker_mtt_hand_events hand_id row in
        sret (dset row "state" (VStr "inserted"))
  | Some existing =>
      let version := dget row "version" in
      let same := py_eq (dget row "checksum") (dget existing "checksum") in
      if is_none version then
        if same then sret (dset existing "state" (VStr "duplicate"))
        else sret (conflict_row row "missing_version_checksum_mismatch" (Some existing))
      else
        let existing_version := dget existing "version" in
        let*? older := if is_none existing_version then Ok false else py_lt version existing_version in
        if older then
          sret (dupdate row [("state", VStr "stale"); ("previous_event", VDict existing)])
        else if py_eq existing_version version then
          if same then sret (dset existing "state" (VStr "duplicate"))
          else sret (conflict_row row "same_version_checksum_mismatch" (Some existing))
        else
          let updated := dset row "created_at" (por (dget existing "created_at") (dget row "created_at")) in
          do* put_row _poker_mtt_hand_events hand_id updated in
          sret (dupdate updated [("state", VStr "updated"); ("previous_event", VDict existing)])
  end.

Definition get_poker_mtt_hand_event : string -> repo (option dict) := get_row _poker_mtt_hand_events.

Definition list_poker_mtt_hand_events_for_tournament (tournament_id : string) : repo (list dict) :=
  let* items := all_rows _poker_mtt_hand_events in
  let items := where_field "tournament_id" (Some tournament_id) items in
  slift (sort_rows (fun item => Ok [get_or_empty "table_id" item; por (dget item "hand_no") (VInt 0);
                                    get_or_empty "hand_id" item]) false items).

(** ** Poker MTT: message queue bookkeeping *)

Definition save_poker_mtt_mq_checkpoint : dict -> repo dict := save_row _poker_mtt_mq_checkpoints.

Definition list_poker_mtt_mq_checkpoints (tournament_id : option string) : repo (list dict) :=
  let* items := all_rows _poker_mtt_mq_checkpoints in
  slift (sort_rows (keys_or_empty ["topic"; "consumer_group"; "queue"]) false
           (where_field "tournament_id" tournament_id items)).

Definition save_poker_mtt_mq_conflict : dict -> repo dict := save_row _poker_mtt_mq_conflicts.

Definition list_poker_mtt_mq_conflicts (tournament_id state : option string) : repo (list dict) :=
  let* items := all_rows _poker_mtt_mq_conflicts in
  slift (sort_rows (keys_or_empty ["created_at"; "id"]) false
           (where_field "state" state (where_field "tournament_id" tournament_id items))).

Definition save_poker_mtt_mq_dlq : dict -> repo dict := save_row _poker_mtt_mq_dlq.

Definition list_poker_mtt_mq_dlq (tournament_id state : option string) : repo (list dict) :=
  let* items := all_rows _poker_mtt_mq_dlq in
  slift (sort_rows (keys_or_empty ["created_at"; "id"]) false
           (where_field "state" state (where_field "tournament_id" tournament_id items))).

(** ** Poker MTT: HUD snapshots, hidden evaluation, ratings and multipliers *)

Definition hud_base_fields : list string :=
  ["id"; "tournament_id"; "miner_address"; "source_user_id"; "hud_window"; "hands_seen";
   "metrics_json"; "policy_bundle_version"; "manifest_root"; "created_at"; "updated_at"].

Definition _normalize_poker_mtt_hud_snapshot (row : dict) : res dict :=
  let hud_window := por (dget row "hud_window") (VStr "short_term") in
  let tournament_id := por (dget row "tournament_id") (VStr "") in
  let? miner_address := required row "miner_address" "missing poker mtt hud miner_address" in
  let? snapshot_id := id_or row "poker_mtt_hud" [hud_window; tournament_id; miner_address] in
  let? metrics := as_dict (por (dget row "metrics_json") (VDict [])) in
  let metrics := dupdate metrics (filter (fun kv => mem_key kv.1 hud_base_fields = false) row) in
  let? hands_seen := py_int (por (por (dget row "hands_seen") (dget metrics "hands_seen")) (VInt 0)) in
  Ok [("id", snapshot_id);
      ("tournament_id", tournament_id);
      ("miner_address", miner_address);
      ("source_user_id", dget row "source_user_id");
      ("hud_window", hud_window);
      ("hands_seen", VInt hands_seen);
      ("metrics_json", VDict metrics);
      ("policy_bundle_version", policy_or_default row);
      ("manifest_root", dget row "manifest_root");
      ("created_at", dget row "created_at");
      ("updated_at", dget row "updated_at")].

Definition save_poker_mtt_hud_snapshot (row : dict) : repo dict :=
  let*? snapshot := _normalize_poker_mtt_hud_snapshot row in
  save_row _poker_mtt_hud_snapshots snapshot.

Definition list_poker_mtt_hud_snapshots (tournament_id miner_address hud_window : option string)
  : repo (list dict) :=
  let* items := all_rows _poker_mtt_hud_snapshots in
  let items := where_field "tournament_id" tournament_id items in
  let items := where_field "miner_address" miner_address items in
  let items := where_field "hud_window" hud_window items in
  slift (sort_rows (keys_or_empty ["updated_at"; "id"]) true items).

Definition float_or (row : dict) (k : string) (default : float) : res value :=
  let? x := py_float (por (dget row k) (VFloat default)) in Ok (VFloat x).

Definition _normalize_poker_mtt_hidden_eval_entry (row : dict) : res dict :=
  let? tournament_id := required row "tournament_id" "missing poker mtt hidden eval tournament_id" in
  let? miner_address := required row "miner_address" "missing poker mtt hidden eval miner_address" in
  let? final_ranking_id := required row "final_ranking_id" "missing poker mtt hidden eval final_ranking_id" in
  let? id := id_or row "poker_mtt_hidden_eval" [tournament_id; miner_address; final_ranking_id] in
  let? score := float_or row "hidden_eval_score" fzero in
  Ok [("id", id);
      ("tournament_id", tournament_id);
      ("miner_address", miner_address);
      ("final_ranking_id", final_ranking_id);
      ("seed_assignment_id", dget row "seed_assignment_id");
      ("baseline_sample_id", dget row "baseline_sample_id");
      ("hidden_eval_score", score);
      ("score_components_json", por (dget row "score_components_json") (VDict []));
      ("evidence_root", dget row "evidence_root");
      ("manifest_root", dget row "manifest_root");
      ("policy_bundle_version", policy_or_default row);
      ("visibility_state", por (dget row "visibility_state") (VStr "service_internal"));
      ("created_at", dget row "created_at");
      ("updated_at", dget row "updated_at")].

Definition save_poker_mtt_hidden_eval_entry (row : dict) : repo dict :=
  let*? entry := _normalize_poker_mtt_hidden_eval_entry row in
  save_row _poker_mtt_hidden_eval_entries entry.

Definition list_poker_mtt_hidden_eval_entries_for_tournament (tournament_id : string) : repo (list dict) :=
  let* items := all_rows _poker_mtt_hidden_eval_entries in
  slift (sort_rows (keys_or_empty ["miner_address"; "final_ranking_id"]) false
           (where_field "tournament_id" (Some tournament_id) items)).

Definition _normalize_poker_mtt_rating_snapshot (row : dict) : res dict :=
  let? miner_address := required row "miner_address" "missing poker mtt rating miner_address" in
  let? window_start_at := required row "window_start_at" "missing poker mtt rating window" in
  let? window_end_at := required row "window_end_at" "missing poker mtt rating window" in
  let? id := id_or row "poker_mtt_rating" [miner_address; window_start_at; window_end_at] in
  let? public_rating := float_or row "public_rating" fzero in
  let? confidence := float_or row "confidence" fzero in
  Ok [("id", id);
      ("miner_address", miner_address);
      ("window_start_at", window_start_at);
      ("window_end_at", window_end_at);
      ("public_rating", public_rating);
      ("public_rank", dget row "public_rank");
      ("confidence", confidence);
      ("policy_bundle_version", policy_or_default row);
      ("created_at", dget row "created_at");
      ("updated_at", dget row "updated_at")].

Definition save_poker_mtt_rating_snapshot (row : dict) : repo dict :=
  let*? snapshot := _normalize_poker_mtt_rating_snapshot row in
  save_row _poker_mtt_rating_snapshots snapshot.

Definition list_poker_mtt_rating_snapshots (miner_address : option string) : repo (list dict) :=
  let* items := all_rows _poker_mtt_rating_snapshots in
  slift (sort_rows (keys_or_empty ["window_end_at"; "id"]) true (where_field "miner_address" miner_address items)).

(** The latest rating of each listed miner: a later window replaces an earlier
    one, and the id decides between equal windows. *)
Definition latest_step (miners : list string) (latest : rows) (snapshot : dict) : res rows :=
  let miner := dget snapshot "miner_address" in
  if negb (in_strings miner miners) then Ok latest
  else
    let? m := as_key miner in
    let key := fun row => map (fun k => get_or_empty k row) ["window_end_at"; "id"] in
    match aget m latest with
    | None => Ok (aset m snapshot latest)
    | Some current =>
        let? newer := tuple_lt (key current) (key snapshot) in
        Ok (if newer then aset m snapshot latest else latest)
    end.

Definition latest_ratings (miners : list string) (snapshots : list dict) : res rows :=
  foldR (latest_step miners) snapshots [].

Definition list_latest_poker_mtt_rating_snapshots_for_miners (miner_addresses : list string) : repo (list dict) :=
  let* snapshots := all_rows _poker_mtt_rating_snapshots in
  let*? latest := latest_ratings miner_addresses snapshots in
  slift (sort_rows (keys_or_empty ["miner_address"; "id"]) false (avals latest)).

Definition _normalize_poker_mtt_multiplier_snapshot (row : dict) : res dict :=
  let? miner_address := required row "miner_address" "missing poker mtt multiplier miner_address" in
  let? source_result_id := required row "source_result_id" "missing poker mtt multiplier source_result_id" in
  let? id := id_or row "poker_mtt_multiplier" [source_result_id] in
  let? before := float_or row "multiplier_before" fone in
  let? after := float_or row "multiplier_after" fone in
  Ok [("id", id);
      ("miner_address", miner_address);
      ("source_result_id", source_result_id);
      ("multiplier_before", before);
      ("multiplier_after", after);
      ("rolling_score", dget row "rolling_score");
      ("effective_window_start_at", dget row "effective_window_start_at");
      ("effective_window_end_at", dget row "effective_window_end_at");
      ("policy_bundle_version", policy_or_default row);
      ("created_at", dget row "created_at");
      ("updated_at", dget row "updated_at")].

Definition save_poker_mtt_multiplier_snapshot (row : dict) : repo dict :=
  let*? snapshot := _normalize_poker_mtt_multiplier_snapshot row in
  save_row _poker_mtt_multiplier_snapshots snapshot.

Definition list_poker_mtt_multiplier_snapshots (miner_address source_result_id : option string)
  : repo (list dict) :=
  let* items := all_rows _poker_mtt_multiplier_snapshots in
  let items := where_field "miner_address" miner_address items in
  let items := where_field "source_result_id" source_result_id items in
  slift (sort_rows (keys_or_empty ["updated_at"; "id"]) true items).

(** ** Poker MTT: final rankings and results *)

Definition save_poker_mtt_final_ranking : dict -> repo dict := save_row _poker_mtt_final_rankings.
Definition get_poker_mtt_final_ranking : string -> repo (option dict) := get_row _poker_mtt_final_rankings.

Definition list_poker_mtt_final_rankings_by_ids (final_ranking_ids : list string) : repo (list dict) :=
  let* s := sget in
  let items := map snd (filter (fun kv => mem_key kv.1 final_ranking_ids = true) (tab _poker_mtt_final_rankings s)) in
  slift (sort_rows (keys_or_empty ["id"]) false items).

Definition list_poker_mtt_final_rankings_for_tournament (tournament_id : string) : repo (list dict) :=
  let* items := all_rows _poker_mtt_final_rankings in
  slift (sort_rows (fun item =>
    let rank := dget item "rank" in
    Ok [VBool (is_none rank); if is_none rank then VInt (10 ^ 12) else rank; get_or_empty "id" item])
    false (where_field "tournament_id" (Some tournament_id) items)).

Definition in_window (window_start_at window_end_at : string) (row : dict) : res bool :=
  let created := get_or_empty "created_at" row in
  let? after := py_le (VStr window_start_at) created in
  if after then py_lt created (VStr window_end_at) else Ok false.

Definition list_poker_mtt_final_rankings_for_window (window_start_at window_end_at : string) : repo (list dict) :=
  let* items := all_rows _poker_mtt_final_rankings in
  let*? items := filterR (in_window window_start_at window_end_at) items in
  slift (sort_rows (keys_or_empty ["created_at"; "id"]) false items).

Definition save_poker_mtt_result : dict -> repo dict := save_row _poker_mtt_results.

Definition list_poker_mtt_results : repo (list dict) :=
  let* items := all_rows _poker_mtt_results in
  slift (sort_rows (keys_plain ["updated_at"; "id"]) true items).

Definition list_poker_mtt_results_for_miner : string -> bool -> option Z -> repo (list dict) :=
  results_for_miner _poker_mtt_results.

Definition _utc_iso (v : value) : res string :=
  match v with VTime t => Ok (iso_format t) | _ => py_str v end.

Definition locked_between (lo hi : string) (entry : dict) : res bool :=
  let locked_at := dget entry "locked_at" in
  if negb (truthy locked_at) then Ok false
  else let? t := _utc_iso locked_at in Ok (String.leb lo t && String.ltb t hi).

(** The conditions of the loop that do not depend on the window. *)
Definition evidence_ready (entry : dict) : bool :=
  in_strings (dget entry "evidence_state") REWARD_READY_EVIDENCE_STATES &&
  truthy (dget entry "final_ranking_id") && truthy (dget entry "standing_snapshot_id") &&
  truthy (dget entry "evidence_root").

Definition multiplier_ready (entry : dict) : bool :=
  is_none (dget entry "no_multiplier_reason") && is_true (dget entry "eligible_for_multiplier").

Definition rated_human (entry : dict) : bool :=
  field_is "rated_or_practice" "rated" entry && is_true (dget entry "human_only").

Definition evaluation_included (include_provisional : bool) (entry : dict) : bool :=
  field_is "evaluation_state" "final" entry ||
  (include_provisional && field_is "evaluation_state" "provisional" entry).

Definition result_in_reward_window (window_start window_end : string) (include_provisional : bool)
  (policy_bundle_version : value) (entry : dict) : res bool :=
  let? locked := locked_between window_start window_end entry in
  if negb locked || negb (rated_human entry) || negb (evaluation_included include_provisional entry)
  then Ok false
  else
    let? policy := result_policy_matches_reward_window (dget entry "evaluation_version") policy_bundle_version in
    Ok (policy && evidence_ready entry && field_is "rank_state" "ranked" entry && multiplier_ready entry).

Definition sort_by_lock (items : list dict) : res (list dict) :=
  sort_rows (fun item => let? t := _utc_iso (dget item "locked_at") in Ok [VStr t; get_or_empty "id" item])
    false items.

Definition list_poker_mtt_results_for_reward_window (window_start_at window_end_at : Z)
  (include_provisional : bool) (policy_bundle_version : value) : repo (list dict) :=
  let* items := all_rows _poker_mtt_results in
  let*? items := filterR (result_in_reward_window (iso_format window_start_at) (iso_format window_end_at)
                            include_provisional policy_bundle_version) items in
  slift (sort_by_lock items).

Definition closed_window_candidate (lo hi : string) (versions : list string) (entry : dict) : res bool :=
  let? locked := locked_between lo hi entry in
  Ok (locked && rated_human entry && in_strings (dget entry "evaluation_version") versions &&
      evidence_ready entry && multiplier_ready entry).

Definition list_poker_mtt_closed_reward_window_candidates (locked_after_at locked_before_at : Z)
  (policy_bundle_versions : list string) (limit : Z) : repo (list dict) :=
  let versions := concat (map compatible_result_policy_versions policy_bundle_versions) in
  let* items := all_rows _poker_mtt_results in
  let*? items := filterR (closed_window_candidate (iso_format locked_after_at)
                            (iso_format locked_before_at) versions) items in
  let*? items := sort_by_lock items in
  sret (py_take limit items).

Record reward_window_inputs := {
  results : list dict;
  final_rankings_by_id : rows;
  miners_by_address : rows;
  rating_snapshots_by_miner : rows;
  multiplier_snapshots_by_miner : list (string * list dict)
}.

(** [sorted({row[k] for row in rows if row.get(k)})] *)
Definition field_set (k : string) (items : list dict) : res (list string) :=
  let? ids := mapR (fun row => as_key (dget row k)) (filter (fun row => truthy (dget row k) = true) items) in
  Ok (sort_strings (dedup_keys ids)).

(** [{id: t[id] for id in ids if id in t}] *)
Definition pick_rows (ids : list string) (t : rows) : rows :=
  omap (fun id => option_map (pair id) (aget id t)) ids.

Definition multiplier_step (miners : list string) (window_start window_end : string)
  (acc : list (string * list dict)) (snapshot : dict) : res (list (string * list dict)) :=
  let miner := dget snapshot "miner_address" in
  let effective_start := dget snapshot "effective_window_start_at" in
  let effective_end := dget snapshot "effective_window_end_at" in
  if negb (in_strings miner miners) then Ok acc
  else if negb (truthy effective_start) || negb (truthy effective_end) then Ok acc
  else
    let? too_late := py_le (VStr window_end) effective_start in
    if too_late then Ok acc
    else
      let? too_early := py_le effective_end (VStr window_start) in
      if too_early then Ok acc
      else let? m := as_key miner in Ok (aappend m snapshot acc).

Definition load_poker_mtt_reward_window_inputs (window_start_at window_end_at : Z)
  (include_provisional : bool) (policy_bundle_version : value) : repo reward_window_inputs :=
  let* results := list_poker_mtt_results_for_reward_window window_start_at window_end_at
                    include_provisional policy_bundle_version in
  let*? final_ranking_ids := field_set "final_ranking_id" results in
  let*? miner_addresses := field_set "miner_address" results in
  let* s := sget in
  let*? latest := latest_ratings miner_addresses (avals (tab _poker_mtt_rating_snapshots s)) in
  let*? multipliers := foldR (multiplier_step miner_addresses (iso_format window_start_at)
                                (iso_format window_end_at))
                         (avals (tab _poker_mtt_multiplier_snapshots s)) [] in
  let*? multipliers := mapR (fun kv =>
    let? items := sort_rows (keys_or_empty ["effective_window_start_at"; "updated_at"; "id"]) false kv.2 in
    Ok (kv.1, items)) multipliers in
  sret {| results := results;
          final_rankings_by_id := pick_rows final_ranking_ids (tab _poker_mtt_final_rankings s);
          miners_by_address := pick_rows miner_addresses (tab _miners s);
          rating_snapshots_by_miner := latest;
          multiplier_snapshots_by_miner := multipliers |}.

(** ** Poker MTT: corrections *)

Definition save_poker_mtt_correction : dict -> repo dict := save_row _poker_mtt_corrections.

Definition list_poker_mtt_corrections (target_entity_type target_entity_id : option string) : repo (list dict) :=
  let* items := all_rows _poker_mtt_corrections in
  let items := where_field "target_entity_type" target_entity_type items in
  let items := where_field "target_entity_id" target_entity_id items in
  slift (sort_rows (keys_or_empty ["created_at"; "id"]) false items).
