(* ===== verification/RepositoryFacts.v ===== *)
(** * Properties of the in-memory repository

    Saving and reading a row, the ownership of request ids, the meaning of the
    queries by time, and the selection of the results that a reward window
    pays. *)
From Stdlib Require Import ZArith Lia String Permutation.
From stdpp Require Import base list strings.
From S2P Require Import Prelude PyText PyFloat PyTime PyValue PokerResults Repository.
Open Scope Z_scope.

(** ** Lemmas: tables *)

Lemma tab_set_tab t t' r s : tab t (set_tab t' r s) = if bool_decide (t = t') then r else tab t s.
Proof. unfold tab, set_tab. simpl. rewrite aget_aset. simpl. by case_bool_decide. Qed.

Lemma tab_set_tab_eq t r s : tab t (set_tab t r s) = r.
Proof. rewrite tab_set_tab. by rewrite bool_decide_true. Qed.

Lemma tab_set_tab_ne t t' r s : t <> t' -> tab t (set_tab t' r s) = tab t s.
Proof. intros H. rewrite tab_set_tab. by rewrite bool_decide_false. Qed.

Lemma tab_set_submissions t r s : tab t (set_submissions r s) = tab t s.
Proof. done. Qed.

Lemma set_tab_same t r s : set_tab t r (set_tab t r s) = set_tab t r s.
Proof. unfold set_tab. simpl. by rewrite aset_aset. Qed.

Lemma set_tab_set_tab t r r' s : set_tab t r (set_tab t r' s) = set_tab t r s.
Proof. unfold set_tab. simpl. by rewrite aset_aset. Qed.

Lemma put_row_run t id row s : put_row t id row s = (Ok row, set_tab t (aset id row (tab t s)) s).
Proof. done. Qed.

Definition merged (t : table) (id : string) (row : dict) (s : FakeRepository) : dict :=
  dupdate (default [] (aget id (tab t s))) row.

Lemma save_keyed_run key t row s id :
  aget key row = Some (VStr id) ->
  save_keyed key t row s =
  (Ok (merged t id row s), set_tab t (aset id (merged t id row s) (tab t s)) s).
Proof. intros Hid. unfold save_keyed, sbind, slift, dgetitem. by rewrite Hid. Qed.

Lemma merged_field t id row s k :
  NoDup (akeys row) ->
  aget k (merged t id row s) =
  match aget k row with
  | Some v => Some v
  | None => match aget id (tab t s) with Some old => aget k old | None => None end
  end.
Proof.
  intros Hnd. unfold merged. rewrite aget_dupdate by done.
  destruct (aget k row); [done|]. by destruct (aget id (tab t s)).
Qed.

(** ** Saving and reading *)

(** saving a row merges it into the stored one: the fields given win, the
    others stay; it can be read back; no other row, table or submission
    changes; and saving the same row again changes nothing.  All the [save]
    operations of the repository are instances. *)
Theorem save_row_merges t row s id :
  aget "id" row = Some (VStr id) -> NoDup (akeys row) ->
  exists new s', save_row t row s = (Ok new, s') /\
    (forall k, aget k new = match aget k row with
                            | Some v => Some v
                            | None => match aget id (tab t s) with Some old => aget k old | None => None end
                            end) /\
    get_row t id s' = (Ok (Some new), s') /\
    (forall t' id', t' <> t \/ id' <> id -> get_row t' id' s' = ((get_row t' id' s).1, s')) /\
    _submissions s' = _submissions s /\
    save_row t row s' = (Ok new, s').
Proof.
  intros Hid Hnd. exists (merged t id row s), (set_tab t (aset id (merged t id row s) (tab t s)) s).
  assert (aget "id" (merged t id row s) = Some (VStr id)) as Hne by (rewrite merged_field, Hid; done).
  split_and!.
  - by apply save_keyed_run.
  - intros k. by apply merged_field.
  - unfold get_row, sgets. rewrite tab_set_tab_eq, aget_aset_eq.
    by destruct (merged t id row s) as [|[] ?] eqn:E.
  - intros t' id' Hother. unfold get_row, sgets. simpl. do 2 f_equal. rewrite tab_set_tab.
    case_bool_decide as Ht; [|done]. subst. f_equal. apply aget_aset_ne. naive_solver.
  - done.
  - unfold save_row. rewrite (save_keyed_run _ _ _ _ _ Hid).
    assert (merged t id row (set_tab t (aset id (merged t id row s) (tab t s)) s) = merged t id row s) as ->.
    { unfold merged at 1. rewrite tab_set_tab_eq, aget_aset_eq. simpl. by apply dupdate_idem. }
    by rewrite tab_set_tab_eq, aset_aset, set_tab_same.
Qed.

Lemma save_row_merges_witness :
  let s := set_tab _risk_cases [("r1", [("id", VStr "r1"); ("state", VStr "open")])] empty_repository in
  exists new s', save_row _risk_cases [("id", VStr "r1"); ("decision", VStr "clear")] s = (Ok new, s') /\
    aget "state" new = Some (VStr "open") /\ aget "decision" new = Some (VStr "clear").
Proof.
  intros s.
  destruct (save_row_merges _risk_cases [("id", VStr "r1"); ("decision", VStr "clear")] s "r1" eq_refl
              ltac:(nodup_keys)) as (new & s' & Hsave & Hnew & _).
  exists new, s'. split; [exact Hsave|]. split; rewrite Hnew; reflexivity.
Defined.

(** ** Request ids *)

(** The submission carries the request id under one of the fields [ks]. *)
Definition carries_in (ks : list string) (row : dict) (rid : string) : bool :=
  negb (String.eqb rid "") && existsb (fun k => py_eq_str (dget row k) rid) ks.
Definition carries : dict -> string -> bool := carries_in request_id_keys.

(** What [save_submission] maintains: a row stands under its own key, its
    request ids are strings, and the index leads from each of them to a row of
    the same key. *)
Record requests_ok (s : FakeRepository) : Prop := {
  stored_key : forall key row, aget key (_submissions s) = Some row -> submission_key row = Ok key;
  stored_strings : forall key row k, aget key (_submissions s) = Some row -> In k request_id_keys ->
    match dget row k with VNone | VStr _ => True | _ => False end;
  stored_indexed : forall key row rid, aget key (_submissions s) = Some row -> carries row rid = true ->
    exists row', aget rid (tab _request_index s) = Some row' /\ submission_key row' = Ok key
}.

(** A submission as the service builds it: a dictionary whose request ids are
    strings or [None]. *)
Definition submission_wf (row : dict) : bool :=
  bool_decide (NoDup (akeys row)) &&
  forallb (fun k => match dget row k with VNone | VStr _ => true | _ => false end) request_id_keys.

Lemma py_eq_str_spec v s : py_eq_str v s = true <-> v = VStr s.
Proof. destruct v; simpl; rewrite ?String.eqb_eq; naive_solver. Qed.

Lemma carries_in_spec ks row rid :
  carries_in ks row rid = true <-> rid <> "" /\ exists k, In k ks /\ dget row k = VStr rid.
Proof.
  unfold carries_in. rewrite andb_true_iff, negb_true_iff, String.eqb_neq, existsb_exists.
  setoid_rewrite py_eq_str_spec. done.
Qed.

Lemma foreign_request_none index key sub ks :
  foreign_request index key sub ks = Ok None ->
  forall rid, carries_in ks sub rid = true -> forall row, aget rid index = Some row ->
    row = [] \/ submission_key row = Ok key.
Proof.
  induction ks as [|k ks IH]; cbn [foreign_request]; intros H rid Hc row Hrow.
  { apply carries_in_spec in Hc as (_ & ? & [] & _). }
  apply carries_in_spec in Hc as (Hne & k' & [<-|Hk'] & Hv).
  - rewrite Hv in H. cbn [truthy] in H. destruct (String.eqb_spec rid ""); [done|].
    cbn [negb as_key rbind] in H.
    rewrite Hrow in H. destruct row as [|kv row]; [by left|]. right. cbn [non_empty] in H.
    apply rbind_ok in H as (key' & Hkey' & H). destruct (keqb key' key) eqn:E; [|done].
    by apply keqb_spec in E as ->.
  - apply (IH) with rid; [|apply carries_in_spec; eauto|done].
    destruct (truthy (dget sub k)); [|done]. apply rbind_ok in H as (rid' & _ & H).
    destruct (non_empty (aget rid' index)); [|done]. apply rbind_ok in H as (key' & _ & H).
    by destruct (keqb key' key).
Qed.

(** Indexing a row under its request ids. *)
Lemma index_requests current ks s :
  (forall k, In k ks -> match dget current k with VNone | VStr _ => True | _ => False end) ->
  exists s', forS (index_request current) ks s = (Ok tt, s') /\ _submissions s' = _submissions s /\
    forall rid, aget rid (tab _request_index s') =
                if carries_in ks current rid then Some current else aget rid (tab _request_index s).
Proof.
  revert s. induction ks as [|k ks IH]; intros s Hstr.
  { exists s. split_and!; [done..|]. intros rid. unfold carries_in. simpl. by rewrite andb_false_r. }
  specialize (Hstr k (or_introl eq_refl)) as Hk.
  assert (forall s1, index_request current k s = (Ok tt, s1) -> _submissions s1 = _submissions s ->
    (forall rid, aget rid (tab _request_index s1) =
       if carries_in [k] current rid then Some current else aget rid (tab _request_index s)) ->
    exists s', forS (index_request current) (k :: ks) s = (Ok tt, s') /\ _submissions s' = _submissions s /\
      forall rid, aget rid (tab _request_index s') =
                  if carries_in (k :: ks) current rid then Some current else aget rid (tab _request_index s)) as Hgo.
  { intros s1 Hrun Hsub Hidx. destruct (IH s1) as (s' & Hrun' & Hsub' & Hidx').
    { intros k' Hk'. apply Hstr. by right. }
    exists s'. cbn [forS]. unfold sbind. rewrite Hrun. split_and!; [done|congruence|].
    intros rid. rewrite Hidx', Hidx. unfold carries_in. simpl.
    destruct (negb (String.eqb rid "")); simpl; [|done].
    rewrite orb_false_r. destruct (py_eq_str (dget current k) rid); simpl; [|done].
    by destruct (existsb _ ks). }
  unfold index_request in Hgo. destruct (dget current k) as [| | | |rid| | |] eqn:Hv; try done.
  - apply (Hgo s); [done..|]. intros r. unfold carries_in. simpl. rewrite Hv. simpl.
    by rewrite andb_false_r.
  - simpl in Hgo. destruct (String.eqb_spec rid "") as [->|Hne]; simpl in Hgo.
    + apply (Hgo s); [done..|]. intros r. unfold carries_in. simpl. rewrite Hv. simpl.
      destruct (String.eqb_spec r "") as [->|Hr]; [done|].
      by destruct r.
    + eapply Hgo; [done|done|]. intros r. rewrite tab_set_tab_eq, aget_aset. simpl.
      unfold carries_in. simpl. rewrite Hv. simpl. rewrite orb_false_r, (String.eqb_sym rid r).
      destruct (String.eqb_spec r rid) as [->|]; [by destruct (String.eqb_spec rid "")|].
      by rewrite andb_false_r.
Qed.

Lemma submission_key_fields row key :
  submission_key row = Ok key <->
  aget "task_run_id" row = Some (VStr key.1) /\ aget "miner_address" row = Some (VStr key.2).
Proof.
  unfold submission_key, dgetitem. destruct key as [t m]. simpl.
  destruct (aget "task_run_id" row) as [v|]; [|naive_solver].
  destruct (aget "miner_address" row) as [w|]; [|naive_solver]. simpl.
  destruct v; simpl; try naive_solver. destruct w; simpl; naive_solver.
Qed.

Lemma merged_submission_key old sub key :
  NoDup (akeys sub) -> submission_key sub = Ok key -> submission_key (dupdate old sub) = Ok key.
Proof.
  intros Hnd. rewrite !submission_key_fields, !aget_dupdate by done. by intros [-> ->].
Qed.

Lemma submission_key_update sub u key :
  NoDup (akeys u) -> aget "task_run_id" u = None -> aget "miner_address" u = None ->
  submission_key sub = Ok key -> submission_key (dupdate sub u) = Ok key.
Proof. intros Hnd Ht Hm. rewrite !submission_key_fields, !aget_dupdate by done. by rewrite Ht, Hm. Qed.

Lemma dget_dupdate d u k :
  NoDup (akeys u) -> dget (dupdate d u) k = match aget k u with Some v => v | None => dget d k end.
Proof. intros Hnd. unfold dget, dget_or. rewrite aget_dupdate by done. by destruct (aget k u). Qed.

Lemma dget_aget row k v : aget k row = Some v -> dget row k = v.
Proof. apply dget_some. Qed.

(** The three outcomes of [save_submission]. *)
Inductive saved (s : FakeRepository) (sub : dict) : res dict -> FakeRepository -> Prop :=
| saved_error e : saved s sub (Err e) s
| saved_foreign key existing :
    submission_key sub = Ok key ->
    foreign_request (tab _request_index s) key sub request_id_keys = Ok (Some existing) ->
    saved s sub (Ok existing) s
| saved_merged key s' :
    submission_key sub = Ok key ->
    let current := dupdate (default [] (aget key (_submissions s))) sub in
    _submissions s' = aset key current (_submissions s) ->
    (forall rid, carries sub rid = true -> forall row, aget rid (tab _request_index s) = Some row ->
       row = [] \/ submission_key row = Ok key) ->
    (forall rid, aget rid (tab _request_index s') =
       if carries current rid then Some current else aget rid (tab _request_index s)) ->
    saved s sub (Ok current) s'.

Lemma merged_strings s sub key :
  requests_ok s -> submission_wf sub = true ->
  forall k, In k request_id_keys ->
    match dget (dupdate (default [] (aget key (_submissions s))) sub) k with VNone | VStr _ => True | _ => False end.
Proof.
  intros Hok Hwf k Hk. unfold submission_wf in Hwf. apply andb_true_iff in Hwf as [Hnd Hstr].
  rewrite bool_decide_eq_true in Hnd. rewrite forallb_forall in Hstr. specialize (Hstr k Hk).
  rewrite dget_dupdate by done. destruct (aget k sub) as [v|] eqn:Hv.
  - rewrite (dget_some _ _ _ Hv) in Hstr. by destruct v.
  - destruct (aget key (_submissions s)) as [old|] eqn:Hold; [|done].
    by apply (stored_strings s Hok key old k).
Qed.

(** Saving where no other submission used a request id merges the row. *)
Lemma save_submission_merges s sub key :
  requests_ok s -> submission_wf sub = true -> submission_key sub = Ok key ->
  foreign_request (tab _request_index s) key sub request_id_keys = Ok None ->
  let current := dupdate (default [] (aget key (_submissions s))) sub in
  exists s', save_submission sub s = (Ok current, s') /\
    _submissions s' = aset key current (_submissions s) /\
    forall rid, aget rid (tab _request_index s') =
                if carries current rid then Some current else aget rid (tab _request_index s).
Proof.
  intros Hok Hwf Hkey Hf current. unfold save_submission. rewrite Hkey.
  rewrite (sbind_run _ _ s key s) by done. rewrite (sbind_run _ _ s s s) by done.
  rewrite Hf. rewrite (sbind_run _ _ s None s) by done.
  pose proof (merged_strings s sub key Hok Hwf) as Hstr. fold current in Hstr |- *.
  destruct (index_requests current request_id_keys (set_submissions (aset key current (_submissions s)) s) Hstr)
    as (s' & Hrun & Hsub & Hidx).
  exists s'. cbv iota beta. rewrite (sbind_run _ _ s tt _) by done. rewrite (sbind_run _ _ _ tt s') by exact Hrun.
  done.
Qed.

Lemma save_submission_saved s sub :
  requests_ok s -> submission_wf sub = true ->
  saved s sub (save_submission sub s).1 (save_submission sub s).2.
Proof.
  intros Hok Hwf.
  destruct (submission_key sub) as [key|e] eqn:Hkey;
    [|unfold save_submission; rewrite Hkey; constructor].
  destruct (foreign_request (tab _request_index s) key sub request_id_keys) as [[existing|]|e] eqn:Hf.
  - unfold save_submission. rewrite Hkey, (sbind_run _ _ s key s) by done.
    rewrite (sbind_run _ _ s s s), Hf by done. by econstructor.
  - destruct (save_submission_merges s sub key Hok Hwf Hkey Hf) as (s' & -> & Hsub & Hidx).
    apply saved_merged with (key := key); [done|done| |done]. by apply foreign_request_none.
  - unfold save_submission. rewrite Hkey, (sbind_run _ _ s key s) by done.
    rewrite (sbind_run _ _ s s s), Hf by done. constructor.
Qed.

(** No other submission owns the request ids. *)
Lemma foreign_request_fresh index key sub ks :
  (forall k, In k ks -> match dget sub k with VNone | VStr _ => True | _ => False end) ->
  (forall rid row, carries_in ks sub rid = true -> aget rid index = Some row -> submission_key row = Ok key) ->
  foreign_request index key sub ks = Ok None.
Proof.
  induction ks as [|k ks IH]; intros Hstr Hown; cbn [foreign_request]; [done|].
  assert (Hrest : foreign_request index key sub ks = Ok None).
  { apply IH; [intros; apply Hstr; by right|]. intros rid row Hc. apply Hown. apply carries_in_spec in Hc as (Hne & k' & Hk' & Hv).
    apply carries_in_spec. split; [done|]. exists k'. split; [by right|done]. }
  specialize (Hstr k (or_introl eq_refl)).
  destruct (dget sub k) as [| | | |rid| | |] eqn:Hv; try done. cbn [truthy as_key rbind].
  destruct (String.eqb_spec rid ""); [done|]. cbn [negb].
  destruct (aget rid index) as [[|kv row]|] eqn:Hr; [done| |done]. cbn [non_empty].
  rewrite (Hown rid (kv :: row)); [|apply carries_in_spec; split; [done|exists k; split; [by left|done]]|done].
  cbn [rbind]. by rewrite keqb_refl.
Qed.

Lemma carries_merged s sub key rid :
  NoDup (akeys sub) -> carries (dupdate (default [] (aget key (_submissions s))) sub) rid = true ->
  carries sub rid = true \/
  exists old, aget key (_submissions s) = Some old /\ carries old rid = true.
Proof.
  intros Hnd. unfold carries. rewrite !carries_in_spec. intros (Hne & k & Hk & Hv).
  rewrite dget_dupdate in Hv by done. destruct (aget k sub) as [v|] eqn:E.
  - left. split; [done|]. exists k. split; [done|]. by rewrite (dget_some _ _ _ E).
  - right. destruct (aget key (_submissions s)) as [old|]; [|done]. exists old.
    split; [done|]. apply carries_in_spec. eauto.
Qed.

Lemma save_submission_ok s sub :
  requests_ok s -> submission_wf sub = true -> requests_ok (save_submission sub s).2.
Proof.
  intros Hok Hwf. pose proof (save_submission_saved s sub Hok Hwf) as Hs.
  pose proof (fun key => merged_strings s sub key Hok Hwf) as Hstr.
  unfold submission_wf in Hwf. apply andb_true_iff in Hwf as [Hnd _]. rewrite bool_decide_eq_true in Hnd.
  destruct Hs as [e|key existing Hkey Hf|key s' Hkey current Hsub Hforeign Hidx]; [done..|].
  assert (submission_key current = Ok key) as Hck by (by apply merged_submission_key).
  split.
  - intros key' row. rewrite Hsub, aget_aset. destruct (keqb key' key) eqn:E; [|apply Hok].
    apply keqb_spec in E as ->. by intros [= <-].
  - intros key' row k. rewrite Hsub, aget_aset. destruct (keqb key' key) eqn:E; [|apply Hok].
    intros [= <-]. apply Hstr.
  - intros key' row rid. rewrite Hsub, aget_aset, Hidx. destruct (keqb key' key) eqn:E.
    + apply keqb_spec in E as ->. intros [= <-] ->. eauto.
    + apply keqb_neq in E. intros Hrow Hcar.
      destruct (stored_indexed s Hok _ _ _ Hrow Hcar) as (row' & Hrow' & Hkey').
      destruct (carries current rid) eqn:Hcur; [exfalso|eauto]. apply E.
      destruct (carries_merged _ _ _ _ Hnd Hcur) as [Hcs|(old & Hold & Hco)].
      * destruct (Hforeign rid Hcs _ Hrow') as [->|Hk]; [by destruct key'|]. congruence.
      * destruct (stored_indexed s Hok _ _ _ Hold Hco) as (row2 & Hrow2 & Hkey2). congruence.
Qed.

Definition save_all (subs : list dict) (s : FakeRepository) : FakeRepository :=
  fold_left (fun s sub => (save_submission sub s).2) subs s.

Lemma save_all_ok subs s :
  requests_ok s -> forallb submission_wf subs = true -> requests_ok (save_all subs s).
Proof.
  unfold save_all. revert s. induction subs as [|sub subs IH]; intros s Hok Hwf; simpl in *; [done|].
  apply andb_true_iff in Hwf as [H1 H2]. apply IH; [|done]. by apply save_submission_ok.
Qed.

Lemma requests_ok_empty s : _submissions s = [] -> requests_ok s.
Proof. intros E. by split; intros *; rewrite E. Qed.

(** C38: a request id belongs to one submission: after any sequence of saves, two
    stored submissions that carry the same commit or reveal request id are the
    submission of the same miner to the same task. *)
Theorem request_id_unique subs key1 key2 row1 row2 rid :
  forallb submission_wf subs = true ->
  let s := save_all subs empty_repository in
  aget key1 (_submissions s) = Some row1 -> aget key2 (_submissions s) = Some row2 ->
  carries row1 rid = true -> carries row2 rid = true -> key1 = key2.
Proof.
  intros Hwf s H1 H2 C1 C2.
  assert (requests_ok s) as Hok by (apply save_all_ok; [by apply requests_ok_empty|done]).
  destruct (stored_indexed s Hok _ _ _ H1 C1) as (r1 & R1 & K1).
  destruct (stored_indexed s Hok _ _ _ H2 C2) as (r2 & R2 & K2). congruence.
Qed.

Definition sample_submission (task miner rid : string) : dict :=
  [("task_run_id", VStr task); ("miner_address", VStr miner); ("commit_request_id", VStr rid)].

Lemma request_id_unique_witness :
  let subs := [sample_submission "t1" "m1" "r1"; sample_submission "t1" "m2" "r1";
               sample_submission "t2" "m1" "r2"] in
  exists row, aget ("t1", "m1") (_submissions (save_all subs empty_repository)) = Some row /\
    (forall key2 row2, aget key2 (_submissions (save_all subs empty_repository)) = Some row2 ->
       carries row2 "r1" = true -> ("t1", "m1") = key2).
Proof.
  intros subs. eexists. split; [vm_compute; reflexivity|]. intros key2 row2 H2 C2.
  eapply (request_id_unique subs ("t1", "m1") key2 _ row2 "r1");
    [vm_compute; reflexivity|vm_compute; reflexivity|exact H2|vm_compute; reflexivity|exact C2].
Defined.

(** A request id that another submission used makes [save_submission] return
    that submission and store nothing. *)
Lemma save_submission_foreign :
  let s := save_all [sample_submission "t1" "m1" "r1"] empty_repository in
  save_submission (sample_submission "t2" "m2" "r1") s = (Ok (sample_submission "t1" "m1" "r1"), s).
Proof. vm_compute. reflexivity. Qed.

(** ** Queries by time *)

Lemma filterR_pure {A} (f : A -> res bool) (g : A -> bool) l :
  (forall x, In x l -> f x = Ok (g x)) -> filterR f l = Ok (filter (fun x => g x = true) l).
Proof.
  induction l as [|x l IH]; simpl; intros H; [done|]. rewrite H, IH by auto. simpl. f_equal.
  unfold filter. simpl. by destruct (g x).
Qed.

(** The field holds a time as the service prints it. *)
Definition timed (k : string) (row : dict) : Prop :=
  exists t, in_range t /\ aget k row = Some (VStr (iso_format t)).

(** The time in the field is not after [now], to the second. *)
Definition not_after (k : string) (now : Z) (row : dict) : bool :=
  match as_utc_datetime (dget row k) with
  | Ok t => seconds_of t <=? seconds_of now
  | Err _ => false
  end.

Lemma seconds_of_drop t : seconds_of (drop_microseconds t) = seconds_of t.
Proof. unfold drop_microseconds, seconds_of, usec. rewrite (Z.mul_comm 1000000). by apply Z.div_mul. Qed.

Lemma not_after_le k now row v :
  in_range now -> timed k row -> aget k row = Some v -> py_le v (VStr (iso_format now)) = Ok (not_after k now row).
Proof.
  intros Hnow (t & Ht & Hk) Hv. rewrite Hk in Hv. injection Hv as <-. unfold not_after.
  rewrite (dget_some _ _ _ Hk). simpl. rewrite parse_iso_format, seconds_of_drop by done.
  by rewrite iso_format_leb.
Qed.

Definition due_fast_task (now : Z) (task : dict) : bool :=
  field_is "lane" "forecast_15m" task && negb (in_strings (dget task "state") ["settled"; "resolved"]) &&
  not_after "resolve_at" now task.

Definition due_hold (now : Z) (entry : dict) : bool :=
  field_is "state" "held" entry && not_after "release_after" now entry.

Lemma is_due_fast_task_time now task :
  in_range now -> dhas task "lane" = true -> timed "resolve_at" task ->
  is_due_fast_task (iso_format now) task = Ok (due_fast_task now task).
Proof.
  intros Hnow Hlane Ht. unfold is_due_fast_task, due_fast_task, field_is, dhas, ahas, dgetitem in *.
  destruct (aget "lane" task) as [lane|] eqn:El; [|done]. rewrite (dget_some _ _ _ El). simpl.
  destruct (py_eq_str lane "forecast_15m"); simpl; [|done].
  destruct (in_strings _ _); simpl; [done|].
  destruct (aget "resolve_at" task) as [v|] eqn:Ev; simpl; [by apply not_after_le|].
  destruct Ht as (t & _ & Ht). congruence.
Qed.

Lemma is_due_hold_time now entry :
  in_range now -> timed "release_after" entry ->
  is_due_hold (iso_format now) entry = Ok (due_hold now entry).
Proof.
  intros Hnow Ht. unfold is_due_hold, due_hold, dgetitem.
  destruct (field_is "state" "held" entry); simpl; [|done].
  destruct (aget "release_after" entry) as [v|] eqn:Ev; simpl; [by apply not_after_le|].
  destruct Ht as (t & _ & Ht). congruence.
Qed.

(** The queries for due work compare times, although they compare texts:
    with the times printed as the service prints them, the due fast tasks are
    the unsettled ones that resolve at or before now, and the due holds the
    held ones released at or before now. *)
Theorem due_queries_compare_times s now :
  in_range now ->
  (forall task, In task (avals (tab _tasks s)) -> dhas task "lane" = true /\ timed "resolve_at" task) ->
  (forall entry, In entry (avals (tab _hold_entries s)) -> timed "release_after" entry) ->
  list_due_unsettled_fast_tasks (iso_format now) s =
    (Ok (filter (fun t => due_fast_task now t = true) (avals (tab _tasks s))), s) /\
  list_due_hold_entries (iso_format now) s =
    (Ok (filter (fun e => due_hold now e = true) (avals (tab _hold_entries s))), s).
Proof.
  intros Hnow Htasks Hholds. split.
  - unfold list_due_unsettled_fast_tasks, all_rows, sbind, sgets, slift.
    rewrite (filterR_pure _ (due_fast_task now)); [done|].
    intros task Hin. destruct (Htasks task Hin). by apply is_due_fast_task_time.
  - unfold list_due_hold_entries, all_rows, sbind, sgets, slift.
    rewrite (filterR_pure _ (due_hold now)); [done|].
    intros entry Hin. by apply is_due_hold_time, Hholds.
Qed.

Definition sample_task (id : string) (resolve_at : Z) : dict :=
  [("task_run_id", VStr id); ("lane", VStr "forecast_15m"); ("state", VStr "published");
   ("resolve_at", VStr (iso_format resolve_at))].

Lemma due_queries_compare_times_witness :
  let s := set_tab _tasks [("a", sample_task "a" 5000000); ("b", sample_task "b" 9000000)] empty_repository in
  (list_due_unsettled_fast_tasks (iso_format 7000000) s).1 = Ok [sample_task "a" 5000000].
Proof.
  intros s. destruct (due_queries_compare_times s 7000000) as [E _].
  - split; vm_compute; done.
  - intros task [<-|[<-|[]]]; (split; [reflexivity|]); eexists; (split; [|reflexivity]);
      split; vm_compute; done.
  - intros entry [].
  - rewrite E. vm_compute. reflexivity.
Defined.

(** ** The results a reward window pays *)

Lemma locked_between_times lo hi entry t :
  in_range lo -> in_range hi -> in_range t -> dget entry "locked_at" = VStr (iso_format t) ->
  truthy (VStr (iso_format t)) = true ->
  locked_between (iso_format lo) (iso_format hi) entry =
  Ok ((seconds_of lo <=? seconds_of t) && (seconds_of t <? seconds_of hi)).
Proof.
  intros Hlo Hhi Ht Hl Htr. unfold locked_between. rewrite Hl, Htr. simpl.
  by rewrite iso_format_leb, iso_format_ltb.
Qed.

Lemma iso_format_truthy t : truthy (VStr (iso_format t)) = true.
Proof. done. Qed.

(** A ranking row is paid in a reward window exactly when its projection is
    eligible, it was locked inside the window, and its policy is the window's
    or compatible with it. *)
Theorem reward_window_pays_eligible row rated human field_size policy locked_at r ws we provisional wpolicy :
  1 <= field_size -> in_range locked_at -> in_range ws -> in_range we ->
  project_final_ranking_row row rated human field_size policy locked_at = Ok r ->
  wpolicy <> "" ->
  exists matches,
    result_policy_matches_reward_window policy (VStr wpolicy) = Ok matches /\
    result_in_reward_window (iso_format ws) (iso_format we) provisional (VStr wpolicy) r =
    Ok (is_true (dget r "eligible_for_multiplier") &&
        (seconds_of ws <=? seconds_of locked_at) && (seconds_of locked_at <? seconds_of we) && matches).
Proof.
  intros Hn Hl Hws Hwe Hr Hw.
  destruct (project_gate _ _ _ _ _ _ _ Hn Hr) as (Hgate & _ & Hfields).
  destruct (project_copied _ _ _ _ _ _ _ Hr)
    as (Er & Eh & Ee & Ev & (es & Hes & Es) & Ef & Ess & Eroot & Erank & (b & Eb)).
  assert (exists matches, result_policy_matches_reward_window policy (VStr wpolicy) = Ok matches) as (m & Hm).
  { unfold result_policy_matches_reward_window. destruct (negb _ || _); [by eexists|]. by eexists. }
  exists m. split; [done|]. rewrite Eb in *. simpl is_true in *. unfold result_in_reward_window.
  destruct b.
  - destruct (proj1 Hgate eq_refl) as (-> & -> & _ & Hrank & _ & Hev & Hid & Hsid & Hroot).
    destruct Hfields as (El & _ & Enr & _). rewrite Hes in Hev. injection Hev as ->.
    rewrite (locked_between_times _ _ _ locked_at) by done. cbn [rbind].
    destruct (_ && _) eqn:Hin; simpl.
    + unfold rated_human, evaluation_included, field_is. rewrite Er, Eh, Ee, Ev, Hm. simpl.
      unfold evidence_ready, multiplier_ready, field_is. rewrite Es, Ef, Ess, Eroot, Erank, Hrank, Hid, Hsid, Hroot, Enr, Eb.
      simpl. by rewrite !andb_true_r.
    + done.
  - destruct Hfields as (El & _). unfold locked_between. by rewrite El.
Qed.

Lemma reward_window_pays_eligible_witness :
  exists r, project_final_ranking_row sample_ranking_row "rated" (VBool true) 5 (VStr "poker_mtt_v1") 5000000 = Ok r /\
  exists matches,
    result_policy_matches_reward_window (VStr "poker_mtt_v1") (VStr "poker_mtt_daily_policy_v2") = Ok matches /\
    result_in_reward_window (iso_format 0) (iso_format 9000000) false (VStr "poker_mtt_daily_policy_v2") r =
    Ok (is_true (dget r "eligible_for_multiplier") && (0 <=? 5) && (5 <? 9) && matches).
Proof.
  eexists. split; [vm_compute; reflexivity|].
  apply (reward_window_pays_eligible sample_ranking_row "rated" (VBool true) 5 (VStr "poker_mtt_v1") 5000000
           _ 0 9000000 false "poker_mtt_daily_policy_v2"); try done; try (split; vm_compute; done).
Defined.

(** whatever a reward window pays, the scan for closed windows finds: a
    result selected for a window between the bounds of the scan, under one of
    its policies, is among its candidates. *)
Theorem paid_results_are_candidates lo hi ws we provisional policies policy entry :
  In policy policies -> String.leb lo ws = true -> String.leb we hi = true ->
  result_in_reward_window ws we provisional (VStr policy) entry = Ok true ->
  closed_window_candidate lo hi (concat (map compatible_result_policy_versions policies)) entry = Ok true.
Proof.
  intros Hp Hlo Hhi H. unfold result_in_reward_window in H. apply rbind_ok in H as (locked & Hl & H).
  destruct locked; [|done]. destruct (rated_human entry) eqn:Erh; [|done].
  destruct (evaluation_included provisional entry); [|done]. cbn [negb orb] in H.
  apply rbind_ok in H as (m & Hm & [= H]). rewrite !andb_true_iff in H. destruct H as (((-> & He) & _) & Hmult).
  unfold closed_window_candidate.
  assert (locked_between lo hi entry = Ok true) as ->.
  { unfold locked_between in *. destruct (negb _); [done|]. apply rbind_ok in Hl as (t & -> & [= Hl]).
    apply andb_true_iff in Hl as [H1 H2]. simpl. f_equal. apply andb_true_iff.
    by split; [eapply string_leb_trans|eapply string_ltb_leb_trans]. }
  simpl. rewrite Erh, He, Hmult. simpl. rewrite !andb_true_r. f_equal.
  unfold result_policy_matches_reward_window in Hm. destruct (negb _ || _); [done|]. simpl in Hm.
  injection Hm as Hm. unfold in_strings in *. destruct (dget entry "evaluation_version"); try done.
  change (mem_key s (compatible_result_policy_versions policy) = true) in Hm.
  change (mem_key s (concat (map compatible_result_policy_versions policies)) = true).
  rewrite mem_key_In in *. apply in_concat. exists (compatible_result_policy_versions policy).
  split; [|done]. by apply in_map.
Qed.

Lemma paid_results_are_candidates_witness :
  exists r, project_final_ranking_row sample_ranking_row "rated" (VBool true) 5 (VStr "poker_mtt_v1") 5000000 = Ok r /\
    closed_window_candidate (iso_format 0) (iso_format 9000000)
      (concat (map compatible_result_policy_versions ["poker_mtt_daily_policy_v2"])) r = Ok true.
Proof.
  eexists. split; [vm_compute; reflexivity|].
  apply (paid_results_are_candidates _ _ (iso_format 0) (iso_format 9000000) false _ "poker_mtt_daily_policy_v2");
    try (vm_compute; reflexivity). by left.
Defined.
