(* ===== verification/HandStores.v ===== *)
(** * Two stores of hand history, one protocol ([poker_mtt_history.py])

    [HandHistoryHotStore] is a protocol with two implementations: the in-memory
    hot store and the store over the repository.  Here the protocol is a class
    that says what [ingest] decides and what it remembers; both stores are
    instances, and two stores that start alike classify every sequence of
    events alike. *)
From Stdlib Require Import ZArith Lia String.
From stdpp Require Import base list strings.
From S2P Require Import Prelude PyText PyFloat PyTime PyValue Sha256 Canonical PokerResults.
From S2P Require Import HandHistory Repository RepositoryFacts.
Open Scope Z_scope.

(** ** [RepositoryHandHistoryStore] *)

Definition repository_ingest (event : dict) : repo HandHistoryIngestResult :=
  let*? _ := _validate_hand_completed_event event in
  let* row := save_poker_mtt_hand_event event in
  let*? state := dgetitem row "state" in
  let*? state := as_str state in
  sret {| state := state;
          event := Some row;
          previous_event := match dget row "previous_event" with VDict d => Some d | _ => None end;
          reason := match dget row "conflict_reason" with VStr r => Some r | _ => None end |}.

Definition repository_get : string -> repo (option dict) := get_poker_mtt_hand_event.

Definition repository_list_for_tournament : string -> repo (list dict) :=
  list_poker_mtt_hand_events_for_tournament.

(** ** The protocol *)

(** What a store remembers of a hand. *)
Record remembered := { version : value; checksum : value }.

(** The state of the answer, and whether the event is remembered. *)
Definition classify (stored : option remembered) (v c : value) : res (string * bool) :=
  match stored with
  | None => if is_none v then Ok ("conflict", false) else Ok ("inserted", true)
  | Some m =>
      let same := py_eq c (checksum m) in
      if is_none v then Ok (if same then "duplicate" else "conflict", false)
      else
        let? older := if is_none (version m) then Ok false else py_lt v (version m) in
        Ok (if older then ("stale", false)
            else if py_eq (version m) v then (if same then "duplicate" else "conflict", false)
            else ("updated", true))
  end.

(** A hand-completed event of hand [h], which has a name. *)
Definition hand_event (h : string) (e : dict) : Prop :=
  _validate_hand_completed_event e = Ok tt /\ event_hand_id e = Ok h /\ h <> "".

(** What every store does with such an event. *)
Definition follows {S} (op : dict -> st S HandHistoryIngestResult)
  (view : S -> string -> option remembered) : Prop :=
  forall e h s, hand_event h e ->
    match classify (view s h) (dget e "version") (dget e "checksum") with
    | Err x => op e s = (Err x, s)
    | Ok (answer, remember) =>
        exists r s', op e s = (Ok r, s') /\ state r = answer /\
          forall h', view s' h' =
            if remember && String.eqb h' h
            then Some {| version := dget e "version"; checksum := dget e "checksum" |}
            else view s h'
    end.

Class HandHistoryHotStore (S : Type) := {
  store_ingest : dict -> st S HandHistoryIngestResult;
  store_view : S -> string -> option remembered;
  store_follows : follows store_ingest store_view
}.

Section Client.
Context {S T : Type} `{HandHistoryHotStore S} `{HandHistoryHotStore T}.

(** The answers to a sequence of events. *)
Fixpoint answers {U} `{HandHistoryHotStore U} (evs : list dict) (s : U) : list (res string) :=
  match evs with
  | [] => []
  | e :: evs => let '(r, s') := store_ingest e s in
                (let? r := r in Ok (state r)) :: answers evs s'
  end.

Lemma answers_agree evs (s : S) (t : T) :
  Forall (fun e => exists h, hand_event h e) evs ->
  (forall h, store_view s h = store_view t h) -> answers evs s = answers evs t.
Proof.
  intros Hevs. revert s t. induction Hevs as [|e evs (h & He) _ IH]; intros s t Hv; simpl; [done|].
  pose proof (store_follows e h s He) as Fs. pose proof (store_follows e h t He) as Ft.
  rewrite <- Hv in Ft. destruct (classify _ _ _) as [[answer remember]|x].
  - destruct Fs as (r & s' & Rs & Es & Vs). destruct Ft as (r' & t' & Rt & Et & Vt).
    rewrite Rs, Rt. simpl. rewrite Es, Et. f_equal. apply IH. intros h'. rewrite Vs, Vt.
    by destruct (remember && _).
  - rewrite Fs, Ft. simpl. f_equal. by apply IH.
Qed.
End Client.

(** ** The in-memory store *)

Definition remember_event (e : dict) : remembered :=
  {| version := dget e "version"; checksum := dget e "checksum" |}.

Definition hot_view (s : store) (h : string) : option remembered :=
  option_map remember_event (aget h s).

Lemma hand_event_checksum h e : hand_event h e -> aget "checksum" e = Some (dget e "checksum").
Proof.
  intros (Hv & _). destruct (validated_checksum e Hv) as (c & Hc). by rewrite (dget_some _ _ _ Hc).
Qed.

Lemma hot_view_aset h e s h' :
  hot_view (aset h e s) h' = if String.eqb h' h then Some (remember_event e) else hot_view s h'.
Proof. unfold hot_view. rewrite aget_aset. simpl. by destruct (String.eqb h' h). Qed.

Lemma ingest_follows : follows HandHistory.ingest hot_view.
Proof.
  intros e h s He. pose proof (hand_event_checksum h e He) as Hc. destruct He as (Hval & Hid & _).
  unfold HandHistory.ingest, sbind, slift, sget. rewrite Hval, Hid. unfold hot_view at 1.
  destruct (aget h s) as [old|] eqn:Hold; simpl; unfold dgetitem; rewrite ?Hc; simpl;
    destruct (is_none (dget e "version")) eqn:Hn; simpl.
  - destruct (py_eq _ _); (do 2 eexists; split_and!; [done|done|]; done).
  - destruct (if is_none _ then _ else _) as [[]|]; simpl.
    + do 2 eexists; split_and!; done.
    + destruct (py_eq (dget old "version") _).
      * destruct (py_eq _ _); (do 2 eexists; split_and!; [done|done|]; done).
      * do 2 eexists. split_and!; [done|done|]. intros h'. apply hot_view_aset.
    + done.
  - do 2 eexists; split_and!; done.
  - do 2 eexists. split_and!; [done|done|]. intros h'. apply hot_view_aset.
Qed.

#[export] Instance in_memory_store : HandHistoryHotStore store :=
  {| store_ingest := HandHistory.ingest; store_view := hot_view; store_follows := ingest_follows |}.

(** ** The store over the repository *)

Definition repository_view (s : FakeRepository) (h : string) : option remembered :=
  hot_view (tab _poker_mtt_hand_events s) h.

Lemma normalized_hand_event h e :
  hand_event h e ->
  exists row, _normalize_poker_mtt_hand_event e = Ok row /\ dget row "hand_id" = VStr h /\
    dget row "version" = dget e "version" /\ dget row "checksum" = dget e "checksum".
Proof.
  intros He. pose proof (hand_event_checksum h e He) as Hc. destruct He as (Hval & Hid & Hne).
  unfold event_hand_id in Hid. apply rbind_ok in Hid as (v & Hv & Hid). apply dgetitem_ok in Hv.
  apply rbind_ok in Hid as (i & Hi & Hid). destruct v; try done. simpl in Hi. injection Hi as ->.
  apply rbind_ok in Hid as (w & Hw & Hid). apply dgetitem_ok in Hw. destruct w; try done. injection Hid as ->.
  unfold _normalize_poker_mtt_hand_event.
  assert (por (dget e "identity") (VDict []) = VDict i) as ->.
  { rewrite (dget_some _ _ _ Hv). unfold por. by destruct i. }
  simpl as_dict. cbn [rbind]. rewrite (dget_some _ _ _ Hw).
  assert (truthy (VStr h) = true) as Ht by (simpl; by destruct (String.eqb_spec h "")).
  unfold por at 1. rewrite Ht. cbn [negb]. rewrite Ht. cbn [negb]. unfold dgetitem. rewrite Hc. simpl.
  eexists. split; [done|]. unfold por at 1. rewrite Ht. split_and!; done.
Qed.

(** The rows that answer: the stored or offered row with a state. *)
Lemma answer_state row s : aget "state" (dset row "state" (VStr s)) = Some (VStr s).
Proof. apply aget_aset_eq. Qed.

Lemma answer_state_update row u s :
  NoDup (akeys u) -> aget "state" u = Some (VStr s) -> aget "state" (dupdate row u) = Some (VStr s).
Proof. intros Hnd Hu. by rewrite aget_dupdate, Hu. Qed.

Lemma conflict_row_state row why prev : aget "state" (conflict_row row why prev) = Some (VStr "conflict").
Proof. apply answer_state_update; [destruct prev; nodup_keys|by destruct prev]. Qed.

(** [repository_ingest] once the repository has answered. *)
Lemma repository_ingest_answer e h s row answer s' :
  hand_event h e -> save_poker_mtt_hand_event e s = (Ok row, s') ->
  aget "state" row = Some (VStr answer) ->
  exists r, repository_ingest e s = (Ok r, s') /\ state r = answer.
Proof.
  intros (Hval & _) Hsave Hstate. unfold repository_ingest, sbind, slift. rewrite Hval, Hsave.
  unfold dgetitem. rewrite Hstate. simpl. eauto.
Qed.

Lemma repository_view_put h row s h' :
  repository_view (set_tab _poker_mtt_hand_events (aset h row (tab _poker_mtt_hand_events s)) s) h' =
  if String.eqb h' h then Some (remember_event row) else repository_view s h'.
Proof. unfold repository_view. rewrite tab_set_tab_eq. apply hot_view_aset. Qed.

(** The answer of the repository itself. *)
Lemma save_hand_event_follows e h s :
  hand_event h e ->
  match classify (repository_view s h) (dget e "version") (dget e "checksum") with
  | Err x => save_poker_mtt_hand_event e s = (Err x, s)
  | Ok (answer, remember) =>
      exists row s', save_poker_mtt_hand_event e s = (Ok row, s') /\
        aget "state" row = Some (VStr answer) /\
        forall h', repository_view s' h' =
          if remember && String.eqb h' h
          then Some {| version := dget e "version"; checksum := dget e "checksum" |}
          else repository_view s h'
  end.
Proof.
  intros He. destruct (normalized_hand_event h e He) as (row & Hrow & Hh & Hv & Hc).
  unfold save_poker_mtt_hand_event. rewrite (sbind_run _ _ s row s) by (unfold slift; by rewrite Hrow).
  rewrite (sbind_run _ _ s h s) by (unfold slift; by rewrite Hh). rewrite (sbind_run _ _ s s s) by done.
  rewrite Hv, Hc. unfold repository_view at 1, hot_view.
  destruct (aget h (tab _poker_mtt_hand_events s)) as [old|] eqn:Hold; simpl;
    destruct (is_none (dget e "version")) eqn:Hn; simpl.
  - destruct (py_eq (dget e "checksum") (dget old "checksum"));
      (do 2 eexists; split_and!; [done|apply conflict_row_state || apply answer_state|done]).
  - unfold sbind at 1, slift at 1. destruct (if is_none _ then _ else _) as [[]|]; simpl.
    + do 2 eexists. split_and!; [done|by rewrite !aget_aset|done].
    + destruct (py_eq (dget old "version") _).
      * destruct (py_eq (dget e "checksum") (dget old "checksum"));
          (do 2 eexists; split_and!; [done|apply conflict_row_state || apply answer_state|done]).
      * do 2 eexists. split_and!; [done|by rewrite !aget_aset|].
        intros h'. rewrite repository_view_put. unfold remember_event. rewrite !dget_dset. simpl.
        by rewrite Hv, Hc.
    + done.
  - do 2 eexists. split_and!; [done|apply conflict_row_state|done].
  - do 2 eexists. split_and!; [done|apply answer_state|].
    intros h'. rewrite repository_view_put. unfold remember_event. by rewrite Hv, Hc.
Qed.

Lemma repository_ingest_follows : follows repository_ingest repository_view.
Proof.
  intros e h s He. pose proof (save_hand_event_follows e h s He) as Hsave.
  destruct (classify _ _ _) as [[answer remember]|x].
  - destruct Hsave as (row & s' & Hrun & Hstate & Hview).
    destruct (repository_ingest_answer e h s row answer s' He Hrun Hstate) as (r & Hr & Hs). eauto.
  - destruct He as (Hval & _). unfold repository_ingest, sbind, slift. by rewrite Hval, Hsave.
Qed.

#[export] Instance repository_store : HandHistoryHotStore FakeRepository :=
  {| store_ingest := repository_ingest; store_view := repository_view;
     store_follows := repository_ingest_follows |}.

(** ** Properties *)

(** C38: the in-memory hand store and the store over the repository classify
    alike: fed the same hand-completed events from empty, they give the same
    answer (inserted, updated, duplicate, stale, conflict or the same error) to
    each of them. *)
Theorem hand_stores_agree evs :
  Forall (fun e => exists h, hand_event h e) evs ->
  answers (U := store) evs [] = answers (U := FakeRepository) evs empty_repository.
Proof. intros Hevs. by apply answers_agree. Qed.

Lemma hand_stores_agree_witness :
  answers (U := store) [sample_event 1 "x"; sample_event 2 "y"; sample_event 1 "x"; sample_event 2 "z"] [] =
  answers (U := FakeRepository) [sample_event 1 "x"; sample_event 2 "y"; sample_event 1 "x"; sample_event 2 "z"]
    empty_repository.
Proof.
  apply hand_stores_agree.
  repeat constructor; exists "t:a:1"; (split; [vm_compute; reflexivity|]); (split; [vm_compute; reflexivity|discriminate]).
Defined.
