(* ===== verification/Forecast.v ===== *)
(** * Forecast mining: tasks, hashes, scores ([forecast_engine.py], lines 23-700)

    The pure functions of the forecast engine: the settings, the commit hash,
    the normalisation of network signals, the synthetic tasks, the resolution
    of a task and the score of a probability.  Times are UTC microseconds. *)
From Stdlib Require Import ZArith Lia Ascii String SpecFloat.
From stdpp Require Import base list strings.
From S2P Require Import Prelude PyText PyFloat PyTime PyValue Sha256 Canonical.
Open Scope Z_scope.

(** ** Constants and settings *)

Definition FAST_ASSETS : list string := ["BTCUSDT"; "ETHUSDT"].
Definition DAILY_ASSETS : list string := ["BTC"; "ETH"].
Definition POLICY_BUNDLE_VERSION : string := "pb_2026_04_09_a".

Record ForecastSettings := {
  fast_task_seconds : Z;
  fast_task_prewarm_seconds : Z;
  fast_task_live_build_timeout_seconds : float;
  commit_window_seconds : Z;
  reveal_window_seconds : Z;
  daily_cutoff_hour_utc : Z;
  poker_mtt_reward_windows_enabled : bool;
  poker_mtt_settlement_anchoring_enabled : bool;
  poker_mtt_daily_reward_pool_amount : Z;
  poker_mtt_weekly_reward_pool_amount : Z;
  poker_mtt_finalization_watermark_seconds : Z;
  poker_mtt_daily_policy_bundle_version : string;
  poker_mtt_weekly_policy_bundle_version : string;
  poker_mtt_projection_artifact_page_size : Z;
  poker_mtt_reward_window_reconcile_lookback_days : Z;
  poker_mtt_budget_enforcement_enabled : bool;
  poker_mtt_budget_source_id : option string;
  poker_mtt_emission_epoch_id : option string;
  poker_mtt_emission_epoch_budget_amount : Z;
  poker_mtt_reward_aggregation_policy_version : string;
  legacy_arena_apply_enabled : bool;
  baseline_pm_weight : float;
  baseline_bin_weight : float;
  min_p_yes_bps : Z;
  max_p_yes_bps : Z;
  admission_release_bps : Z;
  admission_mature_fast_reveals : Z;
  admission_mature_age_hours : Z;
  free_skip_ratio : float;
  max_binance_snapshot_freshness_seconds : Z;
  max_polymarket_snapshot_freshness_seconds : Z;
  min_miner_version : string;
  server_version : string;
  protocol : string
}.

Definition default_settings : ForecastSettings := {|
  fast_task_seconds := 900;
  fast_task_prewarm_seconds := 10;
  fast_task_live_build_timeout_seconds := flit 2 0;
  commit_window_seconds := 3;
  reveal_window_seconds := 13;
  daily_cutoff_hour_utc := 0;
  poker_mtt_reward_windows_enabled := false;
  poker_mtt_settlement_anchoring_enabled := false;
  poker_mtt_daily_reward_pool_amount := 0;
  poker_mtt_weekly_reward_pool_amount := 0;
  poker_mtt_finalization_watermark_seconds := 21600;
  poker_mtt_daily_policy_bundle_version := "poker_mtt_daily_policy_v1";
  poker_mtt_weekly_policy_bundle_version := "poker_mtt_weekly_policy_v1";
  poker_mtt_projection_artifact_page_size := 5000;
  poker_mtt_reward_window_reconcile_lookback_days := 35;
  poker_mtt_budget_enforcement_enabled := false;
  poker_mtt_budget_source_id := None;
  poker_mtt_emission_epoch_id := None;
  poker_mtt_emission_epoch_budget_amount := 0;
  poker_mtt_reward_aggregation_policy_version := "capped_top3_mean_v1";
  legacy_arena_apply_enabled := false;
  baseline_pm_weight := flit 85 2;
  baseline_bin_weight := flit 15 2;
  min_p_yes_bps := 1500;
  max_p_yes_bps := 8500;
  admission_release_bps := 2000;
  admission_mature_fast_reveals := 500;
  admission_mature_age_hours := 168;
  free_skip_ratio := flit 20 2;
  max_binance_snapshot_freshness_seconds := 30;
  max_polymarket_snapshot_freshness_seconds := 30;
  min_miner_version := "0.4.0";
  server_version := "1.0.0-alpha";
  protocol := "clawchain-forecast-v1"
|}.

(** ** Clamping and hashing *)

Definition clamp (value lower upper : float) : float := fmax lower (fmin upper value).

Definition clamp_bps (value : Z) (settings : ForecastSettings) : Z :=
  Z.max (min_p_yes_bps settings) (Z.min (max_p_yes_bps settings) value).

Definition commit_payload (task_run_id miner_address : string) (p_yes_bps : Z) (reveal_nonce : string) : string :=
  task_run_id +:+ "|" +:+ miner_address +:+ "|" +:+ string_of_Z p_yes_bps +:+ "|" +:+ reveal_nonce.

Definition compute_commit_hash (task_run_id miner_address : string) (p_yes_bps : Z) (reveal_nonce : string) : string :=
  sha256_hex (commit_payload task_run_id miner_address p_yes_bps reveal_nonce).

(** The bytes that a request signature covers. *)
Definition build_signature_hash (parts : list string) : list Z :=
  sha256 (utf8 (str_join "|" parts)).

(** ** Network signals *)

(** The octets of a dotted IPv4 address: decimal, no leading zero, at most 255. *)
Definition ipv4_octet (s : string) : option Z :=
  match chars s with
  | [] => None
  | c :: rest =>
      if forallb is_digit (c :: rest) && (length rest <? 3)%nat &&
         negb (Ascii.eqb c "0"%char && negb (bool_decide (rest = [])))
      then let n := digits_value (c :: rest) in if n <=? 255 then Some n else None
      else None
  end.

Definition ipv4_octets (s : string) : option (list Z) :=
  let parts := str_split "." s in
  if bool_decide (length parts = 4%nat) then mapM ipv4_octet parts else None.

(** [ipaddress.ip_address(s).compressed.lower()] unless it is a loopback
    address; [None] for those.  IPv6 texts are outside the model, other texts
    are no address and stay as they are. *)
Definition ip_signal (s : string) : res (option string) :=
  match ipv4_octets s with
  | Some octets => Ok (if bool_decide (head octets = Some 127) then None else Some s)
  | None =>
      if existsb (Ascii.eqb ":"%char) (chars s) then Err (Unmodelled "ipaddress: IPv6")
      else Ok (Some s)
  end.

Definition normalize_ip_signal (ip_address : option string) : res (option string) :=
  match ip_address with
  | None => Ok None
  | Some ip =>
      if String.eqb ip "" then Ok None
      else
        let normalized := str_lower (str_strip ip) in
        if String.eqb normalized "" || String.eqb normalized "localhost" then Ok None
        else
          let normalized := str_removeprefix "::ffff:" normalized in
          ip_signal normalized
  end.

Definition derive_economic_unit_id (address public_key : string) (ip_address : option string) : res string :=
  let? normalized_ip := normalize_ip_signal ip_address in
  let basis := match normalized_ip with
               | Some ip => if String.eqb ip "" then "pk:" +:+ str_lower (str_removeprefix "0x" public_key)
                            else "ip:" +:+ ip
               | None => "pk:" +:+ str_lower (str_removeprefix "0x" public_key)
               end in
  Ok ("eu:" +:+ str_take 20 (sha256_hex basis)).

Definition generic_prefixes : list string :=
  ["python-requests/"; "python-urllib/"; "python-httpx/"; "curl/"; "go-http-client/"; "aiohttp/"; "wget/"].

Definition normalize_user_agent_signal (user_agent : option string) : option string :=
  match user_agent with
  | None => None
  | Some ua =>
      if String.eqb ua "" then None
      else
        let normalized := str_join " " (str_split_ws (str_lower (str_strip ua))) in
        if String.eqb normalized "" then None
        else if existsb (fun p => str_startswith p normalized) generic_prefixes then None
        else Some normalized
  end.

Definition hash_user_agent (user_agent : option string) : option string :=
  match normalize_user_agent_signal user_agent with
  | None => None
  | Some normalized => Some ("ua:" +:+ str_take 20 (sha256_hex normalized))
  end.

(** ** Reward identities *)

Definition _is_poker_mtt_synthetic_address (address : value) : res bool :=
  let? s := str_or_empty address in Ok (str_startswith "claw1local-" s).

Definition _poker_mtt_reward_identity_defaults (address : string) (now : Z) : dict :=
  let is_synthetic := str_startswith "claw1local-" address in
  [("poker_mtt_user_id", VStr (if is_synthetic then str_removeprefix "claw1local-" address else address));
   ("poker_mtt_auth_source", VStr (if is_synthetic then "local_harness" else "miner_registration"));
   ("poker_mtt_reward_bound", VBool (negb is_synthetic));
   ("poker_mtt_reward_bound_at", if is_synthetic then VNone else VTime now);
   ("poker_mtt_is_synthetic", VBool is_synthetic);
   ("poker_mtt_identity_expires_at", VNone);
   ("poker_mtt_identity_revoked_at", VNone)].

Definition identity_required_fields : list string :=
  ["economic_unit_id"; "poker_mtt_user_id"; "poker_mtt_auth_source"; "poker_mtt_reward_bound";
   "poker_mtt_is_synthetic"].

Definition _poker_mtt_reward_identity_blocker (miner : option dict) (current : Z) : res (option string) :=
  match miner with
  | None | Some [] => Ok (Some "missing_reward_identity")
  | Some miner =>
      if existsb (fun field => negb (dhas miner field)) identity_required_fields then
        Ok (Some "missing_reward_identity")
      else
        let? synthetic := _is_poker_mtt_synthetic_address (dget miner "address") in
        if synthetic || truthy (dget miner "poker_mtt_is_synthetic") then Ok (Some "reward_identity_not_bound")
        else if negb (truthy (dget miner "poker_mtt_reward_bound")) then Ok (Some "reward_identity_not_bound")
        else if negb (truthy (dget miner "poker_mtt_reward_bound_at")) then Ok (Some "missing_reward_identity")
        else if negb (is_none (dget miner "poker_mtt_identity_revoked_at")) then
          Ok (Some "reward_identity_revoked")
        else
          let expires_at := dget miner "poker_mtt_identity_expires_at" in
          if is_none expires_at then Ok None
          else
            let? t := as_utc_datetime expires_at in
            Ok (if t <=? current then Some "reward_identity_expired" else None)
  end.

Definition _apply_poker_mtt_reward_identity_block (projected : dict) (reason : string) : res dict :=
  let? risk_flags := as_list (por (dget projected "risk_flags") (VList [])) in
  let risk_flags := if existsb (fun f => py_eq_str f reason) risk_flags then risk_flags
                    else risk_flags ++ [VStr reason] in
  Ok (dupdate projected
        [("eligible_for_multiplier", VBool false);
         ("locked_at", VNone);
         ("anchorable_at", VNone);
         ("no_multiplier_reason", VStr reason);
         ("risk_flags", VList risk_flags)]).

(** ** Message queue metadata *)

(** [value is not None and str(value).strip() != ""] *)
Fixpoint _source_first (source : dict) (keys : list string) (default : value) : res value :=
  match keys with
  | [] => Ok default
  | key :: keys =>
      let v := dget source key in
      if is_none v then _source_first source keys default
      else
        let? text := py_str v in
        if String.eqb (str_strip text) "" then _source_first source keys default else Ok v
  end.

Definition _optional_int (v : value) : res value :=
  if is_none v || py_eq_str v "" then Ok VNone
  else match py_int v with
       | Ok n => Ok (VInt n)
       | Err TypeError | Err (ValueError _) => Ok VNone
       | Err e => Err e
       end.

Definition first_text (source : dict) (keys : list string) (default : string) : res string :=
  let? v := _source_first source keys (VStr default) in py_str v.

Definition _poker_mtt_mq_metadata (event : dict) : res dict :=
  let? source := as_dict (por (dget event "source") (VDict [])) in
  let? identity := as_dict (por (dget event "identity") (VDict [])) in
  let? topic := first_text source ["topic"; "rocketmq_topic"] "unknown_topic" in
  let? queue := first_text source ["queue"; "queue_id"; "queueId"; "message_queue"] "default" in
  let? consumer_group := first_text source ["consumer_group"; "consumerGroup"] "clawchain-poker-mtt-hands" in
  let tournament_id := por (por (por (dget identity "tournament_id") (dget source "source_mtt_id"))
                                (dget source "mtt_id")) (dget event "tournament_id") in
  let hand_id := por (dget identity "hand_id") (dget event "hand_id") in
  let? offset := _source_first source ["offset"; "queue_offset"; "queueOffset"] VNone in
  let? offset := _optional_int offset in
  let? message_id := _source_first source ["message_id"; "messageId"; "msg_id"] (dget event "event_id") in
  let? biz_id := _source_first source ["biz_id"; "bizId"] VNone in
  let? lag := _source_first source ["lag_messages"; "lagMessages"] VNone in
  let? lag := _optional_int lag in
  let? lag := int_or_zero lag in
  let? lag_watermark_at := _source_first source ["lag_watermark_at"; "lagWatermarkAt"] VNone in
  Ok [("topic", VStr topic);
      ("queue", VStr queue);
      ("consumer_group", VStr consumer_group);
      ("tournament_id", tournament_id);
      ("hand_id", hand_id);
      ("offset", offset);
      ("message_id", message_id);
      ("biz_id", biz_id);
      ("lag_messages", VInt (Z.max 0 lag));
      ("lag_watermark_at", lag_watermark_at);
      ("source_json", VDict source)].

Definition _poker_mtt_mq_checkpoint_id (metadata : dict) : res string :=
  let? tournament_id := py_str (por (dget metadata "tournament_id") (VStr "global")) in
  let? topic := dgetitem metadata "topic" in
  let? topic := py_str topic in
  let? group := dgetitem metadata "consumer_group" in
  let? group := py_str group in
  let? queue := dgetitem metadata "queue" in
  let? queue := py_str queue in
  Ok ("poker_mtt_mq_checkpoint:" +:+ tournament_id +:+ ":" +:+ topic +:+ ":" +:+ group +:+ ":" +:+ queue).

Definition _poker_mtt_mq_replay_root (metadata event : dict) (ingest_state : string) : res string :=
  canonical_hash (VDict
    [("tournament_id", dget metadata "tournament_id");
     ("topic", dget metadata "topic");
     ("queue", dget metadata "queue");
     ("consumer_group", dget metadata "consumer_group");
     ("offset", dget metadata "offset");
     ("message_id", dget metadata "message_id");
     ("biz_id", dget metadata "biz_id");
     ("hand_id", dget metadata "hand_id");
     ("version", dget event "version");
     ("checksum", dget event "checksum");
     ("ingest_state", VStr ingest_state)]).

Definition _poker_mtt_mq_row_id (prefix : string) (payload : dict) : res string :=
  let? h := canonical_hash (VDict payload) in
  Ok (prefix +:+ ":" +:+ str_take 24 (str_removeprefix "sha256:" h)).

(** ** Seeds and buckets of time *)

(** The first eight bytes of the digest, as a big-endian number. *)
Definition _seed_int (key : string) (start stop : Z) : Z :=
  let digest := sha256 (utf8 key) in
  let span := stop - start + 1 in
  start + fold_left (fun acc b => 256 * acc + b) (take 8 digest) 0 mod span.

Definition second : Z := usec.
Definition minute : Z := 60 * second.
Definition hour : Z := 60 * minute.
Definition day : Z := 24 * hour.

(** [int(now.timestamp())]: the timestamp is a float. *)
Definition int_timestamp (t : Z) : res Z :=
  let? x := int_truediv t usec in f_trunc x.

Definition _bucket_start (now seconds : Z) : res Z :=
  let? ts := int_timestamp now in
  Ok (usec * (ts - ts mod seconds)).

Definition _hour_bucket_start (t : Z) : Z := hour * (t / hour).
Definition _day_bucket_start (t : Z) : Z := day * (t / day).
Definition _week_bucket_start (t : Z) : Z :=
  let day_start := _day_bucket_start t in
  day_start - day * weekday (day_start / day).

Definition _baseline_probs (task_id : string) (settings : ForecastSettings) : res (Z * Z * Z) :=
  let q_pm_bps := _seed_int (task_id +:+ ":pm") 4200 5800 in
  let q_bin_bps := _seed_int (task_id +:+ ":bin") 4300 5700 in
  let? baseline := round_int (fadd (fmul (f_of_Z q_pm_bps) (baseline_pm_weight settings))
                                   (fmul (f_of_Z q_bin_bps) (baseline_bin_weight settings))) in
  Ok (q_pm_bps, q_bin_bps, clamp_bps baseline settings).

Definition canonical_json_hash (payload : dict) : res string := canonical_hash (VDict payload).

Definition snapshot_metadata (snapshot_source : string) (frozen_at : Z)
  (binance_freshness_seconds polymarket_freshness_seconds : value) : dict :=
  [("snapshot_source", VStr snapshot_source);
   ("snapshot_frozen_at", VStr (iso_format frozen_at));
   ("snapshot_freshness_seconds", VDict [("binance", binance_freshness_seconds);
                                         ("polymarket", polymarket_freshness_seconds)])].

(** ** Synthetic tasks *)

Definition dquote : string := String (chr 34) "".
Definition quoted (s : string) : string := dquote +:+ s +:+ dquote.

Definition fast_pack (asset task_id : string) (generated_at q_pm_bps q_bin_bps : Z) : dict :=
  let seed key lo hi := _seed_int (task_id +:+ key) lo hi in
  dupdate ([("asset", VStr asset); ("lane", VStr "forecast_15m")] ++
           snapshot_metadata "synthetic" generated_at VNone VNone)
    [("polymarket_snapshot", VDict
       [("q_yes_bps", VInt q_pm_bps);
        ("yes_volume", VInt (seed ":pm:yes_volume" 50000 300000));
        ("no_volume", VInt (seed ":pm:no_volume" 50000 300000))]);
     ("binance_snapshot", VDict
       [("q_yes_bps", VInt q_bin_bps);
        ("imbalance_bps", VInt (seed ":bin:imbalance" (-1200) 1200));
        ("micro_move_bps", VInt (seed ":bin:micro" (-250) 250))]);
     ("market_context", VStr (asset +:+ " 15m synthetic market pack with public baseline and noisy context."));
     ("noisy_fragments", VList
       [VStr ("{" +:+ quoted "symbl" +:+ ":" +:+ quoted asset +:+ "," +:+ quoted "imbalance_bsp" +:+ ":" +:+
              string_of_Z (seed ":n1" (-999) 999) +:+ "}");
        VStr ("{" +:+ quoted "trader_vlume" +:+ ":" +:+ string_of_Z (seed ":n2" 1000 100000) +:+ "," +:+
              quoted "sentmnt" +:+ ":" +:+ quoted "mixed" +:+ "}")])].

Definition fast_task_id (publish_at : Z) (asset : string) : string :=
  "tr_fast_" +:+ compact_format 12 publish_at +:+ "_" +:+ str_lower asset.

Definition build_fast_task (now : Z) (settings : ForecastSettings) (asset : string)
  (publish_at generated_at : option Z) : res dict :=
  let? publish_at := match publish_at with
                     | Some t => Ok t
                     | None => _bucket_start now (fast_task_seconds settings) end in
  let generated_at := default now generated_at in
  let resolve_at := publish_at + second * fast_task_seconds settings in
  let commit_deadline := publish_at + second * commit_window_seconds settings in
  let reveal_deadline := publish_at + second * reveal_window_seconds settings in
  let task_id := fast_task_id publish_at asset in
  let? probs := _baseline_probs task_id settings in
  let '(q_pm_bps, q_bin_bps, baseline_q_bps) := probs in
  let pack := fast_pack asset task_id generated_at q_pm_bps q_bin_bps in
  let? pack_hash := canonical_json_hash pack in
  Ok [("task_run_id", VStr task_id);
      ("lane", VStr "forecast_15m");
      ("asset", VStr asset);
      ("publish_at", VStr (iso_format publish_at));
      ("commit_deadline", VStr (iso_format commit_deadline));
      ("reveal_deadline", VStr (iso_format reveal_deadline));
      ("resolve_at", VStr (iso_format resolve_at));
      ("baseline_q_bps", VInt baseline_q_bps);
      ("baseline_method", VStr "q_pm_85_q_bin_15");
      ("snapshot_health", VStr "healthy");
      ("task_state", VStr "reward_eligible");
      ("degraded_reason", VNone);
      ("void_reason", VNone);
      ("resolution_source", VNone);
      ("pack_hash", VStr pack_hash);
      ("pack_json", VDict pack);
      ("state", VStr "published");
      ("created_at", VStr (iso_format generated_at));
      ("updated_at", VStr (iso_format generated_at))].

Definition daily_pack (asset task_id : string) (now q_pm_bps q_bin_bps : Z) : dict :=
  let seed key lo hi := _seed_int (task_id +:+ key) lo hi in
  dupdate ([("asset", VStr asset); ("anchor_only", VBool true)] ++
           snapshot_metadata "synthetic" now VNone VNone)
    [("market_context", VStr (asset +:+ " daily anchor lane for reliability calibration."));
     ("polymarket_snapshot", VDict
       [("q_yes_bps", VInt q_pm_bps);
        ("yes_volume", VInt (seed ":pm:yes_volume" 150000 800000));
        ("no_volume", VInt (seed ":pm:no_volume" 150000 800000))]);
     ("binance_snapshot", VDict
       [("q_yes_bps", VInt q_bin_bps);
        ("imbalance_bps", VInt (seed ":bin:imbalance" (-1600) 1600));
        ("micro_move_bps", VInt (seed ":bin:micro" (-600) 600))]);
     ("noisy_fragments", VList
       [VStr ("{" +:+ quoted "symbl" +:+ ":" +:+ quoted asset +:+ "," +:+ quoted "daily_imbalance_bsp" +:+ ":" +:+
              string_of_Z (seed ":n1" (-1800) 1800) +:+ "}");
        VStr ("{" +:+ quoted "tradr_vlume" +:+ ":" +:+ string_of_Z (seed ":n2" 10000 500000) +:+ "," +:+
              quoted "time_horizon" +:+ ":" +:+ quoted "1d" +:+ "}")])].

Definition build_daily_anchor_task (now : Z) (asset : string) (settings : option ForecastSettings) : res dict :=
  let config := default default_settings settings in
  let publish_at := _day_bucket_start now in
  let resolve_at := publish_at + day in
  let task_id := "tr_daily_" +:+ compact_format 8 publish_at +:+ "_" +:+ str_lower asset in
  let? probs := _baseline_probs task_id config in
  let '(q_pm_bps, q_bin_bps, _) := probs in
  let pack := daily_pack asset task_id now q_pm_bps q_bin_bps in
  let? pack_hash := canonical_json_hash pack in
  Ok [("task_run_id", VStr task_id);
      ("lane", VStr "daily_anchor");
      ("asset", VStr asset);
      ("publish_at", VStr (iso_format publish_at));
      ("commit_deadline", VStr (iso_format resolve_at));
      ("reveal_deadline", VStr (iso_format resolve_at));
      ("resolve_at", VStr (iso_format resolve_at));
      ("baseline_q_bps", VInt 5000);
      ("baseline_method", VStr "anchor_only");
      ("snapshot_health", VStr "healthy");
      ("task_state", VStr "calibration_only");
      ("degraded_reason", VNone);
      ("void_reason", VNone);
      ("resolution_source", VNone);
      ("pack_hash", VStr pack_hash);
      ("pack_json", VDict pack);
      ("state", VStr "published");
      ("created_at", VStr (iso_format now));
      ("updated_at", VStr (iso_format now))].

Definition ensure_active_task_runs_snapshot (now : Z) (settings : ForecastSettings) : res (list dict) :=
  let? fast := mapR (fun asset => build_fast_task now settings asset None None) FAST_ASSETS in
  let? daily := mapR (fun asset => build_daily_anchor_task now asset (Some settings)) DAILY_ASSETS in
  Ok (fast ++ daily).

(** ** Resolution *)

(** [start * (1 + drift_bps / 10_000)] to two places. *)
Definition drifted (start : float) (drift_bps : Z) : res float :=
  let? r := int_truediv drift_bps 10000 in
  Ok (round_digits 2 (fmul start (fadd (f_of_Z 1) r))).

Definition seeded_price (task_id : string) : res float :=
  fdiv (f_of_Z (_seed_int (task_id +:+ ":price:start") 2000000 8000000)) (f_of_Z 100).

Definition outcome_of (start stop : float) : Z := if fltb start stop then 1 else 0.

Definition task_id_text (task : dict) : res string :=
  let? v := dgetitem task "task_run_id" in py_str v.

Definition resolve_fast_task (task : dict) : res dict :=
  let? task_id := task_id_text task in
  let? price := py_float (por (dget task "commit_close_ref_price") (VFloat fzero)) in
  let? commit_close_ref_price := if fleb price (f_of_Z 0) then seeded_price task_id else Ok price in
  let drift_bps := _seed_int (task_id +:+ ":price:drift") (-180) 180 in
  let? end_ref_price := drifted commit_close_ref_price drift_bps in
  Ok [("commit_close_ref_price", VFloat commit_close_ref_price);
      ("end_ref_price", VFloat end_ref_price);
      ("outcome", VInt (outcome_of commit_close_ref_price end_ref_price))].

Definition resolve_daily_task (task : dict) : res dict :=
  let? task_id := task_id_text task in
  let? start_ref_price := seeded_price task_id in
  let drift_bps := _seed_int (task_id +:+ ":price:drift:daily") (-600) 600 in
  let? end_ref_price := drifted start_ref_price drift_bps in
  Ok [("start_ref_price", VFloat start_ref_price);
      ("end_ref_price", VFloat end_ref_price);
      ("outcome", VInt (outcome_of start_ref_price end_ref_price));
      ("resolution_status", VStr "resolved")].

(** ** Scores *)

(** [x ** 2], correctly rounded. *)
Definition fsquare (x : float) : float := fmul x x.

Definition score_probability (p_yes_bps baseline_q_bps outcome : Z) : res float :=
  let? p := int_truediv p_yes_bps 10000 in
  let? q := int_truediv baseline_q_bps 10000 in
  let y := f_of_Z outcome in
  let improvement := fsub (fsquare (fsub q y)) (fsquare (fsub p y)) in
  let direction_bonus := if Bool.eqb (5000 <=? p_yes_bps) (negb (outcome =? 0)) then flit 15 3 else fzero in
  let anti_copy_cap := if Z.abs (p_yes_bps - baseline_q_bps) <? 300 then flit 25 2 else fone in
  Ok (fmax fzero (fmul (fadd improvement direction_bonus) anti_copy_cap)).

Definition _reward_from_score (score : float) : res Z :=
  let? r := round_int (fmul score (f_of_Z 1000000)) in
  Ok (Z.max 0 r).

Definition _quality_envelope (model_reliability ops_reliability arena_multiplier anti_abuse_discount : float) : float :=
  round_digits 6
    (fmax fzero (fmul (fmul (fmul model_reliability ops_reliability) arena_multiplier) anti_abuse_discount)).

Definition severity_discounts : list (string * float) :=
  [("critical", fzero); ("high", fzero); ("medium", flit 25 2); ("low", flit 5 1)].

Definition _anti_abuse_discount_for_cases (eligibility_status : value) (open_cases : list dict) : res float :=
  if truthy eligibility_status && negb (py_eq_str eligibility_status "eligible") then Ok fzero
  else
    match open_cases with
    | [] => Ok fone
    | _ =>
        let? discount := foldR (fun discount case =>
          let? severity := str_or_empty (dget case "severity") in
          Ok (fmin discount (default (flit 25 2) (aget (str_lower severity) severity_discounts))))
          open_cases fone in
        Ok (round_digits 6 discount)
    end.

(** [float(row.get(k, 1.0) or 1.0)] *)
Definition float_or_one (row : dict) (k : string) : res float :=
  py_float (por (dget_or row k (VFloat fone)) (VFloat fone)).
