(* ===== verification/RewardRows.v ===== *)
(** * Reward rows of a window: components, allocation and paging

    The pure part of forecast_engine.py between a settled submission and an
    anchored payload: the reward components of a miner
    ([build_forecast_reward_component_rows], [merge_reward_component_rows]), the
    division of an integer pool by weights, the split of a long list of rows
    into pages with a root each and its inverse, and the payloads of a reward
    window. *)
From Stdlib Require Import ZArith Lia String SpecFloat.
From stdpp Require Import base list strings.
From S2P Require Import Prelude PyText PyFloat PyTime PyValue Sha256 Canonical Forecast.
Open Scope Z_scope.

Definition ANCHOR_PAYLOAD_SCHEMA_VERSION : string := "clawchain.anchor_payload.v1".
Definition FORECAST_REWARD_COMPONENT_SCHEMA_VERSION : string := "clawchain.forecast_reward_components.v1".
Definition REWARD_WINDOW_REPLAY_SCHEMA_VERSION : string := "clawchain.reward_window_replay.v1".
Definition POKER_MTT_REWARD_WINDOW_RESPONSE_INLINE_LIMIT : nat := 500.
Definition SETTLEMENT_ANCHOR_PAGE_ARTIFACT_KIND : string := "settlement_anchor_miner_reward_rows_page".
Definition FORECAST_REWARD_COMPONENT_FIELDS : list string :=
  ["miner_address"; "submission_count"; "fast_direct_score"; "slow_direct_score"; "base_score";
   "final_mining_score"; "released_reward_amount"; "held_reward_amount"; "gross_reward_amount";
   "model_reliability"; "ops_reliability"; "arena_multiplier"; "anti_abuse_discount"; "quality_envelope"].

(** [list(d.get(k) or [])] *)
Definition list_field (d : dict) (k : string) : res (list value) := as_list (por (dget d k) (VList [])).

(** [int(d.get(k, 0) or 0)] *)
Definition int_field (d : dict) (k : string) : res Z := int_or_zero (dget_or d k (VInt 0)).

(** ** Components of one submission *)

Definition _submission_component_int (submission : dict) (field : string) (default : Z) : res Z :=
  let value := dget submission field in
  if is_none value then Ok default else py_int value.

Definition _submission_component_float (submission : dict) (field : string) (default : float) : res float :=
  let value := dget submission field in
  if is_none value then Ok default else py_float value.

Record component_snapshot := {
  snap_fast_direct_score : Z;
  snap_model_reliability : float;
  snap_ops_reliability : float;
  snap_arena_multiplier : float;
  snap_anti_abuse_discount : float;
  snap_quality_envelope : float;
  snap_final_mining_score : Z;
  snap_released_reward_amount : Z;
  snap_held_reward_amount : Z
}.

(** [round(score / base, 6)] where there is a base, else the envelope of the factors. *)
Definition envelope_or_ratio (final base : Z) (model ops arena discount : float) : res float :=
  if 0 <? base then let? x := int_truediv final base in Ok (round_digits 6 x)
  else Ok (_quality_envelope model ops arena discount).

(** [slow_direct_score] is 0 and [base_score] is [fast_direct_score]. *)
Definition _forecast_submission_component_snapshot (submission : dict) : res component_snapshot :=
  let? reward := int_field submission "reward_amount" in
  let? fast := _submission_component_int submission "fast_direct_score" reward in
  let? released := _submission_component_int submission "released_reward_amount" reward in
  let? held := _submission_component_int submission "held_reward_amount" 0 in
  let? model := _submission_component_float submission "model_reliability_component" fone in
  let? ops := _submission_component_float submission "ops_reliability_component" fone in
  let? arena := _submission_component_float submission "arena_multiplier_component" fone in
  let? discount := _submission_component_float submission "anti_abuse_discount" fone in
  let? default := envelope_or_ratio reward fast model ops arena discount in
  let? envelope := _submission_component_float submission "quality_envelope" default in
  Ok {| snap_fast_direct_score := fast;
        snap_model_reliability := round_digits 6 model;
        snap_ops_reliability := round_digits 6 ops;
        snap_arena_multiplier := round_digits 6 arena;
        snap_anti_abuse_discount := round_digits 6 discount;
        snap_quality_envelope := round_digits 6 envelope;
        snap_final_mining_score := reward;
        snap_released_reward_amount := released;
        snap_held_reward_amount := held |}.

(** ** Components of one miner *)

(** The dictionary that a miner's submissions or rows are added to. *)
Record component := {
  submission_count : Z;
  fast_score : Z;
  slow_score : Z;
  base_score : Z;
  final_mining_score : Z;
  released_amount : Z;
  held_amount : Z;
  gross_reward_amount : Z;
  weight_total : Z;
  weighted_model_reliability : float;
  weighted_ops_reliability : float;
  weighted_arena_multiplier : float;
  weighted_anti_abuse_discount : float;
  has_component_fields : bool
}.

Definition empty_component : component :=
  {| submission_count := 0; fast_score := 0; slow_score := 0; base_score := 0; final_mining_score := 0;
     released_amount := 0; held_amount := 0; gross_reward_amount := 0; weight_total := 0;
     weighted_model_reliability := fzero; weighted_ops_reliability := fzero;
     weighted_arena_multiplier := fzero; weighted_anti_abuse_discount := fzero;
     has_component_fields := false |}.

Abbreviation grouped_components := (list (string * component)).

(** [total + factor * weight] *)
Definition add_weighted (total factor : float) (weight : Z) : res float :=
  let? w := float_of_int weight in Ok (fadd total (fmul factor w)).

Definition add_snapshot (current : component) (snapshot : component_snapshot) : res component :=
  let weight := Z.max (snap_fast_direct_score snapshot) 0 in
  let? model := add_weighted (weighted_model_reliability current) (snap_model_reliability snapshot) weight in
  let? ops := add_weighted (weighted_ops_reliability current) (snap_ops_reliability snapshot) weight in
  let? arena := add_weighted (weighted_arena_multiplier current) (snap_arena_multiplier snapshot) weight in
  let? discount := add_weighted (weighted_anti_abuse_discount current) (snap_anti_abuse_discount snapshot) weight in
  Ok {| submission_count := submission_count current + 1;
        fast_score := fast_score current + snap_fast_direct_score snapshot;
        slow_score := slow_score current;
        base_score := base_score current + snap_fast_direct_score snapshot;
        final_mining_score := final_mining_score current + snap_final_mining_score snapshot;
        released_amount := released_amount current + snap_released_reward_amount snapshot;
        held_amount := held_amount current + snap_held_reward_amount snapshot;
        gross_reward_amount := gross_reward_amount current + snap_final_mining_score snapshot;
        weight_total := weight_total current + weight;
        weighted_model_reliability := model;
        weighted_ops_reliability := ops;
        weighted_arena_multiplier := arena;
        weighted_anti_abuse_discount := discount;
        has_component_fields := has_component_fields current |}.

Definition counts_for_components (submission : dict) : bool :=
  truthy (dget submission "miner_address") && negb (is_none (dget submission "p_yes_bps")).

Definition add_submission (grouped : grouped_components) (submission : dict) : res grouped_components :=
  if negb (counts_for_components submission) then Ok grouped
  else
    let? snapshot := _forecast_submission_component_snapshot submission in
    let? miner_address := as_key (dget submission "miner_address") in
    let? current := add_snapshot (default empty_component (aget miner_address grouped)) snapshot in
    Ok (aset miner_address current grouped).

(** [round(weighted / weight_total, 6)], or 1.0 without weight. *)
Definition weighted_mean (weighted : float) (weight_total : Z) : res float :=
  if 0 <? weight_total
  then let? w := float_of_int weight_total in let? x := fdiv weighted w in Ok (round_digits 6 x)
  else Ok fone.

Definition component_row (miner_address : string) (item : component) : res dict :=
  let? model := weighted_mean (weighted_model_reliability item) (weight_total item) in
  let? ops := weighted_mean (weighted_ops_reliability item) (weight_total item) in
  let? arena := weighted_mean (weighted_arena_multiplier item) (weight_total item) in
  let? discount := weighted_mean (weighted_anti_abuse_discount item) (weight_total item) in
  let? envelope := envelope_or_ratio (final_mining_score item) (base_score item) model ops arena discount in
  Ok [("miner_address", VStr miner_address);
      ("submission_count", VInt (submission_count item));
      ("fast_direct_score", VInt (fast_score item));
      ("slow_direct_score", VInt (slow_score item));
      ("base_score", VInt (base_score item));
      ("final_mining_score", VInt (final_mining_score item));
      ("released_reward_amount", VInt (released_amount item));
      ("held_reward_amount", VInt (held_amount item));
      ("gross_reward_amount", VInt (gross_reward_amount item));
      ("model_reliability", VFloat model);
      ("ops_reliability", VFloat ops);
      ("arena_multiplier", VFloat arena);
      ("anti_abuse_discount", VFloat discount);
      ("quality_envelope", VFloat envelope)].

(** The rows in the order of [sorted(grouped)]. *)
Definition rows_by_address (row : string -> component -> res dict) (grouped : grouped_components)
  : res (list dict) :=
  mapR (fun a => row a (default empty_component (aget a grouped))) (sort_strings (akeys grouped)).

Definition build_forecast_reward_component_rows (submissions : list dict) : res (list dict) :=
  let? grouped := foldR add_submission submissions [] in
  rows_by_address component_row grouped.

(** ** Merging the rows of several windows *)

Definition component_field_names : list string :=
  ["fast_direct_score"; "slow_direct_score"; "base_score"; "final_mining_score"; "released_reward_amount";
   "held_reward_amount"; "model_reliability"; "ops_reliability"; "arena_multiplier"; "anti_abuse_discount";
   "quality_envelope"].

(** [total + float(row.get(k, 1.0) or 1.0) * weight] *)
Definition add_row_factor (total : float) (row : dict) (k : string) (weight : Z) : res float :=
  let? factor := float_or_one row k in add_weighted total factor weight.

Definition add_row (current : component) (row : dict) (weight : Z) : res component :=
  let? count := int_field row "submission_count" in
  let? fast := int_field row "fast_direct_score" in
  let? slow := int_field row "slow_direct_score" in
  let? base := int_field row "base_score" in
  let? final := int_or_zero (dget_or row "final_mining_score" (dget_or row "gross_reward_amount" (VInt 0))) in
  let? released := int_field row "released_reward_amount" in
  let? held := int_field row "held_reward_amount" in
  let? gross := int_or_zero (dget_or row "gross_reward_amount" (dget_or row "final_mining_score" (VInt 0))) in
  let? model := add_row_factor (weighted_model_reliability current) row "model_reliability" weight in
  let? ops := add_row_factor (weighted_ops_reliability current) row "ops_reliability" weight in
  let? arena := add_row_factor (weighted_arena_multiplier current) row "arena_multiplier" weight in
  let? discount := add_row_factor (weighted_anti_abuse_discount current) row "anti_abuse_discount" weight in
  Ok {| submission_count := submission_count current + count;
        fast_score := fast_score current + fast;
        slow_score := slow_score current + slow;
        base_score := base_score current + base;
        final_mining_score := final_mining_score current + final;
        released_amount := released_amount current + released;
        held_amount := held_amount current + held;
        gross_reward_amount := gross_reward_amount current + gross;
        weight_total := weight_total current + weight;
        weighted_model_reliability := model;
        weighted_ops_reliability := ops;
        weighted_arena_multiplier := arena;
        weighted_anti_abuse_discount := discount;
        has_component_fields :=
          has_component_fields current || existsb (fun k => dhas row k) component_field_names |}.

Definition merge_row (grouped : grouped_components) (row : dict) : res grouped_components :=
  let address := dget row "miner_address" in
  if negb (truthy address) then Ok grouped
  else
    let? weight := int_field row "base_score" in
    let? miner_address := as_key address in
    let? current := add_row (default empty_component (aget miner_address grouped)) row weight in
    Ok (aset miner_address current grouped).

Definition merged_row (miner_address : string) (item : component) : res dict :=
  if negb (has_component_fields item)
  then Ok [("miner_address", VStr miner_address);
           ("submission_count", VInt (submission_count item));
           ("gross_reward_amount", VInt (gross_reward_amount item))]
  else component_row miner_address item.

Definition merge_reward_component_rows (rows : list dict) : res (list dict) :=
  let? grouped := foldR merge_row rows [] in
  rows_by_address merged_row grouped.

(** ** Dividing an integer pool *)

(** [(remainder, item_id)] pairs in the order of [(-remainder, item_id)]. *)
Definition remainder_before (a b : float * string) : bool :=
  if feqb (fneg a.1) (fneg b.1) then String.ltb a.2 b.2 else fltb (fneg a.1) (fneg b.1).

Definition equal_weights (weighted_items : list (string * float)) : list (string * float) :=
  map (fun item => (item.1, fone)) weighted_items.

(** The weights that are used and their sum: those given, or equal ones where they sum to nothing. *)
Definition pool_weights (weighted_items : list (string * float)) : list (string * float) * float :=
  let positive_items := map (fun item => (item.1, fmax fzero item.2)) weighted_items in
  let total_weight := fsum (map snd positive_items) in
  if fleb total_weight fzero
  then (equal_weights weighted_items, f_of_Z (Z.of_nat (length weighted_items)))
  else (positive_items, total_weight).

(** [exact_share] and its floor *)
Definition share_of (total_weight : float) (total_amount : Z) (weight : float) : res (float * Z) :=
  let? ratio := fdiv weight total_weight in
  let? amount := float_of_int total_amount in
  let exact_share := fmul ratio amount in
  let? base_share := f_floor exact_share in
  Ok (exact_share, base_share).

Definition add_share (total_weight : float) (total_amount : Z)
  (acc : list (string * Z) * Z * list (float * string)) (item : string * float)
  : res (list (string * Z) * Z * list (float * string)) :=
  let '(allocations, assigned, remainders) := acc in
  let? share := share_of total_weight total_amount item.2 in
  let '(exact_share, base_share) := share in
  let? base := float_of_int base_share in
  Ok (aset item.1 base_share allocations, assigned + base_share,
      remainders ++ [(fsub exact_share base, item.1)]).

(** [allocations[item_id] += 1] *)
Definition add_one (allocations : list (string * Z)) (item_id : string) : list (string * Z) :=
  aset item_id (default 0 (aget item_id allocations) + 1) allocations.

Definition _allocate_integer_pool_by_weights (weighted_items : list (string * float)) (total_amount : Z)
  : res (list (string * Z)) :=
  let allocations := fold_left (fun acc item => aset item.1 0 acc) weighted_items [] in
  if (total_amount <=? 0) || match weighted_items with [] => true | _ => false end then Ok allocations
  else
    let '(positive_items, total_weight) := pool_weights weighted_items in
    let? shares := foldR (add_share total_weight total_amount) positive_items (allocations, 0, []) in
    let '(allocations, assigned, remainders) := shares in
    let lucky := py_take (total_amount - assigned) (sort_by remainder_before remainders) in
    Ok (fold_left add_one (map snd lucky) allocations).

(** ** Dictionaries keyed by any hashable value *)

Definition hashable (v : value) : res unit :=
  match v with VList _ | VDict _ => Err TypeError | _ => Ok tt end.

Fixpoint vget {A} (k : value) (m : list (value * A)) : option A :=
  match m with [] => None | (k', x) :: m => if py_eq k k' then Some x else vget k m end.

Fixpoint vset {A} (k : value) (x : A) (m : list (value * A)) : list (value * A) :=
  match m with
  | [] => [(k, x)]
  | (k', x') :: m => if py_eq k k' then (k', x) :: m else (k', x') :: vset k x m
  end.

(** ** Pages *)

Definition _hash_sequence : list value -> res string := hash_sequence.
Definition _hash_payload (payload : dict) : res string := canonical_hash (VDict payload).

(** [l[start : start + n] for start in range(0, len(l), n)] *)
Fixpoint chunks {A} (fuel n : nat) (l : list A) : list (list A) :=
  match fuel, l with
  | S fuel, _ :: _ => take n l :: chunks fuel n (drop n l)
  | _, _ => []
  end.

Definition page_ref (page_index : nat) (row_count : nat) (page_root : string) : dict :=
  [("page_index", VInt (Z.of_nat page_index));
   ("row_count", VInt (Z.of_nat row_count));
   ("page_root", VStr page_root)].

Definition build_page (page_index : nat) (rows : list value) : res (dict * dict) :=
  let? page_root := _hash_sequence rows in
  Ok ([("page_index", VInt (Z.of_nat page_index));
       ("row_count", VInt (Z.of_nat (length rows)));
       ("miner_reward_rows", VList rows);
       ("page_root", VStr page_root)],
      page_ref page_index (length rows) page_root).

Fixpoint build_pages (page_index : nat) (parts : list (list value)) : res (list (dict * dict)) :=
  match parts with
  | [] => Ok []
  | rows :: parts =>
      let? page := build_page page_index rows in
      let? pages := build_pages (S page_index) parts in
      Ok (page :: pages)
  end.

Definition build_paged_poker_mtt_projection_payload (payload : dict) (page_size : Z) : res (dict * list dict) :=
  let? _ := guard (negb (page_size <=? 0)) (ValueError "page_size must be positive") in
  let? miner_reward_rows := list_field payload "miner_reward_rows" in
  let? miner_reward_rows_root := _hash_sequence miner_reward_rows in
  let projected := dset payload "miner_reward_rows_root" (VStr miner_reward_rows_root) in
  if Z.of_nat (length miner_reward_rows) <=? page_size
  then Ok (dset projected "artifact_page_count" (VInt 1), [])
  else
    let? pages := build_pages 0 (chunks (length miner_reward_rows) (Z.to_nat page_size) miner_reward_rows) in
    let projected := apop "miner_reward_rows" projected in
    let projected := dset projected "artifact_page_count" (VInt (Z.of_nat (length pages))) in
    Ok (dset projected "artifact_pages" (VList (map (fun p => VDict p.2) pages)), map fst pages).

Definition page_of_artifact (page_kind : string) (pages_by_index : list (value * dict)) (artifact : dict)
  : res (list (value * dict)) :=
  if negb (py_eq_str (dget artifact "kind") page_kind) then Ok pages_by_index
  else
    let? page_payload := as_dict (por (dget artifact "payload_json") (VDict [])) in
    let index := dget page_payload "page_index" in
    let? _ := hashable index in
    Ok (vset index page_payload pages_by_index).

Definition page_rows (error_prefix : string) (pages_by_index : list (value * dict)) (page_ref : dict)
  : res (list value) :=
  let? page_index := dgetitem page_ref "page_index" in
  let? _ := hashable page_index in
  let? page_payload := of_option (vget page_index pages_by_index)
                         (ValueError (error_prefix +:+ " page artifact missing")) in
  let? rows := list_field page_payload "miner_reward_rows" in
  let? page_root := _hash_sequence rows in
  let? _ := guard (py_eq_str (dget page_ref "page_root") page_root &&
                   py_eq_str (dget page_payload "page_root") page_root)
              (ValueError (error_prefix +:+ " page root mismatch")) in
  let? row_count := int_field page_ref "row_count" in
  let? _ := guard (Z.of_nat (length rows) =? row_count)
              (ValueError (error_prefix +:+ " page row count mismatch")) in
  Ok rows.

(** The root that the payload promises, where it promises one. *)
Definition check_rows_root (error_prefix : string) (payload : dict) (rows : list value) : res unit :=
  let expected_root := dget payload "miner_reward_rows_root" in
  if truthy expected_root then
    let? root := _hash_sequence rows in
    guard (py_eq_str expected_root root) (ValueError (error_prefix +:+ " miner reward rows root mismatch"))
  else Ok tt.

Definition _resolve_miner_reward_rows_from_artifacts (payload : dict) (artifacts : list dict)
  (page_kind error_prefix : string) : res (list value) :=
  let? inline_rows := list_field payload "miner_reward_rows" in
  match inline_rows with
  | _ :: _ => let? _ := check_rows_root error_prefix payload inline_rows in Ok inline_rows
  | [] =>
      let? page_refs := list_field payload "artifact_pages" in
      match page_refs with
      | [] => Ok []
      | _ =>
          let? pages_by_index := foldR (page_of_artifact page_kind) artifacts [] in
          let? page_refs := mapR as_dict page_refs in
          let? page_refs := py_sort py_lt (fun item => dgetitem item "page_index") false page_refs in
          let? pages := mapR (page_rows error_prefix pages_by_index) page_refs in
          let rows := concat pages in
          let? _ := check_rows_root error_prefix payload rows in
          Ok rows
      end
  end.

Definition resolve_poker_mtt_projection_reward_rows (payload : dict) (artifacts : list dict) : res (list value) :=
  _resolve_miner_reward_rows_from_artifacts payload artifacts "poker_mtt_reward_window_projection_page"
    "poker mtt projection".

Definition resolve_settlement_anchor_reward_rows (payload : dict) (artifacts : list dict) : res (list value) :=
  _resolve_miner_reward_rows_from_artifacts payload artifacts SETTLEMENT_ANCHOR_PAGE_ARTIFACT_KIND
    "settlement anchor".

Definition resolve_reward_window_membership_rows (payload : dict) (artifacts : list dict) : res (list value) :=
  _resolve_miner_reward_rows_from_artifacts payload artifacts "reward_window_membership_page"
    "reward window membership".

(** ** Payloads of a reward window *)

Definition window_policy (reward_window : dict) : value :=
  por (dget reward_window "policy_bundle_version") (VStr POLICY_BUNDLE_VERSION).

(** [sorted(list(d.get(k, [])))] *)
Definition sorted_field (d : dict) (k : string) : res (list value) :=
  let? l := as_list (dget_or d k (VList [])) in py_sorted l.

Definition _reward_window_payload (reward_window : dict) : res dict :=
  let? id := dgetitem reward_window "id" in
  let? lane := dgetitem reward_window "lane" in
  let? task_run_ids := sorted_field reward_window "task_run_ids" in
  let? miner_addresses := sorted_field reward_window "miner_addresses" in
  let? task_count := int_field reward_window "task_count" in
  let? submission_count := int_field reward_window "submission_count" in
  let? miner_count := int_field reward_window "miner_count" in
  let? total_reward_amount := int_field reward_window "total_reward_amount" in
  let payload :=
    [("reward_window_id", id);
     ("lane", lane);
     ("policy_bundle_version", window_policy reward_window);
     ("task_run_ids", VList task_run_ids);
     ("miner_addresses", VList miner_addresses);
     ("task_count", VInt task_count);
     ("submission_count", VInt submission_count);
     ("miner_count", VInt miner_count);
     ("total_reward_amount", VInt total_reward_amount);
     ("settlement_batch_id", dget reward_window "settlement_batch_id")] in
  let? miner_reward_rows := list_field reward_window "miner_reward_rows" in
  match miner_reward_rows with
  | [] => Ok payload
  | _ =>
      let? root := _hash_sequence miner_reward_rows in
      Ok (payload ++ [("miner_reward_rows", VList miner_reward_rows);
                      ("miner_reward_rows_root", VStr root);
                      ("miner_reward_rows_count", VInt (Z.of_nat (length miner_reward_rows)))])
  end.

Definition _materialize_reward_window (reward_window : dict) : res (dict * dict) :=
  let? payload := _reward_window_payload reward_window in
  let? miner_reward_rows := list_field payload "miner_reward_rows" in
  let? canonical_root := _hash_payload payload in
  Ok (dupdate reward_window
        (map (fun k => (k, dget payload k))
           ["policy_bundle_version"; "task_run_ids"; "miner_addresses"; "task_count"; "submission_count";
            "miner_count"; "total_reward_amount"] ++
         [("miner_reward_rows", VList miner_reward_rows); ("canonical_root", VStr canonical_root)]),
      payload).

Definition deferred (reason : string) : value :=
  VDict [("state", VStr "deferred"); ("reason", VStr reason)].

Definition _forecast_overlay_merge_state : dict :=
  [("daily_snapshot_merge",
    deferred "daily lane carry-forward is not merged into forecast_15m reward windows in v1");
   ("arena_snapshot_merge",
    deferred "arena contributes only arena_multiplier components; no separate arena overlay rows are merged into forecast_15m reward windows in v1")].

Definition _forecast_reward_window_replay_payload (reward_window : dict) (anti_abuse_input_rows : list value)
  : res dict :=
  let? task_run_ids := sorted_field reward_window "task_run_ids" in
  let? miner_addresses := sorted_field reward_window "miner_addresses" in
  let? task_count := int_field reward_window "task_count" in
  let? submission_count := int_field reward_window "submission_count" in
  let? miner_count := int_field reward_window "miner_count" in
  let? reward_component_rows := list_field reward_window "miner_reward_rows" in
  let? id := dgetitem reward_window "id" in
  let? total_reward_amount := int_field reward_window "total_reward_amount" in
  let? rows_root := _hash_sequence reward_component_rows in
  let? anti_abuse_root := _hash_sequence anti_abuse_input_rows in
  Ok [("schema_version", VStr REWARD_WINDOW_REPLAY_SCHEMA_VERSION);
      ("reward_component_schema_version", VStr FORECAST_REWARD_COMPONENT_SCHEMA_VERSION);
      ("reward_window_id", id);
      ("lane", dget reward_window "lane");
      ("policy_bundle_version", window_policy reward_window);
      ("window_start_at", dget reward_window "window_start_at");
      ("window_end_at", dget reward_window "window_end_at");
      ("total_reward_amount", VInt total_reward_amount);
      ("membership", VDict
        [("task_run_ids", VList task_run_ids);
         ("miner_addresses", VList miner_addresses);
         ("settlement_batch_id", dget reward_window "settlement_batch_id");
         ("task_count", VInt task_count);
         ("submission_count", VInt submission_count);
         ("miner_count", VInt miner_count)]);
      ("reward_window_membership_payload_hash", dget reward_window "canonical_root");
      ("reward_component_rows_root", VStr rows_root);
      ("reward_component_rows_count", VInt (Z.of_nat (length reward_component_rows)));
      ("reward_component_fields", VList (map VStr FORECAST_REWARD_COMPONENT_FIELDS));
      ("anti_abuse_input_rows_root", VStr anti_abuse_root);
      ("anti_abuse_input_rows_count", VInt (Z.of_nat (length anti_abuse_input_rows)));
      ("anti_abuse_input_rows", VList anti_abuse_input_rows);
      ("overlay_merge_state", VDict _forecast_overlay_merge_state)].

(** ** Responses: long lists are replaced by a root, a count and a sample *)

Definition summarize_ids (response : dict) (field : string) : res dict :=
  let? values := list_field response field in
  if (length values <=? POKER_MTT_REWARD_WINDOW_RESPONSE_INLINE_LIMIT)%nat then Ok response
  else
    let? sorted := py_sorted values in
    let? root := _hash_sequence sorted in
    let response := dset response (field +:+ "_root") (VStr root) in
    let response := dset response (field +:+ "_count") (VInt (Z.of_nat (length values))) in
    let response := dset response (field +:+ "_sample") (VList (take 10 sorted)) in
    Ok (apop field response).

(** [if projection_artifact] *)
Definition non_empty_dict (d : option dict) : option dict :=
  match d with Some (_ :: _) => d | _ => None end.

Definition _summarize_reward_window_response (reward_window : dict) (projection_artifact : option dict) : res dict :=
  let? response := foldR summarize_ids ["task_run_ids"; "miner_addresses"] reward_window in
  match non_empty_dict projection_artifact with
  | None => Ok response
  | Some artifact =>
      let? projection_payload := as_dict (por (dget artifact "payload_json") (VDict [])) in
      Ok (dupdate response
        [("artifact_page_count", dget_or projection_payload "artifact_page_count" (VInt 1));
         ("miner_reward_rows_root", dget projection_payload "miner_reward_rows_root");
         ("reputation_delta_rows_root", dget projection_payload "reputation_delta_rows_root");
         ("reputation_delta_rows_count", dget projection_payload "reputation_delta_rows_count");
         ("projection_artifact_id", dget artifact "id")])
  end.

Definition _summarize_settlement_anchor_payload (payload : dict) : res dict :=
  let? response := foldR summarize_ids ["reward_window_ids"; "task_run_ids"] payload in
  let? miner_reward_rows := list_field response "miner_reward_rows" in
  if (length miner_reward_rows <=? POKER_MTT_REWARD_WINDOW_RESPONSE_INLINE_LIMIT)%nat then Ok response
  else
    let? root := _hash_sequence miner_reward_rows in
    let response := dset response "miner_reward_rows_root" (VStr root) in
    let response := dset response "miner_reward_rows_count" (VInt (Z.of_nat (length miner_reward_rows))) in
    let response := dset response "miner_reward_rows_sample" (VList (take 10 miner_reward_rows)) in
    Ok (apop "miner_reward_rows" response).

Definition _summarize_settlement_batch_response (settlement_batch : dict) : res dict :=
  let payload := dget settlement_batch "anchor_payload_json" in
  if truthy payload then
    let? payload := as_dict payload in
    let? summary := _summarize_settlement_anchor_payload payload in
    Ok (dset settlement_batch "anchor_payload_json" (VDict summary))
  else Ok settlement_batch.

Definition _reward_window_storage_matches (existing candidate : dict) : bool :=
  forallb (fun field => py_eq (dget existing field) (dget candidate field))
    ["id"; "lane"; "state"; "window_start_at"; "window_end_at"; "task_count"; "submission_count";
     "miner_count"; "total_reward_amount"; "settlement_batch_id"; "policy_bundle_version"; "canonical_root";
     "task_run_ids"; "miner_addresses"].
