(* ===== verification/ChainAdapter.v ===== *)
(** * Chain adapter: anchor plans and confirmations (chain_adapter.py)

    The pure part of the adapter: the plan of an anchor transaction with its
    hash, and the comparison of an anchor that the chain returns with the one
    that was expected.  Subprocesses and RPC calls are not modelled. *)
From Stdlib Require Import ZArith Lia Ascii String.
From stdpp Require Import base list strings.
From S2P Require Import Prelude PyText PyFloat PyTime PyValue Sha256 Canonical.
Open Scope Z_scope.

Definition CHAIN_ADAPTER_VERSION : string := "clawchain.chain_adapter.v1".
Definition FUTURE_MSG_TYPE_URL : string := "/clawchain.settlement.v1.MsgAnchorSettlementBatch".
Definition TYPED_TX_INTENT_VERSION : string := "clawchain.typed_tx_intent.v1".

(** [json.dumps] with sorted keys, without the canonical form. *)
Definition _stable_hash (payload : dict) : res string :=
  let? text := json_dumps (VDict payload) in
  Ok ("sha256:" +:+ sha256_hex (of_chars text)).

(** [(d.get(k) or {})] *)
Definition dict_field (d : dict) (k : string) : res dict := as_dict (por (dget d k) (VDict [])).

(** ** Confirmation *)

(** The fields of the expected anchor that the queried one does not have. *)
Definition anchor_mismatches (anchor expected_anchor : dict) : list string :=
  map fst (List.filter (fun kv => negb (py_eq (dget anchor kv.1) kv.2)) expected_anchor).

(** The three identifying fields agree. *)
Definition anchor_matches (anchor : dict) (settlement_batch_id canonical_root anchor_payload_hash : value) : bool :=
  py_eq (dget anchor "settlement_batch_id") settlement_batch_id &&
  py_eq (dget anchor "canonical_root") canonical_root &&
  py_eq (dget anchor "anchor_payload_hash") anchor_payload_hash.

(** The status of a queried anchor, with the mismatched fields. *)
Definition anchor_status (anchor : dict) (settlement_batch_id canonical_root anchor_payload_hash : value)
  (expected_anchor : dict) : string * list string :=
  if anchor_matches anchor settlement_batch_id canonical_root anchor_payload_hash then
    match anchor_mismatches anchor expected_anchor with
    | [] => ("confirmed", [])
    | mismatches => ("anchor_metadata_mismatch", mismatches)
    end
  else if negb (py_eq (dget anchor "settlement_batch_id") settlement_batch_id)
  then ("settlement_batch_mismatch", [])
  else ("root_hash_mismatch", []).

(** The status when the chain holds no anchor. *)
Definition missing_status (tx_receipt : dict) (broadcast_method : value) : string :=
  if py_eq_str (dget tx_receipt "confirmation_status") "confirmed"
  then (if py_eq_str broadcast_method "fallback_memo" then "fallback_memo_tx_accepted_no_typed_state"
        else "typed_tx_accepted_state_missing")
  else "state_missing".

(** An empty [expected_anchor] stands for none. *)
Definition confirm_settlement_anchor_response (query_response : dict)
  (settlement_batch_id canonical_root anchor_payload_hash : value) (expected_anchor tx_receipt : dict)
  (broadcast_method : value) : res dict :=
  let? anchor := as_dict (por (dget query_response "anchor") (VDict query_response)) in
  let answer confirmed status root hash :=
    [("settlement_batch_id", settlement_batch_id);
     ("confirmed", VBool confirmed);
     ("confirmation_status", VStr status);
     ("canonical_root", root);
     ("anchor_payload_hash", hash);
     ("query_response", VDict query_response);
     ("tx_receipt", VDict tx_receipt);
     ("broadcast_method", broadcast_method)] in
  match anchor with
  | [] => Ok (answer false (missing_status tx_receipt broadcast_method) VNone VNone)
  | _ =>
      let '(status, mismatches) :=
        anchor_status anchor settlement_batch_id canonical_root anchor_payload_hash expected_anchor in
      let result := answer (String.eqb status "confirmed") status
                      (dget anchor "canonical_root") (dget anchor "anchor_payload_hash") in
      Ok (match expected_anchor with
          | [] => result
          | _ => result ++ [("metadata_mismatches", VList (map VStr mismatches));
                            ("expected_anchor", VDict expected_anchor)]
          end)
  end.

(** ** Plans *)

Definition _build_typed_tx_intent (future_msg : dict) (memo : string) : dict :=
  [("version", VStr TYPED_TX_INTENT_VERSION);
   ("body", VDict [("messages", VList [VDict future_msg]); ("memo", VStr memo); ("timeout_height", VInt 0)]);
   ("auth_info_hints", VDict
     [("sign_mode", VStr "direct");
      ("fee_hint", VDict [("amount", VStr "10uclaw"); ("gas_limit", VInt 200000)]);
      ("signer_hint", VDict [("role", VStr "anchor_submitter");
                             ("account_number_source", VStr "anchor_runtime");
                             ("sequence_source", VStr "anchor_runtime")])]);
   ("sign_doc_hints", VDict [("chain_id", VStr "clawchain-testnet-1")]);
   ("broadcast_hint", VDict [("mode", VStr "sync")])].

Definition future_msg_value (settlement_batch payload : dict) (batch_id job_id canonical_root : value) : dict :=
  [("settlement_batch_id", batch_id);
   ("anchor_job_id", job_id);
   ("lane", dget settlement_batch "lane");
   ("schema_version", por (dget settlement_batch "anchor_schema_version") (dget payload "schema_version"));
   ("policy_bundle_version", dget payload "policy_bundle_version");
   ("canonical_root", canonical_root);
   ("anchor_payload_hash", dget settlement_batch "anchor_payload_hash");
   ("reward_window_ids_root", dget payload "reward_window_ids_root");
   ("task_run_ids_root", dget payload "task_run_ids_root");
   ("miner_reward_rows_root", dget payload "miner_reward_rows_root");
   ("window_end_at", dget settlement_batch "window_end_at");
   ("total_reward_amount", dget_or settlement_batch "total_reward_amount" (VInt 0))].

Definition build_anchor_tx_plan (anchor_job settlement_batch : dict) : res dict :=
  let? payload := dict_field settlement_batch "anchor_payload_json" in
  let canonical_root := por (dget settlement_batch "canonical_root") (dget payload "canonical_root") in
  let? batch_id := dgetitem settlement_batch "id" in
  let? id_text := py_str batch_id in
  let? root_text := py_str canonical_root in
  let memo := "anchor:v1:" +:+ id_text +:+ ":" +:+ root_text in
  let? job_id := dgetitem anchor_job "id" in
  let future_msg := [("type_url", VStr FUTURE_MSG_TYPE_URL);
                     ("value", VDict (future_msg_value settlement_batch payload batch_id job_id canonical_root))] in
  let plan_core :=
    [("adapter_version", VStr CHAIN_ADAPTER_VERSION);
     ("tx_builder_kind", VStr "cosmos_anchor_intent_v1");
     ("execution_mode", VStr "build_only");
     ("chain_family", VStr "cosmos_sdk");
     ("settlement_batch_id", batch_id);
     ("anchor_job_id", job_id);
     ("canonical_root", canonical_root);
     ("anchor_payload_hash", dget settlement_batch "anchor_payload_hash");
     ("future_msg", VDict future_msg);
     ("typed_tx_intent", VDict (_build_typed_tx_intent future_msg memo));
     ("fallback_memo", VStr memo)] in
  let? plan_hash := _stable_hash plan_core in
  Ok (plan_core ++ [("plan_hash", VStr plan_hash)]).
