(* ===== verification/Protobuf.v ===== *)
(** * Protocol buffer fields (chain_adapter.py 307-343)

    The varint, key and length-delimited encoders that every message of a typed
    transaction is built from, with a reader of the wire format as the reference:
    a varint reads back and stops where it ends, and so does a list of fields.
    A byte is an integer below 256. *)
From Stdlib Require Import ZArith Lia Ascii String.
From stdpp Require Import base list strings.
From S2P Require Import Prelude PyText PyFloat PyTime PyValue.
Open Scope Z_scope.

(** ** Operations *)

(** The loop of [_encode_varint]: seven bits a byte, the least significant
    first.  [None] when the fuel is spent. *)
Fixpoint varint_loop (fuel : nat) (value : Z) : option (list Z) :=
  match fuel with
  | O => None
  | S fuel =>
      let current := Z.land value 127 in
      let value := Z.shiftr value 7 in
      if negb (value =? 0)
      then option_map (cons (Z.lor current 128)) (varint_loop fuel value)
      else Some [current]
  end.

Definition _encode_varint (value : Z) : res (list Z) :=
  if value <? 0 then Err (ValueError "varint only supports non-negative values")
  else of_option (varint_loop (S (Z.to_nat (Z.log2 value))) value) (Unmodelled "fuel").

Definition _encode_field_key (field_number wire_type : Z) : res (list Z) :=
  _encode_varint (Z.lor (Z.shiftl field_number 3) wire_type).

(** [None] and no bytes are the same. *)
Definition _encode_bytes_field (field_number : Z) (value : list Z) : res (list Z) :=
  match value with
  | [] => Ok []
  | _ =>
      let? key := _encode_field_key field_number 2 in
      let? len := _encode_varint (Z.of_nat (length value)) in
      Ok (key ++ len ++ value)
  end.

Definition _encode_string_field (field_number : Z) (value : value) : res (list Z) :=
  if negb (truthy value) then Ok []
  else match value with
       | VStr s => _encode_bytes_field field_number (utf8 s)
       | _ => Err AttributeError
       end.

Definition _encode_uint64_field (field_number : Z) (value : value) : res (list Z) :=
  if is_none value then Ok []
  else
    let? int_value := py_int value in
    if int_value =? 0 then Ok []
    else
      let? key := _encode_field_key field_number 0 in
      let? number := _encode_varint int_value in
      Ok (key ++ number).

(** [b"".join([...])]: the pieces are evaluated from left to right. *)
Definition join_bytes (pieces : list (res (list Z))) : res (list Z) :=
  let? l := mapR (fun p => p) pieces in Ok (concat l).

(** ** The wire format *)

(** A reader of varints: the value and the bytes that follow it. *)
Fixpoint read_varint (l : list Z) : option (Z * list Z) :=
  match l with
  | [] => None
  | b :: l =>
      if b <? 128 then Some (b, l)
      else match read_varint l with
           | Some (n, rest) => Some (b - 128 + 128 * n, rest)
           | None => None
           end
  end.

(** The content of a field: wire types 0 and 2. *)
Inductive wire :=
| Varint (n : Z)
| Bytes (l : list Z).

Definition read_field (l : list Z) : option (Z * wire * list Z) :=
  match read_varint l with
  | Some (key, l) =>
      match read_varint l with
      | Some (n, l) =>
          if key mod 8 =? 0 then Some (key / 8, Varint n, l)
          else if key mod 8 =? 2 then
            if Z.of_nat (length l) <? n then None
            else Some (key / 8, Bytes (take (Z.to_nat n) l), drop (Z.to_nat n) l)
          else None
      | None => None
      end
  | None => None
  end.

(** A message is a list of numbered fields; a field takes at least one byte,
    so that the length of the text is fuel enough. *)
Fixpoint read_fields (fuel : nat) (l : list Z) : option (list (Z * wire)) :=
  match l, fuel with
  | [], _ => Some []
  | _, O => None
  | _, S fuel =>
      match read_field l with
      | Some (number, w, l) => option_map (cons (number, w)) (read_fields fuel l)
      | None => None
      end
  end.
Definition read_message (l : list Z) : option (list (Z * wire)) := read_fields (length l) l.

(** What a reader of a message takes a field to hold: the occurrences of a
    repeated field in order; of a single one the last, and the default, empty
    or zero, when it is missing. *)
Definition field_bytes_all (number : Z) (m : list (Z * wire)) : list (list Z) :=
  omap (fun f : Z * wire =>
    match f with (k, Bytes l) => if k =? number then Some l else None | _ => None end) m.
Definition field_bytes (number : Z) (m : list (Z * wire)) : list Z :=
  default [] (last (field_bytes_all number m)).
Definition field_varint (number : Z) (m : list (Z * wire)) : Z :=
  default 0 (last (omap (fun f : Z * wire =>
    match f with (k, Varint n) => if k =? number then Some n else None | _ => None end) m)).

Definition is_byte (b : Z) : Prop := 0 <= b < 256.

(** ** Lemmas: varints *)

Lemma utf8_bytes s : Forall is_byte (utf8 s).
Proof.
  unfold utf8. apply Forall_concat, List.Forall_map, List.Forall_forall. intros c _.
  unfold utf8_char, is_byte. pose proof (code_range c). pose proof (Z.mod_pos_bound (code c) 64 eq_refl).
  pose proof (Z.div_pos (code c) 64). assert (code c / 64 < 4) by (apply Z.div_lt_upper_bound; lia).
  destruct (Z.ltb_spec (code c) 128); repeat constructor; lia.
Qed.

Lemma land_127 v : Z.land v 127 = v mod 128.
Proof. change 127 with (Z.ones 7). by rewrite Z.land_ones. Qed.

Lemma shiftr_7 v : Z.shiftr v 7 = v / 128.
Proof. by rewrite Z.shiftr_div_pow2. Qed.

(** The lower bits are free: [or] is addition. *)
Lemma lor_add a b k : 0 <= k -> 0 <= a < 2 ^ k -> Z.lor (Z.shiftl b k) a = b * 2 ^ k + a.
Proof.
  intros Hk Ha. rewrite <- Z.shiftl_mul_pow2 by done.
  pose proof (Z.add_lor_land (Z.shiftl b k) a) as E.
  assert (Z.land (Z.shiftl b k) a = 0) as E0; [|lia].
  rewrite <- (Z.mod_small a (2 ^ k)), <- Z.land_ones by done.
  rewrite (Z.land_comm a), Z.land_assoc, Z.land_ones, Z.shiftl_mul_pow2, Z_mod_mult by done.
  apply Z.land_0_l.
Qed.

Lemma lor_128 a : 0 <= a < 128 -> Z.lor a 128 = 128 + a.
Proof. intros Ha. rewrite Z.lor_comm. by apply (lor_add a 1 7). Qed.

Lemma varint_loop_reads fuel v :
  0 <= v < 2 ^ Z.of_nat fuel -> (0 < fuel)%nat ->
  exists l, varint_loop fuel v = Some l /\ l <> [] /\
    (forall rest, read_varint (l ++ rest) = Some (v, rest)) /\ Forall is_byte l.
Proof.
  revert v. induction fuel as [|fuel IH]; intros v Hv Hf; [lia|]. simpl.
  rewrite land_127, shiftr_7. pose proof (Z.mod_pos_bound v 128 eq_refl) as Hm.
  pose proof (Z.div_mod v 128 ltac:(done)) as Hd.
  destruct (Z.eqb_spec (v / 128) 0) as [E|E]; simpl.
  - eexists. split_and!; [done|done| |repeat constructor; unfold is_byte; lia]. intros rest. simpl.
    assert (v mod 128 = v) as -> by lia. by destruct (Z.ltb_spec v 128); [|lia].
  - assert (0 < v / 128) by (pose proof (Z.div_pos v 128); lia).
    rewrite Nat2Z.inj_succ, Z.pow_succ_r in Hv by lia.
    destruct (IH (v / 128)) as (l & -> & _ & Hr & Hb).
    { split; [lia|]. apply Z.div_lt_upper_bound; lia. }
    { destruct fuel; [simpl in Hv; lia|lia]. }
    rewrite lor_128 by done. simpl. eexists. split_and!; [done|done| |constructor; [unfold is_byte; lia|done]].
    intros rest. simpl. destruct (Z.ltb_spec (128 + v mod 128) 128); [lia|].
    rewrite Hr. do 2 f_equal. lia.
Qed.

Lemma varint_ok v :
  0 <= v -> exists l, _encode_varint v = Ok l /\ l <> [] /\
    (forall rest, read_varint (l ++ rest) = Some (v, rest)) /\ Forall is_byte l.
Proof.
  intros Hv. unfold _encode_varint. destruct (Z.ltb_spec v 0); [lia|].
  destruct (varint_loop_reads (S (Z.to_nat (Z.log2 v))) v) as (l & -> & Hl); [|lia|by exists l].
  rewrite Nat2Z.inj_succ, Z2Nat.id by apply Z.log2_nonneg.
  destruct (Z.eq_dec v 0) as [->|]; [done|]. split; [done|]. apply Z.log2_spec; lia.
Qed.

(** The number of bytes: seven bits each. *)
Lemma varint_loop_length fuel k v l :
  0 <= v < 128 ^ Z.of_nat k -> (0 < k)%nat -> varint_loop fuel v = Some l -> (length l <= k)%nat.
Proof.
  revert k v l. induction fuel as [|fuel IH]; intros k v l Hv Hk; simpl; [done|].
  rewrite shiftr_7. destruct (Z.eqb_spec (v / 128) 0) as [E|E]; simpl; [intros [= <-]; simpl; lia|].
  destruct (varint_loop fuel (v / 128)) as [l'|] eqn:El; [|done]. simpl. intros [= <-]. simpl.
  destruct k as [|k]; [lia|]. rewrite Nat2Z.inj_succ, Z.pow_succ_r in Hv by lia.
  destruct k as [|k].
  { simpl in Hv. rewrite Z.div_small in E; lia. }
  apply (IH (S k)) in El; [lia| |lia]. split; [apply Z.div_pos; lia|apply Z.div_lt_upper_bound; lia].
Qed.

(** [_encode_varint] ends on every integer: a negative one raises, any other
    gives bytes that a reader of varints takes back, stopping exactly at their
    end whatever follows. *)
Theorem varint_roundtrip v :
  if v <? 0
  then _encode_varint v = Err (ValueError "varint only supports non-negative values")
  else exists l, _encode_varint v = Ok l /\ Forall is_byte l /\
         forall rest, read_varint (l ++ rest) = Some (v, rest).
Proof.
  destruct (Z.ltb_spec v 0) as [Hv|Hv].
  - unfold _encode_varint. by apply Z.ltb_lt in Hv as ->.
  - destruct (varint_ok v Hv) as (l & Hl & _ & Hr & Hb). eauto.
Qed.

(** ** Lemmas: fields *)

Lemma key_parts n t : 0 <= n -> 0 <= t < 8 -> Z.lor (Z.shiftl n 3) t = n * 8 + t.
Proof. intros Hn Ht. by apply (lor_add t n 3). Qed.

Lemma key_ok n t :
  0 <= n -> 0 <= t < 8 ->
  exists l, _encode_field_key n t = Ok l /\ l <> [] /\ Forall is_byte l /\
    forall rest, read_varint (l ++ rest) = Some (n * 8 + t, rest).
Proof.
  intros Hn Ht. unfold _encode_field_key. rewrite key_parts by done.
  destruct (varint_ok (n * 8 + t)) as (l & Hl & Hne & Hr & Hb); [lia|]. eauto 10.
Qed.

(** The bytes [e] are the field [f], and a reader sees where they end. *)
Definition field_text (e : list Z) (f : Z * wire) : Prop :=
  e <> [] /\ Forall is_byte e /\ forall rest, read_field (e ++ rest) = Some (f.1, f.2, rest).

(** The bytes of a list of fields. *)
Inductive encodes : list Z -> list (Z * wire) -> Prop :=
| encodes_nil : encodes [] []
| encodes_cons e f e' m : field_text e f -> encodes e' m -> encodes (e ++ e') (f :: m).

Lemma encodes_one e f : field_text e f -> encodes e [f].
Proof. intros Hf. rewrite <- (app_nil_r e). repeat constructor; apply Hf. Qed.

Lemma encodes_app e1 m1 e2 m2 : encodes e1 m1 -> encodes e2 m2 -> encodes (e1 ++ e2) (m1 ++ m2).
Proof.
  induction 1 as [|e f e' m Hf _ IH]; intros H2; simpl; [done|].
  rewrite <- app_assoc. constructor; auto.
Qed.

Lemma read_fields_encodes e m fuel : encodes e m -> (length e <= fuel)%nat -> read_fields fuel e = Some m.
Proof.
  intros Hm. revert fuel. induction Hm as [|e f e' m (Hne & _ & Hf) _ IH]; intros fuel Hlen; [by destruct fuel|].
  rewrite length_app in Hlen. destruct e as [|b e]; [done|].
  destruct fuel as [|fuel]; [simpl in Hlen; lia|].
  cbn [read_fields app]. specialize (Hf e'). cbn [app] in Hf. rewrite Hf.
  rewrite IH by (simpl in Hlen; lia). by destruct f.
Qed.

Lemma encodes_bytes e m : encodes e m -> Forall is_byte e.
Proof. induction 1 as [|e f e' m (_ & Hb & _) _ IH]; [constructor|]. by rewrite Forall_app. Qed.

Lemma read_message_encodes e m : encodes e m -> read_message e = Some m.
Proof. intros Hm. by apply read_fields_encodes. Qed.

Definition bytes_fields (number : Z) (l : list Z) : list (Z * wire) :=
  match l with [] => [] | _ => [(number, Bytes l)] end.
Definition varint_fields (number n : Z) : list (Z * wire) :=
  if n =? 0 then [] else [(number, Varint n)].

Lemma bytes_field_encodes n l :
  0 <= n -> Forall is_byte l -> exists e, _encode_bytes_field n l = Ok e /\ encodes e (bytes_fields n l).
Proof.
  intros Hn Hl. destruct l as [|b l]; [exists []; split; [done|constructor]|].
  unfold _encode_bytes_field, bytes_fields. set (v := b :: l) in *.
  destruct (key_ok n 2 Hn) as (key & -> & Hne & Hkb & Hk); [done|].
  destruct (varint_ok (Z.of_nat (length v))) as (len & -> & _ & Hlen & Hlb); [lia|]. simpl.
  eexists. split; [done|]. apply encodes_one. split; [by destruct key|].
  split; [by rewrite !Forall_app|]. intros rest.
  unfold read_field. rewrite <- !app_assoc, Hk, Hlen. clearbody v.
  rewrite Z.add_comm, Z_mod_plus_full, Z_div_plus_full by done. simpl.
  rewrite length_app, Nat2Z.inj_add. destruct (Z.ltb_spec (Z.of_nat (length v) + Z.of_nat (length rest)) (Z.of_nat (length v))); [lia|].
  rewrite Nat2Z.id, take_app_length, drop_app_length. done.
Qed.

(** What a string field and an integer field hold on the wire: what is falsy is
    left out, and reads back as the default. *)
Definition wire_text (v : value) : list Z := match v with VStr s => utf8 s | _ => [] end.
Definition wire_amount (v : value) : Z :=
  match py_int v with Ok n => n | Err _ => 0 end.

Lemma string_field_encodes n v e :
  0 <= n -> _encode_string_field n v = Ok e -> encodes e (bytes_fields n (wire_text v)).
Proof.
  intros Hn. unfold _encode_string_field. destruct (truthy v) eqn:Ht; simpl.
  - destruct v; try discriminate. simpl. intros He.
    destruct (bytes_field_encodes n (utf8 s) Hn (utf8_bytes s)) as (e' & He' & H). rewrite He' in He. by injection He as <-.
  - intros [= <-]. destruct v as [| | | |s| | |]; try apply encodes_nil. simpl in *.
    destruct (String.eqb_spec s ""); [subst; apply encodes_nil|done].
Qed.

Lemma uint64_field_encodes n v e :
  0 <= n -> _encode_uint64_field n v = Ok e ->
  0 <= wire_amount v /\ encodes e (varint_fields n (wire_amount v)).
Proof.
  intros Hn. unfold _encode_uint64_field, wire_amount. destruct (is_none v) eqn:Hnone.
  { destruct v; try discriminate. intros [= <-]. split; [done|apply encodes_nil]. }
  destruct (py_int v) as [k|]; [|done]. simpl. unfold varint_fields.
  destruct (Z.eqb_spec k 0); [intros [= <-]; split; [lia|apply encodes_nil]|].
  destruct (key_ok n 0 Hn) as (key & -> & Hne & Hkb & Hk); [done|]. simpl. intros He. ok_inv.
  assert (0 <= k) as Hk0.
  { unfold _encode_varint in H. by destruct (Z.ltb_spec k 0). }
  split; [done|]. destruct (varint_ok k Hk0) as (l & Hl & _ & Hr & Hb). rewrite Hl in H. injection H as <-.
  apply encodes_one. split; [by destruct key|]. split; [by rewrite Forall_app|]. intros rest.
  unfold read_field. rewrite <- app_assoc, Hk, Hr.
  rewrite Z.add_comm, Z_mod_plus_full, Z_div_plus_full by done. done.
Qed.

Lemma join_encodes pieces ms e :
  Forall2 (fun p m => forall e, p = Ok e -> encodes e m) pieces ms ->
  join_bytes pieces = Ok e -> encodes e (concat ms).
Proof.
  unfold join_bytes. intros HF He. ok_inv. revert a H.
  induction HF as [|p m pieces ms Hp _ IH]; intros a Ha; simpl in Ha; [simplify_eq; constructor|].
  ok_inv. simpl. apply encodes_app; auto.
Qed.

Lemma field_bytes_all_app k m1 m2 :
  field_bytes_all k (m1 ++ m2) = field_bytes_all k m1 ++ field_bytes_all k m2.
Proof. apply omap_app. Qed.

Lemma field_bytes_all_bytes k n l :
  field_bytes_all k (bytes_fields n l) =
    if n =? k then match l with [] => [] | _ => [l] end else [].
Proof. destruct l; unfold field_bytes_all, bytes_fields; simpl; by destruct (n =? k). Qed.

Lemma field_bytes_all_varint k n v : field_bytes_all k (varint_fields n v) = [].
Proof. unfold varint_fields. by destruct (v =? 0). Qed.

Definition field_varint_all (number : Z) (m : list (Z * wire)) : list Z :=
  omap (fun f : Z * wire =>
    match f with (k, Varint n) => if k =? number then Some n else None | _ => None end) m.

Lemma field_varint_all_app k m1 m2 :
  field_varint_all k (m1 ++ m2) = field_varint_all k m1 ++ field_varint_all k m2.
Proof. apply omap_app. Qed.

Lemma field_varint_all_varint k n v :
  field_varint_all k (varint_fields n v) = if n =? k then (if v =? 0 then [] else [v]) else [].
Proof.
  unfold field_varint_all, varint_fields. destruct (v =? 0); simpl; [by destruct (n =? k)|].
  by destruct (n =? k).
Qed.

Lemma field_varint_all_bytes k n l : field_varint_all k (bytes_fields n l) = [].
Proof. by destruct l. Qed.

Lemma field_bytes_read k m l :
  field_bytes_all k m = match l with [] => [] | _ => [l] end -> field_bytes k m = l.
Proof. unfold field_bytes. intros ->. by destruct l. Qed.

Lemma field_varint_read k m v :
  field_varint_all k m = (if v =? 0 then [] else [v]) -> field_varint k m = v.
Proof.
  unfold field_varint. unfold field_varint_all. intros ->. by destruct (Z.eqb_spec v 0) as [->|].
Qed.

Create Rewrite HintDb wire.
#[export] Hint Rewrite field_bytes_all_app field_bytes_all_bytes field_bytes_all_varint
  field_varint_all_app field_varint_all_varint field_varint_all_bytes @app_nil_r : wire.

(** Reads one field of a message written as a list of optional fields. *)
Ltac read_wire :=
  first [apply field_bytes_read | apply field_varint_read];
  cbn [concat map app]; autorewrite with wire; simpl; by rewrite ?app_nil_r.

(** ** Lemmas: hexadecimal *)

Lemma hex_digit_inj a b : 0 <= a < 16 -> 0 <= b < 16 -> hex_digit a = hex_digit b -> a = b.
Proof.
  intros Ha Hb E. apply (f_equal code) in E. unfold hex_digit in E.
  destruct (Z.ltb_spec a 10), (Z.ltb_spec b 10); rewrite !code_chr in E; lia.
Qed.

(** The hexadecimal text shows the bytes. *)
Lemma hex_bytes_inj l1 l2 :
  Forall is_byte l1 -> Forall is_byte l2 -> hex_bytes l1 = hex_bytes l2 -> l1 = l2.
Proof.
  assert (forall l, chars (hex_bytes l) = concat (map (fun b => chars (hex_byte b)) l)) as Hc.
  { unfold hex_bytes. induction l as [|b [|b' l] IH]; [done|done|].
    cbn [map concat] in *. rewrite <- IH. cbn [String.concat]. by rewrite !chars_app. }
  intros H1 H2 E. apply (f_equal chars) in E. rewrite !Hc in E. clear Hc. revert l2 H2 E.
  induction H1 as [|a l1 Ha _ IH]; intros [|b l2] H2 E; try done. simpl in E.
  apply Forall_cons in H2 as [Hb H2]. unfold is_byte in *.
  injection E as E1 E2 E. f_equal; [|auto].
  pose proof (Z.mod_pos_bound a 16 eq_refl). pose proof (Z.mod_pos_bound b 16 eq_refl).
  pose proof (Z.div_pos a 16). pose proof (Z.div_pos b 16).
  assert (a / 16 < 16) by (apply Z.div_lt_upper_bound; lia).
  assert (b / 16 < 16) by (apply Z.div_lt_upper_bound; lia).
  apply hex_digit_inj in E1, E2; [|lia..].
  rewrite (Z.div_mod a 16), (Z.div_mod b 16) by done. lia.
Qed.
