(* ===== verification/TxEncoding.v ===== *)
(** * Typed transactions (chain_adapter.py 16-27, 346-581)

    The bytes of an anchor transaction: the message, the body, the signer and
    the fee, the document to sign, and [compile_typed_tx_intent] that puts them
    together.  The theorems: a reader of the wire format gets every field back
    from the bytes, so that what is signed determines the transaction. *)
From Stdlib Require Import ZArith Lia Ascii String.
From stdpp Require Import base list strings.
From S2P Require Import Prelude PyText PyFloat PyTime PyValue Sha256 Canonical ChainAdapter Protobuf.
Open Scope Z_scope.

(** ** Constants and patterns *)

Definition DEFAULT_TYPED_SIGN_MODE : string := "direct".
Definition DEFAULT_TYPED_CHAIN_ID : string := "clawchain-testnet-1".
Definition DEFAULT_TYPED_FEE_AMOUNT : string := "10uclaw".
Definition DEFAULT_TYPED_GAS_LIMIT : Z := 200000.
Definition DEFAULT_TYPED_SIGN_MODE_ENUM : Z := 1.
Definition ALLOWED_ANCHOR_SCHEMA_VERSIONS : list string := ["settlement.v1"; "clawchain.anchor_payload.v1"].

Definition is_lower (c : ascii) : bool := (97 <=? code c) && (code c <=? 122).
Definition is_upper (c : ascii) : bool := (65 <=? code c) && (code c <=? 90).
Definition is_lower_hex (c : ascii) : bool := is_digit c || ((97 <=? code c) && (code c <=? 102)).

(** [_HASH_VALUE_RE.fullmatch]: [^sha256:[0-9a-f]{64}$]. *)
Definition _HASH_VALUE_RE (s : string) : bool :=
  match drop_prefix (chars "sha256:") (chars s) with
  | Some l => Nat.eqb (length l) 64 && forallb is_lower_hex l
  | None => false
  end.

(** [_CLAWCHAIN_ADDRESS_RE.fullmatch]: [^claw1[0-9a-z]+$]. *)
Definition _CLAWCHAIN_ADDRESS_RE (s : string) : bool :=
  match drop_prefix (chars "claw1") (chars s) with
  | Some l => negb (Nat.eqb (length l) 0) && forallb (fun c => is_digit c || is_lower c) l
  | None => false
  end.

(** The longest prefix in a class, and the rest. *)
Fixpoint span (f : ascii -> bool) (l : list ascii) : list ascii * list ascii :=
  match l with
  | [] => ([], [])
  | c :: l' => if f c then let '(a, b) := span f l' in (c :: a, b) else ([], l)
  end.

(** [_COIN_AMOUNT_RE.fullmatch]: digits, then a letter and characters of a
    denomination; the two groups. *)
Definition denom_char (c : ascii) : bool :=
  is_lower c || is_upper c || is_digit c || existsb (Ascii.eqb c) (chars "/:._-").
Definition _COIN_AMOUNT_RE (s : string) : option (string * string) :=
  let '(amount, denom) := span is_digit (chars s) in
  match amount, denom with
  | _ :: _, c :: l =>
      if (is_lower c || is_upper c) && forallb denom_char l
      then Some (of_chars amount, of_chars denom) else None
  | _, _ => None
  end.

(** [repr(s)] of a string. *)
Definition is_printable (c : ascii) : bool :=
  let n := code c in ((32 <=? n) && (n <=? 126)) || ((161 <=? n) && negb (n =? 173)).
Definition repr_char (q : ascii) (c : ascii) : list ascii :=
  if Ascii.eqb c q || Ascii.eqb c "\"%char then ["\"%char; c]
  else if code c =? 9 then chars "\t"
  else if code c =? 10 then chars "\n"
  else if code c =? 13 then chars "\r"
  else if is_printable c then [c]
  else chars "\x" ++ chars (hex_byte (code c)).
Definition str_repr (s : string) : string :=
  let has c := existsb (Ascii.eqb c) (chars s) in
  let q := if has (chr 39) && negb (has (chr 34)) then chr 34 else chr 39 in
  of_chars (q :: concat (map (repr_char q) (chars s)) ++ [q]).

(** [f"{v!r}"] *)
Definition py_repr (v : value) : res string :=
  match v with VStr s => Ok (str_repr s) | _ => py_str v end.

(** ** Messages *)

Definition _encode_any (type_url : value) (value_bytes : list Z) : res (list Z) :=
  join_bytes [_encode_string_field 1 type_url; _encode_bytes_field 2 value_bytes].

(** The fields of the message, by their number on the wire. *)
Definition anchor_text_fields : list (Z * string) :=
  [(1, "submitter"); (2, "settlement_batch_id"); (3, "anchor_job_id"); (4, "lane");
   (5, "schema_version"); (6, "policy_bundle_version"); (7, "canonical_root");
   (8, "anchor_payload_hash"); (9, "reward_window_ids_root"); (10, "task_run_ids_root");
   (11, "miner_reward_rows_root"); (12, "window_end_at")].

Definition _encode_anchor_settlement_msg (message_value : dict) : res (list Z) :=
  join_bytes (map (fun f => _encode_string_field f.1 (dget message_value f.2)) anchor_text_fields ++
              [_encode_uint64_field 13 (dget message_value "total_reward_amount")]).

(** [str(message_value.get(k) or "").strip()] *)
Definition stripped_field (message_value : dict) (k : string) : res string :=
  let? s := str_or_empty (dget message_value k) in Ok (str_strip s).

(** A field that must be the hash of something. *)
Definition require_hash (message_value : dict) (field : string) : res unit :=
  let? root := stripped_field message_value field in
  guard (_HASH_VALUE_RE root) (ValueError (field +:+ " must be a sha256:<64 lowercase hex> value")).

Definition _validate_anchor_settlement_message_value (message_value : dict) : res unit :=
  let? submitter := stripped_field message_value "submitter" in
  let? _ := guard (_CLAWCHAIN_ADDRESS_RE submitter) (ValueError "invalid submitter address") in
  let? batch_id := stripped_field message_value "settlement_batch_id" in
  let? _ := guard (negb (String.eqb batch_id "")) (ValueError "settlement_batch_id is required") in
  let? job_id := stripped_field message_value "anchor_job_id" in
  let? _ := guard (negb (String.eqb job_id "")) (ValueError "anchor_job_id is required") in
  let? schema_version := stripped_field message_value "schema_version" in
  let? _ := guard (existsb (String.eqb schema_version) ALLOWED_ANCHOR_SCHEMA_VERSIONS)
                  (ValueError ("unsupported schema version " +:+ str_repr schema_version)) in
  let? _ := require_hash message_value "canonical_root" in
  let? _ := require_hash message_value "anchor_payload_hash" in
  let? _ := require_hash message_value "reward_window_ids_root" in
  let? _ := require_hash message_value "task_run_ids_root" in
  require_hash message_value "miner_reward_rows_root".

Definition _encode_typed_message (message : dict) : res (list Z) :=
  let type_url := dget message "type_url" in
  if negb (py_eq type_url (VStr FUTURE_MSG_TYPE_URL)) then
    let? text := py_str type_url in Err (ValueError ("unsupported typed message " +:+ text))
  else
    let? value := dict_field message "value" in
    let? value_bytes := _encode_anchor_settlement_msg value in
    _encode_any type_url value_bytes.

Definition _encode_tx_body (messages : list dict) (memo timeout_height : value) : res (list Z) :=
  let? encoded_messages :=
    mapR (fun message => let? m := _encode_typed_message message in _encode_bytes_field 1 m) messages in
  join_bytes (map Ok encoded_messages ++
              [_encode_string_field 2 memo; _encode_uint64_field 3 timeout_height]).

(** ** base64 ([base64.b64decode] without validation) *)

Definition b64_value (c : ascii) : option Z :=
  let n := code c in
  if is_upper c then Some (n - 65)
  else if is_lower c then Some (n - 71)
  else if is_digit c then Some (n + 4)
  else if Ascii.eqb c "+"%char then Some 62
  else if Ascii.eqb c "/"%char then Some 63
  else None.

(** The state of the decoder: the bytes so far, the position in a group of four
    characters, the bits left over, the padding seen since the last character.
    Characters outside the alphabet are skipped. *)
Fixpoint b64_loop (l : list ascii) (out : list Z) (quad_pos left pads : Z) : res (list Z) :=
  match l with
  | [] =>
      if quad_pos =? 0 then Ok out
      else if quad_pos =? 1 then
        Err (ValueError ("Invalid base64-encoded string: number of data characters (" +:+
                         string_of_Z (Z.of_nat (length out) / 3 * 4 + 1) +:+
                         ") cannot be 1 more than a multiple of 4"))
      else Err (ValueError "Incorrect padding")
  | c :: l =>
      if Ascii.eqb c "="%char then
        if 2 <=? quad_pos then
          if 4 <=? quad_pos + (pads + 1) then Ok out else b64_loop l out quad_pos left (pads + 1)
        else b64_loop l out quad_pos left pads
      else match b64_value c with
           | None => b64_loop l out quad_pos left pads
           | Some v =>
               if quad_pos =? 0 then b64_loop l out 1 v 0
               else if quad_pos =? 1 then
                 b64_loop l (out ++ [Z.lor (Z.shiftl left 2) (Z.shiftr v 4)]) 2 (Z.land v 15) 0
               else if quad_pos =? 2 then
                 b64_loop l (out ++ [Z.lor (Z.shiftl left 4) (Z.shiftr v 2)]) 3 (Z.land v 3) 0
               else b64_loop l (out ++ [Z.lor (Z.shiftl left 6) v]) 0 0 0
           end
  end.

Definition b64decode (v : value) : res (list Z) :=
  match v with
  | VStr s =>
      if forallb (fun c => code c <? 128) (chars s) then b64_loop (chars s) [] 0 0 0
      else Err (ValueError "string argument should contain only ASCII characters")
  | _ => Err TypeError
  end.

(** ** Signer, fee and documents *)

Definition SECP256K1_PUBKEY : string := "/cosmos.crypto.secp256k1.PubKey".

(** The dictionary of [_normalize_public_key], as a tuple: ["@type"], ["key"]
    and ["value_bytes"]. *)
Definition _normalize_public_key (public_key : dict) : res (value * value * list Z) :=
  let type_url := por (dget public_key "@type") (dget public_key "type_url") in
  let key_base64 := dget public_key "key" in
  if negb (py_eq type_url (VStr SECP256K1_PUBKEY)) then
    let? text := py_str type_url in Err (ValueError ("unsupported public key type " +:+ text))
  else if negb (truthy key_base64) then Err (ValueError "missing public key bytes")
  else
    let? key_bytes := b64decode key_base64 in
    let? value_bytes := _encode_bytes_field 1 key_bytes in
    Ok (type_url, key_base64, value_bytes).

Definition _encode_mode_info (sign_mode : Z) : res (list Z) :=
  let? key := _encode_field_key 1 0 in
  let? mode := _encode_varint sign_mode in
  _encode_bytes_field 1 (key ++ mode).

Definition _parse_coin_amount (coin_amount : value) : res (string * string) :=
  match por coin_amount (VStr "") with
  | VStr s =>
      match _COIN_AMOUNT_RE (str_strip s) with
      | Some groups => Ok groups
      | None => let? text := py_repr coin_amount in Err (ValueError ("invalid coin amount " +:+ text))
      end
  | _ => Err AttributeError
  end.

Definition _encode_coin (coin_amount : value) : res (list Z) :=
  let? (amount, denom) := _parse_coin_amount coin_amount in
  join_bytes [_encode_string_field 1 (VStr denom); _encode_string_field 2 (VStr amount)].

Definition _encode_fee (coin_amount gas_limit : value) : res (list Z) :=
  join_bytes [(let? coin := _encode_coin coin_amount in _encode_bytes_field 1 coin);
              _encode_uint64_field 2 gas_limit].

Definition _encode_signer_info (public_key : dict) (sequence : value) (sign_mode : Z) : res (list Z) :=
  let? (type_url, _, value_bytes) := _normalize_public_key public_key in
  join_bytes [(let? any := _encode_any type_url value_bytes in _encode_bytes_field 1 any);
              (let? mode := _encode_mode_info sign_mode in _encode_bytes_field 2 mode);
              _encode_uint64_field 3 sequence].

Definition _encode_auth_info (public_key : dict) (sequence : value) (sign_mode : Z)
  (fee_amount gas_limit : value) : res (list Z) :=
  join_bytes [(let? signer := _encode_signer_info public_key sequence sign_mode in
               _encode_bytes_field 1 signer);
              (let? fee := _encode_fee fee_amount gas_limit in _encode_bytes_field 2 fee)].

Definition _encode_sign_doc (body_bytes auth_info_bytes : list Z) (chain_id account_number : value) : res (list Z) :=
  join_bytes [_encode_bytes_field 1 body_bytes; _encode_bytes_field 2 auth_info_bytes;
              _encode_string_field 3 chain_id; _encode_uint64_field 4 account_number].

Definition _encode_tx_raw (body_bytes auth_info_bytes : list Z) : res (list Z) :=
  join_bytes [_encode_bytes_field 1 body_bytes; _encode_bytes_field 2 auth_info_bytes].

(** ** The compiled intent *)

(** [dict(v)]; a sequence of pairs is not described. *)
Definition dict_copy (v : value) : res dict :=
  match v with
  | VDict d => Ok d
  | VStr _ | VList _ => Err (Unmodelled "dict() of a sequence")
  | _ => Err TypeError
  end.

(** One message with the sender as its submitter. *)
Definition resolve_message (sender_address : value) (message : value) : res dict :=
  let? message := as_dict message in
  let? resolved_value := dict_copy (por (dget message "value") (VDict [])) in
  Ok [("type_url", dget message "type_url");
      ("value", VDict (dset resolved_value "submitter" sender_address))].

Definition validate_message (message : dict) : res unit :=
  if py_eq (dget message "type_url") (VStr FUTURE_MSG_TYPE_URL) then
    let? value := dict_field message "value" in _validate_anchor_settlement_message_value value
  else Ok tt.

Definition _resolve_typed_messages (typed_tx_intent : dict) (sender_address : value) : res (list dict) :=
  let? body := dict_field typed_tx_intent "body" in
  let? raw := as_list (por (dget body "messages") (VList [])) in
  let? messages := mapR (resolve_message sender_address) raw in
  let? _ := guard (negb (Nat.eqb (length messages) 0))
                  (ValueError "typed_tx_intent requires at least one message") in
  let? _ := mapR validate_message messages in
  Ok messages.

(** [chain_id or (typed_tx_intent.get("sign_doc_hints") or {}).get("chain_id") or DEFAULT] *)
Definition resolve_chain_id (typed_tx_intent : dict) (chain_id : value) : res value :=
  if truthy chain_id then Ok chain_id
  else
    let? hints := dict_field typed_tx_intent "sign_doc_hints" in
    Ok (por (dget hints "chain_id") (VStr DEFAULT_TYPED_CHAIN_ID)).

Definition compile_typed_tx_intent (typed_tx_intent : dict)
  (sender_address account_number sequence : value) (public_key : dict) (chain_id : value) : res dict :=
  let? auth_info_hints := dict_field typed_tx_intent "auth_info_hints" in
  let sign_mode := por (dget auth_info_hints "sign_mode") (VStr DEFAULT_TYPED_SIGN_MODE) in
  if negb (py_eq sign_mode (VStr DEFAULT_TYPED_SIGN_MODE)) then
    let? text := py_str sign_mode in Err (ValueError ("unsupported sign mode " +:+ text))
  else
  let? fee_hint := dict_field auth_info_hints "fee_hint" in
  let fee_amount := por (dget fee_hint "amount") (VStr DEFAULT_TYPED_FEE_AMOUNT) in
  let? gas_limit := py_int (por (dget fee_hint "gas_limit") (VInt DEFAULT_TYPED_GAS_LIMIT)) in
  let? resolved_chain_id := resolve_chain_id typed_tx_intent chain_id in
  let? resolved_messages := _resolve_typed_messages typed_tx_intent sender_address in
  let? body := dict_field typed_tx_intent "body" in
  let resolved_typed_tx_intent :=
    dset typed_tx_intent "body"
      (VDict (dset body "messages" (VList (map VDict resolved_messages)))) in
  let? timeout_height := int_or_zero (dget body "timeout_height") in
  let? tx_body_bytes := _encode_tx_body resolved_messages (dget body "memo") (VInt timeout_height) in
  let? auth_info_bytes :=
    _encode_auth_info public_key sequence DEFAULT_TYPED_SIGN_MODE_ENUM fee_amount (VInt gas_limit) in
  let? sign_doc_bytes := _encode_sign_doc tx_body_bytes auth_info_bytes resolved_chain_id account_number in
  let? unsigned_tx_bytes := _encode_tx_raw tx_body_bytes auth_info_bytes in
  let? account_int := py_int account_number in
  let? sequence_int := py_int sequence in
  Ok [("resolved_typed_tx_intent", VDict resolved_typed_tx_intent);
      ("public_key", VDict [("@type", por (dget public_key "@type") (dget public_key "type_url"));
                            ("key", dget public_key "key")]);
      ("tx_body_bytes_hex", VStr (hex_bytes tx_body_bytes));
      ("auth_info_bytes_hex", VStr (hex_bytes auth_info_bytes));
      ("sign_doc_bytes_hex", VStr (hex_bytes sign_doc_bytes));
      ("unsigned_tx_bytes_hex", VStr (hex_bytes unsigned_tx_bytes));
      ("sign_doc_hash", VStr ("sha256:" +:+ hex_bytes (sha256 sign_doc_bytes)));
      ("sign_doc", VDict [("chain_id", resolved_chain_id); ("account_number", VInt account_int);
                          ("sequence", VInt sequence_int); ("sign_mode", sign_mode);
                          ("fee_amount", fee_amount); ("gas_limit", VInt gas_limit)])].

(** ** The reader of a document to sign *)

(** The message of [proto/clawchain/settlement/v1/tx.proto]; a text is its bytes. *)
Record MsgAnchorSettlementBatch := {
  msg_submitter : list Z;
  msg_settlement_batch_id : list Z;
  msg_anchor_job_id : list Z;
  msg_lane : list Z;
  msg_schema_version : list Z;
  msg_policy_bundle_version : list Z;
  msg_canonical_root : list Z;
  msg_anchor_payload_hash : list Z;
  msg_reward_window_ids_root : list Z;
  msg_task_run_ids_root : list Z;
  msg_miner_reward_rows_root : list Z;
  msg_window_end_at : list Z;
  msg_total_reward_amount : Z
}.

(** The message in the fields of the wire, by the numbers of [tx.proto]. *)
Definition read_anchor (m : list (Z * wire)) : MsgAnchorSettlementBatch :=
  {| msg_submitter := field_bytes 1 m;
     msg_settlement_batch_id := field_bytes 2 m;
     msg_anchor_job_id := field_bytes 3 m;
     msg_lane := field_bytes 4 m;
     msg_schema_version := field_bytes 5 m;
     msg_policy_bundle_version := field_bytes 6 m;
     msg_canonical_root := field_bytes 7 m;
     msg_anchor_payload_hash := field_bytes 8 m;
     msg_reward_window_ids_root := field_bytes 9 m;
     msg_task_run_ids_root := field_bytes 10 m;
     msg_miner_reward_rows_root := field_bytes 11 m;
     msg_window_end_at := field_bytes 12 m;
     msg_total_reward_amount := field_varint 13 m |}.

(** The content of a transaction as its bytes show it.  A message is its type
    and what is inside. *)
Record transaction := {
  tx_messages : list (list Z * MsgAnchorSettlementBatch);
  tx_memo : list Z;
  tx_timeout_height : Z;
  tx_key_type : list Z;
  tx_key : list Z;
  tx_sign_mode : Z;
  tx_sequence : Z;
  tx_denom : list Z;
  tx_amount : list Z;
  tx_gas_limit : Z;
  tx_chain_id : list Z;
  tx_account_number : Z
}.

Definition read_typed_message (l : list Z) : option (list Z * MsgAnchorSettlementBatch) :=
  match read_message l with
  | Some any =>
      match read_message (field_bytes 2 any) with
      | Some m => Some (field_bytes 1 any, read_anchor m)
      | None => None
      end
  | None => None
  end.

(** The message inside field [number]. *)
Definition read_sub (number : Z) (m : option (list (Z * wire))) : option (list (Z * wire)) :=
  match m with Some m => read_message (field_bytes number m) | None => None end.

Fixpoint read_all {A} (f : list Z -> option A) (l : list (list Z)) : option (list A) :=
  match l with
  | [] => Some []
  | x :: l => match f x, read_all f l with Some y, Some ys => Some (y :: ys) | _, _ => None end
  end.

Definition read_transaction (sign_doc_bytes : list Z) : option transaction :=
  let doc := read_message sign_doc_bytes in
  let body := read_sub 1 doc in
  let auth := read_sub 2 doc in
  let signer := read_sub 1 auth in
  let fee := read_sub 2 auth in
  let any := read_sub 1 signer in
  match doc, body, signer, fee, any,
        read_sub 2 any, read_sub 1 (read_sub 2 signer), read_sub 1 fee with
  | Some doc, Some body, Some signer, Some fee, Some any, Some key, Some mode, Some coin =>
      match read_all read_typed_message (field_bytes_all 1 body) with
      | Some messages =>
          Some {| tx_messages := messages;
                  tx_memo := field_bytes 2 body;
                  tx_timeout_height := field_varint 3 body;
                  tx_key_type := field_bytes 1 any;
                  tx_key := field_bytes 1 key;
                  tx_sign_mode := field_varint 1 mode;
                  tx_sequence := field_varint 3 signer;
                  tx_denom := field_bytes 1 coin;
                  tx_amount := field_bytes 2 coin;
                  tx_gas_limit := field_varint 2 fee;
                  tx_chain_id := field_bytes 3 doc;
                  tx_account_number := field_varint 4 doc |}
      | None => None
      end
  | _, _, _, _, _, _, _, _ => None
  end.

(** The message that a resolved dictionary stands for, by the names of [tx.proto]. *)
Definition anchor_content (value : dict) : MsgAnchorSettlementBatch :=
  {| msg_submitter := wire_text (dget value "submitter");
     msg_settlement_batch_id := wire_text (dget value "settlement_batch_id");
     msg_anchor_job_id := wire_text (dget value "anchor_job_id");
     msg_lane := wire_text (dget value "lane");
     msg_schema_version := wire_text (dget value "schema_version");
     msg_policy_bundle_version := wire_text (dget value "policy_bundle_version");
     msg_canonical_root := wire_text (dget value "canonical_root");
     msg_anchor_payload_hash := wire_text (dget value "anchor_payload_hash");
     msg_reward_window_ids_root := wire_text (dget value "reward_window_ids_root");
     msg_task_run_ids_root := wire_text (dget value "task_run_ids_root");
     msg_miner_reward_rows_root := wire_text (dget value "miner_reward_rows_root");
     msg_window_end_at := wire_text (dget value "window_end_at");
     msg_total_reward_amount := wire_amount (dget value "total_reward_amount") |}.
Definition message_content (message : dict) : list Z * MsgAnchorSettlementBatch :=
  (wire_text (dget message "type_url"),
   anchor_content (match dget message "value" with VDict d => d | _ => [] end)).

(** The transaction that the compiled dictionary describes to its reader. *)
Definition shown_transaction (r : dict) : res transaction :=
  let? intent := dict_field r "resolved_typed_tx_intent" in
  let? body := dict_field intent "body" in
  let? raw := as_list (dget body "messages") in
  let? messages := mapR as_dict raw in
  let? timeout_height := int_or_zero (dget body "timeout_height") in
  let? public_key := dict_field r "public_key" in
  let? key := b64decode (dget public_key "key") in
  let? doc := dict_field r "sign_doc" in
  let? (amount, denom) := _parse_coin_amount (dget doc "fee_amount") in
  Ok {| tx_messages := map message_content messages;
        tx_memo := wire_text (dget body "memo");
        tx_timeout_height := timeout_height;
        tx_key_type := wire_text (dget public_key "@type");
        tx_key := key;
        tx_sign_mode := 1; (* SIGN_MODE_DIRECT of the Cosmos SDK *)
        tx_sequence := wire_amount (dget doc "sequence");
        tx_denom := utf8 denom;
        tx_amount := utf8 amount;
        tx_gas_limit := wire_amount (dget doc "gas_limit");
        tx_chain_id := wire_text (dget doc "chain_id");
        tx_account_number := wire_amount (dget doc "account_number") |}.
