(* ===== verification/TxFacts.v ===== *)
(** * Theorems about typed transactions

    The encoders of TxEncoding against the reader of the wire format: each
    nested message reads back, hence so does the document to sign, and what is
    signed determines the transaction. *)
From Stdlib Require Import ZArith Lia Ascii String.
From stdpp Require Import base list strings.
From S2P Require Import Prelude PyText PyFloat PyTime PyValue Sha256 Canonical ChainAdapter Protobuf TxEncoding.
Open Scope Z_scope.

(** ** base64 yields bytes *)

Lemma b64_value_range c v : b64_value c = Some v -> 0 <= v < 64.
Proof.
  unfold b64_value, is_upper, is_lower, is_digit. intros H.
  repeat case_match; simplify_eq; rewrite ?andb_true_iff, ?Z.leb_le in *; lia.
Qed.

Lemma b64_step_byte left v k :
  0 <= k <= 6 -> 0 <= left < 2 ^ (8 - k) -> 0 <= v < 64 -> is_byte (Z.lor (Z.shiftl left k) (Z.shiftr v (6 - k))).
Proof.
  intros Hk Hl Hv. assert (0 <= Z.shiftr v (6 - k) < 2 ^ k) as Hr.
  { rewrite Z.shiftr_div_pow2 by lia. pose proof (Z.pow_pos_nonneg 2 (6 - k)).
    split; [apply Z.div_pos; lia|]. apply Z.div_lt_upper_bound; [lia|].
    rewrite <- Z.pow_add_r by lia. replace (6 - k + k) with 6 by lia. lia. }
  rewrite lor_add by lia. unfold is_byte. change 256 with (2 ^ 8).
  replace 8 with (8 - k + k) by lia. rewrite Z.pow_add_r by lia. nia.
Qed.

Lemma b64_loop_bytes l out q left pads bytes :
  0 <= q <= 3 -> 0 <= left < 2 ^ (8 - 2 * q) -> Forall is_byte out ->
  b64_loop l out q left pads = Ok bytes -> Forall is_byte bytes.
Proof.
  revert out q left pads. induction l as [|c l IH]; intros out q left pads Hq Hl Ho; simpl.
  { repeat case_match; naive_solver. }
  destruct (Ascii.eqb c "="%char).
  { destruct (2 <=? q); [destruct (4 <=? q + (pads + 1)); [naive_solver|]|]; by apply IH. }
  destruct (b64_value c) as [v|] eqn:Ev; [|by apply IH]. apply b64_value_range in Ev.
  assert (forall k, 0 <= Z.land v (Z.ones k) < 2 ^ k \/ k < 0) as Hland.
  { intros k. destruct (Z.lt_ge_cases k 0); [by right|]. rewrite Z.land_ones by done.
    left. apply Z.mod_pos_bound. by apply Z.pow_pos_nonneg. }
  destruct (Z.eqb_spec q 0) as [->|]; [apply IH; [lia|simpl; lia|done]|].
  destruct (Z.eqb_spec q 1) as [->|].
  { apply IH; [lia| |apply Forall_app; split; [done|repeat constructor; by apply (b64_step_byte left v 2)]].
    destruct (Hland 4) as [Hx|]; [exact Hx|lia]. }
  destruct (Z.eqb_spec q 2) as [->|].
  { apply IH; [lia| |apply Forall_app; split; [done|repeat constructor; by apply (b64_step_byte left v 4)]].
    destruct (Hland 2) as [Hx|]; [exact Hx|lia]. }
  assert (q = 3) as -> by lia.
  apply IH; [lia|simpl; lia|]. apply Forall_app. split; [done|]. repeat constructor.
  all: pose proof (b64_step_byte left v 6) as Hb; rewrite Z.shiftr_0_r in Hb; by apply Hb.
Qed.

Lemma b64decode_bytes v bytes : b64decode v = Ok bytes -> Forall is_byte bytes.
Proof.
  destruct v as [| | | |s| | |]; simpl; try done. destruct (forallb _ _); [|done].
  apply b64_loop_bytes; [lia|simpl; lia|constructor].
Qed.

(** ** Messages *)

Lemma encodes_bytes_field n l e :
  0 <= n -> Forall is_byte l -> _encode_bytes_field n l = Ok e -> encodes e (bytes_fields n l).
Proof. intros Hn Hl He. destruct (bytes_field_encodes n l Hn Hl) as (e' & He' & H). congruence. Qed.

Definition anchor_wire (d : dict) : list (Z * wire) :=
  concat (map (fun f => bytes_fields f.1 (wire_text (dget d f.2))) anchor_text_fields ++
          [varint_fields 13 (wire_amount (dget d "total_reward_amount"))]).

Lemma anchor_encodes d e : _encode_anchor_settlement_msg d = Ok e -> encodes e (anchor_wire d).
Proof.
  unfold _encode_anchor_settlement_msg, anchor_wire. apply join_encodes. simpl.
  repeat (constructor; [intros x Hx; first [apply string_field_encodes; [lia|done]
                                           |by apply uint64_field_encodes]|]).
  constructor.
Qed.

(** The numbers and names that the code writes are those of the message. *)
Lemma anchor_reads d : read_anchor (anchor_wire d) = anchor_content d.
Proof. unfold read_anchor, anchor_content, anchor_wire. simpl. f_equal; by read_wire. Qed.

Lemma typed_message_reads message e :
  _encode_typed_message message = Ok e ->
  e <> [] /\ Forall is_byte e /\ read_typed_message e = Some (message_content message).
Proof.
  unfold _encode_typed_message, dict_field. destruct (py_eq _ _) eqn:Ht; simpl; [|by destruct (py_str _)].
  intros He. ok_inv. rename H into Hv, H0 into Ha.
  assert (dget message "type_url" = VStr FUTURE_MSG_TYPE_URL) as Eu.
  { destruct (dget message "type_url"); try discriminate Ht. simpl in Ht. apply String.eqb_eq in Ht. congruence. }
  apply anchor_encodes in Ha as Hm. pose proof (encodes_bytes _ _ Hm) as Hb.
  unfold _encode_any in He. rewrite Eu in He.
  apply join_encodes with (ms := [bytes_fields 1 (utf8 FUTURE_MSG_TYPE_URL); bytes_fields 2 a0]) in He.
  2: { repeat (constructor; [intros x Hx; first [by apply (string_field_encodes 1 (VStr FUTURE_MSG_TYPE_URL))
                                                |by apply encodes_bytes_field]|]). constructor. }
  split_and!; [intros ->; by apply read_message_encodes in He|by eapply encodes_bytes|].
  unfold read_typed_message. rewrite (read_message_encodes _ _ He).
  assert (field_bytes 2 (concat [bytes_fields 1 (utf8 FUTURE_MSG_TYPE_URL); bytes_fields 2 a0]) = a0) as -> by read_wire.
  rewrite (read_message_encodes _ _ Hm). unfold message_content. rewrite Eu.
  assert (match dget message "value" with VDict d => d | _ => [] end = a) as ->.
  { destruct (dget message "value") as [|[]|n|x|s|t|l|[|kv d]]; unfold por in Hv; simpl in Hv;
      try (destruct (n =? 0)); try (destruct (is_zero x)); try (destruct (String.eqb s ""));
      try (destruct l); simpl in Hv; congruence. }
  rewrite anchor_reads.
  assert (field_bytes 1 (concat [bytes_fields 1 (utf8 FUTURE_MSG_TYPE_URL); bytes_fields 2 a0])
          = utf8 FUTURE_MSG_TYPE_URL) as -> by read_wire.
  done.
Qed.

(** The encoded messages of a body, each a field of number 1. *)
Lemma messages_encode messages encoded :
  mapR (fun message => let? m := _encode_typed_message message in _encode_bytes_field 1 m) messages = Ok encoded ->
  exists texts, encodes (concat encoded) (map (fun l => (1, Bytes l)) texts) /\
    read_all read_typed_message texts = Some (map message_content messages).
Proof.
  revert encoded. induction messages as [|message messages IH]; intros encoded H; simpl in H.
  { injection H as <-. exists []. split; [constructor|done]. }
  ok_inv. destruct (typed_message_reads _ _ H) as (Hne & Hb & Hr).
  destruct (IH _ H1) as (texts & He & Hall). exists (a1 :: texts). simpl. rewrite Hr, Hall.
  split; [|done]. apply encodes_bytes_field in H0; [|done|done].
  destruct a1 as [|b a1]; [done|]. by apply (encodes_app _ [_] _ _ H0).
Qed.

Lemma field_bytes_all_messages k n texts :
  field_bytes_all k (map (fun l => (n, Bytes l)) texts) = if n =? k then texts else [].
Proof.
  unfold field_bytes_all. induction texts as [|t texts IH]; simpl; [by destruct (n =? k)|].
  destruct (n =? k); [f_equal|]; exact IH.
Qed.

Lemma field_varint_all_messages k n texts :
  field_varint_all k (map (fun l => (n, Bytes l)) texts) = [].
Proof. by induction texts. Qed.

#[local] Hint Rewrite field_bytes_all_messages field_varint_all_messages : wire.

Lemma join_app_ok l ps e :
  join_bytes (map Ok l ++ ps) = Ok e -> exists e', join_bytes ps = Ok e' /\ e = concat l ++ e'.
Proof.
  unfold join_bytes. revert e. induction l as [|x l IH]; intros e H; simpl in *; [eauto|].
  destruct (mapR _ (map Ok l ++ ps)) as [ys|] eqn:Ey; [|done]. simpl in H. injection H as <-.
  destruct (IH (concat ys)) as (e' & He' & E); [done|].
  exists e'. split; [done|]. by rewrite <- app_assoc, <- E.
Qed.

Lemma body_reads messages memo timeout e :
  _encode_tx_body messages memo timeout = Ok e ->
  exists m, encodes e m /\
    read_all read_typed_message (field_bytes_all 1 m) = Some (map message_content messages) /\
    field_bytes 2 m = wire_text memo /\ field_varint 3 m = wire_amount timeout.
Proof.
  unfold _encode_tx_body. intros H. ok_inv. apply join_app_ok in H as (e' & He' & ->).
  destruct (messages_encode _ _ H0) as (texts & Ht & Hr).
  apply join_encodes with (ms := [bytes_fields 2 (wire_text memo); varint_fields 3 (wire_amount timeout)]) in He'.
  2: { repeat (constructor; [intros x Hx; first [by apply string_field_encodes|by apply uint64_field_encodes]|]).
       constructor. }
  eexists. split; [by apply (encodes_app _ _ _ _ Ht He')|]. split_and!; [|read_wire..].
  simpl. autorewrite with wire. simpl. by rewrite ?app_nil_r.
Qed.

(** ** Signer and fee *)

Lemma join_cons_ok p ps e :
  join_bytes (p :: ps) = Ok e -> exists e1 e2, p = Ok e1 /\ join_bytes ps = Ok e2 /\ e = e1 ++ e2.
Proof.
  unfold join_bytes. simpl. intros H. destruct p as [e1|]; [|done]. simpl in H.
  destruct (mapR _ ps) as [l|]; [|done]. simpl in H. injection H as <-. by exists e1, (concat l).
Qed.

Lemma join_nil_ok e : join_bytes [] = Ok e -> e = [].
Proof. by intros [= <-]. Qed.

(** Takes a join of pieces apart. *)
Ltac join_inv H :=
  lazymatch type of H with
  | join_bytes [] = _ => apply join_nil_ok in H as ->
  | _ =>
      let e1 := fresh "e" in let e2 := fresh "e" in let He := fresh "He" in
      apply join_cons_ok in H as (e1 & e2 & He & H & ->); join_inv H
  end.

Lemma any_reads url l e :
  Forall is_byte l -> _encode_any (VStr url) l = Ok e ->
  encodes e (bytes_fields 1 (utf8 url) ++ bytes_fields 2 l).
Proof.
  intros Hl H. join_inv H. rewrite app_nil_r.
  apply encodes_app; [by apply (string_field_encodes 1 (VStr url))|by apply encodes_bytes_field].
Qed.

Lemma signer_reads public_key sequence e :
  _encode_signer_info public_key sequence DEFAULT_TYPED_SIGN_MODE_ENUM = Ok e ->
  exists key any m, b64decode (dget public_key "key") = Ok key /\ encodes e m /\
    encodes (field_bytes 1 m) any /\ field_bytes 1 any = utf8 SECP256K1_PUBKEY /\
    encodes (field_bytes 2 any) (bytes_fields 1 key) /\
    field_bytes 2 m = [10; 2; 8; 1] /\ field_varint 3 m = wire_amount sequence.
Proof.
  unfold _encode_signer_info, _normalize_public_key. intros H.
  destruct (py_eq _ _) eqn:Et; [|simpl in H; by destruct (py_str _)]. cbn [negb] in H.
  destruct (truthy (dget public_key "key")); [|done]. cbn [negb] in H.
  apply rbind_ok in H as (((type_url & kb) & vb) & H & H').
  join_inv H'. ok_inv.
  assert (por (dget public_key "@type") (dget public_key "type_url") = VStr SECP256K1_PUBKEY) as Eu.
  { destruct (por _ _); try discriminate Et. simpl in Et. apply String.eqb_eq in Et. congruence. }
  rewrite Eu in *.
  match goal with H : b64decode _ = Ok ?k |- _ => rename k into key; rename H into Hkey end.
  match goal with H : _encode_any _ _ = Ok ?k |- _ => rename k into any; rename H into Hany end.
  match goal with H : _encode_bytes_field 1 key = Ok _ |- _ => rename H into Hv end.
  match goal with H : _encode_mode_info _ = Ok _ |- _ => vm_compute in H; injection H as <- end.
  pose proof (b64decode_bytes _ _ Hkey) as Hkb.
  apply encodes_bytes_field in Hv; [|done|done]. apply any_reads in Hany; [|by eapply encodes_bytes].
  apply encodes_bytes_field in He; [|done|by eapply encodes_bytes].
  apply encodes_bytes_field in He0; [|done|repeat constructor; unfold is_byte; lia].
  apply uint64_field_encodes in He1 as [_ He1]; [|done].
  exists key, (bytes_fields 1 (utf8 SECP256K1_PUBKEY) ++ bytes_fields 2 vb),
    (bytes_fields 1 any ++ bytes_fields 2 [10; 2; 8; 1] ++ varint_fields 3 (wire_amount sequence) ++ []).
  split; [done|]. split; [by eauto using encodes_app, encodes_nil|].
  assert (field_bytes 1 (bytes_fields 1 any ++ bytes_fields 2 [10; 2; 8; 1] ++
            varint_fields 3 (wire_amount sequence) ++ []) = any) as -> by read_wire.
  split; [done|]. split; [by read_wire|].
  assert (field_bytes 2 (bytes_fields 1 (utf8 SECP256K1_PUBKEY) ++ bytes_fields 2 vb) = vb) as -> by read_wire.
  split; [done|]. split; by read_wire.
Qed.

Lemma coin_reads amount e :
  _encode_coin amount = Ok e ->
  exists n denom, _parse_coin_amount amount = Ok (n, denom) /\
    encodes e (bytes_fields 1 (utf8 denom) ++ bytes_fields 2 (utf8 n)).
Proof.
  unfold _encode_coin. destruct (_parse_coin_amount amount) as [[n denom]|]; [|done]. simpl.
  intros H. join_inv H. rewrite app_nil_r. exists n, denom. split; [done|].
  apply encodes_app; [by apply (string_field_encodes 1 (VStr denom))|by apply (string_field_encodes 2 (VStr n))].
Qed.

Lemma fee_reads amount gas e :
  _encode_fee amount gas = Ok e ->
  exists n denom m, _parse_coin_amount amount = Ok (n, denom) /\ encodes e m /\
    encodes (field_bytes 1 m) (bytes_fields 1 (utf8 denom) ++ bytes_fields 2 (utf8 n)) /\
    field_varint 2 m = wire_amount gas.
Proof.
  unfold _encode_fee. intros H. join_inv H. ok_inv.
  match goal with H : _encode_coin _ = Ok ?c |- _ =>
    rename c into coin; destruct (coin_reads _ _ H) as (n & denom & Hp & Hc) end.
  apply encodes_bytes_field in He; [|done|by eapply encodes_bytes].
  apply uint64_field_encodes in He0 as [_ He0]; [|done].
  exists n, denom, (bytes_fields 1 coin ++ varint_fields 2 (wire_amount gas) ++ []). split; [done|].
  split; [by eauto using encodes_app, encodes_nil|].
  assert (field_bytes 1 (bytes_fields 1 coin ++ varint_fields 2 (wire_amount gas) ++ []) = coin) as -> by read_wire.
  split; [done|by read_wire].
Qed.

(** ** The document to sign *)

Lemma auth_reads public_key sequence fee gas e :
  _encode_auth_info public_key sequence DEFAULT_TYPED_SIGN_MODE_ENUM fee gas = Ok e ->
  exists signer_bytes fee_bytes m,
    _encode_signer_info public_key sequence DEFAULT_TYPED_SIGN_MODE_ENUM = Ok signer_bytes /\
    _encode_fee fee gas = Ok fee_bytes /\ encodes e m /\
    field_bytes 1 m = signer_bytes /\ field_bytes 2 m = fee_bytes.
Proof.
  unfold _encode_auth_info. intros H. join_inv H.
  apply rbind_ok in He as (signer & Hs & He), He0 as (coins & Hf & He0).
  exists signer, coins, (bytes_fields 1 signer ++ bytes_fields 2 coins ++ []).
  destruct (signer_reads _ _ _ Hs) as (_ & _ & ms & _ & Hms & _).
  destruct (fee_reads _ _ _ Hf) as (_ & _ & mf & _ & Hmf & _).
  apply encodes_bytes_field in He; [|done|by eapply encodes_bytes].
  apply encodes_bytes_field in He0; [|done|by eapply encodes_bytes].
  split_and!; [done|done|by eauto using encodes_app, encodes_nil|by read_wire..].
Qed.

(** What the reader finds in a document made of a body and the signer's data. *)
Lemma sign_doc_reads messages memo timeout public_key sequence fee gas chain_id account body auth e :
  _encode_tx_body messages memo timeout = Ok body ->
  _encode_auth_info public_key sequence DEFAULT_TYPED_SIGN_MODE_ENUM fee gas = Ok auth ->
  _encode_sign_doc body auth chain_id account = Ok e ->
  exists key amount denom, b64decode (dget public_key "key") = Ok key /\
    _parse_coin_amount fee = Ok (amount, denom) /\ Forall is_byte e /\
    read_transaction e = Some
      {| tx_messages := map message_content messages; tx_memo := wire_text memo;
         tx_timeout_height := wire_amount timeout; tx_key_type := utf8 SECP256K1_PUBKEY;
         tx_key := key; tx_sign_mode := DEFAULT_TYPED_SIGN_MODE_ENUM;
         tx_sequence := wire_amount sequence; tx_denom := utf8 denom; tx_amount := utf8 amount;
         tx_gas_limit := wire_amount gas; tx_chain_id := wire_text chain_id;
         tx_account_number := wire_amount account |}.
Proof.
  intros Hbody Hauth H.
  destruct (body_reads _ _ _ _ Hbody) as (mb & Hmb & Hb1 & Hb2 & Hb3).
  destruct (auth_reads _ _ _ _ _ Hauth) as (sb & fb & ma & Hs & Hf & Hma & Ha1 & Ha2).
  destruct (signer_reads _ _ _ Hs) as (key & any & ms & Hkey & Hms & Hany & Hany1 & Hkm & Hs2 & Hs3).
  destruct (fee_reads _ _ _ Hf) as (amount & denom & mf & Hparse & Hmf & Hcoin & Hf2).
  exists key, amount, denom. split; [done|]. split; [done|].
  unfold _encode_sign_doc in H. join_inv H.
  apply encodes_bytes_field in He; [|done|by eapply encodes_bytes].
  apply encodes_bytes_field in He0; [|done|by eapply encodes_bytes].
  apply string_field_encodes in He1; [|done]. apply uint64_field_encodes in He2 as [_ He2]; [|done].
  set (m := bytes_fields 1 body ++ bytes_fields 2 auth ++ bytes_fields 3 (wire_text chain_id) ++
            varint_fields 4 (wire_amount account) ++ []).
  assert (encodes (e0 ++ e ++ e1 ++ e2 ++ []) m) as Hm by (unfold m; eauto 10 using encodes_app, encodes_nil).
  assert (field_bytes 1 m = body /\ field_bytes 2 m = auth /\
          field_bytes 3 m = wire_text chain_id /\ field_varint 4 m = wire_amount account) as (E1 & E2 & E3 & E4)
    by (unfold m; split_and!; read_wire).
  clearbody m. split; [by eapply encodes_bytes|].
  unfold read_transaction, read_sub. rewrite (read_message_encodes _ _ Hm), E1, E2.
  rewrite (read_message_encodes _ _ Hmb), (read_message_encodes _ _ Hma), Ha1, Ha2.
  rewrite (read_message_encodes _ _ Hms), (read_message_encodes _ _ Hmf), (read_message_encodes _ _ Hany).
  rewrite (read_message_encodes _ _ Hkm), Hs2, (read_message_encodes _ _ Hcoin), Hb1, Hb2, Hb3, Hany1, Hs3, Hf2, E3, E4.
  assert (field_bytes 1 (bytes_fields 1 (utf8 denom) ++ bytes_fields 2 (utf8 amount)) = utf8 denom) as -> by read_wire.
  assert (field_bytes 2 (bytes_fields 1 (utf8 denom) ++ bytes_fields 2 (utf8 amount)) = utf8 amount) as -> by read_wire.
  assert (field_bytes 1 (bytes_fields 1 key) = key) as -> by read_wire.
  reflexivity.
Qed.

(** ** The compiled intent *)

Lemma dict_field_ok d k x : dget d k = VDict x -> dict_field d k = Ok x.
Proof. unfold dict_field, por. intros ->. by destruct x. Qed.

Lemma as_dicts ds : mapR as_dict (map VDict ds) = Ok ds.
Proof. induction ds as [|d ds IH]; [done|]. simpl. by rewrite IH. Qed.

Lemma typed_type_url v : py_eq v (VStr SECP256K1_PUBKEY) = true -> wire_text v = utf8 SECP256K1_PUBKEY.
Proof. destruct v; try discriminate. simpl. by intros ->%String.eqb_eq. Qed.

Lemma signer_type public_key sequence e :
  _encode_signer_info public_key sequence DEFAULT_TYPED_SIGN_MODE_ENUM = Ok e ->
  wire_text (por (dget public_key "@type") (dget public_key "type_url")) = utf8 SECP256K1_PUBKEY.
Proof.
  unfold _encode_signer_info, _normalize_public_key. destruct (py_eq _ _) eqn:E; [|by destruct (py_str _)].
  intros _. by apply typed_type_url.
Qed.

Lemma wire_amount_int v n : py_int v = Ok n -> wire_amount v = n.
Proof. unfold wire_amount. by intros ->. Qed.

(** The compiled dictionary carries the bytes to sign and their hash, and the
    bytes read as the transaction that the dictionary describes. *)
Lemma compiled_reads intent sender account sequence public_key chain_id r :
  compile_typed_tx_intent intent sender account sequence public_key chain_id = Ok r ->
  exists bytes t, dget r "sign_doc_bytes_hex" = VStr (hex_bytes bytes) /\
    dget r "sign_doc_hash" = VStr ("sha256:" +:+ hex_bytes (sha256 bytes)) /\
    Forall is_byte bytes /\ read_transaction bytes = Some t /\ shown_transaction r = Ok t.
Proof.
  unfold compile_typed_tx_intent. intros H.
  apply rbind_ok in H as (hints & Hhints & H). destruct (py_eq _ _); [|simpl in H; by destruct (py_str _)].
  cbn [negb] in H. ok_inv.
  match goal with H : _encode_tx_body _ _ _ = Ok _ |- _ => rename H into Hbody end.
  match goal with H : _encode_auth_info _ _ _ _ _ = Ok _ |- _ => rename H into Hauth end.
  match goal with H : _encode_sign_doc _ _ _ _ = Ok ?b |- _ => rename b into bytes; rename H into Hdoc end.
  match goal with H : int_or_zero _ = Ok _ |- _ => rename H into Htimeout end.
  destruct (sign_doc_reads _ _ _ _ _ _ _ _ _ _ _ _ Hbody Hauth Hdoc) as (key & amount & denom & Hkey & Hfee & Hb & Hr).
  destruct (auth_reads _ _ _ _ _ Hauth) as (sb & _ & _ & Hs & _).
  exists bytes. eexists. split_and!; [reflexivity|reflexivity|done|exact Hr|].
  unfold shown_transaction.
  erewrite (dict_field_ok _ "resolved_typed_tx_intent") by reflexivity. cbn [rbind].
  erewrite (dict_field_ok _ "body") by (rewrite dget_dset; reflexivity). cbn [rbind].
  rewrite !dget_dset. cbn [String.eqb Ascii.eqb Bool.eqb as_list rbind].
  rewrite as_dicts. cbn [rbind]. rewrite Htimeout. cbn [rbind].
  erewrite (dict_field_ok _ "public_key") by reflexivity. cbn [rbind].
  change (b64decode (dget _ "key")) with (b64decode (dget public_key "key")). rewrite Hkey. cbn [rbind].
  erewrite (dict_field_ok _ "sign_doc") by reflexivity. cbn [rbind].
  match goal with |- context [_parse_coin_amount (dget ?d "fee_amount")] =>
    change (dget d "fee_amount") with (por (dget a "amount") (VStr DEFAULT_TYPED_FEE_AMOUNT)) end.
  rewrite Hfee. cbn [rbind]. rewrite <- (signer_type _ _ _ Hs).
  do 2 f_equal; symmetry; by apply wire_amount_int.
Qed.

(** The reader finds in every message of the transaction the sender, and in
    every hash field the text of a hash. *)
Definition message_valid (sender : value) (m : list Z * MsgAnchorSettlementBatch) : Prop :=
  m.1 = utf8 FUTURE_MSG_TYPE_URL /\ msg_submitter m.2 = wire_text sender /\ 0 <= msg_total_reward_amount m.2 /\
  Forall (fun text => exists s, text = utf8 s /\ _HASH_VALUE_RE (str_strip s) = true)
    [msg_canonical_root m.2; msg_anchor_payload_hash m.2; msg_reward_window_ids_root m.2; msg_task_run_ids_root m.2;
     msg_miner_reward_rows_root m.2].

Lemma encoded_text n v e :
  _encode_string_field n v = Ok e -> (exists s, v = VStr s) \/ truthy v = false.
Proof.
  unfold _encode_string_field. destruct (truthy v) eqn:Et; [|by right].
  destruct v; try done. left. eauto.
Qed.

Lemma require_hash_text n d k e :
  _encode_string_field n (dget d k) = Ok e -> require_hash d k = Ok tt ->
  exists s, wire_text (dget d k) = utf8 s /\ _HASH_VALUE_RE (str_strip s) = true.
Proof.
  intros He Hv. unfold require_hash, stripped_field, str_or_empty, por in Hv.
  destruct (encoded_text _ _ _ He) as [[s E]|E].
  - rewrite E in *. destruct (truthy (VStr s)); apply guard_ok in Hv; [|done]. simpl. eauto.
  - rewrite E in Hv. by apply guard_ok in Hv.
Qed.

Lemma anchor_pieces d e :
  _encode_anchor_settlement_msg d = Ok e ->
  Forall (fun f => exists e', _encode_string_field f.1 (dget d f.2) = Ok e') anchor_text_fields /\
  0 <= wire_amount (dget d "total_reward_amount").
Proof.
  unfold _encode_anchor_settlement_msg. simpl. intros H. join_inv H.
  split; [repeat (constructor; [eexists; eassumption|]); constructor|].
  match goal with H : _encode_uint64_field 13 _ = _ |- _ => by apply uint64_field_encodes in H as [? _] end.
Qed.

Lemma valid_message_reads sender message resolved e :
  resolve_message sender message = Ok resolved -> validate_message resolved = Ok tt ->
  _encode_typed_message resolved = Ok e -> message_valid sender (message_content resolved).
Proof.
  unfold resolve_message. intros Hres Hval Henc. ok_inv.
  match goal with H : dict_copy _ = Ok ?v |- _ => rename v into value; clear H end.
  match type of Hval with validate_message ?m = _ => set (msg := m) in * end.
  assert (dget msg "value" = VDict (dset value "submitter" sender)) as Ev by reflexivity.
  assert (dict_field msg "value" = Ok (dset value "submitter" sender)) as Ed by by apply dict_field_ok.
  unfold _encode_typed_message in Henc. unfold validate_message in Hval. rewrite Ed in Hval, Henc.
  destruct (py_eq (dget msg "type_url") _) eqn:Et; [|simpl in Henc; by destruct (py_str _)].
  cbn [negb rbind] in Hval, Henc.
  assert (dget msg "type_url" = VStr FUTURE_MSG_TYPE_URL) as Eu.
  { destruct (dget msg "type_url"); try discriminate Et. simpl in Et. apply String.eqb_eq in Et. congruence. }
  ok_inv. match goal with H : _encode_anchor_settlement_msg _ = _ |- _ =>
    destruct (anchor_pieces _ _ H) as [Hp Ha] end.
  unfold message_content, message_valid. rewrite Ev, Eu. split_and!; [done| |done|].
  { simpl. by rewrite dget_dset. }
  unfold _validate_anchor_settlement_message_value in Hval. ok_inv.
  unfold anchor_text_fields in *. rewrite !List.Forall_cons_iff in Hp. simpl in Hp.
  destruct Hp as (_ & _ & _ & _ & _ & _ & [? Hf7] & [? Hf8] & [? Hf9] & [? Hf10] & [? Hf11] & _).
  repeat match goal with u : unit |- _ => destruct u end.
  repeat (constructor; [simpl; by eapply require_hash_text|]). constructor.
Qed.

Lemma messages_valid sender raw messages encoded :
  mapR (resolve_message sender) raw = Ok messages ->
  (exists us, mapR validate_message messages = Ok us) ->
  mapR (fun message => let? m := _encode_typed_message message in _encode_bytes_field 1 m) messages = Ok encoded ->
  Forall (message_valid sender) (map message_content messages).
Proof.
  intros H. apply mapR_ok in H. revert encoded.
  induction H as [|x message raw messages Hx _ IH]; intros encoded [us Hv] He; [constructor|].
  simpl in Hv, He. ok_inv. simpl. constructor; [|by eapply IH; eauto].
  match goal with u : unit |- _ => destruct u end. by eapply valid_message_reads.
Qed.

Lemma compiled_messages_valid intent sender account sequence public_key chain_id r t :
  compile_typed_tx_intent intent sender account sequence public_key chain_id = Ok r ->
  shown_transaction r = Ok t ->
  tx_messages t <> [] /\ Forall (message_valid sender) (tx_messages t).
Proof.
  unfold compile_typed_tx_intent. intros H Ht.
  apply rbind_ok in H as (hints & Hhints & H). destruct (py_eq _ _); [|simpl in H; by destruct (py_str _)].
  cbn [negb] in H. ok_inv.
  match goal with H : _encode_tx_body _ _ _ = Ok _ |- _ => rename H into Hbody end.
  match goal with H : _resolve_typed_messages _ _ = Ok ?m |- _ => rename m into messages; rename H into Hm end.
  assert (tx_messages t = map message_content messages) as ->.
  { unfold shown_transaction in Ht.
    erewrite (dict_field_ok _ "resolved_typed_tx_intent") in Ht by reflexivity. cbn [rbind] in Ht.
    erewrite (dict_field_ok _ "body") in Ht by (rewrite dget_dset; reflexivity). cbn [rbind] in Ht.
    rewrite !dget_dset in Ht. cbn [String.eqb Ascii.eqb Bool.eqb as_list rbind] in Ht.
    rewrite as_dicts in Ht. cbn [rbind] in Ht. ok_inv.
    match goal with x : (string * string)%type |- _ => destruct x end. by simplify_eq/=. }
  unfold _resolve_typed_messages in Hm. unfold _encode_tx_body in Hbody. ok_inv. split.
  - by destruct messages.
  - eapply messages_valid; eauto.
Qed.

(** Two byte strings with the same SHA-256 digest. *)
Definition bytes_collision (l1 l2 : list Z) : Prop := l1 <> l2 /\ sha256 l1 = sha256 l2.

Lemma sha256_bytes l : Forall is_byte (sha256 l).
Proof.
  unfold sha256. cbv zeta. apply Forall_concat, List.Forall_map, List.Forall_forall. intros w _.
  unfold be_bytes, is_byte. repeat (constructor; [apply Z.mod_pos_bound; done|]). constructor.
Qed.

(** ** Properties *)

(** C8: what is signed is what is shown: the bytes of the document to sign, read
    back by the field numbers of the repository's tx.proto and of the Cosmos
    messages around it, are the transaction that the compiled dictionary
    describes (all thirteen fields of each message, memo, timeout, public key,
    sequence, fee, gas limit, chain and account number), and the hash is the hash
    of these bytes. *)
Theorem sign_doc_roundtrip intent sender account sequence public_key chain_id r :
  compile_typed_tx_intent intent sender account sequence public_key chain_id = Ok r ->
  exists bytes t, dget r "sign_doc_bytes_hex" = VStr (hex_bytes bytes) /\
    dget r "sign_doc_hash" = VStr ("sha256:" +:+ hex_bytes (sha256 bytes)) /\
    read_transaction bytes = Some t /\ shown_transaction r = Ok t.
Proof.
  intros (bytes & t & H1 & H2 & _ & H3 & H4)%compiled_reads. exists bytes, t. by split_and!.
Qed.

(** The hash of the document to sign binds the transaction: two compiled
    intents with the same hash describe the same transaction, or their own
    documents collide. *)
Theorem sign_doc_hash_binding i1 s1 a1 q1 k1 c1 r1 i2 s2 a2 q2 k2 c2 r2 :
  compile_typed_tx_intent i1 s1 a1 q1 k1 c1 = Ok r1 ->
  compile_typed_tx_intent i2 s2 a2 q2 k2 c2 = Ok r2 ->
  dget r1 "sign_doc_hash" = dget r2 "sign_doc_hash" ->
  shown_transaction r1 = shown_transaction r2 \/
  exists l1 l2, dget r1 "sign_doc_bytes_hex" = VStr (hex_bytes l1) /\ dget r2 "sign_doc_bytes_hex" = VStr (hex_bytes l2) /\
    bytes_collision l1 l2.
Proof.
  intros (l1 & t1 & B1 & H1 & _ & R1 & E1)%compiled_reads (l2 & t2 & B2 & H2 & _ & R2 & E2)%compiled_reads E.
  rewrite H1, H2 in E. injection E as E. apply hex_bytes_inj in E; [|apply sha256_bytes..].
  destruct (decide (l1 = l2)) as [->|Hne]; [left; congruence|right; by exists l1, l2].
Qed.

(** Every transaction that is compiled for signing has a message, and each
    message is an anchor of the sender: its type is the anchor message, its
    submitter the sender, its amount is not negative, and its five hash fields
    hold, up to surrounding blanks, hashes. *)
Theorem compiled_anchors_are_valid intent sender account sequence public_key chain_id r t :
  compile_typed_tx_intent intent sender account sequence public_key chain_id = Ok r ->
  shown_transaction r = Ok t ->
  tx_messages t <> [] /\ Forall (message_valid sender) (tx_messages t).
Proof. apply compiled_messages_valid. Qed.

(** ** Witnesses *)

Definition demo_hash : string := "sha256:0123456789abcdef0123456789abcdef0123456789abcdef0123456789abcdef".

Definition demo_message (batch_id : string) : value :=
  VDict [("type_url", VStr FUTURE_MSG_TYPE_URL);
         ("value", VDict [("settlement_batch_id", VStr batch_id); ("anchor_job_id", VStr "job_1");
                          ("schema_version", VStr "settlement.v1"); ("canonical_root", VStr demo_hash);
                          ("anchor_payload_hash", VStr demo_hash); ("reward_window_ids_root", VStr demo_hash);
                          ("task_run_ids_root", VStr demo_hash); ("miner_reward_rows_root", VStr demo_hash);
                          ("total_reward_amount", VInt 300)])].
Definition demo_intent : dict :=
  [("body", VDict [("messages", VList [demo_message "sb_1"]); ("memo", VStr "anchor:v1:sb_1")])].
Definition demo_key : dict := [("@type", VStr SECP256K1_PUBKEY); ("key", VStr "AQIDBAU=")].
Definition demo_compiled : res dict :=
  compile_typed_tx_intent demo_intent (VStr "claw1abc") (VInt 7) (VInt 300) demo_key VNone.

Lemma demo_compiles : exists r t, demo_compiled = Ok r /\ shown_transaction r = Ok t.
Proof. eexists _, _. split; reflexivity. Qed.

Lemma sign_doc_roundtrip_witness :
  exists r bytes t, demo_compiled = Ok r /\ dget r "sign_doc_bytes_hex" = VStr (hex_bytes bytes) /\
    read_transaction bytes = Some t /\ shown_transaction r = Ok t.
Proof.
  destruct demo_compiles as (r & t & Hr & _). exists r.
  destruct (sign_doc_roundtrip demo_intent (VStr "claw1abc") (VInt 7) (VInt 300) demo_key VNone r Hr)
    as (bytes & t' & H1 & _ & H2 & H3).
  exists bytes, t'. exact (conj Hr (conj H1 (conj H2 H3))).
Defined.

Lemma sign_doc_hash_binding_witness :
  exists r, demo_compiled = Ok r /\
    (shown_transaction r = shown_transaction r \/
     exists l1 l2, dget r "sign_doc_bytes_hex" = VStr (hex_bytes l1) /\ dget r "sign_doc_bytes_hex" = VStr (hex_bytes l2) /\
       bytes_collision l1 l2).
Proof.
  destruct demo_compiles as (r & t & Hr & _). exists r. split; [exact Hr|].
  exact (sign_doc_hash_binding demo_intent (VStr "claw1abc") (VInt 7) (VInt 300) demo_key VNone r
           demo_intent (VStr "claw1abc") (VInt 7) (VInt 300) demo_key VNone r Hr Hr eq_refl).
Defined.

Lemma compiled_anchors_are_valid_witness :
  exists r t, demo_compiled = Ok r /\ shown_transaction r = Ok t /\
    tx_messages t <> [] /\ Forall (message_valid (VStr "claw1abc")) (tx_messages t).
Proof.
  destruct demo_compiles as (r & t & Hr & Ht). exists r, t.
  exact (conj Hr (conj Ht (compiled_anchors_are_valid demo_intent (VStr "claw1abc") (VInt 7) (VInt 300)
                             demo_key VNone r t Hr Ht))).
Defined.
