(* ===== verification/Json.v ===== *)
(** * Reading JSON ([json.loads])

    The decoder of the standard library, as the chain adapter uses it on the
    answers of the node and of the command line client.  Code points above 255
    are not described.  The text of a [JSONDecodeError], which is a
    [ValueError], is abbreviated: its position is left out. *)
From Stdlib Require Import ZArith Lia Ascii String SpecFloat.
From stdpp Require Import base list strings.
From S2P Require Import Prelude PyText PyFloat PyTime PyValue Canonical.
Open Scope Z_scope.

Definition json_error {A} : res A := Err (ValueError "Expecting value").

Definition is_json_space (c : ascii) : bool :=
  existsb (fun n => code c =? n) [32; 9; 10; 13].

Fixpoint skip_ws (l : list ascii) : list ascii :=
  match l with
  | [] => []
  | c :: l' => if is_json_space c then skip_ws l' else l
  end.

Definition hex_digit_value (c : ascii) : option Z :=
  let n := code c in
  if is_digit c then Some (n - 48)
  else if (97 <=? n) && (n <=? 102) then Some (n - 87)
  else if (65 <=? n) && (n <=? 70) then Some (n - 55)
  else None.

Definition hex4 (a b c d : ascii) : option Z :=
  match hex_digit_value a, hex_digit_value b, hex_digit_value c, hex_digit_value d with
  | Some a, Some b, Some c, Some d => Some (((a * 16 + b) * 16 + c) * 16 + d)
  | _, _, _, _ => None
  end.

(** The one-character escapes. *)
Definition simple_escape (e : ascii) : option ascii :=
  if Ascii.eqb e quote || Ascii.eqb e "\"%char || Ascii.eqb e "/"%char then Some e
  else if Ascii.eqb e "b"%char then Some (chr 8)
  else if Ascii.eqb e "f"%char then Some (chr 12)
  else if Ascii.eqb e "n"%char then Some (chr 10)
  else if Ascii.eqb e "r"%char then Some (chr 13)
  else if Ascii.eqb e "t"%char then Some (chr 9)
  else None.

Definition prepend {A B} (c : A) (r : res (list A * B)) : res (list A * B) :=
  let? (s, rest) := r in Ok (c :: s, rest).

(** The rest of a string literal after its opening quote. *)
Fixpoint scan_string (l : list ascii) : res (list ascii * list ascii) :=
  match l with
  | [] => json_error
  | c :: l =>
      if Ascii.eqb c quote then Ok ([], l)
      else if Ascii.eqb c "\"%char then
        match l with
        | e :: l' =>
            if Ascii.eqb e "u"%char then
              match l' with
              | h1 :: h2 :: h3 :: h4 :: l'' =>
                  match hex4 h1 h2 h3 h4 with
                  | Some n => if n <? 256 then prepend (chr n) (scan_string l'')
                              else Err (Unmodelled "code point above 255")
                  | None => json_error
                  end
              | _ => json_error
              end
            else match simple_escape e with
                 | Some c' => prepend c' (scan_string l')
                 | None => json_error
                 end
        | [] => json_error
        end
      else if code c <? 32 then json_error
      else prepend c (scan_string l)
  end.

(** The fraction, [\.\d+], and the exponent, [[eE][-+]?\d+]; neither is read
    when it does not match. *)
Definition scan_fraction (l : list ascii) : option (list ascii) * list ascii :=
  match l with
  | c :: l' =>
      if Ascii.eqb c "."%char then
        match span_digits l' with
        | ([], _) => (None, l)
        | (ds, r) => (Some ds, r)
        end
      else (None, l)
  | [] => (None, l)
  end.

Definition scan_exponent (l : list ascii) : option Z * list ascii :=
  match l with
  | c :: l' =>
      if Ascii.eqb c "e"%char || Ascii.eqb c "E"%char then
        let '(neg, r) := sign_split l' in
        match span_digits r with
        | ([], _) => (None, l)
        | (ds, r) => (Some (if neg then - digits_value ds else digits_value ds), r)
        end
      else (None, l)
  | [] => (None, l)
  end.

(** A number after its sign. *)
Definition scan_unsigned (neg : bool) (l : list ascii) : option (value * list ascii) :=
  match l with
  | c :: l' =>
      if is_digit c then
        let '(ip, r) := if Ascii.eqb c "0"%char then ([c], l') else span_digits l in
        let '(fp, r) := scan_fraction r in
        let '(ex, r) := scan_exponent r in
        match fp, ex with
        | None, None => Some (VInt (if neg then - digits_value ip else digits_value ip), r)
        | _, _ =>
            let ds := default [] fp in
            let x := f_of_decimal (digits_value (ip ++ ds)) (default 0 ex - Z.of_nat (length ds)) in
            Some (VFloat (if neg then fneg x else x), r)
        end
      else None
  | [] => None
  end.

(** The literals of the format, with those that Python adds. *)
Definition json_literals : list (string * value) :=
  [("null", VNone); ("true", VBool true); ("false", VBool false); ("NaN", VFloat S754_nan);
   ("Infinity", VFloat (S754_infinity false)); ("-Infinity", VFloat (S754_infinity true))].

Fixpoint scan_literal (table : list (string * value)) (l : list ascii) : option (value * list ascii) :=
  match table with
  | [] => None
  | (name, v) :: table =>
      match drop_prefix (chars name) l with
      | Some r => Some (v, r)
      | None => scan_literal table l
      end
  end.

(** A literal or a number. *)
Definition scan_scalar (l : list ascii) : option (value * list ascii) :=
  match scan_literal json_literals l with
  | Some r => Some r
  | None =>
      match l with
      | c :: l' => if Ascii.eqb c "-"%char then scan_unsigned true l' else scan_unsigned false l
      | [] => None
      end
  end.

(** The key of a member with its colon. *)
Definition scan_key (l : list ascii) : res (string * list ascii) :=
  match l with
  | c :: l =>
      if Ascii.eqb c quote then
        let? (k, l) := scan_string l in
        match skip_ws l with
        | c :: l => if Ascii.eqb c ":"%char then Ok (of_chars k, skip_ws l) else json_error
        | [] => json_error
        end
      else json_error
  | [] => json_error
  end.

(** A value, the elements of a list up to its bracket, and the members of an
    object, added to those already read: a key that is repeated keeps its place
    and takes the last value. *)
Fixpoint json_value (fuel : nat) (l : list ascii) : res (value * list ascii) :=
  match fuel with
  | O => Err (Unmodelled "fuel")
  | S fuel =>
      match l with
      | [] => json_error
      | c :: r =>
          if Ascii.eqb c quote then
            let? (s, r) := scan_string r in Ok (VStr (of_chars s), r)
          else if Ascii.eqb c "["%char then
            match skip_ws r with
            | c' :: r' => if Ascii.eqb c' "]"%char then Ok (VList [], r')
                          else json_elements fuel [] (skip_ws r)
            | [] => json_error
            end
          else if Ascii.eqb c "{"%char then
            match skip_ws r with
            | c' :: r' => if Ascii.eqb c' "}"%char then Ok (VDict [], r')
                          else json_members fuel [] (skip_ws r)
            | [] => json_error
            end
          else match scan_scalar l with Some r => Ok r | None => json_error end
      end
  end
with json_elements (fuel : nat) (acc : list value) (l : list ascii) : res (value * list ascii) :=
  match fuel with
  | O => Err (Unmodelled "fuel")
  | S fuel =>
      let? (v, r) := json_value fuel l in
      match skip_ws r with
      | c :: r =>
          if Ascii.eqb c "]"%char then Ok (VList (acc ++ [v]), r)
          else if Ascii.eqb c ","%char then json_elements fuel (acc ++ [v]) (skip_ws r)
          else json_error
      | [] => json_error
      end
  end
with json_members (fuel : nat) (acc : dict) (l : list ascii) : res (value * list ascii) :=
  match fuel with
  | O => Err (Unmodelled "fuel")
  | S fuel =>
      let? (k, r) := scan_key l in
      let? (v, r) := json_value fuel r in
      match skip_ws r with
      | c :: r =>
          if Ascii.eqb c "}"%char then Ok (VDict (dset acc k v), r)
          else if Ascii.eqb c ","%char then json_members fuel (dset acc k v) (skip_ws r)
          else json_error
      | [] => json_error
      end
  end.

Definition json_loads (s : string) : res value :=
  let l := skip_ws (chars s) in
  let? (v, r) := json_value (2 * length l + 1) l in
  match skip_ws r with [] => Ok v | _ => Err (ValueError "Extra data") end.

(** [bytes.decode("utf-8")]; a two-byte sequence is a code point below 2048. *)
Fixpoint utf8_decode (l : list Z) : res (list ascii) :=
  match l with
  | [] => Ok []
  | a :: l =>
      if a <? 128 then let? s := utf8_decode l in Ok (chr a :: s)
      else if (194 <=? a) && (a <=? 195) then
        match l with
        | b :: l => if (128 <=? b) && (b <=? 191)
                    then let? s := utf8_decode l in Ok (chr ((a - 192) * 64 + (b - 128)) :: s)
                    else Err (ValueError "invalid continuation byte")
        | [] => Err (ValueError "unexpected end of data")
        end
      else if (196 <=? a) && (a <=? 244) then Err (Unmodelled "code point above 255")
      else Err (ValueError "invalid start byte")
  end.

Definition bytes_decode (l : list Z) : res string :=
  let? s := utf8_decode l in Ok (of_chars s).

(** Single quotes stand for double ones in the examples. *)
Definition quoted (s : string) : string :=
  of_chars (map (fun c => if Ascii.eqb c (chr 39) then quote else c) (chars s)).

Example json_loads_object :
  json_loads (quoted " {'a': [1, -2.5e1, 'x\n', []], 'b': {'c': true}, 'a': null } ")
  = Ok (VDict [("a", VNone); ("b", VDict [("c", VBool true)])]).
Proof. reflexivity. Qed.

Example json_loads_numbers :
  json_loads "[0, -17, 25e-1, 1.]" = Err (ValueError "Expecting value") /\
  json_loads "[0, -17, 25e-1]" = Ok (VList [VInt 0; VInt (-17); VFloat (f_of_decimal 25 (-1))]).
Proof. split; reflexivity. Qed.

(** ** The fuel is enough

    A value takes two steps at most for each character that it reads. *)

Lemma skip_ws_length l : (length (skip_ws l) <= length l)%nat.
Proof. induction l as [|c l IH]; simpl; [lia|]. destruct (is_json_space c); simpl; lia. Qed.

Lemma prepend_ok {A B} (c : A) (r : res (list A * B)) s rest :
  prepend c r = Ok (s, rest) -> exists s', r = Ok (s', rest) /\ s = c :: s'.
Proof. destruct r as [[s' rest']|]; simpl; [|done]. intros [= <- <-]. eauto. Qed.

Lemma scan_string_length l s r : scan_string l = Ok (s, r) -> (length r < length l)%nat.
Proof.
  remember (length l) as n eqn:Hn. revert l s Hn. induction n as [n IH] using lt_wf_ind.
  intros [|c l] s ->; simpl; [done|].
  destruct (Ascii.eqb c quote); [intros [= <- <-]; lia|].
  destruct (Ascii.eqb c "\"%char).
  - destruct l as [|e l']; [done|]. destruct (Ascii.eqb e "u"%char).
    + destruct l' as [|h1 [|h2 [|h3 [|h4 l'']]]]; try done.
      destruct (hex4 h1 h2 h3 h4); [|done]. case_match; [|done].
      intros (s' & Hs & _)%prepend_ok. apply (IH (length l'')) in Hs; simpl; try done; lia.
    + destruct (simple_escape e); [|done].
      intros (s' & Hs & _)%prepend_ok. apply (IH (length l')) in Hs; simpl; try done; lia.
  - case_match; [done|]. intros (s' & Hs & _)%prepend_ok.
    apply (IH (length l)) in Hs; simpl; try done; lia.
Qed.

Definition fuel_left {A} (r : res A) : Prop := r <> Err (Unmodelled "fuel").

Lemma scan_string_fuel l : fuel_left (scan_string l).
Proof.
  unfold fuel_left. remember (length l) as n eqn:Hn. revert l Hn. induction n as [n IH] using lt_wf_ind.
  assert (forall c r, r <> Err (Unmodelled "fuel") ->
    prepend (A:=ascii) (B:=list ascii) c r <> Err (Unmodelled "fuel")) as Hp
    by (intros c [[s r]|e] H; simpl; congruence).
  intros [|c l] ->; simpl; [done|].
  destruct (Ascii.eqb c quote); [done|]. destruct (Ascii.eqb c "\"%char).
  - destruct l as [|e l']; [done|]. destruct (Ascii.eqb e "u"%char).
    + destruct l' as [|h1 [|h2 [|h3 [|h4 l'']]]]; try done.
      destruct (hex4 h1 h2 h3 h4); [|done]. case_match; [|done].
      apply Hp, (IH (length l'')); simpl; [lia|done].
    + destruct (simple_escape e); [|done]. apply Hp, (IH (length l')); simpl; [lia|done].
  - case_match; [done|]. apply Hp, (IH (length l)); simpl; [lia|done].
Qed.

Lemma scan_key_length l k r : scan_key l = Ok (k, r) -> (length r + 2 < length l)%nat.
Proof.
  unfold scan_key. destruct l as [|c l]; [done|]. destruct (Ascii.eqb c quote); [|done].
  destruct (scan_string l) as [[s l']|] eqn:Es; [|done]. simpl. apply scan_string_length in Es.
  pose proof (skip_ws_length l'). destruct (skip_ws l') as [|c' l'']; [done|].
  destruct (Ascii.eqb c' ":"%char); [|done]. intros [= <- <-].
  pose proof (skip_ws_length l''). simpl in *. lia.
Qed.

Lemma scan_key_fuel l : fuel_left (scan_key l).
Proof.
  unfold scan_key, fuel_left. destruct l as [|c l]; [done|]. destruct (Ascii.eqb c quote); [|done].
  pose proof (scan_string_fuel l). destruct (scan_string l) as [[s l']|e]; simpl; [|congruence].
  destruct (skip_ws l') as [|c' l'']; [done|]. by destruct (Ascii.eqb c' ":"%char).
Qed.

Lemma span_digits_length l ds r : span_digits l = (ds, r) -> (length r + length ds = length l)%nat.
Proof.
  revert ds r. induction l as [|c l IH]; intros ds r; simpl; [by intros [= <- <-]|].
  destruct (is_digit c); [|by intros [= <- <-]]. destruct (span_digits l) as [ds' r'].
  specialize (IH _ _ eq_refl). intros [= <- <-]. simpl. lia.
Qed.

Lemma scan_fraction_length l : (length (scan_fraction l).2 <= length l)%nat.
Proof.
  destruct l as [|c l]; simpl; [lia|]. destruct (Ascii.eqb c "."%char); [|simpl; lia].
  destruct (span_digits l) as [ds r] eqn:E. apply span_digits_length in E.
  destruct ds; simpl in *; lia.
Qed.

Lemma sign_split_length l : (length (sign_split l).2 <= length l)%nat.
Proof. destruct l as [|c l]; simpl; [lia|]. repeat case_match; simpl; lia. Qed.

Lemma scan_exponent_length l : (length (scan_exponent l).2 <= length l)%nat.
Proof.
  destruct l as [|c l]; simpl; [lia|]. destruct (_ || _); [|simpl; lia].
  pose proof (sign_split_length l). destruct (sign_split l) as [neg r].
  destruct (span_digits r) as [ds r'] eqn:E. apply span_digits_length in E.
  destruct ds; simpl in *; lia.
Qed.

Lemma scan_unsigned_length neg l v r :
  scan_unsigned neg l = Some (v, r) -> (length r < length l)%nat.
Proof.
  destruct l as [|c l]; simpl; [done|]. destruct (is_digit c) eqn:Ed; [|done].
  destruct (if Ascii.eqb c "0" then _ else _) as [ip r1] eqn:E1.
  assert (length r1 < S (length l))%nat as H1.
  { destruct (Ascii.eqb c "0"%char); [injection E1 as <- <-; lia|].
    destruct (span_digits l) as [ds r'] eqn:E. apply span_digits_length in E. injection E1 as <- <-. lia. }
  pose proof (scan_fraction_length r1) as H2. destruct (scan_fraction r1) as [fp r2].
  pose proof (scan_exponent_length r2) as H3. destruct (scan_exponent r2) as [ex r3]. simpl in *.
  destruct fp, ex; intros [= _ <-]; lia.
Qed.

Lemma drop_prefix_length p l r : drop_prefix p l = Some r -> (length r + length p = length l)%nat.
Proof.
  revert l. induction p as [|a p IH]; intros [|b l]; simpl; try done; [intros [= <-]; simpl; lia..|].
  destruct (Ascii.eqb a b); [|done]. intros H%IH. lia.
Qed.

Lemma scan_literal_length table l v r :
  Forall (fun e => e.1 <> "") table -> scan_literal table l = Some (v, r) -> (length r < length l)%nat.
Proof.
  induction 1 as [|[name w] table Hn _ IH]; simpl; [done|].
  destruct (drop_prefix (chars name) l) as [r'|] eqn:E; [|done]. intros [= -> ->].
  apply drop_prefix_length in E. destruct name; [done|]. simpl in E. lia.
Qed.

Lemma scan_scalar_length l v r : scan_scalar l = Some (v, r) -> (length r < length l)%nat.
Proof.
  unfold scan_scalar. destruct (scan_literal json_literals l) as [[v' r']|] eqn:E.
  { intros [= -> ->]. apply scan_literal_length in E; [done|]. by repeat constructor. }
  destruct l as [|c l]; [done|]. destruct (Ascii.eqb c "-"%char); intros H%scan_unsigned_length; simpl in *; lia.
Qed.

(** Each of the three readers consumes something. *)
Lemma json_length fuel :
  (forall l v r, json_value fuel l = Ok (v, r) -> (length r < length l)%nat) /\
  (forall acc l v r, json_elements fuel acc l = Ok (v, r) -> (length r < length l)%nat) /\
  (forall acc l v r, json_members fuel acc l = Ok (v, r) -> (length r < length l)%nat).
Proof.
  induction fuel as [|fuel (IHv & IHe & IHm)]; [done|]. split_and!.
  - intros [|c l] v r; [done|]. cbn [json_value]. pose proof (skip_ws_length l) as Hws.
    destruct (Ascii.eqb c quote).
    { destruct (scan_string l) as [[s r']|] eqn:E; [|done]. simpl. intros [= _ <-].
      apply scan_string_length in E. lia. }
    destruct (Ascii.eqb c "["%char).
    { destruct (skip_ws l) as [|c' r'] eqn:E; [done|]. destruct (Ascii.eqb c' "]"%char).
      - intros [= _ <-]. simpl in *. lia.
      - intros H%IHe. simpl in *. lia. }
    destruct (Ascii.eqb c "{"%char).
    { destruct (skip_ws l) as [|c' r'] eqn:E; [done|]. destruct (Ascii.eqb c' "}"%char).
      - intros [= _ <-]. simpl in *. lia.
      - intros H%IHm. simpl in *. lia. }
    destruct (scan_scalar (c :: l)) as [[v' r']|] eqn:E; [|done]. intros [= <- <-].
    by apply scan_scalar_length in E.
  - intros acc l v r. cbn [json_elements]. destruct (json_value fuel l) as [[v' r']|] eqn:E; [|done].
    apply IHv in E. simpl. pose proof (skip_ws_length r'). destruct (skip_ws r') as [|c r'']; [done|].
    destruct (Ascii.eqb c "]"%char); [intros [= _ <-]; simpl in *; lia|].
    destruct (Ascii.eqb c ","%char); [|done]. intros H'%IHe. pose proof (skip_ws_length r''). simpl in *. lia.
  - intros acc l v r. cbn [json_members]. destruct (scan_key l) as [[k r1]|] eqn:Ek; [|done].
    apply scan_key_length in Ek. simpl. destruct (json_value fuel r1) as [[v' r']|] eqn:E; [|done].
    apply IHv in E. simpl. pose proof (skip_ws_length r'). destruct (skip_ws r') as [|c r'']; [done|].
    destruct (Ascii.eqb c "}"%char); [intros [= _ <-]; simpl in *; lia|].
    destruct (Ascii.eqb c ","%char); [|done]. intros H'%IHm. pose proof (skip_ws_length r''). simpl in *. lia.
Qed.

Lemma json_fuel fuel :
  (forall l, (2 * length l < fuel)%nat -> fuel_left (json_value fuel l)) /\
  (forall acc l, (2 * length l + 1 < fuel)%nat -> fuel_left (json_elements fuel acc l)) /\
  (forall acc l, (2 * length l + 1 < fuel)%nat -> fuel_left (json_members fuel acc l)).
Proof.
  unfold fuel_left. induction fuel as [|fuel (IHv & IHe & IHm)]; [split_and!; intros; lia|]. split_and!.
  - intros [|c l] Hf; [done|]. cbn [json_value]. pose proof (skip_ws_length l) as Hws. simpl in Hf.
    destruct (Ascii.eqb c quote).
    { pose proof (scan_string_fuel l). destruct (scan_string l) as [[s r']|e]; simpl; [done|]. unfold fuel_left in *. congruence. }
    destruct (Ascii.eqb c "["%char).
    { destruct (skip_ws l) as [|c' r'] eqn:E; [done|]. destruct (Ascii.eqb c' "]"%char); [done|].
      apply IHe. simpl in *. lia. }
    destruct (Ascii.eqb c "{"%char).
    { destruct (skip_ws l) as [|c' r'] eqn:E; [done|]. destruct (Ascii.eqb c' "}"%char); [done|].
      apply IHm. simpl in *. lia. }
    by destruct (scan_scalar (c :: l)).
  - intros acc l Hf. cbn [json_elements]. specialize (IHv l ltac:(lia)).
    destruct (json_value fuel l) as [[v' r']|e] eqn:E; simpl; [|congruence].
    apply json_length in E. pose proof (skip_ws_length r'). destruct (skip_ws r') as [|c r'']; [done|].
    destruct (Ascii.eqb c "]"%char); [done|]. destruct (Ascii.eqb c ","%char); [|done].
    pose proof (skip_ws_length r''). simpl in *. apply IHe. lia.
  - intros acc l Hf. cbn [json_members]. pose proof (scan_key_fuel l) as Hk. unfold fuel_left in Hk.
    destruct (scan_key l) as [[k r1]|e] eqn:Ek; simpl; [|congruence].
    apply scan_key_length in Ek. specialize (IHv r1 ltac:(lia)).
    destruct (json_value fuel r1) as [[v' r']|e] eqn:E; simpl; [|congruence].
    apply json_length in E. pose proof (skip_ws_length r'). destruct (skip_ws r') as [|c r'']; [done|].
    destruct (Ascii.eqb c "}"%char); [done|]. destruct (Ascii.eqb c ","%char); [|done].
    pose proof (skip_ws_length r''). simpl in *. apply IHm. lia.
Qed.

(** [json_loads] reads every text to its end: it gives a value or raises. *)
Lemma json_loads_fuel s : fuel_left (json_loads s).
Proof.
  unfold json_loads, fuel_left. cbv zeta.
  pose proof (proj1 (json_fuel (2 * length (skip_ws (chars s)) + 1)) (skip_ws (chars s)) ltac:(lia)) as H.
  unfold fuel_left in H. destruct (json_value _ _) as [[v r]|e]; simpl; [|congruence].
  by destruct (skip_ws r).
Qed.
