(* ===== verification/ChainClient.v ===== *)
(** * The chain client (chain_adapter.py 23, 203-304, 584-1357)

    Keys, account and sequence numbers, the command lines that build, sign and
    send a transaction, the retry of a broadcast with the sequence the node
    expects, the queries of a node and the readiness report.  The outside world
    (subprocesses, HTTP, the file system) is the record [ChainTools] over a state
    [W], an argument; a command may change the world. *)
From Stdlib Require Import ZArith Lia Ascii String.
From stdpp Require Import base list strings.
From S2P Require Import Prelude PyText PyFloat PyTime PyValue Sha256 Canonical ChainAdapter.
From S2P Require Import Protobuf TxEncoding Json.
Open Scope Z_scope.

(** ** The outside world *)

Record completed_process := { returncode : Z; stdout : string; stderr : string }.

(** [http_get] and [http_post] return the bytes of the answer, the posted body
    being the JSON text of the value; they raise [OSError] (of which [URLError]
    and [TimeoutError] are kinds).  [home_directory] is the directory that a
    leading [~] or [~user] stands for. *)
Record ChainTools (W : Type) := {
  run_process : list string -> st W completed_process;
  http_get : string -> st W (list Z);
  http_post : string -> value -> st W (list Z);
  which : string -> st W (option string);
  path_exists : string -> st W bool;
  resolve_path : string -> st W string;
  home_directory : string -> st W string;
  read_text : string -> st W string;
  write_json : string -> value -> st W unit;
  temporary_directory : st W string
}.
Arguments run_process {W}. Arguments http_get {W}. Arguments http_post {W}. Arguments which {W}.
Arguments path_exists {W}. Arguments resolve_path {W}. Arguments home_directory {W}.
Arguments read_text {W}. Arguments write_json {W}. Arguments temporary_directory {W}.

(** [try: m  except (ValueError, OSError) as exc: h(str(exc))] *)
Definition catch_io {W A} (m : st W A) (h : string -> st W A) : st W A :=
  fun w => match m w with
           | (Err (ValueError msg), w') | (Err (OSError msg), w') => h msg w'
           | r => r
           end.

(** ** Text and paths *)

(** [s.splitlines()]: the line ends of [str] below 256. *)
Definition is_line_end (c : ascii) : bool :=
  existsb (fun n => code c =? n) [10; 11; 12; 13; 28; 29; 30; 133].
Fixpoint splitlines (l cur : list ascii) : list string :=
  match l with
  | [] => match cur with [] => [] | _ => [of_chars (rev cur)] end
  | c :: l =>
      if is_line_end c then
        of_chars (rev cur) ::
        match l with
        | c' :: l' => if Ascii.eqb c (chr 13) && Ascii.eqb c' (chr 10) then splitlines l' [] else splitlines l []
        | [] => []
        end
      else splitlines l (c :: cur)
  end.

(** A POSIX path: its root and its components. *)
Record posix_path := { path_root : string; path_parts : list string }.

Definition parse_path (s : string) : posix_path :=
  {| path_root :=
       if str_startswith "//" s && negb (str_startswith "///" s) then "//"
       else if str_startswith "/" s then "/" else "";
     path_parts := List.filter (fun p => negb (String.eqb p "" || String.eqb p ".")) (str_split "/"%char s) |}.

Definition path_text (p : posix_path) : string :=
  match path_root p +:+ str_join "/" (path_parts p) with "" => "." | s => s end.
Definition path_name (p : posix_path) : string := default "" (last (path_parts p)).
Definition path_parent (p : posix_path) : posix_path :=
  {| path_root := path_root p; path_parts := take (length (path_parts p) - 1) (path_parts p) |}.
Definition path_join (p : posix_path) (names : list string) : posix_path :=
  {| path_root := path_root p; path_parts := path_parts p ++ names |}.

(** Methods of [str] called on a value that is not one. *)
Definition text_of (v : value) : res string :=
  match v with VStr s => Ok s | _ => Err AttributeError end.

(** The pattern [expected\s+(\d+),\s+got\s+(\d+)] at the start of a text; the
    number after [expected]. *)
Definition spaces_then (l : list ascii) : option (list ascii) :=
  match span is_space l with ([], _) => None | (_, r) => Some r end.
Definition match_expected (l : list ascii) : option Z :=
  match drop_prefix (chars "expected") l with
  | Some l =>
      match option_map (span is_digit) (spaces_then l) with
      | Some (c :: ds, r) =>
          match drop_prefix [","%char] r with
          | Some r =>
              match option_map (drop_prefix (chars "got")) (spaces_then r) with
              | Some (Some r) =>
                  match option_map (span is_digit) (spaces_then r) with
                  | Some (_ :: _, _) => Some (digits_value (c :: ds))
                  | _ => None
                  end
              | _ => None
              end
          | None => None
          end
      | _ => None
      end
  | None => None
  end.
Fixpoint search_expected (l : list ascii) : option Z :=
  match match_expected l with
  | Some n => Some n
  | None => match l with [] => None | _ :: l => search_expected l end
  end.
Definition _extract_expected_sequence (error_message : string) : option Z :=
  search_expected (chars error_message).

Definition _is_sequence_mismatch_error (error_message : string) : bool :=
  let lowered := str_lower error_message in
  str_contains "sequence mismatch" lowered || str_contains "incorrect account sequence" lowered.

(** ** URLs and transaction hashes *)

Definition _rpc_base_url (node_rpc : string) : string :=
  if str_startswith "tcp://" node_rpc then "http://" +:+ str_removeprefix "tcp://" node_rpc
  else if str_startswith "http://" node_rpc || str_startswith "https://" node_rpc
  then str_rstrip_char "/" node_rpc
  else "http://" +:+ str_rstrip_char "/" node_rpc.

Definition _rpc_status_url (node_rpc : string) : string := _rpc_base_url node_rpc +:+ "/status".

(** [bytes.fromhex]: pairs of digits, with blanks between the pairs; [None] is
    the [ValueError] case. *)
Definition is_ascii_space (c : ascii) : bool :=
  existsb (fun n => code c =? n) [9; 10; 11; 12; 13; 32].
Fixpoint bytes_fromhex (l : list ascii) : option (list Z) :=
  match l with
  | [] => Some []
  | a :: l =>
      if is_ascii_space a then bytes_fromhex l
      else match l with
           | b :: l =>
               match hex_digit_value a, hex_digit_value b with
               | Some x, Some y => option_map (cons (16 * x + y)) (bytes_fromhex l)
               | _, _ => None
               end
           | [] => None
           end
  end.

(** [base64.b64encode] *)
Definition b64_char (n : Z) : ascii :=
  if n <? 26 then chr (n + 65) else if n <? 52 then chr (n + 71)
  else if n <? 62 then chr (n - 4) else if n =? 62 then "+"%char else "/"%char.
Fixpoint b64encode (l : list Z) : list ascii :=
  match l with
  | [] => []
  | [a] => [b64_char (a / 4); b64_char (a mod 4 * 16); "="%char; "="%char]
  | [a; b] => [b64_char (a / 4); b64_char (a mod 4 * 16 + b / 16); b64_char (b mod 16 * 4); "="%char]
  | a :: b :: c :: l =>
      b64_char (a / 4) :: b64_char (a mod 4 * 16 + b / 16) ::
      b64_char (b mod 16 * 4 + c / 64) :: b64_char (c mod 64) :: b64encode l
  end.

Definition _normalize_tx_hash_param (tx_hash : value) : res string :=
  let? text := text_of (por tx_hash (VStr "")) in
  let normalized := str_strip text in
  if String.eqb normalized "" then Err (ValueError "tx hash is required")
  else
    let normalized := if str_startswith "0x" (str_lower normalized)
                      then of_chars (drop 2 (chars normalized)) else normalized in
    Ok (match bytes_fromhex (chars normalized) with
        | Some bytes => of_chars (b64encode bytes)
        | None => normalized
        end).

(** ** The client *)

Section Client.
Context {W : Type} (tools : ChainTools W) (settings : dict).

(** [getattr(settings, k, dflt)] *)
Definition getattr (k : string) (dflt : value) : value := dget_or settings k dflt.

Definition expanduser (p : posix_path) : st W posix_path :=
  match path_parts p with
  | first :: rest =>
      if String.eqb (path_root p) "" && str_startswith "~" first then
        let* home := home_directory tools first in
        sret (path_join (parse_path home) rest)
      else sret p
  | [] => sret p
  end.

Definition normalize_keyring_dir (keyring_dir backend : value) : st W value :=
  if negb (truthy keyring_dir) then sret VNone
  else
    let*? text := as_str keyring_dir in
    let* path := expanduser (parse_path text) in
    let*? backend_text := py_str backend in
    sret (VStr (path_text (if String.eqb (path_name path) ("keyring-" +:+ backend_text)
                           then path_parent path else path))).

(** The key name and the keyring directory of the settings; [msg] is raised
    when one of them is missing. *)
Definition keyring_of_settings (msg : string) : st W (value * value) :=
  let key_name := getattr "anchor_key_name" VNone in
  let* keyring_dir := normalize_keyring_dir (getattr "anchor_keyring_dir" VNone)
                        (getattr "anchor_keyring_backend" (VStr "test")) in
  if negb (truthy key_name) || negb (truthy keyring_dir) then sraise (ValueError msg)
  else sret (key_name, keyring_dir).

Definition _binary_info (binary : value) : st W dict :=
  let*? text := as_str binary in
  if existsb (Ascii.eqb "/"%char) (chars text) || str_startswith "." text then
    let* path := expanduser (parse_path text) in
    let* there := path_exists tools (path_text path) in
    let* resolved := if there then resolve_path tools (path_text path) else sret (path_text path) in
    let* available := path_exists tools (path_text path) in
    sret [("configured", binary); ("resolved_path", VStr resolved); ("available", VBool available)]
  else
    let* resolved := which tools text in
    sret [("configured", binary);
          ("resolved_path", match resolved with
                            | Some s => if String.eqb s "" then binary else VStr s
                            | None => binary end);
          ("available", VBool (match resolved with Some _ => true | None => false end))].

(** [subprocess.run]: an argument that is not a string raises. *)
Definition _run_command (command : list value) : st W completed_process :=
  let*? args := mapR as_str command in run_process tools args.

(** [raise ValueError(stderr or stdout or fallback)] *)
Definition process_error (proc : completed_process) (fallback : string) : exn :=
  let err := str_strip (stderr proc) in
  let out := str_strip (stdout proc) in
  ValueError (if negb (String.eqb err "") then err else if negb (String.eqb out "") then out else fallback).

Definition keys_show_command (key_name keyring_dir : value) (what : string) : list value :=
  [getattr "chain_binary" (VStr "clawchaind"); VStr "keys"; VStr "show"; key_name; VStr what;
   VStr "--keyring-backend"; getattr "anchor_keyring_backend" (VStr "test");
   VStr "--keyring-dir"; keyring_dir].

(** No output has no last line: the index raises before the empty address is
    noticed. *)
Definition resolve_key_address : st W string :=
  let* (key_name, keyring_dir) := keyring_of_settings "anchor key name and keyring dir are required" in
  let* proc := _run_command (keys_show_command key_name keyring_dir "-a") in
  let*? name := py_str key_name in
  if negb (returncode proc =? 0) then
    sraise (process_error proc ("failed to resolve key address for " +:+ name))
  else
    let*? line := of_option (last (splitlines (chars (str_strip (stdout proc))) [])) IndexError in
    let address := str_strip line in
    if String.eqb address "" then sraise (ValueError ("empty key address for " +:+ name))
    else sret address.

Definition resolve_key_pubkey : st W dict :=
  let* (key_name, keyring_dir) := keyring_of_settings "anchor key name and keyring dir are required" in
  let* proc := _run_command (keys_show_command key_name keyring_dir "--pubkey") in
  let*? name := py_str key_name in
  if negb (returncode proc =? 0) then
    sraise (process_error proc ("failed to resolve key pubkey for " +:+ name))
  else
    let out := str_strip (stdout proc) in
    if String.eqb out "" then sraise (ValueError ("empty key pubkey for " +:+ name))
    else
      let* loaded := scatch_value_error (slift (json_loads out))
                       (fun _ => sraise (ValueError ("invalid key pubkey payload for " +:+ name))) in
      let*? payload := as_dict loaded in
      let type_url := por (dget payload "@type") (dget payload "type_url") in
      let key_value := dget payload "key" in
      if negb (truthy type_url) || negb (truthy key_value)
      then sraise (ValueError ("incomplete key pubkey payload for " +:+ name))
      else sret [("@type", type_url); ("key", key_value)].

(** ** The node *)

(** [json.loads(response.read().decode("utf-8") or "{}")] *)
Definition load_answer (bytes : list Z) : res value :=
  let? text := bytes_decode bytes in
  json_loads (if String.eqb text "" then "{}" else text).

Definition _fetch_rpc_status (node_rpc : value) : st W dict :=
  let*? rpc := text_of node_rpc in
  let url := _rpc_status_url rpc in
  let* bytes := http_get tools url in
  let*? payload := (let? v := load_answer bytes in as_dict v) in
  let*? result := dict_field payload "result" in
  let*? sync_info := dict_field result "sync_info" in
  let*? node_info := dict_field result "node_info" in
  sret [("reachable", VBool true); ("status_url", VStr url);
        ("latest_block_height", dget sync_info "latest_block_height");
        ("catching_up", dget sync_info "catching_up");
        ("network", dget node_info "network"); ("moniker", dget node_info "moniker")].

(** The error that a JSON-RPC answer reports. *)
Definition rpc_error (error_payload : dict) : res exn :=
  let? message := (if truthy (dget error_payload "message") then Ok (dget error_payload "message")
                   else let? s := py_str (VDict error_payload) in Ok (VStr s)) in
  let detail := dget error_payload "data" in
  let? text := py_str message in
  if truthy detail then let? d := py_str detail in Ok (ValueError (text +:+ ": " +:+ d))
  else Ok (ValueError text).

Definition _rpc_jsonrpc (node_rpc : value) (method : string) (params : dict) : st W dict :=
  let*? rpc := text_of node_rpc in
  let* bytes := http_post tools (_rpc_base_url rpc)
    (VDict [("jsonrpc", VStr "2.0"); ("id", VInt 1); ("method", VStr method); ("params", VDict params)]) in
  let*? payload := (let? v := load_answer bytes in as_dict v) in
  if truthy (dget payload "error") then
    let*? error_payload := as_dict (dget payload "error") in
    let*? e := rpc_error error_payload in
    sraise e
  else sret payload.

Definition node_rpc_setting : value := getattr "chain_node_rpc" (VStr "tcp://127.0.0.1:26657").

(** [except ValueError as exc] around the query only. *)
Definition query_tx (tx_hash : value) : st W (option dict) :=
  scatch_value_error
    (let*? hash := _normalize_tx_hash_param tx_hash in
     let* payload := _rpc_jsonrpc node_rpc_setting "tx" [("hash", VStr hash); ("prove", VBool false)] in
     sret (Some payload))
    (fun msg => if str_contains "not found" (str_lower msg) then sret None else sraise (ValueError msg)).

Definition inspect_broadcast_tx_confirmation (tx_hash : value) : st W dict :=
  let* answer := query_tx tx_hash in
  match answer with
  | None =>
      sret [("tx_hash", tx_hash); ("found", VBool false); ("confirmation_status", VStr "pending");
            ("height", VNone); ("code", VNone); ("raw_log", VStr "")]
  | Some payload =>
      let*? result := dict_field payload "result" in
      let*? tx_result := dict_field result "tx_result" in
      let*? code := int_or_zero (dget_or tx_result "code" (VInt 0)) in
      let raw_log := por (dget tx_result "log") (por (dget tx_result "raw_log") (VStr "")) in
      let height := dget result "height" in
      let*? height_int := (if is_none height then Ok VNone else let? n := py_int height in Ok (VInt n)) in
      sret [("tx_hash", por (dget result "hash") tx_hash); ("found", VBool true);
            ("confirmation_status", VStr (if code =? 0 then "confirmed" else "failed"));
            ("height", height_int); ("code", VInt code); ("raw_log", raw_log)]
  end.

(** [int(response["height"]) if response.get("height") is not None else None] *)
Definition response_height (response : dict) : res value :=
  if is_none (dget response "height") then Ok VNone
  else let? n := py_int (dget response "height") in Ok (VInt n).

Definition decode_anchor (raw_value : value) : res value :=
  let? bytes := b64decode raw_value in load_answer bytes.

Definition inspect_settlement_anchor (settlement_batch_id : value) : st W dict :=
  let*? text := text_of (por settlement_batch_id (VStr "")) in
  let resolved_batch_id := str_strip text in
  if String.eqb resolved_batch_id "" then sraise (ValueError "settlement batch id is required")
  else
    let* payload := _rpc_jsonrpc node_rpc_setting "abci_query"
      [("path", VStr "/store/settlement/key");
       ("data", VStr ("0x" +:+ hex_bytes (1 :: utf8 resolved_batch_id)));
       ("prove", VBool false)] in
    let*? result := as_dict (dget_or payload "result" (VDict [])) in
    let*? response := as_dict (dget_or result "response" (VDict [])) in
    let raw_value := dget response "value" in
    let answer found height anchor :=
      [("found", VBool found); ("settlement_batch_id", VStr resolved_batch_id);
       ("query_height", height); ("anchor", anchor)] in
    if negb (truthy raw_value) then
      let*? height := response_height response in sret (answer false height VNone)
    else
      let* anchor := scatch_value_error (slift (decode_anchor raw_value))
        (fun _ => sraise (ValueError ("invalid settlement anchor payload for " +:+ resolved_batch_id))) in
      let*? height := response_height response in
      sret (answer true height anchor).

(** The synchronous and the asynchronous variant, the second naming the batch. *)
Definition inspect_broadcast_tx_and_settlement_anchor (tx_hash settlement_batch_id : value) : st W dict :=
  let* tx_receipt := inspect_broadcast_tx_confirmation tx_hash in
  if negb (py_eq_str (dget tx_receipt "confirmation_status") "confirmed") then sret tx_receipt
  else
    let* query_response := inspect_settlement_anchor settlement_batch_id in
    sret (dupdate tx_receipt [("confirmed", VBool true); ("query_response", VDict query_response)]).

Definition inspect_broadcast_tx_and_settlement_anchor_async (tx_hash settlement_batch_id : value) : st W dict :=
  let* tx_receipt := inspect_broadcast_tx_confirmation tx_hash in
  if negb (py_eq_str (dget tx_receipt "confirmation_status") "confirmed") then sret tx_receipt
  else
    let* query_response := inspect_settlement_anchor settlement_batch_id in
    sret (dupdate tx_receipt [("confirmed", VBool true); ("settlement_batch_id", settlement_batch_id);
                              ("query_response", VDict query_response)]).

(** ** Account number and sequence *)

(** The account of the genesis document: the first one with the address. *)
Fixpoint genesis_account (accounts : list value) (sender_address : value) : res (option Z) :=
  match accounts with
  | [] => Ok None
  | account :: accounts =>
      let? account := as_dict account in
      if negb (py_eq (dget account "address") sender_address) then genesis_account accounts sender_address
      else let? n := int_or_zero (dget_or account "account_number" (VInt 0)) in Ok (Some n)
  end.

Definition genesis_accounts (payload : value) : res (list value) :=
  let? payload := as_dict payload in
  let? app_state := as_dict (dget_or payload "app_state" (VDict [])) in
  let? auth := as_dict (dget_or app_state "auth" (VDict [])) in
  as_list (dget_or auth "accounts" (VList [])).

Definition _load_genesis_account_number (home_dir : string) (sender_address : value) : st W (option Z) :=
  let* home := expanduser (parse_path home_dir) in
  let genesis_path := path_text (path_join home ["config"; "genesis.json"]) in
  let* there := path_exists tools genesis_path in
  if negb there then sret None
  else
    let* text := read_text tools genesis_path in
    let*? payload := json_loads text in
    let*? accounts := genesis_accounts payload in
    slift (genesis_account accounts sender_address).

Definition resolve_anchor_account_number (sender_address : value) : st W Z :=
  let configured := getattr "anchor_account_number" VNone in
  if negb (is_none configured) then slift (py_int configured)
  else
    let* keyring_dir := normalize_keyring_dir (getattr "anchor_keyring_dir" VNone)
                          (getattr "anchor_keyring_backend" (VStr "test")) in
    let* found := (match keyring_dir with
                   | VStr home_dir => if truthy keyring_dir
                                      then _load_genesis_account_number home_dir sender_address
                                      else sret None
                   | _ => sret None
                   end) in
    match found with
    | Some n => sret n
    | None => sraise (ValueError "anchor account number unresolved; configure CLAWCHAIN_ANCHOR_ACCOUNT_NUMBER or provide config/genesis.json under anchor keyring dir")
    end.

Definition _fetch_sender_tx_count (node_rpc sender_address : value) : st W Z :=
  let*? address := py_str sender_address in
  let* payload := _rpc_jsonrpc node_rpc "tx_search"
    [("query", VStr ("message.sender='" +:+ address +:+ "'")); ("prove", VBool false);
     ("page", VStr "1"); ("per_page", VStr "1"); ("order_by", VStr "desc")] in
  let*? result := dict_field payload "result" in
  let total_count := dget result "total_count" in
  if is_none total_count then sraise (ValueError "missing total_count from tx_search response")
  else slift (py_int total_count).

Definition resolve_next_sender_sequence (sender_address : value) : st W Z :=
  let configured := getattr "anchor_sequence_override" VNone in
  if negb (is_none configured) then slift (py_int configured)
  else _fetch_sender_tx_count node_rpc_setting sender_address.

Definition _sequence_retry_allowed : bool :=
  truthy (getattr "anchor_offline_signing" (VBool true)) &&
  is_none (getattr "anchor_sequence_override" VNone).

(** [sequence_override] unless it is [None]. *)
Definition chosen_sequence (sequence_override : option Z) (sender_address : value) : st W Z :=
  match sequence_override with
  | Some n => sret n
  | None => resolve_next_sender_sequence sender_address
  end.

Definition build_typed_anchor_signing_material (plan : dict) (sequence_override : option Z) : st W dict :=
  let* address := resolve_key_address in
  let sender_address := VStr address in
  let* account_number := resolve_anchor_account_number sender_address in
  let* sequence := chosen_sequence sequence_override sender_address in
  let* public_key := resolve_key_pubkey in
  let*? intent := (let? v := dgetitem plan "typed_tx_intent" in as_dict v) in
  slift (compile_typed_tx_intent intent sender_address (VInt account_number) (VInt sequence) public_key
           (getattr "chain_id" (VStr DEFAULT_TYPED_CHAIN_ID))).

(** ** Command lines *)

Definition vtext (n : Z) : value := VStr (string_of_Z n).

(** [message_value.get(k) or ""] *)
Definition option_text (message_value : dict) (k : string) : value := por (dget message_value k) (VStr "").

Definition generate_command (key_name keyring_dir keyring_backend : value) (message_value : dict)
  (account_number sequence : Z) : res (list value) :=
  let? batch_id := dgetitem message_value "settlement_batch_id" in
  let? job_id := dgetitem message_value "anchor_job_id" in
  let? root := dgetitem message_value "canonical_root" in
  let? payload_hash := dgetitem message_value "anchor_payload_hash" in
  let? amount := py_str (por (dget message_value "total_reward_amount") (VInt 0)) in
  Ok [getattr "chain_binary" (VStr "clawchaind"); VStr "tx"; VStr "settlement"; VStr "anchor-batch"; key_name;
      batch_id; job_id; root; payload_hash;
      VStr "--lane"; option_text message_value "lane";
      VStr "--schema-version"; option_text message_value "schema_version";
      VStr "--policy-bundle-version"; option_text message_value "policy_bundle_version";
      VStr "--reward-window-ids-root"; option_text message_value "reward_window_ids_root";
      VStr "--task-run-ids-root"; option_text message_value "task_run_ids_root";
      VStr "--miner-reward-rows-root"; option_text message_value "miner_reward_rows_root";
      VStr "--window-end-at"; option_text message_value "window_end_at";
      VStr "--total-reward-amount"; VStr amount;
      VStr "--keyring-backend"; keyring_backend; VStr "--keyring-dir"; keyring_dir;
      VStr "--fees"; getattr "anchor_fees" (VStr DEFAULT_TYPED_FEE_AMOUNT);
      VStr "--gas"; getattr "anchor_gas" (vtext DEFAULT_TYPED_GAS_LIMIT);
      VStr "--offline"; VStr "--account-number"; vtext account_number; VStr "--sequence"; vtext sequence;
      VStr "--generate-only"; VStr "--output"; VStr "json"].

Definition sign_command (key_name keyring_dir keyring_backend : value) (unsigned_tx_path signed_tx_path : string)
  (account_number sequence : Z) : list value :=
  [getattr "chain_binary" (VStr "clawchaind"); VStr "tx"; VStr "sign"; VStr unsigned_tx_path;
   VStr "--from"; key_name; VStr "--chain-id"; getattr "chain_id" (VStr DEFAULT_TYPED_CHAIN_ID);
   VStr "--node"; node_rpc_setting; VStr "--keyring-backend"; keyring_backend; VStr "--keyring-dir"; keyring_dir;
   VStr "--offline"; VStr "--account-number"; vtext account_number; VStr "--sequence"; vtext sequence;
   VStr "--output"; VStr "json"; VStr "--output-document"; VStr signed_tx_path].

Definition broadcast_command (signed_tx_path : string) : list value :=
  [getattr "chain_binary" (VStr "clawchaind"); VStr "tx"; VStr "broadcast"; VStr signed_tx_path;
   VStr "--chain-id"; getattr "chain_id" (VStr DEFAULT_TYPED_CHAIN_ID); VStr "--node"; node_rpc_setting;
   VStr "--output"; VStr "json"].

Definition resolve_typed_broadcast_spec (plan : dict) (unsigned_tx_path signed_tx_path : string)
  (sequence_override : option Z) : st W dict :=
  let* (key_name, keyring_dir) := keyring_of_settings "anchor CLI broadcaster is not configured" in
  let* address := resolve_key_address in
  let source_address := VStr address in
  let* account_number := resolve_anchor_account_number source_address in
  let* sequence := chosen_sequence sequence_override source_address in
  let*? intent := (let? v := dgetitem plan "typed_tx_intent" in as_dict v) in
  let*? resolved_messages := _resolve_typed_messages intent source_address in
  let*? message_value := dict_field (default [] (head resolved_messages)) "value" in
  let keyring_backend := getattr "anchor_keyring_backend" (VStr "test") in
  let*? generate := generate_command key_name keyring_dir keyring_backend message_value account_number sequence in
  sret [("source_address", source_address); ("account_number", VInt account_number); ("sequence", VInt sequence);
        ("generate_command", VList generate);
        ("sign_command", VList (sign_command key_name keyring_dir keyring_backend unsigned_tx_path signed_tx_path
                                  account_number sequence));
        ("broadcast_command", VList (broadcast_command signed_tx_path))].

Definition fallback_command (plan_memo key_name keyring_dir to_address : value) : list value :=
  [getattr "chain_binary" (VStr "clawchaind"); VStr "tx"; VStr "bank"; VStr "send"; key_name; to_address;
   getattr "anchor_amount" (VStr "1uclaw"); VStr "--chain-id"; getattr "chain_id" (VStr "clawchain-testnet-1");
   VStr "--node"; node_rpc_setting; VStr "--keyring-backend"; getattr "anchor_keyring_backend" (VStr "test");
   VStr "--keyring-dir"; keyring_dir; VStr "--fees"; getattr "anchor_fees" (VStr "10uclaw");
   VStr "--gas"; getattr "anchor_gas" (VStr "200000"); VStr "--note"; plan_memo;
   VStr "--yes"; VStr "--output"; VStr "json"].

Definition vopt_int (o : option Z) : value := match o with Some n => VInt n | None => VNone end.

Definition resolve_fallback_broadcast_spec (plan : dict) (sequence_override : option Z) : st W dict :=
  let* (key_name, keyring_dir) := keyring_of_settings "anchor CLI broadcaster is not configured" in
  let* address := resolve_key_address in
  let source_address := VStr address in
  let to_address := por (getattr "anchor_to_address" VNone) source_address in
  if negb (truthy to_address) then sraise (ValueError "anchor target address unresolved")
  else
  let offline_signing := truthy (getattr "anchor_offline_signing" (VBool true)) in
  let* numbers := (if offline_signing then
                     let* account_number := resolve_anchor_account_number source_address in
                     let* sequence := chosen_sequence sequence_override source_address in
                     sret (Some (account_number, sequence))
                   else sret None) in
  let*? memo := dgetitem plan "fallback_memo" in
  let command := fallback_command memo key_name keyring_dir to_address in
  let command := command ++
    match numbers with
    | Some (account_number, sequence) =>
        [VStr "--offline"; VStr "--account-number"; vtext account_number; VStr "--sequence"; vtext sequence]
    | None => []
    end in
  sret [("source_address", source_address); ("to_address", to_address);
        ("offline_signing", VBool offline_signing);
        ("account_number", vopt_int (option_map fst numbers)); ("sequence", vopt_int (option_map snd numbers));
        ("command", VList command)].

Definition build_fallback_broadcast_command (plan : dict) : st W value :=
  let* spec := resolve_fallback_broadcast_spec plan None in
  slift (dgetitem spec "command").

(** ** Execution *)

Definition run_checked (command : value) : st W completed_process :=
  let*? args := as_list command in
  let* proc := _run_command args in
  if negb (returncode proc =? 0)
  then sraise (process_error proc ("clawchaind exited with " +:+ string_of_Z (returncode proc)))
  else sret proc.

(** [json.loads(proc.stdout or "{}")] *)
Definition load_output (proc : completed_process) : res value :=
  match json_loads (if String.eqb (stdout proc) "" then "{}" else stdout proc) with
  | Err (ValueError msg) => Err (ValueError ("invalid clawchaind output: " +:+ msg))
  | r => r
  end.

Definition _execute_cli_json_command (command : value) : st W value :=
  let* proc := run_checked command in slift (load_output proc).

Definition _execute_cli_command (command : value) : st W unit :=
  let* _ := run_checked command in sret tt.

Definition _execute_cli_broadcast (command : value) : st W dict :=
  let* loaded := _execute_cli_json_command command in
  let*? payload := as_dict loaded in
  let*? code := int_or_zero (dget_or payload "code" (VInt 0)) in
  if negb (code =? 0) then
    if truthy (dget payload "raw_log") then
      let*? msg := py_str (dget payload "raw_log") in sraise (ValueError msg)
    else
      let*? text := py_str (dget payload "code") in
      sraise (ValueError ("broadcast failed with code " +:+ text))
  else
    sret [("tx_hash", por (dget payload "txhash") (dget payload "tx_hash")); ("code", VInt code);
          ("raw_log", dget_or payload "raw_log" (VStr ""))].

(** The handler of both broadcasts: a second attempt with the sequence that the
    node expects, when the first was refused for its sequence.  The result, the
    specification that was executed and the number of attempts. *)
Definition second_attempt (resolve : option Z -> st W dict) (execute : dict -> st W dict) (spec : dict)
  (msg : string) : st W (dict * dict * Z) :=
  if negb (_sequence_retry_allowed && _is_sequence_mismatch_error msg) then sraise (ValueError msg)
  else
    let*? source_address := dgetitem spec "source_address" in
    let* retry_sequence := (match _extract_expected_sequence msg with
                            | Some n => sret n
                            | None => resolve_next_sender_sequence source_address
                            end) in
    if py_eq (VInt retry_sequence) (dget spec "sequence") then sraise (ValueError msg)
    else
      let* spec := resolve (Some retry_sequence) in
      let* result := execute spec in
      sret (result, spec, 2).

Definition with_sequence_retry (resolve : option Z -> st W dict) (execute : dict -> st W dict)
  : st W (dict * dict * Z) :=
  let* spec := resolve None in
  scatch_value_error (let* result := execute spec in sret (result, spec, 1))
                     (second_attempt resolve execute spec).

Definition broadcast_result (plan result spec : dict) (attempt_count : Z) (now : value)
  (commands : dict) : res dict :=
  if negb (truthy (dget result "tx_hash")) then Err (ValueError "missing tx hash from clawchaind output")
  else
    let? memo := dgetitem plan "fallback_memo" in
    Ok (dupdate result ([("memo", memo); ("broadcast_at", now); ("account_number", dget spec "account_number");
                         ("sequence", dget spec "sequence"); ("attempt_count", VInt attempt_count)] ++ commands)).

Definition broadcast_anchor_tx_via_cli (plan : dict) (now : value) : st W dict :=
  let* (result, spec, attempt_count) :=
    with_sequence_retry (resolve_fallback_broadcast_spec plan)
      (fun spec => let*? command := dgetitem spec "command" in _execute_cli_broadcast command) in
  let*? command := dgetitem spec "command" in
  slift (broadcast_result plan result spec attempt_count now [("command", command)]).

Definition _run_typed_broadcast_pipeline (spec : dict) : st W dict :=
  let*? generate := dgetitem spec "generate_command" in
  let* unsigned_tx := _execute_cli_json_command generate in
  let*? path := (let? v := dgetitem spec "unsigned_tx_path" in as_str v) in
  do* write_json tools path unsigned_tx in
  let*? sign := dgetitem spec "sign_command" in
  do* _execute_cli_command sign in
  let*? broadcast := dgetitem spec "broadcast_command" in
  _execute_cli_broadcast broadcast.

Definition broadcast_anchor_tx_via_typed_cli (plan : dict) (now : value) : st W dict :=
  let* temp_dir := temporary_directory tools in
  let unsigned_tx_path := path_text (path_join (parse_path temp_dir) ["unsigned_tx.json"]) in
  let signed_tx_path := path_text (path_join (parse_path temp_dir) ["signed_tx.json"]) in
  let resolve sequence_override :=
    let* spec := resolve_typed_broadcast_spec plan unsigned_tx_path signed_tx_path sequence_override in
    sret (dset (dset spec "unsigned_tx_path" (VStr unsigned_tx_path)) "signed_tx_path" (VStr signed_tx_path)) in
  let* (result, spec, attempt_count) := with_sequence_retry resolve _run_typed_broadcast_pipeline in
  let*? generate := dgetitem spec "generate_command" in
  let*? sign := dgetitem spec "sign_command" in
  let*? broadcast := dgetitem spec "broadcast_command" in
  slift (broadcast_result plan result spec attempt_count now
           [("broadcast_method", VStr "typed_msg"); ("generate_command", generate);
            ("sign_command", sign); ("broadcast_command", broadcast)]).

(** ** The readiness report *)

(** The source key of the report with the warnings about it. *)
Definition readiness_source_key (binary : dict) (keyring_dir : value) : st W (dict * list string) :=
  let name := getattr "anchor_key_name" VNone in
  let entry address ok := [("name", name); ("address", address); ("ok", VBool ok)] in
  let available := truthy (dget binary "available") in
  if available && truthy name && truthy keyring_dir then
    scatch_value_error
      (let* address := resolve_key_address in sret (entry (VStr address) true, []))
      (fun msg => sret (entry VNone false ++ [("error", VStr msg)], []))
  else
    sret (entry VNone false,
          (if available then [] else ["chain binary not found"]) ++
          (if truthy name then [] else ["anchor key name not configured"]) ++
          (if truthy keyring_dir then [] else ["anchor keyring dir not configured"])).

(** The target address, its mode, and the warnings about it. *)
Definition readiness_target (source_key : dict) : value * value * list string :=
  let configured_target := getattr "anchor_to_address" VNone in
  if truthy configured_target then (configured_target, VStr "configured", [])
  else if truthy (dget source_key "address") then
    (dget source_key "address", VStr "self_transfer",
     ["anchor_to_address not configured; using self-transfer fallback target"])
  else (VNone, VNone, ["anchor target address unavailable"]).

Definition readiness_rpc (status_url : string) : st W (dict * list string) :=
  catch_io
    (let* status := _fetch_rpc_status node_rpc_setting in sret (status, []))
    (fun msg => sret ([("reachable", VBool false); ("status_url", VStr status_url); ("error", VStr msg)],
                      ["chain rpc unreachable"])).

(** The account number and the sequence of the report, each with the entry that
    its failure adds and its warnings. *)
Definition readiness_account (address : value) : st W (value * dict * list string) :=
  scatch_value_error
    (let* n := resolve_anchor_account_number address in sret (VInt n, [], []))
    (fun msg => sret (VNone, [("account_number_error", VStr msg)], ["anchor account number unresolved"])).

Definition readiness_sequence (reachable : bool) (address : value) : st W (value * dict * list string) :=
  if reachable then
    catch_io
      (let* n := resolve_next_sender_sequence address in sret (VInt n, [], []))
      (fun msg => sret (VNone, [("sequence_error", VStr msg)], ["anchor sequence unresolved"]))
  else sret (VNone, [], []).

Definition readiness_signing (source_key rpc : dict) : st W (dict * list string) :=
  let offline := truthy (getattr "anchor_offline_signing" (VBool true)) in
  let mode := VStr (if offline then "offline" else "online") in
  if truthy (dget source_key "ok") && offline then
    let address := dget source_key "address" in
    let* (account_number, account_error, warnings1) := readiness_account address in
    let* (next_sequence, sequence_error, warnings2) := readiness_sequence (truthy (dget rpc "reachable")) address in
    sret ([("mode", mode); ("account_number", account_number); ("next_sequence", next_sequence);
           ("ok", VBool (negb (is_none account_number) && negb (is_none next_sequence)))]
          ++ account_error ++ sequence_error,
          warnings1 ++ warnings2)
  else
    sret ([("mode", mode); ("account_number", VNone); ("next_sequence", VNone); ("ok", VBool (negb offline))], []).

Definition check_cli_broadcast_readiness : st W dict :=
  let backend := getattr "anchor_keyring_backend" (VStr "test") in
  let* normalized_keyring_dir := normalize_keyring_dir (getattr "anchor_keyring_dir" VNone) backend in
  let* binary := _binary_info (getattr "chain_binary" (VStr "clawchaind")) in
  let* exists_ := (match normalized_keyring_dir with
                   | VStr dir => let* path := expanduser (parse_path dir) in path_exists tools (path_text path)
                   | _ => sret false
                   end) in
  let*? rpc_text := text_of node_rpc_setting in
  let* (source_key, warnings1) := readiness_source_key binary normalized_keyring_dir in
  let '(target_address, target_mode, warnings2) := readiness_target source_key in
  let* (rpc, warnings3) := readiness_rpc (_rpc_status_url rpc_text) in
  let* (signing, warnings4) := readiness_signing source_key rpc in
  let ready := truthy (dget binary "available") && truthy (dget source_key "ok") && truthy target_address
               && truthy (dget rpc "reachable") && truthy (dget signing "ok") in
  sret [("adapter_version", VStr CHAIN_ADAPTER_VERSION);
        ("chain_id", getattr "chain_id" (VStr "clawchain-testnet-1"));
        ("node_rpc", node_rpc_setting);
        ("binary", VDict binary);
        ("keyring", VDict [("backend", backend); ("configured_dir", getattr "anchor_keyring_dir" VNone);
                           ("normalized_dir", normalized_keyring_dir); ("exists", VBool exists_)]);
        ("source_key", VDict source_key);
        ("target_address", target_address);
        ("target_mode", target_mode);
        ("signing", VDict signing);
        ("rpc", VDict rpc);
        ("ready", VBool ready);
        ("warnings", VList (map VStr (warnings1 ++ warnings2 ++ warnings3 ++ warnings4)))].
End Client.
