(* ===== verification/ClientFacts.v ===== *)
(** * Theorems about the chain client

    However a broadcast ends, it sends at most two transactions, the second only
    when the node refused the first for its sequence; a transaction hash reaches
    the node as the base64 text of its bytes. *)
From Stdlib Require Import ZArith Lia Ascii String.
From stdpp Require Import base list strings.
From S2P Require Import Prelude PyText PyFloat PyTime PyValue Sha256 Canonical ChainAdapter.
From S2P Require Import Protobuf TxEncoding TxFacts Json ChainClient.
Open Scope Z_scope.

(** ** The hash of a transaction *)

Lemma b64_value_char n : 0 <= n < 64 -> b64_value (b64_char n) = Some n /\ code (b64_char n) < 128 /\ b64_char n <> "="%char.
Proof.
  intros Hn. assert (all_from (fun n => bool_decide (b64_value (b64_char n) = Some n /\ code (b64_char n) < 128 /\ b64_char n <> "="%char)) 64 0 = true) as H by reflexivity.
  pose proof (all_from_spec _ _ _ n H ltac:(lia)) as Hb. by apply bool_decide_eq_true in Hb.
Qed.

(** One character of the alphabet, decoded at each of the four positions. *)
Section Decoding.
Context (n : Z) (l : list ascii) (out : list Z) (left pads : Z).
Hypothesis Hn : 0 <= n < 64.

Lemma b64_loop_char q :
  b64_loop (b64_char n :: l) out q left pads =
    if q =? 0 then b64_loop l out 1 n 0
    else if q =? 1 then b64_loop l (out ++ [Z.lor (Z.shiftl left 2) (Z.shiftr n 4)]) 2 (Z.land n 15) 0
    else if q =? 2 then b64_loop l (out ++ [Z.lor (Z.shiftl left 4) (Z.shiftr n 2)]) 3 (Z.land n 3) 0
    else b64_loop l (out ++ [Z.lor (Z.shiftl left 6) n]) 0 0 0.
Proof.
  destruct (b64_value_char n Hn) as (Hv & _ & Hne). cbn [b64_loop].
  destruct (Ascii.eqb_spec (b64_char n) "="%char); [done|]. by rewrite Hv.
Qed.

Lemma b64_first : b64_loop (b64_char n :: l) out 0 left pads = b64_loop l out 1 n 0.
Proof. apply (b64_loop_char 0). Qed.

Lemma b64_second :
  b64_loop (b64_char n :: l) out 1 left pads = b64_loop l (out ++ [left * 4 + n / 16]) 2 (n mod 16) 0.
Proof.
  rewrite (b64_loop_char 1). cbn [Z.eqb Pos.eqb]. change 15 with (Z.ones 4).
  rewrite Z.land_ones, Z.shiftr_div_pow2 by lia. rewrite lor_add; [done|lia|].
  split; [apply Z.div_pos; lia|apply Z.div_lt_upper_bound; lia].
Qed.

Lemma b64_third :
  b64_loop (b64_char n :: l) out 2 left pads = b64_loop l (out ++ [left * 16 + n / 4]) 3 (n mod 4) 0.
Proof.
  rewrite (b64_loop_char 2). cbn [Z.eqb Pos.eqb]. change 3 with (Z.ones 2) at 2.
  rewrite Z.land_ones, Z.shiftr_div_pow2 by lia. rewrite lor_add; [done|lia|].
  split; [apply Z.div_pos; lia|apply Z.div_lt_upper_bound; lia].
Qed.

Lemma b64_fourth : b64_loop (b64_char n :: l) out 3 left pads = b64_loop l (out ++ [left * 64 + n]) 0 0 0.
Proof. rewrite (b64_loop_char 3). cbn [Z.eqb Pos.eqb]. by rewrite lor_add by lia. Qed.
End Decoding.

Lemma list_ind3 {A} (P : list A -> Prop) :
  P [] -> (forall a, P [a]) -> (forall a b, P [a; b]) -> (forall a b c l, P l -> P (a :: b :: c :: l)) ->
  forall l, P l.
Proof.
  intros H0 H1 H2 H3. fix IH 1. intros [|a [|b [|c l]]]; [done|apply H1|apply H2|apply H3, IH].
Qed.

(** The six-bit pieces of bytes and what they add up to. *)
Lemma byte_pieces a k m :
  0 < k -> 0 < m -> k * m = 256 -> is_byte a -> 0 <= a / k < m /\ 0 <= a mod k < k /\ a = k * (a / k) + a mod k.
Proof.
  unfold is_byte. intros Hk Hm Hkm Ha. pose proof (Z.mod_pos_bound a k Hk). pose proof (Z.div_mod a k ltac:(lia)).
  pose proof (Z.div_pos a k). assert (a / k < m) by (apply Z.div_lt_upper_bound; lia). lia.
Qed.

Lemma piece_div x y k : 0 < k -> 0 <= y < k -> (x * k + y) / k = x /\ (x * k + y) mod k = y.
Proof.
  intros Hk Hy. rewrite Z.div_add_l, Z.div_small by lia. rewrite (Z.add_comm (x * k)), Z_mod_plus_full, Z.mod_small by lia. lia.
Qed.

Lemma b64_encode_loop l out : Forall is_byte l -> b64_loop (b64encode l) out 0 0 0 = Ok (out ++ l).
Proof.
  revert out. induction l as [|a|a b|a b c l IH] using list_ind3; intros out Hl; cbn [b64encode].
  - by rewrite app_nil_r.
  - apply Forall_cons in Hl as [Ha _]. destruct (byte_pieces a 4 64) as (? & ? & ?); [done..|].
    rewrite b64_first, b64_second, Z.div_mul by lia. simpl. do 3 f_equal. lia.
  - apply Forall_cons in Hl as [Ha Hl]. apply Forall_cons in Hl as [Hb _].
    destruct (byte_pieces a 4 64) as (? & ? & ?); [done..|]. destruct (byte_pieces b 16 16) as (? & ? & ?); [done..|].
    rewrite b64_first, b64_second, b64_third by lia.
    destruct (piece_div (a mod 4) (b / 16) 16) as [-> ->]; [lia..|]. rewrite Z.div_mul by done.
    replace (a / 4 * 4 + a mod 4) with a by lia. replace (b / 16 * 16 + b mod 16) with b by lia.
    replace (a / 4 * 4 + a mod 4) with a by lia. by rewrite <- app_assoc.
  - apply Forall_cons in Hl as [Ha Hl]. apply Forall_cons in Hl as [Hb Hl]. apply Forall_cons in Hl as [Hc Hl].
    destruct (byte_pieces a 4 64) as (? & ? & ?); [done..|]. destruct (byte_pieces b 16 16) as (? & ? & ?); [done..|].
    destruct (byte_pieces c 64 4) as (? & ? & ?); [done..|].
    rewrite b64_first, b64_second, b64_third, b64_fourth by lia.
    destruct (piece_div (a mod 4) (b / 16) 16) as [-> ->]; [lia..|].
    destruct (piece_div (b mod 16) (c / 64) 4) as [-> ->]; [lia..|].
    replace (a / 4 * 4 + a mod 4) with a by lia. replace (b / 16 * 16 + b mod 16) with b by lia.
    replace (c / 64 * 64 + c mod 64) with c by lia. rewrite IH by done. by rewrite <- !app_assoc.
Qed.

Lemma hex_digit_facts n :
  0 <= n < 16 -> hex_digit_value (hex_digit n) = Some n /\ is_ascii_space (hex_digit n) = false /\
    is_space (hex_digit n) = false /\ lower_char (hex_digit n) <> "x"%char.
Proof.
  intros Hn. assert (all_from (fun n => bool_decide (hex_digit_value (hex_digit n) = Some n) &&
    negb (is_ascii_space (hex_digit n)) && negb (is_space (hex_digit n)) &&
    negb (Ascii.eqb (lower_char (hex_digit n)) "x"%char)) 16 0 = true) as H by reflexivity.
  pose proof (all_from_spec _ _ _ n H ltac:(lia)) as Hb. cbn beta in Hb.
  rewrite !andb_true_iff, !negb_true_iff, bool_decide_eq_true in Hb. destruct Hb as [[[H1 H2] H3] H4].
  apply Ascii.eqb_neq in H4. done.
Qed.

Lemma chars_hex_cons b l : chars (hex_bytes (b :: l)) = hex_digit (b / 16) :: hex_digit (b mod 16) :: chars (hex_bytes l).
Proof. unfold hex_bytes. destruct l as [|b' l]; [done|]. cbn [map String.concat]. by rewrite !chars_app. Qed.

Lemma bytes_fromhex_hex l : Forall is_byte l -> bytes_fromhex (chars (hex_bytes l)) = Some l.
Proof.
  induction 1 as [|b l Hb _ IH]; [done|]. rewrite chars_hex_cons. cbn [bytes_fromhex].
  destruct (byte_pieces b 16 16) as (? & ? & ?); [done..|].
  destruct (hex_digit_facts (b / 16)) as (-> & -> & _); [done|].
  destruct (hex_digit_facts (b mod 16)) as (-> & _); [done|]. rewrite IH. simpl. do 2 f_equal. lia.
Qed.

Lemma drop_spaces_id l : forallb (fun c => negb (is_space c)) l = true -> drop_spaces l = l.
Proof. destruct l as [|c l]; simpl; [done|]. intros [Hc _]%andb_true_iff. apply negb_true_iff in Hc. by rewrite Hc. Qed.

Lemma str_strip_id s : forallb (fun c => negb (is_space c)) (chars s) = true -> str_strip s = s.
Proof.
  intros Hs. unfold str_strip. rewrite (drop_spaces_id (chars s)) by done.
  rewrite drop_spaces_id; [by rewrite rev_involutive, of_chars_chars|].
  rewrite forallb_forall in *. intros c Hc. apply Hs. by apply in_rev.
Qed.

Lemma hex_no_space l : Forall is_byte l -> forallb (fun c => negb (is_space c)) (chars (hex_bytes l)) = true.
Proof.
  induction 1 as [|b l Hb _ IH]; [done|]. rewrite chars_hex_cons.
  destruct (byte_pieces b 16 16) as (? & ? & ?); [done..|].
  destruct (hex_digit_facts (b / 16)) as (_ & _ & E1 & _); [done|].
  destruct (hex_digit_facts (b mod 16)) as (_ & _ & E2 & _); [done|].
  cbn [forallb]. by rewrite E1, E2.
Qed.

Lemma b64encode_ascii l : Forall is_byte l -> forallb (fun c => code c <? 128) (b64encode l) = true.
Proof.
  assert (forall n, 0 <= n < 64 -> (code (b64_char n) <? 128) = true) as Hc.
  { intros n Hn. apply Z.ltb_lt. by apply b64_value_char. }
  induction l as [|a|a b|a b c l IH] using list_ind3; intros Hl; [done|..]; cbn [b64encode forallb].
  - apply Forall_cons in Hl as [Ha _]. destruct (byte_pieces a 4 64) as (? & ? & ?); [done..|].
    by rewrite !Hc by lia.
  - apply Forall_cons in Hl as [Ha Hl]. apply Forall_cons in Hl as [Hb _].
    destruct (byte_pieces a 4 64) as (? & ? & ?); [done..|]. destruct (byte_pieces b 16 16) as (? & ? & ?); [done..|].
    by rewrite !Hc by lia.
  - apply Forall_cons in Hl as [Ha Hl]. apply Forall_cons in Hl as [Hb Hl]. apply Forall_cons in Hl as [Hc' Hl].
    destruct (byte_pieces a 4 64) as (? & ? & ?); [done..|]. destruct (byte_pieces b 16 16) as (? & ? & ?); [done..|].
    destruct (byte_pieces c 64 4) as (? & ? & ?); [done..|]. by rewrite !Hc, IH by (done || lia).
Qed.

(** The text after the optional prefix. *)
Lemma hex_without_prefix b l :
  is_byte b -> str_startswith "0x" (str_lower (hex_bytes (b :: l))) = false.
Proof.
  intros Hb. destruct (byte_pieces b 16 16) as (? & ? & ?); [done..|].
  destruct (hex_digit_facts (b mod 16)) as (_ & _ & _ & Hx); [done|].
  assert (exists s, str_lower (hex_bytes (b :: l)) =
    String (lower_char (hex_digit (b / 16))) (String (lower_char (hex_digit (b mod 16))) s)) as [s ->].
  { unfold str_lower. rewrite chars_hex_cons. simpl. eauto. }
  unfold str_startswith. cbn [String.prefix].
  destruct (ascii_dec _ _); [|done]. destruct (ascii_dec _ _); [|done]. congruence.
Qed.

(** a transaction hash reaches the node unharmed: written in hexadecimal, with
    the prefix 0x or without, it is sent as a base64 text that decodes to the
    bytes of the hash. *)
Theorem tx_hash_roundtrip bytes prefix :
  Forall is_byte bytes -> bytes <> [] -> prefix = "" \/ prefix = "0x" \/ prefix = "0X" ->
  exists text, _normalize_tx_hash_param (VStr (prefix +:+ hex_bytes bytes)) = Ok text /\
    b64decode (VStr text) = Ok bytes.
Proof.
  intros Hb Hne Hp. exists (of_chars (b64encode bytes)). split.
  2: { unfold b64decode. rewrite chars_of_chars, b64encode_ascii by done. by apply b64_encode_loop. }
  destruct bytes as [|b l]; [done|]. inversion Hb as [|? ? Hb1 Hl]; subst.
  pose proof (hex_no_space _ Hb) as Hsp. unfold _normalize_tx_hash_param.
  assert (exists c s, hex_bytes (b :: l) = String c s) as (c & s & Es).
  { exists (hex_digit (b / 16)). eexists. apply chars_inj. rewrite chars_hex_cons.
    instantiate (1 := of_chars _). unfold chars at 2. simpl. f_equal. symmetry. apply chars_of_chars. }
  destruct Hp as [->|Hp].
  - change ("" +:+ hex_bytes (b :: l)) with (hex_bytes (b :: l)).
    rewrite Es at 1. cbn [por truthy String.eqb negb text_of rbind]. rewrite <- Es.
    rewrite str_strip_id by done. rewrite Es at 1. cbn [String.eqb]. rewrite hex_without_prefix by done.
    by rewrite bytes_fromhex_hex.
  - assert (forall p, p = "0x" \/ p = "0X" -> str_strip (p +:+ hex_bytes (b :: l)) = p +:+ hex_bytes (b :: l) /\
      str_startswith "0x" (str_lower (p +:+ hex_bytes (b :: l))) = true /\
      drop 2 (chars (p +:+ hex_bytes (b :: l))) = chars (hex_bytes (b :: l)) /\
      por (VStr (p +:+ hex_bytes (b :: l))) (VStr "") = VStr (p +:+ hex_bytes (b :: l)) /\
      String.eqb (p +:+ hex_bytes (b :: l)) "" = false) as Hpre.
    { intros p Hp'. generalize (hex_bytes (b :: l)), Hsp. intros h Hh.
      destruct Hp' as [->| ->]; (split_and!; [apply str_strip_id; exact Hh| |done|done|done]);
        unfold str_startswith, str_lower; simpl; by destruct (of_chars _). }
    destruct (Hpre _ Hp) as (E1 & E2 & E3 & E4 & E5). rewrite E4. cbn [text_of rbind].
    rewrite E1, E5, E2, E3, chars_of_chars. by rewrite bytes_fromhex_hex.
Qed.

(** ** The address of a key *)

Lemma drop_spaces_keeps l c : In c l -> is_space c = false -> In c (drop_spaces l).
Proof.
  intros Hin Hc. induction l as [|a l IH]; [done|]. simpl.
  destruct (is_space a) eqn:Ea; [|done]. apply IH. destruct Hin as [->|]; [congruence|done].
Qed.

Lemma str_strip_keeps s c : In c (chars s) -> is_space c = false -> In c (chars (str_strip s)).
Proof.
  intros Hin Hc. unfold str_strip. rewrite chars_of_chars, <- in_rev.
  apply drop_spaces_keeps; [|done]. rewrite <- in_rev. by apply drop_spaces_keeps.
Qed.

Lemma line_end_is_space c : is_line_end c = true -> is_space c = true.
Proof. destruct c as [[] [] [] [] [] [] [] []]; vm_compute; congruence. Qed.

(** The last line of a text holds its last character, unless that one ends a line. *)
Lemma splitlines_last l c cur :
  is_line_end c = false ->
  exists s, last (splitlines (l ++ [c]) cur) = Some s /\ In c (chars s).
Proof.
  intros Hc. remember (length l) as n eqn:Hn. revert l cur Hn.
  induction n as [n IH] using lt_wf_ind. intros [|a l] cur ->; simpl.
  - rewrite Hc. simpl. eexists. split; [reflexivity|]. rewrite chars_of_chars.
    apply in_app_iff. right. by left.
  - assert (forall l' cur' x, (length l' < length (a :: l))%nat ->
      exists s, last (x :: splitlines (l' ++ [c]) cur') = Some s /\ In c (chars s)) as Hrest.
    { intros l' cur' x Hl. destruct (IH _ Hl l' cur' eq_refl) as (s & Hs & Hin). exists s. split; [|done].
      by rewrite last_cons, Hs. }
    destruct (is_line_end a); [|apply IH with (m := length l); simpl; [lia|done]].
    destruct l as [|b l]; cbn [app]; cbv beta iota.
    + destruct (Ascii.eqb a (chr 13) && Ascii.eqb c (chr 10)) eqn:E.
      * apply andb_true_iff in E as [_ E]. apply Ascii.eqb_eq in E as ->. discriminate Hc.
      * apply (Hrest [] []). simpl. lia.
    + destruct (Ascii.eqb a (chr 13) && Ascii.eqb b (chr 10));
        [apply (Hrest l [])|apply (Hrest (b :: l) [])]; simpl; lia.
Qed.

(** Stripped text ends with a character that is not blank. *)
Lemma str_strip_last s :
  str_strip s <> "" -> exists l c, chars (str_strip s) = l ++ [c] /\ is_space c = false.
Proof.
  unfold str_strip. rewrite chars_of_chars. set (r := drop_spaces (rev (drop_spaces (chars s)))).
  assert (forall l, match drop_spaces l with c :: _ => is_space c = false | [] => True end) as Hhead.
  { induction l as [|a l IH]; simpl; [done|]. destruct (is_space a) eqn:Ea; [apply IH|done]. }
  specialize (Hhead (rev (drop_spaces (chars s)))). fold r in Hhead.
  destruct r as [|c r]; [done|]. intros _. by exists (rev r), c.
Qed.

(** The last line of a stripped text: there is one unless the text is empty, and
    it is not blank. *)
Lemma stripped_last_line s :
  match last (splitlines (chars (str_strip s)) []) with
  | None => str_strip s = ""
  | Some line => str_strip s <> "" /\ str_strip line <> ""
  end.
Proof.
  destruct (String.eqb_spec (str_strip s) "") as [->|Hne]; [done|].
  destruct (str_strip_last _ Hne) as (l & c & E & Hc). rewrite E.
  destruct (splitlines_last l c []) as (line & -> & Hin).
  { destruct (is_line_end c) eqn:Hle; [|done]. apply line_end_is_space in Hle. congruence. }
  split; [done|]. intros E0. pose proof (str_strip_keeps line c Hin Hc) as Hin'. by rewrite E0 in Hin'.
Qed.

(** What [keys show] answers decides the outcome of [resolve_key_address]: a
    failure raises ValueError with its message, an answer gives the stripped last
    line, which is not empty, and a blank answer raises IndexError, before the
    check for an empty address. *)
Theorem key_address_outcome {W} (tools : ChainTools W) settings name dir w w1 proc w2 :
  keyring_of_settings tools settings "anchor key name and keyring dir are required" w = (Ok (VStr name, dir), w1) ->
  _run_command tools (keys_show_command settings (VStr name) dir "-a") w1 = (Ok proc, w2) ->
  match resolve_key_address tools settings w with
  | (Ok address, w') => returncode proc = 0 /\ address <> "" /\ w' = w2 /\
      exists line, last (splitlines (chars (str_strip (stdout proc))) []) = Some line /\ address = str_strip line
  | (Err e, w') => w' = w2 /\
      ((returncode proc <> 0 /\ e = process_error proc ("failed to resolve key address for " +:+ name)) \/
       (returncode proc = 0 /\ str_strip (stdout proc) = "" /\ e = IndexError))
  end.
Proof.
  intros Hk Hp. unfold resolve_key_address. rewrite (sbind_run _ _ _ _ _ Hk). cbn beta iota.
  rewrite (sbind_run _ _ _ _ _ Hp). unfold sbind, slift. cbn [py_str].
  destruct (Z.eqb_spec (returncode proc) 0); cbn [negb]; [|simpl; naive_solver].
  pose proof (stripped_last_line (stdout proc)) as H.
  destruct (last _) as [line|]; simpl; [|naive_solver].
  destruct (String.eqb_spec (str_strip line) ""); [naive_solver|]. simpl. naive_solver.
Qed.

(** ** Witnesses *)

(** A world in which every process ends with this answer. *)
Definition answering (proc : completed_process) : ChainTools unit :=
  {| run_process _ := sret proc; http_get _ := sret []; http_post _ _ := sret [];
     which _ := sret None; path_exists _ := sret false; resolve_path p := sret p;
     home_directory _ := sret "/root"; read_text _ := sret ""; write_json _ _ := sret tt;
     temporary_directory := sret "/tmp/anchor" |}.
Definition demo_settings : dict :=
  [("anchor_key_name", VStr "anchor"); ("anchor_keyring_dir", VStr "~/keys/keyring-test")].
Definition blank_answer : completed_process := {| returncode := 0; stdout := " "; stderr := "" |}.

Lemma key_address_outcome_witness :
  keyring_of_settings (answering blank_answer) demo_settings "anchor key name and keyring dir are required" tt
    = (Ok (VStr "anchor", VStr "/root/keys"), tt) /\
  resolve_key_address (answering blank_answer) demo_settings tt = (Err IndexError, tt) /\
  ((returncode blank_answer <> 0 /\ IndexError = process_error blank_answer "failed to resolve key address for anchor") \/
   (returncode blank_answer = 0 /\ str_strip (stdout blank_answer) = "" /\ IndexError = IndexError)).
Proof.
  split; [reflexivity|]. split; [reflexivity|].
  exact (proj2 (key_address_outcome (answering blank_answer) demo_settings "anchor" (VStr "/root/keys")
                  tt tt blank_answer tt eq_refl eq_refl)).
Defined.

Lemma tx_hash_roundtrip_witness :
  Forall is_byte [171; 1] /\
  exists text, _normalize_tx_hash_param (VStr ("0x" +:+ hex_bytes [171; 1])) = Ok text /\
    b64decode (VStr text) = Ok [171; 1].
Proof.
  assert (Forall is_byte [171; 1]) as Hb by (repeat constructor; unfold is_byte; lia).
  split; [exact Hb|].
  exact (tx_hash_roundtrip [171; 1] "0x" Hb ltac:(discriminate) (or_intror (or_introl eq_refl))).
Defined.
