(* ===== verification/Broadcasts.v ===== *)
(** * How often a broadcast sends

    The tools of the client with a log of the commands they run.  Resolving a
    broadcast sends nothing; an attempt sends at most once; hence a broadcast
    sends at most twice, whatever the outside world answers. *)
From Stdlib Require Import ZArith Lia Ascii String.
From stdpp Require Import base list strings.
From S2P Require Import Prelude PyText PyFloat PyTime PyValue ChainAdapter TxEncoding ChainClient.
Open Scope Z_scope.

Section Logged.
Context {W : Type}.
Definition log_state : Type := W * list (list string).

Definition with_log {A} (m : st W A) : st log_state A :=
  fun s => let '(r, w) := m s.1 in (r, (w, s.2)).

(** Every process that is started is written down, whatever comes of it. *)
Definition logged (tools : ChainTools W) : ChainTools log_state :=
  {| run_process args := fun s => let '(r, w) := run_process tools args s.1 in (r, (w, s.2 ++ [args]));
     http_get url := with_log (http_get tools url);
     http_post url body := with_log (http_post tools url body);
     which name := with_log (which tools name);
     path_exists p := with_log (path_exists tools p);
     resolve_path p := with_log (resolve_path tools p);
     home_directory p := with_log (home_directory tools p);
     read_text p := with_log (read_text tools p);
     write_json p v := with_log (write_json tools p v);
     temporary_directory := with_log (temporary_directory tools) |}.

(** The commands that hand a transaction to the network. *)
Definition is_send (args : list string) : bool :=
  match args with
  | _ :: a :: b :: rest =>
      String.eqb a "tx" &&
      (String.eqb b "broadcast" ||
       (String.eqb b "bank" && match rest with c :: _ => String.eqb c "send" | [] => false end))
  | _ => false
  end.
Definition sends (s : log_state) : nat := length (List.filter is_send s.2).

(** [m] sends nothing; [m] sends at most once, and once when it succeeds. *)
Definition quiet {A} (m : st log_state A) : Prop := forall s, sends (m s).2 = sends s.
Definition one_send {A} (m : st log_state A) : Prop :=
  forall s, (sends s <= sends (m s).2 <= sends s + 1)%nat /\
            forall a, (m s).1 = Ok a -> sends (m s).2 = (sends s + 1)%nat.

Lemma quiet_ret {A} (a : A) : quiet (sret a).
Proof. done. Qed.
Lemma quiet_raise {A} e : quiet (A:=A) (sraise e).
Proof. done. Qed.
Lemma quiet_lift {A} (r : res A) : quiet (slift r).
Proof. done. Qed.
Lemma quiet_with_log {A} (m : st W A) : quiet (with_log m).
Proof. intros [w log]. unfold with_log. simpl. by destruct (m w). Qed.

Lemma quiet_bind {A B} (m : st log_state A) (f : A -> st log_state B) :
  quiet m -> (forall a, quiet (f a)) -> quiet (sbind m f).
Proof.
  intros Hm Hf s. unfold sbind. specialize (Hm s). destruct (m s) as [[a|e] s']; simpl in *; [|done].
  by rewrite Hf.
Qed.

Lemma quiet_catch {A} (m : st log_state A) h :
  quiet m -> (forall msg, quiet (h msg)) -> quiet (scatch_value_error m h).
Proof.
  intros Hm Hh s. unfold scatch_value_error. specialize (Hm s).
  destruct (m s) as [[a|[]] s']; simpl in *; try done. by rewrite Hh.
Qed.

(** Nothing is sent before an attempt, or after it. *)
Lemma one_send_bind_quiet {A B} (m : st log_state A) (f : A -> st log_state B) :
  quiet m -> (forall a, one_send (f a)) -> one_send (sbind m f).
Proof.
  intros Hm Hf s. unfold sbind. specialize (Hm s). destruct (m s) as [[a|e] s']; simpl in *.
  - rewrite <- Hm. apply Hf.
  - rewrite Hm. split; [lia|done].
Qed.

Lemma one_send_then_quiet {A B} (m : st log_state A) (f : A -> st log_state B) :
  one_send m -> (forall a, quiet (f a)) -> one_send (sbind m f).
Proof.
  intros Hm Hf s. unfold sbind. specialize (Hm s). destruct (m s) as [[a|e] s']; simpl in *.
  - rewrite Hf. destruct Hm as [_ H2]. specialize (H2 a eq_refl). split; [lia|intros b _; by rewrite Hf].
  - split; [apply Hm|done].
Qed.
End Logged.
Arguments log_state : clear implicits.

Create HintDb quiet.
#[export] Hint Resolve quiet_ret quiet_raise quiet_lift quiet_with_log quiet_bind quiet_catch : quiet.

(** Follows the structure of an operation that sends nothing. *)
Ltac quiet_steps :=
  repeat first
    [ progress intros
    | solve [eauto with quiet nocore]
    | apply quiet_bind
    | apply quiet_catch
    | progress cbv zeta
    | case_match ].

Section Quiet.
Context {W : Type} (tools : ChainTools W) (settings : dict).
Implicit Types (plan spec : dict).

Lemma quiet_command args : (forall l, mapR as_str args = Ok l -> is_send l = false) -> quiet (_run_command (logged tools) args).
Proof.
  intros Hargs. unfold _run_command. intros [w log]. unfold sbind, slift.
  destruct (mapR as_str args) as [l|]; [|done]. simpl. destruct (run_process tools l w) as [r w']. simpl.
  unfold sends. simpl. rewrite List.filter_app. simpl. rewrite Hargs by done. by rewrite app_nil_r.
Qed.

Lemma keys_show_quiet key_name dir what : quiet (_run_command (logged tools) (keys_show_command settings key_name dir what)).
Proof.
  apply quiet_command. intros l Hl. unfold keys_show_command in Hl. simpl in Hl.
  destruct (as_str _) as [b|]; [|done]. simpl in Hl. ok_inv. done.
Qed.

Lemma expanduser_quiet p : quiet (expanduser (logged tools) p).
Proof. unfold expanduser, home_directory. simpl. quiet_steps. Qed.
#[local] Hint Resolve keys_show_quiet expanduser_quiet : quiet.

Lemma normalize_quiet dir backend : quiet (normalize_keyring_dir (logged tools) dir backend).
Proof. unfold normalize_keyring_dir. quiet_steps. Qed.
#[local] Hint Resolve normalize_quiet : quiet.

Lemma keyring_quiet msg : quiet (keyring_of_settings (logged tools) settings msg).
Proof. unfold keyring_of_settings. quiet_steps. Qed.
#[local] Hint Resolve keyring_quiet : quiet.

Lemma key_address_quiet : quiet (resolve_key_address (logged tools) settings).
Proof. unfold resolve_key_address. quiet_steps. Qed.

Lemma rpc_quiet rpc method params : quiet (_rpc_jsonrpc (logged tools) rpc method params).
Proof. unfold _rpc_jsonrpc. simpl. quiet_steps. Qed.
#[local] Hint Resolve key_address_quiet rpc_quiet : quiet.

Lemma genesis_quiet home sender : quiet (_load_genesis_account_number (logged tools) home sender).
Proof. unfold _load_genesis_account_number. simpl. quiet_steps. Qed.
#[local] Hint Resolve genesis_quiet : quiet.

Lemma account_quiet sender : quiet (resolve_anchor_account_number (logged tools) settings sender).
Proof. unfold resolve_anchor_account_number. quiet_steps. Qed.

Lemma next_sequence_quiet sender : quiet (resolve_next_sender_sequence (logged tools) settings sender).
Proof. unfold resolve_next_sender_sequence, _fetch_sender_tx_count. quiet_steps. Qed.
#[local] Hint Resolve account_quiet next_sequence_quiet : quiet.

Lemma chosen_quiet o sender : quiet (chosen_sequence (logged tools) settings o sender).
Proof. unfold chosen_sequence. quiet_steps. Qed.
#[local] Hint Resolve chosen_quiet : quiet.

Lemma fallback_spec_quiet plan o : quiet (resolve_fallback_broadcast_spec (logged tools) settings plan o).
Proof. unfold resolve_fallback_broadcast_spec. quiet_steps. Qed.

Lemma typed_spec_quiet plan p q o : quiet (resolve_typed_broadcast_spec (logged tools) settings plan p q o).
Proof. unfold resolve_typed_broadcast_spec. quiet_steps. Qed.

(** *** Attempts *)

(** A command that starts with these words after the name of the binary. *)
Definition command_words (words : list string) (v : value) : Prop :=
  exists b rest, v = VList (b :: map VStr words ++ rest).

Lemma words_as_str words rest l :
  mapR as_str (map VStr words ++ rest) = Ok l -> exists rest', l = words ++ rest'.
Proof.
  revert l. induction words as [|w words IH]; intros l Hl; [by exists l|].
  simpl in Hl. ok_inv. destruct (IH _ H) as [rest' ->]. by exists rest'.
Qed.

Lemma command_one_send args :
  (forall l, mapR as_str args = Ok l -> is_send l = true) -> one_send (_run_command (logged tools) args).
Proof.
  intros Hargs [w log]. unfold _run_command, sbind, slift.
  destruct (mapR as_str args) as [l|]; [|split; [simpl; lia|done]]. simpl.
  destruct (run_process tools l w) as [r w']. simpl.
  unfold sends. simpl. rewrite List.filter_app, length_app. simpl. rewrite Hargs by done. simpl.
  split; [lia|done].
Qed.

Lemma command_sends words b rest v :
  (forall c r, is_send (c :: words ++ r) = v) ->
  forall l, mapR as_str (b :: map VStr words ++ rest) = Ok l -> is_send l = v.
Proof.
  intros Hv l Hl. simpl in Hl. destruct (as_str b) as [c|]; [|done]. simpl in Hl.
  destruct (mapR _ _) as [l'|] eqn:E; [|done]. simpl in Hl. injection Hl as <-.
  destruct (words_as_str _ _ _ E) as [r ->]. apply Hv.
Qed.

Lemma run_checked_one_send words v :
  command_words words v -> (forall c r, is_send (c :: words ++ r) = true) ->
  one_send (run_checked (logged tools) v).
Proof.
  intros (b & rest & ->) Hw. unfold run_checked.
  apply (one_send_then_quiet (_run_command (logged tools) (b :: map VStr words ++ rest))).
  - apply command_one_send. by apply command_sends.
  - intros proc. destruct (negb _); done.
Qed.

Lemma run_checked_quiet words v :
  command_words words v -> (forall c r, is_send (c :: words ++ r) = false) ->
  quiet (run_checked (logged tools) v).
Proof.
  intros (b & rest & ->) Hw. unfold run_checked.
  apply (quiet_bind (_run_command (logged tools) (b :: map VStr words ++ rest))).
  - apply quiet_command. by apply command_sends.
  - intros proc. destruct (negb _); done.
Qed.

Lemma cli_broadcast_one_send words v :
  command_words words v -> (forall c r, is_send (c :: words ++ r) = true) ->
  one_send (_execute_cli_broadcast (logged tools) v).
Proof.
  intros Hv Hw. unfold _execute_cli_broadcast, _execute_cli_json_command.
  apply one_send_then_quiet; [|intros; quiet_steps].
  apply one_send_then_quiet; [by eapply run_checked_one_send|intros; quiet_steps].
Qed.

(** The first attempt from the state [s], with what is resolved there, sent its
    transaction and was refused for the sequence. *)
Definition refused_for_sequence (resolve : option Z -> st (log_state W) dict) (execute : dict -> st (log_state W) dict)
  (s : log_state W) : Prop :=
  exists spec s1 msg s2, resolve None s = (Ok spec, s1) /\ execute spec s1 = (Err (ValueError msg), s2) /\
    _is_sequence_mismatch_error msg = true /\ sends s2 = S (sends s).

(** The results of attempts that are sent from specifications as [resolve] makes
    them. *)
Lemma sbind_error {S A B} (m : st S A) (f : A -> st S B) s e s1 :
  m s = (Err e, s1) -> sbind m f s = (Err e, s1).
Proof. unfold sbind. by intros ->. Qed.

Section Retry.
Context (resolve : option Z -> st (log_state W) dict) (execute : dict -> st (log_state W) dict) (Q : dict -> Prop).
Hypothesis resolve_quiet : forall o, quiet (resolve o).
Hypothesis resolve_spec : forall o s spec s', resolve o s = (Ok spec, s') -> Q spec.
Hypothesis execute_once : forall spec, Q spec -> one_send (execute spec).

(** [m] sends at most once, and exactly once when it returns [n] attempts. *)
Definition counted (n : Z) (m : st (log_state W) (dict * dict * Z)) : Prop :=
  forall s, (sends s <= sends (m s).2 <= sends s + 1)%nat /\
            forall x, (m s).1 = Ok x -> x.2 = n /\ sends (m s).2 = (sends s + 1)%nat.

Lemma counted_raise n e : counted n (sraise e).
Proof. intros s. simpl. split; [lia|done]. Qed.

Lemma counted_bind {A} n (m : st (log_state W) A) f :
  quiet m -> (forall a, counted n (f a)) -> counted n (sbind m f).
Proof.
  intros Hm Hf s. unfold sbind. specialize (Hm s). destruct (m s) as [[a|e] s']; simpl in *.
  - rewrite <- Hm. apply Hf.
  - rewrite Hm. split; [lia|done].
Qed.

Lemma counted_attempt n spec : Q spec -> counted n (let* result := execute spec in sret (result, spec, n)).
Proof.
  intros HQ s. unfold sbind. pose proof (execute_once _ HQ s) as [H1 H2].
  destruct (execute spec s) as [[result|e] s']; simpl in *; [|split; [done|done]].
  specialize (H2 _ eq_refl). split; [lia|]. by intros x [= <-].
Qed.

Lemma second_attempt_counted spec msg : counted 2 (second_attempt (logged tools) settings resolve execute spec msg).
Proof.
  unfold second_attempt. destruct (negb _); [apply counted_raise|].
  apply counted_bind; [done|]. intros source. apply counted_bind; [quiet_steps|]. intros seq.
  destruct (py_eq _ _); [apply counted_raise|].
  intros s. pose proof (resolve_quiet (Some seq) s) as Hq.
  destruct (resolve (Some seq) s) as [[spec'|e] s'] eqn:E; simpl in Hq;
    [rewrite (sbind_run _ _ _ _ _ E)|rewrite (sbind_error _ _ _ _ _ E)].
  - rewrite <- Hq. by apply counted_attempt, (resolve_spec _ _ _ _ E).
  - simpl. split; [lia|done].
Qed.

(** At most two attempts, the second only after the first was refused for its
    sequence; a success has sent something, at most once an attempt. *)
Lemma retry_sends s :
  let r := with_sequence_retry (logged tools) settings resolve execute s in
  (sends r.2 <= sends s + (if _sequence_retry_allowed settings then 2 else 1))%nat /\
  ((sends s + 2 <= sends r.2)%nat -> refused_for_sequence resolve execute s) /\
  (forall x, r.1 = Ok x -> 1 <= Z.of_nat (sends r.2) - Z.of_nat (sends s) <= x.2).
Proof.
  cbv zeta. unfold with_sequence_retry.
  pose proof (resolve_quiet None s) as Hq. destruct (resolve None s) as [[spec|e] s1] eqn:Er; simpl in Hq;
    [rewrite (sbind_run _ _ _ _ _ Er)|rewrite (sbind_error _ _ _ _ _ Er)].
  2: { simpl. split_and!; [destruct (_sequence_retry_allowed settings); lia|intros; lia|done]. }
  pose proof (counted_attempt 1 spec (resolve_spec _ _ _ _ Er) s1) as [H1 H2].
  unfold scatch_value_error. destruct (sbind _ _ s1) as [[x|e] s2] eqn:Ee; simpl in H1, H2.
  { destruct (H2 _ eq_refl) as [E1 E2]. simpl.
    split_and!; [destruct (_sequence_retry_allowed settings); lia|intros; lia|intros x' [= <-]; lia]. }
  destruct e as [msg| | | | | | | | | | | | |];
    try (simpl; split_and!; [destruct (_sequence_retry_allowed settings); lia|intros; lia|done]).
  pose proof (second_attempt_counted spec msg s2) as [H3 H4].
  destruct (_sequence_retry_allowed settings && _is_sequence_mismatch_error msg) eqn:Ea.
  - apply andb_true_iff in Ea as [-> Em]. split_and!; [lia| |].
    + intros Hn. unfold sbind in Ee. destruct (execute spec s1) as [[result|e] s2'] eqn:E; [done|].
      injection Ee as -> ->. exists spec, s1, msg, s2. split_and!; [done..|lia].
    + intros x Hx. destruct (H4 x Hx) as [-> E]. lia.
  - unfold second_attempt. rewrite Ea. simpl.
    split_and!; [destruct (_sequence_retry_allowed settings); lia|intros; lia|done].
Qed.
End Retry.

(** *** The two broadcasts *)

Definition fallback_spec (spec : dict) : Prop :=
  exists v, aget "command" spec = Some v /\ command_words ["tx"; "bank"; "send"] v.

Lemma sret_ok {S A} (a b : A) (s s' : S) : sret a s = (Ok b, s') -> b = a /\ s' = s.
Proof. by intros [= <- <-]. Qed.

Lemma resolve_fallback_spec plan o s spec s' :
  resolve_fallback_broadcast_spec (logged tools) settings plan o s = (Ok spec, s') -> fallback_spec spec.
Proof.
  unfold resolve_fallback_broadcast_spec. intros H.
  apply sbind_ok in H as ((key_name & dir) & s1 & _ & H). apply sbind_ok in H as (address & s2 & _ & H).
  destruct (negb _); [done|]. apply sbind_ok in H as (numbers & s3 & _ & H).
  apply sbind_ok in H as (memo & s4 & _ & H). apply sret_ok in H as [-> _].
  eexists. split; [reflexivity|]. unfold fallback_command.
  eexists _, (_ ++ _). reflexivity.
Qed.

Definition typed_spec (spec : dict) : Prop :=
  exists g b c, aget "generate_command" spec = Some g /\ command_words ["tx"; "settlement"] g /\
    aget "sign_command" spec = Some b /\ command_words ["tx"; "sign"] b /\
    aget "broadcast_command" spec = Some c /\ command_words ["tx"; "broadcast"] c.

Lemma resolve_typed_spec plan p q o s spec s' :
  resolve_typed_broadcast_spec (logged tools) settings plan p q o s = (Ok spec, s') -> typed_spec spec.
Proof.
  unfold resolve_typed_broadcast_spec. intros H.
  apply sbind_ok in H as ((key_name & dir) & s1 & _ & H). apply sbind_ok in H as (address & s2 & _ & H).
  apply sbind_ok in H as (account & s3 & _ & H). apply sbind_ok in H as (sequence & s4 & _ & H).
  apply sbind_ok in H as (intent & s5 & _ & H). apply sbind_ok in H as (messages & s6 & _ & H).
  apply sbind_ok in H as (message & s7 & _ & H). apply sbind_ok in H as (generate & s8 & Hg & H).
  apply sret_ok in H as [-> _]. injection Hg as Hg _. unfold generate_command in Hg. ok_inv.
  eexists _, _, _. split_and!; try reflexivity; eexists _, _; reflexivity.
Qed.
(** The attempt of the fallback broadcast. *)
Definition execute_fallback (spec : dict) : st (log_state W) dict :=
  let*? command := dgetitem spec "command" in _execute_cli_broadcast (logged tools) command.

Lemma execute_fallback_once spec : fallback_spec spec -> one_send (execute_fallback spec).
Proof.
  intros (v & Hv & Hw). unfold execute_fallback. rewrite (proj2 (dgetitem_ok _ _ _) Hv).
  by apply (cli_broadcast_one_send ["tx"; "bank"; "send"]).
Qed.

Lemma one_send_lift {A B} (a : A) (f : A -> st (log_state W) B) :
  one_send (f a) -> one_send (sbind (slift (Ok a)) f).
Proof. done. Qed.

Lemma pipeline_once spec : typed_spec spec -> one_send (_run_typed_broadcast_pipeline (logged tools) spec).
Proof.
  intros (g & b & c & Hg & Hgw & Hb & Hbw & Hc & Hcw). unfold _run_typed_broadcast_pipeline.
  rewrite (proj2 (dgetitem_ok _ _ _) Hg), (proj2 (dgetitem_ok _ _ _) Hb), (proj2 (dgetitem_ok _ _ _) Hc).
  apply one_send_lift.
  apply one_send_bind_quiet.
  { apply quiet_bind; [by eapply run_checked_quiet|done]. }
  intros unsigned. apply one_send_bind_quiet; [done|]. intros path.
  apply one_send_bind_quiet; [apply quiet_with_log|]. intros _.
  apply one_send_lift.
  apply one_send_bind_quiet.
  { apply quiet_bind; [by eapply run_checked_quiet|done]. }
  intros _. apply one_send_lift. by apply (cli_broadcast_one_send ["tx"; "broadcast"]).
Qed.

Lemma quiet_after {A B} (m : st (log_state W) A) (f : A -> st (log_state W) B) s :
  (forall a, quiet (f a)) -> sends (sbind m f s).2 = sends (m s).2.
Proof. intros Hf. unfold sbind. destruct (m s) as [[a|e] s']; [apply Hf|done]. Qed.

Lemma broadcast_result_attempts plan result spec n now commands x :
  broadcast_result plan result spec n now commands = Ok x ->
  NoDup (["memo"; "broadcast_at"; "account_number"; "sequence"; "attempt_count"] ++ akeys commands) ->
  dget x "attempt_count" = VInt n.
Proof.
  unfold broadcast_result. destruct (truthy _); [|done]. cbn [negb]. intros H Hnd.
  apply rbind_ok in H as (memo & _ & H). apply Ok_inj in H. subst x.
  apply dget_some. by rewrite aget_dupdate.
Qed.
End Quiet.

(** [r] is the outcome of a broadcast that has sent at most as often as the
    settings allow, twice only after its first attempt was [refused], and that
    returns a number of attempts not below the number of sends. *)
Definition sent_carefully {W} (settings : dict) (refused : Prop) (r : res dict * log_state W) : Prop :=
  (sends r.2 <= if _sequence_retry_allowed settings then 2 else 1)%nat /\
  ((2 <= sends r.2)%nat -> refused) /\
  (forall x, r.1 = Ok x -> exists n, dget x "attempt_count" = VInt n /\ 1 <= Z.of_nat (sends r.2) <= n).

Section Careful.
Context {W : Type} (tools : ChainTools W) (settings : dict).

(** The outcome of the retry, followed by the report. *)
Lemma retry_sent_carefully resolve execute (Q : dict -> Prop) (report : dict * dict * Z -> st (log_state W) dict) s :
  (forall o, quiet (resolve o)) ->
  (forall o s spec s', resolve o s = (Ok spec, s') -> Q spec) ->
  (forall spec, Q spec -> one_send (execute spec)) ->
  (forall x, quiet (report x)) ->
  (forall x s r s', report x s = (Ok r, s') -> dget r "attempt_count" = VInt x.2) ->
  sends s = O ->
  sent_carefully settings (refused_for_sequence resolve execute s)
    (sbind (with_sequence_retry (logged tools) settings resolve execute) report s).
Proof.
  intros Hq HQ He Hr Hn Hs. destruct (retry_sends tools settings resolve execute Q Hq HQ He s) as (H1 & H2 & H3).
  rewrite Hs in *. unfold sent_carefully. rewrite quiet_after by done. split_and!; [lia|auto with lia|].
  intros x Hx. destruct (sbind _ _ s) as [r s'] eqn:E. simpl in Hx. subst r.
  apply sbind_ok in E as (y & s1 & Ey & Ex). exists y.2. split; [by eapply Hn|].
  rewrite Ey in *. specialize (H3 y eq_refl). simpl in *. lia.
Qed.

Lemma sent_carefully_mono (P Q : Prop) (r : res dict * log_state W) :
  (P -> Q) -> sent_carefully settings P r -> sent_carefully settings Q r.
Proof. intros H (H1 & H2 & H3). split_and!; auto. Qed.

Lemma fallback_sent_carefully plan now w :
  sent_carefully settings
    (refused_for_sequence (resolve_fallback_broadcast_spec (logged tools) settings plan) (execute_fallback tools) (w, []))
    (broadcast_anchor_tx_via_cli (logged tools) settings plan now (w, [])).
Proof.
  apply (retry_sent_carefully (resolve_fallback_broadcast_spec (logged tools) settings plan)
           (execute_fallback tools) fallback_spec); [| | | | |done].
  - apply fallback_spec_quiet.
  - apply resolve_fallback_spec.
  - apply execute_fallback_once.
  - intros [[result spec] n]. quiet_steps.
  - intros [[result spec] n] s r s' H. apply sbind_ok in H as (command & s1 & _ & H).
    injection H as H _. eapply broadcast_result_attempts; [done|]. nodup_keys.
Qed.

(** What the typed broadcast resolves for its files in the temporary directory. *)
Definition resolve_typed (plan : dict) (dir : string) (sequence_override : option Z) : st (log_state W) dict :=
  let unsigned_tx_path := path_text (path_join (parse_path dir) ["unsigned_tx.json"]) in
  let signed_tx_path := path_text (path_join (parse_path dir) ["signed_tx.json"]) in
  let* spec := resolve_typed_broadcast_spec (logged tools) settings plan unsigned_tx_path signed_tx_path sequence_override in
  sret (dset (dset spec "unsigned_tx_path" (VStr unsigned_tx_path)) "signed_tx_path" (VStr signed_tx_path)).

Definition typed_refused (plan : dict) (w : W) : Prop :=
  exists dir w', temporary_directory tools w = (Ok dir, w') /\
    refused_for_sequence (resolve_typed plan dir) (_run_typed_broadcast_pipeline (logged tools)) (w', []).

Lemma typed_sent_carefully plan now w :
  sent_carefully settings (typed_refused plan w)
    (broadcast_anchor_tx_via_typed_cli (logged tools) settings plan now (w, [])).
Proof.
  unfold broadcast_anchor_tx_via_typed_cli. unfold sbind at 1. simpl temporary_directory.
  unfold with_log at 1. simpl. destruct (temporary_directory tools w) as [[dir|e] w'] eqn:Edir.
  2: { unfold sent_carefully, sends. simpl. split_and!; [destruct (_sequence_retry_allowed settings); lia|intros; lia|done]. }
  apply (sent_carefully_mono (refused_for_sequence (resolve_typed plan dir) (_run_typed_broadcast_pipeline (logged tools)) (w', [])));
    [by exists dir, w'|].
  apply (retry_sent_carefully (resolve_typed plan dir) (_run_typed_broadcast_pipeline (logged tools)) typed_spec);
    [| | | | |done].
  - intros o. apply quiet_bind; [apply typed_spec_quiet|done].
  - intros o s spec s' H. apply sbind_ok in H as (spec0 & s1 & H & Hs). apply sret_ok in Hs as [-> _].
    apply resolve_typed_spec in H as (g & b & c & H1 & H2 & H3 & H4 & H5 & H6).
    exists g, b, c. unfold dset. rewrite !aget_aset. done.
  - apply pipeline_once.
  - intros [[result spec] n]. quiet_steps.
  - intros [[result spec] n] s r s' H. apply sbind_ok in H as (g & s1 & _ & H).
    apply sbind_ok in H as (b & s2 & _ & H). apply sbind_ok in H as (c & s3 & _ & H).
    injection H as H _. eapply broadcast_result_attempts; [done|]. nodup_keys.
Qed.
End Careful.

(** C7: a broadcast through the command line client sends at most two transactions,
    whatever the commands, the node and the file system answer and however it
    ends; a second one only when retries are allowed and the first attempt of
    this broadcast was sent and refused for its sequence; a success has sent one,
    and no more than it reports attempts. *)
Theorem broadcast_sends_at_most_twice {W} (tools : ChainTools W) settings plan now w :
  sent_carefully settings
    (refused_for_sequence (resolve_fallback_broadcast_spec (logged tools) settings plan) (execute_fallback tools) (w, []))
    (broadcast_anchor_tx_via_cli (logged tools) settings plan now (w, [])) /\
  sent_carefully settings (typed_refused tools settings plan w)
    (broadcast_anchor_tx_via_typed_cli (logged tools) settings plan now (w, [])).
Proof.
  split.
  - apply fallback_sent_carefully.
  - apply typed_sent_carefully.
Qed.
