(* ===== verification/EconomicFacts.v ===== *)
(** * Economic units are the connected components of shared signals

    Correctness of the union-find of [compute_economic_unit_components]: [find]
    returns the representative with the fuel it is given, [union] merges two
    classes, and the resulting components are the classes of the relation "a
    chain of shared signals leads from one miner to the other". *)
From Stdlib Require Import ZArith Lia String Permutation.
From stdpp Require Import base list strings relations.
From S2P Require Import Prelude PyText PyFloat PyTime PyValue Sha256 Economic.
Open Scope nat_scope.

(** ** Representatives *)

Section UnionFind.
Implicit Types (p q : list nat) (x y r a b k n : nat).

Definition par p x : nat := nth x p x.

(** [path p x k r]: [k] parent links lead from [x] to the root [r]. *)
Inductive path p : nat -> nat -> nat -> Prop :=
| path_root r : par p r = r -> path p r 0 r
| path_step x k r : par p x <> x -> path p (par p x) k r -> path p x (S k) r.

(** A forest: every node leads to a root, inside the array. *)
Record forest p : Prop := {
  forest_bound : forall x, x < length p -> par p x < length p;
  forest_path : forall x, exists k r, path p x k r
}.

Lemma path_det p x k r : path p x k r -> forall k' r', path p x k' r' -> k = k' /\ r = r'.
Proof.
  induction 1 as [r Hr|x k r Hx H IH]; intros k' r' H'.
  - inversion H'; subst; [done|congruence].
  - inversion H' as [|? k2 ? Hx2 H2]; subst; [congruence|]. destruct (IH _ _ H2). by subst.
Qed.

Lemma path_is_root p x k r : path p x k r -> par p r = r.
Proof. by induction 1. Qed.

Lemma par_out p x : length p <= x -> par p x = x.
Proof. intros H. by apply nth_overflow. Qed.

Lemma path_bound p x k r : forest p -> path p x k r -> x < length p -> r < length p.
Proof. intros Hf. induction 1; [done|]. intros Hx. by apply IHpath, Hf. Qed.

(** A path visits distinct nodes, so it is shorter than the array. *)
Fixpoint trail p x k : list nat :=
  match k with O => [x] | S k => x :: trail p (par p x) k end.

Lemma trail_paths p x k r y : path p x k r -> In y (trail p x k) -> exists k', k' <= k /\ path p y k' r.
Proof.
  induction 1 as [r Hr|x k r Hx H IH]; simpl.
  - intros [<-|[]]. exists 0. split; [lia|by constructor].
  - intros [<-|Hin]; [exists (S k); split; [lia|by constructor]|].
    destruct (IH Hin) as (k' & Hk & Hp). exists k'. split; [lia|done].
Qed.

Lemma trail_nodup p x k r : path p x k r -> NoDup (trail p x k).
Proof.
  induction 1 as [r Hr|x k r Hx H IH]; simpl; [repeat constructor; by intros ?%elem_of_nil|].
  constructor; [|done]. intros Hin%list_elem_of_In. destruct (trail_paths _ _ _ _ _ H Hin) as (k' & Hk & Hp).
  assert (Hp' : path p x (S k) r) by (by constructor).
  destruct (path_det _ _ _ _ Hp _ _ Hp'). lia.
Qed.

Lemma trail_bound p x k r y : forest p -> path p x k r -> x < length p -> In y (trail p x k) -> y < length p.
Proof.
  intros Hf. induction 1 as [r Hr|x k r Hx H IH]; simpl; intros Hb; [by intros [<-|[]]|].
  intros [<-|Hin]; [done|]. apply IH; [by apply Hf|done].
Qed.

Lemma trail_length p x k : length (trail p x k) = S k.
Proof. revert x. induction k; intros x; simpl; [done|]. by rewrite IHk. Qed.

Lemma path_short p x k r : forest p -> path p x k r -> k < find_fuel p.
Proof.
  intros Hf H. unfold find_fuel. destruct (decide (x < length p)) as [Hx|Hx].
  - assert (Hle : length (trail p x k) <= length (seq 0 (length p))).
    { apply NoDup_incl_length; [by apply NoDup_ListNoDup, (trail_nodup _ _ _ r)|].
      intros y Hy. apply in_seq. pose proof (trail_bound _ _ _ _ _ Hf H Hx Hy). lia. }
    rewrite trail_length, length_seq in Hle. lia.
  - assert (Hr : path p x 0 x) by (constructor; apply par_out; lia).
    destruct (path_det _ _ _ _ H _ _ Hr). lia.
Qed.

(** ** Path halving *)

Lemma par_insert p x v y : x < length p -> par (<[x := v]> p) y = if decide (y = x) then v else par p y.
Proof.
  intros Hx. unfold par. case_decide as Hy.
  - subst. rewrite (nth_indep _ _ v) by (by rewrite length_insert). rewrite nth_lookup, list_lookup_insert_eq; done.
  - rewrite !nth_lookup, list_lookup_insert_ne by done. done.
Qed.

(** One step of [find] shortens paths and keeps their roots. *)
Lemma halve_path p x : par p x <> x -> forall k y r,
  path p y k r -> exists k', k' <= k /\ path (<[x := par p (par p x)]> p) y k' r.
Proof.
  intros Hx. assert (Hb : x < length p).
  { destruct (decide (x < length p)); [done|]. destruct Hx. apply par_out. lia. }
  set (q := <[x := _]> p). assert (Hq : forall y, par q y = if decide (y = x) then par p (par p x) else par p y).
  { intros y. by apply par_insert. }
  induction k as [k IH] using lt_wf_ind. intros y r H. destruct H as [r Hr|y k r Hy H].
  - exists 0. split; [done|]. constructor. rewrite Hq. case_decide; [by subst|done].
  - destruct (decide (y = x)) as [->|Hne].
    + inversion H as [r' Hr'|? k2 ? Hpx H2]; subst.
      * exists 1. split; [lia|]. assert (Hqx : par q x = par p x) by (rewrite Hq; case_decide; [done|done]).
        constructor; rewrite Hqx; [done|]. constructor. rewrite Hq. case_decide; congruence.
      * destruct (IH k2 ltac:(lia) _ _ H2) as (k' & Hk & Hp). exists (S k'). split; [lia|].
        assert (Hqx : par q x = par p (par p x)) by (rewrite Hq; case_decide; [done|done]).
        constructor; rewrite Hqx; [|done]. intros Heq. rewrite Heq in H2.
        assert (Hp' : path p x (S (S k2)) r) by (repeat constructor; congruence || done).
        destruct (path_det _ _ _ _ H2 _ _ Hp'). lia.
    + destruct (IH k ltac:(lia) _ _ H) as (k' & Hk & Hp). exists (S k'). split; [lia|].
      assert (Hqy : par q y = par p y) by (rewrite Hq; case_decide; [done|done]).
      constructor; rewrite Hqy; done.
Qed.

Definition root p x r : Prop := exists k, path p x k r.

(** Another forest over the same nodes with the same roots. *)
Record same_roots p q : Prop := {
  roots_length : length q = length p;
  roots_forest : forest q;
  roots_same : forall x r, root q x r <-> root p x r
}.

Lemma root_det p x r r' : root p x r -> root p x r' -> r = r'.
Proof. intros [k H] [k' H']. by destruct (path_det _ _ _ _ H _ _ H'). Qed.

Lemma root_total p x : forest p -> exists r, root p x r.
Proof. intros Hf. destruct (forest_path _ Hf x) as (k & r & H). by exists r, k. Qed.

Lemma same_roots_refl p : forest p -> same_roots p p.
Proof. by split. Qed.

Lemma same_roots_trans p1 p2 p3 : same_roots p1 p2 -> same_roots p2 p3 -> same_roots p1 p3.
Proof. intros [L1 _ R1] [L2 F2 R2]. split; [congruence|done|]. intros x r. by rewrite R2, R1. Qed.

Lemma halve_same_roots p x : forest p -> par p x <> x -> same_roots p (<[x := par p (par p x)]> p).
Proof.
  intros Hf Hx. assert (Hb : x < length p).
  { destruct (decide (x < length p)); [done|]. destruct Hx. apply par_out. lia. }
  assert (Hfwd : forall y r, root p y r -> root (<[x := par p (par p x)]> p) y r).
  { intros y r [k H]. destruct (halve_path p x Hx k y r H) as (k' & _ & H'). by exists k'. }
  split; [by apply length_insert| |].
  - split.
    + intros y Hy. rewrite length_insert in *. rewrite par_insert by done. case_decide; by repeat apply Hf.
    + intros y. destruct (root_total p y Hf) as (r & Hr). destruct (Hfwd _ _ Hr) as (k & Hk). by exists k, r.
  - intros y r. split; [|apply Hfwd]. intros Hr. destruct (root_total p y Hf) as (r' & Hr').
    by rewrite (root_det _ _ _ _ Hr (Hfwd _ _ Hr')).
Qed.

Lemma find_spec fuel : forall p x k r,
  forest p -> path p x k r -> k < fuel -> exists q, find fuel p x = (q, r) /\ same_roots p q.
Proof.
  induction fuel as [|fuel IH]; intros p x k r Hf Hp Hk; [lia|]. cbn [find]. fold (par p x).
  destruct (Nat.eqb_spec (par p x) x) as [Hx|Hx].
  - exists p. inversion Hp; subst; [|congruence]. split; [done|by apply same_roots_refl].
  - inversion Hp as [|? k1 ? _ H1]; subst; [congruence|]. fold (par p (par p x)).
    assert (Hsame := halve_same_roots p x Hf Hx).
    assert (Hnext : exists k2, k2 <= k1 /\ path p (par p (par p x)) k2 r).
    { inversion H1 as [? Hr|? k2 ? Hpx H2]; subst; [exists 0; split; [lia|]|exists k2; split; [lia|done]].
      rewrite Hr. by constructor. }
    destruct Hnext as (k2 & Hk2 & H2). destruct (halve_path p x Hx k2 _ r H2) as (k3 & Hk3 & H3).
    destruct (IH _ _ k3 r (roots_forest _ _ Hsame) H3 ltac:(lia)) as (q & Hfind & Hq).
    exists q. split; [done|by eapply same_roots_trans].
Qed.

Lemma find_root p x : forest p -> exists q r, find (find_fuel p) p x = (q, r) /\ root p x r /\ same_roots p q.
Proof.
  intros Hf. destruct (forest_path _ Hf x) as (k & r & H).
  destruct (find_spec (find_fuel p) p x k r Hf H (path_short _ _ _ _ Hf H)) as (q & Hq & Hs).
  exists q, r. split; [done|]. split; [by exists k|done].
Qed.

(** ** Classes *)

Definition same_class p i j : Prop := exists r, root p i r /\ root p j r.

Lemma same_class_roots p q : same_roots p q -> forall i j, same_class q i j <-> same_class p i j.
Proof. intros Hs i j. unfold same_class. by setoid_rewrite (roots_same _ _ Hs). Qed.

(** Linking a root under another one. *)
Lemma link_root p ra rb : forest p -> ra < length p -> rb < length p ->
  par p ra = ra -> par p rb = rb -> ra <> rb ->
  forest (<[rb := ra]> p) /\
  forall x r, root p x r -> root (<[rb := ra]> p) x (if decide (r = rb) then ra else r).
Proof.
  intros Hf Hra Hrb Hpa Hpb Hne. set (q := <[rb := ra]> p).
  assert (Hq : forall y, par q y = if decide (y = rb) then ra else par p y) by (intros y; by apply par_insert).
  assert (Hroot : forall x k r, path p x k r -> root q x (if decide (r = rb) then ra else r)).
  { induction 1 as [r Hr|x k r Hx H [k' IH]].
    - case_decide as Hd; [subst r; exists 1|exists 0].
      + assert (Hqb : par q rb = ra) by (rewrite Hq; by case_decide).
        constructor; rewrite Hqb; [done|]. constructor. rewrite Hq. by case_decide.
      + constructor. rewrite Hq. by case_decide.
    - exists (S k'). assert (Hqx : par q x = par p x) by (rewrite Hq; destruct (decide (x = rb)) as [->|]; [by destruct Hx|done]).
      constructor; by rewrite Hqx. }
  split; [split|].
  - intros y Hy. unfold q in *. rewrite length_insert in *. rewrite Hq. case_decide; [done|by apply Hf].
  - intros y. destruct (root_total p y Hf) as (r & k & H). destruct (Hroot _ _ _ H) as (k' & H'). by exists k', (if decide (r = rb) then ra else r).
  - intros x r [k H]. by apply (Hroot _ k).
Qed.

Lemma union_spec p a b :
  forest p -> a < length p -> b < length p ->
  forest (union p a b) /\ length (union p a b) = length p /\
  forall i j, same_class (union p a b) i j <->
    same_class p i j \/ (same_class p i a /\ same_class p j b) \/ (same_class p i b /\ same_class p j a).
Proof.
  intros Hf Ha Hb. unfold union.
  destruct (find_root p a Hf) as (q & ra & -> & Hra & Hq).
  destruct (find_root q b (roots_forest _ _ Hq)) as (q2 & rb & Hfind & Hrb & Hq2). rewrite Hfind.
  pose proof (same_roots_trans _ _ _ Hq Hq2) as Hs. apply (roots_same _ _ Hq) in Hrb.
  assert (Hcls := same_class_roots _ _ Hs).
  destruct (Nat.eqb_spec ra rb) as [->|Hne].
  - split; [apply Hs|]. split; [apply Hs|]. intros i j. rewrite Hcls. split; [by left|].
    intros [H|[[(r1 & H1 & H2) (r2 & H3 & H4)]|[(r1 & H1 & H2) (r2 & H3 & H4)]]]; [done| |];
      exists rb; [rewrite (root_det _ _ _ _ H2 Hra) in H1; rewrite (root_det _ _ _ _ H4 Hrb) in H3
                 |rewrite (root_det _ _ _ _ H2 Hrb) in H1; rewrite (root_det _ _ _ _ H4 Hra) in H3]; done.
  - apply (roots_same _ _ Hs) in Hra as Hra2. apply (roots_same _ _ Hs) in Hrb as Hrb2.
    destruct (link_root q2 ra rb) as [Hf' Hl]; [apply Hs| | | | |done|].
    + rewrite (roots_length _ _ Hs). destruct Hra as [k H]. by eapply path_bound.
    + rewrite (roots_length _ _ Hs). destruct Hrb as [k H]. by eapply path_bound.
    + destruct Hra2 as [k H]. by eapply path_is_root.
    + destruct Hrb2 as [k H]. by eapply path_is_root.
    + split; [done|]. split; [rewrite length_insert; apply Hs|]. intros i j.
      destruct (root_total p i Hf) as (ri & Hi), (root_total p j Hf) as (rj & Hj).
      assert (Hl' : forall x r, root p x r -> root (<[rb:=ra]> q2) x (if decide (r = rb) then ra else r)).
      { intros x r Hr. by apply Hl, (roots_same _ _ Hs). }
      assert (Hsame : forall x y rx ry, root p x rx -> root p y ry -> same_class p x y <-> rx = ry).
      { intros x y rx ry Hx Hy. split; [|intros ->; by exists ry]. intros (r & H1 & H2).
        rewrite (root_det _ _ _ _ Hx H1). by rewrite (root_det _ _ _ _ Hy H2). }
      rewrite (Hsame i j ri rj), (Hsame i a ri ra), (Hsame j b rj rb), (Hsame i b ri rb), (Hsame j a rj ra) by done.
      assert (same_class (<[rb:=ra]> q2) i j <->
              (if decide (ri = rb) then ra else ri) = (if decide (rj = rb) then ra else rj)) as ->.
      { split; [|intros E; exists (if decide (ri = rb) then ra else ri); split; [by apply Hl'|rewrite E; by apply Hl']].
        intros (r & H1 & H2). rewrite (root_det _ _ _ _ (Hl' _ _ Hi) H1). by rewrite (root_det _ _ _ _ (Hl' _ _ Hj) H2). }
      repeat case_decide; subst; naive_solver.
Qed.
End UnionFind.

(** ** Unions over a list of links *)

(** The links that [union_members] merges: the first member with each other. *)
Definition star (members : list nat) : list (nat * nat) :=
  match members with [] => [] | first :: others => map (pair first) others end.

Definition link_all (p : list nat) (links : list (nat * nat)) : list nat :=
  fold_left (fun p e => union p e.1 e.2) links p.

Lemma union_members_links p members : union_members p members = link_all p (star members).
Proof.
  unfold union_members, link_all. destruct members as [|first others]; [done|]. simpl.
  revert p. induction others as [|o others IH]; intros p; [done|]. simpl. apply IH.
Qed.

Lemma link_all_app p l1 l2 : link_all p (l1 ++ l2) = link_all (link_all p l1) l2.
Proof. apply fold_left_app. Qed.

Lemma union_all_links p lists : fold_left union_members lists p = link_all p (concat (map star lists)).
Proof.
  revert p. induction lists as [|members lists IH]; intros p; [done|]. simpl.
  by rewrite link_all_app, IH, union_members_links.
Qed.

(** Connected through links. *)
Definition linked (links : list (nat * nat)) : relation nat := rtsc (fun i j => In (i, j) links).

Lemma linked_sym links i j : linked links i j -> linked links j i.
Proof. unfold linked, rtsc. intros H. induction H as [i|i j k [H|H] _ IH]; [done| |];
  (eapply rtc_r; [exact IH|]); [by right|by left]. Qed.

Lemma linked_one links i j : In (i, j) links -> linked links i j.
Proof. intros H. apply rtc_once. by left. Qed.

Lemma linked_incl l1 l2 i j : incl l1 l2 -> linked l1 i j -> linked l2 i j.
Proof. intros H. apply rtc_subrel. intros x y [Hx|Hx]; [left|right]; by apply H. Qed.

Lemma linked_add links a b i j :
  linked (links ++ [(a, b)]) i j <->
  linked links i j \/ (linked links i a /\ linked links j b) \/ (linked links i b /\ linked links j a).
Proof.
  assert (Hincl : forall x y, linked links x y -> linked (links ++ [(a, b)]) x y).
  { intros x y. apply linked_incl, incl_appl, incl_refl. }
  assert (Hab : linked (links ++ [(a, b)]) a b) by (apply linked_one, in_app_iff; right; by left).
  split.
  - intros H. induction H as [i|i k j Hik _ IH]; [left; apply rtc_refl|].
    assert (Hstep : linked links i k \/ (i = a /\ k = b) \/ (i = b /\ k = a)).
    { destruct Hik as [Hik|Hik]; apply in_app_iff in Hik as [Hik|[[= <- <-]|[]]]; auto.
      - left. by apply linked_one.
      - left. by apply linked_sym, linked_one. }
    destruct Hstep as [Hs|[[-> ->]|[-> ->]]].
    + destruct IH as [IH|[[H1 H2]|[H1 H2]]]; [left|right; left|right; right]; try split; try done;
        by transitivity k.
    + destruct IH as [IH|[[H1 H2]|[H1 H2]]].
      * right; left. split; [apply rtc_refl|by apply linked_sym].
      * right; left. split; [apply rtc_refl|done].
      * left. by apply linked_sym.
    + destruct IH as [IH|[[H1 H2]|[H1 H2]]].
      * right; right. split; [apply rtc_refl|by apply linked_sym].
      * left. by apply linked_sym.
      * right; right. split; [apply rtc_refl|done].
  - intros [H|[[H1 H2]|[H1 H2]]]; [by apply Hincl| |].
    + transitivity a; [by apply Hincl|]. transitivity b; [done|]. by apply linked_sym, Hincl.
    + transitivity b; [by apply Hincl|]. transitivity a; [by apply linked_sym|]. by apply linked_sym, Hincl.
Qed.

(** The classes of the forest are the connected components of the links. *)
Definition represents (p : list nat) (links : list (nat * nat)) : Prop :=
  forest p /\ forall i j, same_class p i j <-> linked links i j.

Lemma seq_par n x : par (seq 0 n) x = x.
Proof.
  unfold par. destruct (decide (x < n)); [|apply nth_overflow; rewrite length_seq; lia]. by rewrite seq_nth.
Qed.

Lemma seq_represents n : represents (seq 0 n) [].
Proof.
  assert (Hr : forall x, path (seq 0 n) x 0 x) by (intros x; constructor; apply seq_par).
  split; [split|].
  - intros x. by rewrite seq_par.
  - intros x. exists 0, x. apply Hr.
  - intros i j. split.
    + intros (r & [k1 H1] & [k2 H2]). destruct (path_det _ _ _ _ H1 _ _ (Hr i)) as [_ ->].
      destruct (path_det _ _ _ _ H2 _ _ (Hr j)) as [_ ->]. apply rtc_refl.
    + intros H. inversion H as [|? ? ? [[]|[]] _]; subst. exists j. by split; exists 0.
Qed.

Lemma link_all_represents p links0 links :
  represents p links0 -> (forall a b, In (a, b) links -> a < length p /\ b < length p) ->
  represents (link_all p links) (links0 ++ links) /\ length (link_all p links) = length p.
Proof.
  revert p links0. induction links as [|[a b] links IH]; intros p links0 [Hf Hc] Hb.
  { rewrite app_nil_r. by split. }
  destruct (Hb a b) as [Ha Hb']; [by left|]. destruct (union_spec p a b Hf Ha Hb') as (Hf' & Hlen & Hu).
  destruct (IH (union p a b) (links0 ++ [(a, b)])) as [Hr Hl].
  - split; [done|]. intros i j. by rewrite Hu, linked_add, !Hc.
  - intros x y Hin. rewrite Hlen. apply Hb. by right.
  - split; [|simpl; by rewrite Hl]. by rewrite <- app_assoc in Hr.
Qed.

(** ** The map from signals to miners *)

(** The miners at two positions share a signal. *)
Definition shares (evs : list (list string)) (i j : nat) : Prop :=
  exists e es1 es2, evs !! i = Some es1 /\ evs !! j = Some es2 /\ In e es1 /\ In e es2.

Definition behind {K A} `{PyKey K} (e : K) (m : list (K * list A)) : list A := default [] (aget e m).

Lemma behind_aappend {K A} `{PyKey K} (e e' : K) (i : A) m :
  behind e (aappend e' i m) = if keqb e e' then behind e m ++ [i] else behind e m.
Proof.
  unfold behind, aappend. destruct (aget e' m) eqn:E; rewrite aget_aset;
    destruct (keqb e e') eqn:Ek; try done; apply keqb_spec in Ek as ->; by rewrite E.
Qed.

Lemma NoDup_aappend {K A} `{PyKey K} (k : K) (x : A) m : NoDup (akeys m) -> NoDup (akeys (aappend k x m)).
Proof. unfold aappend. destruct (aget k m); apply NoDup_akeys_aset. Qed.

(** Grouping by a key: a member is in the group of its key. *)
Lemma behind_groups {K A} `{PyKey K} (f : A -> K) l : forall m k x,
  In x (behind k (fold_left (fun acc a => aappend (f a) a acc) l m)) <-> In x (behind k m) \/ (In x l /\ f x = k).
Proof.
  induction l as [|a l IH]; intros m k x; simpl; [tauto|]. rewrite IH, behind_aappend.
  destruct (keqb k (f a)) eqn:E; [apply keqb_spec in E as ->; rewrite in_app_iff; simpl; naive_solver|].
  apply keqb_neq in E. naive_solver.
Qed.

Lemma groups_nodup {K A} `{PyKey K} (f : A -> K) l : forall m,
  NoDup (akeys m) -> NoDup (akeys (fold_left (fun acc a => aappend (f a) a acc) l m)).
Proof. induction l as [|a l IH]; intros m Hm; simpl; [done|]. by apply IH, NoDup_aappend. Qed.

Lemma behind_signals (e : string) (i : nat) es m : forall x,
  In x (behind e (fold_left (fun acc e => aappend e i acc) es m)) <-> In x (behind e m) \/ (x = i /\ In e es).
Proof.
  revert m. induction es as [|e' es IH]; intros m x; simpl; [tauto|]. rewrite IH, behind_aappend.
  destruct (keqb e e') eqn:E.
  - apply keqb_spec in E as ->. rewrite in_app_iff. simpl. naive_solver.
  - apply keqb_neq in E. naive_solver.
Qed.

Lemma behind_map (e : string) evs : forall idx acc x,
  In x (behind e (evidence_map_from idx evs acc)) <->
  In x (behind e acc) \/ exists n es, x = idx + n /\ evs !! n = Some es /\ In e es.
Proof.
  induction evs as [|es evs IH]; intros idx acc x; simpl.
  - split; [by left|]. intros [H|(n & es & _ & H & _)]; [done|by rewrite lookup_nil in H].
  - rewrite IH, behind_signals. split.
    + intros [[H|[-> H]]|(n & es' & -> & Hn & Hin)]; [by left| |]; right.
      * exists 0, es. split; [lia|done].
      * exists (S n), es'. split; [lia|done].
    + intros [H|([|n] & es' & -> & Hn & Hin)]; [by left; left| |].
      * simpl in Hn. injection Hn as ->. left; right. split; [lia|done].
      * right. exists n, es'. split; [lia|done].
Qed.

Lemma evidence_map_nodup evs : forall idx acc, NoDup (akeys acc) -> NoDup (akeys (evidence_map_from idx evs acc)).
Proof.
  induction evs as [|es evs IH]; intros idx acc Hnd; simpl; [done|]. apply IH. revert acc Hnd.
  induction es as [|e es IHes]; intros acc Hnd; simpl; [done|]. apply IHes. by apply NoDup_aappend.
Qed.

Definition signal_links (evs : list (list string)) : list (nat * nat) :=
  concat (map star (avals (evidence_map_from 0 evs []))).

Lemma in_avals {K V} (m : list (K * V)) v : In v (avals m) -> exists k, In (k, v) m.
Proof. intros H. apply in_map_iff in H as ([k v'] & <- & H). by exists k. Qed.

Lemma signal_members evs e members :
  aget e (evidence_map_from 0 evs []) = Some members ->
  forall x, In x members <-> exists es, evs !! x = Some es /\ In e es.
Proof.
  intros H x. pose proof (behind_map e evs 0 [] x) as Hb. unfold behind in Hb at 1. rewrite H in Hb. simpl in Hb.
  rewrite Hb. split; [intros [[]|(n & es & -> & ?)]; by exists es|]. intros (es & ?). right. by exists x, es.
Qed.

Lemma signal_link evs i j : In (i, j) (signal_links evs) -> shares evs i j.
Proof.
  unfold signal_links. intros H. apply in_concat in H as (links & Hl & Hin). apply in_map_iff in Hl as (members & <- & Hm).
  apply in_avals in Hm as (e & Hm). apply aget_NoDup in Hm; [|by apply evidence_map_nodup; constructor].
  pose proof (signal_members _ _ _ Hm) as Hx. destruct members as [|first others]; [done|]. simpl in Hin.
  apply in_map_iff in Hin as (o & [= <- <-] & Ho).
  destruct (proj1 (Hx first) (or_introl eq_refl)) as (es1 & H1 & H1').
  destruct (proj1 (Hx o) (or_intror Ho)) as (es2 & H2 & H2'). by exists e, es1, es2.
Qed.

Lemma star_linked first others links x :
  incl (star (first :: others)) links -> In x (first :: others) -> linked links first x.
Proof.
  intros Hl [<-|Hx]; [apply rtc_refl|]. apply linked_one, Hl. simpl. by apply in_map.
Qed.

Lemma shares_linked evs i j : shares evs i j -> linked (signal_links evs) i j.
Proof.
  intros (e & es1 & es2 & H1 & H2 & Hin1 & Hin2).
  assert (Hm : exists members, aget e (evidence_map_from 0 evs []) = Some members).
  { pose proof (proj2 (behind_map e evs 0 [] i) (or_intror (ex_intro _ i (ex_intro _ es1 (conj eq_refl (conj H1 Hin1)))))) as Hb.
    unfold behind in Hb. destruct (aget e (evidence_map_from 0 evs [])) as [members|]; [by exists members|done]. }
  destruct Hm as (members & Hm). pose proof (signal_members _ _ _ Hm) as Hx.
  assert (Hi : In i members) by (apply Hx; eauto). assert (Hj : In j members) by (apply Hx; eauto).
  destruct members as [|first others]; [done|].
  assert (Hincl : incl (star (first :: others)) (signal_links evs)).
  { intros l Hl. apply in_concat. exists (star (first :: others)). split; [|done]. apply in_map.
    apply aget_In in Hm. apply in_map_iff. by exists (e, first :: others). }
  transitivity first; [apply linked_sym|]; by eapply star_linked.
Qed.

(** Miners are linked exactly when a chain of shared signals connects them. *)
Lemma linked_shares evs i j : linked (signal_links evs) i j <-> rtsc (shares evs) i j.
Proof.
  split.
  - apply rtc_subrel. intros x y [H|H]; [left|right]; by apply signal_link.
  - intros H. induction H as [i|i k j [Hs|Hs] _ IH]; [apply rtc_refl| |]; (transitivity k; [|done]).
    + by apply shares_linked.
    + by apply linked_sym, shares_linked.
Qed.

Lemma signal_link_bounds evs i j : In (i, j) (signal_links evs) -> i < length evs /\ j < length evs.
Proof.
  intros (e & es1 & es2 & H1 & H2 & _)%signal_link. split; by eapply lookup_lt_Some.
Qed.

(** ** The components *)

(** The root [find] returns. *)
Definition rep (p : list nat) (x : nat) : nat := (find (find_fuel p) p x).2.

Lemma rep_root p x : forest p -> root p x (rep p x) /\ same_roots p (find (find_fuel p) p x).1.
Proof. intros Hf. unfold rep. by destruct (find_root p x Hf) as (q & r & -> & Hr & Hq). Qed.

Lemma rep_class p i j : forest p -> rep p i = rep p j <-> same_class p i j.
Proof.
  intros Hf. destruct (rep_root p i Hf) as [Hi _], (rep_root p j Hf) as [Hj _]. split.
  - intros E. exists (rep p i). split; [done|by rewrite E].
  - intros (r & Hri & Hrj). by rewrite (root_det _ _ _ _ Hi Hri), (root_det _ _ _ _ Hj Hrj).
Qed.

Lemma rep_same p q x : forest p -> same_roots p q -> rep q x = rep p x.
Proof.
  intros Hf Hs. destruct (rep_root p x Hf) as [Hp _], (rep_root q x (roots_forest _ _ Hs)) as [Hq _].
  apply (roots_same _ _ Hs) in Hq. by apply (root_det p x).
Qed.

(** The code's loop compresses paths as it goes; the groups are those of the roots before it. *)
Lemma collect_groups index l : forall p acc, forest p ->
  collect p index l acc = fold_left (fun acc a => aappend (rep p (default 0 (aget a index))) a acc) l acc.
Proof.
  induction l as [|a l IH]; intros p acc Hf; [done|]. cbn [collect fold_left].
  pose proof (rep_root p (default 0 (aget a index)) Hf) as [_ Hs].
  destruct (find (find_fuel p) p (default 0 (aget a index))) as [q r] eqn:E. cbn [fst] in Hs.
  rewrite (IH q _ (roots_forest _ _ Hs)).
  replace (rep p (default 0 (aget a index))) with r by (unfold rep; by rewrite E).
  generalize (aappend r a acc). clear - Hf Hs. induction l as [|b l IHl]; intros acc; [done|]. cbn [fold_left].
  by rewrite (rep_same p q _ Hf Hs), IHl.
Qed.

Lemma index_position l : forall idx acc n a,
  NoDup l -> l !! n = Some a -> aget a (index_from idx l acc) = Some (idx + n).
Proof.
  assert (Hout : forall l idx acc a, ~ In a l -> aget a (index_from idx l acc) = aget a acc).
  { clear. induction l as [|b l IH]; intros idx acc a Hn; simpl; [done|]. rewrite IH by (intros ?; by apply Hn; right).
    apply aget_aset_ne. intros ->. apply Hn. by left. }
  induction l as [|b l IH]; intros idx acc n a Hnd Hn; [by rewrite lookup_nil in Hn|].
  inversion Hnd as [|? ? Hb Hl]; subst. destruct n as [|n]; simpl in *.
  - injection Hn as ->. rewrite Hout, aget_aset_eq; [by rewrite Nat.add_0_r|]. by rewrite <- list_elem_of_In.
  - rewrite (IH _ _ n a Hl Hn). f_equal. lia.
Qed.

(** The groups the code forms over distinct addresses: one group for each root, holding the addresses whose
    positions are linked. *)
Lemma components_classes addresses evs :
  NoDup addresses -> length evs = length addresses ->
  forall i a, addresses !! i = Some a ->
  exists c, In c (components addresses evs) /\ In a c /\
    (forall c', In c' (components addresses evs) -> In a c' -> c' = c) /\
    (forall b, In b c -> In b addresses) /\
    (forall j b, addresses !! j = Some b -> (In b c <-> rtsc (shares evs) i j)).
Proof.
  intros Hnd Hlen i a Ha. unfold components. rewrite union_all_links. fold (signal_links evs).
  destruct (link_all_represents (seq 0 (length addresses)) [] (signal_links evs)) as [[Hf Hc] _].
  { apply seq_represents. }
  { intros x y H. rewrite length_seq, <- Hlen. by apply signal_link_bounds. }
  set (p := link_all (seq 0 (length addresses)) (signal_links evs)) in *.
  rewrite collect_groups by done. set (f a := rep p (default 0 (aget a (index_from 0 addresses [])))).
  change (fold_left _ addresses []) with (fold_left (fun acc a => aappend (f a) a acc) addresses []).
  set (m := fold_left _ addresses []).
  assert (Hm : NoDup (akeys m)) by (apply (groups_nodup f); constructor).
  assert (Hb : forall k x, In x (behind k m) <-> In x addresses /\ f x = k).
  { intros k x. unfold m. rewrite (behind_groups f). unfold behind at 1. simpl. tauto. }
  assert (Hpos : forall j b, addresses !! j = Some b -> f b = rep p j).
  { intros j b Hj. unfold f. by rewrite (index_position _ _ _ _ _ Hnd Hj). }
  assert (Hin : In a addresses) by (apply list_elem_of_In; by eapply list_elem_of_lookup_2).
  pose proof (proj2 (Hb (f a) a) (conj Hin eq_refl)) as Hac.
  assert (Hget : forall k c, In (k, c) m -> c = behind k m).
  { intros k c H. apply aget_NoDup in H; [|done]. unfold behind. by rewrite H. }
  exists (behind (f a) m). repeat split.
  - unfold behind in *. destruct (aget (f a) m) as [c|] eqn:E; [|done]. apply aget_In in E.
    apply in_map_iff. by exists (f a, c).
  - done.
  - intros c' Hc' Hac'. apply in_avals in Hc' as (k & Hk). rewrite (Hget _ _ Hk) in Hac'. rewrite (Hget _ _ Hk).
    apply Hb in Hac' as [_ <-]. done.
  - intros b Hbin. by apply Hb in Hbin as [? _].
  - intros Hbin. apply Hb in Hbin as [_ Hfb]. rewrite (Hpos _ _ H), (Hpos _ _ Ha) in Hfb.
    symmetry in Hfb. apply rep_class, Hc in Hfb; [|done]. by apply linked_shares.
  - intros Hs. apply Hb. split; [apply list_elem_of_In; by eapply list_elem_of_lookup_2|].
    rewrite (Hpos _ _ H), (Hpos _ _ Ha). symmetry. apply rep_class; [done|]. apply Hc. by apply linked_shares.
Qed.

Lemma assign_one u (a : string) c : forall acc : list (string * string),
  aget a (fold_left (fun result a => aset a u result) c acc) = if decide (a ∈ c) then Some u else aget a acc.
Proof.
  induction c as [|b c IH]; intros acc; cbn [fold_left]; [done|].
  rewrite IH, aget_aset. destruct (keqb a b) eqn:E.
  - apply keqb_spec in E as ->. rewrite (decide_True (P := b ∈ b :: c)) by set_solver.
    by destruct (decide (b ∈ c)).
  - apply keqb_neq in E. destruct (decide (a ∈ c)), (decide (a ∈ b :: c)); done || set_solver.
Qed.

Lemma assign_all u a cs : forall acc : list (string * string),
  (forall c, In c cs -> In a c -> unit_id c = u) ->
  (aget a acc = Some u \/ exists c, In c cs /\ In a c) ->
  aget a (fold_left (fun result c => fold_left (fun result a => aset a (unit_id c) result) c result) cs acc) = Some u.
Proof.
  induction cs as [|c cs IH]; intros acc Hu H; cbn [fold_left]; [by destruct H as [|(? & [] & _)]|].
  apply IH; [intros c' ?; apply Hu; by right|]. rewrite assign_one. destruct (decide (a ∈ c)) as [Hi|Hi].
  - left. f_equal. apply Hu; [by left|by apply list_elem_of_In].
  - destruct H as [H|(c' & [<-|Hc'] & Ha)]; [by left|by apply list_elem_of_In in Ha|right; by exists c'].
Qed.

(** ** The properties *)

Section Units.
Context (miners : list dict) (addresses : list string) (evs : list (list string)).
Hypothesis Haddresses : mapR miner_address miners = Ok addresses.
Hypothesis Hevs : mapR evidences miners = Ok evs.
Hypothesis Hnodup : NoDup addresses.

Lemma units_classes :
  exists units, compute_economic_unit_components miners = Ok units /\
  forall i a, addresses !! i = Some a ->
  exists c, aget a units = Some (unit_id c) /\ (forall b, In b c -> In b addresses) /\
    forall j b, addresses !! j = Some b -> (In b c <-> rtsc (shares evs) i j).
Proof.
  unfold compute_economic_unit_components. destruct miners as [|m ms].
  { exists []. split; [done|]. intros i a Ha. injection Haddresses as <-. by rewrite lookup_nil in Ha. }
  rewrite Haddresses, Hevs. cbn [rbind]. eexists. split; [done|]. intros i a Ha.
  pose proof (mapR_length _ _ _ Haddresses) as L1. pose proof (mapR_length _ _ _ Hevs) as L2.
  destruct (components_classes addresses evs Hnodup ltac:(congruence) i a Ha) as (c & Hc & Hac & Huniq & Hin & Hcl).
  exists c. split; [|by split]. apply assign_all; [|right; by exists c].
  intros c' Hc' Hac'. by rewrite (Huniq _ Hc' Hac').
Qed.
End Units.

(** C30: over miners with distinct addresses the code assigns every miner the
    identifier of its component: the set of the miners that a chain of shared
    network signals (same IP after trimming and lower-casing, or same user-agent
    hash) connects to it.  The union-find structure, its path halving and the
    fuel of its loops are part of the code the theorem is about. *)
Theorem economic_units_are_components miners addresses evs :
  mapR miner_address miners = Ok addresses -> mapR evidences miners = Ok evs -> NoDup addresses ->
  exists units, compute_economic_unit_components miners = Ok units /\
  forall i a, addresses !! i = Some a ->
  exists c, aget a units = Some (unit_id c) /\ (forall b, In b c -> In b addresses) /\
    forall j b, addresses !! j = Some b -> (In b c <-> rtsc (shares evs) i j).
Proof. apply units_classes. Qed.

(** C36: the loop [while parent[x] != x] of [find] ends within as many steps as there
    are miners, in a forest: it returns the root of [x], keeps the structure a
    forest, and the path halving changes no miner's root. *)
Theorem find_terminates p x :
  forest p -> exists q r, find (find_fuel p) p x = (q, r) /\ root p x r /\ par p r = r /\ forest q /\
    (forall y s, root q y s <-> root p y s) /\
    forall fuel, find_fuel p <= fuel -> (find fuel p x).2 = r.
Proof.
  intros Hf. destruct (find_root p x Hf) as (q & r & Hq & [k Hr] & [Hl Hfq Hs]).
  exists q, r. split; [done|]. split; [by exists k|]. split; [by eapply path_is_root|].
  split; [done|]. split; [done|].
  - intros fuel Hfuel. pose proof (path_short _ _ _ _ Hf Hr).
    destruct (find_spec fuel p x k r Hf Hr ltac:(lia)) as (q' & -> & _). done.
Qed.

Definition example_miners : list dict :=
  [[("address", VStr "a"); ("ip_address", VStr "10.0.0.1 ")];
   [("address", VStr "b"); ("user_agent_hash", VStr "sha256:9")];
   [("address", VStr "c"); ("ip_address", VStr "10.0.0.1"); ("user_agent_hash", VStr "sha256:9")];
   [("address", VStr "d"); ("ip_address", VNone)]].

Lemma economic_units_are_components_witness :
  exists units, compute_economic_unit_components example_miners = Ok units /\
  exists c, aget "a" units = Some (unit_id c) /\ (In "b" c <-> rtsc
    (shares [["ip:10.0.0.1"]; ["sha256:9"]; ["ip:10.0.0.1"; "sha256:9"]; []]) 0 1).
Proof.
  destruct (economic_units_are_components example_miners ["a"; "b"; "c"; "d"]
    [["ip:10.0.0.1"]; ["sha256:9"]; ["ip:10.0.0.1"; "sha256:9"]; []]) as (units & Hu & H).
  - reflexivity.
  - reflexivity.
  - repeat (constructor; [set_solver|]). constructor.
  - exists units. split; [done|]. destruct (H 0 "a" eq_refl) as (c & Hc & _ & Hm). exists c. split; [done|].
    by apply (Hm 1 "b").
Defined.

Lemma find_terminates_witness : exists q r, find (find_fuel [0; 0; 1]) [0; 0; 1] 2 = (q, r) /\ root [0; 0; 1] 2 r.
Proof.
  destruct (find_terminates [0; 0; 1] 2) as (q & r & Hq & Hr & _).
  - split.
    + intros [|[|[|x]]] H; simpl in *; unfold par; simpl; lia.
    + intros [|[|[|x]]]; [exists 0, 0|exists 1, 0|exists 2, 0|exists 0, (S (S (S x)))];
        repeat first [constructor; by rewrite ?par_out by (simpl; lia)|econstructor; [done|]].
  - by exists q, r.
Defined.
