(* ===== verification/Paging.v ===== *)
(** * Paging of reward rows is lossless and bound to its root

    [build_paged_poker_mtt_projection_payload] splits the rows of a payload
    into pages that are stored as artifacts;
    [_resolve_miner_reward_rows_from_artifacts] reads them back.  Resolving what
    was paged gives the rows, in whatever order the store lists the artifacts,
    and whatever resolves against a root has that root. *)
From Stdlib Require Import ZArith Lia String Permutation Sorted.
From stdpp Require Import base list strings.
From S2P Require Import Prelude PyText PyFloat PyTime PyValue Sha256 Canonical Forecast RewardRows.
Open Scope Z_scope.

(** ** Chunks *)

Lemma chunks_concat {A} fuel n : forall l : list A,
  (0 < n)%nat -> (length l <= fuel)%nat -> concat (chunks fuel n l) = l.
Proof.
  induction fuel as [|fuel IH]; intros l Hn Hl; [by destruct l; [|simpl in Hl; lia]|].
  destruct l as [|x l]; [done|]. cbn [chunks concat]. rewrite IH; [|done|].
  - change @List.concat with @concat. apply take_drop.
  - rewrite length_drop. simpl in *. lia.
Qed.

(** ** Pages *)

Definition page_at (index : nat) (rows : list value) (page : dict * dict) : Prop :=
  build_page index rows = Ok page.

Inductive pages_from : nat -> list (list value) -> list (dict * dict) -> Prop :=
| pages_none i : pages_from i [] []
| pages_more i rows parts page pages :
    page_at i rows page -> pages_from (S i) parts pages -> pages_from i (rows :: parts) (page :: pages).

Lemma build_pages_from parts : forall i pages, build_pages i parts = Ok pages -> pages_from i parts pages.
Proof.
  induction parts as [|rows parts IH]; intros i pages H; cbn [build_pages] in H.
  - injection H as <-. constructor.
  - apply rbind_ok in H as (page & Hp & H). apply rbind_ok in H as (pages' & Hps & [= <-]).
    constructor; [done|by apply IH].
Qed.

Lemma page_at_index i rows page : page_at i rows page ->
  dget page.1 "page_index" = VInt (Z.of_nat i) /\ aget "page_index" page.2 = Some (VInt (Z.of_nat i)) /\ page.1 <> [].
Proof. intros (root & _ & [= <-])%rbind_ok. done. Qed.

Lemma py_eq_int a b : py_eq (VInt a) (VInt b) = (a =? b).
Proof. cbn [py_eq number_of num_compare]. rewrite Z.eqb_compare. by destruct (a ?= b). Qed.

(** The pages of an index, as the code collects them from the artifacts. *)
Definition collect_pages (l : list dict) (m : list (value * dict)) : list (value * dict) :=
  fold_left (fun m page => vset (dget page "page_index") page m) l m.

Definition int_keys (m : list (value * dict)) : Prop := forall k page, In (k, page) m -> exists n, k = VInt n.

Lemma vget_vset n k (page : dict) m : int_keys m ->
  vget (VInt n) (vset (VInt k) page m) = if n =? k then Some page else vget (VInt n) m.
Proof.
  induction m as [|[k' p'] m IH]; intros Hm; cbn [vset vget].
  - by rewrite py_eq_int.
  - destruct (Hm k' p' (or_introl eq_refl)) as [j ->]. rewrite !py_eq_int.
    destruct (Z.eqb_spec k j) as [->|Hkj]; cbn [vget]; rewrite !py_eq_int.
    + by destruct (n =? j).
    + rewrite IH by (intros ? ? ?; eapply Hm; by right).
      destruct (Z.eqb_spec n j) as [->|]; [|done]. by destruct (Z.eqb_spec j k); [congruence|].
Qed.

Lemma int_keys_vset k page m : int_keys m -> int_keys (vset (VInt k) page m).
Proof.
  induction m as [|[k' p'] m IH]; intros Hm k2 p2; cbn [vset].
  - intros [[= <- <-]|[]]. by exists k.
  - destruct (py_eq (VInt k) k').
    + intros [[= <- <-]|H]; eapply Hm; [by left|by right].
    + intros [[= <- <-]|H]; [eapply Hm; by left|]. revert H. apply IH. intros ? ? ?. eapply Hm. by right.
Qed.

(** The pages [l] carry the distinct integer indexes [f page]. *)
Lemma collect_lookup (f : dict -> Z) l : forall m page,
  (forall p, In p l -> dget p "page_index" = VInt (f p)) -> NoDup (map f l) -> int_keys m -> In page l ->
  vget (VInt (f page)) (collect_pages l m) = Some page.
Proof.
  assert (Hout : forall l m n, (forall p, In p l -> dget p "page_index" = VInt (f p)) -> int_keys m ->
            ~ In n (map f l) -> vget (VInt n) (collect_pages l m) = vget (VInt n) m).
  { clear. induction l as [|p l IH]; intros m n Hf Hm Hn; [done|]. cbn [collect_pages fold_left].
    rewrite (Hf p) by (by left). fold (collect_pages l (vset (VInt (f p)) p m)).
    rewrite IH; [|intros ? ?; apply Hf; by right|by apply int_keys_vset|intros ?; apply Hn; by right].
    rewrite vget_vset by done. destruct (Z.eqb_spec n (f p)) as [->|]; [|done]. destruct Hn. by left. }
  induction l as [|p l IH]; intros m page Hf Hnd Hm Hin; [done|]. cbn [collect_pages fold_left].
  rewrite (Hf p) by (by left). fold (collect_pages l (vset (VInt (f p)) p m)).
  cbn [map] in Hnd. apply NoDup_cons in Hnd as [Hp Hnd]. destruct Hin as [->|Hin].
  - rewrite Hout; [|intros ? ?; apply Hf; by right|by apply int_keys_vset|by rewrite <- list_elem_of_In].
    by rewrite vget_vset, Z.eqb_refl.
  - apply IH; [intros ? ?; apply Hf; by right|done|by apply int_keys_vset|done].
Qed.

(** The payloads of the artifacts of one kind. *)
Definition payloads_of (kind : string) (artifacts : list dict) : list value :=
  map (fun a => dget a "payload_json") (List.filter (fun a => py_eq_str (dget a "kind") kind) artifacts).

Lemma collect_artifacts kind artifacts : forall pages m,
  payloads_of kind artifacts = map VDict pages ->
  (forall p, In p pages -> p <> [] /\ exists n, dget p "page_index" = VInt n) ->
  foldR (page_of_artifact kind) artifacts m = Ok (collect_pages pages m).
Proof.
  unfold payloads_of. induction artifacts as [|a artifacts IH]; intros pages m Hp Hok.
  - by destruct pages.
  - cbn [foldR List.filter] in *. unfold page_of_artifact at 1.
    destruct (py_eq_str (dget a "kind") kind); cbn [negb]; [|by apply IH].
    destruct pages as [|p pages]; [done|]. cbn [map] in Hp. injection Hp as Hpay Hp.
    destruct (Hok p (or_introl eq_refl)) as [Hne [n Hn]].
    rewrite Hpay. unfold por. destruct p as [|e p]; [done|]. cbn [truthy as_dict rbind].
    rewrite Hn. cbn [hashable rbind]. rewrite (IH pages); [|done|intros ? ?; apply Hok; by right].
    cbn [collect_pages fold_left]. by rewrite Hn.
Qed.

(** ** Reading the pages back *)

Definition index_of (page : dict) : Z := match dget page "page_index" with VInt n => n | _ => 0 end.

Lemma pages_indexes i parts pages : pages_from i parts pages ->
  map index_of (map fst pages) = map Z.of_nat (seq i (length pages)) /\
  mapR (fun r => dgetitem r "page_index") (map snd pages) = Ok (map VInt (map Z.of_nat (seq i (length pages)))) /\
  length pages = length parts /\
  (forall p, In p (map fst pages) -> p <> [] /\ exists n, dget p "page_index" = VInt n).
Proof.
  induction 1 as [|i rows parts page pages Hp _ (IH1 & IH2 & IH3 & IH4)]; [done|].
  destruct (page_at_index _ _ _ Hp) as (H1 & H2 & H3). cbn [map length seq mapR].
  split; [|split; [|split]].
  - f_equal; [|done]. unfold index_of. by rewrite H1.
  - unfold dgetitem at 1. rewrite H2. cbn [of_option rbind]. by rewrite IH2.
  - by f_equal.
  - intros p [<-|Hin]; [split; [done|by eexists]|by apply IH4].
Qed.

Lemma pages_index_at i parts pages : pages_from i parts pages ->
  forall j page, pages !! j = Some page -> index_of page.1 = Z.of_nat (i + j).
Proof.
  induction 1 as [|i rows parts page pages Hp _ IH]; intros j q Hq; [done|].
  destruct j as [|j]; [injection Hq as <-|rewrite Nat.add_succ_r, <- Nat.add_succ_l; by apply IH].
  unfold index_of. destruct (page_at_index _ _ _ Hp) as (-> & _ & _). by rewrite Nat.add_0_r.
Qed.

Lemma NoDup_indexes i n : NoDup (map Z.of_nat (seq i n)).
Proof. apply (NoDup_fmap_2 Z.of_nat). apply NoDup_seq. Qed.

Lemma py_sort_increasing {A} (key : A -> res value) l ks :
  mapR key l = Ok (map VInt ks) -> StronglySorted Z.le ks -> py_sort py_lt key false l = Ok l.
Proof.
  intros Hk Hs. unfold py_sort.
  assert (Hkl : exists kl, mapR (fun x => let? k := key x in Ok (k, x)) l = Ok kl /\
                           map fst kl = map VInt ks /\ map snd kl = l).
  { clear Hs. revert ks Hk. induction l as [|x l IH]; intros ks Hk; cbn [mapR] in *.
    - injection Hk as Hk. exists []. by rewrite <- Hk.
    - apply rbind_ok in Hk as (k & Hx & Hk). apply rbind_ok in Hk as (ks' & Hl & Hk). injection Hk as Hk.
      destruct ks as [|z ks]; [done|]. cbn [map] in Hk. injection Hk as -> ->.
      destruct (IH ks Hl) as (kl & Hkl & Hf & Hsnd). exists ((VInt z, x) :: kl). rewrite Hx. cbn [rbind].
      rewrite Hkl. cbn [rbind map fst snd]. by rewrite Hf, Hsnd. }
  destruct Hkl as (kl & -> & Hf & <-). cbn [rbind]. unfold py_sort_keyed. rewrite Hf.
  assert (all_comparable py_lt (map VInt ks) = Ok tt) as ->.
  { clear. induction ks as [|k ks IH]; [done|]. cbn [map all_comparable].
    assert (mapR (py_lt (VInt k)) (map VInt ks) = Ok (map (fun j => match k ?= j with Lt => true | _ => false end) ks)) as ->.
    { clear IH. induction ks as [|j ks IH]; [done|]. cbn [map mapR]. by rewrite IH. }
    done. }
  cbn [rbind]. rewrite sort_by_id; [done|]. clear - Hs Hf. revert ks Hf Hs.
  induction kl as [|[k x] kl IH]; intros [|z ks] Hf Hs; try done; [constructor|].
  cbn [map fst] in Hf. injection Hf as -> Hf. apply StronglySorted_inv in Hs as [Hs Hz]. constructor; [by eapply IH|].
  clear IH Hs. revert ks Hf Hz. induction kl as [|[k2 x2] kl IH]; intros [|z2 ks] Hf Hz; try done.
  cbn [map fst] in Hf. injection Hf as -> Hf. inversion Hz as [|? ? Hle Hz']; subst. constructor; [|by eapply IH].
  unfold ge, klt_bool. cbn [fst py_lt number_of num_compare]. destruct (Z.compare_spec z2 z); [done|lia|done].
Qed.

Lemma seq_increasing i n : StronglySorted Z.le (map Z.of_nat (seq i n)).
Proof.
  revert i. induction n as [|n IH]; intros i; cbn [seq map]; constructor; [apply IH|].
  apply List.Forall_forall. intros z Hz. apply in_map_iff in Hz as (j & <- & Hj). apply in_seq in Hj. lia.
Qed.

Lemma read_page prefix index i rows page :
  page_at i rows page -> vget (VInt (Z.of_nat i)) index = Some page.1 -> page_rows prefix index page.2 = Ok rows.
Proof.
  intros (root & Hroot & [= <-])%rbind_ok Hget. unfold page_rows, page_ref.
  change (dgetitem _ "page_index") with (Ok (VInt (Z.of_nat i))). cbn [rbind hashable].
  rewrite Hget. cbn [of_option rbind fst]. 
  assert (list_field [("page_index", VInt (Z.of_nat i)); ("row_count", VInt (Z.of_nat (length rows)));
    ("miner_reward_rows", VList rows); ("page_root", VStr root)] "miner_reward_rows" = Ok rows) as ->
    by (unfold list_field, por; simpl; by destruct rows).
  cbn [rbind]. rewrite Hroot. cbn [rbind snd].
  change (dget [("page_index", VInt (Z.of_nat i)); ("row_count", VInt (Z.of_nat (length rows)));
    ("page_root", VStr root)] "page_root") with (VStr root).
  change (dget [("page_index", VInt (Z.of_nat i)); ("row_count", VInt (Z.of_nat (length rows)));
    ("miner_reward_rows", VList rows); ("page_root", VStr root)] "page_root") with (VStr root).
  cbn [py_eq_str]. rewrite String.eqb_refl. cbn [andb guard rbind].
  assert (int_field [("page_index", VInt (Z.of_nat i)); ("row_count", VInt (Z.of_nat (length rows)));
    ("page_root", VStr root)] "row_count" = Ok (Z.of_nat (length rows))) as ->.
  { unfold int_field, int_or_zero, por. simpl. by destruct rows. }
  cbn [rbind]. by rewrite Z.eqb_refl.
Qed.

Lemma read_pages prefix index i parts pages :
  pages_from i parts pages -> (forall j page, pages !! j = Some page -> vget (VInt (Z.of_nat (i + j))) index = Some page.1) ->
  mapR (page_rows prefix index) (map snd pages) = Ok parts.
Proof.
  induction 1 as [|i rows parts page pages Hp _ IH]; intros Hget; [done|]. cbn [map mapR].
  rewrite (read_page _ _ _ _ _ Hp) by (rewrite <- (Nat.add_0_r i); by apply (Hget 0%nat)). cbn [rbind].
  rewrite IH; [done|]. intros j q Hq. rewrite Nat.add_succ_comm. by apply Hget.
Qed.

(** ** Resolving what was paged *)

Lemma aget_apop {V} k k' (m : list (string * V)) :
  NoDup (akeys m) -> aget k (apop k' m) = if keqb k k' then None else aget k m.
Proof.
  induction m as [|[k2 v] m IH]; cbn [akeys fmap list_fmap fst]; intros Hm; cbn [apop aget].
  - by destruct (keqb k k').
  - apply NoDup_cons in Hm as [Hn Hm]. destruct (keqb k' k2) eqn:E.
    + apply keqb_spec in E as ->. destruct (keqb k k2) eqn:E2; [|done]. apply keqb_spec in E2 as ->.
      apply aget_None. by rewrite <- list_elem_of_In.
    + cbn [aget]. rewrite IH by done. destruct (keqb k k2) eqn:E2; [|done]. apply keqb_spec in E2 as ->.
      destruct (keqb k2 k') eqn:E3; [|done]. apply keqb_spec in E3 as ->. by rewrite keqb_refl in E.
Qed.

Lemma dget_dset_ne k k' v d : k <> k' -> dget (dset d k' v) k = dget d k.
Proof. intros Hk. unfold dget, dget_or, dset. by rewrite aget_aset_ne. Qed.

Lemma dget_dset_eq k v d : dget (dset d k v) k = v.
Proof. unfold dget, dget_or, dset. by rewrite aget_aset_eq. Qed.

Lemma list_field_same d d' k : dget d k = dget d' k -> list_field d k = list_field d' k.
Proof. unfold list_field. by intros ->. Qed.

Lemma check_root prefix payload rows root :
  dget payload "miner_reward_rows_root" = VStr root -> _hash_sequence rows = Ok root ->
  check_rows_root prefix payload rows = Ok tt.
Proof.
  intros Hr Hh. unfold check_rows_root. rewrite Hr, Hh. cbn [rbind py_eq_str]. rewrite String.eqb_refl. cbn [guard].
  by destruct (truthy _).
Qed.

Section RoundTrip.
Context (payload projected : dict) (page_size : Z) (pages : list dict) (rows : list value).
Context (artifacts : list dict) (page_kind error_prefix : string).
Hypothesis Hpaged : build_paged_poker_mtt_projection_payload payload page_size = Ok (projected, pages).
Hypothesis Hrows : list_field payload "miner_reward_rows" = Ok rows.
Hypothesis Hkeys : NoDup (akeys payload).
Hypothesis Hfresh : truthy (dget payload "artifact_pages") = false.
Hypothesis Hstored : Permutation (payloads_of page_kind artifacts) (map VDict pages).

Lemma paging_inverse : _resolve_miner_reward_rows_from_artifacts projected artifacts page_kind error_prefix = Ok rows.
Proof.
  unfold build_paged_poker_mtt_projection_payload in Hpaged.
  apply rbind_ok in Hpaged as ([] & Hsize & H). apply guard_ok in Hsize. rewrite negb_true_iff, Z.leb_gt in Hsize.
  rewrite Hrows in H. cbn [rbind] in H. apply rbind_ok in H as (root & Hroot & H).
  destruct (Z.leb_spec (Z.of_nat (length rows)) page_size) as [Hle|Hlt].
  - injection H as <- _. unfold _resolve_miner_reward_rows_from_artifacts.
    rewrite (list_field_same _ payload) by (by rewrite !dget_dset_ne). rewrite Hrows. cbn [rbind].
    destruct rows as [|r rs] eqn:E.
    + unfold list_field, por at 1. rewrite !dget_dset_ne by done. by rewrite Hfresh.
    + erewrite check_root; [done| |done]. by rewrite dget_dset_ne, dget_dset_eq.
  - apply rbind_ok in H as (built & Hbuilt & [= <- <-]). apply build_pages_from in Hbuilt.
    destruct (pages_indexes _ _ _ Hbuilt) as (Hidx & Hkeyl & Hlen & Hok).
    assert (Hnd : NoDup (akeys (dset payload "miner_reward_rows_root" (VStr root)))) by (by apply NoDup_akeys_aset).
    unfold _resolve_miner_reward_rows_from_artifacts.
    assert (list_field (dset (dset (apop "miner_reward_rows" (dset payload "miner_reward_rows_root" (VStr root)))
              "artifact_page_count" (VInt (Z.of_nat (length built)))) "artifact_pages"
              (VList (map (fun p => VDict p.2) built))) "miner_reward_rows" = Ok []) as ->.
    { unfold list_field. rewrite !dget_dset_ne by done. unfold dget, dget_or. by rewrite aget_apop. }
    cbn [rbind]. unfold list_field at 1. rewrite dget_dset_eq.
    assert (Hparts : concat (chunks (length rows) (Z.to_nat page_size) rows) = rows) by (apply chunks_concat; lia).
    destruct built as [|p0 built0] eqn:Eb.
    { destruct (chunks (length rows) (Z.to_nat page_size) rows) as [|c cs]; [|inversion Hbuilt].
      rewrite <- Hparts in Hlt. cbn in Hlt. lia. }
    rewrite <- Eb in *. assert (por (VList (map (fun p => VDict p.2) built)) (VList []) = VList (map (fun p => VDict p.2) built)) as ->
      by (by rewrite Eb). cbn [as_list rbind].
    destruct (map (fun p => VDict p.2) built) as [|v0 vs] eqn:Ev; [by rewrite Eb in Ev|]. rewrite <- Ev.
    destruct (Permutation_map_inv _ _ Hstored) as (stored & Hpay & Hperm).
    assert (Hok' : forall p, In p stored -> p <> [] /\ exists n, dget p "page_index" = VInt n).
    { intros p Hp. apply Hok. by apply (Permutation_in _ (Permutation_sym Hperm)). }
    rewrite (collect_artifacts _ _ _ _ Hpay Hok'). cbn [rbind].
    replace (mapR as_dict (map (fun p => VDict p.2) built)) with (Ok (map snd built))
      by (clear; induction built as [|p l IH]; [done|]; cbn [map mapR as_dict rbind]; by rewrite <- IH).
    cbn [rbind]. rewrite (py_sort_increasing _ _ _ Hkeyl (seq_increasing _ _)). cbn [rbind].
    rewrite (read_pages error_prefix _ _ _ _ Hbuilt).
    + cbn [rbind]. rewrite Hparts. erewrite check_root; [done| |exact Hroot].
      rewrite !dget_dset_ne by done. unfold dget, dget_or. rewrite aget_apop by done. cbn [keqb string_key String.eqb].
      unfold dset. by rewrite aget_aset_eq.
    + intros j page Hj. assert (Hin : In page.1 stored).
      { apply (Permutation_in _ Hperm). apply in_map. apply list_elem_of_In. by eapply list_elem_of_lookup_2. }
      assert (Hi : index_of page.1 = Z.of_nat j).
      { by apply (pages_index_at 0 _ _ Hbuilt). }
      cbn [Nat.add]. rewrite <- Hi. apply collect_lookup; [| |intros ? ? []|done].
      * intros p Hp. unfold index_of. by destruct (Hok' p Hp) as [_ [n ->]].
      * rewrite <- Hperm, Hidx. apply NoDup_indexes.
Qed.
End RoundTrip.

(** C26: paging loses nothing: the rows of a payload that was split into pages are
    resolved again, in order, from the projected payload and a store whose
    artifacts of the page kind are the pages, in any order and among any other
    artifacts. *)
Theorem paging_roundtrip payload projected page_size pages rows artifacts page_kind error_prefix :
  build_paged_poker_mtt_projection_payload payload page_size = Ok (projected, pages) ->
  list_field payload "miner_reward_rows" = Ok rows ->
  NoDup (akeys payload) -> truthy (dget payload "artifact_pages") = false ->
  Permutation (payloads_of page_kind artifacts) (map VDict pages) ->
  _resolve_miner_reward_rows_from_artifacts projected artifacts page_kind error_prefix = Ok rows.
Proof. intros. by eapply paging_inverse. Qed.

Definition page_artifact (kind : string) (page : dict) : dict :=
  [("id", VStr "art"); ("kind", VStr kind); ("payload_json", VDict page)].

Definition demo_rows : list value := map (fun a => VDict [("miner_address", VStr a)]) ["a"; "b"; "c"].
Definition demo_payload : dict := [("lane", VStr "x"); ("miner_reward_rows", VList demo_rows)].

Lemma paging_roundtrip_witness :
  exists projected pages,
    build_paged_poker_mtt_projection_payload demo_payload 2 = Ok (projected, pages) /\ length pages = 2%nat /\
    _resolve_miner_reward_rows_from_artifacts projected
      (page_artifact "other" [] :: rev (map (page_artifact "page") pages)) "page" "demo" = Ok demo_rows.
Proof.
  eexists _, _. split; [reflexivity|]. split; [reflexivity|].
  eapply (paging_roundtrip demo_payload _ 2 _ demo_rows); try reflexivity.
  - nodup_keys.
  - apply Permutation_rev.
Defined.

Lemma resolved_root payload artifacts kind prefix r rows h :
  _resolve_miner_reward_rows_from_artifacts payload artifacts kind prefix = Ok (r :: rows) ->
  dget payload "miner_reward_rows_root" = VStr h -> h <> "" -> hash_sequence (r :: rows) = Ok h.
Proof.
  intros H Hh Hne.
  assert (Hcheck : forall l, check_rows_root prefix payload l = Ok tt -> hash_sequence l = Ok h).
  { intros l Hc. unfold check_rows_root in Hc. rewrite Hh in Hc. cbn [truthy] in Hc.
    destruct (String.eqb_spec h ""); [done|]. cbn [negb] in Hc. apply rbind_ok in Hc as (root & Hroot & Hc).
    apply guard_ok in Hc. cbn [py_eq_str] in Hc. apply String.eqb_eq in Hc as ->. done. }
  unfold _resolve_miner_reward_rows_from_artifacts in H. apply rbind_ok in H as (inl & _ & H).
  destruct inl as [|x inl].
  - apply rbind_ok in H as (refs & _ & H). destruct refs as [|y refs]; [done|].
    apply rbind_ok in H as (m & _ & H). apply rbind_ok in H as (refs1 & _ & H).
    apply rbind_ok in H as (refs2 & _ & H). apply rbind_ok in H as (pages & _ & H).
    apply rbind_ok in H as ([] & Hc & [= Hr]). apply Hcheck. by rewrite <- Hr.
  - apply rbind_ok in H as ([] & Hc & [= -> ->]). by apply Hcheck.
Qed.

(** a payload's root fixes the rows it resolves to: whatever artifacts two
    stores hold, two non-empty resolutions against the same root have the same
    canonical rows, or exhibit a collision of SHA-256. *)
Theorem resolved_rows_binding payload1 payload2 artifacts1 artifacts2 kind prefix rows1 rows2 h :
  _resolve_miner_reward_rows_from_artifacts payload1 artifacts1 kind prefix = Ok rows1 ->
  _resolve_miner_reward_rows_from_artifacts payload2 artifacts2 kind prefix = Ok rows2 ->
  dget payload1 "miner_reward_rows_root" = VStr h -> dget payload2 "miner_reward_rows_root" = VStr h -> h <> "" ->
  rows1 <> [] -> rows2 <> [] -> forallb floats_ok rows1 = true -> forallb floats_ok rows2 = true ->
  (exists l, mapR canonicalize rows1 = Ok l /\ mapR canonicalize rows2 = Ok l) \/
  texts_collide (sequence_payload rows1) (sequence_payload rows2).
Proof.
  intros H1 H2 R1 R2 Hh N1 N2 F1 F2. destruct rows1 as [|r1 rows1]; [done|]. destruct rows2 as [|r2 rows2]; [done|].
  apply (hash_sequence_inj _ _ h F1 F2); by eapply resolved_root.
Qed.

Definition demo_root : string := match hash_sequence demo_rows with Ok h => h | Err _ => "" end.
Definition demo_projected : dict := [("miner_reward_rows", VList demo_rows); ("miner_reward_rows_root", VStr demo_root)].

Lemma resolved_rows_binding_witness :
  (exists l, mapR canonicalize demo_rows = Ok l /\ mapR canonicalize demo_rows = Ok l) \/
  texts_collide (sequence_payload demo_rows) (sequence_payload demo_rows).
Proof.
  apply (resolved_rows_binding demo_projected demo_projected [] [page_artifact "page" []] "page" "demo"
           demo_rows demo_rows demo_root); first [reflexivity|discriminate].
Defined.

(** A payload that promises a root but holds neither rows nor pages resolves to
    no rows without a comparison. *)
Lemma missing_rows_resolve h kind prefix :
  _resolve_miner_reward_rows_from_artifacts [("miner_reward_rows_root", VStr h)] [] kind prefix = Ok [].
Proof. done. Qed.
