(* ===== verification/RewardTotals.v ===== *)
(** * Reward rows conserve the rewards they are built from

    The rows of a window, and the merged rows of an anchored batch, name every
    miner once and pay in total what the settled submissions earned; the
    division of a pool gives each item its floor or one more. *)
From Stdlib Require Import ZArith Lia String Permutation Sorted.
From stdpp Require Import base list strings.
From S2P Require Import Prelude PyText PyFloat PyTime PyValue Sha256 Canonical Forecast RewardRows.
Open Scope Z_scope.

(** ** Sums grouped by a key *)

Lemma sum_Z_zero {A} (l : list A) : sum_Z (map (fun _ => 0) l) = 0.
Proof. induction l as [|x l IH]; [done|]. apply IH. Qed.

Lemma sum_Z_plus {A} (f g : A -> Z) l : sum_Z (map (fun a => f a + g a) l) = sum_Z (map f l) + sum_Z (map g l).
Proof. unfold sum_Z. induction l as [|x l IH]; simpl; lia. Qed.

(** One key of a list without repetitions. *)
Lemma sum_Z_pick v b ks : NoDup ks -> In b ks -> sum_Z (map (fun a => if String.eqb a b then v else 0) ks) = v.
Proof.
  intros Hnd Hb. apply in_split in Hb as (l1 & l2 & ->). apply NoDup_ListNoDup in Hnd.
  apply NoDup_remove_2 in Hnd. rewrite in_app_iff in Hnd.
  assert (Hz : forall l, ~ In b l -> sum_Z (map (fun a => if String.eqb a b then v else 0) l) = 0).
  { intros l Hl. transitivity (sum_Z (map (fun _ => 0) l)); [f_equal; apply map_ext_in; intros a Ha|apply sum_Z_zero].
    destruct (String.eqb_spec a b) as [->|]; [by destruct Hl|done]. }
  rewrite map_app, sum_Z_app. cbn [map sum_Z foldr]. rewrite String.eqb_refl.
  rewrite (Hz l1) by tauto. specialize (Hz l2). unfold sum_Z in *. rewrite Hz by tauto. lia.
Qed.

Section Grouped.
Context {X C : Type} (key : X -> option string) (amount : X -> Z) (value_of : C -> Z) (empty : C).
Context (step : list (string * C) -> X -> res (list (string * C))).
Hypothesis Hempty : value_of empty = 0.
Hypothesis Hskip : forall g x g', key x = None -> step g x = Ok g' -> g' = g.
Hypothesis Hadd : forall g x g' a, key x = Some a -> step g x = Ok g' ->
  exists c, g' = aset a c g /\ value_of c = value_of (default empty (aget a g)) + amount x.

Definition keyed (a : string) (x : X) : bool := match key x with Some b => String.eqb a b | None => false end.
Definition has_key (x : X) : bool := match key x with Some _ => true | None => false end.
Definition group_sum (a : string) (l : list X) : Z := sum_Z (map amount (List.filter (keyed a) l)).

Lemma group_step g x g' : step g x = Ok g' -> NoDup (akeys g) ->
  NoDup (akeys g') /\ (forall a, In a (akeys g') <-> In a (akeys g) \/ key x = Some a) /\
  forall a, value_of (default empty (aget a g')) = value_of (default empty (aget a g)) + group_sum a [x].
Proof.
  intros H Hnd. unfold group_sum, keyed. destruct (key x) as [b|] eqn:E.
  - destruct (Hadd _ _ _ _ E H) as (c & -> & Hc). split; [by apply NoDup_akeys_aset|]. split.
    + intros a. rewrite akeys_aset. unfold ahas. destruct (aget b g) eqn:Eg.
      * split; [by left|]. intros [|[= ->]]; [done|]. apply aget_In in Eg. apply in_map_iff. by exists (a, c0).
      * rewrite in_app_iff. simpl. naive_solver.
    + intros a. rewrite aget_aset. cbn [keqb string_key List.filter]. rewrite E.
      destruct (String.eqb_spec a b) as [->|]; simpl; lia.
  - rewrite (Hskip _ _ _ E H). split; [done|]. split; [intros a; split; [by left|by intros [|]]|].
    intros a. simpl. rewrite E. simpl. lia.
Qed.

Lemma group_fold l : forall g g', foldR step l g = Ok g' -> NoDup (akeys g) ->
  NoDup (akeys g') /\ (forall a, In a (akeys g') <-> In a (akeys g) \/ exists x, In x l /\ key x = Some a) /\
  forall a, value_of (default empty (aget a g')) = value_of (default empty (aget a g)) + group_sum a l.
Proof.
  induction l as [|x l IH]; intros g g' H Hnd; cbn [foldR] in H.
  - injection H as <-. split; [done|]. split; [intros a; split; [by left|by intros [|(x & [] & _)]]|].
    intros a. unfold group_sum. simpl. lia.
  - apply rbind_ok in H as (g1 & Hx & H). destruct (group_step _ _ _ Hx Hnd) as (N1 & K1 & V1).
    destruct (IH _ _ H N1) as (N2 & K2 & V2). split; [done|]. split.
    + intros a. rewrite K2, K1. simpl. naive_solver.
    + intros a. rewrite V2, V1. unfold group_sum. cbn [List.filter]. destruct (keyed a x); simpl; lia.
Qed.

(** Summing the groups of all keys sums every element once. *)
Lemma group_sums ks l : NoDup ks -> (forall x a, In x l -> key x = Some a -> In a ks) ->
  sum_Z (map (fun a => group_sum a l) ks) = sum_Z (map amount (List.filter has_key l)).
Proof.
  intros Hnd. induction l as [|x l IH]; intros Hin.
  - apply sum_Z_zero.
  - transitivity (sum_Z (map (fun a => (if keyed a x then amount x else 0) + group_sum a l) ks)).
    { f_equal. apply map_ext. intros a. unfold group_sum. cbn [List.filter]. destruct (keyed a x); simpl; lia. }
    rewrite sum_Z_plus, IH by (intros ? ? ?; apply Hin; by right). cbn [List.filter]. unfold keyed, has_key.
    destruct (key x) as [b|] eqn:E; [|by rewrite sum_Z_zero].
    rewrite (sum_Z_pick _ _ _ Hnd) by (by apply (Hin x); [left|]). done.
Qed.
End Grouped.

(** ** Component rows *)

Definition value_or_zero (r : res Z) : Z := match r with Ok n => n | Err _ => 0 end.

(** What a submission earned: its [reward_amount]. *)
Definition reward_of (submission : dict) : Z := value_or_zero (int_field submission "reward_amount").
Definition row_int (k : string) (row : dict) : Z := match dget row k with VInt n => n | _ => 0 end.
Definition counted (submissions : list dict) : list dict := List.filter counts_for_components submissions.
Definition of_miner (a : string) (rows : list dict) : list dict :=
  List.filter (fun row => py_eq_str (dget row "miner_address") a) rows.

Definition miner_key (row : dict) : option string :=
  match dget row "miner_address" with VStr a => if String.eqb a "" then None else Some a | _ => None end.
Definition submission_miner (submission : dict) : option string :=
  if counts_for_components submission then miner_key submission else None.

Lemma row_key_truthy row a : truthy (dget row "miner_address") = true -> as_key (dget row "miner_address") = Ok a ->
  miner_key row = Some a.
Proof.
  unfold miner_key. intros Ht Ha. destruct (dget row "miner_address"); try done. injection Ha as ->.
  cbn [truthy] in Ht. by destruct (String.eqb a "").
Qed.

(** What a submission adds to each total of its miner. *)
Definition added (get : component_snapshot -> Z) (submission : dict) : Z :=
  match _forecast_submission_component_snapshot submission with Ok s => get s | Err _ => 0 end.

Lemma add_submission_skip g x g' : submission_miner x = None -> add_submission g x = Ok g' -> g' = g.
Proof.
  unfold submission_miner, add_submission. destruct (counts_for_components x) eqn:E; cbn [negb]; [|by intros _ [= <-]].
  intros Hk H. apply rbind_ok in H as (snap & _ & H). apply rbind_ok in H as (a & Ha & _).
  unfold counts_for_components in E. apply andb_true_iff in E as [Et _]. by rewrite (row_key_truthy _ _ Et Ha) in Hk.
Qed.

Lemma add_submission_adds g x g' a : submission_miner x = Some a -> add_submission g x = Ok g' ->
  exists c snap, g' = aset a c g /\ _forecast_submission_component_snapshot x = Ok snap /\
    add_snapshot (default empty_component (aget a g)) snap = Ok c.
Proof.
  unfold submission_miner, add_submission. destruct (counts_for_components x) eqn:E; cbn [negb]; [|done].
  intros Hk H. apply rbind_ok in H as (snap & Hs & H). apply rbind_ok in H as (b & Hb & H).
  apply rbind_ok in H as (c & Hc & [= <-]). apply andb_true_iff in E as [Et _].
  rewrite (row_key_truthy _ _ Et Hb) in Hk. injection Hk as ->. by exists c, snap.
Qed.

Lemma add_snapshot_totals cur snap c : add_snapshot cur snap = Ok c ->
  gross_reward_amount c = gross_reward_amount cur + snap_final_mining_score snap /\
  submission_count c = submission_count cur + 1 /\
  released_amount c = released_amount cur + snap_released_reward_amount snap /\
  held_amount c = held_amount cur + snap_held_reward_amount snap.
Proof.
  unfold add_snapshot. intros H. do 4 (apply rbind_ok in H as (? & _ & H)). by injection H as <-.
Qed.

Lemma snapshot_reward x snap : _forecast_submission_component_snapshot x = Ok snap ->
  snap_final_mining_score snap = reward_of x.
Proof.
  unfold _forecast_submission_component_snapshot. intros H. apply rbind_ok in H as (r & Hr & H).
  do 9 (apply rbind_ok in H as (? & _ & H)). injection H as <-. unfold reward_of. by rewrite Hr.
Qed.

(** The rows of a grouped dictionary. *)
Section Rows.
Context (row : string -> component -> res dict) (value_of : component -> Z) (k : string).
Hypothesis Hrow : forall a c d, row a c = Ok d -> dget d "miner_address" = VStr a /\ dget d k = VInt (value_of c).

Lemma rows_fields grouped rows : NoDup (akeys grouped) -> rows_by_address row grouped = Ok rows ->
  map (fun r => dget r "miner_address") rows = map VStr (sort_strings (akeys grouped)) /\
  map (row_int k) rows = map (fun a => value_of (default empty_component (aget a grouped))) (sort_strings (akeys grouped)) /\
  forall r, In r rows -> exists a, dget r "miner_address" = VStr a /\ In a (akeys grouped) /\
    row_int k r = value_of (default empty_component (aget a grouped)).
Proof.
  intros _ H. unfold rows_by_address in H. apply mapR_ok in H.
  assert (Hperm : forall a, In a (sort_strings (akeys grouped)) -> In a (akeys grouped)) by (intros a; apply In_sort_by).
  assert (G : forall ks rows, Forall2 (fun x y => row x (default empty_component (aget x grouped)) = Ok y) ks rows ->
    (forall a, In a ks -> In a (akeys grouped)) ->
    map (fun r => dget r "miner_address") rows = map VStr ks /\
    map (row_int k) rows = map (fun a => value_of (default empty_component (aget a grouped))) ks /\
    forall r, In r rows -> exists a, dget r "miner_address" = VStr a /\ In a (akeys grouped) /\
      row_int k r = value_of (default empty_component (aget a grouped))).
  { induction 1 as [|a r ks' rows' Ha _ IH]; intros Hin; [done|].
    destruct (Hrow _ _ _ Ha) as [H1 H2]. destruct IH as (I1 & I2 & I3); [intros ? ?; apply Hin; by right|].
    assert (Hr : row_int k r = value_of (default empty_component (aget a grouped))) by (unfold row_int; by rewrite H2).
    cbn [map]. rewrite H1, I1, Hr, I2. split; [done|]. split; [done|]. intros r' [<-|Hr']; [|by apply I3].
    exists a. split; [done|]. split; [by apply Hin; left|done]. }
  by apply G.
Qed.
End Rows.

Lemma component_row_fields a c d : component_row a c = Ok d ->
  dget d "miner_address" = VStr a /\ dget d "gross_reward_amount" = VInt (gross_reward_amount c) /\
  dget d "submission_count" = VInt (submission_count c) /\
  dget d "released_reward_amount" = VInt (released_amount c) /\ dget d "held_reward_amount" = VInt (held_amount c).
Proof. unfold component_row. intros H. do 5 (apply rbind_ok in H as (? & _ & H)). by injection H as <-. Qed.

Lemma merged_row_fields a c d : merged_row a c = Ok d ->
  dget d "miner_address" = VStr a /\ dget d "gross_reward_amount" = VInt (gross_reward_amount c).
Proof.
  unfold merged_row. destruct (has_component_fields c); cbn [negb].
  - intros H. by destruct (component_row_fields _ _ _ H) as (H1 & H2 & _).
  - by intros [= <-].
Qed.

#[export] Instance VStr_inj : Inj (=) (=) VStr.
Proof. by intros ? ? [= ->]. Qed.

(** The sum over the rows is the sum over what was grouped, and every row sums its own key. *)
Section Conservation.
Context {X : Type} (key : X -> option string) (amount : X -> Z) (value_of : component -> Z).
Context (step : grouped_components -> X -> res grouped_components) (row : string -> component -> res dict) (k : string).
Hypothesis Hempty : value_of empty_component = 0.
Hypothesis Hskip : forall g x g', key x = None -> step g x = Ok g' -> g' = g.
Hypothesis Hadd : forall g x g' a, key x = Some a -> step g x = Ok g' ->
  exists c, g' = aset a c g /\ value_of c = value_of (default empty_component (aget a g)) + amount x.
Hypothesis Hrow : forall a c d, row a c = Ok d -> dget d "miner_address" = VStr a /\ dget d k = VInt (value_of c).

Lemma grouped_rows_conserve l grouped rows :
  foldR step l [] = Ok grouped -> rows_by_address row grouped = Ok rows ->
  sum_Z (map (row_int k) rows) = sum_Z (map amount (List.filter (has_key key) l)) /\
  NoDup (map (fun r => dget r "miner_address") rows) /\
  forall r, In r rows -> exists a, dget r "miner_address" = VStr a /\
    (exists x, In x l /\ key x = Some a) /\ row_int k r = group_sum key amount a l.
Proof.
  intros Hg Hr. assert (Hnil : NoDup (akeys (@nil (string * component)))) by constructor.
  destruct (group_fold _ _ _ _ _ Hskip Hadd _ _ _ Hg Hnil) as (Hnd & Hkeys & Hvals).
  destruct (rows_fields row value_of k Hrow _ _ Hnd Hr) as (H1 & H2 & H3).
  assert (Hperm : Permutation (sort_strings (akeys grouped)) (akeys grouped)) by apply sort_by_perm.
  assert (Hv : forall a, value_of (default empty_component (aget a grouped)) = group_sum key amount a l)
    by (intros a; rewrite Hvals; simpl; rewrite Hempty; lia).
  split; [|split].
  - rewrite H2. rewrite (map_ext _ _ Hv), (sum_Z_perm _ _ (Permutation_map _ Hperm)).
    apply group_sums; [done|]. intros x a Hx Ha. apply Hkeys. right. by exists x.
  - rewrite H1. apply (NoDup_fmap_2 VStr). by rewrite Hperm.
  - intros r Hin. destruct (H3 r Hin) as (a & Ha & Hk & Hval). exists a. split; [done|]. rewrite Hval, Hv. split; [|done].
    apply Hkeys in Hk as [[]|Hk]. done.
Qed.
End Conservation.

Lemma keyed_submissions a l :
  List.filter (keyed submission_miner a) l = of_miner a (counted l) \/ a = "".
Proof.
  destruct (String.eqb_spec a "") as [->|Ha]; [by right|left]. unfold of_miner, counted.
  induction l as [|x l IH]; [done|]. cbn [List.filter]. unfold keyed, submission_miner, miner_key at 1.
  fold (keyed submission_miner a). destruct (counts_for_components x); cbn [List.filter]; [|apply IH].
  rewrite <- IH. destruct (dget x "miner_address") as [| | | |b| | |]; try done. cbn [py_eq_str].
  destruct (String.eqb_spec b "") as [->|Hb].
  - rewrite (proj2 (String.eqb_neq "" a)) by congruence. done.
  - rewrite (String.eqb_sym b a). done.
Qed.

Lemma miner_key_named row a : miner_key row = Some a -> a <> "".
Proof. unfold miner_key. destruct (dget row "miner_address") as [| | | |b| | |]; try done. destruct (String.eqb_spec b ""); naive_solver. Qed.

Lemma submission_miner_key x a : submission_miner x = Some a -> counts_for_components x = true /\ a <> "".
Proof.
  unfold submission_miner. destruct (counts_for_components x); [|done]. intros H. split; [done|]. by eapply miner_key_named.
Qed.

Lemma counted_keys l : forall g g', foldR add_submission l g = Ok g' ->
  List.filter (has_key submission_miner) l = counted l.
Proof.
  unfold counted. induction l as [|x l IH]; intros g g' H; [done|]. cbn [foldR] in H.
  apply rbind_ok in H as (g1 & Hx & H). cbn [List.filter]. rewrite (IH _ _ H). clear H IH.
  unfold has_key, submission_miner. unfold add_submission in Hx.
  destruct (counts_for_components x) eqn:E; [|done]. cbn [negb] in Hx.
  apply rbind_ok in Hx as (snap & _ & Hx). apply rbind_ok in Hx as (a & Ha & _).
  apply andb_true_iff in E as [Et _]. by rewrite (row_key_truthy _ _ Et Ha).
Qed.

Section BuildTotals.
Context (value_of : component -> Z) (get : component_snapshot -> Z) (k : string).
Hypothesis Hempty : value_of empty_component = 0.
Hypothesis Hstep : forall cur snap c, add_snapshot cur snap = Ok c -> value_of c = value_of cur + get snap.
Hypothesis Hfield : forall a c d, component_row a c = Ok d -> dget d k = VInt (value_of c).

Lemma build_totals submissions rows :
  build_forecast_reward_component_rows submissions = Ok rows ->
  sum_Z (map (row_int k) rows) = sum_Z (map (added get) (counted submissions)) /\
  NoDup (map (fun r => dget r "miner_address") rows) /\
  forall r, In r rows -> exists a, dget r "miner_address" = VStr a /\ a <> "" /\
    row_int k r = sum_Z (map (added get) (of_miner a (counted submissions))).
Proof.
  intros H. apply rbind_ok in H as (grouped & Hg & Hr). rewrite <- (counted_keys _ _ _ Hg).
  destruct (grouped_rows_conserve submission_miner (added get) value_of add_submission component_row k) with (l := submissions)
    (grouped := grouped) (rows := rows) as (H1 & H2 & H3); try done.
  - intros g x g'. apply add_submission_skip.
  - intros g x g' a Ha Hx. destruct (add_submission_adds _ _ _ _ Ha Hx) as (c & snap & -> & Hs & Hc).
    exists c. split; [done|]. unfold added. rewrite Hs. by apply Hstep.
  - intros a c d Hd. split; [by apply (component_row_fields a c)|by eapply Hfield].
  - split; [done|]. split; [done|]. intros r Hin. destruct (H3 r Hin) as (a & Ha & (x & _ & Hx) & Hv).
    destruct (submission_miner_key _ _ Hx) as [_ Hne]. exists a. split; [done|]. split; [done|].
    rewrite Hv. unfold group_sum. destruct (keyed_submissions a submissions) as [->|]; [|done].
    by rewrite (counted_keys _ _ _ Hg).
Qed.
End BuildTotals.

Lemma added_rewards l g g' : foldR add_submission l g = Ok g' ->
  forall a, map (added snap_final_mining_score) (of_miner a (counted l)) = map reward_of (of_miner a (counted l)) /\
            map (added snap_final_mining_score) (counted l) = map reward_of (counted l).
Proof.
  intros H a.
  assert (Hin : forall x, In x (counted l) -> added snap_final_mining_score x = reward_of x).
  { unfold counted. revert g g' H. induction l as [|x l IH]; intros g g' H y Hy; [done|]. cbn [foldR] in H.
    apply rbind_ok in H as (g1 & Hx & H). cbn [List.filter] in Hy. unfold add_submission in Hx.
    destruct (counts_for_components x) eqn:E; [|by eapply IH]. cbn [negb] in Hx.
    apply rbind_ok in Hx as (snap & Hs & _). destruct Hy as [<-|Hy]; [|by eapply IH].
    unfold added. rewrite Hs. by apply snapshot_reward. }
  split; apply map_ext_in; intros x Hx; apply Hin; [|done]. by apply filter_In in Hx as [? _].
Qed.

Lemma build_rewards submissions rows :
  build_forecast_reward_component_rows submissions = Ok rows ->
  sum_Z (map (row_int "gross_reward_amount") rows) = sum_Z (map reward_of (counted submissions)) /\
  NoDup (map (fun r => dget r "miner_address") rows) /\
  forall r, In r rows -> exists a, dget r "miner_address" = VStr a /\ a <> "" /\
    row_int "gross_reward_amount" r = sum_Z (map reward_of (of_miner a (counted submissions))).
Proof.
  intros H. destruct (build_totals gross_reward_amount snap_final_mining_score "gross_reward_amount") with
    (submissions := submissions) (rows := rows) as (H1 & H2 & H3); try done.
  - intros cur snap c Hc. by apply add_snapshot_totals in Hc as (? & _).
  - intros a c d Hd. by apply component_row_fields in Hd as (_ & ? & _).
  - apply rbind_ok in H as (g & Hg & _). split; [|split; [done|]].
    + rewrite H1. by destruct (added_rewards _ _ _ Hg "") as [_ ->].
    + intros r Hr. destruct (H3 r Hr) as (a & Ha & Hne & Hv). exists a. split; [done|]. split; [done|].
      rewrite Hv. by destruct (added_rewards _ _ _ Hg a) as [-> _].
Qed.

(** the component rows of a window conserve its rewards: the gross amounts of
    the rows sum to the [reward_amount]s of the revealed submissions, each miner
    has one row, and that row sums the miner's own submissions. *)
Theorem component_rows_conserve submissions rows :
  build_forecast_reward_component_rows submissions = Ok rows ->
  sum_Z (map (row_int "gross_reward_amount") rows) = sum_Z (map reward_of (counted submissions)) /\
  NoDup (map (fun r => dget r "miner_address") rows) /\
  forall r, In r rows -> exists a, dget r "miner_address" = VStr a /\ a <> "" /\
    row_int "gross_reward_amount" r = sum_Z (map reward_of (of_miner a (counted submissions))).
Proof. apply build_rewards. Qed.

(** ** Merged rows *)

(** What a row adds to the merged gross amount. *)
Definition gross_of (row : dict) : Z :=
  value_or_zero (int_or_zero (dget_or row "gross_reward_amount" (dget_or row "final_mining_score" (VInt 0)))).

Definition named (rows : list dict) : list dict := List.filter (fun row => truthy (dget row "miner_address")) rows.

Lemma merge_row_skip g x g' : miner_key x = None -> merge_row g x = Ok g' -> g' = g.
Proof.
  unfold merge_row. destruct (truthy (dget x "miner_address")) eqn:E; cbn [negb]; [|by intros _ [= <-]].
  intros Hk H. apply rbind_ok in H as (w & _ & H). apply rbind_ok in H as (a & Ha & _).
  by rewrite (row_key_truthy _ _ E Ha) in Hk.
Qed.

Lemma merge_row_adds g x g' a : miner_key x = Some a -> merge_row g x = Ok g' ->
  exists c, g' = aset a c g /\ gross_reward_amount c = gross_reward_amount (default empty_component (aget a g)) + gross_of x.
Proof.
  unfold merge_row. intros Hk H. destruct (truthy (dget x "miner_address")) eqn:E; cbn [negb] in H.
  - apply rbind_ok in H as (w & _ & H). apply rbind_ok in H as (b & Hb & H). apply rbind_ok in H as (c & Hc & [= <-]).
    rewrite (row_key_truthy _ _ E Hb) in Hk. injection Hk as ->. exists c. split; [done|]. unfold add_row in Hc.
    do 7 (apply rbind_ok in Hc as (? & _ & Hc)). apply rbind_ok in Hc as (gross & Hgross & Hc).
    do 4 (apply rbind_ok in Hc as (? & _ & Hc)). injection Hc as <-. unfold gross_of. by rewrite Hgross.
  - unfold miner_key in Hk. destruct (dget x "miner_address") as [| | | |b| | |]; try done. cbn [truthy] in E.
    by destruct (String.eqb b "").
Qed.

Lemma named_keys l : forall g g', foldR merge_row l g = Ok g' -> List.filter (has_key miner_key) l = named l.
Proof.
  unfold named. induction l as [|x l IH]; intros g g' H; [done|]. cbn [foldR] in H.
  apply rbind_ok in H as (g1 & Hx & H). cbn [List.filter]. rewrite (IH _ _ H). unfold has_key. unfold merge_row in Hx.
  destruct (truthy (dget x "miner_address")) eqn:E; cbn [negb] in Hx.
  - apply rbind_ok in Hx as (w & _ & Hx). apply rbind_ok in Hx as (a & Ha & _). by rewrite (row_key_truthy _ _ E Ha).
  - unfold miner_key. destruct (dget x "miner_address") as [| | | |b| | |]; try done. cbn [truthy] in E.
    by destruct (String.eqb b "").
Qed.

Lemma merge_gross rows merged :
  merge_reward_component_rows rows = Ok merged ->
  sum_Z (map (row_int "gross_reward_amount") merged) = sum_Z (map gross_of (named rows)) /\
  NoDup (map (fun r => dget r "miner_address") merged).
Proof.
  intros H. apply rbind_ok in H as (grouped & Hg & Hr). rewrite <- (named_keys _ _ _ Hg).
  destruct (grouped_rows_conserve miner_key gross_of gross_reward_amount merge_row merged_row "gross_reward_amount") with
    (l := rows) (grouped := grouped) (rows := merged) as (H1 & H2 & _); try done.
  - intros g x g'. apply merge_row_skip.
  - intros g x g' a. apply merge_row_adds.
  - apply merged_row_fields.
Qed.

Lemma gross_of_row row n : dget row "gross_reward_amount" = VInt n -> gross_of row = n.
Proof.
  unfold dget, dget_or, gross_of. intros H. unfold dget_or at 1. destruct (aget "gross_reward_amount" row); [|done].
  rewrite H. unfold int_or_zero, por. cbn [truthy]. by destruct (Z.eqb_spec n 0) as [->|].
Qed.

Lemma named_gross (f : dict -> Z) rows :
  (forall r, In r rows -> truthy (dget r "miner_address") = true /\ gross_of r = f r) ->
  map gross_of (named rows) = map f rows.
Proof.
  unfold named. induction rows as [|r rows IH]; intros Hall; [done|]. cbn [List.filter].
  destruct (Hall r (or_introl eq_refl)) as [-> Hr]. cbn [map]. rewrite Hr, IH; [done|]. intros ? ?. apply Hall. by right.
Qed.

Lemma built_rows_gross submissions rows : build_forecast_reward_component_rows submissions = Ok rows ->
  sum_Z (map gross_of (named rows)) = sum_Z (map (row_int "gross_reward_amount") rows).
Proof.
  intros H. assert (Hall : forall r, In r rows -> truthy (dget r "miner_address") = true /\
    gross_of r = row_int "gross_reward_amount" r).
  { apply rbind_ok in H as (g & Hg & Hr). unfold rows_by_address in Hr. apply mapR_ok in Hr.
    destruct (build_rewards submissions rows) as (_ & _ & H3); [unfold build_forecast_reward_component_rows; rewrite Hg; by apply mapR_ok|].
    intros r Hin. destruct (H3 r Hin) as (a & Ha & Hne & _). split; [rewrite Ha; cbn [truthy]; by destruct (String.eqb_spec a "")|].
    clear H3. induction Hr as [|b r' ks rows' Hb _ IH]; [done|]. destruct Hin as [<-|Hin]; [|by apply IH].
    apply component_row_fields in Hb as (_ & Hb & _). unfold row_int. rewrite Hb. by apply gross_of_row. }
  f_equal. by apply named_gross.
Qed.

(** C31: an anchored batch pays what its windows earned: the merged rows of any
    number of windows name each miner once, and their gross amounts sum to the
    rewards of all the revealed submissions of the windows. *)
Theorem merged_rows_conserve windows window_rows merged :
  mapR build_forecast_reward_component_rows windows = Ok window_rows ->
  merge_reward_component_rows (concat window_rows) = Ok merged ->
  sum_Z (map (row_int "gross_reward_amount") merged) = sum_Z (map reward_of (counted (concat windows))) /\
  NoDup (map (fun r => dget r "miner_address") merged).
Proof.
  intros Hw Hm. destruct (merge_gross _ _ Hm) as [-> Hnd]. split; [|done]. clear Hm Hnd.
  revert window_rows Hw. induction windows as [|w windows IH]; intros window_rows Hw; cbn [mapR] in Hw.
  - by injection Hw as <-.
  - apply rbind_ok in Hw as (rows & Hrows & Hw). apply rbind_ok in Hw as (rest & Hrest & [= <-]).
    cbn [concat]. unfold named, counted in *. rewrite !List.filter_app, !map_app, !sum_Z_app, (IH _ Hrest).
    f_equal. fold (named rows). rewrite (built_rows_gross _ _ Hrows). by destruct (build_rewards _ _ Hrows).
Qed.

Definition demo_window (a b : string) (x y : Z) : list dict :=
  [[("miner_address", VStr a); ("p_yes_bps", VInt 6000); ("reward_amount", VInt x)];
   [("miner_address", VStr b); ("p_yes_bps", VInt 4000); ("reward_amount", VInt y)];
   [("miner_address", VStr a); ("p_yes_bps", VNone); ("reward_amount", VInt 5)]].
Definition built (submissions : list dict) : list dict :=
  match build_forecast_reward_component_rows submissions with Ok rows => rows | Err _ => [] end.

Lemma component_rows_conserve_witness :
  sum_Z (map (row_int "gross_reward_amount") (built (demo_window "m1" "m2" 10 20))) = 30 /\
  NoDup (map (fun r => dget r "miner_address") (built (demo_window "m1" "m2" 10 20))).
Proof.
  destruct (component_rows_conserve (demo_window "m1" "m2" 10 20) (built (demo_window "m1" "m2" 10 20))) as (H & Hnd & _);
    [reflexivity|]. split; [exact H|exact Hnd].
Defined.

Definition demo_merged : list dict :=
  match merge_reward_component_rows (built (demo_window "m1" "m2" 10 20) ++ built (demo_window "m3" "m1" 1 2)) with
  | Ok rows => rows | Err _ => [] end.

Lemma merged_rows_conserve_witness : sum_Z (map (row_int "gross_reward_amount") demo_merged) = 33.
Proof.
  destruct (merged_rows_conserve [demo_window "m1" "m2" 10 20; demo_window "m3" "m1" 1 2]
    [built (demo_window "m1" "m2" 10 20); built (demo_window "m3" "m1" 1 2)] demo_merged) as [H _];
    [reflexivity|reflexivity|exact H].
Defined.

(** ** Dividing a pool *)

(** The floor that the code computes for each item. *)
Definition base_shares (weighted_items : list (string * float)) (total_amount : Z) : res (list Z) :=
  let '(items, total_weight) := pool_weights weighted_items in
  mapR (fun item => let? share := share_of total_weight total_amount item.2 in Ok share.2) items.

Definition amounts (m : list (string * Z)) (ks : list string) : list Z := map (fun k => default 0 (aget k m)) ks.

Lemma avals_amounts (m : list (string * Z)) : NoDup (akeys m) -> avals m = amounts m (akeys m).
Proof.
  intros Hnd. unfold amounts, avals, akeys. rewrite <- list_fmap_compose.
  apply map_ext_in. intros [k v] Hin. cbn. by rewrite (aget_NoDup _ _ _ Hnd Hin).
Qed.

Lemma aset_present {V} (k : string) (v : V) m : In k (akeys m) -> akeys (aset k v m) = akeys m.
Proof.
  intros H. rewrite akeys_aset. unfold ahas. destruct (aget k m) eqn:E; [done|]. by apply aget_None in E.
Qed.

Lemma shares_spec W T items : forall allocs assigned rems allocs' assigned' rems',
  foldR (add_share W T) items (allocs, assigned, rems) = Ok (allocs', assigned', rems') ->
  NoDup (map fst items) -> (forall k, In k (map fst items) -> In k (akeys allocs)) ->
  exists floors, mapR (fun item => let? share := share_of W T item.2 in Ok share.2) items = Ok floors /\
    assigned' = assigned + sum_Z floors /\ map snd rems' = map snd rems ++ map fst items /\
    akeys allocs' = akeys allocs /\ amounts allocs' (map fst items) = floors /\
    forall k, ~ In k (map fst items) -> aget k allocs' = aget k allocs.
Proof.
  induction items as [|[k w] items IH]; intros allocs assigned rems allocs' assigned' rems' H Hnd Hin; cbn [foldR] in H.
  - injection H as <- <- <-. exists []. rewrite app_nil_r, Z.add_0_r. done.
  - apply rbind_ok in H as ([[a1 n1] r1] & H1 & H). unfold add_share in H1. cbn [fst snd] in H1.
    apply rbind_ok in H1 as ([e b] & Hs & H1). apply rbind_ok in H1 as (fb & _ & H1). injection H1 as <- <- <-.
    cbn [map fst] in Hnd, Hin. apply NoDup_cons in Hnd as [Hk Hnd]. rewrite list_elem_of_In in Hk.
    assert (Hpres : akeys (aset k b allocs) = akeys allocs) by (apply aset_present, Hin; by left).
    destruct (IH _ _ _ _ _ _ H Hnd) as (floors & Hf & Ha & Hr & Hkeys & Hamt & Hout).
    { intros j Hj. rewrite Hpres. apply Hin. by right. }
    exists (b :: floors). cbn [mapR snd]. rewrite Hs. cbn [rbind snd]. rewrite Hf. split; [done|].
    split; [rewrite Ha; change (sum_Z (b :: floors)) with (b + sum_Z floors); lia|]. split; [by rewrite Hr, map_app, <- app_assoc|]. split; [by rewrite Hkeys|].
    split.
    + cbn [map fst amounts]. unfold amounts in Hamt. rewrite Hamt, (Hout k Hk), aget_aset_eq. done.
    + intros j Hj. cbn [map fst In] in Hj. rewrite Hout by tauto. apply aget_aset_ne. intros ->. tauto.
Qed.

(** The lucky items, which are distinct, get one more. *)
Lemma add_ones_spec ids : forall m, NoDup ids -> (forall k, In k ids -> In k (akeys m)) ->
  akeys (fold_left add_one ids m) = akeys m /\
  forall k, default 0 (aget k (fold_left add_one ids m)) = default 0 (aget k m) + (if existsb (String.eqb k) ids then 1 else 0).
Proof.
  induction ids as [|i ids IH]; intros m Hnd Hin; cbn [fold_left existsb].
  - split; [done|]. intros k. lia.
  - apply NoDup_cons in Hnd as [Hi Hnd]. rewrite list_elem_of_In in Hi.
    assert (Hpres : akeys (add_one m i) = akeys m) by (apply aset_present, Hin; by left).
    destruct (IH (add_one m i) Hnd) as [Hk Hv]; [intros k Hk; rewrite Hpres; apply Hin; by right|].
    split; [by rewrite Hk|]. intros k. rewrite Hv. unfold add_one at 1. rewrite aget_aset. cbn [keqb string_key].
    destruct (String.eqb_spec k i) as [->|]; cbn [orb default]; [|done].
    destruct (existsb (String.eqb i) ids) eqn:E; [|cbn; lia]. apply existsb_exists in E as (j & Hj & Hji).
    apply String.eqb_eq in Hji as <-. done.
Qed.

Lemma sum_lucky ks lucky f : NoDup ks -> NoDup lucky -> (forall k, In k lucky -> In k ks) ->
  sum_Z (map (fun k => f k + (if existsb (String.eqb k) lucky then 1 else 0)) ks) =
  sum_Z (map f ks) + Z.of_nat (length lucky).
Proof.
  intros Hks Hl Hin. rewrite sum_Z_plus. f_equal. revert Hl Hin. induction lucky as [|i lucky IH]; intros Hl Hin.
  - apply sum_Z_zero.
  - apply NoDup_cons in Hl as [Hi Hl]. rewrite list_elem_of_In in Hi.
    transitivity (sum_Z (map (fun k => (if String.eqb k i then 1 else 0) + (if existsb (String.eqb k) lucky then 1 else 0)) ks)).
    + f_equal. apply map_ext. intros k. cbn [existsb]. destruct (String.eqb_spec k i) as [->|]; [|done].
      destruct (existsb (String.eqb i) lucky) eqn:E; [|done]. apply existsb_exists in E as (j & Hj & Hji).
      apply String.eqb_eq in Hji as <-. done.
    + rewrite sum_Z_plus, IH, (sum_Z_pick 1 i ks Hks) by (try done; try (intros ? ?; apply Hin; by right); apply Hin; by left).
      cbn [length]. lia.
Qed.

Lemma initial_allocations (items : list (string * float)) : forall acc : list (string * Z),
  (forall k, default 0 (aget k acc) = 0) ->
  let m := fold_left (fun acc item => aset item.1 0 acc) items acc in
  (forall k, default 0 (aget k m) = 0) /\
  (NoDup (akeys acc ++ map fst items) -> akeys m = akeys acc ++ map fst items).
Proof.
  induction items as [|[i w] items IH]; intros acc Hz; cbn [fold_left map fst].
  - split; [done|]. by rewrite app_nil_r.
  - destruct (IH (aset i 0 acc)) as [H1 H2].
    { intros k. rewrite aget_aset. by destruct (keqb k i). }
    split; [exact H1|]. intros Hnd. assert (Hi : aget i acc = None).
    { apply aget_None. intros Hin. apply NoDup_app in Hnd as (_ & Hd & _). apply (Hd i); [by apply list_elem_of_In|by left]. }
    assert (Hk : akeys (aset i 0 acc) = akeys acc ++ [i]) by (rewrite akeys_aset; unfold ahas; by rewrite Hi).
    rewrite Hk in H2. rewrite <- app_assoc in H2. by apply H2.
Qed.

Lemma pool_weights_ids items : map fst (pool_weights items).1 = map fst items.
Proof. unfold pool_weights, equal_weights. destruct (fleb _ _); cbn [fst]; by rewrite map_map. Qed.

Lemma In_take {A} n (x : A) l : In x (take n l) -> In x l.
Proof. intros H. rewrite <- (take_drop n l), in_app_iff. by left. Qed.

Lemma take_NoDup {A} n (l : list A) : NoDup l -> NoDup (take n l).
Proof. intros H. rewrite <- (take_drop n l) in H. by apply NoDup_app in H as [? _]. Qed.

Lemma allocation_spec items total allocs :
  _allocate_integer_pool_by_weights items total = Ok allocs -> NoDup (map fst items) ->
  akeys allocs = map fst items /\
  (total <= 0 -> Forall (fun x => x = 0) (avals allocs)) /\
  (0 < total -> items <> [] -> exists floors, base_shares items total = Ok floors /\
     Forall2 (fun base x => x = base \/ x = base + 1) floors (avals allocs) /\
     (0 <= total - sum_Z floors <= Z.of_nat (length items) -> sum_Z (avals allocs) = total)).
Proof.
  intros H Hnd. unfold _allocate_integer_pool_by_weights in H.
  destruct (initial_allocations items []) as [Hz Hk]; [done|]. cbn [akeys fmap list_fmap app] in Hk. specialize (Hk Hnd).
  set (m0 := fold_left (fun acc item => aset item.1 0 acc) items []) in *.
  destruct (Z.leb_spec total 0) as [Hle|Hpos]; cbn [orb] in H.
  { injection H as <-. split; [done|]. split; [intros _|lia].
    rewrite avals_amounts by (by rewrite Hk). unfold amounts. rewrite Forall_map. apply Forall_forall. intros k _. apply Hz. }
  destruct items as [|i0 items0] eqn:Ei; [injection H as <-; split; [done|]; split; [lia|done]|]. rewrite <- Ei in *.
  destruct (pool_weights items) as [pos W] eqn:Ep. pose proof (pool_weights_ids items) as Hids. rewrite Ep in Hids. cbn [fst] in Hids.
  apply rbind_ok in H as ([[a1 n1] r1] & Hs & H). injection H as <-.
  destruct (shares_spec _ _ _ _ _ _ _ _ _ Hs) as (floors & Hf & Hn & Hr & Hk1 & Ha & _); [by rewrite Hids|by rewrite Hids, Hk|].
  cbn [map app] in Hr. rewrite Hids in Hr, Ha. rewrite Hk in Hk1. change (0 + sum_Z floors) with (sum_Z floors) in Hn. subst n1.
  set (lucky := map snd (py_take (total - sum_Z floors) (sort_by remainder_before r1))).
  assert (Hp : Permutation (map snd (sort_by remainder_before r1)) (map fst items)).
  { rewrite <- Hr. apply Permutation_map, sort_by_perm. }
  assert (Hlucky : NoDup lucky /\ forall k, In k lucky -> In k (map fst items)).
  { unfold lucky, py_take.
    split; [rewrite (fmap_take snd : forall n l, map snd (take n l) = take n (map snd l)); apply take_NoDup; by rewrite Hp|].
    intros k Hin. apply (Permutation_in _ Hp). apply in_map_iff in Hin as (r & <- & Hin). apply in_map.
    eapply In_take, Hin. }
  destruct Hlucky as [Hl Hlin]. destruct (add_ones_spec lucky a1 Hl) as [Hk2 Hv]; [intros k ?; rewrite Hk1; by apply Hlin|].
  assert (Hkeys : akeys (fold_left add_one lucky a1) = map fst items) by congruence.
  split; [done|]. split; [lia|]. intros _ _. exists floors.
  assert (Hav : avals (fold_left add_one lucky a1) =
    map (fun k => default 0 (aget k a1) + (if existsb (String.eqb k) lucky then 1 else 0)) (map fst items)).
  { rewrite avals_amounts, Hkeys by (by rewrite Hkeys). unfold amounts. apply map_ext. intros k. apply Hv. }
  split; [unfold base_shares; by rewrite Ep|]. rewrite Hav. split.
  - rewrite <- Ha. unfold amounts. clear. induction (map fst items) as [|k ks IH]; cbn [map]; constructor; [|done].
    destruct (existsb (String.eqb k) lucky); lia.
  - intros Hrange. rewrite sum_lucky by done. fold (amounts a1 (map fst items)). rewrite Ha.
    assert (length lucky = Z.to_nat (total - sum_Z floors)) as ->; [|lia].
    unfold lucky, py_take. rewrite length_map, length_take. assert (length (sort_by remainder_before r1) = length items) as ->.
    { apply Permutation_length in Hp. by rewrite !length_map in Hp. }
    destruct (Z.leb_spec 0 (total - sum_Z floors)); lia.
Qed.

(** C32: dividing an integer pool over distinct items keeps the items in order, pays
    nothing for an empty pool, gives each item the floor of its share or one
    more, and pays out exactly the pool whenever the computed floors leave
    between nothing and one unit an item. *)
Theorem allocation_fills_pool items total allocs :
  _allocate_integer_pool_by_weights items total = Ok allocs -> NoDup (map fst items) ->
  akeys allocs = map fst items /\
  (total <= 0 -> Forall (fun x => x = 0) (avals allocs)) /\
  (0 < total -> items <> [] -> exists floors, base_shares items total = Ok floors /\
     Forall2 (fun base x => x = base \/ x = base + 1) floors (avals allocs) /\
     (0 <= total - sum_Z floors <= Z.of_nat (length items) -> sum_Z (avals allocs) = total)).
Proof. apply allocation_spec. Qed.

Definition demo_weights : list (string * float) := [("a", f_of_Z 1); ("b", f_of_Z 1); ("c", f_of_Z 1)].

Lemma allocation_fills_pool_witness :
  _allocate_integer_pool_by_weights demo_weights 100 = Ok [("a", 34); ("b", 33); ("c", 33)] /\
  exists floors, base_shares demo_weights 100 = Ok floors /\ sum_Z (avals [("a", 34); ("b", 33); ("c", 33)]) = 100.
Proof.
  split; [reflexivity|].
  destruct (allocation_fills_pool demo_weights 100 [("a", 34); ("b", 33); ("c", 33)]) as (_ & _ & H);
    [reflexivity|nodup_keys|].
  destruct H as (floors & Hf & _ & Hs); [lia|done|]. exists floors. split; [exact Hf|]. apply Hs.
  assert (floors = [33; 33; 33]) as -> by (unfold base_shares in Hf; vm_compute in Hf; congruence). vm_compute. split; discriminate.
Defined.

(** Above 2^53 the floors can exceed the pool, and a single item gets more than there is. *)
Lemma allocation_overflows :
  _allocate_integer_pool_by_weights [("a", fone)] (2 ^ 53 + 3) = Ok [("a", 2 ^ 53 + 4)].
Proof. vm_compute. reflexivity. Qed.
