(* ===== verification/Miners.v ===== *)
(** * Miners: clusters, reliability, admission ([ForecastMiningService])

    The parts of the service that read and update miner rows: the cluster of a
    miner and its risk cases, the reliability of its operation, and the state
    of its admission, which decides how much of a reward is held back. *)
From Stdlib Require Import ZArith Lia String SpecFloat.
From stdpp Require Import base list strings.
From S2P Require Import Prelude PyText PyFloat PyTime PyValue Sha256 Repository Forecast Economic.
Open Scope Z_scope.

(** ** Risk cases *)

Definition open_case (case_id case_type severity : string)
  (economic_unit_id miner_address task_run_id submission_id : value) (evidence : dict) (now : Z) : dict :=
  [("id", VStr case_id);
   ("case_type", VStr case_type);
   ("severity", VStr severity);
   ("state", VStr "open");
   ("economic_unit_id", economic_unit_id);
   ("miner_address", miner_address);
   ("task_run_id", task_run_id);
   ("submission_id", submission_id);
   ("evidence_json", VDict evidence);
   ("created_at", VStr (iso_format now));
   ("updated_at", VStr (iso_format now))].

(** A case that was decided is not opened again. *)
Definition case_is_decided (existing : option dict) : bool :=
  match existing with Some c => negb (field_is "state" "open" c) | None => false end.

(** [clusters.setdefault(economic_unit_id, []).append(miner)] *)
Definition cluster_step (clusters : list (string * list dict)) (miner : dict) : res (list (string * list dict)) :=
  let unit := dget miner "economic_unit_id" in
  if truthy unit then let? u := as_key unit in Ok (aappend u miner clusters) else Ok clusters.

Definition sync_cluster_case (now : Z) (cluster : string * list dict) : repo unit :=
  let '(economic_unit_id, members) := cluster in
  if (length members <=? 1)%nat then sret tt
  else
    let case_id := "risk:cluster:" +:+ economic_unit_id in
    let* existing_case := get_risk_case case_id in
    if case_is_decided existing_case then sret tt
    else
      let*? addresses := mapR miner_address members in
      let member_addresses := sort_strings addresses in
      let some_field k := existsb (fun m => truthy (dget m k)) members in
      let evidence_types := (if some_field "ip_address" then [VStr "ip_address"] else []) ++
                            (if some_field "user_agent_hash" then [VStr "user_agent_hash"] else []) in
      do* save_risk_case (open_case case_id "economic_unit_cluster" "medium" (VStr economic_unit_id)
            (VStr (hd "" member_addresses)) VNone VNone
            [("member_addresses", VList (map VStr member_addresses));
             ("member_count", VInt (Z.of_nat (length member_addresses)));
             ("evidence_types", VList evidence_types)] now) in
      sret tt.

Definition _sync_cluster_risk_cases (miners : list dict) (now : Z) : repo unit :=
  let*? clusters := foldR cluster_step miners [] in
  forS (sync_cluster_case now) clusters.

Definition _open_duplicate_reveal_case (task_run_id : string) (submission_id economic_unit_id : value)
  (miner_addresses : list string) (now : Z) (miner_address : string) : repo unit :=
  let*? unit := py_str economic_unit_id in
  let case_id := "risk:duplicate:" +:+ task_run_id +:+ ":" +:+ unit in
  let* existing_case := get_risk_case case_id in
  if case_is_decided existing_case then sret tt
  else
    do* save_risk_case (open_case case_id "economic_unit_duplicate" "high" economic_unit_id
          (VStr miner_address) (VStr task_run_id) submission_id
          [("miner_addresses", VList (map VStr (sort_strings miner_addresses)));
           ("duplicate_count", VInt (Z.of_nat (length miner_addresses)));
           ("reason", VStr "same economic unit submitted multiple reveals for one task")] now) in
    sret tt.

Record anti_abuse_state := {
  anti_abuse_discount : float;
  risk_review_state : string;
  open_risk_case_count : Z;
  open_risk_case_types : list string
}.

Definition _anti_abuse_state (economic_unit_id : value) (eligibility_status : string) : repo anti_abuse_state :=
  let*? unit := if truthy economic_unit_id then (let? u := as_key economic_unit_id in Ok (Some u)) else Ok None in
  let* open_cases := match unit with
                     | Some u => list_risk_cases (Some "open") None (Some u)
                     | None => sret [] end in
  let*? discount := _anti_abuse_discount_for_cases (VStr eligibility_status) open_cases in
  let*? types := mapR (fun case => py_str (por (dget case "case_type") (VStr "unknown"))) open_cases in
  sret {| anti_abuse_discount := discount;
          risk_review_state := match open_cases with [] => "clear" | _ => "review_required" end;
          open_risk_case_count := Z.of_nat (length open_cases);
          open_risk_case_types := sort_strings (dedup_keys types) |}.

(** ** The cluster of a miner *)

Definition vopt_string (v : value) : res (option string) :=
  match v with VNone => Ok None | VStr s => Ok (Some s) | _ => Err (Unmodelled "text field") end.

Definition with_signals (updated_ip updated_signal_hash : value) (miner : dict) : dict :=
  dupdate miner [("ip_address", updated_ip); ("user_agent_hash", updated_signal_hash)].

(** The updates of one miner, [updates] without the time. *)
Definition cluster_updates (is_self : bool) (current : dict) (updated_ip updated_signal_hash : value)
  (desired_eu : value) (miner : dict) : dict :=
  (if is_self && negb (py_eq updated_ip (dget current "ip_address"))
   then [("ip_address", updated_ip)] else []) ++
  (if is_self && negb (py_eq updated_signal_hash (dget current "user_agent_hash"))
   then [("user_agent_hash", updated_signal_hash)] else []) ++
  (if negb (py_eq desired_eu (dget miner "economic_unit_id"))
   then [("economic_unit_id", desired_eu)] else []).

Definition unit_of (component_map : list (string * string)) (address : string) (miner : dict) : value :=
  match aget address component_map with
  | Some u => VStr u
  | None => dget miner "economic_unit_id"
  end.

Definition update_cluster_member (self : string) (current : dict) (updated_ip updated_signal_hash : value)
  (component_map : list (string * string)) (now : Z) (miner : dict) : repo unit :=
  let*? address := miner_address miner in
  let desired_eu := unit_of component_map address miner in
  let updates := cluster_updates (String.eqb address self) current updated_ip updated_signal_hash desired_eu miner in
  match updates with
  | [] => sret tt
  | _ =>
      do* update_miner_cluster_identity address (VTime now) (dget updates "economic_unit_id")
            (dget updates "ip_address") (dget updates "user_agent_hash") in
      sret tt
  end.

Definition _refresh_miner_cluster (self : string) (ip_address user_agent : option string) (now : Z) : repo dict :=
  let* current := get_miner self in
  match current with
  | None => sraise (ValueError "miner not registered")
  | Some current =>
      let updated_signal_hash := por (vopt_str (hash_user_agent user_agent)) (dget current "user_agent_hash") in
      let*? signal := match ip_address with
                      | Some ip => Ok (Some ip)
                      | None => vopt_string (dget current "ip_address") end in
      let*? normalized := normalize_ip_signal signal in
      let updated_ip := vopt_str normalized in
      if py_eq updated_ip (dget current "ip_address") &&
         py_eq updated_signal_hash (dget current "user_agent_hash") &&
         truthy (dget current "economic_unit_id")
      then sret current
      else
        let* miners := list_miners in
        let*? candidate_miners := mapR (fun miner =>
          let? address := miner_address miner in
          Ok (if String.eqb address self then with_signals updated_ip updated_signal_hash miner else miner))
          miners in
        let*? component_map := compute_economic_unit_components candidate_miners in
        do* forS (update_cluster_member self current updated_ip updated_signal_hash component_map now)
              candidate_miners in
        let*? synced := mapR (fun miner =>
          let? address := miner_address miner in
          let miner := dset miner "economic_unit_id" (unit_of component_map address miner) in
          Ok (if String.eqb address self then with_signals updated_ip updated_signal_hash miner
              else dupdate miner [("ip_address", dget miner "ip_address");
                                  ("user_agent_hash", dget miner "user_agent_hash")])) candidate_miners in
        do* _sync_cluster_risk_cases synced now in
        let* refreshed := get_miner self in
        sret (default current refreshed)
  end.

(** ** Admission *)

Definition seconds_between (now before : Z) : res float := int_truediv (now - before) usec.

Definition _admission_state (settings : ForecastSettings) (miner : dict) (now : Z) : res string :=
  let? created := dgetitem miner "created_at" in
  let? created_at := as_utc_datetime created in
  let? seconds := seconds_between now created_at in
  let? hours := fdiv seconds (f_of_Z 3600) in
  let age_hours := fmax fzero hours in
  let? old_enough := py_le (VInt (admission_mature_age_hours settings)) (VFloat age_hours) in
  if old_enough then Ok "mature"
  else
    let? proven := py_le (VInt (admission_mature_fast_reveals settings)) (dget_or miner "forecast_reveals" (VInt 0)) in
    Ok (if proven then "mature" else "probation").

(** The part of a reward that is released at once. *)
Definition release_amount (reward_amount : Z) (release_ratio : float) : res Z :=
  let? x := float_of_int reward_amount in
  round_int (fmul x release_ratio).

Definition _split_reward_by_admission (settings : ForecastSettings) (miner : dict) (reward_amount now : Z)
  : res (Z * Z * string) :=
  let? state := _admission_state settings miner now in
  let? release_ratio := if String.eqb state "mature" then Ok fone
                        else int_truediv (admission_release_bps settings) 10000 in
  let? released_reward := release_amount reward_amount release_ratio in
  Ok (released_reward, reward_amount - released_reward, state).

Definition _admission_release_ratio (settings : ForecastSettings) (miner : dict) (now : Z) : res float :=
  let? state := _admission_state settings miner now in
  if String.eqb state "mature" then Ok fone else int_truediv (admission_release_bps settings) 10000.

Definition _daily_anchor_multiplier (settings : ForecastSettings) (p_yes_bps outcome : Z) : res float :=
  let max_distance := Z.max 1 (max_p_yes_bps settings - 5000) in
  let? distance := int_truediv (Z.abs (p_yes_bps - 5000)) max_distance in
  let confidence := clamp distance fzero fone in
  let correct := Bool.eqb (5000 <=? p_yes_bps) (negb (outcome =? 0)) in
  let signed := if correct then confidence else fneg confidence in
  Ok (round_digits 6 (clamp (fadd fone (fmul signed (flit 15 3))) (flit 985 3) (flit 1015 3))).

(** ** Reliability *)

Definition _roll_fast_window (miner : dict) (now : Z) : res (string * value * value) :=
  let? window_start := as_utc_datetime (por (dget miner "fast_window_start_at") (dget miner "created_at")) in
  if day <=? now - window_start then Ok (iso_format now, VInt 0, VInt 0)
  else Ok (iso_format window_start, dget_or miner "fast_task_opportunities" (VInt 0),
           dget_or miner "fast_task_misses" (VInt 0)).

Definition reveal_discipline (commit_count reveal_count : value) : res float :=
  let? committed := py_lt (VInt 0) commit_count in
  if committed then
    let? r := py_truediv reveal_count commit_count in
    Ok (clamp (fadd (flit 95 2) (fmul r (flit 5 2))) (flit 95 2) (flit 105 2))
  else Ok fone.

Definition participation_factor (free_skip_ratio : float) (opportunities misses : value) : res float :=
  let? none := py_le opportunities (VInt 0) in
  if none then Ok fone
  else
    let? miss_ratio := py_truediv misses opportunities in
    if fleb miss_ratio free_skip_ratio then Ok (flit 105 2)
    else
      let? overage := fdiv (fsub miss_ratio free_skip_ratio) (fmax (flit 1 9) (fsub fone free_skip_ratio)) in
      Ok (clamp (fsub (flit 105 2) (fmul overage (flit 20 2))) (flit 95 2) (flit 105 2)).

Definition _compute_ops_reliability (settings : ForecastSettings) (miner : dict) : res float :=
  let? discipline := reveal_discipline (dget_or miner "forecast_commits" (VInt 0))
                                       (dget_or miner "forecast_reveals" (VInt 0)) in
  let? participation := participation_factor (free_skip_ratio settings)
                          (dget_or miner "fast_task_opportunities" (VInt 0))
                          (dget_or miner "fast_task_misses" (VInt 0)) in
  Ok (round_digits 6 (fmin discipline participation)).

(** [parse_time(row[k])] *)
Definition parse_time_field (row : dict) (k : string) : res Z :=
  let? v := dgetitem row k in
  match v with VStr s => parse_iso s | _ => Err AttributeError end.

Definition is_revealed (submission : dict) : bool := negb (is_none (dget submission "p_yes_bps")).

(** Whether the miner revealed in another fast task of the same bucket. *)
Fixpoint participated (tasks_by_id : rows) (publish_at : Z) (submissions : list dict) : res bool :=
  match submissions with
  | [] => Ok false
  | s :: submissions =>
      if negb (is_revealed s) then participated tasks_by_id publish_at submissions
      else
        let? tid := dgetitem s "task_run_id" in
        let? tid := as_key tid in
        match non_empty (aget tid tasks_by_id) with
        | None => participated tasks_by_id publish_at submissions
        | Some task =>
            let? t := parse_time_field task "publish_at" in
            if t =? publish_at then Ok true else participated tasks_by_id publish_at submissions
        end
  end.

Definition apply_participation (settings : ForecastSettings) (publish_at : Z) (revealed_addresses : list string)
  (tasks_by_id : rows) (now : Z) (miner : dict) : repo unit :=
  if negb (field_is "status" "active" miner) then sret tt
  else
    let*? created := dgetitem miner "created_at" in
    let*? created_at := as_utc_datetime created in
    let*? address := miner_address miner in
    let* participated_in_bucket :=
      (if publish_at <? created_at then
         let* submissions := list_submissions_for_miner address None in
         slift (participated tasks_by_id publish_at submissions)
       else sret false) in
    if (publish_at <? created_at) && negb participated_in_bucket then sret tt
    else
      let*? window := _roll_fast_window miner publish_at in
      let '(window_start, opportunities, misses) := window in
      let*? opportunities := py_add opportunities (VInt 1) in
      let*? misses := if mem_key address revealed_addresses then Ok misses else py_add misses (VInt 1) in
      let*? ops := _compute_ops_reliability settings
        (dupdate miner [("fast_task_opportunities", opportunities); ("fast_task_misses", misses);
                        ("fast_window_start_at", VStr window_start)]) in
      do* update_miner_forecast_participation address (VTime now) VNone VNone (VFloat ops)
            opportunities misses (VStr window_start) in
      sret tt.

Definition _apply_fast_task_participation (settings : ForecastSettings) (task : dict)
  (submissions : list dict) (now : Z) : repo unit :=
  let*? publish_at := parse_time_field task "publish_at" in
  let*? revealed_addresses := mapR (fun s => let? v := dgetitem s "miner_address" in as_key v) (filter (fun s => is_revealed s = true) submissions) in
  let* tasks := list_tasks in
  let*? tasks_by_id := foldR (fun acc item =>
    let? id := dgetitem item "task_run_id" in
    let? id := as_key id in Ok (aset id item acc))
    (filter (fun t => field_is "lane" "forecast_15m" t = true) tasks) [] in
  let* miners := list_miners in
  forS (apply_participation settings publish_at revealed_addresses tasks_by_id now) miners.

(** ** Public ranks *)

Definition rank_keys (miner : dict) : res (list value) :=
  mapR (dgetitem miner) ["total_rewards"; "edge_score_total"; "correct_direction_count"].

Definition public_elo (miner : dict) : res Z :=
  let? settled := dgetitem miner "settled_tasks" in
  let? settled := as_int settled in
  let? edge := dgetitem miner "edge_score_total" in
  let? avg_edge := py_truediv edge (VInt (Z.max 1 settled)) in
  let? bonus := f_trunc (fmul avg_edge (f_of_Z 800)) in
  let elo := 1200 + bonus + Z.min settled 100 in
  Ok (Z.max 900 (Z.min 1800 elo)).

Definition rank_miner (indexed : Z * dict) : repo unit :=
  let '(index, miner) := indexed in
  let*? elo := public_elo miner in
  let*? address := miner_address miner in
  do* update_miner_public_ranking address (VInt index) (VInt elo) in
  sret tt.

Definition _refresh_public_ranks : repo unit :=
  let* miners := list_miners in
  let*? ordered := sort_rows rank_keys true miners in
  forS rank_miner (zip (range 1 (1 + Z.of_nat (length ordered))) ordered).
