(* ===== verification/Submissions.v ===== *)
(** * The commit-reveal protocol ([commit_submission], [reveal_submission])

    A miner first commits to the hash of its forecast and later reveals the
    forecast and a nonce.  The handlers are modelled whole, over the in-memory
    repository: the checks in their order, the refresh of the miner's cluster,
    the write of the submission and the counters of the miner. *)
From Stdlib Require Import ZArith Lia String.
From stdpp Require Import base list strings.
From S2P Require Import Prelude PyText PyFloat PyTime PyValue Sha256 Repository Forecast Economic Miners.
Open Scope Z_scope.

(** [if cond: raise ValueError(msg)] *)
Definition reject_if (b : bool) (msg : string) : repo unit :=
  if b then sraise (ValueError msg) else sret tt.

(** [x = await get(...); if not x: raise ValueError(msg)] *)
Definition require {A} (m : repo (option A)) (msg : string) : repo A :=
  let* x := m in
  match x with Some a => sret a | None => sraise (ValueError msg) end.

(** [existing.get(k, default) if existing else default] *)
Definition kept (existing : option dict) (k : string) (default : value) : value :=
  match existing with Some e => dget_or e k default | None => default end.

Definition commit_row (task_run_id miner_address request_id commit_hash commit_nonce : string)
  (economic_unit_id : value) (existing : option dict) (accepted_at : Z) : dict :=
  let at_iso := VStr (iso_format accepted_at) in
  [("id", VStr ("sub:" +:+ task_run_id +:+ ":" +:+ miner_address));
   ("task_run_id", VStr task_run_id);
   ("miner_address", VStr miner_address);
   ("economic_unit_id", economic_unit_id);
   ("commit_request_id", VStr request_id);
   ("reveal_request_id", kept existing "reveal_request_id" VNone);
   ("commit_hash", VStr commit_hash);
   ("commit_nonce", VStr commit_nonce);
   ("p_yes_bps", kept existing "p_yes_bps" VNone);
   ("eligibility_status", kept existing "eligibility_status" (VStr "eligible"));
   ("state", kept existing "state" (VStr "committed"));
   ("score", kept existing "score" (VFloat fzero));
   ("reward_amount", kept existing "reward_amount" (VInt 0));
   ("reward_window_id", kept existing "reward_window_id" VNone);
   ("accepted_commit_at", at_iso);
   ("accepted_reveal_at", kept existing "accepted_reveal_at" VNone);
   ("created_at", kept existing "created_at" at_iso);
   ("updated_at", at_iso)].

Definition has_commit (submission : dict) : bool := truthy (dget submission "commit_hash").

Definition commit_submission (task_run_id self request_id commit_hash commit_nonce : string)
  (accepted_at : Z) (ip_address user_agent : option string) : repo dict :=
  let* task := require (get_task task_run_id) "task not found" in
  let*? publish_at := parse_time_field task "publish_at" in
  do* reject_if (accepted_at <? publish_at) "task not yet published" in
  let*? commit_deadline := parse_time_field task "commit_deadline" in
  do* reject_if (commit_deadline <? accepted_at) "commit window closed" in
  do* require (get_miner self) "miner not registered" in
  let* miner := _refresh_miner_cluster self ip_address user_agent accepted_at in
  let* existing := get_submission task_run_id self in
  do* reject_if (match existing with Some e => has_commit e | None => false end) "already committed" in
  let*? economic_unit_id := dgetitem miner "economic_unit_id" in
  let* saved := save_submission (commit_row task_run_id self request_id commit_hash commit_nonce
                                   economic_unit_id existing accepted_at) in
  let*? commits := dgetitem miner "forecast_commits" in
  let*? commits := py_add commits (VInt 1) in
  do* update_miner_forecast_participation self (VTime accepted_at) commits VNone VNone VNone VNone VNone in
  sret saved.

(** The first other revealed submission of the same economic unit. *)
Fixpoint find_duplicate (self : string) (unit : value) (others : list dict) : res (option value) :=
  match others with
  | [] => Ok None
  | other :: others =>
      let? address := dgetitem other "miner_address" in
      if py_eq_str address self then find_duplicate self unit others
      else
        let? other_unit := dgetitem other "economic_unit_id" in
        if py_eq other_unit unit && is_revealed other then Ok (Some address)
        else find_duplicate self unit others
  end.

Definition reveal_updates (unit : value) (request_id : string) (p_yes_bps : Z) (eligibility : string)
  (accepted_at : Z) : dict :=
  [("economic_unit_id", unit);
   ("reveal_request_id", VStr request_id);
   ("p_yes_bps", VInt p_yes_bps);
   ("eligibility_status", VStr eligibility);
   ("state", VStr "revealed");
   ("accepted_reveal_at", VStr (iso_format accepted_at));
   ("updated_at", VStr (iso_format accepted_at))].

Definition reveal_submission (settings : ForecastSettings) (task_run_id self request_id : string)
  (p_yes_bps : Z) (reveal_nonce : string) (accepted_at : Z) (ip_address user_agent : option string)
  : repo dict :=
  let* task := require (get_task task_run_id) "task not found" in
  let*? publish_at := parse_time_field task "publish_at" in
  do* reject_if (accepted_at <? publish_at) "task not yet published" in
  let*? reveal_deadline := parse_time_field task "reveal_deadline" in
  do* reject_if (reveal_deadline <? accepted_at) "reveal window closed" in
  let p_yes_bps := clamp_bps p_yes_bps settings in
  do* require (get_miner self) "miner not registered" in
  let* miner := _refresh_miner_cluster self ip_address user_agent accepted_at in
  let*? unit := dgetitem miner "economic_unit_id" in
  let* submission := get_submission task_run_id self in
  let* submission := match submission with
                     | Some s => if has_commit s then sret s
                                 else sraise (ValueError "commit required before reveal")
                     | None => sraise (ValueError "commit required before reveal")
                     end in
  do* reject_if (is_revealed submission) "already revealed" in
  let expected_commit := compute_commit_hash task_run_id self p_yes_bps reveal_nonce in
  do* reject_if (negb (py_eq_str (dget submission "commit_hash") expected_commit))
        "reveal does not match commit hash" in
  let* others := list_submissions_for_task task_run_id in
  let*? duplicate := find_duplicate self unit others in
  let eligibility := match duplicate with Some _ => "audit_only" | None => "eligible" end in
  let* saved := save_submission
    (dupdate submission (reveal_updates unit request_id p_yes_bps eligibility accepted_at)) in
  do* match duplicate with
      | Some other =>
          let*? other := as_key other in
          let*? submission_id := dgetitem saved "id" in
          _open_duplicate_reveal_case task_run_id submission_id unit
            (sort_strings (dedup_keys [self; other])) accepted_at self
      | None => sret tt
      end in
  let*? reveals := dgetitem miner "forecast_reveals" in
  let*? reveal_count := py_add reveals (VInt 1) in
  let*? ops := _compute_ops_reliability settings (dset miner "forecast_reveals" reveal_count) in
  do* update_miner_forecast_participation self (VTime accepted_at) VNone reveal_count (VFloat ops)
        VNone VNone VNone in
  sret saved.
