(* ===== verification/Settlement.v ===== *)
(** * Settlement of the forecast lanes ([_settle_due_tasks],
    [_settle_due_daily_tasks], [_release_matured_holds])

    A due task is resolved, every revealed submission is scored and its reward
    is split between the miner's balance and a hold, and the holds of a mature
    miner are released.  The task provider of the service is a parameter. *)
From Stdlib Require Import ZArith Lia String SpecFloat.
From stdpp Require Import base list strings.
From S2P Require Import Prelude PyText PyFloat PyTime PyValue Sha256 Repository Forecast Economic Miners.
Open Scope Z_scope.

(** The tasks and resolutions that a task provider gives.  [build_fast_task]
    takes the publication and generation times that its signature accepts; a
    provider without [resolve_daily_task] leaves that field empty. *)
Record TaskProvider := {
  provider_accepts_publish_at : bool;
  provider_accepts_generated_at : bool;
  provider_build_fast_task : Z -> ForecastSettings -> string -> option Z -> option Z -> res dict;
  provider_resolve_fast_task : dict -> res dict;
  provider_resolve_daily_task : option (dict -> res dict)
}.

Definition fast_resolution (task_provider : option TaskProvider) (task : dict) : res dict :=
  match task_provider with
  | Some provider => provider_resolve_fast_task provider task
  | None => resolve_fast_task task
  end.

Definition daily_resolution (task_provider : option TaskProvider) (task : dict) : res dict :=
  match task_provider with
  | Some provider =>
      match provider_resolve_daily_task provider with
      | Some resolve => resolve task
      | None => resolve_daily_task task
      end
  | None => resolve_daily_task task
  end.

(** ** One submission of a fast task *)

(** The rewards of one submission and the factors they come from. *)
Record settled_score := {
  score : float;
  fast_direct_score : Z;
  model_reliability : float;
  ops_reliability : float;
  arena_multiplier : float;
  discount : float;
  quality_envelope : float;
  reward_amount : Z;
  released_reward : Z;
  held_reward : Z;
  new_admission_state : string;
  settled_tasks : value;
  edge_score_total : value
}.

(** [max(0, int(round(direct * envelope)))] *)
Definition final_reward (direct : Z) (envelope : float) : res Z :=
  let? x := float_of_int direct in
  let? r := round_int (fmul x envelope) in
  Ok (Z.max 0 r).

Definition status_text (submission : dict) : res string :=
  py_str (por (dget submission "eligibility_status") (VStr "eligible")).

Definition direct_score (submission : dict) (score : float) : res Z :=
  if field_is "eligibility_status" "eligible" submission then _reward_from_score score else Ok 0.

Definition settle_score (settings : ForecastSettings) (task submission miner : dict) (p_yes_bps outcome : Z)
  (score : float) (discount : float) (now : Z) : res settled_score :=
  let? direct := direct_score submission score in
  let? settled := dgetitem miner "settled_tasks" in
  let? settled_tasks := py_add settled (VInt 1) in
  let? edge := dgetitem miner "edge_score_total" in
  let? edge_score_total := py_add edge (VFloat score) in
  let? average := py_truediv edge_score_total settled_tasks in
  let model := clamp (fadd fone (fmul average (flit 25 2))) (flit 97 2) (flit 103 2) in
  let? ops := float_or_one miner "ops_reliability" in
  let ops := round_digits 6 ops in
  let? arena := float_or_one miner "arena_multiplier" in
  let arena := round_digits 6 arena in
  let envelope := _quality_envelope model ops arena discount in
  let? reward := final_reward direct envelope in
  let? split := _split_reward_by_admission settings miner reward now in
  let '(released, held, state) := split in
  Ok {| score := score; fast_direct_score := direct; model_reliability := model; ops_reliability := ops;
        arena_multiplier := arena; discount := discount; quality_envelope := envelope;
        reward_amount := reward; released_reward := released; held_reward := held;
        new_admission_state := state; settled_tasks := settled_tasks; edge_score_total := edge_score_total |}.

Definition settled_updates (r : settled_score) (now : Z) : dict :=
  [("state", VStr "resolved");
   ("score", VFloat (score r));
   ("fast_direct_score", VInt (fast_direct_score r));
   ("model_reliability_component", VFloat (model_reliability r));
   ("ops_reliability_component", VFloat (ops_reliability r));
   ("arena_multiplier_component", VFloat (arena_multiplier r));
   ("anti_abuse_discount", VFloat (discount r));
   ("quality_envelope", VFloat (quality_envelope r));
   ("reward_amount", VInt (reward_amount r));
   ("released_reward_amount", VInt (released_reward r));
   ("held_reward_amount", VInt (held_reward r));
   ("updated_at", VStr (iso_format now))].

Definition hold_entry (submission_id miner_address task_run_id : value) (id : string) (held now : Z) : dict :=
  [("id", VStr id);
   ("miner_address", miner_address);
   ("task_run_id", task_run_id);
   ("submission_id", submission_id);
   ("amount_held", VInt held);
   ("amount_released", VInt 0);
   ("state", VStr "held");
   ("release_after", VStr (iso_format now));
   ("created_at", VStr (iso_format now));
   ("updated_at", VStr (iso_format now))].

Definition place_hold (task submission : dict) (held now : Z) : repo unit :=
  if 0 <? held then
    let*? submission_id := dgetitem submission "id" in
    let*? text := py_str submission_id in
    let*? address := dgetitem submission "miner_address" in
    let*? task_run_id := dgetitem task "task_run_id" in
    do* save_hold_entry (hold_entry submission_id address task_run_id ("hold:" +:+ text) held now) in
    sret tt
  else sret tt.

(** Credits the miner row as it was read before the submission was scored. *)
Definition credit_miner (address : string) (miner : dict) (r : settled_score) (outcome_correct : Z) (now : Z)
  : repo unit :=
  let*? total := dgetitem miner "total_rewards" in
  let*? total := py_add total (VInt (released_reward r)) in
  let*? held := py_add (dget_or miner "held_rewards" (VInt 0)) (VInt (held_reward r)) in
  let*? correct := dgetitem miner "correct_direction_count" in
  let*? correct := py_add correct (VInt outcome_correct) in
  do* update_miner_forecast_settlement address (VTime now) total held (settled_tasks r) correct
        (edge_score_total r) (VFloat (model_reliability r)) (VStr (new_admission_state r)) in
  sret tt.

Definition abuse_cache : Type := list ((string * string) * anti_abuse_state).

(** The anti-abuse state of a unit is read once in a run of the settlement. *)
Definition cached_abuse_state (cache : abuse_cache) (miner submission : dict)
  : repo (abuse_cache * anti_abuse_state) :=
  let*? address := dgetitem miner "address" in
  let*? unit := py_str (por (dget miner "economic_unit_id") address) in
  let*? status := status_text submission in
  match aget (unit, status) cache with
  | Some state => sret (cache, state)
  | None =>
      let* state := _anti_abuse_state (dget miner "economic_unit_id") status in
      sret (aset (unit, status) state cache, state)
  end.

Definition direction_correct (p_yes_bps outcome : Z) : Z :=
  if Bool.eqb (5000 <=? p_yes_bps) (negb (outcome =? 0)) then 1 else 0.

Definition settle_fast_submission (settings : ForecastSettings) (task : dict) (outcome : Z) (now : Z)
  (cache : abuse_cache) (submission : dict) : repo abuse_cache :=
  if is_none (dget submission "p_yes_bps") then sret cache
  else
    let*? p_yes_bps := as_int (dget submission "p_yes_bps") in
    let*? baseline := dgetitem task "baseline_q_bps" in
    let*? baseline_q_bps := as_int baseline in
    let*? score := score_probability p_yes_bps baseline_q_bps outcome in
    let*? address := dgetitem submission "miner_address" in
    let*? address := as_key address in
    let* miner := get_miner address in
    match miner with
    | None => sraise TypeError
    | Some miner =>
        let* cached := cached_abuse_state cache miner submission in
        let '(cache, abuse) := cached in
        let*? r := settle_score settings task submission miner p_yes_bps outcome score
                     (anti_abuse_discount abuse) now in
        do* save_submission (dupdate submission (settled_updates r now)) in
        do* place_hold task submission (held_reward r) now in
        do* credit_miner address miner r (direction_correct p_yes_bps outcome) now in
        sret cache
    end.

(** ** Fast tasks *)

Definition resolution_status (resolution : dict) : value :=
  let status := dget resolution "resolution_status" in
  if truthy status then status
  else VStr (if is_none (dget resolution "outcome") then "pending" else "resolved").

Definition unresolved (status outcome : value) : bool :=
  negb (py_eq_str status "resolved") || is_none outcome.

(** The updates of a task, resolved or still awaiting its prices. *)
Definition task_resolution (task resolution : dict) (start_key : string) (source outcome : value) (state : string)
  (now : Z) : dict :=
  [("commit_close_ref_price", dget_or resolution start_key (dget task "commit_close_ref_price"));
   ("end_ref_price", dget resolution "end_ref_price");
   ("resolution_source", source);
   ("outcome", outcome);
   ("state", VStr state);
   ("updated_at", VStr (iso_format now))].

Definition mark_pending (now : Z) (submission : dict) : repo unit :=
  if is_none (dget submission "p_yes_bps") then sret tt
  else
    do* save_submission (dupdate submission [("state", VStr "pending_resolution");
                                             ("updated_at", VStr (iso_format now))]) in
    sret tt.

Definition settle_fast_task (task_provider : option TaskProvider) (settings : ForecastSettings) (now : Z)
  (cache : abuse_cache) (task : dict) : repo abuse_cache :=
  let*? resolution := fast_resolution task_provider task in
  let status := resolution_status resolution in
  let*? id := dgetitem task "task_run_id" in
  let*? task_run_id := as_key id in
  let* submissions := list_submissions_for_task task_run_id in
  let updates := task_resolution task resolution "commit_close_ref_price" (dget resolution "resolution_method") in
  if unresolved status (dget resolution "outcome") then
    do* forS (mark_pending now) submissions in
    do* upsert_task (dupdate task (updates VNone "awaiting_resolution" now)) in
    sret cache
  else
    let*? outcome := as_int (dget resolution "outcome") in
    let* cache := foldS (settle_fast_submission settings task outcome now) submissions cache in
    do* _apply_fast_task_participation settings task submissions now in
    do* upsert_task (dupdate task (updates (dget resolution "outcome") "resolved" now)) in
    sret cache.

Definition _settle_due_tasks (task_provider : option TaskProvider) (settings : ForecastSettings) (now : Z)
  : repo unit :=
  let* tasks := list_due_unsettled_fast_tasks (iso_format now) in
  do* foldS (settle_fast_task task_provider settings now) tasks [] in
  sret tt.

(** ** Daily tasks *)

Definition settle_daily_submission (settings : ForecastSettings) (outcome now : Z) (submission : dict) : repo unit :=
  if is_none (dget submission "p_yes_bps") then sret tt
  else
    let*? p_yes_bps := as_int (dget submission "p_yes_bps") in
    let*? anchor_multiplier := _daily_anchor_multiplier settings p_yes_bps outcome in
    do* save_submission (dupdate submission
          [("state", VStr "resolved");
           ("score", VFloat (round_digits 6 (fsub anchor_multiplier fone)));
           ("reward_amount", VInt 0);
           ("updated_at", VStr (iso_format now))]) in
    let*? address := dgetitem submission "miner_address" in
    let*? address := as_key address in
    let* miner := get_miner address in
    match miner with
    | None => sraise TypeError
    | Some miner =>
        let*? reliability := dgetitem miner "model_reliability" in
        let*? product := py_mul reliability (VFloat anchor_multiplier) in
        let*? x := py_float product in
        do* update_miner_forecast_settlement address (VTime now) VNone VNone VNone VNone VNone
              (VFloat (clamp x (flit 97 2) (flit 103 2))) VNone in
        sret tt
    end.

Definition daily_is_due (now : Z) (task : dict) : res bool :=
  let? lane := dgetitem task "lane" in
  if negb (py_eq_str lane "daily_anchor") || field_is "state" "resolved" task then Ok false
  else let? resolve_at := parse_time_field task "resolve_at" in
       Ok (resolve_at <=? now).

Definition settle_daily_task (task_provider : option TaskProvider) (settings : ForecastSettings) (now : Z)
  (task : dict) : repo unit :=
  let*? due := daily_is_due now task in
  if negb due then sret tt
  else
    let*? resolution := daily_resolution task_provider task in
    let status := dget_or resolution "resolution_status" (VStr "resolved") in
    if unresolved status (dget resolution "outcome") then
      do* upsert_task (dupdate task [("state", VStr "awaiting_resolution");
                                     ("updated_at", VStr (iso_format now))]) in
      sret tt
    else
      let*? id := dgetitem task "task_run_id" in
      let*? task_run_id := as_key id in
      let* submissions := list_submissions_for_task task_run_id in
      let*? outcome := as_int (dget resolution "outcome") in
      do* forS (settle_daily_submission settings outcome now) submissions in
      do* upsert_task (dupdate task
            (task_resolution task resolution "start_ref_price"
               (dget_or resolution "resolution_method" (VStr "daily_anchor"))
               (dget resolution "outcome") "resolved" now)) in
      sret tt.

Definition _settle_due_daily_tasks (task_provider : option TaskProvider) (settings : ForecastSettings) (now : Z)
  : repo unit :=
  let* tasks := list_tasks in
  forS (settle_daily_task task_provider settings now) tasks.

(** ** Holds *)

(** What is left of a hold entry: [amount_held - amount_released]. *)
Definition hold_remaining (hold : dict) : res Z :=
  let? held := dgetitem hold "amount_held" in
  let? rest := py_sub held (dget_or hold "amount_released" (VInt 0)) in
  as_int rest.

Definition release_hold (address : value) (now : Z) (released_total : Z) (hold : dict) : repo Z :=
  let*? owner := dgetitem hold "miner_address" in
  if negb (py_eq owner address) then sret released_total
  else
    let*? remaining := hold_remaining hold in
    if remaining <=? 0 then sret released_total
    else
      do* save_hold_entry (dupdate hold
            [("amount_released", dget hold "amount_held"); ("state", VStr "released");
             ("updated_at", VStr (iso_format now))]) in
      sret (released_total + remaining).

Definition pay_out (address : string) (miner : dict) (amount held_rewards now : Z) : repo unit :=
  let*? total := dgetitem miner "total_rewards" in
  let*? total := py_add total (VInt amount) in
  do* update_miner_forecast_settlement address (VTime now) total (VInt held_rewards) VNone VNone VNone VNone
        (VStr "mature") in
  sret tt.

Definition set_admission (address : string) (miner : dict) (state : string) (now : Z) : repo unit :=
  if field_is "admission_state" state miner then sret tt
  else
    do* update_miner_forecast_settlement address (VTime now) VNone VNone VNone VNone VNone VNone (VStr state) in
    sret tt.

Definition release_miner (settings : ForecastSettings) (now : Z) (miner : dict) : repo unit :=
  let*? state := _admission_state settings miner now in
  let*? held_rewards := as_int (dget_or miner "held_rewards" (VInt 0)) in
  let*? address_value := dgetitem miner "address" in
  let*? address := as_key address_value in
  if String.eqb state "mature" then
    let* holds := list_due_hold_entries (iso_format now) in
    let* released_total := foldS (release_hold address_value now) holds 0 in
    if 0 <? released_total then
      pay_out address miner released_total (Z.max 0 (held_rewards - released_total)) now
    else if 0 <? held_rewards then pay_out address miner held_rewards 0 now
    else set_admission address miner "mature" now
  else set_admission address miner state now.

Definition _release_matured_holds (settings : ForecastSettings) (now : Z) : repo unit :=
  let* miners := list_miners in
  forS (release_miner settings now) miners.
