(* ===== verification/Windows.v ===== *)
(** * Reward windows of the forecast lane, their artifacts and settlement batches
    ([_build_reward_windows], [_build_settlement_batches])

    A resolved task is put in the window of its hour; the window's rows,
    membership and replay artifacts are rebuilt, and every window gets an open
    settlement batch that follows it until it is anchored. *)
From Stdlib Require Import ZArith Lia String SpecFloat.
From stdpp Require Import base list strings.
From S2P Require Import Prelude PyText PyFloat PyTime PyValue Sha256 Canonical Repository Forecast RewardRows.
From S2P Require Import Economic Miners.
Open Scope Z_scope.

Definition vstrs (l : list string) : value := VList (map VStr l).

(** ** Artifacts *)

Definition artifact_row (id kind entity_type : string) (entity_id payload_json payload_hash : value) (now : Z) : dict :=
  [("id", VStr id);
   ("kind", VStr kind);
   ("entity_type", VStr entity_type);
   ("entity_id", entity_id);
   ("payload_json", payload_json);
   ("payload_hash", payload_hash);
   ("created_at", VStr (iso_format now));
   ("updated_at", VStr (iso_format now))].

(** [next((a for a in artifacts if a.get("kind") == kind), None)] *)
Definition first_of_kind (kind : string) (artifacts : list dict) : option dict :=
  List.find (fun artifact => field_is "kind" kind artifact) artifacts.

(** [(artifact.get("payload_json") or {})] of an artifact that may be missing *)
Definition artifact_payload (artifact : option dict) : res dict :=
  match artifact with
  | None => Ok []
  | Some a => as_dict (por (dget a "payload_json") (VDict []))
  end.

Definition first_row (rows : list dict) : repo dict :=
  match rows with r :: _ => sret r | [] => sraise (Unmodelled "rows[0] of an empty list") end.

(** [f"...{row['id']}..."] *)
Definition id_field (row : dict) : res string := let? id := dgetitem row "id" in py_str id.

Definition get_artifact (artifact_id : string) : repo dict :=
  let* artifact := Repository.get_artifact artifact_id in
  match artifact with Some a => sret a | None => sraise (ValueError "artifact not found") end.

Definition _artifact_refs_for_entity (entity_type entity_id : string) : repo (list dict) :=
  let* artifacts := list_artifacts_for_entity entity_type entity_id in
  slift (mapR (fun artifact =>
    let? id := dgetitem artifact "id" in
    let? kind := dgetitem artifact "kind" in
    let? payload_hash := dgetitem artifact "payload_hash" in
    Ok [("artifact_id", id); ("kind", kind); ("payload_hash", payload_hash)]) artifacts).

Definition _ensure_task_pack_artifact (task : dict) (now : Z) : repo dict :=
  let*? task_run_id := dgetitem task "task_run_id" in
  let*? id := py_str task_run_id in
  let*? lane := dgetitem task "lane" in
  let*? asset := dgetitem task "asset" in
  let payload := [("task_run_id", task_run_id); ("lane", lane); ("asset", asset);
                  ("pack_hash", dget task "pack_hash"); ("pack_json", dget task "pack_json")] in
  let*? hash := _hash_payload payload in
  save_artifact (artifact_row ("art:task_run:" +:+ id +:+ ":pack") "task_pack" "task_run" task_run_id
                   (VDict payload) (VStr hash) now).

Definition _upsert_reward_window_artifact (reward_window : dict) (now : Z) : repo dict :=
  let*? id := id_field reward_window in
  let*? materialized := _materialize_reward_window reward_window in
  let '(materialized_reward_window, payload) := materialized in
  let*? entity_id := dgetitem materialized_reward_window "id" in
  let* rows := save_artifacts_bulk
    [artifact_row ("art:reward_window:" +:+ id +:+ ":membership") "reward_window_membership" "reward_window"
       entity_id (VDict payload) (dget materialized_reward_window "canonical_root") now] in
  first_row rows.

(** ** The anti-abuse inputs of a window *)

(** [str(row.get(k) or d)] *)
Definition text_or (row : dict) (k d : string) : res string := py_str (por (dget row k) (VStr d)).

Definition preserve_row (preserved : list (string * dict)) (row : value) : res (list (string * dict)) :=
  let? row := as_dict row in
  let id := dget row "submission_id" in
  if truthy id then let? key := py_str id in Ok (aset key row preserved) else Ok preserved.

Definition text_key (fields : list string) (row : dict) : res (list value) :=
  mapR (fun k => let? s := text_or row k "" in Ok (VStr s)) fields.

Definition open_case_ref (case : dict) : res dict :=
  let? id := text_or case "id" "" in
  let? case_type := text_or case "case_type" "unknown" in
  let? severity := text_or case "severity" "" in
  Ok [("id", VStr id); ("case_type", VStr case_type); ("severity", VStr (str_lower severity))].

Definition case_key (case : dict) : res (list value) :=
  mapR (dgetitem case) ["id"; "case_type"; "severity"].

(** [risk_case_cache] and [economic_unit_cache] *)
Record input_caches := {
  risk_case_cache : list (string * list dict);
  economic_unit_cache : list (string * string)
}.

Definition unit_of_submission (caches : input_caches) (submission : dict) : repo (input_caches * string) :=
  let*? miner_address := text_or submission "miner_address" "" in
  let cached := default "" (aget miner_address (economic_unit_cache caches)) in
  if negb (String.eqb cached "") then sret (caches, cached)
  else
    let* miner := if String.eqb miner_address "" then sret None else get_miner miner_address in
    let*? unit := py_str (por (por (dget (default [] miner) "economic_unit_id")
                                   (dget submission "economic_unit_id")) (VStr "")) in
    sret (if String.eqb miner_address "" then caches
          else {| risk_case_cache := risk_case_cache caches;
                  economic_unit_cache := aset miner_address unit (economic_unit_cache caches) |}, unit).

Definition cases_of_unit (caches : input_caches) (economic_unit_id : string) : repo (input_caches * list dict) :=
  match aget economic_unit_id (risk_case_cache caches) with
  | Some open_cases => sret (caches, open_cases)
  | None =>
      let* listed_cases := if String.eqb economic_unit_id "" then sret []
                           else list_risk_cases (Some "open") None (Some economic_unit_id) in
      let*? open_cases := mapR open_case_ref listed_cases in
      let*? open_cases := sort_rows case_key false open_cases in
      sret ({| risk_case_cache := aset economic_unit_id open_cases (risk_case_cache caches);
               economic_unit_cache := economic_unit_cache caches |}, open_cases)
  end.

Definition fresh_input_row (caches : input_caches) (submission_id : string) (submission : dict)
  : repo (input_caches * dict) :=
  let* found := unit_of_submission caches submission in
  let '(caches, economic_unit_id) := found in
  let* found := cases_of_unit caches economic_unit_id in
  let '(caches, open_cases) := found in
  let*? eligibility_status := text_or submission "eligibility_status" "eligible" in
  let*? types := mapR (fun case => let? t := dgetitem case "case_type" in as_key t) open_cases in
  let*? discount := _anti_abuse_discount_for_cases (VStr eligibility_status) open_cases in
  sret (caches,
    [("submission_id", VStr submission_id);
     ("task_run_id", dget submission "task_run_id");
     ("miner_address", dget submission "miner_address");
     ("economic_unit_id", VStr economic_unit_id);
     ("eligibility_status", VStr eligibility_status);
     ("open_risk_case_count", VInt (Z.of_nat (length open_cases)));
     ("open_risk_case_ids", VList (map (fun case => dget case "id") open_cases));
     ("open_risk_case_types", vstrs (sort_strings (dedup_keys types)));
     ("anti_abuse_discount", VFloat discount)]).

Definition add_input_row (preserved : list (string * dict)) (acc : input_caches * list value) (submission : dict)
  : repo (input_caches * list value) :=
  let '(caches, rows) := acc in
  if is_none (dget submission "p_yes_bps") then sret (caches, rows)
  else
    let*? submission_id := text_or submission "id" "" in
    let* found := match aget submission_id preserved with
                  | Some row => sret (caches, row)
                  | None => fresh_input_row caches submission_id submission
                  end in
    let '(caches, row) := found in
    let*? discount := py_float (por (dget_or submission "anti_abuse_discount"
                                       (dget_or row "anti_abuse_discount" (VFloat fone))) (VFloat fone)) in
    sret (caches, rows ++ [VDict (dset row "anti_abuse_discount" (VFloat (round_digits 6 discount)))]).

Definition _build_forecast_anti_abuse_input_rows (submissions : list dict) (preserved_rows : list value)
  : repo (list value) :=
  let*? preserved := foldR preserve_row preserved_rows [] in
  let*? submissions := sort_rows (text_key ["task_run_id"; "miner_address"; "id"]) false submissions in
  let* acc := foldS (add_input_row preserved) submissions
                ({| risk_case_cache := []; economic_unit_cache := [] |}, []) in
  sret acc.2.

Definition _upsert_forecast_reward_window_replay_artifact (reward_window : dict) (submissions : list dict) (now : Z)
  : repo dict :=
  let*? entity_id := dgetitem reward_window "id" in
  let*? id := as_key entity_id in
  let* existing_artifacts := list_artifacts_for_entity "reward_window" id in
  let*? existing := artifact_payload (first_of_kind "reward_window_replay_bundle" existing_artifacts) in
  let*? preserved_rows := list_field existing "anti_abuse_input_rows" in
  let* anti_abuse_input_rows := _build_forecast_anti_abuse_input_rows submissions preserved_rows in
  let*? payload := _forecast_reward_window_replay_payload reward_window anti_abuse_input_rows in
  let*? hash := _hash_payload payload in
  let* rows := save_artifacts_bulk
    [artifact_row ("art:reward_window:" +:+ id +:+ ":replay-bundle") "reward_window_replay_bundle" "reward_window"
       entity_id (VDict payload) (VStr hash) now] in
  first_row rows.

(** ** The windows *)

(** The tasks that a window takes: resolved fast tasks without a window. *)
Definition wants_window (task : dict) : res bool :=
  let? lane := dgetitem task "lane" in
  Ok (py_eq_str lane "forecast_15m" && field_is "state" "resolved" task &&
      negb (truthy (dget task "reward_window_id"))).

Definition task_hour (task : dict) : res Z :=
  let? t := parse_time_field task "resolve_at" in Ok (_hour_bucket_start t).

Definition group_task (grouped : list (string * list dict)) (task : dict) : res (list (string * list dict)) :=
  let? wanted := wants_window task in
  if wanted then let? bucket := task_hour task in Ok (aappend ("rw_" +:+ compact_format 10 bucket) task grouped)
  else Ok grouped.

Definition task_key (task : dict) : res string := let? t := dgetitem task "task_run_id" in as_key t.

(** What a window collects from its submissions. *)
Record window_members := {
  miner_addresses : list string;
  window_submissions : list dict
}.

Definition no_members : window_members := {| miner_addresses := []; window_submissions := [] |}.

Definition add_member (members : window_members) (submission : dict) : res window_members :=
  let? address := dgetitem submission "miner_address" in
  let? address := as_key address in
  Ok {| miner_addresses := miner_addresses members ++ [address];
        window_submissions := window_submissions members ++ [submission] |}.

Definition window_submission (reward_window_id : string) (now : Z) (members : window_members) (submission : dict)
  : repo window_members :=
  if is_none (dget submission "p_yes_bps") then sret members
  else
    let*? members := add_member members submission in
    do* if field_is "reward_window_id" reward_window_id submission then sret tt
        else
          do* save_submission (dupdate submission
                [("reward_window_id", VStr reward_window_id);
                 ("updated_at", por (dget submission "updated_at") (VStr (iso_format now)))]) in
          sret tt in
    sret members.

Definition window_task (reward_window_id : string) (now : Z) (tasks_by_id : list (string * dict))
  (members : window_members) (task_run_id : string) : repo window_members :=
  match non_empty (aget task_run_id tasks_by_id) with
  | None => sret members
  | Some task =>
      let* submissions := list_submissions_for_task task_run_id in
      let* members := foldS (window_submission reward_window_id now) submissions members in
      do* if field_is "reward_window_id" reward_window_id task then sret tt
          else
            do* upsert_task (dupdate task [("reward_window_id", VStr reward_window_id);
                                           ("updated_at", VStr (iso_format now))]) in
            sret tt in
      sret members
  end.

(** [sum(int(row.get("gross_reward_amount", 0) or 0) for row in rows)] *)
Definition total_gross (rows : list dict) : res Z :=
  let? amounts := mapR (fun row => int_field row "gross_reward_amount") rows in Ok (sum_Z amounts).

(** The fields that both [_build_reward_windows] and [rebuild_reward_window] compute from the members. *)
Definition membership_fields (task_run_ids : list string) (members : window_members) (rows : list dict) (total : Z)
  : dict :=
  [("task_count", VInt (Z.of_nat (length task_run_ids)));
   ("submission_count", VInt (Z.of_nat (length (window_submissions members))));
   ("miner_count", VInt (Z.of_nat (length (dedup_keys (miner_addresses members)))));
   ("total_reward_amount", VInt total);
   ("task_run_ids", vstrs task_run_ids);
   ("miner_addresses", vstrs (sort_strings (dedup_keys (miner_addresses members))));
   ("miner_reward_rows", VList (map VDict rows))].

Definition build_reward_window (now : Z) (tasks_by_id : list (string * dict)) (group : string * list dict)
  : repo unit :=
  let '(reward_window_id, tasks) := group in
  let*? window_start := match tasks with task :: _ => task_hour task | [] => Err (Unmodelled "tasks[0]") end in
  let window_end := window_start + hour in
  let* existing_window := get_reward_window reward_window_id in
  let*? existing_task_ids := match existing_window with
                             | Some w => let? l := as_list (dget_or w "task_run_ids" (VList [])) in mapR as_key l
                             | None => Ok []
                             end in
  let*? new_task_ids := mapR task_key tasks in
  let task_run_ids := sort_strings (dedup_keys (existing_task_ids ++ new_task_ids)) in
  let* members := foldS (window_task reward_window_id now tasks_by_id) task_run_ids no_members in
  let*? miner_reward_rows := build_forecast_reward_component_rows (window_submissions members) in
  let*? total_reward_amount := total_gross miner_reward_rows in
  let of_existing k d := match existing_window with Some w => dget_or w k d | None => d end in
  let*? materialized := _materialize_reward_window
    (dupdate
      [("id", VStr reward_window_id);
       ("lane", VStr "forecast_15m");
       ("state", VStr "finalized");
       ("window_start_at", VStr (iso_format window_start));
       ("window_end_at", VStr (iso_format window_end));
       ("settlement_batch_id", of_existing "settlement_batch_id" VNone);
       ("policy_bundle_version", match existing_window with
                                 | Some w => dget w "policy_bundle_version"
                                 | None => VStr POLICY_BUNDLE_VERSION
                                 end);
       ("created_at", of_existing "created_at" (VStr (iso_format now)))]
      (membership_fields task_run_ids members miner_reward_rows total_reward_amount ++
       [("updated_at", VStr (iso_format now))])) in
  let* saved := save_reward_window materialized.1 in
  let with_rows := dset saved "miner_reward_rows" (VList (map VDict miner_reward_rows)) in
  do* _upsert_reward_window_artifact with_rows now in
  do* _upsert_forecast_reward_window_replay_artifact with_rows (window_submissions members) now in
  sret tt.

Definition _build_reward_windows (now : Z) : repo unit :=
  let* all_tasks := list_tasks in
  let*? grouped_tasks := foldR group_task all_tasks [] in
  let*? keyed := mapR (fun task => let? k := task_key task in Ok (k, task)) all_tasks in
  let tasks_by_id := aupdate [] keyed in
  forS (build_reward_window now tasks_by_id) grouped_tasks.

(** ** Settlement batches *)

Definition batch_id_of (reward_window : dict) : res string :=
  let batch := dget reward_window "settlement_batch_id" in
  if truthy batch then as_key batch
  else let? id := dgetitem reward_window "id" in
       let? id := as_key id in Ok ("sb_" +:+ str_removeprefix "rw_" id).

(** [sync_open_settlement_batch] with the fields of a window. *)
Definition sync_window_batch (settlement_batch_id : string) (reward_window : dict) (now : Z) (created_at : value)
  : repo dict :=
  let*? lane := dgetitem reward_window "lane" in
  let*? window_start_at := dgetitem reward_window "window_start_at" in
  let*? window_end_at := dgetitem reward_window "window_end_at" in
  let*? id := dgetitem reward_window "id" in
  sync_open_settlement_batch settlement_batch_id lane window_start_at window_end_at (VList [id])
    (window_policy reward_window)
    (dget_or reward_window "task_count" (VInt 0))
    (dget_or reward_window "miner_count" (VInt 0))
    (dget_or reward_window "total_reward_amount" (VInt 0))
    (VStr (iso_format now)) created_at.

(** The batch of a window: an open one follows the window, any other is left, a missing one is opened. *)
Definition window_batch (reward_window : dict) (now : Z) : repo dict :=
  let*? settlement_batch_id := batch_id_of reward_window in
  let* existing_batch := get_settlement_batch settlement_batch_id in
  match existing_batch with
  | Some existing =>
      if field_is "state" "open" existing
      then let*? id := dgetitem existing "id" in
           let*? id := as_key id in
           sync_window_batch id reward_window now VNone
      else sret existing
  | None => sync_window_batch settlement_batch_id reward_window now (VStr (iso_format now))
  end.

(** Links a window to its batch; a linked window is left as it is. *)
Definition _sync_single_reward_window_settlement_batch (reward_window : dict) (now : Z) : repo dict :=
  let* batch := window_batch reward_window now in
  let*? batch_id := dgetitem batch "id" in
  if py_eq (dget reward_window "settlement_batch_id") batch_id then sret reward_window
  else
    let*? id := dgetitem reward_window "id" in
    let*? id := as_key id in
    let* saved := link_reward_window_settlement_batch id batch_id (VStr (iso_format now)) in
    do* _upsert_reward_window_artifact saved now in
    sret saved.

Definition build_settlement_batch (now : Z) (reward_window : dict) : repo unit :=
  if field_is "state" "no_positive_weight" reward_window then sret tt
  else
    do* _sync_single_reward_window_settlement_batch reward_window now in
    sret tt.

Definition _build_settlement_batches (now : Z) : repo unit :=
  let* reward_windows := list_reward_windows in
  forS (build_settlement_batch now) reward_windows.
