(* ===== verification/PokerWindow.v ===== *)
(** * Reward windows of the poker tournaments ([build_poker_mtt_reward_window])

    The results locked in a window are checked against their final rankings and
    the identity of their miners, weighted by the effective multipliers,
    aggregated to one weight an economic unit, and paid from the pool of the
    window within the budget of its emission epoch. *)
From Stdlib Require Import ZArith Lia String SpecFloat.
From stdpp Require Import base list strings.
From S2P Require Import Prelude PyText PyFloat PyTime PyValue Sha256 Canonical PokerResults Repository.
From S2P Require Import Forecast RewardRows Economic Miners Windows.
Open Scope Z_scope.

Definition POKER_MTT_REPUTATION_DELTA_POLICY_VERSION : string := "poker_mtt_reputation_delta_v1".
Definition POKER_MTT_PROJECTION_ROOT_FIELDS : list string :=
  ["policy_bundle_version"; "final_ranking_root"; "evidence_root"; "multiplier_snapshot_root"; "budget_root";
   "reputation_delta_rows_root"; "miner_reward_rows_root"; "projection_root"].

(** The listed fields of a row. *)
Definition fields_of (row : dict) (ks : list string) : dict := map (fun k => (k, dget row k)) ks.

(** ** Roots and policies *)

Definition _poker_mtt_projection_artifact_from_refs : list dict -> option dict :=
  first_of_kind "poker_mtt_reward_window_projection".

Definition _poker_mtt_reward_window_id (lane : string) (window_start window_end : Z) : string :=
  "rw_" +:+ lane +:+ "_" +:+ compact_format 14 window_start +:+ "_" +:+ compact_format 14 window_end.

Definition _poker_mtt_projection_roots (payload : dict) (reward_window_id : string) : res dict :=
  if existsb (fun field => negb (truthy (dget payload field))) POKER_MTT_PROJECTION_ROOT_FIELDS
  then Err (ValueError "poker mtt reward window projection metadata incomplete")
  else Ok (("reward_window_id", VStr reward_window_id) ::
           fields_of payload ["policy_bundle_version"; "final_ranking_root"; "evidence_root";
                              "multiplier_snapshot_root"; "budget_root"] ++
           [("reputation_delta_policy_version",
             dget_or payload "reputation_delta_policy_version" (VStr POKER_MTT_REPUTATION_DELTA_POLICY_VERSION));
            ("reputation_delta_rows_root", dget payload "reputation_delta_rows_root");
            ("projection_root", dget payload "projection_root")]).

Definition _default_poker_mtt_policy_bundle_version (settings : ForecastSettings) (lane : string) : string :=
  if String.eqb lane "poker_mtt_daily" then poker_mtt_daily_policy_bundle_version settings
  else if String.eqb lane "poker_mtt_weekly" then poker_mtt_weekly_policy_bundle_version settings
  else POLICY_BUNDLE_VERSION.

Definition _poker_mtt_reward_aggregation_policy_version (settings : ForecastSettings) : string :=
  let v := poker_mtt_reward_aggregation_policy_version settings in
  if String.eqb v "" then "capped_top3_mean_v1" else v.

(** ** Effective multipliers *)

Definition _poker_mtt_multiplier_effective_window (value : Z) : Z * Z :=
  let next_start := _day_bucket_start (drop_microseconds value) + day in
  (next_start, next_start + day).

(** [as_utc_datetime(v).replace(microsecond=0)] *)
Definition utc_seconds (v : value) : res Z := let? t := as_utc_datetime v in Ok (drop_microseconds t).

Definition applicable_row (target : Z) (row : dict) : res (option (list value * dict)) :=
  let start := dget row "effective_window_start_at" in
  let stop := dget row "effective_window_end_at" in
  if negb (truthy start) || negb (truthy stop) then Ok None
  else
    let? start_at := utc_seconds start in
    let? end_at := utc_seconds stop in
    if (start_at <=? target) && (target <? end_at)
    then
      let? updated_at := utc_seconds (por (dget row "updated_at") start) in
      Ok (Some ([VTime start_at; VTime updated_at; get_or_empty "id" row], row))
    else Ok None.

Definition some_list {A} (l : list (option A)) : list A := omap id l.

Definition _poker_mtt_resolve_effective_reward_multiplier (snapshot_rows : list dict) (effective_at : value)
  : res (float * option dict) :=
  if is_none effective_at then Ok (fone, None)
  else
    let? target := utc_seconds effective_at in
    let? applicable := mapR (applicable_row target) snapshot_rows in
    let? sorted := py_sort_keyed tuple_lt false (some_list applicable) in
    match last sorted with
    | None => Ok (fone, None)
    | Some chosen =>
        let? m := py_float (por (dget chosen "multiplier_after") (VFloat fone)) in
        Ok (m, Some chosen)
    end.

Definition of_snapshot (snapshot : option dict) (k : string) : value :=
  match snapshot with Some s => dget s k | None => VNone end.

Definition apply_multiplier (multiplier_snapshots_by_miner : list (string * list dict)) (result : dict)
  : res (dict * dict) :=
  let? miner_address := dgetitem result "miner_address" in
  let? address := as_key miner_address in
  let? resolved := _poker_mtt_resolve_effective_reward_multiplier
    (default [] (aget address multiplier_snapshots_by_miner))
    (por (dget result "locked_at") (dget result "anchorable_at")) in
  let '(reward_multiplier, snapshot) := resolved in
  let? score := py_float (por (dget_or result "total_score" (VFloat fzero)) (VFloat fzero)) in
  let? id := dgetitem result "id" in
  Ok (dset result "total_score" (VFloat (round_digits 6 (fmul score reward_multiplier))),
      [("poker_mtt_result_id", id);
       ("miner_address", miner_address);
       ("economic_unit_id", dget result "economic_unit_id");
       ("effective_reward_multiplier", VFloat (round_digits 6 reward_multiplier));
       ("multiplier_snapshot_id", of_snapshot snapshot "id");
       ("source_result_id", of_snapshot snapshot "source_result_id");
       ("effective_window_start_at", of_snapshot snapshot "effective_window_start_at");
       ("effective_window_end_at", of_snapshot snapshot "effective_window_end_at")]).

Definition _poker_mtt_apply_effective_reward_multipliers (selected_results : list dict)
  (multiplier_snapshots_by_miner : list (string * list dict)) : res (list dict * list dict) :=
  let? pairs := mapR (apply_multiplier multiplier_snapshots_by_miner) selected_results in
  let? multiplier_input_rows :=
    py_sort py_lt (fun item => dgetitem item "poker_mtt_result_id") false (map snd pairs) in
  Ok (map fst pairs, multiplier_input_rows).

(** ** Weights of the economic units *)

Definition unit_of_result (miners_by_address : list (string * dict)) (result : dict) : res string :=
  let? miner_address := dgetitem result "miner_address" in
  let? address := as_key miner_address in
  let miner := default [] (aget address miners_by_address) in
  as_key (por (por (dget miner "economic_unit_id") (dget result "economic_unit_id")) miner_address).

(** The scores of a unit, best first. *)
Definition scored_rows (rows : list dict) : res (list (value * float)) :=
  let? scored := mapR (fun row =>
    let? miner_address := dgetitem row "miner_address" in
    let? score := py_float (por (dget_or row "total_score" (VFloat fzero)) (VFloat fzero)) in
    Ok (miner_address, fmax fzero score)) rows in
  py_sort tuple_lt (fun item => Ok [VFloat (fneg item.2); item.1]) false scored.

Definition unit_weight (policy_version : string) (scores : list float) : res float :=
  if String.eqb policy_version "max_score_v1" then of_option (head scores) (Unmodelled "no rows")
  else if String.eqb policy_version "capped_top3_mean_v1" then
    let top_scores := take 3 scores in
    let? mean := fdiv (fsum top_scores) (f_of_Z (Z.max 1 (Z.of_nat (length top_scores)))) in
    Ok (round_digits 6 mean)
  else Err (ValueError ("unsupported poker mtt reward aggregation policy: " +:+ policy_version)).

(** The three dictionaries of the function, keyed by the units in the same order. *)
Record unit_aggregate := {
  score_weight : float;
  unit_submission_count : Z;
  representative_miner : value
}.

Definition aggregate_unit (policy_version : string) (group : string * list dict) : res (string * unit_aggregate) :=
  let? scored := scored_rows group.2 in
  let? first := of_option (head scored) (Unmodelled "no rows") in
  let? weight := unit_weight policy_version (map snd scored) in
  Ok (group.1, {| score_weight := weight; unit_submission_count := Z.of_nat (length scored);
                  representative_miner := first.1 |}).

Definition _poker_mtt_aggregate_reward_weights (selected_results : list dict) (policy_version : string)
  (miners_by_address : list (string * dict)) : res (list (string * unit_aggregate)) :=
  let? grouped := foldR (fun grouped result =>
    let? unit := unit_of_result miners_by_address result in Ok (aappend unit result grouped)) selected_results [] in
  mapR (aggregate_unit policy_version) grouped.

(** ** The budget *)

Definition _poker_mtt_budget_root (payload : dict) : res string :=
  let? requested := int_or_zero (dget payload "requested_amount") in
  let? approved := int_or_zero (dget payload "approved_amount") in
  let? paid := int_or_zero (dget payload "paid_amount") in
  let? forfeited := int_or_zero (dget payload "forfeited_amount") in
  let? rolled := int_or_zero (dget payload "rolled_amount") in
  _hash_payload
    (fields_of payload ["budget_source_id"; "emission_epoch_id"; "lane"; "reward_window_id"; "window_start_at";
                        "window_end_at"] ++
     [("requested_amount", VInt requested); ("approved_amount", VInt approved); ("paid_amount", VInt paid);
      ("forfeited_amount", VInt forfeited); ("rolled_amount", VInt rolled)] ++
     fields_of payload ["state"; "policy_bundle_version"]).

Definition prior_approved (reward_window_id : string) (ledgers : list dict) : res Z :=
  let? amounts := mapR (fun row => int_or_zero (dget row "approved_amount"))
    (List.filter (fun row => negb (field_is "reward_window_id" reward_window_id row) &&
                             negb (in_strings (dget row "state") ["cancelled"; "rejected"])) ledgers) in
  Ok (sum_Z amounts).

(** [getattr(settings, k, None)] of an optional text that must be there. *)
Definition require_text (o : option string) (msg : string) : res string :=
  match o with
  | Some s => if String.eqb s "" then Err (ValueError msg) else Ok s
  | None => Err (ValueError msg)
  end.

Definition budget_base (settings : ForecastSettings) (budget_disposition : dict) (lane reward_window_id : string)
  (window_start_at window_end_at : Z) (policy_bundle_version : value) (requested approved paid forfeited : Z) : dict :=
  [("budget_source_id", por (vopt_str (poker_mtt_budget_source_id settings)) (VStr "unbudgeted"));
   ("emission_epoch_id", por (vopt_str (poker_mtt_emission_epoch_id settings)) (VStr "unbudgeted"));
   ("lane", VStr lane);
   ("reward_window_id", VStr reward_window_id);
   ("window_start_at", VStr (iso_format window_start_at));
   ("window_end_at", VStr (iso_format window_end_at));
   ("requested_amount", VInt requested);
   ("approved_amount", VInt approved);
   ("paid_amount", VInt paid);
   ("forfeited_amount", VInt forfeited);
   ("rolled_amount", VInt 0);
   ("state", por (dget budget_disposition "state") (VStr "reserved"));
   ("policy_bundle_version", policy_bundle_version)].

Definition _prepare_poker_mtt_budget_ledger (settings : ForecastSettings) (budget_disposition : dict)
  (lane reward_window_id : string) (window_start_at window_end_at : Z) (policy_bundle_version : value) (current : Z)
  : repo (dict * option dict) :=
  let*? requested_amount := int_or_zero (dget budget_disposition "requested_reward_pool_amount") in
  let*? paid_amount := int_or_zero (dget budget_disposition "paid_amount") in
  let*? forfeited_amount := int_or_zero (dget budget_disposition "forfeited_amount") in
  let approved := dget budget_disposition "approved_amount" in
  let*? approved_amount := if is_none approved then Ok (Z.max (requested_amount - forfeited_amount) 0)
                           else py_int approved in
  let base_payload := budget_base settings budget_disposition lane reward_window_id window_start_at window_end_at
                        policy_bundle_version requested_amount approved_amount paid_amount forfeited_amount in
  if negb (poker_mtt_budget_enforcement_enabled settings) then
    let*? budget_root := _poker_mtt_budget_root base_payload in
    sret (dupdate budget_disposition
            [("budget_source_id", VNone); ("emission_epoch_id", VNone); ("budget_root", VStr budget_root);
             ("budget_enforcement", VStr "disabled")], None)
  else
    let epoch_budget_amount := poker_mtt_emission_epoch_budget_amount settings in
    let*? budget_source_id := require_text (poker_mtt_budget_source_id settings)
      "poker mtt budget_source_id is required when budget enforcement is enabled" in
    let*? emission_epoch_id := require_text (poker_mtt_emission_epoch_id settings)
      "poker mtt emission_epoch_id is required when budget enforcement is enabled" in
    let*? _ := guard (negb (epoch_budget_amount <=? 0)) (ValueError "poker mtt emission epoch budget must be positive") in
    let* existing_ledgers := list_poker_mtt_budget_ledgers (Some budget_source_id) (Some emission_epoch_id) None None in
    let*? prior_approved_amount := prior_approved reward_window_id existing_ledgers in
    let*? _ := guard (negb (epoch_budget_amount <? prior_approved_amount + approved_amount))
                 (ValueError "poker mtt reward window exceeds emission epoch budget") in
    let ledger_payload := dupdate base_payload [("budget_source_id", VStr budget_source_id);
                                                ("emission_epoch_id", VStr emission_epoch_id)] in
    let*? budget_root := _poker_mtt_budget_root ledger_payload in
    let ledger := ("id", VStr ("poker_mtt_budget:" +:+ budget_source_id +:+ ":" +:+ emission_epoch_id +:+ ":" +:+
                               reward_window_id)) ::
      ledger_payload ++
      [("settlement_batch_id", VNone); ("budget_root", VStr budget_root);
       ("created_at", VStr (iso_format current)); ("updated_at", VStr (iso_format current))] in
    sret (dupdate budget_disposition
            [("budget_source_id", VStr budget_source_id);
             ("emission_epoch_id", VStr emission_epoch_id);
             ("emission_epoch_budget_amount", VInt epoch_budget_amount);
             ("approved_amount", VInt approved_amount);
             ("budget_used_before", VInt prior_approved_amount);
             ("budget_remaining_after", VInt (epoch_budget_amount - prior_approved_amount - approved_amount));
             ("budget_root", VStr budget_root);
             ("budget_enforcement", VStr "enabled")], Some ledger).

(** ** Selecting the results of a window *)

(** [d.get(v)] in a dictionary with text keys. *)
Definition row_for (v : value) (m : list (string * dict)) : option dict :=
  match v with VStr k => aget k m | _ => None end.

(** [int(v)] where a TypeError or ValueError means that there is no number. *)
Definition int_or_none (v : value) : res (option Z) :=
  match py_int v with
  | Ok n => Ok (Some n)
  | Err TypeError | Err (ValueError _) => Ok None
  | Err e => Err e
  end.

Definition _poker_mtt_final_ranking_matches_legacy_result (row : dict) (tournament_id miner_address : value)
  (final_rank : Z) (result : dict) (policy_bundle_version : value) : res bool :=
  if negb (py_eq (dget row "tournament_id") tournament_id) then Ok false
  else if negb (py_eq (por (dget row "miner_address") (dget row "source_user_id")) miner_address) then Ok false
  else if negb (field_is "rank_state" "ranked" row) then Ok false
  else
    let? rank := int_or_none (dget row "rank") in
    match rank with
    | None => Ok false
    | Some rank =>
        if negb (rank =? final_rank) then Ok false
        else if existsb (fun field => truthy (dget result field) && negb (py_eq (dget row field) (dget result field)))
                  ["standing_snapshot_id"; "standing_snapshot_hash"; "evidence_root"; "evidence_state"]
        then Ok false
        else
          let policy := dget row "policy_bundle_version" in
          Ok (negb (truthy policy && negb (py_eq policy policy_bundle_version)))
    end.

(** The checks that a candidate result passes to be paid. *)
Definition result_is_selected (final_rankings_by_id miners_by_address : list (string * dict)) (current : Z)
  (result : dict) : res bool :=
  let anchorable_at := por (dget result "anchorable_at") (dget result "locked_at") in
  if negb (truthy anchorable_at) then Ok false
  else
    let? at_ := as_utc_datetime anchorable_at in
    if current <? at_ then Ok false
    else
      let? final_rank := int_or_none (dget result "final_rank") in
      match final_rank with
      | None => Ok false
      | Some final_rank =>
          let? final_ranking_id := dgetitem result "final_ranking_id" in
          match row_for final_ranking_id final_rankings_by_id with
          | None => Ok false
          | Some final_ranking =>
              let? tournament_id := dgetitem result "tournament_id" in
              let? miner_address := dgetitem result "miner_address" in
              let? evaluation_version := dgetitem result "evaluation_version" in
              let? matches := _poker_mtt_final_ranking_matches_legacy_result final_ranking tournament_id
                                miner_address final_rank result evaluation_version in
              if negb matches then Ok false
              else
                let? blocker := _poker_mtt_reward_identity_blocker (row_for miner_address miners_by_address) current in
                Ok (match blocker with Some _ => false | None => true end)
          end
      end.

(** ** Corrections *)

Definition _poker_mtt_reputation_correction_refs (corrections : list dict) : res (list dict) :=
  let refs := map (fun correction =>
    fields_of correction ["id"; "target_entity_id"; "previous_root"; "corrected_root"; "reason"; "created_at"])
    corrections in
  sort_rows (keys_or_empty ["target_entity_id"; "created_at"; "id"]) false refs.

Definition _group_poker_mtt_corrections_by_result_id (corrections : list dict) (selected_result_ids : list string)
  : res (list (string * list dict)) :=
  let grouped := map (fun result_id => (result_id, @nil dict)) selected_result_ids in
  let grouped := fold_left (fun grouped correction =>
    match dget correction "target_entity_id" with
    | VStr id => if ahas id grouped then aappend id correction grouped else grouped
    | _ => grouped
    end) corrections grouped in
  mapR (fun kv => let? rows := sort_rows (keys_or_empty ["created_at"; "id"]) false kv.2 in Ok (kv.1, rows)) grouped.

Definition corrections_of (corrections_by_result_id : list (string * list dict)) (result_ids : list string) : list dict :=
  concat (map (fun result_id => default [] (aget result_id corrections_by_result_id)) result_ids).

(** ** The input root *)

(** [sorted(refs, key=lambda item: item[k] or "")] *)
Definition sort_refs (k : string) (refs : list dict) : res (list dict) :=
  py_sort py_lt (fun item => Ok (get_or_empty k item)) false refs.

Definition final_ranking_ref (final_ranking : dict) : dict :=
  fields_of final_ranking ["id"; "tournament_id"] ++
  [("miner_address", por (dget final_ranking "miner_address") (dget final_ranking "source_user_id"))] ++
  fields_of final_ranking ["rank"; "rank_state"; "standing_snapshot_id"; "standing_snapshot_hash"; "evidence_root";
                           "evidence_state"; "policy_bundle_version"].

Definition refs_for (ref : dict -> dict) (k : string) (m : list (string * dict)) (results : list dict) : list dict :=
  omap (fun result => option_map ref (non_empty (row_for (dget result k) m))) results.

Definition _poker_mtt_reward_window_input_root (selected_results : list dict)
  (final_rankings_by_id miners_by_address rating_snapshots_by_miner : list (string * dict))
  (multiplier_input_rows : list dict) : res string :=
  let? sorted := py_sort py_lt (fun item => dgetitem item "id") false selected_results in
  let result_refs := map (fun result =>
    fields_of result ["id"; "tournament_id"; "miner_address"; "economic_unit_id"; "final_rank"; "total_score";
                      "final_ranking_id"; "standing_snapshot_id"; "standing_snapshot_hash"; "evidence_root";
                      "evidence_state"; "evaluation_version"; "locked_at"; "anchorable_at"]) sorted in
  let? final_ranking_refs :=
    sort_refs "id" (refs_for final_ranking_ref "final_ranking_id" final_rankings_by_id sorted) in
  let? miner_refs := sort_refs "address"
    (refs_for (fun miner => fields_of miner
       ["address"; "economic_unit_id"; "poker_mtt_user_id"; "poker_mtt_auth_source"; "poker_mtt_reward_bound";
        "poker_mtt_reward_bound_at"; "poker_mtt_is_synthetic"; "poker_mtt_identity_expires_at";
        "poker_mtt_identity_revoked_at"]) "miner_address" miners_by_address sorted) in
  let? rating_refs := sort_refs "miner_address"
    (refs_for (fun snapshot => fields_of snapshot
       ["id"; "miner_address"; "window_start_at"; "window_end_at"; "public_rating"; "public_rank"; "confidence";
        "policy_bundle_version"]) "miner_address" rating_snapshots_by_miner sorted) in
  _hash_payload
    [("result_refs", VList (map VDict result_refs));
     ("final_ranking_refs", VList (map VDict final_ranking_refs));
     ("miner_refs", VList (map VDict miner_refs));
     ("rating_refs", VList (map VDict rating_refs));
     ("multiplier_refs", VList (map VDict multiplier_input_rows))].

(** ** Reputation *)

Definition _poker_mtt_reputation_delta_cap (lane : string) : Z :=
  if String.eqb lane "poker_mtt_weekly" then 25 else 10.

Definition _poker_mtt_reputation_prior_score_ref (miner_address : value)
  (rating_snapshots_by_miner : list (string * dict)) : value :=
  match row_for miner_address rating_snapshots_by_miner with
  | Some snapshot => if truthy (dget snapshot "id") then dget snapshot "id" else VStr "none"
  | None => VStr "none"
  end.

Definition _poker_mtt_reputation_delta_from_weight (score_weight : float) (delta_cap : Z) : res Z :=
  let weight := if is_zero score_weight then fzero else score_weight in
  let? r := round_int (fmul (fmax fzero weight) (f_of_Z delta_cap)) in
  Ok (Z.max 0 (Z.min delta_cap r)).

(** The fields of the window that every reputation row repeats. *)
Record reputation_context := {
  rep_lane : string;
  rep_reward_window_id : string;
  rep_settlement_batch_id : value;
  rep_window_start_at : Z;
  rep_window_end_at : Z;
  rep_policy_bundle_version : value;
  rep_aggregation_policy_version : string
}.

Definition result_unit (result : dict) : res string :=
  let unit := dget result "economic_unit_id" in
  if truthy unit then as_key unit else let? a := dgetitem result "miner_address" in as_key a.

Definition reputation_row (c : reputation_context) (results_by_economic_unit : list (string * list dict))
  (reward_allocations : list (string * Z)) (rating_snapshots_by_miner : list (string * dict))
  (corrections_by_result_id : list (string * list dict)) (economic_unit_id : string) (a : unit_aggregate) : res dict :=
  let delta_cap := _poker_mtt_reputation_delta_cap (rep_lane c) in
  let? source_results := py_sort py_lt (fun item => dgetitem item "id") false
                           (default [] (aget economic_unit_id results_by_economic_unit)) in
  let? source_ids := mapR (fun result => let? id := dgetitem result "id" in as_key id) source_results in
  let? correction_refs := _poker_mtt_reputation_correction_refs (corrections_of corrections_by_result_id source_ids) in
  let? delta := _poker_mtt_reputation_delta_from_weight (score_weight a) delta_cap in
  let? source_root := _hash_sequence (map VStr source_ids) in
  let? correction_root := _hash_sequence (map VDict correction_refs) in
  Ok [("schema_version", VStr "poker_mtt.reputation_delta.v1");
      ("reputation_delta_policy_version", VStr POKER_MTT_REPUTATION_DELTA_POLICY_VERSION);
      ("reward_window_id", VStr (rep_reward_window_id c));
      ("settlement_batch_id", rep_settlement_batch_id c);
      ("lane", VStr (rep_lane c));
      ("window_start_at", VStr (iso_format (rep_window_start_at c)));
      ("window_end_at", VStr (iso_format (rep_window_end_at c)));
      ("policy_bundle_version", rep_policy_bundle_version c);
      ("aggregation_policy_version", VStr (rep_aggregation_policy_version c));
      ("miner_address", representative_miner a);
      ("economic_unit_id", VStr economic_unit_id);
      ("prior_score_ref", _poker_mtt_reputation_prior_score_ref (representative_miner a) rating_snapshots_by_miner);
      ("delta", VInt delta);
      ("delta_cap", VInt delta_cap);
      ("reason", VStr "poker_mtt_window_performance");
      ("score_weight", VFloat (score_weight a));
      ("gross_reward_amount", VInt (default 0 (aget economic_unit_id reward_allocations)));
      ("submission_count", VInt (unit_submission_count a));
      ("source_result_ids_root", VStr source_root);
      ("source_result_count", VInt (Z.of_nat (length source_ids)));
      ("correction_count", VInt (Z.of_nat (length correction_refs)));
      ("correction_lineage_root", VStr correction_root)].

Definition _build_poker_mtt_reputation_delta_rows (c : reputation_context) (selected_results : list dict)
  (units : list (string * unit_aggregate)) (reward_allocations : list (string * Z))
  (rating_snapshots_by_miner : list (string * dict)) (corrections_by_result_id : list (string * list dict))
  : res (list dict) :=
  let? results_by_economic_unit := foldR (fun grouped result =>
    let? unit := result_unit result in Ok (aappend unit result grouped)) selected_results [] in
  let? rows := mapR (fun economic_unit_id =>
    match aget economic_unit_id units with
    | None => Ok None
    | Some a =>
        if fleb (score_weight a) fzero then Ok None
        else
          let? row := reputation_row c results_by_economic_unit reward_allocations rating_snapshots_by_miner
                        corrections_by_result_id economic_unit_id a in
          Ok (Some row)
    end) (sort_strings (akeys units)) in
  sort_rows (fun item => mapR (dgetitem item) ["economic_unit_id"; "miner_address"]) false (some_list rows).

(** ** The window *)

(** [existing_window and its projection artifact] *)
Record window_context := {
  existing_window : option dict;
  existing_projection_artifact : option dict
}.

Definition existing_field (c : window_context) (k : string) : value :=
  match existing_window c with Some w => dget w k | None => VNone end.

(** [batch and batch.get("state") not in {None, "open"}] *)
Definition batch_is_closed (batch : option dict) : bool :=
  match batch with
  | Some b => negb (is_none (dget b "state") || field_is "state" "open" b)
  | None => false
  end.

(** The batch of the existing window, if it names one. *)
Definition existing_batch_of (c : window_context) : repo (option dict) :=
  let batch := existing_field c "settlement_batch_id" in
  if truthy batch then let*? id := as_key batch in get_settlement_batch id else sret None.

Definition load_window_context (reward_window_id : string) : repo window_context :=
  let* existing := get_reward_window reward_window_id in
  match existing with
  | None => sret {| existing_window := None; existing_projection_artifact := None |}
  | Some w =>
      let* artifacts := list_artifacts_for_entity "reward_window" reward_window_id in
      sret {| existing_window := Some w;
              existing_projection_artifact := _poker_mtt_projection_artifact_from_refs artifacts |}
  end.

(** The arguments of [build_poker_mtt_reward_window], resolved. *)
Record window_args := {
  arg_lane : string;
  arg_start : Z;
  arg_end : Z;
  arg_pool : Z;
  arg_include_provisional : bool;
  arg_policy : value;
  arg_aggregation : string;
  arg_metadata : dict;
  arg_window_id : string;
  arg_current : Z
}.

(** What is selected and computed before anything is written. *)
Record window_inputs := {
  selected_results : list dict;
  selected_ids : list string;
  in_inputs : reward_window_inputs;
  in_corrections : list (string * list dict);
  correction_refs : list dict;
  correction_root : string;
  weighted_results : list dict;
  multiplier_rows : list dict;
  input_snapshot_root : string
}.

Definition gather_window_inputs (a : window_args) : repo window_inputs :=
  let* inputs := load_poker_mtt_reward_window_inputs (arg_start a) (arg_end a) (arg_include_provisional a) (arg_policy a) in
  let*? selected := filterR (result_is_selected (final_rankings_by_id inputs) (miners_by_address inputs)
                               (arg_current a)) (results inputs) in
  let*? _ := guard (negb (match selected with [] => true | _ => false end))
               (ValueError "no poker mtt results found for reward window") in
  let*? ids := mapR (fun result => let? id := dgetitem result "id" in as_key id) selected in
  let* all_corrections := list_poker_mtt_corrections (Some "poker_mtt_result") None in
  let*? corrections := _group_poker_mtt_corrections_by_result_id all_corrections (dedup_keys ids) in
  let*? refs := _poker_mtt_reputation_correction_refs
                  (corrections_of corrections (sort_strings (dedup_keys ids))) in
  let*? refs_root := _hash_sequence (map VDict refs) in
  let*? weighted := _poker_mtt_apply_effective_reward_multipliers selected (multiplier_snapshots_by_miner inputs) in
  let*? root := _poker_mtt_reward_window_input_root selected (final_rankings_by_id inputs)
                  (miners_by_address inputs) (rating_snapshots_by_miner inputs) weighted.2 in
  sret {| selected_results := selected; selected_ids := ids; in_inputs := inputs; in_corrections := corrections;
          correction_refs := refs; correction_root := refs_root; weighted_results := weighted.1;
          multiplier_rows := weighted.2; input_snapshot_root := root |}.

(** The stored projection was built from the same inputs, and the window has its batch or needs none. *)
Definition projection_is_current (settings : ForecastSettings) (c : window_context) (a : window_args)
  (i : window_inputs) : res bool :=
  match existing_window c, existing_projection_artifact c with
  | Some w, Some artifact =>
      let? p := artifact_payload (Some artifact) in
      Ok (py_eq_str (dget p "input_snapshot_root") (input_snapshot_root i) &&
          py_eq (dget p "reward_pool_amount") (VInt (arg_pool a)) &&
          py_eq (dget p "policy_bundle_version") (arg_policy a) &&
          py_eq_str (dget p "aggregation_policy_version") (arg_aggregation a) &&
          py_eq_str (dget p "correction_lineage_root") (correction_root i) &&
          truthy (dget p "reputation_delta_rows_root") &&
          match dget p "include_provisional" with VBool b => Bool.eqb b (arg_include_provisional a) | _ => false end &&
          (negb (poker_mtt_budget_enforcement_enabled settings) || truthy (dget p "budget_root")) &&
          (truthy (dget w "settlement_batch_id") || field_is "state" "no_positive_weight" w))
  | _, _ => Ok false
  end.

(** How the pool is disposed of. *)
Record disposition := {
  positive : bool;
  projected_batch : value;
  allocations : list (string * Z);
  budget_disposition : dict;
  window_state : string;
  saved_amount : Z
}.

Definition disposition_row (state : string) (requested approved forfeited : Z) : dict :=
  [("state", VStr state); ("requested_reward_pool_amount", VInt requested); ("approved_amount", VInt approved);
   ("paid_amount", VInt 0); ("forfeited_amount", VInt forfeited)].

(** [sum(weight for weight in weights if weight > 0) > 0] *)
Definition has_positive_weight (units : list (string * unit_aggregate)) : bool :=
  fltb fzero (fsum (List.filter (fltb fzero) (map (fun u => score_weight u.2) units))).

(** A window without positive weight pays nothing, and an open batch that it had is cancelled. *)
Definition dispose_pool (c : window_context) (a : window_args) (economic_unit_ids : list string)
  (reward_units : list (string * unit_aggregate)) : repo disposition :=
  if has_positive_weight reward_units then
    let*? allocated := _allocate_integer_pool_by_weights
      (map (fun u => (u, match aget u reward_units with Some g => score_weight g | None => fzero end)) economic_unit_ids)
      (arg_pool a) in
    sret {| positive := true;
            projected_batch := por (existing_field c "settlement_batch_id")
                                 (VStr ("sb_" +:+ str_removeprefix "rw_" (arg_window_id a)));
            allocations := allocated;
            budget_disposition := disposition_row "reserved" (arg_pool a) (arg_pool a) 0;
            window_state := "finalized"; saved_amount := arg_pool a |}
  else
    let* existing_batch := existing_batch_of c in
    do* match existing_batch with
        | Some batch =>
            if batch_is_closed existing_batch then sret tt
            else let*? id := dgetitem batch "id" in
                 let*? id := as_key id in
                 do* cancel_settlement_batch id (VInt 0) (VStr (iso_format (arg_current a))) in sret tt
        | None => sret tt
        end in
    sret {| positive := false; projected_batch := VNone;
            allocations := map (fun u => (u, 0)) economic_unit_ids;
            budget_disposition := disposition_row "forfeited" (arg_pool a) 0 (arg_pool a);
            window_state := "no_positive_weight"; saved_amount := 0 |}.

Definition unit_reward_row (units : list (string * unit_aggregate)) (allocated : list (string * Z)) (unit : string)
  : dict :=
  [("miner_address", match aget unit units with Some g => representative_miner g | None => VNone end);
   ("gross_reward_amount", VInt (default 0 (aget unit allocated)));
   ("submission_count", VInt (match aget unit units with Some g => unit_submission_count g | None => 0 end))].

Definition rating_row (rating_snapshots_by_miner : list (string * dict)) (miner_address : value)
  : res (option dict) :=
  match non_empty (row_for miner_address rating_snapshots_by_miner) with
  | None => Ok None
  | Some snapshot =>
      let? id := dgetitem snapshot "id" in
      let? address := dgetitem snapshot "miner_address" in
      let? start := dgetitem snapshot "window_start_at" in
      let? stop := dgetitem snapshot "window_end_at" in
      let? rating := dgetitem snapshot "public_rating" in
      Ok (Some [("rating_snapshot_id", id); ("miner_address", address); ("window_start_at", start);
                ("window_end_at", stop); ("public_rating", rating); ("public_rank", dget snapshot "public_rank");
                ("confidence", dget_or snapshot "confidence" (VFloat fzero))])
  end.

(** [sorted(({...} for result in results), key=lambda item: item["poker_mtt_result_id"])] *)
Definition result_refs (ks : list string) (results : list dict) : res (list dict) :=
  let? refs := mapR (fun result => let? id := dgetitem result "id" in
                                   Ok (("poker_mtt_result_id", id) :: fields_of result ks)) results in
  py_sort py_lt (fun item => dgetitem item "poker_mtt_result_id") false refs.

(** ** Storing the window *)

(** What is computed from the selected results for the window and its projection. *)
Record window_summary := {
  tournament_ids : list string;
  unit_ids : list string;
  units : list (string * unit_aggregate);
  reward_units : list (string * unit_aggregate);
  window_miners : list value
}.

Definition summarize_window (a : window_args) (i : window_inputs) : res window_summary :=
  let? tournaments := mapR (fun result => let? id := dgetitem result "tournament_id" in as_key id) (selected_results i) in
  let? units := _poker_mtt_aggregate_reward_weights (selected_results i) (arg_aggregation a)
                  (miners_by_address (in_inputs i)) in
  let? reward_units := _poker_mtt_aggregate_reward_weights (weighted_results i) (arg_aggregation a)
                         (miners_by_address (in_inputs i)) in
  let? miners := py_sorted (map (fun u => match aget u units with Some g => representative_miner g | None => VNone end)
                              (sort_strings (akeys units))) in
  Ok {| tournament_ids := sort_strings (dedup_keys tournaments); unit_ids := sort_strings (akeys units);
        units := units; reward_units := reward_units; window_miners := miners |}.

Definition candidate_window (c : window_context) (a : window_args) (i : window_inputs) (m : window_summary)
  (d : disposition) : dict :=
  let now := VStr (iso_format (arg_current a)) in
  [("id", VStr (arg_window_id a));
   ("lane", VStr (arg_lane a));
   ("state", VStr (window_state d));
   ("window_start_at", VStr (iso_format (arg_start a)));
   ("window_end_at", VStr (iso_format (arg_end a)));
   ("task_count", VInt (Z.of_nat (length (tournament_ids m))));
   ("submission_count", VInt (Z.of_nat (length (selected_results i))));
   ("miner_count", VInt (Z.of_nat (length (window_miners m))));
   ("total_reward_amount", VInt (saved_amount d));
   ("settlement_batch_id", if positive d then existing_field c "settlement_batch_id" else VNone);
   ("task_run_ids", vstrs (tournament_ids m));
   ("miner_addresses", VList (window_miners m));
   ("policy_bundle_version", arg_policy a);
   ("created_at", match existing_window c with Some w => dget_or w "created_at" now | None => now end);
   ("updated_at", now)].

(** A window that is stored as it is wanted is not written again; the flag tells whether it changed. *)
Definition store_window (c : window_context) (candidate : dict) : repo (dict * bool) :=
  match existing_window c with
  | Some w =>
      if _reward_window_storage_matches w candidate then sret (w, false)
      else let* saved := save_reward_window candidate in sret (saved, true)
  | None => let* saved := save_reward_window candidate in sret (saved, true)
  end.

(** The projection, without the roots that are hashed from it. *)
Definition projection_payload (a : window_args) (i : window_inputs) (m : window_summary) (d : disposition)
  (saved budget : dict) (miner_reward_rows reputation_rows rating_rows : list dict) : res dict :=
  let? id := dgetitem saved "id" in
  let? start := dgetitem saved "window_start_at" in
  let? stop := dgetitem saved "window_end_at" in
  let? budget_root := dgetitem budget "budget_root" in
  let ids := map VStr (sort_strings (selected_ids i)) in
  let? ids_root := _hash_sequence ids in
  let? ranking_refs := result_refs ["final_ranking_id"; "standing_snapshot_id"; "standing_snapshot_hash"] (selected_results i) in
  let? ranking_root := _hash_sequence (map VDict ranking_refs) in
  let? evidence_refs := result_refs ["evidence_root"; "evidence_state"] (selected_results i) in
  let? evidence_root := _hash_sequence (map VDict evidence_refs) in
  let? rating_root := _hash_sequence (map VDict rating_rows) in
  let? multiplier_root := _hash_sequence (map VDict (multiplier_rows i)) in
  let? reputation_root := _hash_sequence (map VDict reputation_rows) in
  let payload := dupdate
    [("reward_window_id", id);
     ("lane", VStr (arg_lane a));
     ("window_start_at", start);
     ("window_end_at", stop);
     ("reward_pool_amount", VInt (arg_pool a));
     ("policy_bundle_version", arg_policy a);
     ("aggregation_policy_version", VStr (arg_aggregation a));
     ("include_provisional", VBool (arg_include_provisional a));
     ("settlement_batch_id", projected_batch d);
     ("tournament_ids", vstrs (tournament_ids m));
     ("poker_mtt_result_ids_root", VStr ids_root);
     ("poker_mtt_result_count", VInt (Z.of_nat (length (selected_results i))));
     ("input_snapshot_root", VStr (input_snapshot_root i));
     ("correction_lineage_root", VStr (correction_root i));
     ("correction_count", VInt (Z.of_nat (length (correction_refs i))));
     ("miner_reward_rows", VList (map VDict miner_reward_rows));
     ("budget_disposition", VDict budget);
     ("budget_root", budget_root);
     ("final_ranking_root", VStr ranking_root);
     ("evidence_root", VStr evidence_root);
     ("rating_snapshot_root", VStr rating_root);
     ("multiplier_snapshot_root", VStr multiplier_root);
     ("reputation_delta_policy_version", VStr POKER_MTT_REPUTATION_DELTA_POLICY_VERSION);
     ("reputation_delta_rows_root", VStr reputation_root);
     ("reputation_delta_rows_count", VInt (Z.of_nat (length reputation_rows)));
     ("reputation_delta_rows_sample", VList (map VDict (take 10 reputation_rows)))] (arg_metadata a) in
  let payload := if (length ids <=? POKER_MTT_REWARD_WINDOW_RESPONSE_INLINE_LIMIT)%nat
                 then dset payload "poker_mtt_result_ids" (VList ids) else payload in
  let? root := _hash_payload payload in
  Ok (dset payload "projection_root" (VStr root)).

(** The main artifact and one for each page; the row of the main one is returned. *)
Definition page_artifact_rows (prefix kind entity_type : string) (entity_id : value) (pages : list dict) (now : Z)
  : res (list dict) :=
  mapR (fun page =>
    let? index := dgetitem page "page_index" in
    let? index := py_str index in
    let? root := dgetitem page "page_root" in
    Ok (artifact_row (prefix +:+ index) kind entity_type entity_id (VDict page) root now)) pages.

Definition row_with_id (id : string) (rows : list dict) : repo dict :=
  match List.find (field_is "id" id) rows with
  | Some row => sret row
  | None => sraise (Unmodelled "next() of an exhausted generator")
  end.

Definition _upsert_poker_mtt_reward_window_projection_artifact (settings : ForecastSettings) (reward_window : dict)
  (now : Z) (payload : dict) : repo dict :=
  let*? paged := build_paged_poker_mtt_projection_payload payload (poker_mtt_projection_artifact_page_size settings) in
  let '(payload, pages) := paged in
  let*? entity_id := dgetitem reward_window "id" in
  let*? id := py_str entity_id in
  let artifact_id := "art:reward_window:" +:+ id +:+ ":poker_mtt_projection" in
  let*? hash := _hash_payload payload in
  let*? page_rows := page_artifact_rows (artifact_id +:+ ":miner_rewards:") "poker_mtt_reward_window_projection_page"
                       "reward_window" entity_id pages now in
  let* saved := save_artifacts_bulk
    (artifact_row artifact_id "poker_mtt_reward_window_projection" "reward_window" entity_id (VDict payload)
       (VStr hash) now :: page_rows) in
  row_with_id artifact_id saved.

Definition save_budget (ledger : option dict) : repo unit :=
  match ledger with
  | Some l => do* save_poker_mtt_budget_ledger l in sret tt
  | None => sret tt
  end.

(** The part of the function that writes. *)
Definition write_poker_window (settings : ForecastSettings) (c : window_context) (a : window_args) (i : window_inputs)
  : repo dict :=
  let*? m := summarize_window a i in
  let* d := dispose_pool c a (unit_ids m) (reward_units m) in
  let* prepared := _prepare_poker_mtt_budget_ledger settings (budget_disposition d) (arg_lane a) (arg_window_id a)
                     (arg_start a) (arg_end a) (arg_policy a) (arg_current a) in
  let '(budget, budget_ledger) := prepared in
  let miner_reward_rows := map (unit_reward_row (units m) (allocations d)) (unit_ids m) in
  let ratings := rating_snapshots_by_miner (in_inputs i) in
  let*? rating_rows := mapR (rating_row ratings) (window_miners m) in
  let*? rating_rows := sort_rows (fun item => mapR (dgetitem item) ["miner_address"; "rating_snapshot_id"]) false
                         (some_list rating_rows) in
  let*? reputation_rows := _build_poker_mtt_reputation_delta_rows
    {| rep_lane := arg_lane a; rep_reward_window_id := arg_window_id a; rep_settlement_batch_id := projected_batch d;
       rep_window_start_at := arg_start a; rep_window_end_at := arg_end a; rep_policy_bundle_version := arg_policy a;
       rep_aggregation_policy_version := arg_aggregation a |}
    (selected_results i) (units m) (allocations d) ratings (in_corrections i) in
  let*? materialized := _materialize_reward_window (candidate_window c a i m d) in
  let* stored := store_window c materialized.1 in
  let '(saved, reward_window_changed) := stored in
  do* save_budget budget_ledger in
  do* _upsert_reward_window_artifact saved (arg_current a) in
  let*? payload := projection_payload a i m d saved budget miner_reward_rows reputation_rows rating_rows in
  let*? existing_projection := artifact_payload (existing_projection_artifact c) in
  let projection_changed := negb (py_eq (dget existing_projection "projection_root") (dget payload "projection_root")) in
  let* projection_artifact := _upsert_poker_mtt_reward_window_projection_artifact settings saved (arg_current a) payload in
  let* saved := if positive d && (reward_window_changed || projection_changed ||
                                  negb (truthy (existing_field c "settlement_batch_id")))
                then _sync_single_reward_window_settlement_batch saved (arg_current a)
                else sret saved in
  let*? saved_id := dgetitem saved "id" in
  let*? saved_id := as_key saved_id in
  let* stored := get_reward_window saved_id in
  let returned := match stored with Some w => w | None => saved end in
  do* match budget_ledger with
      | Some ledger =>
          if py_eq (dget returned "settlement_batch_id") (dget ledger "settlement_batch_id") then sret tt
          else
            do* save_poker_mtt_budget_ledger (dupdate ledger
                  [("settlement_batch_id", dget returned "settlement_batch_id");
                   ("updated_at", VStr (iso_format (arg_current a)))]) in
            sret tt
      | None => sret tt
      end in
  slift (_summarize_reward_window_response returned (Some projection_artifact)).

Definition build_poker_mtt_reward_window (settings : ForecastSettings) (lane : string)
  (window_start_at window_end_at reward_pool_amount : Z) (include_provisional : bool)
  (policy_bundle_version : option string) (projection_metadata : dict) (reward_window_id : option string) (now : Z)
  : repo dict :=
  let*? _ := guard (String.eqb lane "poker_mtt_daily" || String.eqb lane "poker_mtt_weekly")
               (ValueError "invalid poker mtt reward window lane") in
  let window_start := drop_microseconds window_start_at in
  let window_end := drop_microseconds window_end_at in
  let*? _ := guard (window_start <? window_end) (ValueError "window_end_at must be after window_start_at") in
  let resolved_id := match reward_window_id with
                     | Some id => if String.eqb id "" then _poker_mtt_reward_window_id lane window_start window_end else id
                     | None => _poker_mtt_reward_window_id lane window_start window_end
                     end in
  let* c := load_window_context resolved_id in
  let* existing_batch := existing_batch_of c in
  if batch_is_closed existing_batch
  then slift (_summarize_reward_window_response (default [] (existing_window c)) (existing_projection_artifact c))
  else
    let a := {| arg_lane := lane; arg_start := window_start; arg_end := window_end; arg_pool := reward_pool_amount;
                arg_include_provisional := include_provisional;
                arg_policy := por (por (vopt_str policy_bundle_version) (existing_field c "policy_bundle_version"))
                                (VStr (_default_poker_mtt_policy_bundle_version settings lane));
                arg_aggregation := _poker_mtt_reward_aggregation_policy_version settings;
                arg_metadata := projection_metadata; arg_window_id := resolved_id;
                arg_current := drop_microseconds now |} in
    let* i := gather_window_inputs a in
    let*? current := projection_is_current settings c a i in
    if current
    then slift (_summarize_reward_window_response (default [] (existing_window c)) (existing_projection_artifact c))
    else write_poker_window settings c a i.

(** ** All closed windows ([_build_poker_mtt_reward_windows]) *)

Record lane_config := {
  lane_name : string;
  lane_pool : Z;
  lane_bucket : Z -> Z;
  lane_size : Z
}.

Definition lane_configs (settings : ForecastSettings) : list lane_config :=
  [{| lane_name := "poker_mtt_daily"; lane_pool := poker_mtt_daily_reward_pool_amount settings;
      lane_bucket := _day_bucket_start; lane_size := day |};
   {| lane_name := "poker_mtt_weekly"; lane_pool := poker_mtt_weekly_reward_pool_amount settings;
      lane_bucket := _week_bucket_start; lane_size := 7 * day |}].

(** The window of a candidate, if the candidate counts for the lane and the window is closed. *)
Definition closed_window_of (config : lane_config) (policy : string) (current : Z) (result : dict) : res (option Z) :=
  if negb (truthy (dget result "locked_at")) || negb (rated_human result) then Ok None
  else
    let? matches := result_policy_matches_reward_window (dget result "evaluation_version") (VStr policy) in
    if negb matches || negb (evidence_ready result) || negb (multiplier_ready result) then Ok None
    else
      let? locked_at := as_utc_datetime (dget result "locked_at") in
      let window_start := lane_bucket config locked_at in
      Ok (if current <? window_start + lane_size config then None else Some window_start).

Definition group_closed (config : lane_config) (policy : string) (current : Z) (grouped : list (Z * list dict))
  (result : dict) : res (list (Z * list dict)) :=
  let? window := closed_window_of config policy current result in
  Ok (match window with Some window_start => aappend window_start result grouped | None => grouped end).

Definition build_closed_window (settings : ForecastSettings) (config : lane_config) (policy : string) (current : Z)
  (group : Z * list dict) : repo unit :=
  let '(window_start, results) := group in
  let provisional_count := length (List.filter (fun r => negb (field_is "evaluation_state" "final" r)) results) in
  let provisional := (0 <? provisional_count)%nat in
  let window_end := window_start + lane_size config in
  let watermark_at := window_end + second * poker_mtt_finalization_watermark_seconds settings in
  if provisional && (current <? watermark_at) then sret tt
  else
    let reward_window_id := _poker_mtt_reward_window_id (lane_name config) window_start window_end in
    let* existing_window := get_reward_window reward_window_id in
    let* existing_batch := existing_batch_of {| existing_window := existing_window; existing_projection_artifact := None |} in
    if batch_is_closed existing_batch then sret tt
    else
      do* build_poker_mtt_reward_window settings (lane_name config) window_start window_end (lane_pool config)
            provisional (Some policy)
            [("completeness_mode", VStr (if provisional then "watermark_release" else "all_final"));
             ("provisional_result_count", VInt (Z.of_nat provisional_count));
             ("watermark_at", VStr (iso_format watermark_at))]
            (Some reward_window_id) current in
      sret tt.

Definition start_before (a b : Z * list dict) : bool := a.1 <? b.1.

Definition build_lane_windows (settings : ForecastSettings) (current : Z) (candidates : list dict)
  (config : lane_config) : repo unit :=
  let policy := _default_poker_mtt_policy_bundle_version settings (lane_name config) in
  let*? grouped := foldR (group_closed config policy current) candidates [] in
  forS (build_closed_window settings config policy current) (sort_by start_before grouped).

Definition _build_poker_mtt_reward_windows (settings : ForecastSettings) (now : Z) : repo unit :=
  if negb (poker_mtt_reward_windows_enabled settings) then sret tt
  else
    let current := drop_microseconds now in
    match List.filter (fun config => 0 <? lane_pool config) (lane_configs settings) with
    | [] => sret tt
    | active =>
        let lookback := poker_mtt_reward_window_reconcile_lookback_days settings in
        let lookback_days := if lookback =? 0 then 35 else lookback in
        let* candidates := list_poker_mtt_closed_reward_window_candidates
          (current - day * Z.max 1 lookback_days) current
          (map (fun config => _default_poker_mtt_policy_bundle_version settings (lane_name config)) active) 100000 in
        forS (build_lane_windows settings current candidates) active
    end.

Definition record_poker_mtt_correction (target_entity_type target_entity_id : string) (corrected_payload : dict)
  (reason operator_id : string) (now : Z) : repo dict :=
  let*? _ := guard (String.eqb target_entity_type "poker_mtt_result")
               (ValueError "unsupported poker mtt correction target") in
  let* current_rows := list_poker_mtt_results in
  match List.find (fun row => field_is "id" target_entity_id row) current_rows with
  | None => sraise (ValueError "poker mtt correction target not found")
  | Some previous =>
      let root payload := _hash_payload [("target_entity_type", VStr target_entity_type);
                                         ("target_entity_id", VStr target_entity_id); ("payload", VDict payload)] in
      let*? previous_root := root previous in
      let*? corrected_root := root corrected_payload in
      let current := drop_microseconds now in
      let correction_id := "poker_mtt_correction:" +:+ target_entity_type +:+ ":" +:+ target_entity_id +:+ ":" +:+
                           str_take 16 (str_removeprefix "sha256:" corrected_root) in
      save_poker_mtt_correction
        [("id", VStr correction_id);
         ("target_entity_type", VStr target_entity_type);
         ("target_entity_id", VStr target_entity_id);
         ("previous_root", VStr previous_root);
         ("corrected_root", VStr corrected_root);
         ("reason", VStr reason);
         ("operator_id", VStr operator_id);
         ("created_at", VStr (iso_format current))]
  end.
