(* ===== verification/Tournaments.v ===== *)
(** * Administration of tournaments ([forecast_engine.py])

    Results of tournaments are recorded in two ways: sent by the game server
    ([apply_poker_mtt_results], and [apply_arena_results] of the old arena) or
    projected from the stored final rankings ([project_poker_mtt_final_rankings]).
    Both roll the reward multiplier of the miner.  Around them stand the
    evidence manifests of a tournament, its hidden evaluation and the ratings. *)
From Stdlib Require Import ZArith Lia String SpecFloat.
From stdpp Require Import base list strings.
From S2P Require Import Prelude PyText PyFloat PyTime PyValue Sha256 Canonical PokerResults Evidence Hud Repository.
From S2P Require Import Forecast RewardRows Economic Miners Submissions Windows PokerWindow.
Open Scope Z_scope.

Definition iso_value (t : Z) : value := VStr (iso_format t).

(** [if not miner: raise ValueError(f"miner not found: {miner_address}")] *)
Definition known_miner (miner_address : string) : repo dict :=
  require (get_miner miner_address) ("miner not found: " +:+ miner_address).

(** ** One row an economic unit *)

(** [int(v)], or a rank behind all others. *)
Definition normalized_rank (rank : value) : res Z :=
  if is_none rank then Ok (10 ^ 9)
  else let? n := int_or_none rank in Ok (default (10 ^ 9) n).

Definition chip_count (row : dict) : res float :=
  match py_float (por (dget_or row "chip" (VFloat fzero)) (VFloat fzero)) with
  | Ok x => Ok x
  | Err TypeError | Err (ValueError _) => Ok fzero
  | Err e => Err e
  end.

Definition _poker_mtt_projection_row_sort_key (row : dict) : res (list value) :=
  let rank := dget row "rank" in
  let? normalized := normalized_rank rank in
  let? chip := chip_count row in
  let? entry_number := int_or_zero (dget row "entry_number") in
  let? member_id := str_or_empty (dget row "member_id") in
  let? id := str_or_empty (dget row "id") in
  Ok [VInt (if field_is "rank_state" "ranked" row && negb (is_none rank) then 0 else 1);
      VInt normalized; VFloat (fneg chip); VInt entry_number; VStr member_id; VStr id].

Definition projection_group (row : dict) : res string :=
  let key := por (por (por (dget row "economic_unit_id") (dget row "miner_address"))
                      (dget row "source_user_id")) (dget row "member_id") in
  as_key (if truthy key then key else dget_or row "id" (VStr "")).

(** [sort_key(a) < sort_key(b)] *)
Definition row_before (a b : dict) : res bool :=
  let? ka := _poker_mtt_projection_row_sort_key a in
  let? kb := _poker_mtt_projection_row_sort_key b in
  tuple_lt ka kb.

Definition keep_first_row (grouped : rows) (row : dict) : res rows :=
  let? key := projection_group row in
  match aget key grouped with
  | None => Ok (aset key row grouped)
  | Some current => let? before := row_before row current in
                    Ok (if before then aset key row grouped else grouped)
  end.

Definition _canonical_poker_mtt_projection_rows (items : list dict) : res (list dict) :=
  let? grouped := foldR keep_first_row items [] in
  sort_rows _poker_mtt_projection_row_sort_key false (avals grouped).

(** ** Payout ranks *)

Definition missing_rank (id : string) : exn := ValueError ("ranked_row_missing_payout_rank final_ranking_id=" +:+ id).
Definition list_text (l : list Z) : string := "[" +:+ str_join ", " (map string_of_Z l) +:+ "]".

(** The ranked rows; a ranked row without rank and a rank of another row are errors. *)
Fixpoint ranked_rows (items : list dict) : res (list dict) :=
  match items with
  | [] => Ok []
  | row :: items =>
      let rank := dget row "rank" in
      if field_is "rank_state" "ranked" row then
        if is_none rank then let? id := py_str (dget row "id") in Err (missing_rank id)
        else let? rest := ranked_rows items in Ok (row :: rest)
      else if is_none rank then ranked_rows items
      else
        let? id := py_str (dget row "id") in
        let? state := py_str (dget row "rank_state") in
        let? rank := py_str rank in
        Err (ValueError ("non_ranked_row_has_payout_rank final_ranking_id=" +:+ id +:+ " rank_state=" +:+ state +:+
                         " rank=" +:+ rank))
  end.

Definition payout_rank (row : dict) : res Z :=
  let? rank := dgetitem row "rank" in
  let? n := int_or_none rank in
  match n with
  | Some n => Ok n
  | None =>
      let? id := py_str (dget row "id") in
      let? text := py_str rank in
      Err (ValueError ("invalid_payout_rank final_ranking_id=" +:+ id +:+ " rank=" +:+ text))
  end.

Definition sorted_ints (l : list Z) : list Z := sort_by Z.ltb l.

Definition _validate_poker_mtt_payout_ranks (items : list dict) (field_size : Z) : res unit :=
  let? ranked := ranked_rows items in
  let n := Z.of_nat (length ranked) in
  let? _ := guard (n <=? field_size)
    (ValueError ("field_size_less_than_ranked_count field_size=" +:+ string_of_Z field_size +:+
                 " ranked_count=" +:+ string_of_Z n)) in
  let? ranks := mapR payout_rank ranked in
  let? _ := guard (Nat.eqb (length (dedup_keys ranks)) (length ranks))
    (ValueError ("non_unique_payout_rank ranks=" +:+ list_text (sorted_ints ranks))) in
  let expected := range 1 (n + 1) in
  guard (bool_decide (sorted_ints ranks = expected))
    (ValueError ("non_contiguous_payout_rank expected=" +:+ list_text expected +:+
                 " actual=" +:+ list_text (sorted_ints ranks))).

(** ** The rolling multiplier *)

(** [sum(item[k] for item in items) / max(1, len(items))] *)
Definition mean_of (k : string) (items : list dict) : res float :=
  let? total := foldR (fun acc item => let? v := dgetitem item k in py_add acc v) items (VInt 0) in
  py_truediv total (VInt (Z.max 1 (Z.of_nat (length items)))).

(** [round(clamp(1.0 + (score * 0.015), 0.96, 1.04), 6)] *)
Definition multiplier_from (score : float) : float :=
  round_digits 6 (Forecast.clamp (fadd fone (fmul score (flit 15 3))) (flit 96 2) (flit 104 2)).

(** The rolling score and the multiplier; neutral up to fifteen results. *)
Definition rolling_multiplier (eligible_count : nat) (eligible_results : list dict) : res (float * float) :=
  if Nat.leb eligible_count 15 then Ok (fzero, fone)
  else
    let? mean := mean_of "total_score" eligible_results in
    let rolling_score := round_digits 6 mean in
    Ok (rolling_score, multiplier_from rolling_score).

Definition _save_poker_mtt_multiplier_snapshot (miner_address : string) (source_result_id : value)
  (multiplier_before multiplier_after rolling_score : float) (policy_bundle_version : string) (now : Z)
  : repo (option dict) :=
  if feqb multiplier_before multiplier_after then sret None
  else
    let current := drop_microseconds now in
    let '(window_start, window_end) := _poker_mtt_multiplier_effective_window current in
    let*? source := py_str source_result_id in
    let* row := save_poker_mtt_multiplier_snapshot
      [("id", VStr ("poker_mtt_multiplier:" +:+ source));
       ("miner_address", VStr miner_address);
       ("source_result_id", source_result_id);
       ("multiplier_before", VFloat multiplier_before);
       ("multiplier_after", VFloat multiplier_after);
       ("rolling_score", VFloat rolling_score);
       ("effective_window_start_at", iso_value window_start);
       ("effective_window_end_at", iso_value window_end);
       ("policy_bundle_version", VStr policy_bundle_version);
       ("created_at", iso_value current);
       ("updated_at", iso_value current)] in
    sret (Some row).

(** The block [if eligible_for_multiplier] of both ways to record results. *)
Definition roll_multiplier (miner_address policy_bundle_version : string) (entry : dict)
  (multiplier_before : float) (now : Z) : repo (dict * (float * float)) :=
  let* eligible_results := list_poker_mtt_results_for_miner miner_address true (Some 20) in
  let* all_eligible := list_poker_mtt_results_for_miner miner_address true None in
  let*? (rolling_score, multiplier_after) := rolling_multiplier (length all_eligible) eligible_results in
  let* entry := save_poker_mtt_result
    (dupdate entry [("rolling_score", VFloat rolling_score); ("multiplier_after", VFloat multiplier_after);
                    ("updated_at", iso_value now)]) in
  do* update_poker_mtt_miner_multiplier miner_address (VFloat multiplier_after) (VTime now) in
  let*? source_result_id := dgetitem entry "id" in
  do* _save_poker_mtt_multiplier_snapshot miner_address source_result_id multiplier_before multiplier_after
        rolling_score policy_bundle_version now in
  sret (entry, (rolling_score, multiplier_after)).

(** [{row["final_ranking_id"]: row for row in ...}] *)
Definition hidden_eval_rows (tournament_id : string) : repo rows :=
  let* entries := list_poker_mtt_hidden_eval_entries_for_tournament tournament_id in
  let*? keyed := mapR (fun row => let? v := dgetitem row "final_ranking_id" in
                                  let? k := as_key v in Ok (k, row)) entries in
  sret (aupdate [] keyed).

Definition unit_interval (v : value) : res float :=
  let? x := py_float v in Ok (Forecast.clamp x (fneg fone) fone).
Definition hidden_score (entry : dict) : res float := unit_interval (dget_or entry "hidden_eval_score" (VFloat fzero)).

(** ** Recording the results of a tournament *)

Section Tournament.
Variables (tournament_id rated_or_practice : string) (human_only : bool) (field_size : Z)
  (policy_bundle_version : string).

Definition check_tournament : repo unit :=
  do* reject_if (negb (existsb (String.eqb rated_or_practice) ["rated"; "practice"])) "invalid rated_or_practice" in
  reject_if (field_size <? 2) "field_size must be at least 2".

Definition tournament_row (status : string) (created_at : value) (now : Z) : dict :=
  [("id", VStr tournament_id);
   ("runtime_source", VStr "lepoker-gameserver");
   ("rated_or_practice", VStr rated_or_practice);
   ("human_only", VBool human_only);
   ("field_size", VInt field_size);
   ("status", VStr status);
   ("policy_bundle_version", VStr policy_bundle_version);
   ("completed_at", iso_value now);
   ("created_at", created_at);
   ("updated_at", iso_value now)].

Definition tournament_answer (items : list dict) : dict :=
  [("tournament_id", VStr tournament_id);
   ("rated_or_practice", VStr rated_or_practice);
   ("human_only", VBool human_only);
   ("field_size", VInt field_size);
   ("policy_bundle_version", VStr policy_bundle_version);
   ("items", VList (map VDict items))].

(** What the stored final ranking says of a result that passed the gate: the
    reason against it, its lock and its anchoring time. *)
Definition canonical_ranking (miner_address : string) (final_rank : Z) (result : dict) (locked_at : value)
  : repo (value * value * value) :=
  let*? final_ranking_id := as_key (dget result "final_ranking_id") in
  let* final_ranking := get_poker_mtt_final_ranking final_ranking_id in
  match final_ranking with
  | None => sret (VStr "canonical_final_ranking_not_found", locked_at, VNone)
  | Some row =>
      let*? matches := _poker_mtt_final_ranking_matches_legacy_result row (VStr tournament_id) (VStr miner_address)
        final_rank result (VStr policy_bundle_version) in
      if negb matches then sret (VStr "canonical_final_ranking_mismatch", locked_at, VNone)
      else let locked_at := por (dget row "locked_at") locked_at in
           sret (VNone, locked_at, por (dget row "anchorable_at") locked_at)
  end.

(** The hidden evaluation of a result that is still eligible. *)
Definition evaluated (hidden_evals : rows) (final_ranking_id reason : value) : res (value * float) :=
  if negb (is_none reason) then Ok (reason, fzero)
  else match row_for final_ranking_id hidden_evals with
       | None => Ok (VStr "missing_hidden_eval", fzero)
       | Some entry => let? score := hidden_score entry in Ok (VNone, score)
       end.

(** The reason against a reported result before the stored ranking is read. *)
Definition reported_reason (result : dict) (final_rank : Z) (rank_state evidence_state : string) : value :=
  por (dget result "no_multiplier_reason")
    (vopt_str (reward_gate_reason (VStr rank_state) (VInt final_rank) rated_or_practice (VBool human_only)
       (VStr evidence_state) (VStr policy_bundle_version) (dget result "locked_at") (dget result "evidence_root")
       (dget result "final_ranking_id") (dget result "standing_snapshot_id"))).

(** A practice result may bring its own scores. *)
Definition reported_scores (result : dict) (reason : value) (percentile : float) : res (float * float) :=
  if py_eq_str reason "not_rated_or_not_human" then
    let? score := unit_interval (dget_or result "tournament_result_score" (VFloat percentile)) in
    let? consistency := unit_interval (dget_or result "consistency_input_score" (VFloat fzero)) in
    Ok (score, consistency)
  else Ok (percentile, fzero).

Definition legacy_result (hidden_evals : rows) (completed_at : Z) (result : dict) : repo dict :=
  let*? miner_address := dgetitem result "miner_id" in
  let*? miner_address := as_key miner_address in
  let* miner := known_miner miner_address in
  let*? final_rank := dgetitem result "final_rank" in
  let*? final_rank := py_int final_rank in
  do* reject_if ((final_rank <? 1) || (field_size <? final_rank)) "final_rank out of range" in
  let*? finish_percentile := tournament_result_score final_rank field_size in
  let*? multiplier_before := py_float (dget_or miner "poker_mtt_multiplier" (VFloat fone)) in
  let economic_unit_id := por (dget miner "economic_unit_id") (VStr miner_address) in
  let*? evaluation_state := py_str (por (dget result "evaluation_state") (VStr "provisional")) in
  let*? evidence_state := py_str (por (dget result "evidence_state") (VStr "pending")) in
  let*? rank_state := py_str (por (dget result "rank_state") (VStr "ranked")) in
  let reason := reported_reason result final_rank rank_state evidence_state in
  let*? (result_score, consistency_input_score) := reported_scores result reason finish_percentile in
  let* (reason, locked_at, canonical_anchorable_at) :=
    if is_none reason then canonical_ranking miner_address final_rank result (dget result "locked_at")
    else sret (reason, dget result "locked_at", VNone) in
  let*? (reason, hidden_eval_score) := evaluated hidden_evals (dget result "final_ranking_id") reason in
  let total := total_score result_score hidden_eval_score consistency_input_score in
  let eligible := is_none reason in
  let anchorable_at := por (por canonical_anchorable_at (dget result "anchorable_at"))
                           (if eligible then locked_at else VNone) in
  let*? reentry_count := py_int (por (dget result "reentry_count") (VInt 1)) in
  let*? anchor_state := py_str (por (dget result "anchor_state") (VStr "unanchored")) in
  let*? risk_flags := as_list (por (dget result "risk_flags") (VList (if eligible then [] else [reason]))) in
  let* entry := save_poker_mtt_result
    [("id", VStr ("poker_mtt:" +:+ tournament_id +:+ ":" +:+ miner_address));
     ("tournament_id", VStr tournament_id);
     ("miner_address", VStr miner_address);
     ("economic_unit_id", economic_unit_id);
     ("rated_or_practice", VStr rated_or_practice);
     ("human_only", VBool human_only);
     ("field_size", VInt field_size);
     ("final_rank", VInt final_rank);
     ("entry_number", dget result "entry_number");
     ("reentry_count", VInt reentry_count);
     ("finish_percentile", VFloat finish_percentile);
     ("tournament_result_score", VFloat result_score);
     ("hidden_eval_score", VFloat hidden_eval_score);
     ("consistency_input_score", VFloat consistency_input_score);
     ("total_score", VFloat total);
     ("eligible_for_multiplier", VBool eligible);
     ("rolling_score", VNone);
     ("multiplier_before", VFloat multiplier_before);
     ("multiplier_after", VFloat multiplier_before);
     ("evaluation_state", VStr evaluation_state);
     ("evaluation_version", VStr policy_bundle_version);
     ("rank_state", VStr rank_state);
     ("chip_delta", dget result "chip_delta");
     ("final_ranking_id", dget result "final_ranking_id");
     ("standing_snapshot_id", dget result "standing_snapshot_id");
     ("standing_snapshot_hash", dget result "standing_snapshot_hash");
     ("evidence_root", dget result "evidence_root");
     ("evidence_state", VStr evidence_state);
     ("locked_at", locked_at);
     ("anchorable_at", anchorable_at);
     ("anchor_state", VStr anchor_state);
     ("anchor_payload_hash", dget result "anchor_payload_hash");
     ("risk_flags", VList risk_flags);
     ("no_multiplier_reason", reason);
     ("created_at", iso_value completed_at);
     ("updated_at", iso_value completed_at)] in
  let* (rolling_score, multiplier_after) :=
    if eligible then
      let* (_, (rolling, after)) := roll_multiplier miner_address policy_bundle_version entry multiplier_before
                                      completed_at in
      sret (VFloat rolling, after)
    else sret (VNone, multiplier_before) in
  sret [("miner_id", VStr miner_address);
        ("final_rank", VInt final_rank);
        ("finish_percentile", VFloat finish_percentile);
        ("eligible_for_multiplier", VBool eligible);
        ("tournament_result_score", VFloat result_score);
        ("hidden_eval_score", VFloat hidden_eval_score);
        ("consistency_input_score", VFloat consistency_input_score);
        ("total_score", VFloat total);
        ("poker_mtt_multiplier", VFloat multiplier_after);
        ("rolling_score", rolling_score);
        ("no_multiplier_reason", reason)].

Definition apply_poker_mtt_results (results : list dict) (completed_at : Z) : repo dict :=
  do* check_tournament in
  do* save_poker_mtt_tournament (tournament_row "completed" (iso_value completed_at) completed_at) in
  let* hidden_evals := hidden_eval_rows tournament_id in
  let* items := mapS (legacy_result hidden_evals completed_at) results in
  sret (tournament_answer items).

(** ** Projecting the stored final rankings *)

(** A row with complete evidence needs its hidden evaluation. *)
Definition require_hidden_eval (hidden_evals : rows) (ranking_id : value) (projected : dict) : res dict :=
  if negb (field_is "evidence_state" "complete" projected) then Ok projected
  else match row_for ranking_id hidden_evals with
       | None =>
           let? flags := as_list (por (dget projected "risk_flags") (VList [])) in
           let flags := if existsb (fun f => py_eq_str f "missing_hidden_eval") flags then flags
                        else flags ++ [VStr "missing_hidden_eval"] in
           Ok (dupdate projected [("eligible_for_multiplier", VBool false); ("locked_at", VNone);
                                  ("anchorable_at", VNone); ("no_multiplier_reason", VStr "missing_hidden_eval");
                                  ("risk_flags", VList flags)])
       | Some entry =>
           let? score := hidden_score entry in
           let? result_score := dgetitem projected "tournament_result_score" in
           let? result_score := py_float result_score in
           let? consistency := py_float (por (dget projected "consistency_input_score") (VFloat fzero)) in
           Ok (dupdate projected [("hidden_eval_score", VFloat score);
                                  ("total_score", VFloat (total_score result_score score consistency))])
       end.

(** The result row of a final ranking, after all the gates. *)
Definition projected_result (hidden_evals : rows) (locked_at : Z) (miner : dict) (miner_address : string) (row : dict)
  : res dict :=
  let? projected := project_final_ranking_row row rated_or_practice (VBool human_only) field_size
                      (VStr policy_bundle_version) locked_at in
  let projected := dset projected "economic_unit_id" (por (dget miner "economic_unit_id") (VStr miner_address)) in
  let? projected := require_hidden_eval hidden_evals (dget row "id") projected in
  let? blocker := _poker_mtt_reward_identity_blocker (Some miner) locked_at in
  match blocker with
  | Some reason => _apply_poker_mtt_reward_identity_block projected reason
  | None => Ok projected
  end.

Definition project_ranking (hidden_evals : rows) (locked_at : Z) (row : dict) : repo dict :=
  let miner_address := por (dget row "miner_address") (dget row "source_user_id") in
  let*? _ := if truthy miner_address then Ok tt
             else let? id := py_str (dget row "id") in
                  Err (ValueError ("final ranking row missing miner address: " +:+ id)) in
  let*? miner_address := as_key miner_address in
  let* miner := known_miner miner_address in
  let*? projected := projected_result hidden_evals locked_at miner miner_address row in
  let*? multiplier_before := py_float (dget_or miner "poker_mtt_multiplier" (VFloat fone)) in
  let* entry := save_poker_mtt_result
    (dupdate projected [("multiplier_before", VFloat multiplier_before); ("multiplier_after", VFloat multiplier_before);
                        ("rolling_score", VNone)]) in
  let* (entry, rolling_score, multiplier_after) :=
    if is_true (dget entry "eligible_for_multiplier") then
      let* (entry, (rolling, after)) := roll_multiplier miner_address policy_bundle_version entry multiplier_before
                                          locked_at in
      sret (entry, VFloat rolling, after)
    else sret (entry, VNone, multiplier_before) in
  let*? risk_flags := as_list (por (dget entry "risk_flags") (VList [])) in
  sret [("miner_id", VStr miner_address);
        ("final_ranking_id", dget row "id");
        ("final_rank", dget entry "final_rank");
        ("eligible_for_multiplier", dget entry "eligible_for_multiplier");
        ("evidence_state", dget entry "evidence_state");
        ("locked_at", dget entry "locked_at");
        ("no_multiplier_reason", dget entry "no_multiplier_reason");
        ("risk_flags", VList risk_flags);
        ("tournament_result_score", dget entry "tournament_result_score");
        ("total_score", dget entry "total_score");
        ("poker_mtt_multiplier", VFloat multiplier_after);
        ("rolling_score", rolling_score)].

Definition project_poker_mtt_final_rankings (locked_at : Z) : repo dict :=
  do* check_tournament in
  do* reject_if (String.eqb policy_bundle_version "") "policy_bundle_version is required" in
  let locked_at := drop_microseconds locked_at in
  let* items := list_poker_mtt_final_rankings_for_tournament tournament_id in
  do* reject_if (match items with [] => true | _ => false end) "no poker mtt final rankings found" in
  let*? items := _canonical_poker_mtt_projection_rows items in
  let*? _ := _validate_poker_mtt_payout_ranks items field_size in
  let* hidden_evals := hidden_eval_rows tournament_id in
  let created_at := por (dget (default [] (head items)) "created_at") (iso_value locked_at) in
  do* save_poker_mtt_tournament (tournament_row "standings_ready" created_at locked_at) in
  let* items := mapS (project_ranking hidden_evals locked_at) items in
  sret (tournament_answer items).

(** ** The hidden evaluation of a tournament *)

Definition hidden_eval_row (seed_assignment_id : string) (baseline_sample_id : option string) (current : Z)
  (entry : dict) : res dict :=
  let miner_address := dget entry "miner_address" in
  let final_ranking_id := dget entry "final_ranking_id" in
  let? _ := guard (truthy miner_address) (ValueError "hidden eval entry missing miner_address") in
  let? _ := guard (truthy final_ranking_id) (ValueError "hidden eval entry missing final_ranking_id") in
  let? _ := guard (truthy (dget entry "evidence_root")) (ValueError "hidden eval entry missing evidence_root") in
  let? id := id_or entry "poker_mtt_hidden_eval" [VStr tournament_id; miner_address; final_ranking_id] in
  let? score := hidden_score entry in
  Ok [("id", id);
      ("tournament_id", VStr tournament_id);
      ("miner_address", miner_address);
      ("final_ranking_id", final_ranking_id);
      ("seed_assignment_id", por (dget entry "seed_assignment_id") (VStr seed_assignment_id));
      ("baseline_sample_id", por (dget entry "baseline_sample_id") (vopt_str baseline_sample_id));
      ("hidden_eval_score", VFloat score);
      ("score_components_json", por (dget entry "score_components_json") (VDict []));
      ("evidence_root", dget entry "evidence_root");
      ("manifest_root", VStr "");
      ("policy_bundle_version", VStr policy_bundle_version);
      ("visibility_state", por (dget entry "visibility_state") (VStr "service_internal"));
      ("created_at", iso_value current);
      ("updated_at", iso_value current)].

Definition artifact_ref (artifact : dict) : res dict :=
  let? kind := dgetitem artifact "kind" in
  let? id := dgetitem artifact "id" in
  let? payload_hash := dgetitem artifact "payload_hash" in
  Ok [("kind", kind); ("artifact_id", id); ("payload_hash", payload_hash)].

Definition finalize_poker_mtt_hidden_eval (seed_assignment_id : string) (baseline_sample_id : option string)
  (entries : list dict) (now : Z) : repo dict :=
  do* reject_if (String.eqb policy_bundle_version "") "policy_bundle_version is required" in
  do* reject_if (String.eqb seed_assignment_id "") "seed_assignment_id is required" in
  do* reject_if (match entries with [] => true | _ => false end) "hidden eval entries are required" in
  let current := drop_microseconds now in
  let*? items := mapR (hidden_eval_row seed_assignment_id baseline_sample_id current) entries in
  let*? manifest := build_hidden_eval_manifest tournament_id items policy_bundle_version in
  let*? manifest_root := dgetitem manifest "manifest_root" in
  let* saved_rows := mapS (fun row => save_poker_mtt_hidden_eval_entry (dset row "manifest_root" manifest_root)) items in
  let*? kind := dgetitem manifest "kind" in
  let*? kind_text := py_str kind in
  let* artifact := save_artifact
    (artifact_row ("art:poker_mtt_tournament:" +:+ tournament_id +:+ ":" +:+ kind_text) kind_text
       "poker_mtt_tournament" (VStr tournament_id) (VDict manifest) manifest_root current) in
  let*? ref := artifact_ref artifact in
  sret [("tournament_id", VStr tournament_id);
        ("policy_bundle_version", VStr policy_bundle_version);
        ("manifest", VDict manifest);
        ("artifact_ref", VDict ref);
        ("entries", VList (map VDict saved_rows))].
End Tournament.
