(* ===== verification/TournamentFacts.v ===== *)
(** * Facts about the projection of tournaments

    The rows that are projected are the best row of each economic unit, and the
    check of the payout ranks accepts exactly complete brackets 1..n. *)
From Stdlib Require Import ZArith Lia String SpecFloat Permutation Sorted.
From stdpp Require Import base list strings.
From S2P Require Import Prelude PyText PyFloat PyTime PyValue Sha256 Canonical PokerResults Repository RepositoryFacts.
From S2P Require Import Forecast RewardRows Economic Miners Submissions Windows PokerWindow Tournaments.
Open Scope Z_scope.

(** ** Payout ranks *)

Definition is_ranked (row : dict) : bool := field_is "rank_state" "ranked" row.
Definition rank_of (row : dict) : res Z := py_int (dget row "rank").

Lemma is_none_true v : is_none v = true <-> v = VNone.
Proof. by destruct v. Qed.

Lemma Forall_cons_In {A} (P : A -> Prop) x l :
  (forall y, x = y \/ In y l -> P y) <-> P x /\ forall y, In y l -> P y.
Proof. split; [intros H; split; [by apply H; left|by intros y Hy; apply H; right]|intros [Hx H] y [<-|Hy]; auto]. Qed.

Lemma ranked_rows_ok items l :
  ranked_rows items = Ok l <->
  l = List.filter is_ranked items /\
  forall row, In row items -> if is_ranked row then dget row "rank" <> VNone else dget row "rank" = VNone.
Proof.
  revert l. induction items as [|row items IH]; intros l; simpl.
  { split; [intros H; ok_inv; by split|by intros [-> _]]. }
  rewrite Forall_cons_In. change (field_is "rank_state" "ranked" row) with (is_ranked row).
  destruct (is_ranked row); simpl; destruct (is_none (dget row "rank")) eqn:N.
  - apply is_none_true in N. split; [intros H; ok_inv|by intros (_ & H & _)].
  - assert (dget row "rank" <> VNone) as Hne by (intros E; by rewrite E in N). split.
    + intros H; ok_inv. match goal with Hr : ranked_rows items = Ok _ |- _ => apply IH in Hr as [-> Hr]; by split end.
    + intros (-> & _ & H). by rewrite (proj2 (IH _) (conj eq_refl H)).
  - apply is_none_true in N. rewrite IH. split; [intros [-> H]; by split|intros (-> & _ & H); by split].
  - split; [intros H; ok_inv|intros (_ & E & _); by rewrite E in N].
Qed.

Lemma int_or_none_ok v n : int_or_none v = Ok (Some n) <-> py_int v = Ok n.
Proof. unfold int_or_none. destruct (py_int v) as [|[]]; naive_solver. Qed.

Lemma dget_some_field row k : dget row k <> VNone -> dgetitem row k = Ok (dget row k).
Proof. unfold dget, dget_or, dgetitem. by destruct (aget k row). Qed.

Lemma payout_rank_ok row n : dget row "rank" <> VNone -> payout_rank row = Ok n <-> rank_of row = Ok n.
Proof.
  intros Hr. unfold payout_rank, rank_of. rewrite (dget_some_field _ _ Hr). simpl.
  rewrite <- int_or_none_ok. destruct (int_or_none _) as [[k|]|]; simpl; [naive_solver| |naive_solver].
  split; [intros H; ok_inv|done].
Qed.

Lemma payout_ranks_ok l ranks :
  (forall row, In row l -> dget row "rank" <> VNone) -> mapR payout_rank l = Ok ranks <-> mapR rank_of l = Ok ranks.
Proof.
  intros H. split; intros Hm; apply mapR_ok in Hm; apply mapR_ok; revert Hm H;
    induction 1; constructor; (apply payout_rank_ok || apply IHHm || idtac); auto using in_eq, in_cons.
Qed.

Lemma dedup_keys_id (l : list Z) : NoDup l -> dedup_keys l = l.
Proof.
  induction 1 as [|x l Hx _ IH]; simpl; [done|]. destruct (existsb (Z.eqb x) l) eqn:E; [|by rewrite IH].
  apply existsb_exists in E as (y & Hy & Exy). apply Z.eqb_eq in Exy as <-. by apply list_elem_of_In in Hy.
Qed.

Lemma range_sorted a b : StronglySorted (ge Z.ltb) (range a b).
Proof.
  unfold range. generalize (b - a) as n. intros n. destruct (Z.leb_spec 0 n) as [Hn|Hn].
  2: { rewrite seqZ_nil by lia. constructor. }
  revert a. pattern n. apply natlike_ind; [by intros; constructor| |done]. clear n Hn b.
  intros n Hn IH a. rewrite seqZ_cons by lia. rewrite Z.pred_succ. constructor; [apply IH|].
  apply List.Forall_forall. intros x Hx. apply list_elem_of_In, elem_of_seqZ in Hx. unfold ge. lia.
Qed.

Lemma sorted_ints_range l a b : sorted_ints l = range a b <-> Permutation l (range a b).
Proof.
  split; intros H.
  - rewrite <- H. symmetry. apply sort_by_perm.
  - unfold sorted_ints. rewrite (sort_by_unique Z.ltb) with (l2 := range a b); [|intros; lia..|done].
    apply sort_by_id; [intros; lia..|apply range_sorted].
Qed.

Lemma rows_have_ranks items :
  (forall row, In row items -> if is_ranked row then dget row "rank" <> VNone else dget row "rank" = VNone) ->
  forall row, In row (List.filter is_ranked items) -> dget row "rank" <> VNone.
Proof. intros H row Hr%filter_In. destruct Hr as [Hin Hr]. specialize (H row Hin). by rewrite Hr in H. Qed.

(** What the check of the payout ranks accepts. *)
Lemma payout_ranks_accepted items n :
  _validate_poker_mtt_payout_ranks items n = Ok tt <->
  (forall row, In row items -> is_ranked row = false -> dget row "rank" = VNone) /\
  exists ranks, mapR rank_of (List.filter is_ranked items) = Ok ranks /\
    Z.of_nat (length ranks) <= n /\ Permutation ranks (range 1 (Z.of_nat (length ranks) + 1)).
Proof.
  unfold _validate_poker_mtt_payout_ranks. split.
  - intros H. ok_inv.
    match goal with H : ranked_rows _ = Ok _ |- _ => apply ranked_rows_ok in H as [-> Hrows] end.
    match goal with H : mapR payout_rank _ = Ok ?r |- _ => rename H into Hranks; pose proof (mapR_length _ _ _ Hranks) as Hlen end.
    apply payout_ranks_ok in Hranks; [|by apply rows_have_ranks].
    split; [intros row Hin Hr; specialize (Hrows row Hin); by rewrite Hr in Hrows|].
    match goal with H : mapR _ _ = Ok ?r |- _ => exists r end. rewrite Hlen. split_and!; [done|lia|].
    by apply sorted_ints_range, (bool_decide_eq_true_1 _).
  - intros (Hnone & ranks & Hranks & Hn & Hp).
    assert (Hrows : forall row, In row items -> if is_ranked row then dget row "rank" <> VNone else dget row "rank" = VNone).
    { intros row Hin. destruct (is_ranked row) eqn:E; [|auto]. intros Hr. apply mapR_ok in Hranks.
      destruct (Forall2_In_l _ _ _ row Hranks) as (k & _ & Hk); [by apply filter_In|].
      unfold rank_of in Hk. by rewrite Hr in Hk. }
    rewrite (proj2 (ranked_rows_ok items _) (conj eq_refl Hrows)). simpl.
    rewrite <- (mapR_length _ _ _ Hranks), (proj2 (Z.leb_le _ _) Hn). simpl.
    rewrite (proj2 (payout_ranks_ok _ ranks (rows_have_ranks _ Hrows)) Hranks). simpl.
    rewrite dedup_keys_id, Nat.eqb_refl. simpl.
    2: { rewrite Hp. apply NoDup_seqZ. }
    by rewrite bool_decide_true by (by apply sorted_ints_range).
Qed.

(** The check of the payout ranks accepts a list of final rankings exactly
    when its ranked rows hold the ranks 1, 2, ..., n, each once, with n within
    the field, and no other row has a rank. *)
Theorem payout_ranks_are_a_bracket items field_size :
  _validate_poker_mtt_payout_ranks items field_size = Ok tt <->
  (forall row, In row items -> is_ranked row = false -> dget row "rank" = VNone) /\
  exists ranks, mapR rank_of (List.filter is_ranked items) = Ok ranks /\
    Z.of_nat (length ranks) <= field_size /\ Permutation ranks (range 1 (Z.of_nat (length ranks) + 1)).
Proof. apply payout_ranks_accepted. Qed.

(** ** One row an economic unit *)

(** What decides first between two rows: ranked before others, then the rank. *)
Definition standing (row : dict) : res (Z * Z) :=
  let rank := dget row "rank" in
  let? n := normalized_rank rank in
  Ok (if is_ranked row && negb (is_none rank) then 0 else 1, n).

Definition standing_le (a b : Z * Z) : Prop := a.1 < b.1 \/ a.1 = b.1 /\ a.2 <= b.2.

Definition no_worse (a b : dict) : Prop :=
  exists sa sb, standing a = Ok sa /\ standing b = Ok sb /\ standing_le sa sb.

Lemma no_worse_trans a b c : no_worse a b -> no_worse b c -> no_worse a c.
Proof.
  intros (sa & sb & Ha & Hb & H1) (sb' & sc & Hb' & Hc & H2). exists sa, sc.
  assert (sb' = sb) as -> by congruence. split_and!; [done..|]. unfold standing_le in *. lia.
Qed.

Lemma sort_key_standing row k :
  _poker_mtt_projection_row_sort_key row = Ok k ->
  exists t n rest, standing row = Ok (t, n) /\ k = VInt t :: VInt n :: rest.
Proof.
  unfold _poker_mtt_projection_row_sort_key, standing. intros H. ok_inv.
  match goal with H : normalized_rank _ = Ok _ |- _ => rewrite H end. do 3 eexists. by split.
Qed.

Lemma row_before_standing a b c : row_before a b = Ok c -> if c then no_worse a b else no_worse b a.
Proof.
  unfold row_before. intros H. ok_inv.
  do 2 match goal with H : _poker_mtt_projection_row_sort_key _ = Ok _ |- _ =>
    apply sort_key_standing in H as (? & ? & ? & ? & ->) end.
  match goal with
  | Ha : standing a = Ok (?ta, ?na), Hb : standing b = Ok (?tb, ?nb) |- _ =>
      assert (if c then standing_le (ta, na) (tb, nb) else standing_le (tb, nb) (ta, na)) as Hle
  end.
  - unfold standing_le. simpl in H. simpl.
    repeat match type of H with context [match ?x ?= ?y with _ => _ end] => destruct (Z.compare_spec x y) end;
      simpl in H; try (injection H as <-); simpl; try lia. destruct c; lia.
  - unfold no_worse. destruct c; eauto 10.
Qed.

(** The groups after the rows [seen]. *)
Record grouped_ok (seen : list dict) (grouped : rows) : Prop := {
  groups_distinct : NoDup (akeys grouped);
  group_member : forall k row, aget k grouped = Some row -> projection_group row = Ok k /\ In row seen;
  group_best : forall row, In row seen -> exists k best,
    projection_group row = Ok k /\ aget k grouped = Some best /\ (best = row \/ no_worse best row)
}.

Lemma keep_first_row_ok seen grouped row grouped' :
  grouped_ok seen grouped -> keep_first_row grouped row = Ok grouped' -> grouped_ok (row :: seen) grouped'.
Proof.
  intros [Hnd Hmem Hbest] H. unfold keep_first_row in H. apply rbind_ok in H as (key & Hkey & H).
  assert (Hset : (forall best, aget key grouped = Some best -> no_worse row best) ->
    grouped_ok (row :: seen) (aset key row grouped)).
  { intros Hrow. split.
    - by apply NoDup_akeys_aset.
    - intros k r. rewrite aget_aset. simpl keqb. destruct (String.eqb_spec k key) as [->|].
      + intros [= <-]. split; [done|by left].
      + intros Hr. destruct (Hmem _ _ Hr). split; [done|by right].
    - intros r [<-|Hr].
      + exists key, row. rewrite aget_aset_eq. auto.
      + destruct (Hbest r Hr) as (k & best & Hk & Hb & Hle). exists k.
        rewrite aget_aset. simpl keqb. destruct (String.eqb_spec k key) as [->|]; [|by exists best].
        exists row. split_and!; [done..|]. right. specialize (Hrow _ Hb).
        destruct Hle as [<-|Hle]; [done|by eapply no_worse_trans]. }
  destruct (aget key grouped) as [current|] eqn:E.
  - apply rbind_ok in H as (before & Hbefore & H). apply row_before_standing in Hbefore.
    destruct before; ok_inv; [apply Hset; by intros best [= <-]|]. split; [done|..].
    + intros k r Hr. destruct (Hmem _ _ Hr). split; [done|by right].
    + intros r [<-|Hr]; [|by apply Hbest]. exists key, current. auto.
  - ok_inv. by apply Hset.
Qed.

Lemma keep_first_rows_ok items seen grouped grouped' :
  grouped_ok seen grouped -> foldR keep_first_row items grouped = Ok grouped' ->
  grouped_ok (rev items ++ seen) grouped'.
Proof.
  revert seen grouped. induction items as [|row items IH]; intros seen grouped Hg H; simpl in H; ok_inv; [done|].
  simpl. rewrite <- app_assoc. eapply IH; [|done]. by eapply keep_first_row_ok.
Qed.

Lemma canonical_rows_ok items out :
  _canonical_poker_mtt_projection_rows items = Ok out ->
  exists grouped, grouped_ok (rev items) grouped /\ Permutation out (avals grouped).
Proof.
  unfold _canonical_poker_mtt_projection_rows. intros H. ok_inv.
  match goal with H : foldR _ _ _ = Ok ?g |- _ => exists g; apply (keep_first_rows_ok _ []) in H end.
  - rewrite app_nil_r in *. split; [done|by eapply py_sort_perm].
  - split; [constructor|done..].
Qed.

(** C31: the rows that are projected are taken from the stored final rankings,
    no two of them belong to one economic unit, and every stored ranking is
    represented by a row of its own unit that ranks no worse, so that a player
    who entered several times is counted once, by the best finish. *)
Theorem one_best_row_per_unit items out :
  _canonical_poker_mtt_projection_rows items = Ok out ->
  (exists keys, mapR projection_group out = Ok keys /\ NoDup keys) /\
  (forall row, In row out -> In row items) /\
  (forall row, In row items -> exists key best,
     projection_group row = Ok key /\ In best out /\ projection_group best = Ok key /\
     (best = row \/ no_worse best row)).
Proof.
  intros H. apply canonical_rows_ok in H as (grouped & [Hnd Hmem Hbest] & Hp). split_and!.
  - assert (mapR projection_group (avals grouped) = Ok (akeys grouped)) as Hkeys.
    { apply mapR_ok. clear Hp Hbest. unfold avals, akeys. apply Forall2_fmap.
      apply Forall_Forall2_diag, List.Forall_forall. intros [k row] Hin.
      by apply (Hmem k row), aget_NoDup. }
    symmetry in Hp. destruct (mapR_perm _ _ _ _ Hp Hkeys) as (keys & Hk & Hpk).
    exists keys. split; [done|]. by rewrite <- Hpk.
  - intros row Hrow. apply (Permutation_in _ Hp) in Hrow. apply in_map_iff in Hrow as ([k r] & <- & Hin).
    rewrite in_rev. by apply (Hmem k), aget_NoDup.
  - intros row Hrow. rewrite in_rev in Hrow. destruct (Hbest row Hrow) as (k & best & Hk & Hb & Hle).
    exists k, best. split_and!; [done| |by apply Hmem|done].
    apply (Permutation_in _ (Permutation_sym Hp)), in_map_iff. exists (k, best). split; [done|by apply aget_In].
Qed.

Definition entry_row (id unit : string) (rank : value) (state : string) : dict :=
  [("id", VStr id); ("economic_unit_id", VStr unit); ("rank", rank); ("rank_state", VStr state)].
Definition sample_entries : list dict :=
  [entry_row "a1" "a" (VInt 3) "ranked"; entry_row "b1" "b" (VInt 1) "ranked"; entry_row "a2" "a" (VInt 2) "ranked";
   entry_row "c1" "c" VNone "duplicate_entry_collapsed"].

Lemma one_best_row_per_unit_witness :
  let out := [entry_row "b1" "b" (VInt 1) "ranked"; entry_row "a2" "a" (VInt 2) "ranked";
              entry_row "c1" "c" VNone "duplicate_entry_collapsed"] in
  _canonical_poker_mtt_projection_rows sample_entries = Ok out /\
  exists keys, mapR projection_group out = Ok keys /\ NoDup keys.
Proof. exact (conj eq_refl (proj1 (one_best_row_per_unit sample_entries _ eq_refl))). Defined.
