(* ===== verification/TournamentRecords.v ===== *)
(** * Records of tournaments: evidence, hand events, ratings, the old arena

    [build_poker_mtt_evidence_manifests] collects what is known of a tournament
    into manifests and says what is missing; [ingest_poker_mtt_hand_event] takes
    one message of the queue, whose failures and conflicts become rows;
    [build_poker_mtt_rating_snapshot] and [apply_arena_results] record ratings
    and the results of the old arena. *)
From Stdlib Require Import ZArith Lia String SpecFloat.
From stdpp Require Import base list strings.
From S2P Require Import Prelude PyText PyFloat PyTime PyValue Sha256 Canonical PokerResults Evidence Hud HandHistory.
From S2P Require Import Repository RepositoryFacts HandStores Forecast RewardRows Economic Miners Submissions Windows.
From S2P Require Import PokerWindow Tournaments.
Open Scope Z_scope.

(** ** Evidence manifests *)

Definition SHORT_TERM_HUD_MANIFEST_KIND : string := "poker_mtt_short_term_hud_manifest".
Definition LONG_TERM_HUD_MANIFEST_KIND : string := "poker_mtt_long_term_hud_manifest".

Definition POKER_MTT_EVIDENCE_REQUIRED_KINDS : list string :=
  [FINAL_RANKING_MANIFEST_KIND; HAND_HISTORY_MANIFEST_KIND; HIDDEN_EVAL_MANIFEST_KIND;
   CONSUMER_CHECKPOINT_MANIFEST_KIND; SHORT_TERM_HUD_MANIFEST_KIND; LONG_TERM_HUD_MANIFEST_KIND].
Definition POKER_MTT_EVIDENCE_DEGRADED_ALLOWLIST : list string :=
  [HIDDEN_EVAL_MANIFEST_KIND; SHORT_TERM_HUD_MANIFEST_KIND; LONG_TERM_HUD_MANIFEST_KIND].

(** [sorted(a - b)] of two sets of texts. *)
Definition sorted_difference (a b : list string) : list string :=
  sort_strings (List.filter (fun k => negb (mem_key k b)) a).

(** A manifest is built for the rows, if there are any. *)
Definition manifest_if_any (kind : string) (items : list dict) (build : res dict) : res (list (string * dict)) :=
  match items with
  | [] => Ok []
  | _ => let? manifest := build in Ok [(kind, manifest)]
  end.

Definition hud_manifest (tournament_id policy : string) (current : Z) (window_kind : string * string)
  : repo (list (string * dict)) :=
  let* items := list_poker_mtt_hud_snapshots (Some tournament_id) None (Some window_kind.1) in
  slift (manifest_if_any window_kind.2 items
           (build_hud_manifest tournament_id items policy (VTime current) window_kind.2)).

Definition lagging (row : dict) : res bool :=
  let? lag := int_or_zero (dget row "lag_messages") in Ok (0 <? lag).

(** What stands against complete evidence. *)
Definition blocked_reasons_of (complete_kinds : list string) (conflict_rows dlq_rows checkpoint_rows : list dict)
  : res (list string) :=
  let? lag := anyR lagging checkpoint_rows in
  Ok (map (fun kind => "missing_required:" +:+ kind)
        (sorted_difference POKER_MTT_EVIDENCE_REQUIRED_KINDS
           (complete_kinds ++ POKER_MTT_EVIDENCE_DEGRADED_ALLOWLIST)) ++
      match conflict_rows with [] => [] | _ => ["mq_conflict_manual_review"] end ++
      match dlq_rows with [] => [] | _ => ["mq_dlq_open"] end ++
      (if lag then ["mq_checkpoint_lag"] else [])).

Definition degraded_manifest (tournament_id policy kind : string) : res dict :=
  build_stub_manifest kind tournament_id policy "accepted_degraded"
    ("phase1_" +:+ str_removesuffix "_manifest" (str_removeprefix "poker_mtt_" kind) +:+ "_deferred").

Definition store_manifest (tournament_id : string) (current : Z) (manifest : dict) : repo dict :=
  let*? kind := dgetitem manifest "kind" in
  let*? kind := py_str kind in
  let*? root := dgetitem manifest "manifest_root" in
  let*? root_text := py_str root in
  let* artifact := save_artifact
    (artifact_row ("art:poker_mtt_tournament:" +:+ tournament_id +:+ ":" +:+ kind +:+ ":" +:+ root_text) kind
       "poker_mtt_tournament" (VStr tournament_id) (VDict manifest) root current) in
  slift (artifact_ref artifact).

Definition evidence_state_of (blocked_reasons : list string) (manifests : list dict) : string :=
  match blocked_reasons with
  | _ :: _ => "blocked"
  | [] => if existsb (field_is "evidence_state" "accepted_degraded") manifests then "accepted_degraded"
          else "complete"
  end.

(** The manifests of the rows that are stored, with their kinds, and the
    checkpoints of the consumers. *)
Definition collect_manifests (tournament_id policy : string) (current : Z) (rankings : list dict)
  : repo (list (string * dict) * list dict) :=
  let*? ranking := build_final_ranking_manifest tournament_id rankings policy in
  let* hands := list_poker_mtt_hand_events_for_tournament tournament_id in
  let*? hand := manifest_if_any HAND_HISTORY_MANIFEST_KIND hands
                  (build_hand_history_manifest tournament_id hands policy) in
  let* huds := mapS (hud_manifest tournament_id policy current)
                 [("short_term", SHORT_TERM_HUD_MANIFEST_KIND); ("long_term", LONG_TERM_HUD_MANIFEST_KIND)] in
  let* evals := list_poker_mtt_hidden_eval_entries_for_tournament tournament_id in
  let*? eval := manifest_if_any HIDDEN_EVAL_MANIFEST_KIND evals
                  (build_hidden_eval_manifest tournament_id evals policy) in
  let* checkpoint_rows := list_poker_mtt_mq_checkpoints (Some tournament_id) in
  let*? checkpoint := manifest_if_any CONSUMER_CHECKPOINT_MANIFEST_KIND checkpoint_rows
                        (build_consumer_checkpoint_manifest tournament_id checkpoint_rows policy) in
  sret ((FINAL_RANKING_MANIFEST_KIND, ranking) :: hand ++ concat huds ++ eval ++ checkpoint, checkpoint_rows).

Definition build_poker_mtt_evidence_manifests (tournament_id policy_bundle_version : string) (now : Z) : repo dict :=
  do* reject_if (String.eqb policy_bundle_version "") "policy_bundle_version is required" in
  let current := drop_microseconds now in
  let* rankings := list_poker_mtt_final_rankings_for_tournament tournament_id in
  do* reject_if (match rankings with [] => true | _ => false end) "no poker mtt final rankings found" in
  let* (complete, checkpoint_rows) := collect_manifests tournament_id policy_bundle_version current rankings in
  let complete_kinds := map fst complete in
  let* conflict_rows := list_poker_mtt_mq_conflicts (Some tournament_id) (Some "manual_review") in
  let* dlq_rows := list_poker_mtt_mq_dlq (Some tournament_id) (Some "open") in
  let*? blocked_reasons := blocked_reasons_of complete_kinds conflict_rows dlq_rows checkpoint_rows in
  let degraded_kinds := sorted_difference POKER_MTT_EVIDENCE_DEGRADED_ALLOWLIST complete_kinds in
  let*? degraded := mapR (degraded_manifest tournament_id policy_bundle_version) degraded_kinds in
  let manifests := map snd complete ++ degraded in
  let* artifact_refs := mapS (store_manifest tournament_id current) manifests in
  let*? artifact_refs := py_sort py_lt (fun ref => dgetitem ref "kind") false artifact_refs in
  let*? evidence_root := _hash_sequence (map VDict artifact_refs) in
  sret [("tournament_id", VStr tournament_id);
        ("policy_bundle_version", VStr policy_bundle_version);
        ("evidence_state", VStr (evidence_state_of blocked_reasons manifests));
        ("evidence_root", VStr evidence_root);
        ("artifact_refs", VList (map VDict artifact_refs));
        ("blocked_reasons", vstrs blocked_reasons);
        ("policy_degraded_kinds", vstrs degraded_kinds);
        ("generated_at", iso_value current)].

(** ** Messages of the queue *)

Definition of_event (e : option dict) (k : string) : value := match e with Some e => dget e k | None => VNone end.

Definition _save_poker_mtt_mq_checkpoint (event metadata : dict) (ingest_state : string) (now : Z) : repo dict :=
  let*? id := _poker_mtt_mq_checkpoint_id metadata in
  let*? topic := dgetitem metadata "topic" in
  let*? queue := dgetitem metadata "queue" in
  let*? consumer_group := dgetitem metadata "consumer_group" in
  let*? replay_root := _poker_mtt_mq_replay_root metadata event ingest_state in
  save_poker_mtt_mq_checkpoint
    [("id", VStr id);
     ("tournament_id", dget metadata "tournament_id");
     ("topic", topic);
     ("queue", queue);
     ("consumer_group", consumer_group);
     ("last_offset", dget metadata "offset");
     ("last_message_id", dget metadata "message_id");
     ("last_biz_id", dget metadata "biz_id");
     ("last_hand_id", dget metadata "hand_id");
     ("last_ingest_state", VStr ingest_state);
     ("replay_root", VStr replay_root);
     ("lag_messages", por (dget metadata "lag_messages") (VInt 0));
     ("lag_watermark_at", dget metadata "lag_watermark_at");
     ("source_json", por (dget metadata "source_json") (VDict []));
     ("last_processed_at", iso_value now);
     ("created_at", iso_value now);
     ("updated_at", iso_value now)].

Definition _save_poker_mtt_mq_conflict (event metadata : dict) (reason : string) (previous_event : option dict)
  (now : Z) : repo dict :=
  let checksum := dget event "checksum" in
  let previous_checksum := of_event previous_event "checksum" in
  let*? id := _poker_mtt_mq_row_id "poker_mtt_mq_conflict"
    [("tournament_id", dget metadata "tournament_id");
     ("hand_id", dget metadata "hand_id");
     ("message_id", dget metadata "message_id");
     ("biz_id", dget metadata "biz_id");
     ("checksum", checksum);
     ("previous_checksum", previous_checksum);
     ("conflict_reason", VStr reason)] in
  let*? topic := dgetitem metadata "topic" in
  let*? queue := dgetitem metadata "queue" in
  let*? consumer_group := dgetitem metadata "consumer_group" in
  save_poker_mtt_mq_conflict
    [("id", VStr id);
     ("tournament_id", dget metadata "tournament_id");
     ("hand_id", dget metadata "hand_id");
     ("topic", topic);
     ("queue", queue);
     ("consumer_group", consumer_group);
     ("offset", dget metadata "offset");
     ("message_id", dget metadata "message_id");
     ("biz_id", dget metadata "biz_id");
     ("version", dget event "version");
     ("checksum", checksum);
     ("previous_checksum", previous_checksum);
     ("conflict_reason", VStr reason);
     ("state", VStr "manual_review");
     ("payload_json", por (por (dget event "payload") (dget event "payload_json")) (VDict []));
     ("previous_payload_json", por (of_event previous_event "payload_json") (of_event previous_event "payload"));
     ("source_json", por (dget metadata "source_json") (VDict []));
     ("created_at", iso_value now);
     ("updated_at", iso_value now)].

Definition _save_poker_mtt_mq_dlq (event metadata : dict) (reason : string) (now : Z) : repo dict :=
  let*? id := _poker_mtt_mq_row_id "poker_mtt_mq_dlq"
    [("tournament_id", dget metadata "tournament_id");
     ("message_id", dget metadata "message_id");
     ("biz_id", dget metadata "biz_id");
     ("reason", VStr reason)] in
  let*? topic := dgetitem metadata "topic" in
  let*? queue := dgetitem metadata "queue" in
  let*? consumer_group := dgetitem metadata "consumer_group" in
  save_poker_mtt_mq_dlq
    [("id", VStr id);
     ("tournament_id", dget metadata "tournament_id");
     ("topic", topic);
     ("queue", queue);
     ("consumer_group", consumer_group);
     ("offset", dget metadata "offset");
     ("message_id", dget metadata "message_id");
     ("biz_id", dget metadata "biz_id");
     ("dlq_reason", VStr reason);
     ("state", VStr "open");
     ("payload_json", VDict event);
     ("source_json", por (dget metadata "source_json") (VDict []));
     ("created_at", iso_value now);
     ("updated_at", iso_value now)].

(** The copy of the event that is stored. *)
Definition stamped_event (event : dict) (current : Z) : dict :=
  let event := if dhas event "created_at" then event else dset event "created_at" (iso_value current) in
  dset event "updated_at" (iso_value current).

(** [try: result = await store.ingest(event)  except ValueError as exc: reason = str(exc)] *)
Definition try_ingest (event : dict) : repo (HandHistoryIngestResult + string) :=
  scatch_value_error (let* result := repository_ingest event in sret (inl result)) (fun reason => sret (inr reason)).

Definition opt_dict (d : option dict) : value := match d with Some d => VDict d | None => VNone end.

Definition ingest_poker_mtt_hand_event (event : dict) (now : Z) : repo dict :=
  let current := drop_microseconds now in
  let event := stamped_event event current in
  let*? metadata := _poker_mtt_mq_metadata event in
  let* outcome := try_ingest event in
  match outcome with
  | inr reason =>
      let* dlq := _save_poker_mtt_mq_dlq event metadata reason current in
      let* checkpoint := _save_poker_mtt_mq_checkpoint event metadata "dlq" current in
      sret [("state", VStr "dlq"); ("event", VNone); ("previous_event", VNone); ("reason", VStr reason);
            ("dlq", VDict dlq); ("checkpoint", VDict checkpoint)]
  | inl result =>
      let state := HandHistory.state result in
      let why := HandHistory.reason result in
      let previous := HandHistory.previous_event result in
      let* checkpoint := _save_poker_mtt_mq_checkpoint event metadata state current in
      let* conflict :=
        if String.eqb state "conflict" then
          let reason := match why with Some r => if String.eqb r "" then "hand_checksum_conflict" else r
                        | None => "hand_checksum_conflict" end in
          let* row := _save_poker_mtt_mq_conflict event metadata reason previous current in
          sret (VDict row)
        else sret VNone in
      sret [("state", VStr state); ("event", opt_dict (HandHistory.event result));
            ("previous_event", opt_dict previous); ("reason", vopt_str why);
            ("checkpoint", VDict checkpoint); ("conflict", conflict)]
  end.

(** ** Ratings *)

(** The two ratings are numbers or their text. *)
Definition build_poker_mtt_rating_snapshot (miner_address : string) (window_start_at window_end_at : value)
  (public_rating public_rank confidence : value) (policy_bundle_version : string) (now : Z) : repo dict :=
  do* known_miner miner_address in
  let*? window_start := utc_seconds window_start_at in
  let*? window_end := utc_seconds window_end_at in
  do* reject_if (window_end <=? window_start) "window_end_at must be after window_start_at" in
  let current := drop_microseconds now in
  let*? public_rating := py_float public_rating in
  let*? public_rank := if is_none public_rank then Ok VNone else let? n := py_int public_rank in Ok (VInt n) in
  let*? confidence := py_float confidence in
  save_poker_mtt_rating_snapshot
    [("id", VStr ("poker_mtt_rating:" +:+ miner_address +:+ ":" +:+ iso_format window_start +:+ ":" +:+
                  iso_format window_end));
     ("miner_address", VStr miner_address);
     ("window_start_at", iso_value window_start);
     ("window_end_at", iso_value window_end);
     ("public_rating", VFloat public_rating);
     ("public_rank", public_rank);
     ("confidence", VFloat (Forecast.clamp confidence fzero fone));
     ("policy_bundle_version", VStr policy_bundle_version);
     ("created_at", iso_value current);
     ("updated_at", iso_value current)].

(** ** The old arena *)

Definition arena_skill (eligible_count : nat) (eligible_results : list dict) : res (float * float) :=
  if Nat.leb eligible_count 15 then Ok (fzero, fone)
  else let? skill := mean_of "arena_score" eligible_results in Ok (skill, multiplier_from skill).

Definition roll_arena (miner_address : string) (entry : dict) (completed_at : Z) : repo (float * float) :=
  let* eligible_results := list_arena_results_for_miner miner_address true (Some 20) in
  let* all_eligible := list_arena_results_for_miner miner_address true None in
  let*? (skill, multiplier_after) := arena_skill (length all_eligible) eligible_results in
  do* save_arena_result
    (dupdate entry [("conservative_skill", VFloat skill); ("multiplier_after", VFloat multiplier_after);
                    ("updated_at", iso_value completed_at)]) in
  do* update_arena_miner_multiplier miner_address (VFloat multiplier_after) (VTime completed_at) in
  sret (skill, multiplier_after).

Definition arena_result (tournament_id rated_or_practice : string) (human_only : bool) (completed_at : Z)
  (result : dict) : repo dict :=
  let*? miner_address := dgetitem result "miner_id" in
  let*? miner_address := as_key miner_address in
  let* miner := known_miner miner_address in
  let*? score := dgetitem result "arena_score" in
  let*? arena_score := unit_interval score in
  let eligible := String.eqb rated_or_practice "rated" && human_only in
  let before := dget_or miner "arena_multiplier" (VFloat fone) in
  let* entry := save_arena_result
    [("id", VStr ("arena:" +:+ tournament_id +:+ ":" +:+ miner_address));
     ("tournament_id", VStr tournament_id);
     ("miner_address", VStr miner_address);
     ("rated_or_practice", VStr rated_or_practice);
     ("human_only", VBool human_only);
     ("eligible_for_multiplier", VBool eligible);
     ("arena_score", VFloat arena_score);
     ("conservative_skill", VNone);
     ("multiplier_after", before);
     ("created_at", iso_value completed_at);
     ("updated_at", iso_value completed_at)] in
  let* (skill, multiplier_after) :=
    if eligible then
      let* (skill, after) := roll_arena miner_address entry completed_at in sret (VFloat skill, VFloat after)
    else sret (VNone, before) in
  sret [("miner_id", VStr miner_address);
        ("eligible_for_multiplier", VBool eligible);
        ("arena_score", VFloat arena_score);
        ("arena_multiplier", multiplier_after);
        ("conservative_skill", skill)].

Definition apply_arena_results (settings : ForecastSettings) (tournament_id rated_or_practice : string)
  (human_only : bool) (results : list dict) (completed_at : Z) : repo dict :=
  do* reject_if (negb (legacy_arena_apply_enabled settings)) "legacy_arena_apply_disabled" in
  do* reject_if (negb (existsb (String.eqb rated_or_practice) ["rated"; "practice"])) "invalid rated_or_practice" in
  let* items := mapS (arena_result tournament_id rated_or_practice human_only completed_at) results in
  sret [("tournament_id", VStr tournament_id);
        ("rated_or_practice", VStr rated_or_practice);
        ("human_only", VBool human_only);
        ("items", VList (map VDict items))].
