(* ===== verification/EvidenceFacts.v ===== *)
(** * Facts about the evidence of tournaments

    [evidence_verdict] is the specification of the state that
    [build_poker_mtt_evidence_manifests] answers, as a function of the stored
    rows; and a message of the queue that is rejected or conflicts leaves a row
    that blocks the evidence of its tournament. *)
From Stdlib Require Import ZArith Lia String SpecFloat Permutation.
From stdpp Require Import base list strings.
From S2P Require Import Prelude PyText PyFloat PyTime PyValue Sha256 Canonical PokerResults Evidence Hud HandHistory.
From S2P Require Import Repository RepositoryFacts HandStores Forecast RewardRows Economic Miners Submissions Windows.
From S2P Require Import PokerWindow Tournaments TournamentRecords.
Open Scope Z_scope.

(** ** Rows that a query lists *)

Definition rows_where (t : table) (conds : list (string * string)) (s : FakeRepository) : list dict :=
  fold_left (fun items c => where_field c.1 (Some c.2) items) conds (avals (tab t s)).

Definition some_rows (t : table) (conds : list (string * string)) (s : FakeRepository) : bool :=
  match rows_where t conds s with [] => false | _ => true end.

(** The query only reads, and lists these rows in some order. *)
Definition lists (m : repo (list dict)) (t : table) (conds : list (string * string)) : Prop :=
  forall s l s', m s = (Ok l, s') -> s' = s /\ Permutation l (rows_where t conds s).

Lemma In_where_field k x items row :
  In row (where_field k (Some x) items) <-> In row items /\ field_is k x row = true.
Proof. simpl. rewrite <- !list_elem_of_In, list_elem_of_filter. tauto. Qed.

Lemma In_rows_where t conds s row :
  In row (rows_where t conds s) <-> In row (avals (tab t s)) /\ forallb (fun c => field_is c.1 c.2 row) conds = true.
Proof.
  unfold rows_where. generalize (avals (tab t s)) as items.
  induction conds as [|c conds IH]; intros items; cbn [fold_left forallb]; [tauto|].
  rewrite IH, In_where_field, andb_true_iff. tauto.
Qed.

Lemma some_rows_true t conds s row : In row (rows_where t conds s) -> some_rows t conds s = true.
Proof. unfold some_rows. by destruct (rows_where t conds s). Qed.

Lemma lists_sorted (t : table) conds (f : list dict -> list dict) (sort : list dict -> res (list dict)) :
  (forall s, f (avals (tab t s)) = rows_where t conds s) ->
  (forall l l', sort l = Ok l' -> Permutation l' l) ->
  lists (let* items := all_rows t in slift (sort (f items))) t conds.
Proof.
  intros Hf Hsort s l s' H. ok_inv. unfold all_rows, sgets in *. simplify_eq.
  split; [done|]. rewrite <- Hf. by apply Hsort.
Qed.

Ltac lists_of := intros; apply (lists_sorted _ _ _ (sort_rows _ _)); [done|intros ? ?; apply py_sort_perm].

Lemma lists_hands tid :
  lists (list_poker_mtt_hand_events_for_tournament tid) _poker_mtt_hand_events [("tournament_id", tid)].
Proof. lists_of. Qed.
Lemma lists_checkpoints tid :
  lists (list_poker_mtt_mq_checkpoints (Some tid)) _poker_mtt_mq_checkpoints [("tournament_id", tid)].
Proof. lists_of. Qed.
Lemma lists_conflicts tid state :
  lists (list_poker_mtt_mq_conflicts (Some tid) (Some state)) _poker_mtt_mq_conflicts
    [("tournament_id", tid); ("state", state)].
Proof. lists_of. Qed.
Lemma lists_dlq tid state :
  lists (list_poker_mtt_mq_dlq (Some tid) (Some state)) _poker_mtt_mq_dlq [("tournament_id", tid); ("state", state)].
Proof. lists_of. Qed.
Lemma lists_hud tid window :
  lists (list_poker_mtt_hud_snapshots (Some tid) None (Some window)) _poker_mtt_hud_snapshots
    [("tournament_id", tid); ("hud_window", window)].
Proof. lists_of. Qed.
Lemma lists_hidden_evals tid :
  lists (list_poker_mtt_hidden_eval_entries_for_tournament tid) _poker_mtt_hidden_eval_entries [("tournament_id", tid)].
Proof. lists_of. Qed.
Lemma lists_rankings tid :
  lists (list_poker_mtt_final_rankings_for_tournament tid) _poker_mtt_final_rankings [("tournament_id", tid)].
Proof. lists_of. Qed.

Definition nonempty {A} (l : list A) : bool := match l with [] => false | _ => true end.

Lemma lists_run m t conds s l s' :
  lists m t conds -> m s = (Ok l, s') ->
  s' = s /\ nonempty l = some_rows t conds s /\ Permutation l (rows_where t conds s).
Proof.
  intros Hm H. destruct (Hm _ _ _ H) as [-> Hp]. split_and!; [done| |done]. unfold some_rows, nonempty.
  destruct l, (rows_where t conds s); try done; [by apply Permutation_nil_cons in Hp|].
  symmetry in Hp. by apply Permutation_nil_cons in Hp.
Qed.

(** ** The verdict *)

(** A consumer that lags behind its queue. *)
Definition behind (row : dict) : bool := match lagging row with Ok true => true | _ => false end.

Definition evidence_blocked (tid : string) (s : FakeRepository) : bool :=
  negb (some_rows _poker_mtt_hand_events [("tournament_id", tid)] s) ||
  negb (some_rows _poker_mtt_mq_checkpoints [("tournament_id", tid)] s) ||
  some_rows _poker_mtt_mq_conflicts [("tournament_id", tid); ("state", "manual_review")] s ||
  some_rows _poker_mtt_mq_dlq [("tournament_id", tid); ("state", "open")] s ||
  existsb behind (rows_where _poker_mtt_mq_checkpoints [("tournament_id", tid)] s).

Definition evidence_verdict (tid : string) (s : FakeRepository) : string :=
  if evidence_blocked tid s then "blocked"
  else if some_rows _poker_mtt_hud_snapshots [("tournament_id", tid); ("hud_window", "short_term")] s &&
          some_rows _poker_mtt_hud_snapshots [("tournament_id", tid); ("hud_window", "long_term")] s &&
          some_rows _poker_mtt_hidden_eval_entries [("tournament_id", tid)] s
  then "complete" else "accepted_degraded".

(** ** The manifests *)

Definition kind_if (b : bool) (kind : string) : list string := if b then [kind] else [].

Definition kinds_of (hand short long eval checkpoint : bool) : list string :=
  FINAL_RANKING_MANIFEST_KIND :: kind_if hand HAND_HISTORY_MANIFEST_KIND ++
  (kind_if short SHORT_TERM_HUD_MANIFEST_KIND ++ kind_if long LONG_TERM_HUD_MANIFEST_KIND) ++
  kind_if eval HIDDEN_EVAL_MANIFEST_KIND ++ kind_if checkpoint CONSUMER_CHECKPOINT_MANIFEST_KIND.

Lemma missing_kinds h sh lg ev cp :
  nonempty (sorted_difference POKER_MTT_EVIDENCE_REQUIRED_KINDS
              (kinds_of h sh lg ev cp ++ POKER_MTT_EVIDENCE_DEGRADED_ALLOWLIST)) = negb h || negb cp.
Proof. by destruct h, sh, lg, ev, cp. Qed.

Lemma degraded_kinds h sh lg ev cp :
  nonempty (sorted_difference POKER_MTT_EVIDENCE_DEGRADED_ALLOWLIST (kinds_of h sh lg ev cp)) =
  negb (sh && lg && ev).
Proof. by destruct h, sh, lg, ev, cp. Qed.

(** Not a manifest of degraded evidence. *)
Definition sound (manifest : dict) : Prop := field_is "evidence_state" "accepted_degraded" manifest = false.

Lemma build_manifest_state kind t rows ks p e r m :
  build_manifest kind t rows ks p e r = Ok m -> dget m "evidence_state" = VStr e.
Proof. intros (nrows & root & h & _ & _ & _ & ->)%build_manifest_ok. by rewrite dget_dset. Qed.

Lemma complete_sound kind t rows ks p r m : build_manifest kind t rows ks p "complete" r = Ok m -> sound m.
Proof. intros H%build_manifest_state. unfold sound, field_is. by rewrite H. Qed.

Lemma hud_sound t rows p g k m : build_hud_manifest t rows p g k = Ok m -> sound m.
Proof. unfold build_hud_manifest. intros H. ok_inv. done. Qed.

Ltac built_complete f := intros m; unfold f; intros H; ok_inv; by eapply complete_sound.

Lemma ranking_sound t rows p : forall m, build_final_ranking_manifest t rows p = Ok m -> sound m.
Proof. built_complete build_final_ranking_manifest. Qed.
Lemma hand_sound t rows p : forall m, build_hand_history_manifest t rows p = Ok m -> sound m.
Proof. built_complete build_hand_history_manifest. Qed.
Lemma eval_sound t rows p : forall m, build_hidden_eval_manifest t rows p = Ok m -> sound m.
Proof. built_complete build_hidden_eval_manifest. Qed.
Lemma checkpoint_sound t rows p : forall m, build_consumer_checkpoint_manifest t rows p = Ok m -> sound m.
Proof. built_complete build_consumer_checkpoint_manifest. Qed.

Lemma manifest_if_any_ok kind items build l :
  manifest_if_any kind items build = Ok l -> (forall m, build = Ok m -> sound m) ->
  map fst l = kind_if (nonempty items) kind /\ Forall sound (map snd l).
Proof.
  intros H Hb. unfold manifest_if_any in H. destruct items; ok_inv; [done|].
  split; [done|]. repeat constructor. auto.
Qed.

Lemma hud_manifest_ok tid policy current window kind s l s' :
  hud_manifest tid policy current (window, kind) s = (Ok l, s') ->
  s' = s /\
  map fst l = kind_if (some_rows _poker_mtt_hud_snapshots [("tournament_id", tid); ("hud_window", window)] s) kind /\
  Forall sound (map snd l).
Proof.
  unfold hud_manifest. intros H. apply sbind_ok in H as (items & s1 & Hl & H). simpl fst in Hl.
  apply (lists_run _ _ _ _ _ _ (lists_hud _ _)) in Hl as (-> & <- & _). injection H as H ->.
  split; [done|]. apply manifest_if_any_ok in H; [done|]. intros m. apply hud_sound.
Qed.

Lemma collect_manifests_ok tid policy current rankings s complete checkpoint_rows s' :
  collect_manifests tid policy current rankings s = (Ok (complete, checkpoint_rows), s') ->
  s' = s /\ Permutation checkpoint_rows (rows_where _poker_mtt_mq_checkpoints [("tournament_id", tid)] s) /\
  map fst complete = kinds_of (some_rows _poker_mtt_hand_events [("tournament_id", tid)] s)
    (some_rows _poker_mtt_hud_snapshots [("tournament_id", tid); ("hud_window", "short_term")] s)
    (some_rows _poker_mtt_hud_snapshots [("tournament_id", tid); ("hud_window", "long_term")] s)
    (some_rows _poker_mtt_hidden_eval_entries [("tournament_id", tid)] s)
    (some_rows _poker_mtt_mq_checkpoints [("tournament_id", tid)] s) /\
  Forall sound (map snd complete).
Proof.
  unfold collect_manifests. intros H.
  apply sbind_ok in H as (ranking & s1 & Hr & H). injection Hr as Hr <-.
  apply sbind_ok in H as (hands & s1 & Hl & H). apply (lists_run _ _ _ _ _ _ (lists_hands _)) in Hl as (-> & <- & _).
  apply sbind_ok in H as (hand & s1 & Hh & H). injection Hh as Hh <-.
  apply sbind_ok in H as (huds & s1 & Hd & H). simpl in Hd.
  apply sbind_ok in Hd as (short & s2 & H1 & Hd). apply hud_manifest_ok in H1 as (-> & K1 & S1).
  apply sbind_ok in Hd as (rest & s2 & Hd & [= <- <-]). apply sbind_ok in Hd as (long & s3 & H2 & Hd).
  apply hud_manifest_ok in H2 as (-> & K2 & S2). apply sbind_ok in Hd as (nil & s3 & [= <- <-] & [= <- <-]).
  apply sbind_ok in H as (evals & s1 & Hl & H).
  apply (lists_run _ _ _ _ _ _ (lists_hidden_evals _)) in Hl as (-> & <- & _).
  apply sbind_ok in H as (eval & s1 & He & H). injection He as He <-.
  apply sbind_ok in H as (checkpoints & s1 & Hl & H).
  apply (lists_run _ _ _ _ _ _ (lists_checkpoints _)) in Hl as (-> & <- & Hp).
  apply sbind_ok in H as (checkpoint & s1 & Hc & H). injection Hc as Hc <-. injection H as <- <- <-.
  apply ranking_sound in Hr as Sr.
  apply manifest_if_any_ok in Hh as [Kh Sh]; [|by apply hand_sound].
  apply manifest_if_any_ok in He as [Ke Se]; [|by apply eval_sound].
  apply manifest_if_any_ok in Hc as [Kc Sc]; [|by apply checkpoint_sound].
  split_and!; [done..| |].
  - cbn [concat]. rewrite app_nil_r. cbn [map fst]. by rewrite !map_app, Kh, Ke, Kc, K1, K2.
  - cbn [concat]. rewrite app_nil_r. cbn [map snd]. rewrite !map_app.
    constructor; [done|]. by repeat (apply Forall_app; split).
Qed.


Lemma anyR_lagging l b : anyR lagging l = Ok b -> b = existsb behind l.
Proof.
  induction l as [|row l IH]; simpl; intros H; ok_inv; [done|]. unfold behind at 1.
  match goal with H : lagging row = Ok ?x |- _ => rewrite H; destruct x end; ok_inv; [done|auto].
Qed.

Lemma existsb_perm {A} (f : A -> bool) l l' : Permutation l l' -> existsb f l = existsb f l'.
Proof.
  induction 1; simpl; [done|congruence| |congruence]. destruct (f x), (f y); done.
Qed.

Lemma blocked_reasons_ok kinds conflicts dlq checkpoints reasons :
  blocked_reasons_of kinds conflicts dlq checkpoints = Ok reasons ->
  nonempty reasons =
    nonempty (sorted_difference POKER_MTT_EVIDENCE_REQUIRED_KINDS (kinds ++ POKER_MTT_EVIDENCE_DEGRADED_ALLOWLIST)) ||
    nonempty conflicts || nonempty dlq || existsb behind checkpoints.
Proof.
  unfold blocked_reasons_of. intros H. ok_inv.
  match goal with H : anyR _ _ = Ok _ |- _ => apply anyR_lagging in H as -> end.
  destruct (sorted_difference _ _); [|done]. destruct conflicts; [|done]. destruct dlq; [|done].
  by destruct (existsb behind checkpoints).
Qed.

(** The stubs that stand for missing evidence are degraded, each of them. *)
Lemma degraded_manifests tid policy kinds l :
  mapR (degraded_manifest tid policy) kinds = Ok l ->
  existsb (field_is "evidence_state" "accepted_degraded") l = nonempty kinds.
Proof.
  destruct kinds as [|kind kinds]; simpl; intros H; ok_inv; [done|]. simpl.
  match goal with H : degraded_manifest _ _ _ = Ok _ |- _ => rename H into Hm end.
  unfold degraded_manifest, build_stub_manifest in Hm. destruct (negb (existsb _ _)); [done|].
  destruct (negb _); [done|]. apply build_manifest_state in Hm. unfold field_is at 1. by rewrite Hm.
Qed.

Lemma sound_manifests l : Forall sound l -> existsb (field_is "evidence_state" "accepted_degraded") l = false.
Proof. induction 1 as [|m l Hm _ IH]; simpl; [done|]. by rewrite Hm. Qed.

Lemma evidence_state_verdict tid policy now s r s' :
  build_poker_mtt_evidence_manifests tid policy now s = (Ok r, s') ->
  dget r "evidence_state" = VStr (evidence_verdict tid s).
Proof.
  unfold build_poker_mtt_evidence_manifests. intros H.
  apply sbind_ok in H as (u & s1 & Hu & H). unfold reject_if in Hu.
  destruct (String.eqb policy ""); [done|]. injection Hu as <- <-.
  apply sbind_ok in H as (rankings & s1 & Hl & H). apply (lists_run _ _ _ _ _ _ (lists_rankings _)) in Hl as (-> & _).
  apply sbind_ok in H as (u' & s1 & Hu & H). destruct rankings as [|ranking rankings]; [done|]. injection Hu as _ <-.
  apply sbind_ok in H as ([complete checkpoints] & s1 & Hc & H).
  apply collect_manifests_ok in Hc as (-> & Hcp & Hkinds & Hsound).
  apply sbind_ok in H as (conflicts & s1 & Hl & H).
  apply (lists_run _ _ _ _ _ _ (lists_conflicts _ _)) in Hl as (-> & Hconf & _).
  apply sbind_ok in H as (dlq & s1 & Hl & H). apply (lists_run _ _ _ _ _ _ (lists_dlq _ _)) in Hl as (-> & Hdlq & _).
  apply sbind_ok in H as (reasons & s1 & Hr & H). injection Hr as Hr <-.
  apply sbind_ok in H as (degraded & s1 & Hd & H). injection Hd as Hd <-.
  apply sbind_ok in H as (refs & s1 & _ & H). apply sbind_ok in H as (sorted & s2 & Hs & H).
  apply sbind_ok in H as (root & s3 & Hroot & [= <- _]).
  rewrite Hkinds in Hr, Hd. apply blocked_reasons_ok in Hr. apply degraded_manifests in Hd.
  rewrite missing_kinds, Hconf, Hdlq, (existsb_perm _ _ _ Hcp) in Hr. rewrite degraded_kinds in Hd.
  cbn [dget dget_or aget keqb string_key]. simpl. f_equal. unfold evidence_verdict, evidence_blocked, evidence_state_of.
  rewrite <- Hr. destruct reasons; simpl; [|done].
  rewrite existsb_app, (sound_manifests _ Hsound), Hd. simpl. by destruct (_ && _ && _).
Qed.

(** ** Messages that leave a mark *)

(** The tournament that a message names. *)
Definition message_tournament (event : dict) (now : Z) : res value :=
  let? metadata := _poker_mtt_mq_metadata (stamped_event event (drop_microseconds now)) in
  Ok (dget metadata "tournament_id").

Lemma saved_is_listed t row conds s r s' :
  save_row t row s = (Ok r, s') -> NoDup (akeys row) ->
  Forall (fun c => aget c.1 row = Some (VStr c.2)) conds -> some_rows t conds s' = true.
Proof.
  intros H Hnd Hconds. assert (exists id, aget "id" row = Some (VStr id)) as (id & Hid).
  { unfold save_row, save_keyed in H. apply sbind_ok in H as (v & s1 & [= Hv _] & H).
    apply sbind_ok in H as (id & s2 & [= Hk _] & _). apply as_key_ok in Hk as ->. apply dgetitem_ok in Hv. eauto. }
  unfold save_row in H. rewrite (save_keyed_run _ _ _ _ _ Hid) in H. injection H as <- <-.
  apply (some_rows_true _ _ _ (merged t id row s)), In_rows_where. rewrite tab_set_tab_eq. split.
  - apply in_map_iff. exists (id, merged t id row s). split; [done|]. apply aget_In. by rewrite aget_aset_eq.
  - apply forallb_forall. intros c Hc. rewrite List.Forall_forall in Hconds. specialize (Hconds c Hc).
    apply py_eq_str_spec, dget_aget. by rewrite merged_field, Hconds.
Qed.

Lemma saved_elsewhere t t' row conds s r s' :
  save_row t row s = (r, s') -> t <> t' -> some_rows t' conds s' = some_rows t' conds s.
Proof.
  intros H Ht. assert (tab t' s' = tab t' s) as E; [|unfold some_rows, rows_where; by rewrite E].
  unfold save_row, save_keyed, sbind, slift, sget, put_row, sput, sret in H.
  repeat case_match; simplify_eq; try done. unfold sbind, sget in H. simpl in H. simplify_eq.
  apply tab_set_tab_ne. congruence.
Qed.

Lemma dlq_row_listed event metadata reason now s row s' tid :
  _save_poker_mtt_mq_dlq event metadata reason now s = (Ok row, s') -> dget metadata "tournament_id" = VStr tid ->
  some_rows _poker_mtt_mq_dlq [("tournament_id", tid); ("state", "open")] s' = true.
Proof.
  unfold _save_poker_mtt_mq_dlq. intros H Htid. ok_inv.
  match goal with H : save_poker_mtt_mq_dlq _ _ = _ |- _ => eapply (saved_is_listed _poker_mtt_mq_dlq _ _ _ _ _ H) end.
  - nodup_keys.
  - repeat constructor. simpl. by rewrite Htid.
Qed.

Lemma conflict_row_listed event metadata reason previous now s row s' tid :
  _save_poker_mtt_mq_conflict event metadata reason previous now s = (Ok row, s') ->
  dget metadata "tournament_id" = VStr tid ->
  some_rows _poker_mtt_mq_conflicts [("tournament_id", tid); ("state", "manual_review")] s' = true.
Proof.
  unfold _save_poker_mtt_mq_conflict. intros H Htid. ok_inv.
  match goal with H : save_poker_mtt_mq_conflict _ _ = _ |- _ =>
    eapply (saved_is_listed _poker_mtt_mq_conflicts _ _ _ _ _ H) end.
  - nodup_keys.
  - repeat constructor. simpl. by rewrite Htid.
Qed.

Lemma checkpoint_keeps_dlq event metadata state now s r s' conds :
  _save_poker_mtt_mq_checkpoint event metadata state now s = (Ok r, s') ->
  some_rows _poker_mtt_mq_dlq conds s' = some_rows _poker_mtt_mq_dlq conds s.
Proof.
  unfold _save_poker_mtt_mq_checkpoint. intros H. ok_inv.
  repeat match goal with H : (_, _) = (Ok _, _) |- _ => injection H as _ <- end.
  match goal with H : save_poker_mtt_mq_checkpoint _ _ = _ |- _ =>
    by apply (saved_elsewhere _poker_mtt_mq_checkpoints _ _ _ _ _ _ H) end.
Qed.

(** The repository answers with one of its own states. *)
Lemma hand_event_answer e s row s' :
  save_poker_mtt_hand_event e s = (Ok row, s') ->
  exists answer, aget "state" row = Some (VStr answer) /\
    In answer ["inserted"; "updated"; "duplicate"; "stale"; "conflict"].
Proof.
  unfold save_poker_mtt_hand_event. intros H.
  apply sbind_ok in H as (normalized & s1 & _ & H). apply sbind_ok in H as (hand_id & s2 & _ & H).
  apply sbind_ok in H as (s3 & s4 & _ & H).
  assert (Hdone : forall answer, aget "state" row = Some (VStr answer) ->
    In answer ["inserted"; "updated"; "duplicate"; "stale"; "conflict"] -> exists answer, aget "state" row =
    Some (VStr answer) /\ In answer ["inserted"; "updated"; "duplicate"; "stale"; "conflict"]) by eauto.
  destruct (aget hand_id _) as [existing|].
  - destruct (is_none _).
    + destruct (py_eq _ _); injection H as <- _;
        [apply (Hdone "duplicate")|apply (Hdone "conflict")]; [apply answer_state| |apply conflict_row_state|];
        simpl; tauto.
    + apply sbind_ok in H as (older & s5 & _ & H). destruct older.
      { injection H as <- _. apply (Hdone "stale"); [by rewrite !aget_aset|simpl; tauto]. }
      destruct (py_eq (dget existing "version") _).
      * destruct (py_eq _ _); injection H as <- _;
          [apply (Hdone "duplicate")|apply (Hdone "conflict")]; [apply answer_state| |apply conflict_row_state|];
          simpl; tauto.
      * apply sbind_ok in H as (u & s6 & _ & [= <- _]).
        apply (Hdone "updated"); [by rewrite !aget_aset|simpl; tauto].
  - destruct (is_none _).
    + injection H as <- _. apply (Hdone "conflict"); [apply conflict_row_state|simpl; tauto].
    + apply sbind_ok in H as (u & s5 & _ & [= <- _]). apply (Hdone "inserted"); [apply answer_state|simpl; tauto].
Qed.

Lemma ingest_never_dlq e s result s' :
  try_ingest e s = (Ok (inl result), s') -> HandHistory.state result <> "dlq".
Proof.
  unfold try_ingest, scatch_value_error. intros H. destruct (sbind _ _ s) as [[v|x] s1] eqn:E.
  2: { by destruct x. }
  injection H as -> ->. apply sbind_ok in E as (answer & s2 & E & [= -> _]). unfold repository_ingest in E.
  apply sbind_ok in E as (u & s3 & _ & E). apply sbind_ok in E as (row & s4 & Hrow & E).
  apply hand_event_answer in Hrow as (state & Hstate & Hin).
  apply sbind_ok in E as (v & s5 & [= Hv _] & E). apply dgetitem_ok in Hv. rewrite Hstate in Hv. injection Hv as <-.
  apply sbind_ok in E as (text & s6 & [= <- _] & [= <- _]). simpl. intros ->. simpl in Hin. naive_solver.
Qed.

Lemma trouble_is_recorded event now s r s' tid :
  ingest_poker_mtt_hand_event event now s = (Ok r, s') ->
  dget r "state" = VStr "dlq" \/ dget r "state" = VStr "conflict" ->
  message_tournament event now = Ok (VStr tid) ->
  some_rows _poker_mtt_mq_dlq [("tournament_id", tid); ("state", "open")] s' = true \/
  some_rows _poker_mtt_mq_conflicts [("tournament_id", tid); ("state", "manual_review")] s' = true.
Proof.
  unfold ingest_poker_mtt_hand_event, message_tournament. intros H Hstate Htid.
  set (ev := stamped_event _ _) in *. apply sbind_ok in H as (metadata & s1 & [= Hm <-] & H).
  rewrite Hm in Htid. injection Htid as Htid. apply sbind_ok in H as ([result|reason] & s2 & Ho & H).
  - apply sbind_ok in H as (checkpoint & s3 & Hc & H). apply sbind_ok in H as (conflict & s4 & Hf & [= <- <-]).
    simpl in Hstate. destruct (String.eqb_spec (HandHistory.state result) "conflict") as [E|E].
    + apply sbind_ok in Hf as (row & s5 & Hf & [= _ <-]). right. by eapply conflict_row_listed.
    + destruct Hstate as [[= Hd]|[= Hd]]; [|done]. exfalso. by eapply ingest_never_dlq.
  - apply sbind_ok in H as (dlq & s3 & Hd & H). apply sbind_ok in H as (checkpoint & s4 & Hc & [= <- <-]).
    left. rewrite (checkpoint_keeps_dlq _ _ _ _ _ _ _ _ Hc). by eapply dlq_row_listed.
Qed.

(** ** Properties *)

(** C21: the state of the evidence is [evidence_verdict] of the stored rows: it
    is blocked when hand events or consumer checkpoints are missing, a conflict
    awaits review, a rejected message is open or a consumer lags; otherwise it
    is complete if both HUD windows and the hidden evaluation have rows, and
    accepted as degraded if not. *)
Theorem evidence_state_is_verdict tournament_id policy now s r s' :
  build_poker_mtt_evidence_manifests tournament_id policy now s = (Ok r, s') ->
  dget r "evidence_state" = VStr (evidence_verdict tournament_id s).
Proof. apply evidence_state_verdict. Qed.

(** C22: a message of the queue whose ingestion is rejected or conflicts blocks
    the evidence of the tournament it names: the next manifests that are built
    are blocked. *)
Theorem troubled_messages_block_evidence event now s r s1 tournament_id policy later r2 s2 :
  ingest_poker_mtt_hand_event event now s = (Ok r, s1) ->
  dget r "state" = VStr "dlq" \/ dget r "state" = VStr "conflict" ->
  message_tournament event now = Ok (VStr tournament_id) ->
  build_poker_mtt_evidence_manifests tournament_id policy later s1 = (Ok r2, s2) ->
  dget r2 "evidence_state" = VStr "blocked".
Proof.
  intros Hi Hstate Htid Hb. apply evidence_state_verdict in Hb as ->.
  unfold evidence_verdict, evidence_blocked.
  destruct (trouble_is_recorded _ _ _ _ _ _ Hi Hstate Htid) as [-> | ->]; by rewrite !orb_true_r.
Qed.

(** A tournament with one final ranking, and a message without a checksum. *)
Definition demo_ranking : dict :=
  [("id", VStr "f1"); ("tournament_id", VStr "t"); ("member_id", VStr "m"); ("rank", VInt 1)].
Definition demo_store : FakeRepository := set_tab _poker_mtt_final_rankings [("f1", demo_ranking)] empty_repository.
Definition demo_message : dict :=
  [("schema_version", VStr HAND_COMPLETED_SCHEMA_VERSION); ("event_type", VStr HAND_COMPLETED_EVENT_TYPE);
   ("identity", VDict [("tournament_id", VStr "t"); ("hand_id", VStr "t:1:1")])].

(** The answer of a run that succeeds. *)
Definition answer_of (run : res dict * FakeRepository) : dict := match run.1 with Ok r => r | Err _ => [] end.
Lemma answer_run run : is_ok run.1 = true -> run = (Ok (answer_of run), run.2).
Proof. by destruct run as [[r|] s]. Qed.

#[local] Abbreviation demo_ingestion := (ingest_poker_mtt_hand_event demo_message 0 demo_store).
#[local] Abbreviation demo_evidence s := (build_poker_mtt_evidence_manifests "t" "p" 0 s).

Lemma evidence_state_is_verdict_witness :
  demo_evidence demo_store = (Ok (answer_of (demo_evidence demo_store)), (demo_evidence demo_store).2) /\
  dget (answer_of (demo_evidence demo_store)) "evidence_state" = VStr "blocked".
Proof.
  exact (let E := answer_run (demo_evidence demo_store) eq_refl in
         conj E (evidence_state_is_verdict "t" "p" 0 demo_store _ _ E)).
Defined.

Lemma troubled_messages_block_evidence_witness :
  dget (answer_of demo_ingestion) "state" = VStr "dlq" /\
  dget (answer_of (demo_evidence demo_ingestion.2)) "evidence_state" = VStr "blocked".
Proof.
  exact (conj eq_refl
    (troubled_messages_block_evidence demo_message 0 demo_store _ _ "t" "p" 0 _ _
       (answer_run demo_ingestion eq_refl) (or_introl eq_refl) eq_refl
       (answer_run (demo_evidence demo_ingestion.2) eq_refl))).
Defined.
