(* ===== verification/Queries.v ===== *)
(** * Queries of the service ([forecast_engine.py])

    The views that miners and the public read: open tasks, the status of a
    miner with the explanation of its scores, statistics, the leaderboard, the
    histories and the replay proof of a window or task; and the one decision of
    an operator, [override_risk_case]. *)
From Stdlib Require Import ZArith Lia String SpecFloat.
From stdpp Require Import base list strings.
From S2P Require Import Prelude PyText PyFloat PyTime PyValue Sha256 Canonical Repository Forecast RewardRows.
From S2P Require Import Economic Miners Submissions Windows PokerWindow.
Open Scope Z_scope.

(** ** Tasks *)

Definition _task_card (task : dict) : res dict :=
  mapR (fun k => let? v := dgetitem task k in Ok (k, v))
    ["task_run_id"; "lane"; "asset"; "publish_at"; "commit_deadline"; "reveal_deadline"; "resolve_at"; "pack_hash";
     "snapshot_health"].

Definition within (start stop current : Z) : bool := (start <=? current) && (current <? stop).

Definition is_active (current : Z) (task : dict) : res bool :=
  let? lane := dgetitem task "lane" in
  if py_eq_str lane "forecast_15m" then
    let? publish_at := parse_time_field task "publish_at" in
    let? commit_deadline := parse_time_field task "commit_deadline" in
    Ok (within publish_at commit_deadline current)
  else if py_eq_str lane "daily_anchor" then
    let? publish_at := parse_time_field task "publish_at" in
    let? resolve_at := parse_time_field task "resolve_at" in
    Ok (negb (field_is "state" "resolved" task) && within publish_at resolve_at current)
  else Ok false.

Definition active_card (current : Z) (task : dict) : res (option dict) :=
  let? active := is_active current task in
  if active then let? card := _task_card task in Ok (Some card) else Ok None.

(** [(item[k1], item[k2])] *)
Definition items_of (ks : list string) (item : dict) : res (list value) := mapR (dgetitem item) ks.

Definition get_active_tasks (current : Z) : repo (list dict) :=
  let* tasks := list_tasks in
  let*? cards := mapR (active_card current) tasks in
  slift (sort_rows (items_of ["lane"; "asset"]) false (some_list cards)).

Definition upcoming_detail (current upper_bound : Z) (task : dict) : res (option dict) :=
  let? lane := dgetitem task "lane" in
  if negb (py_eq_str lane "forecast_15m") then Ok None
  else
    let? publish_at := parse_time_field task "publish_at" in
    if negb ((current <? publish_at) && (publish_at <=? upper_bound)) then Ok None
    else
      let? seconds := seconds_between publish_at current in
      Ok (Some (dupdate task [("availability_state", VStr "prewarmed"); ("commit_open", VBool false);
                              ("seconds_until_publish", VFloat (fmax fzero (round_digits 3 seconds)))])).

Definition get_upcoming_fast_task_details (settings : ForecastSettings) (current limit : Z) : repo (list dict) :=
  let prewarm_horizon := Z.max 0 (fast_task_prewarm_seconds settings) in
  if prewarm_horizon <=? 0 then sret []
  else
    let* tasks := list_tasks in
    let*? upcoming := mapR (upcoming_detail current (current + second * prewarm_horizon)) tasks in
    let*? sorted := sort_rows (items_of ["publish_at"; "asset"]) false (some_list upcoming) in
    sret (py_take (Z.max 1 limit) sorted).

(** A fast task is not shown before its publication. *)
Definition get_task_detail (task_run_id : string) (current : Z) : repo dict :=
  let* task := require (get_task task_run_id) "task not found" in
  let*? lane := dgetitem task "lane" in
  let*? hidden := if py_eq_str lane "forecast_15m"
                  then let? publish_at := parse_time_field task "publish_at" in Ok (current <? publish_at)
                  else Ok false in
  do* reject_if hidden "task not found" in
  sret task.

(** ** The status of a miner *)

(** [await self.repo.get_submission(task["task_run_id"], miner_address)] *)
Definition submission_of (miner_address : string) (task : dict) : repo (option dict) :=
  let*? task_run_id := dgetitem task "task_run_id" in
  let*? task_run_id := as_key task_run_id in
  get_submission task_run_id miner_address.

(** The search for a pending submission; it stops at the first. *)
Fixpoint maturity_of (miner_address : string) (tasks : list dict) (eligibility : value) : repo (string * value) :=
  match tasks with
  | [] => sret ("open", eligibility)
  | task :: tasks =>
      let*? lane := dgetitem task "lane" in
      if negb (py_eq_str lane "forecast_15m") then maturity_of miner_address tasks eligibility
      else
        let* submission := submission_of miner_address task in
        match submission with
        | None => maturity_of miner_address tasks eligibility
        | Some submission =>
            let status := dget submission "eligibility_status" in
            if field_is "state" "pending_resolution" submission
            then sret ("pending_resolution", dget_or submission "eligibility_status" (VStr "eligible"))
            else maturity_of miner_address tasks
                   (if truthy status && negb (py_eq_str status "eligible") then status else eligibility)
        end
  end.

(** The latest forecast of a lane with its time. *)
Definition latest : Type := option (Z * dict).
Definition newer (current : latest) (timestamp : Z) (candidate : dict) : latest :=
  match current with
  | Some (at_, _) => if timestamp <? at_ then current else Some (timestamp, candidate)
  | None => Some (timestamp, candidate)
  end.
Definition latest_value (l : latest) : value := match l with Some (_, d) => VDict d | None => VNone end.

Definition float_score (submission : dict) : res float := py_float (dget_or submission "score" (VFloat fzero)).

Definition fast_candidate (task submission : dict) : res dict :=
  let? task_run_id := dgetitem task "task_run_id" in
  let? asset := dgetitem task "asset" in
  let? score := float_score submission in
  Ok [("task_run_id", task_run_id); ("asset", asset);
      ("state", dget submission "state");
      ("p_yes_bps", dget submission "p_yes_bps");
      ("baseline_q_bps", dget task "baseline_q_bps");
      ("outcome", dget task "outcome");
      ("score", VFloat (round_digits 6 score));
      ("reward_amount", dget_or submission "reward_amount" (VInt 0));
      ("reward_eligibility_status", dget_or submission "eligibility_status" (VStr "eligible"))].

Definition daily_candidate (task submission : dict) : res dict :=
  let? task_run_id := dgetitem task "task_run_id" in
  let? asset := dgetitem task "asset" in
  let? score := float_score submission in
  Ok [("task_run_id", task_run_id); ("asset", asset);
      ("state", dget submission "state");
      ("p_yes_bps", dget submission "p_yes_bps");
      ("outcome", dget task "outcome");
      ("anchor_multiplier", VFloat (round_digits 6 (fadd fone score)))].

(** The body of the loop: the latest fast and the latest daily forecast. *)
Definition explain_task (miner_address : string) (acc : latest * latest) (task : dict) : repo (latest * latest) :=
  let* submission := submission_of miner_address task in
  match submission with
  | None => sret acc
  | Some submission =>
      if is_none (dget submission "p_yes_bps") then sret acc
      else
        let*? timestamp := as_utc_datetime (por (por (dget submission "accepted_reveal_at") (dget submission "updated_at"))
                                                (dget submission "accepted_commit_at")) in
        let*? lane := dgetitem task "lane" in
        if py_eq_str lane "forecast_15m" then
          let*? candidate := fast_candidate task submission in
          sret (newer acc.1 timestamp candidate, acc.2)
        else if py_eq_str lane "daily_anchor" then
          let*? candidate := daily_candidate task submission in
          sret (acc.1, newer acc.2 timestamp candidate)
        else sret acc
  end.

Definition arena_explanation (entries : list dict) : res value :=
  match entries with
  | [] => Ok VNone
  | latest :: _ =>
      let? tournament_id := dgetitem latest "tournament_id" in
      let? rated_or_practice := dgetitem latest "rated_or_practice" in
      Ok (VDict [("tournament_id", tournament_id);
                 ("rated_or_practice", rated_or_practice);
                 ("eligible_for_multiplier", dget_or latest "eligible_for_multiplier" (VBool false));
                 ("arena_score", dget latest "arena_score");
                 ("arena_multiplier_after", dget_or latest "multiplier_after" (VFloat fone))])
  end.

Definition _build_score_explanation (miner_address : string) (tasks : list dict) : repo dict :=
  let* (latest_fast, latest_daily) := foldS (explain_task miner_address) tasks (None, None) in
  let* arena_entries := list_arena_results_for_miner miner_address false (Some 1) in
  let*? latest_arena := arena_explanation arena_entries in
  sret [("latest_fast", latest_value latest_fast); ("latest_daily", latest_value latest_daily);
        ("latest_arena", latest_arena)].

Definition count_pending (miner_address : string) (n : Z) (task : dict) : repo Z :=
  let* submission := submission_of miner_address task in
  sret (match submission with
        | Some s => if field_is "state" "pending_resolution" s then n + 1 else n
        | None => n end).

(** [score_explanation.get(k) or {}] *)
Definition explained (score_explanation : dict) (k : string) : res dict :=
  as_dict (por (dget score_explanation k) (VDict [])).

Definition address_of (miner : dict) : res string := let? a := dgetitem miner "address" in as_key a.

Definition _build_reward_timeline (settings : ForecastSettings) (miner : dict) (tasks : list dict) (current : Z)
  (score_explanation : dict) (abuse : option anti_abuse_state) : repo dict :=
  let*? address := address_of miner in
  let* holds := list_hold_entries_for_miner address in
  let open_hold_entries := List.filter (field_is "state" "held") holds in
  let* pending := foldS (count_pending address) tasks 0 in
  let* abuse := match abuse with
                | Some a => sret a
                | None => _anti_abuse_state (dget miner "economic_unit_id") "eligible" end in
  let*? latest_fast := explained score_explanation "latest_fast" in
  let*? latest_daily := explained score_explanation "latest_daily" in
  let*? latest_arena := explained score_explanation "latest_arena" in
  let*? total_rewards := dgetitem miner "total_rewards" in
  let*? admission := _admission_state settings miner current in
  let*? release_ratio := _admission_release_ratio settings miner current in
  sret [("released_rewards", total_rewards);
        ("held_rewards", dget_or miner "held_rewards" (VInt 0));
        ("admission_state", VStr admission);
        ("anti_abuse_discount", VFloat (anti_abuse_discount abuse));
        ("admission_release_ratio", VFloat (round_digits 4 release_ratio));
        ("open_risk_case_count", VInt (open_risk_case_count abuse));
        ("open_hold_entry_count", VInt (Z.of_nat (length open_hold_entries)));
        ("pending_resolution_count", VInt pending);
        ("latest_fast_reward_amount", dget_or latest_fast "reward_amount" (VInt 0));
        ("latest_daily_anchor_multiplier", dget latest_daily "anchor_multiplier");
        ("latest_arena_multiplier_after",
         dget_or latest_arena "arena_multiplier_after" (dget_or miner "arena_multiplier" (VFloat fone)))].

(** [{s.get("reward_window_id") for s in submissions if s.get("reward_window_id")}] *)
Definition window_ids (submissions : list dict) : list value :=
  List.filter truthy (map (fun s => dget s "reward_window_id") submissions).

Definition window_among (ids : list value) (reward_window : dict) : res bool :=
  let? id := dgetitem reward_window "id" in Ok (existsb (py_eq id) ids).

(** [next((w for w in windows if w["id"] in ids), None)] *)
Fixpoint first_window (ids : list value) (windows : list dict) : res (option dict) :=
  match windows with
  | [] => Ok None
  | w :: windows => let? found := window_among ids w in if found then Ok (Some w) else first_window ids windows
  end.

(** The row that a field of another row refers to, if that row is there. *)
Definition follow (row : option dict) (k : string) (get : string -> repo (option dict)) : repo (option dict) :=
  match row with
  | None => sret None
  | Some row =>
      let ref := dget row k in
      if truthy ref then let*? id := as_key ref in get id else sret None
  end.

Definition _latest_settlement_snapshot (miner_address : string) : repo (option dict * option dict * option dict) :=
  let* submissions := list_submissions_for_miner miner_address None in
  let* windows := list_reward_windows in
  let*? reward_window := first_window (window_ids submissions) windows in
  let* batch := follow reward_window "settlement_batch_id" get_settlement_batch in
  let* job := follow batch "anchor_job_id" get_anchor_job in
  sret (reward_window, batch, job).

Definition opt_row (row : option dict) : value := match row with Some d => VDict d | None => VNone end.

(** [round(d[k], 4)] *)
Definition round_item (d : dict) (k : string) : res value := let? v := dgetitem d k in py_round 4 v.

Definition get_miner_status (settings : ForecastSettings) (miner_address : string) (current : Z) : repo dict :=
  let* miner := require (get_miner miner_address) "miner not found" in
  let* tasks := list_tasks in
  let* (maturity_state, eligibility) := maturity_of miner_address tasks (VStr "eligible") in
  let* abuse := _anti_abuse_state (dget miner "economic_unit_id") "eligible" in
  let* score_explanation := _build_score_explanation miner_address tasks in
  let* reward_timeline := _build_reward_timeline settings miner tasks current score_explanation (Some abuse) in
  let* (latest_reward_window, latest_settlement_batch, latest_anchor_job) := _latest_settlement_snapshot miner_address in
  let*? miner_id := dgetitem miner "address" in
  let*? elo := dgetitem miner "public_elo" in
  let*? model_reliability := round_item miner "model_reliability" in
  let*? ops_reliability := round_item miner "ops_reliability" in
  let*? arena_multiplier := round_item miner "arena_multiplier" in
  let*? poker_mtt_multiplier := py_round 4 (dget_or miner "poker_mtt_multiplier" (VFloat fone)) in
  let*? release_ratio := _admission_release_ratio settings miner current in
  let*? admission := _admission_state settings miner current in
  let*? total_rewards := dgetitem miner "total_rewards" in
  let*? forecast_commits := dgetitem miner "forecast_commits" in
  let*? forecast_reveals := dgetitem miner "forecast_reveals" in
  let*? settled_tasks := dgetitem miner "settled_tasks" in
  let*? economic_unit_id := dgetitem miner "economic_unit_id" in
  sret [("miner_id", miner_id);
        ("public_rank", dget miner "public_rank");
        ("public_elo", elo);
        ("model_reliability", model_reliability);
        ("ops_reliability", ops_reliability);
        ("arena_multiplier", arena_multiplier);
        ("poker_mtt_multiplier", poker_mtt_multiplier);
        ("anti_abuse_discount", VFloat (anti_abuse_discount abuse));
        ("admission_release_ratio", VFloat (round_digits 4 release_ratio));
        ("admission_state", VStr admission);
        ("maturity_state", VStr maturity_state);
        ("reward_eligibility_status", eligibility);
        ("risk_review_state", VStr (risk_review_state abuse));
        ("open_risk_case_count", VInt (open_risk_case_count abuse));
        ("open_risk_case_types", vstrs (open_risk_case_types abuse));
        ("score_explanation", VDict score_explanation);
        ("reward_timeline", VDict reward_timeline);
        ("latest_reward_window", opt_row latest_reward_window);
        ("latest_settlement_batch", opt_row latest_settlement_batch);
        ("latest_anchor_job", opt_row latest_anchor_job);
        ("total_rewards", total_rewards);
        ("held_rewards", dget_or miner "held_rewards" (VInt 0));
        ("forecast_commits", forecast_commits);
        ("forecast_reveals", forecast_reveals);
        ("fast_task_opportunities", dget_or miner "fast_task_opportunities" (VInt 0));
        ("fast_task_misses", dget_or miner "fast_task_misses" (VInt 0));
        ("settled_tasks", settled_tasks);
        ("economic_unit_id", economic_unit_id)].

(** ** The decision of an operator *)

Definition decision_to_state (decision : string) : option string :=
  aget decision [("clear", "cleared"); ("suppress", "suppressed"); ("escalate", "escalated")].

Definition override_risk_case (risk_case_id decision reason operator_id authority_level : string) (current : Z)
  : repo dict :=
  let*? state := of_option (decision_to_state decision) (ValueError "invalid risk decision") in
  let* risk_case := require (get_risk_case risk_case_id) "risk case not found" in
  let stamp := risk_case_id +:+ ":" +:+ compact_format 14 current in
  let trace_id := VStr ("trace:risk_override:" +:+ stamp) in
  let override_log_id := VStr ("ovr:" +:+ stamp) in
  let* saved_case := save_risk_case
    (dupdate risk_case [("state", VStr state);
                        ("decision", VStr decision);
                        ("decision_reason", VStr reason);
                        ("reviewed_by", VStr operator_id);
                        ("authority_level", VStr authority_level);
                        ("trace_id", trace_id);
                        ("override_log_id", override_log_id);
                        ("reviewed_at", VStr (iso_format current));
                        ("updated_at", VStr (iso_format current))]) in
  sret [("operator_id", VStr operator_id);
        ("authority_level", VStr authority_level);
        ("trace_id", trace_id);
        ("override_log_id", override_log_id);
        ("risk_case", VDict saved_case)].

(** ** Statistics and leaderboard *)

(** The state of a fast task: settled, active, or neither. *)
Definition count_fast (current : Z) (acc : Z * Z) (task : dict) : res (Z * Z) :=
  let '(active_fast, settled_fast) := acc in
  let? lane := dgetitem task "lane" in
  if negb (py_eq_str lane "forecast_15m") then Ok acc
  else
    let? publish_at := parse_time_field task "publish_at" in
    let? resolve_at := parse_time_field task "resolve_at" in
    if in_strings (dget task "state") ["settled"; "resolved"] then Ok (active_fast, settled_fast + 1)
    else if within publish_at resolve_at current then Ok (active_fast + 1, settled_fast)
    else Ok acc.

Definition count_active (n : Z) (miner : dict) : res Z :=
  let? status := dgetitem miner "status" in Ok (if py_eq_str status "active" then n + 1 else n).

Definition add_rewards (total : value) (miner : dict) : res value :=
  let? rewards := dgetitem miner "total_rewards" in py_add total rewards.

(** [row[k] if row else None], [row.get(k) if row else None] *)
Definition item_or_none (row : option dict) (k : string) : res value :=
  match row with Some r => dgetitem r k | None => Ok VNone end.
Definition field_or_none (row : option dict) (k : string) : value :=
  match row with Some r => dget r k | None => VNone end.

Definition get_stats (settings : ForecastSettings) (current : Z) : repo dict :=
  let* tasks := list_tasks in
  let*? (active_fast, settled_fast) := foldR (count_fast current) tasks (0, 0) in
  let* miners := list_miners in
  let* reward_windows := list_reward_windows in
  let* settlement_batches := list_settlement_batches in
  let reward_window := non_empty (head reward_windows) in
  let batch := non_empty (head settlement_batches) in
  let* job := follow batch "anchor_job_id" get_anchor_job in
  let*? active_miners := foldR count_active miners 0 in
  let*? total_rewards := foldR add_rewards miners (VInt 0) in
  let*? window_id := item_or_none reward_window "id" in
  let*? batch_id := item_or_none batch "id" in
  let*? job_id := item_or_none job "id" in
  sret [("protocol", VStr (protocol settings));
        ("server_version", VStr (server_version settings));
        ("active_miners", VInt active_miners);
        ("active_fast_tasks", VInt active_fast);
        ("settled_fast_tasks", VInt settled_fast);
        ("total_rewards_paid", total_rewards);
        ("latest_reward_window_id", window_id);
        ("latest_settlement_batch_id", batch_id);
        ("latest_settlement_state", field_or_none batch "state");
        ("latest_anchor_job_id", job_id);
        ("latest_anchor_job_state", field_or_none job "state")].

(** [-(d.get(k) or 0)]; a zero has no sign in a comparison. *)
Definition negated (d : dict) (k : string) : res value := py_sub (VInt 0) (por (dget d k) (VInt 0)).

Definition leaderboard_key (miner : dict) : res (list value) :=
  let rank := dget miner "public_rank" in
  let? elo := negated miner "public_elo" in
  let? rewards := negated miner "total_rewards" in
  Ok [VBool (is_none rank); por rank (VInt (10 ^ 9)); elo; rewards; get_or_empty "address" miner].

(** [round(float(miner.get(k, 1.0)), 6)] *)
Definition round_factor (miner : dict) (k : string) : res value :=
  let? x := py_float (dget_or miner k (VFloat fone)) in Ok (VFloat (round_digits 6 x)).

Definition leaderboard_item (settings : ForecastSettings) (current : Z) (miner : dict) : res dict :=
  let? address := dgetitem miner "address" in
  let? model_reliability := round_factor miner "model_reliability" in
  let? ops_reliability := round_factor miner "ops_reliability" in
  let? arena_multiplier := round_factor miner "arena_multiplier" in
  let? admission := _admission_state settings miner current in
  Ok [("address", address);
      ("name", dget miner "name");
      ("public_rank", dget miner "public_rank");
      ("public_elo", dget miner "public_elo");
      ("total_rewards", dget_or miner "total_rewards" (VInt 0));
      ("settled_tasks", dget_or miner "settled_tasks" (VInt 0));
      ("model_reliability", model_reliability);
      ("ops_reliability", ops_reliability);
      ("arena_multiplier", arena_multiplier);
      ("admission_state", VStr admission);
      ("risk_review_state", dget_or miner "risk_review_state" (VStr "clear"));
      ("open_risk_case_count", dget_or miner "open_risk_case_count" (VInt 0))].

Definition get_public_leaderboard (settings : ForecastSettings) (limit current : Z) : repo dict :=
  let* miners := list_miners in
  let*? ranked := sort_rows leaderboard_key false miners in
  let*? items := mapR (leaderboard_item settings current) (py_take limit ranked) in
  sret [("items", VList (map VDict items)); ("limit", VInt limit);
        ("total_miners", VInt (Z.of_nat (length miners)))].

(** ** Histories of a miner *)

Definition get_miner_submission_history (miner_address : string) (limit : Z) : repo (list dict) :=
  do* require (get_miner miner_address) "miner not found" in
  list_submissions_for_miner miner_address (Some limit).

Definition get_miner_reward_hold_history (miner_address : string) (limit : Z) : repo (list dict) :=
  do* require (get_miner miner_address) "miner not found" in
  let* entries := list_hold_entries_for_miner miner_address in
  let*? entries := sort_rows (keys_or_empty ["updated_at"; "created_at"; "id"]) true entries in
  sret (py_take limit entries).

Definition get_miner_reward_window_history (miner_address : string) (limit : Z) : repo (list dict) :=
  do* require (get_miner miner_address) "miner not found" in
  let* submissions := list_submissions_for_miner miner_address None in
  let* windows := list_reward_windows in
  let*? items := filterR (window_among (window_ids submissions)) windows in
  sret (py_take limit items).

Definition history_item (task submission : dict) (windows : list (string * dict)) : res dict :=
  let reward_window_id := por (dget submission "reward_window_id") (dget task "reward_window_id") in
  let reward_window := if truthy reward_window_id then row_for reward_window_id windows else None in
  let? task_run_id := dgetitem task "task_run_id" in
  let? lane := dgetitem task "lane" in
  let? asset := dgetitem task "asset" in
  let? publish_at := dgetitem task "publish_at" in
  let? resolve_at := dgetitem task "resolve_at" in
  let? score := float_score submission in
  Ok [("task_run_id", task_run_id); ("lane", lane); ("asset", asset); ("publish_at", publish_at);
      ("resolve_at", resolve_at);
      ("task_state", dget task "state");
      ("submission_state", dget submission "state");
      ("pending_resolution", VBool (field_is "state" "pending_resolution" submission));
      ("reward_window_id", reward_window_id);
      ("settlement_batch_id", field_or_none (non_empty reward_window) "settlement_batch_id");
      ("eligibility_status", dget submission "eligibility_status");
      ("p_yes_bps", dget submission "p_yes_bps");
      ("score", VFloat (round_digits 6 score));
      ("reward_amount", dget_or submission "reward_amount" (VInt 0));
      ("outcome", dget task "outcome");
      ("updated_at", dget submission "updated_at")].

Definition history_step (windows : list (string * dict)) (submission : dict) : repo (option dict) :=
  let*? task_run_id := dgetitem submission "task_run_id" in
  let*? task_run_id := as_key task_run_id in
  let* task := get_task task_run_id in
  match task with
  | None => sret None
  | Some task => let*? item := history_item task submission windows in sret (Some item)
  end.

Definition get_miner_task_history (miner_address : string) (limit : Z) : repo (list dict) :=
  do* require (get_miner miner_address) "miner not found" in
  let* submissions := list_submissions_for_miner miner_address None in
  let* windows := list_reward_windows in
  let*? keyed := mapR (fun w => let? id := dgetitem w "id" in let? k := as_key id in Ok (k, w)) windows in
  let* items := mapS (history_step (aupdate [] keyed)) submissions in
  let*? sorted := sort_rows (keys_or_empty ["updated_at"; "resolve_at"; "task_run_id"]) true (some_list items) in
  sret (py_take limit sorted).

(** ** Replay proofs *)

Definition artifact_entry (artifact : dict) : res dict :=
  let? id := dgetitem artifact "id" in
  let? kind := dgetitem artifact "kind" in
  let? payload_hash := dgetitem artifact "payload_hash" in
  Ok [("artifact_id", id); ("kind", kind); ("payload_hash", payload_hash)].

(** What the replay bundle says of the rewards; the window where it is silent. *)
Definition reward_composition_of (reward_window : dict) (artifacts : list dict) : res dict :=
  let? bundle := artifact_payload (non_empty (first_of_kind "reward_window_replay_bundle" artifacts)) in
  let? component_rows := list_field reward_window "miner_reward_rows" in
  let? rows_root := let v := dget bundle "reward_component_rows_root" in
                    if truthy v then Ok v else let? h := _hash_sequence component_rows in Ok (VStr h) in
  let? rows_count := py_int (por (dget bundle "reward_component_rows_count")
                                 (VInt (Z.of_nat (length component_rows)))) in
  let? fields := as_list (por (dget bundle "reward_component_fields") (vstrs FORECAST_REWARD_COMPONENT_FIELDS)) in
  let? input_count := int_or_zero (dget bundle "anti_abuse_input_rows_count") in
  Ok [("schema_version", por (dget bundle "schema_version") (VStr REWARD_WINDOW_REPLAY_SCHEMA_VERSION));
      ("reward_component_schema_version",
       por (dget bundle "reward_component_schema_version") (VStr FORECAST_REWARD_COMPONENT_SCHEMA_VERSION));
      ("reward_window_membership_payload_hash",
       por (dget bundle "reward_window_membership_payload_hash") (dget reward_window "canonical_root"));
      ("reward_component_rows_root", rows_root);
      ("reward_component_rows_count", VInt rows_count);
      ("reward_component_fields", VList fields);
      ("anti_abuse_input_rows_root", dget bundle "anti_abuse_input_rows_root");
      ("anti_abuse_input_rows_count", VInt input_count);
      ("overlay_merge_state", por (dget bundle "overlay_merge_state") (VDict _forecast_overlay_merge_state))].

Definition given_composition (composition : option dict) : dict :=
  match composition with Some c => [("reward_composition", VDict c)] | None => [] end.

(** What the replay hash of a window covers. *)
Definition window_proof_payload (entity_id : string) (reward_window : dict) (membership : dict)
  (composition : option dict) : dict :=
  [("entity_type", VStr "reward_window");
   ("entity_id", VStr entity_id);
   ("lane", dget reward_window "lane");
   ("membership", VDict membership);
   ("total_reward_amount", dget_or reward_window "total_reward_amount" (VInt 0));
   ("window_end_at", dget reward_window "window_end_at")] ++ given_composition composition.

Definition window_proof (entity_id : string) (current : Z) : repo dict :=
  let* reward_window := require (get_reward_window entity_id) "reward window not found" in
  let* artifacts := list_artifacts_for_entity "reward_window" entity_id in
  let*? refs := mapR artifact_entry artifacts in
  let batch := dget reward_window "settlement_batch_id" in
  let* batch_refs := if truthy batch
                     then let*? id := as_key batch in _artifact_refs_for_entity "settlement_batch" id
                     else sret [] in
  let*? task_run_ids := as_list (dget_or reward_window "task_run_ids" (VList [])) in
  let*? miner_addresses := as_list (dget_or reward_window "miner_addresses" (VList [])) in
  let membership := [("task_run_ids", VList task_run_ids); ("miner_addresses", VList miner_addresses);
                     ("settlement_batch_id", batch)] in
  let*? composition := if field_is "lane" "forecast_15m" reward_window
                       then let? c := reward_composition_of reward_window artifacts in Ok (Some c) else Ok None in
  let*? replay_hash := _hash_payload (window_proof_payload entity_id reward_window membership composition) in
  sret ([("entity_type", VStr "reward_window");
         ("entity_id", VStr entity_id);
         ("lane", dget reward_window "lane");
         ("artifact_refs", VList (map VDict (refs ++ batch_refs)));
         ("policy_bundle_version", window_policy reward_window);
         ("outcome_revision", VInt 1);
         ("score_revision", VInt 1);
         ("replay_proof_hash", VStr replay_hash);
         ("membership", VDict membership);
         ("generated_at", VStr (iso_format current))] ++ given_composition composition).

Definition task_proof_payload (entity_id : string) (task : dict) : dict :=
  [("entity_type", VStr "task_run");
   ("entity_id", VStr entity_id);
   ("lane", dget task "lane");
   ("pack_hash", dget task "pack_hash");
   ("outcome", dget task "outcome");
   ("reward_window_id", dget task "reward_window_id")].

Definition task_proof (entity_id : string) (current : Z) : repo dict :=
  let* task := require (get_task entity_id) "task not found" in
  do* _ensure_task_pack_artifact task current in
  let*? replay_hash := _hash_payload (task_proof_payload entity_id task) in
  let* refs := _artifact_refs_for_entity "task_run" entity_id in
  sret [("entity_type", VStr "task_run");
        ("entity_id", VStr entity_id);
        ("lane", dget task "lane");
        ("artifact_refs", VList (map VDict refs));
        ("policy_bundle_version", VStr POLICY_BUNDLE_VERSION);
        ("outcome_revision", VInt 1);
        ("score_revision", VInt 1);
        ("replay_proof_hash", VStr replay_hash);
        ("membership", VDict [("reward_window_id", dget task "reward_window_id")]);
        ("generated_at", VStr (iso_format current))].

Definition get_replay_proof (entity_type entity_id : string) (current : Z) : repo dict :=
  if String.eqb entity_type "reward_window" then window_proof entity_id current
  else if String.eqb entity_type "task_run" then task_proof entity_id current
  else sraise (ValueError "unsupported entity type").
