(* ===== verification/MarketData.v ===== *)
(** * Market data ([market_data.py])

    The providers of fast tasks: the synthetic one, the live one, which asks
    two price feeds over HTTP, and the hybrid one, which falls back from the
    second to the first.  The HTTP client is a record of functions and the
    text of an exception a function, both arguments; requests that the code
    gathers run one after the other, so when several fail the first in the
    order of the arguments is raised. *)
From Stdlib Require Import ZArith Lia Ascii String SpecFloat.
From stdpp Require Import base list strings.
From S2P Require Import Prelude PyText PyFloat PyTime PyValue Sha256 Canonical Repository Forecast Json Settlement.
Open Scope Z_scope.

(** ** Configuration and parsing *)

Record series_config := {
  series_slug : string;
  slug_prefix : string;
  slug_template : string;
  bucket_seconds : Z;
  positive_outcome : string
}.

Definition btc_series : series_config :=
  {| series_slug := "btc-up-or-down-5m"; slug_prefix := "btc-updown-5m-"; slug_template := "btc-updown-5m-{bucket_ts}";
     bucket_seconds := 300; positive_outcome := "Up" |}.
Definition eth_series : series_config :=
  {| series_slug := "eth-up-or-down-5m"; slug_prefix := "eth-updown-5m-"; slug_template := "eth-updown-5m-{bucket_ts}";
     bucket_seconds := 300; positive_outcome := "Up" |}.
Definition POLYMARKET_SERIES_CONFIG : list (string * series_config) :=
  [("BTCUSDT", btc_series); ("BTC", btc_series); ("ETHUSDT", eth_series); ("ETH", eth_series)].

Definition MarketDataUnavailable (msg : string) : exn := RuntimeError msg.

Definition _hash_pack (pack : dict) : res string :=
  let? payload := json_dumps (VDict pack) in Ok ("sha256:" +:+ sha256_hex (of_chars payload)).

(** A character that a word of [re] may have. *)
Definition is_word_char (c : ascii) : bool :=
  let n := code c in
  is_digit c || (n =? 95) || ((65 <=? n) && (n <=? 90)) || ((97 <=? n) && (n <=? 122)) ||
  existsb (Z.eqb n) [170; 178; 179; 181; 185; 186; 188; 189; 190] ||
  ((192 <=? n) && negb (n =? 215) && negb (n =? 247)).

(** A pattern that ignores case: a word between two boundaries, or a text. *)
Inductive keyword := Word (w : string) | Text (s : string).

Fixpoint word_search (w : list ascii) (after_word : bool) (l : list ascii) : bool :=
  (negb after_word &&
   match drop_prefix w l with
   | Some (c :: _) => negb (is_word_char c)
   | Some [] => true
   | None => false
   end) ||
  match l with [] => false | c :: l => word_search w (is_word_char c) l end.

Definition keyword_search (k : keyword) (haystack : string) : bool :=
  match k with
  | Word w => word_search (chars w) false (chars (str_lower haystack))
  | Text s => str_contains (str_lower s) (str_lower haystack)
  end.

Definition _asset_keywords (asset : string) : list keyword * list keyword :=
  if str_startswith "BTC" asset then ([Word "bitcoin"; Word "btc"], [])
  else if str_startswith "ETH" asset then ([Word "ethereum"; Word "ether"; Word "eth"], [Word "megaeth"])
  else ([Text asset], []).

Definition _safe_json_loads (v : value) : res value :=
  match v with
  | VStr s => match json_loads s with
              | Err (ValueError _) => Ok v
              | r => r
              end
  | _ => Ok v
  end.

Definition _float (v : value) (default : float) : res float :=
  match py_float v with
  | Err TypeError | Err (ValueError _) => Ok default
  | r => r
  end.
Definition float_field (d : dict) (k : string) : res float := _float (dget d k) fzero.

Definition ftwo : float := f_of_Z 2.
Definition ften_thousand : float := f_of_Z 10000.

Definition _price_mid (bid ask : float) : res float :=
  let? mid := fdiv (fadd bid ask) ftwo in Ok (round_digits 2 mid).

(** [level[i] if len(level) > i else 0.0] *)
Definition level_item (level : value) (i : nat) : res value :=
  match level with
  | VList l => Ok (default (VFloat fzero) (l !! i))
  | VStr s => Ok (match chars s !! i with Some c => VStr (String c "") | None => VFloat fzero end)
  | _ => Err TypeError
  end.

Definition level_notional (total : float) (level : value) : res float :=
  let? (price, size) := match level with
                        | VDict d => let? price := float_field d "price" in
                                     let? size := float_field d "size" in Ok (price, size)
                        | _ => let? p := level_item level 0 in let? price := _float p fzero in
                               let? q := level_item level 1 in let? size := _float q fzero in Ok (price, size)
                        end in
  Ok (fadd total (fmul price size)).

Definition _book_notional (levels : value) : res float :=
  let? levels := as_list levels in foldR level_notional levels fzero.

Definition _imbalance_bps (left right : float) : res Z :=
  let total := fadd left right in
  if fleb total fzero then Ok 0
  else let? share := fdiv (fsub left right) total in round_int (fmul share ften_thousand).

Definition _binance_probability (depth_imbalance_bps trade_imbalance_bps : Z) (micro_move_bps : float) : res Z :=
  let? depth := float_of_int depth_imbalance_bps in
  let? trade := float_of_int trade_imbalance_bps in
  let normalized := clamp (fadd (fadd (fmul depth (flit 4 5)) (fmul trade (flit 3 5))) (fmul micro_move_bps (flit 1 2)))
                          (fneg (flit 6 2)) (flit 6 2) in
  round_int (fadd (f_of_Z 5000) (fmul normalized ften_thousand)).

(** ** Markets *)

(** [not market.get("enableOrderBook") or not market.get("acceptingOrders")] *)
Definition takes_orders (market : dict) : bool :=
  truthy (dget market "enableOrderBook") && truthy (dget market "acceptingOrders").

Definition market_text (market : dict) : res string :=
  let? texts := mapR (fun field => py_str (dget_or market field (VStr "")))
                     ["question"; "slug"; "description"; "groupItemTitle"] in
  Ok (str_join " " texts).

(** Whether the market is a candidate for the asset. *)
Definition binary_market (asset : string) (market : dict) : res bool :=
  let '(required, rejected) := _asset_keywords asset in
  if negb (takes_orders market) then Ok false
  else
    let? haystack := market_text market in
    if negb (existsb (fun k => keyword_search k haystack) required) then Ok false
    else if existsb (fun k => keyword_search k haystack) rejected then Ok false
    else
      let? token_ids := _safe_json_loads (dget market "clobTokenIds") in
      let? outcomes := _safe_json_loads (dget market "outcomes") in
      Ok (match token_ids with VList l => (2 <=? length l)%nat | _ => false end &&
          match outcomes with VList l => existsb (py_eq (VStr "Yes")) l | _ => false end).

Definition liquidity_key (market : dict) : res (list value) :=
  mapR (fun k => let? x := float_field market k in Ok (VFloat x)) ["volume24hrClob"; "liquidityClob"; "volumeClob"].

(** [market.get] raises on an entry of the list that is not an object. *)
Definition _select_polymarket_market (markets : list value) (asset : string) : res dict :=
  let? found := mapR (fun market => let? market := as_dict market in
                                    let? suits := binary_market asset market in
                                    Ok (if suits then Some market else None)) markets in
  let candidates := omap id found in
  match candidates with
  | [] => Err (MarketDataUnavailable ("no suitable Polymarket market for " +:+ asset))
  | _ =>
      let? sorted := sort_rows liquidity_key true candidates in
      of_option (head sorted) IndexError
  end.

(** The first of the slugs that a loop finds. *)
Fixpoint first_found {A B} (f : A -> res (option B)) (l : list A) : res (option B) :=
  match l with
  | [] => Ok None
  | x :: l => let? found := f x in match found with Some b => Ok (Some b) | None => first_found f l end
  end.

Definition text_of_field (d : dict) (k : string) : res (option string) :=
  if truthy (dget d k) then let? s := py_str (dget d k) in Ok (Some s) else Ok None.

(** [d.get(k, []) or []] *)
Definition items_of_field (d : dict) (k : string) : res (list value) := as_list (por (dget_or d k (VList [])) (VList [])).

Definition event_slug (event : value) : res (option string) :=
  let? event := as_dict event in
  let? slug := text_of_field event "seriesSlug" in
  match slug with
  | Some s => Ok (Some s)
  | None =>
      let? series := items_of_field event "series" in
      first_found (fun s => let? s := as_dict s in text_of_field s "slug") series
  end.

Definition _market_series_slug (market : dict) : res (option string) :=
  let? slug := text_of_field market "seriesSlug" in
  match slug with
  | Some s => Ok (Some s)
  | None => let? events := items_of_field market "events" in first_found event_slug events
  end.

Definition _parse_market_end_date (market : dict) : res (option Z) :=
  let end_date := dget market "endDate" in
  if negb (truthy end_date) then Ok None
  else
    let? text := py_str end_date in
    match parse_iso text with
    | Ok t => Ok (Some t)
    | Err (ValueError _) => Ok None
    | Err e => Err e
    end.

Definition _bucket_timestamp (now seconds : Z) : res Z :=
  let? ts := int_timestamp now in Ok (ts - ts mod seconds).

(** [l.index(x)], [None] where it raises [ValueError]. *)
Fixpoint index_of (x : value) (l : list value) : option nat :=
  match l with
  | [] => None
  | y :: l => if py_eq y x then Some 0%nat else option_map S (index_of x l)
  end.

Definition resolution_allows (market : dict) : res bool :=
  let status := dget market "umaResolutionStatus" in
  if truthy status then let? s := py_str status in Ok (String.eqb (str_lower s) "resolved") else Ok true.

Definition _extract_resolved_outcome (market : dict) (positive_outcome : value) : res (option Z) :=
  if negb (truthy (dget market "closed")) then Ok None
  else
    let? allowed := resolution_allows market in
    if negb allowed then Ok None
    else
      let? outcomes := _safe_json_loads (dget market "outcomes") in
      let? outcome_prices := _safe_json_loads (dget market "outcomePrices") in
      match outcomes, outcome_prices with
      | VList outcomes, VList outcome_prices =>
          if negb (length outcomes =? length outcome_prices)%nat then Ok None
          else
            match index_of positive_outcome outcomes with
            | None => Ok None
            | Some positive_index =>
                let? parsed_prices := mapR (fun price => _float price (fneg fone)) outcome_prices in
                match parsed_prices !! positive_index with
                | None => Ok None
                | Some positive_price =>
                    Ok (if feqb positive_price fone then Some 1
                        else if feqb positive_price fzero then Some 0 else None)
                end
            end
      | _, _ => Ok None
      end.

(** A freshness of the snapshot is above its limit. *)
Definition stale (age : value) (limit : Z) : res bool :=
  if is_none age then Ok false else py_lt (VInt limit) age.

Definition _classify_snapshot_state (settings : ForecastSettings) (freshness : dict)
  : res (string * string * option string) :=
  let? binance := stale (dget freshness "binance") (max_binance_snapshot_freshness_seconds settings) in
  if binance then Ok ("degraded", "degraded", Some "binance_snapshot_stale")
  else
    let? polymarket := stale (dget freshness "polymarket") (max_polymarket_snapshot_freshness_seconds settings) in
    if polymarket then Ok ("degraded", "degraded", Some "polymarket_snapshot_stale")
    else Ok ("live", "reward_eligible", None).

(** An open market of the series, with the time it ends at. *)
Definition series_market (config : series_config) (market : dict) : res (option (Z * dict)) :=
  if negb (takes_orders market) then Ok None
  else
    let? found := _market_series_slug market in
    let? slug := py_str (dget_or market "slug" (VStr "")) in
    if negb (match found with Some s => String.eqb s (series_slug config) | None => false end) &&
       negb (str_startswith (slug_prefix config) slug) then Ok None
    else
      let? end_date := _parse_market_end_date market in
      Ok (option_map (fun t => (t, market)) end_date).

(** [-_float(market.get(k))] *)
Definition negated_field (market : dict) (k : string) : res value :=
  let? x := float_field market k in Ok (VFloat (fneg x)).

Definition series_key (first : Z * dict -> res value) (item : Z * dict) : res (list value) :=
  let? x := first item in
  let? volume := negated_field item.2 "volume24hrClob" in
  let? liquidity := negated_field item.2 "liquidityClob" in
  Ok [x; volume; liquidity].

Definition first_market (sorted : list (Z * dict)) : option dict := option_map snd (head sorted).

(** [total_seconds] of a difference of microseconds. *)
Definition total_seconds (microseconds : Z) : res float := int_truediv microseconds usec.

Definition is_recent (now : Z) (item : Z * dict) : res bool :=
  if now <? item.1 then Ok false
  else let? age := total_seconds (now - item.1) in Ok (fleb age (f_of_Z 900)).

Definition _select_series_market (markets : list value) (asset : string) (now : Z) : res (option dict) :=
  match aget asset POLYMARKET_SERIES_CONFIG with
  | None => Ok None
  | Some config =>
      let? found := mapR (fun market => let? market := as_dict market in series_market config market) markets in
      let candidates := omap id found in
      let future_candidates := List.filter (fun item => now <? item.1) candidates in
      let? recent_candidates := filterR (is_recent now) candidates in
      match future_candidates with
      | _ :: _ =>
          let? sorted := py_sort tuple_lt (series_key (fun item => Ok (VTime item.1))) false future_candidates in
          Ok (first_market sorted)
      | [] =>
          let? sorted := py_sort tuple_lt
            (series_key (fun item => let? x := total_seconds (item.1 - now) in Ok (VFloat (fabs x)))) false
            recent_candidates in
          Ok (first_market sorted)
      end
  end.

(** ** The synthetic provider *)

(** [task[k1][k2] = v] for a dictionary under [k1]. *)
Definition set_inside (task : dict) (k1 k2 : string) (v : value) : res dict :=
  let? inner := dgetitem task k1 in
  let? inner := match inner with VDict d => Ok d | _ => Err TypeError end in
  Ok (dset task k1 (VDict (dset inner k2 v))).

(** [task["pack_hash"] = _hash_pack(task["pack_json"])] *)
Definition rehash (task : dict) : res dict :=
  let? pack := dgetitem task "pack_json" in
  let? pack := match pack with VDict d => Ok d | _ => Err (Unmodelled "pack that is not a dictionary") end in
  let? pack_hash := _hash_pack pack in
  Ok (dset task "pack_hash" (VStr pack_hash)).

Definition synthetic_build_fast_task (now : Z) (settings : ForecastSettings) (asset : string)
  (publish_at generated_at : option Z) : res dict :=
  let? task := build_fast_task now settings asset publish_at generated_at in
  let? task := set_inside task "pack_json" "fallback_reason" VNone in
  rehash task.

Definition SyntheticMarketDataProvider : TaskProvider := {|
  provider_accepts_publish_at := true;
  provider_accepts_generated_at := true;
  provider_build_fast_task := synthetic_build_fast_task;
  provider_resolve_fast_task := resolve_fast_task;
  provider_resolve_daily_task := None
|}.

(** ** The live provider *)

(** The HTTP client: a request, the check of its status, its body. *)
Record HttpClient (Response : Type) := {
  http_get : string -> option dict -> res Response;
  raise_for_status : Response -> res unit;
  response_json : Response -> res value
}.
Arguments http_get {Response} _ _ _.
Arguments raise_for_status {Response} _ _.
Arguments response_json {Response} _ _.

Record LiveMarketDataProvider (Response : Type) := {
  _client : HttpClient Response;
  _binance_base_url : string;
  _polymarket_gamma_url : string;
  _polymarket_clob_url : string
}.
Arguments _client {Response} _.
Arguments _binance_base_url {Response} _.
Arguments _polymarket_gamma_url {Response} _.
Arguments _polymarket_clob_url {Response} _.

Definition live_provider {Response} (client : HttpClient Response) (binance gamma clob : string)
  : LiveMarketDataProvider Response :=
  {| _client := client;
     _binance_base_url := str_rstrip_char "/" binance;
     _polymarket_gamma_url := str_rstrip_char "/" gamma;
     _polymarket_clob_url := str_rstrip_char "/" clob |}.

(** [json.dumps] of a dictionary that keeps the order of its keys. *)
Fixpoint json_dumps_unsorted (v : value) : res (list ascii) :=
  match v with
  | VList l =>
      let? l := mapR json_dumps_unsorted l in
      Ok ("["%char :: comma_join l ++ ["]"%char])
  | VDict d =>
      let? l := mapR (fun kv => let? s := kv.2 in Ok (json_string kv.1 ++ ":"%char :: s))
                     (map (fun kv => (kv.1, json_dumps_unsorted kv.2)) d) in
      Ok ("{"%char :: comma_join l ++ ["}"%char])
  | _ => json_dumps v
  end.
Definition fragment (d : dict) : res value :=
  let? text := json_dumps_unsorted (VDict d) in Ok (VStr (of_chars text)).

(** [(d[k] or {}).get(k2)] of the first entry of a list, or a default. *)
Definition first_level (levels : value) (k : string) (otherwise : value) : res value :=
  if truthy levels then
    match levels with
    | VList (level :: _) => let? level := as_dict (por level (VDict [])) in Ok (dget level k)
    | VList [] => Err IndexError
    | VDict _ => Err (KeyError "0")
    | VStr _ => Err AttributeError
    | _ => Err TypeError
    end
  else Ok otherwise.

(** [x in outcomes], [outcomes[0]], [outcomes.index(x)] *)
Definition choose_outcome (configured : string) (outcomes : value) : res (value * nat) :=
  match outcomes with
  | VList l =>
      let has x := existsb (py_eq (VStr x)) l in
      let? chosen := if has configured then Ok (VStr configured)
                     else if has "Yes" then Ok (VStr "Yes")
                     else of_option (head l) IndexError in
      let? index := of_option (index_of chosen l) (ValueError "value is not in list") in
      Ok (chosen, index)
  | VStr _ | VDict _ => Err (Unmodelled "outcomes that are no list")
  | _ => Err TypeError
  end.

Definition token_at (token_ids : value) (i : nat) : res value :=
  match token_ids with
  | VList l => of_option (l !! i) IndexError
  | VStr s => of_option (option_map (fun c => VStr (String c "")) (chars s !! i)) IndexError
  | VDict _ => Err (KeyError (string_of_Z (Z.of_nat i)))
  | _ => Err TypeError
  end.

(** [(market.get("events") or [{}])[0]] *)
Definition primary_event_of (market : dict) : res dict :=
  match por (dget market "events") (VList [VDict []]) with
  | VList (event :: _) => as_dict event
  | VDict _ => Err (KeyError "0")
  | VStr _ => Err AttributeError
  | _ => Err TypeError
  end.

Definition round_field (market : dict) (k : string) : res value :=
  let? x := float_field market k in Ok (VFloat (round_digits 2 x)).

Definition tiny : float := flit 1 9.

Section Live.
Context {Response : Type} (self : LiveMarketDataProvider Response).

Definition _get_json (url : string) (params : option dict) : res value :=
  let? response := http_get (_client self) url params in
  let? _ := raise_for_status (_client self) response in
  response_json (_client self) response.

Definition add_trade (acc : float * float) (trade : value) : res (float * float) :=
  let '(aggressive_buy, aggressive_sell) := acc in
  let? trade := as_dict trade in
  let? price := float_field trade "price" in
  let? qty := float_field trade "qty" in
  let notional := fmul price qty in
  Ok (if truthy (dget trade "isBuyerMaker") then (aggressive_buy, fadd aggressive_sell notional)
      else (fadd aggressive_buy notional, aggressive_sell)).

Definition _fetch_binance_snapshot (asset : string) (settings : ForecastSettings) : res dict :=
  let api path := _binance_base_url self +:+ path in
  let? depth := _get_json (api "/api/v3/depth") (Some [("symbol", VStr asset); ("limit", VInt 5)]) in
  let? book_ticker := _get_json (api "/api/v3/ticker/bookTicker") (Some [("symbol", VStr asset)]) in
  let? trades := _get_json (api "/api/v3/trades") (Some [("symbol", VStr asset); ("limit", VInt 20)]) in
  let? book_ticker := as_dict book_ticker in
  let? best_bid := float_field book_ticker "bidPrice" in
  let? best_ask := float_field book_ticker "askPrice" in
  let? bid_qty := float_field book_ticker "bidQty" in
  let? ask_qty := float_field book_ticker "askQty" in
  let? mid_price := _price_mid best_bid best_ask in
  let? micro := fdiv (fadd (fmul best_ask bid_qty) (fmul best_bid ask_qty)) (fmax (fadd bid_qty ask_qty) tiny) in
  let micro_price := round_digits 4 micro in
  let? move := fdiv (fsub micro_price mid_price) (fmax mid_price tiny) in
  let micro_move_bps := round_digits 4 (fmul move ften_thousand) in
  let? depth := as_dict depth in
  let? bid_notional := _book_notional (dget_or depth "bids" (VList [])) in
  let? ask_notional := _book_notional (dget_or depth "asks" (VList [])) in
  let? depth_imbalance_bps := _imbalance_bps bid_notional ask_notional in
  let? trades := as_list trades in
  let? (aggressive_buy, aggressive_sell) := foldR add_trade trades (fzero, fzero) in
  let? trade_imbalance_bps := _imbalance_bps aggressive_buy aggressive_sell in
  let? probability := _binance_probability depth_imbalance_bps trade_imbalance_bps micro_move_bps in
  Ok [("best_bid", VFloat best_bid);
      ("best_ask", VFloat best_ask);
      ("bid_qty", VFloat bid_qty);
      ("ask_qty", VFloat ask_qty);
      ("mid_price", VFloat mid_price);
      ("micro_price", VFloat micro_price);
      ("micro_move_bps", VFloat micro_move_bps);
      ("depth_imbalance_bps", VInt depth_imbalance_bps);
      ("trade_imbalance_bps", VInt trade_imbalance_bps);
      ("top_bid_notional", VFloat (round_digits 2 bid_notional));
      ("top_ask_notional", VFloat (round_digits 2 ask_notional));
      ("q_yes_bps", VInt (clamp_bps probability settings))].

Definition slug_url (slug : string) : string := _polymarket_gamma_url self +:+ "/markets/slug/" +:+ slug.

(** [slug_template.format(bucket_ts=...)] *)
Definition format_bucket (template : string) (bucket_ts : Z) : string :=
  str_removesuffix "{bucket_ts}" template +:+ string_of_Z bucket_ts.

Definition _get_direct_series_market (asset : string) (now : Z) : res (option dict) :=
  match aget asset POLYMARKET_SERIES_CONFIG with
  | None => Ok None
  | Some config =>
      let? bucket_ts := _bucket_timestamp now (bucket_seconds config) in
      match _get_json (slug_url (format_bucket (slug_template config) bucket_ts)) None with
      | Err (HTTPStatusError code) => if code =? 404 then Ok None else Err (HTTPStatusError code)
      | Err e => Err e
      | Ok (VDict market) => Ok (Some market)
      | Ok _ => Ok None
      end
  end.

(** The market of the current bucket of the series, or the best of the list;
    [a or b] passes over an empty dictionary. *)
Definition find_market (asset : string) (now : Z) : res dict :=
  let? direct := _get_direct_series_market asset now in
  match direct with
  | Some market => Ok market
  | None =>
      let? markets := _get_json (_polymarket_gamma_url self +:+ "/markets")
                        (Some [("active", VStr "true"); ("closed", VStr "false"); ("limit", VInt 200)]) in
      match markets with
      | VList markets =>
          let? series := _select_series_market markets asset now in
          match non_empty series with
          | Some market => Ok market
          | None => _select_polymarket_market markets asset
          end
      | _ => Err (MarketDataUnavailable "Polymarket markets response was not a list")
      end
  end.

(** The probability of a yes; the middle of the quotes when there is no midpoint. *)
Definition yes_probability (market midpoint : dict) : res float :=
  let? q_yes := float_field midpoint "mid" in
  if fleb q_yes fzero then
    let? bid := float_field market "bestBid" in
    let? ask := float_field market "bestAsk" in
    fdiv (fadd bid ask) ftwo
  else Ok q_yes.

Definition spread_of (top_bid top_ask : float) : res float :=
  if fltb fzero top_bid && fltb fzero top_ask then
    let? middle := fdiv (fadd top_ask top_bid) ftwo in
    let? share := fdiv (fsub top_ask top_bid) middle in
    Ok (round_digits 2 (fmul share ften_thousand))
  else Ok fzero.

Definition _fetch_polymarket_snapshot (asset : string) (now : Z) : res dict :=
  let? market := find_market asset now in
  let? token_ids := _safe_json_loads (dget market "clobTokenIds") in
  let? outcomes := _safe_json_loads (dget market "outcomes") in
  let configured := match aget asset POLYMARKET_SERIES_CONFIG with Some c => positive_outcome c | None => "Yes" end in
  let? (chosen, positive_index) := choose_outcome configured outcomes in
  let? positive_token_id := token_at token_ids positive_index in
  let? primary_event := primary_event_of market in
  let token := Some [("token_id", positive_token_id)] in
  let? book := _get_json (_polymarket_clob_url self +:+ "/book") token in
  let? midpoint := _get_json (_polymarket_clob_url self +:+ "/midpoint") token in
  let? midpoint := as_dict midpoint in
  let? q_yes := yes_probability market midpoint in
  let? q_yes_bps := round_int (fmul q_yes ften_thousand) in
  let? book := as_dict book in
  let bids := dget_or book "bids" (VList []) in
  let asks := dget_or book "asks" (VList []) in
  let level levels k otherwise := let? v := first_level levels k otherwise in _float v fzero in
  let? top_bid := level bids "price" (dget market "bestBid") in
  let? top_ask := level asks "price" (dget market "bestAsk") in
  let? top_bid_size := level bids "size" (VFloat fzero) in
  let? top_ask_size := level asks "size" (VFloat fzero) in
  let? spread_bps := spread_of top_bid top_ask in
  let? question := dgetitem market "question" in
  let? slug := dgetitem market "slug" in
  let? series := _market_series_slug market in
  let? volume := round_field market "volume24hrClob" in
  let? liquidity := round_field market "liquidityClob" in
  let? last_price := float_field market "lastTradePrice" in
  Ok [("market_id", dget market "id");
      ("question", question);
      ("slug", slug);
      ("series_slug", vopt_str series);
      ("event_id", dget primary_event "id");
      ("event_slug", dget primary_event "slug");
      ("event_start_time", por (por (dget market "eventStartTime") (dget primary_event "startTime"))
                               (dget market "startDate"));
      ("end_date", dget market "endDate");
      ("condition_id", dget market "conditionId");
      ("positive_outcome", chosen);
      ("outcomes", outcomes);
      ("yes_token_id", positive_token_id);
      ("q_yes_bps", VInt q_yes_bps);
      ("best_bid", VFloat top_bid);
      ("best_ask", VFloat top_ask);
      ("best_bid_size", VFloat top_bid_size);
      ("best_ask_size", VFloat top_ask_size);
      ("spread_bps", VFloat spread_bps);
      ("volume24hr_clob", volume);
      ("liquidity_clob", liquidity);
      ("last_trade_price", VFloat last_price)].

Record market_bundle := {
  bundle_baseline_q_bps : Z;
  bundle_commit_close_ref_price : value;
  bundle_market_context : string;
  bundle_noisy_fragments : list value;
  bundle_binance_snapshot : dict;
  bundle_polymarket_snapshot : dict;
  bundle_freshness : dict
}.

(** [round(q_pm * w_pm + q_bin * w_bin)] *)
Definition blend (settings : ForecastSettings) (q_pm q_bin : value) : res Z :=
  let? q_pm := py_mul q_pm (VFloat (baseline_pm_weight settings)) in
  let? q_bin := py_mul q_bin (VFloat (baseline_bin_weight settings)) in
  let? total := py_add q_pm q_bin in
  let? total := py_float total in
  round_int total.

Definition market_context_text (asset depth trade question midpoint : string) : string :=
  asset +:+ " 15m live pack. Binance order book shows " +:+ depth +:+ " bps depth imbalance and " +:+ trade +:+
  " bps recent trade pressure. Polymarket anchor is '" +:+ question +:+ "' with midpoint " +:+ midpoint +:+ " bps.".

(** [f"{d[k]}"] *)
Definition item_text (d : dict) (k : string) : res string := let? v := dgetitem d k in py_str v.

Definition _fetch_market_bundle (asset : string) (settings : ForecastSettings) (now : Z) : res market_bundle :=
  let? binance_snapshot := _fetch_binance_snapshot asset settings in
  let? polymarket_snapshot := _fetch_polymarket_snapshot asset now in
  let? q_pm := dgetitem polymarket_snapshot "q_yes_bps" in
  let? q_bin := dgetitem binance_snapshot "q_yes_bps" in
  let? blended := blend settings q_pm q_bin in
  let? depth := item_text binance_snapshot "depth_imbalance_bps" in
  let? trade := item_text binance_snapshot "trade_imbalance_bps" in
  let? question := item_text polymarket_snapshot "question" in
  let? midpoint := item_text polymarket_snapshot "q_yes_bps" in
  let? mid_price := dgetitem binance_snapshot "mid_price" in
  let? depth_imbalance := dgetitem binance_snapshot "depth_imbalance_bps" in
  let? slug := dgetitem polymarket_snapshot "slug" in
  let? volume := dgetitem polymarket_snapshot "volume24hr_clob" in
  let? fragment1 := fragment [("symbl", VStr asset); ("mid_prce", mid_price); ("depth_imbalnce_bps", depth_imbalance)] in
  let? fragment2 := fragment [("pm_mrket", slug); ("yes_mdpnt_bps", q_pm); ("vol24rh", volume)] in
  Ok {| bundle_baseline_q_bps := clamp_bps blended settings;
        bundle_commit_close_ref_price := mid_price;
        bundle_market_context := market_context_text asset depth trade question midpoint;
        bundle_noisy_fragments := [fragment1; fragment2];
        bundle_binance_snapshot := binance_snapshot;
        bundle_polymarket_snapshot := polymarket_snapshot;
        bundle_freshness := [("binance", VInt 0); ("polymarket", VInt 0)] |}.

(** [int(w * 100)] in the name of the method. *)
Definition percent_text (w : float) : res string :=
  let? n := f_trunc (fmul w (f_of_Z 100)) in Ok (string_of_Z n).

Definition live_pack (asset : string) (generated_at : Z) (bundle : market_bundle) : dict :=
  [("asset", VStr asset); ("lane", VStr "forecast_15m")] ++
  snapshot_metadata "live" generated_at (dget (bundle_freshness bundle) "binance")
    (dget (bundle_freshness bundle) "polymarket") ++
  [("polymarket_snapshot", VDict (bundle_polymarket_snapshot bundle));
   ("binance_snapshot", VDict (bundle_binance_snapshot bundle));
   ("market_context", VStr (bundle_market_context bundle));
   ("noisy_fragments", VList (bundle_noisy_fragments bundle))].

Definition live_build_fast_task (now : Z) (settings : ForecastSettings) (asset : string)
  (publish_at generated_at : option Z) : res dict :=
  let generated_at := default now generated_at in
  let? base_task := build_fast_task now settings asset publish_at (Some generated_at) in
  let? bundle := _fetch_market_bundle asset settings generated_at in
  let? (snapshot_health, task_state, degraded_reason) := _classify_snapshot_state settings (bundle_freshness bundle) in
  let pack := live_pack asset generated_at bundle in
  let? pm := percent_text (baseline_pm_weight settings) in
  let? bin := percent_text (baseline_bin_weight settings) in
  let? pack_hash := _hash_pack pack in
  Ok (dupdate base_task
        [("baseline_q_bps", VInt (bundle_baseline_q_bps bundle));
         ("baseline_method", VStr ("q_pm_" +:+ pm +:+ "_q_bin_" +:+ bin));
         ("snapshot_health", VStr snapshot_health);
         ("task_state", VStr task_state);
         ("degraded_reason", vopt_str degraded_reason);
         ("void_reason", VNone);
         ("pack_hash", VStr pack_hash);
         ("pack_json", VDict pack);
         ("commit_close_ref_price", bundle_commit_close_ref_price bundle)]).

(** The state of a market, as the feed tells it. *)
Inductive resolution := Pending (method : string) | Resolved (outcome : Z).

Definition _get_polymarket_resolution (slug positive_outcome : value) : res resolution :=
  if negb (truthy slug) then Ok (Pending "missing_slug")
  else
    let? slug := py_str slug in
    match _get_json (slug_url slug) None with
    | Err (HTTPStatusError code) => if code =? 404 then Ok (Pending "slug_not_found") else Err (HTTPStatusError code)
    | Err e => Err e
    | Ok (VDict market) =>
        let? outcome := _extract_resolved_outcome market positive_outcome in
        Ok (match outcome with
            | None => Pending "polymarket_gamma_pending"
            | Some outcome => Resolved outcome
            end)
    | Ok _ => Ok (Pending "invalid_market_payload")
    end.

(** [d.get(k, {})] where the code goes on with [.get] *)
Definition inner_dict (d : dict) (k : string) : res dict := as_dict (dget_or d k (VDict [])).

Definition live_resolve_fast_task (task : dict) : res dict :=
  let? pack := inner_dict task "pack_json" in
  let? polymarket_snapshot := inner_dict pack "polymarket_snapshot" in
  let? resolution := _get_polymarket_resolution (dget polymarket_snapshot "slug")
                       (dget_or polymarket_snapshot "positive_outcome" (VStr "Up")) in
  let? price := float_field task "commit_close_ref_price" in
  Ok (match resolution with
      | Resolved outcome =>
          [("commit_close_ref_price", VFloat price); ("end_ref_price", VNone);
           ("outcome", VInt outcome);
           ("resolution_status", VStr "resolved");
           ("resolution_method", VStr "polymarket_gamma")]
      | Pending method =>
          [("commit_close_ref_price", VFloat price); ("end_ref_price", VNone);
           ("outcome", VNone);
           ("resolution_status", VStr "pending");
           ("resolution_method", VStr method)]
      end).
End Live.

(** ** The hybrid provider *)

(** [f"{x:.3f}"] *)
Definition fixed3 (x : float) : string :=
  match x with
  | S754_nan => "nan"
  | S754_infinity s => if s then "-inf" else "inf"
  | _ =>
      let '(n, d) := f_ratio (fabs x) in
      let r := rhe_div (n * 1000) d in
      (if f_sign x then "-" else "") +:+ string_of_Z (r / 1000) +:+ "." +:+ zero_pad 3 (r mod 1000)
  end.

(** [exc.__class__.__name__] *)
Definition class_name (e : exn) : string :=
  match e with
  | ValueError _ => "ValueError"
  | KeyError _ => "KeyError"
  | TypeError => "TypeError"
  | AttributeError => "AttributeError"
  | ZeroDivisionError => "ZeroDivisionError"
  | OverflowError => "OverflowError"
  | IndexError => "IndexError"
  | OSError _ => "OSError"
  | RuntimeError _ => "MarketDataUnavailable"
  | HTTPStatusError _ => "HTTPStatusError"
  | HTTPException _ _ => "HTTPException"
  | TimeoutError => "TimeoutError"
  | SystemExit _ => "SystemExit"
  | Unmodelled what => what
  end.

Section Hybrid.
Context {Response : Type} (live : LiveMarketDataProvider Response).
(** [str(exc)], and [asyncio.wait_for(coro, timeout)] of a call that gives a result. *)
Context (str_exc : exn -> string) (wait_for : float -> res dict -> res dict).

Definition live_or_timeout (now : Z) (settings : ForecastSettings) (asset : string) (publish_at generated_at : option Z)
  : res dict :=
  let timeout_seconds := fast_task_live_build_timeout_seconds settings in
  let live_coro := live_build_fast_task live now settings asset publish_at generated_at in
  if fltb fzero timeout_seconds then wait_for timeout_seconds live_coro else live_coro.

Definition fallback_reason (settings : ForecastSettings) (e : exn) : string :=
  match e with
  | TimeoutError => "fast_task_live_build_timeout:" +:+ fixed3 (fast_task_live_build_timeout_seconds settings) +:+ "s"
  | e => let text := str_exc e in if String.eqb text "" then class_name e else text
  end.

Definition fallback_task (now : Z) (settings : ForecastSettings) (asset : string) (publish_at generated_at : option Z)
  (e : exn) : res dict :=
  let? task := synthetic_build_fast_task now settings asset publish_at generated_at in
  let task := dset task "snapshot_health" (VStr "synthetic_fallback") in
  let task := dset task "task_state" (VStr "degraded") in
  let task := dset task "degraded_reason" (VStr "live_market_data_unavailable") in
  let task := dset task "void_reason" VNone in
  let? task := set_inside task "pack_json" "snapshot_source" (VStr "synthetic_fallback") in
  let? task := set_inside task "pack_json" "fallback_reason" (VStr (fallback_reason settings e)) in
  rehash task.

(** [except Exception]; a [SystemExit] is raised by nothing below the live provider. *)
Definition hybrid_build_fast_task (now : Z) (settings : ForecastSettings) (asset : string)
  (publish_at generated_at : option Z) : res dict :=
  match live_or_timeout now settings asset publish_at generated_at with
  | Ok task => Ok task
  | Err (Unmodelled what) => Err (Unmodelled what)
  | Err e => fallback_task now settings asset publish_at generated_at e
  end.

Definition hybrid_resolve_fast_task (task : dict) : res dict :=
  let? pack := inner_dict task "pack_json" in
  if field_is "snapshot_source" "synthetic_fallback" pack then resolve_fast_task task
  else
    match live_resolve_fast_task live task with
    | Ok resolution => Ok resolution
    | Err (Unmodelled what) => Err (Unmodelled what)
    | Err e =>
        let? price := float_field task "commit_close_ref_price" in
        Ok [("commit_close_ref_price", VFloat price); ("end_ref_price", VNone);
            ("outcome", VNone);
            ("resolution_status", VStr "pending");
            ("resolution_method", VStr "live_resolution_error");
            ("resolution_error", VStr (str_exc e))]
    end.

Definition HybridMarketDataProvider : TaskProvider := {|
  provider_accepts_publish_at := true;
  provider_accepts_generated_at := true;
  provider_build_fast_task := hybrid_build_fast_task;
  provider_resolve_fast_task := hybrid_resolve_fast_task;
  provider_resolve_daily_task := None
|}.
End Hybrid.
