(* ===== verification/MarketFacts.v ===== *)
(** * What the market data providers promise

    The task of the hybrid provider is the engine's own task except for the
    fields of the feed, carries the hash of its pack and says where the pack
    is from; the provider gives a task whatever the feeds do; and an outcome
    is only what a closed market paid. *)
From Stdlib Require Import ZArith Lia Ascii String SpecFloat.
From stdpp Require Import base list strings.
From S2P Require Import Prelude PyText PyFloat PyTime PyValue Sha256 Canonical Repository RepositoryFacts.
From S2P Require Import Forecast Json Settlement MarketData.
Open Scope Z_scope.

(** ** Hashes of packs *)

(** A value without datetimes can be written as JSON. *)
Definition timeless : value -> bool := value_all (fun v => match v with VTime _ => false | _ => true end).

Lemma mapR_total {A B} (f : A -> res B) l : (forall x, In x l -> exists y, f x = Ok y) -> exists l', mapR f l = Ok l'.
Proof.
  induction l as [|x l IH]; intros H; [by exists []|]. destruct (H x) as [y Hy]; [by left|].
  destruct IH as [l' Hl']; [intros z Hz; apply H; by right|]. exists (y :: l'). simpl. by rewrite Hy, Hl'.
Qed.

Lemma json_dumps_total v : timeless v = true -> exists l, json_dumps v = Ok l.
Proof.
  induction v as [|b|n|x|s|t|l IH|d IH] using value_ind'; intros Hv; try discriminate Hv; try (eexists; reflexivity).
  - unfold timeless in Hv. simpl in Hv. rewrite forallb_forall in Hv. rewrite List.Forall_forall in IH.
    destruct (mapR_total json_dumps l) as [l' Hl']; [intros x Hx; apply IH; [done|by apply Hv]|].
    simpl. rewrite Hl'. by eexists.
  - unfold timeless in Hv. simpl in Hv. rewrite forallb_forall in Hv. rewrite List.Forall_forall in IH.
    cbn [json_dumps]. destruct (mapR_total (fun kv : string * res (list ascii) =>
      let? s := kv.2 in Ok (json_string kv.1 ++ ":"%char :: s))
      (sort_by key_lt (map (fun kv => (kv.1, json_dumps kv.2)) d))) as [l' Hl']; [|rewrite Hl'; by eexists].
    intros [k r] Hkv. apply In_sort_by in Hkv. apply in_map_iff in Hkv as ([k' v] & [= <- <-] & Hin).
    destruct (IH (k', v) Hin (Hv _ Hin)) as [s Hs]. simpl in Hs. simpl. rewrite Hs. by eexists.
Qed.

Definition hashed (task : dict) : Prop :=
  exists pack h, dget task "pack_json" = VDict pack /\ dget task "pack_hash" = VStr h /\ _hash_pack pack = Ok h.

Lemma rehash_hashed task task' : rehash task = Ok task' ->
  hashed task' /\ forall k, k <> "pack_hash" -> dget task' k = dget task k.
Proof.
  unfold rehash. intros H. apply rbind_ok in H as (v & Hv & H). apply dgetitem_ok, dget_some in Hv.
  destruct v as [| | | | | | |pack]; try discriminate H. apply rbind_ok in H as (p & [= <-] & H).
  apply rbind_ok in H as (h & Hh & [= <-]). split.
  - exists pack, h. by rewrite !dget_dset.
  - intros k Hk. rewrite dget_dset. by apply String.eqb_neq in Hk as ->.
Qed.

Lemma set_inside_ok task k1 k2 v task' : set_inside task k1 k2 v = Ok task' ->
  exists inner, dget task k1 = VDict inner /\ task' = dset task k1 (VDict (dset inner k2 v)).
Proof.
  unfold set_inside. intros H. apply rbind_ok in H as (i & Hi & H). apply dgetitem_ok, dget_some in Hi.
  destruct i as [| | | | | | |inner]; try discriminate H. injection H as <-. by exists inner.
Qed.

Lemma set_inside_run task k1 k2 v inner : aget k1 task = Some (VDict inner) ->
  set_inside task k1 k2 v = Ok (dset task k1 (VDict (dset inner k2 v))).
Proof. intros H. unfold set_inside, dgetitem. by rewrite H. Qed.

Lemma rehash_run task pack : aget "pack_json" task = Some (VDict pack) -> timeless (VDict pack) = true ->
  exists h, rehash task = Ok (dset task "pack_hash" (VStr h)).
Proof.
  intros H Hp. unfold rehash, dgetitem. rewrite H. unfold _hash_pack. destruct (json_dumps_total _ Hp) as [l Hl].
  simpl. simpl in Hl. rewrite Hl. by eexists.
Qed.

Lemma timeless_dset d k v : timeless (VDict d) = true -> timeless v = true -> timeless (VDict (dset d k v)) = true.
Proof.
  unfold timeless. simpl. rewrite !forallb_forall. intros Hd Hv [k' v'] Hx.
  apply In_aset in Hx as [[-> ->]|Hx]; [exact Hv|by apply (Hd (k', v'))].
Qed.

(** ** Tasks *)

(** The fields that a provider may set in the task of the engine. *)
Definition feed_fields : list string :=
  ["baseline_q_bps"; "baseline_method"; "snapshot_health"; "task_state"; "degraded_reason"; "void_reason"; "pack_hash";
   "pack_json"; "commit_close_ref_price"].

(** A task that its pack says is from [source]. *)
Record sound_task (settings : ForecastSettings) (base task : dict) (source : string) : Prop := {
  sound_hash : hashed task;
  sound_source : exists pack, dget task "pack_json" = VDict pack /\ dget pack "snapshot_source" = VStr source;
  sound_baseline : exists q, dget task "baseline_q_bps" = VInt q /\ min_p_yes_bps settings <= q <= max_p_yes_bps settings;
  sound_rest : forall k, ~ In k feed_fields -> dget task k = dget base k
}.

Lemma clamp_bps_range settings v : min_p_yes_bps settings <= max_p_yes_bps settings ->
  min_p_yes_bps settings <= clamp_bps v settings <= max_p_yes_bps settings.
Proof. unfold clamp_bps. lia. Qed.

Section Pack.
#[local] Opaque _seed_int iso_format quoted string_of_Z.
Lemma fast_pack_timeless asset id at_ pm bin :
  timeless (VDict (fast_pack asset id at_ pm bin)) = true /\
  dget (fast_pack asset id at_ pm bin) "snapshot_source" = VStr "synthetic".
Proof. split; reflexivity. Qed.
End Pack.

#[local] Strategy expand [_baseline_probs].

(** What the engine's builder gives. *)
Lemma base_task now settings asset publish_at generated_at base :
  build_fast_task now settings asset publish_at generated_at = Ok base ->
  exists pack q, aget "pack_json" base = Some (VDict pack) /\ timeless (VDict pack) = true /\
    dget pack "snapshot_source" = VStr "synthetic" /\ dget base "baseline_q_bps" = VInt q /\
    (min_p_yes_bps settings <= max_p_yes_bps settings -> min_p_yes_bps settings <= q <= max_p_yes_bps settings).
Proof.
  unfold build_fast_task. intros H. apply rbind_ok in H as (start & _ & H). apply rbind_ok in H as ([[pm bin] q] & Hq & H).
  apply rbind_ok in H as (h & _ & [= <-]). unfold _baseline_probs in Hq. apply rbind_ok in Hq as (b & _ & Hq). apply Ok_inj, (f_equal snd) in Hq. cbn [snd] in Hq. subst q.
  pose proof (fast_pack_timeless asset (fast_task_id start asset) (default now generated_at) pm bin) as Hp.
  pose proof (clamp_bps_range settings b) as Hr. revert Hp Hr.
  generalize (fast_pack asset (fast_task_id start asset) (default now generated_at) pm bin).
  generalize (clamp_bps b settings). intros q' pack [Ht Hs] Hr. exists pack, q'.
  split; [reflexivity|]. split; [exact Ht|]. split; [exact Hs|]. split; [reflexivity|exact Hr].
Qed.

Section Providers.
Context {Response : Type} (live : LiveMarketDataProvider Response).
Context (now : Z) (settings : ForecastSettings) (asset : string) (publish_at generated_at : option Z).
Context (Hrange : min_p_yes_bps settings <= max_p_yes_bps settings).

Lemma live_task_sound task : live_build_fast_task live now settings asset publish_at generated_at = Ok task ->
  exists base, build_fast_task now settings asset publish_at generated_at = Ok base /\
    sound_task settings base task "live".
Proof.
  unfold live_build_fast_task. intros H. apply rbind_ok in H as (base & Hb & H).
  apply rbind_ok in H as (bundle & Hbundle & H). apply rbind_ok in H as ([[health state] reason] & _ & H).
  apply rbind_ok in H as (pm & _ & H). apply rbind_ok in H as (bin & _ & H). apply rbind_ok in H as (h & Hh & H). apply Ok_inj in H as <-.
  exists base. split; [by destruct generated_at|]. assert (Hq : exists q, bundle_baseline_q_bps bundle = clamp_bps q settings).
  { unfold _fetch_market_bundle in Hbundle. repeat (apply rbind_ok in Hbundle as (? & _ & Hbundle)).
    injection Hbundle as <-. eexists. reflexivity. }
  destruct Hq as [q Hq]. match goal with |- context [dupdate base ?x] => set (u := x) end. assert (Hu : NoDup (akeys u)) by nodup_keys.
  assert (Hget : forall k v, aget k u = Some v -> dget (dupdate base u) k = v)
    by (intros k v Hk; rewrite dget_dupdate by done; by rewrite Hk).
  split.
  - exists (live_pack asset (default now generated_at) bundle), h. split_and!; [by apply Hget..|exact Hh].
  - exists (live_pack asset (default now generated_at) bundle). split; [by apply Hget|reflexivity].
  - exists (bundle_baseline_q_bps bundle). split; [by apply Hget|]. rewrite Hq. by apply clamp_bps_range.
  - intros k Hk. rewrite dget_dupdate by done. change feed_fields with (akeys u) in Hk. by apply aget_None in Hk as ->.
Qed.

(** The synthetic task is the engine's with another pack and hash. *)
Lemma synthetic_task_sound task : synthetic_build_fast_task now settings asset publish_at generated_at = Ok task ->
  exists base, build_fast_task now settings asset publish_at generated_at = Ok base /\
    sound_task settings base task "synthetic".
Proof.
  unfold synthetic_build_fast_task. intros H. apply rbind_ok in H as (base & Hb & H). apply rbind_ok in H as (t1 & H1 & H).
  exists base. split; [done|]. apply base_task in Hb as (pack & q & Hp & _ & Hs & Hq & Hr).
  rewrite (set_inside_run _ _ _ _ _ Hp) in H1. apply Ok_inj in H1 as <-. apply rehash_hashed in H as [Hh Hk]. split.
  - exact Hh.
  - eexists. rewrite (Hk "pack_json"), dget_dset by done. split; [reflexivity|]. rewrite dget_dset. exact Hs.
  - exists q. rewrite (Hk "baseline_q_bps"), dget_dset by done. split; [exact Hq|by apply Hr].
  - intros k Hf. rewrite Hk, dget_dset by (intros ->; apply Hf; simpl; tauto).
    destruct (String.eqb_spec k "pack_json") as [->|]; [|done]. destruct Hf. simpl. tauto.
Qed.

(** The fallback gives a task whenever the engine does. *)
Lemma fallback_total str_exc e base : build_fast_task now settings asset publish_at generated_at = Ok base ->
  exists task, fallback_task str_exc now settings asset publish_at generated_at e = Ok task.
Proof.
  intros Hb. pose proof (base_task _ _ _ _ _ _ Hb) as (pack & q & Hp & Ht & _).
  unfold fallback_task, synthetic_build_fast_task. rewrite Hb. cbn [rbind].
  rewrite (set_inside_run _ _ _ _ _ Hp). cbn [rbind].
  destruct (rehash_run (dset base "pack_json" (VDict (dset pack "fallback_reason" VNone)))
              (dset pack "fallback_reason" VNone)) as [h Hh]; [apply aget_aset_eq|by apply timeless_dset|].
  rewrite Hh. cbn [rbind]. cbv zeta.
  erewrite set_inside_run by (unfold dset; rewrite !aget_aset; reflexivity). cbn [rbind].
  erewrite set_inside_run by apply aget_aset_eq. cbn [rbind].
  match goal with |- context [rehash (dset ?t "pack_json" (VDict ?p))] =>
    destruct (rehash_run (dset t "pack_json" (VDict p)) p) as [h' Hh'] end;
    [apply aget_aset_eq|by repeat apply timeless_dset|rewrite Hh'; by eexists].
Qed.

Lemma fallback_sound str_exc e task : fallback_task str_exc now settings asset publish_at generated_at e = Ok task ->
  exists base, build_fast_task now settings asset publish_at generated_at = Ok base /\
    sound_task settings base task "synthetic_fallback" /\
    dget task "snapshot_health" = VStr "synthetic_fallback" /\ dget task "task_state" = VStr "degraded" /\
    dget task "degraded_reason" = VStr "live_market_data_unavailable".
Proof.
  unfold fallback_task. intros H. apply rbind_ok in H as (t0 & H0 & H).
  apply synthetic_task_sound in H0 as (base & Hb & [_ (pack & Hp & _) (q & Hq & Hr) Hrest]).
  cbv zeta in H. apply rbind_ok in H as (t1 & H1 & H). apply rbind_ok in H as (t2 & H2 & H).
  apply set_inside_ok in H1 as (p1 & Hp1 & ->). apply set_inside_ok in H2 as (p2 & Hp2 & ->).
  apply rehash_hashed in H as [Hh Hk]. exists base. split; [done|].
  rewrite !dget_dset in Hp1, Hp2. cbn [String.eqb Ascii.eqb Bool.eqb] in Hp1, Hp2.
  assert (Hp2' : p2 = dset p1 "snapshot_source" (VStr "synthetic_fallback")) by (injection Hp2; auto). subst p2.
  split; [split|split_and!; rewrite Hk, !dget_dset by done; reflexivity].
  - exact Hh.
  - eexists. rewrite (Hk "pack_json"), dget_dset by done. split; [reflexivity|]. rewrite !dget_dset. reflexivity.
  - exists q. rewrite (Hk "baseline_q_bps"), !dget_dset by done. split; [exact Hq|done].
  - intros k Hf. rewrite Hk, !dget_dset by (intros ->; apply Hf; simpl; tauto).
    repeat match goal with |- context [String.eqb k ?x] => destruct (String.eqb_spec k x) as [->|]; [destruct Hf; simpl; tauto|] end.
    by apply Hrest.
Qed.
End Providers.

(** ** Outcomes *)

(** The market is closed, not disputed, and pays [o] for the outcome. *)
Definition paid (market : dict) (positive : value) (o : Z) : Prop :=
  truthy (dget market "closed") = true /\ resolution_allows market = Ok true /\
  exists outcomes prices i price x,
    _safe_json_loads (dget market "outcomes") = Ok (VList outcomes) /\
    _safe_json_loads (dget market "outcomePrices") = Ok (VList prices) /\ length outcomes = length prices /\
    index_of positive outcomes = Some i /\ prices !! i = Some price /\ _float price (fneg fone) = Ok x /\
    (o = 1 /\ feqb x fone = true \/ o = 0 /\ feqb x fzero = true).

Lemma extracted_outcome_paid market positive o : _extract_resolved_outcome market positive = Ok (Some o) ->
  paid market positive o.
Proof.
  unfold _extract_resolved_outcome, paid. destruct (truthy (dget market "closed")); [|discriminate]. simpl negb. cbv iota.
  intros H. apply rbind_ok in H as (b & Hb & H). destruct b; [|discriminate H]. simpl negb in H. cbv iota in H.
  apply rbind_ok in H as (outs & Ho & H). apply rbind_ok in H as (prices & Hp & H). split; [done|]. split; [done|].
  destruct outs as [| | | | | |outs|]; try discriminate H. destruct prices as [| | | | | |prices|]; try discriminate H.
  destruct (Nat.eqb_spec (length outs) (length prices)) as [Hl|]; [|discriminate H]. simpl negb in H. cbv iota in H.
  destruct (index_of positive outs) as [i|] eqn:Ei; [|discriminate H]. apply rbind_ok in H as (xs & Hxs & H).
  destruct (xs !! i) as [x|] eqn:Ex; [|discriminate H]. apply mapR_ok in Hxs.
  destruct (Forall2_lookup_r _ _ _ _ _ Hxs Ex) as (price & Hprice & Hx).
  exists outs, prices, i, price, x. split_and!; try done.
  destruct (feqb x fone); [left; by injection H as <-|]. destruct (feqb x fzero); [right; by injection H as <-|discriminate H].
Qed.

Section Hybrid.
Context {Response : Type} (live : LiveMarketDataProvider Response).
Context (str_exc : exn -> string) (wait_for : float -> res dict -> res dict).
(** [asyncio.wait_for] gives the result of the coroutine or raises [TimeoutError]. *)
Context (Hwait : forall t r, wait_for t r = r \/ wait_for t r = Err TimeoutError).

Lemma live_in_time now settings asset publish_at generated_at task :
  live_or_timeout live wait_for now settings asset publish_at generated_at = Ok task ->
  live_build_fast_task live now settings asset publish_at generated_at = Ok task.
Proof.
  unfold live_or_timeout. destruct (fltb _ _); [|done].
  destruct (Hwait (fast_task_live_build_timeout_seconds settings)
              (live_build_fast_task live now settings asset publish_at generated_at)) as [->| ->]; done.
Qed.

(** C24: Whatever the feeds answer, the task of the hybrid provider is the engine's own
    task (identity, lane, asset, deadlines, state) with another pack and
    baseline: the pack hash is the hash of the pack, the baseline is in the
    range of the settings, and the pack names its source; a task that is not
    live is marked as degraded. *)
Theorem hybrid_tasks_are_sound now settings asset publish_at generated_at task :
  min_p_yes_bps settings <= max_p_yes_bps settings ->
  hybrid_build_fast_task live str_exc wait_for now settings asset publish_at generated_at = Ok task ->
  exists base source, build_fast_task now settings asset publish_at generated_at = Ok base /\
    sound_task settings base task source /\
    (source = "live" \/
     source = "synthetic_fallback" /\ dget task "snapshot_health" = VStr "synthetic_fallback" /\
     dget task "task_state" = VStr "degraded" /\ dget task "degraded_reason" = VStr "live_market_data_unavailable").
Proof.
  intros Hr. unfold hybrid_build_fast_task.
  destruct (live_or_timeout _ _ _ _ _ _ _) as [t|e] eqn:E.
  - intros [= <-]. apply live_in_time in E. apply live_task_sound in E as (base & Hb & Hs); [|done].
    exists base, "live". split_and!; [done..|by left].
  - intros H. assert (Hf : fallback_task str_exc now settings asset publish_at generated_at e = Ok task)
      by (destruct e; (discriminate H || exact H)).
    apply fallback_sound in Hf as (base & Hb & Hs & Hl); [|done]. exists base, "synthetic_fallback".
    split_and!; [done..|by right].
Qed.

(** C25: The hybrid provider gives a task whatever the feeds do, fail, answer nonsense
    or run out of time, as long as the engine's own builder gives one. *)
Theorem hybrid_build_always_answers now settings asset publish_at generated_at base :
  build_fast_task now settings asset publish_at generated_at = Ok base ->
  (forall what, live_or_timeout live wait_for now settings asset publish_at generated_at <> Err (Unmodelled what)) ->
  exists task, hybrid_build_fast_task live str_exc wait_for now settings asset publish_at generated_at = Ok task.
Proof.
  intros Hb Hu. unfold hybrid_build_fast_task. destruct (live_or_timeout _ _ _ _ _ _ _) as [t|e] eqn:E; [by exists t|].
  destruct (fallback_total now settings asset publish_at generated_at str_exc e base Hb) as [task Ht].
  destruct e; first [by exists task | by destruct (Hu what)].
Qed.

(** C23: A task of the live feed is resolved only by a closed market: the outcome is 1
    or 0 as the market pays exactly one or nothing for the outcome the pack
    names; in every other case, an error of the feed included, the resolution
    is pending and has no outcome. *)
Theorem live_outcomes_are_paid task pack snapshot r :
  dget task "pack_json" = VDict pack -> dget pack "snapshot_source" = VStr "live" ->
  dget pack "polymarket_snapshot" = VDict snapshot ->
  hybrid_resolve_fast_task live str_exc task = Ok r ->
  (dget r "resolution_status" = VStr "pending" /\ dget r "outcome" = VNone) \/
  exists slug market o, py_str (dget snapshot "slug") = Ok slug /\
    _get_json live (slug_url live slug) None = Ok (VDict market) /\
    paid market (dget_or snapshot "positive_outcome" (VStr "Up")) o /\
    dget r "resolution_status" = VStr "resolved" /\ dget r "outcome" = VInt o.
Proof.
  intros Hp Hs Hsnap.
  assert (Hin : forall d k x, dget d k = VDict x -> inner_dict d k = Ok x).
  { intros d k x Hd. unfold inner_dict, dget, dget_or in *. destruct (aget k d); by subst. }
  unfold hybrid_resolve_fast_task. rewrite (Hin _ _ _ Hp). cbn [rbind]. unfold field_is. rewrite Hs. cbn [py_eq_str].
  change ("live" =? "synthetic_fallback")%string with false. cbv iota.
  destruct (live_resolve_fast_task live task) as [r'|e] eqn:E.
  - intros [= <-]. unfold live_resolve_fast_task in E. rewrite (Hin _ _ _ Hp) in E. cbn [rbind] in E.
    rewrite (Hin _ _ _ Hsnap) in E. cbn [rbind] in E. apply rbind_ok in E as (res & Hres & E).
    apply rbind_ok in E as (price & _ & E). apply Ok_inj in E as <-. destruct res as [m|o]; [by left|]. right.
    unfold _get_polymarket_resolution in Hres. destruct (truthy (dget snapshot "slug")); [|discriminate Hres].
    simpl negb in Hres. cbv iota in Hres. apply rbind_ok in Hres as (slug & Hslug & Hres).
    destruct (_get_json live (slug_url live slug) None) as [v|e] eqn:Ej.
    2: { destruct e; try discriminate Hres. by destruct (code =? 404). }
    destruct v as [| | | | | | |market]; try discriminate Hres. apply rbind_ok in Hres as (out & Hout & Hres).
    destruct out as [o'|]; [|discriminate Hres]. injection Hres as ->. exists slug, market, o. split_and!; try done.
    by apply extracted_outcome_paid.
  - intros H. destruct e; try discriminate H; apply rbind_ok in H as (price & _ & H); apply Ok_inj in H as <-; by left.
Qed.
End Hybrid.

(** ** Witnesses *)

(** A network that is down, and one where each address has one answer. *)
Definition offline : HttpClient value :=
  {| http_get _ _ := Err (OSError "connection refused"); raise_for_status _ := Ok tt; response_json := Ok |}.
Definition web (answers : list (string * value)) : HttpClient value :=
  {| http_get url _ := of_option (aget url answers) (HTTPStatusError 404); raise_for_status _ := Ok tt; response_json := Ok |}.
Definition provider_of (client : HttpClient value) : LiveMarketDataProvider value :=
  live_provider client "https://binance" "https://gamma/" "https://clob".
Definition demo_text (e : exn) : string := match e with OSError msg | ValueError msg | RuntimeError msg => msg | _ => "" end.
Definition in_time (_ : float) (r : res dict) : res dict := r.

Lemma in_time_waits t r : in_time t r = r \/ in_time t r = Err TimeoutError.
Proof. by left. Qed.

Lemma demo_base_ok : is_ok (build_fast_task 0 default_settings "BTCUSDT" None (Some 0)) = true.
Proof. vm_compute. reflexivity. Qed.

Abbreviation demo_hybrid :=
  (hybrid_build_fast_task (provider_of offline) demo_text in_time 0 default_settings "BTCUSDT" None (Some 0)).

Lemma offline_live base : build_fast_task 0 default_settings "BTCUSDT" None (Some 0) = Ok base ->
  live_or_timeout (provider_of offline) in_time 0 default_settings "BTCUSDT" None (Some 0) = Err (OSError "connection refused").
Proof.
  intros Hb. unfold live_or_timeout, in_time, live_build_fast_task. change (default 0 (Some 0)) with 0.
  rewrite Hb. by destruct (fltb _ _).
Qed.

Lemma hybrid_build_always_answers_witness : exists task, demo_hybrid = Ok task.
Proof.
  pose proof demo_base_ok as Hok.
  destruct (build_fast_task 0 default_settings "BTCUSDT" None (Some 0)) as [base|e] eqn:Hb; [|discriminate Hok].
  apply (hybrid_build_always_answers (provider_of offline) demo_text in_time 0 default_settings "BTCUSDT" None (Some 0) base Hb).
  intros what. rewrite (offline_live base Hb). discriminate.
Defined.

Lemma hybrid_tasks_are_sound_witness : exists task base source, demo_hybrid = Ok task /\
  sound_task default_settings base task source.
Proof.
  pose proof demo_base_ok as Hok.
  destruct (build_fast_task 0 default_settings "BTCUSDT" None (Some 0)) as [base|e] eqn:Hb; [|discriminate Hok].
  destruct (fallback_total 0 default_settings "BTCUSDT" None (Some 0) demo_text (OSError "connection refused") base Hb) as [task Ht].
  assert (Hd : demo_hybrid = Ok task)
    by (unfold hybrid_build_fast_task; rewrite (offline_live base Hb); exact Ht).
  destruct (hybrid_tasks_are_sound (provider_of offline) demo_text in_time in_time_waits 0 default_settings "BTCUSDT" None (Some 0)
              task ltac:(discriminate) Hd) as (base' & source & _ & Hs & _).
  exists task, base', source. exact (conj Hd Hs).
Defined.

(** A market that closed with the outcome the pack names. *)
Definition demo_market : dict :=
  [("closed", VBool true); ("umaResolutionStatus", VStr "resolved");
   ("outcomes", VStr ("[" +:+ Forecast.quoted "Up" +:+ ", " +:+ Forecast.quoted "Down" +:+ "]"));
   ("outcomePrices", VStr ("[" +:+ Forecast.quoted "1" +:+ ", " +:+ Forecast.quoted "0" +:+ "]"))].
Definition demo_snapshot : dict := [("slug", VStr "btc-updown-5m-0"); ("positive_outcome", VStr "Up")].
Definition demo_live_pack : dict := [("snapshot_source", VStr "live"); ("polymarket_snapshot", VDict demo_snapshot)].
Definition demo_live_task : dict := [("pack_json", VDict demo_live_pack); ("commit_close_ref_price", VInt 70000)].
Definition demo_web : LiveMarketDataProvider value :=
  provider_of (web [("https://gamma/markets/slug/btc-updown-5m-0", VDict demo_market)]).

Lemma live_outcomes_are_paid_witness :
  exists r, hybrid_resolve_fast_task demo_web demo_text demo_live_task = Ok r /\ dget r "outcome" = VInt 1 /\
  exists slug market o, py_str (dget demo_snapshot "slug") = Ok slug /\
    _get_json demo_web (slug_url demo_web slug) None = Ok (VDict market) /\ paid market (VStr "Up") o /\
    dget r "resolution_status" = VStr "resolved" /\ dget r "outcome" = VInt o.
Proof.
  assert (H : exists r, hybrid_resolve_fast_task demo_web demo_text demo_live_task = Ok r /\ dget r "outcome" = VInt 1)
    by (eexists; split; vm_compute; reflexivity).
  destruct H as (r & Hr & Ho). exists r.
  destruct (live_outcomes_are_paid demo_web demo_text demo_live_task demo_live_pack demo_snapshot r eq_refl eq_refl eq_refl Hr)
    as [[_ Hn]|Hpaid]; [rewrite Hn in Ho; discriminate Ho|exact (conj Hr (conj Ho Hpaid))].
Defined.
