(* ===== verification/Service.v ===== *)
(** * The service: registration, the reconcile loop and the queries
    ([ForecastMiningService])

    [reconcile] is what every clock tick and most handlers run: it publishes the
    tasks of the schedule, settles what is due, releases holds, builds windows
    and batches, and ranks the miners. *)
From Stdlib Require Import ZArith Lia Ascii String SpecFloat.
From stdpp Require Import base list strings.
From S2P Require Import Prelude PyText PyFloat PyTime PyValue Sha256 Canonical Repository Forecast RewardRows.
From S2P Require Import Economic Miners Settlement Windows PokerWindow.
Open Scope Z_scope.

(** What the service asks of the chain: two ways to broadcast the plan of an
    anchor transaction and the confirmation of a transaction, each with the
    current time.  The confirmer is told the batch if its signature takes it. *)
Record ChainClient := {
  chain_broadcaster : option (dict -> Z -> res dict);
  chain_typed_broadcaster : option (dict -> Z -> res dict);
  chain_tx_confirmer : option (value -> Z -> option value -> res dict);
  confirmer_takes_batch_id : bool
}.

Definition no_chain : ChainClient :=
  {| chain_broadcaster := None; chain_typed_broadcaster := None; chain_tx_confirmer := None;
     confirmer_takes_batch_id := false |}.

Record ForecastMiningService := {
  settings : ForecastSettings;
  task_provider : option TaskProvider;
  chain : ChainClient
}.

(** ** Registration *)

(** [part.isdigit()] with [int(part)], which rejects superscripts. *)
Definition part_number (digits : list ascii) : res Z :=
  of_option (Z_of_string (of_chars digits)) (ValueError "invalid literal for int()").

Definition version_part (part : string) : res (list Z) :=
  match chars part with
  | [] => Ok []
  | c :: cs =>
      if forallb is_digit_or_superscript (c :: cs) then let? n := part_number (c :: cs) in Ok [n]
      else if is_digit_or_superscript c
      then let? n := part_number (List.filter is_digit_or_superscript (c :: cs)) in Ok [n]
      else Ok []
  end.

Definition _parse_version (version : string) : res (list Z) :=
  let? digits := mapR version_part (str_split "."%char (str_replace_char "-" "." version)) in
  Ok (match concat digits with [] => [0] | l => l end).

(** Order of tuples of integers. *)
Fixpoint version_lt (a b : list Z) : bool :=
  match a, b with
  | [], [] => false
  | [], _ :: _ => true
  | _ :: _, [] => false
  | x :: a, y :: b => if x =? y then version_lt a b else x <? y
  end.

Definition new_miner (address name public_key : string) (index : Z) (economic_unit_id : option string)
  (ip_address user_agent_hash : option string) (now : Z) : dict :=
  dupdate
  (dupdate
  [("address", VStr address);
   ("name", por (VStr name) (VStr "miner"));
   ("registration_index", VInt index);
   ("status", VStr "active");
   ("public_key", VStr public_key);
   ("economic_unit_id", por (vopt_str economic_unit_id) (VStr ("eu:" +:+ address)));
   ("ip_address", vopt_str ip_address);
   ("user_agent_hash", vopt_str user_agent_hash);
   ("total_rewards", VInt 0);
   ("held_rewards", VInt 0);
   ("forecast_commits", VInt 0);
   ("forecast_reveals", VInt 0);
   ("fast_task_opportunities", VInt 0);
   ("fast_task_misses", VInt 0);
   ("fast_window_start_at", VTime now);
   ("settled_tasks", VInt 0);
   ("correct_direction_count", VInt 0);
   ("edge_score_total", VFloat fzero);
   ("admission_state", VStr "probation");
   ("model_reliability", VFloat fone);
   ("ops_reliability", VFloat fone);
   ("arena_multiplier", VFloat fone);
   ("poker_mtt_multiplier", VFloat fone)]
  (_poker_mtt_reward_identity_defaults address now))
  [("public_rank", VNone); ("public_elo", VInt 1200); ("created_at", VTime now); ("updated_at", VTime now)].

(** An existing miner whose component changed gets the new unit. *)
Definition move_existing (component_map : list (string * string)) (now : Z) (all_miners : list dict) (existing : dict)
  : repo (list dict) :=
  let*? address := miner_address existing in
  match aget address component_map with
  | Some new_component_id =>
      if String.eqb new_component_id "" || field_is "economic_unit_id" new_component_id existing then sret all_miners
      else
        do* update_miner_cluster_identity address (VTime now) (VStr new_component_id) VNone VNone in
        let*? items := mapR (fun miner_item =>
          let? a := miner_address miner_item in
          Ok (if String.eqb a address then dset miner_item "economic_unit_id" (VStr new_component_id) else miner_item))
          all_miners in
        sret items
  | None => sret all_miners
  end.

Definition register_miner (self : ForecastMiningService) (address name public_key miner_version : string)
  (ip_address user_agent economic_unit_id : option string) (now : Z) : repo dict :=
  let*? _ := guard (str_startswith "claw1" address) (ValueError "invalid address format") in
  let*? version := _parse_version miner_version in
  let*? minimum := _parse_version (min_miner_version (settings self)) in
  let*? _ := guard (negb (version_lt version minimum)) (ValueError "miner version below minimum") in
  let* existing_miners := list_miners in
  let*? normalized_ip := normalize_ip_signal ip_address in
  let miner := new_miner address name public_key (Z.of_nat (length existing_miners) + 1) economic_unit_id
                 normalized_ip (hash_user_agent user_agent) now in
  let*? component_map := compute_economic_unit_components (existing_miners ++ [miner]) in
  let miner := dset miner "economic_unit_id"
                 (match aget address component_map with Some u => VStr u | None => dget miner "economic_unit_id" end) in
  let* saved := Repository.register_miner miner in
  let* all_miners := foldS (move_existing component_map now) existing_miners (existing_miners ++ [saved]) in
  do* _sync_cluster_risk_cases all_miners now in
  sret saved.

(** ** The schedule *)

(** The publication slots of a moment: the current one, and the next one shortly before it opens. *)
Definition _fast_task_publish_slots (self : ForecastMiningService) (current : Z) : res (list (Z * Z)) :=
  let? current_publish_at := _bucket_start current (fast_task_seconds (settings self)) in
  let next_publish_at := current_publish_at + second * fast_task_seconds (settings self) in
  let until_next := next_publish_at - current in
  Ok ((current_publish_at, current) ::
      if (0 <? until_next) && (until_next <=? second * Z.max 0 (fast_task_prewarm_seconds (settings self)))
      then [(next_publish_at, current)] else []).

Definition _build_fast_task_for_schedule (self : ForecastMiningService) (asset : string) (publish_at generated_at : Z)
  : res dict :=
  let? legacy_current_bucket := _bucket_start generated_at (fast_task_seconds (settings self)) in
  let own := build_fast_task generated_at (settings self) asset (Some publish_at) (Some generated_at) in
  match task_provider self with
  | None => own
  | Some provider =>
      let build := provider_build_fast_task provider generated_at (settings self) asset in
      if provider_accepts_publish_at provider || provider_accepts_generated_at provider
      then build (if provider_accepts_publish_at provider then Some publish_at else None)
                 (if provider_accepts_generated_at provider then Some generated_at else None)
      else if publish_at =? legacy_current_bucket then build None None
      else own
  end.

(** [existing = await repo.get_task(id); if not existing: await repo.upsert_task(task)] *)
Definition publish_if_absent (task_id : value) (task : res dict) : repo unit :=
  let*? id := as_key task_id in
  let* existing := get_task id in
  match existing with
  | Some _ => sret tt
  | None => let*? task := task in do* upsert_task task in sret tt
  end.

Definition publish_fast_task (self : ForecastMiningService) (slot : Z * Z) (asset : string) : repo unit :=
  let '(publish_at, generated_at) := slot in
  let*? task := build_fast_task generated_at (settings self) asset (Some publish_at) (Some generated_at) in
  let*? task_id := dgetitem task "task_run_id" in
  publish_if_absent task_id (_build_fast_task_for_schedule self asset publish_at generated_at).

Definition publish_daily_task (self : ForecastMiningService) (current : Z) (asset : string) : repo unit :=
  let*? task := build_daily_anchor_task current asset (Some (settings self)) in
  let*? task_id := dgetitem task "task_run_id" in
  publish_if_absent task_id (Ok task).

Definition publish_schedule (self : ForecastMiningService) (current : Z) : repo unit :=
  let*? slots := _fast_task_publish_slots self current in
  do* forS (fun slot => forS (publish_fast_task self slot) FAST_ASSETS) slots in
  forS (publish_daily_task self current) DAILY_ASSETS.

Definition reconcile (self : ForecastMiningService) (current : Z) : repo unit :=
  do* publish_schedule self current in
  do* _settle_due_tasks (task_provider self) (settings self) current in
  do* _settle_due_daily_tasks (task_provider self) (settings self) current in
  do* _release_matured_holds (settings self) current in
  do* _build_reward_windows current in
  do* _build_poker_mtt_reward_windows (settings self) current in
  do* _build_settlement_batches current in
  _refresh_public_ranks.

(** ** Rebuilding a window *)

Definition collect_submissions (members : window_members) (task_run_id : string) : repo window_members :=
  let* submissions := list_submissions_for_task task_run_id in
  slift (foldR (fun members submission =>
    if is_none (dget submission "p_yes_bps") then Ok members else add_member members submission) submissions members).

Definition rebuild_reward_window (self : ForecastMiningService) (reward_window_id : string) (current : Z) : repo dict :=
  do* reconcile self current in
  let* reward_window := get_reward_window reward_window_id in
  match reward_window with
  | None => sraise (ValueError "reward window not found")
  | Some reward_window =>
      let* all_tasks := list_tasks in
      let tasks := List.filter (field_is "reward_window_id" reward_window_id) all_tasks in
      let*? ids := mapR task_key tasks in
      let* members := foldS collect_submissions ids no_members in
      let*? miner_reward_rows := build_forecast_reward_component_rows (window_submissions members) in
      let*? total_reward_amount := total_gross miner_reward_rows in
      let*? materialized := _materialize_reward_window
        (dupdate reward_window
           (membership_fields (sort_strings ids) members miner_reward_rows total_reward_amount ++
            [("updated_at", VStr (iso_format current))])) in
      let* saved := save_reward_window materialized.1 in
      let with_rows := dset saved "miner_reward_rows" (VList (map VDict miner_reward_rows)) in
      do* _upsert_reward_window_artifact with_rows current in
      do* if field_is "lane" "forecast_15m" saved
          then do* _upsert_forecast_reward_window_replay_artifact with_rows (window_submissions members) current in
               sret tt
          else sret tt in
      sret saved
  end.
