(* ===== verification/Anchors.v ===== *)
(** * Anchoring settlement batches on the chain

    A settlement batch goes from open to anchor_ready
    ([retry_anchor_settlement_batch]), to anchor_submitted with a job
    ([submit_anchor_job]), is broadcast, and ends anchored or anchor_failed by
    the confirmation of its transaction ([confirm_anchor_job_on_chain]).  Every
    handler reconciles the service first. *)
From Stdlib Require Import ZArith Lia Ascii String SpecFloat.
From stdpp Require Import base list strings.
From S2P Require Import Prelude PyText PyFloat PyTime PyValue Sha256 Canonical Repository Forecast RewardRows.
From S2P Require Import ChainAdapter Economic Miners Submissions Settlement Windows PokerWindow Service.
Open Scope Z_scope.

(** ** The anchor payload *)

(** What the windows of a batch contribute to its payload. *)
Record batch_content := {
  content_task_ids : list value;
  content_rows : list value;
  content_projections : list dict;
  content_reputations : list dict
}.

Definition empty_content : batch_content :=
  {| content_task_ids := []; content_rows := []; content_projections := []; content_reputations := [] |}.

Definition add_rows (c : batch_content) (rows : list value) : batch_content :=
  {| content_task_ids := content_task_ids c; content_rows := content_rows c ++ rows;
     content_projections := content_projections c; content_reputations := content_reputations c |}.

Definition add_task_ids (c : batch_content) (ids : list value) : batch_content :=
  {| content_task_ids := content_task_ids c ++ ids; content_rows := content_rows c;
     content_projections := content_projections c; content_reputations := content_reputations c |}.

(** A tournament window contributes the rows and roots of its projection. *)
Definition add_poker_window (c : batch_content) (reward_window_id : string) (artifacts : list dict) : res batch_content :=
  match non_empty (_poker_mtt_projection_artifact_from_refs artifacts) with
  | None => Err (ValueError "poker mtt reward window projection not found")
  | Some artifact =>
      let? projection_payload := artifact_payload (Some artifact) in
      let? roots := _poker_mtt_projection_roots projection_payload reward_window_id in
      let? rows := resolve_poker_mtt_projection_reward_rows projection_payload artifacts in
      Ok {| content_task_ids := content_task_ids c;
            content_rows := content_rows c ++ rows;
            content_projections := content_projections c ++ [roots];
            content_reputations := content_reputations c ++
              [[("reward_window_id", VStr reward_window_id);
                ("reputation_delta_rows_root", dget roots "reputation_delta_rows_root")]] |}
  end.

(** The rows that a membership artifact holds, if any. *)
Definition membership_rows (artifacts : list dict) : res (list value) :=
  match non_empty (first_of_kind "reward_window_membership" artifacts) with
  | None => Ok []
  | Some artifact =>
      let? payload := artifact_payload (Some artifact) in
      resolve_reward_window_membership_rows payload artifacts
  end.

(** A forecast window contributes its membership rows, or rows rebuilt from its submissions. *)
Definition forecast_window_rows (task_run_ids : list value) (artifacts : list dict) : repo (list value) :=
  let*? rows := membership_rows artifacts in
  match rows with
  | _ :: _ => sret rows
  | [] =>
      let*? ids := mapR as_key task_run_ids in
      let* submissions := mapS list_submissions_for_task ids in
      let*? rows := build_forecast_reward_component_rows (concat submissions) in
      sret (map VDict rows)
  end.

Definition add_window (is_poker : bool) (c : batch_content) (reward_window_id : value) : repo batch_content :=
  let*? id := as_key reward_window_id in
  let* reward_window := get_reward_window id in
  match reward_window with
  | None => sret c
  | Some w =>
      let*? task_run_ids := as_list (dget_or w "task_run_ids" (VList [])) in
      let c := add_task_ids c task_run_ids in
      let* artifacts := list_artifacts_for_entity "reward_window" id in
      if is_poker then slift (add_poker_window c id artifacts)
      else let* rows := forecast_window_rows task_run_ids artifacts in sret (add_rows c rows)
  end.

(** The parts of the payload that the canonical root is hashed from. *)
Definition canonical_root_input (batch : dict) (settlement_batch_id : string) (reward_window_ids task_run_ids rows : list value)
  (projections reputations : list dict) : res dict :=
  let? windows_root := _hash_sequence reward_window_ids in
  let? tasks_root := _hash_sequence task_run_ids in
  let? rows_root := _hash_sequence rows in
  let? projections_root := match projections with
                           | [] => Ok []
                           | _ => let? root := _hash_sequence (map VDict projections) in
                                  Ok [("poker_projection_roots_root", VStr root)]
                           end in
  let? reputations_root := match reputations with
                           | [] => Ok []
                           | _ => let? root := _hash_sequence (map VDict reputations) in
                                  Ok [("reputation_delta_policy_version", VStr POKER_MTT_REPUTATION_DELTA_POLICY_VERSION);
                                      ("reputation_delta_rows_root", VStr root)]
                           end in
  Ok ([("schema_version", VStr ANCHOR_PAYLOAD_SCHEMA_VERSION);
       ("policy_bundle_version", window_policy batch);
       ("settlement_batch_id", VStr settlement_batch_id);
       ("lane", dget batch "lane");
       ("window_start_at", dget batch "window_start_at");
       ("window_end_at", dget batch "window_end_at");
       ("reward_window_ids_root", VStr windows_root);
       ("task_run_ids_root", VStr tasks_root);
       ("miner_reward_rows_root", VStr rows_root);
       ("task_count", dget_or batch "task_count" (VInt 0));
       ("miner_count", dget_or batch "miner_count" (VInt 0));
       ("total_reward_amount", dget_or batch "total_reward_amount" (VInt 0))] ++ projections_root ++ reputations_root).

(** What an anchor-ready batch stores. *)
Record anchor_payload := {
  anchor_canonical_root : string;
  anchor_json : dict;
  anchor_pages : list dict;
  anchor_hash : string
}.

Definition listed (k : string) (rows : list dict) : dict :=
  match rows with [] => [] | _ => [(k, VList (map VDict rows))] end.

Definition build_anchor_payload (settings : ForecastSettings) (batch : dict) (settlement_batch_id : string)
  (reward_window_ids : list value) (content : batch_content) : res anchor_payload :=
  let? task_ids := mapR as_key (content_task_ids content) in
  let task_run_ids := map VStr (sort_strings (dedup_keys task_ids)) in
  let? rows := mapR as_dict (content_rows content) in
  let? miner_reward_rows := merge_reward_component_rows rows in
  let rows := map VDict miner_reward_rows in
  let? sorted_windows := py_sorted reward_window_ids in
  let by_window := py_sort py_lt (fun item => dgetitem item "reward_window_id") false in
  let? projections := by_window (content_projections content) in
  let? reputations := by_window (content_reputations content) in
  let? root_input := canonical_root_input batch settlement_batch_id sorted_windows task_run_ids rows
                       projections reputations in
  let? canonical_root := _hash_payload root_input in
  let payload := root_input ++
    [("reward_window_ids", VList sorted_windows);
     ("task_run_ids", VList task_run_ids);
     ("miner_reward_rows", VList rows);
     ("canonical_root", VStr canonical_root)] ++
    listed "poker_projection_roots" projections ++ listed "reputation_delta_window_roots" reputations in
  let? paged := build_paged_poker_mtt_projection_payload payload (poker_mtt_projection_artifact_page_size settings) in
  let? hash := _hash_payload paged.1 in
  Ok {| anchor_canonical_root := canonical_root; anchor_json := paged.1; anchor_pages := paged.2; anchor_hash := hash |}.

Definition _upsert_settlement_anchor_artifact (settlement_batch : dict) (now : Z) (pages : list dict) : repo dict :=
  let payload := dget settlement_batch "anchor_payload_json" in
  if negb (truthy payload) then sret []
  else
    let*? entity_id := dgetitem settlement_batch "id" in
    let*? id := py_str entity_id in
    let artifact_id := "art:settlement_batch:" +:+ id +:+ ":anchor" in
    let*? hash := dgetitem settlement_batch "anchor_payload_hash" in
    let*? page_rows := page_artifact_rows (artifact_id +:+ ":miner_rewards:") SETTLEMENT_ANCHOR_PAGE_ARTIFACT_KIND
                         "settlement_batch" entity_id pages now in
    let* saved := save_artifacts_bulk
      (artifact_row artifact_id "settlement_anchor_payload" "settlement_batch" entity_id payload hash now :: page_rows) in
    row_with_id artifact_id saved.

(** ** Making a batch ready *)

Definition batch_is_anchorable (batch : dict) : res bool :=
  if in_strings (dget batch "state") ["cancelled"; "no_positive_weight"] then Ok false
  else let? total := int_field batch "total_reward_amount" in Ok (0 <? total).

Definition make_anchor_ready (self : ForecastMiningService) (settlement_batch_id : string) (current : Z) (batch : dict)
  : repo dict :=
  let*? anchorable := batch_is_anchorable batch in
  let*? _ := guard anchorable (ValueError "settlement batch not anchorable") in
  let*? batch_lane := str_or_empty (dget batch "lane") in
  let is_poker := str_startswith "poker_mtt_" batch_lane in
  let*? _ := guard (negb (is_poker && negb (poker_mtt_settlement_anchoring_enabled (settings self))))
               (ValueError "poker mtt settlement anchoring disabled") in
  let*? reward_window_ids := as_list (dget_or batch "reward_window_ids" (VList [])) in
  let* content := foldS (add_window is_poker) reward_window_ids empty_content in
  let*? anchor := build_anchor_payload (settings self) batch settlement_batch_id reward_window_ids content in
  let same := py_eq_str (dget batch "canonical_root") (anchor_canonical_root anchor) &&
              py_eq_str (dget batch "anchor_payload_hash") (anchor_hash anchor) in
  let rooted := truthy (dget batch "canonical_root") in
  let*? _ := guard (negb rooted || same) (ValueError "settlement batch canonical root conflict") in
  if rooted && in_strings (dget batch "state") ["anchor_ready"; "anchor_submitted"; "anchored"] then
    do* _upsert_settlement_anchor_artifact batch current [] in
    slift (_summarize_settlement_batch_response batch)
  else
    let candidate_batch := dupdate batch
      [("state", VStr "anchor_ready");
       ("anchor_job_id", VNone);
       ("policy_bundle_version", window_policy batch);
       ("anchor_schema_version", VStr ANCHOR_PAYLOAD_SCHEMA_VERSION);
       ("canonical_root", VStr (anchor_canonical_root anchor));
       ("anchor_payload_json", VDict (anchor_json anchor));
       ("anchor_payload_hash", VStr (anchor_hash anchor));
       ("updated_at", VStr (iso_format current))] in
    do* _upsert_settlement_anchor_artifact candidate_batch current (anchor_pages anchor) in
    let* saved := mark_settlement_batch_anchor_ready settlement_batch_id (window_policy batch)
                    (VStr ANCHOR_PAYLOAD_SCHEMA_VERSION) (VStr (anchor_canonical_root anchor))
                    (VDict (anchor_json anchor)) (VStr (anchor_hash anchor)) (VStr (iso_format current)) in
    slift (_summarize_settlement_batch_response saved).

Definition retry_anchor_settlement_batch (self : ForecastMiningService) (settlement_batch_id : string) (current : Z)
  : repo dict :=
  do* reconcile self current in
  let* batch := require (get_settlement_batch settlement_batch_id) "settlement batch not found" in
  make_anchor_ready self settlement_batch_id current batch.

(** ** Submitting a job *)

Definition _build_anchor_job_id (settlement_batch_id : string) (now : Z) : string :=
  "aj_" +:+ settlement_batch_id +:+ "_" +:+ compact_format 14 now.

(** [while await get_anchor_job(id): id = f"{base}_{suffix}"; suffix += 1] on fuel. *)
Fixpoint free_job_id (fuel : nat) (jobs : rows) (base : string) (candidate : string) (suffix : Z) : option string :=
  match non_empty (aget candidate jobs) with
  | None => Some candidate
  | Some _ =>
      match fuel with
      | O => None
      | S fuel => free_job_id fuel jobs base (base +:+ "_" +:+ string_of_Z suffix) (suffix + 1)
      end
  end.

(** As many candidates as there are jobs, and one more. *)
Definition fresh_job_id (base : string) : repo string :=
  let* s := sget in
  match free_job_id (length (tab _anchor_jobs s)) (tab _anchor_jobs s) base base 1 with
  | Some id => sret id
  | None => sraise (Unmodelled "no free job id")
  end.

Definition submit_batch (settlement_batch_id : string) (current : Z) : repo dict :=
  let* batch := require (get_settlement_batch settlement_batch_id) "settlement batch not found" in
  let*? _ := guard (field_is "state" "anchor_ready" batch) (ValueError "settlement batch not anchor_ready") in
  let*? _ := guard (truthy (dget batch "anchor_payload_hash") && truthy (dget batch "anchor_payload_json"))
               (ValueError "settlement batch missing anchor payload") in
  let* anchor_job_id := fresh_job_id (_build_anchor_job_id settlement_batch_id current) in
  let now := VStr (iso_format current) in
  do* save_anchor_job
    [("id", VStr anchor_job_id);
     ("settlement_batch_id", VStr settlement_batch_id);
     ("lane", dget_or batch "lane" (VStr "forecast_15m"));
     ("state", VStr "anchor_submitted");
     ("anchor_payload_hash", dget batch "anchor_payload_hash");
     ("broadcast_status", VNone);
     ("broadcast_tx_hash", VNone);
     ("chain_confirmation_status", VNone);
     ("last_broadcast_at", VNone);
     ("failure_reason", VNone);
     ("submitted_at", now);
     ("anchored_at", VNone);
     ("created_at", now);
     ("updated_at", now)] in
  let*? batch_id := dgetitem batch "id" in
  let*? batch_id := as_key batch_id in
  mark_settlement_batch_anchor_submitted batch_id (VStr anchor_job_id) now.

Definition submit_anchor_job (self : ForecastMiningService) (settlement_batch_id : string) (current : Z) : repo dict :=
  do* reconcile self current in
  submit_batch settlement_batch_id current.

(** ** Ending a job *)

(** A job by its own id, or by the id of the batch that names it. *)
Definition find_anchor_job (anchor_job_id : string) : repo (option dict) :=
  let* anchor_job := get_anchor_job anchor_job_id in
  match anchor_job with
  | Some job => sret (Some job)
  | None =>
      let* batch := get_settlement_batch anchor_job_id in
      match batch with
      | Some b =>
          let id := dget b "anchor_job_id" in
          if truthy id then let*? id := as_key id in get_anchor_job id else sret None
      | None => sret None
      end
  end.

Definition id_of (row : dict) (k : string) : res string := let? id := dgetitem row k in as_key id.

(** The batch of a job, if it still names that job. *)
Definition batch_of_job (anchor_job : dict) (job_id : string) : repo (option dict) :=
  let*? batch_id := id_of anchor_job "settlement_batch_id" in
  let* batch := get_settlement_batch batch_id in
  sret (match batch with
        | Some b => if field_is "anchor_job_id" job_id b then Some b else None
        | None => None
        end).

(** The ledger of an anchored window is paid with what was approved. *)
Definition pay_ledger (batch_id : value) (current : Z) (ledger : dict) : repo unit :=
  let*? approved_amount := int_or_zero (dget ledger "approved_amount") in
  do* save_poker_mtt_budget_ledger (dupdate ledger
        [("settlement_batch_id", batch_id);
         ("paid_amount", VInt approved_amount);
         ("state", if 0 <? approved_amount then VStr "paid" else por (dget ledger "state") (VStr "paid"));
         ("updated_at", VStr (iso_format current))]) in
  sret tt.

Definition pay_window_ledgers (batch_id : value) (current : Z) (reward_window_id : value) : repo unit :=
  let*? id := as_key reward_window_id in
  let* ledgers := list_poker_mtt_budget_ledgers None None (Some id) None in
  forS (pay_ledger batch_id current) ledgers.

Definition settle_anchored (anchor_job : dict) (current : Z) : repo dict :=
  let*? job_id := id_of anchor_job "id" in
  let* saved_job := mark_anchor_job_terminal job_id (VStr "anchored") (VTime current) (VTime current) VNone
                      (VStr "confirmed") in
  let* batch := batch_of_job anchor_job job_id in
  do* match batch with
      | None => sret tt
      | Some b =>
          let*? batch_id := dgetitem b "id" in
          let*? id := as_key batch_id in
          do* mark_settlement_batch_terminal id (VStr "anchored") (VStr (iso_format current)) in
          let*? windows := list_field b "reward_window_ids" in
          forS (pay_window_ledgers batch_id current) windows
      end in
  sret saved_job.

Definition mark_anchor_job_anchored (self : ForecastMiningService) (anchor_job_id : string) (verified : bool) (current : Z)
  : repo dict :=
  let*? _ := guard verified (ValueError "manual mark-anchored disabled; use confirm-chain") in
  do* reconcile self current in
  let* anchor_job := require (find_anchor_job anchor_job_id) "anchor job not found" in
  settle_anchored anchor_job current.

Definition settle_failed (anchor_job : dict) (failure_reason : value) (current : Z) : repo dict :=
  let*? job_id := id_of anchor_job "id" in
  let* saved_job := mark_anchor_job_terminal job_id (VStr "anchor_failed") (VTime current) VNone failure_reason VNone in
  let* batch := batch_of_job anchor_job job_id in
  do* match batch with
      | None => sret tt
      | Some b =>
          let*? id := id_of b "id" in
          do* mark_settlement_batch_terminal id (VStr "anchor_failed") (VStr (iso_format current)) in
          sret tt
      end in
  sret saved_job.

Definition mark_anchor_job_failed (self : ForecastMiningService) (anchor_job_id : string) (failure_reason : value)
  (current : Z) : repo dict :=
  do* reconcile self current in
  let* anchor_job := require (find_anchor_job anchor_job_id) "anchor job not found" in
  settle_failed anchor_job failure_reason current.

(** ** Broadcasting *)

Definition build_chain_tx_plan (anchor_job_id : string) (current : Z) : repo dict :=
  let* anchor_job := require (get_anchor_job anchor_job_id) "anchor job not found" in
  let*? batch_id := id_of anchor_job "settlement_batch_id" in
  let* batch := require (get_settlement_batch batch_id) "settlement batch not found" in
  let*? _ := guard (truthy (dget batch "anchor_payload_json") && truthy (dget batch "canonical_root"))
               (ValueError "settlement batch missing canonical anchor payload") in
  let*? plan := build_anchor_tx_plan anchor_job batch in
  do* save_artifact (artifact_row ("art:anchor_job:" +:+ anchor_job_id +:+ ":chain-tx-plan") "chain_tx_plan"
        "anchor_job" (VStr anchor_job_id) (VDict plan) (dget plan "plan_hash") current) in
  sret plan.

Inductive broadcast_mode := fallback | typed.

Definition broadcaster_of (c : ChainClient) (mode : broadcast_mode) : option (dict -> Z -> res dict) :=
  match mode with fallback => chain_broadcaster c | typed => chain_typed_broadcaster c end.

Definition broadcaster_missing (mode : broadcast_mode) : string :=
  match mode with
  | fallback => "chain broadcaster not configured"
  | typed => "typed chain broadcaster not configured"
  end.

(** [receipt = await broadcaster(plan, current)]; a refusal fails the job and is raised again. *)
Definition send_plan (self : ForecastMiningService) (anchor_job_id : string) (current : Z)
  (broadcaster : dict -> Z -> res dict) (plan : dict) : repo dict :=
  match broadcaster plan current with
  | Ok receipt => sret receipt
  | Err (ValueError msg) =>
      do* mark_anchor_job_failed self anchor_job_id (VStr msg) current in sraise (ValueError msg)
  | Err e => sraise e
  end.

(** [broadcast_chain_tx_fallback] and [broadcast_chain_tx_typed]. *)
Definition broadcast_chain_tx (self : ForecastMiningService) (mode : broadcast_mode) (anchor_job_id : string)
  (current : Z) : repo dict :=
  let* plan := build_chain_tx_plan anchor_job_id current in
  do* require (get_anchor_job anchor_job_id) "anchor job not found" in
  let*? broadcaster := of_option (broadcaster_of (chain self) mode) (ValueError (broadcaster_missing mode)) in
  let* receipt := send_plan self anchor_job_id current broadcaster plan in
  let* saved_job := update_anchor_job_broadcast anchor_job_id (VStr "broadcast_submitted") (dget receipt "tx_hash")
                      (por (dget receipt "broadcast_at") (VStr (iso_format current))) (VTime current) in
  let receipt_payload := [("receipt", VDict receipt); ("plan_hash", dget plan "plan_hash")] in
  let*? hash := _hash_payload receipt_payload in
  do* save_artifact (artifact_row ("art:anchor_job:" +:+ anchor_job_id +:+ ":broadcast-receipt")
        "chain_broadcast_receipt" "anchor_job" (VStr anchor_job_id) (VDict receipt_payload) (VStr hash) current) in
  let*? batch_id := dgetitem saved_job "settlement_batch_id" in
  sret ([("anchor_job_id", VStr anchor_job_id);
         ("settlement_batch_id", batch_id);
         ("broadcast_status", dget saved_job "broadcast_status");
         ("tx_hash", dget saved_job "broadcast_tx_hash");
         ("plan_hash", dget plan "plan_hash");
         ("memo", dget plan "fallback_memo");
         ("account_number", dget receipt "account_number");
         ("sequence", dget receipt "sequence");
         ("attempt_count", dget receipt "attempt_count")] ++
        match mode with typed => [("broadcast_method", dget receipt "broadcast_method")] | fallback => [] end).

Definition _retry_failed_anchor_job_broadcast (self : ForecastMiningService) (anchor_job_id : string)
  (mode : broadcast_mode) (current : Z) : repo dict :=
  do* reconcile self current in
  let* anchor_job := require (find_anchor_job anchor_job_id) "anchor job not found" in
  let*? _ := guard (field_is "state" "anchor_failed" anchor_job) (ValueError "anchor job not retryable") in
  let*? previous := dgetitem anchor_job "id" in
  let*? batch_id := dgetitem anchor_job "settlement_batch_id" in
  let*? settlement_batch_id := as_key batch_id in
  do* retry_anchor_settlement_batch self settlement_batch_id current in
  let* submitted_batch := submit_anchor_job self settlement_batch_id current in
  let*? new_id := dgetitem submitted_batch "anchor_job_id" in
  let*? new_anchor_job_id := as_key new_id in
  let* receipt := broadcast_chain_tx self mode new_anchor_job_id current in
  let* new_anchor_job := get_anchor_job new_anchor_job_id in
  let of_job k := match new_anchor_job with Some j => dget j k | None => VNone end in
  sret ([("previous_anchor_job_id", previous);
         ("new_anchor_job_id", new_id);
         ("settlement_batch_id", batch_id);
         ("broadcast_mode", VStr (match mode with typed => "typed" | fallback => "fallback" end));
         ("anchor_job_state", of_job "state");
         ("broadcast_status", of_job "broadcast_status")] ++
        fields_of receipt ["tx_hash"; "plan_hash"; "account_number"; "sequence"; "attempt_count"; "broadcast_method"]).

(** ** Confirming *)

Definition CHAIN_CONFIRMATION_STATUS_ALIASES : list (string * string) :=
  [("typed_tx_accepted_state_missing", "typed_state_missing");
   ("fallback_memo_tx_accepted_no_typed_state", "fallback_memo_only");
   ("root_hash_mismatch", "root_mismatch");
   ("settlement_batch_mismatch", "root_mismatch");
   ("anchor_metadata_mismatch", "metadata_mismatch");
   ("confirmed", "confirmed");
   ("failed", "failed");
   ("pending", "pending");
   ("state_missing", "typed_state_missing")].

Definition TERMINAL_CHAIN_CONFIRMATION_STATES : list string :=
  ["typed_state_missing"; "fallback_memo_only"; "root_mismatch"; "metadata_mismatch"; "failed"].

Definition _normalize_chain_confirmation_status (status : string) : string :=
  if String.eqb status "" then "pending" else default status (aget status CHAIN_CONFIRMATION_STATUS_ALIASES).

Definition _expected_settlement_anchor (anchor_job settlement_batch : dict) : res dict :=
  let? payload := dict_field settlement_batch "anchor_payload_json" in
  let? batch_id := dgetitem settlement_batch "id" in
  let? job_id := dgetitem anchor_job "id" in
  Ok [("settlement_batch_id", batch_id);
      ("anchor_job_id", job_id);
      ("lane", dget settlement_batch "lane");
      ("schema_version", por (dget settlement_batch "anchor_schema_version") (dget payload "schema_version"));
      ("policy_bundle_version", por (dget payload "policy_bundle_version") (dget settlement_batch "policy_bundle_version"));
      ("canonical_root", por (dget settlement_batch "canonical_root") (dget payload "canonical_root"));
      ("anchor_payload_hash", dget settlement_batch "anchor_payload_hash");
      ("reward_window_ids_root", dget payload "reward_window_ids_root");
      ("task_run_ids_root", dget payload "task_run_ids_root");
      ("miner_reward_rows_root", dget payload "miner_reward_rows_root");
      ("window_end_at", dget settlement_batch "window_end_at");
      ("total_reward_amount", dget_or settlement_batch "total_reward_amount" (VInt 0))].

(** A confirmed receipt with the chain's answer is compared with the stored batch. *)
Definition verify_receipt (receipt anchor_job settlement_batch : dict) (artifacts : list dict) : res dict :=
  let? payload := dict_field settlement_batch "anchor_payload_json" in
  match resolve_settlement_anchor_reward_rows payload artifacts with
  | Err (ValueError msg) =>
      Ok (dupdate receipt [("confirmed", VBool false); ("confirmation_status", VStr "root_hash_mismatch");
                           ("raw_log", VStr msg)])
  | Err e => Err e
  | Ok _ =>
      let? query_response := dict_field receipt "query_response" in
      let? expected := _expected_settlement_anchor anchor_job settlement_batch in
      let? batch_id := dgetitem settlement_batch "id" in
      let? anchor_confirmation := confirm_settlement_anchor_response query_response batch_id
        (dget settlement_batch "canonical_root") (dget settlement_batch "anchor_payload_hash") expected receipt
        (por (dget receipt "broadcast_method") (VStr "typed_msg")) in
      Ok (dupdate (dupdate receipt anchor_confirmation)
            [("height", dget receipt "height"); ("code", dget receipt "code"); ("raw_log", dget receipt "raw_log")])
  end.

Definition check_receipt (receipt anchor_job settlement_batch : dict) : repo dict :=
  if negb (field_is "confirmation_status" "confirmed" receipt) then sret receipt
  else if negb (is_none (dget receipt "query_response")) then
    let*? batch_id := id_of settlement_batch "id" in
    let* artifacts := list_artifacts_for_entity "settlement_batch" batch_id in
    slift (verify_receipt receipt anchor_job settlement_batch artifacts)
  else if is_true (dget receipt "confirmed") then sret receipt
  else sret (dupdate receipt [("confirmed", VBool false);
                              ("confirmation_status", VStr "typed_tx_accepted_state_missing")]).

(** What a status leads to: the end of the job, or nothing yet. *)
Definition end_job (self : ForecastMiningService) (anchor_job : dict) (job_id raw_status status : string)
  (receipt : dict) (current : Z) : repo dict :=
  if String.eqb status "confirmed" then mark_anchor_job_anchored self job_id true current
  else if existsb (String.eqb status) TERMINAL_CHAIN_CONFIRMATION_STATES then
    mark_anchor_job_failed self job_id
      (por (dget receipt "raw_log") (VStr ("chain anchor confirmation " +:+ raw_status))) current
  else
    let* job := get_anchor_job job_id in
    sret (match job with Some j => j | None => anchor_job end).

Definition already_anchored (anchor_job : dict) (batch_id : value) : dict :=
  [("anchor_job_id", dget anchor_job "id");
   ("settlement_batch_id", batch_id);
   ("chain_confirmation_status", VStr "confirmed");
   ("anchor_job_state", VStr "anchored");
   ("tx_hash", dget anchor_job "broadcast_tx_hash");
   ("chain_height", VNone);
   ("tx_code", VInt 0);
   ("tx_raw_log", VStr "");
   ("anchored_at", dget anchor_job "anchored_at");
   ("failure_reason", dget anchor_job "failure_reason")].

Definition confirm_job (self : ForecastMiningService) (anchor_job : dict) (current : Z) : repo dict :=
  let*? job_id := id_of anchor_job "id" in
  let tx_hash := dget anchor_job "broadcast_tx_hash" in
  let*? _ := guard (truthy tx_hash) (ValueError "anchor job missing broadcast tx hash") in
  let*? batch_value := dgetitem anchor_job "settlement_batch_id" in
  if field_is "state" "anchored" anchor_job then sret (already_anchored anchor_job batch_value)
  else
    let*? confirmer := of_option (chain_tx_confirmer (chain self)) (ValueError "chain tx confirmer not configured") in
    let*? batch_id := as_key batch_value in
    let* settlement_batch := require (get_settlement_batch batch_id) "settlement batch not found" in
    let*? receipt := confirmer tx_hash current
      (if confirmer_takes_batch_id (chain self) then Some (dget settlement_batch "id") else None) in
    let* receipt := check_receipt receipt anchor_job settlement_batch in
    let*? raw_status := as_key (por (dget receipt "confirmation_status") (VStr "pending")) in
    let status := _normalize_chain_confirmation_status raw_status in
    let receipt := dset receipt "chain_confirmation_status" (VStr status) in
    let* anchor_job := update_anchor_job_confirmation job_id (VStr status) (VTime current) in
    let*? batch_value := dgetitem anchor_job "settlement_batch_id" in
    let receipt_payload := [("receipt", VDict receipt); ("anchor_job_id", VStr job_id);
                            ("settlement_batch_id", batch_value)] in
    let*? hash := _hash_payload receipt_payload in
    do* save_artifact (artifact_row ("art:anchor_job:" +:+ job_id +:+ ":confirmation-receipt")
          "chain_confirmation_receipt" "anchor_job" (VStr job_id) (VDict receipt_payload) (VStr hash) current) in
    let* saved_job := end_job self anchor_job job_id raw_status status receipt current in
    sret [("anchor_job_id", VStr job_id);
          ("settlement_batch_id", batch_value);
          ("chain_confirmation_status", VStr status);
          ("anchor_job_state", dget saved_job "state");
          ("tx_hash", tx_hash);
          ("chain_height", dget receipt "height");
          ("tx_code", dget receipt "code");
          ("tx_raw_log", dget receipt "raw_log");
          ("anchored_at", dget saved_job "anchored_at");
          ("failure_reason", dget saved_job "failure_reason")].

Definition confirm_anchor_job_on_chain (self : ForecastMiningService) (anchor_job_id : string) (current : Z) : repo dict :=
  do* reconcile self current in
  let* anchor_job := require (find_anchor_job anchor_job_id) "anchor job not found" in
  confirm_job self anchor_job current.

Definition reconcile_pending_anchor_jobs_on_chain (self : ForecastMiningService) (current : Z) : repo (list dict) :=
  do* reconcile self current in
  let* jobs := list_anchor_jobs in
  mapS (fun anchor_job => let*? id := id_of anchor_job "id" in confirm_anchor_job_on_chain self id current)
    (List.filter (fun job => field_is "state" "anchor_submitted" job && truthy (dget job "broadcast_tx_hash")) jobs).
