(* ===== verification/Footprint.v ===== *)
(** * Footprints: what an operation of the service may write

    [touches W b m]: the operation [m] writes no table outside [W], and no
    submission unless [b].  The footprint of an operation is computed from the
    primitives it is built of, by the hints of the database [footprint]. *)
From Stdlib Require Import ZArith Lia String.
From stdpp Require Import base list strings.
From S2P Require Import Prelude PyText PyFloat PyTime PyValue Repository RepositoryFacts.
From S2P Require Import Forecast Economic Miners Submissions Settlement.
Open Scope Z_scope.

Definition untouched (W : list table) (b : bool) (s s' : FakeRepository) : Prop :=
  (forall t, ~ In t W -> tab t s' = tab t s) /\ (b = false -> _submissions s' = _submissions s).

Definition touches {A} (W : list table) (b : bool) (m : repo A) : Prop := forall s, untouched W b s (m s).2.

#[export] Instance untouched_preorder W b : PreOrder (untouched W b).
Proof.
  split; [done|]. intros s1 s2 s3 [H1 S1] [H2 S2].
  split; [intros t Ht|intros Hb]; [by rewrite H2, H1|by rewrite S2, S1].
Qed.

Section Footprints.
Context (W : list table) (b : bool).

Lemma touches_pure {A} (f : FakeRepository -> res A) : touches W b (fun s => (f s, s)).
Proof. done. Qed.

Lemma touches_sbind {A B} (m : repo A) (f : A -> repo B) :
  touches W b m -> (forall a, touches W b (f a)) -> touches W b (sbind m f).
Proof.
  intros Hm Hf s. unfold sbind. specialize (Hm s). destruct (m s) as [[a|e] s1]; simpl in *; [|done].
  etransitivity; [exact Hm|apply Hf].
Qed.

Lemma touches_forS {A} (f : A -> repo unit) l : (forall a, touches W b (f a)) -> touches W b (forS f l).
Proof. intros Hf. induction l; simpl; [done|]. by apply touches_sbind. Qed.

Lemma touches_foldS {A B} (f : B -> A -> repo B) l acc :
  (forall acc a, touches W b (f acc a)) -> touches W b (foldS f l acc).
Proof. intros Hf. revert acc. induction l; intros acc; simpl; [done|]. by apply touches_sbind. Qed.

Lemma touches_put_row t id row : In t W -> touches W b (put_row t id row).
Proof. intros Ht s. split; [|done]. intros t' Ht'. apply tab_set_tab_ne. by intros ->. Qed.

End Footprints.

Create HintDb footprint.

(** Follows the structure of an operation down to its primitives. *)
Ltac footprint :=
  repeat first
    [ progress intros
    | solve [auto with footprint]
    | match goal with
      | |- touches _ _ (sret _) => apply (touches_pure _ _ (fun _ => Ok _))
      | |- touches _ _ (slift ?r) => apply (touches_pure _ _ (fun _ => r))
      | |- touches _ _ (sraise ?e) => apply (touches_pure _ _ (fun _ => Err e))
      | |- touches _ _ sget => apply (touches_pure _ _ (fun s => Ok s))
      | |- touches _ _ (sgets ?f) => apply (touches_pure _ _ (fun s => Ok (f s)))
      | |- touches _ _ (put_row _ _ _) => apply touches_put_row; simpl; tauto
      | |- touches _ _ (sbind _ _) => apply touches_sbind
      | |- touches _ _ (forS _ _) => apply touches_forS
      | |- touches _ _ (foldS _ _ _) => apply touches_foldS
      | |- touches _ _ (match ?x with _ => _ end) => destruct x
      | |- touches _ _ (let '_ := ?x in _) => destruct x
      end ].

(** ** The repository *)

Lemma touches_save_keyed W b key t row : In t W -> touches W b (save_keyed key t row).
Proof. intros Ht. unfold save_keyed. footprint; by apply touches_put_row. Qed.

Lemma touches_get_row W b t id : touches W b (get_row t id).
Proof. unfold get_row. footprint. Qed.

#[export] Hint Resolve touches_get_row : footprint.
#[export] Hint Extern 1 (touches _ _ (save_keyed _ _ _)) => (apply touches_save_keyed; simpl; tauto) : footprint.

(** The operations named in the footprint of a goal are unfolded on the way. *)
Ltac footprint_of op := unfold op; footprint.

Section Operations.
Context (W : list table) (b : bool).

Lemma touches_reject c msg : touches W b (reject_if c msg).
Proof. footprint_of @reject_if. Qed.

Lemma touches_require {A} (m : repo (option A)) msg : touches W b m -> touches W b (require m msg).
Proof. intros Hm. unfold require. footprint. Qed.

Lemma touches_list_miners : touches W b list_miners.
Proof. unfold list_miners, all_rows. footprint. Qed.

Lemma touches_list_tasks : touches W b list_tasks.
Proof. unfold list_tasks, all_rows. footprint. Qed.

Lemma touches_list_submissions_for_task t : touches W b (list_submissions_for_task t).
Proof. footprint_of list_submissions_for_task. Qed.

Lemma touches_get_submission t m : touches W b (get_submission t m).
Proof. footprint_of get_submission. Qed.

Lemma touches_due_fast_tasks now : touches W b (list_due_unsettled_fast_tasks now).
Proof. unfold list_due_unsettled_fast_tasks, all_rows. footprint. Qed.

Lemma touches_due_holds now : touches W b (list_due_hold_entries now).
Proof. unfold list_due_hold_entries, all_rows. footprint. Qed.

Lemma touches_list_submissions_for_miner m l : touches W b (list_submissions_for_miner m l).
Proof. footprint_of list_submissions_for_miner. Qed.

Lemma touches_list_risk_cases x y z : touches W b (list_risk_cases x y z).
Proof. unfold list_risk_cases, all_rows. footprint. Qed.

Lemma touches_update_miner address u : In _miners W -> touches W b (update_miner address u).
Proof. intros H. unfold update_miner. footprint. Qed.
End Operations.

#[export] Hint Resolve touches_reject touches_require touches_list_miners touches_list_tasks
  touches_list_submissions_for_task touches_get_submission touches_due_fast_tasks touches_due_holds
  touches_list_submissions_for_miner touches_list_risk_cases : footprint.
#[export] Hint Extern 1 (touches _ _ (get_miner _)) => (apply touches_get_row) : footprint.
#[export] Hint Extern 1 (touches _ _ (get_task _)) => (apply touches_get_row) : footprint.
#[export] Hint Extern 1 (touches _ _ (get_risk_case _)) => (apply touches_get_row) : footprint.
#[export] Hint Extern 1 (touches _ _ (update_miner _ _)) => (apply touches_update_miner; simpl; tauto) : footprint.
#[export] Hint Extern 1 (touches _ _ (save_risk_case _)) => (apply touches_save_keyed; simpl; tauto) : footprint.
#[export] Hint Extern 1 (touches _ _ (save_hold_entry _)) => (apply touches_save_keyed; simpl; tauto) : footprint.
#[export] Hint Extern 1 (touches _ _ (upsert_task _)) => (apply touches_save_keyed; simpl; tauto) : footprint.
#[export] Hint Extern 1 (touches _ _ (update_miner_forecast_participation _ _ _ _ _ _ _ _)) =>
  (apply touches_update_miner; simpl; tauto) : footprint.
#[export] Hint Extern 1 (touches _ _ (update_miner_cluster_identity _ _ _ _ _)) =>
  (apply touches_update_miner; simpl; tauto) : footprint.
#[export] Hint Extern 1 (touches _ _ (update_miner_forecast_settlement _ _ _ _ _ _ _ _ _)) =>
  (apply touches_update_miner; simpl; tauto) : footprint.
#[export] Hint Extern 1 (touches _ _ (update_miner_public_ranking _ _ _)) =>
  (apply touches_update_miner; simpl; tauto) : footprint.

(** A write stays inside a larger footprint. *)
Lemma touches_weaken {A} (W W' : list table) (b b' : bool) (m : repo A) :
  touches W b m -> incl W W' -> (b' = false -> b = false) -> touches W' b' m.
Proof. intros Hm HW Hb s. destruct (Hm s) as [H1 H2]. split; [intros t Ht; apply H1|]; auto. Qed.

(** ** The service *)

Lemma touches_refresh_cluster self ip ua now :
  touches [_miners; _risk_cases] false (_refresh_miner_cluster self ip ua now).
Proof.
  unfold _refresh_miner_cluster, _sync_cluster_risk_cases, update_cluster_member, sync_cluster_case. footprint.
Qed.

Lemma touches_duplicate_case t sid u ms now m :
  touches [_risk_cases] false (_open_duplicate_reveal_case t sid u ms now m).
Proof. unfold _open_duplicate_reveal_case. footprint. Qed.

Lemma touches_participation settings task subs now :
  touches [_miners] false (_apply_fast_task_participation settings task subs now).
Proof. unfold _apply_fast_task_participation, apply_participation. footprint. Qed.

Lemma touches_abuse_state cache miner sub : touches [] false (cached_abuse_state cache miner sub).
Proof. unfold cached_abuse_state, _anti_abuse_state. footprint. Qed.

Lemma touches_place_hold task sub held now : touches [_hold_entries] false (place_hold task sub held now).
Proof. unfold place_hold. footprint. Qed.

Lemma touches_credit_miner a m r c now : touches [_miners] false (credit_miner a m r c now).
Proof. unfold credit_miner. footprint. Qed.

Lemma touches_release_holds settings now :
  touches [_miners; _hold_entries] false (_release_matured_holds settings now).
Proof. unfold _release_matured_holds, release_miner, release_hold, pay_out, set_admission. footprint. Qed.

Lemma touches_public_ranks : touches [_miners] false _refresh_public_ranks.
Proof. unfold _refresh_public_ranks, rank_miner. footprint. Qed.

Lemma touches_index_request b row k : touches [_request_index] b (index_request row k).
Proof. unfold index_request. footprint. Qed.
#[export] Hint Resolve touches_index_request : footprint.

Lemma touches_save_submission sub : touches [_request_index] true (save_submission sub).
Proof.
  intros s. unfold save_submission. destruct (submission_key sub) as [key|e]; [|done].
  rewrite (sbind_run _ _ s key s) by done. rewrite (sbind_run _ _ s s s) by done.
  destruct (foreign_request _ _ _ _) as [[existing|]|e]; [done| |done].
  rewrite (sbind_run _ _ s None s) by done. cbv zeta.
  set (current := dupdate _ sub). set (s1 := set_submissions _ s).
  rewrite (sbind_run _ _ s tt s1) by done. transitivity s1; [done|].
  assert (H : touches [_request_index] true (do* forS (index_request current) request_id_keys in sret current))
    by footprint.
  apply H.
Qed.
