(* ===== verification/Protocol.v ===== *)
(** * The promises of the commit-reveal protocol

    What the store promises about the submissions: a revealed forecast is the
    committed one and inside the allowed range, it never changes afterwards, and
    of the rows of a task one at most is eligible for an economic unit.
    [moves m] says that an operation keeps the promises and evolves the
    submissions; it is proved here of the commit, the reveal and the settlement,
    and in ProtocolRuns of everything else that a server does. *)
From Stdlib Require Import ZArith Lia Ascii String Permutation.
From stdpp Require Import base list strings relations.
From S2P Require Import Prelude PyText PyFloat PyTime PyValue Sha256 Repository RepositoryFacts.
From S2P Require Import Forecast Economic Miners Submissions Settlement Footprint.
Open Scope Z_scope.

(** The part of the store that the protocol speaks about. *)
Definition view (s : FakeRepository) := (_submissions s, tab _request_index s).

Lemma untouched_view W s s' : untouched W false s s' -> ~ In _request_index W -> view s' = view s.
Proof. intros [Ht Hs] HW. unfold view. by rewrite Ht, Hs. Qed.

(** ** The promises *)

(** The row is an eligible revealed forecast of the economic unit. *)
Definition eligible_for (unit : string) (row : dict) : bool :=
  is_revealed row && field_is "eligibility_status" "eligible" row && field_is "economic_unit_id" unit row.

(** The fields that nothing but the protocol's own handlers writes. *)
Definition protected_fields : list string :=
  ["task_run_id"; "miner_address"; "economic_unit_id"; "commit_request_id"; "reveal_request_id";
   "commit_hash"; "p_yes_bps"; "eligibility_status"].

Definition agrees (old new : dict) : Prop := forall k, In k protected_fields -> dget new k = dget old k.

(** A committed submission keeps its hash, a revealed one its forecast. *)
Record keeps (old new : dict) : Prop := {
  keeps_commit : dget new "commit_hash" = dget old "commit_hash";
  keeps_reveal : is_revealed old = true ->
    forall k, In k ["p_yes_bps"; "eligibility_status"; "economic_unit_id"] -> dget new k = dget old k
}.

Definition evolves (s s' : FakeRepository) : Prop :=
  forall key old, aget key (_submissions s) = Some old -> has_commit old = true ->
    exists new, aget key (_submissions s') = Some new /\ keeps old new.

Ltac not_in := let H := fresh in intros H; simpl in H; intuition discriminate.

Section Protocol.
Context (settings : ForecastSettings).

Record row_ok (key : string * string) (row : dict) : Prop := {
  row_nodup : NoDup (akeys row);
  row_unit : dhas row "economic_unit_id" = true;
  row_committed : is_revealed row = true -> has_commit row = true;
  row_revealed : is_revealed row = true -> exists p nonce,
    dget row "p_yes_bps" = VInt p /\ min_p_yes_bps settings <= p <= max_p_yes_bps settings /\
    dget row "commit_hash" = VStr (compute_commit_hash key.1 key.2 p nonce)
}.

Record protocol_ok (s : FakeRepository) : Prop := {
  ok_requests : requests_ok s;
  ok_keys : NoDup (akeys (_submissions s));
  ok_rows : forall key row, aget key (_submissions s) = Some row -> row_ok key row;
  ok_units : forall t m1 m2 r1 r2 unit,
    aget (t, m1) (_submissions s) = Some r1 -> aget (t, m2) (_submissions s) = Some r2 ->
    eligible_for unit r1 = true -> eligible_for unit r2 = true -> m1 = m2
}.

Lemma protocol_ok_view s s' : view s = view s' -> protocol_ok s -> protocol_ok s'.
Proof.
  unfold view. intros [= Hs Hi] [[K S X] N R U].
  split; [split|..]; rewrite <- ?Hs, <- ?Hi; eauto.
Qed.

Lemma evolves_refl s : evolves s s.
Proof. intros key old H _. by exists old. Qed.

Lemma is_revealed_dget old new :
  dget new "p_yes_bps" = dget old "p_yes_bps" -> is_revealed new = is_revealed old.
Proof. unfold is_revealed. by intros ->. Qed.

Lemma evolves_trans s1 s2 s3 : evolves s1 s2 -> evolves s2 s3 -> evolves s1 s3.
Proof.
  intros H1 H2 key old Hold Hc. destruct (H1 _ _ Hold Hc) as (new & Hnew & K1).
  destruct (H2 _ _ Hnew) as (new2 & Hnew2 & K2).
  { unfold has_commit in *. by rewrite (keeps_commit _ _ K1). }
  exists new2. split; [done|]. split.
  - by rewrite (keeps_commit _ _ K2), (keeps_commit _ _ K1).
  - intros Hr k Hk. rewrite (keeps_reveal _ _ K2), (keeps_reveal _ _ K1); try done.
    rewrite (is_revealed_dget old new); [done|]. apply (keeps_reveal _ _ K1 Hr). simpl. tauto.
Qed.

Lemma evolves_view s s' : view s = view s' -> evolves s s'.
Proof. unfold view. intros [= Hs _] key old. rewrite Hs. intros H _. by exists old. Qed.

Lemma dhas_dupdate_new d u k : NoDup (akeys u) -> dhas u k = true -> dhas (dupdate d u) k = true.
Proof. intros Hnd. unfold dhas, ahas. rewrite aget_dupdate by done. by destruct (aget k u). Qed.

Lemma dhas_dupdate_old d u k : NoDup (akeys u) -> dhas d k = true -> dhas (dupdate d u) k = true.
Proof. intros Hnd. unfold dhas, ahas. rewrite aget_dupdate by done. by destruct (aget k u). Qed.

(** ** Saving one submission *)

Lemma save_moves s sub key :
  protocol_ok s -> submission_wf sub = true -> submission_key sub = Ok key ->
  let current := dupdate (default [] (aget key (_submissions s))) sub in
  row_ok key current ->
  (forall unit m r, m <> key.2 -> aget (key.1, m) (_submissions s) = Some r ->
     eligible_for unit r = true -> eligible_for unit current = true -> False) ->
  (forall old, aget key (_submissions s) = Some old -> has_commit old = true -> keeps old current) ->
  protocol_ok (save_submission sub s).2 /\ evolves s (save_submission sub s).2.
Proof.
  intros Hok Hwf Hkey current Hrow Hunit Hkeep.
  pose proof (save_submission_ok s sub (ok_requests _ Hok) Hwf) as Hreq.
  destruct (save_submission_saved s sub (ok_requests _ Hok) Hwf)
    as [e|key' existing Hkey' _|key' s' Hkey' current' Hsub _ _]; [by split; [|apply evolves_refl]..|].
  simpl in *. assert (key' = key) as -> by congruence. subst current'. fold current in Hsub. split.
  - split; [done|rewrite Hsub; by apply NoDup_akeys_aset, Hok|..].
    + intros k row. rewrite Hsub, aget_aset. destruct (keqb k key) eqn:E; [|apply Hok].
      apply keqb_spec in E as ->. by intros [= <-].
    + intros t m1 m2 r1 r2 unit. rewrite !Hsub, !aget_aset.
      destruct (keqb (t, m1) key) eqn:E1, (keqb (t, m2) key) eqn:E2;
        (apply keqb_spec in E1 || apply keqb_neq in E1); (apply keqb_spec in E2 || apply keqb_neq in E2).
      * congruence.
      * intros [= <-] H2 C1 C2. exfalso. destruct key; simplify_eq/=. apply (Hunit unit m2 r2); congruence.
      * intros H1 [= <-] C1 C2. exfalso. destruct key; simplify_eq/=. apply (Hunit unit m1 r1); congruence.
      * intros H1 H2. by apply (ok_units _ Hok t).
  - intros k old Hold Hc. rewrite Hsub, aget_aset. destruct (keqb k key) eqn:E; [|by exists old].
    apply keqb_spec in E as ->. exists current. split; [done|by apply Hkeep].
Qed.

(** ** Operations *)

Definition moves_at {A} (s : FakeRepository) (m : repo A) : Prop :=
  protocol_ok (m s).2 /\ evolves s (m s).2.
Definition moves {A} (m : repo A) : Prop := forall s, protocol_ok s -> moves_at s m.

Lemma moves_touches {A} W (m : repo A) : touches W false m -> ~ In _request_index W -> moves m.
Proof.
  intros Hm HW s Hok. pose proof (untouched_view _ _ _ (Hm s) HW) as Hv.
  split; [by apply (protocol_ok_view s)|by apply evolves_view].
Qed.

Lemma moves_at_sbind {A B} s (m : repo A) (f : A -> repo B) :
  moves_at s m -> (forall a, moves (f a)) -> moves_at s (sbind m f).
Proof.
  intros [Hok He] Hf. unfold moves_at, sbind. destruct (m s) as [[a|e] s1]; simpl in *; [|done].
  destruct (Hf a s1 Hok) as [Hok2 He2]. split; [done|by eapply evolves_trans].
Qed.

Lemma moves_sbind {A B} (m : repo A) (f : A -> repo B) :
  moves m -> (forall a, moves (f a)) -> moves (sbind m f).
Proof. intros Hm Hf s Hok. apply moves_at_sbind; auto. Qed.

Lemma moves_step {A B} W (m : repo A) (f : A -> repo B) :
  touches W false m -> ~ In _request_index W -> (forall a, moves (f a)) -> moves (sbind m f).
Proof. intros Hm HW. apply moves_sbind. by apply (moves_touches W). Qed.

Lemma moves_at_slift {A B} s (r : res A) (f : A -> repo B) :
  protocol_ok s -> (forall a, r = Ok a -> moves_at s (f a)) -> moves_at s (sbind (slift r) f).
Proof.
  intros Hok Hf. unfold moves_at, sbind, slift in *. destruct r as [a|e]; [by apply Hf|].
  split; [done|apply evolves_refl].
Qed.

Lemma moves_at_read {A B} s (m : repo A) (f : A -> repo B) a :
  m s = (Ok a, s) -> moves_at s (f a) -> moves_at s (sbind m f).
Proof. intros Hm. unfold moves_at. by rewrite (sbind_run _ _ _ _ _ Hm). Qed.

Lemma moves_at_reject {B} s c msg (f : unit -> repo B) :
  protocol_ok s -> (c = false -> moves_at s (f tt)) -> moves_at s (sbind (reject_if c msg) f).
Proof.
  intros Hok Hf. destruct c; [|by apply Hf]. split; [done|apply evolves_refl].
Qed.

Lemma merged_nodup s key sub :
  protocol_ok s -> NoDup (akeys (dupdate (default [] (aget key (_submissions s))) sub)).
Proof.
  intros Hok. apply NoDup_akeys_dupdate. destruct (aget key (_submissions s)) as [old|] eqn:Hold; [|constructor].
  apply (row_nodup _ _ (ok_rows _ Hok _ _ Hold)).
Qed.

Lemma get_submission_some s t m row :
  non_empty (aget (t, m) (_submissions s)) = Some row -> aget (t, m) (_submissions s) = Some row.
Proof. destruct (aget _ _) as [[|]|]; naive_solver. Qed.

Lemma get_submission_none s t m old :
  protocol_ok s -> non_empty (aget (t, m) (_submissions s)) = None -> aget (t, m) (_submissions s) <> Some old.
Proof.
  intros Hok Hn Hold. rewrite Hold in Hn. destruct old as [|kv old]; [|done].
  by pose proof (stored_key _ (ok_requests _ Hok) _ _ Hold).
Qed.

Lemma stored_string s key row k :
  protocol_ok s -> aget key (_submissions s) = Some row -> In k request_id_keys ->
  match dget row k with VNone | VStr _ => True | _ => False end.
Proof. intros Hok. apply (stored_strings _ (ok_requests _ Hok)). Qed.

(** ** Commits *)

Lemma dget_commit_row t m rid h n unit existing at_ k v :
  aget k (commit_row t m rid h n unit existing at_) = Some v ->
  forall old, dget (dupdate old (commit_row t m rid h n unit existing at_)) k = v.
Proof. intros Hk old. rewrite dget_dupdate by nodup_keys. by rewrite Hk. Qed.

Lemma commit_row_wf s t m rid h n unit at_ :
  protocol_ok s ->
  submission_wf (commit_row t m rid h n unit (non_empty (aget (t, m) (_submissions s))) at_) = true.
Proof.
  intros Hok. unfold submission_wf. apply andb_true_iff. split.
  { apply bool_decide_eq_true. nodup_keys. }
  apply forallb_forall. intros k [<-|[<-|[]]]; [done|].
  change (dget _ "reveal_request_id") with
    (kept (non_empty (aget (t, m) (_submissions s))) "reveal_request_id" VNone).
  destruct (non_empty _) as [e|] eqn:He; [|done]. apply get_submission_some in He.
  pose proof (stored_string _ _ _ "reveal_request_id" Hok He ltac:(simpl; tauto)) as H.
  simpl. unfold dget in H. by destruct (dget_or _ _ _).
Qed.

Lemma commit_saves s t m rid h n unit at_ :
  protocol_ok s ->
  match non_empty (aget (t, m) (_submissions s)) with Some e => has_commit e | None => false end = false ->
  moves_at s (save_submission (commit_row t m rid h n unit (non_empty (aget (t, m) (_submissions s))) at_)).
Proof.
  intros Hok Hnew. set (existing := non_empty _) in *.
  set (row := commit_row _ _ _ _ _ _ _ _).
  assert (Hfresh : forall old, aget (t, m) (_submissions s) = Some old -> has_commit old = false).
  { intros old Hold. destruct existing as [e|] eqn:He; [|by destruct (get_submission_none _ _ _ _ Hok He Hold)].
    apply get_submission_some in He. congruence. }
  assert (Hnot : is_revealed (dupdate (default [] (aget (t, m) (_submissions s))) row) = false).
  { unfold is_revealed, row. erewrite dget_commit_row by reflexivity. destruct existing as [e|] eqn:He; [|done].
    apply get_submission_some in He. pose proof (row_committed _ _ (ok_rows _ Hok _ _ He)) as Hrev.
    rewrite (Hfresh _ He) in Hrev. change (kept (Some e) "p_yes_bps" VNone) with (dget e "p_yes_bps").
    unfold is_revealed in Hrev. destruct (is_none _); [done|]. by specialize (Hrev eq_refl). }
  apply (save_moves s row (t, m)); [done|by apply commit_row_wf|done|..].
  - split; rewrite ?Hnot; try done; [by apply merged_nodup|]. by apply dhas_dupdate_new; [nodup_keys|].
  - intros unit' m' r _ _ _. unfold eligible_for. by rewrite Hnot.
  - intros old Hold. by rewrite Hfresh.
Qed.

Lemma commit_moves t m rid h n at_ ip ua : moves (commit_submission t m rid h n at_ ip ua).
Proof.
  unfold commit_submission. set (W := [_miners; _risk_cases]).
  do 6 (apply (moves_step W); [footprint|not_in|intros ?]); cbv beta.
  apply (moves_step W); [apply touches_refresh_cluster|not_in|intros miner].
  intros s Hok. apply (moves_at_read _ _ _ _ eq_refl).
  apply moves_at_reject; [done|intros Hnew]. apply moves_at_slift; [done|intros unit _].
  apply moves_at_sbind; [by apply commit_saves|intros saved].
  apply (moves_touches W); [footprint|not_in].
Qed.

(** ** Reveals *)

Lemma find_duplicate_none self unit others :
  find_duplicate self unit others = Ok None ->
  forall other m, In other others -> dget other "miner_address" = VStr m -> m <> self ->
    py_eq (dget other "economic_unit_id") unit = true -> is_revealed other = false.
Proof.
  induction others as [|o others IH]; cbn [find_duplicate]; intros H other m Hin Hm Hne Heq; [done|].
  apply rbind_ok in H as (address & Ha & H).
  assert (Hget : forall k v, dgetitem o k = Ok v -> dget o k = v).
  { intros k v. unfold dgetitem. destruct (aget k o) eqn:E; [|done]. intros [= <-]. by apply dget_some. }
  destruct (py_eq_str address self) eqn:Es.
  - destruct Hin as [->|Hin]; [|by eapply IH]. apply py_eq_str_spec in Es. rewrite (Hget _ _ Ha) in Hm. congruence.
  - apply rbind_ok in H as (u & Hu & H). destruct (py_eq u unit && is_revealed o) eqn:Ed; [done|].
    destruct Hin as [->|Hin]; [|by eapply IH].
    rewrite (Hget _ _ Hu) in Heq. by rewrite Heq in Ed.
Qed.

Lemma listed_submission s t m row :
  aget (t, m) (_submissions s) = Some row ->
  In row (map snd (filter (fun kv => kv.1.1 = t) (_submissions s))).
Proof.
  intros H. apply aget_In in H. change row with ((t, m, row).2). apply in_map.
  apply list_elem_of_In, list_elem_of_filter. split; [done|]. by apply list_elem_of_In.
Qed.

Section Reveal.
Context (s : FakeRepository) (t m rid nonce : string) (p at_ : Z) (unit : value) (eligibility : string).
Context (submission : dict).
Hypothesis (Hbounds : min_p_yes_bps settings <= max_p_yes_bps settings).
Hypothesis (Hok : protocol_ok s).
Hypothesis (Hstored : aget (t, m) (_submissions s) = Some submission).
Hypothesis (Hcommit : has_commit submission = true).
Hypothesis (Hhidden : is_revealed submission = false).
Hypothesis (Hhash : dget submission "commit_hash" =
                    VStr (compute_commit_hash t m (clamp_bps p settings) nonce)).
Hypothesis (Hdup : eligibility = "eligible" ->
  find_duplicate m unit (map snd (filter (fun kv => kv.1.1 = t) (_submissions s))) = Ok None).

#[local] Abbreviation sub := (dupdate submission (reveal_updates unit rid (clamp_bps p settings) eligibility at_)).
#[local] Abbreviation current := (dupdate (default [] (aget (t, m) (_submissions s))) sub).

Lemma reveal_nodup : NoDup (akeys sub).
Proof. apply NoDup_akeys_dupdate, (row_nodup _ _ (ok_rows _ Hok _ _ Hstored)). Qed.

Lemma reveal_field k :
  dget current k = match aget k (reveal_updates unit rid (clamp_bps p settings) eligibility at_) with
                   | Some v => v
                   | None => dget submission k
                   end.
Proof.
  rewrite Hstored. simpl default. rewrite dget_dupdate by apply reveal_nodup.
  rewrite aget_dupdate by nodup_keys. destruct (aget k (reveal_updates _ _ _ _ _)); [done|].
  unfold dget, dget_or. by destruct (aget k submission).
Qed.

Lemma reveal_wf : submission_wf sub = true.
Proof.
  unfold submission_wf. apply andb_true_iff. split.
  { apply bool_decide_eq_true. exact reveal_nodup. }
  apply forallb_forall. intros k Hk. rewrite dget_dupdate by nodup_keys.
  destruct Hk as [<-|[<-|[]]]; [|done].
  pose proof (stored_string _ _ _ "commit_request_id" Hok Hstored ltac:(simpl; tauto)) as H.
  change (aget "commit_request_id" (reveal_updates _ _ _ _ _)) with (@None value). cbv iota beta.
  by destruct (dget submission "commit_request_id").
Qed.

Lemma reveal_saves : moves_at s (save_submission sub).
Proof.
  assert (Hkey : submission_key sub = Ok (t, m)).
  { pose proof (stored_key _ (ok_requests _ Hok) _ _ Hstored) as Hk. rewrite submission_key_fields in *.
    rewrite !aget_dupdate by nodup_keys. exact Hk. }
  apply (save_moves s sub (t, m)); [done|apply reveal_wf|done|..].
  - split; [by apply merged_nodup| |intros _|intros _].
    + rewrite Hstored. simpl default. apply dhas_dupdate_new; [apply reveal_nodup|].
      by apply dhas_dupdate_new; [nodup_keys|].
    + unfold has_commit. by rewrite reveal_field.
    + exists (clamp_bps p settings), nonce. rewrite !reveal_field. simpl. split; [done|].
      split; [unfold clamp_bps; lia|done].
  - intros u m' r Hne Hr Helig Hcur. simpl in *. unfold eligible_for in *. rewrite !andb_true_iff in *.
    destruct Helig as [[Hrev _] Hu], Hcur as [[_ He] Hu']. unfold field_is in *.
    rewrite reveal_field in He, Hu'. simpl in He, Hu'. apply String.eqb_eq in He.
    apply py_eq_str_spec in Hu, Hu'. subst unit.
    rewrite (find_duplicate_none _ _ _ (Hdup He) r m') in Hrev; try done.
    + by apply listed_submission with m'.
    + pose proof (stored_key _ (ok_requests _ Hok) _ _ Hr) as Hk. apply submission_key_fields in Hk as [_ Hk].
      by apply dget_some.
    + rewrite Hu. simpl. apply String.eqb_refl.
  - intros old Hold _. assert (old = submission) as -> by congruence. split.
    + by rewrite reveal_field.
    + by rewrite Hhidden.
Qed.

End Reveal.

Lemma reveal_moves t m rid p nonce at_ ip ua :
  min_p_yes_bps settings <= max_p_yes_bps settings ->
  moves (reveal_submission settings t m rid p nonce at_ ip ua).
Proof.
  intros Hb. unfold reveal_submission. set (W := [_miners; _risk_cases]).
  do 6 (apply (moves_step W); [footprint|not_in|intros ?]); cbv beta zeta.
  apply (moves_step W); [apply touches_refresh_cluster|not_in|intros miner].
  intros s Hok. apply moves_at_slift; [done|intros unit _]. apply (moves_at_read _ _ _ _ eq_refl).
  destruct (non_empty _) as [submission|] eqn:Hs; [|split; [done|apply evolves_refl]].
  apply get_submission_some in Hs.
  destruct (has_commit submission) eqn:Hc; [|split; [done|apply evolves_refl]].
  apply (moves_at_read _ _ _ submission eq_refl).
  apply moves_at_reject; [done|intros Hr]. apply moves_at_reject; [done|intros Hh].
  apply negb_false_iff, py_eq_str_spec in Hh.
  apply (moves_at_read _ _ _ _ eq_refl). apply moves_at_slift; [done|intros dup Hdup].
  apply moves_at_sbind.
  - apply (reveal_saves s t m rid nonce); try done. intros He. by destruct dup.
  - intros saved. apply (moves_touches W); [footprint|not_in].
    apply (touches_weaken [_risk_cases] _ false); [apply touches_duplicate_case|by intros ? [<-|[]]; right; left|done].
Qed.

(** ** Annotations: the settlement's writes *)

(** The row is a stored submission with other values in unprotected fields. *)
Definition annotates (s : FakeRepository) (sub : dict) : Prop :=
  submission_wf sub = true /\
  exists key old, submission_key sub = Ok key /\ aget key (_submissions s) = Some old /\ agrees old sub.

Definition annotated (s s' : FakeRepository) : Prop :=
  forall key old, aget key (_submissions s) = Some old ->
    exists new, aget key (_submissions s') = Some new /\ agrees old new.

#[local] Instance annotated_preorder : PreOrder annotated.
Proof.
  split.
  - intros s key old H. by exists old.
  - intros s1 s2 s3 H1 H2 key old Hold. destruct (H1 _ _ Hold) as (new & Hnew & A1).
    destruct (H2 _ _ Hnew) as (new2 & Hnew2 & A2). exists new2. split; [done|].
    intros k Hk. by rewrite A2, A1.
Qed.

Lemma annotates_later s s' sub :
  protocol_ok s -> annotates s sub -> annotated s s' -> annotates s' sub.
Proof.
  intros Hok (Hwf & key & old & Hkey & Hold & Hag) Hs. destruct (Hs _ _ Hold) as (new & Hnew & Hag').
  split; [done|]. exists key, new. split_and!; [done..|]. intros k Hk. by rewrite Hag, Hag'.
Qed.

Lemma agrees_keeps old new : agrees old new -> keeps old new.
Proof.
  intros H. split; [apply H; simpl; tauto|]. intros _ k Hk. apply H. simpl in *. tauto.
Qed.

Lemma annotated_evolves s s' : annotated s s' -> evolves s s'.
Proof.
  intros H key old Hold _. destruct (H _ _ Hold) as (new & Hnew & Hag). exists new.
  split; [done|by apply agrees_keeps].
Qed.

Lemma agrees_merged old sub :
  NoDup (akeys sub) -> agrees old sub -> agrees old (dupdate old sub).
Proof.
  intros Hnd Hag k Hk. rewrite dget_dupdate by done. destruct (aget k sub) eqn:E; [|done].
  rewrite <- Hag by done. symmetry. by apply dget_some.
Qed.

Lemma agrees_row_ok key old new :
  NoDup (akeys new) -> dhas new "economic_unit_id" = true -> agrees old new -> row_ok key old -> row_ok key new.
Proof.
  intros Hnd Hu Hag [_ _ Hc Hr]. assert (Hrev : is_revealed new = is_revealed old).
  { apply is_revealed_dget, Hag. simpl. tauto. }
  split; [done|done|unfold has_commit in *|]; rewrite Hrev; intros H.
  - rewrite Hag; [by apply Hc|simpl; tauto].
  - destruct (Hr H) as (p & nonce & Hp & Hb & Hh). exists p, nonce. rewrite !Hag; [done|simpl; tauto..].
Qed.

Lemma agrees_eligible unit old new : agrees old new -> eligible_for unit new = eligible_for unit old.
Proof.
  intros Hag. unfold eligible_for, field_is, is_revealed. by rewrite !Hag by (simpl; tauto).
Qed.

Lemma annotate_saves s sub :
  protocol_ok s -> annotates s sub ->
  protocol_ok (save_submission sub s).2 /\ annotated s (save_submission sub s).2.
Proof.
  intros Hok (Hwf & key & old & Hkey & Hold & Hag).
  assert (Hnd : NoDup (akeys sub)).
  { unfold submission_wf in Hwf. apply andb_true_iff in Hwf as [H _]. by apply bool_decide_eq_true in H. }
  pose proof (agrees_merged _ _ Hnd Hag) as Hcur. split.
  - apply (save_moves s sub key); [done..|rewrite Hold; simpl default| |].
    + apply agrees_row_ok with old; [| |done|by apply (ok_rows _ Hok)].
      * apply NoDup_akeys_dupdate, (row_nodup _ _ (ok_rows _ Hok _ _ Hold)).
      * apply dhas_dupdate_old; [done|apply (row_unit _ _ (ok_rows _ Hok _ _ Hold))].
    + intros unit m r Hne Hr He Hc. rewrite Hold in Hc. simpl default in Hc.
      rewrite (agrees_eligible _ _ _ Hcur) in Hc. apply Hne.
      destruct key as [t m']. by apply (ok_units _ Hok t m m' r old unit).
    + intros old' Hold' _. rewrite Hold in Hold' |- *. simpl default. injection Hold' as <-. by apply agrees_keeps.
  - destruct (save_submission_saved s sub (ok_requests _ Hok) Hwf) as [e|? ? _ _|key' s' Hkey' current Hsub _ _];
      [done..|]. simpl. assert (key' = key) as -> by congruence. subst current.
    intros k o Ho. rewrite Hsub, aget_aset. destruct (keqb k key) eqn:E; [|by exists o].
    apply keqb_spec in E as ->. eexists. split; [done|]. rewrite Hold. simpl default.
    assert (o = old) as -> by congruence. done.
Qed.

(** The request ids of an annotation are the stored ones, so it is merged. *)
Lemma annotation_merges s sub key :
  protocol_ok s -> annotates s sub -> submission_key sub = Ok key ->
  exists s', save_submission sub s = (Ok (dupdate (default [] (aget key (_submissions s))) sub), s') /\
    _submissions s' = aset key (dupdate (default [] (aget key (_submissions s))) sub) (_submissions s).
Proof.
  intros Hok (Hwf & key' & old & Hkey' & Hold & Hag) Hkey. assert (key' = key) as -> by congruence.
  destruct (save_submission_merges s sub key (ok_requests _ Hok) Hwf Hkey) as (s' & Hsave & Hsub & _);
    [|by exists s'].
  apply foreign_request_fresh.
  - intros k Hk. unfold submission_wf in Hwf. apply andb_true_iff in Hwf as [_ Hwf].
    rewrite forallb_forall in Hwf. specialize (Hwf k Hk). by destruct (dget sub k).
  - intros rid row Hc Hrow. destruct (stored_indexed _ (ok_requests _ Hok) key old rid Hold) as (row' & Hr & Hk);
      [|congruence].
    apply carries_in_spec in Hc as (Hne & k & Hk & Hv). apply carries_in_spec. split; [done|]. exists k.
    split; [done|]. rewrite <- Hv. symmetry. apply Hag. simpl in *. tauto.
Qed.

(** [annotating subs m]: where the rows [subs] annotate stored submissions,
    [m] keeps the promises and only annotates. *)
Definition annotating {A} (subs : list dict) (m : repo A) : Prop :=
  forall s, protocol_ok s -> Forall (annotates s) subs -> protocol_ok (m s).2 /\ annotated s (m s).2.

Lemma annotating_sbind {A B} subs (m : repo A) (f : A -> repo B) :
  annotating subs m -> (forall a, annotating subs (f a)) -> annotating subs (sbind m f).
Proof.
  intros Hm Hf s Hok Hsubs. unfold sbind. specialize (Hm s Hok Hsubs).
  destruct (m s) as [[a|e] s1]; simpl in *; [|done]. destruct Hm as [Hok1 H1].
  destruct (Hf a s1 Hok1) as [Hok2 H2].
  { eapply Forall_impl; [exact Hsubs|]. intros sub Hsub. by eapply annotates_later. }
  split; [done|by etransitivity].
Qed.

Lemma annotating_touches {A} W subs (m : repo A) :
  touches W false m -> ~ In _request_index W -> annotating subs m.
Proof.
  intros Hm HW s Hok _. pose proof (untouched_view _ _ _ (Hm s) HW) as Hv. split.
  - by apply (protocol_ok_view s).
  - intros key old Hold. exists old. unfold view in Hv. injection Hv as -> _. done.
Qed.

Lemma annotating_sret {A} subs (a : A) : annotating subs (sret a).
Proof. apply (annotating_touches []); [footprint|not_in]. Qed.

Lemma annotates_update s sub u :
  annotates s sub -> NoDup (akeys u) -> (forall k, In k protected_fields -> aget k u = None) ->
  annotates s (dupdate sub u).
Proof.
  intros (Hwf & key & old & Hkey & Hold & Hag) Hnd Hu.
  assert (Hsame : forall k, In k protected_fields -> dget (dupdate sub u) k = dget sub k).
  { intros k Hk. rewrite dget_dupdate by done. by rewrite Hu. }
  unfold submission_wf in Hwf. apply andb_true_iff in Hwf as [Hnd' Hstr]. split.
  - unfold submission_wf. apply andb_true_iff. split.
    + apply bool_decide_eq_true, NoDup_akeys_dupdate. by apply bool_decide_eq_true in Hnd'.
    + rewrite forallb_forall in Hstr |- *. intros k Hk. rewrite Hsame; [by apply Hstr|].
      destruct Hk as [<-|[<-|[]]]; simpl; tauto.
  - exists key, old. split_and!; [|done|].
    + rewrite submission_key_fields in Hkey |- *. rewrite !aget_dupdate by done.
      rewrite !Hu by (simpl; tauto). exact Hkey.
    + intros k Hk. rewrite Hsame by done. by apply Hag.
Qed.

Lemma annotating_save subs sub u :
  In sub subs -> NoDup (akeys u) -> (forall k, In k protected_fields -> aget k u = None) ->
  annotating subs (save_submission (dupdate sub u)).
Proof.
  intros Hin Hnd Hu s Hok Hsubs. apply annotate_saves; [done|]. apply annotates_update; [|done|done].
  rewrite Forall_forall in Hsubs. apply Hsubs. by apply list_elem_of_In.
Qed.

Lemma annotating_forS subs (f : dict -> repo unit) l :
  incl l subs -> (forall sub, In sub subs -> annotating subs (f sub)) -> annotating subs (forS f l).
Proof.
  intros Hl Hf. induction l as [|x l IH]; simpl; [apply annotating_sret|].
  apply annotating_sbind; [apply Hf, Hl; by left|intros _]. apply IH. intros y Hy. apply Hl. by right.
Qed.

Lemma annotating_foldS {B} subs (f : B -> dict -> repo B) l acc :
  incl l subs -> (forall acc sub, In sub subs -> annotating subs (f acc sub)) -> annotating subs (foldS f l acc).
Proof.
  intros Hl Hf. revert acc. induction l as [|x l IH]; intros acc; simpl; [apply annotating_sret|].
  apply annotating_sbind; [apply Hf, Hl; by left|intros b]. apply IH. intros y Hy. apply Hl. by right.
Qed.

(** A stored row annotates the store. *)
Lemma stored_annotates s key row :
  protocol_ok s -> aget key (_submissions s) = Some row -> annotates s row.
Proof.
  intros Hok Hrow. split.
  - unfold submission_wf. apply andb_true_iff. split.
    + apply bool_decide_eq_true, (row_nodup _ _ (ok_rows _ Hok _ _ Hrow)).
    + apply forallb_forall. intros k' Hk'. pose proof (stored_string _ _ _ _ Hok Hrow Hk') as H.
      by destruct (dget row k').
  - exists key, row. split_and!; [by apply (stored_key _ (ok_requests _ Hok))|done|by intros ? ?].
Qed.

(** The rows of a query for a task, with the keys they are stored under. *)
Definition keyed_for (t : string) (s : FakeRepository) : list ((string * string) * dict) :=
  filter (fun kv => kv.1.1 = t) (_submissions s).

Lemma keyed_for_stored t s key row :
  protocol_ok s -> In (key, row) (keyed_for t s) -> key.1 = t /\ aget key (_submissions s) = Some row.
Proof.
  intros Hok Hin. unfold keyed_for in Hin. apply list_elem_of_In, list_elem_of_filter in Hin as [Ht Hin].
  split; [done|]. apply aget_NoDup; [apply Hok|]. by apply list_elem_of_In.
Qed.

(** The submissions that a query for a task returns annotate the store. *)
Lemma annotating_list {A} t (k : list dict -> repo A) :
  (forall subs, annotating subs (k subs)) -> annotating [] (sbind (list_submissions_for_task t) k).
Proof.
  intros Hk s Hok _. unfold list_submissions_for_task, sbind, sgets. apply Hk; [done|].
  apply Forall_forall. intros row Hrow. apply list_elem_of_In, in_map_iff in Hrow as ((key & r) & <- & Hin).
  apply (keyed_for_stored t s) in Hin as [_ Hin]; [|done]. by apply stored_annotates with key.
Qed.

(** ** The settlement *)

Lemma annotating_moves {A} (m : repo A) : annotating [] m -> moves m.
Proof. intros Hm s Hok. destruct (Hm s Hok) as [H1 H2]; [constructor|]. split; [done|by apply annotated_evolves]. Qed.

Lemma moves_forS {A} (f : A -> repo unit) l : (forall a, moves (f a)) -> moves (forS f l).
Proof.
  intros Hf. induction l; simpl; [apply (moves_touches []); [footprint|not_in]|]. by apply moves_sbind.
Qed.

Lemma moves_foldS {A B} (f : B -> A -> repo B) l acc : (forall acc a, moves (f acc a)) -> moves (foldS f l acc).
Proof.
  intros Hf. revert acc. induction l; intros acc; simpl; [apply (moves_touches []); [footprint|not_in]|].
  by apply moves_sbind.
Qed.

(** A write of the settlement: to an annotation, or outside the view. *)
Ltac annotating W :=
  repeat first
    [ apply annotating_sret
    | match goal with
      | |- annotating _ (save_submission (dupdate _ _)) =>
          apply annotating_save; [done|nodup_keys|by intros k Hk; repeat (destruct Hk as [<-|Hk]; [done|])]
      | |- annotating _ (sbind _ _) => apply annotating_sbind; [|intros ?]
      | |- annotating _ (match ?x with _ => _ end) => destruct x
      | |- annotating _ (let '_ := ?x in _) => destruct x
      end
    | solve [apply (annotating_touches W); [footprint|not_in]] ].

Lemma annotating_mark_pending now subs sub : In sub subs -> annotating subs (mark_pending now sub).
Proof. intros Hin. unfold mark_pending. annotating ([] : list table). Qed.

Lemma annotating_settle_submission st task outcome now cache subs sub :
  In sub subs -> annotating subs (settle_fast_submission st task outcome now cache sub).
Proof.
  intros Hin. unfold settle_fast_submission. destruct (is_none _); [apply annotating_sret|].
  do 6 (apply annotating_sbind; [annotating ([] : list table)|intros ?]).
  apply annotating_sbind; [annotating ([] : list table)|intros [miner|]].
  2: { apply (annotating_touches []); [footprint|not_in]. }
  apply annotating_sbind; [apply (annotating_touches []); [apply touches_abuse_state|not_in]|intros [? abuse]].
  apply annotating_sbind; [annotating ([] : list table)|intros r].
  apply annotating_sbind; [annotating ([] : list table)|intros _].
  apply annotating_sbind; [apply (annotating_touches [_hold_entries]); [apply touches_place_hold|not_in]|intros _].
  apply annotating_sbind; [apply (annotating_touches [_miners]); [apply touches_credit_miner|not_in]|intros _].
  apply annotating_sret.
Qed.

Lemma annotating_settle_daily_submission st outcome now subs sub :
  In sub subs -> annotating subs (settle_daily_submission st outcome now sub).
Proof. intros Hin. unfold settle_daily_submission. annotating [_miners]. Qed.

Lemma settle_fast_task_moves tp st now cache task : moves (settle_fast_task tp st now cache task).
Proof.
  apply annotating_moves. unfold settle_fast_task.
  do 3 (apply annotating_sbind; [annotating ([] : list table)|intros ?]).
  apply annotating_list. intros subs. destruct (unresolved _ _).
  - apply annotating_sbind; [|intros _; annotating [_tasks]].
    apply annotating_forS; [apply incl_refl|]. intros sub. by apply annotating_mark_pending.
  - apply annotating_sbind; [annotating ([] : list table)|intros outcome].
    apply annotating_sbind; [|intros cache'].
    { apply annotating_foldS; [apply incl_refl|]. intros acc sub. by apply annotating_settle_submission. }
    apply annotating_sbind; [|intros _; annotating [_tasks]].
    apply (annotating_touches [_miners]); [apply touches_participation|not_in].
Qed.

Lemma settle_moves tp st now : moves (_settle_due_tasks tp st now).
Proof.
  unfold _settle_due_tasks. apply (moves_step []); [footprint|not_in|intros tasks].
  apply moves_sbind; [|intros _; apply (moves_touches []); [footprint|not_in]].
  apply moves_foldS. intros. apply settle_fast_task_moves.
Qed.

Lemma settle_daily_task_moves tp st now task : moves (settle_daily_task tp st now task).
Proof.
  apply annotating_moves. unfold settle_daily_task.
  apply annotating_sbind; [annotating ([] : list table)|intros due]. destruct (negb due); [apply annotating_sret|].
  apply annotating_sbind; [annotating ([] : list table)|intros resolution].
  destruct (unresolved _ _); [annotating [_tasks]|].
  do 2 (apply annotating_sbind; [annotating ([] : list table)|intros ?]).
  apply annotating_list. intros subs.
  apply annotating_sbind; [annotating ([] : list table)|intros outcome].
  apply annotating_sbind; [|intros _; annotating [_tasks]].
  apply annotating_forS; [apply incl_refl|]. intros sub. by apply annotating_settle_daily_submission.
Qed.

Lemma settle_daily_moves tp st now : moves (_settle_due_daily_tasks tp st now).
Proof.
  unfold _settle_due_daily_tasks. apply (moves_step []); [footprint|not_in|intros tasks].
  apply moves_forS. intros. apply settle_daily_task_moves.
Qed.

(** ** What the promises say of a forecast *)

Lemma protocol_ok_empty : protocol_ok empty_repository.
Proof. split; [by apply requests_ok_empty|constructor|done..]. Qed.

(** The forecast of a submission, once revealed. *)
Definition forecast_of (key : string * string) (s : FakeRepository) : option Z :=
  match aget key (_submissions s) with
  | Some row => match dget row "p_yes_bps" with VInt p => Some p | _ => None end
  | None => None
  end.

Definition committed_hash (key : string * string) (s : FakeRepository) : option string :=
  match aget key (_submissions s) with
  | Some row => match dget row "commit_hash" with VStr h => if String.eqb h "" then None else Some h | _ => None end
  | None => None
  end.

Lemma forecast_of_revealed key s p :
  protocol_ok s -> forecast_of key s = Some p ->
  min_p_yes_bps settings <= p <= max_p_yes_bps settings /\
  exists nonce, committed_hash key s = Some (compute_commit_hash key.1 key.2 p nonce).
Proof.
  intros Hok. unfold forecast_of, committed_hash. destruct (aget key (_submissions s)) as [row|] eqn:Hrow; [|done].
  destruct (dget row "p_yes_bps") as [| |n| | | | |] eqn:Hp; try done. intros [= ->].
  assert (Hr : is_revealed row = true) by (unfold is_revealed; by rewrite Hp).
  pose proof (ok_rows _ Hok _ _ Hrow) as Hok'. pose proof (row_committed _ _ Hok' Hr) as Hc.
  destruct (row_revealed _ _ Hok' Hr) as (p' & nonce & Hp' & Hb & Hh).
  assert (p' = p) as -> by congruence. split; [done|]. exists nonce. rewrite Hh.
  unfold has_commit in Hc. rewrite Hh in Hc. simpl in Hc. by destruct (String.eqb _ "").
Qed.

Lemma evolves_committed key s s' h :
  evolves s s' -> committed_hash key s = Some h -> committed_hash key s' = Some h.
Proof.
  unfold committed_hash. intros He. destruct (aget key (_submissions s)) as [row|] eqn:Hrow; [|done].
  destruct (dget row "commit_hash") as [| | | |h'| | |] eqn:Hh; try done.
  destruct (String.eqb h' "") eqn:Hne; [done|]. intros [= ->].
  destruct (He _ _ Hrow) as (new & -> & Hk).
  { unfold has_commit. rewrite Hh. simpl. by rewrite Hne. }
  rewrite (keeps_commit _ _ Hk), Hh. by rewrite Hne.
Qed.

Lemma evolves_forecast key s s' p :
  protocol_ok s -> evolves s s' -> forecast_of key s = Some p -> forecast_of key s' = Some p.
Proof.
  intros Hok He. unfold forecast_of. destruct (aget key (_submissions s)) as [row|] eqn:Hrow; [|done].
  destruct (dget row "p_yes_bps") as [| |n| | | | |] eqn:Hp; try done. intros [= ->].
  assert (Hr : is_revealed row = true) by (unfold is_revealed; by rewrite Hp).
  destruct (He _ _ Hrow) as (new & -> & Hk); [by apply (row_committed _ _ (ok_rows _ Hok _ _ Hrow))|].
  rewrite (keeps_reveal _ _ Hk Hr); [by rewrite Hp|simpl; tauto].
Qed.

End Protocol.

#[export] Existing Instance annotated_preorder.

(** ** The commit hash binds the forecast *)

Lemma commit_payload_forecast t m p p' n n' :
  commit_payload t m p n = commit_payload t m p' n' -> p = p'.
Proof.
  intros H%(f_equal chars). unfold commit_payload in H. rewrite !chars_app in H.
  do 4 apply app_inv_head in H. apply (cut_unique integer_char "|"%char) in H as [H _];
    [|apply string_of_Z_chars|apply string_of_Z_chars|done].
  by apply string_of_Z_inj, chars_inj.
Qed.

Lemma commit_hash_binds t m p p' n n' :
  compute_commit_hash t m p n = compute_commit_hash t m p' n' ->
  p = p' \/ sha256_collision (commit_payload t m p n) (commit_payload t m p' n').
Proof.
  intros [H|H]%sha256_hex_inj; [left|by right]. by eapply commit_payload_forecast.
Qed.

(** ** A run: two miners of one economic unit forecast the same task *)

Definition demo_miner (address : string) : dict :=
  [("address", VStr address); ("status", VStr "active"); ("economic_unit_id", VStr "eu:1");
   ("ip_address", VNone); ("user_agent_hash", VNone); ("forecast_commits", VInt 0); ("forecast_reveals", VInt 0);
   ("total_rewards", VInt 0); ("held_rewards", VInt 0); ("settled_tasks", VInt 0);
   ("correct_direction_count", VInt 0); ("edge_score_total", VFloat fzero); ("model_reliability", VFloat fone);
   ("created_at", VStr (iso_format 0))].

Definition demo_task : dict :=
  [("task_run_id", VStr "t"); ("lane", VStr "forecast_15m"); ("state", VStr "published");
   ("publish_at", VStr (iso_format 0)); ("commit_deadline", VStr (iso_format 3000000));
   ("reveal_deadline", VStr (iso_format 13000000)); ("resolve_at", VStr (iso_format 900000000));
   ("baseline_q_bps", VInt 5000)].

Definition demo_start : FakeRepository :=
  set_tab _tasks [("t", demo_task)]
    (set_tab _miners [("m1", demo_miner "m1"); ("m2", demo_miner "m2")] empty_repository).

Definition demo_commit (m : string) (s : FakeRepository) : FakeRepository :=
  (commit_submission "t" m ("c:" +:+ m) (compute_commit_hash "t" m 6000 "n") "n" 1000000 None None s).2.
Definition demo_reveal (m : string) (s : FakeRepository) : FakeRepository :=
  (reveal_submission default_settings "t" m ("r:" +:+ m) 6000 "n" 5000000 None None s).2.

Definition demo_committed : FakeRepository := demo_commit "m2" (demo_commit "m1" demo_start).
Definition demo_revealed : FakeRepository := demo_reveal "m2" (demo_reveal "m1" demo_committed).

Lemma demo_start_ok : protocol_ok default_settings demo_start.
Proof. by apply (protocol_ok_view _ empty_repository); [|apply protocol_ok_empty]. Qed.

Lemma demo_commit_ok m s : protocol_ok default_settings s -> protocol_ok default_settings (demo_commit m s).
Proof. intros H. by apply commit_moves. Qed.

Lemma demo_reveal_ok m s : protocol_ok default_settings s -> protocol_ok default_settings (demo_reveal m s).
Proof. intros H. by apply reveal_moves. Qed.

Lemma demo_committed_ok : protocol_ok default_settings demo_committed.
Proof. apply demo_commit_ok, demo_commit_ok, demo_start_ok. Qed.

Example demo_outcome :
  forecast_of ("t", "m1") demo_revealed = Some 6000 /\
  option_map (eligible_for "eu:1") (aget ("t", "m1") (_submissions demo_revealed)) = Some true /\
  option_map (fun row => dget row "eligibility_status") (aget ("t", "m2") (_submissions demo_revealed)) =
    Some (VStr "audit_only").
Proof. vm_compute. done. Qed.
