(* ===== verification/Handlers.v ===== *)
(** * What the commit and reveal handlers accept

    The guards of the handlers, read off a successful call, and the promise to
    an honest miner: a reveal that opens its commitment in time is recorded. *)
From Stdlib Require Import ZArith Lia Ascii String Permutation.
From stdpp Require Import base list strings relations.
From S2P Require Import Prelude PyText PyFloat PyTime PyValue Sha256 Repository RepositoryFacts.
From S2P Require Import Forecast Economic Miners Submissions Settlement Footprint Protocol.
Open Scope Z_scope.

Lemma require_ok {A} (m : repo (option A)) msg s a s' :
  require m msg s = (Ok a, s') -> m s = (Ok (Some a), s').
Proof.
  unfold require. intros H. apply sbind_ok in H as (x & s1 & Hm & H). destruct x; [|done]. by injection H as -> ->.
Qed.

Lemma reject_if_ok c msg s u s' : reject_if c msg s = (Ok u, s') -> c = false /\ s' = s.
Proof. unfold reject_if. destruct c; [done|]. by intros [= _ <-]. Qed.

Lemma slift_ok {A} (r : res A) (s : FakeRepository) a s' : slift r s = (Ok a, s') -> r = Ok a /\ s' = s.
Proof. unfold slift. intros [= -> ->]. done. Qed.

Lemma get_row_ok t id s row s' : get_row t id s = (Ok (Some row), s') -> aget id (tab t s) = Some row /\ s' = s.
Proof.
  unfold get_row, sgets, non_empty. intros [= H <-]. split; [|done].
  destruct (aget id (tab t s)) as [[|]|]; naive_solver.
Qed.

(** The task is open at the time, up to the deadline in the given field. *)
Definition open_at (s : FakeRepository) (t deadline_field : string) (at_ : Z) : Prop :=
  exists task publish deadline,
    aget t (tab _tasks s) = Some task /\
    parse_time_field task "publish_at" = Ok publish /\
    parse_time_field task deadline_field = Ok deadline /\
    publish <= at_ <= deadline.

(** One successful step of a handler. *)
Ltac handler_step H :=
  let a := fresh "x" in let s1 := fresh "s" in let E := fresh "E" in
  apply sbind_ok in H as (a & s1 & E & H);
  first
    [ apply require_ok, get_row_ok in E as [E ->]
    | apply reject_if_ok in E as [E ->]
    | apply slift_ok in E as [E ->]
    | idtac ].

Lemma refresh_view self ip ua now s : view (_refresh_miner_cluster self ip ua now s).2 = view s.
Proof. apply (untouched_view _ _ _ (touches_refresh_cluster self ip ua now s)). not_in. Qed.

(** What a successful reveal found in the store. *)
Definition opens_commitment (settings : ForecastSettings) (s : FakeRepository) (t m : string) (p : Z) (nonce : string)
  : Prop :=
  exists row, aget (t, m) (_submissions s) = Some row /\ is_revealed row = false /\
    dget row "commit_hash" = VStr (compute_commit_hash t m (clamp_bps p settings) nonce).

(** C35: The handlers respect the clock and the protocol: a commit succeeds only
    while its task is published and before its commit deadline, by a
    registered miner without a commitment; a reveal only before the reveal
    deadline, once, and when it opens the stored commitment. *)
Theorem handlers_respect_deadlines settings t m rid hash p nonce at_ ip ua s saved s' :
  (commit_submission t m rid hash nonce at_ ip ua s = (Ok saved, s') ->
     open_at s t "commit_deadline" at_ /\ ahas m (tab _miners s) = true /\ committed_hash (t, m) s = None) /\
  (reveal_submission settings t m rid p nonce at_ ip ua s = (Ok saved, s') ->
     open_at s t "reveal_deadline" at_ /\ ahas m (tab _miners s) = true /\ opens_commitment settings s t m p nonce).
Proof.
  split; intros H.
  - unfold commit_submission in H. do 6 handler_step H.
    apply sbind_ok in H as (miner & s1 & Href & H). pose proof (refresh_view m ip ua at_ s) as Hv. rewrite Href in Hv.
    apply sbind_ok in H as (existing & s2 & [= <- <-] & H). handler_step H.
    rewrite Z.ltb_ge in *. split_and!.
    + exists x, x0, x2. auto.
    + unfold ahas. by rewrite E4.
    + unfold committed_hash. injection Hv as <- _. unfold has_commit in E5.
      destruct (aget (t, m) (_submissions s1)) as [[|kv row]|]; [done| |done].
      cbn [non_empty] in E5. destruct (dget (kv :: row) "commit_hash") as [| | | |h| | |]; try done.
      simpl in E5. by destruct (String.eqb h "").
  - unfold reveal_submission in H. cbv zeta in H. do 6 handler_step H.
    apply sbind_ok in H as (miner & s1 & Href & H). pose proof (refresh_view m ip ua at_ s) as Hv. rewrite Href in Hv.
    injection Hv as Hv _. handler_step H.
    apply sbind_ok in H as (submission & s2 & [= <- <-] & H).
    apply sbind_ok in H as (row & s2 & Hrow & H).
    destruct (non_empty _) as [row'|] eqn:Hne; [|done]. destruct (has_commit row') eqn:Hc; [|done].
    injection Hrow as -> <-. do 2 handler_step H. rewrite Z.ltb_ge in *. split_and!.
    + exists x, x0, x2. auto.
    + unfold ahas. by rewrite E4.
    + exists row. rewrite <- Hv. split; [by apply get_submission_some|]. split; [done|].
      by apply negb_false_iff, py_eq_str_spec in E7.
Qed.

Lemma handlers_respect_deadlines_witness :
  open_at demo_start "t" "commit_deadline" 1000000 /\
  opens_commitment default_settings demo_committed "t" "m1" 6000 "n".
Proof.
  split.
  - destruct (commit_submission "t" "m1" "c:m1" (compute_commit_hash "t" "m1" 6000 "n") "n" 1000000 None None
                demo_start) as [[saved|e] s'] eqn:E; [|exfalso; vm_compute in E; discriminate E].
    exact (proj1 (proj1 (handlers_respect_deadlines default_settings "t" "m1" "c:m1" _ 6000 "n" 1000000 None None
             demo_start saved s') E)).
  - destruct (reveal_submission default_settings "t" "m1" "r:m1" 6000 "n" 5000000 None None
                demo_committed) as [[saved|e] s'] eqn:E; [|exfalso; vm_compute in E; discriminate E].
    exact (proj2 (proj2 (proj2 (handlers_respect_deadlines default_settings "t" "m1" "r:m1" "" 6000 "n" 5000000 None
             None demo_committed saved s') E))).
Defined.

(** ** The honest reveal *)

Lemma find_duplicate_total self unit others :
  (forall other, In other others -> exists m, aget "miner_address" other = Some (VStr m)) ->
  (forall other, In other others -> dhas other "economic_unit_id" = true) ->
  exists d, find_duplicate self unit others = Ok d.
Proof.
  intros Hm Hu. induction others as [|o others IH]; [by eexists|]. cbn [find_duplicate]. unfold dgetitem at 1.
  destruct (Hm o) as (m & Ho); [by left|]. rewrite Ho. cbn [of_option rbind].
  destruct IH as (d & Hd); [intros; apply Hm; by right|intros; apply Hu; by right|].
  destruct (py_eq_str _ self); [by eexists|]. specialize (Hu o (or_introl eq_refl)).
  unfold dhas, ahas in Hu. unfold dgetitem. destruct (aget "economic_unit_id" o); [|done]. simpl.
  destruct (_ && _); by eexists.
Qed.

Lemma committed_hash_row t m s h :
  committed_hash (t, m) s = Some h ->
  exists row, aget (t, m) (_submissions s) = Some row /\ dget row "commit_hash" = VStr h /\ has_commit row = true.
Proof.
  unfold committed_hash, has_commit. destruct (aget _ _) as [row|]; [|done].
  destruct (dget row "commit_hash") as [| | | |h'| | |] eqn:E; try done.
  destruct (String.eqb h' "") eqn:Ene; [done|]. intros [= ->]. exists row. split_and!; [done..|].
  rewrite E. simpl. by rewrite Ene.
Qed.

Section HonestReveal.
Context (settings : ForecastSettings) (s s1 : FakeRepository) (t m rid nonce : string) (p at_ : Z).
Context (ip ua : option string) (miner : dict).
Hypothesis (Hs : protocol_ok settings s).
Hypothesis (Hp : min_p_yes_bps settings <= p <= max_p_yes_bps settings).
Hypothesis (Hopen : open_at s t "reveal_deadline" at_).
Hypothesis (Hrefresh : _refresh_miner_cluster m ip ua at_ s = (Ok miner, s1)).
Hypothesis (Hunit : dhas miner "economic_unit_id" = true).
Hypothesis (Hcommit : committed_hash (t, m) s = Some (compute_commit_hash t m p nonce)).
Hypothesis (Hhidden : forecast_of (t, m) s = None).
Hypothesis (Hfresh : aget rid (tab _request_index s) = None).

Lemma honest_view : view s1 = view s.
Proof. pose proof (refresh_view m ip ua at_ s) as H. by rewrite Hrefresh in H. Qed.

Lemma honest_ok : protocol_ok settings s1.
Proof. apply (protocol_ok_view _ s); [by rewrite honest_view|done]. Qed.

Lemma clamp_inside : clamp_bps p settings = p.
Proof. unfold clamp_bps. lia. Qed.

(** The committed row, as the handler finds it after the refresh. *)
Lemma honest_row :
  exists row, aget (t, m) (_submissions s1) = Some row /\ has_commit row = true /\ is_revealed row = false /\
    dget row "commit_hash" = VStr (compute_commit_hash t m p nonce).
Proof.
  destruct (committed_hash_row _ _ _ _ Hcommit) as (row & Hrow & Hh & Hc). exists row.
  pose proof honest_view as Hv. injection Hv as Hv _. rewrite Hv. split_and!; [done..| |done].
  destruct (is_revealed row) eqn:Hr; [exfalso|done].
  pose proof (ok_rows _ _ Hs _ _ Hrow) as Hok.
  destruct (row_revealed _ _ _ Hok Hr) as (p' & n & Hp' & _). unfold forecast_of in Hhidden.
  by rewrite Hrow, Hp' in Hhidden.
Qed.

Lemma honest_duplicate unit :
  exists d, find_duplicate m unit (map snd (filter (fun kv => kv.1.1 = t) (_submissions s1))) = Ok d.
Proof.
  apply find_duplicate_total; intros other Hin;
    apply in_map_iff in Hin as ((key & row) & <- & Hin);
    apply list_elem_of_In, list_elem_of_filter in Hin as [_ Hin]; apply list_elem_of_In in Hin;
    pose proof (aget_NoDup _ _ _ (ok_keys _ _ honest_ok) Hin) as Hrow; simpl.
  - pose proof (stored_key _ (ok_requests _ _ honest_ok) _ _ Hrow) as Hk.
    apply submission_key_fields in Hk as [_ Hk]. by exists key.2.
  - apply (row_unit _ _ _ (ok_rows _ _ honest_ok _ _ Hrow)).
Qed.

Lemma honest_save row unit eligibility :
  aget (t, m) (_submissions s1) = Some row ->
  let sub := dupdate row (reveal_updates unit rid (clamp_bps p settings) eligibility at_) in
  exists saved s2, save_submission sub s1 = (Ok saved, s2) /\ forecast_of (t, m) s2 = Some p.
Proof.
  intros Hrow sub. pose proof honest_ok as Hok.
  assert (Hwf : submission_wf sub = true) by (by apply (reveal_wf settings s1 t m)).
  assert (Hkey : submission_key sub = Ok (t, m)).
  { pose proof (stored_key _ (ok_requests _ _ Hok) _ _ Hrow) as Hk. rewrite submission_key_fields in *.
    unfold sub. rewrite !aget_dupdate by nodup_keys. exact Hk. }
  destruct (save_submission_merges s1 sub (t, m) (ok_requests _ _ Hok) Hwf Hkey) as (s2 & Hsave & Hsub & _).
  - apply foreign_request_fresh.
    + intros k Hk. unfold submission_wf in Hwf. apply andb_true_iff in Hwf as [_ Hwf].
      rewrite forallb_forall in Hwf. specialize (Hwf k Hk). by destruct (dget sub k).
    + intros rid' row' Hc Hr'. apply carries_in_spec in Hc as (Hne & k & Hk & Hv).
      unfold sub in Hv. rewrite dget_dupdate in Hv by nodup_keys.
      pose proof honest_view as Hview. injection Hview as _ Hview. destruct Hk as [<-|[<-|[]]].
      * change (aget "commit_request_id" (reveal_updates _ _ _ _ _)) with (@None value) in Hv. cbv iota in Hv.
        destruct (stored_indexed _ (ok_requests _ _ Hok) (t, m) row rid' Hrow) as (row2 & Hr2 & Hk2); [|congruence].
        apply carries_in_spec. split; [done|]. exists "commit_request_id". split; [by left|done].
      * change (aget "reveal_request_id" (reveal_updates _ _ _ _ _)) with (Some (VStr rid)) in Hv.
        injection Hv as <-. congruence.
  - do 2 eexists. split; [exact Hsave|]. unfold forecast_of. rewrite Hsub, aget_aset_eq.
    rewrite (reveal_field settings s1 t m rid p at_ unit eligibility row Hok Hrow). simpl. by rewrite clamp_inside.
Qed.

End HonestReveal.

(** What follows the save leaves the submissions alone. *)
Lemma sbind_keeps_forecast {A B} W (m : repo A) (k : A -> repo B) s a s1 key :
  m s = (Ok a, s1) -> touches W false (k a) -> forecast_of key (sbind m k s).2 = forecast_of key s1.
Proof.
  intros Hm Hk. rewrite (sbind_run _ _ _ _ _ Hm). unfold forecast_of.
  destruct (Hk s1) as [_ H]. by rewrite H.
Qed.

Lemma honest_reveal settings s s1 t m rid nonce p at_ ip ua miner :
  protocol_ok settings s ->
  min_p_yes_bps settings <= p <= max_p_yes_bps settings ->
  open_at s t "reveal_deadline" at_ ->
  _refresh_miner_cluster m ip ua at_ s = (Ok miner, s1) -> dhas miner "economic_unit_id" = true ->
  committed_hash (t, m) s = Some (compute_commit_hash t m p nonce) ->
  forecast_of (t, m) s = None ->
  aget rid (tab _request_index s) = None ->
  forecast_of (t, m) (reveal_submission settings t m rid p nonce at_ ip ua s).2 = Some p.
Proof.
  intros Hs Hp Hopen Hrefresh Hunit Hcommit Hhidden Hfresh.
  destruct (honest_row settings s s1 t m nonce p at_ ip ua miner Hs Hrefresh Hcommit Hhidden)
    as (row & Hrow & Hc & Hr & Hh).
  destruct Hopen as (task & publish & deadline & Htask & Hpub & Hdead & Htime).
  assert (Hget : get_task t s = (Ok (Some task), s)).
  { unfold get_task, get_row, sgets. rewrite Htask. by destruct task. }
  assert (Hminer : exists mn, get_miner m s = (Ok (Some mn), s)).
  { unfold _refresh_miner_cluster in Hrefresh. apply sbind_ok in Hrefresh as (x & s2 & Hx & H).
    destruct x as [mn|]; [|done]. exists mn. rewrite Hx. f_equal. unfold get_miner, get_row, sgets in Hx. congruence. }
  destruct Hminer as (mn & Hmn). unfold dhas, ahas in Hunit.
  destruct (aget "economic_unit_id" miner) as [unit|] eqn:Eu; [|done].
  destruct (honest_duplicate settings s s1 t m at_ ip ua miner Hs Hrefresh unit) as (dup & Hdup).
  assert (Hearly : (at_ <? publish) = false) by lia. assert (Hlate : (deadline <? at_) = false) by lia.
  unfold reveal_submission. cbv zeta.
  rewrite (sbind_run _ _ s task s) by (unfold require; by rewrite (sbind_run _ _ _ _ _ Hget)).
  rewrite (sbind_run _ _ s publish s) by (unfold slift; by rewrite Hpub).
  rewrite (sbind_run _ _ s tt s) by (unfold reject_if; by rewrite Hearly).
  rewrite (sbind_run _ _ s deadline s) by (unfold slift; by rewrite Hdead).
  rewrite (sbind_run _ _ s tt s) by (unfold reject_if; by rewrite Hlate).
  rewrite (sbind_run _ _ s mn s) by (unfold require; by rewrite (sbind_run _ _ _ _ _ Hmn)).
  rewrite (sbind_run _ _ _ _ _ Hrefresh).
  rewrite (sbind_run _ _ s1 unit s1) by (unfold slift, dgetitem; by rewrite Eu).
  rewrite (sbind_run _ _ s1 (Some row) s1)
    by (unfold get_submission, sgets; rewrite Hrow; by destruct row).
  rewrite (sbind_run _ _ s1 row s1) by (by rewrite Hc).
  rewrite (sbind_run _ _ s1 tt s1) by (unfold reject_if; by rewrite Hr).
  rewrite (clamp_inside settings p Hp).
  rewrite (sbind_run _ _ s1 tt s1) by (unfold reject_if; by rewrite Hh, (proj2 (py_eq_str_spec _ _))).
  rewrite (sbind_run _ _ s1 _ s1) by done.
  rewrite (sbind_run _ _ s1 dup s1) by (unfold slift; by rewrite Hdup).
  set (eligibility := match dup with Some _ => _ | None => _ end).
  destruct (honest_save settings s s1 t m rid p at_ ip ua miner Hs Hp Hrefresh Hfresh row unit eligibility Hrow)
    as (saved & s2 & Hsave & Hf).
  rewrite (clamp_inside settings p Hp) in Hsave.
  rewrite (sbind_keeps_forecast [_miners; _risk_cases] _ _ _ _ _ _ Hsave); [done|].
  footprint. apply (touches_weaken [_risk_cases] _ false); [apply touches_duplicate_case|by intros ? [<-|[]]; right; left|done].
Qed.

(** A miner that committed to the hash of a forecast and reveals it with
    the same nonce before the deadline is heard: whatever the state the
    service reached and whoever else took part, the reveal records exactly that
    forecast. *)
Theorem honest_reveal_is_recorded settings s s1 t m rid nonce p at_ ip ua miner :
  protocol_ok settings s ->
  min_p_yes_bps settings <= p <= max_p_yes_bps settings ->
  open_at s t "reveal_deadline" at_ ->
  _refresh_miner_cluster m ip ua at_ s = (Ok miner, s1) -> dhas miner "economic_unit_id" = true ->
  committed_hash (t, m) s = Some (compute_commit_hash t m p nonce) ->
  forecast_of (t, m) s = None ->
  aget rid (tab _request_index s) = None ->
  forecast_of (t, m) (reveal_submission settings t m rid p nonce at_ ip ua s).2 = Some p.
Proof. apply honest_reveal. Qed.

Lemma honest_reveal_is_recorded_witness :
  forecast_of ("t", "m1") (reveal_submission default_settings "t" "m1" "r:m1" 6000 "n" 5000000 None None demo_committed).2
  = Some 6000.
Proof.
  apply (honest_reveal_is_recorded default_settings demo_committed demo_committed "t" "m1" "r:m1" "n" 6000 5000000
           None None (dset (demo_miner "m1") "forecast_commits" (VInt 1) ++ [("updated_at", VTime 1000000)])).
  - apply demo_committed_ok.
  - split; discriminate.
  - exists demo_task, 0, 13000000. split_and!; [vm_compute; reflexivity..|discriminate|discriminate].
  - vm_compute. reflexivity.
  - reflexivity.
  - vm_compute. reflexivity.
  - vm_compute. reflexivity.
  - vm_compute. reflexivity.
Defined.
