(* ===== verification/Accounting.v ===== *)
(** * The books of the forecast lanes

    Every reward that the settlement writes on a submission is credited to a
    miner, as balance or as held reward.  A submission that was settled before
    is paid again in full, so the accounts of the miners grow by what the
    rewards grow and by what the submissions settled again had earned. *)
From Stdlib Require Import ZArith Lia String Permutation SpecFloat FinFun.
From stdpp Require Import base list strings relations.
From S2P Require Import Prelude PyText PyFloat PyTime PyValue Sha256 Repository RepositoryFacts.
From S2P Require Import Forecast Economic Miners Submissions Settlement Footprint Protocol.
Open Scope Z_scope.

(** ** Sums over a table *)

(** An integer field of a row. *)
Definition amount (k : string) (row : dict) : Z := match dget row k with VInt n => n | _ => 0 end.

Definition total_of {K} (f : dict -> Z) (m : list (K * dict)) : Z := sum_Z (map (fun kv => f kv.2) m).

Lemma total_of_aset {K} `{PyKey K} f (k : K) row m :
  total_of f (aset k row m) = total_of f m + f row - match aget k m with Some old => f old | None => 0 end.
Proof.
  unfold total_of. induction m as [|[k' old] m IH]; simpl; [lia|].
  destruct (keqb k k'); simpl; [lia|]. rewrite IH. lia.
Qed.

(** What the miners own: their balance and what is held for them. *)
Definition balance (row : dict) : Z := amount "total_rewards" row + amount "held_rewards" row.
Definition ledger (s : FakeRepository) : Z := total_of balance (tab _miners s).
(** What the submissions earned. *)
Definition rewarded (s : FakeRepository) : Z := total_of (amount "reward_amount") (_submissions s).

(** The fields that hold a miner's account. *)
Definition account_fields : list string := ["total_rewards"; "held_rewards"].

Definition is_int (v : value) : bool := match v with VInt _ => true | _ => false end.

(** The accounts are integers. *)
Definition accounts_ok (s : FakeRepository) : Prop :=
  forall address row, aget address (tab _miners s) = Some row ->
    forall k, In k account_fields -> is_int (dget row k) = true.

(** The account of one miner: its balance and its held rewards. *)
Definition account (address : string) (s : FakeRepository) : option (Z * Z) :=
  option_map (fun row => (amount "total_rewards" row, amount "held_rewards" row)) (aget address (tab _miners s)).

(** No account moved. *)
Record same_accounts (s s' : FakeRepository) : Prop := {
  same_ledger : ledger s' = ledger s;
  same_ok : accounts_ok s -> accounts_ok s';
  same_account : forall address, account address s' = account address s
}.

#[export] Instance same_accounts_preorder : PreOrder same_accounts.
Proof.
  split; [done|]. intros s1 s2 s3 [H1 A1 C1] [H2 A2 C2]. split; [congruence|auto|]. intros a. by rewrite C2.
Qed.

Lemma NoDup_akeys_filter {K} (P : K * dict -> Prop) `{!forall kv, Decision (P kv)} (l : list (K * dict)) :
  NoDup (akeys l) -> NoDup (akeys (filter P l)).
Proof.
  induction l as [|kv l IH]; intros Hnd; [constructor|]. inversion Hnd as [|? ? Hni Hnd']; subst.
  rewrite filter_cons. case_decide; [|by apply IH]. unfold akeys. simpl. constructor; [|by apply IH].
  intros Hin. apply Hni. apply list_elem_of_fmap in Hin as (kv' & -> & Hin).
  apply list_elem_of_filter in Hin as [_ Hin]. by apply list_elem_of_fmap_2.
Qed.

(** ** Updates of miners that do not touch an account *)

Lemma given_cons k v l : given ((k, v) :: l) = if is_none v then given l else (k, v) :: given l.
Proof. unfold given. rewrite filter_cons. simpl. by destruct (is_none v). Qed.

Lemma akeys_given k l : In k (akeys (given l)) -> In k (akeys l).
Proof.
  unfold akeys, given. intros Hin.
  apply in_map_iff in Hin as (kv & <- & Hin). apply in_map_iff. exists kv. split; [done|].
  apply list_elem_of_In, list_elem_of_filter in Hin as [_ Hin]. by apply list_elem_of_In.
Qed.

Lemma aget_given k l :
  NoDup (akeys l) ->
  aget k (given l) = match aget k l with Some VNone => None | v => v end.
Proof.
  induction l as [|[k' v] l IH]; intros Hnd; [done|].
  inversion Hnd as [|? ? Hni Hnd']; subst. rewrite given_cons. simpl.
  destruct (k =? k')%string eqn:E.
  - apply String.eqb_eq in E as ->. destruct v; simpl; rewrite ?String.eqb_refl; try done.
    apply aget_None. intros Hin%akeys_given. apply Hni. by apply list_elem_of_In.
  - destruct (is_none v); simpl; rewrite ?E; by apply IH.
Qed.

Lemma NoDup_given l : NoDup (akeys l) -> NoDup (akeys (given l)).
Proof.
  induction l as [|[k v] l IH]; intros Hnd; [done|].
  inversion Hnd as [|? ? Hni Hnd']; subst. rewrite given_cons. destruct (is_none v); [by apply IH|].
  simpl. constructor; [|by apply IH]. intros Hin%list_elem_of_In%akeys_given. apply Hni. by apply list_elem_of_In.
Qed.

(** The updates of the repository's methods: a time and the optional
    arguments that were given. *)
Definition stamped (u : value) (l : dict) : dict := ("updated_at", u) :: given l.

Lemma NoDup_stamped u l : NoDup (akeys (("updated_at", u) :: l)) -> NoDup (akeys (stamped u l)).
Proof.
  intros Hnd. inversion Hnd as [|? ? Hni Hnd']; subst. unfold stamped. cbn [akeys fmap list_fmap fst].
  constructor; [|by apply NoDup_given]. intros Hin%list_elem_of_In%akeys_given. apply Hni. by apply list_elem_of_In.
Qed.

Lemma aget_stamped u l k :
  NoDup (akeys l) -> k <> "updated_at" ->
  aget k (stamped u l) = match aget k l with Some VNone => None | v => v end.
Proof.
  intros Hnd Hk. unfold stamped. cbn [aget]. destruct (keqb k "updated_at") eqn:E; [by apply keqb_spec in E|].
  by apply aget_given.
Qed.

Lemma update_miner_cases address u s :
  (exists e, update_miner address u s = (Err e, s)) \/
  exists row, aget address (tab _miners s) = Some row /\
    update_miner address u s =
    (Ok (dupdate row u), set_tab _miners (aset address (dupdate row u) (tab _miners s)) s).
Proof.
  unfold update_miner. rewrite (sbind_run _ _ s s s) by done.
  destruct (aget address (tab _miners s)) as [row|]; [right|left; by eexists]. by exists row.
Qed.

Lemma amount_dupdate k row u :
  NoDup (akeys u) -> aget k u = None -> dget (dupdate row u) k = dget row k.
Proof. intros Hnd Hk. rewrite dget_dupdate by done. by rewrite Hk. Qed.

Lemma update_miner_same_accounts address u s :
  NoDup (akeys u) -> (forall k, In k account_fields -> aget k u = None) ->
  same_accounts s (update_miner address u s).2.
Proof.
  intros Hnd Hu. destruct (update_miner_cases address u s) as [(e & ->)|(row & Hrow & ->)]; [done|]. simpl.
  assert (Hsame : forall k, In k account_fields -> dget (dupdate row u) k = dget row k).
  { intros k Hk. apply amount_dupdate; auto. }
  split.
  - unfold ledger. rewrite tab_set_tab_eq, total_of_aset, Hrow. unfold balance, amount.
    rewrite !Hsame by (simpl; tauto). lia.
  - intros Hok a r. rewrite tab_set_tab_eq, aget_aset. destruct (keqb a address); [|apply Hok].
    intros [= <-] k Hk. rewrite Hsame by done. by apply (Hok address).
  - intros a. unfold account. rewrite tab_set_tab_eq, aget_aset. destruct (keqb a address) eqn:E; [|done].
    apply keqb_spec in E as ->. rewrite Hrow. simpl. unfold amount. by rewrite !Hsame by (simpl; tauto).
Qed.

Lemma participation_same_accounts address u a b c d e f s :
  same_accounts s (update_miner_forecast_participation address u a b c d e f s).2.
Proof.
  unfold update_miner_forecast_participation. set (l := [_; _; _; _; _; _]). fold (stamped u l).
  apply update_miner_same_accounts; [apply NoDup_stamped; nodup_keys|].
  intros k Hk. rewrite aget_stamped; [|nodup_keys|]; destruct Hk as [<-|[<-|[]]]; done.
Qed.

(** ** Operations that move no account *)

Definition steady {A} (m : repo A) : Prop := forall s, same_accounts s (m s).2.

Lemma steady_sbind {A B} (m : repo A) (f : A -> repo B) :
  steady m -> (forall a, steady (f a)) -> steady (sbind m f).
Proof.
  intros Hm Hf s. unfold sbind. specialize (Hm s). destruct (m s) as [[a|e] s1]; simpl in *; [|done].
  etransitivity; [exact Hm|apply Hf].
Qed.

Lemma steady_forS {A} (f : A -> repo unit) l : (forall a, steady (f a)) -> steady (forS f l).
Proof. intros Hf. induction l; simpl; [done|]. by apply steady_sbind. Qed.

Lemma steady_touches {A} W b (m : repo A) : touches W b m -> ~ In _miners W -> steady m.
Proof.
  intros Hm HW s. destruct (Hm s) as [Ht _]. by split; [|unfold accounts_ok|intros a]; unfold ledger, account; rewrite Ht.
Qed.

Lemma steady_participation settings task subs now :
  steady (_apply_fast_task_participation settings task subs now).
Proof.
  unfold _apply_fast_task_participation.
  do 5 (apply steady_sbind; [apply (steady_touches [] false); [footprint|not_in]|intros ?]).
  apply steady_forS. intros miner. unfold apply_participation. destruct (negb _); [done|].
  do 4 (apply steady_sbind; [apply (steady_touches [] false); [footprint|not_in]|intros ?]).
  destruct (_ && _); [done|].
  apply steady_sbind; [apply (steady_touches [] false); [footprint|not_in]|intros [[? ?] ?]].
  do 3 (apply steady_sbind; [apply (steady_touches [] false); [footprint|not_in]|intros ?]).
  apply steady_sbind; [|done]. intros st. apply participation_same_accounts.
Qed.

(** ** One submission *)

(** The reward is what is released and what is held. *)
Lemma split_sums settings miner reward now released held state :
  _split_reward_by_admission settings miner reward now = Ok (released, held, state) ->
  released + held = reward.
Proof.
  unfold _split_reward_by_admission. intros H. apply rbind_ok in H as (st & _ & H).
  apply rbind_ok in H as (ratio & _ & H). apply rbind_ok in H as (r & _ & H). injection H as <- <- <-. lia.
Qed.

Lemma settle_score_amounts settings task sub miner p outcome score discount now r :
  settle_score settings task sub miner p outcome score discount now = Ok r ->
  released_reward r + held_reward r = reward_amount r /\ 0 <= reward_amount r /\
  final_reward (fast_direct_score r) (quality_envelope r) = Ok (reward_amount r) /\
  (field_is "eligibility_status" "eligible" sub = false -> fast_direct_score r = 0).
Proof.
  unfold settle_score. intros H. apply rbind_ok in H as (direct & Hdirect & H).
  do 5 (apply rbind_ok in H as (? & _ & H)). cbv zeta in H.
  do 2 (apply rbind_ok in H as (? & _ & H)).
  apply rbind_ok in H as (reward & Hreward & H). apply rbind_ok in H as ([[released held] state] & Hsplit & H).
  injection H as <-. simpl. split; [by eapply split_sums|]. split; [|split; [done|]].
  - unfold final_reward in Hreward. apply rbind_ok in Hreward as (rounded & _ & Hreward).
    apply rbind_ok in Hreward as (amount0 & _ & Hreward). injection Hreward as <-. lia.
  - unfold direct_score in Hdirect. intros He. rewrite He in Hdirect. by injection Hdirect as <-.
Qed.

Definition credit (released held : Z) (a : Z * Z) : Z * Z := (a.1 + released, a.2 + held).

(** Updating the account of a miner with the two integers. *)
Lemma settlement_update address u total held a b c d e s s' saved row :
  aget address (tab _miners s) = Some row ->
  update_miner_forecast_settlement address u (VInt total) (VInt held) a b c d e s = (Ok saved, s') ->
  account address s' = Some (total, held) /\
  (forall other, other <> address -> account other s' = account other s) /\
  ledger s' = ledger s - balance row + total + held /\
  (accounts_ok s -> accounts_ok s') /\ untouched [_miners] false s s'.
Proof.
  intros Hrow. unfold update_miner_forecast_settlement. set (l := [_; _; _; _; _; _; _]).
  fold (stamped u l). assert (Hup : NoDup (akeys (stamped u l))) by (apply NoDup_stamped; nodup_keys).
  assert (Ht : aget "total_rewards" (stamped u l) = Some (VInt total)) by (by rewrite aget_stamped by (done || nodup_keys)).
  assert (Hh : aget "held_rewards" (stamped u l) = Some (VInt held)) by (by rewrite aget_stamped by (done || nodup_keys)).
  set (up := stamped u l) in *. clearbody up.
  pose proof (touches_update_miner [_miners] false address up ltac:(simpl; tauto) s) as Hun.
  intros H. rewrite H in Hun. unfold update_miner in H. rewrite (sbind_run _ _ s s s), Hrow in H by done.
  rewrite put_row_run in H. injection H as _ <-.
  assert (Hd : forall k v, aget k up = Some v -> dget (dupdate row up) k = v).
  { intros k v Hk. rewrite dget_dupdate by done. by rewrite Hk. }
  split_and!.
  - unfold account. rewrite tab_set_tab_eq, aget_aset_eq. unfold amount. simpl.
    by rewrite (Hd _ _ Ht), (Hd _ _ Hh).
  - intros other Hne. unfold account. by rewrite tab_set_tab_eq, aget_aset_ne.
  - unfold ledger. rewrite tab_set_tab_eq, total_of_aset, Hrow. unfold balance at 2, amount.
    rewrite (Hd _ _ Ht), (Hd _ _ Hh). lia.
  - intros Hok a' r. rewrite tab_set_tab_eq, aget_aset. destruct (keqb a' address); [|apply Hok].
    intros [= <-] k [<-|[<-|[]]]; [by rewrite (Hd _ _ Ht)|by rewrite (Hd _ _ Hh)].
  - exact Hun.
Qed.

Lemma place_hold_entry task sub held now s s' id :
  aget "id" sub = Some (VStr id) -> place_hold task sub held now s = (Ok tt, s') -> 0 < held ->
  exists entry, aget ("hold:" +:+ id) (tab _hold_entries s') = Some entry /\
    dget entry "amount_held" = VInt held /\ dget entry "amount_released" = VInt 0 /\
    dget entry "state" = VStr "held" /\ dget entry "miner_address" = dget sub "miner_address".
Proof.
  intros Hid H Hheld. unfold place_hold in H. assert ((0 <? held) = true) as E by lia. rewrite E in H.
  unfold dgetitem at 1 in H. rewrite Hid in H. rewrite (sbind_run _ _ s (VStr id) s) in H by done.
  rewrite (sbind_run _ _ s id s) in H by done.
  apply sbind_ok in H as (address & s1 & Ha & H). unfold slift in Ha. injection Ha as Ha <-.
  apply sbind_ok in H as (run & s1 & Ht & H). injection Ht as Ht <-.
  unfold save_hold_entry, save_row in H. set (entry := hold_entry _ _ _ _ _ _) in H.
  apply sbind_ok in H as (saved & s1 & Hs & H).
  rewrite (save_keyed_run "id" _ entry s ("hold:" +:+ id)) in Hs by done. injection Hs as _ <-. injection H as <-.
  exists (merged _hold_entries ("hold:" +:+ id) entry s). rewrite tab_set_tab_eq, aget_aset_eq. split; [done|].
  assert (Hd : forall k v, aget k entry = Some v -> dget (merged _hold_entries ("hold:" +:+ id) entry s) k = v).
  { intros k v Hk. unfold merged. rewrite dget_dupdate by nodup_keys. by rewrite Hk. }
  split_and!; try (by apply Hd).
  unfold dgetitem in Ha. destruct (aget "miner_address" sub) eqn:E2; [|done]. injection Ha as ->.
  rewrite (dget_some _ _ _ E2). by apply Hd.
Qed.

Lemma credit_miner_account address miner r c now s s' :
  aget address (tab _miners s) = Some miner -> (forall k, In k account_fields -> is_int (dget miner k) = true) ->
  credit_miner address miner r c now s = (Ok tt, s') ->
  account address s' = option_map (credit (released_reward r) (held_reward r)) (account address s) /\
  (forall other, other <> address -> account other s' = account other s) /\
  ledger s' = ledger s + released_reward r + held_reward r /\
  (accounts_ok s -> accounts_ok s') /\ untouched [_miners] false s s'.
Proof.
  intros Hm Hint H. unfold credit_miner in H.
  pose proof (Hint "total_rewards" ltac:(simpl; tauto)) as Ht. pose proof (Hint "held_rewards" ltac:(simpl; tauto)) as Hh.
  destruct (dget miner "total_rewards") as [| |total| | | | |] eqn:Et; try done.
  destruct (dget miner "held_rewards") as [| |held| | | | |] eqn:Eh; try done.
  apply sbind_ok in H as (v & s1 & Hv & H). injection Hv as Hv <-.
  assert (v = VInt total) as ->.
  { unfold dgetitem in Hv. destruct (aget "total_rewards" miner) eqn:E; [|done]. injection Hv as <-.
    by rewrite (dget_some _ _ _ E) in Et. }
  rewrite (sbind_run _ _ s (VInt (total + released_reward r)) s) in H by done.
  assert (dget_or miner "held_rewards" (VInt 0) = VInt held) as Eh'.
  { unfold dget, dget_or in *. by destruct (aget "held_rewards" miner). }
  rewrite Eh' in H. rewrite (sbind_run _ _ s (VInt (held + held_reward r)) s) in H by done.
  apply sbind_ok in H as (x & s1 & Hx & H). injection Hx as Hx <-.
  apply sbind_ok in H as (y & s1 & Hy & H). injection Hy as Hy <-.
  apply sbind_ok in H as (saved & s1 & Hs & H). injection H as <-.
  destruct (settlement_update _ _ _ _ _ _ _ _ _ _ _ _ _ Hm Hs) as (H1 & H2 & H3 & H4 & H5).
  split_and!; [|done| |done|done].
  - rewrite H1. unfold account. rewrite Hm. simpl. unfold credit, amount. by rewrite Et, Eh.
  - rewrite H3. unfold balance, amount. rewrite Et, Eh. lia.
Qed.

Section OneSubmission.
Context (settings : ForecastSettings) (task : dict) (outcome now : Z) (s : FakeRepository).
Context (Hok : protocol_ok settings s) (Haccounts : accounts_ok s).

(** What settling a submission does to the books. *)
Record booked (key : string * string) (sub : dict) (released held : Z) (s' : FakeRepository) : Prop := {
  booked_nonneg : 0 <= released + held;
  booked_account : account key.2 s' = option_map (credit released held) (account key.2 s);
  booked_others : forall other, other <> key.2 -> account other s' = account other s;
  booked_ledger : ledger s' = ledger s + released + held;
  booked_row : exists new, _submissions s' = aset key new (_submissions s) /\
    dget new "state" = VStr "resolved" /\ amount "reward_amount" new = released + held /\
    amount "released_reward_amount" new = released /\ amount "held_reward_amount" new = held;
  booked_hold : forall id, aget "id" sub = Some (VStr id) -> 0 < held ->
    exists entry, aget ("hold:" +:+ id) (tab _hold_entries s') = Some entry /\
      dget entry "amount_held" = VInt held /\ dget entry "amount_released" = VInt 0 /\
      dget entry "state" = VStr "held" /\ dget entry "miner_address" = VStr key.2;
  booked_tasks : tab _tasks s' = tab _tasks s;
  booked_ok : accounts_ok s'
}.

Lemma settle_submission_books cache cache' sub key s' :
  annotates s sub -> submission_key sub = Ok key -> is_revealed sub = true ->
  settle_fast_submission settings task outcome now cache sub s = (Ok cache', s') ->
  exists released held, booked key sub released held s'.
Proof.
  intros Hann Hkey Hrev H. unfold settle_fast_submission in H. unfold is_revealed in Hrev.
  apply negb_true_iff in Hrev. rewrite Hrev in H.
  do 4 (apply sbind_ok in H as (? & s1 & [= _ <-] & H)).
  assert (Haddr : aget "miner_address" sub = Some (VStr key.2)) by (by apply submission_key_fields in Hkey as [_ ?]).
  unfold dgetitem at 1 in H. rewrite Haddr in H. rewrite (sbind_run _ _ s (VStr key.2) s) in H by done.
  rewrite (sbind_run _ _ s key.2 s) in H by done.
  apply sbind_ok in H as (mn & s1 & Hmn & H). destruct mn as [miner|]; [|done].
  assert (aget key.2 (tab _miners s) = Some miner /\ s1 = s) as [Hminer ->].
  { unfold get_miner, get_row, sgets, non_empty in Hmn. injection Hmn as Hmn <-. split; [|done].
    destruct (aget key.2 (tab _miners s)) as [[|]|]; naive_solver. }
  apply sbind_ok in H as ([cache1 abuse] & s1 & Habuse & H).
  assert (Hu1 : untouched [] false s s1).
  { pose proof (touches_abuse_state cache miner sub s) as Ht. by rewrite Habuse in Ht. }
  apply sbind_ok in H as (r & s2 & Hr & H). injection Hr as Hr <-.
  destruct (settle_score_amounts _ _ _ _ _ _ _ _ _ _ Hr) as (Hsum & Hpos & _).
  set (sub' := dupdate sub (settled_updates r now)) in H.
  assert (Hview : view s1 = view s) by (apply (untouched_view []); [done|not_in]).
  assert (Hok1 : protocol_ok settings s1) by (by apply (protocol_ok_view _ s)).
  destruct Hann as (Hwf & key' & old & Hkey' & Hold & Hag). assert (key' = key) as -> by congruence.
  assert (Hsubs1 : _submissions s1 = _submissions s) by (by injection Hview).
  assert (Hann' : annotates s1 sub').
  { apply annotates_update; [|nodup_keys|by intros k Hk; repeat (destruct Hk as [<-|Hk]; [done|])].
    split; [done|]. exists key, old. by rewrite Hsubs1. }
  assert (Hkey1 : submission_key sub' = Ok key).
  { by apply submission_key_update; [nodup_keys|..]. }
  destruct (annotation_merges settings s1 sub' key Hok1 Hann' Hkey1) as (s2 & Hsave & Hsub2).
  pose proof (touches_save_submission sub' s1) as [Hu2 _]. rewrite Hsave in Hu2. cbn [snd] in Hu2.
  rewrite (sbind_run _ _ _ _ _ Hsave) in H.
  apply sbind_ok in H as ([] & s3 & Hhold & H).
  pose proof (touches_place_hold task sub (held_reward r) now s2) as [Hu3 Hs3]. rewrite Hhold in Hu3, Hs3. cbn [snd] in Hu3, Hs3.
  apply sbind_ok in H as ([] & s4 & Hcredit & H). injection H as _ <-.
  assert (Hm3 : tab _miners s3 = tab _miners s).
  { rewrite Hu3, Hu2 by not_in. apply Hu1. not_in. }
  destruct (credit_miner_account key.2 miner r (direction_correct x outcome) now s3 s4) as (H1 & H2 & H3 & H4 & H5);
    [by rewrite Hm3|by apply (Haccounts key.2)|done|].
  set (new := dupdate (default [] (aget key (_submissions s1))) sub') in *.
  assert (Hnew : forall k v, aget k (settled_updates r now) = Some v -> dget new k = v).
  { intros k v Hk. unfold new, sub'. destruct Hann' as [Hwf' _]. unfold submission_wf in Hwf'.
    apply andb_true_iff in Hwf' as [Hnd' _]. rewrite bool_decide_eq_true in Hnd'.
    rewrite dget_dupdate by done. rewrite aget_dupdate by nodup_keys. by rewrite Hk. }
  assert (Hacc : forall a, account a s3 = account a s) by (intros a; unfold account; by rewrite Hm3).
  exists (released_reward r), (held_reward r). split.
  - lia.
  - by rewrite H1, Hacc.
  - intros other Ho. by rewrite H2, Hacc.
  - rewrite H3. unfold ledger. by rewrite Hm3.
  - exists new. destruct H5 as [_ H5]. rewrite H5, Hs3, Hsub2, Hsubs1 by done. rewrite Hsum. unfold amount.
    split_and!; [done|by apply Hnew|..]; by erewrite Hnew by reflexivity.
  - intros id Hid Hpos'. destruct H5 as [H5 _].
    destruct (place_hold_entry task sub (held_reward r) now s2 s3 id Hid Hhold Hpos') as (entry & He & ? & ? & ? & Ho).
    exists entry. rewrite H5 by not_in. split_and!; [done..|]. by rewrite Ho, (dget_some _ _ _ Haddr).
  - destruct H5 as [H5 _]. rewrite H5, Hu3, Hu2 by not_in. apply Hu1. not_in.
  - apply H4. intros a row Ha. rewrite Hm3 in Ha. by apply (Haccounts a).
Qed.
End OneSubmission.

(** ** A run of the settlement *)

(** Credits and rewards agree: what the miners own minus what was earned. *)
Definition gap (s : FakeRepository) : Z := ledger s - rewarded s.

(** What a submission earned before, if it is revealed: settling it again pays
    the new reward in full and writes over this one. *)
Definition standing (row : dict) : Z := if is_revealed row then amount "reward_amount" row else 0.

Lemma keyed_for_aset t key row l :
  key.1 <> t -> filter (fun kv : (string * string) * dict => kv.1.1 = t) (aset key row l) = filter (fun kv => kv.1.1 = t) l.
Proof.
  intros Hk. induction l as [|[k r] l IH]; cbn [aset].
  - rewrite filter_cons. by rewrite decide_False.
  - destruct (keqb key k) eqn:E; rewrite !filter_cons; cbn [fst].
    + apply keqb_spec in E as <-. by rewrite !decide_False.
    + case_decide; [f_equal|]; apply IH.
Qed.

Section Runs.
Context (settings : ForecastSettings).

(** The books are in order, and so is the protocol. *)
Record sound (s : FakeRepository) : Prop := {
  sound_protocol : protocol_ok settings s;
  sound_accounts : accounts_ok s
}.

(** A part of the settlement of the task [t] that settles again what had earned
    [n]: it credits that much more than the rewards grow, writes only
    submissions of that task, and no task. *)
Record settles (t : string) (n : Z) (s s' : FakeRepository) : Prop := {
  settles_sound : sound s';
  settles_gap : gap s' = gap s + n;
  settles_annotates : annotated s s';
  settles_other : forall t', t' <> t -> keyed_for t' s' = keyed_for t' s
}.

Lemma settles_refl t s : sound s -> settles t 0 s s.
Proof. intros Hs. split; [done|lia|reflexivity|done]. Qed.

Lemma settles_trans t n1 n2 s1 s2 s3 : settles t n1 s1 s2 -> settles t n2 s2 s3 -> settles t (n1 + n2) s1 s3.
Proof.
  intros [S1 G1 A1 O1] [S2 G2 A2 O2]. split; [done|lia|by transitivity s2|].
  intros t' Ht. by rewrite O2, O1.
Qed.

Lemma settles_steady {A} W t (m : repo A) s :
  touches W false m -> ~ In _request_index W -> steady m -> sound s -> settles t 0 s (m s).2.
Proof.
  intros Hm HW Hst [Hp Ha]. pose proof (Hm s) as Hu. pose proof (untouched_view _ _ _ Hu HW) as Hv.
  destruct (Hst s) as [Hl Hacc _]. destruct Hu as [_ Hsub]. specialize (Hsub eq_refl). split.
  - split; [by apply (protocol_ok_view _ s)|by apply Hacc].
  - unfold gap, rewarded. rewrite Hl, Hsub. lia.
  - intros key old Hold. exists old. by rewrite Hsub.
  - intros t' _. unfold keyed_for. by rewrite Hsub.
Qed.

Lemma settles_touches {A} W t (m : repo A) s :
  touches W false m -> ~ In _request_index W -> ~ In _miners W -> sound s -> settles t 0 s (m s).2.
Proof. intros Hm HW Hmi. apply (settles_steady W); [done|done|by eapply steady_touches]. Qed.

(** What a step that processes the stored row [sub] does to the rest. *)
Definition settles_one (key : string * string) (n : Z) (s s' : FakeRepository) : Prop :=
  settles key.1 n s s' /\ (forall key', key' <> key -> aget key' (_submissions s') = aget key' (_submissions s)).

Lemma settle_submission_settles task outcome now cache cache' sub key s s' :
  sound s -> aget key (_submissions s) = Some sub ->
  settle_fast_submission settings task outcome now cache sub s = (Ok cache', s') ->
  settles_one key (standing sub) s s'.
Proof.
  intros [Hp Ha] Hold H. pose proof (stored_annotates _ _ _ _ Hp Hold) as Hann.
  pose proof (stored_key _ (ok_requests _ _ Hp) _ _ Hold) as Hkey.
  destruct (is_none (dget sub "p_yes_bps")) eqn:Hrev.
  { unfold settle_fast_submission in H. rewrite Hrev in H. injection H as _ <-.
    unfold standing, is_revealed. rewrite Hrev. by split; [apply settles_refl|]. }
  destruct (settle_submission_books settings task outcome now s Hp Ha cache cache' sub key s' Hann Hkey) as
    (released & held & HB); [unfold is_revealed; by rewrite Hrev|done|].
  destruct (annotating_settle_submission settings settings task outcome now cache [sub] sub) with s as [Hp' Han'];
    [by left|done|by constructor; [|constructor]|]. rewrite H in Hp', Han'. cbn [snd] in Hp', Han'.
  destruct (booked_row _ _ _ _ _ _ HB) as (new & Hsub & _ & Hnew & _).
  assert (Hother : forall key', key' <> key -> aget key' (_submissions s') = aget key' (_submissions s)).
  { intros key' Hne. by rewrite Hsub, aget_aset_ne. }
  split; [|done]. split.
  - split; [done|apply HB].
  - unfold gap, rewarded, standing, is_revealed. rewrite Hrev. simpl.
    rewrite Hsub, total_of_aset, Hold, (booked_ledger _ _ _ _ _ _ HB). lia.
  - done.
  - intros t' Hne. unfold keyed_for. rewrite Hsub. apply keyed_for_aset. by apply not_eq_sym.
Qed.

(** Where every stored row of a list settles alone, the loop over them settles. *)
Lemma loop_settles {B} (f : B -> dict -> repo B) (w : dict -> Z) t kl :
  (forall b b' key sub s s', sound s -> aget key (_submissions s) = Some sub ->
     f b sub s = (Ok b', s') -> settles_one key (w sub) s s') ->
  forall b b' s s',
  sound s -> NoDup (map fst kl) ->
  Forall (fun kr => kr.1.1 = t /\ aget kr.1 (_submissions s) = Some kr.2) kl ->
  foldS f (map snd kl) b s = (Ok b', s') -> settles t (sum_Z (map (fun kr => w kr.2) kl)) s s'.
Proof.
  intros Hf. induction kl as [|[key sub] kl IH]; intros b b' s s' Hs Hnd Hall H.
  { injection H as _ <-. by apply settles_refl. }
  inversion Hall as [|? ? (Ht & Hold) Hall']; subst. inversion Hnd as [|? ? Hni Hnd']; subst. simpl in *.
  apply sbind_ok in H as (b1 & s1 & H1 & H).
  destruct (Hf _ _ _ _ _ _ Hs Hold H1) as [S1 Hother].
  change (sum_Z (w sub :: ?l)) with (w sub + sum_Z l).
  apply (settles_trans _ _ _ _ s1); [done|]. apply (IH b1 b'); [apply S1|done| |done].
  apply Forall_forall. intros [k r] Hin. rewrite Forall_forall in Hall'.
  specialize (Hall' _ Hin) as (Ht & Ho). simpl in *. split; [done|].
  rewrite Hother; [done|]. intros ->. apply Hni. apply list_elem_of_In, in_map_iff.
  exists (key, r). split; [done|by apply list_elem_of_In].
Qed.

Lemma forS_foldS (f : dict -> repo unit) l s : forS f l s = foldS (fun _ x => f x) l tt s.
Proof.
  revert s. induction l as [|x l IH]; intros s; [done|]. simpl. unfold sbind.
  destruct (f x s) as [[[]|e] s1]; [apply IH|done].
Qed.

Lemma dget_dupdate_self d u k :
  NoDup (akeys u) -> NoDup (akeys (dupdate d u)) -> dget (dupdate d (dupdate d u)) k = dget (dupdate d u) k.
Proof.
  intros Hu Hnd. unfold dget, dget_or. rewrite (aget_dupdate _ (dupdate d u)) by done.
  destruct (aget k (dupdate d u)) as [v|] eqn:E; [done|]. rewrite aget_dupdate in E by done.
  by destruct (aget k u), (aget k d).
Qed.

(** Saving an annotation of a stored row. *)
Lemma annotation_settles s key sub up :
  sound s -> aget key (_submissions s) = Some sub -> NoDup (akeys up) ->
  (forall k, In k protected_fields -> aget k up = None) ->
  amount "reward_amount" (dupdate sub up) = amount "reward_amount" sub ->
  exists v s1, save_submission (dupdate sub up) s = (Ok v, s1) /\ settles_one key 0 s s1.
Proof.
  intros [Hp Ha] Hold Hnd Hu Hamount. pose proof (stored_annotates _ _ _ _ Hp Hold) as Hann.
  pose proof (annotates_update _ _ _ Hann Hnd Hu) as Hann'.
  assert (Hkey : submission_key (dupdate sub up) = Ok key).
  { apply submission_key_update; [done|apply Hu; simpl; tauto|apply Hu; simpl; tauto|].
    by apply (stored_key _ (ok_requests _ _ Hp)). }
  destruct (annotation_merges _ _ _ _ Hp Hann' Hkey) as (s1 & Hsave & Hsub).
  destruct (annotate_saves _ _ _ Hp Hann') as [Hp1 Han1].
  destruct (touches_save_submission (dupdate sub up) s) as [Ht _]. rewrite Hsave in Hp1, Han1, Ht.
  cbn [snd] in Hp1, Han1, Ht. do 2 eexists. split; [exact Hsave|].
  assert (Hm : tab _miners s1 = tab _miners s) by (apply Ht; not_in).
  assert (Hother : forall key', key' <> key -> aget key' (_submissions s1) = aget key' (_submissions s)).
  { intros key' Hne. by rewrite Hsub, aget_aset_ne. }
  split; [split|done].
  - split; [done|]. unfold accounts_ok. by rewrite Hm.
  - destruct Hann' as [Hwf _]. unfold submission_wf in Hwf. apply andb_true_iff in Hwf as [Hwf _].
    apply bool_decide_eq_true in Hwf.
    assert (Hsame : amount "reward_amount" (dupdate sub (dupdate sub up)) = amount "reward_amount" sub).
    { rewrite <- Hamount. unfold amount. by rewrite dget_dupdate_self. }
    unfold gap, ledger, rewarded. rewrite Hm, Hsub, total_of_aset, Hold. simpl default. rewrite Hsame. lia.
  - done.
  - intros t' Hne. unfold keyed_for. rewrite Hsub. apply keyed_for_aset. by apply not_eq_sym.
Qed.

Lemma mark_pending_settles now key sub s s' u :
  sound s -> aget key (_submissions s) = Some sub -> mark_pending now sub s = (Ok u, s') -> settles_one key 0 s s'.
Proof.
  intros Hs Hold H. unfold mark_pending in H.
  destruct (is_none (dget sub "p_yes_bps")); [injection H as _ <-; by split; [apply settles_refl|]|].
  set (up := [_; _]) in H.
  destruct (annotation_settles s key sub up) as (v & s1 & Hsave & Hset); [done|done|nodup_keys|..].
  - by intros k Hk; repeat (destruct Hk as [<-|Hk]; [done|]).
  - unfold amount. by rewrite dget_dupdate by nodup_keys.
  - rewrite (sbind_run _ _ _ _ _ Hsave) in H. by injection H as _ <-.
Qed.

(** The loops run over the rows of one query. *)
Lemma keyed_loop s t :
  sound s ->
  NoDup (map fst (keyed_for t s)) /\
  Forall (fun kr => kr.1.1 = t /\ aget kr.1 (_submissions s) = Some kr.2) (keyed_for t s).
Proof.
  intros [Hp _]. split.
  - apply NoDup_akeys_filter, (ok_keys _ _ Hp).
  - apply Forall_forall. intros [[t' m] row] Hin. apply list_elem_of_In in Hin.
    by apply (keyed_for_stored _ _ _ _ _ Hp Hin).
Qed.

Lemma settles_upsert t row s s' u : sound s -> upsert_task row s = (Ok u, s') -> settles t 0 s s'.
Proof.
  intros Hs H. pose proof (settles_touches [_tasks] t (upsert_task row) s) as Hset. rewrite H in Hset.
  apply Hset; [footprint|not_in|not_in|done].
Qed.

(** What the submissions had earned that the settlement of a task settles again:
    none while the task is unresolved. *)
Definition stood (tp : option TaskProvider) (s : FakeRepository) (task : dict) : Z :=
  match fast_resolution tp task, aget "task_run_id" task with
  | Ok resolution, Some (VStr t) =>
      if unresolved (resolution_status resolution) (dget resolution "outcome") then 0
      else sum_Z (map (fun kr => standing kr.2) (keyed_for t s))
  | _, _ => 0
  end.

Lemma settles_add t n n' s s' : settles t n s s' -> n = n' -> settles t n' s s'.
Proof. by intros H <-. Qed.

Lemma settle_fast_task_settles tp now cache cache' task t s s' :
  sound s -> aget "task_run_id" task = Some (VStr t) ->
  settle_fast_task tp settings now cache task s = (Ok cache', s') -> settles t (stood tp s task) s s'.
Proof.
  intros Hs Ht H. unfold settle_fast_task in H. unfold stood.
  apply sbind_ok in H as (resolution & s1 & [= Hres <-] & H). cbv zeta in H. rewrite Hres, Ht.
  unfold dgetitem at 1 in H. rewrite Ht in H. rewrite (sbind_run _ _ s (VStr t) s) in H by done.
  cbn [as_key] in H. rewrite (sbind_run _ _ s t s) in H by done.
  rewrite (sbind_run _ _ s (map snd (keyed_for t s)) s) in H by (unfold list_submissions_for_task; reflexivity).
  destruct (keyed_loop s t Hs) as [Hnd Hall]. destruct (unresolved _ _).
  - apply sbind_ok in H as ([] & s1 & Hpend & H). apply sbind_ok in H as (row & s2 & Hup & H). injection H as _ <-.
    rewrite forS_foldS in Hpend.
    assert (S1 : settles t (sum_Z (map (fun _ => 0) (keyed_for t s))) s s1).
    { eapply (loop_settles _ (fun _ => 0)); [|done|exact Hnd|exact Hall|exact Hpend].
      intros b b' key sub st st' Hst Hold Hrun. exact (mark_pending_settles now key sub st st' b' Hst Hold Hrun). }
    eapply settles_add; [eapply settles_trans; [exact S1|eapply settles_upsert; [apply S1|done]]|].
    clear. induction (keyed_for t s); [done|]. simpl in *. lia.
  - apply sbind_ok in H as (outcome & s1 & [= _ <-] & H).
    apply sbind_ok in H as (cache1 & s1 & Hloop & H).
    assert (S1 : settles t (sum_Z (map (fun kr => standing kr.2) (keyed_for t s))) s s1).
    { eapply (loop_settles _ standing); [|done|exact Hnd|exact Hall|exact Hloop].
      intros b b' key sub st st' Hst Hold Hrun.
      exact (settle_submission_settles task outcome now b b' sub key st st' Hst Hold Hrun). }
    apply sbind_ok in H as ([] & s2 & Hpart & H). apply sbind_ok in H as (row & s3 & Hup & H). injection H as _ <-.
    pose proof (settles_steady [_miners] t _ s1 (touches_participation settings task (map snd (keyed_for t s)) now)
                  ltac:(not_in) (steady_participation _ _ _ _) (settles_sound _ _ _ _ S1)) as S2.
    rewrite Hpart in S2.
    eapply settles_add; [eapply settles_trans; [eapply settles_trans; [exact S1|exact S2]|]|].
    + eapply settles_upsert; [apply S2|done].
    + lia.
Qed.

(** A row stands under its own id in the table of tasks. *)
Definition tasks_ok (s : FakeRepository) : Prop :=
  NoDup (akeys (tab _tasks s)) /\
  forall id task, aget id (tab _tasks s) = Some task -> aget "task_run_id" task = Some (VStr id).

Definition task_id_of (task : dict) : value := dget task "task_run_id".

Lemma stood_other tp t n s s' task :
  settles t n s s' -> dget task "task_run_id" <> VStr t -> stood tp s' task = stood tp s task.
Proof.
  intros Hs Hne. unfold stood. destruct (fast_resolution tp task) as [r|]; [|done].
  destruct (aget "task_run_id" task) as [[| | | |t'| | |]|] eqn:E; try done. destruct (unresolved _ _); [done|].
  rewrite (settles_other _ _ _ _ Hs); [done|]. intros ->. by rewrite (dget_some _ _ _ E) in Hne.
Qed.

Lemma settle_tasks_settle tp now tasks : forall cache cache' s s',
  sound s -> NoDup (map task_id_of tasks) ->
  Forall (fun task => exists t, aget "task_run_id" task = Some (VStr t)) tasks ->
  foldS (settle_fast_task tp settings now) tasks cache s = (Ok cache', s') ->
  gap s' = gap s + sum_Z (map (stood tp s) tasks) /\ sound s'.
Proof.
  induction tasks as [|task tasks IH]; intros cache cache' s s' Hs Hnd Hall H.
  { injection H as _ <-. simpl. split; [lia|done]. }
  inversion Hall as [|? ? (t & Ht) Hall']; subst. inversion Hnd as [|? ? Hni Hnd']; subst.
  apply sbind_ok in H as (cache1 & s1 & H1 & H).
  pose proof (settle_fast_task_settles _ _ _ _ _ _ _ _ Hs Ht H1) as S1.
  destruct (IH cache1 cache' s1 s') as [Hgap Hs']; [apply S1|done|done|done|split; [|done]].
  rewrite Hgap, (settles_gap _ _ _ _ S1). simpl.
  assert (map (stood tp s1) tasks = map (stood tp s) tasks) as ->; [|lia].
  apply map_ext_in. intros task' Hin. apply (stood_other _ _ _ _ _ _ S1). intros E. apply Hni.
  apply list_elem_of_In, in_map_iff. exists task'. split; [|done]. unfold task_id_of. by rewrite E, (dget_some _ _ _ Ht).
Qed.

Lemma filterR_sublist {A} (f : A -> res bool) l l' : filterR f l = Ok l' -> sublist l' l.
Proof.
  revert l'. induction l as [|x l IH]; intros l' H; [by injection H as <-|].
  simpl in H. apply rbind_ok in H as (b & _ & H). apply rbind_ok in H as (ys & Hys & H).
  injection H as <-. destruct b; [by apply sublist_skip, IH|by apply sublist_cons, IH].
Qed.

(** The rows of the table have distinct ids, each its own. *)
Lemma tasks_distinct s :
  tasks_ok s ->
  NoDup (map task_id_of (avals (tab _tasks s))) /\
  forall task, In task (avals (tab _tasks s)) ->
    exists t, aget "task_run_id" task = Some (VStr t) /\ aget t (tab _tasks s) = Some task.
Proof.
  intros [Hnd Hid].
  assert (Hin : forall t task, In (t, task) (tab _tasks s) -> aget t (tab _tasks s) = Some task).
  { intros t task. by apply aget_NoDup. }
  split.
  - assert (map task_id_of (avals (tab _tasks s)) = map VStr (akeys (tab _tasks s))) as ->.
    { unfold avals, akeys. rewrite !map_map. apply map_ext_in. intros [t task] H. simpl.
      unfold task_id_of. by rewrite (dget_some _ _ _ (Hid _ _ (Hin _ _ H))). }
    apply NoDup_ListNoDup, Finite.Injective_map_NoDup; [by intros x y [= ->]|]. by apply NoDup_ListNoDup.
  - intros task H. apply in_map_iff in H as ([t task'] & <- & H). exists t. simpl.
    split; [by apply Hid, Hin|by apply Hin].
Qed.

Lemma due_tasks_distinct s l now :
  tasks_ok s -> list_due_unsettled_fast_tasks now s = (Ok l, s) ->
  NoDup (map task_id_of l) /\
  Forall (fun task => exists t, aget "task_run_id" task = Some (VStr t) /\ aget t (tab _tasks s) = Some task) l.
Proof.
  intros Hok H. unfold list_due_unsettled_fast_tasks, all_rows in H.
  rewrite (sbind_run _ _ s (avals (tab _tasks s)) s) in H by done. injection H as H.
  pose proof (filterR_sublist _ _ _ H) as Hsub. destruct (tasks_distinct s Hok) as [Hnd Hall]. split.
  - eapply sublist_NoDup; [exact Hnd|]. exact (fmap_sublist task_id_of _ _ Hsub).
  - apply Forall_forall. intros task Hin. apply Hall. apply list_elem_of_In.
    exact (sublist_subseteq _ _ Hsub _ Hin).
Qed.

(** The tasks that a run settles. *)
Definition due (now : Z) (s : FakeRepository) (t : string) : Prop :=
  exists task, aget t (tab _tasks s) = Some task /\ is_due_fast_task (iso_format now) task = Ok true.

Lemma filterR_in {A} (f : A -> res bool) l l' x : filterR f l = Ok l' -> In x l' -> f x = Ok true.
Proof.
  revert l'. induction l as [|y l IH]; intros l' H Hin; simpl in H; [by injection H as <-|].
  apply rbind_ok in H as (b & Hb & H). apply rbind_ok in H as (ys & Hys & H). injection H as <-.
  destruct b; [destruct Hin as [<-|Hin]; [done|]|]; by eapply IH.
Qed.

(** The tasks that are due, as the query lists them. *)
Definition due_tasks (now : Z) (s : FakeRepository) : list dict :=
  match filterR (is_due_fast_task (iso_format now)) (avals (tab _tasks s)) with Ok l => l | Err _ => [] end.

(** What had been earned before on the submissions that a run settles. *)
Definition earned_before (tp : option TaskProvider) (now : Z) (s : FakeRepository) : Z :=
  sum_Z (map (stood tp s) (due_tasks now s)).

Lemma run_settles tp now s s' :
  sound s -> tasks_ok s ->
  _settle_due_tasks tp settings now s = (Ok tt, s') -> gap s' = gap s + earned_before tp now s /\ sound s'.
Proof.
  intros Hs Htasks H. unfold _settle_due_tasks in H. apply sbind_ok in H as (l & s1 & Hl & H).
  assert (s1 = s) as -> by (unfold list_due_unsettled_fast_tasks, all_rows, sbind, sgets, slift in Hl; by injection Hl).
  apply sbind_ok in H as (cache & s1 & Hloop & H). injection H as <-.
  destruct (due_tasks_distinct s l _ Htasks Hl) as [Hnd Hall].
  assert (due_tasks now s = l) as Hdue.
  { unfold list_due_unsettled_fast_tasks, all_rows in Hl.
    rewrite (sbind_run _ _ s (avals (tab _tasks s)) s) in Hl by done. injection Hl as Hl. unfold due_tasks. by rewrite Hl. }
  unfold earned_before. rewrite Hdue.
  apply (settle_tasks_settle tp now l [] cache s s1); [done|done| |done].
  rewrite Forall_forall in Hall |- *. intros task Hin. destruct (Hall _ Hin) as (t & Ht & _). by exists t.
Qed.
End Runs.

(** ** Theorems *)

(** Settling one revealed submission books its reward: the miner's balance
    grows by the released part and its held rewards by the held part, the two
    parts add up to the reward on the submission, a hold entry is opened for a
    held part, and no other account and no task changes. *)
Theorem settle_submission_books_reward settings task outcome now s cache cache' sub key s' :
  protocol_ok settings s -> accounts_ok s -> aget key (_submissions s) = Some sub -> is_revealed sub = true ->
  settle_fast_submission settings task outcome now cache sub s = (Ok cache', s') ->
  exists released held, booked s key sub released held s'.
Proof.
  intros Hok Ha Hold Hrev. apply (settle_submission_books settings); [done|done| |by apply (ok_requests _ _ Hok)|done].
  by apply (stored_annotates settings s key).
Qed.

(** The books of a successful run of the settlement, whatever the resolutions of
    the due tasks: the accounts of all miners together grow by what the rewards
    of the submissions grow, and by what the submissions that it settles again
    had earned before. *)
Lemma settlement_balances settings tp now s s' :
  protocol_ok settings s -> accounts_ok s -> tasks_ok s ->
  _settle_due_tasks tp settings now s = (Ok tt, s') ->
  ledger s' - ledger s = rewarded s' - rewarded s + earned_before tp now s.
Proof.
  intros Hs Ha Ht H. destruct (run_settles settings tp now s s') as [Hgap _]; [by split|done|done|].
  unfold gap in Hgap. lia.
Qed.

(** ** A run with one revealed forecast, settled *)

Definition demo_provider : TaskProvider := {|
  provider_accepts_publish_at := true;
  provider_accepts_generated_at := true;
  provider_build_fast_task := fun now settings asset publish_at generated_at =>
    build_fast_task now settings asset publish_at generated_at;
  provider_resolve_fast_task := fun _ => Ok [("outcome", VInt 1)];
  provider_resolve_daily_task := None
|}.

Definition demo_settle (s : FakeRepository) : res unit * FakeRepository :=
  _settle_due_tasks (Some demo_provider) default_settings 900000000 s.
Definition demo_single : FakeRepository := demo_reveal "m1" demo_committed.
Definition demo_settled : FakeRepository := (demo_settle demo_single).2.

Lemma demo_single_ok : protocol_ok default_settings demo_single.
Proof. apply demo_reveal_ok, demo_committed_ok. Qed.

Lemma accounts_check s :
  forallb (fun kv => forallb (fun k => is_int (dget kv.2 k)) account_fields) (tab _miners s) = true -> accounts_ok s.
Proof.
  intros H a row Hrow k Hk. rewrite forallb_forall in H. apply aget_In in Hrow. specialize (H _ Hrow).
  rewrite forallb_forall in H. by apply H.
Qed.

Lemma tasks_check s :
  bool_decide (NoDup (akeys (tab _tasks s))) &&
  forallb (fun kv => match aget "task_run_id" kv.2 with Some (VStr id) => String.eqb id kv.1 | _ => false end)
    (tab _tasks s) = true -> tasks_ok s.
Proof.
  rewrite andb_true_iff, bool_decide_eq_true, forallb_forall. intros [Hnd H]. split; [done|].
  intros id task Hin%aget_In. specialize (H _ Hin). simpl in H.
  destruct (aget "task_run_id" task) as [[| | | |id'| | |]|]; try done. by apply String.eqb_eq in H as ->.
Qed.

Example demo_rewards :
  (demo_settle demo_single).1 = Ok tt /\
  account "m1" demo_settled = Some (21551, 86205) /\ account "m2" demo_settled = Some (0, 0).
Proof. vm_compute. done. Qed.

(** A run that stops between its last submission and the row of the task leaves
    the submissions paid and the task due: the next run pays them again. *)
Definition demo_stopped : FakeRepository := set_tab _tasks [("t"%string, demo_task)] demo_settled.

Example settled_again :
  (demo_settle demo_stopped).1 = Ok tt /\
  earned_before (Some demo_provider) 900000000 demo_stopped = 107756 /\
  rewarded (demo_settle demo_stopped).2 = rewarded demo_stopped /\
  account "m1" demo_stopped = Some (21551, 86205) /\ account "m1" (demo_settle demo_stopped).2 = Some (43102, 172410).
Proof. vm_compute. done. Qed.

Lemma settle_submission_books_reward_witness :
  exists sub cache s', settle_fast_submission default_settings demo_task 1 900000000 [] sub demo_single = (Ok cache, s') /\
    exists released held, booked demo_single ("t", "m1") sub released held s'.
Proof.
  destruct (aget ("t", "m1") (_submissions demo_single)) as [sub|] eqn:Esub; [|vm_compute in Esub; discriminate Esub].
  destruct (settle_fast_submission default_settings demo_task 1 900000000 [] sub demo_single) as [[cache|e] s'] eqn:E.
  2: { exfalso. vm_compute in Esub. injection Esub as <-. vm_compute in E. discriminate E. }
  exists sub, cache, s'. split; [exact E|].
  apply (settle_submission_books_reward default_settings demo_task 1 900000000 demo_single [] cache sub ("t", "m1") s').
  - apply demo_single_ok.
  - apply accounts_check. vm_compute. reflexivity.
  - exact Esub.
  - vm_compute in Esub. injection Esub as <-. vm_compute. reflexivity.
  - exact E.
Defined.
