(* ===== verification/Holds.v ===== *)
(** * The release of held rewards

    [_release_matured_holds] moves the rewards held for a mature miner to its
    balance.  The invariant is that what is held for a miner is backed by its
    open hold entries. *)
From Stdlib Require Import ZArith Lia String Permutation SpecFloat.
From stdpp Require Import base list strings.
From S2P Require Import Prelude PyText PyFloat PyTime PyValue Repository RepositoryFacts.
From S2P Require Import Forecast Economic Miners Submissions Settlement Footprint Protocol Accounting.
Open Scope Z_scope.

(** What a hold entry still holds. *)
Definition remaining (entry : dict) : Z := amount "amount_held" entry - amount "amount_released" entry.

Definition open_hold_of (address : string) (entry : dict) : bool :=
  field_is "state" "held" entry && field_is "miner_address" address entry.

Definition held_part (address : string) (entry : dict) : Z :=
  if open_hold_of address entry then remaining entry else 0.

(** The sum of the open hold entries of a miner. *)
Definition held_sum (address : string) (s : FakeRepository) : Z :=
  total_of (held_part address) (tab _hold_entries s).

(** A hold entry stands under its id; its amounts are integers and it never
    released more than it held. *)
Record hold_ok (id : string) (entry : dict) : Prop := {
  hold_id : aget "id" entry = Some (VStr id);
  hold_nodup : NoDup (akeys entry);
  hold_owner : exists address, aget "miner_address" entry = Some (VStr address);
  hold_held : exists n, aget "amount_held" entry = Some (VInt n);
  hold_released : exists n, aget "amount_released" entry = Some (VInt n);
  hold_positive : 0 <= remaining entry
}.

Record holds_ok (s : FakeRepository) : Prop := {
  holds_distinct : NoDup (akeys (tab _hold_entries s));
  holds_rows : forall id entry, aget id (tab _hold_entries s) = Some entry -> hold_ok id entry
}.

Definition release_updates (hold : dict) (now : Z) : dict :=
  [("amount_released", dget hold "amount_held"); ("state", VStr "released");
   ("updated_at", VStr (iso_format now))].

Definition released_row (hold : dict) (now : Z) : dict := dupdate hold (dupdate hold (release_updates hold now)).

Lemma released_field hold now k :
  NoDup (akeys hold) ->
  dget (released_row hold now) k =
  match aget k (release_updates hold now) with Some v => v | None => dget hold k end.
Proof.
  intros Hnd. unfold released_row. rewrite dget_dupdate_self; [|nodup_keys|by apply NoDup_akeys_dupdate].
  by rewrite dget_dupdate by nodup_keys.
Qed.

Lemma released_has hold now k v :
  NoDup (akeys hold) -> aget k (release_updates hold now) = None -> aget k hold = Some v ->
  aget k (released_row hold now) = Some v.
Proof.
  intros Hnd Hu Hk. unfold released_row.
  rewrite !aget_dupdate by (nodup_keys || by apply NoDup_akeys_dupdate). by rewrite Hu, Hk.
Qed.

Lemma released_ok id hold now : hold_ok id hold -> hold_ok id (released_row hold now).
Proof.
  intros [Hid Hnd (a & Ha) (h & Hh) (r & Hr) Hp].
  assert (Hheld : dget hold "amount_held" = VInt h) by (by apply dget_some).
  split.
  - by apply released_has.
  - by apply NoDup_akeys_dupdate.
  - exists a. by apply released_has.
  - exists h. by apply released_has.
  - exists h. unfold released_row.
    rewrite !aget_dupdate by (nodup_keys || by apply NoDup_akeys_dupdate). simpl. by rewrite Hheld.
  - unfold remaining, amount. rewrite !released_field by done. simpl. rewrite Hheld. lia.
Qed.

Lemma released_part address hold now : NoDup (akeys hold) -> held_part address (released_row hold now) = 0.
Proof. intros Hnd. unfold held_part, open_hold_of, field_is. by rewrite !released_field by done. Qed.

(** ** One hold entry *)

(** Only hold entries are written, and [held_sum] falls by [n] for the miner
    [address] alone. *)
Record releases (address : string) (n : Z) (s s' : FakeRepository) : Prop := {
  releases_miners : tab _miners s' = tab _miners s;
  releases_ok : holds_ok s';
  releases_own : held_sum address s' = held_sum address s - n;
  releases_others : forall other, other <> address -> held_sum other s' = held_sum other s;
  releases_open : forall id entry, aget id (tab _hold_entries s') = Some entry ->
    field_is "state" "held" entry = true -> aget id (tab _hold_entries s) = Some entry
}.

Lemma release_hold_releases address now total total' id hold s s' :
  holds_ok s -> aget id (tab _hold_entries s) = Some hold -> field_is "state" "held" hold = true ->
  release_hold (VStr address) now total hold s = (Ok total', s') ->
  releases address (total' - total) s s' /\
  total' - total = held_part address hold /\
  (forall id', id' <> id -> aget id' (tab _hold_entries s') = aget id' (tab _hold_entries s)).
Proof.
  intros Hok Hget Hstate H. pose proof (holds_rows _ Hok _ _ Hget) as Hh.
  pose proof Hh as [Hid Hnd (owner & Ho) (h & Hheld) (r & Hrel) Hpos].
  pose proof (dget_some _ _ _ Ho) as Ho'. pose proof (dget_some _ _ _ Hheld) as Hheld'.
  pose proof (dget_some _ _ _ Hrel) as Hrel'.
  unfold release_hold in H. unfold dgetitem at 1 in H. rewrite Ho in H.
  rewrite (sbind_run _ _ s (VStr owner) s) in H by done. cbn [py_eq] in H.
  assert (Hpart : held_part address hold = if (owner =? address)%string then remaining hold else 0).
  { unfold held_part, open_hold_of. rewrite Hstate. unfold field_is. by rewrite Ho'. }
  destruct (owner =? address)%string eqn:Eo; cbn [negb] in H.
  2: { injection H as -> ->. split_and!; [|lia|done]. split; [done|done|lia|done|done]. }
  apply String.eqb_eq in Eo as ->.
  assert (Hrem : hold_remaining hold = Ok (remaining hold)).
  { unfold hold_remaining, dgetitem. rewrite Hheld. cbn [of_option rbind]. unfold dget_or. rewrite Hrel. simpl.
    unfold remaining, amount. by rewrite Hheld', Hrel'. }
  rewrite Hrem in H. rewrite (sbind_run _ _ s (remaining hold) s) in H by done.
  destruct (remaining hold <=? 0) eqn:Er.
  { injection H as -> ->. assert (remaining hold = 0) by lia. split_and!; [|lia|done]. split; [done|done|lia|done|done]. }
  apply sbind_ok in H as (saved & s1 & Hs & H). injection H as <- <-.
  unfold save_hold_entry, save_row in Hs. fold (release_updates hold now) in Hs.
  rewrite (save_keyed_run _ _ _ _ id) in Hs.
  2: { rewrite aget_dupdate by nodup_keys. exact Hid. }
  unfold merged in Hs. rewrite Hget in Hs. simpl default in Hs. fold (released_row hold now) in Hs. injection Hs as _ <-.
  assert (Hsum : forall a, held_sum a (set_tab _hold_entries (aset id (released_row hold now) (tab _hold_entries s)) s)
                           = held_sum a s - held_part a hold).
  { intros a. unfold held_sum. rewrite tab_set_tab_eq, total_of_aset, Hget, released_part by done. lia. }
  split_and!; [split|lia|].
  - by apply tab_set_tab_ne.
  - split; rewrite tab_set_tab_eq; [by apply NoDup_akeys_aset, Hok|]. intros id' entry. rewrite aget_aset.
    destruct (keqb id' id) eqn:E; [|apply Hok]. apply keqb_spec in E as ->. intros [= <-]. by apply released_ok.
  - rewrite Hsum. lia.
  - intros other Hne. rewrite Hsum. unfold held_part, open_hold_of, field_is. rewrite Ho'. simpl.
    destruct (String.eqb_spec address other); [by subst|]. rewrite andb_false_r. lia.
  - intros id' entry. rewrite tab_set_tab_eq, aget_aset. destruct (keqb id' id); [|done].
    intros [= <-] Hopen. unfold field_is in Hopen. by rewrite released_field in Hopen.
  - intros id' Hne. by rewrite tab_set_tab_eq, aget_aset_ne.
Qed.

Lemma releases_refl address s : holds_ok s -> releases address 0 s s.
Proof. intros H. split; [done|done|lia|done|done]. Qed.

Lemma releases_trans address n1 n2 s1 s2 s3 :
  releases address n1 s1 s2 -> releases address n2 s2 s3 -> releases address (n1 + n2) s1 s3.
Proof.
  intros [M1 K1 O1 T1 D1] [M2 K2 O2 T2 D2]. split; [congruence|done|lia| |auto]. intros other Ho. by rewrite T2, T1.
Qed.

(** The loop over hold entries that were read before it. *)
Lemma release_loop address now kl : forall total total' s s',
  holds_ok s -> NoDup (map fst kl) ->
  Forall (fun kh => aget kh.1 (tab _hold_entries s) = Some kh.2 /\ field_is "state" "held" kh.2 = true) kl ->
  foldS (release_hold (VStr address) now) (map snd kl) total s = (Ok total', s') ->
  releases address (total' - total) s s' /\ total' - total = total_of (held_part address) kl.
Proof.
  induction kl as [|[id hold] kl IH]; intros total total' s s' Hok Hnd Hall H.
  { injection H as <- <-. rewrite Z.sub_diag. by split; [apply releases_refl|]. }
  inversion Hall as [|? ? [Hget Hst] Hall']; subst. inversion Hnd as [|? ? Hni Hnd']; subst. simpl in *.
  apply sbind_ok in H as (total1 & s1 & H1 & H).
  destruct (release_hold_releases _ _ _ _ _ _ _ _ Hok Hget Hst H1) as (R1 & E1 & Hother).
  destruct (IH total1 total' s1 s') as [R2 E2]; [apply R1|done| |done|].
  - apply Forall_forall. intros [id' hold'] Hin. rewrite Forall_forall in Hall'.
    destruct (Hall' _ Hin) as [Hg Hs]. simpl in *. split; [|done]. rewrite Hother; [done|].
    intros ->. apply Hni. apply list_elem_of_In, in_map_iff. exists (id, hold'). split; [done|by apply list_elem_of_In].
  - split; [|unfold total_of in *; simpl; lia].
    replace (total' - total) with ((total1 - total) + (total' - total1)) by lia. by eapply releases_trans.
Qed.

(** All open hold entries are due. *)
Definition all_due (now : Z) (s : FakeRepository) : Prop :=
  forall id entry, aget id (tab _hold_entries s) = Some entry -> field_is "state" "held" entry = true ->
    is_due_hold (iso_format now) entry = Ok true.

Definition keyed_holds (s : FakeRepository) : rows :=
  filter (fun kh => field_is "state" "held" kh.2 = true) (tab _hold_entries s).

Lemma due_holds_all now s :
  holds_ok s -> all_due now s ->
  list_due_hold_entries (iso_format now) s = (Ok (map snd (keyed_holds s)), s).
Proof.
  intros Hok Hdue. unfold list_due_hold_entries, all_rows.
  rewrite (sbind_run _ _ s (avals (tab _hold_entries s)) s) by done. unfold slift. f_equal.
  rewrite (filterR_pure _ (field_is "state" "held")).
  - f_equal. unfold keyed_holds, avals. induction (tab _hold_entries s) as [|[id entry] l IH]; [done|].
    cbn [fmap list_fmap snd]. rewrite (filter_cons _ entry), (filter_cons _ (id, entry)). cbn [snd].
    case_decide; cbn [map snd]; [f_equal|]; exact IH.
  - intros entry Hin. apply in_map_iff in Hin as ([id e] & <- & Hin). simpl.
    apply aget_NoDup in Hin; [|apply Hok]. destruct (field_is "state" "held" e) eqn:E; [by apply (Hdue id)|].
    unfold is_due_hold. by rewrite E.
Qed.

Lemma held_sum_keyed address s : total_of (held_part address) (keyed_holds s) = held_sum address s.
Proof.
  unfold held_sum, keyed_holds. induction (tab _hold_entries s) as [|[id entry] l IH]; [done|].
  rewrite (filter_cons _ (id, entry)). unfold total_of in *. cbn [snd].
  assert (E : held_part address entry = if field_is "state" "held" entry then held_part address entry else 0).
  { unfold held_part, open_hold_of. by destruct (field_is "state" "held" entry). }
  case_decide as Hd; cbn [map sum_Z foldr snd].
  - f_equal. exact IH.
  - apply not_true_is_false in Hd. rewrite Hd in E. rewrite E. exact IH.
Qed.

Lemma keyed_holds_loop s :
  holds_ok s ->
  NoDup (map fst (keyed_holds s)) /\
  Forall (fun kh => aget kh.1 (tab _hold_entries s) = Some kh.2 /\ field_is "state" "held" kh.2 = true) (keyed_holds s).
Proof.
  intros Hok. split; [apply NoDup_akeys_filter, Hok|]. apply Forall_forall. intros [id entry] Hin.
  apply list_elem_of_filter in Hin as [Hst Hin]. split; [|done]. simpl. apply aget_NoDup; [apply Hok|].
  by apply list_elem_of_In.
Qed.

(** ** One miner *)

(** What is held for a miner is the sum of its open hold entries. *)
Definition backed (s : FakeRepository) (address : string) : Prop :=
  forall t h, account address s = Some (t, h) -> h = held_sum address s.

(** The state that the release runs in. *)
Record release_ready (now : Z) (s : FakeRepository) : Prop := {
  ready_accounts : accounts_ok s;
  ready_holds : holds_ok s;
  ready_due : all_due now s;
  ready_backed : forall address, backed s address
}.

Definition worth (a : Z * Z) : Z := a.1 + a.2.

(** What the release for one miner does. *)
Record released_for (now : Z) (address : string) (mature : bool) (s s' : FakeRepository) : Prop := {
  for_ready : release_ready now s';
  for_own : forall t h, account address s = Some (t, h) ->
    account address s' = Some (if mature then (t + h, 0) else (t, h));
  for_others : forall other, other <> address -> aget other (tab _miners s') = aget other (tab _miners s)
}.

Lemma aget_account address s row :
  aget address (tab _miners s) = Some row ->
  account address s = Some (amount "total_rewards" row, amount "held_rewards" row).
Proof. intros H. unfold account. by rewrite H. Qed.

Lemma account_row a s s' : aget a (tab _miners s') = aget a (tab _miners s) -> account a s' = account a s.
Proof. intros H. unfold account. by rewrite H. Qed.

Lemma held_nonneg address s : holds_ok s -> 0 <= held_sum address s.
Proof.
  intros Hok. unfold held_sum, total_of. apply sum_Z_nonneg. apply Forall_forall. intros x Hin.
  apply list_elem_of_In, in_map_iff in Hin as ([id entry] & <- & Hin). simpl.
  unfold held_part. destruct (open_hold_of address entry); [|lia].
  apply aget_NoDup in Hin; [|apply Hok]. apply (hold_positive id), (holds_rows _ Hok _ _ Hin).
Qed.

Lemma update_settlement_accounts address u a b c d e f g s :
  same_accounts s (update_miner_forecast_settlement address u VNone VNone a b c d e s).2 /\
  (forall other, other <> address ->
     aget other (tab _miners (update_miner_forecast_settlement address u f g a b c d e s).2) = aget other (tab _miners s)).
Proof.
  split.
  - unfold update_miner_forecast_settlement. set (l := [_; _; _; _; _; _; _]). fold (stamped u l).
    apply update_miner_same_accounts; [apply NoDup_stamped; nodup_keys|].
    intros k Hk. rewrite aget_stamped; [|nodup_keys|]; destruct Hk as [<-|[<-|[]]]; done.
  - intros other Hne. unfold update_miner_forecast_settlement.
    match goal with |- context [update_miner _ ?x _] => set (up := x) end.
    destruct (update_miner_cases address up s) as [(err & ->)|(row & _ & ->)]; [done|].
    cbn [snd]. by rewrite tab_set_tab_eq, aget_aset_ne.
Qed.

Lemma pay_out_account address miner amount_ held now s s' t h :
  aget address (tab _miners s) = Some miner -> dget miner "total_rewards" = VInt t ->
  amount "held_rewards" miner = h ->
  pay_out address miner amount_ held now s = (Ok tt, s') ->
  account address s' = Some (t + amount_, held) /\
  (forall other, other <> address -> aget other (tab _miners s') = aget other (tab _miners s)) /\
  (accounts_ok s -> accounts_ok s') /\ tab _hold_entries s' = tab _hold_entries s.
Proof.
  intros Hm Ht Hh H. unfold pay_out in H.
  assert (E : dgetitem miner "total_rewards" = Ok (VInt t)).
  { unfold dget, dget_or in Ht. unfold dgetitem. destruct (aget "total_rewards" miner); [by subst|done]. }
  rewrite E in H. rewrite (sbind_run _ _ s (VInt t) s) in H by done.
  rewrite (sbind_run _ _ s (VInt (t + amount_)) s) in H by done.
  apply sbind_ok in H as (saved & s1 & Hs & H). injection H as <-.
  destruct (settlement_update _ _ _ _ _ _ _ _ _ _ _ _ _ Hm Hs) as (H1 & _ & _ & H4 & [H5 _]).
  split_and!; [done| |done|apply H5; not_in]. intros other Hne.
  pose proof (proj2 (update_settlement_accounts address (VTime now) VNone VNone VNone VNone (VStr "mature")
                       (VInt (t + amount_)) (VInt held) s) other Hne) as Hother.
  by rewrite Hs in Hother.
Qed.

Lemma set_admission_account address miner state now s s' :
  set_admission address miner state now s = (Ok tt, s') ->
  same_accounts s s' /\
  (forall other, other <> address -> aget other (tab _miners s') = aget other (tab _miners s)) /\
  tab _hold_entries s' = tab _hold_entries s.
Proof.
  unfold set_admission. destruct (field_is _ _ _); [by intros [= <-]|]. intros H.
  apply sbind_ok in H as (saved & s1 & Hs & H). injection H as <-.
  pose proof (update_settlement_accounts address (VTime now) VNone VNone VNone VNone (VStr state) VNone VNone s) as [H1 H2].
  rewrite Hs in H1, H2. split_and!; [done|done|].
  pose proof (touches_update_miner [_miners] false address
    (("updated_at", VTime now) :: given [("total_rewards", VNone); ("held_rewards", VNone); ("settled_tasks", VNone);
       ("correct_direction_count", VNone); ("edge_score_total", VNone); ("model_reliability", VNone);
       ("admission_state", VStr state)]) ltac:(simpl; tauto) s) as [Ht _].
  unfold update_miner_forecast_settlement in Hs. rewrite Hs in Ht. apply Ht. not_in.
Qed.

Lemma ready_same now s s' :
  release_ready now s -> accounts_ok s' -> tab _hold_entries s' = tab _hold_entries s ->
  (forall a, backed s' a) -> release_ready now s'.
Proof.
  intros [Ha Hh Hd Hb] Ha' Ht Hb'. split; [done| |unfold all_due; by rewrite Ht|done].
  split; rewrite Ht; apply Hh.
Qed.

Lemma int_or_default row k n : dget row k = VInt n -> dget_or row k (VInt 0) = VInt n.
Proof. unfold dget, dget_or. destruct (aget k row); [by intros ->|done]. Qed.

Lemma release_miner_for settings now address row s s' :
  release_ready now s -> aget address (tab _miners s) = Some row -> aget "address" row = Some (VStr address) ->
  release_miner settings now row s = (Ok tt, s') ->
  exists state, _admission_state settings row now = Ok state /\
    released_for now address (String.eqb state "mature") s s'.
Proof.
  intros Hready Hrow Haddr H. pose proof Hready as [Ha Hh Hd Hb]. unfold release_miner in H.
  apply sbind_ok in H as (state & s1 & [= Hstate <-] & H). exists state. split; [done|].
  pose proof (Ha _ _ Hrow "total_rewards" ltac:(simpl; tauto)) as Ht.
  pose proof (Ha _ _ Hrow "held_rewards" ltac:(simpl; tauto)) as Hheld.
  destruct (dget row "total_rewards") as [| |t| | | | |] eqn:Et; try done.
  destruct (dget row "held_rewards") as [| |h| | | | |] eqn:Eh; try done.
  assert (Hacc : account address s = Some (t, h)).
  { rewrite (aget_account _ _ _ Hrow). unfold amount. by rewrite Et, Eh. }
  pose proof (Hb address t h Hacc) as Hsum. pose proof (held_nonneg address s Hh) as Hpos.
  rewrite (int_or_default _ _ _ Eh) in H. rewrite (sbind_run _ _ s h s) in H by done.
  rewrite (sbind_run _ _ s (VStr address) s) in H by (unfold dgetitem; by rewrite Haddr).
  rewrite (sbind_run _ _ s address s) in H by done.
  assert (Hsame : forall x s0, tab _miners s0 = tab _miners s -> holds_ok s0 -> all_due now s0 ->
            (forall a, held_sum a s0 = held_sum a s) -> set_admission address row x now s0 = (Ok tt, s') ->
            release_ready now s' /\ account address s' = Some (t, h) /\
            forall other, other <> address -> aget other (tab _miners s') = aget other (tab _miners s)).
  { intros x s0 Hm0 Hok0 Hd0 Hsum0 Hx. apply set_admission_account in Hx as ([_ Hok Hall] & Hother & Hholds).
    assert (Hacc0 : forall a, account a s' = account a s) by (intros a; rewrite Hall; unfold account; by rewrite Hm0).
    split_and!; [split| |].
    - apply Hok. intros a r Hr. rewrite Hm0 in Hr. by apply (Ha a).
    - split; rewrite Hholds; apply Hok0.
    - intros id entry. rewrite Hholds. apply Hd0.
    - intros a t' h' Hacc'. rewrite Hacc0 in Hacc'. unfold held_sum at 1. rewrite Hholds. fold (held_sum a s0).
      rewrite Hsum0. by apply (Hb a t').
    - by rewrite Hacc0.
    - intros other Hne. by rewrite Hother, Hm0. }
  destruct (state =? "mature")%string.
  2: { destruct (Hsame state s) as (H1 & H2 & H3); [done..|]. split; [done| |done]. intros t' h'. by rewrite H2, Hacc. }
  rewrite (sbind_run _ _ _ _ _ (due_holds_all now s Hh Hd)) in H.
  destruct (keyed_holds_loop s Hh) as [Hnd Hall].
  apply sbind_ok in H as (released & s1 & Hloop & H).
  destruct (release_loop address now (keyed_holds s) 0 released s s1 Hh Hnd Hall Hloop) as [[Hm Hok1 Hown Hothers Hopen] Hrel].
  rewrite held_sum_keyed, Z.sub_0_r in Hrel. rewrite Z.sub_0_r in Hown.
  destruct (0 <? released) eqn:Er.
  - destruct (pay_out_account address row released (Z.max 0 (h - released)) now s1 s' t h) as (H1 & H2 & H3 & H4);
      [by rewrite Hm|done|unfold amount; by rewrite Eh|done|].
    assert (Hheld' : forall a, held_sum a s' = held_sum a s1) by (intros a; unfold held_sum; by rewrite H4).
    split; [|intros t' h' Hx; rewrite H1; simplify_eq; do 2 f_equal; lia|intros other Hne; by rewrite H2, Hm].
    split.
    + apply H3. intros a r Hr. rewrite Hm in Hr. by apply (Ha a).
    + split; rewrite H4; apply Hok1.
    + intros id entry Hid Hst. rewrite H4 in Hid. by apply (Hd id); [apply Hopen|].
    + intros a t' h' Hacc'. rewrite Hheld'. destruct (decide (a = address)) as [->|Hne].
      * rewrite H1 in Hacc'. injection Hacc' as <- <-. lia.
      * rewrite (account_row a s s') in Hacc' by (by rewrite H2, Hm). rewrite Hothers by done. by apply (Hb a t').
  - assert (Hzero : h = 0) by lia. rewrite Hzero in H. simpl in H.
    destruct (Hsame "mature" s1) as (H1 & H2 & H3); [done|done| | |done|].
    { intros id entry Hid Hst. by apply (Hd id); [apply Hopen|]. }
    { intros a. destruct (decide (a = address)) as [->|Hne]; [|by apply Hothers]. lia. }
    split; [done| |done]. intros t' h' Hx. rewrite H2. simplify_eq. do 2 f_equal; lia.
Qed.

(** ** The run *)

(** A miner stands under its own address in the table of miners. *)
Definition miners_ok (s : FakeRepository) : Prop :=
  NoDup (akeys (tab _miners s)) /\
  forall address row, aget address (tab _miners s) = Some row -> aget "address" row = Some (VStr address).

(** What the run did for the listed miners. *)
Definition all_released (settings : ForecastSettings) (now : Z) (listed : rows) (s s' : FakeRepository) : Prop :=
  release_ready now s' /\
  (forall address row, In (address, row) listed -> exists state, _admission_state settings row now = Ok state /\
     forall t h, account address s = Some (t, h) ->
       account address s' = Some (if String.eqb state "mature" then (t + h, 0) else (t, h))) /\
  (forall other, ~ In other (akeys listed) -> aget other (tab _miners s') = aget other (tab _miners s)).

Lemma release_all settings now listed : forall s s',
  release_ready now s -> NoDup (akeys listed) ->
  Forall (fun ar => aget ar.1 (tab _miners s) = Some ar.2 /\ aget "address" ar.2 = Some (VStr ar.1)) listed ->
  forS (release_miner settings now) (map snd listed) s = (Ok tt, s') ->
  all_released settings now listed s s'.
Proof.
  induction listed as [|[address row] listed IH]; intros s s' Hs Hnd Hall H.
  { injection H as <-. split_and!; [done|by intros ? ? []|done]. }
  inversion Hall as [|? ? [Hrow Haddr] Hall']; subst. inversion Hnd as [|? ? Hni Hnd']; subst. simpl in *.
  apply sbind_ok in H as ([] & s1 & H1 & H).
  destruct (release_miner_for _ _ _ _ _ _ Hs Hrow Haddr H1) as (state & Hstate & [Hs1 Hown Hothers]).
  assert (Hne : forall a r, In (a, r) listed -> a <> address).
  { intros a r Hin ->. apply Hni. apply list_elem_of_In, in_map_iff. by exists (address, r). }
  destruct (IH s1 s') as (Hs' & Hl & Ho); [done|done| |done|].
  - apply Forall_forall. intros [a r] Hin. rewrite Forall_forall in Hall'. destruct (Hall' _ Hin) as [Hg Had].
    split; [|done]. simpl in *. rewrite Hothers; [done|]. apply (Hne a r). by apply list_elem_of_In.
  - split_and!; [done| |].
    + intros a r [[= <- <-]|Hin].
      * exists state. split; [done|]. intros t h Hacc. rewrite (account_row _ s1); [by apply Hown|].
        apply Ho. intros Hin. apply Hni. by apply list_elem_of_In.
      * destruct (Hl a r Hin) as (st & Hst & Hacc'). exists st. split; [done|]. intros t h Hacc. apply Hacc'.
        rewrite <- Hacc. apply account_row, Hothers. by apply (Hne a r).
    + intros other Hnin. rewrite Ho, Hothers; [done| |]; intros Hin; apply Hnin; [by left|by right].
Qed.


Lemma miners_check s :
  bool_decide (NoDup (akeys (tab _miners s))) &&
  forallb (fun kv => match aget "address" kv.2 with Some (VStr a) => String.eqb a kv.1 | _ => false end)
    (tab _miners s) = true -> miners_ok s.
Proof.
  rewrite andb_true_iff, bool_decide_eq_true, forallb_forall. intros [Hnd H]. split; [done|].
  intros a row Hin%aget_In. specialize (H _ Hin). simpl in H.
  destruct (aget "address" row) as [[| | | |a'| | |]|]; try done. by apply String.eqb_eq in H as ->.
Qed.

(** The settled run, a week later: the miner is mature. *)
Definition demo_later : Z := 8 * day.

Definition demo_hold : dict :=
  hold_entry (VStr "sub:t:m1") (VStr "m1") (VStr "t") "hold:sub:t:m1" 86205 900000000.

Lemma demo_holds : tab _hold_entries demo_settled = [("hold:sub:t:m1", demo_hold)].
Proof. vm_compute. reflexivity. Qed.

Definition accounts (s : FakeRepository) : list (string * (Z * Z)) :=
  map (fun kv => (kv.1, (amount "total_rewards" kv.2, amount "held_rewards" kv.2))) (tab _miners s).

Lemma account_accounts a s : account a s = aget a (accounts s).
Proof.
  unfold account, accounts. induction (tab _miners s) as [|[k row] l IH]; [done|]. simpl.
  by destruct (a =? k)%string.
Qed.

Lemma demo_accounts : accounts demo_settled = [("m1", (21551, 86205)); ("m2", (0, 0))].
Proof. vm_compute. reflexivity. Qed.

Lemma demo_ready : release_ready demo_later demo_settled.
Proof.
  split.
  - apply accounts_check. vm_compute. reflexivity.
  - split; rewrite demo_holds; [repeat constructor; by intros ?%elem_of_nil|]. intros id entry. simpl.
    destruct (String.eqb_spec id "hold:sub:t:m1") as [->|]; [|done]. intros [= <-].
    split; [done|nodup_keys|by eexists|by eexists|by eexists|vm_compute; discriminate].
  - intros id entry. rewrite demo_holds. simpl. destruct (id =? _)%string; [|done]. intros [= <-] _. vm_compute. reflexivity.
  - intros a t h. rewrite account_accounts, demo_accounts. unfold held_sum, total_of. rewrite demo_holds. simpl.
    destruct (String.eqb_spec a "m1") as [->|Hne]; [by intros [= <- <-]|].
    unfold held_part, open_hold_of, field_is. simpl.
    destruct (String.eqb_spec a "m2") as [->|]; [by intros [= <- <-]|done].
Qed.

