(* ===== verification/Settled.v ===== *)
(** * The queue of due tasks

    A task that a run resolves leaves the queue of due tasks for good; one that
    could not be resolved stays in it and pays nothing.  So no submission is
    paid twice, however often the settlement runs. *)
From Stdlib Require Import ZArith Lia String Permutation SpecFloat.
From stdpp Require Import base list strings.
From S2P Require Import Prelude PyText PyFloat PyTime PyValue Repository RepositoryFacts.
From S2P Require Import Forecast Economic Miners Submissions Settlement Footprint Protocol Accounting.
Open Scope Z_scope.

Lemma touches_save_submission_in W sub : In _request_index W -> touches W true (save_submission sub).
Proof.
  intros H. apply (touches_weaken [_request_index] _ true); [apply touches_save_submission|by intros ? [<-|[]]|done].
Qed.
#[export] Hint Extern 1 (touches _ true (save_submission _)) =>
  (apply touches_save_submission_in; simpl; tauto) : footprint.

(** What the settlement of a task writes besides the task. *)
Definition settlement_tables : list table := [_miners; _hold_entries; _request_index].

Lemma touches_mark_pending now sub : touches settlement_tables true (mark_pending now sub).
Proof. unfold mark_pending, settlement_tables. footprint. Qed.

Lemma touches_settle_submission settings task outcome now cache sub :
  touches settlement_tables true (settle_fast_submission settings task outcome now cache sub).
Proof.
  unfold settle_fast_submission, cached_abuse_state, _anti_abuse_state, place_hold, credit_miner, settlement_tables.
  footprint.
Qed.

(** A task after a run: resolved, or still waiting for its prices. *)
Definition task_settled (task : dict) : Prop := dget task "state" = VStr "resolved".
Definition task_waiting (task : dict) : Prop :=
  dget task "state" = VStr "awaiting_resolution" /\ dget task "outcome" = VNone.

Lemma settle_fast_task_task tp settings now cache cache' task t s s' :
  aget t (tab _tasks s) = Some task -> aget "task_run_id" task = Some (VStr t) -> NoDup (akeys task) ->
  settle_fast_task tp settings now cache task s = (Ok cache', s') ->
  exists task', tab _tasks s' = aset t task' (tab _tasks s) /\ aget "task_run_id" task' = Some (VStr t) /\
    NoDup (akeys task') /\ (task_settled task' \/ task_waiting task').
Proof.
  intros Htask Hid Hnd H. unfold settle_fast_task in H.
  apply sbind_ok in H as (resolution & s1 & [= _ <-] & H). cbv zeta in H.
  apply sbind_ok in H as (id & s1 & [= _ <-] & H). apply sbind_ok in H as (t' & s1 & [= _ <-] & H).
  apply sbind_ok in H as (subs & s1 & [= _ <-] & H).
  assert (Hup : forall s1 s2 row start source outcome state,
    tab _tasks s1 = tab _tasks s ->
    upsert_task (dupdate task (task_resolution task resolution start source outcome state now)) s1 = (Ok row, s2) ->
    exists task', tab _tasks s2 = aset t task' (tab _tasks s) /\ aget "task_run_id" task' = Some (VStr t) /\
      NoDup (akeys task') /\ dget task' "state" = VStr state /\ dget task' "outcome" = outcome).
  { intros s1 s2 row start source outcome state Ht Hsave. set (up := task_resolution _ _ _ _ _ _ _) in Hsave.
    assert (Hup : NoDup (akeys up)) by nodup_keys.
    assert (Hid' : aget "task_run_id" (dupdate task up) = Some (VStr t)) by (rewrite aget_dupdate by done; exact Hid).
    unfold upsert_task in Hsave. rewrite (save_keyed_run _ _ _ _ t) in Hsave by done.
    unfold merged in Hsave. rewrite Ht, Htask in Hsave. simpl default in Hsave. injection Hsave as _ <-.
    exists (dupdate task (dupdate task up)). rewrite tab_set_tab_eq. split; [done|].
    assert (NoDup (akeys (dupdate task up))) by (by apply NoDup_akeys_dupdate).
    rewrite !dget_dupdate_self, !dget_dupdate by done.
    split_and!; [|by apply NoDup_akeys_dupdate|done|done]. rewrite aget_dupdate by done. by rewrite Hid'. }
  destruct (unresolved _ _).
  - apply sbind_ok in H as ([] & s1 & Hpend & H). apply sbind_ok in H as (row & s2 & Hsave & H). injection H as _ <-.
    pose proof (touches_forS settlement_tables true (mark_pending now) subs (touches_mark_pending now) s) as [Ht _].
    rewrite Hpend in Ht. cbn [snd] in Ht.
    destruct (Hup s1 s2 row _ _ _ _ (Ht _tasks ltac:(not_in)) Hsave) as (task' & ? & ? & ? & ? & ?).
    exists task'. split_and!; [done..|right]. by split.
  - apply sbind_ok in H as (outcome & s1 & [= _ <-] & H). apply sbind_ok in H as (cache1 & s1 & Hloop & H).
    apply sbind_ok in H as ([] & s2 & Hpart & H). apply sbind_ok in H as (row & s3 & Hsave & H). injection H as _ <-.
    pose proof (touches_foldS settlement_tables true (settle_fast_submission settings task outcome now) subs cache
                  (touches_settle_submission settings task outcome now) s) as [Ht1 _].
    pose proof (touches_participation settings task subs now s1) as [Ht2 _].
    rewrite Hloop in Ht1. rewrite Hpart in Ht2. cbn [snd] in Ht1, Ht2.
    destruct (Hup s2 s3 row _ _ _ _ ltac:(rewrite Ht2 by not_in; apply Ht1; not_in) Hsave) as (task' & ? & ? & ? & ? & ?).
    exists task'. split_and!; [done..|by left].
Qed.

(** The table of tasks: every row a dictionary under its own id. *)
Record tasks_wf (s : FakeRepository) : Prop := {
  wf_tasks : tasks_ok s;
  wf_rows : forall id task, aget id (tab _tasks s) = Some task -> NoDup (akeys task)
}.

Definition settled_or_waiting (s : FakeRepository) (t : string) : Prop :=
  exists task, aget t (tab _tasks s) = Some task /\ (task_settled task \/ task_waiting task).

Lemma settle_tasks_tasks tp settings now kl : forall cache cache' s s',
  tasks_wf s -> NoDup (map fst kl) ->
  Forall (fun kt => aget kt.1 (tab _tasks s) = Some kt.2) kl ->
  foldS (settle_fast_task tp settings now) (map snd kl) cache s = (Ok cache', s') ->
  tasks_wf s' /\
  (forall t, In t (map fst kl) -> settled_or_waiting s' t) /\
  (forall t, ~ In t (map fst kl) -> aget t (tab _tasks s') = aget t (tab _tasks s)).
Proof.
  induction kl as [|[t task] kl IH]; intros cache cache' s s' Hwf Hnd Hall H.
  { by injection H as _ <-. }
  inversion Hall as [|? ? Hget Hall']; subst. inversion Hnd as [|? ? Hni Hnd']; subst. simpl in *.
  apply sbind_ok in H as (cache1 & s1 & H1 & H).
  destruct (settle_fast_task_task _ _ _ _ _ _ _ _ _ Hget (proj2 (wf_tasks _ Hwf) _ _ Hget) (wf_rows _ Hwf _ _ Hget) H1)
    as (task' & Htab & Hid' & Hnd1 & Hst).
  assert (Hni' : ~ In t (map fst kl)) by (by rewrite <- list_elem_of_In).
  destruct (IH cache1 cache' s1 s') as (Hwf' & Hin & Hout); [|done| |done|split_and!; [done| |]].
  - destruct Hwf as [[Hk Hids] Hrows]. split; [split|]; rewrite Htab.
    + by apply NoDup_akeys_aset.
    + intros i r. rewrite aget_aset. destruct (keqb i t) eqn:E; [|apply Hids]. apply keqb_spec in E as ->. by intros [= <-].
    + intros i r. rewrite aget_aset. destruct (keqb i t); [|apply Hrows]. by intros [= <-].
  - apply Forall_forall. intros [t2 r2] Hin2. rewrite Forall_forall in Hall'. specialize (Hall' _ Hin2). simpl in *.
    rewrite Htab, aget_aset_ne; [done|]. intros ->. apply Hni', in_map_iff. exists (t, r2).
    split; [done|by apply list_elem_of_In].
  - intros t2 [<-|Hin2]; [|by apply Hin]. exists task'. split; [|done]. rewrite Hout, Htab by done. apply aget_aset_eq.
  - intros t2 Hnin. rewrite Hout, Htab by tauto. apply aget_aset_ne. intros ->. tauto.
Qed.

Lemma settled_not_due now task : task_settled task -> is_due_fast_task now task <> Ok true.
Proof.
  unfold task_settled, is_due_fast_task. intros H. destruct (dgetitem task "lane") as [lane|e]; [|done]. simpl.
  destruct (negb _); [done|]. by rewrite H.
Qed.

(** Filtering the rows of a table filters its entries. *)
Lemma filterR_keyed (f : dict -> res bool) (m : rows) : forall l,
  NoDup (akeys m) -> filterR f (avals m) = Ok l ->
  exists kl, l = map snd kl /\ NoDup (map fst kl) /\ (forall t row, In (t, row) kl <-> In (t, row) m /\ f row = Ok true).
Proof.
  unfold akeys, avals. induction m as [|[t row] m IH]; intros l Hnd H; simpl in H.
  { injection H as <-. exists []. split_and!; [done|constructor|naive_solver]. }
  apply rbind_ok in H as (b & Hb & H). apply rbind_ok in H as (l' & Hl' & [= <-]).
  inversion Hnd as [|? ? Hni Hnd']; subst. destruct (IH l' Hnd' Hl') as (kl & -> & Hnd2 & Hiff).
  assert (Hnot : ~ In t (map fst kl)).
  { intros Hin. apply in_map_iff in Hin as ([t2 r2] & <- & Hin). apply Hiff in Hin as [Hin _].
    apply Hni. apply list_elem_of_In, in_map_iff. by exists (t2, r2). }
  destruct b; [exists ((t, row) :: kl)|exists kl]; split_and!; try done.
  - simpl. constructor; [by rewrite list_elem_of_In|done].
  - intros t2 r2. simpl. rewrite Hiff. naive_solver.
  - intros t2 r2. simpl. rewrite Hiff. split; [naive_solver|]. intros [[[= <- <-]|Hin] Hd]; [congruence|done].
Qed.

(** The due tasks, under their ids. *)
Lemma due_tasks_keyed now s l :
  tasks_wf s -> list_due_unsettled_fast_tasks (iso_format now) s = (Ok l, s) ->
  exists kl, l = map snd kl /\ NoDup (map fst kl) /\
    Forall (fun kt => aget kt.1 (tab _tasks s) = Some kt.2) kl /\ forall t, In t (map fst kl) <-> due now s t.
Proof.
  intros [[Hnd Hid] _] H. unfold list_due_unsettled_fast_tasks, all_rows in H.
  rewrite (sbind_run _ _ s (avals (tab _tasks s)) s) in H by done. injection H as H.
  destruct (filterR_keyed _ _ _ Hnd H) as (kl & -> & Hnd' & Hiff). exists kl. split_and!; [done|done| |].
  - apply Forall_forall. intros [t task] Hin%list_elem_of_In. apply Hiff in Hin as [Hin _]. by apply aget_NoDup.
  - intros t. rewrite in_map_iff. split.
    + intros ([t2 task] & <- & Hin). apply Hiff in Hin as [Hin Hd]. exists task. split; [by apply aget_NoDup|done].
    + intros (task & Hget & Hd). exists (t, task). split; [done|]. apply Hiff. split; [by apply aget_In|done].
Qed.

(** A run leaves no due task unanswered: every task that was due is either
    resolved, and then it never is due again, or recorded as awaiting its
    prices; every other task is untouched. *)
Theorem settled_tasks_leave_the_queue tp settings now s s' t :
  tasks_wf s -> _settle_due_tasks tp settings now s = (Ok tt, s') ->
  (due now s t -> exists task, aget t (tab _tasks s') = Some task /\
     ((task_settled task /\ forall later, ~ due later s' t) \/ task_waiting task)) /\
  (~ due now s t -> aget t (tab _tasks s') = aget t (tab _tasks s)).
Proof.
  intros Hwf H. unfold _settle_due_tasks in H. apply sbind_ok in H as (l & s1 & Hl & H).
  assert (s1 = s) as -> by (unfold list_due_unsettled_fast_tasks, all_rows, sbind, sgets, slift in Hl; by injection Hl).
  apply sbind_ok in H as (cache & s1 & Hloop & [= <-]).
  destruct (due_tasks_keyed now s l Hwf Hl) as (kl & -> & Hnd & Hall & Hiff).
  destruct (settle_tasks_tasks _ _ _ _ _ _ _ _ Hwf Hnd Hall Hloop) as (Hwf' & Hin & Hout).
  split; intros Hdue; [|by apply Hout; rewrite Hiff].
  destruct (Hin t) as (task & Htask & [Hs|Hw]); [by apply Hiff| |]; exists task; split; try done; [left|by right].
  split; [done|]. intros later (task2 & Htask2 & Hd). assert (task2 = task) as -> by congruence.
  by apply (settled_not_due _ _ Hs) in Hd.
Qed.

Lemma settled_tasks_leave_the_queue_witness :
  exists task, aget "t" (tab _tasks demo_settled) = Some task /\
    ((task_settled task /\ forall later, ~ due later demo_settled "t") \/ task_waiting task).
Proof.
  apply (settled_tasks_leave_the_queue (Some demo_provider) default_settings 900000000 demo_single demo_settled "t").
  - assert (E : tab _tasks demo_single = [("t", demo_task)]) by (vm_compute; reflexivity).
    split; [apply tasks_check; vm_compute; reflexivity|]. intros id task. rewrite E. simpl.
    destruct (id =? "t")%string; [|discriminate]. intros [= <-]. nodup_keys.
  - vm_compute. reflexivity.
  - exists demo_task. split; vm_compute; reflexivity.
Defined.
