(* ===== verification/AnchorFacts.v ===== *)
(** * Facts about anchoring

    A job id is always found and is not in use; submitting links a fresh job to
    its batch; a batch is only anchored on an answer of the chain that agrees
    with every expected field of the stored batch. *)
From Stdlib Require Import ZArith Lia String.
From stdpp Require Import base list strings.
From S2P Require Import Prelude PyText PyFloat PyTime PyValue Canonical Repository RepositoryFacts.
From S2P Require Import Forecast RewardRows ChainAdapter Economic Miners Submissions Settlement Windows.
From S2P Require Import PokerWindow Service Anchors.
Open Scope Z_scope.

(** ** Job ids *)

Definition numbered (base : string) (n : Z) : string := base +:+ "_" +:+ string_of_Z n.

Lemma numbered_inj base n m : numbered base n = numbered base m -> n = m.
Proof. unfold numbered. intros H. apply (inj (String.append base)), (inj (String.append "_")) in H. by apply string_of_Z_inj. Qed.

Lemma numbered_base base n : numbered base n <> base.
Proof. unfold numbered. induction base as [|c base IH]; [done|]. intros [= H]. by apply IH. Qed.

Lemma free_job_id_free fuel jobs base : forall candidate suffix id,
  free_job_id fuel jobs base candidate suffix = Some id -> non_empty (aget id jobs) = None.
Proof.
  induction fuel as [|fuel IH]; intros candidate suffix id; cbn [free_job_id];
    (destruct (non_empty (aget candidate jobs)) eqn:E; [|by intros [= <-]]); [done|apply IH].
Qed.

(** The candidates tried so far are distinct keys of the table. *)
Lemma free_job_id_found jobs base : forall fuel taken candidate suffix,
  NoDup taken -> incl taken (akeys jobs) -> ~ In candidate taken ->
  (forall n, suffix <= n -> ~ In (numbered base n) (candidate :: taken)) ->
  (length jobs <= length taken + fuel)%nat ->
  exists id, free_job_id fuel jobs base candidate suffix = Some id.
Proof.
  induction fuel as [|fuel IH]; intros taken candidate suffix Hnd Hin Hcand Hlater Hlen; cbn [free_job_id].
  all: destruct (non_empty (aget candidate jobs)) as [row|] eqn:E; [|by eexists].
  all: assert (Hkey : In candidate (akeys jobs)) by
    (destruct (in_dec string_dec candidate (akeys jobs)) as [?|Hn]; [done|]; apply aget_None in Hn; by rewrite Hn in E).
  all: assert (Hnd' : List.NoDup (candidate :: taken)) by (constructor; [done|by apply NoDup_ListNoDup]).
  all: assert (Hle := NoDup_incl_length Hnd' (incl_cons Hkey Hin)); unfold akeys in Hle; rewrite length_map in Hle; simpl in Hle.
  - lia.
  - apply (IH (candidate :: taken)).
    + by apply NoDup_ListNoDup.
    + by apply incl_cons.
    + apply Hlater. lia.
    + intros n Hn [H|H]; [apply numbered_inj in H; lia|]. apply (Hlater n); [lia|done].
    + simpl. lia.
Qed.

Lemma fresh_job_id_ok base s :
  exists id, fresh_job_id base s = (Ok id, s) /\ non_empty (aget id (tab _anchor_jobs s)) = None.
Proof.
  destruct (free_job_id_found (tab _anchor_jobs s) base (length (tab _anchor_jobs s)) [] base 1) as [id Hid].
  - constructor.
  - intros ? [].
  - intros [].
  - intros n _ [H|[]]. by apply (numbered_base base n).
  - simpl. lia.
  - exists id. split; [|by apply free_job_id_free in Hid]. unfold fresh_job_id.
    rewrite (sbind_run _ _ s s s) by done. by rewrite Hid.
Qed.

(** The search for the id of a new anchor job always ends, within one
    candidate more than there are jobs, on an id that no job has. *)
Theorem fresh_job_id_is_free base s :
  exists id, fresh_job_id base s = (Ok id, s) /\ non_empty (aget id (tab _anchor_jobs s)) = None.
Proof. apply fresh_job_id_ok. Qed.

(** ** Submitting *)

Lemma require_some {A} (m : repo (option A)) msg a s : m s = (Ok (Some a), s) -> require m msg s = (Ok a, s).
Proof. intros H. unfold require. by rewrite (sbind_run _ _ s (Some a) s). Qed.

Lemma require_row_run t id msg row s : aget id (tab t s) = Some row -> require_row t id msg s = (Ok tt, s).
Proof. intros H. unfold require_row. rewrite (sbind_run _ _ s s s) by done. unfold ahas. by rewrite H. Qed.

Lemma save_row_run t row s id : aget "id" row = Some (VStr id) ->
  save_row t row s = (Ok (merged t id row s), set_tab t (aset id (merged t id row s) (tab t s)) s).
Proof. apply save_keyed_run. Qed.

Lemma merged_dget t id row s k v : NoDup (akeys row) -> aget k row = Some v -> dget (merged t id row s) k = v.
Proof. intros Hnd Hk. apply dget_aget. by rewrite merged_field, Hk. Qed.

Lemma merged_old t id row s k old : NoDup (akeys row) -> aget k row = None -> aget id (tab t s) = Some old ->
  dget (merged t id row s) k = dget old k.
Proof. intros Hnd Hk Ho. unfold dget, dget_or. by rewrite merged_field, Hk, Ho. Qed.

(** A batch that is ready to be submitted. *)
Definition submittable (id : string) (batch : dict) : Prop :=
  aget "id" batch = Some (VStr id) /\ dget batch "state" = VStr "anchor_ready" /\
  truthy (dget batch "anchor_payload_hash") = true /\ truthy (dget batch "anchor_payload_json") = true.

(** The job and the batch after a submission. *)
Definition linked (id job_id : string) (batch job batch' : dict) : Prop :=
  dget job "state" = VStr "anchor_submitted" /\ dget job "settlement_batch_id" = VStr id /\
  dget job "anchor_payload_hash" = dget batch "anchor_payload_hash" /\ dget job "broadcast_tx_hash" = VNone /\
  dget batch' "state" = VStr "anchor_submitted" /\ dget batch' "anchor_job_id" = VStr job_id /\
  dget batch' "canonical_root" = dget batch "canonical_root" /\
  dget batch' "anchor_payload_json" = dget batch "anchor_payload_json".

(** Submitting a ready batch always succeeds: it opens a new job that carries
    the payload hash of the batch, names that job in the batch, leaves the root
    and payload alone, and writes no other job or batch. *)
Theorem submit_links_a_fresh_job id now batch s :
  aget id (tab _settlement_batches s) = Some batch -> submittable id batch ->
  exists job_id job batch' s', submit_batch id now s = (Ok batch', s') /\
    non_empty (aget job_id (tab _anchor_jobs s)) = None /\ linked id job_id batch job batch' /\
    tab _anchor_jobs s' = aset job_id job (tab _anchor_jobs s) /\
    tab _settlement_batches s' = aset id batch' (tab _settlement_batches s) /\
    (forall t, t <> _anchor_jobs -> t <> _settlement_batches -> tab t s' = tab t s).
Proof.
  intros Hb (Hid & Hstate & Hhash & Hjson).
  destruct (fresh_job_id_ok (_build_anchor_job_id id now) s) as (job_id & Hfresh & Hfree).
  unfold submit_batch. rewrite (sbind_run _ _ s batch s)
    by (apply require_some; unfold get_settlement_batch, get_row, sgets; rewrite Hb; by destruct batch).
  unfold field_is. rewrite Hstate, Hhash, Hjson. rewrite !(sbind_run (slift (guard true _)) _ s tt s) by done.
  rewrite (sbind_run _ _ s job_id s Hfresh).
  unfold save_anchor_job.
  match goal with |- context [save_row _anchor_jobs ?r] => set (jrow := r) end.
  rewrite (sbind_run _ _ s _ _ (save_row_run _anchor_jobs jrow s job_id eq_refl)).
  set (s1 := set_tab _ _ s). unfold dgetitem. rewrite Hid. rewrite (sbind_run _ _ s1 (VStr id) s1) by done.
  rewrite (sbind_run _ _ s1 id s1) by done. unfold mark_settlement_batch_anchor_submitted, require_batch.
  assert (Hb1 : tab _settlement_batches s1 = tab _settlement_batches s) by (by apply tab_set_tab_ne).
  rewrite (sbind_run _ _ s1 tt s1) by (by apply (require_row_run _ _ _ batch); rewrite Hb1).
  unfold save_settlement_batch.
  match goal with |- context [save_row _settlement_batches ?r] => set (brow := r) end.
  rewrite (save_row_run _settlement_batches brow s1 id eq_refl).
  exists job_id, (merged _anchor_jobs job_id jrow s). eexists _, _. split; [reflexivity|]. split; [done|].
  assert (Hj : NoDup (akeys jrow)) by nodup_keys. assert (Hn : NoDup (akeys brow)) by nodup_keys.
  split.
  - unfold linked. split_and!; [apply merged_dget..|apply merged_old|apply merged_old]; first [done|by rewrite Hb1].
  - split_and!.
    + rewrite tab_set_tab_ne by done. apply tab_set_tab_eq.
    + by rewrite tab_set_tab_eq, Hb1.
    + intros t H1 H2. unfold s1. by rewrite !tab_set_tab_ne.
Qed.

(** ** Confirming *)

(** The chain vouches for a batch: it answers with an anchor that agrees with
    every expected field of the stored batch and job, or, where it is not asked
    for the anchor, with a receipt that says so. *)
Definition vouches (receipt anchor_job settlement_batch : dict) : Prop :=
  (dget receipt "query_response" = VNone /\ is_true (dget receipt "confirmed") = true) \/
  exists response anchor expected,
    dict_field receipt "query_response" = Ok response /\
    as_dict (por (dget response "anchor") (VDict response)) = Ok anchor /\
    _expected_settlement_anchor anchor_job settlement_batch = Ok expected /\
    forall k v, In (k, v) expected -> py_eq (dget anchor k) v = true.

Lemma no_mismatches anchor expected :
  anchor_mismatches anchor expected = [] -> forall k v, In (k, v) expected -> py_eq (dget anchor k) v = true.
Proof.
  unfold anchor_mismatches. intros H k v Hin. apply map_eq_nil in H.
  destruct (py_eq (dget anchor k) v) eqn:E; [done|].
  assert (Hf : In (k, v) (List.filter (fun kv => negb (py_eq (dget anchor kv.1) kv.2)) expected))
    by (apply filter_In; simpl; by rewrite E). by rewrite H in Hf.
Qed.

(** A confirmed answer has no mismatched field. *)
Lemma confirmed_answer response b r h expected receipt method answer :
  confirm_settlement_anchor_response response b r h expected receipt method = Ok answer ->
  dget answer "confirmation_status" = VStr "confirmed" ->
  exists anchor, as_dict (por (dget response "anchor") (VDict response)) = Ok anchor /\
    anchor_matches anchor b r h = true /\ anchor_mismatches anchor expected = [].
Proof.
  unfold confirm_settlement_anchor_response. intros H Hc. apply rbind_ok in H as (anchor & Ha & H).
  exists anchor. split; [done|]. destruct anchor as [|kv anchor].
  { injection H as <-. cbn in Hc. unfold missing_status in Hc. by repeat destruct (py_eq_str _ _). }
  destruct (anchor_status (kv :: anchor) b r h expected) as [status mismatches] eqn:Es.
  assert (status = "confirmed") as ->.
  { injection H as <-. by destruct expected; cbn in Hc; injection Hc as ->. }
  unfold anchor_status in Es. destruct (anchor_matches _ _ _ _); [|by destruct (negb _)].
  destruct (anchor_mismatches _ _); [done|]. by injection Es.
Qed.

(** The answer's keys, and that it carries a status. *)
Lemma answer_keys response b r h expected receipt method answer :
  confirm_settlement_anchor_response response b r h expected receipt method = Ok answer ->
  NoDup (akeys answer) /\ aget "confirmation_status" answer = Some (dget answer "confirmation_status").
Proof.
  unfold confirm_settlement_anchor_response. intros H. apply rbind_ok in H as (anchor & _ & H).
  destruct anchor as [|kv anchor]; [injection H as <-; split; [nodup_keys|done]|].
  destruct (anchor_status _ _ _ _ _) as [status mismatches].
  injection H as <-. by destruct expected; split; try nodup_keys.
Qed.

Lemma verified_receipt receipt job batch artifacts r :
  verify_receipt receipt job batch artifacts = Ok r -> dget r "confirmation_status" = VStr "confirmed" ->
  vouches receipt job batch.
Proof.
  unfold verify_receipt. intros H Hc. apply rbind_ok in H as (payload & _ & H).
  destruct (resolve_settlement_anchor_reward_rows payload artifacts) as [rows|e].
  2: { destruct e; try discriminate H. apply Ok_inj in H as <-. by rewrite dget_dupdate in Hc by nodup_keys. }
  apply rbind_ok in H as (response & Hr & H). apply rbind_ok in H as (expected & He & H).
  apply rbind_ok in H as (batch_id & _ & H). apply rbind_ok in H as (answer & Ha & H). apply Ok_inj in H as <-.
  destruct (answer_keys _ _ _ _ _ _ _ _ Ha) as [Hnd Hst].
  rewrite dget_dupdate in Hc by nodup_keys. cbn [aget keqb string_key String.eqb Ascii.eqb Bool.eqb] in Hc.
  rewrite dget_dupdate, Hst in Hc by done.
  destruct (confirmed_answer _ _ _ _ _ _ _ _ Ha Hc) as (anchor & Hanchor & _ & Hm).
  right. exists response, anchor, expected. split_and!; [done..|]. by apply no_mismatches.
Qed.

Lemma checked_receipt receipt job batch s r s' :
  check_receipt receipt job batch s = (Ok r, s') -> dget r "confirmation_status" = VStr "confirmed" ->
  s' = s /\ vouches receipt job batch.
Proof.
  unfold check_receipt. intros H Hc. destruct (field_is "confirmation_status" "confirmed" receipt) eqn:E; cbn [negb] in H.
  2: { injection H as -> <-. unfold field_is in E. by rewrite Hc in E. }
  destruct (is_none (dget receipt "query_response")) eqn:En; cbn [negb] in H.
  - destruct (is_true (dget receipt "confirmed")) eqn:Et.
    + injection H as -> <-. split; [done|]. left. split; [by destruct (dget r "query_response")|done].
    + assert (Hr : r = dupdate receipt [("confirmed", VBool false);
                      ("confirmation_status", VStr "typed_tx_accepted_state_missing")]) by (by injection H).
      rewrite Hr, dget_dupdate in Hc by nodup_keys. done.
  - apply sbind_ok in H as (id & s1 & [= _ <-] & H). apply sbind_ok in H as (artifacts & s1 & Hl & H).
    assert (s1 = s) as -> by (unfold list_artifacts_for_entity, all_rows in Hl; apply sbind_ok in Hl as (? & ? & [= _ <-] & [= _ <-]); done).
    injection H as H <-. split; [done|]. by apply (verified_receipt _ _ _ artifacts r).
Qed.

(** Only the status confirmed is read as confirmed. *)
Lemma normalize_confirmed raw : _normalize_chain_confirmation_status raw = "confirmed" -> raw = "confirmed".
Proof.
  unfold _normalize_chain_confirmation_status. destruct (String.eqb raw ""); [done|].
  unfold CHAIN_CONFIRMATION_STATUS_ALIASES. cbn [aget].
  repeat (destruct (keqb raw _) eqn:E; [apply keqb_spec in E as ->; try done|clear E]). done.
Qed.

Lemma confirmed_ending self job now s r s' :
  confirm_job self job now s = (Ok r, s') -> field_is "state" "anchored" job = false ->
  dget r "chain_confirmation_status" = VStr "confirmed" ->
  exists confirmer batch_id batch receipt,
    chain_tx_confirmer (chain self) = Some confirmer /\
    id_of job "settlement_batch_id" = Ok batch_id /\ aget batch_id (tab _settlement_batches s) = Some batch /\
    confirmer (dget job "broadcast_tx_hash") now
      (if confirmer_takes_batch_id (chain self) then Some (dget batch "id") else None) = Ok receipt /\
    vouches receipt job batch.
Proof.
  unfold confirm_job. intros H Hstate Hc. rewrite Hstate in H.
  apply sbind_ok in H as (job_id & s1 & [= _ <-] & H). cbv zeta in H.
  apply sbind_ok in H as (u1 & s1 & [= _ <-] & H).
  apply sbind_ok in H as (batch_value & s1 & Hv & H). injection Hv as Hv <-.
  apply sbind_ok in H as (confirmer & s1 & Hconf & H). injection Hconf as Hconf <-.
  apply sbind_ok in H as (batch_id & s1 & Hid & H). injection Hid as Hid <-.
  apply sbind_ok in H as (batch & s1 & Hb & H). apply sbind_ok in Hb as (found & s2 & [= <- <-] & Hb).
  destruct (non_empty _) as [b|] eqn:Eb; [|done]. injection Hb as <- <-.
  apply sbind_ok in H as (receipt & s1 & Hr & H). injection Hr as Hr <-.
  apply sbind_ok in H as (checked & s1 & Hcheck & H).
  apply sbind_ok in H as (raw & s2 & Hraw & H). injection Hraw as Hraw <-. cbv zeta in H.
  apply sbind_ok in H as (job' & s2 & _ & H). apply sbind_ok in H as (batch_value' & s3 & [= _ <-] & H).
  apply sbind_ok in H as (h & s3 & [= _ <-] & H). apply sbind_ok in H as (art & s3 & _ & H).
  apply sbind_ok in H as (saved & s4 & _ & H). injection H as <- _.
  cbn [dget dget_or aget keqb string_key String.eqb Ascii.eqb Bool.eqb] in Hc. injection Hc as Hc.
  apply normalize_confirmed in Hc as ->.
  exists confirmer, batch_id, b, receipt. split_and!.
  - by destruct (chain_tx_confirmer (chain self)); [injection Hconf as ->|].
  - unfold id_of. rewrite Hv. exact Hid.
  - destruct (aget batch_id (tab _settlement_batches s)) as [[|kv d]|]; by inversion Eb.
  - done.
  - apply (checked_receipt _ _ _ s checked s1); [done|].
    unfold por in Hraw. destruct (truthy (dget checked "confirmation_status")); [|done].
    destruct (dget checked "confirmation_status"); try done. by injection Hraw as ->.
Qed.

(** C6: A job that is not anchored yet is only reported confirmed when the
    configured chain client was asked about its own transaction and vouched for
    the batch: with an anchor that equals the stored batch and job in every
    expected field (root, payload hash, roots of windows, tasks and rows,
    amount), or, when no anchor was queried, with an explicit confirmation. *)
Theorem anchoring_needs_the_chain self job now s r s' :
  confirm_job self job now s = (Ok r, s') -> field_is "state" "anchored" job = false ->
  dget r "chain_confirmation_status" = VStr "confirmed" ->
  exists confirmer batch_id batch receipt,
    chain_tx_confirmer (chain self) = Some confirmer /\
    id_of job "settlement_batch_id" = Ok batch_id /\ aget batch_id (tab _settlement_batches s) = Some batch /\
    confirmer (dget job "broadcast_tx_hash") now
      (if confirmer_takes_batch_id (chain self) then Some (dget batch "id") else None) = Ok receipt /\
    vouches receipt job batch.
Proof. apply confirmed_ending. Qed.

(** ** Examples *)

(** The tasks of the schedule at time 0, already published and over. *)
Definition demo_schedule : rows :=
  map (fun id => (id, [("task_run_id", VStr id); ("lane", VStr "forecast_15m"); ("state", VStr "cancelled");
                     ("resolve_at", VStr (iso_format day))]))
    ["tr_fast_197001010000_btcusdt"; "tr_fast_197001010000_ethusdt"; "tr_daily_19700101_btc"; "tr_daily_19700101_eth"].

Definition demo_job : dict :=
  [("id", VStr "aj"); ("settlement_batch_id", VStr "sb"); ("state", VStr "anchor_submitted");
   ("broadcast_tx_hash", VStr "TX")].

Definition demo_ready : dict :=
  [("id", VStr "sb"); ("state", VStr "anchor_ready"); ("canonical_root", VStr "sha256:r");
   ("anchor_payload_hash", VStr "sha256:h"); ("anchor_payload_json", VDict [("lane", VStr "forecast_15m")])].

Definition demo_store (batch : dict) (jobs : rows) : FakeRepository :=
  set_tab _anchor_jobs jobs (set_tab _settlement_batches [("sb", batch)] (set_tab _tasks demo_schedule empty_repository)).

(** A chain that has the transaction TX. *)
Definition demo_chain : ChainClient :=
  {| chain_broadcaster := None; chain_typed_broadcaster := None;
     chain_tx_confirmer := Some (fun tx _ _ =>
       Ok [("confirmed", VBool (py_eq_str tx "TX")); ("confirmation_status", VStr "confirmed")]);
     confirmer_takes_batch_id := false |}.
Definition demo_service : ForecastMiningService :=
  {| settings := default_settings; task_provider := None; chain := demo_chain |}.

Lemma submit_links_a_fresh_job_witness :
  exists job_id job batch' s', submit_batch "sb" 0 (demo_store demo_ready [("aj", demo_job)]) = (Ok batch', s') /\
    linked "sb" job_id demo_ready job batch'.
Proof.
  destruct (submit_links_a_fresh_job "sb" 0 demo_ready (demo_store demo_ready [("aj", demo_job)]))
    as (job_id & job & batch' & s' & H & _ & Hl & _); [done|by repeat split|].
  exists job_id, job, batch', s'. by split.
Defined.

Definition demo_submitted : FakeRepository :=
  demo_store (dset demo_ready "state" (VStr "anchor_submitted")) [("aj", demo_job)].

Definition confirmed_and_anchored (o : res dict * FakeRepository) : Prop :=
  match o.1 with
  | Ok r => dget r "chain_confirmation_status" = VStr "confirmed" /\ dget r "anchor_job_state" = VStr "anchored"
  | Err _ => False
  end.

Lemma demo_confirms : confirmed_and_anchored (confirm_job demo_service demo_job 0 demo_submitted).
Proof. vm_compute. done. Qed.

Lemma anchoring_needs_the_chain_witness :
  exists confirmer batch_id batch receipt,
    chain_tx_confirmer (chain demo_service) = Some confirmer /\
    id_of demo_job "settlement_batch_id" = Ok batch_id /\
    aget batch_id (tab _settlement_batches demo_submitted) = Some batch /\
    confirmer (dget demo_job "broadcast_tx_hash") 0
      (if confirmer_takes_batch_id (chain demo_service) then Some (dget batch "id") else None) = Ok receipt /\
    vouches receipt demo_job batch.
Proof.
  pose proof demo_confirms as H. revert H.
  generalize (eq_refl (confirm_job demo_service demo_job 0 demo_submitted)).
  generalize (confirm_job demo_service demo_job 0 demo_submitted) at 2 3.
  intros [[r|e] s'] E H; [|destruct H]. destruct H as [H1 _].
  exact (anchoring_needs_the_chain demo_service demo_job 0 demo_submitted r s' E eq_refl H1).
Defined.

(** A broadcast does not look at the state of its job: an anchored job that is
    broadcast again counts as submitted, and can then be marked failed. *)
Lemma broadcast_reopens_anchored_job :
  match update_anchor_job_broadcast "aj" VNone VNone VNone VNone
          (demo_store demo_ready [("aj", dset demo_job "state" (VStr "anchored"))]) with
  | (Ok job, _) => dget job "state" = VStr "anchor_submitted"
  | _ => False
  end.
Proof. reflexivity. Qed.

(** Jobs that carry a text and jobs that carry a time of their last update cannot be listed together. *)
Lemma mixed_jobs_are_not_listed :
  (list_anchor_jobs (demo_store demo_ready
     [("a", dset demo_job "updated_at" (VStr (iso_format 0))); ("b", dset demo_job "updated_at" (VTime 0))])).1 =
  Err TypeError.
Proof. vm_compute. reflexivity. Qed.
