(* ===== verification/Roots.v ===== *)
(** * The published root of a settlement batch is final

    Once a batch has a canonical root, no handler of the service, reconciling
    included, changes its root, its payload or its payload hash.  [keeps m]
    says so of an operation, whether it returns or raises; it follows from the
    footprint of the operations that leave the batches alone, and from the
    states of the batches that the others write. *)
From Stdlib Require Import ZArith Lia String.
From stdpp Require Import base list strings relations.
From S2P Require Import Prelude PyText PyFloat PyTime PyValue Canonical Repository RepositoryFacts.
From S2P Require Import Forecast RewardRows ChainAdapter Economic Miners Submissions Settlement Windows.
From S2P Require Import Hud HandHistory HandStores PokerWindow Tournaments TournamentRecords Queries.
From S2P Require Import Service Anchors Footprint Protocol Settled.
Open Scope Z_scope.

(** ** Rooted batches *)

Definition batches (s : FakeRepository) : rows := tab _settlement_batches s.
Definition rooted (batch : dict) : Prop := truthy (dget batch "canonical_root") = true.
Definition root_fields : list string := ["canonical_root"; "anchor_payload_hash"].
Definition payload_fields : list string := "anchor_payload_json" :: root_fields.
Definition same_root (batch batch' : dict) : Prop := forall k, In k root_fields -> dget batch' k = dget batch k.

(** The published hash is the hash of the stored payload. *)
Definition payload_hashed (batch : dict) : Prop :=
  exists payload h, dget batch "anchor_payload_json" = VDict payload /\
    dget batch "anchor_payload_hash" = VStr h /\ _hash_payload payload = Ok h.

(** A batch is stored under its id; a rooted one is no longer open and has its payload. *)
Definition batch_ok (id : string) (batch : dict) : Prop :=
  aget "id" batch = Some (VStr id) /\
  (rooted batch -> batch_is_closed (Some batch) = true /\ payload_hashed batch).
Definition batches_ok (s : FakeRepository) : Prop :=
  forall id batch, aget id (batches s) = Some batch -> batch_ok id batch.

Definition roots_kept (s s' : FakeRepository) : Prop :=
  batches_ok s -> batches_ok s' /\
  forall id batch, aget id (batches s) = Some batch -> rooted batch ->
    exists batch', aget id (batches s') = Some batch' /\ same_root batch batch'.

Definition keeps {A} (m : repo A) : Prop := forall s, roots_kept s (m s).2.

Lemma same_root_rooted b b' : same_root b b' -> rooted b -> rooted b'.
Proof. unfold rooted. intros H. by rewrite (H "canonical_root") by (by left). Qed.

#[export] Instance roots_kept_preorder : PreOrder roots_kept.
Proof.
  split.
  - intros s Hs. split; [done|]. intros id b Hb _. by exists b.
  - intros s1 s2 s3 H12 H23 Hs. destruct (H12 Hs) as [Hs2 K12]. destruct (H23 Hs2) as [Hs3 K23].
    split; [done|]. intros id b Hb Hr. destruct (K12 _ _ Hb Hr) as (b2 & Hb2 & E2).
    destruct (K23 _ _ Hb2 (same_root_rooted _ _ E2 Hr)) as (b3 & Hb3 & E3).
    exists b3. split; [done|]. intros k Hk. by rewrite E3, E2.
Qed.

(** ** Composition *)

Lemma keeps_pure {A} (f : FakeRepository -> res A) : keeps (fun s => (f s, s)).
Proof. intros s. simpl. reflexivity. Qed.

Lemma keeps_sbind {A B} (m : repo A) (f : A -> repo B) : keeps m -> (forall a, keeps (f a)) -> keeps (sbind m f).
Proof.
  intros Hm Hf s. unfold sbind. specialize (Hm s). destruct (m s) as [[a|e] s1]; simpl in *; [|done].
  etransitivity; [exact Hm|apply Hf].
Qed.

Lemma keeps_forS {A} (f : A -> repo unit) l : (forall a, keeps (f a)) -> keeps (forS f l).
Proof. intros Hf. induction l; simpl; [apply keeps_pure|]. by apply keeps_sbind. Qed.

Lemma keeps_foldS {A B} (f : B -> A -> repo B) l acc : (forall acc a, keeps (f acc a)) -> keeps (foldS f l acc).
Proof. intros Hf. revert acc. induction l; intros acc; simpl; [apply keeps_pure|]. by apply keeps_sbind. Qed.

Lemma keeps_mapS {A B} (f : A -> repo B) l : (forall a, keeps (f a)) -> keeps (mapS f l).
Proof.
  intros Hf. induction l; simpl; [apply keeps_pure|]. apply keeps_sbind; [done|]. intros ?.
  apply keeps_sbind; [done|]. intros ?. apply keeps_pure.
Qed.

Lemma keeps_touches {A} W b (m : repo A) : touches W b m -> ~ In _settlement_batches W -> keeps m.
Proof.
  intros Hm HW s. destruct (Hm s) as [Ht _]. unfold roots_kept, batches_ok, batches. rewrite Ht by done.
  intros Hs. split; [done|]. intros id batch Hb _. by exists batch.
Qed.

(** ** Writing a batch *)

Lemma keeps_put id new s :
  (batches_ok s -> batch_ok id new) ->
  (forall old, aget id (batches s) = Some old -> rooted old -> same_root old new) ->
  roots_kept s (put_row _settlement_batches id new s).2.
Proof.
  intros Hnew Hroot Hs. rewrite put_row_run. simpl.
  assert (Ht : forall i, aget i (batches (set_tab _settlement_batches (aset id new (tab _settlement_batches s)) s)) =
                         if keqb i id then Some new else aget i (batches s)).
  { intros i. unfold batches at 1. rewrite tab_set_tab_eq. apply aget_aset. }
  split.
  - intros i b. rewrite Ht. destruct (keqb i id) eqn:E; [|apply Hs].
    apply keqb_spec in E as ->. intros [= <-]. by apply Hnew.
  - intros i b Hb Hr. rewrite Ht. destruct (keqb i id) eqn:E; [|by exists b].
    apply keqb_spec in E as ->. exists new. split; [done|by apply Hroot].
Qed.

Lemma save_batch_run id u s : aget "id" u = Some (VStr id) ->
  save_settlement_batch u s = put_row _settlement_batches id (merged _settlement_batches id u s) s.
Proof. intros Hid. unfold save_settlement_batch, save_row. by rewrite (save_keyed_run _ _ _ _ id) by (by rewrite Hid). Qed.

Lemma saved_id id u s : NoDup (akeys u) -> aget "id" u = Some (VStr id) -> aget "id" (merged _settlement_batches id u s) = Some (VStr id).
Proof. intros Hnd Hid. unfold merged. by rewrite aget_dupdate, Hid. Qed.

Lemma saved_same id u s k : NoDup (akeys u) -> aget k u = None ->
  dget (merged _settlement_batches id u s) k = dget (default [] (aget id (batches s))) k.
Proof. intros Hnd Hk. unfold merged. rewrite dget_dupdate by done. by rewrite Hk. Qed.

Lemma saved_field id u s k v : NoDup (akeys u) -> aget k u = Some v -> dget (merged _settlement_batches id u s) k = v.
Proof. intros Hnd Hk. unfold merged. rewrite dget_dupdate by done. by rewrite Hk. Qed.

(** An update that closes the batch and leaves its payload alone. *)
Lemma keeps_close id u st s :
  aget "id" u = Some (VStr id) -> NoDup (akeys u) -> aget "state" u = Some (VStr st) -> st <> "open" ->
  Forall (fun k => aget k u = None) payload_fields ->
  roots_kept s (save_settlement_batch u s).2.
Proof.
  intros Hid Hnd Hst Hopen Hu. rewrite (save_batch_run id) by done. rewrite List.Forall_forall in Hu.
  assert (Hsame : forall k, In k payload_fields ->
            dget (merged _settlement_batches id u s) k = dget (default [] (aget id (batches s))) k)
    by (intros k Hk; apply saved_same; [done|by apply Hu]).
  apply keeps_put.
  - intros Hs. split; [by apply saved_id|]. intros Hr. split.
    + unfold batch_is_closed, field_is. rewrite (saved_field _ _ _ _ _ Hnd Hst). simpl.
      by destruct (String.eqb_spec st "open").
    + unfold rooted in Hr. rewrite Hsame in Hr by (simpl; tauto).
      destruct (aget id (batches s)) as [old|] eqn:Hold; simpl in *; [|done].
      destruct (Hs _ _ Hold) as [_ Hok]. destruct (Hok Hr) as [_ (p & h & Hp & Hh & E)].
      exists p, h. by rewrite !Hsame by (simpl; tauto).
  - intros old Hold _ k Hk. rewrite Hsame by (by right). by rewrite Hold.
Qed.

(** An update of a batch that has no root and gets none. *)
Lemma keeps_unrooted id u s :
  aget "id" u = Some (VStr id) -> NoDup (akeys u) ->
  aget "canonical_root" u = None \/ aget "canonical_root" u = Some VNone ->
  (batches_ok s -> forall old, aget id (batches s) = Some old -> ~ rooted old) ->
  roots_kept s (save_settlement_batch u s).2.
Proof.
  intros Hid Hnd Hu Hold Hs. specialize (Hold Hs). rewrite (save_batch_run id) by done.
  assert (Hnew : ~ rooted (merged _settlement_batches id u s)).
  { unfold rooted. destruct Hu as [Hu|Hu]; [rewrite saved_same by done|by rewrite (saved_field _ _ _ _ _ Hnd Hu)].
    destruct (aget id (batches s)) as [old|] eqn:E; [by apply Hold|done]. }
  apply keeps_put; [|intros old E Hr; by destruct (Hold old E)|done].
  intros _. split; [by apply saved_id|done].
Qed.

(** ** The operations of the repository on batches *)

Lemma require_batch_run id s : require_batch id s = (Ok tt, s) \/ exists e, require_batch id s = (Err e, s).
Proof.
  unfold require_batch, require_row, sbind, sget. destruct (ahas _ _); [by left|by right; eexists].
Qed.

(** A save after [require_batch]. *)
Lemma keeps_required {A} id (m : repo A) s :
  roots_kept s (m s).2 -> roots_kept s ((do* require_batch id in m) s).2.
Proof.
  intros Hm. unfold sbind. destruct (require_batch_run id s) as [E|[e E]]; rewrite E; [done|]. simpl. reflexivity.
Qed.

Lemma keeps_mark_submitted id job at_ : keeps (mark_settlement_batch_anchor_submitted id job at_).
Proof. intros s. apply keeps_required. apply (keeps_close id _ "anchor_submitted"); [done|nodup_keys|done|done|by repeat constructor]. Qed.

Lemma keeps_mark_terminal id st at_ : st <> "open" -> keeps (mark_settlement_batch_terminal id (VStr st) at_).
Proof. intros Hst s. apply keeps_required. apply (keeps_close id _ st); [done|nodup_keys|done|done|by repeat constructor]. Qed.

(** The batches that were not closed when they were read are still unrooted. *)
Lemma open_unrooted s id batch :
  batches_ok s -> aget id (batches s) = Some batch -> batch_is_closed (Some batch) = false -> ~ rooted batch.
Proof. intros Hs Hb Hc Hr. destruct (Hs _ _ Hb) as [_ Hok]. destruct (Hok Hr) as [H _]. congruence. Qed.

Lemma keeps_cancel id amount at_ s :
  (batches_ok s -> forall old, aget id (batches s) = Some old -> ~ rooted old) ->
  roots_kept s (cancel_settlement_batch id amount at_ s).2.
Proof. intros H. apply keeps_required. apply (keeps_unrooted id); [done|nodup_keys|by right|done]. Qed.

Lemma keeps_sync id lane start stop windows policy tasks miners total updated created s :
  (batches_ok s -> forall old, aget id (batches s) = Some old -> ~ rooted old) ->
  roots_kept s (sync_open_settlement_batch id lane start stop windows policy tasks miners total updated created s).2.
Proof.
  intros H. unfold sync_open_settlement_batch. destruct (is_none created).
  - apply (keeps_unrooted id); [done|nodup_keys|by left|done].
  - apply (keeps_unrooted id); [done|nodup_keys|by right|done].
Qed.

Lemma keeps_mark_ready id policy schema root payload hash at_ s :
  (_hash_payload payload = Ok hash) ->
  (forall old, aget id (batches s) = Some old -> rooted old ->
     dget old "canonical_root" = VStr root /\ dget old "anchor_payload_hash" = VStr hash) ->
  roots_kept s (mark_settlement_batch_anchor_ready id policy schema (VStr root) (VDict payload) (VStr hash) at_ s).2.
Proof.
  intros Hhash Hold. apply keeps_required. cbv beta. set (u := [_; _; _; _; _; _; _; _; _]).
  assert (Hnd : NoDup (akeys u)) by nodup_keys.
  rewrite (save_batch_run id) by done. apply keeps_put.
  - intros _. split; [by apply saved_id|]. intros _. split; [|exists payload, hash].
    + unfold batch_is_closed, field_is. by rewrite (saved_field id u s "state" (VStr "anchor_ready")).
    + by rewrite (saved_field id u s "anchor_payload_json" (VDict payload)),
        (saved_field id u s "anchor_payload_hash" (VStr hash)).
  - intros old Ho Hr k Hk. destruct (Hold old Ho Hr) as [Er Eh].
    destruct Hk as [<-|[<-|[]]]; [rewrite Er|rewrite Eh]; by apply (saved_field id u s).
Qed.

(** ** The operations that write no batch *)

(** All tables but the batches and the risk cases. *)
Definition other_tables : list table :=
  [_miners; _tasks; _hold_entries; _reward_windows; _poker_mtt_budget_ledgers; _anchor_jobs; _artifacts; _arena_results;
   _request_index; _poker_mtt_corrections; _poker_mtt_tournaments; _poker_mtt_hand_events; _poker_mtt_mq_checkpoints;
   _poker_mtt_mq_conflicts; _poker_mtt_mq_dlq; _poker_mtt_hud_snapshots; _poker_mtt_hidden_eval_entries;
   _poker_mtt_rating_snapshots; _poker_mtt_multiplier_snapshots; _poker_mtt_final_rankings; _poker_mtt_results].

Abbreviation quiet m := (touches other_tables true m).
(** The operations that may open a risk case. *)
Abbreviation opens_cases m := (touches (_risk_cases :: other_tables) true m).

Lemma touches_mapS {A B} W b (f : A -> repo B) l : (forall a, touches W b (f a)) -> touches W b (mapS f l).
Proof.
  intros Hf. induction l; simpl; [by apply (touches_pure W b (fun _ => Ok []))|].
  apply touches_sbind; [done|]. intros x. apply touches_sbind; [done|]. intros y. by apply (touches_pure W b (fun _ => Ok (x :: y))).
Qed.

Lemma quiet_of {A} W b (m : repo A) : touches W b m -> incl W other_tables -> quiet m.
Proof. intros Hm HW. by apply (touches_weaken W _ b). Qed.

Ltac quiet_of l := intros; eapply quiet_of; [apply l|intros ?; simpl; tauto].

Lemma quiet_list_artifacts t id : quiet (list_artifacts_for_entity t id).
Proof. unfold list_artifacts_for_entity, all_rows. footprint. Qed.
Lemma quiet_list_windows : quiet list_reward_windows.
Proof. unfold list_reward_windows, all_rows. footprint. Qed.
Lemma quiet_list_jobs : quiet list_anchor_jobs.
Proof. unfold list_anchor_jobs, all_rows. footprint. Qed.
Lemma quiet_list_ledgers a b c d : quiet (list_poker_mtt_budget_ledgers a b c d).
Proof. unfold list_poker_mtt_budget_ledgers, all_rows. footprint. Qed.
Lemma quiet_list_results : quiet list_poker_mtt_results.
Proof. unfold list_poker_mtt_results, all_rows. footprint. Qed.
Lemma quiet_list_corrections a b : quiet (list_poker_mtt_corrections a b).
Proof. unfold list_poker_mtt_corrections, all_rows. footprint. Qed.
Lemma quiet_list_candidates a b c d : quiet (list_poker_mtt_closed_reward_window_candidates a b c d).
Proof. unfold list_poker_mtt_closed_reward_window_candidates, all_rows. footprint. Qed.
Lemma quiet_load_inputs a b c d : quiet (load_poker_mtt_reward_window_inputs a b c d).
Proof. unfold load_poker_mtt_reward_window_inputs, list_poker_mtt_results_for_reward_window, all_rows. footprint. Qed.
Lemma quiet_save_ledger l : quiet (save_poker_mtt_budget_ledger l).
Proof. unfold save_poker_mtt_budget_ledger, save_row. footprint. Qed.
Lemma quiet_save_artifacts l : quiet (save_artifacts_bulk l).
Proof. unfold save_artifacts_bulk. apply touches_mapS. footprint. Qed.
Lemma quiet_first_row l : quiet (first_row l).
Proof. unfold first_row. footprint. Qed.
Lemma quiet_row_with_id id l : quiet (row_with_id id l).
Proof. unfold row_with_id. footprint. Qed.
Lemma quiet_require_row t id msg : quiet (require_row t id msg).
Proof. unfold require_row. footprint. Qed.
#[export] Hint Resolve quiet_list_artifacts quiet_list_windows quiet_list_jobs quiet_list_ledgers quiet_list_results
  quiet_list_corrections quiet_list_candidates quiet_load_inputs quiet_save_ledger quiet_save_artifacts
  quiet_first_row quiet_row_with_id quiet_require_row : footprint.
#[export] Hint Extern 1 (touches _ _ (get_reward_window _)) => (apply touches_get_row) : footprint.
#[export] Hint Extern 1 (touches _ _ (get_settlement_batch _)) => (apply touches_get_row) : footprint.
#[export] Hint Extern 1 (touches _ _ (get_anchor_job _)) => (apply touches_get_row) : footprint.
#[export] Hint Extern 1 (touches _ _ (save_reward_window _)) => (apply touches_save_keyed; simpl; tauto) : footprint.
#[export] Hint Extern 1 (touches _ _ (save_anchor_job _)) => (apply touches_save_keyed; simpl; tauto) : footprint.
#[export] Hint Extern 1 (touches _ _ (save_artifact _)) => (apply touches_save_keyed; simpl; tauto) : footprint.
#[export] Hint Extern 2 (touches _ _ (mapS _ _)) => (apply touches_mapS; intros) : footprint.

Lemma quiet_publish self now : quiet (publish_schedule self now).
Proof. unfold publish_schedule, publish_fast_task, publish_daily_task, publish_if_absent. footprint. Qed.
Lemma quiet_settle_fast tp settings now : quiet (_settle_due_tasks tp settings now).
Proof.
  unfold _settle_due_tasks, settle_fast_task. footprint.
  - eapply touches_weaken; [apply touches_mark_pending|intros ?; simpl; tauto|done].
  - eapply touches_weaken; [apply touches_settle_submission|intros ?; simpl; tauto|done].
  - eapply touches_weaken; [apply touches_participation|intros ?; simpl; tauto|done].
Qed.
Lemma quiet_settle_daily tp settings now : quiet (_settle_due_daily_tasks tp settings now).
Proof. unfold _settle_due_daily_tasks, settle_daily_task, settle_daily_submission. footprint. Qed.
Lemma quiet_release settings now : quiet (_release_matured_holds settings now).
Proof. quiet_of touches_release_holds. Qed.
Lemma quiet_ranks : quiet _refresh_public_ranks.
Proof. quiet_of touches_public_ranks. Qed.

Lemma quiet_window_artifact w now : quiet (_upsert_reward_window_artifact w now).
Proof. unfold _upsert_reward_window_artifact. footprint. Qed.
Lemma quiet_input_row preserved acc sub : quiet (add_input_row preserved acc sub).
Proof. unfold add_input_row, fresh_input_row, unit_of_submission, cases_of_unit. footprint. Qed.
#[export] Hint Resolve quiet_window_artifact quiet_input_row : footprint.
Lemma quiet_replay_artifact w subs now : quiet (_upsert_forecast_reward_window_replay_artifact w subs now).
Proof. unfold _upsert_forecast_reward_window_replay_artifact, _build_forecast_anti_abuse_input_rows. footprint. Qed.
#[export] Hint Resolve quiet_replay_artifact : footprint.
Lemma quiet_window_task id now tasks m t : quiet (window_task id now tasks m t).
Proof. unfold window_task, window_submission. footprint. Qed.
#[export] Hint Resolve quiet_window_task : footprint.
Lemma quiet_windows now : quiet (_build_reward_windows now).
Proof. unfold _build_reward_windows, build_reward_window. footprint. Qed.

Lemma quiet_gather a : quiet (gather_window_inputs a).
Proof. unfold gather_window_inputs. footprint. Qed.
Lemma quiet_load_context id : quiet (load_window_context id).
Proof. unfold load_window_context. footprint. Qed.
Lemma quiet_existing_batch c : quiet (existing_batch_of c).
Proof. unfold existing_batch_of. footprint. Qed.
Lemma quiet_prepare settings b lane id st en p now : quiet (_prepare_poker_mtt_budget_ledger settings b lane id st en p now).
Proof. unfold _prepare_poker_mtt_budget_ledger. footprint. Qed.
Lemma quiet_store_window c w : quiet (store_window c w).
Proof. unfold store_window. footprint. Qed.
Lemma quiet_save_budget l : quiet (save_budget l).
Proof. unfold save_budget. footprint. Qed.
Lemma quiet_projection_artifact settings w now p :
  quiet (_upsert_poker_mtt_reward_window_projection_artifact settings w now p).
Proof. unfold _upsert_poker_mtt_reward_window_projection_artifact. footprint. Qed.
#[export] Hint Resolve quiet_gather quiet_load_context quiet_existing_batch quiet_prepare quiet_store_window
  quiet_save_budget quiet_projection_artifact : footprint.

Lemma quiet_link id b at_ : quiet (link_reward_window_settlement_batch id b at_).
Proof. unfold link_reward_window_settlement_batch. footprint. Qed.
Lemma quiet_anchor_artifact b now pages : quiet (_upsert_settlement_anchor_artifact b now pages).
Proof. unfold _upsert_settlement_anchor_artifact. footprint. Qed.
Lemma quiet_add_window p c w : quiet (add_window p c w).
Proof. unfold add_window, forecast_window_rows. footprint. Qed.
Lemma quiet_fresh_job base : quiet (fresh_job_id base).
Proof. unfold fresh_job_id. footprint. Qed.
Lemma quiet_find_job id : quiet (find_anchor_job id).
Proof. unfold find_anchor_job. footprint. Qed.
Lemma quiet_batch_of_job j id : quiet (batch_of_job j id).
Proof. unfold batch_of_job. footprint. Qed.
Lemma quiet_pay_ledgers b now w : quiet (pay_window_ledgers b now w).
Proof. unfold pay_window_ledgers, pay_ledger. footprint. Qed.
Lemma quiet_job_terminal id a b c d e : quiet (mark_anchor_job_terminal id a b c d e).
Proof. unfold mark_anchor_job_terminal, require_job. footprint. Qed.
Lemma quiet_job_broadcast id a b c d : quiet (update_anchor_job_broadcast id a b c d).
Proof. unfold update_anchor_job_broadcast, require_job. footprint. Qed.
Lemma quiet_job_confirmation id a b : quiet (update_anchor_job_confirmation id a b).
Proof. unfold update_anchor_job_confirmation, require_job. footprint. Qed.
Lemma quiet_plan id now : quiet (build_chain_tx_plan id now).
Proof. unfold build_chain_tx_plan. footprint. Qed.
Lemma quiet_check_receipt r j b : quiet (check_receipt r j b).
Proof. unfold check_receipt. footprint. Qed.
#[export] Hint Resolve quiet_link quiet_anchor_artifact quiet_add_window quiet_fresh_job quiet_find_job
  quiet_batch_of_job quiet_pay_ledgers quiet_job_terminal quiet_job_broadcast quiet_job_confirmation quiet_plan
  quiet_check_receipt : footprint.

(** ** The operations that write batches *)

Create HintDb keeps.

Lemma keeps_quiet {A} (m : repo A) : quiet m -> keeps m.
Proof. intros Hm. apply (keeps_touches _ _ _ Hm). simpl. intuition discriminate. Qed.

(** Follows an operation down to the parts that write no batch and those known to keep the roots. *)
Ltac keep :=
  repeat first
    [ progress intros
    | solve [auto with keeps]
    | solve [apply keeps_quiet; footprint]
    | match goal with
      | |- keeps (sbind _ _) => apply keeps_sbind
      | |- keeps (forS _ _) => apply keeps_forS
      | |- keeps (foldS _ _ _) => apply keeps_foldS
      | |- keeps (mapS _ _) => apply keeps_mapS
      | |- keeps (match ?x with _ => _ end) => destruct x
      | |- keeps (let '_ := ?x in _) => destruct x
      end ].

#[export] Hint Resolve keeps_mark_submitted : keeps.
#[export] Hint Extern 1 (keeps (mark_settlement_batch_terminal _ (VStr _) _)) => (by apply keeps_mark_terminal) : keeps.

Lemma non_empty_some o (d : dict) : non_empty o = Some d -> o = Some d.
Proof. destruct o as [[|]|]; naive_solver. Qed.

(** Composition where the second part needs what the first one found. *)
Lemma roots_kept_lift {A B} (r : res A) (f : A -> repo B) s :
  (forall a, r = Ok a -> roots_kept s (f a s).2) -> roots_kept s (sbind (slift r) f s).2.
Proof. intros Hf. unfold sbind, slift. destruct r as [a|e]; [by apply Hf|simpl; reflexivity]. Qed.

Lemma roots_kept_quiet {A B} (m : repo A) (f : A -> repo B) s :
  quiet m -> (forall a s1, m s = (Ok a, s1) -> batches s1 = batches s -> roots_kept s1 (f a s1).2) ->
  roots_kept s (sbind m f s).2.
Proof.
  intros Hm Hf. pose proof (keeps_quiet m Hm s) as Hk. destruct (Hm s) as [Ht _].
  specialize (Ht _settlement_batches ltac:(simpl; intuition discriminate)).
  unfold sbind. destruct (m s) as [[a|e] s1]; simpl in *; [|done].
  etransitivity; [exact Hk|by apply Hf].
Qed.

(** A batch is only followed or opened when there is none under its id, or it is open. *)
Lemma keeps_window_batch w now : keeps (window_batch w now).
Proof.
  intros s. unfold window_batch. destruct (batch_id_of w) as [id|e] eqn:Eid; [|simpl; reflexivity].
  rewrite (sbind_run _ _ s id s) by done. rewrite (sbind_run _ _ s (non_empty (aget id (batches s))) s) by done.
  assert (Hsync : forall i at_, (batches_ok s -> forall old, aget i (batches s) = Some old -> ~ rooted old) ->
            roots_kept s (sync_window_batch i w now at_ s).2).
  { intros i at_ Hi. unfold sync_window_batch.
    unfold sbind, slift.
    destruct (dgetitem w "lane"), (dgetitem w "window_start_at"), (dgetitem w "window_end_at"), (dgetitem w "id");
      simpl; try reflexivity.
    by apply keeps_sync. }
  destruct (non_empty (aget id (batches s))) as [batch|] eqn:E.
  2: { apply Hsync. intros _ old Hold. rewrite Hold in E. by destruct old. }
  apply non_empty_some in E.
  destruct (field_is "state" "open" batch) eqn:Eopen; [|simpl; reflexivity].
  unfold sbind, slift. destruct (dgetitem batch "id") as [v|] eqn:Ev; [|simpl; reflexivity].
  destruct (as_key v) as [i|] eqn:Ei; [|simpl; reflexivity].
  intros Hs. apply Hsync; [|done]. intros _ old Hold. destruct (Hs _ _ E) as [Hid _].
  unfold dgetitem in Ev. rewrite Hid in Ev. injection Ev as <-. injection Ei as <-.
  apply (open_unrooted s id); [done|done|]. rewrite E in Hold. injection Hold as <-.
  unfold batch_is_closed. rewrite Eopen. by destruct (is_none _).
Qed.
#[export] Hint Resolve keeps_window_batch : keeps.

Lemma keeps_sync_single w now : keeps (_sync_single_reward_window_settlement_batch w now).
Proof. unfold _sync_single_reward_window_settlement_batch. keep. Qed.
#[export] Hint Resolve keeps_sync_single : keeps.

Lemma keeps_batches now : keeps (_build_settlement_batches now).
Proof. unfold _build_settlement_batches, build_settlement_batch. keep. Qed.

(** A window whose weights are gone cancels its batch only while that is not closed. *)
Lemma keeps_dispose c a ids us : keeps (dispose_pool c a ids us).
Proof.
  unfold dispose_pool. destruct (has_positive_weight us); [apply keeps_quiet; footprint|].
  intros s. unfold existing_batch_of. destruct (truthy _).
  2: { rewrite (sbind_run _ _ s None s) by done. simpl. reflexivity. }
  destruct (as_key (existing_field c "settlement_batch_id")) as [id|e] eqn:Eid; [|simpl; reflexivity].
  rewrite (sbind_run _ _ s (non_empty (aget id (batches s))) s) by done.
  destruct (non_empty (aget id (batches s))) as [batch|] eqn:E; [|simpl; reflexivity]. apply non_empty_some in E.
  destruct (batch_is_closed (Some batch)) eqn:Ec; [simpl; reflexivity|].
  destruct (dgetitem batch "id") as [v|] eqn:Ev; [|simpl; reflexivity].
  destruct (as_key v) as [i|] eqn:Ei; [|unfold sbind, slift; rewrite Ei; simpl; reflexivity].
  intros Hs. destruct (Hs _ _ E) as [Hid _]. unfold dgetitem in Ev. rewrite Hid in Ev. injection Ev as <-.
  injection Ei as <-.
  assert (Hc : roots_kept s (cancel_settlement_batch id (VInt 0) (VStr (iso_format (arg_current a))) s).2).
  { apply keeps_cancel. intros _ old Hold. apply (open_unrooted s id); [done|done|]. by rewrite E in Hold; injection Hold as <-. }
  revert Hs. change (roots_kept s ((do* (do* cancel_settlement_batch id (VInt 0) (VStr (iso_format (arg_current a))) in sret tt) in
    sret {| positive := false; projected_batch := VNone; allocations := map (fun u => (u, 0)) ids;
            budget_disposition := disposition_row "forfeited" (arg_pool a) 0 (arg_pool a);
            window_state := "no_positive_weight"; saved_amount := 0 |}) s).2).
  unfold sbind at 1 2. destruct (cancel_settlement_batch _ _ _ s) as [[x|e] s1]; exact Hc.
Qed.
#[export] Hint Resolve keeps_dispose : keeps.

Lemma keeps_write_window settings c a i : keeps (write_poker_window settings c a i).
Proof. unfold write_poker_window. keep. Qed.
#[export] Hint Resolve keeps_write_window : keeps.

Lemma keeps_build_window settings lane st en pool prov policy meta id now :
  keeps (build_poker_mtt_reward_window settings lane st en pool prov policy meta id now).
Proof. unfold build_poker_mtt_reward_window. keep. Qed.

#[export] Hint Resolve keeps_build_window : keeps.

Lemma keeps_poker_windows settings now : keeps (_build_poker_mtt_reward_windows settings now).
Proof. unfold _build_poker_mtt_reward_windows, build_lane_windows, build_closed_window. keep. Qed.
#[export] Hint Resolve keeps_batches keeps_poker_windows : keeps.

(** ** The handlers *)

Lemma keeps_reconcile self now : keeps (reconcile self now).
Proof.
  unfold reconcile.
  apply keeps_sbind; [apply keeps_quiet, quiet_publish|intros _].
  apply keeps_sbind; [apply keeps_quiet, quiet_settle_fast|intros _].
  apply keeps_sbind; [apply keeps_quiet, quiet_settle_daily|intros _].
  apply keeps_sbind; [apply keeps_quiet, quiet_release|intros _].
  apply keeps_sbind; [apply keeps_quiet, quiet_windows|intros _].
  apply keeps_sbind; [apply keeps_poker_windows|intros _].
  apply keeps_sbind; [apply keeps_batches|intros _].
  apply keeps_quiet, quiet_ranks.
Qed.
#[export] Hint Resolve keeps_reconcile : keeps.

(** The payload that is built is hashed. *)
Lemma anchor_hashed settings batch id windows content anchor :
  build_anchor_payload settings batch id windows content = Ok anchor ->
  _hash_payload (anchor_json anchor) = Ok (anchor_hash anchor).
Proof.
  unfold build_anchor_payload. intros H. repeat (apply rbind_ok in H as (? & ? & H)). by injection H as <-.
Qed.

(** What the guard of a batch leaves. *)
Lemma guard_rooted (rooted same : bool) e :
  guard (negb rooted || same) e = Ok tt -> rooted = false \/ same = true.
Proof. destruct rooted, same; simpl; auto. discriminate. Qed.

(** Storing the anchor of a batch that has no root, or the same. *)
Lemma keeps_store_ready batch id policy schema anchor at_ s :
  batches_ok s -> aget id (batches s) = Some batch ->
  _hash_payload (anchor_json anchor) = Ok (anchor_hash anchor) ->
  truthy (dget batch "canonical_root") = false \/
    (py_eq_str (dget batch "canonical_root") (anchor_canonical_root anchor) &&
     py_eq_str (dget batch "anchor_payload_hash") (anchor_hash anchor)) = true ->
  roots_kept s (mark_settlement_batch_anchor_ready id policy schema (VStr (anchor_canonical_root anchor))
                  (VDict (anchor_json anchor)) (VStr (anchor_hash anchor)) at_ s).2.
Proof.
  intros Hs Hb Hhash Hsame. apply keeps_mark_ready; [done|]. intros old Hold Hr. rewrite Hb in Hold. injection Hold as <-.
  destruct Hsame as [Hn|Hsame]; [unfold rooted in Hr; congruence|].
  apply andb_true_iff in Hsame as [E1 E2]. by apply py_eq_str_spec in E1, E2.
Qed.

(** A rooted batch is made ready only with the root and hash that it has. *)
Lemma keeps_make_ready self id now s batch :
  aget id (batches s) = Some batch -> roots_kept s (make_anchor_ready self id now batch s).2.
Proof.
  intros Hb. unfold make_anchor_ready.
  do 5 (apply roots_kept_lift; intros ? _; cbv zeta).
  apply roots_kept_quiet; [footprint|]. intros content s1 _ Hs1.
  apply roots_kept_lift; intros anchor Hanchor. apply anchor_hashed in Hanchor. cbv zeta.
  apply roots_kept_lift; intros [] Hguard. destruct (truthy _ && _) eqn:Erooted.
  { apply keeps_quiet. footprint. }
  apply roots_kept_quiet; [footprint|]. intros _ s2 _ Hs2.
  intros Hs.
  pose proof (keeps_store_ready batch id (window_policy batch) (VStr ANCHOR_PAYLOAD_SCHEMA_VERSION) anchor
                (VStr (iso_format now)) s2 Hs ltac:(by rewrite Hs2, Hs1) Hanchor (guard_rooted _ _ _ Hguard)) as Hk.
  unfold sbind. by destruct (mark_settlement_batch_anchor_ready _ _ _ _ _ _ _ s2) as [[saved|e] s3]; apply Hk.
Qed.

Lemma keeps_retry self id now : keeps (retry_anchor_settlement_batch self id now).
Proof.
  unfold retry_anchor_settlement_batch. apply keeps_sbind; [auto with keeps|]. intros _ s.
  apply roots_kept_quiet; [footprint|]. intros batch s1 Hreq _. apply sbind_ok in Hreq as (found & s2 & [= <- <-] & Hreq).
  apply keeps_make_ready. destruct (non_empty _) as [b|] eqn:E; [|done]. injection Hreq as <- <-. by apply non_empty_some.
Qed.

Lemma keeps_submit self id now : keeps (submit_anchor_job self id now).
Proof. unfold submit_anchor_job, submit_batch. keep. Qed.
#[export] Hint Resolve keeps_retry keeps_submit : keeps.

Lemma keeps_settle_anchored job now : keeps (settle_anchored job now).
Proof. unfold settle_anchored. keep. Qed.
Lemma keeps_settle_failed job reason now : keeps (settle_failed job reason now).
Proof. unfold settle_failed. keep. Qed.
#[export] Hint Resolve keeps_settle_anchored keeps_settle_failed : keeps.

Lemma keeps_mark_anchored self id ok now : keeps (mark_anchor_job_anchored self id ok now).
Proof. unfold mark_anchor_job_anchored. keep. Qed.
Lemma keeps_mark_failed self id reason now : keeps (mark_anchor_job_failed self id reason now).
Proof. unfold mark_anchor_job_failed. keep. Qed.
#[export] Hint Resolve keeps_mark_anchored keeps_mark_failed : keeps.

Lemma keeps_broadcast self mode id now : keeps (broadcast_chain_tx self mode id now).
Proof. unfold broadcast_chain_tx, send_plan. keep. Qed.
#[export] Hint Resolve keeps_broadcast : keeps.

Lemma keeps_retry_broadcast self id mode now : keeps (_retry_failed_anchor_job_broadcast self id mode now).
Proof. unfold _retry_failed_anchor_job_broadcast. keep. Qed.

Lemma keeps_confirm_job self job now : keeps (confirm_job self job now).
Proof. unfold confirm_job, end_job. keep. Qed.
#[export] Hint Resolve keeps_confirm_job : keeps.

Lemma keeps_confirm self id now : keeps (confirm_anchor_job_on_chain self id now).
Proof. unfold confirm_anchor_job_on_chain. keep. Qed.
#[export] Hint Resolve keeps_confirm : keeps.

Lemma keeps_reconcile_pending self now : keeps (reconcile_pending_anchor_jobs_on_chain self now).
Proof. unfold reconcile_pending_anchor_jobs_on_chain. keep. Qed.

Lemma keeps_rebuild self id now : keeps (rebuild_reward_window self id now).
Proof. unfold rebuild_reward_window, collect_submissions. keep. Qed.
#[export] Hint Resolve keeps_make_ready keeps_retry_broadcast keeps_reconcile_pending keeps_rebuild : keeps.

Lemma quiet_correction k id p r o now : quiet (record_poker_mtt_correction k id p r o now).
Proof. unfold record_poker_mtt_correction, save_poker_mtt_correction, save_row. footprint. Qed.

(** ** The operations that may open a risk case *)

Lemma opens_quiet {A} (m : repo A) : quiet m -> opens_cases m.
Proof. intros Hm. apply (touches_weaken other_tables _ true); [done|intros ?; simpl; tauto|done]. Qed.

Ltac opens_of l := intros; eapply touches_weaken; [apply l|intros ?; simpl; tauto|done].

Lemma opens_refresh_cluster self ip ua now : opens_cases (_refresh_miner_cluster self ip ua now).
Proof. opens_of touches_refresh_cluster. Qed.
Lemma opens_duplicate_case t sid u ms now m : opens_cases (_open_duplicate_reveal_case t sid u ms now m).
Proof. opens_of touches_duplicate_case. Qed.
Lemma opens_save_submission sub : opens_cases (save_submission sub).
Proof. opens_of touches_save_submission. Qed.
#[export] Hint Resolve opens_refresh_cluster opens_duplicate_case opens_save_submission : footprint.

Lemma opens_commit t m rid h n at_ ip ua : opens_cases (commit_submission t m rid h n at_ ip ua).
Proof. unfold commit_submission. footprint. Qed.
Lemma opens_reveal settings t m rid p n at_ ip ua : opens_cases (reveal_submission settings t m rid p n at_ ip ua).
Proof. unfold reveal_submission. footprint. Qed.
Lemma opens_register self a n k v ip ua u now : opens_cases (register_miner self a n k v ip ua u now).
Proof.
  unfold register_miner, Repository.register_miner, _sync_cluster_risk_cases, sync_cluster_case, move_existing. footprint.
Qed.
Lemma opens_override id d r o a now : opens_cases (override_risk_case id d r o a now).
Proof. unfold override_risk_case. footprint. Qed.

(** ** Tournaments *)

Lemma quiet_save t row : In t other_tables -> quiet (save_row t row).
Proof. intros Ht. by apply touches_save_keyed. Qed.
#[export] Hint Extern 1 (touches _ _ (save_row _ _)) => (apply touches_save_keyed; simpl; tauto) : footprint.

Lemma quiet_known_miner a : quiet (known_miner a).
Proof. unfold known_miner. footprint. Qed.
Lemma quiet_results_for t a b c : quiet (results_for_miner t a b c).
Proof. unfold results_for_miner, all_rows. footprint. Qed.
#[export] Hint Resolve quiet_known_miner quiet_results_for : footprint.

Lemma quiet_roll a p e b now : quiet (roll_multiplier a p e b now).
Proof.
  unfold roll_multiplier, list_poker_mtt_results_for_miner, save_poker_mtt_result, update_poker_mtt_miner_multiplier,
    _save_poker_mtt_multiplier_snapshot, save_poker_mtt_multiplier_snapshot. footprint.
Qed.
Lemma quiet_hidden_evals t : quiet (hidden_eval_rows t).
Proof. unfold hidden_eval_rows, list_poker_mtt_hidden_eval_entries_for_tournament, all_rows. footprint. Qed.
#[export] Hint Resolve quiet_roll quiet_hidden_evals : footprint.

Lemma quiet_apply_results t r h n p results now : quiet (apply_poker_mtt_results t r h n p results now).
Proof.
  unfold apply_poker_mtt_results, check_tournament, save_poker_mtt_tournament, legacy_result, canonical_ranking,
    save_poker_mtt_result, get_poker_mtt_final_ranking. footprint; apply touches_mapS; footprint.
Qed.
Lemma quiet_project_rankings t r h n p locked : quiet (project_poker_mtt_final_rankings t r h n p locked).
Proof.
  unfold project_poker_mtt_final_rankings, check_tournament, save_poker_mtt_tournament, project_ranking,
    save_poker_mtt_result, list_poker_mtt_final_rankings_for_tournament, all_rows. footprint; apply touches_mapS; footprint.
Qed.
Lemma quiet_hidden_eval t p seed base entries now : quiet (finalize_poker_mtt_hidden_eval t p seed base entries now).
Proof. unfold finalize_poker_mtt_hidden_eval, save_poker_mtt_hidden_eval_entry. footprint; apply touches_mapS; footprint. Qed.
Lemma quiet_evidence t p now : quiet (build_poker_mtt_evidence_manifests t p now).
Proof.
  unfold build_poker_mtt_evidence_manifests, collect_manifests, hud_manifest, store_manifest,
    list_poker_mtt_final_rankings_for_tournament, list_poker_mtt_hand_events_for_tournament,
    list_poker_mtt_hud_snapshots, list_poker_mtt_hidden_eval_entries_for_tournament, list_poker_mtt_mq_checkpoints,
    list_poker_mtt_mq_conflicts, list_poker_mtt_mq_dlq, all_rows. footprint; apply touches_mapS; footprint.
Qed.
Lemma quiet_try_ingest e : quiet (try_ingest e).
Proof.
  intros s. unfold try_ingest, scatch_value_error.
  assert (H : quiet (let* result := repository_ingest e in sret (inl (B := string) result)))
    by (unfold repository_ingest, save_poker_mtt_hand_event; footprint).
  specialize (H s). by destruct (sbind _ _ s) as [[v|[]] s1].
Qed.
#[export] Hint Resolve quiet_try_ingest : footprint.
Lemma quiet_ingest e now : quiet (ingest_poker_mtt_hand_event e now).
Proof.
  unfold ingest_poker_mtt_hand_event, _save_poker_mtt_mq_dlq, _save_poker_mtt_mq_checkpoint, _save_poker_mtt_mq_conflict,
    save_poker_mtt_mq_dlq, save_poker_mtt_mq_checkpoint, save_poker_mtt_mq_conflict. footprint.
Qed.
Lemma quiet_rating a st en r k c p now : quiet (build_poker_mtt_rating_snapshot a st en r k c p now).
Proof. unfold build_poker_mtt_rating_snapshot, save_poker_mtt_rating_snapshot. footprint. Qed.
Lemma quiet_arena settings t r h results now : quiet (apply_arena_results settings t r h results now).
Proof.
  unfold apply_arena_results, arena_result, roll_arena, save_arena_result, list_arena_results_for_miner,
    update_arena_miner_multiplier. footprint; apply touches_mapS; footprint.
Qed.
Lemma quiet_replay_proof ty id now : quiet (get_replay_proof ty id now).
Proof. unfold get_replay_proof, window_proof, task_proof, _artifact_refs_for_entity, _ensure_task_pack_artifact. footprint. Qed.

(** ** Runs of the service *)

(** One call of a handler, whether it returns or raises. *)
Inductive service_call (self : ForecastMiningService) (s : FakeRepository) : FakeRepository -> Prop :=
| call_register a n k v ip ua u now : service_call self s (register_miner self a n k v ip ua u now s).2
| call_commit t m rid h n at_ ip ua : service_call self s (commit_submission t m rid h n at_ ip ua s).2
| call_reveal t m rid p n at_ ip ua : service_call self s (reveal_submission (settings self) t m rid p n at_ ip ua s).2
| call_reconcile now : service_call self s (reconcile self now s).2
| call_rebuild id now : service_call self s (rebuild_reward_window self id now s).2
| call_build_window lane st en pool prov policy meta id now :
    service_call self s (build_poker_mtt_reward_window (settings self) lane st en pool prov policy meta id now s).2
| call_correction k id p r o now : service_call self s (record_poker_mtt_correction k id p r o now s).2
| call_retry_anchor id now : service_call self s (retry_anchor_settlement_batch self id now s).2
| call_submit_anchor id now : service_call self s (submit_anchor_job self id now s).2
| call_mark_anchored id ok now : service_call self s (mark_anchor_job_anchored self id ok now s).2
| call_mark_failed id reason now : service_call self s (mark_anchor_job_failed self id reason now s).2
| call_plan id now : service_call self s (build_chain_tx_plan id now s).2
| call_broadcast mode id now : service_call self s (broadcast_chain_tx self mode id now s).2
| call_retry_broadcast id mode now : service_call self s (_retry_failed_anchor_job_broadcast self id mode now s).2
| call_confirm id now : service_call self s (confirm_anchor_job_on_chain self id now s).2
| call_reconcile_pending now : service_call self s (reconcile_pending_anchor_jobs_on_chain self now s).2
| call_apply_results t r h n p results now : service_call self s (apply_poker_mtt_results t r h n p results now s).2
| call_project_rankings t r h n p locked : service_call self s (project_poker_mtt_final_rankings t r h n p locked s).2
| call_hidden_eval t p seed base entries now :
    service_call self s (finalize_poker_mtt_hidden_eval t p seed base entries now s).2
| call_evidence t p now : service_call self s (build_poker_mtt_evidence_manifests t p now s).2
| call_ingest e now : service_call self s (ingest_poker_mtt_hand_event e now s).2
| call_rating a st en r k c p now : service_call self s (build_poker_mtt_rating_snapshot a st en r k c p now s).2
| call_arena t r h results now : service_call self s (apply_arena_results (settings self) t r h results now s).2
| call_replay_proof ty id now : service_call self s (get_replay_proof ty id now s).2.

(** A call, or the decision of an operator about a risk case. *)
Inductive service_step (self : ForecastMiningService) (s : FakeRepository) : FakeRepository -> Prop :=
| step_call s' : service_call self s s' -> service_step self s s'
| step_override id d r o a now : service_step self s (override_risk_case id d r o a now s).2.

Lemma keeps_opens {A} (m : repo A) : opens_cases m -> keeps m.
Proof. intros Hm. apply (keeps_touches _ _ _ Hm). simpl. intuition discriminate. Qed.

Lemma service_call_keeps self s s' : service_call self s s' -> roots_kept s s'.
Proof.
  destruct 1.
  1: apply keeps_opens, opens_register.
  1: apply keeps_opens, opens_commit.
  1: apply keeps_opens, opens_reveal.
  1: apply keeps_reconcile.
  1: apply keeps_rebuild.
  1: apply keeps_build_window.
  1: apply keeps_quiet, quiet_correction.
  1: apply keeps_retry.
  1: apply keeps_submit.
  1: apply keeps_mark_anchored.
  1: apply keeps_mark_failed.
  1: apply keeps_quiet, quiet_plan.
  1: apply keeps_broadcast.
  1: apply keeps_retry_broadcast.
  1: apply keeps_confirm.
  1: apply keeps_reconcile_pending.
  1: apply keeps_quiet, quiet_apply_results.
  1: apply keeps_quiet, quiet_project_rankings.
  1: apply keeps_quiet, quiet_hidden_eval.
  1: apply keeps_quiet, quiet_evidence.
  1: apply keeps_quiet, quiet_ingest.
  1: apply keeps_quiet, quiet_rating.
  1: apply keeps_quiet, quiet_arena.
  1: apply keeps_quiet, quiet_replay_proof.
Qed.

Lemma service_step_keeps self s s' : service_step self s s' -> roots_kept s s'.
Proof. destruct 1; [by apply (service_call_keeps self)|apply keeps_opens, opens_override]. Qed.

Lemma service_steps_keep self s s' : rtc (service_step self) s s' -> roots_kept s s'.
Proof.
  induction 1 as [|s1 s2 s3 H _ IH]; [reflexivity|]. etransitivity; [by apply (service_step_keeps self)|done].
Qed.

(** C34: In every state the service can reach from an empty store, a batch is stored
    under its own id; a batch with a canonical root has left the open state, and
    its published hash is the hash of the payload it stores. *)
Theorem reachable_batches_are_well_formed self s :
  rtc (service_step self) empty_repository s -> batches_ok s.
Proof. intros H. by apply (service_steps_keep self) in H as [? _]. Qed.

(** Once a settlement batch has a canonical root, no sequence of handler calls,
    whatever they return or raise, changes its root or its published payload
    hash; and whatever payload it then stores has that hash. *)
Theorem published_roots_are_final self s s' id batch :
  batches_ok s -> rtc (service_step self) s s' ->
  aget id (batches s) = Some batch -> rooted batch ->
  exists batch', aget id (batches s') = Some batch' /\ same_root batch batch' /\ payload_hashed batch'.
Proof.
  intros Hs H Hb Hr. destruct (service_steps_keep _ _ _ H Hs) as [Hs' Hk].
  destruct (Hk _ _ Hb Hr) as (batch' & Hb' & E). exists batch'. split_and!; [done|done|].
  destruct (Hs' _ _ Hb') as [_ Hok]. by apply Hok, (same_root_rooted batch).
Qed.

(** ** Witnesses *)

Definition demo_service : ForecastMiningService :=
  {| settings := default_settings; task_provider := None; chain := no_chain |}.

(** A batch that was published with an empty payload. *)
Definition demo_batch : dict :=
  [("id", VStr "sb_1"); ("state", VStr "anchor_failed"); ("canonical_root", VStr "sha256:root");
   ("anchor_payload_json", VDict []);
   ("anchor_payload_hash", VStr "sha256:44136fa355b3678a1146ad16f7e8649e94fb4fc21fe77e8310c060f61caaff8a")].
Definition demo_published : FakeRepository := set_tab _settlement_batches [("sb_1", demo_batch)] empty_repository.

Lemma demo_published_ok : batches_ok demo_published.
Proof.
  intros id batch. change (batches demo_published) with [("sb_1", demo_batch)]. cbn [aget].
  destruct (keqb id "sb_1") eqn:E; [|done]. apply keqb_spec in E as ->. intros [= <-]. split; [done|].
  intros _. split; [done|]. eexists _, _. split_and!; [done|done|]. vm_compute. reflexivity.
Qed.

Lemma reachable_batches_are_well_formed_witness :
  batches_ok (reconcile demo_service 0 empty_repository).2.
Proof. apply (reachable_batches_are_well_formed demo_service), rtc_once, step_call, call_reconcile. Defined.

Lemma published_roots_are_final_witness :
  exists batch', aget "sb_1" (batches (submit_anchor_job demo_service "sb_1" 1
      (retry_anchor_settlement_batch demo_service "sb_1" 0 demo_published).2).2) = Some batch' /\
    same_root demo_batch batch' /\ payload_hashed batch'.
Proof.
  apply (published_roots_are_final demo_service demo_published); [apply demo_published_ok| |done|done].
  eapply rtc_l; [apply step_call, call_retry_anchor|]. eapply rtc_once, step_call, call_submit_anchor.
Defined.
