(* ===== verification/Cases.v ===== *)
(** * Decisions about risk cases are final

    A risk case that an operator decided is never reopened, changed or removed
    by the service: the operations that open cases look for a decided one
    first, and all others leave the cases alone. *)
From Stdlib Require Import ZArith Lia String.
From stdpp Require Import base list strings relations.
From S2P Require Import Prelude PyText PyFloat PyTime PyValue Canonical Repository RepositoryFacts.
From S2P Require Import Forecast RewardRows ChainAdapter Economic Miners Submissions Settlement Windows.
From S2P Require Import Hud HandHistory HandStores PokerWindow Tournaments TournamentRecords Queries.
From S2P Require Import Service Anchors Footprint Protocol Settled Roots.
Open Scope Z_scope.

Definition cases (s : FakeRepository) : rows := tab _risk_cases s.

(** A case is stored under its own id, and a decided one is not open any more. *)
Definition case_ok (id : string) (case : dict) : Prop := aget "id" case = Some (VStr id) /\ NoDup (akeys case).
Definition cases_ok (s : FakeRepository) : Prop := forall id case, aget id (cases s) = Some case -> case_ok id case.
Definition decided (case : dict) : Prop := case_is_decided (non_empty (Some case)) = true.

(** The decided cases that [P] picks stay as they are. *)
Definition cases_kept (P : string -> Prop) (s s' : FakeRepository) : Prop :=
  cases_ok s -> cases_ok s' /\
  forall id case, P id -> aget id (cases s) = Some case -> decided case -> aget id (cases s') = Some case.

#[export] Instance cases_kept_preorder P : PreOrder (cases_kept P).
Proof.
  split; [intros s Hs; split; [exact Hs|intros id case _ Hc _; exact Hc]|].
  intros s1 s2 s3 H1 H2 Hs. destruct (H1 Hs) as [Hs2 K1]. destruct (H2 Hs2) as [Hs3 K2]. split; [exact Hs3|].
  intros id case Hp Hc Hd. apply K2; [exact Hp| |exact Hd]. by apply K1.
Qed.

Definition spares {A} (m : repo A) : Prop := forall s, cases_kept (fun _ => True) s (m s).2.

Lemma spares_pure {A} (f : FakeRepository -> res A) : spares (fun s => (f s, s)).
Proof. intros s. simpl. reflexivity. Qed.

Lemma spares_sbind {A B} (m : repo A) (f : A -> repo B) : spares m -> (forall a, spares (f a)) -> spares (sbind m f).
Proof.
  intros Hm Hf s. unfold sbind. specialize (Hm s). destruct (m s) as [[a|e] s1]; simpl in *; [|done].
  etransitivity; [exact Hm|apply Hf].
Qed.

Lemma spares_forS {A} (f : A -> repo unit) l : (forall a, spares (f a)) -> spares (forS f l).
Proof. intros Hf. induction l; simpl; [apply spares_pure|]. by apply spares_sbind. Qed.

Lemma spares_foldS {A B} (f : B -> A -> repo B) l acc : (forall acc a, spares (f acc a)) -> spares (foldS f l acc).
Proof. intros Hf. revert acc. induction l; intros acc; simpl; [apply spares_pure|]. by apply spares_sbind. Qed.

Lemma spares_mapS {A B} (f : A -> repo B) l : (forall a, spares (f a)) -> spares (mapS f l).
Proof.
  intros Hf. induction l; simpl; [apply spares_pure|]. apply spares_sbind; [done|]. intros ?.
  apply spares_sbind; [done|]. intros ?. apply spares_pure.
Qed.

Lemma spares_touches {A} W b (m : repo A) : touches W b m -> ~ In _risk_cases W -> spares m.
Proof.
  intros Hm HW s. destruct (Hm s) as [Ht _]. unfold cases_kept, cases_ok, cases. rewrite Ht by done. by split.
Qed.

(** Saving a case. *)
Lemma saved_cases u id s : aget "id" u = Some (VStr id) ->
  save_risk_case u s = (Ok (merged _risk_cases id u s),
    set_tab _risk_cases (aset id (merged _risk_cases id u s) (cases s)) s).
Proof. apply save_keyed_run. Qed.

Lemma cases_put id u s : aget "id" u = Some (VStr id) -> NoDup (akeys u) ->
  cases_kept (fun i => i <> id) s (save_risk_case u s).2.
Proof.
  intros Hid Hnd Hs. rewrite (saved_cases _ _ _ Hid). unfold cases_ok. simpl.
  assert (Ht : forall i, aget i (cases (set_tab _risk_cases (aset id (merged _risk_cases id u s) (cases s)) s)) =
                         if keqb i id then Some (merged _risk_cases id u s) else aget i (cases s)).
  { intros i. unfold cases at 1. rewrite tab_set_tab_eq. apply aget_aset. }
  split.
  - intros i case. rewrite Ht. destruct (keqb i id) eqn:E; [|apply Hs]. apply keqb_spec in E as ->. intros [= <-].
    split; [unfold merged; by rewrite aget_dupdate, Hid|]. apply NoDup_akeys_dupdate.
    destruct (aget id (tab _risk_cases s)) as [old|] eqn:E; [by destruct (Hs _ _ E)|constructor].
  - intros i case Hi Hc _. rewrite Ht. destruct (keqb i id) eqn:E; [|exact Hc]. by apply keqb_spec in E.
Qed.

(** Opening a case after a look at the decided ones. *)
Lemma spares_open id row : aget "id" row = Some (VStr id) -> NoDup (akeys row) ->
  spares (let* existing := get_risk_case id in
          if case_is_decided existing then sret tt else do* save_risk_case row in sret tt).
Proof.
  intros Hid Hnd s. unfold get_risk_case, get_row. rewrite (sbind_run _ _ s (non_empty (aget id (cases s))) s) by done.
  destruct (case_is_decided _) eqn:E; [simpl; reflexivity|].
  pose proof (cases_put id row s Hid Hnd) as Hput. unfold sbind. rewrite (saved_cases _ _ _ Hid) in *. simpl in *.
  intros Hs. destruct (Hput Hs) as [Hs' Hk]. split; [exact Hs'|]. intros i case _ Hc Hd. apply Hk; [|done|done].
  intros ->. unfold decided in Hd. rewrite Hc in E. congruence.
Qed.

(** ** The operations *)

Create HintDb spares.

(** The operations that write neither a batch nor a case, and those that write batches. *)
Abbreviation anchors m := (touches (_settlement_batches :: other_tables) true m).

Lemma anchors_quiet {A} (m : repo A) : quiet m -> anchors m.
Proof. intros Hm. apply (touches_weaken other_tables _ true); [done|intros ?; simpl; tauto|done]. Qed.

Lemma spares_quiet {A} (m : repo A) : quiet m -> spares m.
Proof. intros Hm. apply (spares_touches _ _ _ Hm). simpl. intuition discriminate. Qed.
Lemma spares_anchors {A} (m : repo A) : anchors m -> spares m.
Proof. intros Hm. apply (spares_touches _ _ _ Hm). simpl. intuition discriminate. Qed.

(** Follows an operation down to the parts that write no case and those known to spare the decided ones. *)
Ltac spare :=
  repeat first
    [ progress intros
    | solve [auto with spares]
    | solve [apply spares_quiet; footprint]
    | match goal with
      | |- spares (sbind _ _) => apply spares_sbind
      | |- spares (forS _ _) => apply spares_forS
      | |- spares (foldS _ _ _) => apply spares_foldS
      | |- spares (mapS _ _) => apply spares_mapS
      | |- spares (match ?x with _ => _ end) => destruct x
      | |- spares (let '_ := ?x in _) => destruct x
      end ].

Lemma spares_cluster_case now cluster : spares (sync_cluster_case now cluster).
Proof.
  unfold sync_cluster_case. destruct cluster as [unit members]. destruct (Nat.leb _ _); [apply spares_pure|].
  destruct (mapR miner_address members) as [addresses|e].
  - by apply spares_open; [|nodup_keys].
  - intros s. unfold sbind, get_risk_case, get_row, sgets. destruct (case_is_decided _); simpl; reflexivity.
Qed.
#[export] Hint Resolve spares_cluster_case : spares.

Lemma spares_duplicate_case t sid u ms now m : spares (_open_duplicate_reveal_case t sid u ms now m).
Proof.
  unfold _open_duplicate_reveal_case. destruct (py_str u) as [unit|e]; [|intros s; simpl; reflexivity].
  intros s. rewrite (sbind_run _ _ s unit s) by done. by apply spares_open; [|nodup_keys].
Qed.

Lemma spares_sync miners now : spares (_sync_cluster_risk_cases miners now).
Proof. unfold _sync_cluster_risk_cases. spare. Qed.
#[export] Hint Resolve spares_duplicate_case spares_sync : spares.

Lemma spares_save_submission sub : spares (save_submission sub).
Proof. apply (spares_touches _ _ _ (touches_save_submission sub)). simpl. intuition discriminate. Qed.
Lemma spares_refresh self ip ua now : spares (_refresh_miner_cluster self ip ua now).
Proof. unfold _refresh_miner_cluster, update_cluster_member. spare. Qed.
#[export] Hint Resolve spares_save_submission spares_refresh : spares.

Lemma spares_commit t m rid h n at_ ip ua : spares (commit_submission t m rid h n at_ ip ua).
Proof. unfold commit_submission. spare. Qed.
Lemma spares_reveal settings t m rid p n at_ ip ua : spares (reveal_submission settings t m rid p n at_ ip ua).
Proof. unfold reveal_submission. spare. Qed.
Lemma spares_register self a n k v ip ua u now : spares (register_miner self a n k v ip ua u now).
Proof. unfold register_miner, Repository.register_miner, move_existing. spare. Qed.

(** *** Batches *)

#[local] Hint Extern 1 (touches _ _ (save_settlement_batch _)) => (apply touches_save_keyed; simpl; tauto) : footprint.

Lemma anchors_require_batch id : anchors (require_batch id).
Proof. apply anchors_quiet. unfold require_batch. footprint. Qed.
#[local] Hint Resolve anchors_require_batch : footprint.

Lemma spares_save_batch b : spares (save_settlement_batch b).
Proof. apply spares_anchors. footprint. Qed.
Lemma spares_mark_submitted id job at_ : spares (mark_settlement_batch_anchor_submitted id job at_).
Proof. apply spares_anchors. unfold mark_settlement_batch_anchor_submitted. footprint. Qed.
Lemma spares_mark_terminal id st at_ : spares (mark_settlement_batch_terminal id st at_).
Proof. apply spares_anchors. unfold mark_settlement_batch_terminal. footprint. Qed.
Lemma spares_mark_ready id policy schema root payload hash at_ :
  spares (mark_settlement_batch_anchor_ready id policy schema root payload hash at_).
Proof. apply spares_anchors. unfold mark_settlement_batch_anchor_ready. footprint. Qed.
Lemma spares_cancel id amount at_ : spares (cancel_settlement_batch id amount at_).
Proof. apply spares_anchors. unfold cancel_settlement_batch. footprint. Qed.
#[export] Hint Resolve spares_save_batch spares_mark_submitted spares_mark_terminal spares_mark_ready spares_cancel : spares.

Lemma spares_window_batch w now : spares (window_batch w now).
Proof. unfold window_batch, sync_window_batch, sync_open_settlement_batch. spare. Qed.
#[export] Hint Resolve spares_window_batch : spares.
Lemma spares_sync_single w now : spares (_sync_single_reward_window_settlement_batch w now).
Proof. unfold _sync_single_reward_window_settlement_batch. spare. Qed.
#[export] Hint Resolve spares_sync_single : spares.
Lemma spares_batches now : spares (_build_settlement_batches now).
Proof. unfold _build_settlement_batches, build_settlement_batch. spare. Qed.
Lemma spares_dispose c a ids us : spares (dispose_pool c a ids us).
Proof. unfold dispose_pool. spare. Qed.
#[export] Hint Resolve spares_batches spares_dispose : spares.
Lemma spares_write_window settings c a i : spares (write_poker_window settings c a i).
Proof. unfold write_poker_window. spare. Qed.
#[export] Hint Resolve spares_write_window : spares.
Lemma spares_build_window settings lane st en pool prov policy meta id now :
  spares (build_poker_mtt_reward_window settings lane st en pool prov policy meta id now).
Proof. unfold build_poker_mtt_reward_window. spare. Qed.
#[export] Hint Resolve spares_build_window : spares.
Lemma spares_poker_windows settings now : spares (_build_poker_mtt_reward_windows settings now).
Proof. unfold _build_poker_mtt_reward_windows, build_lane_windows, build_closed_window. spare. Qed.

(** *** The handlers *)

Lemma spares_reconcile self now : spares (reconcile self now).
Proof.
  unfold reconcile.
  apply spares_sbind; [apply spares_quiet, quiet_publish|intros _].
  apply spares_sbind; [apply spares_quiet, quiet_settle_fast|intros _].
  apply spares_sbind; [apply spares_quiet, quiet_settle_daily|intros _].
  apply spares_sbind; [apply spares_quiet, quiet_release|intros _].
  apply spares_sbind; [apply spares_quiet, quiet_windows|intros _].
  apply spares_sbind; [apply spares_poker_windows|intros _].
  apply spares_sbind; [apply spares_batches|intros _].
  apply spares_quiet, quiet_ranks.
Qed.
#[export] Hint Resolve spares_reconcile : spares.

Lemma spares_make_ready self id now batch : spares (make_anchor_ready self id now batch).
Proof. unfold make_anchor_ready. spare. Qed.
#[export] Hint Resolve spares_make_ready : spares.
Lemma spares_retry self id now : spares (retry_anchor_settlement_batch self id now).
Proof. unfold retry_anchor_settlement_batch. spare. Qed.
Lemma spares_submit self id now : spares (submit_anchor_job self id now).
Proof. unfold submit_anchor_job, submit_batch. spare. Qed.
Lemma spares_settle_anchored job now : spares (settle_anchored job now).
Proof. unfold settle_anchored. spare. Qed.
Lemma spares_settle_failed job reason now : spares (settle_failed job reason now).
Proof. unfold settle_failed. spare. Qed.
#[export] Hint Resolve spares_retry spares_submit spares_settle_anchored spares_settle_failed : spares.
Lemma spares_mark_anchored self id ok now : spares (mark_anchor_job_anchored self id ok now).
Proof. unfold mark_anchor_job_anchored. spare. Qed.
Lemma spares_mark_failed self id reason now : spares (mark_anchor_job_failed self id reason now).
Proof. unfold mark_anchor_job_failed. spare. Qed.
#[export] Hint Resolve spares_mark_anchored spares_mark_failed : spares.
Lemma spares_broadcast self mode id now : spares (broadcast_chain_tx self mode id now).
Proof. unfold broadcast_chain_tx, send_plan. spare. Qed.
#[export] Hint Resolve spares_broadcast : spares.
Lemma spares_retry_broadcast self id mode now : spares (_retry_failed_anchor_job_broadcast self id mode now).
Proof. unfold _retry_failed_anchor_job_broadcast. spare. Qed.
Lemma spares_confirm_job self job now : spares (confirm_job self job now).
Proof. unfold confirm_job, end_job. spare. Qed.
#[export] Hint Resolve spares_confirm_job : spares.
Lemma spares_confirm self id now : spares (confirm_anchor_job_on_chain self id now).
Proof. unfold confirm_anchor_job_on_chain. spare. Qed.
#[export] Hint Resolve spares_confirm : spares.
Lemma spares_reconcile_pending self now : spares (reconcile_pending_anchor_jobs_on_chain self now).
Proof. unfold reconcile_pending_anchor_jobs_on_chain. spare. Qed.
Lemma spares_rebuild self id now : spares (rebuild_reward_window self id now).
Proof. unfold rebuild_reward_window, collect_submissions. spare. Qed.
#[export] Hint Resolve spares_commit spares_reveal spares_register spares_retry_broadcast spares_reconcile_pending
  spares_rebuild : spares.

(** ** Decisions *)

Lemma service_call_spares self s s' : service_call self s s' -> cases_kept (fun _ => True) s s'.
Proof.
  destruct 1.
  all: match goal with |- cases_kept _ ?s (?m ?s).2 => revert s; change (spares m) end.
  all: first
    [ solve [auto with spares]
    | solve [apply spares_quiet;
        first [apply quiet_correction | apply quiet_plan | apply quiet_apply_results | apply quiet_project_rankings
              | apply quiet_hidden_eval | apply quiet_evidence | apply quiet_ingest | apply quiet_rating
              | apply quiet_arena | apply quiet_replay_proof]] ].
Qed.

Section Override.
Context (id decision reason operator level : string) (now : Z).

(** What the decision writes. *)
Definition decision_fields (state : string) : dict :=
  [("state", VStr state); ("decision", VStr decision); ("decision_reason", VStr reason); ("reviewed_by", VStr operator);
   ("authority_level", VStr level); ("trace_id", VStr ("trace:risk_override:" +:+ (id +:+ ":" +:+ compact_format 14 now)));
   ("override_log_id", VStr ("ovr:" +:+ (id +:+ ":" +:+ compact_format 14 now)));
   ("reviewed_at", VStr (iso_format now)); ("updated_at", VStr (iso_format now))].

Definition decided_case (state : string) (case : dict) : dict := dupdate case (decision_fields state).

Lemma decided_case_id state case : case_ok id case -> case_ok id (decided_case state case).
Proof.
  intros [Hid Hnd]. split; [|by apply NoDup_akeys_dupdate].
  unfold decided_case. rewrite aget_dupdate by nodup_keys. exact Hid.
Qed.

(** The call changes nothing, or saves the decision in the case it read. *)
Lemma override_run s : cases_ok s ->
  (exists e, override_risk_case id decision reason operator level now s = (Err e, s)) \/
  exists state case out, decision_to_state decision = Some state /\ aget id (cases s) = Some case /\
    dget out "risk_case" = VDict (merged _risk_cases id (decided_case state case) s) /\
    override_risk_case id decision reason operator level now s =
      (Ok out, (save_risk_case (decided_case state case) s).2).
Proof.
  intros Hs. unfold override_risk_case. destruct (decision_to_state decision) as [state|]; [|left; by eexists].
  rewrite (sbind_run _ _ s state s) by done. unfold require, get_risk_case, get_row.
  destruct (non_empty (aget id (cases s))) as [case|] eqn:E.
  2: { left. eexists. unfold sbind, sgets. fold (cases s). rewrite E. reflexivity. }
  assert (Hr : (let* x := sgets (fun s0 => non_empty (aget id (tab _risk_cases s0))) in
                match x with Some a => sret a | None => sraise (ValueError "risk case not found") end) s = (Ok case, s))
    by (unfold sbind, sgets; fold (cases s); by rewrite E).
  rewrite (sbind_run _ _ _ _ _ Hr). apply non_empty_some in E. right.
  destruct (decided_case_id state case) as [Hid _]; [by apply Hs|]. fold (decided_case state case).
  eexists state, case, _. split; [done|]. split; [done|]. change (dupdate case _) with (decided_case state case).
  rewrite (saved_cases _ _ _ Hid). rewrite (sbind_run _ _ _ _ _ (saved_cases _ _ s Hid)). split; [|reflexivity].
  reflexivity.
Qed.

Lemma override_kept s :
  cases_kept (fun i => i <> id) s (override_risk_case id decision reason operator level now s).2.
Proof.
  intros Hs. destruct (override_run s Hs) as [[e E]|(state & case & out & _ & Hc & _ & E)]; rewrite E; simpl.
  - split; [exact Hs|]. intros i c _ Hi _. exact Hi.
  - destruct (decided_case_id state case (Hs _ _ Hc)). by apply (cases_put id).
Qed.

(** The stored case has the state of the decision and its author. *)
Lemma override_stored s out s1 : cases_ok s ->
  override_risk_case id decision reason operator level now s = (Ok out, s1) ->
  exists state case, decision_to_state decision = Some state /\ aget id (cases s1) = Some case /\
    dget out "risk_case" = VDict case /\ dget case "state" = VStr state /\ dget case "decision" = VStr decision /\
    dget case "reviewed_by" = VStr operator /\ dget case "decision_reason" = VStr reason.
Proof.
  intros Hs H. destruct (override_run s Hs) as [[e E]|(state & case & out' & Hd & Hc & Ho & E)]; rewrite E in H; [done|].
  injection H as <- <-. destruct (decided_case_id state case (Hs _ _ Hc)) as [Hid Hnd].
  exists state, (merged _risk_cases id (decided_case state case) s). rewrite (saved_cases _ _ _ Hid).
  split; [done|]. split; [unfold cases; simpl; by rewrite tab_set_tab_eq, aget_aset_eq|]. split; [exact Ho|].
  assert (Hf : forall k v, aget k (decision_fields state) = Some v ->
            dget (merged _risk_cases id (decided_case state case) s) k = v).
  { intros k v Hk. unfold merged. rewrite dget_dupdate by done. unfold decided_case.
    rewrite aget_dupdate by nodup_keys. by rewrite Hk. }
  split_and!; by apply Hf.
Qed.
End Override.

Lemma service_call_cases P self s s' : service_call self s s' -> cases_kept P s s'.
Proof.
  intros H Hs. destruct (service_call_spares self s s' H Hs) as [Hs' Hk]. split; [exact Hs'|].
  intros id case _. by apply Hk.
Qed.

(** In every state the service reaches, each case is stored under its id. *)
Lemma reachable_cases self s : rtc (service_step self) empty_repository s -> cases_ok s.
Proof.
  intros H. assert (Hk : cases_kept (fun _ => False) empty_repository s).
  { induction H as [|s1 s2 s3 H _ IH]; [reflexivity|]. etransitivity; [|exact IH].
    destruct H as [s' H|]; [by apply (service_call_cases _ self)|]. intros Hs.
    destruct (override_kept id d r o a now s1 Hs) as [? _]. by split. }
  apply Hk. intros id case. discriminate.
Qed.

Lemma decision_state_closed d state : decision_to_state d = Some state ->
  state = "cleared" \/ state = "suppressed" \/ state = "escalated".
Proof.
  unfold decision_to_state. cbn [aget].
  destruct (keqb d "clear"); [intros [= <-]; by left|]. destruct (keqb d "suppress"); [intros [= <-]; auto|].
  destruct (keqb d "escalate"); [intros [= <-]; auto|done].
Qed.

(** A later step of the service: a call, or a decision about another case. *)
Inductive later_step (self : ForecastMiningService) (id : string) (s : FakeRepository) : FakeRepository -> Prop :=
| later_call s' : service_call self s s' -> later_step self id s s'
| later_override other d r o a now : other <> id -> later_step self id s (override_risk_case other d r o a now s).2.

Lemma later_steps_keep self id s s' : rtc (later_step self id) s s' -> cases_kept (fun i => i = id) s s'.
Proof.
  induction 1 as [|s1 s2 s3 H _ IH]; [reflexivity|]. etransitivity; [|exact IH].
  destruct H as [s' H|other d r o a now Ho]; [by apply (service_call_cases _ self)|]. intros Hs.
  destruct (override_kept other d r o a now s1 Hs) as [Hs' Hk]. split; [exact Hs'|]. intros i case ->. by apply Hk.
Qed.

(** C9: The decision of an operator stands: once [override_risk_case] has returned, the
    case has the state, the decision, the reason and the reviewer that it was
    given, and no handler of the service, opening cases for a cluster or for a
    duplicate reveal included, and no decision about another case changes it. *)
Theorem operator_decision_stands self s id d r o a now out s1 s' :
  rtc (service_step self) empty_repository s ->
  override_risk_case id d r o a now s = (Ok out, s1) ->
  rtc (later_step self id) s1 s' ->
  exists state case, decision_to_state d = Some state /\ aget id (cases s') = Some case /\
    dget out "risk_case" = VDict case /\ dget case "state" = VStr state /\ dget case "decision" = VStr d /\
    dget case "reviewed_by" = VStr o /\ dget case "decision_reason" = VStr r.
Proof.
  intros Hr Ho Hl. apply reachable_cases in Hr.
  destruct (override_stored _ _ _ _ _ _ _ _ _ Hr Ho) as (state & case & Hd & Hc & Hout & Hst & Hrest).
  assert (Hs1 : cases_ok s1).
  { destruct (override_kept id d r o a now s Hr) as [H _]. by rewrite Ho in H. }
  exists state, case. split; [done|]. split; [|done].
  apply (later_steps_keep self id s1 s' Hl Hs1); [done|done|].
  unfold decided, case_is_decided. destruct case as [|kv case]; [done|]. simpl non_empty. unfold field_is. rewrite Hst.
  by destruct (decision_state_closed d state Hd) as [->|[->| ->]].
Qed.

(** ** Witness *)

(** Two miners that share an address, and a third one later. *)
Definition demo_register (address : string) (now : Z) (s : FakeRepository) : FakeRepository :=
  (register_miner demo_service address address address "1" (Some "10.0.0.1") None None now s).2.
Definition demo_cluster : FakeRepository := demo_register "claw1bob" 1 (demo_register "claw1alice" 0 empty_repository).
Definition demo_case_id : string := "risk:cluster:eu:7c3876b928cbf7db126d".
Definition demo_clear : repo dict := override_risk_case demo_case_id "clear" "same household" "op1" "admin" 2.

Lemma demo_clears : is_ok (demo_clear demo_cluster).1 = true.
Proof. vm_compute. reflexivity. Qed.

Lemma operator_decision_stands_witness :
  exists case, aget demo_case_id (cases (demo_register "claw1carol" 3 (demo_clear demo_cluster).2)) = Some case /\
    dget case "state" = VStr "cleared".
Proof.
  pose proof demo_clears as Hok. destruct (demo_clear demo_cluster) as [[out|e] s1] eqn:E; [|discriminate Hok].
  destruct (operator_decision_stands demo_service demo_cluster demo_case_id "clear" "same household" "op1" "admin" 2 out s1
              (demo_register "claw1carol" 3 s1)) as (state & case & Hd & Hc & _ & Hs & _).
  - eapply rtc_l; [apply step_call, call_register|]. apply rtc_once, step_call, call_register.
  - exact E.
  - apply rtc_once, later_call, call_register.
  - injection Hd as <-. exists case. exact (conj Hc Hs).
Defined.
