(* ===== verification/QueryFacts.v ===== *)
(** * What the views show

    No view writes the store; the list of open tasks holds each of them once
    and nothing else; a fast task is shown to nobody before its publication. *)
From Stdlib Require Import ZArith Lia String.
From stdpp Require Import base list strings.
From S2P Require Import Prelude PyText PyFloat PyTime PyValue Canonical Repository RepositoryFacts Forecast RewardRows.
From S2P Require Import Economic Miners Submissions Windows PokerWindow Queries Footprint.
Open Scope Z_scope.

(** ** Reading *)

(** The operation leaves every table and all submissions as they are. *)
Definition unwritten (s s' : FakeRepository) : Prop :=
  (forall t, tab t s' = tab t s) /\ _submissions s' = _submissions s.
Abbreviation reads m := (touches [] false m).

Lemma reads_unwritten {A} (m : repo A) s : reads m -> unwritten s (m s).2.
Proof. intros Hm. destruct (Hm s) as [Ht Hs]. split; [intros t; apply Ht; auto|apply Hs; reflexivity]. Qed.

Lemma reads_mapS {A B} (f : A -> repo B) l : (forall a, reads (f a)) -> reads (mapS f l).
Proof.
  intros Hf. induction l; simpl; [by apply (touches_pure [] false (fun _ => Ok []))|].
  apply touches_sbind; [done|]. intros x. apply touches_sbind; [done|]. intros y.
  by apply (touches_pure [] false (fun _ => Ok (x :: y))).
Qed.
#[local] Hint Extern 2 (touches _ _ (mapS _ _)) => (apply reads_mapS; intros) : footprint.

Lemma reads_windows : reads list_reward_windows.
Proof. unfold list_reward_windows, all_rows. footprint. Qed.
Lemma reads_batches : reads list_settlement_batches.
Proof. unfold list_settlement_batches, all_rows. footprint. Qed.
Lemma reads_holds a : reads (list_hold_entries_for_miner a).
Proof. unfold list_hold_entries_for_miner, all_rows. footprint. Qed.
Lemma reads_arena a e l : reads (list_arena_results_for_miner a e l).
Proof. unfold list_arena_results_for_miner, results_for_miner, all_rows. footprint. Qed.
Lemma reads_artifacts t id : reads (list_artifacts_for_entity t id).
Proof. unfold list_artifacts_for_entity, all_rows. footprint. Qed.
Lemma reads_abuse unit status : reads (_anti_abuse_state unit status).
Proof. unfold _anti_abuse_state. footprint. Qed.
Lemma reads_submission a task : reads (submission_of a task).
Proof. unfold submission_of. footprint. Qed.
#[local] Hint Resolve reads_windows reads_batches reads_holds reads_arena reads_artifacts reads_abuse reads_submission
  : footprint.

Lemma reads_follow row k get : (forall id, reads (get id)) -> reads (follow row k get).
Proof. intros Hg. unfold follow. footprint. Qed.
#[local] Hint Extern 1 (touches _ _ (follow _ _ _)) => (apply reads_follow; intros; apply touches_get_row) : footprint.
#[local] Hint Extern 1 (touches _ _ (require (get_miner _) _)) => (apply touches_require, touches_get_row) : footprint.
#[local] Hint Extern 1 (touches _ _ (require (get_task _) _)) => (apply touches_require, touches_get_row) : footprint.

Lemma reads_maturity a tasks e : reads (maturity_of a tasks e).
Proof. revert e. induction tasks; intros; simpl; footprint. Qed.
Lemma reads_explanation a tasks : reads (_build_score_explanation a tasks).
Proof. unfold _build_score_explanation, explain_task. footprint. Qed.
Lemma reads_timeline settings miner tasks now e abuse : reads (_build_reward_timeline settings miner tasks now e abuse).
Proof. unfold _build_reward_timeline, count_pending. footprint. Qed.
Lemma reads_snapshot a : reads (_latest_settlement_snapshot a).
Proof. unfold _latest_settlement_snapshot. footprint. Qed.
Lemma reads_history_step windows sub : reads (history_step windows sub).
Proof. unfold history_step, get_task. footprint. Qed.
#[local] Hint Resolve reads_history_step reads_maturity reads_explanation reads_timeline reads_snapshot : footprint.

(** The views of the service. *)
Inductive view (settings : ForecastSettings) (now : Z) : forall A : Type, repo A -> Prop :=
| view_active : view settings now _ (get_active_tasks now)
| view_upcoming limit : view settings now _ (get_upcoming_fast_task_details settings now limit)
| view_detail id : view settings now _ (get_task_detail id now)
| view_status a : view settings now _ (get_miner_status settings a now)
| view_stats : view settings now _ (get_stats settings now)
| view_leaderboard limit : view settings now _ (get_public_leaderboard settings limit now)
| view_submissions a limit : view settings now _ (get_miner_submission_history a limit)
| view_holds a limit : view settings now _ (get_miner_reward_hold_history a limit)
| view_windows a limit : view settings now _ (get_miner_reward_window_history a limit)
| view_tasks a limit : view settings now _ (get_miner_task_history a limit).

(** Whatever a view returns or raises, every table and all submissions stay as
    they were. *)
Lemma view_reads settings now A (m : repo A) : view settings now A m -> reads m.
Proof.
  destruct 1.
  - unfold get_active_tasks. footprint.
  - unfold get_upcoming_fast_task_details. footprint.
  - unfold get_task_detail. footprint.
  - unfold get_miner_status. footprint.
  - unfold get_stats. footprint.
  - unfold get_public_leaderboard. footprint.
  - unfold get_miner_submission_history. footprint.
  - unfold get_miner_reward_hold_history. footprint.
  - unfold get_miner_reward_window_history. footprint.
  - unfold get_miner_task_history. footprint.
Qed.

(** ** Open tasks *)

(** A fast task is open from its publication to its commit deadline, a daily
    one from its publication to its resolution. *)
Inductive open_at (now : Z) (task : dict) : Prop :=
| open_fast start stop :
    dgetitem task "lane" = Ok (VStr "forecast_15m") ->
    parse_time_field task "publish_at" = Ok start -> parse_time_field task "commit_deadline" = Ok stop ->
    start <= now < stop -> open_at now task
| open_daily start stop :
    dgetitem task "lane" = Ok (VStr "daily_anchor") -> dget task "state" <> VStr "resolved" ->
    parse_time_field task "publish_at" = Ok start -> parse_time_field task "resolve_at" = Ok stop ->
    start <= now < stop -> open_at now task.

Lemma within_spec start stop now : within start stop now = true <-> start <= now < stop.
Proof. unfold within. rewrite andb_true_iff, Z.leb_le, Z.ltb_lt. done. Qed.

Lemma is_active_spec now task b : is_active now task = Ok b -> (b = true <-> open_at now task).
Proof.
  unfold is_active. intros H. apply rbind_ok in H as (lane & Hl & H).
  destruct (py_eq_str lane "forecast_15m") eqn:E1; [|destruct (py_eq_str lane "daily_anchor") eqn:E2].
  - apply py_eq_str_spec in E1 as ->. apply rbind_ok in H as (p & Hp & H). apply rbind_ok in H as (c & Hc & [= <-]).
    rewrite within_spec. split; [intros Hw; by apply (open_fast now task p c)|].
    intros [p' c' _ Hp' Hc' Hw|p' c' Hl' _ _ _ _]; [|congruence]. rewrite Hp in Hp'. rewrite Hc in Hc'. simplify_eq. exact Hw.
  - apply py_eq_str_spec in E2 as ->. apply rbind_ok in H as (p & Hp & H). apply rbind_ok in H as (c & Hc & [= <-]).
    rewrite andb_true_iff, negb_true_iff, within_spec. split.
    + intros [Hs Hw]. apply (open_daily now task p c); [done| |done..]. intros Es. apply not_true_iff_false in Hs. apply Hs.
      unfold field_is. by apply py_eq_str_spec.
    + intros [|p' c' _ Hs Hp' Hc' Hw]; [congruence|]. split; [|rewrite Hp in Hp'; rewrite Hc in Hc'; simplify_eq; exact Hw].
      apply not_true_iff_false. unfold field_is. by rewrite py_eq_str_spec.
  - injection H as <-. split; [done|]. intros [p c Hl'|p c Hl']; rewrite Hl in Hl'; by injection Hl' as ->.
Qed.

Lemma open_cards now tasks cards : mapR (active_card now) tasks = Ok cards ->
  exists opened closed, Permutation tasks (opened ++ closed) /\
    Forall (open_at now) opened /\ Forall (fun t => ~ open_at now t) closed /\
    Forall2 (fun task card => _task_card task = Ok card) opened (some_list cards).
Proof.
  intros H. apply mapR_ok in H. induction H as [|task card tasks cards H _ (opened & closed & Hp & Ho & Hc & Hf)].
  { exists [], []. split_and!; [done|constructor..]. }
  unfold active_card in H. apply rbind_ok in H as (b & Hb & H). apply is_active_spec in Hb. destruct b.
  - apply rbind_ok in H as (c & Hcard & [= <-]). exists (task :: opened), closed.
    split_and!; [simpl; by constructor|constructor; [by apply Hb|done]|done|]. by constructor.
  - injection H as <-. exists opened, (task :: closed).
    split_and!; [rewrite Hp; apply Permutation_middle|done| |exact Hf].
    constructor; [|done]. intros Ht. by apply Hb in Ht.
Qed.

(** C33: The list of open tasks holds one card for each stored task that is open at
    the time of the query, and for no other; the order of the cards is the only
    thing the sort changes. *)
Theorem active_tasks_are_the_open_ones now s cards s1 : get_active_tasks now s = (Ok cards, s1) ->
  exists opened closed, Permutation (avals (tab _tasks s)) (opened ++ closed) /\
    Forall (open_at now) opened /\ Forall (fun t => ~ open_at now t) closed /\
    exists listed, Permutation listed cards /\ Forall2 (fun task card => _task_card task = Ok card) opened listed.
Proof.
  unfold get_active_tasks. intros H. apply sbind_ok in H as (tasks & s2 & [= <- <-] & H).
  apply sbind_ok in H as (l & s3 & [= Hl <-] & [= H _]). apply open_cards in Hl as (opened & closed & ? & ? & ? & Hf).
  exists opened, closed. split_and!; [done..|]. exists (some_list l). split; [|done].
  symmetry. by eapply py_sort_perm.
Qed.

(** ** Tasks that are not published yet *)

(** A fast task that is published only later. *)
Definition unpublished (now : Z) (task : dict) : Prop :=
  dgetitem task "lane" = Ok (VStr "forecast_15m") /\
  exists start, parse_time_field task "publish_at" = Ok start /\ now < start.

(** Before its publication a fast task is shown to nobody and takes no commitment:
    the view of its details answers that it does not exist, it is not among
    the open tasks, and a commitment to it is refused without a write. *)
Theorem unpublished_tasks_are_closed now s id task :
  aget id (tab _tasks s) = Some task -> unpublished now task ->
  get_task_detail id now s = (Err (ValueError "task not found"), s) /\
  ~ open_at now task /\
  forall miner rid hash nonce ip ua,
    commit_submission id miner rid hash nonce now ip ua s = (Err (ValueError "task not yet published"), s).
Proof.
  intros Ht (Hlane & start & Hp & Hlt).
  assert (Hreq : require (get_task id) "task not found" s = (Ok task, s)).
  { unfold require, get_task, get_row. erewrite sbind_run by (unfold sgets; by rewrite Ht). by destruct task. }
  assert (Hno : (now <? start) = true) by (by apply Z.ltb_lt). split_and!.
  - unfold get_task_detail. rewrite (sbind_run _ _ _ _ _ Hreq). unfold sbind at 1, slift at 1. rewrite Hlane.
    unfold sbind, slift. simpl. rewrite Hp. simpl. by rewrite Hno.
  - intros [start' stop _ Hp' _ Hw|start' stop Hl]; [|congruence]. rewrite Hp in Hp'. injection Hp' as <-. lia.
  - intros. unfold commit_submission. rewrite (sbind_run _ _ _ _ _ Hreq). unfold sbind at 1, slift at 1. rewrite Hp.
    unfold sbind. by rewrite Hno.
Qed.

(** ** Witnesses *)

Definition demo_fast (id : string) (asset publish commit_by : string) : dict :=
  [("task_run_id", VStr id); ("lane", VStr "forecast_15m"); ("asset", VStr asset); ("publish_at", VStr publish);
   ("commit_deadline", VStr commit_by); ("reveal_deadline", VStr commit_by); ("resolve_at", VStr commit_by);
   ("pack_hash", VStr "sha256:00"); ("snapshot_health", VStr "full")].
(** One task that is open at second 10 and one that is published at second 60. *)
Definition demo_tasks : FakeRepository :=
  set_tab _tasks [("t1", demo_fast "t1" "ETH" "1970-01-01T00:00:00Z" "1970-01-01T00:01:00Z");
                  ("t2", demo_fast "t2" "BTC" "1970-01-01T00:01:00Z" "1970-01-01T00:02:00Z")] empty_repository.


Lemma active_tasks_are_the_open_ones_witness :
  exists cards, get_active_tasks 10000000 demo_tasks = (Ok cards, demo_tasks) /\ length cards = 1%nat /\
  exists opened closed, Permutation (avals (tab _tasks demo_tasks)) (opened ++ closed) /\
    Forall (open_at 10000000) opened /\ Forall (fun t => ~ open_at 10000000 t) closed /\
    exists listed, Permutation listed cards /\ Forall2 (fun task card => _task_card task = Ok card) opened listed.
Proof.
  eexists. split; [reflexivity|]. split; [reflexivity|].
  apply (active_tasks_are_the_open_ones 10000000 demo_tasks _ demo_tasks). reflexivity.
Defined.

Lemma unpublished_tasks_are_closed_witness :
  get_task_detail "t2" 10000000 demo_tasks = (Err (ValueError "task not found"), demo_tasks).
Proof.
  apply (unpublished_tasks_are_closed 10000000 demo_tasks "t2" (demo_fast "t2" "BTC" "1970-01-01T00:01:00Z" "1970-01-01T00:02:00Z"));
    [reflexivity|]. split; [reflexivity|]. exists 60000000. split; [reflexivity|lia].
Defined.
