(* ===== verification/Published.v ===== *)
(** * What a published batch promises

    Making a batch ready stores its payload and the pages of its rows.  Reading
    them back gives exactly the merged rows of the windows of the batch: the
    window rows, their merge, the paging, the artifact store and the resolution
    that the confirmation runs compose to the identity on the published rows. *)
From Stdlib Require Import ZArith Lia String Permutation.
From stdpp Require Import base list strings.
From S2P Require Import Prelude PyText PyFloat PyTime PyValue Canonical Repository RepositoryFacts.
From S2P Require Import Forecast RewardRows ChainAdapter Economic Paging Miners Submissions Settlement Windows.
From S2P Require Import PokerWindow Service Anchors AnchorFacts Footprint Protocol Settled Roots.
Open Scope Z_scope.

(** ** Rows of one kind and entity *)

Section Selection.
Context (sel : dict -> bool).

Definition selected (t : rows) : list dict := List.filter sel (avals t).

(** Storing a selected row where none was adds it; any other row changes nothing. *)
Lemma selected_put id row t :
  (forall old, aget id t = Some old -> sel old = false) -> sel row = true ->
  Permutation (selected (aset id row t)) (row :: selected t).
Proof.
  unfold selected. intros Hold Hrow. induction t as [|[k d] t IH]; cbn [aset avals fmap list_fmap map snd List.filter].
  - by rewrite Hrow.
  - cbn [aget] in Hold. destruct (keqb id k) eqn:E; cbn [avals fmap list_fmap map snd List.filter].
    + by rewrite Hrow, (Hold d).
    + destruct (sel d); [rewrite perm_swap; apply perm_skip|]; by apply IH.
Qed.

Lemma selected_other id row t :
  (forall old, aget id t = Some old -> sel old = false) -> sel row = false ->
  Permutation (selected (aset id row t)) (selected t).
Proof.
  unfold selected. intros Hold Hrow. induction t as [|[k d] t IH]; cbn [aset avals fmap list_fmap map snd List.filter].
  - by rewrite Hrow.
  - cbn [aget] in Hold. destruct (keqb id k) eqn:E; cbn [avals fmap list_fmap map snd List.filter].
    + by rewrite Hrow, (Hold d).
    + destruct (sel d); [apply perm_skip|]; by apply IH.
Qed.
End Selection.

(** ** Saving the pages *)

(** A page row of a batch, as the anchor stores it. *)
Definition is_page_of (entity : string) (a : dict) : bool :=
  field_is "entity_type" "settlement_batch" a && field_is "entity_id" entity a &&
  field_is "kind" SETTLEMENT_ANCHOR_PAGE_ARTIFACT_KIND a.

(** What [save_artifacts_bulk] does to the table for one row. *)
Definition bulk_step (t : rows) (entry : string * dict) : rows :=
  let '(id, row) := entry in
  match non_empty (aget id t) with
  | Some old => if _artifact_payload_unchanged old row then t else aset id (dupdate old row) t
  | None => aset id (dupdate [] row) t
  end.

Lemma bulk_table l s s' out :
  Forall (fun entry => aget "id" entry.2 = Some (VStr entry.1)) l ->
  save_artifacts_bulk (map snd l) s = (Ok out, s') ->
  tab _artifacts s' = fold_left bulk_step l (tab _artifacts s) /\ (forall t, t <> _artifacts -> tab t s' = tab t s).
Proof.
  revert s s' out. induction l as [|[id row] l IH]; intros s s' out Hids H; cbn [map save_artifacts_bulk mapS] in H.
  { by injection H as _ <-. }
  apply Forall_cons in Hids as [Hid Hids]. cbn [fst snd] in Hid.
  unfold save_artifacts_bulk in H. cbn [mapS snd] in H. fold (save_artifacts_bulk (map snd l)) in H.
  apply sbind_ok in H as (one & s1 & Hone & H). apply sbind_ok in H as (rest & s2 & Hrest & H). injection H as _ <-.
  apply IH in Hrest as [Ht Hother]; [|done].
  apply sbind_ok in Hone as (v & s3 & Hv & Hone). injection Hv as Hv <-. unfold dgetitem in Hv. rewrite Hid in Hv.
  injection Hv as <-. apply sbind_ok in Hone as (i & s3 & [= <- <-] & Hone).
  apply sbind_ok in Hone as (s4 & s3 & [= <- <-] & Hone). cbv zeta in Hone. cbn [fold_left]. unfold bulk_step at 2.
  destruct (non_empty (aget id (tab _artifacts s))) as [old|] eqn:Eold.
  - destruct (_artifact_payload_unchanged old row); [by injection Hone as _ <-|].
    injection Hone as _ <-. rewrite tab_set_tab_eq in Ht. split; [done|].
    intros t Hne. rewrite Hother by done. by apply tab_set_tab_ne.
  - injection Hone as _ <-. rewrite tab_set_tab_eq in Ht. split; [done|].
    intros t Hne. rewrite Hother by done. by apply tab_set_tab_ne.
Qed.

(** The rows of the pages of a batch, under their ids. *)
Definition page_entry (entity : string) (now : Z) (entry : string * dict) (page : dict) : Prop :=
  exists root, entry.2 = artifact_row entry.1 SETTLEMENT_ANCHOR_PAGE_ARTIFACT_KIND "settlement_batch" (VStr entity)
                           (VDict page) root now.

Lemma page_entry_put entity now entry page old :
  page_entry entity now entry page ->
  is_page_of entity (dupdate old entry.2) = true /\ dget (dupdate old entry.2) "payload_json" = VDict page.
Proof.
  intros [root ->]. unfold is_page_of, field_is. rewrite !dget_dupdate by nodup_keys. cbn. by rewrite String.eqb_refl.
Qed.

(** A stored row that is not a page of the batch differs from one. *)
Lemma page_entry_changed entity now entry page old :
  page_entry entity now entry page -> is_page_of entity old = false -> _artifact_payload_unchanged old entry.2 = false.
Proof.
  intros [root ->] Hold. unfold _artifact_payload_unchanged. cbn [forallb].
  destruct (py_eq (dget old "kind") _) eqn:E1; [|done]. destruct (py_eq (dget old "entity_type") _) eqn:E2; [|done].
  destruct (py_eq (dget old "entity_id") _) eqn:E3; [|done]. exfalso.
  assert (Heq : forall v x, py_eq v (VStr x) = true -> v = VStr x).
  { intros v x. destruct v; cbn; try discriminate. intros H. by apply String.eqb_eq in H as ->. }
  apply Heq in E1, E2, E3. unfold is_page_of, field_is in Hold. rewrite E1, E2, E3 in Hold. cbn in Hold.
  by rewrite String.eqb_refl in Hold.
Qed.

Definition payloads (l : list dict) : list value := map (fun a => dget a "payload_json") l.

Lemma bulk_step_page entity now entry page t :
  page_entry entity now entry page -> (forall old, aget entry.1 t = Some old -> is_page_of entity old = false) ->
  Permutation (payloads (selected (is_page_of entity) (bulk_step t entry)))
    (VDict page :: payloads (selected (is_page_of entity) t)) /\
  forall id, id <> entry.1 -> aget id (bulk_step t entry) = aget id t.
Proof.
  intros He Hold. destruct entry as [id row]. cbn [fst] in Hold.
  assert (exists old, bulk_step t (id, row) = aset id (dupdate old row) t) as [old ->].
  { unfold bulk_step. destruct (non_empty (aget id t)) as [old|] eqn:E; [|by eexists]. apply non_empty_some in E.
    pose proof (page_entry_changed entity now (id, row) page old He (Hold _ E)) as Hu. cbn [snd] in Hu. rewrite Hu. by eexists. }
  destruct (page_entry_put _ _ _ _ old He) as [Hsel Hpay]. cbn [snd] in *. split.
  - unfold payloads. rewrite (selected_put (is_page_of entity) id _ t Hold Hsel). cbn [map]. by rewrite Hpay.
  - intros i Hi. by apply aget_aset_ne.
Qed.

Lemma bulk_pages entity now entries pages : forall t,
  Forall2 (page_entry entity now) entries pages -> NoDup (map fst entries) ->
  (forall id old, In id (map fst entries) -> aget id t = Some old -> is_page_of entity old = false) ->
  Permutation (payloads (selected (is_page_of entity) (fold_left bulk_step entries t)))
    (map VDict pages ++ payloads (selected (is_page_of entity) t)).
Proof.
  intros t Hpages. revert t. induction Hpages as [|entry page entries pages He _ IH]; intros t Hnd Hold; [done|].
  cbn [map] in Hnd. apply NoDup_cons in Hnd as [Hn Hnd]. cbn [fold_left map app].
  destruct (bulk_step_page entity now entry page t He) as [Hp Hother].
  { intros old. apply Hold. by left. }
  rewrite IH; [|done|].
  - rewrite Hp. symmetry. apply Permutation_middle.
  - intros id old Hin. rewrite Hother; [apply Hold; by right|]. intros ->. apply Hn. by apply list_elem_of_In.
Qed.

(** The main artifact of the anchor is no page. *)
Lemma bulk_step_main entity t id row kind :
  (forall old, aget id t = Some old -> is_page_of entity old = false) ->
  NoDup (akeys row) -> aget "kind" row = Some (VStr kind) -> kind <> SETTLEMENT_ANCHOR_PAGE_ARTIFACT_KIND ->
  Permutation (selected (is_page_of entity) (bulk_step t (id, row))) (selected (is_page_of entity) t) /\
  forall i, i <> id -> aget i (bulk_step t (id, row)) = aget i t.
Proof.
  intros Hold Hnd Hkind Hne.
  assert (Hsel : forall old, is_page_of entity (dupdate old row) = false).
  { intros old. unfold is_page_of, field_is at 3. rewrite (dget_dupdate old row "kind"), Hkind by done. cbn [py_eq_str].
    apply String.eqb_neq in Hne. rewrite Hne. by rewrite andb_false_r. }
  unfold bulk_step. destruct (non_empty (aget id t)) as [old|];
    [destruct (_artifact_payload_unchanged old row); [done|]|];
    (split; [by apply selected_other|intros i Hi; by apply aget_aset_ne]).
Qed.

(** ** Listing them again *)

Lemma filter_true {A} (b : A -> bool) (l : list A) : filter (fun a => b a = true) l = List.filter b l.
Proof. induction l as [|a l IH]; [done|]. rewrite filter_cons. simpl. rewrite IH. by destruct (b a). Qed.

Lemma filter_filter {A} (f g : A -> bool) l : List.filter f (List.filter g l) = List.filter (fun a => g a && f a) l.
Proof. induction l as [|a l IH]; [done|]. simpl. destruct (g a); simpl; [by destruct (f a); rewrite IH|done]. Qed.

Lemma listed_pages entity s s' artifacts :
  list_artifacts_for_entity "settlement_batch" entity s = (Ok artifacts, s') ->
  Permutation (payloads_of SETTLEMENT_ANCHOR_PAGE_ARTIFACT_KIND artifacts)
    (payloads (selected (is_page_of entity) (tab _artifacts s))).
Proof.
  intros H. unfold list_artifacts_for_entity in H. apply sbind_ok in H as (items & s1 & [= <- <-] & H).
  injection H as H _. unfold sort_rows in H. apply py_sort_perm in H.
  unfold payloads_of, payloads, selected. apply Permutation_map. rewrite (filter_perm _ _ _ H), filter_true, filter_filter.
  done.
Qed.

(** ** Storing a payload and its pages *)

Lemma page_rows_entries entity prefix now i parts built : forall stored,
  pages_from i parts built ->
  page_artifact_rows prefix SETTLEMENT_ANCHOR_PAGE_ARTIFACT_KIND "settlement_batch" (VStr entity) (map fst built) now = Ok stored ->
  exists entries, stored = map snd entries /\ Forall2 (page_entry entity now) entries (map fst built) /\
    map fst entries = map (fun j => prefix +:+ string_of_Z (Z.of_nat j)) (seq i (length built)) /\
    Forall (fun entry => aget "id" entry.2 = Some (VStr entry.1)) entries.
Proof.
  intros stored Hp. revert stored. induction Hp as [|i part parts page pages Hpage _ IH]; intros stored H.
  { injection H as <-. by exists []. }
  unfold page_artifact_rows in H. cbn [map mapR] in H.
  apply rbind_ok in H as (row & Hrow & H). apply rbind_ok in H as (rest & Hrest & H). apply Ok_inj in H as <-.
  destruct (IH rest Hrest) as (entries & -> & Hf & Hids & Hall). 
  destruct (page_at_index _ _ _ Hpage) as (Hi & _ & _).
  apply rbind_ok in Hrow as (index & Hindex & Hrow). apply rbind_ok in Hrow as (text & Htext & Hrow).
  apply rbind_ok in Hrow as (root & _ & Hrow). apply Ok_inj in Hrow as <-.
  assert (index = VInt (Z.of_nat i)) as -> by (unfold dget, dget_or in Hi; unfold dgetitem in Hindex;
    destruct (aget "page_index" page.1); [injection Hindex as <-; done|done]).
  injection Htext as <-.
  eexists ((prefix +:+ string_of_Z (Z.of_nat i), _) :: entries). split_and!.
  - reflexivity.
  - constructor; [by eexists|done].
  - cbn [map length seq]. by rewrite Hids.
  - by constructor.
Qed.

(** No page of the batch is stored yet. *)
Definition no_pages (entity : string) (s : FakeRepository) : Prop :=
  forall id row, aget id (tab _artifacts s) = Some row -> is_page_of entity row = false.

Lemma no_pages_selected entity t :
  NoDup (akeys t) -> (forall id row, aget id t = Some row -> is_page_of entity row = false) ->
  selected (is_page_of entity) t = [].
Proof.
  intros Hnd H. unfold selected. destruct (List.filter (is_page_of entity) (avals t)) as [|d l] eqn:E; [done|].
  assert (Hin : In d (List.filter (is_page_of entity) (avals t))) by (rewrite E; by left).
  apply filter_In in Hin as [Hin Hd]. unfold avals in Hin. apply in_map_iff in Hin as ([id row] & <- & Hin).
  apply aget_NoDup in Hin; [|done]. cbn [snd] in Hd. by rewrite (H _ _ Hin) in Hd.
Qed.

Lemma page_ids_distinct (main : string) n i :
  NoDup (main :: map (fun j => (main +:+ ":miner_rewards:") +:+ string_of_Z (Z.of_nat j)) (seq i n)).
Proof.
  apply NoDup_cons. split.
  - rewrite list_elem_of_In, in_map_iff. intros (j & H & _). revert H. generalize (string_of_Z (Z.of_nat j)).
    clear. induction main as [|c main IH]; [done|]. intros t [= H]. by apply (IH t).
  - apply (NoDup_fmap_2_strong (fun j => (main +:+ ":miner_rewards:") +:+ string_of_Z (Z.of_nat j))); [|apply NoDup_seq].
    intros j1 j2 _ _ H. apply (inj (String.append (main +:+ ":miner_rewards:"))) in H.
    apply string_of_Z_inj in H. lia.
Qed.

Lemma stored_pages batch payload hash id now s s' row parts built :
  _upsert_settlement_anchor_artifact batch now (map fst built) s = (Ok row, s') ->
  dget batch "anchor_payload_json" = VDict payload -> payload <> [] -> aget "anchor_payload_hash" batch = Some hash ->
  aget "id" batch = Some (VStr id) -> pages_from 0 parts built ->
  NoDup (akeys (tab _artifacts s)) -> no_pages id s ->
  Permutation (payloads (selected (is_page_of id) (tab _artifacts s'))) (map VDict (map fst built)) /\
  (forall t, t <> _artifacts -> tab t s' = tab t s).
Proof.
  intros H Hpay Hne Hhash Hid Hbuilt Hnd Hfree. unfold _upsert_settlement_anchor_artifact in H. rewrite Hpay in H.
  assert (truthy (VDict payload) = true) as Ht by (by destruct payload). rewrite Ht in H. cbn [negb] in H.
  unfold dgetitem in H. rewrite Hid, Hhash in H.
  apply sbind_ok in H as (v & s1 & [= <- <-] & H). apply sbind_ok in H as (i & s1 & [= <- <-] & H). cbv zeta in H.
  apply sbind_ok in H as (h & s1 & [= <- <-] & H). apply sbind_ok in H as (stored & s1 & Hst & H). injection Hst as Hst <-.
  apply sbind_ok in H as (saved & s1 & Hsave & H).
  assert (s1 = s') as <- by (unfold row_with_id in H; destruct (List.find _ saved); by injection H as _ <-).
  clear H. set (main := "art:settlement_batch:" +:+ id +:+ ":anchor") in *.
  destruct (page_rows_entries id _ now 0 parts built stored Hbuilt Hst) as (entries & -> & Hpages & Hids & Hall).
  set (mrow := artifact_row main _ _ _ _ _ _) in Hsave.
  destruct (bulk_table ((main, mrow) :: entries) s s1 saved) as [Htab Hother]; [by constructor|exact Hsave|].
  split; [|done]. rewrite Htab. cbn [fold_left].
  destruct (bulk_step_main id (tab _artifacts s) main mrow "settlement_anchor_payload") as [Hmain Hkeep];
    [apply Hfree|nodup_keys|done|done|].
  pose proof (page_ids_distinct main (length built) 0) as Hdist.
  assert (Hdist' : NoDup (main :: map fst entries)).
  { by rewrite Hids. }
  apply NoDup_cons in Hdist' as [Hm Hdist'].
  rewrite (bulk_pages id now entries (map fst built)); [|done|done|].
  - unfold payloads. rewrite Hmain, no_pages_selected by done. by rewrite app_nil_r.
  - intros j old Hin. rewrite Hkeep; [apply Hfree|]. intros ->. apply Hm. by apply list_elem_of_In.
Qed.

(** ** The payload of a batch *)

Lemma paged_pages payload size projected pages :
  build_paged_poker_mtt_projection_payload payload size = Ok (projected, pages) ->
  projected <> [] /\ exists parts built, pages = map fst built /\ pages_from 0 parts built.
Proof.
  unfold build_paged_poker_mtt_projection_payload. intros H. apply rbind_ok in H as ([] & _ & H).
  apply rbind_ok in H as (rows & _ & H). apply rbind_ok in H as (root & _ & H).
  assert (Hne : forall k v d, dset d k v <> []) by (intros k v [|[k' v'] d]; [done|unfold dset; cbn [aset]; destruct (keqb k k'); discriminate]).
  destruct (Z.of_nat (length rows) <=? size).
  - apply Ok_inj in H as [= <- <-]. split; [apply Hne|]. exists [], []. split; [done|constructor].
  - apply rbind_ok in H as (built & Hb & H). apply Ok_inj in H as [= <- <-]. split; [apply Hne|].
    eexists _, built. split; [done|by apply build_pages_from].
Qed.

Lemma listed_cases k l : listed k l = [] \/ listed k l = [(k, VList (map VDict l))].
Proof. destruct l; [by left|by right]. Qed.

Lemma rows_field d (merged : list dict) :
  dget d "miner_reward_rows" = VList (map VDict merged) -> list_field d "miner_reward_rows" = Ok (map VDict merged).
Proof. unfold list_field. intros ->. by destruct merged. Qed.

Lemma anchor_paged settings batch id windows content anchor :
  build_anchor_payload settings batch id windows content = Ok anchor ->
  exists rows merged payload,
    mapR as_dict (content_rows content) = Ok rows /\ merge_reward_component_rows rows = Ok merged /\
    build_paged_poker_mtt_projection_payload payload (poker_mtt_projection_artifact_page_size settings) =
      Ok (anchor_json anchor, anchor_pages anchor) /\
    list_field payload "miner_reward_rows" = Ok (map VDict merged) /\ NoDup (akeys payload) /\
    truthy (dget payload "artifact_pages") = false.
Proof.
  unfold build_anchor_payload. intros H.
  apply rbind_ok in H as (task_ids & _ & H). apply rbind_ok in H as (rows & Hrows & H).
  apply rbind_ok in H as (merged & Hmerged & H). apply rbind_ok in H as (windows' & _ & H).
  apply rbind_ok in H as (projections & _ & H). apply rbind_ok in H as (reputations & _ & H).
  apply rbind_ok in H as (root_input & Hroot & H). apply rbind_ok in H as (root & _ & H).
  apply rbind_ok in H as ([json pages] & Hpaged & H). apply rbind_ok in H as (hash & _ & H). apply Ok_inj in H as <-.
  eexists rows, merged, _. split; [done|]. split; [done|]. split; [exact Hpaged|]. clear Hpaged.
  unfold canonical_root_input in Hroot.
  apply rbind_ok in Hroot as (r1 & _ & Hroot). apply rbind_ok in Hroot as (r2 & _ & Hroot).
  apply rbind_ok in Hroot as (r3 & _ & Hroot). apply rbind_ok in Hroot as (p & Hp & Hroot).
  apply rbind_ok in Hroot as (q & Hq & Hroot). apply Ok_inj in Hroot as <-.
  assert (Hp' : p = [] \/ exists v, p = [("poker_projection_roots_root", v)]).
  { destruct projections; [injection Hp as <-; by left|]. apply rbind_ok in Hp as (h & _ & Hp). apply Ok_inj in Hp as <-.
    right. by eexists. }
  assert (Hq' : q = [] \/ exists v w, q = [("reputation_delta_policy_version", v); ("reputation_delta_rows_root", w)]).
  { destruct reputations; [injection Hq as <-; by left|]. apply rbind_ok in Hq as (h & _ & Hq). apply Ok_inj in Hq as <-.
    right. by eexists _, _. }
  destruct Hp' as [->|[v ->]], Hq' as [->|(w & u & ->)],
    (listed_cases "poker_projection_roots" projections) as [-> | ->],
    (listed_cases "reputation_delta_window_roots" reputations) as [-> | ->];
    (split; [by apply rows_field|split; [nodup_keys|done]]).
Qed.

(** ** Publishing *)

Lemma reads_add_window p c w : touches [] false (add_window p c w).
Proof. unfold add_window, forecast_window_rows, list_artifacts_for_entity, all_rows. footprint. Qed.

Lemma reads_content p windows c s t : tab t (foldS (add_window p) windows c s).2 = tab t s.
Proof.
  pose proof (touches_foldS [] false (add_window p) windows c (fun c w => reads_add_window p c w) s) as [H _].
  apply H. intros [].
Qed.

(** The rows that the windows of a batch contribute. *)
Definition window_rows (batch : dict) (s : FakeRepository) (rows : list dict) : Prop :=
  exists lane windows content,
    str_or_empty (dget batch "lane") = Ok lane /\
    as_list (dget_or batch "reward_window_ids" (VList [])) = Ok windows /\
    (foldS (add_window (str_startswith "poker_mtt_" lane)) windows empty_content s).1 = Ok content /\
    mapR as_dict (content_rows content) = Ok rows.

Lemma publish_stores self id now batch s r s' :
  aget "id" batch = Some (VStr id) -> truthy (dget batch "canonical_root") = false ->
  NoDup (akeys (tab _artifacts s)) -> no_pages id s ->
  make_anchor_ready self id now batch s = (Ok r, s') ->
  exists rows merged payload projected pages size batch',
    window_rows batch s rows /\ merge_reward_component_rows rows = Ok merged /\
    build_paged_poker_mtt_projection_payload payload size = Ok (projected, pages) /\
    list_field payload "miner_reward_rows" = Ok (map VDict merged) /\ NoDup (akeys payload) /\
    truthy (dget payload "artifact_pages") = false /\
    aget id (tab _settlement_batches s') = Some batch' /\ dget batch' "state" = VStr "anchor_ready" /\
    dget batch' "anchor_payload_json" = VDict projected /\
    Permutation (payloads (selected (is_page_of id) (tab _artifacts s'))) (map VDict pages).
Proof.
  intros Hid Hroot Hnd Hfree H. unfold make_anchor_ready in H. rewrite Hroot in H.
  apply sbind_ok in H as (anchorable & s1 & [= _ <-] & H). apply sbind_ok in H as (u1 & s1 & [= _ <-] & H).
  apply sbind_ok in H as (lane & s1 & Hlane & H). injection Hlane as Hlane <-. cbv zeta in H.
  apply sbind_ok in H as (u2 & s1 & [= _ <-] & H).
  apply sbind_ok in H as (windows & s1 & Hw & H). injection Hw as Hw <-.
  apply sbind_ok in H as (content & s1 & Hc & H).
  pose proof (reads_content (str_startswith "poker_mtt_" lane) windows empty_content s) as Hsame.
  rewrite Hc in Hsame. cbn [snd] in Hsame.
  apply sbind_ok in H as (anchor & s2 & Ha & H). injection Ha as Ha <-.
  apply sbind_ok in H as (u3 & s2 & [= _ <-] & H). cbn [andb] in H.
  destruct (anchor_paged _ _ _ _ _ _ Ha) as (rows & merged & payload & Hrows & Hmerged & Hpaged & Hfield & Hkeys & Hno).
  destruct (paged_pages _ _ _ _ Hpaged) as (Hne & parts & built & Hbuilt & Hfrom).
  apply sbind_ok in H as (art & s2 & Hup & H). rewrite Hbuilt in Hup.
  match type of Hup with _upsert_settlement_anchor_artifact (dupdate _ ?u) _ _ _ = _ =>
    set (fields := u) in Hup; assert (Hfields : NoDup (akeys fields)) by nodup_keys end.
  set (candidate := dupdate batch fields) in Hup.
  destruct (stored_pages candidate (anchor_json anchor) (VStr (anchor_hash anchor)) id now s1 s2 art parts built Hup)
    as [Hperm Htabs].
  { unfold candidate. by rewrite dget_dupdate. }
  { done. }
  { unfold candidate. by rewrite aget_dupdate. }
  { unfold candidate. by rewrite aget_dupdate. }
  { done. }
  { by rewrite Hsame. }
  { intros i row. rewrite Hsame. apply Hfree. }
  apply sbind_ok in H as (saved & s3 & Hmark & H). injection H as _ <-.
  apply sbind_ok in Hmark as (u4 & s4 & Hreq & Hmark).
  assert (s4 = s2) as -> by (unfold require_batch, require_row in Hreq; apply sbind_ok in Hreq as (x & y & [= <- <-] & Hreq);
    by destruct (ahas _ _); injection Hreq as _ <-).
  unfold save_settlement_batch in Hmark. 
  match type of Hmark with save_row _ ?u _ = _ => set (up := u) in Hmark end.
  unfold save_row in Hmark. rewrite (save_keyed_run _ _ _ _ id) in Hmark by done. injection Hmark as _ <-.
  assert (Hup' : NoDup (akeys up)) by nodup_keys.
  exists rows, merged, payload, (anchor_json anchor), (anchor_pages anchor),
    (poker_mtt_projection_artifact_page_size (settings self)). eexists.
  split_and!; try done.
  - exists lane, windows, content. split_and!; [done..|by rewrite Hc|done].
  - rewrite tab_set_tab_eq. apply aget_aset_eq.
  - by apply merged_dget.
  - by apply merged_dget.
  - rewrite tab_set_tab_ne by done. by rewrite Hperm, Hbuilt.
Qed.

(** C5: What a newly published batch stores is what its windows earned: the rows
    that are read back from its payload and the artifact store, as the
    confirmation reads them, are the merge of the rows of its windows, whatever
    the page size and the order of the store. *)
Theorem published_rows_resolve self id now batch s r s' artifacts s'' :
  aget "id" batch = Some (VStr id) -> truthy (dget batch "canonical_root") = false ->
  NoDup (akeys (tab _artifacts s)) -> no_pages id s ->
  make_anchor_ready self id now batch s = (Ok r, s') ->
  list_artifacts_for_entity "settlement_batch" id s' = (Ok artifacts, s'') ->
  exists rows merged payload batch',
    window_rows batch s rows /\ merge_reward_component_rows rows = Ok merged /\
    aget id (tab _settlement_batches s') = Some batch' /\ dget batch' "state" = VStr "anchor_ready" /\
    dget batch' "anchor_payload_json" = VDict payload /\
    resolve_settlement_anchor_reward_rows payload artifacts = Ok (map VDict merged).
Proof.
  intros Hid Hroot Hnd Hfree H Hlist. apply listed_pages in Hlist.
  destruct (publish_stores _ _ _ _ _ _ _ Hid Hroot Hnd Hfree H)
    as (rows & merged & payload & projected & pages & size & batch' & Hrows & Hm & Hp & Hf & Hk & Hno & Hb & Hst & Hj & Hs).
  exists rows, merged, projected, batch'. split_and!; [done..|].
  apply (paging_inverse payload projected size pages (map VDict merged) artifacts); [done..|].
  etransitivity; [exact Hlist|exact Hs].
Qed.

(** ** An example *)

(** One window of two miners. *)
Definition demo_window_rows : list value :=
  map (fun kv => VDict [("miner_address", VStr kv.1); ("gross_reward_amount", VInt kv.2)]) [("a", 3); ("b", 4)].
Definition demo_membership : dict :=
  [("id", VStr "art:w"); ("kind", VStr "reward_window_membership"); ("entity_type", VStr "reward_window");
   ("entity_id", VStr "rw_1"); ("payload_json", VDict [("miner_reward_rows", VList demo_window_rows)])].
Definition demo_open_batch : dict :=
  [("id", VStr "sb_1"); ("state", VStr "open"); ("lane", VStr "forecast_15m");
   ("reward_window_ids", VList [VStr "rw_1"]); ("total_reward_amount", VInt 7)].
Definition demo_open_store : FakeRepository :=
  set_tab _settlement_batches [("sb_1", demo_open_batch)]
    (set_tab _reward_windows [("rw_1", [("id", VStr "rw_1")])]
      (set_tab _artifacts [("art:w", demo_membership)] empty_repository)).

Definition demo_published : res dict * FakeRepository :=
  make_anchor_ready Roots.demo_service "sb_1" 0 demo_open_batch demo_open_store.
Definition demo_listed : res (list dict) * FakeRepository := list_artifacts_for_entity "settlement_batch" "sb_1" demo_published.2.

Lemma demo_publishes : is_ok demo_published.1 = true.
Proof. reflexivity. Qed.

Lemma demo_lists : is_ok demo_listed.1 = true.
Proof. reflexivity. Qed.

Lemma published_rows_resolve_witness :
  exists artifacts rows merged payload batch',
    demo_listed.1 = Ok artifacts /\
    window_rows demo_open_batch demo_open_store rows /\ merge_reward_component_rows rows = Ok merged /\
    aget "sb_1" (tab _settlement_batches demo_published.2) = Some batch' /\
    dget batch' "anchor_payload_json" = VDict payload /\
    resolve_settlement_anchor_reward_rows payload artifacts = Ok (map VDict merged).
Proof.
  pose proof demo_publishes as Hok. pose proof demo_lists as Hlist.
  assert (Hrun : make_anchor_ready Roots.demo_service "sb_1" 0 demo_open_batch demo_open_store = demo_published) by reflexivity.
  assert (Hl : list_artifacts_for_entity "settlement_batch" "sb_1" demo_published.2 = demo_listed) by reflexivity.
  revert Hok Hlist Hrun Hl. generalize demo_published demo_listed. intros [[r|e] s'] [[artifacts|e'] s''] Hok Hlist Hrun Hl;
    [|discriminate Hlist|discriminate Hok|discriminate Hok].
  destruct (published_rows_resolve Roots.demo_service "sb_1" 0 demo_open_batch demo_open_store r s' artifacts s'')
    as (rows & merged & payload & batch' & H1 & H2 & H3 & _ & H4 & H5).
  - reflexivity.
  - reflexivity.
  - nodup_keys.
  - intros id row. change (tab _artifacts demo_open_store) with [("art:w", demo_membership)]. cbn [aget].
    destruct (keqb id "art:w"); [by intros [= <-]|done].
  - exact Hrun.
  - exact Hl.
  - exists artifacts, rows, merged, payload, batch'.
    exact (conj eq_refl (conj H1 (conj H2 (conj H3 (conj H4 H5))))).
Defined.
