(* ===== verification/Config.v ===== *)
(** * Configuration ([config.py])

    The settings of the server, read from the environment.  The environment is
    a function of the names; the settings are the dictionary of the fields of
    [AppSettings] in the order of the class. *)
From Stdlib Require Import ZArith Lia Ascii String.
From stdpp Require Import base list strings.
From S2P Require Import Prelude PyText PyFloat PyValue.
Open Scope Z_scope.

Section Env.
Context (getenv : string -> option string).

(** [os.getenv(name, default)], and [os.getenv(name)] *)
Definition getenv_or (name dflt : string) : string := default dflt (getenv name).
Definition getenv_value (name : string) : value := vopt_str (getenv name).

Definition _csv_env (name : string) (dflt : list string) : list string :=
  match getenv name with
  | None => dflt
  | Some raw =>
      if String.eqb raw "" then dflt
      else
        let items := List.filter (fun item => negb (String.eqb item "")) (map str_strip (str_split "," raw)) in
        match items with [] => dflt | _ => items end
  end.

Definition is_off (raw : string) : bool := existsb (String.eqb raw) ["0"; "false"; "False"].

Definition _bool_env (name : string) (dflt : bool) : bool :=
  match getenv name with
  | None => dflt
  | Some raw => if String.eqb raw "" then dflt else negb (is_off raw)
  end.

Definition _optional_int_env (name : string) : res value :=
  match getenv name with
  | None => Ok VNone
  | Some raw => if String.eqb raw "" then Ok VNone else let? n := py_int (VStr raw) in Ok (VInt n)
  end.

Definition local_envs : list string := ["local"; "dev"; "development"; "test"].

Definition _admin_auth_default : bool :=
  negb (existsb (String.eqb (str_lower (getenv_or "CLAWCHAIN_ENV" "local"))) local_envs).

Definition _anchor_reconcile_loop_default : bool :=
  negb (existsb (String.eqb (str_lower (getenv_or "CLAWCHAIN_ENV" "local"))) local_envs).

Definition _forecast_progression_loop_default : bool := true.

(** [int(os.getenv(name, default))], [float(os.getenv(name, default))] *)
Definition int_env (name dflt : string) : res value :=
  let? n := py_int (VStr (getenv_or name dflt)) in Ok (VInt n).
Definition float_env (name dflt : string) : res value :=
  let? x := py_float (VStr (getenv_or name dflt)) in Ok (VFloat x).
Definition str_env (name dflt : string) : res value := Ok (VStr (getenv_or name dflt)).
Definition bool_env (name : string) (dflt : bool) : res value := Ok (VBool (_bool_env name dflt)).

Definition cors_default : list string :=
  ["http://127.0.0.1:3000"; "http://localhost:3000"; "http://127.0.0.1:3001"; "http://localhost:3001";
   "https://0xverybigorange.github.io"].

(** The fields of [AppSettings] with their defaults. *)
Definition AppSettings : list (string * res value) :=
  [("runtime_env", Ok (getenv_value "CLAWCHAIN_ENV"));
   ("bind_host", str_env "CLAWCHAIN_BIND_HOST" "127.0.0.1");
   ("database_url", Ok (getenv_value "CLAWCHAIN_DATABASE_URL"));
   ("live_market_data_enabled", Ok (VBool (negb (is_off (getenv_or "CLAWCHAIN_LIVE_MARKET_DATA_ENABLED" "1")))));
   ("market_data_timeout_seconds", float_env "CLAWCHAIN_MARKET_DATA_TIMEOUT_SECONDS" "8.0");
   ("fast_task_live_build_timeout_seconds", float_env "CLAWCHAIN_FAST_TASK_LIVE_BUILD_TIMEOUT_SECONDS" "2.0");
   ("binance_base_url", str_env "CLAWCHAIN_BINANCE_BASE_URL" "https://api.binance.com");
   ("polymarket_gamma_url", str_env "CLAWCHAIN_POLYMARKET_GAMMA_URL" "https://gamma-api.polymarket.com");
   ("polymarket_clob_url", str_env "CLAWCHAIN_POLYMARKET_CLOB_URL" "https://clob.polymarket.com");
   ("fast_task_seconds", int_env "CLAWCHAIN_FAST_TASK_SECONDS" "900");
   ("fast_task_prewarm_seconds", int_env "CLAWCHAIN_FAST_TASK_PREWARM_SECONDS" "10");
   ("commit_window_seconds", int_env "CLAWCHAIN_COMMIT_WINDOW_SECONDS" "3");
   ("reveal_window_seconds", int_env "CLAWCHAIN_REVEAL_WINDOW_SECONDS" "13");
   ("daily_cutoff_hour_utc", int_env "CLAWCHAIN_DAILY_CUTOFF_HOUR_UTC" "0");
   ("poker_mtt_reward_windows_enabled", bool_env "CLAWCHAIN_POKER_MTT_REWARD_WINDOWS_ENABLED" false);
   ("poker_mtt_settlement_anchoring_enabled", bool_env "CLAWCHAIN_POKER_MTT_SETTLEMENT_ANCHORING_ENABLED" false);
   ("poker_mtt_daily_reward_pool_amount", int_env "CLAWCHAIN_POKER_MTT_DAILY_REWARD_POOL_AMOUNT" "0");
   ("poker_mtt_weekly_reward_pool_amount", int_env "CLAWCHAIN_POKER_MTT_WEEKLY_REWARD_POOL_AMOUNT" "0");
   ("poker_mtt_finalization_watermark_seconds", int_env "CLAWCHAIN_POKER_MTT_FINALIZATION_WATERMARK_SECONDS" "21600");
   ("poker_mtt_daily_policy_bundle_version",
    str_env "CLAWCHAIN_POKER_MTT_DAILY_POLICY_BUNDLE_VERSION" "poker_mtt_daily_policy_v1");
   ("poker_mtt_weekly_policy_bundle_version",
    str_env "CLAWCHAIN_POKER_MTT_WEEKLY_POLICY_BUNDLE_VERSION" "poker_mtt_weekly_policy_v1");
   ("poker_mtt_projection_artifact_page_size", int_env "CLAWCHAIN_POKER_MTT_PROJECTION_ARTIFACT_PAGE_SIZE" "5000");
   ("poker_mtt_reward_window_reconcile_lookback_days",
    int_env "CLAWCHAIN_POKER_MTT_REWARD_WINDOW_RECONCILE_LOOKBACK_DAYS" "35");
   ("legacy_arena_apply_enabled", bool_env "CLAWCHAIN_LEGACY_ARENA_APPLY_ENABLED" false);
   ("baseline_pm_weight", float_env "CLAWCHAIN_BASELINE_PM_WEIGHT" "0.85");
   ("baseline_bin_weight", float_env "CLAWCHAIN_BASELINE_BIN_WEIGHT" "0.15");
   ("max_binance_snapshot_freshness_seconds", int_env "CLAWCHAIN_MAX_BINANCE_SNAPSHOT_FRESHNESS_SECONDS" "30");
   ("max_polymarket_snapshot_freshness_seconds", int_env "CLAWCHAIN_MAX_POLYMARKET_SNAPSHOT_FRESHNESS_SECONDS" "30");
   ("min_p_yes_bps", int_env "CLAWCHAIN_MIN_P_YES_BPS" "1500");
   ("max_p_yes_bps", int_env "CLAWCHAIN_MAX_P_YES_BPS" "8500");
   ("min_miner_version", str_env "CLAWCHAIN_MIN_MINER_VERSION" "0.4.0");
   ("server_version", str_env "CLAWCHAIN_SERVER_VERSION" "1.0.0-alpha");
   ("protocol", str_env "CLAWCHAIN_PROTOCOL" "clawchain-forecast-v1");
   ("chain_binary", str_env "CLAWCHAIN_CHAIN_BINARY" "clawchaind");
   ("chain_id", str_env "CLAWCHAIN_CHAIN_ID" "clawchain-testnet-1");
   ("chain_node_rpc", str_env "CLAWCHAIN_CHAIN_NODE_RPC" "tcp://127.0.0.1:26657");
   ("anchor_key_name", Ok (getenv_value "CLAWCHAIN_ANCHOR_KEY_NAME"));
   ("anchor_keyring_dir", Ok (getenv_value "CLAWCHAIN_ANCHOR_KEYRING_DIR"));
   ("anchor_keyring_backend", str_env "CLAWCHAIN_ANCHOR_KEYRING_BACKEND" "test");
   ("anchor_to_address", Ok (getenv_value "CLAWCHAIN_ANCHOR_TO_ADDRESS"));
   ("anchor_amount", str_env "CLAWCHAIN_ANCHOR_AMOUNT" "1uclaw");
   ("anchor_fees", str_env "CLAWCHAIN_ANCHOR_FEES" "10uclaw");
   ("anchor_gas", str_env "CLAWCHAIN_ANCHOR_GAS" "200000");
   ("anchor_offline_signing", bool_env "CLAWCHAIN_ANCHOR_OFFLINE_SIGNING" true);
   ("anchor_account_number", _optional_int_env "CLAWCHAIN_ANCHOR_ACCOUNT_NUMBER");
   ("anchor_sequence_override", _optional_int_env "CLAWCHAIN_ANCHOR_SEQUENCE_OVERRIDE");
   ("anchor_reconcile_loop_enabled",
    bool_env "CLAWCHAIN_ANCHOR_RECONCILE_LOOP_ENABLED" _anchor_reconcile_loop_default);
   ("anchor_reconcile_loop_interval_seconds", float_env "CLAWCHAIN_ANCHOR_RECONCILE_LOOP_INTERVAL_SECONDS" "15.0");
   ("anchor_reconcile_loop_error_alert_threshold",
    int_env "CLAWCHAIN_ANCHOR_RECONCILE_LOOP_ERROR_ALERT_THRESHOLD" "3");
   ("forecast_progression_loop_enabled",
    bool_env "CLAWCHAIN_FORECAST_PROGRESSION_LOOP_ENABLED" _forecast_progression_loop_default);
   ("forecast_progression_loop_interval_seconds",
    float_env "CLAWCHAIN_FORECAST_PROGRESSION_LOOP_INTERVAL_SECONDS" "5.0");
   ("forecast_progression_loop_error_alert_threshold",
    int_env "CLAWCHAIN_FORECAST_PROGRESSION_LOOP_ERROR_ALERT_THRESHOLD" "3");
   ("anchor_pending_confirmation_warning_seconds",
    float_env "CLAWCHAIN_ANCHOR_PENDING_CONFIRMATION_WARNING_SECONDS" "120.0");
   ("admin_auth_enabled", bool_env "CLAWCHAIN_ADMIN_AUTH_ENABLED" _admin_auth_default);
   ("admin_auth_token", Ok (getenv_value "CLAWCHAIN_ADMIN_AUTH_TOKEN"));
   ("allow_insecure_admin_without_auth", bool_env "CLAWCHAIN_ALLOW_INSECURE_ADMIN_WITHOUT_AUTH" false);
   ("cors_allowed_origins", Ok (VList (map VStr (_csv_env "CLAWCHAIN_CORS_ALLOWED_ORIGINS" cors_default))))].

Definition load_settings : res dict := mapR (fun kv => let? v := kv.2 in Ok (kv.1, v)) AppSettings.
End Env.
