(* ===== verification/CryptoAuth.v ===== *)
(** * Identity of a miner ([crypto_auth.py])

    The address of a public key in Bech32, the payload and the check of a
    signature, and the nonces against replay.  The curve library [eth_keys] is
    a record of functions, and RIPEMD-160, which [hashlib.new] takes from
    OpenSSL, a function: both are arguments.  The table of the miners that the
    nonces are kept in is an association of addresses with nonces. *)
From Stdlib Require Import ZArith Lia Ascii String.
From stdpp Require Import base list strings.
From S2P Require Import Prelude PyText PyFloat PyValue Sha256 Json ChainClient.
Open Scope Z_scope.

(** ** Bech32 *)

Definition _BECH32_CHARSET : string := "qpzry9x8gf2tvdw0s3jn54khce6mua7l".

Definition GEN : list Z := [0x3b6a57b2; 0x26508e6d; 0x1ea119fa; 0x3d4233dd; 0x2a1462b3].

(** [for i in range(5): chk ^= GEN[i] if ((b >> i) & 1) else 0] *)
Definition generators (b : Z) : Z :=
  foldr Z.lxor 0 (imap (fun i g => if Z.testbit b (Z.of_nat i) then g else 0) GEN).

Definition polymod_step (chk v : Z) : Z :=
  let b := Z.shiftr chk 25 in
  Z.lxor (Z.lxor (Z.shiftl (Z.land chk 0x1FFFFFF) 5) v) (generators b).

Definition _bech32_polymod (values : list Z) : Z := fold_left polymod_step values 1.

Definition _bech32_hrp_expand (hrp : string) : list Z :=
  map (fun c => Z.shiftr (code c) 5) (chars hrp) ++ [0] ++ map (fun c => Z.land (code c) 31) (chars hrp).

Definition _bech32_create_checksum (hrp : string) (data : list Z) : list Z :=
  let values := _bech32_hrp_expand hrp ++ data in
  let polymod := Z.lxor (_bech32_polymod (values ++ [0; 0; 0; 0; 0; 0])) 1 in
  map (fun i => Z.land (Z.shiftr polymod (5 * (5 - i))) 31) [0; 1; 2; 3; 4; 5].

(** [while bits >= tobits: ...]: the emitted groups and the bits that are left;
    each round takes [tobits] bits, so [bits] rounds are enough. *)
Fixpoint emit (fuel : nat) (tobits acc bits : Z) : list Z * Z :=
  match fuel with
  | O => ([], bits)
  | S fuel =>
      if tobits <=? bits then
        let bits := bits - tobits in
        let '(l, rest) := emit fuel tobits acc bits in
        (Z.land (Z.shiftr acc bits) (2 ^ tobits - 1) :: l, rest)
      else ([], bits)
  end.

Definition convert_step (frombits tobits : Z) (state : Z * Z * list Z) (value : Z) : Z * Z * list Z :=
  let '(acc, bits, ret) := state in
  let acc := Z.lor (Z.shiftl acc frombits) value in
  let bits := bits + frombits in
  let '(l, bits) := emit (Z.to_nat bits) tobits acc bits in
  (acc, bits, ret ++ l).

Definition _convertbits (data : list Z) (frombits tobits : Z) (pad : bool) : list Z :=
  let '(acc, bits, ret) := fold_left (convert_step frombits tobits) data (0, 0, []) in
  if pad && negb (bits =? 0)
  then ret ++ [Z.land (Z.shiftl acc (tobits - bits)) (2 ^ tobits - 1)]
  else ret.

(** [_BECH32_CHARSET[d]] *)
Definition charset_at (d : Z) : res ascii := of_option (chars _BECH32_CHARSET !! Z.to_nat d) IndexError.

Definition _bech32_encode (hrp : string) (data_bytes : list Z) : res string :=
  let data5 := _convertbits data_bytes 8 5 true in
  let combined := data5 ++ _bech32_create_checksum hrp data5 in
  let? text := mapR charset_at combined in
  Ok (hrp +:+ "1" +:+ of_chars text).

(** ** Addresses *)

Definition fromhex (s : string) : res (list Z) :=
  of_option (bytes_fromhex (chars s)) (ValueError "non-hexadecimal number found in fromhex() arg").

Definition pubkey_to_compressed (pubkey_hex : string) : res (list Z) :=
  let? pub_bytes := fromhex (str_removeprefix "0x" pubkey_hex) in
  let n := length pub_bytes in
  let? _ := guard (n =? 64)%nat
              (ValueError ("expected 64-byte uncompressed key, got " +:+ string_of_Z (Z.of_nat n))) in
  let x := take 32 pub_bytes in
  let y := drop 32 pub_bytes in
  let? last_y := of_option (last y) IndexError in
  Ok ((if Z.even last_y then 2 else 3) :: x).

Section Addresses.
Context (ripemd160 : list Z -> res (list Z)) (str_exc : exn -> string).

Definition derive_address_from_pubkey (pubkey_hex : string) : res string :=
  let? compressed := pubkey_to_compressed pubkey_hex in
  let? ripemd := ripemd160 (sha256 compressed) in
  _bech32_encode "claw" ripemd.

Definition verify_address_pubkey_binding (address pubkey_hex : string) : bool * string :=
  match derive_address_from_pubkey pubkey_hex with
  | Ok expected_address =>
      if negb (String.eqb address expected_address)
      then (false, "address does not match public key: expected " +:+ expected_address +:+ ", got " +:+ address)
      else (true, "")
  | Err e => (false, "address/pubkey verification failed: " +:+ str_exc e)
  end.
End Addresses.

(** ** Signatures *)

Definition build_sign_payload (challenge_id answer miner_address : string) (nonce : Z) : list Z :=
  sha256 (utf8 (challenge_id +:+ "|" +:+ answer +:+ "|" +:+ miner_address +:+ "|" +:+ string_of_Z nonce)).

(** What the code uses of [eth_keys]. *)
Record EthKeys (Signature PublicKey : Type) := {
  new_signature : list Z -> res Signature;
  new_public_key : list Z -> res PublicKey;
  recover_public_key : Signature -> list Z -> res PublicKey;
  same_key : PublicKey -> PublicKey -> bool
}.
Arguments new_signature {Signature PublicKey} _ _.
Arguments new_public_key {Signature PublicKey} _ _.
Arguments recover_public_key {Signature PublicKey} _ _ _.
Arguments same_key {Signature PublicKey} _ _ _.

Section Signatures.
Context {Signature PublicKey : Type} (eth_keys : EthKeys Signature PublicKey) (str_exc : exn -> string).

Definition verify_signature (challenge_id answer miner_address : string) (nonce : Z)
  (signature_hex expected_pubkey_hex : string) : bool * string :=
  let msg_hash := build_sign_payload challenge_id answer miner_address nonce in
  match bytes_fromhex (chars (str_removeprefix "0x" signature_hex)) with
  | None => (false, "signature is not valid hex")
  | Some sig_bytes =>
      if negb (length sig_bytes =? 65)%nat
      then (false, "signature must be 65 bytes, got " +:+ string_of_Z (Z.of_nat (length sig_bytes)))
      else
        match (let? sig := new_signature eth_keys sig_bytes in recover_public_key eth_keys sig msg_hash) with
        | Err e => (false, "signature verification failed: " +:+ str_exc e)
        | Ok recovered_pub =>
            match (let? b := fromhex (str_removeprefix "0x" expected_pubkey_hex) in new_public_key eth_keys b) with
            | Err _ => (false, "registered public key is invalid")
            | Ok expected_pub =>
                if negb (same_key eth_keys recovered_pub expected_pub)
                then (false, "signature does not match registered public key")
                else (true, "")
            end
        end
  end.
End Signatures.

(** ** Nonces *)

(** The last nonce of each miner; [None] is the SQL null. *)
Definition nonces : Type := list (string * option Z).

Definition check_nonce (db : nonces) (miner_address : string) (nonce now_ms : Z) : bool * string :=
  match aget miner_address db with
  | None => (false, "miner not found")
  | Some row =>
      let last_nonce := default 0 row in
      if nonce <=? last_nonce
      then (false, "nonce " +:+ string_of_Z nonce +:+ " is not greater than last nonce " +:+ string_of_Z last_nonce +:+
                   " (replay rejected)")
      else if now_ms + 300000 <? nonce then (false, "nonce too far in future (max 5 min ahead)")
      else (true, "")
  end.

(** [UPDATE miners SET last_nonce=? WHERE address=?] *)
Definition update_nonce (db : nonces) (miner_address : string) (nonce : Z) : nonces :=
  match aget miner_address db with Some _ => aset miner_address (Some nonce) db | None => db end.
