(* ===== verification/CryptoFacts.v ===== *)
(** * Addresses bind the keys of the miners

    Module [BIP173] writes Bech32 out from its standard: the field of 32
    elements, the generator polynomial, the expansion of the prefix and the
    letters.  The text that [_bech32_encode] gives is valid there, and it
    determines the bytes; so an address is the one of one compressed key, or two
    inputs of a hash function collide. *)
From Stdlib Require Import ZArith Lia Ascii String.
From stdpp Require Import base list strings.
From S2P Require Import Prelude PyText PyFloat PyValue Sha256 Json ChainClient ClientFacts CryptoAuth.
Open Scope Z_scope.

(** ** The checksum *)

Lemma shiftr_small a n : 0 <= n -> 0 <= a < 2 ^ n -> Z.shiftr a n = 0.
Proof. intros Hn Ha. rewrite Z.shiftr_div_pow2 by done. by apply Z.div_small. Qed.

Lemma lxor_bound n a b : 0 <= n -> 0 <= a < 2 ^ n -> 0 <= b < 2 ^ n -> 0 <= Z.lxor a b < 2 ^ n.
Proof.
  intros Hn Ha Hb. assert (Hx : 0 <= Z.lxor a b) by (apply Z.lxor_nonneg; lia). split; [done|].
  assert (H : Z.shiftr (Z.lxor a b) n = 0) by (rewrite Z.shiftr_lxor, !shiftr_small by done; done).
  rewrite Z.shiftr_div_pow2 in H by done. pose proof (Z.pow_pos_nonneg 2 n ltac:(lia) Hn).
  pose proof (Z.div_mod (Z.lxor a b) (2 ^ n) ltac:(lia)). pose proof (Z.mod_pos_bound (Z.lxor a b) (2 ^ n) ltac:(lia)). lia.
Qed.

Lemma land_lxor a b m : Z.land (Z.lxor a b) m = Z.lxor (Z.land a m) (Z.land b m).
Proof. apply Z.bits_inj'. intros n Hn. rewrite !Z.land_spec, !Z.lxor_spec, !Z.land_spec. by destruct (Z.testbit a n), (Z.testbit b n), (Z.testbit m n). Qed.

(** A difference in the low bits stays a difference: it is shifted, and no
    generator depends on it. *)
Lemma polymod_step_lxor c d w : 0 <= d < 2 ^ 25 ->
  polymod_step (Z.lxor c d) w = Z.lxor (polymod_step c 0) (Z.lxor (Z.shiftl d 5) w).
Proof.
  intros Hd. unfold polymod_step. cbv zeta. rewrite Z.shiftr_lxor, (shiftr_small d 25), Z.lxor_0_r by (done || lia).
  rewrite land_lxor, Z.shiftl_lxor. change 0x1FFFFFF with (Z.ones 25). rewrite (Z.land_ones d 25) by lia.
  rewrite (Z.mod_small d) by done. rewrite Z.lxor_0_r.
  apply Z.bits_inj'. intros n Hn. rewrite !Z.lxor_spec.
  by destruct (Z.testbit (Z.shiftl (Z.land c (Z.ones 25)) 5) n), (Z.testbit (Z.shiftl d 5) n), (Z.testbit w n),
    (Z.testbit (generators (Z.shiftr c 25)) n).
Qed.

(** The value of a list of digits of [k] bits after [d]. *)
Definition digits_of (k d : Z) (ws : list Z) : Z := fold_left (fun d w => 2 ^ k * d + w) ws d.

Lemma digits_of_app k d l l' : digits_of k d (l ++ l') = digits_of k (digits_of k d l) l'.
Proof. unfold digits_of. by rewrite fold_left_app. Qed.

Definition small (k v : Z) : Prop := 0 <= v < 2 ^ k.

Lemma lxor_shiftl d w : 0 <= d -> small 5 w -> Z.lxor (Z.shiftl d 5) w = 2 ^ 5 * d + w.
Proof.
  intros Hd Hw. unfold small in Hw. rewrite <- Z.add_nocarry_lxor.
  - rewrite Z.shiftl_mul_pow2 by lia. lia.
  - apply Z.bits_inj'. intros n Hn. rewrite Z.land_spec, Z.bits_0. destruct (Z.lt_ge_cases n 5) as [H|H].
    + by rewrite Z.shiftl_spec_low.
    + assert (Hb : Z.testbit w n = false).
      { rewrite <- (Z.mod_small w (2 ^ 5)) by done. by apply Z.mod_pow2_bits_high. }
      rewrite Hb. apply andb_false_r.
Qed.

Lemma polymod_superposition ws c d k :
  (k + length ws <= 6)%nat -> 0 <= d < 2 ^ (5 * Z.of_nat k) -> Forall (small 5) ws ->
  fold_left polymod_step ws (Z.lxor c d) = Z.lxor (fold_left polymod_step (repeat 0 (length ws)) c) (digits_of 5 d ws).
Proof.
  intros Hk Hd Hws. revert c d k Hk Hd. induction Hws as [|w ws Hw Hws IH]; intros c d k Hk Hd; [done|]. simpl in Hk.
  assert (Hd25 : 0 <= d < 2 ^ 25).
  { assert (2 ^ (5 * Z.of_nat k) <= 2 ^ 25) by (apply Z.pow_le_mono_r; lia). lia. }
  change (fold_left polymod_step ws (polymod_step (Z.lxor c d) w) =
          Z.lxor (fold_left polymod_step (repeat 0 (length ws)) (polymod_step c 0)) (digits_of 5 (2 ^ 5 * d + w) ws)).
  rewrite polymod_step_lxor, lxor_shiftl by (done || lia). apply (IH _ _ (S k)); [lia|].
  replace (5 * Z.of_nat (S k)) with (5 + 5 * Z.of_nat k) by lia. rewrite Z.pow_add_r by lia. unfold small in Hw. nia.
Qed.

Lemma generators_bound b : 0 <= generators b < 2 ^ 30.
Proof. unfold generators. simpl. repeat apply lxor_bound; try lia; repeat case_match; lia. Qed.

Lemma polymod_step_bound c v : small 5 v -> 0 <= polymod_step c v < 2 ^ 30.
Proof.
  intros Hv. unfold polymod_step, small in *. cbv zeta.
  apply lxor_bound; [lia| |apply generators_bound]. apply lxor_bound; [lia| |lia].
  change 0x1FFFFFF with (Z.ones 25). rewrite Z.land_ones, Z.shiftl_mul_pow2 by lia.
  pose proof (Z.mod_pos_bound c (2 ^ 25) ltac:(lia)). lia.
Qed.

(** The six groups of a number of thirty bits. *)
Definition groups (r : Z) : list Z := map (fun i => Z.land (Z.shiftr r (5 * (5 - i))) 31) [0; 1; 2; 3; 4; 5].

Lemma group_mod r i : 0 <= i -> Z.land (Z.shiftr r i) 31 = r / 2 ^ i mod 2 ^ 5.
Proof. intros Hi. change 31 with (Z.ones 5). by rewrite Z.land_ones, Z.shiftr_div_pow2. Qed.

Lemma groups_small r : Forall (small 5) (groups r).
Proof.
  unfold groups, small. apply List.Forall_forall. intros g Hg. apply in_map_iff in Hg as (i & <- & Hi).
  rewrite group_mod by (simpl in Hi; intuition lia). by apply Z.mod_pos_bound.
Qed.

Lemma groups_digits r : 0 <= r < 2 ^ 30 -> digits_of 5 0 (groups r) = r.
Proof.
  intros Hr. unfold groups, digits_of. cbn [map fold_left]. rewrite !group_mod by lia.
  change (2 ^ (5 * (5 - 0))) with 33554432. change (2 ^ (5 * (5 - 1))) with 1048576. change (2 ^ (5 * (5 - 2))) with 32768.
  change (2 ^ (5 * (5 - 3))) with 1024. change (2 ^ (5 * (5 - 4))) with 32. change (2 ^ (5 * (5 - 5))) with 1.
  change (2 ^ 5) with 32. change (2 ^ 30) with 1073741824 in Hr. Z.to_euclidean_division_equations. lia.
Qed.

Lemma checksum_valid hrp data :
  _bech32_polymod (_bech32_hrp_expand hrp ++ data ++ _bech32_create_checksum hrp data) = 1.
Proof.
  unfold _bech32_create_checksum, _bech32_polymod. cbv zeta. rewrite app_assoc, !fold_left_app.
  set (c := fold_left polymod_step data (fold_left polymod_step (_bech32_hrp_expand hrp) 1)).
  set (r := fold_left polymod_step [0; 0; 0; 0; 0; 0] c).
  change (fold_left polymod_step (groups (Z.lxor r 1)) c = 1).
  rewrite <- (Z.lxor_0_r c) at 1. rewrite (polymod_superposition _ _ _ 0); [|simpl; lia|simpl; lia|apply groups_small].
  change (repeat 0 (length (groups (Z.lxor r 1)))) with [0; 0; 0; 0; 0; 0]. fold r.
  assert (Hr : 0 <= r < 2 ^ 30) by (apply polymod_step_bound; unfold small; lia).
  rewrite groups_digits by (apply lxor_bound; lia). by rewrite <- Z.lxor_assoc, Z.lxor_nilpotent, Z.lxor_0_l.
Qed.

(** ** The groups of five bits *)

Lemma lor_shiftl a k v : 0 <= k -> 0 <= a -> small k v -> Z.lor (Z.shiftl a k) v = 2 ^ k * a + v.
Proof.
  intros Hk Ha Hv. unfold small in Hv. rewrite <- Z.add_nocarry_lor; [rewrite Z.shiftl_mul_pow2 by lia; lia|].
  apply Z.bits_inj'. intros n Hn. rewrite Z.land_spec, Z.bits_0. destruct (Z.lt_ge_cases n k) as [H|H].
  - by rewrite Z.shiftl_spec_low.
  - assert (Hb : Z.testbit v n = false).
    { rewrite <- (Z.mod_small v (2 ^ k)) by done. by apply Z.mod_pow2_bits_high. }
    rewrite Hb. apply andb_false_r.
Qed.

(** One more group: the number shifted less. *)
Lemma next_group acc bits : 5 <= bits ->
  2 ^ 5 * Z.shiftr acc bits + Z.land (Z.shiftr acc (bits - 5)) 31 = Z.shiftr acc (bits - 5).
Proof.
  intros Hb. replace bits with (bits - 5 + 5) at 1 by lia. rewrite <- Z.shiftr_shiftr by lia.
  change 31 with (Z.ones 5). rewrite Z.land_ones, (Z.shiftr_div_pow2 _ 5) by lia.
  pose proof (Z.div_mod (Z.shiftr acc (bits - 5)) (2 ^ 5) ltac:(lia)). lia.
Qed.

Lemma land_small v : small 5 (Z.land v 31).
Proof. unfold small. change 31 with (Z.ones 5). rewrite Z.land_ones by lia. apply Z.mod_pos_bound. lia. Qed.

Lemma emit_spec fuel acc bits l rest : 0 <= bits -> (Z.to_nat bits <= fuel)%nat -> emit fuel 5 acc bits = (l, rest) ->
  0 <= rest < 5 /\ bits = rest + 5 * Z.of_nat (length l) /\ Forall (small 5) l /\
  digits_of 5 (Z.shiftr acc bits) l = Z.shiftr acc rest.
Proof.
  revert bits l. induction fuel as [|fuel IH]; intros bits l Hb Hf H.
  - injection H as <- <-. split_and!; [lia|lia|simpl; lia|done|done].
  - simpl in H. case (Z.leb_spec 5 bits) as [H5|H5]; [|injection H as <- <-; split_and!; [lia|lia|simpl; lia|done|done]].
    destruct (emit fuel 5 acc (bits - 5)) as [l' rest'] eqn:E. injection H as <- <-.
    apply IH in E as (Hr & Hl & Hs & Hd); [|lia|lia]. split_and!; [lia|lia|simpl length; lia|by constructor; [apply land_small|]|].
    rewrite <- Hd. change (digits_of 5 (2 ^ 5 * Z.shiftr acc bits + Z.land (Z.shiftr acc (bits - 5)) 31) l' =
      digits_of 5 (Z.shiftr acc (bits - 5)) l'). by rewrite next_group.
Qed.

Lemma convert_digits data acc bits ret : Forall (small 8) data ->
  fold_left (convert_step 8 5) data (0, 0, []) = (acc, bits, ret) ->
  acc = digits_of 8 0 data /\ 0 <= acc /\ 0 <= bits < 5 /\ 8 * Z.of_nat (length data) = bits + 5 * Z.of_nat (length ret) /\
  Forall (small 5) ret /\ digits_of 5 0 ret = Z.shiftr acc bits.
Proof.
  revert acc bits ret. induction data as [|v data IH] using rev_ind; intros acc bits ret Hs H.
  - injection H as <- <- <-. split_and!; (done || lia).
  - apply Forall_app in Hs as [Hs Hv]. apply Forall_cons in Hv as [Hv _]. rewrite fold_left_app in H. simpl in H.
    destruct (fold_left (convert_step 8 5) data (0, 0, [])) as [[acc0 bits0] ret0]. unfold convert_step in H.
    destruct (IH acc0 bits0 ret0 Hs eq_refl) as (Ha & H0 & Hb & Hl & Hr & Hd).
    destruct (emit (Z.to_nat (bits0 + 8)) 5 (Z.lor (Z.shiftl acc0 8) v) (bits0 + 8)) as [l rest] eqn:E.
    injection H as <- <- <-. apply emit_spec in E as (Hrest & Hbits & Hls & Hdig); [|lia|lia].
    rewrite lor_shiftl in Hdig |- * by (done || lia). unfold small in Hv.
    assert (Hsh : Z.shiftr (2 ^ 8 * acc0 + v) (bits0 + 8) = Z.shiftr acc0 bits0).
    { replace (bits0 + 8) with (8 + bits0) by lia. rewrite <- Z.shiftr_shiftr by lia. f_equal.
      rewrite Z.shiftr_div_pow2, (Z.mul_comm (2 ^ 8)), Z.div_add_l, (Z.div_small v) by lia. lia. }
    rewrite Hsh in Hdig. rewrite !length_app, !digits_of_app, Hd, <- Ha. simpl length.
    split_and!; [done|lia|lia|lia|lia|by apply Forall_app|done].
Qed.

Lemma convertbits_digits data : Forall (small 8) data ->
  exists pad, 0 <= pad < 5 /\ 8 * Z.of_nat (length data) + pad = 5 * Z.of_nat (length (_convertbits data 8 5 true)) /\
    Forall (small 5) (_convertbits data 8 5 true) /\
    digits_of 5 0 (_convertbits data 8 5 true) = 2 ^ pad * digits_of 8 0 data.
Proof.
  intros Hs. unfold _convertbits. destruct (fold_left (convert_step 8 5) data (0, 0, [])) as [[acc bits] ret] eqn:E.
  apply convert_digits in E as (<- & H0 & Hb & Hl & Hr & Hd); [|done]. simpl. case (Z.eqb_spec bits 0) as [->|Hn]; simpl.
  - exists 0. rewrite Hd, Z.shiftr_0_r. split_and!; [lia|lia|lia|done|lia].
  - exists (5 - bits). rewrite length_app, digits_of_app, Hd. simpl length.
    split_and!; [lia|lia|lia|apply Forall_app; split; [done|constructor; [apply land_small|done]]|].
    change (2 ^ 5 * Z.shiftr acc bits + Z.land (Z.shiftl acc (5 - bits)) 31 = 2 ^ (5 - bits) * acc).
    pose proof (next_group (Z.shiftl acc (5 - bits)) 5 ltac:(lia)) as Hg. rewrite Z.shiftr_shiftl_r in Hg by lia.
    change (5 - 5) with 0 in Hg. rewrite Z.shiftr_0_r in Hg. replace (5 - (5 - bits)) with bits in Hg by lia.
    rewrite Hg, Z.shiftl_mul_pow2 by lia. lia.
Qed.

Lemma digits_inj k l l' d d' : 0 <= k -> Forall (small k) l -> Forall (small k) l' -> length l = length l' ->
  digits_of k d l = digits_of k d' l' -> d = d' /\ l = l'.
Proof.
  intros Hk Hs Hs' Hlen. revert l' d d' Hs' Hlen.
  induction Hs as [|v l Hv Hs IH]; intros [|v' l'] d d' Hs' Hlen H; try discriminate; [done|].
  apply Forall_cons in Hs' as [Hv' Hs']. simpl in Hlen. injection Hlen as Hlen.
  apply (IH l' (2 ^ k * d + v) (2 ^ k * d' + v') Hs' Hlen) in H as [H ->]. unfold small in *.
  assert (d = d') as ->.
  { destruct (Z.lt_trichotomy d d') as [Hlt|[->|Hlt]]; [exfalso|done|exfalso]; nia. }
  assert (v = v') as -> by lia. done.
Qed.

Lemma convertbits_inj l l' : Forall (small 8) l -> Forall (small 8) l' ->
  _convertbits l 8 5 true = _convertbits l' 8 5 true -> l = l'.
Proof.
  intros Hl Hl' H. destruct (convertbits_digits l Hl) as (p & Hp & Hlen & _ & Hd).
  destruct (convertbits_digits l' Hl') as (p' & Hp' & Hlen' & _ & Hd'). rewrite <- H in Hlen', Hd'.
  assert (length l = length l') as Hn by lia. assert (p' = p) as -> by lia.
  rewrite Hd in Hd'. apply Z.mul_reg_l in Hd'; [|lia]. by apply (digits_inj 8 l l' 0 0) in Hd' as [_ ->].
Qed.

(** ** The text of an address *)

Lemma charset_at_spec d : small 5 d -> exists c, charset_at d = Ok c /\ chars _BECH32_CHARSET !! Z.to_nat d = Some c.
Proof.
  intros Hd. unfold charset_at, small in *. destruct (chars _BECH32_CHARSET !! Z.to_nat d) as [c|] eqn:E; [by exists c|].
  apply lookup_ge_None in E. change (length (chars _BECH32_CHARSET)) with 32%nat in E. lia.
Qed.

Lemma charset_nodup : NoDup (chars _BECH32_CHARSET).
Proof. apply (bool_decide_unpack _). reflexivity. Qed.

Lemma charset_inj d d' c : small 5 d -> small 5 d' -> charset_at d = Ok c -> charset_at d' = Ok c -> d = d'.
Proof.
  intros Hd Hd' H H'. destruct (charset_at_spec d Hd) as (c1 & E1 & L1), (charset_at_spec d' Hd') as (c2 & E2 & L2).
  rewrite H in E1. rewrite H' in E2. apply Ok_inj in E1 as <-. apply Ok_inj in E2 as <-. unfold small in *.
  assert (Z.to_nat d = Z.to_nat d') by (by eapply NoDup_lookup; [apply charset_nodup|..]). lia.
Qed.

Lemma charset_text ds : Forall (small 5) ds -> exists text, mapR charset_at ds = Ok text.
Proof.
  induction 1 as [|d ds Hd _ (text & E)]; [by exists []|]. destruct (charset_at_spec d Hd) as (c & Hc & _).
  exists (c :: text). simpl. by rewrite Hc, E.
Qed.

Lemma charset_text_inj ds ds' text : Forall (small 5) ds -> Forall (small 5) ds' ->
  mapR charset_at ds = Ok text -> mapR charset_at ds' = Ok text -> ds = ds'.
Proof.
  rewrite !mapR_ok. intros Hs Hs' H. revert ds' Hs Hs'. induction H as [|d c ds text Hc _ IH]; intros ds' Hs Hs' H'.
  - by inversion H'.
  - inversion H' as [|d' ? ds'' ? Hc' H'' E]; subst. apply Forall_cons in Hs as [Hd Hs]. apply Forall_cons in Hs' as [Hd' Hs'].
    f_equal; [by eapply charset_inj|by apply IH].
Qed.

(** Encoding answers for any bytes. *)
Lemma bech32_encodes hrp data : Forall (small 8) data -> exists text, _bech32_encode hrp data = Ok text.
Proof.
  intros Hs. destruct (convertbits_digits data Hs) as (pad & _ & _ & H5 & _). unfold _bech32_encode. cbv zeta.
  destruct (charset_text (_convertbits data 8 5 true ++ _bech32_create_checksum hrp (_convertbits data 8 5 true))) as (text & E).
  { apply Forall_app. split; [done|apply groups_small]. }
  rewrite E. by eexists.
Qed.

Lemma bech32_inj hrp data data' text : Forall (small 8) data -> Forall (small 8) data' ->
  _bech32_encode hrp data = Ok text -> _bech32_encode hrp data' = Ok text -> data = data'.
Proof.
  intros Hs Hs' H H'. destruct (convertbits_digits data Hs) as (_ & _ & _ & H5 & _).
  destruct (convertbits_digits data' Hs') as (_ & _ & _ & H5' & _). unfold _bech32_encode in H, H'. cbv zeta in H, H'.
  apply rbind_ok in H as (t & E & H), H' as (t' & E' & H'). rewrite <- H in H'. apply Ok_inj in H'.
  assert (t' = t) as ->.
  { apply (f_equal chars) in H'. rewrite !chars_app in H'. apply app_inv_head, app_inv_head in H'. by rewrite !chars_of_chars in H'. }
  eapply charset_text_inj in E'; [| | |exact E]; [|apply Forall_app; split; [done|apply groups_small]..].
  apply app_inj_2 in E' as [E' _]; [|done]. by apply convertbits_inj in E'.
Qed.

(** ** The standard *)

(** Bech32 as BIP-173 states it.  The checksum is that of a code over the field
    of 32 elements, GF(2)[a] modulo a^5 + a^3 + 1, with the generator
    x^6 + {29}x^5 + {22}x^4 + {20}x^3 + {21}x^2 + {29}x + {18}: the expanded
    prefix and the groups, as coefficients after a leading one, leave the
    remainder one. *)
Module BIP173.
Definition letters : string := "qpzry9x8gf2tvdw0s3jn54khce6mua7l".
Definition letter (d : Z) : ascii := List.nth (Z.to_nat d) (chars letters) " "%char.

(** The product by [a]: a^5 is a^3 + 1. *)
Definition times_a (x : Z) : Z := if 16 <=? x then Z.lxor (2 * (x - 16)) 9 else 2 * x.
(** The product of two elements, by the bits of the first, the lowest first. *)
Fixpoint product (bits : nat) (x y : Z) : Z :=
  match bits with
  | O => 0
  | S bits => Z.lxor (if Z.odd x then y else 0) (product bits (x / 2) (times_a y))
  end.

Definition generator : list Z := [29; 22; 20; 21; 29; 18].
(** One more coefficient: the remainder times x, plus the coefficient. *)
Definition remainder_step (rest : list Z) (v : Z) : list Z :=
  match rest with
  | c :: rest => zip_with Z.lxor (rest ++ [v]) (map (product 5 c) generator)
  | [] => []
  end.
Definition one : list Z := [0; 0; 0; 0; 0; 1].
Definition expand (hrp : string) : list Z :=
  map (fun c => code c / 32) (chars hrp) ++ 0 :: map (fun c => code c mod 32) (chars hrp).
Definition valid (hrp : string) (groups_ : list Z) : Prop :=
  fold_left remainder_step (expand hrp ++ groups_) one = one.
End BIP173.

Lemma generators_products b : small 5 b -> generators b = digits_of 5 0 (map (BIP173.product 5 b) BIP173.generator).
Proof.
  intros Hb. unfold small in Hb.
  assert (H : forallb (fun n => let b := Z.of_nat n in generators b =? digits_of 5 0 (map (BIP173.product 5 b) BIP173.generator))
                (seq 0 32) = true) by (vm_compute; reflexivity).
  rewrite forallb_forall in H. specialize (H (Z.to_nat b)). rewrite Z2Nat.id in H by lia.
  apply Z.eqb_eq, H, in_seq. lia.
Qed.

Lemma small_lxor x y : small 5 x -> small 5 y -> small 5 (Z.lxor x y).
Proof. apply lxor_bound. lia. Qed.

Lemma product_small n x y : small 5 y -> small 5 (BIP173.product n x y).
Proof.
  revert x y. induction n as [|n IH]; intros x y Hy; [unfold small; simpl; lia|].
  cbn [BIP173.product]. apply small_lxor; [destruct (Z.odd x); [done|unfold small; lia]|].
  apply IH. unfold BIP173.times_a, small in *. destruct (Z.leb_spec 16 y); [|lia]. apply lxor_bound; lia.
Qed.

Lemma digits_lxor d e xs ys : 0 <= d -> 0 <= e -> length xs = length ys -> Forall (small 5) xs -> Forall (small 5) ys ->
  Z.lxor (digits_of 5 d xs) (digits_of 5 e ys) = digits_of 5 (Z.lxor d e) (zip_with Z.lxor xs ys).
Proof.
  intros Hd He Hlen Hx. revert d e ys Hd He Hlen.
  induction Hx as [|x xs Hx Hxs IH]; intros d e [|y ys] Hd He Hlen Hy; try discriminate; [done|].
  apply Forall_cons in Hy as [Hy Hys]. injection Hlen as Hlen. unfold digits_of in *. cbn [fold_left zip_with].
  assert (Hn : 0 <= Z.lxor d e) by (by apply Z.lxor_nonneg).
  unfold small in *. rewrite IH by (done || lia). f_equal. rewrite <- !lxor_shiftl by (done || by apply small_lxor).
  rewrite Z.shiftl_lxor. apply Z.bits_inj'. intros n _. rewrite !Z.lxor_spec.
  by destruct (Z.testbit (Z.shiftl d 5) n), (Z.testbit (Z.shiftl e 5) n), (Z.testbit x n), (Z.testbit y n).
Qed.

(** The six groups of five bits that the code packs in a number are the remainder. *)
Definition remainder (rest : list Z) : Prop := length rest = 6%nat /\ Forall (small 5) rest.

Lemma remainder_step_ok rest v : remainder rest -> small 5 v -> remainder (BIP173.remainder_step rest v).
Proof.
  intros [Hlen Hs] Hv. destruct Hs as [|c rest Hc Hs]; [done|]. injection Hlen as Hlen. split.
  - unfold BIP173.remainder_step. rewrite length_zip_with, length_app, Hlen. done.
  - unfold BIP173.remainder_step. apply List.Forall_forall. intros g Hg. apply list_elem_of_In, elem_of_lookup_zip_with in Hg as (i & x & y & -> & Hx & Hy).
    apply small_lxor.
    + assert (Hr : Forall (small 5) (rest ++ [v])) by (apply Forall_app; split; [done|by constructor]).
      by eapply Forall_lookup_1 in Hr.
    + rewrite list_lookup_fmap in Hy. destruct (BIP173.generator !! i) as [g|] eqn:Eg; [|done]. apply (inj Some) in Hy as <-.
      apply product_small. assert (Hg : Forall (small 5) BIP173.generator) by (repeat constructor; unfold small; lia).
      by eapply Forall_lookup_1 in Hg.
Qed.

Lemma polymod_remainder rest v : remainder rest -> small 5 v ->
  polymod_step (digits_of 5 0 rest) v = digits_of 5 0 (BIP173.remainder_step rest v).
Proof.
  intros [Hlen Hs] Hv. destruct Hs as [|c rest Hc Hs]; [done|]. injection Hlen as Hlen.
  assert (Hd : digits_of 5 0 (c :: rest) = 2 ^ 25 * c + digits_of 5 0 rest /\ small 25 (digits_of 5 0 rest)).
  { destruct rest as [|a1 [|a2 [|a3 [|a4 [|a5 [|]]]]]]; try discriminate. rewrite !Forall_cons in Hs.
    destruct Hs as (? & ? & ? & ? & ? & _). unfold digits_of, small in *. cbn [fold_left]. lia. }
  destruct Hd as [Hd Hlow]. unfold polymod_step. cbv zeta.
  assert (Hhigh : Z.shiftr (digits_of 5 0 (c :: rest)) 25 = c).
  { rewrite Hd, Z.shiftr_div_pow2, Z.mul_comm, Z.div_add_l, (Z.div_small (digits_of 5 0 rest)) by (done || lia). lia. }
  assert (Hrest : Z.land (digits_of 5 0 (c :: rest)) 0x1FFFFFF = digits_of 5 0 rest).
  { change 0x1FFFFFF with (Z.ones 25).
    rewrite Z.land_ones, Hd, Z.add_comm, (Z.mul_comm (2 ^ 25)), Z.mod_add, Z.mod_small by (done || lia). done. }
  rewrite Hhigh, Hrest, generators_products by done. unfold small in Hlow. rewrite lxor_shiftl by (done || lia).
  change (2 ^ 5 * digits_of 5 0 rest + v) with (digits_of 5 (digits_of 5 0 rest) [v]). rewrite <- digits_of_app.
  change (Z.lxor 0 0) with 0. rewrite digits_lxor; [done|lia|lia| | |].
  - rewrite length_app, Hlen. done.
  - apply Forall_app. split; [done|by constructor].
  - apply List.Forall_forall. intros g Hg. apply in_map_iff in Hg as (x & <- & Hx). apply product_small.
    assert (Hgen : Forall (small 5) BIP173.generator) by (repeat constructor; unfold small; lia).
    rewrite List.Forall_forall in Hgen. by apply Hgen.
Qed.

Lemma polymod_remainders values rest : remainder rest -> Forall (small 5) values ->
  remainder (fold_left BIP173.remainder_step values rest) /\
  fold_left polymod_step values (digits_of 5 0 rest) = digits_of 5 0 (fold_left BIP173.remainder_step values rest).
Proof.
  intros Hr Hv. revert rest Hr. induction Hv as [|v values Hv _ IH]; intros rest Hr; [done|].
  cbn [fold_left]. rewrite polymod_remainder by done. by apply IH, remainder_step_ok.
Qed.

Lemma one_remainder : remainder BIP173.one.
Proof. split; [done|]. repeat constructor; unfold small; lia. Qed.

Lemma expand_same hrp : _bech32_hrp_expand hrp = BIP173.expand hrp.
Proof.
  unfold _bech32_hrp_expand, BIP173.expand. f_equal; [|cbn [app]; f_equal].
  - apply map_ext. intros c. by rewrite Z.shiftr_div_pow2.
  - apply map_ext. intros c. change 31 with (Z.ones 5). by rewrite Z.land_ones.
Qed.

Lemma expand_small hrp : Forall (small 5) (BIP173.expand hrp).
Proof.
  unfold BIP173.expand. apply Forall_app. split; [|constructor; [unfold small; lia|]]; apply List.Forall_forall; intros v Hv;
    apply in_map_iff in Hv as (c & <- & _); pose proof (code_range c); unfold small; change (2 ^ 5) with 32;
    Z.to_euclidean_division_equations; lia.
Qed.

Lemma valid_checksum hrp groups_ : Forall (small 5) groups_ ->
  _bech32_polymod (_bech32_hrp_expand hrp ++ groups_) = 1 -> BIP173.valid hrp groups_.
Proof.
  intros Hg H. rewrite expand_same in H. unfold _bech32_polymod in H. change 1 with (digits_of 5 0 BIP173.one) in H.
  destruct (polymod_remainders (BIP173.expand hrp ++ groups_) BIP173.one one_remainder) as [[Hlen Hs] E].
  { apply Forall_app. split; [apply expand_small|done]. }
  rewrite E in H. apply (digits_inj 5) in H as [_ H]; [done|lia|done|by apply one_remainder|done].
Qed.

Lemma letters_text ds text : Forall (small 5) ds -> mapR charset_at ds = Ok text -> text = map BIP173.letter ds.
Proof.
  rewrite mapR_ok. intros Hs H. induction H as [|d c ds text Hc _ IH]; [done|]. apply Forall_cons in Hs as [Hd Hs].
  simpl. f_equal; [|by apply IH]. destruct (charset_at_spec d Hd) as (c' & Hc' & Hl). rewrite Hc in Hc'. injection Hc' as <-.
  unfold BIP173.letter. symmetry. apply (nth_lookup_Some _ _ " "%char) in Hl. exact Hl.
Qed.

(** ** The promises to the service *)

(** C29: the text that [_bech32_encode] gives is the Bech32 of BIP-173, as its
    field, its generator polynomial, its expansion of the prefix and its alphabet
    are written out from that standard: prefix, separator, then the letters of
    groups of five bits with a valid checksum of six; and the groups before it
    are the bits of the bytes, with fewer than five bits of padding. *)
Theorem encoded_text_is_bech32 hrp data text :
  Forall (small 8) data -> _bech32_encode hrp data = Ok text ->
  exists groups_ check pad,
    text = hrp +:+ "1" +:+ of_chars (map BIP173.letter (groups_ ++ check)) /\
    length check = 6%nat /\ Forall (small 5) (groups_ ++ check) /\ BIP173.valid hrp (groups_ ++ check) /\
    0 <= pad < 5 /\ 8 * Z.of_nat (length data) + pad = 5 * Z.of_nat (length groups_) /\
    digits_of 5 0 groups_ = 2 ^ pad * digits_of 8 0 data.
Proof.
  intros Hs H. destruct (convertbits_digits data Hs) as (pad & Hp & Hlen & H5 & Hd). unfold _bech32_encode in H. cbv zeta in H.
  apply rbind_ok in H as (letters & E & H). apply Ok_inj in H as <-.
  assert (Hsmall : Forall (small 5) (_convertbits data 8 5 true ++ _bech32_create_checksum hrp (_convertbits data 8 5 true)))
    by (apply Forall_app; split; [done|apply groups_small]).
  exists (_convertbits data 8 5 true), (_bech32_create_checksum hrp (_convertbits data 8 5 true)), pad.
  rewrite (letters_text _ _ Hsmall E).
  split_and!; [done|done|done|by apply valid_checksum, checksum_valid|lia|lia|done|done].
Qed.

Section Binding.
Context (ripemd160 : list Z -> res (list Z)) (str_exc : exn -> string).
Hypothesis ripemd160_bytes : forall m out, ripemd160 m = Ok out -> Forall (small 8) out.

Lemma bound_address address key why :
  verify_address_pubkey_binding ripemd160 str_exc address key = (true, why) ->
  exists compressed r, pubkey_to_compressed key = Ok compressed /\ ripemd160 (sha256 compressed) = Ok r /\
    _bech32_encode "claw" r = Ok address.
Proof.
  unfold verify_address_pubkey_binding, derive_address_from_pubkey.
  destruct (pubkey_to_compressed key) as [compressed|]; [|discriminate]. simpl.
  destruct (ripemd160 (sha256 compressed)) as [r|] eqn:Hr; [|discriminate]. simpl.
  destruct (_bech32_encode "claw" r) as [expected|] eqn:Hb; [|discriminate].
  destruct (String.eqb_spec address expected) as [->|]; [|discriminate]. intros _. by exists compressed, r.
Qed.

(** An address binds the key.  When two public keys are accepted for one
    address, their compressed forms have the same RIPEMD-160 of SHA-256: either
    they are the same key up to the second coordinate's bytes, or a collision
    of the hash functions is in hand. *)
Theorem address_binds_key address key key' why why' :
  verify_address_pubkey_binding ripemd160 str_exc address key = (true, why) ->
  verify_address_pubkey_binding ripemd160 str_exc address key' = (true, why') ->
  exists compressed compressed' r,
    pubkey_to_compressed key = Ok compressed /\ pubkey_to_compressed key' = Ok compressed' /\
    ripemd160 (sha256 compressed) = Ok r /\ ripemd160 (sha256 compressed') = Ok r.
Proof.
  intros H H'. apply bound_address in H as (c & r & Hc & Hr & Hb), H' as (c' & r' & Hc' & Hr' & Hb').
  exists c, c', r. assert (r' = r) as -> by (eapply bech32_inj; [by eapply ripemd160_bytes|by eapply ripemd160_bytes|exact Hb'|exact Hb]). done.
Qed.
End Binding.

(** A nonce is accepted once.  After the nonce of a submission has been
    stored, no later check of the miner passes with it or a smaller one, and a
    check only passes when it is at most five minutes ahead. *)
Theorem nonces_increase db miner nonce nonce' now now' why why' :
  check_nonce db miner nonce now = (true, why) ->
  check_nonce (update_nonce db miner nonce) miner nonce' now' = (true, why') ->
  nonce < nonce' <= now' + 300000.
Proof.
  unfold check_nonce, update_nonce. destruct (aget miner db) as [row|]; [|discriminate]. intros _. rewrite aget_aset_eq. simpl.
  case (Z.leb_spec nonce' nonce) as [|H]; [discriminate|]. case (Z.ltb_spec (now' + 300000) nonce') as [|H']; [discriminate|]. lia.
Qed.

(** ** Witnesses *)

Definition demo_ripemd160 (m : list Z) : res (list Z) := Ok (map (fun v => v mod 256) (take 20 m)).
Definition demo_str_exc (e : exn) : string := "".
Definition demo_key : string :=
  "79be667ef9dcbbac55a06295ce870b07029bfcdb2dce28d959f2815b16f81798483ada7726a3c4655da4fbfc0e1108a8fd17b448a68554199c47d08ffb10d4b8".

Lemma demo_ripemd160_bytes m out : demo_ripemd160 m = Ok out -> Forall (small 8) out.
Proof.
  intros H. apply Ok_inj in H as <-. apply List.Forall_forall. intros v Hv. apply in_map_iff in Hv as (w & <- & _).
  by apply Z.mod_pos_bound.
Qed.

Lemma encoded_text_is_bech32_witness :
  (Forall (small 8) [0; 255; 7] /\ _bech32_encode "claw" [0; 255; 7] = Ok "claw1qrlsw58p73w"%string) /\
  exists groups_ check pad,
    "claw1qrlsw58p73w"%string = "claw" +:+ "1" +:+ of_chars (map BIP173.letter (groups_ ++ check)) /\
    length check = 6%nat /\ Forall (small 5) (groups_ ++ check) /\ BIP173.valid "claw" (groups_ ++ check) /\
    0 <= pad < 5 /\ 8 * 3 + pad = 5 * Z.of_nat (length groups_) /\
    digits_of 5 0 groups_ = 2 ^ pad * digits_of 8 0 [0; 255; 7].
Proof.
  assert (H : Forall (small 8) [0; 255; 7]) by (repeat constructor; done).
  assert (H' : _bech32_encode "claw" [0; 255; 7] = Ok "claw1qrlsw58p73w"%string) by reflexivity.
  exact (conj (conj H H') (encoded_text_is_bech32 _ _ _ H H')).
Defined.

Definition demo_address : string := "claw1pac4ht6afshdx2tctnhjnetz7u6g3j9zlmzewa".

Lemma address_binds_key_witness :
  (verify_address_pubkey_binding demo_ripemd160 demo_str_exc demo_address demo_key = (true, ""%string) /\
   verify_address_pubkey_binding demo_ripemd160 demo_str_exc demo_address ("0x" +:+ demo_key) = (true, ""%string)) /\
  exists compressed compressed' r,
    pubkey_to_compressed demo_key = Ok compressed /\ pubkey_to_compressed ("0x" +:+ demo_key) = Ok compressed' /\
    demo_ripemd160 (sha256 compressed) = Ok r /\ demo_ripemd160 (sha256 compressed') = Ok r.
Proof.
  assert (H : verify_address_pubkey_binding demo_ripemd160 demo_str_exc demo_address demo_key = (true, ""%string)) by (vm_compute; reflexivity).
  assert (H' : verify_address_pubkey_binding demo_ripemd160 demo_str_exc demo_address ("0x" +:+ demo_key) = (true, ""%string))
    by (vm_compute; reflexivity).
  exact (conj (conj H H') (address_binds_key _ _ demo_ripemd160_bytes _ _ _ _ _ H H')).
Defined.

Lemma nonces_increase_witness :
  (check_nonce [("claw1a"%string, None)] "claw1a" 7 1000 = (true, ""%string) /\
   check_nonce (update_nonce [("claw1a"%string, None)] "claw1a" 7) "claw1a" 8 1000 = (true, ""%string)) /\ 7 < 8 <= 1000 + 300000.
Proof.
  assert (H : check_nonce [("claw1a"%string, None)] "claw1a" 7 1000 = (true, ""%string)) by reflexivity.
  assert (H' : check_nonce (update_nonce [("claw1a"%string, None)] "claw1a" 7) "claw1a" 8 1000 = (true, ""%string)) by reflexivity.
  exact (conj (conj H H') (nonces_increase _ _ _ _ _ _ _ _ H H')).
Defined.
