(* ===== verification/Schemas.v ===== *)
(** * Requests ([schemas.py])

    The bodies of the requests, as the framework gives them to the handlers
    after it has checked the types.  A field of a record has the name of the
    field of the class after the initials of the class.  The items of a list
    are the dictionaries of their [model_dump()].  A [.._fields] predicate holds
    the bounds that [Field] declares, a validator is a function. *)
From Stdlib Require Import ZArith Lia Ascii String.
From stdpp Require Import base list strings.
From S2P Require Import Prelude PyText PyFloat PyTime PyValue Repository Tournaments.
Open Scope Z_scope.

Record RegisterMinerRequest := {
  rm_address : string;
  rm_name : string;
  rm_public_key : string;
  rm_miner_version : string;
  rm_economic_unit_id : option string
}.

Record CommitRequest := {
  cr_request_id : string;
  cr_task_run_id : string;
  cr_miner_id : string;
  cr_economic_unit_id : option string;
  cr_commit_hash : string;
  cr_nonce : string;
  cr_client_version : string;
  cr_signature : string
}.

Record RevealRequest := {
  rr_request_id : string;
  rr_task_run_id : string;
  rr_miner_id : string;
  rr_economic_unit_id : option string;
  rr_p_yes_bps : Z;
  rr_nonce : string;
  rr_schema_version : string;
  rr_signature : string
}.

Definition RevealRequest_fields (payload : RevealRequest) : bool :=
  (0 <=? rr_p_yes_bps payload) && (rr_p_yes_bps payload <=? 10000).

Record ApplyArenaResultsRequest := {
  aa_tournament_id : string;
  aa_rated_or_practice : string;
  aa_human_only : bool;
  aa_results : list dict
}.

Record ApplyPokerMTTResultsRequest := {
  ap_tournament_id : string;
  ap_rated_or_practice : string;
  ap_human_only : bool;
  ap_field_size : Z;
  ap_policy_bundle_version : string;
  ap_results : list dict
}.

(** [model_dump(exclude_none=True)] of a [PokerMTTHandCompletedEventRequest]. *)
Definition PokerMTTHandCompletedEventRequest : Type := dict.

Record FinalizePokerMTTHiddenEvalRequest := {
  fh_tournament_id : string;
  fh_policy_bundle_version : string;
  fh_seed_assignment_id : string;
  fh_baseline_sample_id : option string;
  fh_entries : list dict
}.

Record BuildPokerMTTRatingSnapshotRequest := {
  br_miner_address : string;
  br_window_start_at : Z;
  br_window_end_at : Z;
  br_public_rating : float;
  br_public_rank : option Z;
  br_confidence : float;
  br_policy_bundle_version : string
}.

Definition BuildPokerMTTRatingSnapshotRequest_fields (payload : BuildPokerMTTRatingSnapshotRequest) : bool :=
  fleb fzero (br_confidence payload) && fleb (br_confidence payload) fone.

Record ApplyPokerMTTFinalRankingProjectionRequest := {
  pr_schema_version : string;
  pr_projection_id : string;
  pr_tournament_id : string;
  pr_source_mtt_id : string;
  pr_rated_or_practice : string;
  pr_human_only : bool;
  pr_field_size : Z;
  pr_policy_bundle_version : string;
  pr_standing_snapshot_id : string;
  pr_standing_snapshot_hash : string;
  pr_final_ranking_root : string;
  pr_locked_at : Z;
  pr_rows : list dict
}.

Record BuildPokerMTTRewardWindowRequest := {
  bw_lane : string;
  bw_window_start_at : Z;
  bw_window_end_at : Z;
  bw_reward_pool_amount : Z;
  bw_include_provisional : bool;
  bw_policy_bundle_version : option string;
  bw_reward_window_id : option string
}.

Definition BuildPokerMTTRewardWindowRequest_fields (payload : BuildPokerMTTRewardWindowRequest) : bool :=
  0 <=? bw_reward_pool_amount payload.

Record RiskDecisionOverrideRequest := {
  rd_decision : string;
  rd_reason : string;
  rd_operator_id : string;
  rd_authority_level : string
}.

(** ** The rows of a projection *)

(** [row.rank], which is an integer or [None], with the bound that [Field]
    declares, and [row.rank_state], a string. *)
Definition PokerMTTFinalRankingRow_fields (row : dict) : bool :=
  match dget row "rank", dget row "rank_state" with
  | VNone, VStr _ => true
  | VInt rank, VStr _ => 1 <=? rank
  | _, _ => false
  end.

Definition row_rank (row : dict) : res (option Z) :=
  match dget row "rank" with
  | VNone => Ok None
  | VInt rank => Ok (Some rank)
  | _ => Err (Unmodelled "rank that the schema refuses")
  end.

(** The loop: the ranks of the ranked rows. *)
Definition collect_rank (ranks : list Z) (row : dict) : res (list Z) :=
  let? rank := row_rank row in
  if field_is "rank_state" "ranked" row then
    match rank with
    | None =>
        let? member_id := py_str (dget row "member_id") in
        Err (ValueError ("ranked_row_missing_payout_rank member_id=" +:+ member_id))
    | Some rank => Ok (ranks ++ [rank])
    end
  else
    match rank with
    | None => Ok ranks
    | Some _ =>
        let? member_id := py_str (dget row "member_id") in
        let? rank_state := py_str (dget row "rank_state") in
        Err (ValueError ("non_ranked_row_has_payout_rank member_id=" +:+ member_id +:+ " rank_state=" +:+ rank_state))
    end.

Definition validate_payout_ranks (self : ApplyPokerMTTFinalRankingProjectionRequest) : res unit :=
  let? ranks := foldR collect_rank (pr_rows self) [] in
  let n := Z.of_nat (length ranks) in
  let? _ := guard (n <=? pr_field_size self)
    (ValueError ("field_size_less_than_ranked_count field_size=" +:+ string_of_Z (pr_field_size self) +:+
                 " ranked_count=" +:+ string_of_Z n)) in
  let? _ := guard (Nat.eqb (length (dedup_keys ranks)) (length ranks))
    (ValueError ("non_unique_payout_rank ranks=" +:+ list_text (sorted_ints ranks))) in
  let expected := range 1 (n + 1) in
  guard (bool_decide (sorted_ints ranks = expected))
    (ValueError ("non_contiguous_payout_rank expected=" +:+ list_text expected +:+
                 " actual=" +:+ list_text (sorted_ints ranks))).

Definition ApplyPokerMTTFinalRankingProjectionRequest_fields (payload : ApplyPokerMTTFinalRankingProjectionRequest) : bool :=
  (2 <=? pr_field_size payload) && forallb PokerMTTFinalRankingRow_fields (pr_rows payload).
