(* ===== verification/Health.v ===== *)
(** * Background loops and health of the server ([server.py])

    The metrics of the two loops, one iteration of each, and the reports on the
    anchor jobs and on the forecast tasks.  A loop of the server runs until it
    is cancelled; here it is the sequence of its iterations, each with the
    times that it reads from the clock.  The text of an exception is an
    argument. *)
From Stdlib Require Import ZArith Lia Ascii String.
From stdpp Require Import base list strings.
From S2P Require Import Prelude PyText PyFloat PyTime PyValue Repository Forecast Service Anchors.
Open Scope Z_scope.

(** ** Dates *)

Definition _isoformat_z (t : Z) : string := iso_format t.

Definition _iso_datetime (t : option Z) : value :=
  match t with None => VNone | Some t => VStr (iso_format t) end.

Definition _parse_datetime (v : value) : res (option Z) :=
  match v with
  | VTime t => Ok (Some t)
  | VStr s =>
      let? t := if str_endswith "Z" s then parse_iso s else from_isoformat s in
      Ok (Some t)
  | _ => Ok None
  end.

(** [_parse_datetime(a) or _parse_datetime(b) or ...] *)
Fixpoint first_datetime (ks : list string) (item : dict) : res (option Z) :=
  match ks with
  | [] => Ok None
  | k :: ks =>
      let? t := _parse_datetime (dget item k) in
      match t with Some t => Ok (Some t) | None => first_datetime ks item end
  end.

Definition _anchor_job_reference_time (item : dict) : res (option Z) :=
  first_datetime ["last_broadcast_at"; "updated_at"; "submitted_at"; "created_at"] item.

(** [max(0, int((current_time - reference_time).total_seconds()))] *)
Definition age_seconds (current_time reference_time : Z) : Z := Z.max 0 (Z.quot (current_time - reference_time) usec).

(** ** Metrics *)

Definition _new_loop_metrics (enabled : bool) (interval_seconds : float) : dict :=
  [("enabled", VBool enabled);
   ("interval_seconds", VFloat interval_seconds);
   ("active", VBool false);
   ("run_count", VInt 0);
   ("success_count", VInt 0);
   ("error_count", VInt 0);
   ("consecutive_error_count", VInt 0);
   ("last_started_at", VNone);
   ("last_completed_at", VNone);
   ("last_result_count", VInt 0);
   ("last_error", VNone)].

Definition _new_anchor_reconcile_metrics : bool -> float -> dict := _new_loop_metrics.
Definition _new_forecast_progression_metrics : bool -> float -> dict := _new_loop_metrics.

(** [metrics[k] += 1] *)
Definition bump (k : string) (metrics : dict) : res dict :=
  let? v := dgetitem metrics k in
  let? n := py_add v (VInt 1) in
  Ok (dset metrics k n).

Section Loops.
Context (self : ForecastMiningService) (str_exc : exn -> string).

(** What the two branches of an iteration write. *)
Definition failed_run (completed_at : Z) (e : exn) (reset_count : bool) (metrics : dict) : res dict :=
  let? m := bump "run_count" metrics in
  let? m := bump "error_count" m in
  let? m := bump "consecutive_error_count" m in
  let m := dset m "last_completed_at" (VStr (iso_format completed_at)) in
  let m := if reset_count then dset m "last_result_count" (VInt 0) else m in
  Ok (dset m "last_error" (VStr (str_exc e))).

Definition succeeded_run (completed_at : Z) (count : Z) (metrics : dict) : res dict :=
  let? m := bump "run_count" metrics in
  let? m := bump "success_count" m in
  let m := dset m "consecutive_error_count" (VInt 0) in
  let m := dset m "last_completed_at" (VStr (iso_format completed_at)) in
  let m := dset m "last_result_count" (VInt count) in
  Ok (dset m "last_error" VNone).

(** One iteration: the metrics of the start, the work, and what it ends with.
    An exception of the work is recorded, and not raised. *)
Definition iteration {A} (work : Z -> repo A) (count : A -> Z) (reset_count : bool) (metrics : option dict)
  (started_at completed_at : Z) : repo (option dict) :=
  fun s =>
    let metrics := option_map (fun m => dset m "last_started_at" (_iso_datetime (Some started_at))) metrics in
    let '(r, s') := work started_at s in
    match metrics with
    | None => (Ok None, s')
    | Some m =>
        match r with
        | Err e => ((let? m := failed_run completed_at e reset_count m in Ok (Some m)), s')
        | Ok a => ((let? m := succeeded_run completed_at (count a) m in Ok (Some m)), s')
        end
    end.

Definition anchor_reconcile_iteration : option dict -> Z -> Z -> repo (option dict) :=
  iteration (reconcile_pending_anchor_jobs_on_chain self) (fun items => Z.of_nat (length items)) false.

Definition _run_forecast_progression_once : option dict -> Z -> Z -> repo (option dict) :=
  iteration (reconcile self) (fun _ => 0) true.

(** [while True: ...] for as many iterations as there are readings of the clock. *)
Definition loop (step : option dict -> Z -> Z -> repo (option dict)) (readings : list (Z * Z)) (metrics : option dict)
  : repo (option dict) :=
  foldS (fun metrics t => step metrics t.1 t.2) readings metrics.

Definition _run_anchor_reconcile_loop : list (Z * Z) -> option dict -> repo (option dict) := loop anchor_reconcile_iteration.
Definition _run_forecast_progression_loop : list (Z * Z) -> option dict -> repo (option dict) :=
  loop _run_forecast_progression_once.
End Loops.

(** ** Alerts *)

Definition alert (code severity message : string) : dict :=
  [("code", VStr code); ("severity", VStr severity); ("message", VStr message)].

Definition alert_if (b : bool) (a : dict) : list dict := if b then [a] else [].

Definition status_of (alerts : list dict) : string :=
  if existsb (field_is "severity" "critical") alerts then "critical"
  else match alerts with [] => "ok" | _ => "degraded" end.

(** [int(metrics.get("consecutive_error_count", 0) or 0) >= int(getattr(settings, threshold, 3))] *)
Definition loop_failing (settings metrics : dict) (threshold : string) : res bool :=
  let? loop_error_threshold := py_int (dget_or settings threshold (VInt 3)) in
  let? errors := int_or_zero (dget_or metrics "consecutive_error_count" (VInt 0)) in
  Ok (loop_error_threshold <=? errors).

(** ** Anchor jobs *)

Record chain_counts := {
  pending_confirmation_count : Z;
  stale_pending_confirmation_count : Z;
  awaiting_broadcast_count : Z;
  anchored_count : Z;
  failed_count : Z;
  latest_broadcast_at : value;
  latest_anchored_at : value;
  latest_failed_at : value;
  latest_failure_reason : value
}.

Definition no_jobs : chain_counts :=
  {| pending_confirmation_count := 0; stale_pending_confirmation_count := 0; awaiting_broadcast_count := 0;
     anchored_count := 0; failed_count := 0; latest_broadcast_at := VNone; latest_anchored_at := VNone;
     latest_failed_at := VNone; latest_failure_reason := VNone |}.

(** [a and (b is None or a > b)] *)
Definition is_later (a b : value) : res bool :=
  if truthy a then if is_none b then Ok true else py_lt b a else Ok false.

Definition is_stale (pending_warning_seconds : float) (current_time : Z) (reference_time : option Z) : res bool :=
  match reference_time with
  | None => Ok false
  | Some t => py_le (VFloat pending_warning_seconds) (VInt (age_seconds current_time t))
  end.

Definition with_states (c : chain_counts) (pending stale awaiting anchored failed : Z) : chain_counts :=
  {| pending_confirmation_count := pending_confirmation_count c + pending;
     stale_pending_confirmation_count := stale_pending_confirmation_count c + stale;
     awaiting_broadcast_count := awaiting_broadcast_count c + awaiting;
     anchored_count := anchored_count c + anchored;
     failed_count := failed_count c + failed;
     latest_broadcast_at := latest_broadcast_at c;
     latest_anchored_at := latest_anchored_at c;
     latest_failed_at := latest_failed_at c;
     latest_failure_reason := latest_failure_reason c |}.

Definition with_failure (c : chain_counts) (failed_at reason : value) : chain_counts :=
  {| pending_confirmation_count := pending_confirmation_count c;
     stale_pending_confirmation_count := stale_pending_confirmation_count c;
     awaiting_broadcast_count := awaiting_broadcast_count c;
     anchored_count := anchored_count c;
     failed_count := failed_count c;
     latest_broadcast_at := latest_broadcast_at c;
     latest_anchored_at := latest_anchored_at c;
     latest_failed_at := failed_at;
     latest_failure_reason := reason |}.

Definition with_latest (c : chain_counts) (broadcast_at anchored_at : value) : chain_counts :=
  {| pending_confirmation_count := pending_confirmation_count c;
     stale_pending_confirmation_count := stale_pending_confirmation_count c;
     awaiting_broadcast_count := awaiting_broadcast_count c;
     anchored_count := anchored_count c;
     failed_count := failed_count c;
     latest_broadcast_at := broadcast_at;
     latest_anchored_at := anchored_at;
     latest_failed_at := latest_failed_at c;
     latest_failure_reason := latest_failure_reason c |}.

(** The branches on the state of a job. *)
Definition count_state (pending_warning_seconds : float) (current_time : Z) (c : chain_counts) (item : dict)
  : res chain_counts :=
  let? reference_time := _anchor_job_reference_time item in
  if field_is "state" "anchor_submitted" item && truthy (dget item "broadcast_tx_hash") then
    let? stale := is_stale pending_warning_seconds current_time reference_time in
    Ok (with_states c 1 (if stale then 1 else 0) 0 0 0)
  else if field_is "state" "anchor_submitted" item then Ok (with_states c 0 0 1 0 0)
  else if field_is "state" "anchored" item then Ok (with_states c 0 0 0 1 0)
  else if field_is "state" "anchor_failed" item then
    let c := with_states c 0 0 0 0 1 in
    let failed_at := por (dget item "updated_at") (dget item "last_broadcast_at") in
    let? later := is_later failed_at (latest_failed_at c) in
    Ok (if later then with_failure c failed_at (dget item "failure_reason") else c)
  else Ok c.

Definition count_job (pending_warning_seconds : float) (current_time : Z) (c : chain_counts) (item : dict)
  : res chain_counts :=
  let? c := count_state pending_warning_seconds current_time c item in
  let broadcast_at := dget item "last_broadcast_at" in
  let anchored_at := dget item "anchored_at" in
  let? b := is_later broadcast_at (latest_broadcast_at c) in
  let? a := is_later anchored_at (latest_anchored_at c) in
  Ok (with_latest c (if b then broadcast_at else latest_broadcast_at c)
        (if a then anchored_at else latest_anchored_at c)).

Definition pending_warning (settings : dict) : res float :=
  py_float (dget_or settings "anchor_pending_confirmation_warning_seconds" (VFloat (f_of_Z 120))).

Definition _build_chain_health_snapshot (anchor_jobs : list dict) (metrics settings : dict) (current_time : Z) : res dict :=
  let? pending_warning_seconds := pending_warning settings in
  let? _ := py_int (dget_or settings "anchor_reconcile_loop_error_alert_threshold" (VInt 3)) in
  let? c := foldR (count_job pending_warning_seconds current_time) anchor_jobs no_jobs in
  let? failing := loop_failing settings metrics "anchor_reconcile_loop_error_alert_threshold" in
  let alerts :=
    alert_if failing (alert "anchor_reconcile_loop_errors" "critical"
                        "anchor reconcile loop consecutive errors exceeded threshold") ++
    alert_if (0 <? stale_pending_confirmation_count c)
      (alert "stale_pending_confirmation" "warning" "one or more anchor jobs have pending confirmations beyond threshold") ++
    alert_if (0 <? failed_count c)
      (alert "failed_anchor_jobs_present" "warning" "one or more anchor jobs are in anchor_failed state") in
  Ok [("status", VStr (status_of alerts));
      ("loop", VDict metrics);
      ("anchor_jobs", VDict
         [("total_count", VInt (Z.of_nat (length anchor_jobs)));
          ("pending_confirmation_count", VInt (pending_confirmation_count c));
          ("stale_pending_confirmation_count", VInt (stale_pending_confirmation_count c));
          ("awaiting_broadcast_count", VInt (awaiting_broadcast_count c));
          ("anchored_count", VInt (anchored_count c));
          ("failed_count", VInt (failed_count c));
          ("latest_broadcast_at", latest_broadcast_at c);
          ("latest_anchored_at", latest_anchored_at c);
          ("latest_failed_at", latest_failed_at c);
          ("latest_failure_reason", latest_failure_reason c)]);
      ("alerts", VList (map VDict alerts))].

(** ** Forecast tasks *)

Record task_counts := {
  active_fast_task_count : Z;
  overdue_fast_task_count : Z;
  unresolved_daily_task_count : Z
}.

Definition is_final (state : string) : bool := existsb (String.eqb state) ["settled"; "resolved"].

(** [t and t <= current_time] *)
Definition reached (t : option Z) (current_time : Z) : bool :=
  match t with Some t => t <=? current_time | None => false end.
Definition not_reached (t : option Z) (current_time : Z) : bool :=
  match t with Some t => current_time <? t | None => false end.

Definition one_if (b : bool) : Z := if b then 1 else 0.

Definition count_task (current_time : Z) (c : task_counts) (task : dict) : res task_counts :=
  let? lane := str_or_empty (dget task "lane") in
  let? state := str_or_empty (dget task "state") in
  let? publish_at := _parse_datetime (dget task "publish_at") in
  let? resolve_at := _parse_datetime (dget task "resolve_at") in
  let open := negb (is_final state) in
  let fast := String.eqb lane "forecast_15m" in
  let daily := String.eqb lane "daily_anchor" in
  Ok {| active_fast_task_count := active_fast_task_count c +
          one_if (fast && reached publish_at current_time && not_reached resolve_at current_time && open);
        overdue_fast_task_count := overdue_fast_task_count c + one_if (fast && reached resolve_at current_time && open);
        unresolved_daily_task_count := unresolved_daily_task_count c +
          one_if (daily && reached resolve_at current_time && open) |}.

Definition batch_state (batch : dict) : res string := py_str (por (dget batch "state") (VStr "open")).

Definition count_batches (state : string) (states : list string) : Z :=
  Z.of_nat (length (List.filter (String.eqb state) states)).

Definition _build_forecast_progression_health_snapshot (tasks settlement_batches : list dict) (metrics settings : dict)
  (current_time : Z) : res dict :=
  let? _ := py_int (dget_or settings "forecast_progression_loop_error_alert_threshold" (VInt 3)) in
  let? c := foldR (count_task current_time) tasks
    {| active_fast_task_count := 0; overdue_fast_task_count := 0; unresolved_daily_task_count := 0 |} in
  let? states := mapR batch_state settlement_batches in
  let? failing := loop_failing settings metrics "forecast_progression_loop_error_alert_threshold" in
  let alerts :=
    alert_if failing (alert "forecast_progression_loop_errors" "critical"
                        "forecast progression loop consecutive errors exceeded threshold") ++
    alert_if (0 <? overdue_fast_task_count c)
      (alert "overdue_forecast_tasks" "warning"
         "one or more fast forecast tasks are past resolve time and still unresolved") in
  Ok [("status", VStr (status_of alerts));
      ("loop", VDict metrics);
      ("forecast", VDict
         [("task_count", VInt (Z.of_nat (length tasks)));
          ("active_fast_task_count", VInt (active_fast_task_count c));
          ("overdue_fast_task_count", VInt (overdue_fast_task_count c));
          ("unresolved_daily_task_count", VInt (unresolved_daily_task_count c));
          ("settlement_batch_count", VInt (Z.of_nat (length settlement_batches)));
          ("open_settlement_batch_count", VInt (count_batches "open" states));
          ("anchor_ready_batch_count", VInt (count_batches "anchor_ready" states));
          ("pending_anchor_batch_count", VInt (count_batches "anchor_submitted" states))]);
      ("alerts", VList (map VDict alerts))].

(** ** The queue of actions *)

Definition action (action_type severity : string) (item : dict) (age : value) : dict :=
  [("action_type", VStr action_type);
   ("severity", VStr severity);
   ("anchor_job_id", dget item "id");
   ("settlement_batch_id", dget item "settlement_batch_id");
   ("state", dget item "state");
   ("tx_hash", dget item "broadcast_tx_hash");
   ("last_broadcast_at", dget item "last_broadcast_at");
   ("updated_at", dget item "updated_at");
   ("age_seconds", age);
   ("failure_reason", dget item "failure_reason")].

Definition action_of (pending_warning_seconds : float) (current_time : Z) (item : dict) : res (list dict) :=
  let? reference_time := _anchor_job_reference_time item in
  let age := match reference_time with None => VNone | Some t => VInt (age_seconds current_time t) end in
  if field_is "state" "anchor_failed" item then Ok [action "review_failed_anchor" "high" item age]
  else if field_is "state" "anchor_submitted" item && truthy (dget item "broadcast_tx_hash") then
    let? stale := is_stale pending_warning_seconds current_time reference_time in
    Ok (alert_if stale (action "review_stale_pending_confirmation" "medium" item age))
  else Ok [].

Definition severity_rank : list (string * Z) := [("critical", 3); ("high", 2); ("medium", 1); ("low", 0)].

Definition action_key (item : dict) : res (list value) :=
  let? severity := as_key (dget_or item "severity" (VStr "low")) in
  let? age := py_sub (VInt 0) (por (dget item "age_seconds") (VInt 0)) in
  Ok [VInt (- default 0 (aget severity severity_rank)); age; por (dget item "anchor_job_id") (VStr "")].

Definition _build_anchor_action_queue (anchor_jobs : list dict) (settings : dict) (current_time : Z) : res (list dict) :=
  let? pending_warning_seconds := pending_warning settings in
  let? items := mapR (action_of pending_warning_seconds current_time) anchor_jobs in
  sort_rows action_key false (concat items).
