(* ===== verification/Server.v ===== *)
(** * The HTTP server ([server.py])

    The rules of the admin routes, the settings of the service, the middleware
    and the handlers.  A handler is an operation on the repository; [respond] is
    what the framework makes of its result, and [serve] is the way of a request
    through the middleware to the handler of its endpoint.  The settings are a
    dictionary ([Config.load_settings]), the clock gives the readings that a
    request makes in their order, and the curve library, RIPEMD-160 and the text
    of an exception are arguments. *)
From Stdlib Require Import ZArith Lia Ascii String.
From stdpp Require Import base list strings.
From S2P Require Import Prelude PyText PyFloat PyTime PyValue Sha256 Canonical PokerResults HandHistory Repository Forecast RewardRows.
From S2P Require Import Json ChainClient Economic Miners Submissions Settlement Windows PokerWindow.
From S2P Require Import Tournaments TournamentRecords Queries Service Anchors Config CryptoAuth Schemas Health.
Open Scope Z_scope.

(** ** Settings *)

Definition _LOCAL_RUNTIME_ENVS : list string := ["local"; "dev"; "development"; "test"].
Definition _LOOPBACK_BIND_HOSTS : list string := [""; "127.0.0.1"; "localhost"; "::1"; "[::1]"].

Definition _runtime_env (settings : dict) : res (option string) :=
  let raw := dget settings "runtime_env" in
  if is_none raw then Ok None
  else
    let? text := py_str raw in
    let normalized := str_lower (str_strip text) in
    Ok (if String.eqb normalized "" then None else Some normalized).

Definition _is_external_bind_host (bind_host : value) : res bool :=
  let? text := py_str (por bind_host (VStr "127.0.0.1")) in
  Ok (negb (existsb (String.eqb (str_lower (str_strip text))) _LOOPBACK_BIND_HOSTS)).

Definition admin_auth_enabled (settings : dict) : bool := truthy (dget_or settings "admin_auth_enabled" (VBool false)).

Definition _validate_admin_runtime_security (settings : dict) : res unit :=
  let? env := _runtime_env settings in
  let? external_bind := _is_external_bind_host (dget_or settings "bind_host" (VStr "127.0.0.1")) in
  let? token := str_or_empty (dget_or settings "admin_auth_token" (VStr "")) in
  let has_token := negb (String.eqb (str_strip token) "") in
  let allow_insecure_local := truthy (dget_or settings "allow_insecure_admin_without_auth" (VBool false)) in
  let is_local_runtime := match env with Some e => existsb (String.eqb e) _LOCAL_RUNTIME_ENVS | None => false end in
  let is_non_local_runtime := match env with Some e => negb (existsb (String.eqb e) _LOCAL_RUNTIME_ENVS) | None => false end in
  let? _ := guard (negb (is_non_local_runtime && (negb (admin_auth_enabled settings) || negb has_token)))
    (RuntimeError "admin auth must be enabled with CLAWCHAIN_ADMIN_AUTH_TOKEN for non-local runtime") in
  let? _ := guard (negb (external_bind && negb (admin_auth_enabled settings) && negb (is_local_runtime && allow_insecure_local)))
    (RuntimeError "admin auth must be enabled before binding admin routes to an external host") in
  guard (negb (external_bind && admin_auth_enabled settings && negb has_token))
    (RuntimeError "admin auth token is required before binding admin routes to an external host").

(** [settings.k] and the types of the fields. *)
Definition attribute (settings : dict) (k : string) : res value := of_option (aget k settings) AttributeError.

Definition int_value (v : value) : res Z :=
  match v with VInt n => Ok n | _ => Err (Unmodelled "setting that is not an integer") end.
Definition float_value (v : value) : res float :=
  match v with VFloat x => Ok x | _ => Err (Unmodelled "setting that is not a float") end.
Definition str_value (v : value) : res string :=
  match v with VStr s => Ok s | _ => Err (Unmodelled "setting that is not a string") end.

Definition int_attribute (settings : dict) (k : string) : res Z := let? v := attribute settings k in int_value v.
Definition float_attribute (settings : dict) (k : string) : res float := let? v := attribute settings k in float_value v.
Definition str_attribute (settings : dict) (k : string) : res string := let? v := attribute settings k in str_value v.
Definition int_getattr (settings : dict) (k : string) (n : Z) : res Z := int_value (dget_or settings k (VInt n)).
Definition float_getattr (settings : dict) (k : string) (x : float) : res float := float_value (dget_or settings k (VFloat x)).
Definition str_getattr (settings : dict) (k s : string) : res string := str_value (dget_or settings k (VStr s)).
Definition bool_getattr (settings : dict) (k : string) : bool := truthy (dget_or settings k (VBool false)).

Definition _forecast_settings (settings : dict) : res ForecastSettings :=
  let? fast := int_attribute settings "fast_task_seconds" in
  let? prewarm := int_getattr settings "fast_task_prewarm_seconds" 10 in
  let? build_timeout := float_getattr settings "fast_task_live_build_timeout_seconds" (flit 2 0) in
  let? commit := int_attribute settings "commit_window_seconds" in
  let? reveal := int_attribute settings "reveal_window_seconds" in
  let? cutoff := int_attribute settings "daily_cutoff_hour_utc" in
  let? daily_pool := int_getattr settings "poker_mtt_daily_reward_pool_amount" 0 in
  let? weekly_pool := int_getattr settings "poker_mtt_weekly_reward_pool_amount" 0 in
  let? watermark := int_getattr settings "poker_mtt_finalization_watermark_seconds" 21600 in
  let? daily_policy := str_getattr settings "poker_mtt_daily_policy_bundle_version" "poker_mtt_daily_policy_v1" in
  let? weekly_policy := str_getattr settings "poker_mtt_weekly_policy_bundle_version" "poker_mtt_weekly_policy_v1" in
  let? page_size := int_getattr settings "poker_mtt_projection_artifact_page_size" 5000 in
  let? lookback := int_getattr settings "poker_mtt_reward_window_reconcile_lookback_days" 35 in
  let? pm_weight := float_attribute settings "baseline_pm_weight" in
  let? bin_weight := float_attribute settings "baseline_bin_weight" in
  let? max_binance := int_attribute settings "max_binance_snapshot_freshness_seconds" in
  let? max_polymarket := int_attribute settings "max_polymarket_snapshot_freshness_seconds" in
  let? min_p := int_attribute settings "min_p_yes_bps" in
  let? max_p := int_attribute settings "max_p_yes_bps" in
  let? min_version := str_attribute settings "min_miner_version" in
  let? server := str_attribute settings "server_version" in
  let? proto := str_attribute settings "protocol" in
  Ok {| fast_task_seconds := fast;
        fast_task_prewarm_seconds := prewarm;
        fast_task_live_build_timeout_seconds := build_timeout;
        commit_window_seconds := commit;
        reveal_window_seconds := reveal;
        daily_cutoff_hour_utc := cutoff;
        poker_mtt_reward_windows_enabled := bool_getattr settings "poker_mtt_reward_windows_enabled";
        poker_mtt_settlement_anchoring_enabled := bool_getattr settings "poker_mtt_settlement_anchoring_enabled";
        poker_mtt_daily_reward_pool_amount := daily_pool;
        poker_mtt_weekly_reward_pool_amount := weekly_pool;
        poker_mtt_finalization_watermark_seconds := watermark;
        poker_mtt_daily_policy_bundle_version := daily_policy;
        poker_mtt_weekly_policy_bundle_version := weekly_policy;
        poker_mtt_projection_artifact_page_size := page_size;
        poker_mtt_reward_window_reconcile_lookback_days := lookback;
        poker_mtt_budget_enforcement_enabled := poker_mtt_budget_enforcement_enabled default_settings;
        poker_mtt_budget_source_id := poker_mtt_budget_source_id default_settings;
        poker_mtt_emission_epoch_id := poker_mtt_emission_epoch_id default_settings;
        poker_mtt_emission_epoch_budget_amount := poker_mtt_emission_epoch_budget_amount default_settings;
        poker_mtt_reward_aggregation_policy_version := poker_mtt_reward_aggregation_policy_version default_settings;
        legacy_arena_apply_enabled := bool_getattr settings "legacy_arena_apply_enabled";
        baseline_pm_weight := pm_weight;
        baseline_bin_weight := bin_weight;
        min_p_yes_bps := min_p;
        max_p_yes_bps := max_p;
        admission_release_bps := admission_release_bps default_settings;
        admission_mature_fast_reveals := admission_mature_fast_reveals default_settings;
        admission_mature_age_hours := admission_mature_age_hours default_settings;
        free_skip_ratio := free_skip_ratio default_settings;
        max_binance_snapshot_freshness_seconds := max_binance;
        max_polymarket_snapshot_freshness_seconds := max_polymarket;
        min_miner_version := min_version;
        server_version := server;
        protocol := proto |}.

(** ** Requests *)

(** The headers are kept under their lower-case names; [admin_principal] is what
    the middleware left in [request.state]. *)
Record Request := {
  method : string;
  path : string;
  headers : list (string * string);
  client_host : option string;
  admin_principal : value
}.

Definition header (request : Request) (name : string) : option string := aget name (headers request).

Definition with_principal (request : Request) (principal : dict) : Request :=
  {| method := method request; path := path request; headers := headers request; client_host := client_host request;
     admin_principal := VDict principal |}.

Definition _client_ip (request : Request) : option string :=
  match header request "x-forwarded-for" with
  | Some forwarded_for =>
      if String.eqb forwarded_for "" then client_host request
      else Some (str_strip (hd "" (str_split "," forwarded_for)))
  | None => client_host request
  end.

Definition _admin_token_principal (expected_token : string) : res dict :=
  let? hash := _hash_payload [("admin_auth_token", VStr expected_token)] in
  let digest := str_removeprefix "sha256:" hash in
  Ok [("operator_id", VStr ("admin:" +:+ str_take 12 digest)); ("authority_level", VStr "admin")].

Definition _local_admin_principal : dict :=
  [("operator_id", VStr "local-admin"); ("authority_level", VStr "local")].

Definition _admin_principal_from_request (request : Request) : dict :=
  match admin_principal request with
  | VDict principal =>
      if truthy (dget principal "operator_id") && truthy (dget principal "authority_level") then principal
      else _local_admin_principal
  | _ => _local_admin_principal
  end.

Definition upper_char (c : ascii) : ascii :=
  let n := code c in if (97 <=? n) && (n <=? 122) then chr (n - 32) else c.

(** Status and body of an answer. *)
Definition Response : Type := Z * value.

(** [request.method.upper() != "OPTIONS" and request.url.path.startswith("/admin/")];
    the upper-case letters matter where they spell a name in ASCII. *)
Definition is_admin_route (request : Request) : bool :=
  negb (String.eqb (of_chars (map upper_char (chars (method request)))) "OPTIONS") && str_startswith "/admin/" (path request).

Definition unauthorized : Response := (401, VDict [("detail", VStr "admin authorization required")]).

Definition require_admin_auth (app_settings : dict) (request : Request) (call_next : Request -> repo Response) : repo Response :=
  if is_admin_route request then
    if admin_auth_enabled app_settings then
      let expected_token := dget app_settings "admin_auth_token" in
      let authorization := default "" (header request "authorization") in
      if negb (truthy expected_token) then sret unauthorized
      else
        let*? token := py_str expected_token in
        if negb (String.eqb authorization ("Bearer " +:+ token)) then sret unauthorized
        else let*? principal := _admin_token_principal token in call_next (with_principal request principal)
    else call_next (with_principal request _local_admin_principal)
  else call_next request.

(** What the framework answers with: a result, or the error that a handler raised. *)
Definition respond (handler : repo value) : repo Response :=
  fun s => match handler s with
           | (Ok body, s') => (Ok (200, body), s')
           | (Err (HTTPException status detail), s') => (Ok (status, VDict [("detail", VStr detail)]), s')
           | (Err e, s') => (Err e, s')
           end.

(** [except ValueError as exc: raise HTTPException(status_code=..., detail=str(exc))] *)
Definition raising {A} (status : string -> Z) (m : repo A) : repo A :=
  scatch_value_error m (fun detail => sraise (HTTPException (status detail) detail)).

Definition always (status : Z) (detail : string) : Z := status.
Definition missing_or_bad (detail : string) : Z := if str_contains "not found" detail then 404 else 400.
Definition miner_missing_or_bad (detail : string) : Z := if str_contains "miner not found" detail then 404 else 400.
Definition repeated_or_bad (repeated detail : string) : Z :=
  if str_contains "not found" detail then 404 else if str_contains repeated detail then 409 else 400.

Definition _envelope (object_id : string) (object_type : string) (lane : value) (server_time : Z) (data : dict) : dict :=
  [("object_id", VStr object_id);
   ("object_type", VStr object_type);
   ("lane", lane);
   ("schema_version", VStr "v1");
   ("policy_bundle_version", VStr "pb_2026_04_09_a");
   ("server_time", VStr (iso_format server_time));
   ("trace_id", VStr ("trc:" +:+ object_id));
   ("data", VDict data)].

(** [max(1, min(limit, bound))] *)
Definition bounded (limit bound : Z) : Z := Z.max 1 (Z.min limit bound).

(** The fields of a row under the names of an answer. *)
Definition pick (ks : list string) (row : dict) : res dict := mapR (fun k => let? v := dgetitem row k in Ok (k, v)) ks.

Definition dict_list (items : list dict) : value := VList (map VDict items).

(** ** Handlers *)

(** The application: the settings, the service and the metrics of its loops. *)
Record App := {
  app_settings : dict;
  service : ForecastMiningService;
  anchor_reconcile_metrics : dict;
  forecast_progression_metrics : dict
}.

Section Handlers.
Context {Signature PublicKey : Type} (eth_keys : EthKeys Signature PublicKey)
  (ripemd160 : list Z -> res (list Z)) (str_exc : exn -> string).
(** The readings of the clock: those of [now()], and that of [utc_now()]. *)
Context (app : App) (now : nat -> Z) (utc_now : Z).

Definition _verify_signature (parts : list string) (signature_hex : string) (public_key_hex : value) : bool :=
  match
    (let? sig_bytes := fromhex (str_removeprefix "0x" signature_hex) in
     let? signature := new_signature eth_keys sig_bytes in
     let? key := as_str public_key_hex in
     let? key_bytes := fromhex (str_removeprefix "0x" key) in
     let? expected_pub := new_public_key eth_keys key_bytes in
     let? recovered := recover_public_key eth_keys signature (build_signature_hash parts) in
     Ok (same_key eth_keys recovered expected_pub))
  with Ok b => b | Err _ => false end.

Definition get_version : repo value :=
  let*? server := attribute (app_settings app) "server_version" in
  let*? minimum := attribute (app_settings app) "min_miner_version" in
  let*? proto := attribute (app_settings app) "protocol" in
  sret (VDict [("server_version", server); ("min_miner_version", minimum); ("protocol", proto)]).

Definition register_miner (payload : RegisterMinerRequest) (request : Request) : repo value :=
  let '(binding_ok, binding_err) :=
    verify_address_pubkey_binding ripemd160 str_exc (rm_address payload) (rm_public_key payload) in
  if negb binding_ok then sraise (HTTPException 400 binding_err)
  else
    let* miner := raising (fun detail => if str_contains "already registered" detail then 409 else 400)
      (Service.register_miner (service app) (rm_address payload) (rm_name payload) (rm_public_key payload)
         (rm_miner_version payload) (_client_ip request) (header request "user-agent") None utc_now) in
    let*? address := dgetitem miner "address" in
    let*? registration_index := dgetitem miner "registration_index" in
    sret (VDict [("success", VBool true); ("message", VStr "miner registered successfully"); ("address", address);
                 ("registration_index", registration_index)]).

Definition get_miner_info (address : string) : repo value :=
  let* miner := get_miner address in
  match miner with
  | None => sraise (HTTPException 404 "miner not found")
  | Some miner =>
      let*? answer := pick ["address"; "name"; "status"; "registration_index"; "economic_unit_id"] miner in
      sret (VDict answer)
  end.

Definition get_miner_stats (address : string) : repo value :=
  let* status := raising (always 404) (Queries.get_miner_status (settings (service app)) address (now 0%nat)) in
  let*? answer := pick ["forecast_commits"; "forecast_reveals"; "settled_tasks"; "total_rewards"; "public_rank"; "public_elo"] status in
  sret (VDict (("address", VStr address) :: answer)).

Definition get_stats : repo value :=
  let* stats := Queries.get_stats (settings (service app)) (now 0%nat) in sret (VDict stats).

Definition get_active_tasks : repo value :=
  let* items := Queries.get_active_tasks (now 0%nat) in
  sret (VDict (_envelope "active-task-runs" "task_run_list" (VStr "forecast_15m") (now 1%nat) [("items", dict_list items)])).

Definition get_upcoming_forecast_tasks (limit : Z) : repo value :=
  let bounded_limit := bounded limit 20 in
  let* items := get_upcoming_fast_task_details (settings (service app)) (now 0%nat) bounded_limit in
  sret (VDict (_envelope "upcoming-forecast-task-runs" "forecast_task_run_preview_list" (VStr "forecast_15m") (now 1%nat)
                 [("items", dict_list items); ("limit", VInt bounded_limit)])).

Definition get_task_detail (task_run_id : string) : repo value :=
  let* task := raising (always 404) (Queries.get_task_detail task_run_id (now 0%nat)) in
  let*? lane := dgetitem task "lane" in
  sret (VDict (_envelope task_run_id "task_run" lane (now 1%nat) task)).

Definition get_miner_status (miner_id : string) : repo value :=
  let* status := raising (always 404) (Queries.get_miner_status (settings (service app)) miner_id (now 0%nat)) in
  sret (VDict (_envelope miner_id "miner_status" (VStr "forecast_15m") (now 1%nat) status)).

(** The four histories of a miner. *)
Definition history (suffix object_type : string) (miner_id : string) (limit : Z) (query : Z -> repo (list dict)) : repo value :=
  let* items := raising (always 404) (query (bounded limit 100)) in
  sret (VDict (_envelope (miner_id +:+ suffix) object_type (VStr "forecast_15m") (now 1%nat)
                 [("items", dict_list items); ("limit", VInt (bounded limit 100))])).

Definition get_miner_submissions (miner_id : string) (limit : Z) : repo value :=
  history ":submissions" "miner_submission_history" miner_id limit (get_miner_submission_history miner_id).
Definition get_miner_reward_holds (miner_id : string) (limit : Z) : repo value :=
  history ":reward-holds" "miner_reward_hold_history" miner_id limit (get_miner_reward_hold_history miner_id).
Definition get_miner_reward_windows (miner_id : string) (limit : Z) : repo value :=
  history ":reward-windows" "miner_reward_window_history" miner_id limit (get_miner_reward_window_history miner_id).
Definition get_miner_task_history (miner_id : string) (limit : Z) : repo value :=
  history ":tasks-history" "miner_task_history" miner_id limit (Queries.get_miner_task_history miner_id).

Definition get_replay_proof (entity_type entity_id : string) : repo value :=
  let* proof := raising missing_or_bad (Queries.get_replay_proof entity_type entity_id (now 0%nat)) in
  sret (VDict (_envelope (entity_type +:+ ":" +:+ entity_id +:+ ":proof") "replay_proof"
                 (por (dget proof "lane") (VStr "forecast_15m")) (now 1%nat) proof)).

Definition get_artifact (artifact_id : string) : repo value :=
  let* artifact := raising (always 404) (Windows.get_artifact artifact_id) in
  sret (VDict (_envelope artifact_id "artifact" (VStr "forecast_15m") (now 1%nat) artifact)).

Definition get_public_leaderboard (limit : Z) : repo value :=
  let* data := Queries.get_public_leaderboard (settings (service app)) (bounded limit 100) (now 0%nat) in
  sret (VDict (_envelope "leaderboard" "leaderboard" (VStr "forecast_15m") (now 1%nat) data)).

(** ** Commit and reveal *)

(** [f"trc:{object_id}"] needs the text of an id. *)
Definition text_id (row : dict) : res string := let? id := dgetitem row "id" in as_key id.

Definition commit_task (task_run_id : string) (payload : CommitRequest) (request : Request) : repo value :=
  if negb (String.eqb (cr_task_run_id payload) task_run_id) then sraise (HTTPException 400 "task_run_id mismatch")
  else
    let* miner := get_miner (cr_miner_id payload) in
    match miner with
    | None => sraise (HTTPException 404 "miner not found")
    | Some miner =>
        let*? public_key := dgetitem miner "public_key" in
        if negb (_verify_signature [task_run_id; cr_commit_hash payload; cr_nonce payload; cr_miner_id payload;
                                    cr_request_id payload] (cr_signature payload) public_key)
        then sraise (HTTPException 403 "invalid signature")
        else
          let* submission := raising (repeated_or_bad "already committed")
            (let*? _ := dgetitem miner "economic_unit_id" in
             commit_submission task_run_id (cr_miner_id payload) (cr_request_id payload) (cr_commit_hash payload)
               (cr_nonce payload) (now 0%nat) (_client_ip request) (header request "user-agent")) in
          let*? object_id := text_id submission in
          let*? accepted_at := dgetitem submission "accepted_commit_at" in
          let* task := get_task task_run_id in
          let*? task := of_option task TypeError in
          let*? server_cutoff := dgetitem task "commit_deadline" in
          sret (VDict (_envelope object_id "submission_commit" (VStr "forecast_15m") (now 1%nat)
            [("ledger_id", VStr object_id); ("accepted_at", accepted_at); ("server_cutoff", server_cutoff);
             ("validation_status", VStr "accepted")]))
    end.

Definition reveal_task (task_run_id : string) (payload : RevealRequest) (request : Request) : repo value :=
  if negb (String.eqb (rr_task_run_id payload) task_run_id) then sraise (HTTPException 400 "task_run_id mismatch")
  else
    let* miner := get_miner (rr_miner_id payload) in
    match miner with
    | None => sraise (HTTPException 404 "miner not found")
    | Some miner =>
        let*? public_key := dgetitem miner "public_key" in
        if negb (_verify_signature [task_run_id; string_of_Z (rr_p_yes_bps payload); rr_nonce payload; rr_miner_id payload;
                                    rr_request_id payload] (rr_signature payload) public_key)
        then sraise (HTTPException 403 "invalid signature")
        else
          let* submission := raising (repeated_or_bad "already revealed")
            (let*? _ := dgetitem miner "economic_unit_id" in
             reveal_submission (settings (service app)) task_run_id (rr_miner_id payload) (rr_request_id payload)
               (rr_p_yes_bps payload) (rr_nonce payload) (now 0%nat) (_client_ip request) (header request "user-agent")) in
          let* task := get_task task_run_id in
          let*? object_id := text_id submission in
          let*? accepted_at := dgetitem submission "accepted_reveal_at" in
          let*? task := of_option task TypeError in
          let*? server_cutoff := dgetitem task "reveal_deadline" in
          let*? pack_hash := dgetitem task "pack_hash" in
          let*? reward_eligibility := dgetitem submission "eligibility_status" in
          sret (VDict (_envelope object_id "submission_reveal" (VStr "forecast_15m") (now 1%nat)
            [("ledger_id", VStr object_id); ("accepted_at", accepted_at); ("server_cutoff", server_cutoff);
             ("pack_hash", pack_hash); ("validation_status", VStr "accepted"); ("reward_eligibility", reward_eligibility)]))
    end.

(** ** Admin: reports and anchoring *)

Definition get_risk_cases (state : option string) : repo value :=
  let* items := list_risk_cases state None None in sret (VDict [("items", dict_list items)]).

Definition get_open_risk_cases : repo value :=
  let* items := list_risk_cases (Some "open"%string) None None in sret (VDict [("items", dict_list items)]).

(** The answer of an operation of the service. *)
Definition answered (status : string -> Z) (m : repo dict) : repo value :=
  let* result := raising status m in sret (VDict result).

Definition override_risk_case (risk_case_id : string) (payload : RiskDecisionOverrideRequest) (request : Request) : repo value :=
  let admin_principal := _admin_principal_from_request request in
  answered missing_or_bad
    (let*? operator_id := (let? v := dgetitem admin_principal "operator_id" in as_key v) in
     let*? authority_level := (let? v := dgetitem admin_principal "authority_level" in as_key v) in
     Queries.override_risk_case risk_case_id (rd_decision payload) (rd_reason payload) operator_id authority_level (now 0%nat)).

Definition get_settlement_batches : repo value :=
  let* items := list_settlement_batches in
  let*? items := mapR _summarize_settlement_batch_response items in
  sret (VDict [("items", dict_list items)]).

Definition run_admin_reconcile : repo value :=
  let current := now 0%nat in
  do* reconcile (service app) current in
  let* tasks := list_tasks in
  let* reward_windows := list_reward_windows in
  let* settlement_batches := list_settlement_batches in
  sret (VDict [("success", VBool true); ("reconciled_at", VStr (_isoformat_z current));
               ("task_count", VInt (Z.of_nat (length tasks)));
               ("reward_window_count", VInt (Z.of_nat (length reward_windows)));
               ("settlement_batch_count", VInt (Z.of_nat (length settlement_batches)))]).

Definition get_anchor_jobs : repo value :=
  let* items := list_anchor_jobs in sret (VDict [("items", dict_list items)]).

Definition counted (items : list dict) : value := VDict [("count", VInt (Z.of_nat (length items))); ("items", dict_list items)].

Definition reconcile_anchor_jobs_on_chain : repo value :=
  let* items := reconcile_pending_anchor_jobs_on_chain (service app) (now 0%nat) in sret (counted items).

Definition get_chain_health : repo value :=
  let* items := list_anchor_jobs in
  let*? report := _build_chain_health_snapshot items (anchor_reconcile_metrics app) (app_settings app) (now 0%nat) in
  sret (VDict report).

Definition get_forecast_health : repo value :=
  let* tasks := list_tasks in
  let* settlement_batches := list_settlement_batches in
  let*? report := _build_forecast_progression_health_snapshot tasks settlement_batches (forecast_progression_metrics app)
                    (app_settings app) (now 0%nat) in
  sret (VDict report).

Definition get_anchor_job_action_queue : repo value :=
  let* jobs := list_anchor_jobs in
  let*? items := _build_anchor_action_queue jobs (app_settings app) (now 0%nat) in
  sret (counted items).

Definition get_chain_tx_plan (anchor_job_id : string) : repo value :=
  answered missing_or_bad (build_chain_tx_plan anchor_job_id (now 0%nat)).
Definition broadcast_chain_tx_fallback (anchor_job_id : string) : repo value :=
  answered missing_or_bad (broadcast_chain_tx (service app) fallback anchor_job_id (now 0%nat)).
Definition broadcast_chain_tx_typed (anchor_job_id : string) : repo value :=
  answered missing_or_bad (broadcast_chain_tx (service app) typed anchor_job_id (now 0%nat)).
Definition confirm_anchor_job_on_chain (anchor_job_id : string) : repo value :=
  answered missing_or_bad (Anchors.confirm_anchor_job_on_chain (service app) anchor_job_id (now 0%nat)).
Definition rebuild_reward_window (reward_window_id : string) : repo value :=
  answered missing_or_bad (Service.rebuild_reward_window (service app) reward_window_id (now 0%nat)).
Definition retry_anchor_settlement_batch (settlement_batch_id : string) : repo value :=
  answered missing_or_bad (Anchors.retry_anchor_settlement_batch (service app) settlement_batch_id (now 0%nat)).
Definition submit_anchor_job (settlement_batch_id : string) : repo value :=
  answered missing_or_bad (Anchors.submit_anchor_job (service app) settlement_batch_id (now 0%nat)).

Definition mark_anchor_job_anchored (anchor_job_id : string) : repo value :=
  let* receipt := raising missing_or_bad (Anchors.confirm_anchor_job_on_chain (service app) anchor_job_id (now 0%nat)) in
  let status := dget receipt "chain_confirmation_status" in
  if py_eq_str status "confirmed" then sret (VDict receipt)
  else let*? text := py_str status in sraise (HTTPException 409 ("anchor job not verified: " +:+ text)).

(** [body] is [await request.json()]. *)
Definition mark_anchor_job_failed (anchor_job_id : string) (body : res value) : repo value :=
  let*? payload := body in
  answered missing_or_bad
    (let*? payload := as_dict payload in
     let*? failure_reason := py_str (por (dget payload "failure_reason") (VStr "operator_marked_failed")) in
     Anchors.mark_anchor_job_failed (service app) anchor_job_id (VStr failure_reason) (now 0%nat)).
Definition retry_failed_anchor_job_broadcast_typed (anchor_job_id : string) : repo value :=
  answered missing_or_bad (_retry_failed_anchor_job_broadcast (service app) anchor_job_id typed (now 0%nat)).
Definition retry_failed_anchor_job_broadcast_fallback (anchor_job_id : string) : repo value :=
  answered missing_or_bad (_retry_failed_anchor_job_broadcast (service app) anchor_job_id fallback (now 0%nat)).

(** ** Admin: tournaments *)

Definition arena_status (detail : string) : Z :=
  if String.eqb detail "legacy_arena_apply_disabled" then 409 else miner_missing_or_bad detail.

Definition apply_arena_results (payload : ApplyArenaResultsRequest) : repo value :=
  answered arena_status
    (TournamentRecords.apply_arena_results (settings (service app)) (aa_tournament_id payload) (aa_rated_or_practice payload)
       (aa_human_only payload) (aa_results payload) (now 0%nat)).

Definition ingest_poker_mtt_hand (payload : PokerMTTHandCompletedEventRequest) : repo value :=
  answered (always 400) (ingest_poker_mtt_hand_event payload (now 0%nat)).

Definition finalize_poker_mtt_hidden_eval (payload : FinalizePokerMTTHiddenEvalRequest) : repo value :=
  answered (always 400)
    (Tournaments.finalize_poker_mtt_hidden_eval (fh_tournament_id payload) (fh_policy_bundle_version payload)
       (fh_seed_assignment_id payload) (fh_baseline_sample_id payload) (fh_entries payload) (now 0%nat)).

Definition opt_int (n : option Z) : value := match n with Some n => VInt n | None => VNone end.

Definition build_poker_mtt_rating_snapshot (payload : BuildPokerMTTRatingSnapshotRequest) : repo value :=
  answered miner_missing_or_bad
    (TournamentRecords.build_poker_mtt_rating_snapshot (br_miner_address payload) (VTime (br_window_start_at payload))
       (VTime (br_window_end_at payload)) (VFloat (br_public_rating payload)) (opt_int (br_public_rank payload))
       (VFloat (br_confidence payload)) (br_policy_bundle_version payload) (now 0%nat)).

Definition apply_poker_mtt_results (payload : ApplyPokerMTTResultsRequest) : repo value :=
  answered miner_missing_or_bad
    (Tournaments.apply_poker_mtt_results (ap_tournament_id payload) (ap_rated_or_practice payload) (ap_human_only payload)
       (ap_field_size payload) (ap_policy_bundle_version payload) (ap_results payload) (now 0%nat)).

Definition build_poker_mtt_reward_window (payload : BuildPokerMTTRewardWindowRequest) : repo value :=
  answered (always 400)
    (PokerWindow.build_poker_mtt_reward_window (settings (service app)) (bw_lane payload) (bw_window_start_at payload)
       (bw_window_end_at payload) (bw_reward_pool_amount payload) (bw_include_provisional payload)
       (bw_policy_bundle_version payload) [] (bw_reward_window_id payload) (now 0%nat)).

(** ** Admin: the projection of final rankings *)

Definition _poker_mtt_final_ranking_projection_artifact_id (projection_id : string) : string :=
  "art:poker_mtt_final_ranking_projection:" +:+ projection_id.

(** The fields that the result and the stored payload share. *)
Definition projection_head (payload : ApplyPokerMTTFinalRankingProjectionRequest) : dict :=
  [("schema_version", VStr (pr_schema_version payload));
   ("projection_id", VStr (pr_projection_id payload));
   ("tournament_id", VStr (pr_tournament_id payload));
   ("source_mtt_id", VStr (pr_source_mtt_id payload))].

Definition projection_snapshot (payload : ApplyPokerMTTFinalRankingProjectionRequest) : dict :=
  [("standing_snapshot_id", VStr (pr_standing_snapshot_id payload));
   ("standing_snapshot_hash", VStr (pr_standing_snapshot_hash payload));
   ("final_ranking_root", VStr (pr_final_ranking_root payload));
   ("locked_at", VStr (_isoformat_z (pr_locked_at payload)))].

Definition projection_result (payload : ApplyPokerMTTFinalRankingProjectionRequest) (items : value) : dict :=
  projection_head payload ++
  [("rated_or_practice", VStr (pr_rated_or_practice payload));
   ("human_only", VBool (pr_human_only payload));
   ("field_size", VInt (pr_field_size payload));
   ("policy_bundle_version", VStr (pr_policy_bundle_version payload))] ++
  projection_snapshot payload ++ [("items", items)].

Definition projection_payload (payload : ApplyPokerMTTFinalRankingProjectionRequest) (result : dict) : dict :=
  projection_head payload ++ projection_snapshot payload ++ [("result", VDict result)].

Definition projection_artifact (payload : ApplyPokerMTTFinalRankingProjectionRequest) (artifact_payload : dict)
  (payload_hash : string) : dict :=
  [("id", VStr (_poker_mtt_final_ranking_projection_artifact_id (pr_projection_id payload)));
   ("kind", VStr "poker_mtt_final_ranking_projection");
   ("entity_type", VStr "poker_mtt_tournament");
   ("entity_id", VStr (pr_tournament_id payload));
   ("payload_json", VDict artifact_payload);
   ("payload_hash", VStr payload_hash);
   ("created_at", VStr (_isoformat_z (pr_locked_at payload)));
   ("updated_at", VStr (_isoformat_z (pr_locked_at payload)))].

(** The answer of an earlier projection with the id: an error for another root,
    and the stored result if there is one. *)
Definition replayed (payload : ApplyPokerMTTFinalRankingProjectionRequest) (existing_projection : option dict)
  : res (option value) :=
  match existing_projection with
  | None => Ok None
  | Some existing =>
      let? existing_payload := as_dict (por (dget existing "payload_json") (VDict [])) in
      let? _ := guard (py_eq_str (dget existing_payload "final_ranking_root") (pr_final_ranking_root payload))
                  (HTTPException 409 "projection root conflict") in
      let existing_result := dget existing_payload "result" in
      Ok (if truthy existing_result then Some existing_result else None)
  end.

Definition record_projection (payload : ApplyPokerMTTFinalRankingProjectionRequest) : repo value :=
  do* forS (fun row => do* save_poker_mtt_final_ranking row in sret tt) (pr_rows payload) in
  let* answer := Tournaments.project_poker_mtt_final_rankings (pr_tournament_id payload) (pr_rated_or_practice payload)
    (pr_human_only payload) (pr_field_size payload) (pr_policy_bundle_version payload) (pr_locked_at payload) in
  let*? items := dgetitem answer "items" in
  let result := projection_result payload items in
  let artifact_payload := projection_payload payload result in
  let*? payload_hash := _hash_payload artifact_payload in
  do* save_artifact (projection_artifact payload artifact_payload payload_hash) in
  sret (VDict result).

Definition project_poker_mtt_final_rankings (payload : ApplyPokerMTTFinalRankingProjectionRequest) : repo value :=
  raising missing_or_bad
    (let* existing_projection :=
       Repository.get_artifact (_poker_mtt_final_ranking_projection_artifact_id (pr_projection_id payload)) in
     let*? stored := replayed payload existing_projection in
     match stored with
     | Some result => sret result
     | None => record_projection payload
     end).

(** ** Endpoints *)

(** The endpoints with the parts of their path, their query and their body. *)
Inductive Endpoint :=
| GET_version
| POST_register (payload : RegisterMinerRequest)
| GET_miner_info (address : string)
| GET_miner_stats (address : string)
| GET_stats
| GET_active_tasks
| GET_upcoming (limit : Z)
| GET_task_detail (task_run_id : string)
| GET_miner_status (miner_id : string)
| GET_submissions (miner_id : string) (limit : Z)
| GET_reward_holds (miner_id : string) (limit : Z)
| GET_reward_windows (miner_id : string) (limit : Z)
| GET_task_history (miner_id : string) (limit : Z)
| GET_replay_proof (entity_type entity_id : string)
| GET_artifact (artifact_id : string)
| GET_leaderboard (limit : Z)
| GET_risk_cases (state : option string)
| GET_open_risk_cases
| POST_override (risk_case_id : string) (payload : RiskDecisionOverrideRequest)
| GET_settlement_batches
| POST_reconcile
| GET_anchor_jobs
| POST_reconcile_chain
| GET_chain_health
| GET_forecast_health
| GET_action_queue
| GET_chain_tx_plan (anchor_job_id : string)
| POST_broadcast_fallback (anchor_job_id : string)
| POST_broadcast_typed (anchor_job_id : string)
| POST_confirm_chain (anchor_job_id : string)
| POST_retry_typed (anchor_job_id : string)
| POST_retry_fallback (anchor_job_id : string)
| POST_rebuild_window (reward_window_id : string)
| POST_retry_anchor (settlement_batch_id : string)
| POST_submit_anchor (settlement_batch_id : string)
| POST_mark_anchored (anchor_job_id : string)
| POST_mark_failed (anchor_job_id : string) (body : res value)
| POST_arena_results (payload : ApplyArenaResultsRequest)
| POST_hand (payload : PokerMTTHandCompletedEventRequest)
| POST_hidden_eval (payload : FinalizePokerMTTHiddenEvalRequest)
| POST_rating_snapshot (payload : BuildPokerMTTRatingSnapshotRequest)
| POST_poker_results (payload : ApplyPokerMTTResultsRequest)
| POST_projection (payload : ApplyPokerMTTFinalRankingProjectionRequest)
| POST_poker_window (payload : BuildPokerMTTRewardWindowRequest)
| POST_commit (task_run_id : string) (payload : CommitRequest)
| POST_reveal (task_run_id : string) (payload : RevealRequest).

Definition endpoint_path (e : Endpoint) : string :=
  match e with
  | GET_version => "/clawchain/version"
  | POST_register _ => "/clawchain/miner/register"
  | GET_miner_info address => "/clawchain/miner/" +:+ address
  | GET_miner_stats address => "/clawchain/miner/" +:+ address +:+ "/stats"
  | GET_stats => "/clawchain/stats"
  | GET_active_tasks => "/v1/task-runs/active"
  | GET_upcoming _ => "/v1/forecast/task-runs/upcoming"
  | GET_task_detail id => "/v1/forecast/task-runs/" +:+ id
  | GET_miner_status id => "/v1/miners/" +:+ id +:+ "/status"
  | GET_submissions id _ => "/v1/miners/" +:+ id +:+ "/submissions"
  | GET_reward_holds id _ => "/v1/miners/" +:+ id +:+ "/reward-holds"
  | GET_reward_windows id _ => "/v1/miners/" +:+ id +:+ "/reward-windows"
  | GET_task_history id _ => "/v1/miners/" +:+ id +:+ "/tasks/history"
  | GET_replay_proof entity_type id => "/v1/replays/" +:+ entity_type +:+ "/" +:+ id +:+ "/proof"
  | GET_artifact id => "/v1/artifacts/" +:+ id
  | GET_leaderboard _ => "/v1/leaderboard"
  | GET_risk_cases _ => "/admin/risk-cases"
  | GET_open_risk_cases => "/admin/risk-cases/open"
  | POST_override id _ => "/admin/risk-decisions/" +:+ id +:+ "/override"
  | GET_settlement_batches => "/admin/settlement-batches"
  | POST_reconcile => "/admin/reconcile"
  | GET_anchor_jobs => "/admin/anchor-jobs"
  | POST_reconcile_chain => "/admin/anchor-jobs/reconcile-chain"
  | GET_chain_health => "/admin/chain/health"
  | GET_forecast_health => "/admin/forecast/health"
  | GET_action_queue => "/admin/anchor-jobs/action-queue"
  | GET_chain_tx_plan id => "/admin/anchor-jobs/" +:+ id +:+ "/chain-tx-plan"
  | POST_broadcast_fallback id => "/admin/anchor-jobs/" +:+ id +:+ "/broadcast-fallback"
  | POST_broadcast_typed id => "/admin/anchor-jobs/" +:+ id +:+ "/broadcast-typed"
  | POST_confirm_chain id => "/admin/anchor-jobs/" +:+ id +:+ "/confirm-chain"
  | POST_retry_typed id => "/admin/anchor-jobs/" +:+ id +:+ "/retry-broadcast-typed"
  | POST_retry_fallback id => "/admin/anchor-jobs/" +:+ id +:+ "/retry-broadcast-fallback"
  | POST_rebuild_window id => "/admin/reward-windows/" +:+ id +:+ "/rebuild"
  | POST_retry_anchor id => "/admin/settlement-batches/" +:+ id +:+ "/retry-anchor"
  | POST_submit_anchor id => "/admin/settlement-batches/" +:+ id +:+ "/submit-anchor"
  | POST_mark_anchored id => "/admin/anchor-jobs/" +:+ id +:+ "/mark-anchored"
  | POST_mark_failed id _ => "/admin/anchor-jobs/" +:+ id +:+ "/mark-failed"
  | POST_arena_results _ => "/admin/arena/results/apply"
  | POST_hand _ => "/admin/poker-mtt/hands/ingest"
  | POST_hidden_eval _ => "/admin/poker-mtt/hidden-eval/finalize"
  | POST_rating_snapshot _ => "/admin/poker-mtt/rating-snapshots/build"
  | POST_poker_results _ => "/admin/poker-mtt/results/apply"
  | POST_projection _ => "/admin/poker-mtt/final-rankings/project"
  | POST_poker_window _ => "/admin/poker-mtt/reward-windows/build"
  | POST_commit id _ => "/v1/task-runs/" +:+ id +:+ "/commit"
  | POST_reveal id _ => "/v1/task-runs/" +:+ id +:+ "/reveal"
  end.

Definition is_get (e : Endpoint) : bool :=
  match e with
  | GET_version | GET_miner_info _ | GET_miner_stats _ | GET_stats | GET_active_tasks | GET_upcoming _
  | GET_task_detail _ | GET_miner_status _ | GET_submissions _ _ | GET_reward_holds _ _ | GET_reward_windows _ _
  | GET_task_history _ _ | GET_replay_proof _ _ | GET_artifact _ | GET_leaderboard _ | GET_risk_cases _
  | GET_open_risk_cases | GET_settlement_batches | GET_anchor_jobs | GET_chain_health | GET_forecast_health
  | GET_action_queue | GET_chain_tx_plan _ => true
  | _ => false
  end.
Definition endpoint_method (e : Endpoint) : string := if is_get e then "GET" else "POST".

Definition run (e : Endpoint) (request : Request) : repo value :=
  match e with
  | GET_version => get_version
  | POST_register payload => register_miner payload request
  | GET_miner_info address => get_miner_info address
  | GET_miner_stats address => get_miner_stats address
  | GET_stats => get_stats
  | GET_active_tasks => get_active_tasks
  | GET_upcoming limit => get_upcoming_forecast_tasks limit
  | GET_task_detail id => get_task_detail id
  | GET_miner_status id => get_miner_status id
  | GET_submissions id limit => get_miner_submissions id limit
  | GET_reward_holds id limit => get_miner_reward_holds id limit
  | GET_reward_windows id limit => get_miner_reward_windows id limit
  | GET_task_history id limit => get_miner_task_history id limit
  | GET_replay_proof entity_type id => get_replay_proof entity_type id
  | GET_artifact id => get_artifact id
  | GET_leaderboard limit => get_public_leaderboard limit
  | GET_risk_cases state => get_risk_cases state
  | GET_open_risk_cases => get_open_risk_cases
  | POST_override id payload => override_risk_case id payload request
  | GET_settlement_batches => get_settlement_batches
  | POST_reconcile => run_admin_reconcile
  | GET_anchor_jobs => get_anchor_jobs
  | POST_reconcile_chain => reconcile_anchor_jobs_on_chain
  | GET_chain_health => get_chain_health
  | GET_forecast_health => get_forecast_health
  | GET_action_queue => get_anchor_job_action_queue
  | GET_chain_tx_plan id => get_chain_tx_plan id
  | POST_broadcast_fallback id => broadcast_chain_tx_fallback id
  | POST_broadcast_typed id => broadcast_chain_tx_typed id
  | POST_confirm_chain id => confirm_anchor_job_on_chain id
  | POST_retry_typed id => retry_failed_anchor_job_broadcast_typed id
  | POST_retry_fallback id => retry_failed_anchor_job_broadcast_fallback id
  | POST_rebuild_window id => rebuild_reward_window id
  | POST_retry_anchor id => retry_anchor_settlement_batch id
  | POST_submit_anchor id => submit_anchor_job id
  | POST_mark_anchored id => mark_anchor_job_anchored id
  | POST_mark_failed id body => mark_anchor_job_failed id body
  | POST_arena_results payload => apply_arena_results payload
  | POST_hand payload => ingest_poker_mtt_hand payload
  | POST_hidden_eval payload => finalize_poker_mtt_hidden_eval payload
  | POST_rating_snapshot payload => build_poker_mtt_rating_snapshot payload
  | POST_poker_results payload => apply_poker_mtt_results payload
  | POST_projection payload => project_poker_mtt_final_rankings payload
  | POST_poker_window payload => build_poker_mtt_reward_window payload
  | POST_commit id payload => commit_task id payload request
  | POST_reveal id payload => reveal_task id payload request
  end.

(** A request for an endpoint: its method and path are those of the endpoint. *)
Definition request_for (e : Endpoint) (headers : list (string * string)) (client_host : option string) : Request :=
  {| method := endpoint_method e; path := endpoint_path e; headers := headers; client_host := client_host;
     admin_principal := VNone |}.

Definition serve (e : Endpoint) (headers : list (string * string)) (client_host : option string) : repo Response :=
  require_admin_auth (app_settings app) (request_for e headers client_host) (fun request => respond (run e request)).
End Handlers.

(** ** The application *)

(** [create_app]: the rules of the admin routes, the settings of the service,
    and what the start of the lifespan keeps.  A repository is given, so no
    loop runs in the background. *)
Definition create_app (settings : dict) (provider : option TaskProvider) (client : Service.ChainClient) : res App :=
  let? _ := _validate_admin_runtime_security settings in
  let? loop_interval := float_getattr settings "anchor_reconcile_loop_interval_seconds" (f_of_Z 15) in
  let? forecast_interval := float_getattr settings "forecast_progression_loop_interval_seconds" (f_of_Z 5) in
  let? forecast := _forecast_settings settings in
  Ok {| app_settings := settings;
        service := {| Service.settings := forecast; task_provider := provider; chain := client |};
        anchor_reconcile_metrics :=
          _new_anchor_reconcile_metrics (truthy (dget_or settings "anchor_reconcile_loop_enabled" (VBool true))) loop_interval;
        forecast_progression_metrics :=
          _new_forecast_progression_metrics (truthy (dget_or settings "forecast_progression_loop_enabled" (VBool true)))
            forecast_interval |}.

(** The batch whose anchor the default confirmer asks the chain for. *)
Definition confirmation_batch (tx_hash settlement_batch_id : value) : repo value :=
  if truthy settlement_batch_id then sret settlement_batch_id
  else
    let*? text := str_or_empty tx_hash in
    let* jobs := list_anchor_jobs in
    slift (foldR (fun resolved job =>
      if truthy resolved then Ok resolved
      else
        let? hash := str_value (por (dget job "broadcast_tx_hash") (VStr "")) in
        if String.eqb (str_strip hash) (str_strip text) then Ok (dget job "settlement_batch_id") else Ok resolved)
      jobs settlement_batch_id).

(** [main]: the settings of the environment with the host of the command line. *)
Definition main (getenv : string -> option string) (host : string) (provider : option TaskProvider)
  (client : Service.ChainClient) : res App :=
  let? settings := load_settings getenv in
  create_app (dset settings "bind_host" (VStr host)) provider client.
