(* ===== verification/ServerFacts.v ===== *)
(** * What the server promises

    The admin routes of an exposed server need the token; without it only
    registrations, signed commits and reveals, and proofs of replay can write;
    and a registration is refused when its address is not the one of its key. *)
From Stdlib Require Import ZArith Lia Ascii String Permutation Sorted.
From stdpp Require Import base list strings.
From S2P Require Import Prelude PyText PyFloat PyTime PyValue Sha256 Canonical PokerResults HandHistory Repository RepositoryFacts.
From S2P Require Import Forecast RewardRows Json ChainClient Economic Miners Submissions Settlement Windows PokerWindow.
From S2P Require Import Tournaments TournamentFacts TournamentRecords Queries Service Anchors Footprint Roots QueryFacts.
From S2P Require Import Config CryptoAuth Schemas Health Server.
Open Scope Z_scope.

(** ** The store after an answer *)

Lemma respond_store m s : (respond m s).2 = (m s).2.
Proof. unfold respond. by destruct (m s) as [[v|[]] s']. Qed.

Lemma raising_store {A} status (m : repo A) s : (raising status m s).2 = (m s).2.
Proof. unfold raising, scatch_value_error. by destruct (m s) as [[v|[]] s']. Qed.

Definition is_admin (e : Endpoint) : bool := str_startswith "/admin/" (endpoint_path e).

Lemma admin_route e headers host : is_admin_route (request_for e headers host) = is_admin e.
Proof. unfold is_admin_route, is_admin, endpoint_method. simpl. by destruct e. Qed.

Section Requests.
Context {Signature PublicKey : Type} (eth_keys : EthKeys Signature PublicKey)
  (ripemd160 : list Z -> res (list Z)) (str_exc : exn -> string).
Context (app : App) (now : nat -> Z) (utc_now : Z).
Abbreviation run := (run eth_keys ripemd160 str_exc app now utc_now).
Abbreviation serve := (serve eth_keys ripemd160 str_exc app now utc_now).

(** A request that passes reaches its handler, with a principal for an admin route. *)
Lemma serve_cases e headers host s :
  serve e headers host s = (Ok unauthorized, s) \/
  (exists err, serve e headers host s = (Err err, s)) \/
  (exists request, serve e headers host s = respond (run e request) s).
Proof.
  unfold Server.serve, require_admin_auth. rewrite admin_route. destruct (is_admin e); [|right; right; by eexists].
  destruct (admin_auth_enabled (app_settings app)); [|right; right; by eexists].
  destruct (negb (truthy _)); [by left|]. unfold sbind, slift. destruct (py_str _) as [token|err]; [|right; left; by exists err].
  destruct (negb (String.eqb _ _)); [by left|]. destruct (_admin_token_principal token) as [p|err]; [|right; left; by exists err].
  right; right. by eexists.
Qed.

Lemma serve_store e headers host s :
  (serve e headers host s).2 = s \/ exists request, (serve e headers host s).2 = (run e request s).2.
Proof.
  destruct (serve_cases e headers host s) as [H|[(err & H)|(request & H)]]; rewrite H; [by left|by left|].
  right. exists request. apply respond_store.
Qed.

(** ** The token *)

Lemma no_token_no_entry e hs host s :
  admin_auth_enabled (app_settings app) = true -> is_admin e = true ->
  forall token, dget (app_settings app) "admin_auth_token" = VStr token -> token <> "" ->
  aget "authorization"%string hs <> Some ("Bearer " +:+ token) ->
  serve e hs host s = (Ok unauthorized, s).
Proof.
  intros Hon He token Ht Hne Hh. unfold Server.serve, require_admin_auth. rewrite admin_route, He, Hon, Ht.
  apply String.eqb_neq in Hne. cbn [truthy negb]. rewrite Hne. unfold header.
  change (headers (request_for e hs host)) with hs. cbn [negb py_str]. unfold sbind, slift.
  destruct (String.eqb_spec (default "" (aget "authorization" hs)) ("Bearer " +:+ token)) as [E|]; [|done].
  destruct (aget "authorization" hs) as [a|] eqn:Ea; simpl in E; [by subst a|discriminate].
Qed.
End Requests.

(** ** Exposed servers *)

(** The environment names a runtime that is not local, or the host is reachable
    from outside and no exception is asked for. *)
Definition exposed (getenv : string -> option string) (host : string) : Prop :=
  (exists env, getenv "CLAWCHAIN_ENV" = Some env /\ str_lower (str_strip env) <> "" /\
     ~ In (str_lower (str_strip env)) _LOCAL_RUNTIME_ENVS) \/
  (~ In (str_lower (str_strip host)) _LOOPBACK_BIND_HOSTS /\
   _bool_env getenv "CLAWCHAIN_ALLOW_INSECURE_ADMIN_WITHOUT_AUTH" false = false).

Lemma not_in_strings x l : ~ In x l -> existsb (String.eqb x) l = false.
Proof.
  intros H. destruct (existsb _ l) eqn:E; [|done]. apply existsb_exists in E as (y & Hy & Exy). by apply String.eqb_eq in Exy as ->.
Qed.

Lemma load_entry {K V} `{PyKey K} (l : list (K * res V)) d k r :
  mapR (fun kv => let? v := kv.2 in Ok (kv.1, v)) l = Ok d -> aget k l = Some r -> exists v, r = Ok v /\ aget k d = Some v.
Proof.
  revert d. induction l as [|[k' r'] l IH]; intros d H0 Hk; [discriminate|]. simpl in H0, Hk.
  apply rbind_ok in H0 as (kv & Hkv & H0). apply rbind_ok in Hkv as (v & -> & Hkv). injection Hkv as <-.
  apply rbind_ok in H0 as (d' & Hd & H0). injection H0 as <-. simpl.
  destruct (keqb k k'); [injection Hk as <-; by exists v|by apply IH].
Qed.

Section Exposed.
Context (getenv : string -> option string) (host : string) (settings : dict).
Hypothesis loaded : load_settings getenv = Ok settings.
Let configured : dict := dset settings "bind_host" (VStr host).

Lemma configured_get k r :
  aget k (AppSettings getenv) = Some r -> k <> "bind_host"%string ->
  exists v, r = Ok v /\ forall dflt, dget_or configured k dflt = v.
Proof.
  intros Hk Hne. destruct (load_entry _ _ _ _ loaded Hk) as (v & -> & Hv). exists v. split; [done|].
  intros dflt. unfold configured, dget_or, dset. by rewrite aget_aset_ne, Hv.
Qed.

Definition runtime : option string :=
  match getenv "CLAWCHAIN_ENV" with
  | None => None
  | Some env => let name := str_lower (str_strip env) in if String.eqb name "" then None else Some name
  end.

Lemma configured_runtime : _runtime_env configured = Ok runtime.
Proof.
  destruct (configured_get "runtime_env" _ eq_refl ltac:(done)) as (v & Hv & E). injection Hv as <-.
  unfold _runtime_env, runtime, dget. rewrite E. unfold getenv_value. by destruct (getenv "CLAWCHAIN_ENV").
Qed.

Lemma configured_host :
  _is_external_bind_host (dget_or configured "bind_host" (VStr "127.0.0.1")) =
  Ok (negb (existsb (String.eqb (str_lower (str_strip (if String.eqb host "" then "127.0.0.1" else host)))) _LOOPBACK_BIND_HOSTS)).
Proof.
  unfold configured, dget_or, dset. rewrite aget_aset_eq. unfold _is_external_bind_host, por. simpl.
  by destruct (String.eqb host "").
Qed.

Lemma configured_token : exists token,
  str_or_empty (dget_or configured "admin_auth_token" (VStr "")) = Ok token /\
  (token <> ""%string -> forall dflt, dget_or configured "admin_auth_token" dflt = VStr token).
Proof.
  destruct (configured_get "admin_auth_token" _ eq_refl ltac:(done)) as (v & Hv & E). injection Hv as <-. setoid_rewrite E.
  unfold getenv_value, str_or_empty, por. destruct (getenv "CLAWCHAIN_ADMIN_AUTH_TOKEN") as [t|]; simpl; [|by exists ""%string].
  destruct (String.eqb_spec t ""); simpl; [by exists ""%string|by exists t].
Qed.

Lemma configured_int k name dflt : aget k (AppSettings getenv) = Some (int_env getenv name dflt) -> k <> "bind_host"%string ->
  exists n, aget k configured = Some (VInt n).
Proof.
  intros Hk Hne. destruct (load_entry _ _ _ _ loaded Hk) as (v & Hv & E). unfold int_env in Hv.
  apply rbind_ok in Hv as (n & _ & Hv). apply Ok_inj in Hv as <-. exists n. unfold configured, dset. by rewrite aget_aset_ne.
Qed.

Lemma configured_float k name dflt : aget k (AppSettings getenv) = Some (float_env getenv name dflt) -> k <> "bind_host"%string ->
  exists x, aget k configured = Some (VFloat x).
Proof.
  intros Hk Hne. destruct (load_entry _ _ _ _ loaded Hk) as (v & Hv & E). unfold float_env in Hv.
  apply rbind_ok in Hv as (x & _ & Hv). apply Ok_inj in Hv as <-. exists x. unfold configured, dset. by rewrite aget_aset_ne.
Qed.

Lemma configured_str k name dflt : aget k (AppSettings getenv) = Some (str_env getenv name dflt) -> k <> "bind_host"%string ->
  exists x, aget k configured = Some (VStr x).
Proof.
  intros Hk Hne. destruct (load_entry _ _ _ _ loaded Hk) as (v & Hv & E). apply Ok_inj in Hv as <-.
  eexists. unfold configured, dset. by rewrite aget_aset_ne.
Qed.

(** Reads one setting of the goal. *)
Ltac read_setting :=
  match goal with
  | |- context [int_attribute configured ?k] =>
      let n := fresh "n" in let E := fresh in destruct (configured_int k _ _ eq_refl ltac:(done)) as [n E];
      replace (int_attribute configured k) with (@Ok Z n) by (unfold int_attribute, attribute; by rewrite E); clear E
  | |- context [int_getattr configured ?k ?d] =>
      let n := fresh "n" in let E := fresh in destruct (configured_int k _ _ eq_refl ltac:(done)) as [n E];
      replace (int_getattr configured k d) with (@Ok Z n) by (unfold int_getattr, dget_or; by rewrite E); clear E
  | |- context [float_attribute configured ?k] =>
      let n := fresh "x" in let E := fresh in destruct (configured_float k _ _ eq_refl ltac:(done)) as [n E];
      replace (float_attribute configured k) with (@Ok float n) by (unfold float_attribute, attribute; by rewrite E); clear E
  | |- context [float_getattr configured ?k ?d] =>
      let n := fresh "x" in let E := fresh in destruct (configured_float k _ _ eq_refl ltac:(done)) as [n E];
      replace (float_getattr configured k d) with (@Ok float n) by (unfold float_getattr, dget_or; by rewrite E); clear E
  | |- context [str_attribute configured ?k] =>
      let n := fresh "s" in let E := fresh in destruct (configured_str k _ _ eq_refl ltac:(done)) as [n E];
      replace (str_attribute configured k) with (@Ok string n) by (unfold str_attribute, attribute; by rewrite E); clear E
  | |- context [str_getattr configured ?k ?d] =>
      let n := fresh "s" in let E := fresh in destruct (configured_str k _ _ eq_refl ltac:(done)) as [n E];
      replace (str_getattr configured k d) with (@Ok string n) by (unfold str_getattr, dget_or; by rewrite E); clear E
  end; cbn [rbind].

Lemma configured_settings : exists settings, _forecast_settings configured = Ok settings.
Proof. unfold _forecast_settings. repeat read_setting. by eexists. Qed.

Lemma configured_validates :
  _validate_admin_runtime_security configured = Ok tt \/
  exists msg, _validate_admin_runtime_security configured = Err (RuntimeError msg).
Proof.
  unfold _validate_admin_runtime_security. rewrite configured_runtime, configured_host. cbn [rbind].
  destruct configured_token as (token & -> & _). cbn [rbind]. cbv zeta. unfold guard.
  repeat match goal with |- context [if ?b then Ok tt else Err _] => destruct b; cbn [rbind]; [|right; by eexists] end.
  by left.
Qed.

Lemma configured_app provider client :
  (exists app, create_app configured provider client = Ok app) \/
  exists msg, create_app configured provider client = Err (RuntimeError msg).
Proof.
  unfold create_app. destruct configured_validates as [->|[msg ->]]; cbn [rbind]; [|right; by exists msg].
  repeat read_setting. destruct configured_settings as [fs ->]. left. by eexists.
Qed.

Lemma validated_exposed : exposed getenv host -> _validate_admin_runtime_security configured = Ok tt ->
  admin_auth_enabled configured = true /\
  exists token, dget configured "admin_auth_token" = VStr token /\ str_strip token <> ""%string.
Proof.
  intros Hexp H. unfold _validate_admin_runtime_security in H. rewrite configured_runtime, configured_host in H. cbn [rbind] in H.
  destruct configured_token as (token & Et & Htok). rewrite Et in H. cbn [rbind] in H.
  destruct (configured_get "allow_insecure_admin_without_auth" _ eq_refl ltac:(done)) as (v & Hv & Hallow).
  injection Hv as <-. rewrite Hallow in H. cbn [truthy] in H.
  set (ext := negb (existsb (String.eqb (str_lower (str_strip (if String.eqb host "" then "127.0.0.1" else host)))) _LOOPBACK_BIND_HOSTS)) in H.
  set (has := negb (String.eqb (str_strip token) "")) in H.
  assert (Hcases : admin_auth_enabled configured = true /\ has = true).
  { destruct Hexp as [(env & Henv & Hne & Hloc)|[Hhost Hins]].
    - assert (runtime = Some (str_lower (str_strip env))) as E.
      { unfold runtime. rewrite Henv. by apply String.eqb_neq in Hne as ->. }
      rewrite E, (not_in_strings _ _ Hloc) in H. destruct (admin_auth_enabled configured), has; simpl in H; try discriminate. done.
    - assert (ext = true) as E.
      { unfold ext. destruct (String.eqb_spec host "") as [->|]; [simpl in Hhost; tauto|]. by rewrite not_in_strings. }
      rewrite E, Hins in H. rewrite !andb_false_r in H. destruct (admin_auth_enabled configured), has; simpl in H; try done.
      + by destruct (guard _ _) in H.
      + by destruct (guard _ _) in H.
      + by destruct (guard _ _) in H. }
  destruct Hcases as [Hon Hhas]. split; [done|]. exists token. unfold has in Hhas. destruct (String.eqb_spec (str_strip token) ""); [done|].
  split; [apply Htok; by intros ->|done].
Qed.
End Exposed.

Lemma main_exposed {Signature PublicKey} (eth_keys : EthKeys Signature PublicKey) ripemd160 str_exc
  getenv host provider client app now utc_now :
  main getenv host provider client = Ok app -> exposed getenv host ->
  exists token, dget (app_settings app) "admin_auth_token" = VStr token /\ str_strip token <> ""%string /\
  forall e headers client_host s, is_admin e = true ->
    aget "authorization"%string headers <> Some ("Bearer " +:+ token) ->
    serve eth_keys ripemd160 str_exc app now utc_now e headers client_host s = (Ok unauthorized, s).
Proof.
  intros H Hexp. unfold main in H. apply rbind_ok in H as (settings & Hload & H). unfold create_app in H.
  apply rbind_ok in H as ([] & Hval & H). ok_inv.
  destruct (validated_exposed getenv host settings Hload Hexp Hval) as (Hon & token & Ht & Hne).
  exists token. split_and!; [done|done|]. intros e hs ch s He Hh.
  eapply no_token_no_entry; [exact Hon|exact He|exact Ht|by intros ->|done].
Qed.

(** A configuration is refused at the start or not at all.  When the numbers of
    the environment can be read, [main] has an application with all the settings
    of the service, or stops with the error of the rules for the admin routes. *)
Theorem loaded_settings_start getenv host settings provider client :
  load_settings getenv = Ok settings ->
  (exists app, main getenv host provider client = Ok app) \/
  exists msg, main getenv host provider client = Err (RuntimeError msg).
Proof. intros H. unfold main. rewrite H. by apply (configured_app getenv). Qed.

(** C20: an exposed server keeps its admin routes.  When [main] starts under a
    runtime that is not local, or on a host that can be reached from outside
    without the explicit exception, a token is configured that is not blank, and
    a request for an admin endpoint without the header [Bearer <token>] is
    answered with 401 and leaves the store as it was. *)
Theorem exposed_admin_needs_the_token {Signature PublicKey} (eth_keys : EthKeys Signature PublicKey) ripemd160 str_exc
  getenv host provider client app now utc_now :
  main getenv host provider client = Ok app -> exposed getenv host ->
  exists token, dget (app_settings app) "admin_auth_token" = VStr token /\ str_strip token <> ""%string /\
  forall e headers client_host s, is_admin e = true ->
    aget "authorization"%string headers <> Some ("Bearer " +:+ token) ->
    serve eth_keys ripemd160 str_exc app now utc_now e headers client_host s = (Ok unauthorized, s).
Proof. intros H Hexp. by apply (main_exposed eth_keys ripemd160 str_exc getenv host provider client). Qed.

(** ** Who can write without the token *)

Lemma reads_raising {A} status (m : repo A) : reads m -> reads (raising status m).
Proof. intros Hm s. rewrite raising_store. apply Hm. Qed.


(** The endpoints outside the admin routes that write. *)
Definition public_writer (e : Endpoint) : bool :=
  match e with POST_register _ | POST_commit _ _ | POST_reveal _ _ | GET_replay_proof _ _ => true | _ => false end.

Section Public.
Context {Signature PublicKey : Type} (eth_keys : EthKeys Signature PublicKey)
  (ripemd160 : list Z -> res (list Z)) (str_exc : exn -> string).
Context (app : App) (now : nat -> Z) (utc_now : Z).
Abbreviation run := (run eth_keys ripemd160 str_exc app now utc_now).

Ltac of_view :=
  match goal with |- touches _ _ ?m => apply (view_reads (settings (service app)) (now 0%nat) _ m); by constructor end.

Lemma reads_history suffix ty id limit q :
  (forall n, reads (q n)) -> reads (history now suffix ty id limit q).
Proof. intros Hq. unfold history. apply touches_sbind; [apply reads_raising, Hq|intros; footprint]. Qed.

Lemma public_reads e request : is_admin e = false -> public_writer e = false -> reads (run e request).
Proof.
  intros Ha Hw. destruct e; try discriminate; cbn [Server.run].
  - unfold get_version. footprint.
  - unfold get_miner_info. footprint.
  - unfold get_miner_stats. apply touches_sbind; [apply reads_raising; of_view|footprint].
  - unfold get_stats. apply touches_sbind; [of_view|footprint].
  - unfold get_active_tasks. apply touches_sbind; [of_view|footprint].
  - unfold get_upcoming_forecast_tasks. apply touches_sbind; [of_view|footprint].
  - unfold get_task_detail. apply touches_sbind; [apply reads_raising; of_view|footprint].
  - unfold get_miner_status. apply touches_sbind; [apply reads_raising; of_view|footprint].
  - apply reads_history. intros. of_view.
  - apply reads_history. intros. of_view.
  - apply reads_history. intros. of_view.
  - apply reads_history. intros. of_view.
  - unfold get_artifact. apply touches_sbind; [apply reads_raising; unfold Windows.get_artifact, Repository.get_artifact; footprint|footprint].
  - unfold get_public_leaderboard. apply touches_sbind; [of_view|footprint].
Qed.
End Public.

(** The signature of a request: the key registered for the miner signed the parts. *)
Definition signed {Signature PublicKey} (eth_keys : EthKeys Signature PublicKey) (s : FakeRepository) (miner_id : string)
  (parts : list string) (signature : string) : Prop :=
  exists miner key, aget miner_id (tab _miners s) = Some miner /\ dgetitem miner "public_key" = Ok key /\
    _verify_signature eth_keys parts signature key = true.

(** What a request that writes without the token must show. *)
Definition credential {Signature PublicKey} (eth_keys : EthKeys Signature PublicKey) ripemd160 str_exc
  (s : FakeRepository) (e : Endpoint) : Prop :=
  match e with
  | POST_register p => exists why, verify_address_pubkey_binding ripemd160 str_exc (rm_address p) (rm_public_key p) = (true, why)
  | POST_commit id p =>
      signed eth_keys s (cr_miner_id p) [id; cr_commit_hash p; cr_nonce p; cr_miner_id p; cr_request_id p] (cr_signature p)
  | POST_reveal id p =>
      signed eth_keys s (rr_miner_id p) [id; string_of_Z (rr_p_yes_bps p); rr_nonce p; rr_miner_id p; rr_request_id p]
        (rr_signature p)
  | GET_replay_proof _ _ => True
  | _ => False
  end.

Section Credentials.
Context {Signature PublicKey : Type} (eth_keys : EthKeys Signature PublicKey)
  (ripemd160 : list Z -> res (list Z)) (str_exc : exn -> string).
Context (app : App) (now : nat -> Z) (utc_now : Z).

Lemma get_miner_run id s : get_miner id s = (Ok (non_empty (aget id (tab _miners s))), s).
Proof. done. Qed.

Lemma signed_commit id p request s :
  (commit_task eth_keys now id p request s).2 = s \/ credential eth_keys ripemd160 str_exc s (POST_commit id p).
Proof.
  unfold commit_task. destruct (negb _); [by left|]. unfold sbind at 1. rewrite get_miner_run.
  destruct (non_empty _) as [miner|] eqn:Em; [|by left]. apply non_empty_some in Em. unfold sbind at 1, slift at 1.
  destruct (dgetitem miner "public_key") as [key|] eqn:Ek; [|by left].
  destruct (_verify_signature _ _ _ _) eqn:Ev; [|by left]. right. by exists miner, key.
Qed.

Lemma signed_reveal id p request s :
  (reveal_task eth_keys app now id p request s).2 = s \/ credential eth_keys ripemd160 str_exc s (POST_reveal id p).
Proof.
  unfold reveal_task. destruct (negb _); [by left|]. unfold sbind at 1. rewrite get_miner_run.
  destruct (non_empty _) as [miner|] eqn:Em; [|by left]. apply non_empty_some in Em. unfold sbind at 1, slift at 1.
  destruct (dgetitem miner "public_key") as [key|] eqn:Ek; [|by left].
  destruct (_verify_signature _ _ _ _) eqn:Ev; [|by left]. right. by exists miner, key.
Qed.

Lemma bound_registration p request s :
  (register_miner ripemd160 str_exc app utc_now p request s).2 = s \/ credential eth_keys ripemd160 str_exc s (POST_register p).
Proof.
  unfold register_miner. simpl. destruct (verify_address_pubkey_binding _ _ _ _) as [[|] why]; [right; by exists why|by left].
Qed.

Lemma same_unwritten s s' : s' = s -> unwritten s s'.
Proof. by intros ->. Qed.

Lemma public_writes e headers host s :
  is_admin e = false ->
  unwritten s (serve eth_keys ripemd160 str_exc app now utc_now e headers host s).2 \/ credential eth_keys ripemd160 str_exc s e.
Proof.
  intros He. destruct (serve_store eth_keys ripemd160 str_exc app now utc_now e headers host s) as [H|(request & H)]; rewrite H; [by left|].
  destruct (public_writer e) eqn:Ew; [|left; by apply reads_unwritten, public_reads].
  destruct e; try discriminate; cbn [run].
  - destruct (bound_registration payload request s); [left; by apply same_unwritten|by right].
  - by right.
  - destruct (signed_commit task_run_id payload request s); [left; by apply same_unwritten|by right].
  - destruct (signed_reveal task_run_id payload request s); [left; by apply same_unwritten|by right].
Qed.
End Credentials.

(** C4: who can write to an exposed server.  Without the admin token, a request
    leaves the store as it was, or it is a registration whose address is made of
    the registered key, or a commit or reveal signed with the key that the store
    holds for the miner, or it asks for a proof of replay. *)
Theorem writes_need_credentials {Signature PublicKey} (eth_keys : EthKeys Signature PublicKey) ripemd160 str_exc
  getenv host provider client app now utc_now :
  main getenv host provider client = Ok app -> exposed getenv host ->
  exists token, dget (app_settings app) "admin_auth_token" = VStr token /\ str_strip token <> ""%string /\
  forall e headers client_host s, aget "authorization"%string headers <> Some ("Bearer " +:+ token) ->
    unwritten s (serve eth_keys ripemd160 str_exc app now utc_now e headers client_host s).2 \/
    credential eth_keys ripemd160 str_exc s e.
Proof.
  intros H Hexp. destruct (main_exposed eth_keys ripemd160 str_exc _ _ _ _ _ now utc_now H Hexp) as (token & Ht & Hne & Hauth).
  exists token. split_and!; [done|done|]. intros e hs ch s Hh. destruct (is_admin e) eqn:He; [|by apply public_writes].
  left. by rewrite Hauth.
Qed.

(** ** Witnesses *)

(** A curve library that recovers one key. *)
Definition demo_keys : EthKeys unit unit :=
  {| new_signature := fun _ => Ok tt; new_public_key := fun _ => Ok tt; recover_public_key := fun _ _ => Ok tt;
     same_key := fun _ _ => true |}.
Definition demo_rip (m : list Z) : res (list Z) := Ok (map (fun v => v mod 256) (take 20 m)).
Definition demo_text (e : exn) : string := "".

Definition demo_env (name : string) : option string :=
  aget name [("CLAWCHAIN_ENV", "production"); ("CLAWCHAIN_ADMIN_AUTH_TOKEN", "secret")]%string.

Lemma demo_exposed : exposed demo_env "0.0.0.0".
Proof.
  left. exists "production"%string. split; [reflexivity|]. split; [discriminate|].
  change (str_lower (str_strip "production")) with "production"%string. intros H. simpl in H. intuition discriminate.
Qed.

Lemma demo_starts : is_ok (main demo_env "0.0.0.0" None no_chain) = true.
Proof. vm_compute. reflexivity. Qed.

Lemma loaded_settings_start_witness : exists settings, load_settings demo_env = Ok settings /\
  ((exists app, main demo_env "0.0.0.0" None no_chain = Ok app) \/
   exists msg, main demo_env "0.0.0.0" None no_chain = Err (RuntimeError msg)).
Proof.
  destruct (load_settings demo_env) as [settings|e] eqn:E; [|exfalso].
  - exists settings. exact (conj eq_refl (loaded_settings_start demo_env "0.0.0.0" settings None no_chain E)).
  - pose proof demo_starts as Hok. unfold main in Hok. rewrite E in Hok. discriminate Hok.
Defined.

Lemma exposed_admin_needs_the_token_witness :
  exists app, main demo_env "0.0.0.0" None no_chain = Ok app /\ exposed demo_env "0.0.0.0" /\
  exists token, dget (app_settings app) "admin_auth_token" = VStr token /\ str_strip token <> ""%string /\
  forall e headers client_host s, is_admin e = true ->
    aget "authorization"%string headers <> Some ("Bearer " +:+ token) ->
    serve demo_keys demo_rip demo_text app (fun _ => 0) 0 e headers client_host s = (Ok unauthorized, s).
Proof.
  pose proof demo_starts as Hok. destruct (main demo_env "0.0.0.0" None no_chain) as [app|e] eqn:E; [|discriminate Hok].
  exists app. split; [reflexivity|]. split; [exact demo_exposed|].
  exact (exposed_admin_needs_the_token demo_keys demo_rip demo_text _ _ _ _ app (fun _ => 0) 0 E demo_exposed).
Defined.

Lemma writes_need_credentials_witness :
  exists app, main demo_env "0.0.0.0" None no_chain = Ok app /\ exposed demo_env "0.0.0.0" /\
  exists token, dget (app_settings app) "admin_auth_token" = VStr token /\ str_strip token <> ""%string /\
  forall e headers client_host s, aget "authorization"%string headers <> Some ("Bearer " +:+ token) ->
    unwritten s (serve demo_keys demo_rip demo_text app (fun _ => 0) 0 e headers client_host s).2 \/
    credential demo_keys demo_rip demo_text s e.
Proof.
  pose proof demo_starts as Hok. destruct (main demo_env "0.0.0.0" None no_chain) as [app|e] eqn:E; [|discriminate Hok].
  exists app. split; [reflexivity|]. split; [exact demo_exposed|].
  exact (writes_need_credentials demo_keys demo_rip demo_text _ _ _ _ app (fun _ => 0) 0 E demo_exposed).
Defined.
