(* ===== verification/ProjectionFacts.v ===== *)
(** * The projection of final rankings at the server

    Where a projection is recorded, the same request again is answered with the
    stored result and writes nothing, and another root under the same id is a
    conflict (ProjectionRuns shows that the record stays).  The check of the ranks in the schema and the check of the service
    accept the same rows. *)
From Stdlib Require Import ZArith Lia Ascii String Permutation.
From stdpp Require Import base list strings.
From S2P Require Import Prelude PyText PyFloat PyTime PyValue Canonical Repository RepositoryFacts Forecast RewardRows.
From S2P Require Import Tournaments TournamentFacts Schemas Health Server.
Open Scope Z_scope.

Definition projection_id (payload : ApplyPokerMTTFinalRankingProjectionRequest) : string :=
  _poker_mtt_final_ranking_projection_artifact_id (pr_projection_id payload).

(** The store holds a projection with the root and the result under the id. *)
Definition recorded (s : FakeRepository) (id root : string) (result : value) : Prop :=
  exists row payload, aget id (tab _artifacts s) = Some row /\ row <> [] /\
    as_dict (por (dget row "payload_json") (VDict [])) = Ok payload /\
    dget payload "final_ranking_root" = VStr root /\ dget payload "result" = result /\ truthy result = true.

Lemma saved_projection payload result h s :
  let row := dupdate (default [] (aget (projection_id payload) (tab _artifacts s)))
               (projection_artifact payload (projection_payload payload result) h) in
  save_artifact (projection_artifact payload (projection_payload payload result) h) s =
  (Ok row, set_tab _artifacts (aset (projection_id payload) row (tab _artifacts s)) s).
Proof. reflexivity. Qed.

Lemma record_projection_ok payload s r s' :
  record_projection payload s = (Ok r, s') -> recorded s' (projection_id payload) (pr_final_ranking_root payload) r.
Proof.
  unfold record_projection. intros H.
  apply sbind_ok in H as (u & s1 & _ & H). apply sbind_ok in H as (answer & s2 & _ & H).
  apply sbind_ok in H as (items & s3 & H3 & H). cbv zeta in H. apply sbind_ok in H as (h & s4 & _ & H).
  unfold sbind in H. rewrite saved_projection in H.
  set (row := dupdate _ _) in H. pose proof (f_equal snd H) as Hs. apply (f_equal fst) in H. cbn [fst snd sret] in H, Hs.
  apply Ok_inj in H as <-. subst s'.
  assert (Hp : dget row "payload_json" = VDict (projection_payload payload (projection_result payload items))).
  { unfold row. rewrite dget_dupdate by nodup_keys. done. }
  exists row, (projection_payload payload (projection_result payload items)). rewrite tab_set_tab_eq, aget_aset_eq, Hp.
  split_and!; [done|by intros E; rewrite E in Hp|done..].
Qed.

Lemma replay payload s root result :
  recorded s (projection_id payload) root result ->
  project_poker_mtt_final_rankings payload s =
  if String.eqb root (pr_final_ranking_root payload) then (Ok result, s)
  else (Err (HTTPException 409 "projection root conflict"), s).
Proof.
  intros (row & stored & Hrow & Hne & Hp & Hroot & Hres & Ht).
  unfold project_poker_mtt_final_rankings, raising, scatch_value_error, Repository.get_artifact, get_row.
  unfold sbind, sgets, slift. fold (projection_id payload). rewrite Hrow. destruct row as [|kv row]; [done|].
  unfold non_empty, replayed. rewrite Hp. simpl. rewrite Hroot, Hres, Ht. simpl.
  by destruct (String.eqb root _).
Qed.

Lemma replayed_stored payload row root result :
  replayed payload (Some row) = Ok (Some result) -> root = pr_final_ranking_root payload -> row <> [] ->
  forall s, aget (projection_id payload) (tab _artifacts s) = Some row -> recorded s (projection_id payload) root result.
Proof.
  unfold replayed. intros H -> Hne s Hs. apply rbind_ok in H as (stored & Hp & H). apply rbind_ok in H as ([] & Hg & H).
  apply guard_ok in Hg. destruct (truthy (dget stored "result")) eqn:Ht; [|discriminate]. injection H as <-.
  exists row, stored. split_and!; [done|done|done| |done|done].
  unfold py_eq_str in Hg. destruct (dget stored "final_ranking_root"); try discriminate. by apply String.eqb_eq in Hg as ->.
Qed.

(** A request that is answered with a result leaves it recorded. *)
Lemma projected_recorded payload s s' result :
  project_poker_mtt_final_rankings payload s = (Ok result, s') ->
  recorded s' (projection_id payload) (pr_final_ranking_root payload) result.
Proof.
  intros H. unfold project_poker_mtt_final_rankings, raising, scatch_value_error in H.
  destruct (sbind _ _ s) as [[v|err] s1] eqn:E; [|destruct err; discriminate]. injection H as -> ->.
  apply sbind_ok in E as (existing & s2 & E2 & E). unfold Repository.get_artifact, get_row, sgets in E2. injection E2 as <- <-.
  fold (projection_id payload) in E. apply sbind_ok in E as (stored & s3 & E3 & E). unfold slift in E3.
  pose proof (f_equal snd E3) as Hs. apply (f_equal fst) in E3. cbn [fst snd] in E3, Hs. subst s3.
  destruct stored as [v|]; [|by apply record_projection_ok in E]. injection E as -> <-.
  destruct (aget (projection_id payload) (tab _artifacts s)) as [[|kv row]|] eqn:Ea; try discriminate.
  by eapply replayed_stored.
Qed.

(** ** The two checks of the ranks *)

Definition ranks_given (rows : list dict) (ranks : list Z) : Prop :=
  (forall row, In row rows -> is_ranked row = false -> dget row "rank" = VNone) /\
  mapR rank_of (List.filter is_ranked rows) = Ok ranks.

Lemma collect_one row ranks : PokerMTTFinalRankingRow_fields row = true ->
  (exists n, is_ranked row = true /\ rank_of row = Ok n /\ collect_rank ranks row = Ok (ranks ++ [n])) \/
  (is_ranked row = false /\ dget row "rank" = VNone /\ collect_rank ranks row = Ok ranks) \/
  (exists err, collect_rank ranks row = Err err) /\
  ((is_ranked row = true /\ dget row "rank" = VNone) \/ (is_ranked row = false /\ dget row "rank" <> VNone)).
Proof.
  unfold PokerMTTFinalRankingRow_fields, collect_rank, row_rank, rank_of. change (field_is "rank_state" "ranked" row) with (is_ranked row).
  destruct (dget row "rank") eqn:Er; try discriminate; intros _; simpl; destruct (is_ranked row).
  - right; right. split; [|by left]. destruct (py_str _); by eexists.
  - right; left. done.
  - left. by exists n.
  - right; right. split; [|by right]. destruct (py_str _); [|by eexists]. simpl. destruct (py_str _); by eexists.
Qed.

Lemma collect_all rows ranks l : forallb PokerMTTFinalRankingRow_fields rows = true ->
  foldR collect_rank rows ranks = Ok l <-> exists more, l = ranks ++ more /\ ranks_given rows more.
Proof.
  revert ranks. induction rows as [|row rows IH]; intros ranks Hf.
  { split; [intros H; simpl in H; ok_inv; exists []; split; [by rewrite app_nil_r|by split]|intros (more & -> & _ & H); simpl in H; ok_inv; by rewrite app_nil_r]. }
  simpl in Hf. apply andb_true_iff in Hf as [Hrow Hf]. unfold ranks_given. simpl. setoid_rewrite Forall_cons_In.
  destruct (collect_one row ranks Hrow) as [(n & Hr & Hn & E)|[(Hr & Hn & E)|[[err E] Hbad]]]; rewrite E; simpl.
  - rewrite IH by done. rewrite Hr. simpl. rewrite Hn. simpl. split.
    + intros (more & -> & Hall & Hm). exists (n :: more). rewrite <- app_assoc. split; [done|]. split; [by split|]. by rewrite Hm.
    + intros (more & -> & [_ Hall] & Hm). apply rbind_ok in Hm as (ns & Hns & Hm). injection Hm as <-. exists ns.
      rewrite <- app_assoc. done.
  - rewrite IH by done. rewrite Hr. unfold ranks_given. naive_solver.
  - split; [done|]. intros (more & -> & [Hhd _] & Hm). exfalso. destruct Hbad as [[Hr Hn]|[Hr Hn]]; rewrite Hr in *.
    + simpl in Hm. unfold rank_of in Hm. by rewrite Hn in Hm.
    + by apply Hn, Hhd.
Qed.

(** What the schema accepts. *)
Lemma schema_ranks payload :
  forallb PokerMTTFinalRankingRow_fields (pr_rows payload) = true ->
  validate_payout_ranks payload = Ok tt <->
  exists ranks, ranks_given (pr_rows payload) ranks /\ Z.of_nat (length ranks) <= pr_field_size payload /\
    Permutation ranks (range 1 (Z.of_nat (length ranks) + 1)).
Proof.
  intros Hf. unfold validate_payout_ranks. split.
  - intros H. apply rbind_ok in H as (ranks & Hr & H). apply (collect_all _ _ _ Hf) in Hr as (more & -> & Hgiven). simpl in H.
    ok_inv. exists more. split_and!; [done|lia|]. by apply sorted_ints_range, (bool_decide_eq_true_1 _).
  - intros (ranks & Hgiven & Hn & Hp).
    rewrite (proj2 (collect_all _ [] ranks Hf)) by (by exists ranks). simpl.
    rewrite (proj2 (Z.leb_le _ _) Hn). simpl. rewrite dedup_keys_id, Nat.eqb_refl by (rewrite Hp; apply NoDup_seqZ). simpl.
    by rewrite bool_decide_true by (by apply sorted_ints_range).
Qed.

(** The schema and the service check the same ranks.  For rows that have the
    types of the schema, [validate_payout_ranks] accepts a request exactly when
    [_validate_poker_mtt_payout_ranks] accepts its rows. *)
Theorem rank_checks_agree payload :
  forallb PokerMTTFinalRankingRow_fields (pr_rows payload) = true ->
  validate_payout_ranks payload = Ok tt <->
  _validate_poker_mtt_payout_ranks (pr_rows payload) (pr_field_size payload) = Ok tt.
Proof.
  intros Hf. rewrite payout_ranks_accepted, (schema_ranks payload Hf). unfold ranks_given. naive_solver.
Qed.

(** ** Witnesses *)

Definition demo_row : dict :=
  [("id", VStr "fr_1"); ("tournament_id", VStr "mtt_1"); ("miner_address", VStr "claw1m"); ("member_id", VStr "m1");
   ("rank", VInt 1); ("rank_state", VStr "ranked"); ("status", VStr "finished"); ("evidence_state", VStr "pending");
   ("policy_bundle_version", VStr "poker_mtt_v1"); ("standing_snapshot_id", VStr "snap")].

Definition demo_request (root : string) : ApplyPokerMTTFinalRankingProjectionRequest :=
  {| pr_schema_version := "v1"; pr_projection_id := "p1"; pr_tournament_id := "mtt_1"; pr_source_mtt_id := "src";
     pr_rated_or_practice := "rated"; pr_human_only := true; pr_field_size := 2; pr_policy_bundle_version := "poker_mtt_v1";
     pr_standing_snapshot_id := "snap"; pr_standing_snapshot_hash := "h"; pr_final_ranking_root := root;
     pr_locked_at := 0; pr_rows := [demo_row] |}.

Definition demo_miners : FakeRepository :=
  set_tab _miners [("claw1m", [("address", VStr "claw1m"); ("economic_unit_id", VStr "eu:1"); ("status", VStr "active")])]
    empty_repository.

Definition demo_projected : res value * FakeRepository := project_poker_mtt_final_rankings (demo_request "sha256:a") demo_miners.
Definition demo_result : value := match demo_projected.1 with Ok v => v | Err _ => VNone end.

Lemma rank_checks_agree_witness :
  forallb PokerMTTFinalRankingRow_fields (pr_rows (demo_request "sha256:a")) = true /\
  (validate_payout_ranks (demo_request "sha256:a") = Ok tt <->
   _validate_poker_mtt_payout_ranks (pr_rows (demo_request "sha256:a")) 2 = Ok tt).
Proof.
  assert (H : forallb PokerMTTFinalRankingRow_fields (pr_rows (demo_request "sha256:a")) = true) by reflexivity.
  exact (conj H (rank_checks_agree (demo_request "sha256:a") H)).
Defined.
