(* ===== verification/HealthFacts.v ===== *)
(** * Facts about the loops and the reports

    A loop goes on after any failure and counts it; the report on the anchor
    jobs counts each job once, under its state; the queue of actions holds every
    failed job, before the stale ones. *)
From Stdlib Require Import ZArith Lia Ascii String Permutation Sorted.
From stdpp Require Import base list strings.
From S2P Require Import Prelude PyText PyFloat PyTime PyValue Repository RepositoryFacts Forecast Service Anchors Health.
Open Scope Z_scope.

(** ** Loops *)

(** The metrics hold counts: [runs] iterations, of which [ok] succeeded and the
    last [streak] failed. *)
Record counts (metrics : dict) (ok failed streak : Z) : Prop := {
  counts_run : dget metrics "run_count" = VInt (ok + failed);
  counts_ok : dget metrics "success_count" = VInt ok;
  counts_failed : dget metrics "error_count" = VInt failed;
  counts_streak : dget metrics "consecutive_error_count" = VInt streak
}.

Lemma bumped_count k metrics n : dget metrics k = VInt n -> bump k metrics = Ok (dset metrics k (VInt (n + 1))).
Proof.
  unfold bump, dget, dget_or, dgetitem. destruct (aget k metrics) as [v|]; [|discriminate]. by intros ->.
Qed.

Section Loops.
Context (self : ForecastMiningService) (str_exc : exn -> string).

Lemma failed_run_counts t e b metrics ok failed streak : counts metrics ok failed streak ->
  exists m, failed_run str_exc t e b metrics = Ok m /\ counts m ok (failed + 1) (streak + 1).
Proof.
  intros [Hr Ho Hf Hs]. unfold failed_run. rewrite (bumped_count _ _ _ Hr). simpl.
  rewrite (bumped_count _ _ failed) by (by rewrite dget_dset). simpl.
  rewrite (bumped_count _ _ streak) by (by rewrite !dget_dset). simpl. eexists. split; [done|].
  destruct b; split; rewrite !dget_dset; simpl; (done || f_equal; lia).
Qed.

Lemma succeeded_run_counts t n metrics ok failed streak : counts metrics ok failed streak ->
  exists m, succeeded_run t n metrics = Ok m /\ counts m (ok + 1) failed 0.
Proof.
  intros [Hr Ho Hf Hs]. unfold succeeded_run. rewrite (bumped_count _ _ _ Hr). simpl.
  rewrite (bumped_count _ _ ok) by (by rewrite dget_dset). simpl. eexists. split; [done|].
  split; rewrite !dget_dset; simpl; (done || f_equal; lia).
Qed.

(** One iteration ends with metrics that say what happened. *)
Lemma iteration_counts {A} (work : Z -> repo A) count b metrics ok failed streak t t' s :
  counts metrics ok failed streak ->
  exists m, iteration str_exc work count b (Some metrics) t t' s = (Ok (Some m), (work t s).2) /\
    if is_ok (work t s).1 then counts m (ok + 1) failed 0 else counts m ok (failed + 1) (streak + 1).
Proof.
  intros Hc. unfold iteration. simpl. set (started := dset metrics _ _).
  assert (Hs : counts started ok failed streak) by (destruct Hc; split; unfold started; by rewrite dget_dset).
  destruct (work t s) as [[a|e] s']; simpl.
  - destruct (succeeded_run_counts t' (count a) started _ _ _ Hs) as (m & -> & Hm). by exists m.
  - destruct (failed_run_counts t' e b started _ _ _ Hs) as (m & -> & Hm). by exists m.
Qed.

Lemma loop_counts {A} (work : Z -> repo A) count b readings metrics ok failed streak s :
  counts metrics ok failed streak -> 0 <= streak <= failed ->
  exists m ok' failed' streak',
    loop (iteration str_exc work count b) readings (Some metrics) s =
      (Ok (Some m), fold_left (fun s t => (work t.1 s).2) readings s) /\
    counts m ok' failed' streak' /\ 0 <= streak' <= failed' /\
    ok' + failed' = ok + failed + Z.of_nat (length readings).
Proof.
  revert metrics ok failed streak s. induction readings as [|t readings IH]; intros metrics ok failed streak s Hc Hs.
  - exists metrics, ok, failed, streak. split_and!; (done || simpl; lia).
  - destruct (iteration_counts work count b metrics ok failed streak t.1 t.2 s Hc) as (m & Hm & Hc').
    unfold loop. cbn [foldS]. unfold sbind. rewrite Hm. cbn [fold_left length]. rewrite Nat2Z.inj_succ.
    destruct (is_ok (work t.1 s).1).
    + destruct (IH m (ok + 1) failed 0 (work t.1 s).2 Hc') as (m' & o & f & k & H1 & H2 & H3 & H4); [lia|].
      exists m', o, f, k. split_and!; (done || lia).
    + destruct (IH m ok (failed + 1) (streak + 1) (work t.1 s).2 Hc') as (m' & o & f & k & H1 & H2 & H3 & H4); [lia|].
      exists m', o, f, k. split_and!; (done || lia).
Qed.

Lemma new_counts enabled interval : counts (_new_loop_metrics enabled interval) 0 0 0.
Proof. by split. Qed.

(** C33: the loops survive every failure.  Over any number of iterations, whatever
    [reconcile] and the confirmation of the anchor jobs return or raise, a loop
    does not raise, does the work once an iteration on the store as the last one
    left it, and its metrics count each iteration as a success or an error. *)
Theorem loops_survive_failures enabled interval readings s :
  (exists m ok failed streak,
     _run_forecast_progression_loop self str_exc readings (Some (_new_forecast_progression_metrics enabled interval)) s =
       (Ok (Some m), fold_left (fun s t => (reconcile self t.1 s).2) readings s) /\
     counts m ok failed streak /\ 0 <= streak <= failed /\ ok + failed = Z.of_nat (length readings)) /\
  (exists m ok failed streak,
     _run_anchor_reconcile_loop self str_exc readings (Some (_new_anchor_reconcile_metrics enabled interval)) s =
       (Ok (Some m), fold_left (fun s t => (reconcile_pending_anchor_jobs_on_chain self t.1 s).2) readings s) /\
     counts m ok failed streak /\ 0 <= streak <= failed /\ ok + failed = Z.of_nat (length readings)).
Proof.
  assert (H : 0 <= 0 <= 0) by lia.
  split; apply (loop_counts _ _ _ readings _ 0 0 0 s (new_counts enabled interval) H).
Qed.
End Loops.

(** ** The report on the anchor jobs *)

Definition in_state (state : string) (item : dict) : bool := field_is "state" state item.
Definition state_count (state : string) (jobs : list dict) : Z := Z.of_nat (length (List.filter (in_state state) jobs)).

Lemma state_count_cons state item jobs :
  state_count state (item :: jobs) = one_if (in_state state item) + state_count state jobs.
Proof. unfold state_count. simpl. destruct (in_state state item); simpl length; unfold one_if; lia. Qed.

Lemma state_unique x y item : in_state x item = true -> in_state y item = true -> x = y.
Proof.
  unfold in_state, field_is, py_eq_str. destruct (dget item "state"); try discriminate.
  intros H1%String.eqb_eq H2%String.eqb_eq. congruence.
Qed.

Lemma other_state x y item : in_state x item = true -> x <> y -> in_state y item = false.
Proof. intros H Hne. destruct (in_state y item) eqn:E; [|done]. by destruct (Hne (state_unique _ _ _ H E)). Qed.

(** What one job adds to the counts. *)
Definition adds (item : dict) (c c' : chain_counts) : Prop :=
  pending_confirmation_count c' + awaiting_broadcast_count c' =
    pending_confirmation_count c + awaiting_broadcast_count c + one_if (in_state "anchor_submitted" item) /\
  anchored_count c' = anchored_count c + one_if (in_state "anchored" item) /\
  failed_count c' = failed_count c + one_if (in_state "anchor_failed" item) /\
  stale_pending_confirmation_count c <= stale_pending_confirmation_count c' <=
    stale_pending_confirmation_count c + (pending_confirmation_count c' - pending_confirmation_count c).

Lemma count_state_adds w now c item c' : count_state w now c item = Ok c' -> adds item c c'.
Proof.
  unfold count_state. intros H. apply rbind_ok in H as (t & _ & H).
  change (field_is "state" ?x item) with (in_state x item) in H. unfold adds.
  destruct (in_state "anchor_submitted" item) eqn:E1.
  - rewrite (other_state _ "anchored" _ E1), (other_state _ "anchor_failed" _ E1) by done.
    cbn [andb] in H. destruct (truthy _).
    + apply rbind_ok in H as (b & _ & H). apply Ok_inj in H as <-. simpl. destruct b; simpl; lia.
    + apply Ok_inj in H as <-. simpl. lia.
  - cbn [andb] in H. destruct (in_state "anchored" item) eqn:E2.
    + rewrite (other_state _ "anchor_failed" _ E2) by done. apply Ok_inj in H as <-. simpl. lia.
    + destruct (in_state "anchor_failed" item).
      * apply rbind_ok in H as (b & _ & H). apply Ok_inj in H as <-. destruct b; simpl; lia.
      * apply Ok_inj in H as <-. simpl. lia.
Qed.

Lemma count_job_adds w now c item c' : count_job w now c item = Ok c' -> adds item c c'.
Proof.
  unfold count_job. intros H. apply rbind_ok in H as (c1 & H1 & H). apply count_state_adds in H1. ok_inv. exact H1.
Qed.

Lemma count_jobs_adds w now jobs c c' : foldR (count_job w now) jobs c = Ok c' ->
  pending_confirmation_count c' + awaiting_broadcast_count c' =
    pending_confirmation_count c + awaiting_broadcast_count c + state_count "anchor_submitted" jobs /\
  anchored_count c' = anchored_count c + state_count "anchored" jobs /\
  failed_count c' = failed_count c + state_count "anchor_failed" jobs /\
  stale_pending_confirmation_count c <= stale_pending_confirmation_count c' <=
    stale_pending_confirmation_count c + (pending_confirmation_count c' - pending_confirmation_count c).
Proof.
  revert c. induction jobs as [|item jobs IH]; intros c H; simpl in H.
  - apply Ok_inj in H as <-. unfold state_count. simpl. lia.
  - apply rbind_ok in H as (c1 & H1 & H). apply count_job_adds in H1 as (A1 & A2 & A3 & A4).
    apply IH in H as (B1 & B2 & B3 & B4). rewrite !state_count_cons. lia.
Qed.

Lemma status_critical alerts :
  status_of alerts = "critical"%string <-> existsb (field_is "severity" "critical") alerts = true.
Proof. unfold status_of. destruct (existsb _ _); [done|]. by destruct alerts. Qed.

Lemma status_fine alerts : status_of alerts = "ok"%string <-> alerts = [].
Proof. unfold status_of. destruct alerts as [|a alerts]; [done|]. by destruct (existsb _ _). Qed.

Lemma alert_if_nil b a : alert_if b a = [] <-> b = false.
Proof. by destruct b. Qed.

(** C36: the report on the chain counts what the store holds.  Each job is counted
    once under its state, the stale ones are among the pending ones, the status
    is critical exactly when the loop has reached its threshold of consecutive
    errors, and ok exactly when there is neither that, a stale nor a failed job. *)
Theorem chain_report_counts jobs metrics settings now report :
  _build_chain_health_snapshot jobs metrics settings now = Ok report ->
  exists d pending stale awaiting failing status,
    dget report "anchor_jobs" = VDict d /\ dget report "status" = VStr status /\
    loop_failing settings metrics "anchor_reconcile_loop_error_alert_threshold" = Ok failing /\
    dget d "total_count" = VInt (Z.of_nat (length jobs)) /\
    dget d "anchored_count" = VInt (state_count "anchored" jobs) /\
    dget d "failed_count" = VInt (state_count "anchor_failed" jobs) /\
    dget d "pending_confirmation_count" = VInt pending /\ dget d "awaiting_broadcast_count" = VInt awaiting /\
    pending + awaiting = state_count "anchor_submitted" jobs /\
    dget d "stale_pending_confirmation_count" = VInt stale /\ 0 <= stale <= pending /\
    (status = "critical"%string <-> failing = true) /\
    (status = "ok"%string <-> failing = false /\ stale = 0 /\ state_count "anchor_failed" jobs = 0).
Proof.
  unfold _build_chain_health_snapshot. intros H. apply rbind_ok in H as (w & _ & H). apply rbind_ok in H as (n & _ & H).
  apply rbind_ok in H as (c & Hc & H). apply rbind_ok in H as (failing & Hf & H). apply Ok_inj in H as <-.
  apply count_jobs_adds in Hc as (A1 & A2 & A3 & A4). cbn [no_jobs pending_confirmation_count awaiting_broadcast_count anchored_count failed_count stale_pending_confirmation_count] in A1, A2, A3, A4. do 6 eexists.
  split; [reflexivity|]. split; [reflexivity|]. split; [exact Hf|]. split; [reflexivity|].
  split; [cbn; f_equal; lia|]. split; [cbn; f_equal; lia|]. split; [reflexivity|]. split; [reflexivity|]. split; [exact A1|].
  split; [reflexivity|]. split; [lia|]. split.
  - rewrite status_critical. destruct failing, (0 <? stale_pending_confirmation_count c), (0 <? failed_count c); done.
  - assert (0 <= state_count "anchor_failed" jobs) by apply Nat2Z.is_nonneg. rewrite status_fine. case (Z.ltb_spec 0 (stale_pending_confirmation_count c)); intros;
      case (Z.ltb_spec 0 (failed_count c)); intros; destruct failing; simpl;
      (split; [intros; (discriminate || (split_and!; (done || lia)))|intros (E1 & E2 & E3); (done || lia)]).
Qed.

(** ** The queue of actions *)

(** When what follows an element outside [p] is outside [p] as well, the list is
    its elements in [p] before the others. *)
Lemma sorted_split {A} (R : A -> A -> Prop) (p : A -> bool) l :
  (forall x y, R x y -> p y = true -> p x = true) -> StronglySorted R l ->
  l = List.filter p l ++ List.filter (fun x => negb (p x)) l.
Proof.
  intros HR. induction 1 as [|x l Hl IH Hx]; [done|]. simpl. destruct (p x) eqn:E; simpl; [by f_equal|].
  assert (Hnone : forall y, In y l -> p y = false).
  { intros y Hy. destruct (p y) eqn:Ey; [|done]. rewrite List.Forall_forall in Hx. by rewrite (HR x y (Hx y Hy) Ey) in E. }
  assert (List.filter p l = []) as Ef.
  { clear -Hnone. induction l as [|y l IH]; simpl; [done|]. rewrite (Hnone y) by by left. apply IH. intros z Hz. apply Hnone. by right. }
  rewrite Ef in IH |- *. simpl in *. by f_equal.
Qed.

Definition is_high (item : dict) : bool := field_is "severity" "high" item.

Definition plain_action (item : dict) : Prop :=
  exists severity age id, dget item "severity" = VStr severity /\ dget item "age_seconds" = age /\
    (age = VNone \/ exists n, age = VInt n) /\ dget item "anchor_job_id" = VStr id /\
    (severity = "high"%string \/ severity = "medium"%string).

Lemma action_is_plain ty sev item age id :
  (sev = "high"%string \/ sev = "medium"%string) -> (age = VNone \/ exists n, age = VInt n) -> dget item "id" = VStr id ->
  plain_action (action ty sev item age).
Proof. intros Hs Ha Hid. exists sev, age, id. split_and!; (done || exact Hid). Qed.

Lemma action_of_spec w now item l id : dget item "id" = VStr id -> action_of w now item = Ok l ->
  Forall plain_action l /\
  map (fun a => dget a "anchor_job_id") (List.filter is_high l) =
    (if in_state "anchor_failed" item then [dget item "id"] else []).
Proof.
  unfold action_of. intros Hid H. apply rbind_ok in H as (t & _ & H). cbv zeta in H.
  set (age := match t with Some _ => _ | None => _ end) in H.
  assert (Ha : age = VNone \/ exists n, age = VInt n) by (destruct t; [right; by eexists|by left]).
  change (field_is "state" ?x item) with (in_state x item) in H. destruct (in_state "anchor_failed" item) eqn:E.
  - apply Ok_inj in H as <-. split; [constructor; [|done]; eapply action_is_plain; eauto|done].
  - destruct (_ && _); [|apply Ok_inj in H as <-; by split].
    apply rbind_ok in H as (b & _ & H). apply Ok_inj in H as <-. destruct b; [|by split].
    split; [constructor; [|done]; eapply action_is_plain; eauto|done].
Qed.

Lemma action_key_plain item : plain_action item ->
  exists n age id, action_key item = Ok [VInt n; VInt age; VStr id] /\ (is_high item = true <-> n = -2) /\ (n = -2 \/ n = -1).
Proof.
  intros (sev & age & id & Hs & Ha & Hage & Hid & Hsev). unfold action_key, is_high, field_is.
  assert (Eds : dget_or item "severity" (VStr "low") = VStr sev).
  { unfold dget, dget_or in *. destruct (aget "severity" item); [done|discriminate]. }
  rewrite Eds, Hs, Ha, Hid. simpl.
  assert (Hp : por (VStr id) (VStr "") = VStr id) by (unfold por; simpl; by destruct (String.eqb_spec id "") as [->|]).
  assert (exists n, por age (VInt 0) = VInt n) as [n Hn].
  { destruct Hage as [->|[n ->]]; [by exists 0|]. unfold por. simpl. destruct (Z.eqb_spec n 0) as [->|]; simpl; by eexists. }
  rewrite Hn, Hp. destruct Hsev as [-> | ->]; simpl; (do 3 eexists; split; [done|split; [done|]]; by (left + right)).
Qed.

Definition keys_ordered {A} (key : A -> res (list value)) (x y : A) : Prop :=
  exists kx ky, key x = Ok kx /\ key y = Ok ky /\ tuple_vlt ky kx = false.

Lemma sort_rows_sorted sh key l q :
  (forall x, In x l -> exists k, key x = Ok k /\ plain_key sh k) -> sort_rows key false l = Ok q ->
  Permutation q l /\ StronglySorted (keys_ordered key) q.
Proof.
  intros Hkey H. split; [by eapply py_sort_perm|]. unfold sort_rows, py_sort in H. apply rbind_ok in H as (kl & Hkl & H).
  assert (Hin : forall p, In p kl -> key p.2 = Ok p.1 /\ plain_key sh p.1).
  { intros p Hp. apply mapR_ok in Hkl. destruct (Forall2_In_r _ _ _ p Hkl Hp) as (x & Hx & E).
    apply rbind_ok in E as (k & Ek & E). apply Ok_inj in E as <-. destruct (Hkey x Hx) as (k' & Ek' & Hp').
    simpl. rewrite Ek in Ek'. by apply Ok_inj in Ek' as <-. }
  rewrite (py_sort_keyed_plain sh) in H.
  2: { apply List.Forall_map, List.Forall_forall. intros p Hp. by apply Hin. }
  apply Ok_inj in H as <-. set (lt := fun x y : list value * dict => tuple_vlt x.1 y.1).
  assert (Hs : StronglySorted (ge lt) (sort_by lt kl)).
  { apply sort_by_sorted; unfold lt; intros; [by apply tuple_vlt_asym|by eapply tuple_vlt_trans_neg]. }
  assert (Hin' : forall p, In p (sort_by lt kl) -> key p.2 = Ok p.1) by (intros p Hp%In_sort_by; by apply Hin).
  revert Hs Hin'. generalize (sort_by lt kl). clear. intros l Hs Hin. induction Hs as [|p l Hl IH Hp]; simpl; constructor.
  - apply IH. intros p' Hp'. apply Hin. by right.
  - apply List.Forall_map. rewrite List.Forall_forall in Hp |- *. intros p' Hp'. exists p.1, p'.1.
    split_and!; [apply Hin; by left|apply Hin; by right|by apply Hp].
Qed.

Lemma failed_ids w now jobs items :
  (forall job, In job jobs -> exists id, dget job "id" = VStr id) -> mapR (action_of w now) jobs = Ok items ->
  Forall plain_action (concat items) /\
  map (fun a => dget a "anchor_job_id") (List.filter is_high (concat items)) =
    map (fun job => dget job "id") (List.filter (in_state "anchor_failed") jobs).
Proof.
  intros Hids H. apply mapR_ok in H. induction H as [|job l jobs items Hl _ IH]; [by split|].
  destruct (Hids job) as [id Hid]; [by left|]. destruct (action_of_spec w now job l id Hid Hl) as [Hp Hf].
  destruct IH as [IHp IHf]; [intros j Hj; apply Hids; by right|]. simpl.
  split; [by apply Forall_app|]. rewrite List.filter_app, map_app, Hf, IHf. by destruct (in_state "anchor_failed" job).
Qed.

Lemma key_order_high x y : plain_action x -> plain_action y -> keys_ordered action_key x y -> is_high y = true -> is_high x = true.
Proof.
  intros Hx Hy (kx & ky & Ex & Ey & Hlt) Hhy. apply action_key_plain in Hx as (n & a & i & Ex' & Hhx & Hn).
  apply action_key_plain in Hy as (m & b & j & Ey' & Hm & _). rewrite Ex in Ex'. rewrite Ey in Ey'.
  apply Ok_inj in Ex' as ->. apply Ok_inj in Ey' as ->. apply Hm in Hhy as ->. apply Hhx. destruct Hn as [Hn|Hn]; [done|].
  subst n. discriminate Hlt.
Qed.

(** The queue of actions holds every failed anchor job, and it comes before
    the stale ones: the queue is the actions of high severity, which are those of
    the failed jobs, each once, and then the others. *)
Theorem failed_jobs_come_first jobs settings now queue :
  (forall job, In job jobs -> exists id, dget job "id" = VStr id) ->
  _build_anchor_action_queue jobs settings now = Ok queue ->
  exists failed stale, queue = failed ++ stale /\
    Permutation (map (fun a => dget a "anchor_job_id") failed)
                (map (fun job => dget job "id") (List.filter (in_state "anchor_failed") jobs)) /\
    Forall (fun a => is_high a = true) failed /\ Forall (fun a => is_high a = false) stale.
Proof.
  intros Hids H. unfold _build_anchor_action_queue in H. apply rbind_ok in H as (w & _ & H). apply rbind_ok in H as (items & Hi & H).
  destruct (failed_ids _ _ _ _ Hids Hi) as [Hp Hf]. rewrite List.Forall_forall in Hp.
  apply (sort_rows_sorted [0; 0; 1]) in H as [Hperm Hs].
  2: { intros x Hx. destruct (action_key_plain x (Hp x Hx)) as (n & a & id & E & _). eexists. split; [exact E|].
       split; [done|]. repeat constructor; lia. }
  exists (List.filter is_high queue), (List.filter (fun x => negb (is_high x)) queue).
  split.
  { apply (sorted_split (fun x y => keys_ordered action_key x y /\ plain_action x /\ plain_action y) is_high).
    - intros x y (Hk & Hx & Hy) Hh. by apply (key_order_high x y).
    - assert (Hq : forall x, In x queue -> plain_action x) by (intros x Hx; apply Hp; by rewrite <- Hperm).
      clear -Hs Hq. induction Hs as [|x l Hl IH Hx]; constructor; [apply IH; intros y Hy; apply Hq; by right|].
      rewrite List.Forall_forall in Hx |- *. intros y Hy. split_and!; [by apply Hx|apply Hq; by left|apply Hq; by right]. }
  split_and!.
  - rewrite <- Hf. by apply Permutation_map, filter_perm.
  - apply List.Forall_forall. by intros x [_ Hx]%filter_In.
  - apply List.Forall_forall. by intros x [_ Hx%negb_true_iff]%filter_In.
Qed.

(** ** Witnesses *)

Definition demo_jobs : list dict :=
  [[("id", VStr "aj_1"); ("state", VStr "anchored"); ("updated_at", VStr "1970-01-01T00:00:00Z")];
   [("id", VStr "aj_2"); ("state", VStr "anchor_submitted"); ("broadcast_tx_hash", VStr "AB");
    ("last_broadcast_at", VStr "1970-01-01T00:00:00Z")];
   [("id", VStr "aj_3"); ("state", VStr "anchor_failed"); ("updated_at", VStr "1970-01-01T00:01:00Z")]].

Definition demo_metrics : dict := _new_loop_metrics true (f_of_Z 15).
Definition demo_noon : Z := 43200 * usec.

Lemma chain_report_counts_witness :
  exists report, _build_chain_health_snapshot demo_jobs demo_metrics [] demo_noon = Ok report /\
  exists d pending stale awaiting failing status,
    dget report "anchor_jobs" = VDict d /\ dget report "status" = VStr status /\
    loop_failing [] demo_metrics "anchor_reconcile_loop_error_alert_threshold" = Ok failing /\
    dget d "total_count" = VInt (Z.of_nat (length demo_jobs)) /\
    dget d "anchored_count" = VInt (state_count "anchored" demo_jobs) /\
    dget d "failed_count" = VInt (state_count "anchor_failed" demo_jobs) /\
    dget d "pending_confirmation_count" = VInt pending /\ dget d "awaiting_broadcast_count" = VInt awaiting /\
    pending + awaiting = state_count "anchor_submitted" demo_jobs /\
    dget d "stale_pending_confirmation_count" = VInt stale /\ 0 <= stale <= pending /\
    (status = "critical"%string <-> failing = true) /\
    (status = "ok"%string <-> failing = false /\ stale = 0 /\ state_count "anchor_failed" demo_jobs = 0).
Proof.
  destruct (_build_chain_health_snapshot demo_jobs demo_metrics [] demo_noon) as [report|e] eqn:E; [|exfalso].
  - exists report. exact (conj eq_refl (chain_report_counts demo_jobs demo_metrics [] demo_noon report E)).
  - assert (H : is_ok (_build_chain_health_snapshot demo_jobs demo_metrics [] demo_noon) = true) by (vm_compute; reflexivity).
    rewrite E in H. discriminate H.
Defined.

Lemma failed_jobs_come_first_witness :
  exists queue, _build_anchor_action_queue demo_jobs [] demo_noon = Ok queue /\ length queue = 2%nat /\
  exists failed stale, queue = failed ++ stale /\
    Permutation (map (fun a => dget a "anchor_job_id") failed)
                (map (fun job => dget job "id") (List.filter (in_state "anchor_failed") demo_jobs)) /\
    Forall (fun a => is_high a = true) failed /\ Forall (fun a => is_high a = false) stale.
Proof.
  assert (Hid : forall job, In job demo_jobs -> exists id, dget job "id" = VStr id).
  { intros job Hj. simpl in Hj. destruct Hj as [<-|[<-|[<-|[]]]]; by eexists. }
  assert (H : match _build_anchor_action_queue demo_jobs [] demo_noon with Ok q => length q | Err _ => 0%nat end = 2%nat)
    by (vm_compute; reflexivity).
  destruct (_build_anchor_action_queue demo_jobs [] demo_noon) as [queue|e] eqn:E; [|discriminate H].
  exists queue. exact (conj eq_refl (conj H (failed_jobs_come_first demo_jobs [] demo_noon queue Hid E))).
Defined.
