(* ===== verification/ServerRuns.v ===== *)
(** * Runs of the server

    What holds over any sequence of requests, by anyone and with any times, and
    of iterations of the background loops. *)
From Stdlib Require Import ZArith Lia Ascii String.
From stdpp Require Import base list strings relations.
From S2P Require Import Prelude PyText PyFloat PyTime PyValue Sha256 Canonical PokerResults HandHistory Repository RepositoryFacts.
From S2P Require Import Forecast RewardRows Json ChainClient Economic Miners Submissions Settlement Windows PokerWindow.
From S2P Require Import Tournaments TournamentRecords Queries Service Anchors Footprint Roots QueryFacts.
From S2P Require Import Config CryptoAuth Schemas Health Server ServerFacts.
Open Scope Z_scope.

Section Keeps.
Context {Signature PublicKey : Type} (eth_keys : EthKeys Signature PublicKey)
  (ripemd160 : list Z -> res (list Z)) (str_exc : exn -> string).
Context (app : App) (now : nat -> Z) (utc_now : Z).

Lemma keeps_reads {A} (m : repo A) : reads m -> keeps m.
Proof. intros Hm. apply keeps_quiet, (touches_weaken [] _ false); [done|by intros t []|done]. Qed.

Lemma keeps_raising {A} status (m : repo A) : keeps m -> keeps (raising status m).
Proof. intros Hm s. rewrite raising_store. apply Hm. Qed.

Lemma keeps_answered status (m : repo dict) : keeps m -> keeps (answered status m).
Proof. intros Hm. unfold answered. apply keeps_sbind; [by apply keeps_raising|]. intros. keep. Qed.

Lemma keeps_answered_quiet status (m : repo dict) : quiet m -> keeps (answered status m).
Proof. intros Hm. by apply keeps_answered, keeps_quiet. Qed.

Lemma keeps_projection payload : keeps (project_poker_mtt_final_rankings payload).
Proof.
  unfold project_poker_mtt_final_rankings, Repository.get_artifact, record_projection, save_poker_mtt_final_ranking, save_artifact.
  apply keeps_raising. apply keeps_sbind; [keep|]. intros existing. apply keeps_sbind; [keep|]. intros [v|]; [keep|].
  apply keeps_sbind; [keep|]. intros. apply keeps_sbind; [apply keeps_quiet, quiet_project_rankings|]. keep.
Qed.

(** The handlers outside the admin routes. *)
Lemma keeps_public e request : is_admin e = false -> keeps (run eth_keys ripemd160 str_exc app now utc_now e request).
Proof.
  intros Ha. destruct (public_writer e) eqn:Hw; [|by apply keeps_reads, public_reads].
  destruct e; try discriminate; cbn [run].
  - unfold Server.register_miner. destruct (verify_address_pubkey_binding _ _ _ _) as [b why]. destruct b; simpl; [|keep].
    apply keeps_sbind; [apply keeps_raising, keeps_opens, opens_register|keep].
  - unfold Server.get_replay_proof. apply keeps_sbind; [apply keeps_raising, keeps_quiet, quiet_replay_proof|keep].
  - unfold commit_task. destruct (negb _); [keep|]. apply keeps_sbind; [keep|]. intros [miner|]; [|keep].
    apply keeps_sbind; [keep|]. intros key. destruct (negb _); [keep|]. apply keeps_sbind.
    { apply keeps_raising, keeps_sbind; [keep|]. intros. apply keeps_opens, opens_commit. }
    keep.
  - unfold reveal_task. destruct (negb _); [keep|]. apply keeps_sbind; [keep|]. intros [miner|]; [|keep].
    apply keeps_sbind; [keep|]. intros key. destruct (negb _); [keep|]. apply keeps_sbind.
    { apply keeps_raising, keeps_sbind; [keep|]. intros. apply keeps_opens, opens_reveal. }
    keep.
Qed.

Lemma keeps_run e request : keeps (run eth_keys ripemd160 str_exc app now utc_now e request).
Proof.
  destruct (is_admin e) eqn:Ha; [|by apply keeps_public]. destruct e; try discriminate Ha; cbn [run].
  - unfold get_risk_cases. keep.
  - unfold get_open_risk_cases. keep.
  - unfold Server.override_risk_case. apply keeps_answered. apply keeps_sbind; [keep|]. intros. apply keeps_sbind; [keep|].
    intros. apply keeps_opens, opens_override.
  - unfold get_settlement_batches. apply keeps_reads. apply touches_sbind; [apply reads_batches|footprint].
  - unfold run_admin_reconcile. apply keeps_sbind; [apply keeps_reconcile|]. intros _. apply keeps_reads.
    apply touches_sbind; [footprint|]. intros. apply touches_sbind; [apply reads_windows|]. intros.
    apply touches_sbind; [apply reads_batches|footprint].
  - unfold get_anchor_jobs, list_anchor_jobs, all_rows. apply keeps_reads. footprint.
  - unfold reconcile_anchor_jobs_on_chain. apply keeps_sbind; [apply keeps_reconcile_pending|keep].
  - unfold get_chain_health, list_anchor_jobs, all_rows. apply keeps_reads. footprint.
  - unfold get_forecast_health. apply keeps_reads. apply touches_sbind; [footprint|]. intros.
    apply touches_sbind; [apply reads_batches|footprint].
  - unfold get_anchor_job_action_queue, list_anchor_jobs, all_rows. apply keeps_reads. footprint.
  - apply keeps_answered_quiet, quiet_plan.
  - apply keeps_answered, keeps_broadcast.
  - apply keeps_answered, keeps_broadcast.
  - apply keeps_answered, keeps_confirm.
  - apply keeps_answered, keeps_retry_broadcast.
  - apply keeps_answered, keeps_retry_broadcast.
  - apply keeps_answered, keeps_rebuild.
  - apply keeps_answered, keeps_retry.
  - apply keeps_answered, keeps_submit.
  - unfold Server.mark_anchor_job_anchored. apply keeps_sbind; [apply keeps_raising, keeps_confirm|keep].
  - unfold Server.mark_anchor_job_failed. apply keeps_sbind; [keep|]. intros payload. apply keeps_answered.
    apply keeps_sbind; [keep|]. intros. apply keeps_sbind; [keep|]. intros. apply keeps_mark_failed.
  - apply keeps_answered_quiet, quiet_arena.
  - apply keeps_answered_quiet, quiet_ingest.
  - apply keeps_answered_quiet, quiet_hidden_eval.
  - apply keeps_answered_quiet, quiet_rating.
  - apply keeps_answered_quiet, quiet_apply_results.
  - apply keeps_projection.
  - apply keeps_answered, keeps_build_window.
Qed.

Lemma keeps_serve e headers host : keeps (serve eth_keys ripemd160 str_exc app now utc_now e headers host).
Proof.
  intros s. destruct (serve_store eth_keys ripemd160 str_exc app now utc_now e headers host s) as [->|(request & ->)];
    [reflexivity|apply keeps_run].
Qed.
End Keeps.

(** One step of a server with the settings and the service of [app]: a request,
    or an iteration of a loop. *)
Inductive server_step {Signature PublicKey} (eth_keys : EthKeys Signature PublicKey) ripemd160 str_exc (app : App)
  (s : FakeRepository) : FakeRepository -> Prop :=
| step_request e headers host now utc_now :
    server_step eth_keys ripemd160 str_exc app s (serve eth_keys ripemd160 str_exc app now utc_now e headers host s).2
| step_progression metrics t t' :
    server_step eth_keys ripemd160 str_exc app s (_run_forecast_progression_once (service app) str_exc metrics t t' s).2
| step_confirmation metrics t t' :
    server_step eth_keys ripemd160 str_exc app s (anchor_reconcile_iteration (service app) str_exc metrics t t' s).2.

Lemma iteration_store {A} str_exc (work : Z -> repo A) count b metrics t t' s :
  (iteration str_exc work count b metrics t t' s).2 = (work t s).2.
Proof. unfold iteration. destruct (work t s) as [[a|e] s']; by destruct metrics. Qed.

Lemma server_step_keeps {Signature PublicKey} (eth_keys : EthKeys Signature PublicKey) ripemd160 str_exc app s s' :
  server_step eth_keys ripemd160 str_exc app s s' -> roots_kept s s'.
Proof.
  destruct 1.
  - apply keeps_serve.
  - unfold _run_forecast_progression_once. rewrite iteration_store. apply keeps_reconcile.
  - unfold anchor_reconcile_iteration. rewrite iteration_store. apply keeps_reconcile_pending.
Qed.

(** C2: over any sequence of requests, with or without the admin token, and of
    iterations of the loops, a settlement batch that has a canonical root keeps
    its root and its published payload hash, and stores a payload of that hash. *)
Theorem requests_keep_published_roots {Signature PublicKey} (eth_keys : EthKeys Signature PublicKey) ripemd160 str_exc app s s'
  id batch :
  batches_ok s -> rtc (server_step eth_keys ripemd160 str_exc app) s s' ->
  aget id (batches s) = Some batch -> rooted batch ->
  exists batch', aget id (batches s') = Some batch' /\ same_root batch batch' /\ payload_hashed batch'.
Proof.
  intros Hs H Hb Hr. assert (Hk : roots_kept s s').
  { clear Hs Hb Hr. induction H as [|s1 s2 s3 H _ IH]; [reflexivity|]. etransitivity; [by eapply server_step_keeps|done]. }
  destruct (Hk Hs) as [Hs' Hk']. destruct (Hk' _ _ Hb Hr) as (batch' & Hb' & E). exists batch'. split_and!; [done|done|].
  destruct (Hs' _ _ Hb') as [_ Hok]. by apply Hok, (same_root_rooted batch).
Qed.

(** ** Witnesses *)

Definition demo_app : App :=
  {| app_settings := []; service := demo_service; anchor_reconcile_metrics := []; forecast_progression_metrics := [] |}.

(** The published batch of [Roots] after a retry that comes over HTTP. *)
Definition demo_retried : FakeRepository :=
  (serve demo_keys demo_rip demo_text demo_app (fun _ => 0) 0 (POST_retry_anchor "sb_1") [] None demo_published).2.

Lemma requests_keep_published_roots_witness :
  (batches_ok demo_published /\ rooted demo_batch) /\
  exists batch', aget "sb_1"%string (batches demo_retried) = Some batch' /\ same_root demo_batch batch' /\ payload_hashed batch'.
Proof.
  assert (Hr : rooted demo_batch) by reflexivity.
  assert (Hstep : rtc (server_step demo_keys demo_rip demo_text demo_app) demo_published demo_retried)
    by (apply rtc_once, step_request).
  exact (conj (conj demo_published_ok Hr)
    (requests_keep_published_roots demo_keys demo_rip demo_text demo_app demo_published demo_retried "sb_1" demo_batch
       demo_published_ok Hstep eq_refl Hr)).
Defined.
