(* ===== verification/Preserve.v ===== *)
(** * Relations that every operation preserves

    [preserves R m]: wherever [m] starts, it leaves the store in a state that is
    [R]-related to that one, whether it returns or raises.  For a preorder [R]
    this follows operation by operation from the primitives, by the tactic
    [preserve] and the hints of the database [preserves]; and what holds of
    every handler and of the work of the loops holds of any run of the server. *)
From Stdlib Require Import ZArith Lia Ascii String.
From stdpp Require Import base list strings relations.
From S2P Require Import Prelude PyText PyFloat PyTime PyValue Repository RepositoryFacts.
From S2P Require Import Forecast Economic Miners Submissions Settlement Service Anchors Footprint.
From S2P Require Import Config CryptoAuth Schemas Health Server ServerFacts ServerRuns.
Open Scope Z_scope.

Definition preserves (R : relation FakeRepository) {A} (m : repo A) : Prop := forall s, R s (m s).2.

Section Preserves.
Context (R : relation FakeRepository) `{!PreOrder R}.

Lemma preserves_pure {A} (f : FakeRepository -> res A) : preserves R (fun s => (f s, s)).
Proof. intros s. simpl. reflexivity. Qed.

Lemma preserves_sbind {A B} (m : repo A) (f : A -> repo B) :
  preserves R m -> (forall a, preserves R (f a)) -> preserves R (sbind m f).
Proof.
  intros Hm Hf s. unfold sbind. specialize (Hm s). destruct (m s) as [[a|e] s1]; simpl in *; [|done].
  etransitivity; [exact Hm|apply Hf].
Qed.

Lemma preserves_forS {A} (f : A -> repo unit) l : (forall a, preserves R (f a)) -> preserves R (forS f l).
Proof. intros Hf. induction l; simpl; [apply preserves_pure|]. by apply preserves_sbind. Qed.

Lemma preserves_foldS {A B} (f : B -> A -> repo B) l acc :
  (forall acc a, preserves R (f acc a)) -> preserves R (foldS f l acc).
Proof. intros Hf. revert acc. induction l; intros acc; simpl; [apply preserves_pure|]. by apply preserves_sbind. Qed.

Lemma preserves_mapS {A B} (f : A -> repo B) l : (forall a, preserves R (f a)) -> preserves R (mapS f l).
Proof.
  intros Hf. induction l; simpl; [apply preserves_pure|]. apply preserves_sbind; [done|]. intros x.
  apply preserves_sbind; [done|]. intros. apply preserves_pure.
Qed.

Lemma preserves_scatch {A} (m : repo A) h :
  preserves R m -> (forall msg, preserves R (h msg)) -> preserves R (scatch_value_error m h).
Proof.
  intros Hm Hh s. unfold scatch_value_error. specialize (Hm s). destruct (m s) as [[a|[]] s1]; simpl in *; try done.
  etransitivity; [exact Hm|apply Hh].
Qed.

(** A relation that only depends on other tables, and on the submissions if [b]. *)
Lemma preserves_touches {A} W b (m : repo A) :
  (forall s s', untouched W b s s' -> R s s') -> touches W b m -> preserves R m.
Proof. intros HR Hm s. by apply HR. Qed.

Lemma preserves_steps (step : relation FakeRepository) s s' :
  (forall s s', step s s' -> R s s') -> rtc step s s' -> R s s'.
Proof. intros Hstep. induction 1 as [|s1 s2 s3 H _ IH]; [reflexivity|]. etransitivity; [by apply Hstep|done]. Qed.
End Preserves.

Create HintDb preserves.

Ltac unfold_head m := lazymatch m with ?f _ => unfold_head f | _ => unfold m end.

(** Follows an operation down to its primitives, unfolding what it calls. *)
Ltac preserve :=
  repeat first
    [ progress intros
    | solve [auto with preserves]
    | lazymatch goal with
      | |- preserves _ (sret _) => apply (preserves_pure _ (fun _ => Ok _))
      | |- preserves _ (slift ?r) => apply (preserves_pure _ (fun _ => r))
      | |- preserves _ (sraise ?e) => apply (preserves_pure _ (fun _ => Err e))
      | |- preserves _ sget => apply (preserves_pure _ (fun s => Ok s))
      | |- preserves _ (sgets ?f) => apply (preserves_pure _ (fun s => Ok (f s)))
      | |- preserves _ (sbind _ _) => apply preserves_sbind; [exact _| |]
      | |- preserves _ (forS _ _) => apply preserves_forS; [exact _|]
      | |- preserves _ (foldS _ _ _) => apply preserves_foldS; [exact _|]
      | |- preserves _ (mapS _ _) => apply preserves_mapS; [exact _|]
      | |- preserves _ (scatch_value_error _ _) => apply preserves_scatch; [exact _| |]
      | |- preserves _ (match ?x with _ => _ end) => destruct x
      | |- preserves _ (let x := _ in _) => cbv zeta
      | |- preserves _ ?m => unfold_head m
      end ].

(** ** Runs of the server *)

Section Runs.
Context (R : relation FakeRepository) `{!PreOrder R}.
Context {Signature PublicKey : Type} (eth_keys : EthKeys Signature PublicKey)
  (ripemd160 : list Z -> res (list Z)) (str_exc : exn -> string) (app : App).
Hypothesis run_preserves : forall now utc_now e request,
  preserves R (run eth_keys ripemd160 str_exc app now utc_now e request).
Hypothesis reconcile_preserves : forall now, preserves R (reconcile (service app) now).
Hypothesis pending_preserves : forall now, preserves R (reconcile_pending_anchor_jobs_on_chain (service app) now).

Lemma server_step_preserves s s' : server_step eth_keys ripemd160 str_exc app s s' -> R s s'.
Proof.
  destruct 1.
  - destruct (serve_store eth_keys ripemd160 str_exc app now utc_now e headers host s) as [->|(request & ->)];
      [reflexivity|apply run_preserves].
  - unfold _run_forecast_progression_once. rewrite iteration_store. apply reconcile_preserves.
  - unfold anchor_reconcile_iteration. rewrite iteration_store. apply pending_preserves.
Qed.

Lemma server_steps_preserve s s' : rtc (server_step eth_keys ripemd160 str_exc app) s s' -> R s s'.
Proof. apply preserves_steps; [done|apply server_step_preserves]. Qed.
End Runs.

(** The steps of a run, as the operations they consist of. *)
Section Steps.
Context {Signature PublicKey : Type} (eth_keys : EthKeys Signature PublicKey)
  (ripemd160 : list Z -> res (list Z)) (str_exc : exn -> string) (app : App).

Lemma progression_steps t s : server_step eth_keys ripemd160 str_exc app s (reconcile (service app) t s).2.
Proof.
  rewrite <- (iteration_store str_exc (reconcile (service app)) (fun _ => 0) true None t t).
  apply (step_progression eth_keys ripemd160 str_exc app s None t t).
Qed.
End Steps.
