(* ===== verification/Identity.v ===== *)
(** * The keys of the miners

    No operation of the service but the registration writes the address or the
    public key of a miner, and a registration writes a new row only.  So in every
    state a server can reach, the key of a miner is one that the address is made
    of, and it never changes. *)
From Stdlib Require Import ZArith Lia Ascii String.
From stdpp Require Import base list strings relations.
From S2P Require Import Prelude PyText PyFloat PyTime PyValue Sha256 Canonical PokerResults HandHistory Repository RepositoryFacts.
From S2P Require Import HandStores Forecast RewardRows Json ChainClient Economic Miners Submissions Settlement Windows PokerWindow.
From S2P Require Import Tournaments TournamentRecords Queries Service Anchors Footprint Accounting.
From S2P Require Import Config CryptoAuth Schemas Health Server ServerFacts ServerRuns Preserve Roots CryptoFacts.
Open Scope Z_scope.

Abbreviation miners s := (tab _miners s).

Definition key_fields : list string := ["address"; "public_key"].
Definition same_key (row row' : dict) : Prop := forall k, In k key_fields -> dget row' k = dget row k.

(** The same miners are registered, with the same keys. *)
Definition same_keys (s s' : FakeRepository) : Prop :=
  forall a, option_Forall2 same_key (aget a (miners s)) (aget a (miners s')).

Abbreviation kept m := (preserves same_keys m).

#[export] Instance same_keys_preorder : PreOrder same_keys.
Proof.
  split.
  - intros s a. destruct (aget a (miners s)); by constructor.
  - intros s1 s2 s3 H12 H23 a. specialize (H12 a). specialize (H23 a).
    inversion H12 as [row1 row2 K12 E1 E2|E1 E2]; rewrite <- E2 in H23; inversion H23 as [? row3 K23|]; subst; constructor.
    intros k Hk. by rewrite K23, K12.
Qed.

Lemma kept_touches {A} W b (m : repo A) : touches W b m -> ~ In _miners W -> kept m.
Proof. intros Hm Hn s a. destruct (Hm s) as [Ht _]. rewrite (Ht _ Hn). destruct (aget a (miners s)); by constructor. Qed.

Lemma kept_put_row t id row : t <> _miners -> kept (put_row t id row).
Proof. intros Ht. apply (kept_touches [t] false); [apply touches_put_row; by left|]. by intros [->|[]]. Qed.

Lemma kept_save_submission row : kept (save_submission row).
Proof. apply (kept_touches _ _ _ (touches_save_submission row)). simpl. intuition discriminate. Qed.

(** An update that does not name the fields of the key. *)
Lemma kept_update address u :
  NoDup (akeys u) -> (forall k, In k key_fields -> aget k u = None) -> kept (update_miner address u).
Proof.
  intros Hnd Hk s a. unfold update_miner, sbind, sget. destruct (aget address (miners s)) as [row|] eqn:E.
  2: { simpl. destruct (aget a (miners s)); by constructor. }
  rewrite put_row_run. simpl. rewrite tab_set_tab_eq, aget_aset. destruct (keqb a address) eqn:Ea.
  - apply keqb_spec in Ea as ->. rewrite E. constructor. intros k Hin. rewrite dget_dupdate by done. by rewrite Hk.
  - destruct (aget a (miners s)); by constructor.
Qed.

Lemma kept_update_stamped address u l :
  NoDup (akeys (("updated_at", u) :: l)) -> (forall k, In k key_fields -> aget k l = None) ->
  kept (update_miner address (("updated_at", u) :: given l)).
Proof.
  intros Hnd Hk. fold (stamped u l). apply kept_update; [by apply NoDup_stamped|].
  inversion Hnd; subst. intros k Hin. rewrite aget_stamped; [by rewrite (Hk k Hin)|assumption|].
  intros ->. simpl in Hin. intuition discriminate.
Qed.

Lemma not_in_fields (u : dict) : forallb (fun k => negb (ahas k u)) key_fields = true ->
  forall k, In k key_fields -> aget k u = None.
Proof.
  intros H k Hk. rewrite forallb_forall in H. specialize (H k Hk). unfold ahas in H. by destruct (aget k u).
Qed.

Ltac kept_fields l := apply l; [nodup_keys|by apply not_in_fields].

Lemma kept_cluster a t u i h : kept (update_miner_cluster_identity a t u i h).
Proof. unfold update_miner_cluster_identity. kept_fields kept_update_stamped. Qed.
Lemma kept_participation a t v1 v2 v3 v4 v5 v6 : kept (update_miner_forecast_participation a t v1 v2 v3 v4 v5 v6).
Proof. unfold update_miner_forecast_participation. kept_fields kept_update_stamped. Qed.
Lemma kept_settlement a t v1 v2 v3 v4 v5 v6 v7 : kept (update_miner_forecast_settlement a t v1 v2 v3 v4 v5 v6 v7).
Proof. unfold update_miner_forecast_settlement. kept_fields kept_update_stamped. Qed.
Lemma kept_ranking a r e : kept (update_miner_public_ranking a r e).
Proof. unfold update_miner_public_ranking. kept_fields kept_update. Qed.
Lemma kept_arena a m t : kept (update_arena_miner_multiplier a m t).
Proof. unfold update_arena_miner_multiplier. kept_fields kept_update. Qed.
Lemma kept_poker a m t : kept (update_poker_mtt_miner_multiplier a m t).
Proof. unfold update_poker_mtt_miner_multiplier. kept_fields kept_update. Qed.

#[export] Hint Resolve kept_save_submission kept_cluster kept_participation kept_settlement kept_ranking kept_arena kept_poker : preserves.
#[export] Hint Extern 1 (preserves same_keys (put_row _ _ _)) => (apply kept_put_row; discriminate) : preserves.

(** ** The operations of the service *)

Lemma kept_publish self now : kept (publish_schedule self now).
Proof. preserve. Qed.
Lemma kept_settle_fast tp settings now : kept (_settle_due_tasks tp settings now).
Proof. preserve. Qed.
Lemma kept_settle_daily tp settings now : kept (_settle_due_daily_tasks tp settings now).
Proof. preserve. Qed.
Lemma kept_release settings now : kept (_release_matured_holds settings now).
Proof. preserve. Qed.
Lemma kept_windows now : kept (_build_reward_windows now).
Proof. preserve. Qed.
Lemma kept_poker_windows settings now : kept (_build_poker_mtt_reward_windows settings now).
Proof. preserve. Qed.
Lemma kept_batches now : kept (_build_settlement_batches now).
Proof. preserve. Qed.
Lemma kept_ranks : kept _refresh_public_ranks.
Proof. preserve. Qed.
#[export] Hint Resolve kept_publish kept_settle_fast kept_settle_daily kept_release kept_windows kept_poker_windows
  kept_batches kept_ranks : preserves.
Lemma kept_reconcile self now : kept (reconcile self now).
Proof. preserve. Qed.
#[export] Hint Resolve kept_reconcile : preserves.

Lemma kept_refresh self ip ua now : kept (_refresh_miner_cluster self ip ua now).
Proof. preserve. Qed.
Lemma kept_build_window settings lane st en (pool : Z) prov policy meta id now :
  kept (PokerWindow.build_poker_mtt_reward_window settings lane st en pool prov policy meta id now).
Proof. preserve. Qed.
Lemma kept_make_ready self id now batch : kept (make_anchor_ready self id now batch).
Proof. preserve. Qed.
#[export] Hint Resolve kept_refresh kept_build_window kept_make_ready : preserves.
Lemma kept_retry self id now : kept (Anchors.retry_anchor_settlement_batch self id now).
Proof. preserve. Qed.
Lemma kept_submit self id now : kept (Anchors.submit_anchor_job self id now).
Proof. preserve. Qed.
Lemma kept_settle_anchored job now : kept (settle_anchored job now).
Proof. preserve. Qed.
Lemma kept_settle_failed job reason now : kept (settle_failed job reason now).
Proof. preserve. Qed.
#[export] Hint Resolve kept_retry kept_submit kept_settle_anchored kept_settle_failed : preserves.
Lemma kept_broadcast self mode id now : kept (broadcast_chain_tx self mode id now).
Proof. preserve. Qed.
Lemma kept_confirm_job self job now : kept (confirm_job self job now).
Proof. preserve. Qed.
#[export] Hint Resolve kept_broadcast kept_confirm_job : preserves.
Lemma kept_roll a p e b now : kept (roll_multiplier a p e b now).
Proof. preserve. Qed.
#[export] Hint Resolve kept_roll : preserves.
Lemma kept_maturity a tasks e : kept (maturity_of a tasks e).
Proof. revert e. induction tasks as [|t tasks IH]; intros e; cbn [maturity_of]; preserve. Qed.
#[export] Hint Resolve kept_maturity : preserves.

(** ** The handlers *)

Section Handlers.
Context {Signature PublicKey : Type} (eth_keys : EthKeys Signature PublicKey)
  (ripemd160 : list Z -> res (list Z)) (str_exc : exn -> string).
Context (app : App) (now : nat -> Z) (utc_now : Z).

Lemma kept_run e request : (forall p, e <> POST_register p) -> kept (run eth_keys ripemd160 str_exc app now utc_now e request).
Proof.
  intros He. destruct e; try (by destruct (He payload)); cbn [run].
  all: clear He; preserve.
Qed.

Lemma kept_serve e headers host : (forall p, e <> POST_register p) ->
  kept (serve eth_keys ripemd160 str_exc app now utc_now e headers host).
Proof.
  intros He s. destruct (serve_store eth_keys ripemd160 str_exc app now utc_now e headers host s) as [->|(request & ->)];
    [reflexivity|by apply kept_run].
Qed.
End Handlers.

(** ** Registration *)

(** The row of a miner that was not there, with the given key, and updates of no key after it. *)
Definition registers (address key : string) (s s' : FakeRepository) : Prop :=
  same_keys s s' \/
  aget address (miners s) = None /\
  exists row s1, dget row "address" = VStr address /\ dget row "public_key" = VStr key /\
    miners s1 = aset address row (miners s) /\ same_keys s1 s'.

Lemma registers_lift {A B} address key (r : res A) (f : A -> repo B) s :
  (forall a, r = Ok a -> registers address key s (f a s).2) -> registers address key s (sbind (slift r) f s).2.
Proof. intros Hf. unfold sbind, slift. destruct r as [a|e]; [by apply Hf|]. left. simpl. reflexivity. Qed.

Lemma kept_move_existing component_map now all existing : kept (move_existing component_map now all existing).
Proof. preserve. Qed.
Lemma kept_sync items now : kept (_sync_cluster_risk_cases items now).
Proof. preserve. Qed.
#[export] Hint Resolve kept_move_existing kept_sync : preserves.

Lemma registered_once self address name key version ip ua unit now s :
  registers address key s (Service.register_miner self address name key version ip ua unit now s).2.
Proof.
  unfold Service.register_miner. do 4 (apply registers_lift; intros ? _).
  unfold list_miners, all_rows. unfold sbind at 1, sgets.
  apply registers_lift; intros normalized_ip _. cbv zeta. apply registers_lift; intros component_map _.
  set (unit' := match aget address component_map with Some u => VStr u | None => _ end).
  set (miner := new_miner _ _ _ _ _ _ _ _). 
  assert (Ha : aget "address" (dset miner "economic_unit_id" unit') = Some (VStr address)) by reflexivity.
  assert (Hk : aget "public_key" (dset miner "economic_unit_id" unit') = Some (VStr key)) by reflexivity.
  revert Ha Hk. generalize (dset miner "economic_unit_id" unit'). intros row Ha Hk.
  clear miner unit'. unfold Repository.register_miner, dgetitem. rewrite Ha.
  destruct (aget address (miners s)) as [old|] eqn:E.
  { left. unfold sbind at 1 2 3 4, slift, sget. simpl. unfold ahas. rewrite E. simpl. reflexivity. }
  right. split; [done|]. exists row, (set_tab _miners (aset address row (miners s)) s).
  split; [by apply dget_some|]. split; [by apply dget_some|]. split; [apply tab_set_tab_eq|].
  rewrite (sbind_run _ _ s row (set_tab _miners (aset address row (miners s)) s)).
  2: { unfold sbind, slift, sget. simpl. unfold ahas. by rewrite E, put_row_run. }
  generalize (set_tab _miners (aset address row (miners s)) s). apply preserves_sbind; [exact _|preserve|]. intros. preserve.
Qed.

(** A row whose address is made of its key. *)
Definition bound_row ripemd160 str_exc (a : string) (row : dict) : Prop :=
  exists key why, dget row "address" = VStr a /\ dget row "public_key" = VStr key /\
    verify_address_pubkey_binding ripemd160 str_exc a key = (true, why).

Definition all_bound ripemd160 str_exc (s : FakeRepository) : Prop :=
  forall a row, aget a (miners s) = Some row -> bound_row ripemd160 str_exc a row.

(** The invariant holds after, and every registered miner keeps the key. *)
Definition keys_final ripemd160 str_exc (s s' : FakeRepository) : Prop :=
  all_bound ripemd160 str_exc s -> all_bound ripemd160 str_exc s' /\
  forall a row, aget a (miners s) = Some row -> exists row', aget a (miners s') = Some row' /\ same_key row row'.

#[export] Instance keys_final_preorder ripemd160 str_exc : PreOrder (keys_final ripemd160 str_exc).
Proof.
  split.
  - intros s Hs. split; [done|]. intros a row Ha. by exists row.
  - intros s1 s2 s3 H12 H23 Hs. destruct (H12 Hs) as [Hs2 K12]. destruct (H23 Hs2) as [Hs3 K23]. split; [done|].
    intros a row Ha. destruct (K12 a row Ha) as (row2 & Ha2 & E2). destruct (K23 a row2 Ha2) as (row3 & Ha3 & E3).
    exists row3. split; [done|]. intros k Hk. by rewrite E3, E2.
Qed.

Lemma same_key_bound ripemd160 str_exc a row row' :
  same_key row row' -> bound_row ripemd160 str_exc a row -> bound_row ripemd160 str_exc a row'.
Proof.
  intros Hk (key & why & Ha & Hp & Hv). exists key, why.
  by rewrite (Hk "address"), (Hk "public_key") by (simpl; tauto).
Qed.

Lemma kept_final ripemd160 str_exc s s' : same_keys s s' -> keys_final ripemd160 str_exc s s'.
Proof.
  intros H Hs. split; intros a row Ha; specialize (H a); rewrite Ha in H; inversion H as [row1 row2 K E1 E2|]; subst.
  - symmetry in E1. eapply same_key_bound; [done|by apply Hs].
  - by exists row2.
Qed.

Lemma registers_final ripemd160 str_exc address key why s s' :
  verify_address_pubkey_binding ripemd160 str_exc address key = (true, why) ->
  registers address key s s' -> keys_final ripemd160 str_exc s s'.
Proof.
  intros Hv [H|(Hnone & row & s1 & Ha & Hp & H1 & H)]; [by apply kept_final|].
  etransitivity; [|by apply kept_final]. intros Hs. split.
  - intros a row'. rewrite H1, aget_aset. destruct (keqb a address) eqn:E; [|apply Hs].
    apply keqb_spec in E as ->. intros [= <-]. by exists key, why.
  - intros a row' Hrow. exists row'. split; [|done]. rewrite H1, aget_aset. destruct (keqb a address) eqn:E; [|done].
    apply keqb_spec in E as ->. congruence.
Qed.

Section Runs.
Context {Signature PublicKey : Type} (eth_keys : EthKeys Signature PublicKey)
  (ripemd160 : list Z -> res (list Z)) (str_exc : exn -> string) (app : App).
Abbreviation step := (server_step eth_keys ripemd160 str_exc app).

Lemma register_final now utc_now p request s :
  keys_final ripemd160 str_exc s (run eth_keys ripemd160 str_exc app now utc_now (POST_register p) request s).2.
Proof.
  cbn [run]. unfold Server.register_miner.
  destruct (verify_address_pubkey_binding _ _ _ _) as [[|] why] eqn:Ev; cbn [negb]; [|simpl; reflexivity].
  apply (registers_final _ _ _ _ _ _ _ Ev).
  assert (Hpure : forall (m : repo dict) (f : dict -> repo value), (forall x s', (f x s').2 = s') -> (sbind m f s).2 = (m s).2).
  { intros m f Hf. unfold sbind. destruct (m s) as [[x|e] s1]; [apply Hf|done]. }
  rewrite Hpure, raising_store; [apply registered_once|].
  intros miner s1. unfold sbind, slift. by destruct (dgetitem miner "address"), (dgetitem miner "registration_index").
Qed.

Lemma kept_pending t : kept (reconcile_pending_anchor_jobs_on_chain (service app) t).
Proof. preserve. Qed.

Lemma step_keys s s' : step s s' -> keys_final ripemd160 str_exc s s'.
Proof.
  destruct 1.
  - destruct (serve_store eth_keys ripemd160 str_exc app now utc_now e headers host s) as [->|(request & ->)]; [reflexivity|].
    destruct e; try (apply kept_final, kept_run; intros; discriminate). apply register_final.
  - unfold _run_forecast_progression_once. rewrite iteration_store. apply kept_final, kept_reconcile.
  - unfold anchor_reconcile_iteration. rewrite iteration_store. apply kept_final, kept_pending.
Qed.

Lemma steps_keys s s' : rtc step s s' -> keys_final ripemd160 str_exc s s'.
Proof. apply preserves_steps; [exact _|apply step_keys]. Qed.

(** C3: the key of a miner is bound and final.  In every state that requests and
    loop iterations reach from an empty store, the address of each registered
    miner is the one of the public key stored for it, and whatever happens
    after, the miner stays registered under the same address and key. *)
Theorem registered_keys_are_final s s' a row :
  rtc step empty_repository s -> rtc step s s' -> aget a (miners s) = Some row ->
  bound_row ripemd160 str_exc a row /\ exists row', aget a (miners s') = Some row' /\ same_key row row'.
Proof.
  intros H0 H Ha. apply steps_keys in H0. apply steps_keys in H.
  assert (Hs : all_bound ripemd160 str_exc s) by (apply H0; intros a' row' E; discriminate E).
  split; [by apply Hs|by apply H].
Qed.
End Runs.

(** ** Witness *)

Definition demo_registration : RegisterMinerRequest :=
  {| rm_address := CryptoFacts.demo_address; rm_name := "miner"; rm_public_key := CryptoFacts.demo_key;
     rm_miner_version := "0.4.0"; rm_economic_unit_id := None |}.

Definition demo_registered : FakeRepository :=
  (serve demo_keys demo_rip demo_text demo_app (fun _ => 0) 0 (POST_register demo_registration) [] None empty_repository).2.
Definition demo_miner : dict := default [] (aget CryptoFacts.demo_address (miners demo_registered)).

Lemma registered_keys_are_final_witness :
  aget CryptoFacts.demo_address (miners demo_registered) = Some demo_miner /\
  bound_row demo_rip demo_text CryptoFacts.demo_address demo_miner /\
  exists row', aget CryptoFacts.demo_address (miners (reconcile demo_service 0 demo_registered).2) = Some row' /\
    same_key demo_miner row'.
Proof.
  assert (H : ahas CryptoFacts.demo_address (miners demo_registered) = true) by (vm_compute; reflexivity).
  assert (Ha : aget CryptoFacts.demo_address (miners demo_registered) = Some demo_miner).
  { unfold demo_miner. unfold ahas in H. destruct (aget _ _); [reflexivity|discriminate H]. }
  assert (H0 : rtc (server_step demo_keys demo_rip demo_text demo_app) empty_repository demo_registered)
    by (apply rtc_once, step_request).
  assert (H1 : rtc (server_step demo_keys demo_rip demo_text demo_app) demo_registered (reconcile demo_service 0 demo_registered).2)
    by (apply rtc_once, (progression_steps demo_keys demo_rip demo_text demo_app 0)).
  exact (conj Ha (registered_keys_are_final demo_keys demo_rip demo_text demo_app demo_registered _ _ demo_miner H0 H1 Ha)).
Defined.
