(* ===== verification/ProtocolRuns.v ===== *)
(** * The commit-reveal protocol in runs of the server

    No request and no iteration of a loop breaks the promises of Protocol: the
    commit, the reveal and the settlement write submissions as shown there, the
    windows put the id of a window on stored rows, and nothing else writes a
    submission.  So they hold in every state that a server reaches from an empty
    store, and from then on commitments and forecasts stay what they are. *)
From Stdlib Require Import ZArith Lia Ascii String.
From stdpp Require Import base list strings relations.
From S2P Require Import Prelude PyText PyFloat PyTime PyValue Sha256 Canonical PokerResults HandHistory Repository RepositoryFacts.
From S2P Require Import HandStores Forecast RewardRows Json ChainClient Economic Miners Submissions Settlement Windows PokerWindow.
From S2P Require Import Tournaments TournamentRecords Queries Service Anchors Footprint Protocol Accounting.
From S2P Require Import Config CryptoAuth Schemas Health Server ServerFacts ServerRuns Preserve Identity.
From S2P Require Import Roots CryptoFacts.
Open Scope Z_scope.

(** ** The reward windows *)

Section Windows.
Context (settings : ForecastSettings).

Lemma annotating_window_submission id now subs members sub :
  In sub subs -> annotating settings subs (window_submission id now members sub).
Proof.
  intros Hin. unfold window_submission. destruct (is_none _); [apply annotating_sret|].
  apply annotating_sbind; [by apply (annotating_touches _ []); [footprint|not_in]|intros members'].
  apply annotating_sbind; [|intros _; apply annotating_sret].
  destruct (field_is _ _ _); [apply annotating_sret|].
  apply annotating_sbind; [|intros _; apply annotating_sret].
  apply annotating_save; [done|nodup_keys|by intros k Hk; repeat (destruct Hk as [<-|Hk]; [done|])].
Qed.

Lemma window_task_moves id now tasks members t : moves settings (window_task id now tasks members t).
Proof.
  apply annotating_moves. unfold window_task. destruct (non_empty _) as [task|]; [|apply annotating_sret].
  apply annotating_list. intros subs. apply annotating_sbind.
  { apply annotating_foldS; [apply incl_refl|]. intros acc sub. by apply annotating_window_submission. }
  intros members'. by apply (annotating_touches _ [_tasks]); [footprint|not_in].
Qed.
End Windows.

(** ** Everything else *)

(** The promises hold after, and the submissions have evolved. *)
Definition advances (settings : ForecastSettings) (s s' : FakeRepository) : Prop :=
  protocol_ok settings s -> protocol_ok settings s' /\ evolves s s'.

#[export] Instance advances_preorder settings : PreOrder (advances settings).
Proof.
  split.
  - intros s Hs. split; [done|apply evolves_refl].
  - intros s1 s2 s3 H12 H23 Hs. destruct (H12 Hs) as [Hs2 E12]. destruct (H23 Hs2) as [Hs3 E23].
    split; [done|by eapply evolves_trans].
Qed.

Abbreviation moving settings m := (preserves (advances settings) m).

Section Moving.
Context (settings : ForecastSettings).

Lemma moving_put_row t id row : t <> _request_index -> moving settings (put_row t id row).
Proof.
  intros Ht. apply (moves_touches settings [t]); [apply touches_put_row; by left|]. by intros [E|[]].
Qed.

Lemma moving_commit t m rid h n at_ ip ua : moving settings (commit_submission t m rid h n at_ ip ua).
Proof. exact (commit_moves settings t m rid h n at_ ip ua). Qed.
Lemma moving_settle tp st now : moving settings (_settle_due_tasks tp st now).
Proof. exact (settle_moves settings tp st now). Qed.
Lemma moving_settle_daily tp st now : moving settings (_settle_due_daily_tasks tp st now).
Proof. exact (settle_daily_moves settings tp st now). Qed.
Lemma moving_window_task id now tasks members t : moving settings (window_task id now tasks members t).
Proof. exact (window_task_moves settings id now tasks members t). Qed.
End Moving.

#[export] Hint Resolve moving_commit moving_settle moving_settle_daily moving_window_task : preserves.
#[export] Hint Extern 1 (preserves (advances _) (put_row _ _ _)) => (apply moving_put_row; discriminate) : preserves.

Lemma moving_windows settings now : moving settings (_build_reward_windows now).
Proof. preserve. Qed.
Lemma moving_release settings st now : moving settings (_release_matured_holds st now).
Proof. preserve. Qed.
#[export] Hint Resolve moving_windows moving_release : preserves.
Lemma moving_poker_windows settings st now : moving settings (_build_poker_mtt_reward_windows st now).
Proof. preserve. Qed.
Lemma moving_batches settings now : moving settings (_build_settlement_batches now).
Proof. preserve. Qed.
#[export] Hint Resolve moving_poker_windows moving_batches : preserves.
Lemma moving_reconcile settings self now : moving settings (reconcile self now).
Proof. preserve. Qed.
#[export] Hint Resolve moving_reconcile : preserves.
Lemma moving_build_window settings st lane start en (pool : Z) prov policy meta id now :
  moving settings (PokerWindow.build_poker_mtt_reward_window st lane start en pool prov policy meta id now).
Proof. preserve. Qed.
Lemma moving_make_ready settings self id now batch : moving settings (make_anchor_ready self id now batch).
Proof. preserve. Qed.
#[export] Hint Resolve moving_build_window moving_make_ready : preserves.
Lemma moving_retry settings self id now : moving settings (Anchors.retry_anchor_settlement_batch self id now).
Proof. preserve. Qed.
Lemma moving_submit settings self id now : moving settings (Anchors.submit_anchor_job self id now).
Proof. preserve. Qed.
Lemma moving_anchored settings job now : moving settings (settle_anchored job now).
Proof. preserve. Qed.
Lemma moving_failed settings job reason now : moving settings (settle_failed job reason now).
Proof. preserve. Qed.
#[export] Hint Resolve moving_retry moving_submit moving_anchored moving_failed : preserves.
Lemma moving_broadcast settings self mode id now : moving settings (broadcast_chain_tx self mode id now).
Proof. preserve. Qed.
Lemma moving_confirm_job settings self job now : moving settings (confirm_job self job now).
Proof. preserve. Qed.
#[export] Hint Resolve moving_broadcast moving_confirm_job : preserves.
Lemma moving_roll settings a p e b now : moving settings (roll_multiplier a p e b now).
Proof. preserve. Qed.
Lemma moving_maturity settings a tasks e : moving settings (maturity_of a tasks e).
Proof. revert e. induction tasks as [|t tasks IH]; intros e; cbn [maturity_of]; preserve. Qed.
#[export] Hint Resolve moving_roll moving_maturity : preserves.
Lemma moving_pending settings self now : moving settings (reconcile_pending_anchor_jobs_on_chain self now).
Proof. preserve. Qed.

(** ** Runs *)

Section Runs.
Context {Signature PublicKey : Type} (eth_keys : EthKeys Signature PublicKey)
  (ripemd160 : list Z -> res (list Z)) (str_exc : exn -> string) (app : App).
Abbreviation rules := (settings (service app)).
Abbreviation step := (server_step eth_keys ripemd160 str_exc app).
Hypothesis bounds : min_p_yes_bps rules <= max_p_yes_bps rules.

Lemma moving_reveal t m rid p nonce at_ ip ua :
  moving rules (Submissions.reveal_submission rules t m rid p nonce at_ ip ua).
Proof. exact (reveal_moves rules t m rid p nonce at_ ip ua bounds). Qed.
#[local] Hint Resolve moving_reveal : preserves.

Lemma moving_run now utc_now e request : moving rules (run eth_keys ripemd160 str_exc app now utc_now e request).
Proof. destruct e; cbn [run]; preserve. Qed.

Lemma steps_advance s s' : rtc step s s' -> advances rules s s'.
Proof.
  apply server_steps_preserve; [exact _|apply moving_run| |].
  - intros now. apply moving_reconcile.
  - intros now. apply moving_pending.
Qed.

Lemma reachable_ok s : rtc step empty_repository s -> protocol_ok rules s.
Proof. intros H. by apply (steps_advance _ _ H), protocol_ok_empty. Qed.
End Runs.

(** ** Theorems *)

Section Theorems.
Context {Signature PublicKey : Type} (eth_keys : EthKeys Signature PublicKey)
  (ripemd160 : list Z -> res (list Z)) (str_exc : exn -> string) (app : App).
Abbreviation rules := (settings (service app)).
Abbreviation step := (server_step eth_keys ripemd160 str_exc app).

(** C13: In every state that requests and loop iterations reach from an empty
    store a revealed forecast opens the commitment: it lies in the allowed range,
    and the stored commit hash is the hash of this task, this miner, this
    forecast and some nonce.  The range of the settings is not empty. *)
Theorem revealed_forecast_opens_commit s key p :
  min_p_yes_bps rules <= max_p_yes_bps rules -> rtc step empty_repository s ->
  forecast_of key s = Some p ->
  min_p_yes_bps rules <= p <= max_p_yes_bps rules /\
  exists nonce, committed_hash key s = Some (compute_commit_hash key.1 key.2 p nonce).
Proof. intros Hb Hs. apply forecast_of_revealed. by apply (reachable_ok eth_keys ripemd160 str_exc). Qed.

(** C10: A commitment binds: from a state of a server where a miner has committed,
    no two continuations, whatever requests and loop iterations they consist of,
    show different forecasts of that miner for that task, unless the payloads of
    two openings of the committed hash are different texts with one SHA-256.  The
    range of the settings is not empty. *)
Theorem commitment_binds s s1 s2 key h p1 p2 :
  min_p_yes_bps rules <= max_p_yes_bps rules -> rtc step empty_repository s ->
  committed_hash key s = Some h -> rtc step s s1 -> rtc step s s2 ->
  forecast_of key s1 = Some p1 -> forecast_of key s2 = Some p2 ->
  p1 = p2 \/ exists n1 n2,
    compute_commit_hash key.1 key.2 p1 n1 = h /\ compute_commit_hash key.1 key.2 p2 n2 = h /\
    sha256_collision (commit_payload key.1 key.2 p1 n1) (commit_payload key.1 key.2 p2 n2).
Proof.
  intros Hb Hs Hh H1 H2 Hp1 Hp2. apply (reachable_ok _ _ _ _ Hb) in Hs.
  destruct (steps_advance _ _ _ _ Hb _ _ H1 Hs) as [Hok1 He1], (steps_advance _ _ _ _ Hb _ _ H2 Hs) as [Hok2 He2].
  destruct (forecast_of_revealed _ _ _ _ Hok1 Hp1) as (_ & n1 & Hn1).
  destruct (forecast_of_revealed _ _ _ _ Hok2 Hp2) as (_ & n2 & Hn2).
  apply (evolves_committed _ _ _ _ He1) in Hh as Hh1. apply (evolves_committed _ _ _ _ He2) in Hh as Hh2.
  rewrite Hh1 in Hn1. rewrite Hh2 in Hn2. injection Hn1 as Hn1. injection Hn2 as Hn2.
  destruct (commit_hash_binds key.1 key.2 p1 p2 n1 n2) as [->|Hcol]; [congruence|by left|right].
  by exists n1, n2.
Qed.

(** C15: Commitments and forecasts are final: whatever requests and loop iterations
    follow a state that a server reaches from an empty store, a commit hash that
    is stored never changes, nor does a revealed forecast.  The range of the
    settings is not empty. *)
Theorem submissions_are_final s s' key :
  min_p_yes_bps rules <= max_p_yes_bps rules -> rtc step empty_repository s -> rtc step s s' ->
  (forall h, committed_hash key s = Some h -> committed_hash key s' = Some h) /\
  (forall p, forecast_of key s = Some p -> forecast_of key s' = Some p).
Proof.
  intros Hb Hs H. apply (reachable_ok _ _ _ _ Hb) in Hs. destruct (steps_advance _ _ _ _ Hb _ _ H Hs) as [_ He].
  split; intros; [by eapply evolves_committed|by eapply evolves_forecast].
Qed.

(** C11: In every state that requests and loop iterations reach from an empty
    store, of the submissions of one task whose rows name the same economic unit
    at most one is revealed and eligible.  The unit is the one on the row, which
    stays there when the cluster of the miner changes later: two miners whose
    clusters are joined after their reveals can both be eligible.  The range of
    the settings is not empty. *)
Theorem one_eligible_forecast_per_unit s task m1 m2 r1 r2 unit :
  min_p_yes_bps rules <= max_p_yes_bps rules -> rtc step empty_repository s ->
  aget (task, m1) (_submissions s) = Some r1 -> aget (task, m2) (_submissions s) = Some r2 ->
  eligible_for unit r1 = true -> eligible_for unit r2 = true -> m1 = m2.
Proof. intros Hb Hs. apply (ok_units rules). by apply (reachable_ok eth_keys ripemd160 str_exc). Qed.
End Theorems.

(** ** A run: two miners behind one address forecast the same task *)

Definition second_key : string :=
  "69be667ef9dcbbac55a06295ce870b07029bfcdb2dce28d959f2815b16f81798483ada7726a3c4655da4fbfc0e1108a8fd17b448a68554199c47d08ffb10d4b8".
Definition first_miner : string := CryptoFacts.demo_address.
Definition second_miner : string := "claw15tzh0jkep69ywanzqxvx9ymprrqe3ldwcnjj0t".
Definition run_task : string := "tr_fast_197001010000_btcusdt".

(** A server whose tasks all resolve to yes. *)
Definition run_service : ForecastMiningService :=
  {| settings := default_settings; task_provider := Some demo_provider; chain := no_chain |}.
Definition run_app : App :=
  {| app_settings := []; service := run_service; anchor_reconcile_metrics := []; forecast_progression_metrics := [] |}.

(** A request that comes from the one address. *)
Definition asked (now : Z) (e : Endpoint) (s : FakeRepository) : FakeRepository :=
  (serve demo_keys demo_rip demo_text run_app (fun _ => now) 0 e [] (Some "10.0.0.1"%string) s).2.
Definition run_register (address key : string) : Endpoint :=
  POST_register {| rm_address := address; rm_name := "m"; rm_public_key := key; rm_miner_version := "0.4.0";
                   rm_economic_unit_id := None |}.
Definition run_commit (m : string) : Endpoint :=
  POST_commit run_task
    {| cr_request_id := "c:" +:+ m; cr_task_run_id := run_task; cr_miner_id := m; cr_economic_unit_id := None;
       cr_commit_hash := compute_commit_hash run_task m 6000 "n"; cr_nonce := "n"; cr_client_version := "v";
       cr_signature := "00" |}.
Definition run_reveal (m : string) : Endpoint :=
  POST_reveal run_task
    {| rr_request_id := "r:" +:+ m; rr_task_run_id := run_task; rr_miner_id := m; rr_economic_unit_id := None;
       rr_p_yes_bps := 6000; rr_nonce := "n"; rr_schema_version := "v1"; rr_signature := "00" |}.

Definition run_open : FakeRepository :=
  (reconcile run_service 0
     (asked 0 (run_register second_miner second_key)
        (asked 0 (run_register first_miner CryptoFacts.demo_key) empty_repository))).2.
Definition run_committed : FakeRepository :=
  asked 1000000 (run_commit second_miner) (asked 1000000 (run_commit first_miner) run_open).
Definition run_revealed : FakeRepository :=
  asked 5000000 (run_reveal second_miner) (asked 5000000 (run_reveal first_miner) run_committed).

Abbreviation demo_step := (server_step demo_keys demo_rip demo_text run_app).

Lemma asked_steps now e s : demo_step s (asked now e s).
Proof. apply step_request. Qed.

Lemma run_open_reachable : rtc demo_step empty_repository run_open.
Proof.
  eapply rtc_l; [apply (asked_steps 0 (run_register first_miner CryptoFacts.demo_key))|].
  eapply rtc_l; [apply (asked_steps 0 (run_register second_miner second_key))|].
  apply rtc_once. apply (progression_steps demo_keys demo_rip demo_text run_app 0).
Qed.

Lemma run_committed_reachable : rtc demo_step empty_repository run_committed.
Proof.
  eapply rtc_trans; [apply run_open_reachable|].
  eapply rtc_l; [apply (asked_steps 1000000 (run_commit first_miner))|]. apply rtc_once, asked_steps.
Qed.

Lemma run_reveals : rtc demo_step run_committed run_revealed.
Proof. eapply rtc_l; [apply (asked_steps 5000000 (run_reveal first_miner))|]. apply rtc_once, asked_steps. Qed.

Lemma run_revealed_reachable : rtc demo_step empty_repository run_revealed.
Proof. eapply rtc_trans; [apply run_committed_reachable|apply run_reveals]. Qed.

(** The second forecast is recorded for the audit only. *)
Example run_outcome :
  committed_hash (run_task, first_miner) run_committed = Some (compute_commit_hash run_task first_miner 6000 "n") /\
  forecast_of (run_task, first_miner) run_revealed = Some 6000 /\
  option_map (eligible_for "eu:c3b2444bdb8f17ca6af4") (aget (run_task, first_miner) (_submissions run_revealed)) = Some true /\
  option_map (fun row => dget row "eligibility_status") (aget (run_task, second_miner) (_submissions run_revealed)) =
    Some (VStr "audit_only").
Proof. vm_compute. done. Qed.

(** The unit of a cluster is renamed when a miner joins it: where the second miner
    registers after the first one has revealed, the row of the first names the
    old unit, and the duplicate is not found although both miners are one unit. *)
Definition run_joined : FakeRepository :=
  asked 2600000 (run_reveal second_miner) (asked 2500000 (run_commit second_miner)
    (asked 2000000 (run_register second_miner second_key)
      (asked 1500000 (run_reveal first_miner) (asked 1000000 (run_commit first_miner)
        (reconcile run_service 0 (asked 0 (run_register first_miner CryptoFacts.demo_key) empty_repository)).2)))).

Example joined_cluster_forecasts_twice :
  map (fun kv => (kv.1, dget kv.2 "eligibility_status", dget kv.2 "economic_unit_id")) (_submissions run_joined) =
    [((run_task, first_miner), VStr "eligible", VStr "eu:56a1717892a646736368");
     ((run_task, second_miner), VStr "eligible", VStr "eu:c3b2444bdb8f17ca6af4")] /\
  map (fun kv => dget kv.2 "economic_unit_id") (tab _miners run_joined) =
    [VStr "eu:c3b2444bdb8f17ca6af4"; VStr "eu:c3b2444bdb8f17ca6af4"].
Proof. vm_compute. done. Qed.

Lemma revealed_forecast_opens_commit_witness :
  forecast_of (run_task, first_miner) run_revealed = Some 6000 /\ 1500 <= 6000 <= 8500 /\
  exists nonce, committed_hash (run_task, first_miner) run_revealed = Some (compute_commit_hash run_task first_miner 6000 nonce).
Proof.
  destruct run_outcome as (_ & Hf & _). split; [exact Hf|].
  exact (revealed_forecast_opens_commit demo_keys demo_rip demo_text run_app run_revealed (run_task, first_miner) 6000
    ltac:(discriminate) run_revealed_reachable Hf).
Defined.

Lemma commitment_binds_witness :
  6000 = 6000 \/ exists n1 n2,
    compute_commit_hash run_task first_miner 6000 n1 = compute_commit_hash run_task first_miner 6000 "n" /\
    compute_commit_hash run_task first_miner 6000 n2 = compute_commit_hash run_task first_miner 6000 "n" /\
    sha256_collision (commit_payload run_task first_miner 6000 n1) (commit_payload run_task first_miner 6000 n2).
Proof.
  destruct run_outcome as (Hc & Hf & _).
  exact (commitment_binds demo_keys demo_rip demo_text run_app run_committed run_revealed run_revealed (run_task, first_miner)
    (compute_commit_hash run_task first_miner 6000 "n") 6000 6000 ltac:(discriminate) run_committed_reachable Hc
    run_reveals run_reveals Hf Hf).
Defined.

Lemma submissions_are_final_witness :
  committed_hash (run_task, first_miner) run_revealed = Some (compute_commit_hash run_task first_miner 6000 "n").
Proof.
  destruct run_outcome as (Hc & _).
  exact (proj1 (submissions_are_final demo_keys demo_rip demo_text run_app run_committed run_revealed (run_task, first_miner)
    ltac:(discriminate) run_committed_reachable run_reveals) _ Hc).
Defined.

Lemma one_eligible_forecast_per_unit_witness :
  exists r1, aget (run_task, first_miner) (_submissions run_revealed) = Some r1 /\
    forall m2 r2, aget (run_task, m2) (_submissions run_revealed) = Some r2 ->
      eligible_for "eu:c3b2444bdb8f17ca6af4" r2 = true -> first_miner = m2.
Proof.
  destruct run_outcome as (_ & _ & He & _).
  destruct (aget (run_task, first_miner) (_submissions run_revealed)) as [r1|] eqn:H1; [|discriminate He].
  exists r1. split; [reflexivity|]. intros m2 r2 H2 E2. injection He as E1.
  exact (one_eligible_forecast_per_unit demo_keys demo_rip demo_text run_app run_revealed run_task first_miner m2 r1 r2
    "eu:c3b2444bdb8f17ca6af4" ltac:(discriminate) run_revealed_reachable H1 H2 E1 E2).
Defined.
