(* ===== verification/Ledgers.v ===== *)
(** * The books in runs of the server

    In every state that requests and loop iterations reach from an empty store
    the accounts of the miners are integers and every task stands under its own
    id.  So what Accounting shows of one run of the settlement holds of every
    run of it that a server makes. *)
From Stdlib Require Import ZArith Lia Ascii String.
From stdpp Require Import base list strings relations.
From S2P Require Import Prelude PyText PyFloat PyTime PyValue Sha256 Canonical PokerResults HandHistory Repository RepositoryFacts.
From S2P Require Import HandStores Forecast RewardRows Json ChainClient Economic Miners Submissions Settlement Windows PokerWindow.
From S2P Require Import Tournaments TournamentRecords Queries Service Anchors Footprint Protocol Accounting Holds Cases.
From S2P Require Import Config CryptoAuth Schemas Health Server ServerFacts ServerRuns Preserve Identity ProtocolRuns.
Open Scope Z_scope.

(** ** The invariant *)

(** The fields of a row that hold an account are integers. *)
Definition ints (row : dict) : Prop := forall k, In k account_fields -> is_int (dget row k) = true.
(** No key occurs twice. *)
Definition a_dict (row : dict) : Prop := NoDup (akeys row).

Record books_ok (s : FakeRepository) : Prop := {
  books_accounts : accounts_ok s;
  books_miners : NoDup (akeys (tab _miners s));
  books_tasks : tasks_ok s;
  books_dicts : forall id task, aget id (tab _tasks s) = Some task -> a_dict task
}.

Definition books (s s' : FakeRepository) : Prop := books_ok s -> books_ok s'.

#[export] Instance books_preorder : PreOrder books.
Proof. split; [intros s H; exact H|]. intros s1 s2 s3 H12 H23 H. by apply H23, H12. Qed.

Abbreviation booking m := (preserves books m).

(** What was read from a store in order is as the invariant says. *)
Lemma booking_reads {A B} (P : A -> Prop) (m : repo A) (f : A -> repo B) :
  (forall s a s', books_ok s -> m s = (Ok a, s') -> P a) -> booking m -> (forall a, P a -> booking (f a)) ->
  booking (sbind m f).
Proof.
  intros HP Hm Hf s Hs. unfold sbind. specialize (Hm s Hs). destruct (m s) as [[a|e] s1] eqn:E; simpl in *; [|done].
  apply Hf; [by eapply HP|done].
Qed.

Lemma booking_lift {A B} (r : res A) (f : A -> repo B) :
  (forall a, r = Ok a -> booking (f a)) -> booking (sbind (slift r) f).
Proof. intros Hf s. unfold sbind, slift. destruct r as [a|e]; [by apply Hf|done]. Qed.

Lemma booking_forS_in {A} (f : A -> repo unit) l : (forall a, In a l -> booking (f a)) -> booking (forS f l).
Proof.
  intros Hf. induction l as [|x l IH]; simpl; [apply preserves_pure; exact _|].
  apply preserves_sbind; [exact _|apply Hf; by left|]. intros _. apply IH. intros a Ha. apply Hf. by right.
Qed.

Lemma booking_foldS_in {A B} (f : B -> A -> repo B) l acc :
  (forall b a, In a l -> booking (f b a)) -> booking (foldS f l acc).
Proof.
  revert acc. induction l as [|x l IH]; intros acc Hf; simpl; [apply preserves_pure; exact _|].
  apply preserves_sbind; [exact _|apply Hf; by left|]. intros b. apply IH. intros b' a Ha. apply Hf. by right.
Qed.

Lemma booking_touches {A} W b (m : repo A) : touches W b m -> ~ In _miners W -> ~ In _tasks W -> booking m.
Proof.
  intros Hm HM HT s [Ha Hn Ht Hd]. destruct (Hm s) as [Hu _]. split.
  - unfold accounts_ok. by rewrite Hu.
  - by rewrite Hu.
  - unfold tasks_ok. by rewrite Hu.
  - intros id task. rewrite Hu by done. apply Hd.
Qed.

Lemma booking_put_row t id row : t <> _miners -> t <> _tasks -> booking (put_row t id row).
Proof.
  intros Hm Ht. apply (booking_touches [t] false); [apply touches_put_row; by left|..]; by intros [E|[]].
Qed.

Lemma booking_save_submission row : booking (save_submission row).
Proof. apply (booking_touches _ _ _ (touches_save_submission row)); not_in. Qed.

(** ** Miners *)

(** Operations on the miners leave the tasks alone. *)
Lemma booking_accounts {A} (m : repo A) :
  touches [_miners] false m ->
  (forall s, books_ok s -> accounts_ok (m s).2 /\ NoDup (akeys (tab _miners (m s).2))) -> booking m.
Proof.
  intros Hm Ha s Hs. destruct (Hm s) as [Hu _]. split; [by apply Ha|by apply Ha| |].
  - unfold tasks_ok. rewrite Hu by not_in. apply Hs.
  - intros id task. rewrite Hu by not_in. apply Hs.
Qed.

(** An update writes integers to the fields of the account, or nothing. *)
Lemma booking_update address u :
  NoDup (akeys u) -> (forall k v, In k account_fields -> aget k u = Some v -> is_int v = true) ->
  booking (update_miner address u).
Proof.
  intros Hnd Hu. apply booking_accounts; [apply touches_update_miner; by left|]. intros s [Ha Hn _ _].
  destruct (update_miner_cases address u s) as [(e & ->)|(row & Hrow & ->)]; [done|]. simpl.
  split; [|rewrite tab_set_tab_eq; by apply NoDup_akeys_aset].
  intros a r. rewrite tab_set_tab_eq, aget_aset. destruct (keqb a address); [|apply Ha].
  intros [= <-] k Hk. rewrite dget_dupdate by done.
  destruct (aget k u) as [v|] eqn:E; [by apply (Hu k)|by apply (Ha address)].
Qed.

Lemma booking_update_none address u :
  NoDup (akeys u) -> (forall k, In k account_fields -> aget k u = None) -> booking (update_miner address u).
Proof. intros Hnd Hu. apply booking_update; [done|]. intros k v Hk. by rewrite (Hu k Hk). Qed.

Lemma booking_update_stamped address u l :
  NoDup (akeys (("updated_at", u) :: l)) ->
  (forall k v, In k account_fields -> aget k l = Some v -> is_none v = true \/ is_int v = true) ->
  booking (update_miner address (("updated_at", u) :: given l)).
Proof.
  intros Hnd Hl. fold (stamped u l). apply booking_update; [by apply NoDup_stamped|].
  inversion Hnd; subst. intros k v Hk.
  rewrite aget_stamped; [|assumption|intros ->; simpl in Hk; intuition discriminate].
  destruct (aget k l) as [v'|] eqn:E; [|done]. destruct (Hl k v' Hk E) as [Hv|Hv]; [by destruct v'|].
  destruct v'; try done. by intros [= <-].
Qed.

Definition int_or_none (v : value) : Prop := is_none v = true \/ is_int v = true.

Lemma booking_settlement a t total held v3 v4 v5 v6 v7 :
  int_or_none total -> int_or_none held -> booking (update_miner_forecast_settlement a t total held v3 v4 v5 v6 v7).
Proof.
  intros Ht Hh. unfold update_miner_forecast_settlement. apply booking_update_stamped; [nodup_keys|].
  intros k v [<-|[<-|[]]]; simpl; by intros [= <-].
Qed.

Ltac no_account := intros k v [<-|[<-|[]]]; simpl; discriminate.
Ltac no_account_field := intros k [<-|[<-|[]]]; reflexivity.

Lemma booking_cluster a t u i h : booking (update_miner_cluster_identity a t u i h).
Proof. unfold update_miner_cluster_identity. apply booking_update_stamped; [nodup_keys|no_account]. Qed.
Lemma booking_participation a t v1 v2 v3 v4 v5 v6 : booking (update_miner_forecast_participation a t v1 v2 v3 v4 v5 v6).
Proof. unfold update_miner_forecast_participation. apply booking_update_stamped; [nodup_keys|no_account]. Qed.
Lemma booking_ranking a r e : booking (update_miner_public_ranking a r e).
Proof. unfold update_miner_public_ranking. apply booking_update_none; [nodup_keys|no_account_field]. Qed.
Lemma booking_arena a m t : booking (update_arena_miner_multiplier a m t).
Proof. unfold update_arena_miner_multiplier. apply booking_update_none; [nodup_keys|no_account_field]. Qed.
Lemma booking_poker a m t : booking (update_poker_mtt_miner_multiplier a m t).
Proof. unfold update_poker_mtt_miner_multiplier. apply booking_update_none; [nodup_keys|no_account_field]. Qed.

Lemma booking_register_row row :
  ints row -> booking (Repository.register_miner row).
Proof.
  intros Hi. unfold Repository.register_miner. apply booking_lift. intros v _. apply booking_lift. intros address _.
  apply preserves_sbind; [exact _|apply (preserves_pure _ (fun s => Ok s))|]. intros s0.
  destruct (ahas _ _); [apply (preserves_pure _ (fun _ => Err _))|].
  apply booking_accounts; [apply touches_put_row; by left|]. intros s [Ha Hn _ _]. rewrite put_row_run. simpl.
  split; [|rewrite tab_set_tab_eq; by apply NoDup_akeys_aset].
  intros a r. rewrite tab_set_tab_eq, aget_aset. destruct (keqb a address); [|apply Ha]. by intros [= <-].
Qed.

(** ** Tasks *)

Lemma booking_upsert row : a_dict row -> booking (upsert_task row).
Proof.
  intros Hr. unfold upsert_task, save_keyed. apply booking_lift. intros v Hv. apply booking_lift. intros id Hid.
  unfold dgetitem in Hv. destruct (aget "task_run_id" row) as [v'|] eqn:E; [|done]. injection Hv as ->.
  assert (v = VStr id) as -> by (destruct v; try done; by injection Hid as ->).
  intros s [Ha Hn [Hnd Hids] Hd]. unfold sbind, sget. rewrite put_row_run. cbn [snd].
  set (new := dupdate (default [] (aget id (tab _tasks s))) row).
  assert (Hnew : a_dict new).
  { apply NoDup_akeys_dupdate. destruct (aget id (tab _tasks s)) as [old|] eqn:Eo; [by apply (Hd id)|constructor]. }
  assert (Hk : aget "task_run_id" new = Some (VStr id)) by (unfold new; by rewrite aget_dupdate, E).
  split.
  - unfold accounts_ok. by rewrite tab_set_tab_ne.
  - by rewrite tab_set_tab_ne.
  - split; rewrite tab_set_tab_eq; [by apply NoDup_akeys_aset|]. intros id' task. rewrite aget_aset.
    destruct (keqb id' id) eqn:Ek; [|apply Hids]. apply keqb_spec in Ek as ->. by intros [= <-].
  - intros id' task. rewrite tab_set_tab_eq, aget_aset. destruct (keqb id' id); [|apply Hd]. by intros [= <-].
Qed.

Lemma a_dict_update task u : a_dict task -> a_dict (dupdate task u).
Proof. apply NoDup_akeys_dupdate. Qed.

#[export] Hint Resolve booking_save_submission booking_cluster booking_participation booking_ranking booking_arena
  booking_poker booking_upsert booking_register_row a_dict_update : preserves.
#[export] Hint Extern 1 (preserves books (put_row _ _ _)) => (apply booking_put_row; discriminate) : preserves.

(** ** The settlement and the schedule *)

(** What the queries of the repository find. *)
Lemma get_miner_ints address s row s' : books_ok s -> get_miner address s = (Ok (Some row), s') -> ints row.
Proof.
  intros [Ha _ _ _]. unfold get_miner, get_row, sgets, non_empty.
  destruct (aget address (tab _miners s)) as [[|kv l]|] eqn:E; [done| |done]. intros [= <- _]. exact (Ha address _ E).
Qed.

(** The rows of a table, where its keys are distinct, are those found under a key. *)
Lemma rows_found (t : table) s row : NoDup (akeys (tab t s)) -> In row (avals (tab t s)) -> exists id, aget id (tab t s) = Some row.
Proof. intros Hnd Hin. apply in_map_iff in Hin as ([id row'] & <- & Hin). exists id. by apply aget_NoDup. Qed.

Lemma list_miners_ints s l s' : books_ok s -> list_miners s = (Ok l, s') -> forall row, In row l -> ints row.
Proof.
  intros [Ha Hn _ _] [= <- _] row Hin. destruct (rows_found _ _ _ Hn Hin) as [id Hid]. exact (Ha id _ Hid).
Qed.

Lemma list_tasks_dicts s l s' : books_ok s -> list_tasks s = (Ok l, s') -> forall row, In row l -> a_dict row.
Proof.
  intros [_ _ [Hn _] Hd] [= <- _] row Hin. destruct (rows_found _ _ _ Hn Hin) as [id Hid]. by apply (Hd id).
Qed.

Lemma due_tasks_dicts now s l s' :
  books_ok s -> list_due_unsettled_fast_tasks now s = (Ok l, s') -> forall row, In row l -> a_dict row.
Proof.
  intros [_ _ [Hn _] Hd] H row Hin. unfold list_due_unsettled_fast_tasks, all_rows in H.
  rewrite (sbind_run _ _ s (avals (tab _tasks s)) s) in H by done. injection H as H _.
  destruct (rows_found _ _ row Hn) as [id Hid]; [|by apply (Hd id)].
  apply list_elem_of_In. apply list_elem_of_In in Hin.
  by apply (sublist_subseteq _ _ (filterR_sublist _ _ _ H)).
Qed.

Ltac booking_bind := apply preserves_sbind; [exact _|preserve|intros ?].

Lemma added_int (v : value) (n : Z) (sum : value) : is_int v = true -> py_add v (VInt n) = Ok sum -> int_or_none sum.
Proof. destruct v; try done. intros _ [= <-]. by right. Qed.

Lemma ints_total miner v : ints miner -> dgetitem miner "total_rewards" = Ok v -> is_int v = true.
Proof.
  intros Hi. unfold dgetitem. destruct (aget "total_rewards" miner) as [v'|] eqn:E; [|done]. intros [= <-].
  rewrite <- (dget_some _ _ _ E). apply Hi. by left.
Qed.

Lemma ints_held miner : ints miner -> is_int (dget_or miner "held_rewards" (VInt 0)) = true.
Proof.
  intros Hi. specialize (Hi "held_rewards" ltac:(by right; left)). unfold dget, dget_or in *.
  by destruct (aget "held_rewards" miner).
Qed.

Lemma booking_credit address miner r c now : ints miner -> booking (credit_miner address miner r c now).
Proof.
  intros Hi. unfold credit_miner. apply booking_lift. intros v Hv. apply booking_lift. intros total Ht.
  apply booking_lift. intros held Hh. booking_bind. booking_bind.
  apply preserves_sbind; [exact _| |preserve]. apply booking_settlement.
  - eapply added_int; [|exact Ht]. by eapply ints_total.
  - eapply added_int; [|exact Hh]. by apply ints_held.
Qed.

Lemma booking_pay_out address miner amount held now : ints miner -> booking (pay_out address miner amount held now).
Proof.
  intros Hi. unfold pay_out. apply booking_lift. intros v Hv. apply booking_lift. intros total Ht.
  apply preserves_sbind; [exact _| |preserve]. apply booking_settlement; [|by right].
  eapply added_int; [|exact Ht]. by eapply ints_total.
Qed.

Lemma booking_admission address miner state now : booking (set_admission address miner state now).
Proof.
  unfold set_admission. destruct (field_is _ _ _); [preserve|].
  apply preserves_sbind; [exact _| |preserve]. by apply booking_settlement; left.
Qed.
#[export] Hint Resolve booking_credit booking_pay_out booking_admission : preserves.

Lemma booking_settle_submission settings task outcome now cache sub :
  booking (settle_fast_submission settings task outcome now cache sub).
Proof.
  unfold settle_fast_submission. destruct (is_none _); [preserve|]. do 6 booking_bind.
  apply (booking_reads (fun m => forall row, m = Some row -> ints row)).
  - intros s m s' Hs Hm row ->. by eapply get_miner_ints.
  - preserve.
  - intros [miner|] Hm; [specialize (Hm _ eq_refl)|]; preserve.
Qed.
#[export] Hint Resolve booking_settle_submission : preserves.

Lemma booking_settle_task tp settings now cache task : a_dict task -> booking (settle_fast_task tp settings now cache task).
Proof. intros Hd. unfold settle_fast_task. preserve. Qed.

Lemma booking_settle tp settings now : booking (_settle_due_tasks tp settings now).
Proof.
  apply (booking_reads (fun l => forall row, In row l -> a_dict row)).
  - intros s l s'. apply due_tasks_dicts.
  - preserve.
  - intros l Hl. apply preserves_sbind; [exact _| |preserve].
    apply booking_foldS_in. intros cache task Hin. by apply booking_settle_task, Hl.
Qed.

Lemma booking_daily_submission settings outcome now sub : booking (settle_daily_submission settings outcome now sub).
Proof.
  unfold settle_daily_submission. destruct (is_none _); [preserve|]. do 6 booking_bind.
  match goal with |- preserves _ (match ?m with _ => _ end) => destruct m end; [|preserve]. do 3 booking_bind. apply preserves_sbind; [exact _| |preserve].
  by apply booking_settlement; left.
Qed.
#[export] Hint Resolve booking_daily_submission : preserves.

Lemma booking_daily_task tp settings now task : a_dict task -> booking (settle_daily_task tp settings now task).
Proof. intros Hd. unfold settle_daily_task. preserve. Qed.

Lemma booking_settle_daily tp settings now : booking (_settle_due_daily_tasks tp settings now).
Proof.
  apply (booking_reads (fun l => forall row, In row l -> a_dict row)).
  - intros s l s'. apply list_tasks_dicts.
  - preserve.
  - intros l Hl. apply booking_forS_in. intros task Hin. by apply booking_daily_task, Hl.
Qed.

Lemma booking_release settings now : booking (_release_matured_holds settings now).
Proof.
  apply (booking_reads (fun l => forall row, In row l -> ints row)).
  - intros s l s'. apply list_miners_ints.
  - preserve.
  - intros l Hl. apply booking_forS_in. intros miner Hin. specialize (Hl _ Hin). preserve.
Qed.
#[export] Hint Resolve booking_settle booking_settle_daily booking_release : preserves.

(** ** The windows *)

Lemma booking_window_task id now tasks_by_id members t :
  (forall t task, In (t, task) tasks_by_id -> a_dict task) -> booking (window_task id now tasks_by_id members t).
Proof.
  intros Hd. unfold window_task. destruct (aget t tasks_by_id) as [[|kv l]|] eqn:E; cbn [non_empty]; [preserve| |preserve].
  assert (a_dict (kv :: l)) by (eapply Hd; by apply aget_In). preserve.
Qed.

Lemma booking_build_window now tasks_by_id group :
  (forall t task, In (t, task) tasks_by_id -> a_dict task) -> booking (build_reward_window now tasks_by_id group).
Proof.
  intros Hd. pose proof (fun id members t => booking_window_task id now tasks_by_id members t Hd). preserve.
Qed.

Lemma tasks_by_id_in (l : list dict) keyed : forall tasks_by_id t task,
  mapR (fun task => let? k := task_key task in Ok (k, task)) l = Ok keyed ->
  In (t, task) (aupdate tasks_by_id keyed) -> In (t, task) tasks_by_id \/ In task l.
Proof.
  revert keyed. induction l as [|x l IH]; intros keyed tasks_by_id t task H Hin.
  { injection H as <-. by left. }
  simpl in H. apply rbind_ok in H as (kv & Hkv & H). apply rbind_ok in H as (rest & Hrest & H). injection H as <-.
  apply rbind_ok in Hkv as (k & _ & [= <-]).
  destruct (IH rest (aset k x tasks_by_id) t task Hrest Hin) as [Hset|Hl]; [|by right; right].
  apply In_aset in Hset as [[_ ->]|Hold]; [by right; left|by left].
Qed.

Lemma booking_windows now : booking (_build_reward_windows now).
Proof.
  apply (booking_reads (fun l => forall row, In row l -> a_dict row)).
  - intros s l s'. apply list_tasks_dicts.
  - preserve.
  - intros l Hl. apply booking_lift. intros groups _. apply booking_lift. intros keyed Hkeyed. cbv zeta.
    apply booking_forS_in. intros group _. apply booking_build_window. intros t task Hin.
    destruct (tasks_by_id_in _ _ _ _ _ Hkeyed Hin) as [[]|H]. by apply Hl.
Qed.
#[export] Hint Resolve booking_windows : preserves.

Lemma booking_poker_windows st now : booking (_build_poker_mtt_reward_windows st now).
Proof. preserve. Qed.
Lemma booking_batches now : booking (_build_settlement_batches now).
Proof. preserve. Qed.
Lemma booking_ranks : booking _refresh_public_ranks.
Proof. preserve. Qed.
#[export] Hint Resolve booking_poker_windows booking_batches booking_ranks : preserves.

(** ** The schedule *)

(** The tasks that a provider builds are dictionaries. *)
Definition provides_dicts (tp : option TaskProvider) : Prop :=
  forall provider now settings asset publish_at generated_at task, tp = Some provider ->
    provider_build_fast_task provider now settings asset publish_at generated_at = Ok task -> a_dict task.

Lemma fast_task_dict now settings asset p g task : build_fast_task now settings asset p g = Ok task -> a_dict task.
Proof.
  unfold build_fast_task. intros H. apply rbind_ok in H as (publish_at & _ & H).
  apply rbind_ok in H as ([[? ?] ?] & _ & H). apply rbind_ok in H as (pack_hash & _ & H). injection H as <-.
  unfold a_dict. nodup_keys.
Qed.

Lemma daily_task_dict now asset settings task : build_daily_anchor_task now asset settings = Ok task -> a_dict task.
Proof.
  unfold build_daily_anchor_task. intros H. apply rbind_ok in H as ([[? ?] ?] & _ & H).
  apply rbind_ok in H as (pack_hash & _ & H). injection H as <-. unfold a_dict. nodup_keys.
Qed.

Lemma booking_if_absent id task : (forall row, task = Ok row -> a_dict row) -> booking (publish_if_absent id task).
Proof.
  intros Hd. unfold publish_if_absent. booking_bind. booking_bind.
  match goal with |- preserves _ (match ?m with _ => _ end) => destruct m end; [preserve|].
  apply booking_lift. intros row Hrow. specialize (Hd row Hrow). preserve.
Qed.

Section Operations.
Context (self : ForecastMiningService) (Hprovides : provides_dicts (task_provider self)).

Lemma scheduled_dict asset publish_at generated_at task :
  _build_fast_task_for_schedule self asset publish_at generated_at = Ok task -> a_dict task.
Proof.
  unfold _build_fast_task_for_schedule. intros H. apply rbind_ok in H as (legacy & _ & H). cbv zeta in H.
  destruct (task_provider self) as [provider|] eqn:E; [|by eapply fast_task_dict].
  destruct (_ || _); [by eapply Hprovides|]. destruct (_ =? _); [by eapply Hprovides|by eapply fast_task_dict].
Qed.

Lemma booking_publish now : booking (publish_schedule self now).
Proof.
  unfold publish_schedule. booking_bind. apply preserves_sbind; [exact _| |intros _].
  - apply preserves_forS; [exact _|]. intros [publish_at generated_at]. apply preserves_forS; [exact _|]. intros asset.
    unfold publish_fast_task. booking_bind. booking_bind. apply booking_if_absent. intros row. apply scheduled_dict.
  - apply preserves_forS; [exact _|]. intros asset. unfold publish_daily_task.
    apply booking_lift. intros task Htask. booking_bind. apply booking_if_absent. intros row [= <-].
    by eapply daily_task_dict.
Qed.
#[local] Hint Resolve booking_publish : preserves.

Lemma booking_reconcile now : booking (reconcile self now).
Proof. preserve. Qed.
#[local] Hint Resolve booking_reconcile : preserves.

Lemma booking_refresh address ip ua now : booking (_refresh_miner_cluster address ip ua now).
Proof. preserve. Qed.
Lemma booking_build_poker_window settings lane st en (pool : Z) prov policy meta id now :
  booking (PokerWindow.build_poker_mtt_reward_window settings lane st en pool prov policy meta id now).
Proof. preserve. Qed.
Lemma booking_make_ready id now batch : booking (make_anchor_ready self id now batch).
Proof. preserve. Qed.
#[local] Hint Resolve booking_refresh booking_build_poker_window booking_make_ready : preserves.
Lemma booking_retry id now : booking (Anchors.retry_anchor_settlement_batch self id now).
Proof. preserve. Qed.
Lemma booking_submit id now : booking (Anchors.submit_anchor_job self id now).
Proof. preserve. Qed.
Lemma booking_settle_anchored job now : booking (settle_anchored job now).
Proof. preserve. Qed.
Lemma booking_settle_failed job reason now : booking (settle_failed job reason now).
Proof. preserve. Qed.
#[local] Hint Resolve booking_retry booking_submit booking_settle_anchored booking_settle_failed : preserves.
Lemma booking_broadcast mode id now : booking (broadcast_chain_tx self mode id now).
Proof. preserve. Qed.
Lemma booking_confirm_job job now : booking (confirm_job self job now).
Proof. preserve. Qed.
#[local] Hint Resolve booking_broadcast booking_confirm_job : preserves.
Lemma booking_roll a p e b now : booking (roll_multiplier a p e b now).
Proof. preserve. Qed.
Lemma booking_maturity a tasks e : booking (maturity_of a tasks e).
Proof. revert e. induction tasks as [|t tasks IH]; intros e; cbn [maturity_of]; preserve. Qed.
Lemma booking_commit t m rid h n at_ ip ua : booking (commit_submission t m rid h n at_ ip ua).
Proof. preserve. Qed.
Lemma booking_reveal st t m rid p nonce at_ ip ua : booking (Submissions.reveal_submission st t m rid p nonce at_ ip ua).
Proof. preserve. Qed.
#[local] Hint Resolve booking_roll booking_maturity booking_commit booking_reveal : preserves.

Lemma booking_register address name key version ip ua unit now :
  booking (Service.register_miner self address name key version ip ua unit now).
Proof.
  unfold Service.register_miner. do 7 booking_bind.
  apply preserves_sbind; [exact _| |preserve]. apply booking_register_row.
  intros k [<-|[<-|[]]]; reflexivity.
Qed.
#[local] Hint Resolve booking_register : preserves.

Lemma booking_pending now : booking (reconcile_pending_anchor_jobs_on_chain self now).
Proof. preserve. Qed.
End Operations.

#[export] Hint Resolve booking_reconcile booking_refresh booking_build_poker_window booking_make_ready booking_retry
  booking_submit booking_broadcast booking_confirm_job booking_roll booking_maturity booking_commit booking_reveal
  booking_register booking_pending : preserves.

Section Runs.
Context {Signature PublicKey : Type} (eth_keys : EthKeys Signature PublicKey)
  (ripemd160 : list Z -> res (list Z)) (str_exc : exn -> string) (app : App).
Hypothesis Hprovides : provides_dicts (task_provider (service app)).

Lemma booking_run now utc_now e request : booking (run eth_keys ripemd160 str_exc app now utc_now e request).
Proof. destruct e; cbn [run]; preserve. Qed.

Lemma reachable_books s : rtc (server_step eth_keys ripemd160 str_exc app) empty_repository s -> books_ok s.
Proof.
  intros H. apply (server_steps_preserve books eth_keys ripemd160 str_exc app) in H; [apply H|..].
  - split; [by intros a row|constructor|by split; [constructor|]|by intros id task].
  - apply booking_run.
  - intros now. by apply booking_reconcile.
  - intros now. by apply booking_pending.
Qed.
End Runs.

(** ** Theorems *)

Section Theorems.
Context {Signature PublicKey : Type} (eth_keys : EthKeys Signature PublicKey)
  (ripemd160 : list Z -> res (list Z)) (str_exc : exn -> string) (app : App).
Abbreviation rules := (settings (service app)).
Abbreviation provider := (task_provider (service app)).

(** C1: The settlement of an iteration, from any state that requests and iterations
    reach, keeps the books if it succeeds and the provider's tasks are dictionaries:
    the accounts of all miners grow by what the rewards of the submissions grow,
    plus what those it settles again had earned (the code pays these again).

    The settlement follows the publication of the schedule, as in [reconcile]; the
    provider's resolutions are arbitrary, and the range of the settings is not
    empty. *)
Theorem settlement_conserves_rewards s0 s s' now :
  min_p_yes_bps rules <= max_p_yes_bps rules -> provides_dicts provider ->
  rtc (server_step eth_keys ripemd160 str_exc app) empty_repository s0 ->
  publish_schedule (service app) now s0 = (Ok tt, s) ->
  _settle_due_tasks provider rules now s = (Ok tt, s') ->
  ledger s' - ledger s = rewarded s' - rewarded s + earned_before provider now s.
Proof.
  intros Hb Hd Hr Hp H. pose proof (reachable_ok _ _ _ _ Hb _ Hr) as Hok.
  pose proof (reachable_books _ _ _ _ Hd _ Hr) as Hbooks.
  assert (protocol_ok rules s) as Hok'.
  { assert (moving rules (publish_schedule (service app) now)) as Hm by preserve.
    specialize (Hm s0 Hok) as [Hm _]. by rewrite Hp in Hm. }
  pose proof (booking_publish _ Hd now s0 Hbooks) as Hbooks'. rewrite Hp in Hbooks'.
  apply (settlement_balances rules); [done|apply Hbooks'|apply Hbooks'|done].
Qed.
End Theorems.

(** ** A miner that is alone, paid by the server *)

Definition alone_revealed : FakeRepository :=
  asked 5000000 (run_reveal first_miner)
    (asked 1000000 (run_commit first_miner)
       (reconcile run_service 0 (asked 0 (run_register first_miner CryptoFacts.demo_key) empty_repository)).2).

Lemma alone_revealed_reachable : rtc demo_step empty_repository alone_revealed.
Proof.
  eapply rtc_l; [apply (asked_steps 0 (run_register first_miner CryptoFacts.demo_key))|].
  eapply rtc_l; [apply (progression_steps demo_keys demo_rip demo_text run_app 0)|].
  eapply rtc_l; [apply (asked_steps 1000000 (run_commit first_miner))|]. apply rtc_once, asked_steps.
Qed.

Lemma run_provides : provides_dicts (task_provider (service run_app)).
Proof. intros provider now st asset p g task [= <-]. apply fast_task_dict. Qed.

(** Two operations in a row that both return, and the books after each. *)
Definition two_runs (m1 m2 : repo unit) (s0 : FakeRepository) : res unit * res unit * Z * Z :=
  let p := m1 s0 in let q := m2 p.2 in (p.1, q.1, ledger p.2, ledger q.2).

Lemma two_runs_return m1 m2 s0 n n' :
  two_runs m1 m2 s0 = (Ok tt, Ok tt, n, n') ->
  exists s s', m1 s0 = (Ok tt, s) /\ m2 s = (Ok tt, s') /\ ledger s = n /\ ledger s' = n'.
Proof.
  unfold two_runs. destruct (m1 s0) as [r s]. simpl. destruct (m2 s) as [r' s'] eqn:E. simpl.
  intros [= -> -> <- <-]. by exists s, s'.
Qed.

Example alone_outcome :
  two_runs (publish_schedule (service run_app) 900000000)
    (_settle_due_tasks (task_provider (service run_app)) (settings (service run_app)) 900000000) alone_revealed =
  (Ok tt, Ok tt, 0, 101592).
Proof. vm_compute. reflexivity. Qed.

Lemma settlement_conserves_rewards_witness :
  exists s s', ledger s = 0 /\ ledger s' = 101592 /\
    ledger s' - ledger s = rewarded s' - rewarded s + earned_before (task_provider (service run_app)) 900000000 s.
Proof.
  pose proof alone_revealed_reachable as Hr. pose proof alone_outcome as H.
  generalize dependent alone_revealed. intros s0 Hr H.
  destruct (two_runs_return _ _ _ _ _ H) as (s & s' & Hp & Hs & Hl & Hl').
  exists s, s'. split; [exact Hl|]. split; [exact Hl'|].
  exact (settlement_conserves_rewards demo_keys demo_rip demo_text run_app s0 s s' 900000000
    ltac:(discriminate) run_provides Hr Hp Hs).
Defined.
