(* ===== verification/ProjectionRuns.v ===== *)
(** * Projections in runs of the server

    A projection that was recorded stays recorded, with its root and its result,
    whatever requests and loop iterations follow: the other artifacts stand under
    ids of other forms, another projection under another id, and the same id is
    answered without a write. *)
From Stdlib Require Import ZArith Lia Ascii String.
From stdpp Require Import base list strings relations.
From S2P Require Import Prelude PyText PyFloat PyTime PyValue Sha256 Canonical PokerResults HandHistory Repository RepositoryFacts.
From S2P Require Import HandStores Forecast RewardRows Json ChainClient Economic Miners Submissions Settlement Windows PokerWindow.
From S2P Require Import Tournaments TournamentRecords Queries Service Anchors Footprint Protocol Roots.
From S2P Require Import Config CryptoAuth Schemas Health Server ServerFacts ProjectionFacts ServerRuns Preserve Identity ProtocolRuns.
Open Scope Z_scope.

Section Kept.
Context (pid : string).
Abbreviation id0 := (_poker_mtt_final_ranking_projection_artifact_id pid).

(** What is recorded under the id stays recorded. *)
Definition records_kept (s s' : FakeRepository) : Prop :=
  forall root result, recorded s id0 root result -> recorded s' id0 root result.

#[export] Instance records_kept_preorder : PreOrder records_kept.
Proof. split; [by intros s root result|]. intros s1 s2 s3 H12 H23 root result H. by apply H23, H12. Qed.

Lemma same_row_kept s s' : aget id0 (tab _artifacts s') = aget id0 (tab _artifacts s) -> records_kept s s'.
Proof. intros E root result (row & payload & Hrow & H). exists row, payload. by rewrite E. Qed.
End Kept.

Abbreviation recording pid m := (preserves (records_kept pid) m).

Section Primitives.
Context (pid : string).
Abbreviation id0 := (_poker_mtt_final_ranking_projection_artifact_id pid).

Lemma recording_touches {A} W b (m : repo A) : touches W b m -> ~ In _artifacts W -> recording pid m.
Proof. intros Hm HW s. destruct (Hm s) as [Hu _]. apply same_row_kept. by rewrite Hu. Qed.

Lemma recording_put_row t id row : t <> _artifacts -> recording pid (put_row t id row).
Proof. intros Ht. apply (recording_touches [t] false); [apply touches_put_row; by left|]. by intros [E|[]]. Qed.

Lemma recording_save_submission row : recording pid (save_submission row).
Proof. apply (recording_touches _ _ _ (touches_save_submission row)). not_in. Qed.

Lemma recording_lift {A B} (r : res A) (f : A -> repo B) :
  (forall a, r = Ok a -> recording pid (f a)) -> recording pid (sbind (slift r) f).
Proof. intros Hf s. unfold sbind, slift. destruct r as [a|e]; [by apply Hf|]. simpl. reflexivity. Qed.

(** ** The artifacts *)

(** A row that is stored under another id. *)
Definition elsewhere (row : dict) : Prop := exists id, aget "id" row = Some (VStr id) /\ id <> id0.

Lemma recording_put_artifact id row : id <> id0 -> recording pid (put_row _artifacts id row).
Proof. intros Hid s. rewrite put_row_run. apply same_row_kept. simpl. by rewrite tab_set_tab_eq, aget_aset_ne. Qed.

Lemma recording_save_artifact row : elsewhere row -> recording pid (save_artifact row).
Proof.
  intros (id & Hid & Hne) s. unfold save_artifact, save_row. rewrite (save_keyed_run _ _ _ _ id) by done.
  apply same_row_kept. simpl. by rewrite tab_set_tab_eq, aget_aset_ne.
Qed.

Lemma recording_bulk l : Forall elsewhere l -> recording pid (save_artifacts_bulk l).
Proof.
  unfold save_artifacts_bulk. induction 1 as [|row l (id & Hid & Hne) _ IH]; simpl.
  { apply (preserves_pure _ (fun _ => Ok _)). }
  apply preserves_sbind; [exact _| |intros ?; apply preserves_sbind; [exact _|exact IH|preserve]].
  unfold dgetitem. rewrite Hid. apply recording_lift. intros v [= <-]. apply recording_lift. intros id' [= <-].
  pose proof (recording_put_artifact id). preserve.
Qed.

Lemma elsewhere_row id kind entity_type entity_id payload hash now :
  id <> id0 -> elsewhere (artifact_row id kind entity_type entity_id payload hash now).
Proof. intros Hid. by exists id. Qed.

Lemma elsewhere_pages prefix kind entity_type entity_id pages now rows :
  (forall x, prefix +:+ x <> id0) -> page_artifact_rows prefix kind entity_type entity_id pages now = Ok rows ->
  Forall elsewhere rows.
Proof.
  intros Hp H. apply mapR_ok in H. induction H as [|page row pages rows Hrow _ IH]; constructor; [|exact IH].
  apply rbind_ok in Hrow as (index & _ & Hrow).
  apply rbind_ok in Hrow as (text & _ & Hrow). apply rbind_ok in Hrow as (root & _ & Hrow). injection Hrow as <-.
  apply elsewhere_row, Hp.
Qed.

(** A main artifact with its pages. *)
Lemma recording_paged {B} row prefix kind entity_type entity_id pages now (f : list dict -> repo B) :
  elsewhere row -> (forall x, prefix +:+ x <> id0) -> (forall saved, recording pid (f saved)) ->
  recording pid (sbind (slift (page_artifact_rows prefix kind entity_type entity_id pages now))
    (fun page_rows => sbind (save_artifacts_bulk (row :: page_rows)) f)).
Proof.
  intros Hrow Hp Hf. apply recording_lift. intros rows Hrows. apply preserves_sbind; [exact _| |exact Hf].
  apply recording_bulk. constructor; [done|]. by eapply elsewhere_pages.
Qed.
End Primitives.

#[export] Hint Resolve recording_save_submission : preserves.
#[export] Hint Extern 1 (preserves (records_kept _) (put_row _ _ _)) => (apply recording_put_row; discriminate) : preserves.
#[export] Hint Extern 1 (preserves (records_kept _) (save_artifact (artifact_row _ _ _ _ _ _ _))) =>
  (apply recording_save_artifact, elsewhere_row; discriminate) : preserves.
#[export] Hint Extern 1 (preserves (records_kept _) (save_artifacts_bulk [artifact_row _ _ _ _ _ _ _])) =>
  (apply recording_bulk; constructor; [apply elsewhere_row; discriminate|constructor]) : preserves.

(** ** The operations *)

Section Operations.
Context (pid : string).
Abbreviation keeping m := (recording pid m).

Lemma keeping_anchor_artifact batch now pages : keeping (_upsert_settlement_anchor_artifact batch now pages).
Proof.
  unfold _upsert_settlement_anchor_artifact. cbv zeta. destruct (negb _); [preserve|].
  apply recording_lift. intros entity_id _. apply recording_lift. intros id _. apply recording_lift. intros hash _.
  apply recording_paged; [apply elsewhere_row; discriminate|intros x; discriminate|intros saved; preserve].
Qed.

Lemma keeping_poker_artifact settings w now payload :
  keeping (_upsert_poker_mtt_reward_window_projection_artifact settings w now payload).
Proof.
  unfold _upsert_poker_mtt_reward_window_projection_artifact. apply recording_lift. intros [payload' pages] _.
  apply recording_lift. intros entity_id _. apply recording_lift. intros id _. cbv zeta.
  apply recording_lift. intros hash _.
  apply recording_paged; [apply elsewhere_row; discriminate|intros x; discriminate|intros saved; preserve].
Qed.
#[local] Hint Resolve keeping_anchor_artifact keeping_poker_artifact : preserves.

Lemma keeping_settle_fast tp st now : keeping (_settle_due_tasks tp st now).
Proof. preserve. Qed.
Lemma keeping_settle_daily tp st now : keeping (_settle_due_daily_tasks tp st now).
Proof. preserve. Qed.
Lemma keeping_release st now : keeping (_release_matured_holds st now).
Proof. preserve. Qed.
Lemma keeping_windows now : keeping (_build_reward_windows now).
Proof. preserve. Qed.
#[local] Hint Resolve keeping_settle_fast keeping_settle_daily keeping_release keeping_windows : preserves.
Lemma keeping_poker_windows st now : keeping (_build_poker_mtt_reward_windows st now).
Proof. preserve. Qed.
Lemma keeping_batches now : keeping (_build_settlement_batches now).
Proof. preserve. Qed.
#[local] Hint Resolve keeping_poker_windows keeping_batches : preserves.
Lemma keeping_reconcile self now : keeping (reconcile self now).
Proof. preserve. Qed.
#[local] Hint Resolve keeping_reconcile : preserves.

Lemma keeping_build_window settings lane st en (pool : Z) prov policy meta id now :
  keeping (PokerWindow.build_poker_mtt_reward_window settings lane st en pool prov policy meta id now).
Proof. preserve. Qed.
Lemma keeping_make_ready self id now batch : keeping (make_anchor_ready self id now batch).
Proof. preserve. Qed.
#[local] Hint Resolve keeping_build_window keeping_make_ready : preserves.
Lemma keeping_retry self id now : keeping (Anchors.retry_anchor_settlement_batch self id now).
Proof. preserve. Qed.
Lemma keeping_submit self id now : keeping (Anchors.submit_anchor_job self id now).
Proof. preserve. Qed.
Lemma keeping_settle_anchored job now : keeping (settle_anchored job now).
Proof. preserve. Qed.
Lemma keeping_settle_failed job reason now : keeping (settle_failed job reason now).
Proof. preserve. Qed.
#[local] Hint Resolve keeping_retry keeping_submit keeping_settle_anchored keeping_settle_failed : preserves.
Lemma keeping_broadcast self mode id now : keeping (broadcast_chain_tx self mode id now).
Proof. preserve. Qed.
Lemma keeping_confirm_job self job now : keeping (confirm_job self job now).
Proof. preserve. Qed.
#[local] Hint Resolve keeping_broadcast keeping_confirm_job : preserves.
Lemma keeping_roll a p e b now : keeping (roll_multiplier a p e b now).
Proof. preserve. Qed.
Lemma keeping_maturity a tasks e : keeping (maturity_of a tasks e).
Proof. revert e. induction tasks as [|t tasks IH]; intros e; cbn [maturity_of]; preserve. Qed.
Lemma keeping_commit t m rid h n at_ ip ua : keeping (commit_submission t m rid h n at_ ip ua).
Proof. preserve. Qed.
Lemma keeping_reveal st t m rid p nonce at_ ip ua : keeping (Submissions.reveal_submission st t m rid p nonce at_ ip ua).
Proof. preserve. Qed.
Lemma keeping_pending self now : keeping (reconcile_pending_anchor_jobs_on_chain self now).
Proof. preserve. Qed.
#[local] Hint Resolve keeping_roll keeping_maturity keeping_commit keeping_reveal keeping_pending : preserves.

(** ** The projection itself *)

(** A projection under another id writes under that id; under the same id, what
    is recorded is answered, and a new record is the first. *)
Lemma keeping_record payload : pr_projection_id payload <> pid -> keeping (record_projection payload).
Proof.
  intros Hne. unfold record_projection.
  do 3 (apply preserves_sbind; [exact _|preserve|intros ?]). cbv zeta.
  apply preserves_sbind; [exact _|preserve|intros hash].
  apply preserves_sbind; [exact _| |preserve]. apply recording_save_artifact.
  exists (projection_id payload). split; [done|]. unfold projection_id, _poker_mtt_final_ranking_projection_artifact_id.
  simpl. intros E. injection E as E. done.
Qed.

Lemma keeping_project payload : keeping (Server.project_poker_mtt_final_rankings payload).
Proof.
  destruct (decide (pr_projection_id payload = pid)) as [<-|Hne].
  - intros s root result H. pose proof (replay payload s root result H) as E. rewrite E. by destruct (String.eqb _ _).
  - pose proof (keeping_record payload Hne). preserve.
Qed.
#[local] Hint Resolve keeping_project : preserves.

(** ** Runs *)

Context {Signature PublicKey : Type} (eth_keys : EthKeys Signature PublicKey)
  (ripemd160 : list Z -> res (list Z)) (str_exc : exn -> string) (app : App).

Lemma keeping_run now utc_now e request : keeping (run eth_keys ripemd160 str_exc app now utc_now e request).
Proof. destruct e; cbn [run]; preserve. Qed.

Lemma steps_keep_records s s' : rtc (server_step eth_keys ripemd160 str_exc app) s s' -> records_kept pid s s'.
Proof.
  apply server_steps_preserve; [exact _|apply keeping_run| |].
  - intros now. apply keeping_reconcile.
  - intros now. apply keeping_pending.
Qed.
End Operations.

(** ** Theorem *)

(** C27: A projection is recorded once.  After a request has been answered with a
    result, and whatever requests and loop iterations came in between, a request
    with the same projection id is answered without a write: with the same result
    when it states the same root, and with the conflict 409 when it states another. *)
Theorem projections_are_recorded_once {Signature PublicKey : Type} (eth_keys : EthKeys Signature PublicKey)
    ripemd160 str_exc (app : App) payload payload' s s1 s2 result :
  project_poker_mtt_final_rankings payload s = (Ok result, s1) ->
  rtc (server_step eth_keys ripemd160 str_exc app) s1 s2 ->
  pr_projection_id payload' = pr_projection_id payload ->
  project_poker_mtt_final_rankings payload' s2 =
  if String.eqb (pr_final_ranking_root payload) (pr_final_ranking_root payload') then (Ok result, s2)
  else (Err (HTTPException 409 "projection root conflict"), s2).
Proof.
  intros H Hsteps Hid. apply replay. unfold projection_id. rewrite Hid.
  apply (steps_keep_records _ _ _ _ _ _ _ Hsteps). exact (projected_recorded _ _ _ _ H).
Qed.

(** ** A projection, an iteration of the loop, and the projection again *)

Definition demo_later : FakeRepository := (reconcile (service run_app) 900000000 demo_projected.2).2.

Lemma projections_are_recorded_once_witness :
  project_poker_mtt_final_rankings (demo_request "sha256:a") demo_miners = (Ok demo_result, demo_projected.2) /\
  project_poker_mtt_final_rankings (demo_request "sha256:a") demo_later = (Ok demo_result, demo_later) /\
  project_poker_mtt_final_rankings (demo_request "sha256:b") demo_later =
    (Err (HTTPException 409 "projection root conflict"), demo_later).
Proof.
  assert (Hok : is_ok demo_projected.1 = true) by (vm_compute; reflexivity).
  assert (H : project_poker_mtt_final_rankings (demo_request "sha256:a") demo_miners = (Ok demo_result, demo_projected.2)).
  { fold demo_projected. unfold demo_result. destruct demo_projected as [[v|e] s]; [reflexivity|discriminate Hok]. }
  assert (Hsteps : rtc demo_step demo_projected.2 demo_later) by (apply rtc_once, progression_steps).
  split; [exact H|]. generalize dependent demo_later. intros later Hsteps. split.
  - exact (projections_are_recorded_once demo_keys demo_rip demo_text run_app (demo_request "sha256:a")
      (demo_request "sha256:a") _ _ _ _ H Hsteps eq_refl).
  - exact (projections_are_recorded_once demo_keys demo_rip demo_text run_app (demo_request "sha256:a")
      (demo_request "sha256:b") _ _ _ _ H Hsteps eq_refl).
Defined.
