(* ===== verification/Mine.v ===== *)
(** * The miner's client ([skill/scripts/mine.py])

    A round of the client: it reads the open tasks, predicts, commits, waits and
    reveals.  The server is a record of what the code uses of [requests], over a
    state of its own; the clock, the random tokens, the environment, the signing
    library and the process of the Codex predictor are arguments, and the log
    file is part of the state.  What is printed and slept is left out, and the
    workers of a pool run one after another, in the order they are submitted. *)
From Stdlib Require Import ZArith Lia Ascii String.
From stdpp Require Import base list strings.
From S2P Require Import Prelude PyText PyFloat PyTime PyValue Canonical Forecast Miners CryptoAuth.
Open Scope Z_scope.

(** ** What the client uses of the outside *)

Record HttpResponse := { status_code : Z; json : res value }.

Record Requests (W : Type) := {
  requests_get : string -> float -> st W HttpResponse;
  requests_post : string -> dict -> float -> st W HttpResponse
}.
Arguments requests_get {W} _ _ _.
Arguments requests_post {W} _ _ _ _.

(** [PrivateKey(b).public_key.to_bytes()] and [PrivateKey(b).sign_msg_hash(h).to_bytes()]. *)
Record PrivateKeys := {
  public_key_of : list Z -> res (list Z);
  sign_msg_hash : list Z -> list Z -> res (list Z)
}.

Record CompletedProcess := { returncode : Z; stdout : string; stderr : string }.

Record Wallet := { address : string; private_key : string }.

(** The state of a run: the server, the log file (what [json.load] makes of it),
    and how often the clock and the source of tokens were read. *)
Record World (W : Type) := {
  remote : W;
  log_file : option (res value);
  clock_reads : nat;
  tokens_drawn : nat
}.
Arguments remote {W} _.
Arguments log_file {W} _.
Arguments clock_reads {W} _.
Arguments tokens_drawn {W} _.

Definition MINER_VERSION : string := "0.4.0".
Definition DEFAULT_CODEX_MODEL : string := "gpt-5.4-mini".
Definition DEFAULT_CODEX_TIMEOUT_SECONDS : Z := 120.
Definition DEFAULT_CODEX_PARALLEL_TASKS : Z := 2.
Definition DEFAULT_REQUEST_TIMEOUT_SECONDS : Z := 35.
Definition DEFAULT_CODEX_MIN_COMMIT_TIME_REMAINING_SECONDS : Z := 90.
Definition DEFAULT_MIN_COMMIT_TIME_REMAINING_SECONDS : Z := 1.

(** [v[k]] of a parsed body *)
Definition subscript (v : value) (k : string) : res value :=
  match v with VDict d => dgetitem d k | _ => Err TypeError end.

(** [resp.raise_for_status()] *)
Definition raise_for_status (resp : HttpResponse) : res unit :=
  guard (negb ((400 <=? status_code resp) && (status_code resp <? 600))) (HTTPStatusError (status_code resp)).

(** [str(config.get("forecast_mode") or "heuristic_v1").strip()] *)
Definition forecast_mode (config : dict) : res string :=
  let? mode := py_str (por (dget config "forecast_mode") (VStr "heuristic_v1")) in
  Ok (str_strip mode).

Definition parse_time (v : value) : res Z :=
  match v with VStr s => parse_iso s | _ => Err AttributeError end.

Definition commit_time_remaining_seconds (task : dict) (now : Z) : res float :=
  let? deadline := dgetitem task "commit_deadline" in
  let? deadline := parse_time deadline in
  seconds_between deadline now.

(** ** The heuristic prediction *)

(** [int(n * 0.10)] *)
Definition weighted (n : Z) (weight : float) : res Z :=
  let? x := float_of_int n in f_trunc (fmul x weight).

Definition volume_skew (yes_volume no_volume : Z) : res float :=
  if 0 <? yes_volume + no_volume then int_truediv (yes_volume - no_volume) (yes_volume + no_volume) else Ok fzero.

Definition imbalance (binance : dict) : value :=
  dget_or binance "depth_imbalance_bps" (dget_or binance "imbalance_bps" (VInt 0)).

Definition compute_heuristic_prediction (task : dict) : res dict :=
  let? baseline := (let? v := dgetitem task "baseline_q_bps" in py_int v) in
  let? pack := (let? v := dgetitem task "pack_json" in as_dict v) in
  let binance := dget_or pack "binance_snapshot" (VDict []) in
  let polymarket := dget_or pack "polymarket_snapshot" (VDict []) in
  let? binance := as_dict binance in
  let? depth_imbalance := py_int (imbalance binance) in
  let? trade_imbalance := py_int (dget_or binance "trade_imbalance_bps" (VInt 0)) in
  let? micro_move := py_float (dget_or binance "micro_move_bps" (VInt 0)) in
  let? polymarket := as_dict polymarket in
  let? yes_volume := py_int (dget_or polymarket "yes_volume" (VInt 0)) in
  let? no_volume := py_int (dget_or polymarket "no_volume" (VInt 0)) in
  let? skew := volume_skew yes_volume no_volume in
  let? pm_q_yes := py_int (dget_or polymarket "q_yes_bps" (VInt baseline)) in
  let pm_edge := pm_q_yes - baseline in
  let? depth := weighted depth_imbalance (flit 10 2) in
  let? trade := weighted trade_imbalance (flit 8 2) in
  let? micro := f_trunc (fmul micro_move (f_of_Z 20)) in
  let? volume := f_trunc (fmul skew (f_of_Z 500)) in
  let? edge := weighted pm_edge (flit 20 2) in
  let raw := baseline + depth + trade + micro + volume + edge in
  Ok [("p_yes_bps", VInt (clamp_bps raw default_settings));
      ("provider", VStr "heuristic_v1");
      ("model", VNone);
      ("reason", VStr "weighted blend of baseline, microstructure, and Polymarket edge")].

(** ** The Codex prediction *)

(** [1 if value >= threshold else -1 if value <= -threshold else 0] *)
Definition directional_vote (v threshold minus_threshold : value) : res Z :=
  let? up := py_le threshold v in
  if up then Ok 1 else let? down := py_le v minus_threshold in Ok (if down then -1 else 0).
Definition int_vote (n threshold : Z) : res Z := directional_vote (VInt n) (VInt threshold) (VInt (- threshold)).
Definition float_vote (x threshold : float) : res Z := directional_vote (VFloat x) (VFloat threshold) (VFloat (fneg threshold)).

Record signal_calibration := {
  spread_bps : float;
  volume24hr_clob : float;
  liquidity_clob : float;
  micro_move_bps : float;
  depth_imbalance_bps : Z;
  trade_imbalance_bps : Z;
  pm_q_yes_bps : Z;
  pm_book_is_thin : bool;
  flat_price_action : bool;
  one_sided_binance_flow : bool;
  pm_direction_vote : Z;
  price_direction_vote : Z;
  depth_direction_vote : Z;
  trade_direction_vote : Z
}.

Definition pm_signal_reliability (c : signal_calibration) : string := if pm_book_is_thin c then "low" else "normal".

(** [float(d.get(k) or 0.0)] *)
Definition float_or_zero (d : dict) (k : string) : res float := py_float (por (dget d k) (VFloat fzero)).

Definition build_signal_calibration (task : dict) : res signal_calibration :=
  let? pack := as_dict (dget_or task "pack_json" (VDict [])) in
  let polymarket := dget_or pack "polymarket_snapshot" (VDict []) in
  let binance := dget_or pack "binance_snapshot" (VDict []) in
  let? polymarket := as_dict polymarket in
  let? spread := float_or_zero polymarket "spread_bps" in
  let? volume24hr := float_or_zero polymarket "volume24hr_clob" in
  let? liquidity := float_or_zero polymarket "liquidity_clob" in
  let? binance := as_dict binance in
  let? micro := float_or_zero binance "micro_move_bps" in
  let? depth := py_int (por (imbalance binance) (VInt 0)) in
  let? trade := py_int (por (dget binance "trade_imbalance_bps") (VInt 0)) in
  let thin := fleb (f_of_Z 5000) spread || fltb volume24hr (f_of_Z 100) || fltb liquidity (f_of_Z 25000) in
  let? pm_q_yes := py_int (por (dget polymarket "q_yes_bps") (por (dget task "baseline_q_bps") (VInt 5000))) in
  let? pm_vote := (if thin then Ok 0 else int_vote (pm_q_yes - 5000) 150) in
  let? price_vote := float_vote micro (flit 15 1) in
  let? depth_vote := int_vote depth 2500 in
  let? trade_vote := int_vote trade 2500 in
  Ok {| spread_bps := spread; volume24hr_clob := volume24hr; liquidity_clob := liquidity; micro_move_bps := micro;
        depth_imbalance_bps := depth; trade_imbalance_bps := trade; pm_q_yes_bps := pm_q_yes; pm_book_is_thin := thin;
        flat_price_action := fleb (fabs micro) fone;
        one_sided_binance_flow := (5000 <=? Z.abs depth) || (5000 <=? Z.abs trade);
        pm_direction_vote := pm_vote; price_direction_vote := price_vote; depth_direction_vote := depth_vote;
        trade_direction_vote := trade_vote |}.

(** [json.dumps(payload, ensure_ascii=False, separators=(",", ":"))] *)
Definition json_raw_char (c : ascii) : list ascii := if 127 <=? code c then [c] else json_escape c.
Definition json_raw_string (s : string) : list ascii := quote :: concat (map json_raw_char (chars s)) ++ [quote].
Fixpoint json_dumps_raw (v : value) : res (list ascii) :=
  match v with
  | VStr s => Ok (json_raw_string s)
  | VList l =>
      let? l := mapR json_dumps_raw l in
      Ok ("["%char :: comma_join l ++ ["]"%char])
  | VDict d =>
      let? l := mapR (fun kv => let? s := kv.2 in Ok (json_raw_string kv.1 ++ ":"%char :: s))
                     (map (fun kv => (kv.1, json_dumps_raw kv.2)) d) in
      Ok ("{"%char :: comma_join l ++ ["}"%char])
  | _ => json_dumps v
  end.

Definition fields_of (ks : list string) (d : dict) : dict := map (fun k => (k, dget d k)) ks.

Definition guidance : string :=
  "If Polymarket is thin and price action is flat, stay closer to 5000 unless multiple signals align. " +:+
  "If Polymarket is not thin and at least two signals agree, larger moves away from 5000 are allowed.".

(** The seconds between [publish_at] and [resolve_at], where both are given. *)
Definition short_horizon_seconds (task : dict) : res value :=
  if truthy (dget task "resolve_at") && truthy (dget task "publish_at") then
    let? resolve_at := parse_time (dget task "resolve_at") in
    let? publish_at := parse_time (dget task "publish_at") in
    let? seconds := seconds_between resolve_at publish_at in
    let? n := f_trunc (fmax fzero seconds) in
    Ok (VInt n)
  else Ok VNone.

Definition codex_payload (task : dict) : res dict :=
  let? calibration := build_signal_calibration task in
  let? pack := as_dict (dget_or task "pack_json" (VDict [])) in
  let? polymarket := as_dict (dget_or pack "polymarket_snapshot" (VDict [])) in
  let? binance := as_dict (dget_or pack "binance_snapshot" (VDict [])) in
  let? horizon := short_horizon_seconds task in
  Ok (fields_of ["task_run_id"; "asset"; "publish_at"; "commit_deadline"; "reveal_deadline"; "resolve_at"; "baseline_q_bps"] task ++
      fields_of ["snapshot_source"; "snapshot_frozen_at"] pack ++
      [("polymarket_snapshot", VDict (fields_of ["question"; "slug"; "positive_outcome"; "q_yes_bps"; "best_bid"; "best_ask";
          "spread_bps"; "volume24hr_clob"; "liquidity_clob"] polymarket));
       ("binance_snapshot", VDict (fields_of ["best_bid"; "best_ask"; "mid_price"; "micro_price"] binance ++
          [("micro_move_bps", VFloat (micro_move_bps calibration));
           ("depth_imbalance_bps", VInt (depth_imbalance_bps calibration));
           ("trade_imbalance_bps", VInt (trade_imbalance_bps calibration))] ++
          fields_of ["top_bid_notional"; "top_ask_notional"] binance))] ++
      fields_of ["market_context"; "noisy_fragments"] pack ++
      [("signal_calibration", VDict
          [("short_horizon_seconds", horizon);
           ("pm_book_is_thin", VBool (pm_book_is_thin calibration));
           ("pm_signal_reliability", VStr (pm_signal_reliability calibration));
           ("flat_price_action", VBool (flat_price_action calibration));
           ("one_sided_binance_flow", VBool (one_sided_binance_flow calibration));
           ("pm_direction_vote", VInt (pm_direction_vote calibration));
           ("price_direction_vote", VInt (price_direction_vote calibration));
           ("depth_direction_vote", VInt (depth_direction_vote calibration));
           ("trade_direction_vote", VInt (trade_direction_vote calibration));
           ("guidance", VStr guidance)]);
       ("output_requirements", VDict
          [("p_yes_bps_range", VList [VInt 1500; VInt 8500]);
           ("return_fields", VList [VStr "p_yes_bps"; VStr "reason"; VStr "confidence"])])]).

Definition _codex_user_prompt (task : dict) : res string :=
  let? payload := codex_payload task in
  let? text := json_dumps_raw (VDict payload) in
  Ok (of_chars text).

Definition _codex_prompt (system_prompt user_prompt : string) : string :=
  str_join (of_chars [newline]) ["SYSTEM:"; str_strip system_prompt; ""; "USER:"; str_strip user_prompt; "";
    "Return only JSON that satisfies the provided schema."].

Definition _codex_system_prompt : string :=
  "You are an AI crypto prediction miner. " +:+
  "Estimate the probability, in basis points, that the positive Polymarket outcome will resolve true " +:+
  "by the end of the current short-horizon market window. " +:+
  "Use the frozen Binance and Polymarket snapshots as your only evidence. " +:+
  "thin or wide Polymarket books are weak evidence, but do not ignore them completely. " +:+
  "Do not swing far from 5000 based on Binance flow alone when price action is flat or signals disagree. " +:+
  "When Polymarket is not thin and at least two independent signals align, larger moves away from 5000 are acceptable. " +:+
  "Only move decisively away from 5000 when multiple signals align. " +:+
  "Prefer calibrated probabilities over bold directional calls. " +:+
  "Do not copy the market midpoint mechanically; produce an independent estimate. " +:+
  "Output exactly one JSON object with p_yes_bps and reason.".

(** What the profile of aggression makes of the votes: the tier and its cap. *)
Definition aggression (confidence : float) (aligned conflicting : Z) (c : signal_calibration) : string * Z :=
  let '(tier, cap) :=
    if fleb (flit 80 2) confidence && (3 <=? aligned) && (conflicting =? 0) && negb (pm_book_is_thin c) then ("high", 1400)
    else if fleb (flit 65 2) confidence && (2 <=? aligned) && (conflicting <=? 1) &&
            negb (pm_book_is_thin c && flat_price_action c) then ("medium", 800)
    else ("low", 300) in
  let '(tier, cap) := if flat_price_action c && (aligned <? 2) then ("low", Z.min cap 300) else (tier, cap) in
  let '(tier, cap) := if pm_book_is_thin c && (aligned <? 3) then ("low", Z.min cap 300) else (tier, cap) in
  if 2 <=? conflicting then ("low", Z.min cap 250) else (tier, cap).

Definition votes_for (direction : Z) (votes : list Z) : Z := Z.of_nat (length (List.filter (Z.eqb direction) votes)).

Definition aggression_fields (tier : string) (cap aligned conflicting : value) : dict :=
  [("aggression_tier", VStr tier); ("aggression_cap_bps", cap); ("aligned_signal_count", aligned);
   ("conflicting_signal_count", conflicting)].

Definition apply_codex_aggression_profile (task prediction : dict) : res dict :=
  let? p_yes_bps := (let? v := dgetitem prediction "p_yes_bps" in py_int v) in
  if is_none (dget prediction "confidence")
  then Ok (dupdate prediction (aggression_fields "uncalibrated" VNone VNone VNone))
  else
    let? direction := int_vote (p_yes_bps - 5000) 1 in
    if direction =? 0
    then Ok (dupdate prediction (aggression_fields "neutral" (VInt 0) (VInt 0) (VInt 0)))
    else
      let? c := build_signal_calibration task in
      let? confidence := py_float (por (dget prediction "confidence") (VFloat (flit 5 1))) in
      let votes := [pm_direction_vote c; price_direction_vote c; depth_direction_vote c; trade_direction_vote c] in
      let aligned := votes_for direction votes in
      let conflicting := votes_for (- direction) votes in
      let '(tier, cap) := aggression confidence aligned conflicting c in
      let centered_move_bps := Z.min (Z.abs (p_yes_bps - 5000)) cap in
      Ok (dupdate (dset prediction "p_yes_bps" (VInt (5000 + direction * centered_move_bps)))
            (aggression_fields tier (VInt cap) (VInt aligned) (VInt conflicting))).

Section Predictions.
Context (getenv : string -> option string).
(** [subprocess.run] of a command with its input and timeout, with what
    [json.load] makes of the output file; the root of the repository and the
    names of the two temporary files. *)
Context (codex_exec : list string -> string -> Z -> res (CompletedProcess * res value)) (root schema_path output_path : string).

(** [str(config.get(k) or os.getenv(name) or dflt).strip() or dflt] *)
Definition text_setting (config : dict) (k name dflt : string) : res string :=
  let? text := py_str (por (dget config k) (por (vopt_str (getenv name)) (VStr dflt))) in
  let text := str_strip text in
  Ok (if String.eqb text "" then dflt else text).

Definition codex_command (binary model working_dir : string) : list string :=
  [binary; "exec"; "--skip-git-repo-check"; "--ephemeral"; "--sandbox"; "read-only"; "-m"; model; "-C"; working_dir;
   "--output-schema"; schema_path; "-o"; output_path; "-"].

Definition codex_failure (completed : CompletedProcess) : exn :=
  let out := str_strip (stdout completed) in
  let err := str_strip (stderr completed) in
  let detail := if negb (String.eqb err "") then err else if negb (String.eqb out "") then out else "unknown codex error" in
  RuntimeError ("codex exec failed: " +:+ detail).

(** What is read from the answer of the process. *)
Definition codex_result (model : string) (payload : value) : res dict :=
  match payload with
  | VDict payload =>
      let? p_yes_bps := match (let? v := dgetitem payload "p_yes_bps" in py_int v) with
                        | Err (KeyError _) | Err TypeError | Err (ValueError _) =>
                            Err (RuntimeError "codex output missing integer p_yes_bps")
                        | r => r end in
      let? reason := str_or_empty (dget payload "reason") in
      let reason := str_strip reason in
      let? _ := guard (negb (String.eqb reason "")) (RuntimeError "codex output missing reason") in
      let result := [("p_yes_bps", VInt p_yes_bps); ("provider", VStr "codex_cli"); ("model", VStr model); ("reason", VStr reason)] in
      if is_none (dget payload "confidence") then Ok result
      else match py_float (dget payload "confidence") with
           | Ok confidence => Ok (dset result "confidence" (VFloat confidence))
           | Err TypeError | Err (ValueError _) => Ok result
           | Err e => Err e
           end
  | _ => Err (RuntimeError "codex output was not a JSON object")
  end.

Definition compute_codex_prediction (task config : dict) : res dict :=
  let? binary := text_setting config "codex_binary" "CODEX_BINARY" "codex" in
  let? model := text_setting config "codex_model" "CODEX_MODEL" DEFAULT_CODEX_MODEL in
  let? working_dir := py_str (por (dget config "codex_working_dir") (VStr root)) in
  let? timeout_seconds := py_int (por (dget config "codex_timeout_seconds")
    (por (vopt_str (getenv "CODEX_TIMEOUT_SECONDS")) (VInt DEFAULT_CODEX_TIMEOUT_SECONDS))) in
  let? user_prompt := _codex_user_prompt task in
  let? (completed, output) := codex_exec (codex_command binary model working_dir)
    (_codex_prompt _codex_system_prompt user_prompt) timeout_seconds in
  let? _ := guard (returncode completed =? 0) (codex_failure completed) in
  let? payload := output in
  codex_result model payload.

Definition compute_prediction (task config : dict) : res dict :=
  let? mode := forecast_mode config in
  let? prediction :=
    if String.eqb mode "codex_v1" then
      let? prediction := compute_codex_prediction task config in apply_codex_aggression_profile task prediction
    else compute_heuristic_prediction task in
  let? p_yes_bps := (let? v := dgetitem prediction "p_yes_bps" in py_int v) in
  Ok (dset prediction "p_yes_bps" (VInt (clamp_bps p_yes_bps default_settings))).

(** ** Settings of a round *)

Definition resolve_request_timeout (config : dict) : res float :=
  let raw_timeout := por (dget config "request_timeout_seconds")
    (por (vopt_str (getenv "CLAWCHAIN_MINER_REQUEST_TIMEOUT_SECONDS")) (VInt DEFAULT_REQUEST_TIMEOUT_SECONDS)) in
  let? timeout_seconds := match py_float raw_timeout with
                          | Err TypeError | Err (ValueError _) => Ok (f_of_Z DEFAULT_REQUEST_TIMEOUT_SECONDS)
                          | r => r end in
  Ok (fmax (flit 1 1) timeout_seconds).

Definition resolve_min_commit_time_remaining (config : dict) : res Z :=
  let configured := dget config "min_commit_time_remaining_seconds" in
  let from_env := vopt_str (getenv "CLAWCHAIN_MINER_MIN_COMMIT_TIME_REMAINING_SECONDS") in
  if negb (is_none configured) then let? n := py_int configured in Ok (Z.max 0 n)
  else if truthy from_env then let? n := py_int from_env in Ok (Z.max 0 n)
  else
    let? mode := forecast_mode config in
    Ok (if String.eqb mode "codex_v1" then DEFAULT_CODEX_MIN_COMMIT_TIME_REMAINING_SECONDS
        else DEFAULT_MIN_COMMIT_TIME_REMAINING_SECONDS).
End Predictions.

(** [l[:limit]] *)
Definition slice {A} (limit : value) (l : list A) : res (list A) :=
  match limit with
  | VInt n => Ok (py_take n l)
  | VBool b => Ok (py_take (if b then 1 else 0) l)
  | VNone => Ok l
  | _ => Err TypeError
  end.

Definition in_lane (lane : string) (tasks : list dict) : res (list dict) :=
  filterR (fun task => let? v := dgetitem task "lane" in Ok (py_eq_str v lane)) tasks.

Definition select_tasks_for_iteration (tasks : list dict) (max_fast_tasks : value) (include_daily : bool) : res (list dict) :=
  let? daily_tasks := in_lane "daily_anchor" tasks in
  let? fast_tasks := in_lane "forecast_15m" tasks in
  let? first := slice max_fast_tasks fast_tasks in
  Ok (if include_daily then daily_tasks ++ first else first).

Definition resolve_parallel_tasks (config : dict) (max_fast_tasks : value) (explicit_parallel_tasks : option Z) : res Z :=
  match explicit_parallel_tasks with
  | Some n => Ok (Z.max 1 n)
  | None =>
      if negb (is_none (dget config "parallel_tasks"))
      then let? n := py_int (dget config "parallel_tasks") in Ok (Z.max 1 n)
      else
        let? mode := forecast_mode config in
        if String.eqb mode "codex_v1"
        then let? n := py_int (por max_fast_tasks (VInt 1)) in Ok (Z.max 1 (Z.min n DEFAULT_CODEX_PARALLEL_TASKS))
        else Ok 1
  end.

(** ** Rounds *)

Section Client.
Context {W : Type} (requests : Requests W) (eth_keys : PrivateKeys) (getenv : string -> option string)
  (codex_exec : list string -> string -> Z -> res (CompletedProcess * res value)) (root schema_path output_path : string).
(** The readings of the clock, and the tokens: [secrets.token_hex(n)] for the k-th draw. *)
Context (clock : nat -> Z) (token_hex : nat -> Z -> string).

Abbreviation client A := (st (World W) A).

Definition utc_now : client Z :=
  fun w => (Ok (clock (clock_reads w)),
            {| remote := remote w; log_file := log_file w; clock_reads := S (clock_reads w); tokens_drawn := tokens_drawn w |}).

Definition draw_token (n : Z) : client string :=
  fun w => (Ok (token_hex (tokens_drawn w) n),
            {| remote := remote w; log_file := log_file w; clock_reads := clock_reads w; tokens_drawn := S (tokens_drawn w) |}).

Definition on_remote {A} (m : st W A) : client A :=
  fun w => let '(r, s) := m (remote w) in
           (r, {| remote := s; log_file := log_file w; clock_reads := clock_reads w; tokens_drawn := tokens_drawn w |}).

(** [try: m  except Exception: fallback] *)
Definition or_else {A} (m : client A) (fallback : A) : client A :=
  fun w => match m w with
           | (Err (Unmodelled what), w') => (Err (Unmodelled what), w')
           | (Err _, w') => (Ok fallback, w')
           | r => r
           end.

Definition derive_public_key (private_key_hex : string) : res string :=
  let? key := fromhex private_key_hex in
  let? bytes := public_key_of eth_keys key in
  Ok (hex_bytes bytes).

Definition sign_parts (private_key_hex : string) (parts : list string) : res string :=
  let? key := fromhex private_key_hex in
  let? signature := sign_msg_hash eth_keys key (build_signature_hash parts) in
  Ok (hex_bytes signature).

(** *** Requests *)

Definition get (config : dict) (url : string) : client HttpResponse :=
  let*? timeout := resolve_request_timeout getenv config in on_remote (requests_get requests url timeout).
Definition post (config : dict) (url : string) (body : dict) : client HttpResponse :=
  let*? timeout := resolve_request_timeout getenv config in on_remote (requests_post requests url body timeout).

Definition check_miner_registered (rpc_url address : string) (config : dict) : client bool :=
  or_else (let* resp := get config (rpc_url +:+ "/clawchain/miner/" +:+ address) in sret (status_code resp =? 200)) false.

Definition auto_register (rpc_url : string) (wallet : Wallet) (name : value) (config : dict) : client bool :=
  let*? public_key := derive_public_key (private_key wallet) in
  or_else
    (let* resp := post config (rpc_url +:+ "/clawchain/miner/register")
       [("address", VStr (address wallet)); ("name", name); ("public_key", VStr public_key);
        ("miner_version", VStr MINER_VERSION)] in
     if status_code resp =? 409 then sret true
     else let*? _ := raise_for_status resp in sret true) false.

(** The body of an answer that is no error. *)
Definition body_of (resp : HttpResponse) : res value := let? _ := raise_for_status resp in json resp.

Definition get_active_tasks (rpc_url : string) (config : dict) : client value :=
  or_else
    (let* resp := get config (rpc_url +:+ "/v1/task-runs/active") in
     slift (let? body := body_of resp in let? data := subscript body "data" in subscript data "items")) (VList []).

Definition get_task_detail (rpc_url : string) (task_run_id : value) (config : dict) : client value :=
  or_else
    (let*? id := py_str task_run_id in
     let* resp := get config (rpc_url +:+ "/v1/forecast/task-runs/" +:+ id) in
     slift (let? body := body_of resp in subscript body "data")) VNone.

(** [{"already": True, **resp.json()}] for 409, and the body of an answer that is no error. *)
Definition posted (resp : HttpResponse) : res value :=
  if status_code resp =? 409
  then let? body := json resp in
       match body with VDict d => Ok (VDict (dupdate [("already", VBool true)] d)) | _ => Err TypeError end
  else body_of resp.

Definition post_commit (rpc_url task_run_id : string) (payload config : dict) : client value :=
  let* resp := post config (rpc_url +:+ "/v1/task-runs/" +:+ task_run_id +:+ "/commit") payload in slift (posted resp).
Definition post_reveal (rpc_url task_run_id : string) (payload config : dict) : client value :=
  let* resp := post config (rpc_url +:+ "/v1/task-runs/" +:+ task_run_id +:+ "/reveal") payload in slift (posted resp).

(** *** The log *)

Definition last_entries {A} (n : nat) (l : list A) : list A := drop (length l - n) l.

Definition append_log (record : dict) : client unit :=
  fun w =>
    let logs := match log_file w with Some (Ok v) => v | _ => VList [] end in
    match logs with
    | VList logs =>
        (Ok tt, {| remote := remote w; log_file := Some (Ok (VList (last_entries 200 (logs ++ [VDict record]))));
                   clock_reads := clock_reads w; tokens_drawn := tokens_drawn w |})
    | _ => (Err AttributeError, w)
    end.

(** *** One task *)

Definition commit_request (t m request_id commit_hash nonce signature : string) : dict :=
  [("request_id", VStr request_id); ("task_run_id", VStr t); ("miner_id", VStr m); ("commit_hash", VStr commit_hash);
   ("nonce", VStr nonce); ("client_version", VStr ("skill-v" +:+ MINER_VERSION)); ("signature", VStr signature)].

Definition reveal_request (t m request_id : string) (p_yes_bps : Z) (nonce signature : string) : dict :=
  [("request_id", VStr request_id); ("task_run_id", VStr t); ("miner_id", VStr m); ("p_yes_bps", VInt p_yes_bps);
   ("nonce", VStr nonce); ("schema_version", VStr "v1"); ("signature", VStr signature)].

(** [datetime.isoformat()] in UTC *)
Definition isoformat_utc (t : Z) : string :=
  let micros := t mod usec in
  of_chars (iso_date_time (fields_of_seconds (seconds_of t))) +:+
  (if micros =? 0 then "" else "." +:+ zero_pad 6 micros) +:+ "+00:00".

(** What is logged of a reveal, in the order in which the fields are read. *)
Definition log_record (task prediction : dict) (p_yes_bps : Z) (result : value) (timestamp : Z) : res dict :=
  let? id := dgetitem task "task_run_id" in
  let? asset := dgetitem task "asset" in
  let? lane := dgetitem task "lane" in
  let? data := subscript result "data" in
  let? reward_eligibility := subscript data "reward_eligibility" in
  Ok [("timestamp", VStr (isoformat_utc timestamp)); ("task_run_id", id); ("asset", asset); ("lane", lane);
      ("p_yes_bps", VInt p_yes_bps); ("prediction_provider", dget prediction "provider");
      ("prediction_model", dget prediction "model"); ("prediction_reason", dget prediction "reason");
      ("status", VStr "revealed"); ("reward_eligibility", reward_eligibility)].

(** From the commit on: the nonce, the commit, the wait, the reveal and the log. *)
Definition commit_and_reveal (rpc_url : string) (wallet : Wallet) (task prediction config : dict) (p_yes_bps : Z) : client bool :=
  let* reveal_nonce := draw_token 8 in
  let*? task_run_id := dgetitem task "task_run_id" in
  let* commit_token := draw_token 4 in
  let*? t := as_str task_run_id in
  let commit_hash := compute_commit_hash t (address wallet) p_yes_bps reveal_nonce in
  let commit_request_id := "req:" +:+ t +:+ ":commit:" +:+ commit_token in
  let*? signature := sign_parts (private_key wallet) [t; commit_hash; reveal_nonce; address wallet; commit_request_id] in
  let* committed := or_else
    (do* post_commit rpc_url t (commit_request t (address wallet) commit_request_id commit_hash reveal_nonce signature) config in
     sret true) false in
  if negb committed then sret false
  else
    let* now := utc_now in
    let*? _ := (let? v := dgetitem task "reveal_deadline" in parse_time v) in
    let* reveal_token := draw_token 4 in
    let reveal_request_id := "req:" +:+ t +:+ ":reveal:" +:+ reveal_token in
    let*? signature := sign_parts (private_key wallet) [t; string_of_Z p_yes_bps; reveal_nonce; address wallet; reveal_request_id] in
    let* result := or_else
      (let* result := post_reveal rpc_url t
         (reveal_request t (address wallet) reveal_request_id p_yes_bps reveal_nonce signature) config in
       sret (Some result)) None in
    match result with
    | None => sret false
    | Some result =>
        let* timestamp := utc_now in
        let*? record := log_record task prediction p_yes_bps result timestamp in
        do* append_log record in
        sret true
    end.

Definition mine_task (rpc_url : string) (wallet : Wallet) (config task_card : dict) : client bool :=
  let*? id := dgetitem task_card "task_run_id" in
  let* task := get_task_detail rpc_url id config in
  if negb (truthy task) then sret false
  else
    let*? min_commit_remaining := resolve_min_commit_time_remaining getenv config in
    let*? task := match task with VDict task => Ok task | _ => Err TypeError end in
    let* now := utc_now in
    let*? remaining := commit_time_remaining_seconds task now in
    let*? late := py_lt (VFloat remaining) (VInt min_commit_remaining) in
    if late then sret false
    else
      let* prediction := or_else
        (slift (let? p := compute_prediction getenv codex_exec root schema_path output_path task config in Ok (Some p))) None in
      match prediction with
      | None => sret false
      | Some prediction =>
          let* now := utc_now in
          let*? remaining := commit_time_remaining_seconds task now in
          if fleb remaining fzero then sret false
          else
            let*? p_yes_bps := (let? v := dgetitem prediction "p_yes_bps" in py_int v) in
            commit_and_reveal rpc_url wallet task prediction config p_yes_bps
      end.

(** *** The selected tasks and the rounds *)

Definition count_if (b : bool) (n : Z) : Z := if b then n + 1 else n.

Definition mine_selected_tasks (tasks : list dict) (parallel_tasks : Z) (worker : dict -> client bool) : client Z :=
  match tasks with
  | [] => sret 0
  | _ =>
      let parallel_tasks := if parallel_tasks =? 0 then 1 else parallel_tasks in
      let max_workers := Z.max 1 (Z.min parallel_tasks (Z.of_nat (length tasks))) in
      if max_workers =? 1
      then foldS (fun mined task => let* b := worker task in sret (count_if b mined)) tasks 0
      else foldS (fun mined task => let* b := or_else (worker task) false in sret (count_if b mined)) tasks 0
  end.

(** The command line. *)
Record Args := { once : bool; max_tasks : option Z; forecast_only : bool; parallel_tasks : option Z }.

(** [args.max_tasks or config.get("max_tasks_per_run") or config.get("max_challenges_per_run", 2)] *)
Definition max_fast_tasks (args : Args) (config : dict) : value :=
  por (match max_tasks args with Some n => VInt n | None => VNone end)
    (por (dget config "max_tasks_per_run") (dget_or config "max_challenges_per_run" (VInt 2))).

Definition task_list (items : value) : res (list dict) :=
  let? l := as_list items in
  mapR (fun v => match v with VDict d => Ok d | _ => Err TypeError end) l.

Definition mining_round (rpc_url : string) (wallet : Wallet) (args : Args) (config : dict) : client Z :=
  let* items := get_active_tasks rpc_url config in
  let*? tasks := task_list items in
  let*? selected_tasks := select_tasks_for_iteration tasks (max_fast_tasks args config) (negb (forecast_only args)) in
  let*? workers := resolve_parallel_tasks config (max_fast_tasks args config) (parallel_tasks args) in
  mine_selected_tasks selected_tasks workers (mine_task rpc_url wallet config).

(** The registration at the start; [false] is [sys.exit(1)]. *)
Definition ensure_registered (rpc_url : string) (wallet : Wallet) (config : dict) : client bool :=
  let* registered := check_miner_registered rpc_url (address wallet) config in
  if registered then sret true
  else auto_register rpc_url wallet (dget_or config "miner_name" (VStr "openclaw-miner")) config.

(** [main] for as many rounds as the run lasts; [--once] is one. *)
Definition main (rpc_url : string) (wallet : Wallet) (args : Args) (config : dict) (rounds : nat) : client unit :=
  let* registered := ensure_registered rpc_url wallet config in
  if registered
  then forS (fun _ => do* mining_round rpc_url wallet args config in sret tt) (seq 0 (if once args then 1 else rounds))
  else sret tt.
End Client.
