(* ===== verification/MineFacts.v ===== *)
(** * What the miner's client promises

    A prediction stays within the limits of the service; and a client that
    mines an open task against the server has its forecast recorded. *)
From Stdlib Require Import ZArith Lia Ascii String.
From stdpp Require Import base list strings relations.
From S2P Require Import Prelude PyText PyFloat PyTime PyValue Sha256 Repository RepositoryFacts Forecast.
From S2P Require Import Protobuf ChainClient ClientFacts Economic Miners Submissions Settlement Footprint Protocol Handlers.
From S2P Require Import Queries Service Roots CryptoAuth Schemas Server ServerFacts ServerRuns Preserve CryptoFacts ProtocolRuns Mine.
Open Scope Z_scope.

(** ** Predictions *)

Lemma clamp_default p : 1500 <= clamp_bps p default_settings <= 8500.
Proof. unfold clamp_bps. simpl. lia. Qed.

Lemma prediction_clamped getenv exec root schema out task config prediction :
  compute_prediction getenv exec root schema out task config = Ok prediction ->
  exists p, aget "p_yes_bps"%string prediction = Some (VInt p) /\ 1500 <= p <= 8500.
Proof.
  unfold compute_prediction. intros H. apply rbind_ok in H as (mode & _ & H). apply rbind_ok in H as (raw & _ & H).
  apply rbind_ok in H as (p & _ & H). injection H as <-. exists (clamp_bps p default_settings).
  unfold dset. split; [by rewrite aget_aset_eq|apply clamp_default].
Qed.

(** ** Signatures *)

Lemma hex_not_prefixed l : Forall is_byte l -> str_removeprefix "0x" (hex_bytes l) = hex_bytes l.
Proof.
  intros H. unfold str_removeprefix. destruct H as [|b l Hb H]; [done|]. rewrite chars_hex_cons.
  destruct (byte_pieces b 16 16) as (? & Hm & ?); [done..|].
  destruct (hex_digit_facts (b mod 16)) as (_ & _ & _ & Hx); [done|].
  change (chars "0x") with ["0"%char; "x"%char]. cbn [drop_prefix].
  destruct (Ascii.eqb_spec "0" (hex_digit (b / 16))); [|done].
  destruct (Ascii.eqb_spec "x" (hex_digit (b mod 16))) as [E|]; [|done]. by rewrite <- E in Hx.
Qed.

Lemma fromhex_hex l : Forall is_byte l -> fromhex (str_removeprefix "0x" (hex_bytes l)) = Ok l.
Proof. intros H. rewrite hex_not_prefixed by done. unfold fromhex. by rewrite bytes_fromhex_hex. Qed.

(** What is relied on of the two sides of the curve library: a signature made
    with the private key is made of bytes, and recovers a key that is the one
    built of the bytes of the public key. *)
Definition keys_match {Signature PublicKey} (eth_keys : EthKeys Signature PublicKey) (signer : PrivateKeys)
  (private_hex public_hex : string) : Prop :=
  forall key public h signature,
    fromhex private_hex = Ok key -> fromhex (str_removeprefix "0x" public_hex) = Ok public ->
    sign_msg_hash signer key h = Ok signature ->
    Forall is_byte signature /\
    exists s recovered expected,
      new_signature eth_keys signature = Ok s /\ new_public_key eth_keys public = Ok expected /\
      recover_public_key eth_keys s h = Ok recovered /\ same_key eth_keys recovered expected = true.

Lemma signed_parts_verify {Signature PublicKey} (eth_keys : EthKeys Signature PublicKey) signer private_hex public_hex public
  parts signature :
  keys_match eth_keys signer private_hex public_hex -> fromhex (str_removeprefix "0x" public_hex) = Ok public ->
  sign_parts signer private_hex parts = Ok signature ->
  _verify_signature eth_keys parts signature (VStr public_hex) = true.
Proof.
  intros Hkeys Hpub H. unfold sign_parts in H. apply rbind_ok in H as (key & Hkey & H).
  apply rbind_ok in H as (bytes & Hsign & H). injection H as <-.
  destruct (Hkeys _ _ _ _ Hkey Hpub Hsign) as (Hb & s & recovered & expected & H1 & H2 & H3 & H4).
  unfold _verify_signature. rewrite fromhex_hex by done. cbn [rbind]. rewrite H1. cbn [rbind as_str]. rewrite Hpub. cbn [rbind].
  rewrite H2. cbn [rbind]. rewrite H3. done.
Qed.

(** ** The commit of a miner that is known *)

(** The signals of the request are those that the row of the miner holds. *)
Definition known_signals (row : dict) (ip ua : option string) : Prop :=
  exists signal normalized,
    match ip with Some ip => Ok (Some ip) | None => vopt_string (dget row "ip_address") end = Ok signal /\
    normalize_ip_signal signal = Ok normalized /\
    py_eq (vopt_str normalized) (dget row "ip_address") = true /\
    py_eq (por (vopt_str (hash_user_agent ua)) (dget row "user_agent_hash")) (dget row "user_agent_hash") = true /\
    truthy (dget row "economic_unit_id") = true.

Lemma row_found t id s row k v : aget id (tab t s) = Some row -> aget k row = Some v -> get_row t id s = (Ok (Some row), s).
Proof. intros H Hk. unfold get_row, sgets, non_empty. rewrite H. by destruct row. Qed.

Lemma refresh_known m ip ua now s row k v :
  aget m (tab _miners s) = Some row -> aget k row = Some v -> known_signals row ip ua ->
  _refresh_miner_cluster m ip ua now s = (Ok row, s).
Proof.
  intros Hrow Hk (signal & normalized & Hs & Hn & H1 & H2 & H3). unfold _refresh_miner_cluster.
  rewrite (sbind_run _ _ s (Some row) s) by by apply (row_found _ _ _ _ k v).
  rewrite (sbind_run _ _ s signal s) by (unfold slift; by rewrite Hs).
  rewrite (sbind_run _ _ s normalized s) by (unfold slift; by rewrite Hn). by rewrite H1, H2, H3.
Qed.

(** The miner's row after a handler has counted its participation. *)
Definition participated_row (row : dict) (at_ n : Z) : dict :=
  dupdate row [("updated_at", VTime at_); ("forecast_commits", VInt n)].

Lemma participated_get row at_ n k :
  k <> "updated_at"%string -> k <> "forecast_commits"%string -> aget k (participated_row row at_ n) = aget k row.
Proof.
  intros H1 H2. unfold participated_row. rewrite aget_dupdate by nodup_keys. simpl.
  destruct (String.eqb_spec k "updated_at"); [done|]. by destruct (String.eqb_spec k "forecast_commits").
Qed.

Lemma participated_known row at_ n ip ua : known_signals row ip ua -> known_signals (participated_row row at_ n) ip ua.
Proof.
  unfold known_signals, dget, dget_or. by rewrite !participated_get by done.
Qed.

Section Commit.
Context (settings : ForecastSettings) (s : FakeRepository) (t m rid h nonce : string) (at_ n : Z) (ip ua : option string).
Context (row task : dict) (unit_ deadline : value).
Hypothesis (Hok : protocol_ok settings s).
Hypothesis (Htask : aget t (tab _tasks s) = Some task).
Hypothesis (Hopen : open_at s t "commit_deadline" at_).
Hypothesis (Hrow : aget m (tab _miners s) = Some row).
Hypothesis (Hunit : aget "economic_unit_id" row = Some unit_).
Hypothesis (Hcommits : aget "forecast_commits" row = Some (VInt n)).
Hypothesis (Hknown : known_signals row ip ua).
Hypothesis (Hnew : aget (t, m) (_submissions s) = None).
Hypothesis (Hfresh : aget rid (tab _request_index s) = None).
Hypothesis (Hhash : h <> "").

Let sub := commit_row t m rid h nonce unit_ None at_.

Lemma commit_stores :
  exists s', save_submission sub s = (Ok sub, s') /\ _submissions s' = aset (t, m) sub (_submissions s) /\
    (forall rid', rid' <> rid -> aget rid' (tab _request_index s') = aget rid' (tab _request_index s)) /\
    (forall table, table <> _request_index -> tab table s' = tab table s).
Proof.
  assert (Hwf : submission_wf sub = true).
  { pose proof (commit_row_wf settings s t m rid h nonce unit_ at_ Hok) as H. by rewrite Hnew in H. }
  assert (Hkey : submission_key sub = Ok (t, m)) by reflexivity.
  destruct (save_submission_merges s sub (t, m) (ok_requests _ _ Hok) Hwf Hkey) as (s' & Hsave & Hsub & Hidx).
  - apply foreign_request_fresh; [intros k [<-|[<-|[]]]; done|]. intros rid' row' Hc Hr'.
    apply carries_in_spec in Hc as (_ & k & [<-|[<-|[]]] & Hv); [|done]. injection Hv as <-. congruence.
  - rewrite Hnew in Hsave, Hsub, Hidx. exists s'. change (default [] None) with (@nil (string * value)) in *.
    assert (E : dupdate [] sub = sub) by reflexivity. rewrite E in *. split_and!; [done|done| |].
    + intros rid' Hne. rewrite Hidx. destruct (carries sub rid') eqn:Hc; [|done].
      apply carries_in_spec in Hc as (_ & k & [<-|[<-|[]]] & Hv); [|done]. by injection Hv as <-.
    + intros table Ht. destruct (touches_save_submission sub s) as [H _]. rewrite Hsave in H. apply H. intros [<-|[]]. done.
Qed.

Lemma commit_accepted :
  exists s', commit_submission t m rid h nonce at_ ip ua s = (Ok sub, s') /\
    tab _tasks s' = tab _tasks s /\ aget m (tab _miners s') = Some (participated_row row at_ (n + 1)) /\
    committed_hash (t, m) s' = Some h /\ forecast_of (t, m) s' = None /\
    (forall rid', rid' <> rid -> aget rid' (tab _request_index s') = aget rid' (tab _request_index s)).
Proof.
  destruct Hopen as (task' & publish & last & Ht & Hpub & Hlast & Htime). rewrite Htask in Ht. injection Ht as <-.
  destruct commit_stores as (s1 & Hsave & Hsub & Hidx & Htab).
  assert (E1 : (at_ <? publish) = false) by lia. assert (E2 : (last <? at_) = false) by lia.
  assert (Hget : get_task t s = (Ok (Some task), s)).
  { unfold get_task, get_row, sgets. rewrite Htask. by destruct task. }
  unfold commit_submission.
  rewrite (sbind_run _ _ s task s) by (unfold require; by rewrite (sbind_run _ _ _ _ _ Hget)).
  rewrite (sbind_run _ _ s publish s) by (unfold slift; by rewrite Hpub).
  rewrite (sbind_run _ _ s tt s) by (unfold reject_if; by rewrite E1).
  rewrite (sbind_run _ _ s last s) by (unfold slift; by rewrite Hlast).
  rewrite (sbind_run _ _ s tt s) by (unfold reject_if; by rewrite E2).
  rewrite (sbind_run _ _ s row s)
    by (unfold require; by rewrite (sbind_run _ _ s (Some row) s) by by apply (row_found _ _ _ _ _ _ Hrow Hunit)).
  rewrite (sbind_run _ _ s row s) by by apply (refresh_known _ _ _ _ _ _ _ _ Hrow Hunit).
  rewrite (sbind_run _ _ s None s) by (unfold get_submission, sgets; by rewrite Hnew).
  rewrite (sbind_run _ _ s tt s) by done.
  rewrite (sbind_run _ _ s unit_ s) by (unfold slift, dgetitem; by rewrite Hunit).
  rewrite (sbind_run _ _ s sub s1) by exact Hsave.
  rewrite (sbind_run _ _ s1 (VInt n) s1) by (unfold slift, dgetitem; by rewrite Hcommits).
  rewrite (sbind_run _ _ s1 (VInt (n + 1)) s1) by done.
  assert (Hm1 : aget m (tab _miners s1) = Some row) by (by rewrite Htab).
  set (s2 := set_tab _miners (aset m (participated_row row at_ (n + 1)) (tab _miners s1)) s1).
  rewrite (sbind_run _ _ s1 (participated_row row at_ (n + 1)) s2)
    by (unfold update_miner_forecast_participation, update_miner; rewrite (sbind_run _ _ s1 s1 s1) by done;
        rewrite Hm1; by rewrite put_row_run).
  exists s2. split; [done|]. unfold committed_hash, forecast_of.
  change (_submissions s2) with (_submissions s1). rewrite Hsub, aget_aset_eq. split_and!.
  - unfold s2. rewrite tab_set_tab_ne by done. by apply Htab.
  - unfold s2. by rewrite tab_set_tab_eq, aget_aset_eq.
  - simpl. by destruct (String.eqb_spec h "").
  - done.
  - intros rid' Hne. unfold s2. rewrite tab_set_tab_ne by done. by apply Hidx.
Qed.
End Commit.

(** ** The requests of a client at the server *)

Definition ip_of (headers : list (string * string)) (host : option string) : option string :=
  _client_ip (request_for GET_version headers host).

(** What a client sees of the result of a request: an exception that no handler
    catches is the answer 500. *)
Definition seen (r : res Response) : HttpResponse :=
  match r with
  | Ok (status, body) => {| status_code := status; json := Ok body |}
  | Err _ => {| status_code := 500; json := Err (ValueError "Expecting value") |}
  end.

Definition commit_of (t m rid h nonce signature : string) : CommitRequest :=
  {| cr_request_id := rid; cr_task_run_id := t; cr_miner_id := m; cr_economic_unit_id := None; cr_commit_hash := h;
     cr_nonce := nonce; cr_client_version := "skill-v" +:+ MINER_VERSION; cr_signature := signature |}.

Definition reveal_of (t m rid : string) (p : Z) (nonce signature : string) : RevealRequest :=
  {| rr_request_id := rid; rr_task_run_id := t; rr_miner_id := m; rr_economic_unit_id := None; rr_p_yes_bps := p;
     rr_nonce := nonce; rr_schema_version := "v1"; rr_signature := signature |}.

Lemma raising_run {A} status (m : repo A) s a s' : m s = (Ok a, s') -> raising status m s = (Ok a, s').
Proof. intros H. unfold raising, scatch_value_error. by rewrite H. Qed.

Lemma parsed_field task k v : parse_time_field task k = Ok v -> exists x, aget k task = Some x.
Proof. unfold parse_time_field, dgetitem. destruct (aget k task) as [x|]; [by exists x|done]. Qed.

Section AtServer.
Context {Signature PublicKey : Type} (eth_keys : EthKeys Signature PublicKey)
  (ripemd160 : list Z -> res (list Z)) (str_exc : exn -> string).
Context (app : App) (utc_now : Z) (headers : list (string * string)) (host : option string).
Abbreviation served now e s := (serve eth_keys ripemd160 str_exc app now utc_now e headers host s).
Abbreviation ip := (ip_of headers host).
Abbreviation ua := (aget "user-agent"%string headers).

Lemma public_serve now e s :
  is_admin e = false ->
  served now e s = respond (run eth_keys ripemd160 str_exc app now utc_now e (request_for e headers host)) s.
Proof. intros H. unfold serve, require_admin_auth. by rewrite admin_route, H. Qed.

Lemma commit_served now t m rid h nonce signature s s' saved row task public :
  aget m (tab _miners s) = Some row -> aget "public_key" row = Some (VStr public) -> dhas row "economic_unit_id" = true ->
  _verify_signature eth_keys [t; h; nonce; m; rid] signature (VStr public) = true ->
  commit_submission t m rid h nonce (now 0%nat) ip ua s = (Ok saved, s') ->
  (exists id, aget "id" saved = Some (VStr id)) -> dhas saved "accepted_commit_at" = true ->
  aget t (tab _tasks s') = Some task -> dhas task "commit_deadline" = true ->
  exists body, served now (POST_commit t (commit_of t m rid h nonce signature)) s = (Ok (200, body), s').
Proof.
  intros Hrow Hpub Hunit Hsig Hcommit (id & Hid) Hat Htask Hdead. rewrite public_serve by done. cbn [run].
  unfold dhas, ahas in Hunit, Hat, Hdead.
  destruct (aget "economic_unit_id" row) as [unit|] eqn:Eu; [|done].
  destruct (aget "accepted_commit_at" saved) as [at_|] eqn:Ea; [|done].
  destruct (aget "commit_deadline" task) as [cutoff|] eqn:Ed; [|done].
  assert (Hrun : exists body, commit_task eth_keys now t (commit_of t m rid h nonce signature)
                   (request_for (POST_commit t (commit_of t m rid h nonce signature)) headers host) s = (Ok body, s')).
  { unfold commit_task. cbn [cr_task_run_id commit_of cr_miner_id]. rewrite String.eqb_refl. cbn [negb].
    rewrite (sbind_run _ _ s (Some row) s) by by apply (row_found _ _ _ _ _ _ Hrow Hpub).
    rewrite (sbind_run _ _ s (VStr public) s) by (unfold slift, dgetitem; by rewrite Hpub).
    cbn [cr_commit_hash commit_of cr_nonce cr_request_id cr_signature]. rewrite Hsig. cbn [negb].
    rewrite (sbind_run _ _ s saved s').
    2: { apply raising_run. rewrite (sbind_run _ _ s unit s) by (unfold slift, dgetitem; by rewrite Eu). exact Hcommit. }
    rewrite (sbind_run _ _ s' id s') by (unfold slift, text_id, dgetitem; by rewrite Hid).
    rewrite (sbind_run _ _ s' at_ s') by (unfold slift, dgetitem; by rewrite Ea).
    rewrite (sbind_run _ _ s' (Some task) s') by by apply (row_found _ _ _ _ _ _ Htask Ed).
    rewrite (sbind_run _ _ s' task s') by done.
    rewrite (sbind_run _ _ s' cutoff s') by (unfold slift, dgetitem; by rewrite Ed). by eexists. }
  destruct Hrun as (body & Hrun). exists body. unfold respond. by rewrite Hrun.
Qed.

(** A refusal of the service, and the status it is answered with. *)
Lemma commit_refused now t m rid h nonce signature s row public msg :
  aget m (tab _miners s) = Some row -> aget "public_key" row = Some (VStr public) -> dhas row "economic_unit_id" = true ->
  _verify_signature eth_keys [t; h; nonce; m; rid] signature (VStr public) = true ->
  commit_submission t m rid h nonce (now 0%nat) ip ua s = (Err (ValueError msg), s) ->
  served now (POST_commit t (commit_of t m rid h nonce signature)) s =
    (Ok (repeated_or_bad "already committed" msg, VDict [("detail", VStr msg)]), s).
Proof.
  intros Hrow Hpub Hunit Hsig Hcommit. rewrite public_serve by done. cbn [run]. unfold dhas, ahas in Hunit.
  destruct (aget "economic_unit_id" row) as [unit|] eqn:Eu; [|done]. unfold respond, commit_task.
  cbn [cr_task_run_id commit_of cr_miner_id]. rewrite String.eqb_refl. cbn [negb].
  rewrite (sbind_run _ _ s (Some row) s) by by apply (row_found _ _ _ _ _ _ Hrow Hpub).
  rewrite (sbind_run _ _ s (VStr public) s) by (unfold slift, dgetitem; by rewrite Hpub).
  cbn [cr_commit_hash commit_of cr_nonce cr_request_id cr_signature]. rewrite Hsig. cbn [negb].
  unfold sbind at 1, raising, scatch_value_error.
  rewrite (sbind_run _ _ s unit s) by (unfold slift, dgetitem; by rewrite Eu).
  change (commit_submission _ _ _ _ _ _ _ _ s) with (commit_submission t m rid h nonce (now 0%nat) ip ua s). by rewrite Hcommit.
Qed.

Lemma reveal_refused now t m rid p nonce signature s row public msg :
  aget m (tab _miners s) = Some row -> aget "public_key" row = Some (VStr public) -> dhas row "economic_unit_id" = true ->
  _verify_signature eth_keys [t; string_of_Z p; nonce; m; rid] signature (VStr public) = true ->
  reveal_submission (Service.settings (service app)) t m rid p nonce (now 0%nat) ip ua s = (Err (ValueError msg), s) ->
  served now (POST_reveal t (reveal_of t m rid p nonce signature)) s =
    (Ok (repeated_or_bad "already revealed" msg, VDict [("detail", VStr msg)]), s).
Proof.
  intros Hrow Hpub Hunit Hsig Hreveal. rewrite public_serve by done. cbn [run]. unfold dhas, ahas in Hunit.
  destruct (aget "economic_unit_id" row) as [unit|] eqn:Eu; [|done]. unfold respond, reveal_task.
  cbn [rr_task_run_id reveal_of rr_miner_id]. rewrite String.eqb_refl. cbn [negb].
  rewrite (sbind_run _ _ s (Some row) s) by by apply (row_found _ _ _ _ _ _ Hrow Hpub).
  rewrite (sbind_run _ _ s (VStr public) s) by (unfold slift, dgetitem; by rewrite Hpub).
  cbn [rr_p_yes_bps reveal_of rr_nonce rr_request_id rr_signature]. rewrite Hsig. cbn [negb].
  unfold sbind at 1, raising, scatch_value_error.
  rewrite (sbind_run _ _ s unit s) by (unfold slift, dgetitem; by rewrite Eu).
  change (reveal_submission _ _ _ _ _ _ _ _ _ s)
    with (reveal_submission (Service.settings (service app)) t m rid p nonce (now 0%nat) ip ua s). by rewrite Hreveal.
Qed.

(** Nothing is written once the reveal has been. *)
Lemma reveal_served now t m rid p nonce signature s row public :
  aget m (tab _miners s) = Some row -> aget "public_key" row = Some (VStr public) -> dhas row "economic_unit_id" = true ->
  _verify_signature eth_keys [t; string_of_Z p; nonce; m; rid] signature (VStr public) = true ->
  let settings := Service.settings (service app) in
  forecast_of (t, m) (served now (POST_reveal t (reveal_of t m rid p nonce signature)) s).2 =
  forecast_of (t, m) (reveal_submission settings t m rid p nonce (now 0%nat) ip ua s).2.
Proof.
  intros Hrow Hpub Hunit Hsig settings. rewrite public_serve by done. cbn [run]. rewrite respond_store.
  unfold dhas, ahas in Hunit. destruct (aget "economic_unit_id" row) as [unit|] eqn:Eu; [|done].
  unfold reveal_task. cbn [rr_task_run_id reveal_of rr_miner_id]. rewrite String.eqb_refl. cbn [negb].
  rewrite (sbind_run _ _ s (Some row) s) by by apply (row_found _ _ _ _ _ _ Hrow Hpub).
  rewrite (sbind_run _ _ s (VStr public) s) by (unfold slift, dgetitem; by rewrite Hpub).
  cbn [rr_p_yes_bps reveal_of rr_nonce rr_request_id rr_signature]. rewrite Hsig. cbn [negb].
  match goal with |- forecast_of _ (sbind (raising _ ?m) ?k s).2 = _ => set (reveal := m); set (rest := k) end.
  assert (Hm : reveal s = reveal_submission settings t m rid p nonce (now 0%nat) ip ua s).
  { unfold reveal. rewrite (sbind_run _ _ s unit s) by (unfold slift, dgetitem; by rewrite Eu). done. }
  rewrite <- Hm. unfold sbind. destruct (raising _ reveal s) as [[saved|e] s'] eqn:E.
  - replace (reveal s).2 with s' by (rewrite <- (raising_store (repeated_or_bad "already revealed") reveal s), E; done).
    assert (Hk : touches [] false (rest saved)) by (unfold rest; footprint). destruct (Hk s') as [_ Hk']. unfold forecast_of. by rewrite Hk'.
  - by rewrite <- (raising_store (repeated_or_bad "already revealed") reveal s), E.
Qed.

(** A published task is shown as it is stored. *)
Lemma detail_served now t s task lane publish :
  aget t (tab _tasks s) = Some task -> aget "lane" task = Some lane ->
  parse_time_field task "publish_at" = Ok publish -> publish <= now 0%nat ->
  exists body, served now (GET_task_detail t) s = (Ok (200, VDict body), s) /\ aget "data" body = Some (VDict task).
Proof.
  intros Htask Hlane Hpub Hnow. rewrite public_serve by done. cbn [run]. unfold Server.get_task_detail.
  assert (Hd : Queries.get_task_detail t (now 0%nat) s = (Ok task, s)).
  { unfold Queries.get_task_detail.
    rewrite (sbind_run _ _ s task s)
      by (unfold require; by rewrite (sbind_run _ _ s (Some task) s) by by apply (row_found _ _ _ _ _ _ Htask Hlane)).
    rewrite (sbind_run _ _ s lane s) by (unfold slift, dgetitem; by rewrite Hlane).
    rewrite (sbind_run _ _ s false s); [done|]. unfold slift. rewrite Hpub. cbn [rbind].
    destruct (py_eq_str lane "forecast_15m"); [|done]. do 2 f_equal. by apply Z.ltb_ge. }
  unfold respond. rewrite (sbind_run _ _ s task s) by by apply raising_run.
  rewrite (sbind_run _ _ s lane s) by (unfold slift, dgetitem; by rewrite Hlane). by eexists.
Qed.
End AtServer.

(** ** One task, from the client to the store *)

Definition with_remote {W} (w : World W) (s : W) : World W :=
  {| remote := s; log_file := log_file w; clock_reads := clock_reads w; tokens_drawn := tokens_drawn w |}.

Section Requesting.
Context {W : Type} (requests : Requests W) (getenv : string -> option string) (config : dict) (timeout : float).
Hypothesis (Htimeout : resolve_request_timeout getenv config = Ok timeout).

Lemma get_run url w resp s :
  requests_get requests url timeout (remote w) = (Ok resp, s) ->
  get requests getenv config url w = (Ok resp, with_remote w s).
Proof.
  intros H. unfold get. rewrite (sbind_run _ _ w timeout w) by (unfold slift; by rewrite Htimeout).
  unfold on_remote. by rewrite H.
Qed.

Lemma post_run url body w resp s :
  requests_post requests url body timeout (remote w) = (Ok resp, s) ->
  post requests getenv config url body w = (Ok resp, with_remote w s).
Proof.
  intros H. unfold post. rewrite (sbind_run _ _ w timeout w) by (unfold slift; by rewrite Htimeout).
  unfold on_remote. by rewrite H.
Qed.
End Requesting.

Lemma or_else_run {W A} (m : st (World W) A) fallback w a w' : m w = (Ok a, w') -> or_else m fallback w = (Ok a, w').
Proof. intros H. unfold or_else. by rewrite H. Qed.

Lemma or_else_store {W A} (m : st (World W) A) fallback w : (or_else m fallback w).2 = (m w).2.
Proof. unfold or_else. by destruct (m w) as [[a|[]] w']. Qed.

(** After the requests, a round only writes the log. *)
Lemma append_log_remote {W} record (w : World W) : remote (append_log record w).2 = remote w.
Proof. unfold append_log. by destruct (match log_file w with Some (Ok v) => v | _ => VList [] end). Qed.

Lemma request_ids_differ t token token' : "req:" +:+ t +:+ ":reveal:" +:+ token <> "req:" +:+ t +:+ ":commit:" +:+ token'.
Proof. intros [= H%(inj (String.append t))]. discriminate. Qed.

(** A digest is not empty. *)
Lemma round_step_length h kw : length h = 8%nat -> length (round_step h kw) = 8%nat.
Proof. intros H. do 8 (destruct h as [|? h]; [done|]). by destruct h. Qed.

Lemma compress_length h block : length h = 8%nat -> length (compress h block) = 8%nat.
Proof.
  intros H. unfold compress. rewrite length_zip_with, H. generalize (zip round_constants (schedule block)) as rounds.
  intros rounds. assert (Hr : length (fold_left round_step rounds h) = 8%nat); [|by rewrite Hr].
  revert h H. induction rounds as [|kw rounds IH]; intros h H; [done|]. simpl. by apply IH, round_step_length.
Qed.

Lemma sha256_not_empty msg : sha256 msg <> [].
Proof.
  unfold sha256. generalize (blocks (length (words (pad msg))) (words (pad msg))) as bs. intros bs.
  assert (H : length (fold_left compress bs initial_hash) = 8%nat).
  { generalize (eq_refl : length initial_hash = 8%nat). generalize initial_hash as h.
    induction bs as [|b bs IH]; intros h Hh; [done|]. simpl. by apply IH, compress_length. }
  by destruct (fold_left compress bs initial_hash).
Qed.

Lemma hash_not_empty t m p nonce : compute_commit_hash t m p nonce <> "".
Proof.
  unfold compute_commit_hash, sha256_hex. pose proof (sha256_not_empty (utf8 (commit_payload t m p nonce))) as H.
  destruct (sha256 _) as [|b l]; [done|]. intros E. apply (f_equal chars) in E. by rewrite chars_hex_cons in E.
Qed.

(** A network that carries the three requests of a round to the server, which
    reads its clock when it handles each of them. *)
Record delivers {Signature PublicKey} (eth_keys : EthKeys Signature PublicKey) ripemd160 str_exc app utc_now headers host
  (now_detail now_commit now_reveal : nat -> Z) (net : Requests FakeRepository) (rpc_url : string) : Prop := {
  carries_detail t timeout s :
    requests_get net (rpc_url +:+ "/v1/forecast/task-runs/" +:+ t) timeout s =
    let '(r, s') := serve eth_keys ripemd160 str_exc app now_detail utc_now (GET_task_detail t) headers host s in
    (Ok (seen r), s');
  carries_commit t m rid h nonce signature timeout s :
    requests_post net (rpc_url +:+ "/v1/task-runs/" +:+ t +:+ "/commit") (commit_request t m rid h nonce signature) timeout s =
    let '(r, s') := serve eth_keys ripemd160 str_exc app now_commit utc_now
                      (POST_commit t (commit_of t m rid h nonce signature)) headers host s in
    (Ok (seen r), s');
  carries_reveal t m rid p nonce signature timeout s :
    0 <= p <= 10000 ->
    requests_post net (rpc_url +:+ "/v1/task-runs/" +:+ t +:+ "/reveal") (reveal_request t m rid p nonce signature) timeout s =
    let '(r, s') := serve eth_keys ripemd160 str_exc app now_reveal utc_now
                      (POST_reveal t (reveal_of t m rid p nonce signature)) headers host s in
    (Ok (seen r), s')
}.

Section Mining.
Context {Signature PublicKey : Type} (eth_keys : EthKeys Signature PublicKey)
  (ripemd160 : list Z -> res (list Z)) (str_exc : exn -> string).
Context (app : App) (utc_now : Z) (headers : list (string * string)) (host : option string)
  (now_detail now_commit now_reveal : nat -> Z) (net : Requests FakeRepository) (rpc_url : string).
Context (signer : PrivateKeys) (getenv : string -> option string)
  (exec : list string -> string -> Z -> res (CompletedProcess * res value)) (root schema out : string)
  (clock : nat -> Z) (token_hex : nat -> Z -> string).
Context (wallet : Wallet) (config card task row : dict) (w : World FakeRepository).
Context (t public : string) (n p min_remaining publish commit_deadline reveal_deadline : Z) (timeout first second : float)
  (prediction : dict).

Abbreviation ip := (ip_of headers host).
Abbreviation ua := (aget "user-agent"%string headers).
Abbreviation settings := (Service.settings (service app)).
Abbreviation m := (address wallet).
Abbreviation store := (remote w).

(** The network and the keys. *)
Hypothesis (Hnet : delivers eth_keys ripemd160 str_exc app utc_now headers host now_detail now_commit now_reveal net rpc_url).
Hypothesis (Hkeys : keys_match eth_keys signer (private_key wallet) public).
Hypothesis (Hsigns : forall parts, exists signature, sign_parts signer (private_key wallet) parts = Ok signature).
Hypothesis (Hpublic : exists bytes, fromhex (str_removeprefix "0x" public) = Ok bytes).
(** The store, with the task and the miner. *)
Hypothesis (Htask : aget t (tab _tasks store) = Some task).
Hypothesis (Hid : aget "task_run_id" task = Some (VStr t)).
Hypothesis (Hlane : dhas task "lane" = true).
Hypothesis (Hpublish : parse_time_field task "publish_at" = Ok publish).
Hypothesis (Hcommit : exists text, aget "commit_deadline" task = Some (VStr text) /\ parse_iso text = Ok commit_deadline).
Hypothesis (Hreveal : exists text, aget "reveal_deadline" task = Some (VStr text) /\ parse_iso text = Ok reveal_deadline).
Hypothesis (Hrow : aget m (tab _miners store) = Some row).
Hypothesis (Hkey : aget "public_key" row = Some (VStr public)).
Hypothesis (Hunit : dhas row "economic_unit_id" = true).
Hypothesis (Hknown : known_signals row ip ua).
(** The clocks: the server's within the windows, the client's early enough. *)
Hypothesis (Htimes : publish <= now_detail 0%nat /\ publish <= now_commit 0%nat <= commit_deadline /\
                     publish <= now_reveal 0%nat <= reveal_deadline).
Hypothesis (Hfirst : seconds_between commit_deadline (clock (clock_reads w)) = Ok first).
Hypothesis (Hsecond : seconds_between commit_deadline (clock (S (clock_reads w))) = Ok second).
Hypothesis (Hearly : py_lt (VFloat first) (VInt min_remaining) = Ok false /\ fleb second fzero = false).
(** The client: its card of the task, its settings and its prediction. *)
Hypothesis (Hcard : aget "task_run_id" card = Some (VStr t)).
Hypothesis (Htimeout : resolve_request_timeout getenv config = Ok timeout).
Hypothesis (Hminimum : resolve_min_commit_time_remaining getenv config = Ok min_remaining).
Hypothesis (Hprediction : compute_prediction getenv exec root schema out task config = Ok prediction).
Hypothesis (Hp : aget "p_yes_bps" prediction = Some (VInt p)).

Abbreviation served now e s := (serve eth_keys ripemd160 str_exc app now utc_now e headers host s).

Lemma deadline_field k v : (exists text, aget k task = Some (VStr text) /\ parse_iso text = Ok v) -> parse_time_field task k = Ok v.
Proof. intros (text & H & Hv). unfold parse_time_field, dgetitem. by rewrite H. Qed.

Lemma prediction_range : 1500 <= p <= 8500.
Proof. destruct (prediction_clamped _ _ _ _ _ _ _ _ Hprediction) as (q & Hq & Hr). congruence. Qed.

(** The end of a round, after the answer to the reveal; it leaves the server alone. *)
Definition finish (result : res value) : st (World FakeRepository) bool :=
  let* result := or_else (let*? result := result in sret (Some result)) None in
  match result with
  | None => sret false
  | Some result =>
      let* timestamp := Mine.utc_now clock in
      let*? record := log_record task prediction p result timestamp in
      do* append_log record in
      sret true
  end.

Lemma finish_remote result w1 : remote (finish result w1).2 = remote w1.
Proof.
  unfold finish, sbind, or_else, slift. destruct result as [a|[]]; try done.
  cbn -[log_record append_log]. destruct (log_record _ _ _ _ _) as [record|e]; [|done]. cbn -[append_log].
  match goal with |- context[append_log record ?w3] => pose proof (append_log_remote record w3) as H end.
  by destruct (append_log _ _) as [[[]|e] w4].
Qed.

(** The requests of a round whose commit is not refused. *)
Lemma commit_and_reveal_steps (w1 : World FakeRepository) signature signature' c a s1 r s2 :
  let nonce := token_hex (tokens_drawn w1) 8 in
  let h := compute_commit_hash t m p nonce in
  let rid := "req:" +:+ t +:+ ":commit:" +:+ token_hex (S (tokens_drawn w1)) 4 in
  let rid' := "req:" +:+ t +:+ ":reveal:" +:+ token_hex (S (S (tokens_drawn w1))) 4 in
  sign_parts signer (private_key wallet) [t; h; nonce; m; rid] = Ok signature ->
  sign_parts signer (private_key wallet) [t; string_of_Z p; nonce; m; rid'] = Ok signature' ->
  requests_post net (rpc_url +:+ "/v1/task-runs/" +:+ t +:+ "/commit") (commit_request t m rid h nonce signature) timeout
    (remote w1) = (Ok c, s1) ->
  posted c = Ok a ->
  requests_post net (rpc_url +:+ "/v1/task-runs/" +:+ t +:+ "/reveal") (reveal_request t m rid' p nonce signature') timeout
    s1 = (Ok r, s2) ->
  commit_and_reveal net signer getenv clock token_hex rpc_url wallet task prediction config p w1 =
  finish (posted r) {| remote := s2; log_file := log_file w1; clock_reads := S (clock_reads w1);
                       tokens_drawn := S (S (S (tokens_drawn w1))) |}.
Proof.
  intros nonce h rid rid' Hsig Hsig' Hc Ha Hr. unfold commit_and_reveal.
  set (w2 := {| remote := remote w1; log_file := log_file w1; clock_reads := clock_reads w1;
                tokens_drawn := S (S (tokens_drawn w1)) |}).
  set (w3 := {| remote := s1; log_file := log_file w1; clock_reads := S (clock_reads w1);
                tokens_drawn := S (S (S (tokens_drawn w1))) |}).
  do 2 (unfold sbind at 1, draw_token at 1, slift at 1; cbn [clock_reads tokens_drawn remote log_file]).
  unfold dgetitem at 1. rewrite Hid. cbn [of_option]. unfold sbind at 1, draw_token at 1.
  cbn [clock_reads tokens_drawn remote log_file]. fold w2 nonce.
  rewrite (sbind_run _ _ w2 t w2) by done. fold h rid.
  rewrite (sbind_run _ _ w2 signature w2) by (unfold slift; by rewrite Hsig).
  rewrite (sbind_run _ _ w2 true (with_remote w2 s1)).
  2: { apply or_else_run. rewrite (sbind_run _ _ w2 a (with_remote w2 s1)); [done|]. unfold post_commit.
       rewrite (sbind_run _ _ w2 c (with_remote w2 s1)); [unfold slift; by rewrite Ha|].
       by apply (post_run _ _ _ _ Htimeout). }
  cbn [negb]. rewrite (sbind_run _ _ (with_remote w2 s1) (clock (clock_reads w1))
    {| remote := s1; log_file := log_file w1; clock_reads := S (clock_reads w1); tokens_drawn := S (S (tokens_drawn w1)) |}) by done.
  destruct Hreveal as (text & Htext & Hparsed).
  rewrite (sbind_run _ _ _ reveal_deadline _)
    by (unfold slift, dgetitem; rewrite Htext; cbn [of_option rbind parse_time]; by rewrite Hparsed).
  rewrite (sbind_run _ _ _ (token_hex (S (S (tokens_drawn w1))) 4) w3) by done. fold rid'.
  rewrite (sbind_run _ _ w3 signature' w3) by (unfold slift; by rewrite Hsig').
  pose proof (post_run net getenv config timeout Htimeout _ _ w3 r s2 Hr) as Hpost.
  unfold finish, post_reveal. unfold sbind at 1, or_else at 1. unfold sbind at 1. unfold sbind at 1. rewrite Hpost.
  unfold sbind at 1. unfold or_else at 1, sbind at 2, slift. change (with_remote w3 s2) with
    {| remote := s2; log_file := log_file w1; clock_reads := S (clock_reads w1); tokens_drawn := S (S (S (tokens_drawn w1))) |}.
  by destruct (posted r) as [v|[]].
Qed.

(** The detail of the task, as the server shows it. *)
Lemma detail_fetched :
  get_task_detail net getenv rpc_url (VStr t) config w = (Ok (VDict task), w).
Proof.
  unfold dhas, ahas in Hlane. destruct (aget "lane" task) as [lane|] eqn:Elane; [|done].
  destruct (detail_served eth_keys ripemd160 str_exc app utc_now headers host now_detail t store task lane publish)
    as (body & Hserved & Hdata); [done..|lia|].
  unfold get_task_detail. apply or_else_run. rewrite (sbind_run _ _ w t w) by done.
  rewrite (sbind_run _ _ w (seen (Ok (200, VDict body))) w).
  2: { replace w with (with_remote w store) at 2 by by destruct w.
       apply (get_run _ _ _ _ Htimeout). by rewrite (carries_detail _ _ _ _ _ _ _ _ _ _ _ _ Hnet), Hserved. }
  unfold slift, subscript, dgetitem. cbn. by rewrite Hdata.
Qed.

(** With the task and a prediction in time, a round goes on to the commit. *)
Lemma round_commits :
  mine_task net signer getenv exec root schema out clock token_hex rpc_url wallet config card w =
  commit_and_reveal net signer getenv clock token_hex rpc_url wallet task prediction config p
    {| remote := store; log_file := log_file w; clock_reads := S (S (clock_reads w)); tokens_drawn := tokens_drawn w |}.
Proof.
  destruct Hcommit as (text & Htext & Hparsed). destruct Hearly as [Hlate Hleft].
  assert (Hremaining : forall now, commit_time_remaining_seconds task now = seconds_between commit_deadline now).
  { intros now. unfold commit_time_remaining_seconds, dgetitem. rewrite Htext. cbn. by rewrite Hparsed. }
  unfold mine_task. rewrite (sbind_run _ _ w (VStr t) w) by (unfold slift, dgetitem; by rewrite Hcard).
  rewrite (sbind_run _ _ _ _ _ detail_fetched). replace (truthy (VDict task)) with true by by destruct task.
  cbn [negb]. rewrite (sbind_run _ _ w min_remaining w) by (unfold slift; by rewrite Hminimum).
  rewrite (sbind_run _ _ w task w) by done.
  set (w1 := {| remote := store; log_file := log_file w; clock_reads := S (clock_reads w); tokens_drawn := tokens_drawn w |}).
  rewrite (sbind_run _ _ w (clock (clock_reads w)) w1) by done.
  rewrite (sbind_run _ _ w1 first w1) by (unfold slift; by rewrite Hremaining, Hfirst).
  rewrite (sbind_run _ _ w1 false w1) by (unfold slift; by rewrite Hlate).
  rewrite (sbind_run _ _ w1 (Some prediction) w1) by (apply or_else_run; unfold slift; by rewrite Hprediction).
  set (w2 := {| remote := store; log_file := log_file w; clock_reads := S (S (clock_reads w)); tokens_drawn := tokens_drawn w |}).
  rewrite (sbind_run _ _ w1 (clock (S (clock_reads w))) w2) by done.
  rewrite (sbind_run _ _ w2 second w2) by (unfold slift; by rewrite Hremaining, Hsecond).
  rewrite Hleft. rewrite (sbind_run _ _ w2 p w2) by (unfold slift, dgetitem; by rewrite Hp). done.
Qed.

(** *** A task in which the miner has no part yet *)

Section First.
Hypothesis (Hlimits : min_p_yes_bps settings <= 1500 /\ 8500 <= max_p_yes_bps settings).
Hypothesis (Hs : protocol_ok settings store).
Hypothesis (Hcommits : aget "forecast_commits" row = Some (VInt n)).
Hypothesis (Hnew : aget (t, m) (_submissions store) = None).
Hypothesis (Hfresh : forall kind k, aget ("req:" +:+ t +:+ kind +:+ token_hex k 4) (tab _request_index store) = None).

(** The commit is accepted, and the reveal that follows is heard. *)
Lemma commit_then_reveal nonce rid rid' signature signature' :
  let h := compute_commit_hash t m p nonce in
  aget rid (tab _request_index store) = None -> aget rid' (tab _request_index store) = None -> rid' <> rid ->
  sign_parts signer (private_key wallet) [t; h; nonce; m; rid] = Ok signature ->
  sign_parts signer (private_key wallet) [t; string_of_Z p; nonce; m; rid'] = Ok signature' ->
  exists body s1, served now_commit (POST_commit t (commit_of t m rid h nonce signature)) store = (Ok (200, body), s1) /\
    forecast_of (t, m) (served now_reveal (POST_reveal t (reveal_of t m rid' p nonce signature')) s1).2 = Some p.
Proof.
  intros h Hrid Hrid' Hne Hsig Hsig'. destruct Hpublic as (bytes & Hbytes). pose proof prediction_range as Hr.
  assert (Hb : min_p_yes_bps settings <= max_p_yes_bps settings) by lia.
  destruct (aget "economic_unit_id" row) as [unit|] eqn:Eu; [|unfold dhas, ahas in Hunit; by rewrite Eu in Hunit].
  destruct (commit_accepted settings store t m rid h nonce (now_commit 0%nat) n ip ua row task unit Hs Htask)
    as (s1 & Hrun & Htasks & Hrow1 & Hhash & Hhidden & Hidx); try done.
  { exists task, publish, commit_deadline. split_and!; [done|done|by apply deadline_field|lia|lia]. }
  { apply hash_not_empty. }
  destruct (commit_served eth_keys ripemd160 str_exc app utc_now headers host now_commit t m rid h nonce signature
              store s1 _ row task public Hrow Hkey Hunit
              (signed_parts_verify _ _ _ _ _ _ _ Hkeys Hbytes Hsig) Hrun) as (body & Hserved).
  { by eexists. } { done. } { by rewrite Htasks. }
  { destruct Hcommit as (text & E & _). unfold dhas, ahas. by rewrite E. }
  exists body, s1. split; [done|].
  rewrite (reveal_served _ _ _ _ _ _ _ _ _ _ _ _ _ _ _ (participated_row row (now_commit 0%nat) (n + 1)) public); [|done| | |].
  - apply (honest_reveal settings s1 s1 t m rid' nonce p (now_reveal 0%nat) ip ua
             (participated_row row (now_commit 0%nat) (n + 1))); [|lia| | | |done|done|].
    + replace s1 with (commit_submission t m rid h nonce (now_commit 0%nat) ip ua store).2 by (by rewrite Hrun).
      by apply commit_moves.
    + exists task, publish, reveal_deadline. rewrite Htasks. split_and!; [done|done|by apply deadline_field|lia|lia].
    + apply (refresh_known _ _ _ _ _ _ "economic_unit_id" unit Hrow1).
      * by rewrite participated_get.
      * by apply participated_known.
    + unfold dhas, ahas. by rewrite participated_get, Eu.
    + by rewrite Hidx.
  - by rewrite participated_get.
  - unfold dhas, ahas. by rewrite participated_get, Eu.
  - by apply (signed_parts_verify eth_keys signer (private_key wallet) public bytes).
Qed.
Lemma commit_and_reveal_records (w1 : World FakeRepository) :
  remote w1 = store ->
  forecast_of (t, m)
    (remote (commit_and_reveal net signer getenv clock token_hex rpc_url wallet task prediction config p w1).2) = Some p.
Proof.
  intros Hw. pose proof prediction_range as Hr. edestruct Hsigns as (signature & Hsig). edestruct Hsigns as (signature' & Hsig').
  edestruct commit_then_reveal as (body & s1 & Hc & Hf); [apply (Hfresh ":commit:")|apply (Hfresh ":reveal:")
    |apply request_ids_differ|exact Hsig|exact Hsig'|].
  destruct (served now_reveal _ s1) as [reply s2] eqn:Hreply in Hf.
  erewrite (commit_and_reveal_steps w1 signature signature' (seen (Ok (200, body))) body s1 (seen reply) s2);
    [rewrite finish_remote; exact Hf|exact Hsig|exact Hsig'| |done|].
  - by rewrite (carries_commit _ _ _ _ _ _ _ _ _ _ _ _ Hnet), Hw, Hc.
  - by rewrite (carries_reveal _ _ _ _ _ _ _ _ _ _ _ _ Hnet), Hreply by lia.
Qed.

Lemma mining_records :
  forecast_of (t, m)
    (remote (mine_task net signer getenv exec root schema out clock token_hex rpc_url wallet config card w).2) = Some p.
Proof. rewrite round_commits. by apply commit_and_reveal_records. Qed.
End First.

(** *** A task that the miner has already revealed *)

Section Again.
Context (sub : dict).
Hypothesis (Hsub : aget (t, m) (_submissions store) = Some sub).
Hypothesis (Hcommitted : has_commit sub = true).
Hypothesis (Hrevealed : is_revealed sub = true).
Hypothesis (Hasset : dhas task "asset" = true).

Lemma submission_found : get_submission t m store = (Ok (Some sub), store).
Proof. unfold get_submission, sgets. rewrite Hsub. unfold has_commit in Hcommitted. by destruct sub. Qed.

(** What the two handlers find before they look at the submission. *)
Lemma task_found : require (get_task t) "task not found" store = (Ok task, store).
Proof.
  unfold require. by rewrite (sbind_run _ _ store (Some task) store) by by apply (row_found _ _ _ _ _ _ Htask Hid).
Qed.
Lemma miner_found : require (get_miner m) "miner not registered" store = (Ok row, store).
Proof.
  unfold require. by rewrite (sbind_run _ _ store (Some row) store) by by apply (row_found _ _ _ _ _ _ Hrow Hkey).
Qed.

Lemma commit_again rid h nonce :
  commit_submission t m rid h nonce (now_commit 0%nat) ip ua store = (Err (ValueError "already committed"), store).
Proof.
  assert (E1 : (now_commit 0%nat <? publish) = false) by lia.
  assert (E2 : (commit_deadline <? now_commit 0%nat) = false) by lia.
  unfold commit_submission. rewrite (sbind_run _ _ _ _ _ task_found).
  rewrite (sbind_run _ _ store publish store) by (unfold slift; by rewrite Hpublish).
  rewrite (sbind_run _ _ store tt store) by (unfold reject_if; by rewrite E1).
  rewrite (sbind_run _ _ store commit_deadline store) by (unfold slift; by rewrite (deadline_field _ _ Hcommit)).
  rewrite (sbind_run _ _ store tt store) by (unfold reject_if; by rewrite E2).
  rewrite (sbind_run _ _ _ _ _ miner_found).
  rewrite (sbind_run _ _ store row store) by by apply (refresh_known _ _ _ _ _ _ _ _ Hrow Hkey).
  rewrite (sbind_run _ _ _ _ _ submission_found). by rewrite Hcommitted.
Qed.

Lemma reveal_again rid nonce :
  reveal_submission settings t m rid p nonce (now_reveal 0%nat) ip ua store = (Err (ValueError "already revealed"), store).
Proof.
  assert (E1 : (now_reveal 0%nat <? publish) = false) by lia.
  assert (E2 : (reveal_deadline <? now_reveal 0%nat) = false) by lia.
  unfold dhas, ahas in Hunit. destruct (aget "economic_unit_id" row) as [unit|] eqn:Eu; [|done].
  unfold reveal_submission. cbv zeta. rewrite (sbind_run _ _ _ _ _ task_found).
  rewrite (sbind_run _ _ store publish store) by (unfold slift; by rewrite Hpublish).
  rewrite (sbind_run _ _ store tt store) by (unfold reject_if; by rewrite E1).
  rewrite (sbind_run _ _ store reveal_deadline store) by (unfold slift; by rewrite (deadline_field _ _ Hreveal)).
  rewrite (sbind_run _ _ store tt store) by (unfold reject_if; by rewrite E2).
  rewrite (sbind_run _ _ _ _ _ miner_found).
  rewrite (sbind_run _ _ store row store) by by apply (refresh_known _ _ _ _ _ _ _ _ Hrow Hkey).
  rewrite (sbind_run _ _ store unit store) by (unfold slift, dgetitem; by rewrite Eu).
  rewrite (sbind_run _ _ _ _ _ submission_found).
  rewrite (sbind_run _ _ store sub store) by (by rewrite Hcommitted). by rewrite Hrevealed.
Qed.

(** Both answers are 409, which the client takes for a success with a body. *)
Lemma repeated_round_raises (w1 : World FakeRepository) :
  remote w1 = store ->
  (commit_and_reveal net signer getenv clock token_hex rpc_url wallet task prediction config p w1).1 = Err (KeyError "data").
Proof.
  intros Hw. pose proof prediction_range as Hr. destruct Hpublic as (bytes & Hbytes).
  set (nonce := token_hex (tokens_drawn w1) 8). set (h := compute_commit_hash t m p nonce).
  set (rid := "req:" +:+ t +:+ ":commit:" +:+ token_hex (S (tokens_drawn w1)) 4).
  set (rid' := "req:" +:+ t +:+ ":reveal:" +:+ token_hex (S (S (tokens_drawn w1))) 4).
  destruct (Hsigns [t; h; nonce; m; rid]) as (signature & Hsig).
  destruct (Hsigns [t; string_of_Z p; nonce; m; rid']) as (signature' & Hsig').
  pose proof (commit_refused eth_keys ripemd160 str_exc app utc_now headers host now_commit t m rid h nonce signature store row
    public _ Hrow Hkey Hunit (signed_parts_verify _ _ _ _ _ _ _ Hkeys Hbytes Hsig) (commit_again rid h nonce)) as Hc.
  pose proof (reveal_refused eth_keys ripemd160 str_exc app utc_now headers host now_reveal t m rid' p nonce signature' store row
    public _ Hrow Hkey Hunit (signed_parts_verify _ _ _ _ _ _ _ Hkeys Hbytes Hsig') (reveal_again rid' nonce)) as Hf.
  erewrite (commit_and_reveal_steps w1 signature signature' _ _ store _ store); [|exact Hsig|exact Hsig'| | |].
  2: { rewrite (carries_commit _ _ _ _ _ _ _ _ _ _ _ _ Hnet), Hw. fold nonce h rid. rewrite Hc. reflexivity. }
  2: { reflexivity. }
  2: { rewrite (carries_reveal _ _ _ _ _ _ _ _ _ _ _ _ Hnet) by lia. fold nonce rid'. rewrite Hf. reflexivity. }
  unfold finish. unfold sbind at 1, or_else at 1. cbn -[log_record append_log].
  unfold dhas, ahas in Hlane, Hasset. unfold log_record, dgetitem. rewrite Hid.
  destruct (aget "asset" task); [|done]. by destruct (aget "lane" task).
Qed.

Lemma repeated_task_raises :
  (mine_task net signer getenv exec root schema out clock token_hex rpc_url wallet config card w).1 = Err (KeyError "data").
Proof. rewrite round_commits. by apply repeated_round_raises. Qed.
End Again.
End Mining.

(** ** The promises *)

(** The wallet's key signs, and the public key is its own. *)
Record keys_work {Signature PublicKey} (eth_keys : EthKeys Signature PublicKey) (signer : PrivateKeys)
  (private_hex public : string) : Prop := {
  kw_match : keys_match eth_keys signer private_hex public;
  kw_signs parts : exists signature, sign_parts signer private_hex parts = Ok signature;
  kw_public : exists bytes, fromhex (str_removeprefix "0x" public) = Ok bytes
}.

(** The task is stored under its id with its dates. *)
Record stored_task (s : FakeRepository) (t : string) (task : dict) (publish commit_deadline reveal_deadline : Z) : Prop := {
  st_row : aget t (tab _tasks s) = Some task;
  st_id : aget "task_run_id" task = Some (VStr t);
  st_lane : dhas task "lane" = true;
  st_asset : dhas task "asset" = true;
  st_publish : parse_time_field task "publish_at" = Ok publish;
  st_commit : exists text, aget "commit_deadline" task = Some (VStr text) /\ parse_iso text = Ok commit_deadline;
  st_reveal : exists text, aget "reveal_deadline" task = Some (VStr text) /\ parse_iso text = Ok reveal_deadline
}.

(** The miner is registered with the key, from where the requests come. *)
Record known_miner (s : FakeRepository) (m : string) (row : dict) (public : string) (headers : list (string * string))
  (host : option string) : Prop := {
  km_row : aget m (tab _miners s) = Some row;
  km_key : aget "public_key" row = Some (VStr public);
  km_unit : dhas row "economic_unit_id" = true;
  km_commits : exists n, aget "forecast_commits" row = Some (VInt n);
  km_signals : known_signals row (ip_of headers host) (aget "user-agent"%string headers)
}.

(** The server handles the three requests within the windows of the task. *)
Definition handled_in_time (now_detail now_commit now_reveal : nat -> Z) (publish commit_deadline reveal_deadline : Z) : Prop :=
  publish <= now_detail 0%nat /\ publish <= now_commit 0%nat <= commit_deadline /\
  publish <= now_reveal 0%nat <= reveal_deadline.

(** The client can start its requests, predicts [p], and is early enough for the
    commit when it starts and when it has predicted. *)
Record ready_round (getenv : string -> option string)
  (exec : list string -> string -> Z -> res (CompletedProcess * res value)) (root schema out : string)
  (clock : nat -> Z) (reads : nat) (config card task : dict) (t : string) (commit_deadline p : Z) : Prop := {
  rr_card : aget "task_run_id" card = Some (VStr t);
  rr_timeout : exists timeout, resolve_request_timeout getenv config = Ok timeout;
  rr_early : exists min_remaining first second,
    resolve_min_commit_time_remaining getenv config = Ok min_remaining /\
    seconds_between commit_deadline (clock reads) = Ok first /\ py_lt (VFloat first) (VInt min_remaining) = Ok false /\
    seconds_between commit_deadline (clock (S reads)) = Ok second /\ fleb second fzero = false;
  rr_prediction : exists prediction,
    compute_prediction getenv exec root schema out task config = Ok prediction /\ aget "p_yes_bps" prediction = Some (VInt p)
}.

(** C14: a miner that runs the client is heard.  In every state that requests and
    loop iterations reach from an empty store, when a registered client mines a
    task in which it has no part yet, over a network that carries its requests to
    the server, and both are in time, then the store holds exactly the forecast
    that the client predicted.  The miner signs with the key it registered, its
    requests show the network signals on its row and draw ids that are new, and
    the range of the settings contains the one of the client (1500 to 8500). *)
Theorem mined_forecast_is_recorded {Signature PublicKey} (eth_keys : EthKeys Signature PublicKey) ripemd160 str_exc app utc_now
  headers host now_detail now_commit now_reveal net rpc_url signer getenv exec root schema out clock token_hex wallet config
  card task row w t public p publish commit_deadline reveal_deadline :
  delivers eth_keys ripemd160 str_exc app utc_now headers host now_detail now_commit now_reveal net rpc_url ->
  keys_work eth_keys signer (private_key wallet) public ->
  min_p_yes_bps (settings (service app)) <= 1500 /\ 8500 <= max_p_yes_bps (settings (service app)) ->
  rtc (server_step eth_keys ripemd160 str_exc app) empty_repository (remote w) ->
  stored_task (remote w) t task publish commit_deadline reveal_deadline ->
  known_miner (remote w) (address wallet) row public headers host ->
  aget (t, address wallet) (_submissions (remote w)) = None ->
  (forall kind k, aget ("req:" +:+ t +:+ kind +:+ token_hex k 4) (tab _request_index (remote w)) = None) ->
  handled_in_time now_detail now_commit now_reveal publish commit_deadline reveal_deadline ->
  ready_round getenv exec root schema out clock (clock_reads w) config card task t commit_deadline p ->
  forecast_of (t, address wallet)
    (remote (mine_task net signer getenv exec root schema out clock token_hex rpc_url wallet config card w).2) = Some p.
Proof.
  intros Hnet [] Hlimits Hs%(reachable_ok eth_keys ripemd160 str_exc app ltac:(lia)) [] [? ? ? (n & ?) ?] Hnew Hfresh Htimes
    [? (timeout & ?) (min_remaining & first & second & ? & ? & ? & ? & ?) (prediction & ? & ?)].
  by eapply mining_records.
Qed.

(** C39: a client that meets a task again stops.  When the windows of a task are
    open and the miner has revealed it, a round of the sequential client that
    starts with the task ends in [KeyError "data"]: both requests are answered
    with 409, which the client takes for an accepted request and then reads the
    missing body of. *)
Theorem repeated_task_stops_the_client {Signature PublicKey} (eth_keys : EthKeys Signature PublicKey) ripemd160 str_exc app
  utc_now headers host now_detail now_commit now_reveal net rpc_url signer getenv exec root schema out clock token_hex wallet
  config card others task row submission w t public p publish commit_deadline reveal_deadline :
  delivers eth_keys ripemd160 str_exc app utc_now headers host now_detail now_commit now_reveal net rpc_url ->
  keys_work eth_keys signer (private_key wallet) public ->
  stored_task (remote w) t task publish commit_deadline reveal_deadline ->
  known_miner (remote w) (address wallet) row public headers host ->
  aget (t, address wallet) (_submissions (remote w)) = Some submission ->
  has_commit submission = true -> is_revealed submission = true ->
  handled_in_time now_detail now_commit now_reveal publish commit_deadline reveal_deadline ->
  ready_round getenv exec root schema out clock (clock_reads w) config card task t commit_deadline p ->
  (mine_selected_tasks (card :: others) 1
     (mine_task net signer getenv exec root schema out clock token_hex rpc_url wallet config) w).1 = Err (KeyError "data").
Proof.
  intros Hnet [] [] [? ? ? (n & ?) ?] Hsub Hcommitted Hrevealed Htimes
    [? (timeout & ?) (min_remaining & first & second & ? & ? & ? & ? & ?) (prediction & ? & ?)].
  unfold mine_selected_tasks. cbv zeta. change (if 1 =? 0 then 1 else 1) with 1.
  replace (Z.max 1 (Z.min 1 (Z.of_nat (length (card :: others))))) with 1 by (cbn [length]; lia). change (1 =? 1) with true.
  assert (Hstop : (mine_task net signer getenv exec root schema out clock token_hex rpc_url wallet config card w).1
                  = Err (KeyError "data")) by by eapply repeated_task_raises.
  cbn [foldS]. unfold sbind.
  destruct (mine_task net signer getenv exec root schema out clock token_hex rpc_url wallet config card w) as [r w'].
  simpl in Hstop. by rewrite Hstop.
Qed.

(** ** Witnesses *)

Definition demo_signer : PrivateKeys := {| public_key_of := fun _ => Ok []; sign_msg_hash := fun _ _ => Ok [1] |}.
Definition demo_wallet : Wallet := {| address := first_miner; private_key := "01" |}.
Definition demo_host : option string := Some "10.0.0.1"%string.
Definition demo_token (k : nat) (n : Z) : string := string_of_Z (Z.of_nat k).
Definition demo_world (s : FakeRepository) : World FakeRepository :=
  {| remote := s; log_file := None; clock_reads := 0; tokens_drawn := 0 |}.

(** A network that reads the parameters off the path and the body. *)
Definition text_of (body : dict) (k : string) : string := match dget body k with VStr s => s | _ => "" end.
Definition demo_serve (now : Z) (e : Endpoint) : st FakeRepository HttpResponse :=
  fun s => let '(r, s') := serve demo_keys demo_rip demo_text run_app (fun _ => now) 0 e [] demo_host s in (Ok (seen r), s').
Definition demo_net : Requests FakeRepository :=
  {| requests_get := fun url _ => demo_serve 1000000 (GET_task_detail (str_removeprefix "rpc/v1/forecast/task-runs/" url));
     requests_post := fun url body _ =>
       let t := text_of body "task_run_id" in
       let m := text_of body "miner_id" in
       let rid := text_of body "request_id" in
       if String.eqb url ("rpc" +:+ "/v1/task-runs/" +:+ t +:+ "/commit")
       then demo_serve 1000000 (POST_commit t (commit_of t m rid (text_of body "commit_hash") (text_of body "nonce")
                                                 (text_of body "signature")))
       else demo_serve 5000000 (POST_reveal t (reveal_of t m rid (match dget body "p_yes_bps" with VInt p => p | _ => 0 end)
                                                 (text_of body "nonce") (text_of body "signature"))) |}.

Lemma drop_prefix_app p s : drop_prefix p (p ++ s) = Some s.
Proof. induction p as [|c p IH]; [done|]. simpl. by rewrite Ascii.eqb_refl. Qed.

Lemma demo_delivers :
  delivers demo_keys demo_rip demo_text run_app 0 [] demo_host (fun _ => 1000000) (fun _ => 1000000) (fun _ => 5000000)
    demo_net "rpc".
Proof.
  split.
  - intros t timeout s. cbn [requests_get demo_net].
    assert (E : str_removeprefix "rpc/v1/forecast/task-runs/" ("rpc" +:+ "/v1/forecast/task-runs/" +:+ t) = t).
    { unfold str_removeprefix. change ("rpc" +:+ "/v1/forecast/task-runs/" +:+ t) with ("rpc/v1/forecast/task-runs/" +:+ t).
      rewrite chars_app, drop_prefix_app. apply of_chars_chars. }
    by rewrite E.
  - intros t m rid h nonce signature timeout s. cbn [requests_post demo_net].
    change (text_of (commit_request t m rid h nonce signature) "task_run_id") with t. by rewrite String.eqb_refl.
  - intros t m rid p nonce signature timeout s _. cbn [requests_post demo_net].
    change (text_of (reveal_request t m rid p nonce signature) "task_run_id") with t.
    destruct (String.eqb_spec ("rpc" +:+ "/v1/task-runs/" +:+ t +:+ "/reveal") ("rpc" +:+ "/v1/task-runs/" +:+ t +:+ "/commit"))
      as [E|_]; [|done]. injection E as E%(inj (String.append t)). discriminate.
Qed.

Lemma demo_keys_work : keys_work demo_keys demo_signer "01" CryptoFacts.demo_key.
Proof.
  split; [|by eexists|].
  - intros key public h signature _ _ [= <-]. split; [by repeat constructor|]. by exists tt, tt, tt.
  - destruct (fromhex (str_removeprefix "0x" CryptoFacts.demo_key)) as [bytes|] eqn:E; [by exists bytes|].
    exfalso. vm_compute in E. discriminate E.
Qed.

(** The task and the miner of the run of ProtocolRuns. *)
Definition demo_task_row : dict := Eval vm_compute in default [] (aget run_task (tab _tasks run_open)).
Definition demo_row : dict := Eval vm_compute in default [] (aget first_miner (tab _miners run_open)).

Lemma demo_open_rows :
  aget run_task (tab _tasks run_open) = Some demo_task_row /\ aget first_miner (tab _miners run_open) = Some demo_row /\
  _submissions run_open = [] /\ tab _request_index run_open = [].
Proof. vm_compute. done. Qed.

Lemma demo_stored s :
  aget run_task (tab _tasks s) = Some demo_task_row -> stored_task s run_task demo_task_row 0 3000000 13000000.
Proof.
  intros H. split; [done..| | |]; [reflexivity|eexists; split; reflexivity|eexists; split; reflexivity].
Qed.

Lemma demo_known s :
  aget first_miner (tab _miners s) = Some demo_row ->
  known_miner s first_miner demo_row CryptoFacts.demo_key [] demo_host.
Proof. intros H. split; [done..|by eexists|]. do 2 eexists. split_and!; reflexivity. Qed.

Lemma demo_in_time : handled_in_time (fun _ => 1000000) (fun _ => 1000000) (fun _ => 5000000) 0 3000000 13000000.
Proof. unfold handled_in_time. lia. Qed.

Definition demo_exec (cmd : list string) (input : string) (timeout : Z) : res (CompletedProcess * res value) := Err TimeoutError.
Definition demo_card : dict := [("task_run_id", VStr run_task)].
Definition demo_prediction : Z := Eval vm_compute in
  match compute_prediction (fun _ => None) demo_exec "" "" "" demo_task_row [] with
  | Ok d => match dget d "p_yes_bps" with VInt p => p | _ => 0 end
  | Err _ => 0
  end.

Lemma demo_deliverable :
  ready_round (fun _ => None) demo_exec "" "" "" (fun _ => 1000000) 0 [] demo_card demo_task_row
    run_task 3000000 demo_prediction.
Proof.
  split; [done|by eexists| |].
  - do 3 eexists. split_and!; vm_compute; reflexivity.
  - eexists. split; vm_compute; reflexivity.
Qed.

Lemma mined_forecast_is_recorded_witness :
  handled_in_time (fun _ => 1000000) (fun _ => 1000000) (fun _ => 5000000) 0 3000000 13000000 /\
  forecast_of (run_task, first_miner)
    (remote (mine_task demo_net demo_signer (fun _ => None) demo_exec "" "" "" (fun _ => 1000000) demo_token "rpc" demo_wallet []
               demo_card (demo_world run_open)).2) = Some demo_prediction.
Proof.
  pose proof run_open_reachable as Hrun. destruct demo_open_rows as (Ht & Hm & Hsubs & Hindex). revert Hrun Ht Hm Hsubs Hindex.
  generalize run_open. intros s Hrun Ht Hm Hsubs Hindex.
  assert (Hnew : aget (run_task, first_miner) (_submissions s) = None) by (rewrite Hsubs; reflexivity).
  assert (Hfresh : forall kind k, aget ("req:" +:+ run_task +:+ kind +:+ demo_token k 4) (tab _request_index s) = None)
    by (intros kind k; rewrite Hindex; reflexivity).
  exact (conj demo_in_time
    (mined_forecast_is_recorded demo_keys demo_rip demo_text run_app 0 [] demo_host (fun _ => 1000000) (fun _ => 1000000)
       (fun _ => 5000000) demo_net "rpc" demo_signer (fun _ => None) demo_exec "" "" "" (fun _ => 1000000) demo_token demo_wallet []
       demo_card demo_task_row demo_row (demo_world s) run_task CryptoFacts.demo_key demo_prediction 0 3000000 13000000
       demo_delivers demo_keys_work (conj (Z.le_refl 1500) (Z.le_refl 8500)) Hrun (demo_stored s Ht)
       (demo_known s Hm) Hnew Hfresh demo_in_time demo_deliverable)).
Defined.

Definition demo_submission : dict := [("commit_hash", VStr "h"); ("p_yes_bps", VInt 6000); ("state", VStr "revealed")].
Definition demo_met : FakeRepository := set_submissions [((run_task, first_miner), demo_submission)] run_open.

Lemma repeated_task_stops_the_client_witness :
  aget (run_task, first_miner) (_submissions demo_met) = Some demo_submission /\
  (mine_selected_tasks [demo_card] 1
     (mine_task demo_net demo_signer (fun _ => None) demo_exec "" "" "" (fun _ => 1000000) demo_token "rpc" demo_wallet [])
     (demo_world demo_met)).1 = Err (KeyError "data").
Proof.
  unfold demo_met. destruct demo_open_rows as (Ht & Hm & _). revert Ht Hm. generalize run_open. intros s Ht Hm.
  set (met := set_submissions _ s).
  exact (conj eq_refl
    (repeated_task_stops_the_client demo_keys demo_rip demo_text run_app 0 [] demo_host (fun _ => 1000000) (fun _ => 1000000)
       (fun _ => 5000000) demo_net "rpc" demo_signer (fun _ => None) demo_exec "" "" "" (fun _ => 1000000) demo_token demo_wallet []
       demo_card [] demo_task_row demo_row demo_submission (demo_world met) run_task CryptoFacts.demo_key demo_prediction 0 3000000
       13000000 demo_delivers demo_keys_work (demo_stored met Ht) (demo_known met Hm) eq_refl eq_refl eq_refl
       demo_in_time demo_deliverable)).
Defined.
