(* ===== verification/Standings.v ===== *)
(** * Complete standings of a tournament ([scripts/poker_mtt/complete_standings.py])

    The standings are put together from three Redis keys: the snapshots of the
    players, the players who are alive in their order, and the list of those who
    died.  What the keys hold is an argument, decoded as text; the rows are
    numbered after they are sorted, so each takes its rank by its position. *)
From Stdlib Require Import ZArith Lia Ascii String SpecFloat Permutation Sorted.
From stdpp Require Import base list strings sorting sets.
From S2P Require Import Prelude PyText PyFloat PyValue Canonical Json.
Open Scope Z_scope.

Definition to_display_rank (zero_based_rank : option Z) : option Z := option_map (fun n => n + 1) zero_based_rank.

Definition decode_json_object (v : value) : res dict :=
  match v with
  | VDict d => Ok d
  | VStr s =>
      let? payload := json_loads s in
      match payload with VDict d => Ok d | _ => Err (ValueError "expected JSON object") end
  | _ => Err (ValueError "expected JSON object")
  end.

Definition to_int (v : value) : res (option Z) :=
  match v with
  | VNone => Ok None
  | VBool b => Ok (Some (if b then 1 else 0))
  | VInt n => Ok (Some n)
  | VFloat x => let? n := f_trunc x in Ok (Some n)
  | VStr s => Ok (Z_of_string s)
  | VTime _ | VList _ | VDict _ => Ok None
  end.

(** [x.is_integer()] *)
Definition is_integer (x : float) : bool :=
  match x with
  | S754_zero _ => true
  | S754_finite _ _ _ => let '(n, d) := f_ratio x in n mod d =? 0
  | _ => false
  end.

(** [int(x) if x.is_integer() else x] *)
Definition integer_or_float (x : float) : res value :=
  if is_integer x then let? n := f_trunc x in Ok (VInt n) else Ok (VFloat x).

Definition to_number (v : value) : res value :=
  match v with
  | VNone => Ok VNone
  | VBool b => Ok (VInt (if b then 1 else 0))
  | VInt n => Ok (VInt n)
  | VFloat x => integer_or_float x
  | VStr s =>
      let text := str_strip s in
      if String.eqb text "" then Ok VNone
      else match Z_of_string text with
           | Some n => Ok (VInt n)
           | None => match float_of_string text with Some x => integer_or_float x | None => Ok VNone end
           end
  | VTime _ | VList _ | VDict _ => Ok VNone
  end.

Definition text_or_none (s : string) : option string := if String.eqb s "" then None else Some s.

Definition normalize_string (v : value) : res (option string) :=
  match v with
  | VNone => Ok None
  | v => let? text := py_str v in Ok (text_or_none text)
  end.

(** [s.partition(":")]: what comes before the first colon and after it. *)
Fixpoint partition_colon (l : list ascii) : list ascii * list ascii :=
  match l with
  | [] => ([], [])
  | c :: l => if Ascii.eqb c ":"%char then ([], l) else let '(a, b) := partition_colon l in (c :: a, b)
  end.

Definition parse_member_id (member_id : string) : option string * option Z :=
  if String.eqb member_id "" then (None, None)
  else
    let '(user_id, entry_part) := partition_colon (chars member_id) in
    (text_or_none (of_chars user_id), Z_of_string (of_chars entry_part)).

Definition build_member_id (user_id entry_number : value) : res (option string) :=
  let? normalized_user := normalize_string user_id in
  let? normalized_entry := to_int entry_number in
  Ok (match normalized_user, normalized_entry with
      | Some user, Some entry => Some (user +:+ ":" +:+ string_of_Z entry)
      | _, _ => None
      end).

Definition or_none {A} (f : A -> value) (o : option A) : value := match o with Some a => f a | None => VNone end.
Definition or_some {A} (a b : option A) : option A := match a with Some a => Some a | None => b end.

Definition normalize_entry (entry : dict) (member_id : option string) (status : string) (display_rank : option Z)
  (alive_rank_zero_based died_rank_internal : option Z) (zset_score : value) (snapshot_found : bool) : res dict :=
  let '(parsed_user_id, parsed_entry_number) := parse_member_id (default "" member_id) in
  let? user_id := normalize_string (dget entry "userID") in
  let user_id := or_some user_id parsed_user_id in
  let? entry_number := to_int (dget entry "entryNumber") in
  let entry_number := or_some entry_number parsed_entry_number in
  let? normalized_member_id := match text_or_none (default "" member_id) with
                               | Some id => Ok (Some id)
                               | None => build_member_id (or_none VStr user_id) (or_none VInt entry_number)
                               end in
  let? player_name := normalize_string (dget entry "playerName") in
  let? room_id := normalize_string (dget entry "roomID") in
  let? start_chip := to_number (dget entry "startChip") in
  let? end_chip := to_number (dget entry "endChip") in
  let? died_time := normalize_string (dget entry "diedTime") in
  let? stand_up_status := normalize_string (dget entry "standUpStatus") in
  Ok [("rank", VNone);
      ("display_rank", or_none VInt display_rank);
      ("status", VStr status);
      ("member_id", or_none VStr normalized_member_id);
      ("user_id", or_none VStr user_id);
      ("entry_number", or_none VInt entry_number);
      ("player_name", or_none VStr player_name);
      ("room_id", or_none VStr room_id);
      ("start_chip", start_chip);
      ("end_chip", end_chip);
      ("died_time", or_none VStr died_time);
      ("stand_up_status", or_none VStr stand_up_status);
      ("alive_rank_zero_based", or_none VInt alive_rank_zero_based);
      ("died_rank_internal", or_none VInt died_rank_internal);
      ("zset_score", zset_score);
      ("snapshot_found", VBool snapshot_found)].

(** [10**12], the order of what has no number. *)
Definition last_order : Z := 10 ^ 12.

Definition member_sort_key (member_id : string) : res (list value) :=
  let '(user_id, entry_number) := parse_member_id member_id in
  let? user_order := to_int (or_none VStr user_id) in
  Ok [VInt (default last_order user_order); VInt (default last_order entry_number); VStr member_id].

(** [to_int(v) or 10**12] *)
Definition display_order (v : value) : res Z :=
  let? n := to_int v in
  Ok (match n with Some n => if n =? 0 then last_order else n | None => last_order end).

(** [normalize_string(item.get("member_id")) or ""] *)
Definition member_id_of (item : dict) : res string :=
  let? member_id := normalize_string (dget item "member_id") in Ok (default "" member_id).

(** ** Payout ranks *)

Definition stands_ranked (item : dict) : bool :=
  in_strings (dget item "status") ["alive"; "died"] && negb (is_none (dget item "display_rank")).

(** [-float(start_chip) if item.get("status") == "died" else 0.0]; sorting by a
    NaN has no definite result. *)
Definition died_start_chip_order (item : dict) (start_chip : value) : res float :=
  if py_eq_str (dget item "status") "died" then
    let? chip := py_float start_chip in
    match chip with S754_nan => Err (Unmodelled "sorting by NaN") | _ => Ok (fneg chip) end
  else Ok (f_of_Z 0).

(** The inner tuple of the member is appended: the tuples have one length. *)
Definition payout_sort_key (item : dict) : res (list value) :=
  let? display_rank := display_order (dget item "display_rank") in
  let? start_chip := to_number (dget item "start_chip") in
  let? chip_order := died_start_chip_order item (por start_chip (VInt 0)) in
  let? member_id := member_id_of item in
  let? member_order := member_sort_key member_id in
  Ok (VInt display_rank :: VFloat chip_order :: member_order).

Definition set_rank (r : value) (item : dict) : dict := dset item "rank" r.

(** [item["rank"] = payout_rank] for the items at the given positions, in turn. *)
Fixpoint number_rows (payout_rank : Z) (positions : list nat) (rows : list dict) : list dict :=
  match positions with
  | [] => rows
  | i :: positions => number_rows (payout_rank + 1) positions (alter (set_rank (VInt payout_rank)) i rows)
  end.

Definition assign_unique_payout_ranks (standings : list dict) : res (list dict) :=
  let rows := map (set_rank VNone) standings in
  let ranked := List.filter (fun p => stands_ranked p.2) (zip (seq 0 (length rows)) rows) in
  let? sorted := py_sort tuple_lt (fun p => payout_sort_key p.2) false ranked in
  Ok (number_rows 1 (map fst sorted) rows).

Definition final_standing_sort_key (item : dict) : res (list value) :=
  let? rank := to_int (dget item "rank") in
  let? member_id := member_id_of item in
  let? member_order := member_sort_key member_id in
  match rank with
  | Some rank => Ok (VInt 0 :: VInt rank :: member_order)
  | None =>
      let? display_rank := display_order (dget item "display_rank") in
      Ok (VInt 1 :: VInt display_rank :: member_order)
  end.

(** ** The standings *)

Section Build.
Context (decoded_snapshot_map : list (string * dict)).

Fixpoint alive_rows (alive_scores : list (string * float)) (alive_rank_zero_based : Z) (alive_members : list string)
  : res (list dict) :=
  match alive_members with
  | [] => Ok []
  | member_id :: alive_members =>
      let? row := normalize_entry (default [] (aget member_id decoded_snapshot_map)) (Some member_id) "alive"
                    (to_display_rank (Some alive_rank_zero_based)) (Some alive_rank_zero_based) None
                    (or_none VFloat (aget member_id alive_scores)) (ahas member_id decoded_snapshot_map) in
      let? rows := alive_rows alive_scores (alive_rank_zero_based + 1) alive_members in
      Ok (row :: rows)
  end.

(** The counters of the loop over those who died. *)
Record Died := mkDied {
  died_rank : Z;
  same_count : Z;
  last_internal_rank : option Z;
  fallback_rank : Z
}.

Definition next_display_rank (c : Died) (internal_rank : option Z) : Z * Died :=
  match internal_rank with
  | None =>
      let fallback := fallback_rank c + 1 in
      (fallback, mkDied (died_rank c) (same_count c) (last_internal_rank c) fallback)
  | Some r =>
      if bool_decide (last_internal_rank c = Some r)
      then (died_rank c, mkDied (died_rank c) (same_count c + 1) (last_internal_rank c) (fallback_rank c))
      else
        let d := died_rank c + same_count c in
        (d, mkDied d 1 (Some r) (Z.max (fallback_rank c) d))
  end.

Definition seen_option (member_id : option string) (seen : list string) : bool :=
  match member_id with Some id => existsb (String.eqb id) seen | None => false end.

(** The rows of those who died, and the members seen after them. *)
Fixpoint died_rows (c : Died) (seen : list string) (died_entries : list value) : res (list dict * list string) :=
  match died_entries with
  | [] => Ok ([], seen)
  | raw_entry :: died_entries =>
      let? died_entry := decode_json_object raw_entry in
      let? member_id := build_member_id (dget died_entry "userID") (dget died_entry "entryNumber") in
      if seen_option member_id seen then died_rows c seen died_entries
      else
        let? internal_rank := to_int (dget died_entry "rank") in
        let '(display_rank, c) := next_display_rank c internal_rank in
        let snapshot := default [] (aget (default "" member_id) decoded_snapshot_map) in
        let merged_entry := dupdate snapshot died_entry in
        let? row := normalize_entry merged_entry member_id "died" (Some display_rank) None internal_rank VNone
                      (match member_id with Some id => ahas id decoded_snapshot_map | None => false end) in
        let? (rows, seen) := died_rows c (match member_id with Some id => id :: seen | None => seen end) died_entries in
        Ok (row :: rows, seen)
  end.

Definition pending_row (member_id : string) : res dict :=
  let? snapshot := of_option (aget member_id decoded_snapshot_map) (KeyError member_id) in
  normalize_entry snapshot (Some member_id) "pending" None None None VNone true.
End Build.

Definition unranked_standings (snapshot_map : list (string * dict)) (alive_members : list string)
  (died_entries : list value) (alive_scores : list (string * float)) : res (list dict) :=
  let? alive := alive_rows snapshot_map alive_scores 0 alive_members in
  let n := Z.of_nat (length alive_members) in
  let? (died, seen) := died_rows snapshot_map (mkDied n 1 None n) alive_members died_entries in
  let? members := py_sort tuple_lt member_sort_key false (akeys snapshot_map) in
  let? pending := mapR (pending_row snapshot_map)
                    (List.filter (fun id => negb (existsb (String.eqb id) seen)) members) in
  Ok (alive ++ died ++ pending).

Definition build_complete_standings (snapshot_map : list (string * value)) (alive_members : list string)
  (died_entries : list value) (alive_scores : list (string * float)) : res (list dict) :=
  let? decoded := mapR (fun kv => let? d := decode_json_object kv.2 in Ok (kv.1, d)) snapshot_map in
  let? standings := unranked_standings decoded alive_members died_entries alive_scores in
  let? standings := assign_unique_payout_ranks standings in
  py_sort tuple_lt final_standing_sort_key false standings.

(** What the three keys hold: the hash of the snapshots, the sorted set of the
    alive with their scores from the highest down, the list of those who died. *)
Record RankingKeys := mkRankingKeys {
  hgetall : string -> list (string * value);
  zrevrange : string -> list (string * float);
  lrange : string -> list value
}.

Definition fetch_complete_standings (redis : RankingKeys) (mtt_id game_type : string) : res dict :=
  let snapshot_key := "rankingUserInfo:" +:+ game_type +:+ ":" +:+ mtt_id in
  let alive_key := "rankingNotDiedScore:" +:+ game_type +:+ ":" +:+ mtt_id in
  let died_key := "rankingUserDiedInfo:" +:+ game_type +:+ ":" +:+ mtt_id in
  let snapshot_map := hgetall redis snapshot_key in
  let alive_items := zrevrange redis alive_key in
  let alive_members := map fst alive_items in
  let died_entries := lrange redis died_key in
  let? standings := build_complete_standings snapshot_map alive_members died_entries (aupdate [] alive_items) in
  Ok [("mtt_id", VStr mtt_id);
      ("game_type", VStr game_type);
      ("keys", VDict [("snapshot_key", VStr snapshot_key); ("alive_key", VStr alive_key); ("died_key", VStr died_key)]);
      ("counts", VDict
         [("snapshot_count", VInt (Z.of_nat (length snapshot_map)));
          ("alive_count", VInt (Z.of_nat (length alive_members)));
          ("died_count", VInt (Z.of_nat (length died_entries)));
          ("pending_count", VInt (Z.of_nat (length (List.filter (fun item => py_eq_str (dget item "status") "pending") standings))));
          ("standings_count", VInt (Z.of_nat (length standings)))]);
      ("standings", VList (map VDict standings))].

(** ** Lemmas: the fields of a row *)

Lemma normalize_entry_fields entry member_id status display_rank alive_rank died_rank zset_score snapshot_found row :
  normalize_entry entry member_id status display_rank alive_rank died_rank zset_score snapshot_found = Ok row ->
  dget row "rank" = VNone /\ dget row "status" = VStr status /\
  dget row "display_rank" = or_none VInt display_rank.
Proof.
  unfold normalize_entry. destruct (parse_member_id (default "" member_id)) as [u e]. intros H.
  repeat (apply rbind_ok in H as (? & _ & H)). by injection H as <-.
Qed.

Lemma normalize_entry_member entry id status display_rank alive_rank died_rank zset_score snapshot_found row :
  normalize_entry entry (Some id) status display_rank alive_rank died_rank zset_score snapshot_found = Ok row ->
  id <> "" -> dget row "member_id" = VStr id.
Proof.
  unfold normalize_entry. destruct (parse_member_id (default "" (Some id))) as [u e]. intros H Hid.
  do 2 (apply rbind_ok in H as (? & _ & H)).
  apply rbind_ok in H as (o & Ho & H). repeat (apply rbind_ok in H as (? & _ & H)).
  unfold text_or_none in Ho. cbn in Ho.
  destruct (String.eqb_spec id ""); [done|]. injection Ho as <-. by injection H as <-.
Qed.

Lemma normalize_string_again v o :
  normalize_string v = Ok o -> normalize_string (or_none VStr o) = Ok o.
Proof.
  unfold normalize_string, text_or_none. destruct v; intros H; ok_inv; simpl; try done;
    (destruct (String.eqb _ "") eqn:E; simpl; [done|by rewrite ?E]).
Qed.

(** A death that names no member leaves a row without one. *)
Lemma normalize_entry_anonymous entry status display_rank alive_rank died_rank zset_score snapshot_found row :
  build_member_id (dget entry "userID") (dget entry "entryNumber") = Ok None ->
  normalize_entry entry None status display_rank alive_rank died_rank zset_score snapshot_found = Ok row ->
  dget row "member_id" = VNone.
Proof.
  unfold normalize_entry, build_member_id. cbn [default from_option parse_member_id text_or_none].
  change (parse_member_id "") with (@None string, @None Z). cbn iota.
  intros Hb H. apply rbind_ok in Hb as (u & Hu & Hb). apply rbind_ok in Hb as (e & He & Hb).
  rewrite Hu, He in H. cbn [rbind] in H.
  assert (Hu' : or_some u (@None string) = u) by (by destruct u).
  assert (He' : or_some e (@None Z) = e) by (by destruct e).
  rewrite Hu', He' in H. apply rbind_ok in H as (o & Ho & H).
  change (text_or_none (default "" None)) with (@None string) in Ho. cbn iota in Ho.
  rewrite (normalize_string_again _ _ Hu) in Ho. cbn [rbind] in Ho.
  assert (He2 : to_int (or_none VInt e) = Ok e) by (by destruct e).
  rewrite He2 in Ho. cbn [rbind] in Ho. rewrite Hb in Ho.
  repeat (apply rbind_ok in H as (? & _ & H)). injection H as <-. by injection Ho as <-.
Qed.

Lemma build_member_id_nonempty u e id : build_member_id u e = Ok (Some id) -> id <> "".
Proof.
  unfold build_member_id. intros H. apply rbind_ok in H as (u' & _ & H). apply rbind_ok in H as (e' & _ & H).
  destruct u' as [user|], e' as [entry|]; try done. injection H as <-. by destruct user.
Qed.

(** ** Lemmas: numbering the rows *)

Lemma number_rows_member k positions rows :
  map (fun r => dget r "member_id") (number_rows k positions rows) = map (fun r => dget r "member_id") rows.
Proof.
  revert k rows. induction positions as [|i positions IH]; intros k rows; cbn [number_rows]; [done|].
  rewrite IH. clear IH. revert i. induction rows as [|r rows IH]; intros [|i]; cbn; [done..| |].
  - f_equal. unfold set_rank. by rewrite dget_dset.
  - f_equal. apply IH.
Qed.

Lemma number_rows_length k positions rows : length (number_rows k positions rows) = length rows.
Proof.
  revert k rows. induction positions as [|i positions IH]; intros k rows; cbn [number_rows]; [done|].
  by rewrite IH, length_alter.
Qed.

(** What stands at a position after the numbering. *)
Lemma number_rows_lookup k positions rows j r' :
  number_rows k positions rows !! j = Some r' ->
  exists r, rows !! j = Some r /\
    ((j ∈ positions /\ (exists n, dget r' "rank" = VInt n)) \/ ((j ∉ positions) /\ dget r' "rank" = dget r "rank")) /\
    (forall f, f <> "rank" -> dget r' f = dget r f).
Proof.
  revert k rows. induction positions as [|i positions IH]; intros k rows H; cbn [number_rows] in H.
  { exists r'. split_and!; [done| |done]. right. split; [apply not_elem_of_nil|done]. }
  destruct (IH _ _ H) as (r & Hr & Hrank & Hf). clear IH H.
  destruct (decide (i = j)) as [->|Hij]; [rewrite list_lookup_alter_eq in Hr|rewrite list_lookup_alter_ne in Hr by done].
  - destruct (rows !! j) as [r0|] eqn:E; [|done]. injection Hr as <-. exists r0. split_and!; [done| |].
    + left. split; [by apply list_elem_of_here|]. destruct Hrank as [[_ Hn]|[_ ->]]; [done|].
      exists k. unfold set_rank. by rewrite dget_dset.
    + intros f Hne. rewrite Hf by done. unfold set_rank. rewrite dget_dset.
      by destruct (String.eqb_spec f "rank").
  - exists r. split_and!; [done| |done]. destruct Hrank as [[Hin Hn]|[Hin Hn]]; [left|right];
      rewrite elem_of_cons; naive_solver.
Qed.

Lemma alter_middle {A} (f : A -> A) (l : list A) i x :
  l !! i = Some x -> l = take i l ++ x :: drop (S i) l /\ alter f i l = take i l ++ f x :: drop (S i) l.
Proof.
  revert i. induction l as [|y l IH]; intros [|i] H; simpl in H; try done.
  - by injection H as ->.
  - destruct (IH i H) as [H1 H2]. cbn. split; f_equal; [exact H1|exact H2].
Qed.

(** The ranks handed out are consecutive, and the others stay [None]. *)
Lemma number_rows_ranks k positions rows :
  NoDup positions -> (forall i, i ∈ positions -> exists r, rows !! i = Some r /\ dget r "rank" = VNone) ->
  exists rest, Permutation (map (fun r => dget r "rank") rows) (repeat VNone (length positions) ++ rest) /\
    Permutation (map (fun r => dget r "rank") (number_rows k positions rows))
      (map (fun i => VInt (k + Z.of_nat i)) (seq 0 (length positions)) ++ rest).
Proof.
  revert k rows. induction positions as [|i positions IH]; intros k rows Hnd Hpos; cbn [number_rows].
  { by exists (map (fun r => dget r "rank") rows). }
  apply NoDup_cons in Hnd as [Hi Hnd]. destruct (Hpos i) as (r & Hr & Hnone); [by apply list_elem_of_here|].
  destruct (alter_middle (set_rank (VInt k)) rows i r Hr) as [Hsplit Halt].
  destruct (IH (k + 1) (alter (set_rank (VInt k)) i rows) Hnd) as (rest & H1 & H2).
  { intros j Hj. destruct (Hpos j) as (q & Hq & Hqn); [by apply list_elem_of_further|].
    exists q. split; [|done]. rewrite list_lookup_alter_ne; [done|]. by intros <-. }
  assert (Hin : VInt k ∈ rest).
  { assert (VInt k ∈ map (fun r => dget r "rank") (alter (set_rank (VInt k)) i rows)) as Hk.
    { rewrite Halt, map_app. cbn [map]. unfold set_rank at 1. rewrite dget_dset.
      apply elem_of_app. right. apply list_elem_of_here. }
    rewrite H1 in Hk. apply elem_of_app in Hk as [Hk|Hk]; [|done].
    by apply list_elem_of_In, repeat_spec in Hk. }
  apply elem_of_Permutation in Hin as (rest' & Hrest). exists rest'. split.
  - rewrite Halt, map_app in H1. cbn [map] in H1. unfold set_rank at 1 in H1. rewrite dget_dset in H1.
    cbn [String.eqb] in H1.
    rewrite Hrest in H1. rewrite <- !Permutation_middle in H1. apply Permutation_cons_inv in H1.
    rewrite Hsplit, map_app at 1. cbn [map repeat length]. rewrite Hnone, <- Permutation_middle. by rewrite H1.
  - rewrite H2, Hrest, <- Permutation_middle. cbn [length seq map app]. rewrite Z.add_0_r. constructor.
    apply Permutation_app_tail. rewrite <- (seq_shift (length positions) 0), map_map.
    erewrite map_ext; [done|]. intros a. cbn beta. f_equal. lia.
Qed.

Lemma zip_seq_lookup {A} n (l : list A) i x : (i, x) ∈ zip (seq n (length l)) l -> (n <= i)%nat /\ l !! (i - n)%nat = Some x.
Proof.
  revert n. induction l as [|y l IH]; intros n H; cbn [length seq zip_with] in H; [by apply elem_of_nil in H|].
  apply elem_of_cons in H as [H|H].
  - injection H as -> ->. by rewrite Nat.sub_diag.
  - apply IH in H as [Hle H]. split; [lia|]. by replace (i - n)%nat with (S (i - S n)) by lia.
Qed.

Lemma NoDup_filter_fst {A B} (p : A * B -> bool) l : NoDup (map fst l) -> NoDup (map fst (List.filter p l)).
Proof.
  induction l as [|[a b] l IH]; cbn; [done|]. intros [Ha Hnd]%NoDup_cons.
  destruct (p (a, b)); cbn; [|auto]. apply NoDup_cons. split; [|auto]. intros Hin. apply Ha.
  apply list_elem_of_In. apply list_elem_of_In in Hin. apply in_map_iff in Hin as (q & Hq & Hin).
  apply filter_In in Hin as [Hin _]. apply in_map_iff. eauto.
Qed.

(** Consecutive ranks from 1, then rows without a rank. *)
Definition ranks_then_none (k m : nat) : list value :=
  map (fun i => VInt (1 + Z.of_nat i)) (seq 0 k) ++ repeat VNone m.

(** What becomes of a row when the ranks are handed out. *)
Definition numbered (r r' : dict) : Prop :=
  (if stands_ranked r then exists n, dget r' "rank" = VInt n else dget r' "rank" = VNone) /\
  forall f, f <> "rank" -> dget r' f = dget r f.

Lemma stands_ranked_set v r : stands_ranked (set_rank v r) = stands_ranked r.
Proof. unfold stands_ranked, set_rank. by rewrite !dget_dset. Qed.

Lemma assigned standings rows' :
  assign_unique_payout_ranks standings = Ok rows' ->
  Forall2 numbered standings rows' /\
  exists k m, Permutation (map (fun r => dget r "rank") rows')
                (ranks_then_none k m).
Proof.
  unfold assign_unique_payout_ranks. set (rows := map (set_rank VNone) standings).
  set (p := fun q : nat * dict => stands_ranked q.2). intros H.
  apply rbind_ok in H as (sorted & Hs & H). injection H as <-. apply py_sort_perm in Hs.
  assert (Hpos : forall i, i ∈ map fst sorted <-> exists r, rows !! i = Some r /\ stands_ranked r = true).
  { intros i. rewrite list_elem_of_In, in_map_iff. setoid_rewrite Hs. setoid_rewrite filter_In. split.
    - intros ([j r] & <- & Hin & Hr). exists r. split; [|done].
      apply list_elem_of_In, zip_seq_lookup in Hin as [_ Hin]. by rewrite Nat.sub_0_r in Hin.
    - intros (r & Hl & Hr). exists (i, r). split_and!; [done| |done].
      apply list_elem_of_In, list_elem_of_lookup. exists i. apply lookup_zip_with_Some.
      exists i, r. split_and!; [done| |done]. apply lookup_seq. apply lookup_lt_Some in Hl. lia. }
  assert (Hnone : forall i r, rows !! i = Some r -> dget r "rank" = VNone).
  { intros i r Hl. subst rows. rewrite list_lookup_fmap in Hl. destruct (standings !! i); [|done].
    injection Hl as <-. unfold set_rank. by rewrite dget_dset. }
  split.
  - apply Forall2_same_length_lookup_2; [rewrite number_rows_length; subst rows; by rewrite length_map|].
    intros i r r' Hr Hr'. apply number_rows_lookup in Hr' as (q & Hq & Hrank & Hf).
    assert (q = set_rank VNone r) as -> by (subst rows; rewrite list_lookup_fmap, Hr in Hq; by injection Hq).
    split; [|intros f Hne; rewrite Hf by done; unfold set_rank; rewrite dget_dset; by destruct (String.eqb_spec f "rank")].
    destruct Hrank as [[Hin Hn]|[Hin Hn]].
    + apply Hpos in Hin as (q & Hq' & Hrk). rewrite Hq in Hq'. injection Hq' as <-.
      rewrite stands_ranked_set in Hrk. by rewrite Hrk.
    + rewrite Hn, (Hnone _ _ Hq). destruct (stands_ranked r) eqn:E; [|done]. exfalso. apply Hin, Hpos.
      exists (set_rank VNone r). by rewrite stands_ranked_set.
  - destruct (number_rows_ranks 1 (map fst sorted) rows) as (rest & H1 & H2).
    + rewrite Hs. apply NoDup_filter_fst. rewrite fst_zip by (by rewrite length_seq). apply NoDup_seq.
    + intros i (r & Hr & _)%Hpos. eauto.
    + exists (length (map fst sorted)), (length rest). rewrite H2.
      assert (rest = repeat VNone (length rest)) as Hrest; [|unfold ranks_then_none; by rewrite <- Hrest].
      apply Forall_eq_repeat.
      apply List.Forall_forall. intros v Hv.
      assert (In v (map (fun r => dget r "rank") rows)) as Hin by (rewrite H1; apply in_app_iff; auto).
      apply in_map_iff in Hin as (r & <- & Hin). apply list_elem_of_In, list_elem_of_lookup in Hin as (i & Hi).
      symmetry. eauto.
Qed.

(** ** Lemmas: the final order *)

Lemma member_key_plain id k : member_sort_key id = Ok k -> plain_key [0; 0; 1] k.
Proof.
  unfold member_sort_key. destruct (parse_member_id id) as [u e]. intros H.
  apply rbind_ok in H as (o & _ & H). injection H as <-. split; [done|]. repeat constructor; lia.
Qed.

Lemma final_key_shape r k :
  final_standing_sort_key r = Ok k ->
  plain_key [0; 0; 0; 0; 1] k /\
  exists d rest, k = (match to_int (dget r "rank") with Ok (Some n) => [VInt 0; VInt n] | _ => [VInt 1; VInt d] end) ++ rest.
Proof.
  unfold final_standing_sort_key. intros H. apply rbind_ok in H as (rank & Hrank & H).
  apply rbind_ok in H as (id & _ & H). apply rbind_ok in H as (mk & Hmk & H).
  apply member_key_plain in Hmk as [Hmk _]. rewrite Hrank.
  assert (forall a b, plain_key [0; 0; 0; 0; 1] (VInt a :: VInt b :: mk)) as Hplain.
  { intros a b. split; [cbn; by rewrite Hmk|repeat constructor; lia]. }
  destruct rank as [n|].
  - injection H as <-. split; [apply Hplain|]. by exists 0, mk.
  - apply rbind_ok in H as (d & _ & H). injection H as <-. split; [apply Hplain|]. by exists d, mk.
Qed.

(** A list sorted by plain tuples: no element has a smaller key than one before it. *)
Lemma py_sort_plain_sorted {A} sh (key : A -> res (list value)) l l' :
  (forall x k, key x = Ok k -> plain_key sh k) -> py_sort tuple_lt key false l = Ok l' ->
  StronglySorted (fun x y => exists k k', key x = Ok k /\ key y = Ok k' /\ tuple_vlt k' k = false) l'.
Proof.
  intros Hplain H. unfold py_sort in H. apply rbind_ok in H as (kl & Hkl & H). apply mapR_ok in Hkl.
  assert (Hkey : Forall (fun p => key p.2 = Ok p.1) kl).
  { clear H. induction Hkl as [|x p l kl Hp _ IH]; constructor; [|done].
    apply rbind_ok in Hp as (k & Hk & Hp). by injection Hp as <-. }
  rewrite (py_sort_keyed_plain sh) in H.
  2:{ apply List.Forall_map. eapply List.Forall_impl; [|exact Hkey].
      intros p Hp. by apply (Hplain p.2). }
  injection H as <-. set (lt := fun x y : list value * A => tuple_vlt x.1 y.1).
  pose proof (sort_by_sorted lt (fun x y => tuple_vlt_asym _ _) (fun x y z => tuple_vlt_trans_neg _ _ _) kl) as Hs.
  assert (Hkey' : Forall (fun p => key p.2 = Ok p.1) (sort_by lt kl)) by (by rewrite sort_by_perm).
 induction Hs as [|p kl' _ IH Hall]; cbn; [constructor|].
  apply Forall_cons in Hkey' as [Hp Hkey']. constructor; [auto|].
  apply List.Forall_map. clear IH. induction Hall as [|q kl'' Hq Hall IH']; constructor.
  - apply Forall_cons in Hkey' as [Hq' _]. exists p.1, q.1. split_and!; [done..|exact Hq].
  - apply Forall_cons in Hkey' as [_ Hkey']. auto.
Qed.

(** The rank as a number, what has none standing last. *)
Definition place (last : Z) (v : value) : Z := match v with VInt n => n | _ => last end.

Lemma ranks_then_none_in k m v :
  In v (ranks_then_none k m) -> v = VNone \/ exists n, v = VInt n /\ n < 1 + Z.of_nat k.
Proof.
  unfold ranks_then_none. intros [Hv|Hv]%in_app_iff; [right|left; by apply repeat_spec in Hv].
  apply in_map_iff in Hv as (i & <- & Hi). apply in_seq in Hi. exists (1 + Z.of_nat i). split; [done|lia].
Qed.

Lemma place_inj k m v w :
  In v (ranks_then_none k m) -> In w (ranks_then_none k m) ->
  place (1 + Z.of_nat k) v = place (1 + Z.of_nat k) w -> v = w.
Proof.
  intros [->|(n & -> & Hn)]%ranks_then_none_in [->|(n' & -> & Hn')]%ranks_then_none_in; cbn [place]; intros;
    [done|lia|lia|by f_equal].
Qed.

Lemma ranks_then_none_sorted k m :
  StronglySorted (fun v w => place (1 + Z.of_nat k) v <= place (1 + Z.of_nat k) w) (ranks_then_none k m).
Proof.
  unfold ranks_then_none. assert (forall i, StronglySorted
    (fun v w => place (1 + Z.of_nat (i + k)) v <= place (1 + Z.of_nat (i + k)) w)
    (map (fun j => VInt (1 + Z.of_nat j)) (seq i k) ++ repeat VNone m)) as Hg; [|exact (Hg 0%nat)].
  induction k as [|k IH]; intros i; cbn [seq map app].
  - induction m as [|m IHm]; cbn [repeat]; constructor; [done|].
    apply List.Forall_forall. intros v Hv. apply repeat_spec in Hv as ->. cbn [place]. lia.
  - replace (i + S k)%nat with (S i + k)%nat by lia. constructor; [apply IH|].
    apply Forall_app. split; [apply List.Forall_map|]; apply List.Forall_forall.
    + intros j Hj. apply in_seq in Hj. cbn [place]. lia.
    + intros v Hv. apply repeat_spec in Hv as ->. cbn [place]. lia.
Qed.

Lemma sorted_places k m rows l :
  Permutation (map (fun r => dget r "rank") rows) (ranks_then_none k m) ->
  py_sort tuple_lt final_standing_sort_key false rows = Ok l ->
  map (fun r => dget r "rank") l = ranks_then_none k m.
Proof.
  intros Hp Hs. pose proof (py_sort_perm _ _ _ _ _ Hs) as Hl.
  assert (Hpl : Permutation (map (fun r => dget r "rank") l) (ranks_then_none k m)) by (by rewrite Hl).
  apply (StronglySorted_unique_strong (fun v w => place (1 + Z.of_nat k) v <= place (1 + Z.of_nat k) w));
    [| |apply ranks_then_none_sorted|done].
  { intros v w Hv Hw H1 H2. rewrite Hpl in Hv. apply list_elem_of_In in Hv, Hw.
    apply (place_inj k m); [done..|]. lia. }
  apply py_sort_plain_sorted with (sh := [0; 0; 0; 0; 1]) in Hs; [|intros x kx Hk; exact (proj1 (final_key_shape _ _ Hk))].
  assert (Hin : forall r, In r l -> In (dget r "rank") (ranks_then_none k m)).
  { intros r Hr. rewrite <- Hpl. by apply (in_map (fun r => dget r "rank")). }
  clear - Hs Hin. induction Hs as [|r l Hs IH Hall]; cbn [map]; [constructor|].
  constructor; [apply IH; intros q Hq; apply Hin; by right|].
  apply List.Forall_map, List.Forall_forall. intros q Hq.
  rewrite List.Forall_forall in Hall. destruct (Hall q Hq) as (ka & kb & Ha & Hb & Hlt).
  apply final_key_shape in Ha as [_ (da & ra & ->)]. apply final_key_shape in Hb as [_ (db & rb & ->)].
  destruct (ranks_then_none_in k m (dget r "rank")) as [Er|(n & Er & Hn)]; [apply Hin; left; done| |];
    (destruct (ranks_then_none_in k m (dget q "rank")) as [Eq|(n' & Eq & Hn')]; [apply Hin; right; exact Hq| |]);
    rewrite Er, Eq in *; cbn [to_int place app] in *; try lia; cbn in Hlt; [done|].
  destruct (n' <? n) eqn:E; [done|lia].
Qed.

(** ** Lemmas: a decoded object has each key once *)

Lemma scan_scalar_dict l d r : scan_scalar l <> Some (VDict d, r).
Proof.
  assert (Hlit : forall table v r, scan_literal table l = Some (v, r) -> exists name, In (name, v) table).
  { induction table as [|[name v] table IH]; intros v' r'; cbn [scan_literal]; [done|].
    destruct (drop_prefix (chars name) l); [intros [= <- <-]; exists name; by left|].
    intros (n & Hn)%IH. exists n. by right. }
  assert (Hnum : forall neg l, scan_unsigned neg l <> Some (VDict d, r)).
  { intros neg l'. unfold scan_unsigned. repeat case_match; naive_solver. }
  unfold scan_scalar. destruct (scan_literal json_literals l) as [[v r']|] eqn:E.
  - intros [= -> ->]. apply Hlit in E as (name & Hin). unfold json_literals in Hin. cbn in Hin. naive_solver.
  - destruct l as [|c l]; [done|]. destruct (Ascii.eqb c "-"%char); apply Hnum.
Qed.

Lemma json_members_keys fuel : forall acc l d r,
  json_members fuel acc l = Ok (VDict d, r) -> NoDup (akeys acc) -> NoDup (akeys d).
Proof.
  induction fuel as [|fuel IH]; intros acc l d r H Hacc; cbn [json_members] in H; [done|].
  apply rbind_ok in H as ([k r1] & _ & H). apply rbind_ok in H as ([v r2] & _ & H).
  assert (Hset : NoDup (akeys (dset acc k v))) by (unfold dset; by apply NoDup_akeys_aset).
  destruct (skip_ws r2) as [|c r3]; [done|]. destruct (Ascii.eqb c "}"%char); [by injection H as <- _|].
  destruct (Ascii.eqb c ","%char); [by eauto|done].
Qed.

Lemma json_elements_dict fuel : forall acc l d r, json_elements fuel acc l <> Ok (VDict d, r).
Proof.
  induction fuel as [|fuel IH]; intros acc l d r; cbn [json_elements]; [done|].
  destruct (json_value fuel l) as [[v r1]|]; cbn [rbind]; [|done].
  destruct (skip_ws r1) as [|c r2]; [done|]. destruct (Ascii.eqb c "]"%char); [done|].
  destruct (Ascii.eqb c ","%char); [apply IH|done].
Qed.

Lemma json_loads_keys s d : json_loads s = Ok (VDict d) -> NoDup (akeys d).
Proof.
  unfold json_loads. intros H. apply rbind_ok in H as ([v r] & Hv & H).
  assert (v = VDict d) as -> by (destruct (skip_ws r); [by injection H|done]). clear H.
  revert Hv. generalize (2 * length (skip_ws (chars s)) + 1)%nat as fuel. intros [|fuel] H; [done|].
  cbn [json_value] in H. destruct (skip_ws (chars s)) as [|c l]; [done|].
  destruct (Ascii.eqb c quote). { apply rbind_ok in H as ([k r'] & _ & H). done. }
  destruct (Ascii.eqb c "["%char).
  { destruct (skip_ws l) as [|c' l']; [done|]. destruct (Ascii.eqb c' "]"%char); [done|].
    by apply json_elements_dict in H. }
  destruct (Ascii.eqb c "{"%char).
  { destruct (skip_ws l) as [|c' l']; [done|].
    destruct (Ascii.eqb c' "}"%char); [injection H as <- _; constructor|].
    apply json_members_keys in H; [done|constructor]. }
  destruct (scan_scalar (c :: l)) as [[v' r']|] eqn:E; [|done]. injection H as -> ->. by apply scan_scalar_dict in E.
Qed.

Lemma decoded_keys v d : decode_json_object v = Ok d -> wf_value v = true -> NoDup (akeys d).
Proof.
  destruct v as [| | | |s| | |d']; cbn [decode_json_object]; try done.
  - intros H _. apply rbind_ok in H as (p & Hp & H). destruct p; try done. injection H as <-.
    by eapply json_loads_keys.
  - intros [= <-] Hwf. unfold wf_value in Hwf. cbn in Hwf. apply andb_true_iff in Hwf as [Hwf _].
    by apply bool_decide_eq_true in Hwf.
Qed.

(** ** Lemmas: who stands in the rows *)

(** The members that the rows name. *)
Definition member_ids (rows : list dict) : list value :=
  List.filter (fun v => negb (is_none v)) (map (fun r => dget r "member_id") rows).

Lemma member_ids_app l1 l2 : member_ids (l1 ++ l2) = member_ids l1 ++ member_ids l2.
Proof. unfold member_ids. by rewrite map_app, List.filter_app. Qed.

Lemma member_ids_perm l1 l2 : Permutation l1 l2 -> Permutation (member_ids l1) (member_ids l2).
Proof.
  unfold member_ids. induction 1 as [|r l1 l2 _ IH|r1 r2 l|l1 l2 l3 _ IH1 _ IH2]; cbn; [done| | |by etrans].
  - by destruct (negb _); [constructor|].
  - destruct (negb _), (negb _); [apply perm_swap|done..].
Qed.

Lemma member_ids_cons r l id : dget r "member_id" = VStr id -> member_ids (r :: l) = VStr id :: member_ids l.
Proof. intros H. unfold member_ids. cbn [map List.filter]. by rewrite H. Qed.

Lemma member_ids_anonymous r l : dget r "member_id" = VNone -> member_ids (r :: l) = member_ids l.
Proof. intros H. unfold member_ids. cbn [map List.filter]. by rewrite H. Qed.

(** A row before the ranks are handed out: it will be ranked unless it is pending. *)
Definition unranked (r : dict) : Prop :=
  (stands_ranked r = true /\ dget r "status" <> VStr "pending") \/
  (stands_ranked r = false /\ dget r "status" = VStr "pending").

Lemma unranked_row entry member_id status display_rank alive_rank died_rank zset_score snapshot_found row :
  normalize_entry entry member_id status display_rank alive_rank died_rank zset_score snapshot_found = Ok row ->
  (status = "pending" /\ display_rank = None) \/
  ((status = "alive" \/ status = "died") /\ exists n, display_rank = Some n) -> unranked row.
Proof.
  intros (_ & Hs & Hd)%normalize_entry_fields Hcase. unfold unranked, stands_ranked. rewrite Hs, Hd.
  destruct Hcase as [[-> ->]|[[-> | ->] (n & ->)]]; [by right|left..]; by split.
Qed.

Section Who.
Context (snapshots : list (string * dict)).

Lemma alive_rows_members scores i members rows :
  alive_rows snapshots scores i members = Ok rows -> "" ∉ members ->
  Forall unranked rows /\ member_ids rows = map VStr members.
Proof.
  revert i rows. induction members as [|id members IH]; intros i rows H Hne; cbn [alive_rows] in H.
  - injection H as <-. by split.
  - apply rbind_ok in H as (row & Hrow & H). apply rbind_ok in H as (rows' & Hrows & H). injection H as <-.
    apply not_elem_of_cons in Hne as [Hid Hne]. destruct (IH _ _ Hrows Hne) as [Hun Hm]. split.
    + constructor; [|done]. eapply unranked_row; [done|]. right. eauto.
    + rewrite (member_ids_cons _ _ id), Hm; [done|]. by eapply normalize_entry_member.
Qed.

Lemma died_rows_members entries : "" ∉ akeys snapshots -> forall c seen rows seen',
  Forall (fun v => wf_value v = true) entries ->
  died_rows snapshots c seen entries = Ok (rows, seen') ->
  Forall unranked rows /\
  exists ids, member_ids rows = map VStr ids /\ NoDup ids /\ (forall id, id ∈ ids -> id ∉ seen) /\
              (forall id, id ∈ seen' <-> id ∈ seen \/ id ∈ ids).
Proof.
  intros Hempty. induction entries as [|raw entries IH]; intros c seen rows seen' Hwf H; cbn [died_rows] in H.
  { injection H as <- <-. split; [done|]. exists []. split_and!; [done|constructor|set_solver|set_solver]. }
  apply Forall_cons in Hwf as [Hraw Hwf].
  apply rbind_ok in H as (entry & Hentry & H). apply rbind_ok in H as (member & Hmember & H).
  destruct (seen_option member seen) eqn:Hseen; [by eauto|].
  apply rbind_ok in H as (rank & _ & H). destruct (next_display_rank c rank) as [display c'].
  cbv zeta in H. apply rbind_ok in H as (row & Hrow & H). apply rbind_ok in H as ([rows' seen2] & Hrest & H).
  injection H as <- <-. destruct (IH _ _ _ _ Hwf Hrest) as (Hun & ids & Hids & Hnd & Hfresh & Hseen').
  split; [constructor; [|done]; eapply unranked_row; [done|]; right; eauto|].
  destruct member as [id|].
  - exists (id :: ids). cbn [seen_option] in Hseen.
    assert (Hid : id ∉ seen).
    { intros Hin. apply not_true_iff_false in Hseen. apply Hseen, existsb_exists. exists id.
      split; [by apply list_elem_of_In|apply String.eqb_refl]. }
    split_and!.
    + rewrite (member_ids_cons _ _ id); [by rewrite Hids|].
      eapply normalize_entry_member; [done|]. by eapply build_member_id_nonempty.
    + constructor; [|done]. intros Hin. apply (Hfresh _ Hin). set_solver.
    + set_solver.
    + set_solver.
  - exists ids. split_and!; [|done..]. rewrite member_ids_anonymous; [done|].
    eapply normalize_entry_anonymous; [|done]. cbn [default from_option].
    destruct (aget "" snapshots) eqn:E.
    { destruct Hempty. apply aget_In in E. apply list_elem_of_In, in_map_iff. by exists ("", l). }
    pose proof (decoded_keys _ _ Hentry Hraw). rewrite <- Hmember. unfold dget, dget_or.
    rewrite !aget_dupdate by done.
    by f_equal; [destruct (aget "userID" entry)|destruct (aget "entryNumber" entry)].
Qed.

Lemma pending_rows_members ids rows :
  mapR (pending_row snapshots) ids = Ok rows -> "" ∉ ids ->
  Forall unranked rows /\ member_ids rows = map VStr ids.
Proof.
  intros H%mapR_ok. induction H as [|id row ids rows Hrow _ IH]; intros Hne; [by split|].
  apply not_elem_of_cons in Hne as [Hid Hne]. destruct (IH Hne) as [Hun Hm].
  unfold pending_row in Hrow. apply rbind_ok in Hrow as (snapshot & _ & Hrow). split.
  - constructor; [|done]. eapply unranked_row; [done|]. by left.
  - rewrite (member_ids_cons _ _ id), Hm; [done|]. by eapply normalize_entry_member.
Qed.

Lemma unranked_standings_members alive entries scores rows :
  unranked_standings snapshots alive entries scores = Ok rows ->
  NoDup (akeys snapshots) -> NoDup alive -> "" ∉ akeys snapshots -> "" ∉ alive ->
  Forall (fun v => wf_value v = true) entries ->
  Forall unranked rows /\
  exists ids, member_ids rows = map VStr ids /\ NoDup ids /\ (forall id, id ∈ akeys snapshots \/ id ∈ alive -> id ∈ ids).
Proof.
  unfold unranked_standings. intros H Hkeys Halive Hk Ha Hwf.
  apply rbind_ok in H as (arows & Harows & H). cbv zeta in H. apply rbind_ok in H as ([drows seen] & Hdrows & H).
  apply rbind_ok in H as (members & Hmembers & H). apply rbind_ok in H as (prows & Hprows & H). injection H as <-.
  apply alive_rows_members in Harows as [Hau Ham]; [|done].
  apply died_rows_members in Hdrows as (Hdu & ids & Hdm & Hnd & Hfresh & Hseen); [|done..].
  apply py_sort_perm in Hmembers. set (left := List.filter _ members) in *.
  assert (Hleft : forall id, id ∈ left <-> id ∈ akeys snapshots /\ id ∉ seen).
  { intros id. rewrite <- Hmembers, !list_elem_of_In. unfold left. rewrite filter_In, negb_true_iff, <- not_true_iff_false.
    rewrite existsb_exists. setoid_rewrite String.eqb_eq. split; intros [Hin Hns]; (split; [done|]).
    - intros Hs. apply Hns. exists id. by split.
    - intros (id' & Hs & ->). auto. }
  apply pending_rows_members in Hprows as [Hpu Hpm]; [|rewrite Hleft; tauto].
  split; [by rewrite !Forall_app|]. exists (alive ++ ids ++ left).
  rewrite !member_ids_app, !map_app, Ham, Hdm, Hpm. split_and!; [done| |].
  - apply NoDup_app. split; [done|]. split.
    { intros id Hin [Hid|Hid]%elem_of_app; [by apply (Hfresh id)|]. apply Hleft in Hid as [_ Hid]. apply Hid, Hseen. by left. }
    apply NoDup_app. split; [done|]. split.
    { intros id Hin Hid. apply Hleft in Hid as [_ Hid]. apply Hid, Hseen. by right. }
    unfold left. apply NoDup_ListNoDup, List.NoDup_filter, NoDup_ListNoDup. by rewrite Hmembers.
  - intros id Hin. rewrite !elem_of_app, Hleft. destruct (decide (id ∈ seen)) as [Hs|Hs].
    + apply Hseen in Hs. tauto.
    + rewrite Hseen in Hs. rewrite Hseen. tauto.
Qed.
End Who.

(** ** Properties *)

(** C18: The standings of a tournament are complete and their payout ranks are
    unique: every player who is alive and every player of a snapshot stands in
    them, no player stands twice, the ranked rows come first with the ranks 1, 2,
    3, ... in this order, and a row has no rank exactly when its player is pending. *)
Theorem standings_are_complete snapshot_map alive_members died_entries alive_scores rows :
  NoDup (akeys snapshot_map) -> NoDup alive_members -> "" ∉ akeys snapshot_map -> "" ∉ alive_members ->
  Forall (fun v => wf_value v = true) died_entries ->
  build_complete_standings snapshot_map alive_members died_entries alive_scores = Ok rows ->
  NoDup (member_ids rows) /\
  (forall id, id ∈ akeys snapshot_map \/ id ∈ alive_members -> VStr id ∈ member_ids rows) /\
  (exists ranked pending, map (fun r => dget r "rank") rows = ranks_then_none ranked pending) /\
  Forall (fun r => dget r "rank" = VNone <-> dget r "status" = VStr "pending") rows.
Proof.
  intros Hkeys Halive Hk Ha Hwf H. unfold build_complete_standings in H.
  apply rbind_ok in H as (decoded & Hdec & H). apply rbind_ok in H as (standings & Hst & H).
  apply rbind_ok in H as (numbered_rows & Hnum & Hsort).
  assert (Hsame : akeys decoded = akeys snapshot_map).
  { apply mapR_ok in Hdec. unfold akeys. clear -Hdec. induction Hdec as [|kv kd l l' Hkv _ IH]; cbn; [done|].
    apply rbind_ok in Hkv as (d & _ & Hkv). injection Hkv as <-. by rewrite <- IH. }
  rewrite <- Hsame in *. apply unranked_standings_members in Hst as (Hun & ids & Hids & Hnd & Hall); [|done..].
  apply assigned in Hnum as (Hnum & k & m & Hranks).
  pose proof (py_sort_perm _ _ _ _ _ Hsort) as Hperm.
  assert (Hmem : Permutation (member_ids rows) (map VStr ids)).
  { rewrite <- Hids, (member_ids_perm _ _ Hperm). unfold member_ids. clear -Hnum.
    assert (map (fun r => dget r "member_id") numbered_rows = map (fun r => dget r "member_id") standings) as ->; [|done].
    induction Hnum as [|r r' l l' [_ Hf] _ IH]; cbn; [done|]. f_equal; [|done]. by apply Hf. }
  split_and!.
  - rewrite Hmem. assert (Inj (=) (=) VStr) by (by intros ? ? [=]). by apply (NoDup_fmap_2 VStr).
  - intros id Hid. rewrite Hmem. apply list_elem_of_fmap. eauto.
  - exists k, m. by eapply sorted_places.
  - rewrite Hperm. clear -Hnum Hun. induction Hnum as [|r r' l l' [Hr Hf] _ IH]; [constructor|].
    apply Forall_cons in Hun as [Hur Hun]. constructor; [|auto]. rewrite (Hf "status") by done.
    destruct Hur as [[E Hs]|[E Hs]]; rewrite E in Hr; [destruct Hr as (n & ->)|rewrite Hr]; by split.
Qed.

(** Two players alive, two who died together, one who died without a name and one
    who has not played: the tied places are told apart by the chips. *)
Definition example_snapshots : list (string * value) :=
  map (fun p => (p.1, VStr (quoted p.2)))
    [("1:1", "{'userID': '1', 'entryNumber': 1, 'startChip': 3000}");
     ("2:1", "{'userID': '2', 'entryNumber': 1, 'startChip': 1000}");
     ("3:1", "{'userID': '3', 'entryNumber': 1, 'startChip': 1500}");
     ("4:1", "{'userID': '4', 'entryNumber': 1, 'startChip': '2500'}");
     ("5:1", "{'userID': '5', 'entryNumber': 1}")].
Definition example_died : list value :=
  map (fun s => VStr (quoted s))
    ["{'userID': '3', 'entryNumber': 1, 'rank': 7}"; "{'userID': 4, 'entryNumber': '1', 'rank': 7}"; "{'rank': 9}"].

Definition example_standings : list (value * value * value) :=
  match build_complete_standings example_snapshots ["2:1"; "1:1"] example_died [] with
  | Ok rows => map (fun r => (dget r "rank", dget r "display_rank", dget r "member_id")) rows
  | Err _ => []
  end.

Example example_standings_order :
  example_standings =
    [(VInt 1, VInt 1, VStr "2:1"); (VInt 2, VInt 2, VStr "1:1"); (VInt 3, VInt 3, VStr "4:1");
     (VInt 4, VInt 3, VStr "3:1"); (VInt 5, VInt 5, VNone); (VNone, VNone, VStr "5:1")].
Proof. vm_compute. reflexivity. Qed.

Lemma standings_are_complete_witness : exists rows,
  build_complete_standings example_snapshots ["2:1"; "1:1"] example_died [] = Ok rows /\
  NoDup (member_ids rows) /\
  (forall id, id ∈ akeys example_snapshots \/ id ∈ ["2:1"; "1:1"] -> VStr id ∈ member_ids rows) /\
  (exists ranked pending, map (fun r => dget r "rank") rows = ranks_then_none ranked pending) /\
  Forall (fun r => dget r "rank" = VNone <-> dget r "status" = VStr "pending") rows.
Proof.
  destruct (build_complete_standings example_snapshots ["2:1"; "1:1"] example_died []) as [rows|e] eqn:E;
    [|exfalso; revert E; vm_compute; discriminate].
  exists rows. exact (conj eq_refl (standings_are_complete example_snapshots ["2:1"; "1:1"] example_died [] rows
    ltac:(by apply (bool_decide_eq_true_1 _)) ltac:(by apply (bool_decide_eq_true_1 _))
    ltac:(by apply (bool_decide_eq_true_1 _)) ltac:(by apply (bool_decide_eq_true_1 _))
    ltac:(repeat constructor) E)).
Defined.
