(* ===== verification/WalletCrypto.v ===== *)
(** * The wallet file of a miner ([skill/scripts/wallet_crypto.py])

    The formats of the file, what is written and what is read back, the
    detection of old formats and their migration.  The [cryptography] library is
    a record of functions that may be missing ([HAS_CRYPTO]); the environment,
    the terminal and the source of random bytes are arguments; the state is the
    files, as what [json.load] makes of them with their permissions, and how
    often the terminal was asked and random bytes were drawn.  What is printed
    and the making of directories are left out, and the dash in the text of one
    error, which is no Latin-1 character, is a hyphen. *)
From Stdlib Require Import ZArith Lia Ascii String.
From stdpp Require Import base list strings.
From S2P Require Import Prelude PyText PyFloat PyValue Sha256 Json ChainClient TxEncoding CryptoAuth.
Open Scope Z_scope.

(** [PBKDF2HMAC(SHA256(), 32, salt, 480000).derive(passphrase)], and
    [Fernet(key).encrypt(data)], which draws an initial vector, with its inverse. *)
Record Cryptography := {
  pbkdf2_derive : list Z -> list Z -> list Z;
  fernet_encrypt : list ascii -> nat -> list Z -> string;
  fernet_decrypt : list ascii -> string -> res (list Z)
}.

Record StoredFile := { content : res value; file_mode : Z }.

Record Machine := {
  files : list (string * StoredFile);
  prompts : nat;
  draws : nat
}.

(** The terminal: whether there is one, and the answers to [getpass] in turn. *)
Record Terminal := { isatty : bool; getpass : nat -> string }.

(** [0o600], and what a new file has with the usual mask. *)
Definition owner_only : Z := 6 * 64.
Definition new_file_mode : Z := 6 * 64 + 4 * 8 + 4.

Definition WALLET_VERSION : Z := 2.
Definition _LEGACY_MARKER : list Z := utf8 "CLAWCHAIN_TESTNET_KEY_V1:".

(** ** The legacy obfuscation *)

(** [bytes.fromhex(v)] *)
Definition fromhex_value (v : value) : res (list Z) :=
  match v with VStr s => fromhex s | _ => Err TypeError end.

Definition _obfuscate_key (private_key_hex : value) : res string :=
  let? key := fromhex_value private_key_hex in Ok (of_chars (b64encode (_LEGACY_MARKER ++ key))).

(** [raw.startswith(p)] and what follows *)
Fixpoint drop_bytes (p l : list Z) : option (list Z) :=
  match p, l with
  | [], l => Some l
  | a :: p, b :: l => if a =? b then drop_bytes p l else None
  | _, _ => None
  end.

Definition _deobfuscate_key (encoded : value) : res string :=
  let? raw := b64decode encoded in
  Ok (hex_bytes (match drop_bytes _LEGACY_MARKER raw with Some key => key | None => raw end)).

(** [base64.urlsafe_b64encode] *)
Definition urlsafe_b64encode (l : list Z) : list ascii :=
  map (fun c => if Ascii.eqb c "+"%char then "-"%char else if Ascii.eqb c "/"%char then "_"%char else c) (b64encode l).

Section WalletCrypto.
Context (getenv : string -> option string) (expanduser : string -> string) (terminal : Terminal)
  (urandom : nat -> Z -> list Z) (cryptography : option Cryptography).

Abbreviation machine A := (st Machine A).

Definition HAS_CRYPTO : bool := match cryptography with Some _ => true | None => false end.

(** ** What the code does to the machine *)

Definition ask_passphrase : machine string :=
  fun m => (Ok (getpass terminal (prompts m)), {| files := files m; prompts := S (prompts m); draws := draws m |}).

(** The number of the draw, which the next one does not repeat. *)
Definition draw : machine nat :=
  fun m => (Ok (draws m), {| files := files m; prompts := prompts m; draws := S (draws m) |}).

Definition file_exists (path : string) : machine bool := sgets (fun m => ahas path (files m)).

(** [with open(path) as f: json.load(f)] *)
Definition read_json (path : string) : machine value :=
  fun m => match aget path (files m) with
           | Some f => (content f, m)
           | None => (Err (OSError "No such file or directory"), m)
           end.

(** [json.dump] into the file: it keeps the permissions it has. *)
Definition write_json (path : string) (v : value) : machine unit :=
  fun m =>
    let mode := match aget path (files m) with Some f => file_mode f | None => new_file_mode end in
    (Ok tt, {| files := aset path {| content := Ok v; file_mode := mode |} (files m);
               prompts := prompts m; draws := draws m |}).

Definition chmod (path : string) (mode : Z) : machine unit :=
  fun m => match aget path (files m) with
           | Some f => (Ok tt, {| files := aset path {| content := content f; file_mode := mode |} (files m);
                                  prompts := prompts m; draws := draws m |})
           | None => (Err (OSError "No such file or directory"), m)
           end.

(** ** Passphrases *)

(** A variable that is set and not empty. *)
Definition env_text (name : string) : option string :=
  match getenv name with Some s => if String.eqb s "" then None else Some s | None => None end.

Definition _get_passphrase (confirm : bool) : machine (option string) :=
  match env_text "CLAWCHAIN_WALLET_PASSPHRASE" with
  | Some env_pass => sret (Some env_pass)
  | None =>
      if isatty terminal then
        let* passphrase := ask_passphrase in
        if String.eqb passphrase "" then sret None
        else if confirm then
          let* confirm_pass := ask_passphrase in
          sret (if negb (String.eqb passphrase confirm_pass) then None else Some passphrase)
        else sret (Some passphrase)
      else sret None
  end.

(** [if passphrase is None: passphrase = _get_passphrase(...)] *)
Definition passphrase_or_ask (passphrase : option string) (confirm : bool) : machine (option string) :=
  match passphrase with Some p => sret (Some p) | None => _get_passphrase confirm end.

(** ** Encryption *)

Definition _derive_key (crypto : Cryptography) (passphrase : string) (salt : list Z) : list ascii :=
  urlsafe_b64encode (pbkdf2_derive crypto salt (utf8 passphrase)).

Definition no_library : exn := RuntimeError "cryptography library not installed".

(** [private_key_hex.encode()] *)
Definition encode (v : value) : res (list Z) :=
  match v with VStr s => Ok (utf8 s) | _ => Err AttributeError end.

Definition encrypt_private_key (private_key_hex : value) (passphrase : string) : machine dict :=
  match cryptography with
  | None => sraise no_library
  | Some crypto =>
      let* n := draw in
      let salt := urandom n 16 in
      let key := _derive_key crypto passphrase salt in
      let*? plain := encode private_key_hex in
      let* iv := draw in
      sret [("data", VStr (fernet_encrypt crypto key iv plain)); ("salt", VStr (hex_bytes salt)); ("kdf", VStr "pbkdf2")]
  end.

(** [f.decrypt(encrypted_data.encode()).decode()]: whatever is raised becomes a [ValueError]. *)
Definition decrypt_private_key (encrypted_data salt_hex : value) (passphrase : string) : res string :=
  match cryptography with
  | None => Err no_library
  | Some crypto =>
      let? salt := fromhex_value salt_hex in
      let key := _derive_key crypto passphrase salt in
      let decrypted :=
        match encrypted_data with
        | VStr token => let? plain := fernet_decrypt crypto key token in bytes_decode plain
        | _ => Err AttributeError
        end in
      match decrypted with
      | Ok text => Ok text
      | Err (Unmodelled what) => Err (Unmodelled what)
      | Err _ => Err (ValueError "Decryption failed - wrong passphrase or corrupted wallet")
      end
  end.

(** ** Saving and loading *)

Definition obfuscated_wallet (wallet_data : dict) (private_key : value) (warning : string) : res dict :=
  let? address := dgetitem wallet_data "address" in
  let? encoded := _obfuscate_key private_key in
  let? public_key_hash := dgetitem wallet_data "public_key_hash" in
  Ok [("version", VInt 1); ("address", address); ("private_key_encoded", VStr encoded);
      ("public_key_hash", public_key_hash); ("_warning", VStr warning)].

Definition encrypted_wallet (wallet_data enc : dict) : res dict :=
  let? address := dgetitem wallet_data "address" in
  let? public_key_hash := dgetitem wallet_data "public_key_hash" in
  let? data := dgetitem enc "data" in
  let? kdf := dgetitem enc "kdf" in
  let? salt := dgetitem enc "salt" in
  Ok [("version", VInt WALLET_VERSION); ("encrypted", VBool true); ("address", address);
      ("public_key_hash", public_key_hash); ("data", data); ("kdf", kdf); ("salt", salt);
      ("_warning", VStr "This is a mining/test wallet only. Do not store significant value.")].

Definition stored_wallet (wallet_data : dict) (private_key : value) (passphrase : option string) (insecure : bool)
  : machine dict :=
  if insecure then
    slift (obfuscated_wallet wallet_data private_key
             "INSECURE: key is only obfuscated, not encrypted. Use --insecure to suppress.")
  else if HAS_CRYPTO then
    let* passphrase := passphrase_or_ask passphrase true in
    match passphrase with
    | None =>
        slift (obfuscated_wallet wallet_data private_key
                 "Key is only obfuscated. Re-run setup to encrypt with passphrase.")
    | Some passphrase =>
        let* enc := encrypt_private_key private_key passphrase in
        slift (encrypted_wallet wallet_data enc)
    end
  else
    slift (obfuscated_wallet wallet_data private_key
             "Key is only obfuscated (cryptography lib not installed). pip install cryptography for encryption.").

Definition save_wallet (wallet_data : dict) (wallet_path : string) (passphrase : option string) (insecure : bool)
  : machine string :=
  let wallet_path := expanduser wallet_path in
  let*? private_key := dgetitem wallet_data "private_key" in
  let* stored := stored_wallet wallet_data private_key passphrase insecure in
  do* write_json wallet_path (VDict stored) in
  do* chmod wallet_path owner_only in
  sret wallet_path.

(** The wallet that [load_wallet] gives for a key it has recovered. *)
Definition recovered (address : value) (private_key : string) (data : dict) : dict :=
  [("address", address); ("private_key", VStr private_key);
   ("public_key_hash", dget_or data "public_key_hash" (VStr ""))].

Definition load_wallet (wallet_path : string) (passphrase : option string) : machine dict :=
  let wallet_path := expanduser wallet_path in
  let* data := read_json wallet_path in
  let*? data := match data with VDict data => Ok data | _ => Err TypeError end in
  let*? address := dgetitem data "address" in
  match env_text "CLAWCHAIN_PRIVATE_KEY" with
  | Some env_key => sret (recovered address env_key data)
  | None =>
      let*? at_least_2 := py_le (VInt 2) (dget_or data "version" (VInt 1)) in
      if at_least_2 && truthy (dget data "encrypted") then
        if negb HAS_CRYPTO then sraise (SystemExit 1)
        else
          let* passphrase := passphrase_or_ask passphrase false in
          match passphrase with
          | None => sraise (SystemExit 1)
          | Some passphrase =>
              let*? encrypted_data := dgetitem data "data" in
              let*? salt := dgetitem data "salt" in
              let*? pk := decrypt_private_key encrypted_data salt passphrase in
              sret (recovered address pk data)
          end
      else
        match aget "private_key_encoded" data with
        | Some encoded => let*? pk := _deobfuscate_key encoded in sret (recovered address pk data)
        | None =>
            if dhas data "private_key" then sret data
            else sraise (ValueError "Wallet file has no recognizable private key field")
        end
  end.

(** ** Old formats *)

Definition wallet_info (version : value) (encrypted needs_migration : bool) (format : string) : dict :=
  [("exists", VBool true); ("version", version); ("encrypted", VBool encrypted);
   ("needs_migration", VBool needs_migration); ("format", VStr format)].

Definition detect_wallet_version (wallet_path : string) : machine dict :=
  let wallet_path := expanduser wallet_path in
  let* exists_ := file_exists wallet_path in
  if negb exists_ then sret [("exists", VBool false)]
  else
    let* data := read_json wallet_path in
    let*? data := as_dict data in
    let version := dget_or data "version" (VInt 0) in
    let encrypted := dget_or data "encrypted" (VBool false) in
    if py_eq version (VInt 0) && dhas data "private_key" then sret (wallet_info (VInt 0) false true "plaintext")
    else if py_eq version (VInt 1) then sret (wallet_info (VInt 1) false true "obfuscated")
    else
      let*? at_least_2 := py_le (VInt 2) version in
      if at_least_2 && truthy encrypted then sret (wallet_info version true false "encrypted")
      else sret (wallet_info version false true "unknown").

Definition migrate_wallet (wallet_path : string) (passphrase : option string) : machine bool :=
  let wallet_path := expanduser wallet_path in
  let* info := detect_wallet_version wallet_path in
  if negb (truthy (dget info "needs_migration")) then sret true
  else if negb HAS_CRYPTO then sret false
  else
    let* wallet_data := load_wallet wallet_path None in
    let* passphrase := passphrase_or_ask passphrase true in
    match passphrase with
    | None => sret false
    | Some passphrase =>
        do* save_wallet wallet_data wallet_path (Some passphrase) false in
        sret true
    end.
End WalletCrypto.
