(* ===== verification/WalletFacts.v ===== *)
(** * What is saved in a wallet file is read back

    The round trip of a wallet through its file, in the encrypted and in the
    obfuscated format, and the migration of an old file. *)
From Stdlib Require Import ZArith Lia Ascii String.
From stdpp Require Import base list strings.
From S2P Require Import Prelude PyText PyFloat PyValue Sha256 Json ChainClient ClientFacts TxEncoding CryptoAuth.
From S2P Require Import Protobuf WalletCrypto.
Open Scope Z_scope.

(** ** Lemmas: text and bytes *)

Lemma utf8_decode_char c l : utf8_decode (utf8_char c ++ l) = let? s := utf8_decode l in Ok (c :: s).
Proof. destruct c as [[] [] [] [] [] [] [] []]; reflexivity. Qed.

Lemma bytes_decode_utf8 s : bytes_decode (utf8 s) = Ok s.
Proof.
  unfold bytes_decode, utf8. assert (utf8_decode (concat (map utf8_char (chars s))) = Ok (chars s)) as ->.
  { induction (chars s) as [|c l IH]; [done|]. cbn [map concat]. by rewrite utf8_decode_char, IH. }
  simpl. by rewrite of_chars_chars.
Qed.

Lemma drop_bytes_app p l : drop_bytes p (p ++ l) = Some l.
Proof. induction p as [|a p IH]; cbn; [done|]. by rewrite Z.eqb_refl. Qed.

Lemma deobfuscate_obfuscate key :
  Forall is_byte key ->
  exists encoded, _obfuscate_key (VStr (hex_bytes key)) = Ok encoded /\
    _deobfuscate_key (VStr encoded) = Ok (hex_bytes key).
Proof.
  intros Hkey. unfold _obfuscate_key, _deobfuscate_key, fromhex_value, fromhex. rewrite bytes_fromhex_hex by done.
  cbn [of_option rbind]. eexists. split; [done|].
  assert (Forall is_byte (_LEGACY_MARKER ++ key)) as Hb by (apply Forall_app; split; [apply utf8_bytes|done]).
  unfold b64decode. rewrite chars_of_chars, b64encode_ascii, b64_encode_loop by done. cbn [rbind].
  rewrite app_nil_l. by rewrite drop_bytes_app.
Qed.

Section Wallets.
Context (getenv : string -> option string) (expanduser : string -> string) (terminal : Terminal)
  (urandom : nat -> Z -> list Z) (cryptography : option Cryptography).

Let save := save_wallet getenv expanduser terminal urandom cryptography.
Let load := load_wallet getenv expanduser terminal cryptography.
Let stored := stored_wallet getenv terminal urandom cryptography.

(** ** Lemmas: what a save leaves *)

Lemma save_run w path pass insecure m key d m1 :
  aget "private_key" w = Some key -> stored w key pass insecure m = (Ok d, m1) ->
  exists m', save w path pass insecure m = (Ok (expanduser path), m') /\
    aget (expanduser path) (files m') = Some {| content := Ok (VDict d); file_mode := owner_only |} /\
    prompts m' = prompts m1.
Proof.
  intros Hkey Hst. subst save stored. unfold save_wallet. cbv zeta. unfold dgetitem. rewrite Hkey.
  unfold slift at 1. cbn [of_option]. unfold sbind at 1. cbn iota. rewrite (sbind_run _ _ _ _ _ Hst).
  unfold sbind, write_json, chmod. cbn [files]. rewrite aget_aset_eq. cbn [content file_mode].
  eexists. split; [done|]. cbn [files prompts]. by rewrite aget_aset_eq.
Qed.

Lemma load_file path pass m d address :
  aget (expanduser path) (files m) = Some {| content := Ok (VDict d); file_mode := owner_only |} ->
  aget "address" d = Some address -> env_text getenv "CLAWCHAIN_PRIVATE_KEY" = None ->
  load path pass m =
    (let*? at_least_2 := py_le (VInt 2) (dget_or d "version" (VInt 1)) in
     if at_least_2 && truthy (dget d "encrypted") then
       if negb (HAS_CRYPTO cryptography) then sraise (SystemExit 1)
       else
         let* passphrase := passphrase_or_ask getenv terminal pass false in
         match passphrase with
         | None => sraise (SystemExit 1)
         | Some passphrase =>
             let*? encrypted_data := dgetitem d "data" in
             let*? salt := dgetitem d "salt" in
             let*? pk := decrypt_private_key cryptography encrypted_data salt passphrase in
             sret (recovered address pk d)
         end
     else
       match aget "private_key_encoded" d with
       | Some encoded => let*? pk := _deobfuscate_key encoded in sret (recovered address pk d)
       | None => if dhas d "private_key" then sret d
                 else sraise (ValueError "Wallet file has no recognizable private key field")
       end) m.
Proof.
  intros Hf Ha Henv. subst load. unfold load_wallet. cbv zeta. unfold sbind at 1. unfold read_json. rewrite Hf.
  cbn [content]. unfold sbind at 1, slift at 1. unfold sbind at 1, slift at 1. unfold dgetitem at 1. rewrite Ha.
  cbn [of_option]. by rewrite Henv.
Qed.

(** The three fields that come back. *)
Definition loaded (address : value) (private_key : string) (public_key_hash : value) : dict :=
  [("address", address); ("private_key", VStr private_key); ("public_key_hash", public_key_hash)].

Lemma load_obfuscated path pass m address encoded hash warning key :
  env_text getenv "CLAWCHAIN_PRIVATE_KEY" = None -> _deobfuscate_key (VStr encoded) = Ok key ->
  aget (expanduser path) (files m) =
    Some {| content := Ok (VDict [("version", VInt 1); ("address", address); ("private_key_encoded", VStr encoded);
                                  ("public_key_hash", hash); ("_warning", warning)]); file_mode := owner_only |} ->
  load path pass m = (Ok (loaded address key hash), m).
Proof.
  intros Henv Hkey Hf. rewrite (load_file _ _ _ _ address Hf eq_refl Henv). cbn. unfold sbind, slift. by rewrite Hkey.
Qed.

(** What is relied on of the library and of the source of random bytes. *)
Hypothesis fernet_inverse : forall crypto key iv l, cryptography = Some crypto -> Forall is_byte l ->
  fernet_decrypt crypto key (fernet_encrypt crypto key iv l) = Ok l.
Hypothesis urandom_bytes : forall n k, Forall is_byte (urandom n k).

Lemma load_encrypted path m crypto address hash warning key p pass m1 n iv :
  env_text getenv "CLAWCHAIN_PRIVATE_KEY" = None -> cryptography = Some crypto ->
  aget (expanduser path) (files m) =
    Some {| content := Ok (VDict [("version", VInt WALLET_VERSION); ("encrypted", VBool true); ("address", address);
      ("public_key_hash", hash);
      ("data", VStr (fernet_encrypt crypto (_derive_key crypto p (urandom n 16)) iv (utf8 key)));
      ("kdf", VStr "pbkdf2"); ("salt", VStr (hex_bytes (urandom n 16))); ("_warning", warning)]);
      file_mode := owner_only |} ->
  passphrase_or_ask getenv terminal pass false m = (Ok (Some p), m1) ->
  load path pass m = (Ok (loaded address key hash), m1).
Proof.
  intros Henv Hcrypto Hf Hp. rewrite (load_file _ _ _ _ address Hf eq_refl Henv).
  unfold HAS_CRYPTO. rewrite Hcrypto. unfold sbind at 1, slift at 1. cbn -[decrypt_private_key passphrase_or_ask slift sbind].
  rewrite (sbind_run _ _ _ _ _ Hp). unfold sbind, slift. unfold decrypt_private_key, fromhex_value, fromhex.
  rewrite bytes_fromhex_hex by done. cbn [of_option rbind].
  rewrite fernet_inverse by (done || apply utf8_bytes). cbn [rbind]. by rewrite bytes_decode_utf8.
Qed.

(** ** Lemmas: what a save writes *)

(** The passphrase does not depend on who is asked at the terminal. *)
Definition settled (pass : option string) : Prop :=
  pass <> None \/ env_text getenv "CLAWCHAIN_WALLET_PASSPHRASE" <> None \/ isatty terminal = false.

Definition settled_passphrase (pass : option string) : option string :=
  match pass with Some p => Some p | None => env_text getenv "CLAWCHAIN_WALLET_PASSPHRASE" end.

Lemma settled_asks pass confirm m :
  settled pass -> passphrase_or_ask getenv terminal pass confirm m = (Ok (settled_passphrase pass), m).
Proof.
  intros Hs. unfold settled_passphrase, passphrase_or_ask, _get_passphrase. destruct pass as [p|]; [done|].
  destruct (env_text getenv _) eqn:E; [done|]. destruct Hs as [Hs|[Hs|Hs]]; [done..|]. by rewrite Hs.
Qed.

Lemma obfuscated_run w address hash key warning :
  aget "address" w = Some address -> aget "public_key_hash" w = Some hash -> Forall is_byte key ->
  exists encoded, _deobfuscate_key (VStr encoded) = Ok (hex_bytes key) /\
    obfuscated_wallet w (VStr (hex_bytes key)) warning =
      Ok [("version", VInt 1); ("address", address); ("private_key_encoded", VStr encoded);
          ("public_key_hash", hash); ("_warning", VStr warning)].
Proof.
  intros Ha Hh Hkey. destruct (deobfuscate_obfuscate key Hkey) as (encoded & He & Hd). exists encoded. split; [done|].
  unfold obfuscated_wallet, dgetitem. by rewrite Ha, He, Hh.
Qed.

Lemma encrypted_run w crypto address hash key p pass m :
  aget "address" w = Some address -> aget "public_key_hash" w = Some hash -> cryptography = Some crypto ->
  passphrase_or_ask getenv terminal pass true m = (Ok (Some p), m) ->
  exists m1 n iv warning,
    stored w (VStr key) pass false m =
      (Ok [("version", VInt WALLET_VERSION); ("encrypted", VBool true); ("address", address);
           ("public_key_hash", hash);
           ("data", VStr (fernet_encrypt crypto (_derive_key crypto p (urandom n 16)) iv (utf8 key)));
           ("kdf", VStr "pbkdf2"); ("salt", VStr (hex_bytes (urandom n 16))); ("_warning", warning)], m1) /\
    prompts m1 = prompts m.
Proof.
  intros Ha Hh Hc Hp. subst stored. unfold stored_wallet. unfold HAS_CRYPTO at 1. rewrite Hc. cbn iota.
  rewrite (sbind_run _ _ _ _ _ Hp). unfold encrypt_private_key.
  unfold encrypted_wallet, dgetitem. rewrite Ha, Hh.
  do 4 eexists. split; [unfold sbind, slift, draw; cbn -[hex_bytes utf8 _derive_key]; reflexivity|done].
Qed.

Lemma save_load w address hash key path pass insecure m :
  aget "address" w = Some address -> aget "public_key_hash" w = Some hash ->
  aget "private_key" w = Some (VStr (hex_bytes key)) -> Forall is_byte key ->
  env_text getenv "CLAWCHAIN_PRIVATE_KEY" = None -> settled pass ->
  exists m', save w path pass insecure m = (Ok (expanduser path), m') /\
    load path pass m' = (Ok (loaded address (hex_bytes key) hash), m') /\
    option_map file_mode (aget (expanduser path) (files m')) = Some owner_only.
Proof.
  intros Ha Hh Hk Hkey Henv Hs.
  assert (Hobf : forall warning m1, stored w (VStr (hex_bytes key)) pass insecure m =
    (obfuscated_wallet w (VStr (hex_bytes key)) warning, m1) -> exists m',
    save w path pass insecure m = (Ok (expanduser path), m') /\
    load path pass m' = (Ok (loaded address (hex_bytes key) hash), m') /\
    option_map file_mode (aget (expanduser path) (files m')) = Some owner_only).
  { intros warning m1 Hst. destruct (obfuscated_run w address hash key warning) as (encoded & Hd & He); [done..|].
    rewrite He in Hst. destruct (save_run w path pass insecure m _ _ _ Hk Hst) as (m' & Hsave & Hf & _).
    exists m'. split_and!; [done| |by rewrite Hf]. by eapply load_obfuscated. }
  destruct insecure; [by eapply (Hobf _ m)|]. 
  assert (Hcrypto : cryptography = None \/ exists crypto, cryptography = Some crypto) by (destruct cryptography; eauto).
  destruct Hcrypto as [Hc|[crypto Hc]].
  1: { eapply (Hobf _ m). subst stored. unfold stored_wallet, HAS_CRYPTO. by rewrite Hc. }
  pose proof (fun c => settled_asks pass c m Hs) as Hask.
  destruct (settled_passphrase pass) as [p|] eqn:Hp.
  - destruct (encrypted_run w crypto address hash (hex_bytes key) p pass m) as (m1 & n & iv & warning & Hst & _); [done..|].
    destruct (save_run w path pass false m _ _ _ Hk Hst) as (m' & Hsave & Hf & _). exists m'.
    split_and!; [done| |by rewrite Hf]. eapply load_encrypted; [done..|exact Hf|]. rewrite settled_asks by done. by rewrite Hp.
  - eapply (Hobf _ m). subst stored. unfold stored_wallet, HAS_CRYPTO. rewrite Hc.
    by rewrite (sbind_run _ _ _ _ _ (Hask true)).
Qed.

(** ** Properties *)

(** C17: A wallet that [save_wallet] writes is the one that [load_wallet] reads back
    from the file: the same address, private key and hash of the public key, in
    the encrypted and in the obfuscated format, with permissions for the owner
    only.  Nothing else comes back: an [auth_secret] that the wallet had is lost. *)
Theorem saved_wallet_loads w address hash key path pass insecure m :
  aget "address" w = Some address -> aget "public_key_hash" w = Some hash ->
  aget "private_key" w = Some (VStr (hex_bytes key)) -> Forall is_byte key ->
  env_text getenv "CLAWCHAIN_PRIVATE_KEY" = None -> settled pass ->
  exists m', save w path pass insecure m = (Ok (expanduser path), m') /\
    load path pass m' = (Ok (loaded address (hex_bytes key) hash), m') /\
    option_map file_mode (aget (expanduser path) (files m')) = Some owner_only.
Proof. apply save_load. Qed.

(** C28: The migration of an old wallet file keeps the identity: with the
    passphrase, [load_wallet] reads in the file that [migrate_wallet] leaves the
    address, the private key and the hash of the public key that it read in the
    old one, and nothing else (an [auth_secret] is lost); the new file needs no
    migration any more. *)
Theorem migrated_wallet_loads crypto path p info w address hash key m :
  (forall q, expanduser (expanduser q) = expanduser q) -> cryptography = Some crypto ->
  env_text getenv "CLAWCHAIN_PRIVATE_KEY" = None ->
  detect_wallet_version expanduser path m = (Ok info, m) -> truthy (dget info "needs_migration") = true ->
  load path None m = (Ok w, m) ->
  aget "address" w = Some address -> aget "public_key_hash" w = Some hash -> aget "private_key" w = Some (VStr key) ->
  exists m' info', migrate_wallet getenv expanduser terminal urandom cryptography path (Some p) m = (Ok true, m') /\
    load path (Some p) m' = (Ok (loaded address key hash), m') /\
    detect_wallet_version expanduser path m' = (Ok info', m') /\ dget info' "needs_migration" = VBool false.
Proof.
  intros Hexp Hc Henv Hinfo Hneeds Hload Ha Hh Hk.
  destruct (encrypted_run w crypto address hash key p (Some p) m) as (m1 & n & iv & warning & Hst & _); [done..|].
  destruct (save_run w (expanduser path) (Some p) false m _ _ _ Hk Hst) as (m' & Hsave & Hf & _).
  rewrite Hexp in Hf. exists m'. eexists. split_and!.
  - unfold migrate_wallet. cbv zeta.
    assert (Hdet : detect_wallet_version expanduser (expanduser path) m = (Ok info, m)).
    { unfold detect_wallet_version in *. cbv zeta in *. by rewrite Hexp. }
    assert (Hld : load (expanduser path) None m = (Ok w, m)).
    { subst load. unfold load_wallet in *. cbv zeta in *. by rewrite Hexp. }
    rewrite (sbind_run _ _ _ _ _ Hdet), Hneeds. cbn [negb].
    assert (HAS_CRYPTO cryptography = true) as -> by (unfold HAS_CRYPTO; by rewrite Hc). cbn [negb].
    rewrite (sbind_run _ _ _ _ _ Hld). unfold passphrase_or_ask. unfold sbind at 1, sret at 1.
    by rewrite (sbind_run _ _ _ _ _ Hsave).
  - eapply load_encrypted; [done..|exact Hf|done].
  - unfold detect_wallet_version. cbv zeta. unfold sbind at 1, file_exists, sgets, ahas. rewrite Hf. cbn [negb].
    unfold sbind at 1, read_json. rewrite Hf. cbn [content]. unfold sbind, slift. cbn [as_dict].
    cbn -[wallet_info hex_bytes utf8 _derive_key]. reflexivity.
  - done.
Qed.
End Wallets.

(** ** The properties at a wallet *)

(** A library whose tokens are the bytes in hexadecimal: it hides nothing, and
    undoes what it does. *)
Definition toy_cryptography : Cryptography := {|
  pbkdf2_derive salt passphrase := salt ++ passphrase;
  fernet_encrypt _ _ l := hex_bytes l;
  fernet_decrypt _ token := fromhex token
|}.
Definition toy_urandom (n : nat) (k : Z) : list Z := repeat (Z.of_nat n mod 256) (Z.to_nat k).
Definition no_terminal : Terminal := {| isatty := false; getpass _ := "" |}.
Definition no_env (_ : string) : option string := None.

Lemma toy_inverse crypto key iv l : Some toy_cryptography = Some crypto -> Forall is_byte l ->
  fernet_decrypt crypto key (fernet_encrypt crypto key iv l) = Ok l.
Proof. intros [= <-] Hl. cbn. unfold fromhex. by rewrite bytes_fromhex_hex. Qed.

Lemma toy_urandom_bytes n k : Forall is_byte (toy_urandom n k).
Proof.
  apply List.Forall_forall. intros b Hb. apply repeat_spec in Hb as ->. unfold is_byte.
  pose proof (Z.mod_pos_bound (Z.of_nat n) 256). lia.
Qed.

Definition demo_wallet : dict :=
  [("address", VStr "claw1demo"); ("private_key", VStr (hex_bytes [222; 173; 190; 239])); ("public_key_hash", VStr "00");
   ("auth_secret", VStr "secret")].
Definition empty_machine : Machine := {| files := []; prompts := 0; draws := 0 |}.

Lemma saved_wallet_loads_witness : exists m',
  save_wallet no_env id no_terminal toy_urandom (Some toy_cryptography) demo_wallet "w" (Some "pass") false empty_machine
    = (Ok "w", m') /\
  load_wallet no_env id no_terminal (Some toy_cryptography) "w" (Some "pass") m'
    = (Ok (loaded (VStr "claw1demo") (hex_bytes [222; 173; 190; 239]) (VStr "00")), m') /\
  option_map file_mode (aget "w" (files m')) = Some owner_only.
Proof.
  exact (saved_wallet_loads no_env id no_terminal toy_urandom (Some toy_cryptography) toy_inverse toy_urandom_bytes
    demo_wallet (VStr "claw1demo") (VStr "00") [222; 173; 190; 239] "w" (Some "pass") false empty_machine
    eq_refl eq_refl eq_refl ltac:(repeat (apply List.Forall_cons || apply List.Forall_nil); unfold is_byte; lia)
    eq_refl ltac:(by left)).
Defined.

(** A file of the first format, with the key in the clear. *)
Definition old_machine : Machine :=
  {| files := [("w", {| content := Ok (VDict demo_wallet); file_mode := new_file_mode |})]; prompts := 0; draws := 0 |}.

Lemma migrated_wallet_loads_witness : exists m' info',
  migrate_wallet no_env id no_terminal toy_urandom (Some toy_cryptography) "w" (Some "pass") old_machine
    = (Ok true, m') /\
  load_wallet no_env id no_terminal (Some toy_cryptography) "w" (Some "pass") m'
    = (Ok (loaded (VStr "claw1demo") "deadbeef" (VStr "00")), m') /\
  detect_wallet_version id "w" m' = (Ok info', m') /\ dget info' "needs_migration" = VBool false.
Proof.
  exact (migrated_wallet_loads no_env id no_terminal toy_urandom (Some toy_cryptography) toy_inverse toy_urandom_bytes
    toy_cryptography "w" "pass" (wallet_info (VInt 0) false true "plaintext") demo_wallet (VStr "claw1demo") (VStr "00")
    "deadbeef" old_machine (fun q => eq_refl) eq_refl eq_refl eq_refl eq_refl eq_refl eq_refl eq_refl eq_refl).
Defined.
