(* ===== verification/Setup.v ===== *)
(** * Setting up a miner ([skill/scripts/setup.py])

    The wallet with its Bech32 address, the registration request, and the run of
    the script: its configuration, an old wallet or a new one, its file, the
    registration, and the configuration that is left.  The curve library,
    RIPEMD-160, the server and what the user types are arguments.  What is
    printed is left out; a result that is printed is still read as the code
    reads it. *)
From Stdlib Require Import ZArith Lia Ascii String.
From stdpp Require Import base list strings.
From S2P Require Import Prelude PyText PyFloat PyValue Sha256 CryptoAuth Mine WalletCrypto.
Open Scope Z_scope.

(** ** Bech32, as the script has it *)

Definition CHARSET : string := "qpzry9x8gf2tvdw0s3jn54khce6mua7l".

Definition bech32_GEN : list Z := [0x3B6A57B2; 0x26508E6D; 0x1EA119FA; 0x3D4233DD; 0x2A1462B3].

(** One value: [for i in range(5): chk ^= GEN[i] if ((b >> i) & 1) else 0] *)
Definition bech32_round (chk v : Z) : Z :=
  let b := Z.shiftr chk 25 in
  let chk := Z.lxor (Z.shiftl (Z.land chk 0x1FFFFFF) 5) v in
  fold_left (fun chk ig => Z.lxor chk (if Z.land (Z.shiftr b ig.1) 1 =? 1 then ig.2 else 0))
            (zip [0; 1; 2; 3; 4] bech32_GEN) chk.

Definition bech32_polymod (values : list Z) : Z := fold_left bech32_round values 1.

Definition bech32_hrp_expand (hrp : string) : list Z :=
  map (fun x => Z.shiftr (code x) 5) (chars hrp) ++ [0] ++ map (fun x => Z.land (code x) 31) (chars hrp).

Definition bech32_create_checksum (hrp : string) (data : list Z) : list Z :=
  let values := bech32_hrp_expand hrp ++ data in
  let polymod := Z.lxor (bech32_polymod (values ++ [0; 0; 0; 0; 0; 0])) 1 in
  map (fun i => Z.land (Z.shiftr polymod (5 * (5 - i))) 31) [0; 1; 2; 3; 4; 5].

(** [CHARSET[d]] *)
Definition setup_char (d : Z) : res ascii := of_option (chars CHARSET !! Z.to_nat d) IndexError.

Definition bech32_encode (hrp : string) (data : list Z) : res string :=
  let combined := data ++ bech32_create_checksum hrp data in
  let? text := mapR setup_char combined in
  Ok (hrp +:+ "1" +:+ of_chars text).

(** [while bits >= tobits: ...] with the list that it appends to; each round
    takes [tobits] bits, so [bits] rounds are enough. *)
Fixpoint take_groups (fuel : nat) (tobits acc bits : Z) (ret : list Z) : Z * list Z :=
  match fuel with
  | O => (bits, ret)
  | S fuel =>
      if tobits <=? bits
      then take_groups fuel tobits acc (bits - tobits)
             (ret ++ [Z.land (Z.shiftr acc (bits - tobits)) (Z.shiftl 1 tobits - 1)])
      else (bits, ret)
  end.

Fixpoint convert_values (data : list Z) (frombits tobits acc bits : Z) (ret : list Z) : Z * Z * list Z :=
  match data with
  | [] => (acc, bits, ret)
  | v :: data =>
      let acc := Z.lor (Z.shiftl acc frombits) v in
      let bits := bits + frombits in
      let '(bits, ret) := take_groups (Z.to_nat bits) tobits acc bits ret in
      convert_values data frombits tobits acc bits ret
  end.

Definition convertbits (data : list Z) (frombits tobits : Z) (pad : bool) : list Z :=
  let '(acc, bits, ret) := convert_values data frombits tobits 0 0 [] in
  if pad && negb (bits =? 0)
  then ret ++ [Z.land (Z.shiftl acc (tobits - bits)) (Z.shiftl 1 tobits - 1)]
  else ret.

(** ** The run of the script *)

(** [argparse]: [--name], [--rpc], [--wallet-path] and the switches. *)
Record SetupArgs := {
  arg_name : string;
  arg_rpc : option string;
  arg_wallet_path : option string;
  non_interactive : bool;
  insecure : bool;
  migrate : bool
}.

(** The machine of the miner, the server, and how often the user was asked. *)
Record SetupState (W : Type) := mkSetup { machine_of : Machine; server_of : W; inputs_read : nat }.
Arguments mkSetup {W} _ _ _.
Arguments machine_of {W} _.
Arguments server_of {W} _.
Arguments inputs_read {W} _.

Section Setup.
Context {W : Type} (requests : Requests W) (is_connection_error : exn -> bool) (str_exc : exn -> string).
Context (eth_keys : PrivateKeys) (ripemd160 : list Z -> res (list Z)).
Context (getenv : string -> option string) (expanduser : string -> string) (terminal : Terminal)
  (urandom : nat -> Z -> list Z) (cryptography : option Cryptography).
Context (CONFIG_PATH : string) (input : nat -> string).

Abbreviation setup A := (st (SetupState W) A).

Definition on_machine {A} (m : st Machine A) : setup A :=
  fun s => let '(r, machine) := m (machine_of s) in (r, mkSetup machine (server_of s) (inputs_read s)).
Definition on_server {A} (m : st W A) : setup A :=
  fun s => let '(r, server) := m (server_of s) in (r, mkSetup (machine_of s) server (inputs_read s)).

(** [input(...).strip()] *)
Definition ask : setup string :=
  fun s => (Ok (str_strip (input (inputs_read s))), mkSetup (machine_of s) (server_of s) (S (inputs_read s))).

Definition load_file (path : string) : setup dict :=
  on_machine (load_wallet getenv expanduser terminal cryptography path None).
Definition save_file (wallet : dict) (path : string) (insecure : bool) : setup string :=
  on_machine (save_wallet getenv expanduser terminal urandom cryptography wallet path None insecure).
Definition migrate_file (path : string) : setup bool :=
  on_machine (migrate_wallet getenv expanduser terminal urandom cryptography path None).
Definition detect_file (path : string) : setup dict := on_machine (detect_wallet_version expanduser path).

(** [secrets.token_bytes(n)], [secrets.token_hex(n)] *)
Definition token_bytes (n : Z) : setup (list Z) :=
  let* k := on_machine draw in sret (urandom k n).
Definition token_hex (n : Z) : setup string := let* b := token_bytes n in sret (hex_bytes b).

(** *** The wallet *)

Definition compressed_key (pubkey_uncompressed : list Z) : res (list Z) :=
  let x := take 32 pubkey_uncompressed in
  let y := drop 32 pubkey_uncompressed in
  let? last_y := of_option (last y) IndexError in
  Ok ((if last_y mod 2 =? 0 then 2 else 3) :: x).

Definition wallet_key (private_key_override : option string) : setup (list Z) :=
  match private_key_override with
  | Some key => if String.eqb key "" then token_bytes 32 else slift (fromhex key)
  | None => token_bytes 32
  end.

Definition generate_wallet (private_key_override : option string) : setup dict :=
  let* private_key := wallet_key private_key_override in
  let*? pubkey_uncompressed := public_key_of eth_keys private_key in
  let*? compressed := compressed_key pubkey_uncompressed in
  let sha := sha256 compressed in
  let*? ripemd := ripemd160 sha in
  let data5 := convertbits ripemd 8 5 true in
  let*? address := bech32_encode "claw" data5 in
  let public_key_hex := hex_bytes pubkey_uncompressed in
  let* auth_secret := token_hex 32 in
  sret [("address", VStr address); ("private_key", VStr (hex_bytes private_key)); ("public_key", VStr public_key_hex);
        ("public_key_hash", VStr (hex_bytes ripemd)); ("auth_secret", VStr auth_secret)].

Definition derive_public_key (private_key_hex : value) : res string :=
  let? private_key := fromhex_value private_key_hex in
  let? public_key := public_key_of eth_keys private_key in
  Ok (hex_bytes public_key).

(** *** The registration *)

Definition if_truthy (k : string) (v : value) (payload : dict) : dict := if truthy v then dset payload k v else payload.

Definition registration_payload (address name auth_secret public_key : value) : dict :=
  if_truthy "auth_secret" auth_secret
    (if_truthy "public_key" public_key [("address", address); ("name", name)]).

Definition failed (message : string) : value := VDict [("success", VBool false); ("message", VStr message)].

(** [except requests.ConnectionError] and [except Exception] *)
Definition registration_failure (e : exn) : res value :=
  match e with
  | Unmodelled what => Err (Unmodelled what)
  | e => Ok (failed (if is_connection_error e then "Cannot connect to chain node (will retry later)" else str_exc e))
  end.

Definition register_miner (rpc_url : string) (address name auth_secret public_key : value) : setup value :=
  fun s =>
    let payload := registration_payload address name auth_secret public_key in
    let '(r, s) := on_server (requests_post requests (rpc_url +:+ "/clawchain/miner/register") payload (f_of_Z 10)) s in
    let answer :=
      let? resp := r in
      if status_code resp =? 409
      then Ok (VDict [("success", VBool true); ("message", VStr "Miner already registered")])
      else let? _ := raise_for_status resp in json resp in
    (match answer with Ok v => Ok v | Err e => registration_failure e end, s).

(** [result.get('success')], [result.get('message', '')] *)
Definition report (result : value) : setup unit := let*? _ := as_dict result in sret tt.

(** *** The configuration *)

Definition write_config (config : dict) : setup unit := on_machine (write_json CONFIG_PATH (VDict config)).

Definition load_config : setup dict :=
  let* there := on_machine (file_exists CONFIG_PATH) in
  if negb there then sret []
  else
    let* config := on_machine (read_json CONFIG_PATH) in
    match config with
    | VDict config =>
        match aget "node_url" config with
        | Some node_url =>
            if dhas config "rpc_url" then sret config
            else
              let config := dset (apop "node_url" config) "rpc_url" node_url in
              do* write_config config in
              sret config
        | None => sret config
        end
    | _ => sraise (Unmodelled "configuration that is no object")
    end.

(** [args.x or config.get(k, dflt)] *)
Definition argument (arg : option string) (config : dict) (k dflt : string) : value :=
  por (vopt_str arg) (dget_or config k (VStr dflt)).
Definition argument_text (arg : option string) (config : dict) (k dflt : string) : res string :=
  match argument arg config k dflt with VStr s => Ok s | _ => Err (Unmodelled "setting that is no text") end.

(** [config["miner_address"] = address; config["miner_name"] = miner_name] *)
Definition named_config (config : dict) (address miner_name : value) : dict :=
  dset (dset config "miner_address" address) "miner_name" miner_name.

(** [config[k] = config.get(k, dflt)] *)
Definition keep_or (k : string) (dflt : value) (config : dict) : dict := dset config k (dget_or config k dflt).

Definition uses_codex (config : dict) : bool := py_eq_str (dget config "forecast_mode") "codex_v1".

Definition finished_config (config : dict) (address miner_name forecast_mode : value) : dict :=
  let config := dset (named_config config address miner_name) "forecast_mode" forecast_mode in
  let config := keep_or "codex_binary" (VStr "codex") config in
  let config := keep_or "codex_model" (VStr "gpt-5.4-mini") config in
  let config := keep_or "codex_timeout_seconds" (VInt 120) config in
  let config := keep_or "request_timeout_seconds" (VInt 35) config in
  let config := keep_or "min_commit_time_remaining_seconds" (VInt (if uses_codex config then 90 else 1)) config in
  keep_or "parallel_tasks" (VInt (if uses_codex config then 2 else 1)) config.

(** *** An existing wallet *)

(** A wallet without [auth_secret] gets one and is saved again. *)
Definition with_auth_secret (existing : dict) (wallet_path : string) (insecure : bool) : setup (dict * value) :=
  let existing_auth := dget existing "auth_secret" in
  if truthy existing_auth then sret (existing, existing_auth)
  else
    let* token := token_hex 32 in
    let existing := dset existing "auth_secret" (VStr token) in
    do* save_file existing wallet_path insecure in
    sret (existing, VStr token).

Definition use_existing (args : SetupArgs) (config existing : dict) (address : value) (rpc_url wallet_path : string)
  (miner_name : value) : setup unit :=
  let* (existing, existing_auth) := with_auth_secret existing wallet_path (insecure args) in
  let*? private_key := dgetitem existing "private_key" in
  let*? public_key := derive_public_key private_key in
  let* result := register_miner rpc_url address miner_name existing_auth (VStr public_key) in
  do* report result in
  write_config (named_config config address miner_name).

Definition offer_migration (args : SetupArgs) (wallet_path_expanded : string) : setup unit :=
  let* wallet_info := detect_file wallet_path_expanded in
  if truthy (dget wallet_info "needs_migration") && HAS_CRYPTO cryptography && negb (insecure args)
     && negb (non_interactive args)
  then
    let* migrate_choice := ask in
    if String.eqb (str_lower migrate_choice) "y" then do* migrate_file wallet_path_expanded in sret tt else sret tt
  else sret tt.

(** *** A new wallet *)

Definition ask_mode (args : SetupArgs) (config : dict) : setup value :=
  if non_interactive args then sret (dget_or config "forecast_mode" (VStr "heuristic_v1"))
  else let* mode_choice := ask in sret (VStr (if String.eqb mode_choice "2" then "codex_v1" else "heuristic_v1")).

Definition make_wallet (args : SetupArgs) (config : dict) (rpc_url wallet_path : string) (miner_name : value)
  (env_key : option string) : setup unit :=
  let* wallet := generate_wallet env_key in
  let*? address := dgetitem wallet "address" in
  let* confirmed :=
    if non_interactive args then sret true
    else let* confirm := ask in sret (String.eqb (str_lower confirm) "y") in
  if negb confirmed then sraise (SystemExit 0)
  else
    do* save_file wallet wallet_path (insecure args) in
    let* result := register_miner rpc_url address miner_name (dget wallet "auth_secret") (dget wallet "public_key") in
    do* report result in
    let* forecast_mode := ask_mode args config in
    write_config (finished_config config address miner_name forecast_mode).

Definition migrate_only (wallet_path_expanded : string) : setup unit :=
  let* there := on_machine (file_exists wallet_path_expanded) in
  if there then
    let* info := detect_file wallet_path_expanded in
    if truthy (dget info "needs_migration") then
      let* migrated := migrate_file wallet_path_expanded in
      if migrated then sret tt else sraise (SystemExit 1)
    else sret tt
  else sraise (SystemExit 1).

Definition setup_main (args : SetupArgs) : setup unit :=
  let* config := load_config in
  let*? rpc_url := argument_text (arg_rpc args) config "rpc_url" "http://localhost:1317" in
  let*? wallet_path := argument_text (arg_wallet_path args) config "wallet_path" "~/.clawchain/wallet.json" in
  let wallet_path_expanded := expanduser wallet_path in
  let miner_name := argument (Some (arg_name args)) config "miner_name" "openclaw-miner" in
  if migrate args then migrate_only wallet_path_expanded
  else
    let env_key := getenv "CLAWCHAIN_PRIVATE_KEY" in
    let* there := on_machine (file_exists wallet_path_expanded) in
    if there then
      do* offer_migration args wallet_path_expanded in
      let* existing := load_file wallet_path_expanded in
      let*? address := dgetitem existing "address" in
      let* choice := if non_interactive args then sret "" else ask in
      if negb (non_interactive args) && String.eqb (str_lower choice) "n"
      then make_wallet args config rpc_url wallet_path miner_name env_key
      else use_existing args config existing address rpc_url wallet_path miner_name
    else make_wallet args config rpc_url wallet_path miner_name env_key.
End Setup.
