(* ===== verification/SetupFacts.v ===== *)
(** * A miner that is set up can mine

    The two copies of Bech32, of the script and of the service, agree; the
    wallet that the script makes passes the check of the service, is saved, and
    is the one that the next run reads. *)
From Stdlib Require Import ZArith Lia Ascii String.
From stdpp Require Import base list strings.
From S2P Require Import Prelude PyText PyFloat PyValue Sha256 Protobuf ChainClient ClientFacts CryptoAuth CryptoFacts.
From S2P Require Import Mine MineFacts WalletCrypto WalletFacts Setup.
Open Scope Z_scope.

(** ** Lemmas: the two copies of Bech32 *)

Lemma bit_set b i : 0 <= i -> (Z.land (Z.shiftr b i) 1 =? 1) = Z.testbit b i.
Proof.
  intros Hi. change 1 with (Z.ones 1) at 1. rewrite Z.land_ones by lia. rewrite <- (Z.add_0_l i) at 2.
  rewrite <- Z.shiftr_spec by lia. rewrite <- Z.bit0_mod. by destruct (Z.testbit _ 0).
Qed.

Lemma bech32_round_step chk v : bech32_round chk v = polymod_step chk v.
Proof.
  unfold bech32_round, polymod_step, generators. cbv zeta.
  cbn [zip_with zip bech32_GEN GEN fold_left foldr imap fst snd Z.of_nat].
  rewrite !bit_set by lia. by rewrite Z.lxor_0_r, !Z.lxor_assoc.
Qed.

Lemma bech32_polymod_same values : bech32_polymod values = _bech32_polymod values.
Proof.
  unfold bech32_polymod, _bech32_polymod. generalize 1 as chk. induction values as [|v values IH]; intros chk; [done|].
  cbn [fold_left]. by rewrite bech32_round_step.
Qed.

Lemma take_groups_emit fuel tobits acc bits ret : 0 <= tobits ->
  take_groups fuel tobits acc bits ret = let '(l, rest) := emit fuel tobits acc bits in (rest, ret ++ l).
Proof.
  intros Ht. revert bits ret. induction fuel as [|fuel IH]; intros bits ret; cbn [take_groups emit]; [by rewrite app_nil_r|].
  destruct (tobits <=? bits); [|by rewrite app_nil_r]. rewrite IH, Z.shiftl_1_l.
  destruct (emit fuel tobits acc (bits - tobits)) as [l rest]. by rewrite <- app_assoc.
Qed.

Lemma convert_values_fold data frombits tobits acc bits ret : 0 <= tobits ->
  convert_values data frombits tobits acc bits ret = fold_left (convert_step frombits tobits) data (acc, bits, ret).
Proof.
  intros Ht. revert acc bits ret. induction data as [|v data IH]; intros acc bits ret; [done|].
  cbn [convert_values fold_left]. unfold convert_step at 2. rewrite take_groups_emit by done.
  destruct (emit _ _ _ _) as [l rest]. apply IH.
Qed.

Lemma convertbits_same data frombits tobits pad : 0 <= tobits ->
  convertbits data frombits tobits pad = _convertbits data frombits tobits pad.
Proof.
  intros Ht. unfold convertbits, _convertbits. rewrite convert_values_fold by done. by rewrite Z.shiftl_1_l.
Qed.

Lemma bech32_encode_same hrp data : bech32_encode hrp (convertbits data 8 5 true) = _bech32_encode hrp data.
Proof.
  unfold bech32_encode, _bech32_encode, bech32_create_checksum, _bech32_create_checksum.
  rewrite convertbits_same by done. cbv zeta. by rewrite bech32_polymod_same.
Qed.

(** ** Lemmas: the key of the wallet and the check of the service *)

Lemma compressed_same key pk c : length pk = 64%nat -> Forall is_byte pk -> key = hex_bytes pk ->
  compressed_key pk = Ok c -> pubkey_to_compressed key = Ok c.
Proof.
  intros Hlen Hb -> H. unfold pubkey_to_compressed. rewrite fromhex_hex by done. cbn [rbind]. rewrite Hlen. cbn [Nat.eqb guard rbind].
  unfold compressed_key in H. apply rbind_ok in H as (y & Hy & H). rewrite Hy. cbn [rbind]. rewrite <- H.
  by rewrite Zeven_mod.
Qed.

Lemma compressed_total pk : length pk = 64%nat -> exists c, compressed_key pk = Ok c.
Proof.
  intros Hlen. unfold compressed_key. destruct (last (drop 32 pk)) as [y|] eqn:E; [by eexists|].
  apply last_None in E. apply (f_equal length) in E. rewrite length_drop, Hlen in E. discriminate.
Qed.

(** What is relied on of the curve library and of RIPEMD-160: a public key has 64
    bytes, and a digest is made of bytes. *)
Record good_keys (eth_keys : PrivateKeys) (ripemd160 : list Z -> res (list Z)) : Prop := {
  key_length k pk : public_key_of eth_keys k = Ok pk -> length pk = 64%nat /\ Forall is_byte pk;
  digest_bytes m : exists r, ripemd160 m = Ok r /\ Forall (small 8) r
}.

Section Wallet.
Context {W : Type} (eth_keys : PrivateKeys) (ripemd160 : list Z -> res (list Z)) (urandom : nat -> Z -> list Z).
Hypothesis Hkeys : good_keys eth_keys ripemd160.
Hypothesis urandom_bytes : forall n k, Forall is_byte (urandom n k).

Lemma fresh_wallet (s : SetupState W) pk : public_key_of eth_keys (urandom (draws (machine_of s)) 32) = Ok pk ->
  exists address key hash secret s',
  generate_wallet eth_keys ripemd160 urandom None s =
    (Ok [("address", VStr address); ("private_key", VStr (hex_bytes key)); ("public_key", VStr (hex_bytes pk));
         ("public_key_hash", VStr hash); ("auth_secret", VStr secret)], s') /\
  Forall is_byte key /\ public_key_of eth_keys key = Ok pk /\
  derive_address_from_pubkey ripemd160 (hex_bytes pk) = Ok address /\
  server_of s' = server_of s /\ files (machine_of s') = files (machine_of s).
Proof.
  set (key := urandom (draws (machine_of s)) 32). intros Hpk.
  destruct (key_length _ _ Hkeys key pk Hpk) as [Hlen Hb]. destruct (compressed_total pk Hlen) as (c & Hc).
  destruct (digest_bytes _ _ Hkeys (sha256 c)) as (r & Hr & Hrb).
  destruct (bech32_encodes "claw" r Hrb) as (address & Ha).
  assert (Hder : derive_address_from_pubkey ripemd160 (hex_bytes pk) = Ok address).
  { unfold derive_address_from_pubkey. rewrite (compressed_same _ pk c) by done. cbn [rbind]. rewrite Hr. cbn [rbind]. done. }
  exists address, key, (hex_bytes r). do 2 eexists.
  unfold generate_wallet, wallet_key, token_bytes, on_machine, draw.
  unfold sbind, slift, sret. fold key. rewrite Hpk, Hc, Hr, bech32_encode_same, Ha. cbn [machine_of server_of files].
  split_and!; [reflexivity|apply urandom_bytes|done..].
Qed.
End Wallet.

(** ** Lemmas: the steps of the script *)

Section Steps.
Context {W : Type}.

Lemma on_machine_run {A} (m : st Machine A) (s : SetupState W) a machine :
  m (machine_of s) = (Ok a, machine) -> on_machine m s = (Ok a, mkSetup machine (server_of s) (inputs_read s)).
Proof. intros H. unfold on_machine. by rewrite H. Qed.

(** The server answers with an object, refuses, or cannot be reached. *)
Definition answers_well (requests : Requests W) : Prop :=
  forall url body timeout w,
    match (requests_post requests url body timeout w).1 with
    | Ok resp => match json resp with Ok (VDict _) => True | Ok _ | Err (Unmodelled _) => False | Err _ => True end
    | Err (Unmodelled _) => False
    | Err _ => True
    end.

Lemma register_run (requests : Requests W) is_connection_error str_exc url address name secret key s :
  answers_well requests ->
  exists answer, Setup.register_miner requests is_connection_error str_exc url address name secret key s =
    (Ok (VDict answer), mkSetup (machine_of s)
      (requests_post requests (url +:+ "/clawchain/miner/register") (registration_payload address name secret key)
         (f_of_Z 10) (server_of s)).2 (inputs_read s)).
Proof.
  intros Hgood. unfold Setup.register_miner, on_server. cbv zeta.
  pose proof (Hgood (url +:+ "/clawchain/miner/register") (registration_payload address name secret key) (f_of_Z 10) (server_of s)) as H.
  destruct (requests_post _ _ _ _ _) as [[resp|e] w]; cbn [rbind fst snd] in *.
  - destruct (status_code resp =? 409); [by eexists|].
    destruct (raise_for_status resp) as [[]|e] eqn:E; cbn [rbind].
    + destruct (json resp) as [[]|[]]; try done; by eexists.
    + unfold raise_for_status, guard in E. destruct (negb _); [done|]. injection E as <-. by eexists.
  - destruct e; try done; by eexists.
Qed.
End Steps.

(** Reading a wallet does not look at the other files. *)
Lemma load_wallet_same_file getenv expanduser terminal cryptography path pass m1 m2 :
  settled getenv terminal pass ->
  aget (expanduser path) (files m1) = aget (expanduser path) (files m2) ->
  forall r, load_wallet getenv expanduser terminal cryptography path pass m1 = (r, m1) ->
    load_wallet getenv expanduser terminal cryptography path pass m2 = (r, m2).
Proof.
  intros Hs Hf r. unfold load_wallet, read_json. cbv zeta. unfold sbind, slift, sret, sraise. rewrite Hf.
  destruct (aget (expanduser path) (files m2)) as [f|]; [|by intros [= <-]].
  destruct (content f) as [v|e]; [|by intros [= <-]]. destruct v as [| | | | | | |d]; try by intros [= <-].
  destruct (dgetitem d "address") as [address|e]; [|by intros [= <-]].
  destruct (env_text getenv "CLAWCHAIN_PRIVATE_KEY") as [key|]; [by intros [= <-]|].
  destruct (py_le (VInt 2) (dget_or d "version" (VInt 1))) as [b|e]; [|by intros [= <-]].
  destruct (b && truthy (dget d "encrypted")).
  - destruct (negb (HAS_CRYPTO cryptography)); [by intros [= <-]|]. rewrite !settled_asks by done.
    destruct (settled_passphrase getenv pass) as [p|]; [|by intros [= <-]].
    destruct (dgetitem d "data") as [data|e]; [|by intros [= <-]].
    destruct (dgetitem d "salt") as [salt|e]; [|by intros [= <-]].
    by destruct (decrypt_private_key _ _ _ _) as [pk|e]; intros [= <-].
  - destruct (aget "private_key_encoded" d) as [encoded|].
    + by destruct (_deobfuscate_key encoded) as [pk|e]; intros [= <-].
    + by destruct (dhas d "private_key"); intros [= <-].
Qed.

Section Main.
Context {W : Type} (requests : Requests W) (is_connection_error : exn -> bool) (str_exc : exn -> string).
Context (eth_keys : PrivateKeys) (ripemd160 : list Z -> res (list Z)).
Context (getenv : string -> option string) (expanduser : string -> string) (terminal : Terminal)
  (urandom : nat -> Z -> list Z) (cryptography : option Cryptography).
Context (CONFIG_PATH : string) (input : nat -> string).
Hypothesis Hkeys : good_keys eth_keys ripemd160.
Hypothesis Hanswers : answers_well requests.
Hypothesis fernet_inverse : forall crypto key iv l, cryptography = Some crypto -> Forall is_byte l ->
  fernet_decrypt crypto key (fernet_encrypt crypto key iv l) = Ok l.
Hypothesis urandom_bytes : forall n k, Forall is_byte (urandom n k).

(** Where a new wallet leaves the machine and the server. *)
Definition set_up path name rpc m0 w0 n0 (m : st (SetupState W) unit) : Prop :=
  exists s' address key public hash secret config mode,
    m (mkSetup m0 w0 n0) = (Ok tt, s') /\
    load_wallet getenv expanduser terminal cryptography path None (machine_of s')
      = (Ok (loaded (VStr address) key (VStr hash)), machine_of s') /\
    derive_public_key eth_keys (VStr key) = Ok public /\
    verify_address_pubkey_binding ripemd160 str_exc address public = (true, "") /\
    server_of s' = (requests_post requests (rpc +:+ "/clawchain/miner/register")
      (registration_payload (VStr address) name (VStr secret) (VStr public)) (f_of_Z 10) w0).2 /\
    aget CONFIG_PATH (files (machine_of s')) = Some {| content := Ok (VDict config); file_mode := mode |} /\
    dget config "miner_address" = VStr address.

Lemma write_config_run config (s : SetupState W) : exists s' mode,
  write_config CONFIG_PATH config s = (Ok tt, s') /\
  server_of s' = server_of s /\
  aget CONFIG_PATH (files (machine_of s')) = Some {| content := Ok (VDict config); file_mode := mode |} /\
  (forall path, path <> CONFIG_PATH -> aget path (files (machine_of s')) = aget path (files (machine_of s))).
Proof.
  unfold write_config, on_machine, write_json. do 2 eexists. split; [done|]. cbn [server_of machine_of files].
  split_and!; [done|by rewrite aget_aset_eq|]. intros path Hne. by rewrite aget_aset_ne.
Qed.

Lemma new_wallet_set_up args path rpc name m0 w0 n0 pk :
  public_key_of eth_keys (urandom (draws m0) 32) = Ok pk ->
  non_interactive args = true -> getenv "CLAWCHAIN_PRIVATE_KEY" = None -> settled getenv terminal None ->
  expanduser path <> CONFIG_PATH ->
  set_up path name rpc m0 w0 n0
    (make_wallet requests is_connection_error str_exc eth_keys ripemd160 getenv expanduser terminal urandom cryptography
       CONFIG_PATH input args [] rpc path name None).
Proof.
  intros Hdrawn Hni Henv Hset Hconf. set (s0 := mkSetup m0 w0 n0).
  destruct (fresh_wallet (W := W) eth_keys ripemd160 urandom Hkeys urandom_bytes s0 pk Hdrawn)
    as (address & key & hash & secret & s1 & Hgen & Hkb & Hpk & Hder & Hserver & _).
  set (w := [("address", VStr address); _; _; _; _]) in Hgen.
  assert (Henvt : env_text getenv "CLAWCHAIN_PRIVATE_KEY" = None) by (unfold env_text; by rewrite Henv).
  destruct (save_load getenv expanduser terminal urandom cryptography fernet_inverse urandom_bytes w (VStr address) (VStr hash)
    key path None (insecure args) (machine_of s1)) as (m2 & Hsave & Hload & _); [done..|].
  set (s2 := mkSetup m2 (server_of s1) (inputs_read s1)).
  destruct (register_run requests is_connection_error str_exc rpc (VStr address) name (VStr secret)
    (VStr (hex_bytes pk)) s2 Hanswers) as (answer & Hreg).
  set (s3 := mkSetup _ _ _) in Hreg.
  destruct (write_config_run (finished_config [] (VStr address) name (VStr "heuristic_v1")) s3)
    as (s4 & mode & Hwrite & Hserver4 & Hc & Hother).
  exists s4, address, (hex_bytes key), (hex_bytes pk), hash, secret. do 2 eexists. split_and!; [| | | | |exact Hc|done].
  - unfold make_wallet. rewrite (sbind_run _ _ _ _ _ Hgen). rewrite (sbind_run _ _ s1 (VStr address) s1) by done.
    rewrite Hni. rewrite (sbind_run _ _ s1 true s1) by done. cbn [negb].
    rewrite (sbind_run _ _ s1 (expanduser path) s2) by (unfold save_file, on_machine; by rewrite Hsave).
    rewrite (sbind_run _ _ s2 (VDict answer) s3) by exact Hreg.
    rewrite (sbind_run _ _ s3 tt s3) by done. unfold ask_mode. rewrite Hni.
    by rewrite (sbind_run _ _ s3 (VStr "heuristic_v1") s3) by done.
  - apply (load_wallet_same_file _ _ _ _ _ _ m2 _ Hset); [|done]. by rewrite Hother.
  - unfold derive_public_key, fromhex_value, fromhex. rewrite bytes_fromhex_hex by done. cbn [of_option rbind]. by rewrite Hpk.
  - unfold verify_address_pubkey_binding. by rewrite Hder, String.eqb_refl.
  - rewrite Hserver4. unfold s3, s2. cbn [server_of]. by rewrite Hserver.
Qed.

(** ** Properties *)

(** The argument, or the default when it is missing or empty. *)
Definition given_or (dflt : string) (arg : option string) : string :=
  match arg with Some s => if String.eqb s "" then dflt else s | None => dflt end.

Lemma argument_fresh arg k dflt : argument arg [] k dflt = VStr (given_or dflt arg).
Proof. unfold argument, por, given_or. destruct arg as [s|]; [|done]. cbn [vopt_str truthy]. by destruct (String.eqb s ""). Qed.

End Main.

(** ** The property at a machine *)

(** Keys that stand for themselves. *)
Definition toy_keys : PrivateKeys := {|
  public_key_of k := if (length k =? 32)%nat && forallb (fun b => (0 <=? b) && (b <? 256)) k
                     then Ok (k ++ k) else Err (ValueError "private key");
  sign_msg_hash _ h := Ok h
|}.
Definition toy_requests : Requests (list string) := {|
  requests_get _ _ := sret {| status_code := 404; json := Err (ValueError "no body") |};
  requests_post url _ _ w := (Ok {| status_code := 201; json := Ok (VDict [("success", VBool true)]) |}, w ++ [url])
|}.

Lemma toy_good_keys : good_keys toy_keys demo_ripemd160.
Proof.
  split.
  - intros k pk. cbn. destruct (Nat.eqb_spec (length k) 32) as [Hlen|]; [|done].
    destruct (forallb _ k) eqn:E; [|done]. intros [= <-]. rewrite length_app, Hlen. split; [done|].
    assert (Forall is_byte k); [|by apply Forall_app]. apply List.Forall_forall. intros b Hin.
    rewrite forallb_forall in E. specialize (E b Hin). unfold is_byte. lia.
  - intros m. eexists. split; [reflexivity|]. by eapply demo_ripemd160_bytes.
Qed.

(** Only the path is given; the server is the default one. *)
Definition demo_args : SetupArgs :=
  {| arg_name := "openclaw-miner"; arg_rpc := None; arg_wallet_path := Some "wallet.json";
     non_interactive := true; insecure := false; migrate := false |}.

