(* ===== verification/RuntimeProjection.v ===== *)
(** * Standings as results and projections ([scripts/poker_mtt/runtime_projection.py])

    The summary of a finished tournament becomes the rows that the service
    applies, and these the rows of the final ranking, each with the roots that
    commit to what it is made of.  The wallet of a player is the one that
    [Setup.generate_wallet] makes of a seed. *)
From Stdlib Require Import ZArith Lia Ascii String.
From stdpp Require Import base list strings.
From S2P Require Import Prelude PyText PyFloat PyTime PyValue Sha256 Canonical Mine WalletCrypto Setup.
Open Scope Z_scope.

Definition DEFAULT_DAILY_POLICY_VERSION : string := "poker_mtt_daily_policy_v2".
Definition DEFAULT_WEEKLY_POLICY_VERSION : string := "poker_mtt_weekly_policy_v2".
Definition WAITING_ENTRY_STATES : list string := ["waiting"; "waitlist"; "no_show"].

Definition hash_payload (payload : dict) : res string :=
  let? encoded := json_dumps (VDict payload) in
  Ok ("sha256:" +:+ sha256_hex (of_chars encoded)).

Definition parse_iso_datetime (v : value) : res (option Z) :=
  if negb (truthy v) then Ok None
  else match v with
       | VStr s =>
           let normalized := if str_endswith "Z" s then str_replace_char "Z" "+00:00" s else s in
           let? parsed := from_isoformat normalized in Ok (Some parsed)
       | _ => Err AttributeError
       end.

(** Midnight of the day, and of the Monday, in which [t] lies. *)
Definition day_length : Z := 86400 * usec.
Definition midnight (t : Z) : Z := t - t mod day_length.

Definition derive_reward_window_bounds (lane : string) (locked_at : Z) : Z * Z :=
  if String.eqb lane "poker_mtt_daily" then let start := midnight locked_at in (start, start + day_length)
  else
    let weekday_start := locked_at - day_length * weekday (locked_at / day_length) in
    let start := midnight weekday_start in
    (start, start + 7 * day_length).

Definition derive_reward_window_policy_version (lane : string) (configured_version : option string) : string :=
  match configured_version with
  | Some v => if String.eqb v ""
              then (if String.eqb lane "poker_mtt_weekly" then DEFAULT_WEEKLY_POLICY_VERSION else DEFAULT_DAILY_POLICY_VERSION)
              else v
  | None => if String.eqb lane "poker_mtt_weekly" then DEFAULT_WEEKLY_POLICY_VERSION else DEFAULT_DAILY_POLICY_VERSION
  end.

(** ** Roots of the evidence *)

Definition derive_runtime_hand_history_root (summary evidence : dict) : res string :=
  let? mtt_id := dgetitem summary "mtt_id" in
  hash_payload [("tournament_id", mtt_id); ("summary_artifact", dget evidence "summary_artifact");
                ("connections", dget evidence "connections"); ("room_assignments", dget evidence "room_assignments");
                ("final_standings", dget evidence "final_standings"); ("log_truth", dget evidence "log_truth")].

Definition derive_runtime_consumer_checkpoint_root (summary evidence : dict) : res string :=
  let? mtt_id := dgetitem summary "mtt_id" in
  hash_payload [("tournament_id", mtt_id); ("captured_at", dget evidence "captured_at");
                ("connections", dget evidence "connections"); ("room_assignments", dget evidence "room_assignments");
                ("log_truth", dget evidence "log_truth")].

(** ** Who is ranked *)

Record Eligibility := {
  el_entry_state : string;
  el_eligibility_state : string;
  el_exclusion_reason : option string;
  el_rank_state : string;
  el_evidence_state : string
}.

Definition excluded (entry_state reason : string) : Eligibility :=
  {| el_entry_state := entry_state; el_eligibility_state := "excluded"; el_exclusion_reason := Some reason;
     el_rank_state := reason; el_evidence_state := "pending" |}.

(** [s or dflt] *)
Definition or_text (s dflt : string) : string := if String.eqb s "" then dflt else s.

Definition joined_late (joined_at started_at : option Z) (late_join_grace_seconds : Z) : bool :=
  match joined_at, started_at with
  | Some joined_at, Some started_at => started_at + usec * Z.max 0 late_join_grace_seconds <? joined_at
  | _, _ => false
  end.

Definition evaluate_runtime_entry (row : dict) (started_at : option Z) (late_join_grace_seconds : Z) : res Eligibility :=
  let? state := py_str (por (por (dget row "entry_state") (dget row "status")) (VStr "completed")) in
  let entry_state := str_lower (str_strip state) in
  if truthy (dget row "waiting_or_no_show") || existsb (String.eqb entry_state) WAITING_ENTRY_STATES
  then Ok (excluded (or_text entry_state "waiting") "waiting_or_no_show")
  else if String.eqb entry_state "cancelled" then Ok (excluded entry_state "cancelled")
  else if String.eqb entry_state "failed_to_start" then Ok (excluded entry_state "failed_to_start")
  else
    let? joined_at := parse_iso_datetime (dget row "joined_at") in
    if joined_late joined_at started_at late_join_grace_seconds
    then Ok (excluded (or_text entry_state "completed") "late_join_after_grace_window")
    else Ok {| el_entry_state := or_text entry_state "completed"; el_eligibility_state := "eligible";
               el_exclusion_reason := None; el_rank_state := "ranked"; el_evidence_state := "complete" |}.

(** ** The results *)

(** [int(row.get("payout_rank") or row.get("display_rank") or dflt)] *)
Definition payout_rank_of (row : dict) (dflt : Z) : res Z :=
  py_int (por (por (dget row "payout_rank") (dget row "display_rank")) (VInt dflt)).

Definition standing_key (row : dict) : res (list value) :=
  let? rank := payout_rank_of row 0 in
  let? member_id := str_or_empty (dget row "member_id") in
  Ok [VInt rank; VStr member_id].

(** [round((field_size - payout_rank) / max(1, field_size - 1), 6)] *)
Definition finish_percentile (field_size payout_rank : Z) : res value :=
  let? x := int_truediv (field_size - payout_rank) (Z.max 1 (field_size - 1)) in py_round 6 (VFloat x).

(** [max(1, int(v or dflt))] *)
Definition at_least_one (v dflt : value) : res Z := let? n := py_int (por v dflt) in Ok (Z.max 1 n).

Section Runtime.
Context {W : Type} (eth_keys : PrivateKeys) (ripemd160 : list Z -> res (list Z)) (urandom : nat -> Z -> list Z).

Definition deterministic_wallet (tournament_id source_user_id : string) : st (SetupState W) dict :=
  let seed := tournament_id +:+ ":" +:+ source_user_id in
  let private_key_hex := sha256_hex seed in
  generate_wallet eth_keys ripemd160 urandom (Some private_key_hex).

Definition result_row (row : dict) (mtt_id source_user_id : string) (address : value) (field_size : Z) (started_at : Z)
  (late_join_grace_seconds : Z) (hand_history_evidence_root consumer_checkpoint_root : string) : res dict :=
  let? payout_rank := payout_rank_of row field_size in
  let? display_rank := py_int (por (dget row "display_rank") (VInt payout_rank)) in
  let? source_rank := py_int (por (dget row "display_rank") (VInt payout_rank)) in
  let? finish_percentile := finish_percentile field_size payout_rank in
  let? eligibility := evaluate_runtime_entry row (Some started_at) late_join_grace_seconds in
  let? entry_number := at_least_one (dget row "entry_number") (VInt 1) in
  Ok [("miner_id", address);
      ("source_user_id", VStr source_user_id);
      ("canonical_entry_id", por (dget row "member_id") (VStr (source_user_id +:+ ":1")));
      ("final_rank", VInt payout_rank);
      ("display_rank", VInt display_rank);
      ("source_rank", VInt source_rank);
      ("payout_rank", VInt payout_rank);
      ("entry_number", VInt entry_number);
      ("reentry_count", VInt entry_number);
      ("entry_state", VStr (el_entry_state eligibility));
      ("waiting_or_no_show", VBool (bool_decide (el_exclusion_reason eligibility = Some "waiting_or_no_show")));
      ("joined_at", dget row "joined_at");
      ("rank_state", VStr (el_rank_state eligibility));
      ("eligibility_state", VStr (el_eligibility_state eligibility));
      ("exclusion_reason", vopt_str (el_exclusion_reason eligibility));
      ("economic_unit_id", VStr ("eu:poker-mtt:" +:+ mtt_id +:+ ":" +:+ source_user_id));
      ("reward_owner_address", address);
      ("reward_identity_state", VStr "bound");
      ("tournament_result_score", finish_percentile);
      ("hidden_eval_score", VFloat fzero);
      ("consistency_input_score", VFloat fzero);
      ("evaluation_state", VStr "final");
      ("evidence_root", VStr hand_history_evidence_root);
      ("hand_history_evidence_root", VStr hand_history_evidence_root);
      ("consumer_checkpoint_root", VStr consumer_checkpoint_root);
      ("evidence_state", VStr (el_evidence_state eligibility));
      ("status", por (dget row "status") (VStr (el_entry_state eligibility)));
      ("player_name", dget row "player_name");
      ("room_id", dget row "room_id");
      ("start_chip", dget row "start_chip");
      ("end_chip", dget row "end_chip");
      ("chip_delta", dget row "chip_delta");
      ("died_time", dget row "died_time");
      ("stand_up_status", dget row "stand_up_status");
      ("zset_score", dget row "zset_score");
      ("snapshot_found", dget_or row "snapshot_found" (VBool true))].

(** One turn of the loop: the bindings of the wallets, and the rows so far. *)
Definition add_result (mtt_id : string) (field_size started_at late_join_grace_seconds : Z)
  (hand_history_evidence_root consumer_checkpoint_root : string) (acc : list (string * dict) * list dict) (row : dict)
  : st (SetupState W) (list (string * dict) * list dict) :=
  let '(wallet_bindings, result_rows) := acc in
  let*? user_id := dgetitem row "user_id" in
  let*? source_user_id := py_str user_id in
  let* wallet := deterministic_wallet mtt_id source_user_id in
  let wallet_bindings := aset source_user_id wallet wallet_bindings in
  let*? address := dgetitem wallet "address" in
  let*? result := result_row row mtt_id source_user_id address field_size started_at late_join_grace_seconds
                    hand_history_evidence_root consumer_checkpoint_root in
  sret (wallet_bindings, result_rows ++ [result]).

Definition standings_of (summary : dict) : res (list dict) :=
  let? standings := dgetitem summary "standings" in
  let? rows := match standings with VDict d => dgetitem d "standings" | _ => Err TypeError end in
  let? rows := as_list rows in
  mapR as_dict rows.

Definition build_apply_payload (summary evidence : dict) (locked_at started_minutes_before_lock late_join_grace_seconds : Z)
  (runtime_source final_ranking_source policy_bundle_version : string)
  : st (SetupState W) (dict * list (string * dict) * dict) :=
  let*? standings := standings_of summary in
  let*? standings := py_sort tuple_lt standing_key false standings in
  let field_size := Z.of_nat (length standings) in
  let started_at := locked_at - 60 * usec * started_minutes_before_lock in
  let*? hand_history_evidence_root := derive_runtime_hand_history_root summary evidence in
  let*? consumer_checkpoint_root := derive_runtime_consumer_checkpoint_root summary evidence in
  let*? mtt_id := dgetitem summary "mtt_id" in
  let*? tournament_id := py_str mtt_id in
  let* (wallet_bindings, result_rows) :=
    foldS (add_result tournament_id field_size started_at late_join_grace_seconds hand_history_evidence_root
             consumer_checkpoint_root) standings ([], []) in
  let*? started_at_iso := isoformat_z started_at in
  let payload : dict :=
    [("tournament_id", mtt_id);
     ("rated_or_practice", VStr "rated");
     ("human_only", VBool true);
     ("field_size", VInt field_size);
     ("runtime_source", VStr runtime_source);
     ("final_ranking_source", VStr final_ranking_source);
     ("started_at", VStr started_at_iso);
     ("late_join_grace_seconds", VInt late_join_grace_seconds);
     ("policy_bundle_version", VStr policy_bundle_version);
     ("results", VList (map VDict result_rows))] in
  let*? locked_at_iso := isoformat_z locked_at in
  let replay_notes : dict :=
    [("hand_history_evidence_root", VStr hand_history_evidence_root);
     ("consumer_checkpoint_root", VStr consumer_checkpoint_root);
     ("joined_at_strategy", VStr "omitted; donor runtime sample does not expose canonical entrant join timestamps unless explicitly present in the replay fixture");
     ("scoring_strategy", VStr "finish_percentile_only; hidden_eval_score and consistency_input_score are held at 0.0 for donor-safe Phase 3 release proof");
     ("started_at", VStr started_at_iso);
     ("locked_at", VStr locked_at_iso)] in
  sret (payload, wallet_bindings, replay_notes).
End Runtime.

(** ** The rows of the final ranking *)

(** [{k: row[k] for k in ...}] *)
Definition subrow (ks : list string) (row : dict) : res value :=
  let? l := mapR (fun k => let? v := dgetitem row k in Ok (k, v)) ks in Ok (VDict l).

Definition results_of (apply_payload : dict) : res (list dict) :=
  let? results := dgetitem apply_payload "results" in
  let? rows := as_list results in
  mapR as_dict rows.

(** [float(v or 0.0)] *)
Definition float_or_zero (v : value) : res value := let? x := py_float (por v (VFloat fzero)) in Ok (VFloat x).

Definition result_payout_rank (result : dict) : res Z :=
  if truthy (dget result "payout_rank") then py_int (dget result "payout_rank")
  else let? final_rank := dgetitem result "final_rank" in py_int final_rank.

Definition projection_row (tournament_id policy_bundle_version : value) (standing_snapshot_id standing_snapshot_hash locked_at_iso : string)
  (result : dict) : res dict :=
  let? payout_rank := result_payout_rank result in
  let? rank_state := py_str (por (dget result "rank_state") (VStr "ranked")) in
  let ranked := String.eqb rank_state "ranked" in
  let? tournament := py_str tournament_id in
  let? miner_id := dgetitem result "miner_id" in
  let? miner := py_str miner_id in
  let? source_user_id := dgetitem result "source_user_id" in
  let? economic_unit_id := dgetitem result "economic_unit_id" in
  let? member_id := dgetitem result "canonical_entry_id" in
  let? entry_number := at_least_one (dget result "entry_number") (VInt 1) in
  let? reentry_count := at_least_one (por (dget result "reentry_count") (dget result "entry_number")) (VInt 1) in
  let? display_rank := py_int (por (dget result "display_rank") (VInt payout_rank)) in
  let? chip := float_or_zero (dget result "end_chip") in
  let? chip_delta := float_or_zero (dget result "chip_delta") in
  let? start_chip := float_or_zero (dget result "start_chip") in
  let? source_rank := if ranked then let? s := py_str (dget result "source_rank") in Ok (VStr s) else Ok VNone in
  let? zset_score := if is_none (dget result "zset_score") then Ok VNone else float_or_zero (dget result "zset_score") in
  let when_ranked (v : value) := if ranked then v else VNone in
  Ok [("id", VStr ("poker_mtt_final_ranking:" +:+ tournament +:+ ":" +:+ miner));
      ("tournament_id", tournament_id);
      ("source_mtt_id", tournament_id);
      ("source_user_id", source_user_id);
      ("miner_address", miner_id);
      ("economic_unit_id", economic_unit_id);
      ("member_id", member_id);
      ("entry_number", VInt entry_number);
      ("reentry_count", VInt reentry_count);
      ("rank", when_ranked (VInt payout_rank));
      ("display_rank", VInt display_rank);
      ("rank_state", VStr rank_state);
      ("rank_basis", VStr "donor_runtime_replay");
      ("rank_tiebreaker", por (dget result "exclusion_reason") (VStr "donor_runtime_replay"));
      ("chip", chip);
      ("chip_delta", chip_delta);
      ("died_time", dget result "died_time");
      ("waiting_or_no_show", VBool (truthy (dget result "waiting_or_no_show")));
      ("bounty", VFloat fzero);
      ("defeat_num", VInt 0);
      ("field_size_policy", VStr "exclude_waiting_no_show_from_reward_field_size");
      ("standing_snapshot_id", VStr standing_snapshot_id);
      ("standing_snapshot_hash", VStr standing_snapshot_hash);
      ("evidence_root", dget result "evidence_root");
      ("evidence_state", por (dget result "evidence_state") (VStr "complete"));
      ("policy_bundle_version", policy_bundle_version);
      ("snapshot_found", VBool (truthy (dget_or result "snapshot_found" (VBool true))));
      ("status", por (por (dget result "status") (dget result "entry_state")) (VStr "completed"));
      ("player_name", por (dget result "player_name") source_user_id);
      ("room_id", dget result "room_id");
      ("start_chip", start_chip);
      ("stand_up_status", dget result "stand_up_status");
      ("source_rank", source_rank);
      ("source_rank_numeric", VBool ranked);
      ("zset_score", zset_score);
      ("locked_at", when_ranked (VStr locked_at_iso));
      ("anchorable_at", when_ranked (VStr locked_at_iso));
      ("created_at", VStr locked_at_iso);
      ("updated_at", VStr locked_at_iso)].

Definition build_projection_rows (apply_payload : dict) (locked_at : Z) : res (list dict * string) :=
  let? tournament_id := dgetitem apply_payload "tournament_id" in
  let? locked_at_iso := isoformat_z locked_at in
  let? results := results_of apply_payload in
  let? hashed := mapR (subrow ["canonical_entry_id"; "payout_rank"; "rank_state"; "source_user_id"]) results in
  let? standing_snapshot_hash := hash_payload [("tournament_id", tournament_id); ("rows", VList hashed)] in
  let? tournament := py_str tournament_id in
  let standing_snapshot_id :=
    "poker_mtt_standing_snapshot:" +:+ tournament +:+ ":" +:+ str_take 12 (str_removeprefix "sha256:" standing_snapshot_hash) in
  let? policy_bundle_version := match results with [] => Ok VNone | _ => dgetitem apply_payload "policy_bundle_version" end in
  let? rows := mapR (projection_row tournament_id policy_bundle_version standing_snapshot_id standing_snapshot_hash locked_at_iso)
                    results in
  let? ranked := mapR (subrow ["id"; "member_id"; "rank"; "display_rank"; "rank_state"; "evidence_root"]) rows in
  let? final_ranking_root :=
    hash_payload [("tournament_id", tournament_id); ("standing_snapshot_id", VStr standing_snapshot_id); ("rows", VList ranked)] in
  Ok (rows, final_ranking_root).

(** The rows that are ranked with complete evidence are scored. *)
Definition build_hidden_eval_entries (projection_rows : list dict) (tournament_id policy_bundle_version : string)
  : res (list dict) :=
  mapR (fun row =>
          let? miner_address := dgetitem row "miner_address" in
          let? final_ranking_id := dgetitem row "id" in
          let? evidence_root := dgetitem row "evidence_root" in
          Ok [("miner_address", miner_address);
              ("final_ranking_id", final_ranking_id);
              ("hidden_eval_score", VFloat fzero);
              ("score_components_json", VDict [("runtime_projection", VBool true)]);
              ("evidence_root", evidence_root);
              ("seed_assignment_id", VStr ("hidden-seed:" +:+ tournament_id));
              ("baseline_sample_id", VNone);
              ("visibility_state", VStr "service_internal");
              ("policy_bundle_version", VStr policy_bundle_version)])
       (List.filter (fun row => py_eq_str (dget row "rank_state") "ranked" && py_eq_str (dget row "evidence_state") "complete")
                    projection_rows).
