(* ===== verification/RuntimeFacts.v ===== *)
(** * Which projections the service accepts

    The rows that the scripts project of their results, and the check of their
    ranks in the schema of the service. *)
From Stdlib Require Import ZArith Lia Ascii String Permutation.
From stdpp Require Import base list strings.
From S2P Require Import Prelude PyText PyFloat PyTime PyValue Sha256 Canonical Repository Tournaments TournamentFacts.
From S2P Require Import Schemas ProjectionFacts RuntimeProjection.
Open Scope Z_scope.

(** A result that is ranked: [str(result.get("rank_state") or "ranked") == "ranked"]. *)
Definition takes_rank (result : dict) : bool :=
  match py_str (por (dget result "rank_state") (VStr "ranked")) with Ok s => String.eqb s "ranked" | Err _ => false end.

Definition ranked_payouts (results : list dict) : res (list Z) :=
  mapR result_payout_rank (List.filter takes_rank results).

(** ** Lemmas: the rank of a projected row *)

Lemma projection_row_rank tournament policy snapshot_id snapshot_hash locked result row :
  projection_row tournament policy snapshot_id snapshot_hash locked result = Ok row ->
  exists n s, result_payout_rank result = Ok n /\ dget row "rank_state" = VStr s /\
    is_ranked row = takes_rank result /\ dget row "rank" = if takes_rank result then VInt n else VNone.
Proof.
  unfold projection_row. intros H. apply rbind_ok in H as (n & Hn & H). apply rbind_ok in H as (s & Hs & H). cbv zeta in H.
  repeat (apply rbind_ok in H as (? & _ & H)). injection H as <-. exists n, s. unfold is_ranked, takes_rank. rewrite Hs.
  split_and!; done.
Qed.

Lemma projected_ranks tournament policy snapshot_id snapshot_hash locked results rows payouts :
  mapR (projection_row tournament policy snapshot_id snapshot_hash locked) results = Ok rows ->
  ranked_payouts results = Ok payouts -> ranks_given rows payouts.
Proof.
  intros H%mapR_ok. revert payouts. unfold ranked_payouts, ranks_given.
  induction H as [|result row results rows Hrow _ IH]; intros payouts Hp; cbn [List.filter] in *; [by split|].
  apply projection_row_rank in Hrow as (n & s & Hn & _ & Hr & Hrank). rewrite Hr.
  destruct (takes_rank result) eqn:E.
  - cbn [mapR] in Hp. rewrite Hn in Hp. cbn [rbind] in Hp. apply rbind_ok in Hp as (ns & Hns & Hp). injection Hp as <-.
    destruct (IH ns Hns) as [Hnone Hm]. split.
    + intros q [<-|Hq] Hq'; [congruence|auto].
    + cbn [mapR]. unfold rank_of at 1. rewrite Hrank. cbn [py_int rbind]. by rewrite Hm.
  - destruct (IH payouts Hp) as [Hnone Hm]. split; [|done]. intros q [<-|Hq] Hq'; [done|auto].
Qed.

Lemma projected_fields tournament policy snapshot_id snapshot_hash locked results rows payouts :
  mapR (projection_row tournament policy snapshot_id snapshot_hash locked) results = Ok rows ->
  ranked_payouts results = Ok payouts -> Forall (fun n => 1 <= n) payouts ->
  forallb PokerMTTFinalRankingRow_fields rows = true.
Proof.
  intros H%mapR_ok. revert payouts. unfold ranked_payouts.
  induction H as [|result row results rows Hrow _ IH]; intros payouts Hp Hpos; cbn [List.filter] in *; [done|].
  apply projection_row_rank in Hrow as (n & s & Hn & Hs & _ & Hrank). cbn [forallb].
  unfold PokerMTTFinalRankingRow_fields at 1. rewrite Hrank, Hs. destruct (takes_rank result).
  - cbn [mapR] in Hp. rewrite Hn in Hp. cbn [rbind] in Hp. apply rbind_ok in Hp as (ns & Hns & Hp). injection Hp as <-.
    apply Forall_cons in Hpos as [H1 Hpos]. rewrite (proj2 (Z.leb_le _ _) H1). eauto.
  - eauto.
Qed.

(** ** Properties *)

(** C19: The service accepts the rows that are projected of the results of a tournament
    exactly when the payout ranks of the ranked results are 1, 2, ..., k in some
    order: results that share a rank, or leave one out, are refused, and
    results that are excluded do not count. *)
Theorem projection_accepted_iff_contiguous apply_payload locked_at results payouts rows root request :
  results_of apply_payload = Ok results -> ranked_payouts results = Ok payouts -> Forall (fun n => 1 <= n) payouts ->
  build_projection_rows apply_payload locked_at = Ok (rows, root) ->
  pr_rows request = rows -> Z.of_nat (length payouts) <= pr_field_size request ->
  validate_payout_ranks request = Ok tt <-> Permutation payouts (range 1 (Z.of_nat (length payouts) + 1)).
Proof.
  intros Hres Hpay Hpos Hbuild <- Hsize. unfold build_projection_rows in Hbuild.
  apply rbind_ok in Hbuild as (tournament & _ & H). apply rbind_ok in H as (locked & _ & H). rewrite Hres in H. cbn [rbind] in H.
  apply rbind_ok in H as (hashed & _ & H). apply rbind_ok in H as (snapshot_hash & _ & H).
  apply rbind_ok in H as (text & _ & H). cbv zeta in H. apply rbind_ok in H as (policy & _ & H).
  apply rbind_ok in H as (rows & Hrows & H). apply rbind_ok in H as (ranked & _ & H). apply rbind_ok in H as (r & _ & H).
  injection H as Hr _. rewrite Hr in Hrows.
  pose proof (projected_ranks _ _ _ _ _ _ _ _ Hrows Hpay) as Hgiven.
  rewrite schema_ranks by exact (projected_fields _ _ _ _ _ _ _ _ Hrows Hpay Hpos). split.
  - intros (ranks & [_ Hm] & _ & Hp). destruct Hgiven as [_ Hm']. rewrite Hm in Hm'. by injection Hm' as <-.
  - intros Hp. by exists payouts.
Qed.

(** Two results with the ranks 1 and 2, and one that was excluded. *)
Definition demo_result (miner : string) (rank : Z) (state : string) : value :=
  VDict [("miner_id", VStr miner); ("source_user_id", VStr miner); ("canonical_entry_id", VStr (miner +:+ ":1"));
         ("final_rank", VInt rank); ("display_rank", VInt rank); ("payout_rank", VInt rank); ("rank_state", VStr state);
         ("economic_unit_id", VStr ("eu:" +:+ miner)); ("evidence_root", VStr "sha256:e"); ("evidence_state", VStr "complete")].
Definition demo_results (first second : Z) : dict :=
  [("tournament_id", VStr "t"); ("policy_bundle_version", VStr "p");
   ("results", VList [demo_result "a" second "ranked"; demo_result "b" first "ranked"; demo_result "c" 9 "cancelled"])].
Definition demo_rows : list dict * string :=
  match build_projection_rows (demo_results 1 2) 0 with Ok r => r | Err _ => ([], "") end.
Definition demo_projection : ApplyPokerMTTFinalRankingProjectionRequest :=
  {| pr_schema_version := ""; pr_projection_id := ""; pr_tournament_id := "t"; pr_source_mtt_id := "t";
     pr_rated_or_practice := "rated"; pr_human_only := true; pr_field_size := 3; pr_policy_bundle_version := "p";
     pr_standing_snapshot_id := ""; pr_standing_snapshot_hash := ""; pr_final_ranking_root := ""; pr_locked_at := 0;
     pr_rows := demo_rows.1 |}.

Lemma projection_accepted_iff_contiguous_witness :
  build_projection_rows (demo_results 1 2) 0 = Ok demo_rows /\
  (validate_payout_ranks demo_projection = Ok tt <-> Permutation [2; 1] (range 1 3)).
Proof.
  assert (H : build_projection_rows (demo_results 1 2) 0 = Ok demo_rows) by (vm_compute; reflexivity).
  assert (H' : build_projection_rows (demo_results 1 2) 0 = Ok (demo_rows.1, demo_rows.2))
    by (rewrite H; by destruct demo_rows).
  exact (conj H (projection_accepted_iff_contiguous (demo_results 1 2) 0 _ [2; 1] demo_rows.1 demo_rows.2 demo_projection
    eq_refl eq_refl ltac:(repeat (apply List.Forall_cons || apply List.Forall_nil); lia) H' eq_refl ltac:(simpl; lia))).
Defined.
